(* ===== verification/_CoqProject ===== *)
-Q . S2P
Prelude.v
Errors.v
StateM.v
GoLib.v
SqlTypes.v
Token.v
Ast.v
YyTables.v
YyActions.v
YyParse.v
Grammar.v
YyCert.v
ParserFacts.v
ParserTheorems.v
RouteLists.v
GoTime.v
GoFmt.v
Charset.v
ErrTables.v
NumKey.v
Shard.v
Rule.v
Plan.v
Routing.v
InRewrite.v
RoutingTheorems.v
Router.v
ExecDB.v
RouterTheorems.v
ExecTheorems.v
Wire.v
GoHash.v
GoUtf8.v
GoNet.v
Fingerprint.v
FingerprintTheorems.v
Packet.v
Field.v
Order.v
Resultset.v
ResultsetSort.v
ResultBuild.v
SelectMerge.v
StmtArgs.v
ArgsTheorems.v
Session.v
Conn.v
ClientIO.v
WireFacts.v
WireTheorems.v
HandshakeTheorems.v
Handlers.v
Stmt.v
SessionFacts.v
SessionTheorems.v
ClientTheorems.v
SendTheorems.v
Demo.v
MergeTheorems.v
LimitTheorems.v
GroupTheorems.v
Balancer.v
Pool.v
Node.v
Server.v
ServerTheorems.v
ReloadTheorems.v
Admin.v
AdminTheorems.v
AdminDemo.v
Api.v
LogText.v
LogFile.v
Logger.v
LogFileTheorems.v
OwnerFacts.v
NoSchema.v
Serve.v
ServeTheorems.v
ServeDemo.v
