(* ===== verification/Prelude.v ===== *)
(** * kingshard: verified models of a MySQL sharding proxy

    kingshard accepts MySQL connections and spreads tables over several
    MySQL servers.  A statement is tokenized and parsed, its tables are
    looked up among the sharding rules, the planner works out which
    sub-tables it concerns, one statement per sub-table is printed and sent
    to the node that holds it, over connections taken from pools, and the
    results are merged.  This library models the program as executable
    definitions and proves what its parts promise.  Definitions keep the
    names of the Go code; a comment says so where they cannot.

    ** The parts

    - Ground: [Prelude] (outcomes of Go code as [res], loops, lists, maps),
      [Errors] ([core/errors], [mysql/error.go]), [StateM] (methods that
      change a state and may fail, with their weakest preconditions).
    - Go's standard library, as far as the program uses it: [GoLib]
      ([strconv], [strings], CRC-32, machine integers), [GoTime] (the
      calendar and [time.Parse]), [GoFmt] ([fmt.Sprintf] with the formats of
      MySQL's messages), [GoUtf8] (ranging over strings), [GoNet] (IP
      addresses and networks, as of Go 1.13), [GoHash]
      (SHA-1 and MD5), [Order] (comparison functions and [sort.Sort]).
    - SQL: [SqlTypes] ([sqltypes/sqltypes.go]), [Token]
      ([sqlparser/token.go]: the tokenizer with its whole state), [Ast]
      ([sqlparser/ast.go], [tracked_buffer.go], [analyzer.go]: one
      constructor per node, one printing function per [Format] method).
    - The parser ([sqlparser/sql.go], [sql.y]): [YyTables] (the tables that
      goyacc wrote), [YyActions] (the action of each production), [YyParse]
      (the loop that runs the tables, with its stack, its look-ahead and its
      recovery from errors, and [Parse]); [Grammar] (the productions of
      [sql.y]); [YyCert] (a certificate that the tables are an automaton for
      the grammar, checked by computation).
    - Fingerprints: [Fingerprint] ([mysql/sql_fingerprint.go]).
    - Routing: [RouteLists] (the sorted index lists of [planbuilder.go]),
      [NumKey] ([numkey.go]), [Shard] ([shard.go]), [Rule] (the rules of
      [router.go] and their configuration), [Plan] ([planbuilder.go]: the
      plan is a record that is passed along), [Router] ([router.go]: the
      lookup of rules and the statements of each node), [ExecDB]
      ([conn_preshard.go]: which statements need no plan).
    - Formats: [Wire] ([mysql/util.go]), [Packet] ([packetio.go]), [Field]
      ([field.go]), [Resultset] ([resultset.go]), [ResultsetSort]
      ([resultset_sort.go]), [ResultBuild] ([conn_resultset.go]),
      [StmtArgs] (the arguments of prepared statements, read and written),
      [Charset] ([charset.go]), [ErrTables] ([errcode.go], [errname.go],
      [state.go]).
    - Merging: [SelectMerge] ([conn_select.go] and the merging of
      [conn_query.go]).
    - A client's session: [Session] (its state, transactions, connections
      and what is sent on them), [Handlers] ([handleQuery] and what it
      calls), [Stmt] (the commands of the protocol and prepared statements:
      [dispatch] and [Run] of [conn.go], [conn_stmt.go]).
    - Both ends of a connection, byte for byte: [Conn]
      ([backend/backend_conn.go], [stmt.go]: the client of a MySQL server),
      [ClientIO] (the server that a client sees: handshake and responses).
    - Servers: [Balancer] ([backend/balancer.go]), [Pool]
      ([backend/db.go], as goroutines that interleave), [Node]
      ([backend/node.go], [parseNode] of [server.go]).
    - The proxy itself: [Server] ([server.go], [util.go], [counter.go]:
      settings in two slots, black lists, addresses, nodes, reading the
      configuration again), [Admin] ([conn_admin.go]), [Api] ([web/api.go]
      and the numbers that [monitor] exports); [NoSchema] (the commands of a
      session that was given no schema); [Serve] (the accept loop,
      [newClientConn], [onConn], [Run] of [conn.go] with its reloading of
      the configuration, and [UpdateConfig] part by part, as goroutines that
      interleave over the server and the schemas they share).
    - Logging: [LogText] ([core/golog/log.go]: the text of a line, and its way
      through [fmt.Sprintf]), [LogFile] ([handler.go], [filehandler.go]: log
      files and their rotation, over files that may fail), [Logger]
      ([log.go]: the goroutines that log, write and close, which interleave).
    - [Demo], [AdminDemo] and [ServeDemo] are a sample schema, a sample
      configuration and a client of the server on it, to which the theorems
      about sessions, about the server and about its histories apply, with
      runs that show what goes wrong.

    The parts meet where the code calls across packages: [Handlers] and
    [Stmt] parse with [YyParse.Parse], whose values are trees of [Ast] made
    of the tokens of [Token]; [Handlers] asks [ExecDB] first and hands the
    rest to [Router], which takes its rules from [Rule] and its plans from
    [Plan], whose values come from [Shard]; [Session] runs the statements of
    the plan, [SelectMerge] merges the answers, sorts with [ResultsetSort]
    and writes with [ResultBuild]; [Node] chooses slaves with [Balancer];
    [Admin.proxy_of] makes the [proxy] that [Handlers] works on out of the
    server's settings, and [Admin] and [Api] change the server with the
    operations of [Server], which refuse what [Fingerprint] recognizes.  A
    session counts in whole answers; [ClientIO] and [Conn] put answers and
    commands on the wire.  [Serve] joins them: a client that the server's
    list of addresses lets in shakes hands with [ClientIO], gets the schema
    of its user from [Server], and has its packets served by [Stmt], while
    [Admin] and [UpdateConfig] change the server beside it.  Its sessions
    keep pointers to schemas ([schema_heap] of [Shared]), as the code does:
    who uses the default rule of a schema does so for all its sessions, and
    a schema that has been replaced stays with those who have it.

    ** The theorems

    - No row is missed.  [RoutingTheorems]: the planner is sound for hash,
      range and date rules, proved once in [Routing] against the class
      [AtomRouting] of which the kinds of rules are instances; the rewritten
      IN lists accept the same rows in each table ([InRewrite]).
      [RouterTheorems]: the rows of an INSERT are partitioned, each routed
      table gets one statement, at the node of the rule.  [ExecTheorems]:
      the statements that skip the planner are those on tables without a
      rule.  [Rule], [Shard] and [NumKey]: rules built from the
      configuration are well formed, key ranges and date ranges are what
      they say.  [RouteLists]: the index lists are sets.  Soundness is
      stated for integer keys and integer literals on hash and range rules
      and for dates of configured tables on date rules; [bounds_lose_rows],
      [date_negation_loses_rows] and [date_in_rewrite_wrong] show what
      happens beyond.
    - Text is understood.  [ParserTheorems]: for every text the parser stops,
      does not panic and answers a statement that prints or an error; what
      it accepts the grammar of [sql.y] derives, from the whole text, unless
      it is the definition of a table or a view, whose rest is skipped.
      [ParserFacts] gives every
      grammar symbol the type of its value and shows that all actions keep to
      it.  [Token]: printed string literals are read back and the tokenizer
      stops on every input.  [Ast]: every tree prints, identifiers are quoted
      so that they are read back, with the exception that the theorem
      states.  [FingerprintTheorems]: where the scanner stays inside its
      buffer, and where it does not.
    - Merging is right.  [MergeTheorems]: the aggregates of merged results
      are those of the union of the rows.  [GroupTheorems]: the keys of
      groups tell them apart, as long as no text has the separator in it, and
      merging row by row computes the functions over whole groups.  [LimitTheorems]: a
      distributed ORDER BY ... LIMIT gives the rows of the whole table, with
      the limit the router sends to each table.
    - Sessions keep their connections apart.  [SessionFacts] has what each
      step leaves alone; [SessionTheorems] and [ClientTheorems]: outside a
      transaction nothing is held, inside one there is one open connection
      per node, commit and rollback reach all of them, and what is taken is
      given back.  [SendTheorems]: a planned statement sends the statements
      of its plan, to the nodes of the plan, and nothing else.
    - Bytes survive.  [Packet], [Wire], [Field], [ResultBuild], [ArgsTheorems]:
      what is written is read back; reading stops and stays in bounds.
      [WireFacts], [WireTheorems], [HandshakeTheorems]: [ClientIO] and [Conn]
      connected to each other understand every command, answer and
      handshake.  [ResultsetSort]: parsed columns hold values of one type
      each, so they can be compared, and sorting orders them.
    - Connections are not shared.  [Pool]: over every interleaving no
      connection has two users and no place is lost while the pool is open;
      the pool refines a counting semaphore; a caller that finds a place free
      and is not interrupted gets a connection or an error in a bounded
      number of steps.  [Balancer]: in each
      round every slave has its turns.  [Node]: administration keeps the
      queue and the slaves in step, and what a check does in every case.
    - Settings do what they say.  [ServerTheorems]: addresses and black
      lists, changed, applied, saved and read again.  [ReloadTheorems]: the
      configuration is read again as a whole or not at all.
      [AdminTheorems]: a command of the administrator and what other
      sessions see of it.
    - Clients come and go.  [OwnerFacts] and [NoSchema]: no command changes
      the user or the rules of its session.  [ServeTheorems], over every
      history of the server, its clients and the configurations that are
      read again: a command is run only for a client that was let in and has
      shown its password, as the user it logged in as; while no configuration
      is half in use, a connection goes on with the rules in force, unless it
      missed a reload; the counter of clients counts those who have not left,
      connections are numbered in order, and the steps of each are bounded.
      That every client leaves is not claimed: a command may wait for a place
      in a pool, or for the logger, for ever ([pool_refines_semaphore] says
      when [GetConn] waits, [Logger.logging_after_Close_blocks] shows that
      the logger can).
    - Logs are complete.  [LogText]: a line is what was logged.  [Logger]:
      over every interleaving lines come out whole, once and in order, and
      closing the logger writes what waits; it is proved for any [Handler].
      [LogFileTheorems]: rotated files hold the newest lines, within their
      bounds, and so does a logger that writes to them.
    - Where the code does less than it means to, a theorem or a run exhibits
      it: the nodes a rule does not start with, the negation of dates, the
      IN list of another condition, closing a pool that is in use, a
      transaction over two nodes, fingerprints with brackets, a reload that
      a connection misses for good ([ServeDemo.reload_missed]), a client that
      logs in between two parts of a configuration and has no schema
      ([ServeDemo.no_schema_in_between]), groups and statements on the black
      list that the separators and the quotes in them confuse.

    ** Bounds and fuel

    Machine integers are [Z] wrapped at their width where the code computes
    ([i64], [u64]); a hypothesis bounds them where a theorem needs that they
    do not overflow.  Loops of the tokenizer run with the bytes left as
    fuel, of packets and of [until_eof] with the bytes of the stream, of the
    greatest common divisor with the smallest weight, of an IPv6 address
    with its eight groups, of the parser with [yy_fuel], forty steps for a
    byte and a hundred more: the certificate of [YyCert] ranks the states so
    that a reduction which reads nothing lowers a measure.  Each has a
    theorem that its fuel is enough, so that no theorem is about runs that
    end by lack of fuel.  Allocation never fails.

    ** Parameters

    What the code gets from elsewhere is an argument: [Timezone] (the local
    time zone), [MapOrder] and [StrMapOrder] (the order of Go's map
    iteration), [GoSort] ([sort.Sort], unstable: any permutation that is
    sorted), [GoFloat] and [FloatBits] (texts and bits of floats), [Writer]
    (an [io.Writer]), [Rand] (random numbers), [ErrorText] (the text of an
    error of a library), [Outside] and [Stats] (what the operating system
    and the pools answer the server), the files and sockets that [Server]
    opens, and the answers of servers and clocks in [Pool], [Node] and
    [Session].  Theorems name what they need of them, as that a rule lists
    no node twice ([router_ok]) or that a time zone keeps dates in order.

    ** Not modelled

    YAML files and the start of the program ([config.go], [cmd/kingshard]);
    the routes and the authentication of the HTTP interface and the client
    of Prometheus, which are libraries'; the bind variables, JSON
    and binary encodings of [sqltypes], which nothing calls; [Pstack];
    debugging output, [yyStatenames] and [yyErrorMessages], which are empty.
    Administrators are taken one at a time: the two slots of a setting are a
    race when two change it at once.  In [Serve] a command has two steps,
    its begin and its return, which need not come; its effects are put at
    its return.  What a command takes from the nodes (the next slave in the
    rotation, places and connections of the pools, the answers of the
    servers) comes from [Outside] there: [Balancer], [Pool] and [Node] model
    it, one at a time, and [command_effect] is what changes in the server's
    own record.  The connections of a transaction ([txConns]) are keyed by
    the names of nodes, in the code by the nodes: this differs only when the
    configuration is read again inside a transaction, after which the code
    would take a second connection for a node that has a new object of the
    same name.

    Case mapping and [strings.TrimSpace] are those of ASCII, also for the
    words of a fingerprint, where Go's mapping changes letters beyond ASCII,
    and with them the text of a fingerprint, but not the places of the
    buffer that the bounds are about. Zero-copy conversions between strings
    and byte slices are the identity: nothing modelled changes a slice after
    it was converted. A node of a syntax tree has no nil child: the actions
    of the parser fail where they would make one ([NilValue]), and
    [Parse_answers] says that they never do. *)
From stdpp Require Export base list gmap strings sorting.
From Stdlib Require Export ZArith Lia.

#[global] Set Default Proof Using "Type".

Open Scope Z_scope.

(** ** Outcomes of Go code

    A Go function that returns [(T, error)] and may panic is modelled by
    a value of [res error T]: a result, an error value, or a panic with
    the value handed to [panic]. *)
Inductive panic : Type :=
| PRuntime (msg : string)        (* index out of range, nil dereference, ... *)
| PKeyError (msg : string)       (* panic(NewKeyError(...)) *)
| PParserError (msg : string)    (* panic(sqlparser.NewParserError(...)) *)
| PString (msg : string).        (* panic("...") *)

Inductive res (E A : Type) : Type :=
| Ok (a : A)
| Err (e : E)
| Panic (p : panic).
Arguments Ok {E A} a.
Arguments Err {E A} e.
Arguments Panic {E A} p.

Definition rbind {E A B} (m : res E A) (f : A -> res E B) : res E B :=
  match m with
  | Ok a => f a
  | Err e => Err e
  | Panic p => Panic p
  end.

Definition is_ok {E A} (m : res E A) : bool :=
  match m with Ok _ => true | _ => false end.

Declare Scope go_scope.
Delimit Scope go_scope with go.
Notation "'let*' x := m 'in' k" := (rbind m (fun x => k))
  (at level 10, x pattern, m at level 100, k at level 200) : go_scope.
Open Scope go_scope.

Lemma rbind_Ok_inv {E A B} (m : res E A) (f : A -> res E B) b :
  rbind m f = Ok b -> exists a, m = Ok a /\ f a = Ok b.
Proof. destruct m; simpl; [eauto | discriminate..]. Qed.

(** Inverts every successful bind among the hypotheses. *)
Ltac inv_bind :=
  repeat match goal with
  | H : rbind ?m _ = Ok _ |- _ =>
      let a := fresh "a" in let Ha := fresh "Hm" in
      apply rbind_Ok_inv in H as (a & Ha & H)
  | H : Ok _ = Ok _ |- _ => injection H as H; subst
  | H : Err _ = Ok _ |- _ => discriminate H
  | H : Panic _ = Ok _ |- _ => discriminate H
  end.

(** Case split on the condition of the first [if] of the goal. *)
Tactic Notation "case_if" "as" ident(H) :=
  lazymatch goal with |- context [if ?b then _ else _] => destruct b eqn:H end.
Ltac case_if := let H := fresh "Hif" in case_if as H.
Ltac case_if_in H :=
  lazymatch type of H with
  | context [if ?b then _ else _] => let Hb := fresh "Hif" in destruct b eqn:Hb
  end.

(** Runs [f] on every element of a list, left to right, stopping at the
    first error or panic: a Go [for range] loop that returns early. *)
Fixpoint rmap {E A B} (f : A -> res E B) (l : list A) : res E (list B) :=
  match l with
  | [] => Ok []
  | x :: l => let* y := f x in let* ys := rmap f l in Ok (y :: ys)
  end.

Fixpoint rfold {E A S} (f : S -> A -> res E S) (s : S) (l : list A) : res E S :=
  match l with
  | [] => Ok s
  | x :: l => let* s' := f s x in rfold f s' l
  end.

Lemma rmap_Ok_Forall2 {E A B} (f : A -> res E B) l l' :
  rmap f l = Ok l' -> Forall2 (fun x y => f x = Ok y) l l'.
Proof.
  revert l'; induction l as [|x l IH]; simpl; intros l' H; inv_bind; eauto.
Qed.

Lemma rmap_Ok_length {E A B} (f : A -> res E B) l l' :
  rmap f l = Ok l' -> length l' = length l.
Proof. intros H%rmap_Ok_Forall2. symmetry. by eapply Forall2_length. Qed.

Lemma rfold_app {E A S} (f : S -> A -> res E S) l1 l2 s :
  rfold f s (l1 ++ l2) = (let* s' := rfold f s l1 in rfold f s' l2).
Proof.
  revert s; induction l1 as [|x l1 IH]; intros s; simpl; [done|].
  destruct (f s x); simpl; [apply IH | done..].
Qed.

(** ** Machine integers

    Go's [int] and [int64] are two's complement 64-bit integers, [uint64]
    and the narrower types are unsigned: a value is a [Z] in its range and
    every operation that can leave the range is wrapped explicitly. *)
Definition i64 (z : Z) : Z := (z + 2 ^ 63) mod 2 ^ 64 - 2 ^ 63.
Definition u64 (z : Z) : Z := z mod 2 ^ 64.
Definition u32 (z : Z) : Z := z mod 2 ^ 32.
Definition u16 (z : Z) : Z := z mod 2 ^ 16.
Definition u8 (z : Z) : Z := z mod 2 ^ 8.
Definition in_i64 (z : Z) : Prop := - 2 ^ 63 <= z < 2 ^ 63.
Definition in_u64 (z : Z) : Prop := 0 <= z < 2 ^ 64.
Definition MaxInt64 : Z := 2 ^ 63 - 1.
Definition MinInt64 : Z := - 2 ^ 63.

Lemma i64_id z : in_i64 z -> i64 z = z.
Proof. unfold in_i64, i64; intros; rewrite Z.mod_small; lia. Qed.
Lemma u64_id z : in_u64 z -> u64 z = z.
Proof. unfold in_u64, u64; intros; rewrite Z.mod_small; lia. Qed.
Lemma i64_range z : in_i64 (i64 z).
Proof. unfold in_i64, i64; pose proof (Z.mod_pos_bound (z + 2 ^ 63) (2 ^ 64)); lia. Qed.
Lemma u64_range z : in_u64 (u64 z).
Proof. unfold in_u64, u64; apply Z.mod_pos_bound; lia. Qed.

Create HintDb go.
#[export] Hint Resolve i64_range u64_range : go.
Create Rewrite HintDb gowrap.
#[export] Hint Rewrite i64_id u64_id using (unfold in_i64, in_u64; lia) : gowrap.

(** ** Slices

    [l[i]] panics out of range. *)
Definition index_range {A} (l : list A) (i : Z) : option A :=
  if i <? 0 then None else l !! Z.to_nat i.

Definition at_ {E A} (l : list A) (i : Z) : res E A :=
  match index_range l i with
  | Some a => Ok a
  | None => Panic (PRuntime "index out of range")
  end.

Lemma index_range_Some {A} (l : list A) i a :
  index_range l i = Some a <-> 0 <= i /\ l !! Z.to_nat i = Some a.
Proof. unfold index_range. destruct (Z.ltb_spec i 0); naive_solver lia. Qed.

Lemma at_Ok {E A} (l : list A) i a :
  @at_ E A l i = Ok a <-> 0 <= i /\ l !! Z.to_nat i = Some a.
Proof.
  unfold at_. rewrite <- index_range_Some.
  destruct (index_range l i); naive_solver.
Qed.

(** [l[a:b]] with [0 <= a <= b <= len(l)], panics otherwise. *)
Definition slice {E A} (l : list A) (a b : Z) : res E (list A) :=
  if (0 <=? a) && (a <=? b) && (b <=? Z.of_nat (length l))
  then Ok (take (Z.to_nat (b - a)) (drop (Z.to_nat a) l))
  else Panic (PRuntime "slice bounds out of range").

(** ** Lists *)

(** First binding of a key in an association list: Go composite literals
    of constant maps. *)
Fixpoint assoc_lookup {K V} `{EqDecision K} (k : K) (l : list (K * V)) : option V :=
  match l with
  | [] => None
  | (k', v) :: l => if decide (k = k') then Some v else assoc_lookup k l
  end.

Lemma Permutation_in_iff {A} (l1 l2 : list A) x :
  l1 ≡ₚ l2 -> x ∈ l1 <-> x ∈ l2.
Proof. intros H. by rewrite H. Qed.

Lemma StronglySorted_app_inv {A} (R : A -> A -> Prop) l1 l2 :
  StronglySorted R (l1 ++ l2) ->
  StronglySorted R l1 /\ StronglySorted R l2 /\ (forall x y, x ∈ l1 -> y ∈ l2 -> R x y).
Proof.
  induction l1 as [|a l1 IH]; simpl.
  - intros H. repeat split; [constructor | done | set_solver].
  - intros [H1 H2]%StronglySorted_inv.
    destruct (IH H1) as (?&?&?). rewrite Forall_app in H2. destruct H2 as [Hl1 Hl2].
    repeat split; [by constructor | done |].
    intros x y [->|Hx]%elem_of_cons Hy; [|eauto].
    rewrite Forall_forall in Hl2. by apply Hl2.
Qed.

Lemma StronglySorted_app_intro {A} (R : A -> A -> Prop) l1 l2 :
  StronglySorted R l1 -> StronglySorted R l2 ->
  (forall x y, x ∈ l1 -> y ∈ l2 -> R x y) ->
  StronglySorted R (l1 ++ l2).
Proof.
  induction l1 as [|a l1 IH]; simpl; intros H1 H2 H; [done|].
  apply StronglySorted_inv in H1 as [H1 Ha].
  constructor.
  - apply IH; [done..|]. intros x y Hx Hy. apply H; [by right | done].
  - apply Forall_app; split; [done|]. apply Forall_forall. intros y Hy.
    apply H; [by left | done].
Qed.

(** Strictly increasing lists of integers: the shape every table-index
    list of the router has. *)
Abbreviation incr := (StronglySorted Z.lt).

Lemma incr_NoDup l : incr l -> NoDup l.
Proof.
  induction 1 as [|a l Hl IH Ha]; constructor; [|done].
  intros Hin. rewrite Forall_forall in Ha. specialize (Ha a Hin). lia.
Qed.

Lemma incr_cons_inv a l : incr (a :: l) -> incr l /\ (forall x, x ∈ l -> a < x).
Proof.
  intros [H1 H2]%StronglySorted_inv. split; [done|].
  by apply Forall_forall.
Qed.

Lemma incr_seqZ a n : incr (seqZ a n).
Proof.
  unfold seqZ. generalize (Z.to_nat n). intros m.
  revert a. induction m as [|m IH]; intros a; simpl; [constructor|].
  constructor.
  - rewrite <- fmap_S_seq, <- list_fmap_compose.
    eapply (eq_ind _ incr (IH (Z.succ a))).
    apply list_fmap_ext. intros; simpl; lia.
  - apply Forall_forall. intros x (i & -> & Hi)%list_elem_of_fmap.
    apply elem_of_seq in Hi. lia.
Qed.


(** A decidable fact about an interval of integers, checked by evaluation:
    [check_range P n a] tests [P] on [a, a+1, ..., a+n-1]. *)
Fixpoint check_range (P : Z -> bool) (n : nat) (a : Z) : bool :=
  match n with O => true | S n => P a && check_range P n (a + 1) end.

Lemma check_range_all P n a k :
  check_range P (Z.to_nat n) a = true -> a <= k < a + n -> P k = true.
Proof.
  intros H Hk. remember (Z.to_nat n) as m eqn:Hm.
  assert (k < a + Z.of_nat m) as Hk' by lia. clear Hm.
  revert a H Hk Hk'. induction m as [|m IH]; intros a H Hk Hk'; [lia|].
  cbn in H. apply andb_true_iff in H as [Ha H].
  destruct (Z.eq_dec k a) as [->|]; [done|]. apply (IH (a + 1)); [done | lia..].
Qed.

Lemma rmap_all {E A B} (f : A -> res E B) (g : A -> B) l :
  (forall x, x ∈ l -> f x = Ok (g x)) -> rmap f l = Ok (g <$> l).
Proof.
  induction l as [|x l IH]; intros H; [done|]. cbn [rmap fmap list_fmap].
  rewrite H by (by left). cbn [rbind]. rewrite IH; [done|]. intros y Hy. apply H. by right.
Qed.

Lemma incr_fmap (f : Z -> Z) l :
  (forall x y, x < y -> f x < f y) -> incr l -> incr (f <$> l).
Proof.
  intros Hf Hl. induction Hl as [|a l Hl IH Ha]; simpl; constructor; [done|].
  apply Forall_fmap. eapply Forall_impl; [done|]. intros x. apply Hf.
Qed.
