(* ===== verification/Errors.v ===== *)
(** * The error values of the proxy

    [core/errors] declares one value per failure and the code compares
    them by identity: an enumeration.  Errors built with [fmt.Errorf] or
    [errors.New] at the point of use carry their message; the errors of
    [strconv] carry the function and the text that did not parse; the
    errors of a [mysql] package are the three values of [mysql/error.go]
    and the [SqlError] record. *)
From S2P Require Import Prelude.

(** [mysql.SqlError]. *)
Record SqlError := mkSqlError { SqlError_Code : Z; SqlError_Message : string; SqlError_State : string }.

Inductive error : Type :=
| ErrNoMasterConn
| ErrNoSlaveConn
| ErrNoDefaultNode
| ErrNoMasterDB
| ErrNoSlaveDB
| ErrNoDatabase
| ErrMasterDown
| ErrSlaveDown
| ErrDatabaseClose
| ErrConnIsNil
| ErrBadConn
| ErrIgnoreSQL
| ErrAddressNull
| ErrInvalidArgument
| ErrInvalidCharset
| ErrCmdUnsupport
| ErrLocationsCount
| ErrNoCriteria
| ErrNoRouteNode
| ErrResultNil
| ErrSumColumnType
| ErrSelectInInsert
| ErrInsertInMulti
| ErrUpdateInMulti
| ErrDeleteInMulti
| ErrReplaceInMulti
| ErrExecInMulti
| ErrTransInMulti
| ErrNoPlan
| ErrNoPlanRule
| ErrUpdateKey
| ErrStmtConvert
| ErrExprConvert
| ErrConnNotEqual
| ErrKeyOutOfRange
| ErrMultiShard
| ErrIRNoColumns
| ErrIRNoShardingKey
| ErrColsLenNotMatch
| ErrDateIllegal
| ErrDateRangeIllegal
| ErrDateRangeCount
| ErrSlaveExist
| ErrSlaveNotExist
| ErrBlackSqlExist
| ErrBlackSqlNotExist
| ErrInsertTooComplex
| ErrSQLNULL
| ErrInternalServer
(* mysql/error.go *)
| MyErrBadConn
| MyErrMalformPacket
| MyErrTxDone
| ErrSqlError (e : SqlError)
(* the standard library and errors built in place *)
| ErrIO_EOF
| ErrStrconv (func num : string)
| ErrTimeParse (value : string)
| Errorf (msg : string).

#[export] Instance SqlError_eq_dec : EqDecision SqlError.
Proof. solve_decision. Defined.
#[export] Instance error_eq_dec : EqDecision error.
Proof. solve_decision. Defined.

(** The message of each value of [core/errors]. *)
Definition errors_message (e : error) : option string :=
  match e with
  | ErrNoMasterConn => Some "no master connection"
  | ErrNoSlaveConn => Some "no slave connection"
  | ErrNoDefaultNode => Some "no default node"
  | ErrNoMasterDB => Some "no master database"
  | ErrNoSlaveDB => Some "no slave database"
  | ErrNoDatabase => Some "no database"
  | ErrMasterDown => Some "master is down"
  | ErrSlaveDown => Some "slave is down"
  | ErrDatabaseClose => Some "database is close"
  | ErrConnIsNil => Some "connection is nil"
  | ErrBadConn => Some "connection was bad"
  | ErrIgnoreSQL => Some "ignore this sql"
  | ErrAddressNull => Some "address is nil"
  | ErrInvalidArgument => Some "argument is invalid"
  | ErrInvalidCharset => Some "charset is invalid"
  | ErrCmdUnsupport => Some "command unsupport"
  | ErrLocationsCount => Some "locations count is not equal"
  | ErrNoCriteria => Some "plan have no criteria"
  | ErrNoRouteNode => Some "no route node"
  | ErrResultNil => Some "result is nil"
  | ErrSumColumnType => Some "sum column type error"
  | ErrSelectInInsert => Some "select in insert not allowed"
  | ErrInsertInMulti => Some "insert in multi node"
  | ErrUpdateInMulti => Some "update in multi node"
  | ErrDeleteInMulti => Some "delete in multi node"
  | ErrReplaceInMulti => Some "replace in multi node"
  | ErrExecInMulti => Some "exec in multi node"
  | ErrTransInMulti => Some "transaction in multi node"
  | ErrNoPlan => Some "statement have no plan"
  | ErrNoPlanRule => Some "statement have no plan rule"
  | ErrUpdateKey => Some "routing key in update expression"
  | ErrStmtConvert => Some "statement fail to convert"
  | ErrExprConvert => Some "expr fail to convert"
  | ErrConnNotEqual => Some "the length of conns not equal sqls"
  | ErrKeyOutOfRange => Some "shard key not in key range"
  | ErrMultiShard => Some "insert or replace has multiple shard targets"
  | ErrIRNoColumns => Some "insert or replace must specify columns"
  | ErrIRNoShardingKey => Some "insert or replace not contain sharding key"
  | ErrColsLenNotMatch => Some "insert or replace cols and values length not match"
  | ErrDateIllegal => Some "date format illegal"
  | ErrDateRangeIllegal => Some "date range format illegal"
  | ErrDateRangeCount => Some "date range count is not equal"
  | ErrSlaveExist => Some "slave has exist"
  | ErrSlaveNotExist => Some "slave has not exist"
  | ErrBlackSqlExist => Some "black sql has exist"
  | ErrBlackSqlNotExist => Some "black sql has not exist"
  | ErrInsertTooComplex => Some "insert is too complex"
  | ErrSQLNULL => Some "sql is null"
  | ErrInternalServer => Some "internal server error"
  | _ => None
  end.
