(* ===== verification/StateM.v ===== *)
(** * Methods: computations that change a state and may fail

    A Go method changes its receiver and answers a result, an error or a
    panic; the changes made before an error stay.  [wp] is the usual
    weakest precondition: what has to hold of the state for the outcome and
    the new state to satisfy [Q]. *)
From S2P Require Import Prelude Errors.
Open Scope Z_scope.

Definition ST (S A : Type) : Type := S -> S * res error A.

Section Methods.
Context {S : Type}.

Definition ret {A} (a : A) : ST S A := fun s => (s, Ok a).
Definition fail {A} (e : error) : ST S A := fun s => (s, Err e).
Definition lift {A} (r : res error A) : ST S A := fun s => (s, r).
Definition get : ST S S := fun s => (s, Ok s).
Definition put (s : S) : ST S unit := fun _ => (s, Ok tt).
Definition modify (f : S -> S) : ST S unit := fun s => (f s, Ok tt).

Definition bind {A B} (m : ST S A) (k : A -> ST S B) : ST S B := fun s =>
  match m s with
  | (s, Ok a) => k a s
  | (s, Err e) => (s, Err e)
  | (s, Panic p) => (s, Panic p)
  end.

(** The error as a value. *)
Definition try {A} (m : ST S A) : ST S (option error * option A) := fun s =>
  match m s with
  | (s, Ok a) => (s, Ok (None, Some a))
  | (s, Err e) => (s, Ok (Some e, None))
  | (s, Panic p) => (s, Panic p)
  end.

(** [defer cleanup()], which runs after a panic too. *)
Definition with_defer {A} (m : ST S A) (cleanup : ST S unit) : ST S A := fun s =>
  let '(s, r) := m s in
  match cleanup s with
  | (s, Panic p) => (s, Panic p)
  | (s, _) => (s, r)
  end.

(** [defer func() { if e := recover(); e != nil { err = ... } }()] *)
Definition recovering {A} (m : ST S A) (e : error) : ST S A := fun s =>
  match m s with
  | (s, Panic _) => (s, Err e)
  | r => r
  end.
End Methods.

Notation "'do!' x := m 'in' k" := (bind m (fun x => k))
  (at level 10, x pattern, m at level 100, k at level 200) : go_scope.

Definition unless {S} (e : option error) : ST S unit :=
  match e with Some e => fail e | None => ret tt end.

(** A Go loop over a list, left when the body fails. *)
Fixpoint for_each {S A} (f : A -> ST S unit) (l : list A) : ST S unit :=
  match l with
  | [] => ret tt
  | x :: l => do! _ := f x in for_each f l
  end.

(** ** Weakest preconditions *)
Definition wp {S A} (m : ST S A) (Q : res error A -> S -> Prop) (s : S) : Prop := Q (m s).2 (m s).1.

(** [m] keeps [I], whatever its outcome. *)
Definition keeps {S A} (I : S -> Prop) (m : ST S A) : Prop := forall s, I s -> wp m (fun _ => I) s.

Section Laws.
Context {S : Type}.
Implicit Types I : S -> Prop.

Lemma wp_bind {A B} (m : ST S A) (k : A -> ST S B) Q s :
  wp m (fun r s => match r with
                   | Ok a => wp (k a) Q s
                   | Err e => Q (Err e) s
                   | Panic p => Q (Panic p) s
                   end) s -> wp (bind m k) Q s.
Proof. unfold wp, bind. by destruct (m s) as [s' []]. Qed.

Lemma wp_mono {A} (m : ST S A) (P Q : res error A -> S -> Prop) s :
  wp m P s -> (forall r s, P r s -> Q r s) -> wp m Q s.
Proof. unfold wp. auto. Qed.

Lemma bind_Ok {A B} (m : ST S A) (k : A -> ST S B) s s' a : m s = (s', Ok a) -> bind m k s = k a s'.
Proof. unfold bind. by intros ->. Qed.
Lemma bind_Err {A B} (m : ST S A) (k : A -> ST S B) s s' e : m s = (s', Err e) -> bind m k s = (s', Err e).
Proof. unfold bind. by intros ->. Qed.
Lemma bind_Panic {A B} (m : ST S A) (k : A -> ST S B) s s' p : m s = (s', Panic p) -> bind m k s = (s', Panic p).
Proof. unfold bind. by intros ->. Qed.

Lemma bind_Ok_inv {A B} (m : ST S A) (k : A -> ST S B) s s' b :
  bind m k s = (s', Ok b) -> exists s1 a, m s = (s1, Ok a) /\ k a s1 = (s', Ok b).
Proof. unfold bind. destruct (m s) as [s1 []]; try discriminate. eauto. Qed.

Lemma keeps_ret {A} I (a : A) : keeps I (ret a).
Proof. by intros s. Qed.
Lemma keeps_fail {A} I e : keeps I (fail (A := A) e).
Proof. by intros s. Qed.
Lemma keeps_lift {A} I (r : res error A) : keeps I (lift r).
Proof. by intros s. Qed.
Lemma keeps_get I : keeps I get.
Proof. by intros s. Qed.
Lemma keeps_unless I e : keeps I (unless e).
Proof. by destruct e; intros s. Qed.
Lemma keeps_modify I f : (forall s, I s -> I (f s)) -> keeps I (modify f).
Proof. intros Hf s. apply Hf. Qed.

Lemma keeps_bind {A B} I (m : ST S A) (k : A -> ST S B) :
  keeps I m -> (forall a, keeps I (k a)) -> keeps I (bind m k).
Proof.
  intros Hm Hk s Hs. apply wp_bind. eapply wp_mono; [by apply Hm|].
  intros [] s' Hs'; [by apply Hk | done | done].
Qed.

Lemma keeps_get_bind {A} I (k : S -> ST S A) :
  (forall s, I s -> wp (k s) (fun _ => I) s) -> keeps I (bind get k).
Proof. intros Hk s Hs. by apply Hk. Qed.

Lemma keeps_try {A} I (m : ST S A) : keeps I m -> keeps I (try m).
Proof. intros Hm s Hs. specialize (Hm s Hs). unfold wp, try in *. by destruct (m s) as [s' []]. Qed.

Lemma keeps_with_defer {A} I (m : ST S A) c : keeps I m -> keeps I c -> keeps I (with_defer m c).
Proof.
  intros Hm Hc s Hs. specialize (Hm s Hs). unfold wp, with_defer in *. destruct (m s) as [s' r].
  specialize (Hc s' Hm). unfold wp in Hc. by destruct (c s') as [s'' []].
Qed.

Lemma keeps_recovering {A} I (m : ST S A) e : keeps I m -> keeps I (recovering m e).
Proof. intros Hm s Hs. specialize (Hm s Hs). unfold wp, recovering in *. by destruct (m s) as [s' []]. Qed.

Lemma keeps_for_each {A} I (f : A -> ST S unit) l : (forall x, x ∈ l -> keeps I (f x)) -> keeps I (for_each f l).
Proof.
  induction l as [|x l IH]; intros Hf; [apply keeps_ret|].
  apply keeps_bind; [apply Hf; by left | intros _; apply IH; intros y Hy; apply Hf; by right].
Qed.
End Laws.

(** ** Moves

    [m] takes a state only to states that are related to it by the preorder
    [R], whatever its outcome. *)
Definition moves {S A} (R : S -> S -> Prop) (m : ST S A) : Prop := forall s, R s (m s).1.

Section Moves.
#[local] Set Default Proof Using "All".
Context {S : Type} (R : S -> S -> Prop) `{!PreOrder R}.

Lemma moves_ret {A} (a : A) : moves R (ret a).
Proof. by intros s. Qed.
Lemma moves_fail {A} e : moves R (fail (A := A) e).
Proof. by intros s. Qed.
Lemma moves_lift {A} (r : res error A) : moves R (lift r).
Proof. by intros s. Qed.
Lemma moves_get : moves R get.
Proof. by intros s. Qed.
Lemma moves_unless e : moves R (unless e).
Proof. by destruct e; intros s. Qed.
Lemma moves_modify f : (forall s, R s (f s)) -> moves R (modify f).
Proof. intros Hf s. apply Hf. Qed.

Lemma moves_bind {A B} (m : ST S A) (k : A -> ST S B) :
  moves R m -> (forall a, moves R (k a)) -> moves R (bind m k).
Proof.
  intros Hm Hk s. specialize (Hm s). unfold bind. destruct (m s) as [s' [a|e|p]]; [|done..].
  etrans; [exact Hm | apply Hk].
Qed.

(** The state that was read is the current one. *)
Lemma moves_get_bind {A} (k : S -> ST S A) : (forall s, R s (k s s).1) -> moves R (bind get k).
Proof. intros Hk s. apply Hk. Qed.

Lemma moves_try {A} (m : ST S A) : moves R m -> moves R (try m).
Proof. intros Hm s. specialize (Hm s). unfold try. by destruct (m s) as [s' []]. Qed.

Lemma moves_with_defer {A} (m : ST S A) c : moves R m -> moves R c -> moves R (with_defer m c).
Proof.
  intros Hm Hc s. specialize (Hm s). unfold with_defer. destruct (m s) as [s' r].
  specialize (Hc s'). destruct (c s') as [s'' []]; cbn in *; by etrans.
Qed.

Lemma moves_recovering {A} (m : ST S A) e : moves R m -> moves R (recovering m e).
Proof. intros Hm s. specialize (Hm s). unfold recovering. by destruct (m s) as [s' []]. Qed.

Lemma moves_for_each {A} (f : A -> ST S unit) l : (forall x, moves R (f x)) -> moves R (for_each f l).
Proof. intros Hf. induction l as [|x l IH]; [apply moves_ret|]. by apply moves_bind. Qed.
End Moves.

Lemma moves_keeps {S A} (R : S -> S -> Prop) (I : S -> Prop) (m : ST S A) :
  (forall s s', I s -> R s s' -> I s') -> moves R m -> keeps I m.
Proof. intros HI Hm s Hs. exact (HI _ _ Hs (Hm s)). Qed.

Create HintDb methods discriminated.
#[export] Hint Resolve keeps_ret keeps_fail keeps_lift keeps_get keeps_unless keeps_bind keeps_try
  keeps_with_defer keeps_recovering : methods.
#[export] Hint Resolve moves_ret moves_fail moves_lift moves_get moves_unless moves_try
  moves_with_defer moves_recovering moves_for_each : methods.

(** Follows the structure of a method. *)
Ltac moves :=
  repeat first
    [ solve [eauto 3 with methods typeclass_instances]
    | apply moves_bind; [eauto with typeclass_instances | | intros ?]
    | apply moves_try; [eauto with typeclass_instances |]
    | apply moves_for_each; [eauto with typeclass_instances | intros ?]
    | progress intros
    | case_match ].
