(* ===== verification/GoLib.v ===== *)
(** * The Go standard library, as far as the proxy uses it

    [strconv] (decimal integers), [strings] (on bytes: case mapping is
    that of ASCII, which covers SQL keywords and identifiers), [fmt]
    verbs for integers, [hash/crc32] and the civil calendar of [time]. *)
From S2P Require Import Prelude Errors.
From Stdlib Require Import Ascii.

Open Scope Z_scope.

(** ** Bytes *)
Definition byte_of (c : ascii) : Z := Z.of_N (N_of_ascii c).
Definition char_of (z : Z) : ascii := ascii_of_N (Z.to_N (u8 z)).

Lemma byte_of_range c : 0 <= byte_of c < 256.
Proof. unfold byte_of. pose proof (N_ascii_bounded c). lia. Qed.

Lemma char_of_byte_of c : char_of (byte_of c) = c.
Proof.
  unfold char_of, u8. rewrite Z.mod_small by apply byte_of_range.
  unfold byte_of. rewrite N2Z.id. apply ascii_N_embedding.
Qed.

Lemma byte_of_char_of z : 0 <= z < 256 -> byte_of (char_of z) = z.
Proof.
  intros Hz. unfold byte_of, char_of, u8. rewrite Z.mod_small by lia.
  rewrite N_ascii_embedding by lia. lia.
Qed.

#[export] Instance byte_of_inj : Inj (=) (=) byte_of.
Proof. intros c d H. by rewrite <- (char_of_byte_of c), H, char_of_byte_of. Qed.

(** ** Strings *)
Definition slen (s : string) : Z := Z.of_nat (String.length s).

Lemma sapp_cons c s t : String c s +:+ t = String c (s +:+ t).
Proof. done. Qed.
Lemma sapp_nil_l s : "" +:+ s = s.
Proof. done. Qed.
Lemma sapp_nil_r s : s +:+ "" = s.
Proof. induction s as [|c s IH]; [done|]. by rewrite sapp_cons, IH. Qed.
Lemma sapp_assoc a b c : a +:+ (b +:+ c) = (a +:+ b) +:+ c.
Proof. induction a as [|x a IH]; [done|]. by rewrite !sapp_cons, IH. Qed.
Lemma slength_app a b : String.length (a +:+ b) = (String.length a + String.length b)%nat.
Proof. induction a as [|x a IH]; [done|]. rewrite sapp_cons; simpl. by rewrite IH. Qed.

Fixpoint smap (f : ascii -> ascii) (s : string) : string :=
  match s with
  | EmptyString => EmptyString
  | String c s => String (f c) (smap f s)
  end.

Definition lower_char (c : ascii) : ascii :=
  let b := byte_of c in if (65 <=? b) && (b <=? 90) then char_of (b + 32) else c.
Definition upper_char (c : ascii) : ascii :=
  let b := byte_of c in if (97 <=? b) && (b <=? 122) then char_of (b - 32) else c.
(** [strings.ToLower], [bytes.ToLower], [strings.EqualFold]. *)
Definition ToLower : string -> string := smap lower_char.
Definition ToUpper : string -> string := smap upper_char.
Definition EqualFold (a b : string) : bool := String.eqb (ToLower a) (ToLower b).

Fixpoint schar_in (c : ascii) (set : string) : bool :=
  match set with
  | EmptyString => false
  | String d set => Ascii.eqb c d || schar_in c set
  end.

Fixpoint TrimLeft (s cutset : string) : string :=
  match s with
  | EmptyString => EmptyString
  | String c s' => if schar_in c cutset then TrimLeft s' cutset else s
  end.

Fixpoint TrimRight (s cutset : string) : string :=
  match s with
  | EmptyString => EmptyString
  | String c s' =>
      match TrimRight s' cutset with
      | EmptyString => if schar_in c cutset then EmptyString else String c EmptyString
      | r => String c r
      end
  end.

(** [strings.Trim] removes bytes of [cutset] at both ends. *)
Definition Trim (s cutset : string) : string := TrimLeft (TrimRight s cutset) cutset.

(** [strings.Split(s, sep)] for a one-byte separator. *)
Fixpoint Split (s : string) (sep : ascii) : list string :=
  match s with
  | EmptyString => [EmptyString]
  | String c s =>
      if Ascii.eqb c sep then EmptyString :: Split s sep
      else match Split s sep with
           | [] => [String c EmptyString]
           | w :: ws => String c w :: ws
           end
  end.

(** [strings.SplitN(s, sep, 2)]: one part, or the text before and after
    the first separator. *)
Fixpoint SplitN2 (s : string) (sep : ascii) : list string :=
  match s with
  | EmptyString => [EmptyString]
  | String c s =>
      if Ascii.eqb c sep then [EmptyString; s]
      else match SplitN2 s sep with
           | [] => [String c EmptyString]
           | w :: ws => String c w :: ws
           end
  end.

Fixpoint Join (l : list string) (sep : string) : string :=
  match l with
  | [] => ""
  | [w] => w
  | w :: l => w +:+ sep +:+ Join l sep
  end.

(** [s[a:b]] on strings; [substring] takes the length. *)
Definition sslice {E} (s : string) (a b : Z) : res E string :=
  if (0 <=? a) && (a <=? b) && (b <=? slen s)
  then Ok (String.substring (Z.to_nat a) (Z.to_nat (b - a)) s)
  else Panic (PRuntime "slice bounds out of range").

(** Byte order of Go's [<] on strings. *)
Definition string_ltb (a b : string) : bool := String.ltb a b.

(** ** Decimal integers *)
Definition digit_of (c : ascii) : option Z :=
  let b := byte_of c in if (48 <=? b) && (b <=? 57) then Some (b - 48) else None.
Definition char_digit (d : Z) : ascii := char_of (48 + d).

Fixpoint parse_digits (s : string) (acc : Z) : option Z :=
  match s with
  | EmptyString => Some acc
  | String c s => match digit_of c with
                  | Some d => parse_digits s (acc * 10 + d)
                  | None => None
                  end
  end.

(** [strconv.ParseUint(s, 10, 64)]. *)
Definition ParseUint (s : string) : res error Z :=
  match s with
  | EmptyString => Err (ErrStrconv "ParseUint" s)
  | _ => match parse_digits s 0 with
         | Some n => if n <? 2 ^ 64 then Ok n else Err (ErrStrconv "ParseUint" s)
         | None => Err (ErrStrconv "ParseUint" s)
         end
  end.

(** [strconv.ParseInt(s, 10, 64)]. *)
Definition ParseInt (s : string) : res error Z :=
  let fail := Err (ErrStrconv "ParseInt" s) in
  let '(neg, digits) :=
    match s with
    | String "-" r => (true, r)
    | String "+" r => (false, r)
    | _ => (false, s)
    end in
  match digits with
  | EmptyString => fail
  | _ => match parse_digits digits 0 with
         | Some n => if neg then (if n <=? 2 ^ 63 then Ok (- n) else fail)
                     else (if n <? 2 ^ 63 then Ok n else fail)
         | None => fail
         end
  end.

(** [strconv.Atoi]: [int] has 64 bits. *)
Definition Atoi (s : string) : res error Z :=
  match ParseInt s with
  | Err _ => Err (ErrStrconv "Atoi" s)
  | r => r
  end.

Fixpoint dec_digits (fuel : nat) (n : Z) (acc : string) : string :=
  match fuel with
  | O => acc
  | S fuel =>
      let acc := String (char_digit (n mod 10)) acc in
      if n <? 10 then acc else dec_digits fuel (n / 10) acc
  end.

(** [strconv.FormatUint(n, 10)]; a number has at most [log2 n + 1] digits. *)
Definition FormatUint (n : Z) : string := dec_digits (S (Z.to_nat (Z.log2 n))) n "".

(** [strconv.FormatInt(n, 10)] and the [%d] verb. *)
Definition FormatInt (n : Z) : string :=
  if n <? 0 then String "-" (FormatUint (- n)) else FormatUint n.

Fixpoint zeros (n : nat) : string :=
  match n with O => "" | S n => String "0" (zeros n) end.

(** [%0wd]: pads with zeros to width [w], the sign included. *)
Definition pad_int (w : nat) (n : Z) : string :=
  if n <? 0
  then let d := FormatUint (- n) in String "-" (zeros (w - 1 - String.length d) +:+ d)
  else let d := FormatUint n in zeros (w - String.length d) +:+ d.
Definition fmt_02d := pad_int 2.
Definition fmt_04d := pad_int 4.
Definition fmt_06d := pad_int 6.

(** The value [ParseInt] and [Atoi] return beside an error: zero when the
    text is not a number, the nearest bound when it is out of range. *)
Definition ParseInt_bad_value (s : string) : Z :=
  let '(neg, digits) :=
    match s with
    | String "-" r => (true, r)
    | String "+" r => (false, r)
    | _ => (false, s)
    end in
  match digits with
  | EmptyString => 0
  | _ => match parse_digits digits 0 with
         | Some _ => if neg then MinInt64 else MaxInt64
         | None => 0
         end
  end.

(** [crc32.ChecksumIEEE]: the reflected polynomial 0xEDB88320, one bit at
    a time. *)
Definition crc_bit (crc : Z) : Z :=
  if Z.odd crc then Z.lxor (Z.shiftr crc 1) 3988292384 else Z.shiftr crc 1.
Definition crc_byte (crc : Z) (c : ascii) : Z :=
  Nat.iter 8 crc_bit (Z.lxor crc (byte_of c)).
Fixpoint crc_update (crc : Z) (s : string) : Z :=
  match s with
  | EmptyString => crc
  | String c s => crc_update (crc_byte crc c) s
  end.
Definition ChecksumIEEE (s : string) : Z := Z.lxor (crc_update 4294967295 s) 4294967295.

Example ChecksumIEEE_check : ChecksumIEEE "123456789" = 3421780262.
Proof. vm_compute. reflexivity. Qed.

(** *** Laws of the decimal conversions *)
Lemma digit_of_char_digit d : 0 <= d < 10 -> digit_of (char_digit d) = Some d.
Proof.
  intros Hd. unfold digit_of, char_digit. rewrite byte_of_char_of by lia.
  replace ((48 <=? 48 + d) && (48 + d <=? 57)) with true by lia. f_equal; lia.
Qed.

Lemma digit_of_range c d : digit_of c = Some d -> 0 <= d < 10.
Proof.
  unfold digit_of. destruct ((48 <=? byte_of c) && (byte_of c <=? 57)) eqn:Hb; [|done].
  intros [= <-]. lia.
Qed.

Definition is_digits (s : string) : Prop := forall acc, is_Some (parse_digits s acc).

Lemma dec_digits_parse fuel n acc a :
  0 <= n < 2 ^ Z.of_nat fuel -> 
  parse_digits (dec_digits fuel n acc) a =
  parse_digits acc (a * 10 ^ slen (dec_digits fuel n "") + n).
Proof.
  revert n acc a. induction fuel as [|fuel IH]; intros n acc a Hn.
  - assert (n = 0) as -> by (change (2 ^ Z.of_nat 0) with 1 in Hn; lia).
    cbn [dec_digits]. change (10 ^ slen "") with 1. f_equal. lia.
  - pose proof (Z.mod_pos_bound n 10 ltac:(lia)) as Hm.
    pose proof (Z.div_mod n 10 ltac:(lia)) as Hdm.
    cbn [dec_digits]. destruct (Z.ltb_spec n 10).
    + cbn [parse_digits slen]. rewrite digit_of_char_digit by lia.
      rewrite Z.mod_small by lia. done.
    + rewrite IH.
      2:{ split; [apply Z.div_pos; lia|]. apply Z.div_lt_upper_bound; [lia|].
          rewrite Nat2Z.inj_succ, Z.pow_succ_r in Hn by lia. lia. }
      cbn [parse_digits]. rewrite digit_of_char_digit by lia. f_equal.
      assert (forall f m s, slen (dec_digits f m s) = slen (dec_digits f m "") + slen s) as Hlen.
      { clear. induction f as [|f IH]; intros m s; cbn [dec_digits]; [unfold slen; simpl; lia|].
        destruct (m <? 10); [unfold slen; simpl; lia|].
        rewrite IH, (IH _ (String _ "")). unfold slen; simpl; lia. }
      rewrite (Hlen _ _ (String _ "")).
      change (slen (String (char_digit (n mod 10)) "")) with 1.
      rewrite Z.pow_add_r by (unfold slen; lia). change (10 ^ 1) with 10. lia.
Qed.

Lemma dec_digits_neq fuel n acc : acc <> "" -> dec_digits fuel n acc <> "".
Proof.
  revert n acc. induction fuel as [|f IH]; intros n acc H; cbn [dec_digits]; [done|].
  destruct (n <? 10); [done|]. by apply IH.
Qed.

Lemma FormatUint_fuel n : 0 <= n -> 0 <= n < 2 ^ Z.of_nat (S (Z.to_nat (Z.log2 n))).
Proof.
  intros Hn. split; [done|]. rewrite Nat2Z.inj_succ, Z2Nat.id by apply Z.log2_nonneg.
  destruct (Z.eq_dec n 0) as [->|]; [reflexivity|]. apply Z.log2_spec. lia.
Qed.

Lemma FormatUint_neq n : FormatUint n <> "".
Proof.
  unfold FormatUint. cbn [dec_digits]. destruct (n <? 10); [done|]. by apply dec_digits_neq.
Qed.

Lemma parse_FormatUint n : 0 <= n -> parse_digits (FormatUint n) 0 = Some n.
Proof. intros Hn. unfold FormatUint. rewrite dec_digits_parse by by apply FormatUint_fuel. done. Qed.

Lemma FormatUint_head n : 0 <= n ->
  exists c r, FormatUint n = String c r /\ is_Some (digit_of c).
Proof.
  intros Hn. pose proof (parse_FormatUint n Hn) as Hp. pose proof (FormatUint_neq n).
  destruct (FormatUint n) as [|c r]; [done|]. exists c, r. split; [done|].
  simpl in Hp. destruct (digit_of c); [eauto | done].
Qed.

Lemma ParseUint_FormatUint n : in_u64 n -> ParseUint (FormatUint n) = Ok n.
Proof.
  intros [H0 H1]. unfold ParseUint. pose proof (FormatUint_neq n).
  rewrite parse_FormatUint by done. replace (n <? 2 ^ 64) with true by lia.
  by destruct (FormatUint n).
Qed.

Lemma ParseInt_digits c r n :
  is_Some (digit_of c) -> parse_digits (String c r) 0 = Some n -> n < 2 ^ 63 ->
  ParseInt (String c r) = Ok n.
Proof.
  intros Hc Hp Hn. unfold ParseInt.
  replace (n <? 2 ^ 63) with true by lia.
  destruct c as [[] [] [] [] [] [] [] []]; try (vm_compute in Hc; by destruct Hc);
    rewrite Hp; replace (n <? 2 ^ 63) with true by lia; done.
Qed.

(** Round trip of the decimal form of an [int64]. *)
Lemma ParseInt_FormatInt n : in_i64 n -> ParseInt (FormatInt n) = Ok n.
Proof.
  intros [H0 H1]. unfold FormatInt. destruct (Z.ltb_spec n 0).
  - unfold ParseInt. rewrite parse_FormatUint by lia. pose proof (FormatUint_neq (- n)).
    destruct (FormatUint (- n)); [done|].
    replace (- n <=? 2 ^ 63) with true by lia. f_equal; lia.
  - destruct (FormatUint_head n) as (c & r & Heq & Hc); [done|].
    rewrite Heq. apply ParseInt_digits; [done | | done].
    rewrite <- Heq. by apply parse_FormatUint.
Qed.

Lemma ParseInt_range s n : ParseInt s = Ok n -> in_i64 n.
Proof.
  unfold ParseInt, in_i64.
  assert (forall d acc, 0 <= acc -> match parse_digits d acc with Some m => 0 <= m | None => True end) as Hpos.
  { induction d as [|c d IH]; intros acc Ha; simpl; [done|].
    destruct (digit_of c) eqn:E; [|done]. apply digit_of_range in E. apply IH; lia. }
  destruct (match s with String "-" r => _ | String "+" r => _ | _ => _ end) as [neg ds].
  pose proof (Hpos ds 0 ltac:(lia)) as Hp.
  destruct ds as [|c ds]; [done|]. destruct (parse_digits (String c ds) 0) as [m|]; [|done].
  destruct neg.
  - destruct (Z.leb_spec m (2 ^ 63)); [|done]. intros [= <-]. lia.
  - destruct (Z.ltb_spec m (2 ^ 63)); [|done]. intros [= <-]. lia.
Qed.

Lemma Atoi_ParseInt s n : Atoi s = Ok n <-> ParseInt s = Ok n.
Proof. unfold Atoi. destruct (ParseInt s); naive_solver. Qed.

Lemma FormatInt_inj m n : in_i64 m -> in_i64 n -> FormatInt m = FormatInt n -> m = n.
Proof.
  intros Hm Hn H. apply (f_equal ParseInt) in H.
  rewrite !ParseInt_FormatInt in H by done. by injection H.
Qed.

Lemma dec_digits_length fuel n acc :
  (String.length (dec_digits fuel n acc) <= fuel + String.length acc)%nat.
Proof.
  revert n acc. induction fuel as [|fuel IH]; intros n acc; cbn [dec_digits]; [lia|].
  destruct (n <? 10); [cbn; lia|]. etrans; [apply IH|]. cbn. lia.
Qed.

Lemma FormatInt_slen n : - 2 ^ 64 < n < 2 ^ 64 -> slen (FormatInt n) <= 65.
Proof.
  intros Hn. assert (forall m, 0 <= m < 2 ^ 64 -> slen (FormatUint m) <= 64) as Hu.
  { intros m Hm. unfold slen, FormatUint. pose proof (dec_digits_length (S (Z.to_nat (Z.log2 m))) m "") as Hl.
    cbn [String.length] in Hl. pose proof (Z.log2_nonneg m).
    destruct (Z.eq_dec m 0) as [->|]; [cbn; lia|].
    pose proof (proj1 (Z.log2_lt_pow2 m 64 ltac:(lia)) ltac:(lia)). lia. }
  unfold FormatInt. destruct (Z.ltb_spec n 0).
  - pose proof (Hu (- n) ltac:(lia)). unfold slen in *. cbn [String.length]. lia.
  - pose proof (Hu n ltac:(lia)). lia.
Qed.
