(* ===== verification/SqlTypes.v ===== *)
(** * SQL values and their literal form ([sqltypes/sqltypes.go])

    Values as the SQL layer prints them, and the escaping tables that the
    printer ([encodeSql]) and the tokenizer ([scanString]) share. *)
From S2P Require Import Prelude Errors GoLib.
From Stdlib Require Import Ascii.
Open Scope Z_scope.

Definition DONTESCAPE : Z := 255.

(** [encodeRef]: the bytes that are escaped, with the letter written after
    the backslash. *)
Definition encodeRef : list (Z * Z) :=
  [ (0, byte_of "0"); (39, 39); (34, 34); (8, byte_of "b"); (10, byte_of "n");
    (13, byte_of "r"); (9, byte_of "t"); (26, byte_of "Z"); (92, 92) ].

Definition encodeRef_lookup (b : Z) : option Z := assoc_lookup b encodeRef.

(** [init]: fills [SqlEncodeMap] and its inverse [SqlDecodeMap]. *)
Definition init_maps : list Z * list Z :=
  foldl (fun '(enc, dec) i =>
           match encodeRef_lookup i with
           | Some to => (<[Z.to_nat i := to]> enc, <[Z.to_nat to := i]> dec)
           | None => (enc, dec)
           end)
        (replicate 256 DONTESCAPE, replicate 256 DONTESCAPE) (seqZ 0 256).

Definition SqlEncodeMap (b : Z) : Z := nth (Z.to_nat b) init_maps.1 DONTESCAPE.
Definition SqlDecodeMap (b : Z) : Z := nth (Z.to_nat b) init_maps.2 DONTESCAPE.

#[global] Arguments SqlEncodeMap : simpl never.
#[global] Arguments SqlDecodeMap : simpl never.

(** [InnerValue] and [Value]; a NULL value has no inner value. *)
Inductive InnerValue : Type :=
| Numeric (b : string)
| Fractional (b : string)
| SString (b : string).

Definition Value := option InnerValue.

Definition raw (v : InnerValue) : string :=
  match v with Numeric b | Fractional b | SString b => b end.

Definition MakeNumeric (b : string) : Value := Some (Numeric b).
Definition MakeFractional (b : string) : Value := Some (Fractional b).
Definition MakeString (b : string) : Value := Some (SString b).

Definition Raw (v : Value) : option string := raw <$> v.
Definition Value_String (v : Value) : string :=
  match v with None => "" | Some i => raw i end.
Definition IsNull (v : Value) : bool := match v with None => true | _ => false end.
Definition IsNumeric (v : Value) : bool := match v with Some (Numeric _) => true | _ => false end.
Definition IsFractional (v : Value) : bool := match v with Some (Fractional _) => true | _ => false end.
Definition IsString (v : Value) : bool := match v with Some (SString _) => true | _ => false end.

Definition ParseInt64 (v : Value) : res error Z :=
  match v with
  | None => Err (Errorf "value is null")
  | Some (Numeric b) => ParseInt b
  | Some _ => Err (Errorf "value is not Numeric")
  end.

Definition ParseUint64 (v : Value) : res error Z :=
  match v with
  | None => Err (Errorf "value is null")
  | Some (Numeric b) => ParseUint b
  | Some _ => Err (Errorf "value is not Numeric")
  end.

(** What [String.encodeSql] writes for one byte. *)
Definition encode_char (c : ascii) : string :=
  let e := SqlEncodeMap (byte_of c) in
  if e =? DONTESCAPE then String c "" else String "\" (String (char_of e) "").

Fixpoint encode_body (s : string) : string :=
  match s with
  | EmptyString => ""
  | String c s => encode_char c +:+ encode_body s
  end.

(** The bytes [encodeSql] appends to the buffer. *)
Definition encodeSql (v : InnerValue) : string :=
  match v with
  | Numeric b | Fractional b => b
  | SString b => "'" +:+ encode_body b +:+ "'"
  end.

Definition EncodeSql (v : Value) : string :=
  match v with None => "null" | Some i => encodeSql i end.

(** ** The two tables are inverse to each other *)
Definition escape_ok (b : Z) : bool :=
  let e := SqlEncodeMap b in
  if e =? DONTESCAPE then negb (b =? 39) && negb (b =? 92)
  else (SqlDecodeMap e =? b) && negb (b =? DONTESCAPE) && (0 <=? e) && (e <? 256).

Lemma escape_ok_bytes : check_range escape_ok (Z.to_nat 256) 0 = true.
Proof. vm_compute. reflexivity. Qed.

Lemma escape_ok_all c : escape_ok (byte_of c) = true.
Proof.
  apply (check_range_all _ _ _ _ escape_ok_bytes), byte_of_range.
Qed.

(** A byte is written as it is, and then is neither the quote nor the
    backslash, or as a backslash and a letter that decodes to it. *)
Lemma encode_char_cases c :
  (encode_char c = String c "" /\ byte_of c <> 39 /\ byte_of c <> 92) \/
  (exists e, encode_char c = String "\" (String e "") /\
             SqlDecodeMap (byte_of e) = byte_of c /\ byte_of c <> DONTESCAPE).
Proof.
  pose proof (escape_ok_all c) as H. unfold escape_ok in H. unfold encode_char.
  destruct (SqlEncodeMap (byte_of c) =? DONTESCAPE).
  - left. split; [done | lia].
  - right. exists (char_of (SqlEncodeMap (byte_of c))).
    rewrite byte_of_char_of by lia. split; [done | lia].
Qed.

(** From here on the tables are used through [encode_char_cases]; closed
    terms still evaluate with [vm_compute]. *)
#[global] Opaque init_maps.
