(* ===== verification/Token.v ===== *)
(** * The SQL tokenizer ([sqlparser/token.go])

    The tokenizer reads bytes from [InStream] one at a time into
    [lastChar]; every loop of the code consumes input on each turn.  A
    loop runs with fuel and reports [OutOfFuel] when it has none left;
    [Scan] starts them with the number of bytes left, and [Scan_total]
    shows that this is always enough and that the panic of [ConsumeNext]
    is never reached. *)
From S2P Require Import Prelude Errors GoLib SqlTypes.
From Stdlib Require Import Ascii.
Open Scope Z_scope.

Definition EOFCHAR : Z := 256.

(** The token codes of the grammar; a single character stands for itself
    and the end of input is code 0. *)
Inductive tok : Type :=
| TEOF | TChar (c : Z)
| LEX_ERROR | ID | STRING | NUMBER | VALUE_ARG | COMMENT
| LE | GE | NE | NULL_SAFE_EQUAL
| SELECT | INSERT | UPDATE | DELETE | FROM | WHERE | GROUP | HAVING | ORDER | BY | LIMIT | FOR
| UNION | ALL | MINUS | EXCEPT | INTERSECT
| JOIN | STRAIGHT_JOIN | LEFT | RIGHT | INNER | OUTER | CROSS | NATURAL | USE | FORCE | ON | INTO
| DISTINCT | CASE | WHEN | THEN | ELSE | END | AS | AND | OR | NOT | EXISTS | IN | IS | LIKE
| BETWEEN | NULL | ASC | DESC | VALUES | DUPLICATE | KEY | DEFAULT | SET | LOCK
| CREATE | ALTER | RENAME | DROP | TABLE | INDEX | VIEW | TO | IGNORE | IF | UNIQUE | USING
| BEGIN | ROLLBACK | COMMIT | NAMES | REPLACE
| ADMIN | HELP | START | TRANSACTION | COLLATE | OFFSET | TRUNCATE.

#[export] Instance tok_eq_dec : EqDecision tok.
Proof. unfold EqDecision, Decision. decide equality. apply Z.eq_dec. Defined.

Definition keywords : list (string * tok) :=
  [ ("select", SELECT); ("insert", INSERT); ("update", UPDATE); ("delete", DELETE);
    ("from", FROM); ("where", WHERE); ("group", GROUP); ("having", HAVING);
    ("order", ORDER); ("by", BY); ("limit", LIMIT); ("for", FOR);
    ("union", UNION); ("all", ALL); ("minus", MINUS); ("except", EXCEPT); ("intersect", INTERSECT);
    ("join", JOIN); ("straight_join", STRAIGHT_JOIN); ("left", LEFT); ("right", RIGHT);
    ("inner", INNER); ("outer", OUTER); ("cross", CROSS); ("natural", NATURAL);
    ("use", USE); ("force", FORCE); ("on", ON); ("into", INTO);
    ("distinct", DISTINCT); ("case", CASE); ("when", WHEN); ("then", THEN); ("else", ELSE);
    ("end", END); ("as", AS); ("and", AND); ("or", OR); ("not", NOT); ("exists", EXISTS);
    ("in", IN); ("is", IS); ("like", LIKE); ("between", BETWEEN); ("null", NULL);
    ("asc", ASC); ("desc", DESC); ("values", VALUES); ("duplicate", DUPLICATE); ("key", KEY);
    ("default", DEFAULT); ("set", SET); ("lock", LOCK);
    ("create", CREATE); ("alter", ALTER); ("rename", RENAME); ("drop", DROP); ("table", TABLE);
    ("index", INDEX); ("view", VIEW); ("to", TO); ("ignore", IGNORE); ("if", IF);
    ("unique", UNIQUE); ("using", USING);
    ("begin", BEGIN); ("rollback", ROLLBACK); ("commit", COMMIT);
    ("names", NAMES); ("replace", REPLACE);
    ("admin", ADMIN); ("help", HELP); ("start", START); ("transaction", TRANSACTION);
    ("collate", COLLATE); ("offset", OFFSET); ("truncate", TRUNCATE) ].

Definition keyword (s : string) : option tok := assoc_lookup s keywords.

Record Tokenizer := mkTokenizer {
  InStream : string;
  AllowComments : bool;
  ForceEOF : bool;
  lastChar : Z;
  Position : Z;
  errorToken : option string;
  LastError : string;
  posVarIndex : Z
}.

Definition NewStringTokenizer (sql : string) : Tokenizer :=
  mkTokenizer sql false false 0 0 None "" 0.

Definition set_read (t : Tokenizer) (rest : string) (ch : Z) : Tokenizer :=
  mkTokenizer rest (AllowComments t) (ForceEOF t) ch (Position t + 1)
    (errorToken t) (LastError t) (posVarIndex t).
Definition set_posVarIndex (t : Tokenizer) (n : Z) : Tokenizer :=
  mkTokenizer (InStream t) (AllowComments t) (ForceEOF t) (lastChar t) (Position t)
    (errorToken t) (LastError t) n.
Definition set_errorToken (t : Tokenizer) (v : option string) : Tokenizer :=
  mkTokenizer (InStream t) (AllowComments t) (ForceEOF t) (lastChar t) (Position t)
    v (LastError t) (posVarIndex t).
Definition set_LastError (t : Tokenizer) (e : string) : Tokenizer :=
  mkTokenizer (InStream t) (AllowComments t) (ForceEOF t) (lastChar t) (Position t)
    (errorToken t) e (posVarIndex t).

Definition next (t : Tokenizer) : Tokenizer :=
  match InStream t with
  | EmptyString => set_read t EmptyString EOFCHAR
  | String c rest => set_read t rest (byte_of c)
  end.

Definition isLetter (ch : Z) : bool :=
  ((97 <=? ch) && (ch <=? 122)) || ((65 <=? ch) && (ch <=? 90)) || (ch =? 95) || (ch =? 64).

Definition digitVal (ch : Z) : Z :=
  if (48 <=? ch) && (ch <=? 57) then ch - 48
  else if (97 <=? ch) && (ch <=? 102) then ch - 97 + 10
  else if (65 <=? ch) && (ch <=? 70) then ch - 65 + 10
  else 16.

Definition isDigit (ch : Z) : bool := (48 <=? ch) && (ch <=? 57).

(** ** Loops *)
Inductive loop_error : Type := OutOfFuel.

Definition write (buf : string) (ch : Z) : string := buf +:+ String (char_of ch) "".

Definition ConsumeNext (t : Tokenizer) (buf : string) : res loop_error (Tokenizer * string) :=
  if lastChar t =? EOFCHAR then Panic (PString "unexpected EOF")
  else Ok (next t, write buf (lastChar t)).

Fixpoint skipBlank (fuel : nat) (t : Tokenizer) : res loop_error Tokenizer :=
  match fuel with
  | O => Err OutOfFuel
  | S fuel =>
      let ch := lastChar t in
      if (ch =? 32) || (ch =? 10) || (ch =? 13) || (ch =? 9)
      then skipBlank fuel (next t) else Ok t
  end.

(** The loops of [scanIdentifier] and [scanBindVar]: copy while [p]. *)
Fixpoint copyWhile (p : Z -> bool) (fuel : nat) (t : Tokenizer) (buf : string)
  : res loop_error (Tokenizer * string) :=
  match fuel with
  | O => Err OutOfFuel
  | S fuel =>
      if p (lastChar t) then copyWhile p fuel (next t) (write buf (lastChar t))
      else Ok (t, buf)
  end.

Definition token_result : Type := tok * option string * Tokenizer.

Definition scanIdentifier (fuel : nat) (t : Tokenizer) : res loop_error token_result :=
  let buf := write "" (lastChar t) in
  let* (t, buf) := copyWhile (fun ch => isLetter ch || isDigit ch) fuel (next t) buf in
  let lowered := ToLower buf in
  match keyword lowered with
  | Some id => Ok (id, Some lowered, t)
  | None => Ok (ID, Some buf, t)
  end.

Definition scanBindVar (fuel : nat) (t : Tokenizer) : res loop_error token_result :=
  let buf := write "" (lastChar t) in
  let* (t, buf) := copyWhile (fun ch => isLetter ch || isDigit ch || (ch =? 46)) fuel (next t) buf in
  if slen buf =? 1 then Ok (LEX_ERROR, Some buf, t) else Ok (VALUE_ARG, Some buf, t).

Fixpoint scanMantissa (fuel : nat) (base : Z) (t : Tokenizer) (buf : string)
  : res loop_error (Tokenizer * string) :=
  match fuel with
  | O => Err OutOfFuel
  | S fuel =>
      if digitVal (lastChar t) <? base
      then let* (t, buf) := ConsumeNext t buf in scanMantissa fuel base t buf
      else Ok (t, buf)
  end.

(** The code from label [exponent] on. *)
Definition scanExponent (fuel : nat) (t : Tokenizer) (buf : string) : res loop_error token_result :=
  if (lastChar t =? 101) || (lastChar t =? 69) then
    let* (t, buf) := ConsumeNext t buf in
    let* (t, buf) :=
      if (lastChar t =? 43) || (lastChar t =? 45) then ConsumeNext t buf else Ok (t, buf) in
    let* (t, buf) := scanMantissa fuel 10 t buf in
    Ok (NUMBER, Some buf, t)
  else Ok (NUMBER, Some buf, t).

(** The code from label [fraction] on. *)
Definition scanFraction (fuel : nat) (t : Tokenizer) (buf : string) : res loop_error token_result :=
  let* (t, buf) :=
    if lastChar t =? 46
    then let* (t, buf) := ConsumeNext t buf in scanMantissa fuel 10 t buf
    else Ok (t, buf) in
  scanExponent fuel t buf.

Definition scanNumber (fuel : nat) (seenDecimalPoint : bool) (t : Tokenizer)
  : res loop_error token_result :=
  if seenDecimalPoint then
    let* (t, buf) := scanMantissa fuel 10 t "." in
    scanExponent fuel t buf
  else if lastChar t =? 48 then
    let* (t, buf) := ConsumeNext t "" in
    if (lastChar t =? 120) || (lastChar t =? 88) then
      let* (t, buf) := ConsumeNext t buf in
      let* (t, buf) := scanMantissa fuel 16 t buf in
      Ok (NUMBER, Some buf, t)
    else
      let* (t, buf) := scanMantissa fuel 8 t buf in
      let* (seenDecimalDigit, t, buf) :=
        if (lastChar t =? 56) || (lastChar t =? 57)
        then let* (t, buf) := scanMantissa fuel 10 t buf in Ok (true, t, buf)
        else Ok (false, t, buf) in
      if (lastChar t =? 46) || (lastChar t =? 101) || (lastChar t =? 69)
      then scanFraction fuel t buf
      else if (seenDecimalDigit : bool) then Ok (LEX_ERROR, Some buf, t)
      else Ok (NUMBER, Some buf, t)
  else
    let* (t, buf) := scanMantissa fuel 10 t "" in
    scanFraction fuel t buf.

Fixpoint scanString (fuel : nat) (delim : Z) (typ : tok) (t : Tokenizer) (buf : string)
  : res loop_error token_result :=
  match fuel with
  | O => Err OutOfFuel
  | S fuel =>
      let ch := lastChar t in
      let t := next t in
      if ch =? delim then
        if lastChar t =? delim
        then scanString fuel delim typ (next t) (write buf ch)
        else Ok (typ, Some buf, t)
      else if ch =? 92 then
        if lastChar t =? EOFCHAR then Ok (LEX_ERROR, Some buf, t)
        else
          let decodedChar := SqlDecodeMap (u8 (lastChar t)) in
          let ch := if decodedChar =? DONTESCAPE then lastChar t else decodedChar in
          scanString fuel delim typ (next t) (write buf ch)
      else if ch =? EOFCHAR then Ok (LEX_ERROR, Some buf, t)
      else scanString fuel delim typ t (write buf ch)
  end.

Fixpoint scanCommentType1 (fuel : nat) (t : Tokenizer) (buf : string) : res loop_error token_result :=
  match fuel with
  | O => Err OutOfFuel
  | S fuel =>
      if lastChar t =? EOFCHAR then Ok (COMMENT, Some buf, t)
      else if lastChar t =? 10 then
        let* (t, buf) := ConsumeNext t buf in Ok (COMMENT, Some buf, t)
      else let* (t, buf) := ConsumeNext t buf in scanCommentType1 fuel t buf
  end.

Fixpoint scanCommentType2 (fuel : nat) (t : Tokenizer) (buf : string) : res loop_error token_result :=
  match fuel with
  | O => Err OutOfFuel
  | S fuel =>
      if lastChar t =? 42 then
        let* (t, buf) := ConsumeNext t buf in
        if lastChar t =? 47
        then let* (t, buf) := ConsumeNext t buf in Ok (COMMENT, Some buf, t)
        else scanCommentType2 fuel t buf
      else if lastChar t =? EOFCHAR then Ok (LEX_ERROR, Some buf, t)
      else let* (t, buf) := ConsumeNext t buf in scanCommentType2 fuel t buf
  end.

(** ** [Scan] *)
Definition single_chars : list Z := [61; 44; 59; 40; 41; 43; 42; 37; 38; 124; 94; 126].

Definition scan_default (fuel : nat) (ch : Z) (t : Tokenizer) : res loop_error token_result :=
  let t := next t in
  let char := Ok (TChar ch, None, t) in
  if ch =? EOFCHAR then Ok (TEOF, None, t)
  else if bool_decide (ch ∈ single_chars) then char
  else if ch =? 63 then
    let t := set_posVarIndex t (posVarIndex t + 1) in
    Ok (VALUE_ARG, Some (":v" +:+ FormatInt (posVarIndex t)), t)
  else if ch =? 46 then
    if isDigit (lastChar t) then scanNumber fuel true t else char
  else if ch =? 47 then
    if lastChar t =? 47 then scanCommentType1 fuel (next t) "//"
    else if lastChar t =? 42 then scanCommentType2 fuel (next t) "/*"
    else char
  else if ch =? 45 then
    if lastChar t =? 45 then scanCommentType1 fuel (next t) "--" else char
  else if ch =? 60 then
    if lastChar t =? 62 then Ok (NE, None, next t)
    else if lastChar t =? 61 then
      let t := next t in
      if lastChar t =? 62 then Ok (NULL_SAFE_EQUAL, None, next t) else Ok (LE, None, t)
    else char
  else if ch =? 62 then
    if lastChar t =? 61 then Ok (GE, None, next t) else char
  else if ch =? 33 then
    if lastChar t =? 61 then Ok (NE, None, next t) else Ok (LEX_ERROR, Some "!", t)
  else if (ch =? 39) || (ch =? 34) then scanString fuel ch STRING t ""
  else if ch =? 96 then scanString fuel ch ID t ""
  else Ok (LEX_ERROR, Some (String (char_of ch) ""), t).

Definition Scan_fuel (fuel : nat) (t : Tokenizer) : res loop_error token_result :=
  if ForceEOF t then Ok (TEOF, None, t)
  else
    let t := if lastChar t =? 0 then next t else t in
    let* t := skipBlank fuel t in
    let ch := lastChar t in
    if isLetter ch then scanIdentifier fuel t
    else if isDigit ch then scanNumber fuel false t
    else if ch =? 58 then scanBindVar fuel t
    else scan_default fuel ch t.

Definition scan_fuel (t : Tokenizer) : nat := S (S (S (String.length (InStream t)))).
Definition Scan (t : Tokenizer) : res loop_error token_result := Scan_fuel (scan_fuel t) t.

(** [Lex]: the next token that is not a comment (unless comments are
    allowed), with the semantic value handed to the parser. *)
Fixpoint Lex_loop (fuel : nat) (r : token_result) : res loop_error token_result :=
  match fuel with
  | O => Err OutOfFuel
  | S fuel =>
      let '(typ, val, t) := r in
      if decide (typ = COMMENT) then
        if AllowComments t then Ok r
        else let* r := Scan t in Lex_loop fuel r
      else Ok r
  end.

Definition has_value (typ : tok) : bool :=
  match typ with ID | STRING | NUMBER | VALUE_ARG | COMMENT => true | _ => false end.

Definition Lex (t : Tokenizer) : res loop_error (tok * option string * Tokenizer) :=
  let* r := Scan t in
  let* (typ, val, t) := Lex_loop (scan_fuel t) r in
  Ok (typ, (if has_value typ then val else None), set_errorToken t val).

(** [Error]: called by the parser. *)
Definition Tokenizer_Error (t : Tokenizer) (err : string) : Tokenizer :=
  set_LastError t
    match errorToken t with
    | Some tokn => err +:+ " at position " +:+ FormatInt (Position t) +:+ " near " +:+ tokn
    | None => err +:+ " at position " +:+ FormatInt (Position t)
    end.

(** ** Termination: the fuel of [Scan] is enough, [ConsumeNext] never panics *)

(** Bytes the tokenizer can still consume, [lastChar] included. *)
Definition remaining (t : Tokenizer) : nat :=
  if lastChar t =? EOFCHAR then 0%nat else S (String.length (InStream t)).

(** [lastChar] is [EOFCHAR] only once the stream is exhausted. *)
Definition tkn_wf (t : Tokenizer) : Prop :=
  0 <= lastChar t <= EOFCHAR /\ (lastChar t = EOFCHAR -> InStream t = "").

Lemma next_wf t : tkn_wf (next t).
Proof.
  unfold tkn_wf, next, EOFCHAR. destruct (InStream t) as [|c r]; simpl.
  - split; [lia | done].
  - pose proof (byte_of_range c). split; lia.
Qed.

Lemma next_remaining t : lastChar t <> EOFCHAR -> (remaining (next t) < remaining t)%nat.
Proof.
  unfold remaining, next. intros H.
  replace (lastChar t =? EOFCHAR) with false by lia.
  destruct (InStream t) as [|c r]; simpl; [lia|].
  destruct (_ =? _); simpl; lia.
Qed.

Lemma next_remaining_le t : tkn_wf t -> (remaining (next t) <= remaining t)%nat.
Proof.
  intros [_ H]. destruct (Z.eq_dec (lastChar t) EOFCHAR) as [He|He].
  - unfold remaining, next. rewrite (H He). simpl. lia.
  - pose proof (next_remaining t He). lia.
Qed.

Lemma remaining_len t : (remaining t <= S (String.length (InStream t)))%nat.
Proof. unfold remaining. case_if; lia. Qed.

Lemma next_remaining_len t : (remaining (next t) <= S (String.length (InStream t)))%nat.
Proof.
  unfold remaining, next. destruct (InStream t); simpl; [lia|]. destruct (_ =? _); simpl; lia.
Qed.

Create HintDb tkn.
#[export] Hint Resolve next_wf next_remaining_le : tkn.

(** The tokenizer [t'] is reached from [t] having consumed at least [n] bytes. *)
Definition advanced (n : nat) (t t' : Tokenizer) : Prop :=
  tkn_wf t' /\ (remaining t' + n <= remaining t)%nat /\ AllowComments t' = AllowComments t.

Lemma next_AllowComments t : AllowComments (next t) = AllowComments t.
Proof. unfold next. by destruct (InStream t). Qed.

Lemma advanced_refl t : tkn_wf t -> advanced 0 t t.
Proof. unfold advanced. auto with lia. Qed.

Lemma advanced_next t : tkn_wf t -> advanced 0 t (next t).
Proof.
  intros H. repeat split; try apply next_wf; [|apply next_AllowComments].
  pose proof (next_remaining_le t H). lia.
Qed.

Lemma advanced_next_lt t : tkn_wf t -> lastChar t <> EOFCHAR -> advanced 1 t (next t).
Proof.
  intros H He. repeat split; try apply next_wf; [|apply next_AllowComments].
  pose proof (next_remaining t He). lia.
Qed.

Lemma advanced_trans n m t1 t2 t3 :
  advanced n t1 t2 -> advanced m t2 t3 -> advanced (n + m) t1 t3.
Proof. unfold advanced. intros (?&?&?) (?&?&?). split; [done|]. split; [lia | congruence]. Qed.

Lemma advanced_weaken n m t1 t2 : (m <= n)%nat -> advanced n t1 t2 -> advanced m t1 t2.
Proof. unfold advanced. intros ? (?&?&?). split; [done|]. split; [lia | done]. Qed.

(** Total-correctness triples for the scanning steps. *)
Definition buf_ok (n : nat) (t : Tokenizer) (m : res loop_error (Tokenizer * string)) : Prop :=
  exists t' buf, m = Ok (t', buf) /\ advanced n t t'.
Definition tok_ok (n : nat) (t : Tokenizer) (m : res loop_error token_result) : Prop :=
  exists typ val t', m = Ok (typ, val, t') /\ advanced n t t'.

Lemma buf_bind {k n m} t (c : res loop_error (Tokenizer * string)) f :
  buf_ok n t c ->
  (forall t' buf, advanced n t t' -> tok_ok m t' (f (t', buf))) ->
  (k <= n + m)%nat ->
  tok_ok k t (rbind c f).
Proof.
  intros (t' & buf & -> & H) Hf Hk. simpl.
  destruct (Hf t' buf H) as (typ & val & t'' & -> & H').
  exists typ, val, t''. split; [done|].
  eapply advanced_weaken; [exact Hk | by eapply advanced_trans].
Qed.

Lemma buf_bind_buf {k n m} t (c : res loop_error (Tokenizer * string)) f :
  buf_ok n t c ->
  (forall t' buf, advanced n t t' -> buf_ok m t' (f (t', buf))) ->
  (k <= n + m)%nat ->
  buf_ok k t (rbind c f).
Proof.
  intros (t' & buf & -> & H) Hf Hk. simpl.
  destruct (Hf t' buf H) as (t'' & buf' & -> & H').
  exists t'', buf'. split; [done|].
  eapply advanced_weaken; [exact Hk | by eapply advanced_trans].
Qed.

Lemma tok_ret t typ val t' n : advanced n t t' -> tok_ok n t (Ok (typ, val, t')).
Proof. unfold tok_ok. eauto. Qed.

Lemma buf_ret t buf : tkn_wf t -> buf_ok 0 t (Ok (t, buf)).
Proof. unfold buf_ok. eauto using advanced_refl. Qed.

Lemma tok_ok_weaken n m t c : (m <= n)%nat -> tok_ok n t c -> tok_ok m t c.
Proof. intros Hle (typ & val & t' & -> & H). eauto using advanced_weaken, tok_ret. Qed.

Lemma buf_ok_weaken n m t c : (m <= n)%nat -> buf_ok n t c -> buf_ok m t c.
Proof. intros Hle (t' & buf & -> & H). unfold buf_ok. eauto using advanced_weaken. Qed.

Lemma advanced_wf n t t' : advanced n t t' -> tkn_wf t'.
Proof. by intros [? _]. Qed.

Lemma advanced_rem n t t' : advanced n t t' -> (remaining t' + n <= remaining t)%nat.
Proof. by intros (_ & ? & _). Qed.

Lemma ConsumeNext_ok t buf : tkn_wf t -> lastChar t <> EOFCHAR -> buf_ok 1 t (ConsumeNext t buf).
Proof.
  intros Hwf He. unfold ConsumeNext. replace (lastChar t =? EOFCHAR) with false by lia.
  unfold buf_ok. eauto using advanced_next_lt.
Qed.

Lemma copyWhile_ok p fuel t buf :
  p EOFCHAR = false -> tkn_wf t -> (remaining t < fuel)%nat -> buf_ok 0 t (copyWhile p fuel t buf).
Proof.
  intros Hp. revert t buf. induction fuel as [|fuel IH]; intros t buf Hwf Hf; [lia|].
  simpl. destruct (p (lastChar t)) eqn:Hpt; [|by apply buf_ret].
  assert (lastChar t <> EOFCHAR) as He by congruence.
  pose proof (next_remaining t He).
  destruct (IH (next t) (write buf (lastChar t))) as (t' & b & -> & Ha); [apply next_wf | lia |].
  exists t', b. split; [done|].
  apply (advanced_weaken (1 + 0)); [lia|]. eapply advanced_trans; [by apply advanced_next_lt | done].
Qed.

Lemma scanMantissa_ok fuel base t buf :
  base <= 16 -> tkn_wf t -> (remaining t < fuel)%nat -> buf_ok 0 t (scanMantissa fuel base t buf).
Proof.
  intros Hb. revert t buf. induction fuel as [|fuel IH]; intros t buf Hwf Hf; [lia|].
  simpl. destruct (Z.ltb_spec (digitVal (lastChar t)) base); [|by apply buf_ret].
  assert (lastChar t <> EOFCHAR) as He.
  { intros He. rewrite He in *. unfold digitVal, EOFCHAR in *. simpl in *. lia. }
  eapply (buf_bind_buf (n := 1) (m := 0)); [by apply ConsumeNext_ok | | lia].
  intros t' b Ha. apply IH; [by eapply advanced_wf|]. apply advanced_rem in Ha. lia.
Qed.

Lemma scanMantissa_progress fuel base t buf :
  base <= 16 -> tkn_wf t -> (remaining t < fuel)%nat -> digitVal (lastChar t) < base ->
  buf_ok 1 t (scanMantissa fuel base t buf).
Proof.
  intros Hb Hwf Hf Hd. destruct fuel as [|fuel]; [lia|]. simpl.
  replace (digitVal (lastChar t) <? base) with true by lia.
  assert (lastChar t <> EOFCHAR) as He.
  { intros He. rewrite He in Hd. unfold digitVal, EOFCHAR in Hd. simpl in Hd. lia. }
  eapply (buf_bind_buf (n := 1) (m := 0)); [by apply ConsumeNext_ok | | lia].
  intros t' b Ha. apply scanMantissa_ok; [done | by eapply advanced_wf|]. apply advanced_rem in Ha. lia.
Qed.

Lemma skipBlank_ok fuel t :
  tkn_wf t -> (remaining t < fuel)%nat -> exists t', skipBlank fuel t = Ok t' /\ advanced 0 t t'.
Proof.
  revert t. induction fuel as [|fuel IH]; intros t Hwf Hf; [lia|]. simpl.
  destruct (_ || _) eqn:Hb; [|eauto using advanced_refl].
  assert (lastChar t <> EOFCHAR) as He by (unfold EOFCHAR; lia).
  pose proof (next_remaining t He).
  destruct (IH (next t)) as (t' & -> & Ha); [apply next_wf | lia |].
  exists t'. split; [done|]. apply (advanced_trans 0 0 t (next t)); [by apply advanced_next | done].
Qed.

(** Side conditions of the triples: bounds on [remaining], well-formedness. *)
Ltac tkn_side :=
  repeat match goal with
  | H : advanced _ _ ?t' |- _ =>
      match goal with
      | _ : tkn_wf t' |- _ => fail 1
      | _ => pose proof (advanced_wf _ _ _ H); pose proof (advanced_rem _ _ _ H)
      end
  end;
  unfold EOFCHAR in *; try done; try lia.

Ltac tkn_consume :=
  match goal with
  | |- tok_ok _ _ (rbind (ConsumeNext _ _) _) =>
      eapply (buf_bind (n := 1) (m := 0)); [apply ConsumeNext_ok; tkn_side | intros ? ? ? | tkn_side]
  | |- tok_ok _ _ (rbind (scanMantissa _ _ _ _) _) =>
      eapply (buf_bind (n := 0) (m := 0)); [apply scanMantissa_ok; tkn_side | intros ? ? ? | tkn_side]
  end.

Lemma scanExponent_ok fuel t buf :
  tkn_wf t -> (remaining t < fuel)%nat -> tok_ok 0 t (scanExponent fuel t buf).
Proof.
  intros Hwf Hf. unfold scanExponent.
  case_if; [|by apply tok_ret, advanced_refl].
  tkn_consume. eapply (buf_bind (n := 0) (m := 0)); [| intros ? ? ? | lia].
  - case_if; [|apply buf_ret; tkn_side].
    eapply buf_ok_weaken; [|apply ConsumeNext_ok]; tkn_side.
  - tkn_consume. apply tok_ret, advanced_refl. tkn_side.
Qed.

Lemma scanFraction_ok fuel t buf :
  tkn_wf t -> (remaining t < fuel)%nat -> tok_ok 0 t (scanFraction fuel t buf).
Proof.
  intros Hwf Hf. unfold scanFraction.
  eapply (buf_bind (n := 0) (m := 0)); [| intros ? ? ?; apply scanExponent_ok; tkn_side | lia].
  case_if; [|by apply buf_ret].
  eapply (buf_bind_buf (n := 1) (m := 0)); [apply ConsumeNext_ok; tkn_side | | lia].
  intros ? ? ?. apply scanMantissa_ok; tkn_side.
Qed.

(** A number that starts at a digit consumes it. *)
Lemma scanNumber_gen fuel b t n :
  tkn_wf t -> (remaining t < fuel)%nat ->
  n = 0%nat \/ (n = 1%nat /\ b = false /\ isDigit (lastChar t) = true) ->
  tok_ok n t (scanNumber fuel b t).
Proof.
  intros Hwf Hf Hn. unfold scanNumber. destruct b.
  { destruct Hn as [->|(_ & ? & _)]; [|done]. tkn_consume. apply scanExponent_ok; tkn_side. }
  case_if.
  2:{ eapply (buf_bind (n := n) (m := 0)); [| intros ? ? ?; apply scanFraction_ok; tkn_side | lia].
      destruct Hn as [->|(-> & _ & Hd)]; [apply scanMantissa_ok; tkn_side|].
      apply scanMantissa_progress; [done..|]. unfold isDigit in Hd. unfold digitVal. rewrite Hd. lia. }
  assert (n <= 1)%nat by lia. tkn_consume. case_if.
  - tkn_consume. tkn_consume. apply tok_ret, advanced_refl. tkn_side.
  - tkn_consume.
    assert (exists bd t3 b3, (if (lastChar t'0 =? 56) || (lastChar t'0 =? 57)
        then let* (t, buf) := scanMantissa fuel 10 t'0 buf0 in Ok (true, t, buf)
        else Ok (false, t'0, buf0)) = Ok (bd, t3, b3) /\ advanced 0 t'0 t3) as (bd & t3 & b3 & -> & H3).
    { case_if.
      - destruct (scanMantissa_ok fuel 10 t'0 buf0) as (t3 & b3 & -> & H3); [tkn_side..|].
        by exists true, t3, b3.
      - exists false, t'0, buf0. split; [done|]. apply advanced_refl. tkn_side. }
    cbn [rbind]. case_if.
    + destruct (scanFraction_ok fuel t3 b3) as (ty & v & t4 & -> & H4); [tkn_side..|].
      apply tok_ret. by apply (advanced_trans 0 0 _ t3).
    + destruct bd; by apply tok_ret.
Qed.

Lemma scanNumber_ok fuel b t :
  tkn_wf t -> (remaining t < fuel)%nat -> tok_ok 0 t (scanNumber fuel b t).
Proof. intros. apply scanNumber_gen; auto. Qed.

Lemma scanString_ok fuel delim typ t buf :
  delim <> EOFCHAR -> tkn_wf t -> (remaining t < fuel)%nat ->
  tok_ok 0 t (scanString fuel delim typ t buf).
Proof.
  intros Hd. revert t buf. induction fuel as [|fuel IH]; intros t buf Hwf Hf; [lia|]. simpl.
  pose proof (advanced_next t Hwf) as Hn.
  pose proof (advanced_next (next t) (next_wf t)) as Hnn.
  assert (lastChar t <> EOFCHAR -> forall b, tok_ok 0 t (scanString fuel delim typ (next t) b)) as Hrec.
  { intros He b. pose proof (next_remaining t He).
    destruct (IH (next t) b) as (ty & v & t' & -> & Ha); [apply next_wf | lia |].
    apply tok_ret. by apply (advanced_trans 0 0 _ (next t)). }
  assert (lastChar t <> EOFCHAR -> forall b, tok_ok 0 t (scanString fuel delim typ (next (next t)) b)) as Hrec2.
  { intros He b. pose proof (next_remaining t He). pose proof (advanced_rem _ _ _ Hnn).
    destruct (IH (next (next t)) b) as (ty & v & t' & -> & Ha); [apply next_wf | lia |].
    apply tok_ret. apply (advanced_trans 0 0 _ (next t)); [done|].
    by apply (advanced_trans 0 0 _ (next (next t))). }
  destruct (Z.eqb_spec (lastChar t) delim).
  { destruct (_ =? delim); [apply Hrec2; congruence | by apply tok_ret]. }
  destruct (Z.eqb_spec (lastChar t) 92).
  { destruct (_ =? EOFCHAR); [by apply tok_ret|]. apply Hrec2. unfold EOFCHAR; lia. }
  destruct (Z.eqb_spec (lastChar t) EOFCHAR); [by apply tok_ret | by apply Hrec].
Qed.

Lemma scanComment1_ok fuel t buf :
  tkn_wf t -> (remaining t < fuel)%nat -> tok_ok 0 t (scanCommentType1 fuel t buf).
Proof.
  revert t buf. induction fuel as [|fuel IH]; intros t buf Hwf Hf; [lia|]. simpl.
  destruct (Z.eqb_spec (lastChar t) EOFCHAR); [by apply tok_ret, advanced_refl|].
  destruct (_ =? 10).
  - tkn_consume. apply tok_ret, advanced_refl. tkn_side.
  - tkn_consume. apply IH; tkn_side.
Qed.

Lemma scanComment2_ok fuel t buf :
  tkn_wf t -> (remaining t < fuel)%nat -> tok_ok 0 t (scanCommentType2 fuel t buf).
Proof.
  revert t buf. induction fuel as [|fuel IH]; intros t buf Hwf Hf; [lia|]. simpl.
  destruct (Z.eqb_spec (lastChar t) 42) as [He|He].
  - tkn_consume. destruct (Z.eqb_spec (lastChar t') 47).
    + tkn_consume. apply tok_ret, advanced_refl. tkn_side.
    + apply IH; tkn_side.
  - destruct (Z.eqb_spec (lastChar t) EOFCHAR); [by apply tok_ret, advanced_refl|].
    tkn_consume. apply IH; tkn_side.
Qed.

Lemma tok_ok_advanced n m t t' c : advanced n t t' -> tok_ok m t' c -> tok_ok (n + m) t c.
Proof. intros H (ty & v & t'' & -> & H'). apply tok_ret. by eapply advanced_trans. Qed.

Lemma set_posVarIndex_advanced n t t' k : advanced n t t' -> advanced n t (set_posVarIndex t' k).
Proof. done. Qed.

#[export] Hint Resolve scanNumber_ok scanString_ok scanComment1_ok scanComment2_ok
  set_posVarIndex_advanced advanced_refl : tkn.

(** The punctuation cases consume one byte, and may look one further. *)
Lemma scan_default_ok fuel t :
  tkn_wf t -> (remaining t < fuel)%nat -> lastChar t <> EOFCHAR ->
  tok_ok 1 t (scan_default fuel (lastChar t) t).
Proof.
  intros Hwf Hf He. pose proof (advanced_next_lt t Hwf He) as Hn.
  pose proof (advanced_next (next t) (next_wf t)) as Hn2.
  pose proof (advanced_next (next (next t)) (next_wf _)) as Hn3.
  pose proof (advanced_rem _ _ _ Hn). pose proof (advanced_rem _ _ _ Hn2).
  unfold scan_default.
  replace (lastChar t =? EOFCHAR) with false by lia.
  repeat case_match;
    try (apply tok_ret; done);
    try (apply tok_ret;
         first [ apply (advanced_trans 1 0 _ (next t)); [done|]; done
               | apply (advanced_trans 1 0 _ (next t)); [done|];
                 apply (advanced_trans 0 0 _ (next (next t))); done ]);
    try (apply (tok_ok_advanced 1 0 _ (next t)); [done|];
         first [ apply scanNumber_ok | apply scanString_ok ]; [unfold EOFCHAR in *; lia.. | apply next_wf | lia] || fail);
    try (apply (tok_ok_advanced 1 0 _ (next t)); [done|];
         first [ apply scanNumber_ok ]; [apply next_wf | lia]);
    try (apply (tok_ok_advanced 1 0 _ (next t)); [done|];
         apply (tok_ok_advanced 0 0 _ (next (next t))); [done|];
         first [ apply scanComment1_ok | apply scanComment2_ok ]; [apply next_wf | lia]).
Qed.

Lemma scanIdentifier_ok fuel t :
  tkn_wf t -> (remaining t < fuel)%nat -> lastChar t <> EOFCHAR ->
  tok_ok 1 t (scanIdentifier fuel t) /\ tok_ok 1 t (scanBindVar fuel t).
Proof.
  intros Hwf Hf He. pose proof (advanced_next_lt t Hwf He) as Hn. pose proof (advanced_rem _ _ _ Hn).
  split; unfold scanIdentifier, scanBindVar.
  - destruct (copyWhile_ok (fun ch => isLetter ch || isDigit ch) fuel (next t) (write "" (lastChar t)))
      as (t' & b & -> & Ha); [done | apply next_wf | lia |]. simpl.
    case_match; apply tok_ret, (advanced_trans 1 0 _ (next t)); done.
  - destruct (copyWhile_ok (fun ch => isLetter ch || isDigit ch || (ch =? 46)) fuel (next t) (write "" (lastChar t)))
      as (t' & b & -> & Ha); [done | apply next_wf | lia |]. simpl.
    case_match; apply tok_ret, (advanced_trans 1 0 _ (next t)); done.
Qed.

(** [Scan] returns a token from every state the tokenizer can be in, and
    consumes input unless it reports the end of input. *)
Lemma Scan_spec t :
  tkn_wf t ->
  exists typ val t', Scan t = Ok (typ, val, t') /\
    advanced (if decide (typ = TEOF) then 0 else 1) t t'.
Proof.
  intros Hwf. unfold Scan, Scan_fuel.
  destruct (ForceEOF t).
  { exists TEOF, None, t. split; [done|]. by apply advanced_refl. }
  set (t0 := if lastChar t =? 0 then next t else t).
  assert (advanced 0 t t0) as H0.
  { subst t0. case_if; [by apply advanced_next | by apply advanced_refl]. }
  assert (remaining t0 < scan_fuel t)%nat as Hf.
  { apply advanced_rem in H0. pose proof (remaining_len t). unfold scan_fuel. lia. }
  destruct (skipBlank_ok (scan_fuel t) t0) as (t1 & -> & H1); [by eapply advanced_wf | done |]. cbn [rbind].
  pose proof (advanced_trans _ _ _ _ _ H0 H1) as H01. simpl in H01.
  pose proof (advanced_rem _ _ _ H1). pose proof (advanced_wf _ _ _ H1) as Hwf1.
  assert (forall c, tok_ok 1 t1 c -> exists typ val t', c = Ok (typ, val, t') /\
    advanced (if decide (typ = TEOF) then 0 else 1) t t') as Hfin.
  { intros c (ty & v & t' & -> & Ha). exists ty, v, t'. split; [done|].
    apply (advanced_weaken 1); [case_decide; lia|]. by apply (advanced_trans 0 1 _ t1). }
  destruct (Z.eq_dec (lastChar t1) EOFCHAR) as [He|He].
  - rewrite He. exists TEOF, None, (next t1). split; [done|].
    apply (advanced_trans 0 0 _ t1); [done|]. by apply advanced_next.
  - destruct (scanIdentifier_ok (scan_fuel t) t1) as [Hi Hb]; [done | lia | done |].
    case_if; [by apply Hfin|].
    case_if; [apply Hfin, scanNumber_gen; [done | lia | auto]|].
    case_if; [by apply Hfin | apply Hfin, scan_default_ok; [done | lia | done]].
Qed.

Lemma Lex_loop_ok fuel typ val t :
  tkn_wf t -> (0 < fuel)%nat -> (typ = COMMENT -> S (remaining t) < fuel)%nat ->
  exists typ' val' t', Lex_loop fuel (typ, val, t) = Ok (typ', val', t') /\ tkn_wf t' /\
    (typ' = COMMENT -> AllowComments t' = true).
Proof.
  revert typ val t. induction fuel as [|fuel IH]; intros typ val t Hwf H0 Hf; [lia|].
  cbn [Lex_loop]. case_decide as Hc; [|by exists typ, val, t].
  destruct (AllowComments t) eqn:Ha; [by exists typ, val, t|].
  destruct (Scan_spec t Hwf) as (ty & v & t' & -> & Hadv). cbn [rbind].
  specialize (Hf Hc). pose proof (advanced_rem _ _ _ Hadv) as Hr.
  apply IH; [by eapply advanced_wf | lia |].
  intros ->. rewrite decide_False in Hr by done. lia.
Qed.

Lemma Lex_ok t :
  tkn_wf t -> exists typ val t', Lex t = Ok (typ, val, t') /\ tkn_wf t' /\
    (typ = COMMENT -> AllowComments t' = true).
Proof.
  intros Hwf. unfold Lex.
  destruct (Scan_spec t Hwf) as (ty & v & t' & -> & Hadv). cbn [rbind].
  destruct (Lex_loop_ok (scan_fuel t) ty v t') as (ty' & v' & t'' & -> & Hwf' & Hc).
  - by eapply advanced_wf.
  - unfold scan_fuel. lia.
  - intros ->. rewrite decide_False in Hadv by done. apply advanced_rem in Hadv.
    pose proof (remaining_len t). unfold scan_fuel. lia.
  - exists ty', (if has_value ty' then v' else None), (set_errorToken t'' v'). done.
Qed.

Lemma NewStringTokenizer_wf sql : tkn_wf (NewStringTokenizer sql).
Proof. unfold tkn_wf, EOFCHAR; simpl. lia. Qed.

(** ** String literals: the printer and the tokenizer agree *)

(** The tokenizer is about to read exactly the bytes of [s]. *)
Definition feeds (t : Tokenizer) (s : string) : Prop :=
  match s with
  | EmptyString => lastChar t = EOFCHAR /\ InStream t = ""
  | String c r => lastChar t = byte_of c /\ InStream t = r
  end.

Lemma feeds_next t c s : feeds t (String c s) -> feeds (next t) s.
Proof.
  intros [_ Hr]. unfold next. rewrite Hr. destruct s as [|d s]; simpl; auto.
Qed.

Lemma feeds_last_ne t s d :
  feeds t s -> (forall r, s <> String (char_of d) r) -> 0 <= d < 256 -> lastChar t <> d.
Proof.
  destruct s as [|c r]; intros [Hl _] Hd Hr; rewrite Hl; [unfold EOFCHAR; lia|].
  intros <-. apply (Hd r). by rewrite char_of_byte_of.
Qed.

Lemma write_byte_of buf c s : write buf (byte_of c) +:+ s = buf +:+ String c s.
Proof. unfold write. rewrite char_of_byte_of, <- sapp_assoc. done. Qed.

Lemma scanString_encode_body fuel typ s t buf rest :
  feeds t (encode_body s +:+ String "'" rest) ->
  (forall r, rest <> String "'" r) ->
  (String.length (encode_body s) < fuel)%nat ->
  exists t', scanString fuel 39 typ t buf = Ok (typ, Some (buf +:+ s), t') /\ feeds t' rest.
Proof.
  intros Hfeed Hrest. revert fuel t buf Hfeed.
  induction s as [|c s IH]; intros [|fuel] t buf Hfeed Hf; try lia; cbn [scanString].
  - cbn [encode_body] in Hfeed. rewrite sapp_nil_l in Hfeed.
    pose proof (feeds_next _ _ _ Hfeed) as Hn. destruct Hfeed as [Hl _].
    change (byte_of "'") with 39 in Hl. rewrite Hl, Z.eqb_refl.
    pose proof (feeds_last_ne _ _ 39 Hn Hrest ltac:(lia)) as Hne.
    replace (lastChar (next t) =? 39) with false by lia.
    exists (next t). by rewrite sapp_nil_r.
  - cbn [encode_body] in Hfeed, Hf. rewrite slength_app in Hf.
    destruct (encode_char_cases c) as [(He & H39 & H92) | (e & He & Hd & H255)];
      rewrite He in Hfeed, Hf; simpl in Hf; rewrite <- ?sapp_assoc, !sapp_cons, ?sapp_nil_l in Hfeed.
    + pose proof (feeds_next _ _ _ Hfeed) as Hn. destruct Hfeed as [Hl _]. rewrite Hl.
      pose proof (byte_of_range c).
      replace (byte_of c =? 39) with false by lia.
      replace (byte_of c =? 92) with false by lia.
      replace (byte_of c =? EOFCHAR) with false by (unfold EOFCHAR; lia).
      destruct (IH fuel (next t) (write buf (byte_of c)) Hn) as (t' & -> & Ht'); [lia|].
      exists t'. split; [|exact Ht']. rewrite (write_byte_of buf c s). reflexivity.
    + pose proof (feeds_next _ _ _ Hfeed) as Hn. pose proof (feeds_next _ _ _ Hn) as Hnn.
      destruct Hfeed as [Hl _], Hn as [Hl2 _]. rewrite Hl, Hl2.
      change (byte_of "\") with 92. pose proof (byte_of_range e).
      replace (92 =? 39) with false by done. replace (92 =? 92) with true by done.
      replace (byte_of e =? EOFCHAR) with false by (unfold EOFCHAR; lia).
      unfold u8. rewrite Z.mod_small by lia. rewrite Hd.
      replace (byte_of c =? DONTESCAPE) with false by lia.
      destruct (IH fuel (next (next t)) (write buf (byte_of c)) Hnn) as (t' & -> & Ht'); [lia|].
      exists t'. split; [|exact Ht']. rewrite (write_byte_of buf c s). reflexivity.
Qed.

Lemma Scan_encodeSql_feeds fuel t s rest :
  ForceEOF t = false -> feeds t (encodeSql (SString s) +:+ rest) ->
  (forall r, rest <> String "'" r) -> (S (String.length (InStream t)) < fuel)%nat ->
  exists t', Scan_fuel fuel t = Ok (STRING, Some s, t') /\ feeds t' rest.
Proof.
  intros Hforce Hfeed Hrest Hfuel. cbn [encodeSql] in Hfeed.
  rewrite <- !sapp_assoc, !sapp_cons, !sapp_nil_l in Hfeed.
  pose proof (feeds_next _ _ _ Hfeed) as Hn. destruct Hfeed as [Hl Hin].
  change (byte_of "'") with 39 in Hl.
  unfold Scan_fuel. rewrite Hforce, Hl. cbn [Z.eqb Pos.eqb].
  assert (skipBlank fuel t = Ok t) as ->.
  { destruct fuel; [lia|]. cbn [skipBlank]. rewrite Hl. done. }
  cbn [rbind]. rewrite Hl.
  change (isLetter 39) with false. change (isDigit 39) with false.
  unfold scan_default. cbn -[scanString next].
  destruct (scanString_encode_body fuel STRING s (next t) "" rest) as (t' & Heq & Ht');
    [done | done | |].
  { rewrite Hin, slength_app in Hfuel. lia. }
  rewrite sapp_nil_l in Heq. eauto.
Qed.

Lemma Scan_fuel_first fuel sql :
  sql <> "" -> byte_of (match sql with String c _ => c | _ => "0" end) <> 0 ->
  Scan_fuel fuel (NewStringTokenizer sql) = Scan_fuel fuel (next (NewStringTokenizer sql)).
Proof.
  intros Hne Hc. destruct sql as [|c r]; [done|]. unfold Scan_fuel.
  cbn [ForceEOF NewStringTokenizer lastChar next InStream set_read].
  replace (byte_of c =? 0) with false by lia. done.
Qed.

Lemma feeds_NewStringTokenizer c r :
  feeds (next (NewStringTokenizer (String c r))) (String c r).
Proof. done. Qed.

(** ** Properties *)

(** C21: escaping is injection-proof.  The literal that the printer writes
    for any byte string is scanned back by the tokenizer as one STRING
    token with exactly that value, and scanning stops right after the
    closing quote, so nothing of the value can reach the rest of the
    statement. *)
Theorem Scan_encodeSql_roundtrip (s rest : string) :
  (forall r, rest <> String "'" r) ->
  exists t', Scan (NewStringTokenizer (encodeSql (SString s) +:+ rest))
             = Ok (STRING, Some s, t') /\ feeds t' rest.
Proof.
  intros Hrest. cbn [encodeSql]. unfold Scan. rewrite Scan_fuel_first by done.
  rewrite <- sapp_assoc, sapp_cons, sapp_nil_l.
  apply Scan_encodeSql_feeds; [done | | done |].
  - cbn [encodeSql]. rewrite <- !sapp_assoc, sapp_cons, sapp_nil_l. apply feeds_NewStringTokenizer.
  - unfold scan_fuel. simpl. lia.
Qed.

Lemma Scan_encodeSql_roundtrip_witness :
  exists t', Scan (NewStringTokenizer (encodeSql (SString "it's") +:+ " or 1=1"))
             = Ok (STRING, Some "it's", t') /\ feeds t' " or 1=1".
Proof. apply (Scan_encodeSql_roundtrip "it's" " or 1=1"). intros r Hr. discriminate Hr. Defined.

(** Lexing is total.  From every state the tokenizer can reach, [Lex]
    returns a token: no loop runs forever, the "unexpected EOF" panic of
    [ConsumeNext] is never reached, and comments are skipped unless the
    caller allows them. *)
Theorem Lex_total (t : Tokenizer) :
  tkn_wf t ->
  exists typ val t', Lex t = Ok (typ, val, t') /\ tkn_wf t' /\
    (typ = COMMENT -> AllowComments t' = true).
Proof. apply Lex_ok. Qed.

Lemma Lex_total_witness :
  exists typ val t', Lex (NewStringTokenizer "/* c */ select 1") = Ok (typ, val, t') /\ tkn_wf t' /\
    (typ = COMMENT -> AllowComments t' = true).
Proof. apply (Lex_total (NewStringTokenizer "/* c */ select 1")). apply NewStringTokenizer_wf. Defined.

Example Lex_example :
  (let* (typ, val, _) := Lex (NewStringTokenizer "/* c */ select 1") in Ok (typ, val)) = Ok (SELECT, None).
Proof. vm_compute. reflexivity. Qed.
