(* ===== verification/Ast.v ===== *)
(** * Syntax trees and their printing ([sqlparser/ast.go], [sqlparser/tracked_buffer.go])

    The node types are Go interfaces implemented by structs; here they are
    mutually inductive types, one constructor per struct.  [SelectStatement]
    occurs in [Subquery], so the whole family is one definition.  A byte
    slice or a pointer that the code compares with [nil] is an [option];
    a node's [Format] method is a function returning the bytes it appends
    to the buffer, or the panic it raises. *)
From S2P Require Import Prelude Errors GoLib SqlTypes Token.
From Stdlib Require Import Ascii.
Open Scope Z_scope.

(** ** Nodes *)
Record TableName := mkTableName { TableName_Name : string; TableName_Qualifier : option string }.
Record colname := mkColName { ColName_Name : string; ColName_Qualifier : option string }.
Record IndexHints := mkIndexHints { IndexHints_Type : string; IndexHints_Indexes : list string }.

Inductive ValExpr : Type :=
| StrVal (b : string)
| NumVal (b : string)
| ValArg (b : string)
| NullVal
| ColName (c : colname)
| ValTuple (l : list ValExpr)
| SubqueryVal (select : SelectStatement)
| BinaryExpr (operator : ascii) (left right : Expr)
| UnaryExpr (operator : ascii) (expr : Expr)
| FuncExpr (name : string) (distinct : bool) (exprs : list SelectExpr)
| CaseExpr (expr : option ValExpr) (whens : list When) (els : option ValExpr)
with Expr : Type :=
| EBool (e : BoolExpr)
| EVal (e : ValExpr)
with BoolExpr : Type :=
| AndExpr (left right : BoolExpr)
| OrExpr (left right : BoolExpr)
| NotExpr (expr : BoolExpr)
| ParenBoolExpr (expr : BoolExpr)
| ComparisonExpr (operator : string) (left right : ValExpr)
| RangeCond (operator : string) (left from to : ValExpr)
| NullCheck (operator : string) (expr : ValExpr)
| ExistsExpr (subquery : SelectStatement)
with When : Type :=
| mkWhen (cond : BoolExpr) (val : ValExpr)
with SelectExpr : Type :=
| StarExpr (tableName : option string)
| NonStarExpr (expr : Expr) (as_ : option string)
with TableExpr : Type :=
| AliasedTableExpr (expr : SimpleTableExpr) (as_ : option string) (hints : option IndexHints)
| ParenTableExpr (expr : TableExpr)
| JoinTableExpr (left : TableExpr) (join : string) (right : TableExpr) (on : option BoolExpr)
with SimpleTableExpr : Type :=
| TableNameExpr (t : TableName)
| SubqueryTable (select : SelectStatement)
with Where : Type :=
| mkWhere (type : string) (expr : BoolExpr)
with Order : Type :=
| mkOrder (expr : ValExpr) (direction : string)
with Limit : Type :=
| mkLimit (offset : option ValExpr) (rowcount : ValExpr)
with SelectStatement : Type :=
| Select (comments : list string) (distinct : string) (selectExprs : list SelectExpr)
    (from : list TableExpr) (where_ : option Where) (groupBy : list ValExpr)
    (having : option Where) (orderBy : list Order) (limit : option Limit) (lock : string)
| Union (type : string) (left right : SelectStatement)
| SimpleSelect (comments : list string) (distinct : string) (selectExprs : list SelectExpr).

(** [Tuple] is [ValTuple] or [*Subquery]. *)
Inductive Tuple : Type :=
| TupleVals (l : list ValExpr)
| TupleSubquery (select : SelectStatement).
Definition Tuple_ValExpr (t : Tuple) : ValExpr :=
  match t with TupleVals l => ValTuple l | TupleSubquery s => SubqueryVal s end.

Inductive InsertRows : Type :=
| RowsSelect (s : SelectStatement)
| RowsValues (v : list Tuple).

Record UpdateExpr := mkUpdateExpr { UpdateExpr_Name : colname; UpdateExpr_Expr : ValExpr }.

(** [SELECT] as a record: the fields of the [Select] struct. *)
Record select := mkSelect {
  Sel_Comments : list string; Sel_Distinct : string; Sel_Exprs : list SelectExpr;
  Sel_From : list TableExpr; Sel_Where : option Where; Sel_GroupBy : list ValExpr;
  Sel_Having : option Where; Sel_OrderBy : list Order; Sel_Limit : option Limit; Sel_Lock : string }.
Definition select_node (s : select) : SelectStatement :=
  Select (Sel_Comments s) (Sel_Distinct s) (Sel_Exprs s) (Sel_From s) (Sel_Where s)
    (Sel_GroupBy s) (Sel_Having s) (Sel_OrderBy s) (Sel_Limit s) (Sel_Lock s).

Record insert := mkInsert {
  Ins_Comments : list string; Ins_Ignore : string; Ins_Table : TableName;
  Ins_Columns : option (list SelectExpr); Ins_Rows : InsertRows;
  Ins_OnDup : option (list UpdateExpr) }.
Record update := mkUpdate {
  Upd_Comments : list string; Upd_Table : TableName; Upd_Exprs : list UpdateExpr;
  Upd_Where : option Where; Upd_OrderBy : list Order; Upd_Limit : option Limit }.
Record delete := mkDelete {
  Del_Comments : list string; Del_Table : TableName;
  Del_Where : option Where; Del_OrderBy : list Order; Del_Limit : option Limit }.
Record replace := mkReplace {
  Rep_Comments : list string; Rep_Table : TableName;
  Rep_Columns : option (list SelectExpr); Rep_Rows : InsertRows }.
Record truncate := mkTruncate {
  Trunc_Comments : list string; Trunc_TableOpt : string; Trunc_Table : TableName }.

Inductive Statement : Type :=
| StSelect (s : select)
| StUnion (type : string) (left right : SelectStatement)
| StSimpleSelect (comments : list string) (distinct : string) (exprs : list SelectExpr)
| StInsert (s : insert)
| StUpdate (s : update)
| StDelete (s : delete)
| StReplace (s : replace)
| StTruncate (s : truncate)
| StSet (comments : list string) (exprs : list UpdateExpr)
| StDDL (action ignore table newName : string)
| StBegin
| StCommit
| StRollback
| StAdmin (region : TableName) (columns : option (list SelectExpr)) (rows : InsertRows)
| StAdminHelp
| StShow (section key : string) (from : option ValExpr) (likeOrWhere : option Expr)
| StUseDB (db : string).

(** Operator and clause names. *)
Definition AST_DISTINCT : string := "distinct ".
Definition AST_FOR_UPDATE : string := " for update".
Definition AST_SHARE_MODE : string := " lock in share mode".
Definition AST_CREATE : string := "create".
Definition AST_ALTER : string := "alter".
Definition AST_DROP : string := "drop".
Definition AST_RENAME : string := "rename".
Definition AST_WHERE : string := "where".
Definition AST_HAVING : string := "having".
Definition AST_IN : string := "in".
Definition AST_BETWEEN : string := "between".
Definition AST_NOT_BETWEEN : string := "not between".
Definition AST_ASC : string := "asc".
Definition AST_DESC : string := "desc".
Definition AST_TABLE : string := " table ".

(** [NewWhere]. *)
Definition NewWhere (typ : string) (expr : option BoolExpr) : option Where :=
  match expr with None => None | Some e => Some (mkWhere typ e) end.

(** ** [TrackedBuffer.Fprintf] *)

(** The arguments of [Fprintf]: a byte for [%c], a string or byte slice
    for [%s] and [%a], a node for [%v] given by what its [Format] writes,
    or a nil interface. *)
Inductive fval : Type :=
| FByte (c : ascii)
| FStr (s : string)
| FNode (out : res error string)
| FNil.

(** Text written by one verb. *)
Definition Fprintf_verb (verb : ascii) (v : fval) : res error string :=
  match verb with
  | "c"%char => match v with FByte c => Ok (String c "") | _ => Panic (PString "unexpected type") end
  | "s"%char => match v with FStr s => Ok s | _ => Panic (PString "unexpected type") end
  | "v"%char => match v with FNode out => out | _ => Panic (PRuntime "interface conversion") end
  | "a"%char => match v with FStr s => Ok s | _ => Panic (PRuntime "interface conversion") end
  | _ => Panic (PString "unexpected")
  end.

Fixpoint Fprintf (format : string) (values : list fval) : res error string :=
  match format with
  | EmptyString => Ok ""
  | String "%" EmptyString => Panic (PRuntime "index out of range")
  | String "%" (String verb rest) =>
      match values with
      | [] => match verb with
              | "c"%char | "s"%char | "v"%char | "a"%char => Panic (PRuntime "index out of range")
              | _ => Panic (PString "unexpected")
              end
      | v :: values =>
          let* out := Fprintf_verb verb v in
          let* out' := Fprintf rest values in
          Ok (out +:+ out')
      end
  | String c rest => let* out := Fprintf rest values in Ok (String c out)
  end.

(** Loops that print a list of items, each after a prefix. *)
Fixpoint format_items (prefix sep : string) (l : list fval) : res error string :=
  match l with
  | [] => Ok ""
  | v :: l =>
      let* out := Fprintf "%s%v" [FStr prefix; v] in
      let* out' := format_items sep sep l in
      Ok (out +:+ out')
  end.

(** Several [Fprintf] calls in a row. *)
Definition seq_out (a b : res error string) : res error string :=
  let* x := a in let* y := b in Ok (x +:+ y).

(** ** [Format] *)

(** [escape]: keywords are quoted. *)
Definition escape (name : string) : res error string :=
  match keyword name with
  | Some _ => Fprintf "`%s`" [FStr name]
  | None => Fprintf "%s" [FStr name]
  end.

Definition qualified_Format (name : string) (qualifier : option string) : res error string :=
  match qualifier with
  | Some q => seq_out (escape q) (seq_out (Fprintf "." []) (escape name))
  | None => escape name
  end.
Definition TableName_Format (t : TableName) : res error string :=
  qualified_Format (TableName_Name t) (TableName_Qualifier t).
Definition ColName_Format (c : colname) : res error string :=
  qualified_Format (ColName_Name c) (ColName_Qualifier c).

Definition Comments_Format (l : list string) : res error string :=
  foldr (fun c out => seq_out (Fprintf "%s " [FStr c]) out) (Ok "") l.

Fixpoint IndexHints_items (prefix : string) (l : list string) : res error string :=
  match l with
  | [] => Ok ""
  | n :: l => seq_out (Fprintf "%s%s" [FStr prefix; FStr n]) (IndexHints_items ", " l)
  end.
Definition IndexHints_Format (h : IndexHints) : res error string :=
  seq_out (Fprintf " %s index " [FStr (IndexHints_Type h)])
    (seq_out (IndexHints_items "(" (IndexHints_Indexes h)) (Fprintf ")" [])).

(** [ValArg.Format] drops the leading colon; an empty one has none. *)
Definition ValArg_Format (b : string) : res error string :=
  let* arg := sslice b 1 (slen b) in Fprintf "%a" [FStr arg].

Fixpoint ValExpr_Format (node : ValExpr) : res error string :=
  match node with
  | StrVal b => Ok (EncodeSql (MakeString b))
  | NumVal b => Fprintf "%s" [FStr b]
  | ValArg b => ValArg_Format b
  | NullVal => Fprintf "null" []
  | ColName c => ColName_Format c
  | ValTuple l =>
      Fprintf "(%v)" [FNode (format_items "" ", " (map (fun n => FNode (ValExpr_Format n)) l))]
  | SubqueryVal s => Fprintf "(%v)" [FNode (SelectStatement_Format s)]
  | BinaryExpr op l r =>
      Fprintf "%v%c%v" [FNode (Expr_Format l); FByte op; FNode (Expr_Format r)]
  | UnaryExpr op e => Fprintf "%c%v" [FByte op; FNode (Expr_Format e)]
  | FuncExpr name distinct exprs =>
      Fprintf "%s(%s%v)"
        [FStr name; FStr (if distinct then "distinct " else "");
         FNode (format_items "" ", " (map (fun n => FNode (SelectExpr_Format n)) exprs))]
  | CaseExpr expr whens els =>
      seq_out (Fprintf "case " [])
        (seq_out (match expr with
                  | Some e => Fprintf "%v " [FNode (ValExpr_Format e)]
                  | None => Ok ""
                  end)
          (seq_out (foldr (fun w out => seq_out (Fprintf "%v " [FNode (When_Format w)]) out) (Ok "") whens)
            (seq_out (match els with
                      | Some e => Fprintf "else %v " [FNode (ValExpr_Format e)]
                      | None => Ok ""
                      end)
              (Fprintf "end" []))))
  end
with Expr_Format (node : Expr) : res error string :=
  match node with
  | EBool e => BoolExpr_Format e
  | EVal e => ValExpr_Format e
  end
with BoolExpr_Format (node : BoolExpr) : res error string :=
  match node with
  | AndExpr l r => Fprintf "%v and %v" [FNode (BoolExpr_Format l); FNode (BoolExpr_Format r)]
  | OrExpr l r => Fprintf "%v or %v" [FNode (BoolExpr_Format l); FNode (BoolExpr_Format r)]
  | NotExpr e => Fprintf "not %v" [FNode (BoolExpr_Format e)]
  | ParenBoolExpr e => Fprintf "(%v)" [FNode (BoolExpr_Format e)]
  | ComparisonExpr op l r =>
      Fprintf "%v %s %v" [FNode (ValExpr_Format l); FStr op; FNode (ValExpr_Format r)]
  | RangeCond op lft from to =>
      Fprintf "%v %s %v and %v"
        [FNode (ValExpr_Format lft); FStr op; FNode (ValExpr_Format from); FNode (ValExpr_Format to)]
  | NullCheck op e => Fprintf "%v %s" [FNode (ValExpr_Format e); FStr op]
  | ExistsExpr s => Fprintf "exists %v" [FNode (Fprintf "(%v)" [FNode (SelectStatement_Format s)])]
  end
with When_Format (node : When) : res error string :=
  match node with
  | mkWhen c v => Fprintf "when %v then %v" [FNode (BoolExpr_Format c); FNode (ValExpr_Format v)]
  end
with SelectExpr_Format (node : SelectExpr) : res error string :=
  match node with
  | StarExpr t =>
      seq_out (match t with Some t => Fprintf "%s." [FStr t] | None => Ok "" end) (Fprintf "*" [])
  | NonStarExpr e as_ =>
      seq_out (Fprintf "%v" [FNode (Expr_Format e)])
        (match as_ with Some a => Fprintf " as %s" [FStr a] | None => Ok "" end)
  end
with TableExpr_Format (node : TableExpr) : res error string :=
  match node with
  | AliasedTableExpr e as_ hints =>
      seq_out (Fprintf "%v" [FNode (SimpleTableExpr_Format e)])
        (seq_out (match as_ with Some a => Fprintf " as %s" [FStr a] | None => Ok "" end)
          (match hints with Some h => Fprintf "%v" [FNode (IndexHints_Format h)] | None => Ok "" end))
  | ParenTableExpr e => Fprintf "(%v)" [FNode (TableExpr_Format e)]
  | JoinTableExpr l join r on =>
      seq_out (Fprintf "%v %s %v" [FNode (TableExpr_Format l); FStr join; FNode (TableExpr_Format r)])
        (match on with Some e => Fprintf " on %v" [FNode (BoolExpr_Format e)] | None => Ok "" end)
  end
with SimpleTableExpr_Format (node : SimpleTableExpr) : res error string :=
  match node with
  | TableNameExpr t => TableName_Format t
  | SubqueryTable s => Fprintf "(%v)" [FNode (SelectStatement_Format s)]
  end
with Where_Format (node : Where) : res error string :=
  match node with
  | mkWhere typ e => Fprintf " %s %v" [FStr typ; FNode (BoolExpr_Format e)]
  end
with Order_Format (node : Order) : res error string :=
  match node with
  | mkOrder e dir => Fprintf "%v %s" [FNode (ValExpr_Format e); FStr dir]
  end
with Limit_Format (node : Limit) : res error string :=
  match node with
  | mkLimit offset rowcount =>
      seq_out (Fprintf " limit " [])
        (seq_out (match offset with Some o => Fprintf "%v, " [FNode (ValExpr_Format o)] | None => Ok "" end)
          (Fprintf "%v" [FNode (ValExpr_Format rowcount)]))
  end
with SelectStatement_Format (node : SelectStatement) : res error string :=
  match node with
  | Select comments distinct exprs from where_ groupBy having orderBy limit lock =>
      Fprintf "select %v%s%v from %v%v%v%v%v%v%s"
        [FNode (Comments_Format comments); FStr distinct;
         FNode (format_items "" ", " (map (fun n => FNode (SelectExpr_Format n)) exprs));
         FNode (format_items "" ", " (map (fun n => FNode (TableExpr_Format n)) from));
         FNode (match where_ with Some w => Where_Format w | None => Ok "" end);
         FNode (format_items " group by " ", " (map (fun n => FNode (ValExpr_Format n)) groupBy));
         FNode (match having with Some w => Where_Format w | None => Ok "" end);
         FNode (format_items " order by " ", " (map (fun n => FNode (Order_Format n)) orderBy));
         FNode (match limit with Some l => Limit_Format l | None => Ok "" end);
         FStr lock]
  | Union typ l r =>
      Fprintf "%v %s %v" [FNode (SelectStatement_Format l); FStr typ; FNode (SelectStatement_Format r)]
  | SimpleSelect comments distinct exprs =>
      Fprintf "select %v%s%v"
        [FNode (Comments_Format comments); FStr distinct;
         FNode (format_items "" ", " (map (fun n => FNode (SelectExpr_Format n)) exprs))]
  end.

(** The list and optional nodes; a nil [*Where] or [*Limit] prints nothing. *)
Definition SelectExprs_Format (l : list SelectExpr) : res error string :=
  format_items "" ", " (map (fun n => FNode (SelectExpr_Format n)) l).
Definition TableExprs_Format (l : list TableExpr) : res error string :=
  format_items "" ", " (map (fun n => FNode (TableExpr_Format n)) l).
Definition Columns_Format (c : option (list SelectExpr)) : res error string :=
  match c with None => Ok "" | Some l => Fprintf "(%v)" [FNode (SelectExprs_Format l)] end.
Definition ValExprs_Format (l : list ValExpr) : res error string :=
  format_items "" ", " (map (fun n => FNode (ValExpr_Format n)) l).
Definition WhereOpt_Format (w : option Where) : res error string :=
  match w with Some w => Where_Format w | None => Ok "" end.
Definition LimitOpt_Format (l : option Limit) : res error string :=
  match l with Some l => Limit_Format l | None => Ok "" end.
Definition GroupBy_Format (l : list ValExpr) : res error string :=
  format_items " group by " ", " (map (fun n => FNode (ValExpr_Format n)) l).
Definition OrderBy_Format (l : list Order) : res error string :=
  format_items " order by " ", " (map (fun n => FNode (Order_Format n)) l).
Definition Values_Format (l : list Tuple) : res error string :=
  format_items "values " ", " (map (fun t => FNode (ValExpr_Format (Tuple_ValExpr t))) l).
Definition InsertRows_Format (r : InsertRows) : res error string :=
  match r with RowsSelect s => SelectStatement_Format s | RowsValues v => Values_Format v end.
Definition UpdateExpr_Format (u : UpdateExpr) : res error string :=
  Fprintf "%v = %v" [FNode (ColName_Format (UpdateExpr_Name u)); FNode (ValExpr_Format (UpdateExpr_Expr u))].
Definition UpdateExprs_Format (l : list UpdateExpr) : res error string :=
  format_items "" ", " (map (fun u => FNode (UpdateExpr_Format u)) l).
Definition OnDup_Format (o : option (list UpdateExpr)) : res error string :=
  match o with
  | None => Ok ""
  | Some l => Fprintf " on duplicate key update %v" [FNode (UpdateExprs_Format l)]
  end.

Definition Insert_Format (s : insert) : res error string :=
  Fprintf "insert %v%s into %v%v %v%v"
    [FNode (Comments_Format (Ins_Comments s)); FStr (Ins_Ignore s);
     FNode (TableName_Format (Ins_Table s)); FNode (Columns_Format (Ins_Columns s));
     FNode (InsertRows_Format (Ins_Rows s)); FNode (OnDup_Format (Ins_OnDup s))].
Definition Update_Format (s : update) : res error string :=
  Fprintf "update %v%v set %v%v%v%v"
    [FNode (Comments_Format (Upd_Comments s)); FNode (TableName_Format (Upd_Table s));
     FNode (UpdateExprs_Format (Upd_Exprs s)); FNode (WhereOpt_Format (Upd_Where s));
     FNode (OrderBy_Format (Upd_OrderBy s)); FNode (LimitOpt_Format (Upd_Limit s))].
Definition Delete_Format (s : delete) : res error string :=
  Fprintf "delete %vfrom %v%v%v%v"
    [FNode (Comments_Format (Del_Comments s)); FNode (TableName_Format (Del_Table s));
     FNode (WhereOpt_Format (Del_Where s)); FNode (OrderBy_Format (Del_OrderBy s));
     FNode (LimitOpt_Format (Del_Limit s))].
Definition Replace_Format (s : replace) : res error string :=
  Fprintf "replace %vinto %v%v %v"
    [FNode (Comments_Format (Rep_Comments s)); FNode (TableName_Format (Rep_Table s));
     FNode (Columns_Format (Rep_Columns s)); FNode (InsertRows_Format (Rep_Rows s))].
Definition Truncate_Format (s : truncate) : res error string :=
  Fprintf "truncate%v%s%v"
    [FNode (Comments_Format (Trunc_Comments s)); FStr (Trunc_TableOpt s);
     FNode (TableName_Format (Trunc_Table s))].
Definition Set_Format (comments : list string) (exprs : list UpdateExpr) : res error string :=
  Fprintf "set %v%v" [FNode (Comments_Format comments); FNode (UpdateExprs_Format exprs)].
Definition DDL_Format (action ignore table newName : string) : res error string :=
  if String.eqb action AST_CREATE then Fprintf "%s table %s" [FStr action; FStr newName]
  else if String.eqb action AST_RENAME
  then Fprintf "%s %s table %s %s" [FStr action; FStr ignore; FStr table; FStr newName]
  else if String.eqb action AST_ALTER then Fprintf "%s %s table %s" [FStr action; FStr ignore; FStr table]
  else Fprintf "%s table %s" [FStr action; FStr table].
Definition Admin_Format (region : TableName) (columns : option (list SelectExpr)) (rows : InsertRows)
  : res error string :=
  Fprintf "admin %v%v %v"
    [FNode (TableName_Format region); FNode (Columns_Format columns); FNode (InsertRows_Format rows)].
Definition Show_Format (section key : string) (from : option ValExpr) (likeOrWhere : option Expr)
  : res error string :=
  Fprintf "show %s %s %v %v"
    [FStr section; FStr key;
     match from with Some v => FNode (ValExpr_Format v) | None => FNil end;
     match likeOrWhere with Some e => FNode (Expr_Format e) | None => FNil end].

Definition Statement_Format (st : Statement) : res error string :=
  match st with
  | StSelect s => SelectStatement_Format (select_node s)
  | StUnion t l r => SelectStatement_Format (Union t l r)
  | StSimpleSelect c d e => SelectStatement_Format (SimpleSelect c d e)
  | StInsert s => Insert_Format s
  | StUpdate s => Update_Format s
  | StDelete s => Delete_Format s
  | StReplace s => Replace_Format s
  | StTruncate s => Truncate_Format s
  | StSet c e => Set_Format c e
  | StDDL a i t n => DDL_Format a i t n
  | StBegin => Fprintf "begin" []
  | StCommit => Fprintf "commit" []
  | StRollback => Fprintf "rollback" []
  | StAdmin r c v => Admin_Format r c v
  | StAdminHelp => Fprintf "admin help" []
  | StShow s k f l => Show_Format s k f l
  | StUseDB db => Fprintf "use %s" [FStr db]
  end.

(** [sqlparser.String]: [Fprintf("%v", node)] on a fresh buffer. *)
Definition node_String (out : res error string) : res error string := Fprintf "%v" [FNode out].

(** ** [Limit.RewriteLimit]

    A sharded [select ... limit offset, count] asks every table for its
    first [offset + count] rows; the sum is an [int64] addition. *)
Definition limit_operand (node : ValExpr) (what : string) : res error Z :=
  match node with
  | NumVal b => ParseInt b
  | _ => Err (Errorf what)
  end.

Definition RewriteLimit (node : option Limit) : res error (option Limit) :=
  match node with
  | None => Ok None
  | Some (mkLimit offset rowcount) =>
      let* offset := match offset with
                     | None => Ok 0
                     | Some o => limit_operand o "Limit.offset is not number"
                     end in
      let* count := limit_operand rowcount "Limit.RowCount is not number" in
      let allRowCount := FormatInt (i64 (offset + count)) in
      Ok (Some (mkLimit None (NumVal allRowCount)))
  end.

(** ** Analysis helpers ([sqlparser/analyzer.go]) *)

(** [GetDBTable]: splits [db.table] and strips backquotes. *)
Definition GetDBTable (token : string) : string * string :=
  if slen token =? 0 then ("", "")
  else match SplitN2 token "." with
       | [db; table] => (Trim db "`", Trim table "`")
       | table :: _ => ("", Trim table "`")
       | [] => ("", "")
       end.

Definition Split_head (s : string) (sep : ascii) : string :=
  match Split s sep with w :: _ => w | [] => "" end.

Definition GetInsertDBTable (token : string) : string * string :=
  if slen token =? 0 then ("", "")
  else match SplitN2 token "." with
       | [db; rest] => (Trim db "`", Trim (Split_head rest "(") "`")
       | rest :: _ => ("", Trim (Split_head rest "(") "`")
       | [] => ("", "")
       end.

Definition GetColName (node : Expr) : string :=
  match node with EVal (ColName c) => ColName_Name c | _ => "" end.
Definition IsColName (node : ValExpr) : bool :=
  match node with ColName _ => true | _ => false end.
Definition IsValue (node : ValExpr) : bool :=
  match node with StrVal _ | NumVal _ | ValArg _ => true | _ => false end.
Definition HasINClause (conditions : list BoolExpr) : bool :=
  existsb (fun node => match node with
                       | ComparisonExpr op _ _ => String.eqb op AST_IN
                       | _ => false
                       end) conditions.
Definition IsSimpleTuple (node : ValExpr) : bool :=
  match node with ValTuple l => forallb IsValue l | _ => false end.
Definition StringIn (str : string) (values : list string) : bool :=
  existsb (String.eqb str) values.

(** ** Printing never panics on the trees the grammar builds *)

(** The only panic of a [Format] method is on an empty [ValArg]; the
    tokenizer's [VALUE_ARG] tokens have at least two bytes. *)
Fixpoint valexpr_wf (node : ValExpr) : bool :=
  match node with
  | ValArg b => 1 <=? slen b
  | ValTuple l => forallb valexpr_wf l
  | SubqueryVal s => select_wf s
  | BinaryExpr _ l r => expr_wf l && expr_wf r
  | UnaryExpr _ e => expr_wf e
  | FuncExpr _ _ l => forallb selectexpr_wf l
  | CaseExpr e ws els =>
      match e with Some e => valexpr_wf e | None => true end &&
      forallb when_wf ws &&
      match els with Some e => valexpr_wf e | None => true end
  | _ => true
  end
with expr_wf (node : Expr) : bool :=
  match node with EBool e => boolexpr_wf e | EVal e => valexpr_wf e end
with boolexpr_wf (node : BoolExpr) : bool :=
  match node with
  | AndExpr l r | OrExpr l r => boolexpr_wf l && boolexpr_wf r
  | NotExpr e | ParenBoolExpr e => boolexpr_wf e
  | ComparisonExpr _ l r => valexpr_wf l && valexpr_wf r
  | RangeCond _ a b c => valexpr_wf a && valexpr_wf b && valexpr_wf c
  | NullCheck _ e => valexpr_wf e
  | ExistsExpr s => select_wf s
  end
with when_wf (node : When) : bool :=
  match node with mkWhen c v => boolexpr_wf c && valexpr_wf v end
with selectexpr_wf (node : SelectExpr) : bool :=
  match node with StarExpr _ => true | NonStarExpr e _ => expr_wf e end
with tableexpr_wf (node : TableExpr) : bool :=
  match node with
  | AliasedTableExpr e _ _ => simpletable_wf e
  | ParenTableExpr e => tableexpr_wf e
  | JoinTableExpr l _ r on =>
      tableexpr_wf l && tableexpr_wf r && match on with Some e => boolexpr_wf e | None => true end
  end
with simpletable_wf (node : SimpleTableExpr) : bool :=
  match node with TableNameExpr _ => true | SubqueryTable s => select_wf s end
with where_wf (node : Where) : bool :=
  match node with mkWhere _ e => boolexpr_wf e end
with order_wf (node : Order) : bool :=
  match node with mkOrder e _ => valexpr_wf e end
with limit_wf (node : Limit) : bool :=
  match node with
  | mkLimit o r => match o with Some e => valexpr_wf e | None => true end && valexpr_wf r
  end
with select_wf (node : SelectStatement) : bool :=
  match node with
  | Select _ _ exprs from w groupBy having orderBy limit _ =>
      forallb selectexpr_wf exprs && forallb tableexpr_wf from &&
      match w with Some w => where_wf w | None => true end &&
      forallb valexpr_wf groupBy &&
      match having with Some w => where_wf w | None => true end &&
      forallb order_wf orderBy &&
      match limit with Some l => limit_wf l | None => true end
  | Union _ l r => select_wf l && select_wf r
  | SimpleSelect _ _ exprs => forallb selectexpr_wf exprs
  end.

Definition prints (out : res error string) : Prop := exists s, out = Ok s.

Lemma prints_Ok s : prints (Ok s).
Proof. by exists s. Qed.
Lemma prints_seq a b : prints a -> prints b -> prints (seq_out a b).
Proof. intros [x ->] [y ->]. by eexists. Qed.

Lemma keyword_escape_prints name : prints (escape name).
Proof. unfold escape. destruct (keyword name); eexists; reflexivity. Qed.

Lemma qualified_prints n q : prints (qualified_Format n q).
Proof.
  unfold qualified_Format. destruct q; [|apply keyword_escape_prints].
  apply prints_seq; [apply keyword_escape_prints|]. apply prints_seq; [by eexists|].
  apply keyword_escape_prints.
Qed.

Lemma Comments_prints l : prints (Comments_Format l).
Proof.
  induction l as [|c l IH]; [apply prints_Ok|].
  unfold Comments_Format in *. cbn [foldr]. apply prints_seq; [by eexists | exact IH].
Qed.

Lemma IndexHints_prints h : prints (IndexHints_Format h).
Proof.
  unfold IndexHints_Format. apply prints_seq; [by eexists|]. apply prints_seq; [|by eexists].
  generalize "(". induction (IndexHints_Indexes h) as [|n l IH]; intros p; [apply prints_Ok|].
  cbn [IndexHints_items]. apply prints_seq; [by eexists | apply IH].
Qed.

Lemma format_items_prints {A} (f : A -> res error string) p sep l :
  Forall (fun x => prints (f x)) l ->
  prints (format_items p sep (map (fun n => FNode (f n)) l)).
Proof.
  intros H. revert p. induction H as [|x l [s Hs] Hl IH]; intros p; simpl; [apply prints_Ok|].
  rewrite Hs. simpl. destruct (IH sep) as [s' ->]. by eexists.
Qed.

Lemma ValArg_prints b : (1 <=? slen b) = true -> prints (ValArg_Format b).
Proof. intros H. unfold ValArg_Format, sslice. rewrite H, Z.leb_refl. by eexists. Qed.

(** Proves [prints] of a node from [prints] of its parts: the parts are
    replaced by the texts they print and the format string is run. *)
Ltac prints_run :=
  repeat match goal with
  | H : prints ?x |- context [?x] => let s := fresh "s" in let E := fresh in
      destruct H as [s E]; rewrite E
  end;
  cbn [Fprintf Fprintf_verb rbind seq_out]; by eexists.

(** [Forall prints] over a list of subterms, by the hypothesis [IH] of the
    enclosing recursion. *)
Ltac list_prints IH l H :=
  apply format_items_prints; clear -IH H;
  induction l as [|x l IHl]; constructor; cbn in H; apply andb_prop in H as [? ?]; auto.

Fixpoint ValExpr_prints (node : ValExpr) {struct node} :
  valexpr_wf node = true -> prints (ValExpr_Format node)
with Expr_prints (node : Expr) {struct node} :
  expr_wf node = true -> prints (Expr_Format node)
with BoolExpr_prints (node : BoolExpr) {struct node} :
  boolexpr_wf node = true -> prints (BoolExpr_Format node)
with When_prints (node : When) {struct node} :
  when_wf node = true -> prints (When_Format node)
with SelectExpr_prints (node : SelectExpr) {struct node} :
  selectexpr_wf node = true -> prints (SelectExpr_Format node)
with TableExpr_prints (node : TableExpr) {struct node} :
  tableexpr_wf node = true -> prints (TableExpr_Format node)
with SimpleTableExpr_prints (node : SimpleTableExpr) {struct node} :
  simpletable_wf node = true -> prints (SimpleTableExpr_Format node)
with Where_prints (node : Where) {struct node} :
  where_wf node = true -> prints (Where_Format node)
with Order_prints (node : Order) {struct node} :
  order_wf node = true -> prints (Order_Format node)
with Limit_prints (node : Limit) {struct node} :
  limit_wf node = true -> prints (Limit_Format node)
with SelectStatement_prints (node : SelectStatement) {struct node} :
  select_wf node = true -> prints (SelectStatement_Format node).
Proof.
  - destruct node as [b|b|b| |c|l|s|op l r|op e|nm d l|e ws els]; cbn -[seq_out Fprintf]; intros H.
    all: try by eexists.
    + by apply ValArg_prints.
    + apply qualified_prints.
    + assert (prints (format_items "" ", " (map (fun n => FNode (ValExpr_Format n)) l))) as Hl
        by list_prints ValExpr_prints l H.
      prints_run.
    + pose proof (SelectStatement_prints s H). prints_run.
    + apply andb_prop in H as [Hl Hr]. pose proof (Expr_prints l Hl). pose proof (Expr_prints r Hr).
      prints_run.
    + pose proof (Expr_prints e H). prints_run.
    + assert (prints (format_items "" ", " (map (fun n => FNode (SelectExpr_Format n)) l))) as Hl
        by list_prints SelectExpr_prints l H.
      prints_run.
    + apply andb_prop in H as [H He]. apply andb_prop in H as [Hx Hw].
      apply prints_seq; [by eexists|].
      apply prints_seq.
      { destruct e as [e|]; [pose proof (ValExpr_prints e Hx); prints_run | by eexists]. }
      apply prints_seq.
      { clear -When_prints Hw. induction ws as [|w ws IH]; [by eexists|].
        cbn in Hw. apply andb_prop in Hw as [Hw Hws]. cbn [foldr].
        apply prints_seq; [pose proof (When_prints w Hw); prints_run | auto]. }
      apply prints_seq; [|by eexists].
      destruct els as [e'|]; [pose proof (ValExpr_prints e' He); prints_run | by eexists].
  - destruct node as [e|e]; cbn -[seq_out Fprintf]; intros H; [by apply BoolExpr_prints | by apply ValExpr_prints].
  - destruct node as [l r|l r|e|e|op l r|op a b c|op e|s]; cbn -[seq_out Fprintf]; intros H;
      repeat match goal with H : _ && _ = true |- _ => apply andb_prop in H as [? ?] end.
    + pose proof (BoolExpr_prints l ltac:(done)). pose proof (BoolExpr_prints r ltac:(done)). prints_run.
    + pose proof (BoolExpr_prints l ltac:(done)). pose proof (BoolExpr_prints r ltac:(done)). prints_run.
    + pose proof (BoolExpr_prints e H). prints_run.
    + pose proof (BoolExpr_prints e H). prints_run.
    + pose proof (ValExpr_prints l ltac:(done)). pose proof (ValExpr_prints r ltac:(done)). prints_run.
    + pose proof (ValExpr_prints a ltac:(done)). pose proof (ValExpr_prints b ltac:(done)).
      pose proof (ValExpr_prints c ltac:(done)). prints_run.
    + pose proof (ValExpr_prints e H). prints_run.
    + pose proof (SelectStatement_prints s H). prints_run.
  - destruct node as [c v]; cbn -[seq_out Fprintf]; intros H. apply andb_prop in H as [Hc Hv].
    pose proof (BoolExpr_prints c Hc). pose proof (ValExpr_prints v Hv). prints_run.
  - destruct node as [t|e a]; cbn -[seq_out Fprintf]; intros H.
    + destruct t; by eexists.
    + pose proof (Expr_prints e H). apply prints_seq; [prints_run | destruct a; by eexists].
  - destruct node as [e a h|e|l j r on]; cbn -[seq_out Fprintf]; intros H.
    + pose proof (SimpleTableExpr_prints e H).
      apply prints_seq; [prints_run|]. apply prints_seq; [destruct a; by eexists|].
      destruct h as [h|]; [pose proof (IndexHints_prints h); prints_run | by eexists].
    + pose proof (TableExpr_prints e H). prints_run.
    + apply andb_prop in H as [H Ho]. apply andb_prop in H as [Hl Hr].
      pose proof (TableExpr_prints l Hl). pose proof (TableExpr_prints r Hr).
      apply prints_seq; [prints_run|].
      destruct on as [e|]; [pose proof (BoolExpr_prints e Ho); prints_run | by eexists].
  - destruct node as [t|s]; cbn -[seq_out Fprintf]; intros H; [apply qualified_prints|].
    pose proof (SelectStatement_prints s H). prints_run.
  - destruct node as [t e]; cbn -[seq_out Fprintf]; intros H. pose proof (BoolExpr_prints e H). prints_run.
  - destruct node as [e d]; cbn -[seq_out Fprintf]; intros H. pose proof (ValExpr_prints e H). prints_run.
  - destruct node as [o r]; cbn -[seq_out Fprintf]; intros H. apply andb_prop in H as [Ho Hr].
    pose proof (ValExpr_prints r Hr). apply prints_seq; [by eexists|]. apply prints_seq; [|prints_run].
    destruct o as [e|]; [pose proof (ValExpr_prints e Ho); prints_run | by eexists].
  - destruct node as [cs d exprs from w gs hv os lim lock|t l r|cs d exprs]; cbn -[seq_out Fprintf]; intros H;
      repeat match goal with H : _ && _ = true |- _ => apply andb_prop in H as [? ?] end.
    + rename select (forallb selectexpr_wf exprs = true) into He.
      rename select (forallb tableexpr_wf from = true) into Hf.
      rename select (forallb valexpr_wf gs = true) into Hg.
      rename select (forallb order_wf os = true) into Ho.
      pose proof (Comments_prints cs).
      assert (prints (format_items "" ", " (map (fun n => FNode (SelectExpr_Format n)) exprs)))
        by list_prints SelectExpr_prints exprs He.
      assert (prints (format_items "" ", " (map (fun n => FNode (TableExpr_Format n)) from)))
        by list_prints TableExpr_prints from Hf.
      assert (prints (format_items " group by " ", " (map (fun n => FNode (ValExpr_Format n)) gs)))
        by list_prints ValExpr_prints gs Hg.
      assert (prints (format_items " order by " ", " (map (fun n => FNode (Order_Format n)) os)))
        by list_prints Order_prints os Ho.
      assert (prints (match w with Some w => Where_Format w | None => Ok "" end))
        by (destruct w as [w|]; [auto | by eexists]).
      assert (prints (match hv with Some w => Where_Format w | None => Ok "" end))
        by (destruct hv as [hv|]; [auto | by eexists]).
      assert (prints (match lim with Some l => Limit_Format l | None => Ok "" end))
        by (destruct lim as [lim|]; [auto | by eexists]).
      prints_run.
    + pose proof (SelectStatement_prints l ltac:(done)). pose proof (SelectStatement_prints r ltac:(done)).
      prints_run.
    + pose proof (Comments_prints cs).
      assert (prints (format_items "" ", " (map (fun n => FNode (SelectExpr_Format n)) exprs)))
        by list_prints SelectExpr_prints exprs H.
      prints_run.
Qed.

Definition tuple_wf (t : Tuple) : bool := valexpr_wf (Tuple_ValExpr t).
Definition insertrows_wf (r : InsertRows) : bool :=
  match r with RowsSelect s => select_wf s | RowsValues v => forallb tuple_wf v end.
Definition columns_wf (c : option (list SelectExpr)) : bool :=
  match c with Some l => forallb selectexpr_wf l | None => true end.
Definition updateexprs_wf (l : list UpdateExpr) : bool :=
  forallb (fun u => valexpr_wf (UpdateExpr_Expr u)) l.
Definition whereopt_wf (w : option Where) : bool :=
  match w with Some w => where_wf w | None => true end.
Definition limitopt_wf (l : option Limit) : bool :=
  match l with Some l => limit_wf l | None => true end.
Definition is_some {A} (o : option A) : bool := match o with Some _ => true | None => false end.

(** Statements without an empty [ValArg]; a [show] must carry both its
    [From] and its [LikeOrWhere], which are printed without a nil test. *)
Definition statement_wf (st : Statement) : bool :=
  match st with
  | StSelect s => select_wf (select_node s)
  | StUnion _ l r => select_wf l && select_wf r
  | StSimpleSelect _ _ e => forallb selectexpr_wf e
  | StInsert s =>
      columns_wf (Ins_Columns s) && insertrows_wf (Ins_Rows s) &&
      match Ins_OnDup s with Some l => updateexprs_wf l | None => true end
  | StUpdate s =>
      updateexprs_wf (Upd_Exprs s) && whereopt_wf (Upd_Where s) &&
      forallb order_wf (Upd_OrderBy s) && limitopt_wf (Upd_Limit s)
  | StDelete s =>
      whereopt_wf (Del_Where s) && forallb order_wf (Del_OrderBy s) && limitopt_wf (Del_Limit s)
  | StReplace s => columns_wf (Rep_Columns s) && insertrows_wf (Rep_Rows s)
  | StSet _ e => updateexprs_wf e
  | StAdmin _ c r => columns_wf c && insertrows_wf r
  | StShow _ _ f l =>
      match f, l with Some v, Some e => valexpr_wf v && expr_wf e | _, _ => false end
  | _ => true
  end.

Lemma list_prints_wf {A} (f : A -> res error string) (wf : A -> bool) p sep l :
  (forall a, wf a = true -> prints (f a)) -> forallb wf l = true ->
  prints (format_items p sep (map (fun n => FNode (f n)) l)).
Proof.
  intros Hf H. apply format_items_prints. rewrite forallb_forall in H.
  apply Forall_forall. intros x Hx%list_elem_of_In. auto.
Qed.

Lemma WhereOpt_prints w : whereopt_wf w = true -> prints (WhereOpt_Format w).
Proof. destruct w as [w|]; [apply Where_prints | by eexists]. Qed.
Lemma LimitOpt_prints l : limitopt_wf l = true -> prints (LimitOpt_Format l).
Proof. destruct l as [l|]; [apply Limit_prints | by eexists]. Qed.
Lemma OrderBy_prints l : forallb order_wf l = true -> prints (OrderBy_Format l).
Proof. apply list_prints_wf, Order_prints. Qed.
Lemma Columns_prints c : columns_wf c = true -> prints (Columns_Format c).
Proof.
  destruct c as [l|]; [|by eexists]. intros H. cbn.
  pose proof (list_prints_wf SelectExpr_Format _ "" ", " l SelectExpr_prints H) as [s Hs].
  unfold SelectExprs_Format. rewrite Hs. by eexists.
Qed.
Lemma InsertRows_prints r : insertrows_wf r = true -> prints (InsertRows_Format r).
Proof.
  destruct r as [s|v]; [apply SelectStatement_prints|]. cbn. unfold Values_Format.
  apply (list_prints_wf (fun t => ValExpr_Format (Tuple_ValExpr t)) tuple_wf).
  intros t. apply ValExpr_prints.
Qed.
Lemma UpdateExprs_prints l : updateexprs_wf l = true -> prints (UpdateExprs_Format l).
Proof.
  apply (list_prints_wf UpdateExpr_Format (fun u => valexpr_wf (UpdateExpr_Expr u))). intros [n e] He.
  unfold UpdateExpr_Format, ColName_Format. cbn -[Fprintf qualified_Format ValExpr_Format].
  pose proof (qualified_prints (ColName_Name n) (ColName_Qualifier n)).
  pose proof (ValExpr_prints e He). prints_run.
Qed.
Lemma OnDup_prints o :
  match o with Some l => updateexprs_wf l | None => true end = true -> prints (OnDup_Format o).
Proof.
  destruct o as [l|]; [|by eexists]. intros H. unfold OnDup_Format.
  pose proof (UpdateExprs_prints l H). prints_run.
Qed.

Lemma Statement_prints st : statement_wf st = true -> prints (Statement_Format st).
Proof.
  destruct st as [s|t l r|cs d e|s|s|s|s|s|cs e|a i t n| | | |g c r| |sec k f l|db];
    cbn -[Fprintf qualified_Format SelectStatement_Format]; intros H;
    repeat match goal with H : _ && _ = true |- _ => apply andb_prop in H as [? ?] end.
  1-3: apply SelectStatement_prints; cbn; repeat (apply andb_true_intro; split); done.
  - unfold Insert_Format. pose proof (Comments_prints (Ins_Comments s)).
    pose proof (qualified_prints (TableName_Name (Ins_Table s)) (TableName_Qualifier (Ins_Table s))).
    pose proof (Columns_prints (Ins_Columns s) ltac:(done)).
    pose proof (InsertRows_prints (Ins_Rows s) ltac:(done)).
    pose proof (OnDup_prints (Ins_OnDup s) ltac:(done)). unfold TableName_Format. prints_run.
  - unfold Update_Format. pose proof (Comments_prints (Upd_Comments s)).
    pose proof (qualified_prints (TableName_Name (Upd_Table s)) (TableName_Qualifier (Upd_Table s))).
    pose proof (UpdateExprs_prints (Upd_Exprs s) ltac:(done)).
    pose proof (WhereOpt_prints (Upd_Where s) ltac:(done)).
    pose proof (OrderBy_prints (Upd_OrderBy s) ltac:(done)).
    pose proof (LimitOpt_prints (Upd_Limit s) ltac:(done)). unfold TableName_Format. prints_run.
  - unfold Delete_Format. pose proof (Comments_prints (Del_Comments s)).
    pose proof (qualified_prints (TableName_Name (Del_Table s)) (TableName_Qualifier (Del_Table s))).
    pose proof (WhereOpt_prints (Del_Where s) ltac:(done)).
    pose proof (OrderBy_prints (Del_OrderBy s) ltac:(done)).
    pose proof (LimitOpt_prints (Del_Limit s) ltac:(done)). unfold TableName_Format. prints_run.
  - unfold Replace_Format. pose proof (Comments_prints (Rep_Comments s)).
    pose proof (qualified_prints (TableName_Name (Rep_Table s)) (TableName_Qualifier (Rep_Table s))).
    pose proof (Columns_prints (Rep_Columns s) ltac:(done)).
    pose proof (InsertRows_prints (Rep_Rows s) ltac:(done)). unfold TableName_Format. prints_run.
  - unfold Truncate_Format. pose proof (Comments_prints (Trunc_Comments s)).
    pose proof (qualified_prints (TableName_Name (Trunc_Table s)) (TableName_Qualifier (Trunc_Table s))).
    unfold TableName_Format. prints_run.
  - unfold Set_Format. pose proof (Comments_prints cs). pose proof (UpdateExprs_prints e H). prints_run.
  - unfold DDL_Format. repeat case_if; by eexists.
  - by eexists.
  - by eexists.
  - by eexists.
  - unfold Admin_Format. pose proof (qualified_prints (TableName_Name g) (TableName_Qualifier g)).
    pose proof (Columns_prints c ltac:(done)). pose proof (InsertRows_prints r ltac:(done)).
    unfold TableName_Format. prints_run.
  - by eexists.
  - destruct f as [v|], l as [e|]; try done. apply andb_prop in H as [Hv He]. unfold Show_Format.
    pose proof (ValExpr_prints v Hv). pose proof (Expr_prints e He). prints_run.
  - by eexists.
Qed.

(** ** Identifiers: what the tokenizer reads back for a printed name *)
Definition ident_char (ch : Z) : bool := isLetter ch || isDigit ch.
Definition all_chars (p : Z -> bool) (s : string) : Prop := 
  forall n c, String.get n s = Some c -> p (byte_of c) = true.

Lemma all_chars_cons p c s : all_chars p (String c s) <-> p (byte_of c) = true /\ all_chars p s.
Proof.
  split.
  - intros H. split; [apply (H 0%nat c eq_refl) | intros n d; apply (H (S n) d)].
  - intros [Hc Hs] [|n] d Hd; [by injection Hd as <- | by apply (Hs n)].
Qed.

(** The text [rest] does not continue the token. *)
Definition not_starting (p : Z -> bool) (rest : string) : Prop :=
  match rest with EmptyString => True | String c _ => p (byte_of c) = false end.

Lemma copyWhile_feeds p s fuel t buf rest :
  p EOFCHAR = false -> feeds t (s +:+ rest) -> all_chars p s -> not_starting p rest ->
  (String.length s < fuel)%nat ->
  exists t', copyWhile p fuel t buf = Ok (t', buf +:+ s) /\ feeds t' rest.
Proof.
  intros Hp Hfeed Hs Hrest. revert fuel t buf Hfeed.
  induction s as [|c s IH]; intros [|fuel] t buf Hfeed Hf; try (simpl in Hf; lia); cbn [copyWhile].
  - rewrite sapp_nil_l in Hfeed. exists t. rewrite sapp_nil_r. split; [|done].
    enough (p (lastChar t) = false) as -> by done.
    destruct rest as [|c r]; destruct Hfeed as [-> _]; done.
  - rewrite sapp_cons in Hfeed. pose proof (feeds_next _ _ _ Hfeed) as Hn. destruct Hfeed as [Hl _].
    apply all_chars_cons in Hs as [Hc Hs]. rewrite Hl, Hc.
    destruct (IH Hs fuel (next t) (write buf (byte_of c)) Hn) as (t' & -> & Ht'); [simpl in Hf; lia|].
    exists t'. split; [|exact Ht']. rewrite (write_byte_of buf c s). reflexivity.
Qed.

Definition is_ident (s : string) : Prop :=
  match s with EmptyString => False | String c r => isLetter (byte_of c) = true /\ all_chars ident_char r end.

Definition plain_char (ch : Z) : bool := negb (ch =? 96) && negb (ch =? 92).

Lemma ident_plain ch : ident_char ch = true -> plain_char ch = true.
Proof. unfold ident_char, plain_char, isLetter, isDigit. lia. Qed.

Lemma scanString_plain fuel typ s t buf rest :
  feeds t (s +:+ String "`" rest) -> all_chars plain_char s ->
  not_starting (fun ch => ch =? 96) rest -> (String.length s < fuel)%nat ->
  exists t', scanString fuel 96 typ t buf = Ok (typ, Some (buf +:+ s), t') /\ feeds t' rest.
Proof.
  intros Hfeed Hs Hrest. revert fuel t buf Hfeed.
  induction s as [|c s IH]; intros [|fuel] t buf Hfeed Hf; try (simpl in Hf; lia); cbn [scanString].
  - rewrite sapp_nil_l in Hfeed. pose proof (feeds_next _ _ _ Hfeed) as Hn. destruct Hfeed as [Hl _].
    change (byte_of "`") with 96 in Hl. rewrite Hl, Z.eqb_refl.
    enough (lastChar (next t) =? 96 = false) as ->
      by (exists (next t); by rewrite sapp_nil_r).
    destruct rest as [|c r]; destruct Hn as [-> _]; done.
  - rewrite sapp_cons in Hfeed. pose proof (feeds_next _ _ _ Hfeed) as Hn. destruct Hfeed as [Hl _].
    apply all_chars_cons in Hs as [Hc Hs]. unfold plain_char in Hc. rewrite Hl.
    pose proof (byte_of_range c).
    replace (byte_of c =? 96) with false by lia. replace (byte_of c =? 92) with false by lia.
    replace (byte_of c =? EOFCHAR) with false by (unfold EOFCHAR; lia).
    destruct (IH Hs fuel (next t) (write buf (byte_of c)) Hn) as (t' & -> & Ht'); [simpl in Hf; lia|].
    exists t'. split; [|exact Ht']. rewrite (write_byte_of buf c s). reflexivity.
Qed.

Lemma letter_range ch : isLetter ch = true -> 64 <= ch <= 122.
Proof. unfold isLetter. lia. Qed.

(** Scanning from a text whose first byte is neither NUL nor blank. *)
Lemma Scan_start c r :
  byte_of c <> 0 -> byte_of c <> 32 -> byte_of c <> 10 -> byte_of c <> 13 -> byte_of c <> 9 ->
  let t := next (NewStringTokenizer (String c r)) in
  Scan (NewStringTokenizer (String c r)) =
    let fuel := scan_fuel (NewStringTokenizer (String c r)) in
    if isLetter (byte_of c) then scanIdentifier fuel t
    else if isDigit (byte_of c) then scanNumber fuel false t
    else if byte_of c =? 58 then scanBindVar fuel t
    else scan_default fuel (byte_of c) t.
Proof.
  intros. unfold Scan. rewrite Scan_fuel_first by done. unfold Scan_fuel.
  set (fuel := scan_fuel (NewStringTokenizer (String c r))).
  cbn [ForceEOF NewStringTokenizer lastChar next InStream set_read].
  replace (byte_of c =? 0) with false by lia.
  assert (forall n u, lastChar u = byte_of c -> skipBlank (S n) u = Ok u) as Hskip.
  { intros n u Hu. cbn [skipBlank]. rewrite Hu.
    replace ((byte_of c =? 32) || (byte_of c =? 10) || (byte_of c =? 13) || (byte_of c =? 9)) with false by lia.
    done. }
  subst fuel. unfold scan_fuel at 1. rewrite Hskip by done. reflexivity.
Qed.

Definition read_back (name : string) : tok * option string :=
  match keyword name with
  | Some _ => (ID, Some name)
  | None => match keyword (ToLower name) with
            | Some id => (id, Some (ToLower name))
            | None => (ID, Some name)
            end
  end.

Lemma Scan_escape name text rest :
  is_ident name -> escape name = Ok text ->
  not_starting (fun ch => ident_char ch || (ch =? 96)) rest ->
  exists t', Scan (NewStringTokenizer (text +:+ rest)) =
             Ok ((read_back name).1, (read_back name).2, t') /\ feeds t' rest.
Proof.
  intros Hid Hesc Hrest. destruct name as [|c s]; [done|]. destruct Hid as [Hc Hs].
  assert (not_starting ident_char rest /\ not_starting (fun ch => ch =? 96) rest) as [Hr1 Hr2].
  { destruct rest; simpl in *; [done|]. by apply orb_false_elim in Hrest. }
  unfold escape in Hesc. unfold read_back.
  destruct (keyword (String c s)) as [k|] eqn:Hk.
  - cbn in Hesc. injection Hesc as <-. rewrite sapp_cons, <- sapp_assoc, (sapp_cons "`" "" rest), sapp_nil_l.
    rewrite Scan_start by (vm_compute; discriminate). cbn zeta.
    change (byte_of "`") with 96. cbn [isLetter isDigit Z.leb Z.eqb Z.compare Pos.compare Pos.compare_cont Pos.eqb andb orb].
    unfold scan_default. cbn -[scanString next String.append].
    destruct (scanString_plain (scan_fuel (NewStringTokenizer (String "`" (String c s +:+ String "`" rest))))
      ID (String c s) (next (next (NewStringTokenizer (String "`" (String c s +:+ String "`" rest))))) "" rest)
      as (t' & Heq & Ht').
    + apply (feeds_next _ "`"), feeds_NewStringTokenizer.
    + apply all_chars_cons. split; [|intros n d Hd; by apply ident_plain, (Hs n)].
      apply ident_plain. unfold ident_char. by rewrite Hc.
    + done.
    + unfold scan_fuel. cbn [NewStringTokenizer InStream String.length]. rewrite slength_app. simpl. lia.
    + rewrite sapp_nil_l in Heq. eauto.
  - cbn in Hesc. injection Hesc as <-. rewrite sapp_nil_r, sapp_cons.
    pose proof (letter_range _ Hc). rewrite Scan_start by lia. cbn zeta. rewrite Hc. unfold scanIdentifier.
    set (t0 := NewStringTokenizer (String c (s +:+ rest))).
    destruct (copyWhile_feeds ident_char s (scan_fuel t0) (next (next t0)) (write "" (lastChar (next t0))) rest)
      as (t' & Heq & Ht'); [done | | done | done | |].
    + apply (feeds_next _ c), feeds_NewStringTokenizer.
    + unfold scan_fuel, t0. cbn [NewStringTokenizer InStream String.length]. rewrite slength_app. lia.
    + change (fun ch => isLetter ch || isDigit ch) with ident_char. rewrite Heq. cbn [rbind].
      assert (write "" (lastChar (next t0)) +:+ s = String c s) as ->.
      { change (lastChar (next t0)) with (byte_of c). rewrite (write_byte_of "" c s). apply sapp_nil_l. }
      exists t'. destruct (keyword (ToLower (String c s))); done.
Qed.

(** ** Properties *)

(** Printing is total.  Every statement whose bind-variable names are
    non-empty, which holds of every VALUE_ARG token, is printed without a
    panic; for [show] both optional parts must be present. *)
Theorem Statement_Format_total (st : Statement) :
  statement_wf st = true -> exists text, Statement_Format st = Ok text.
Proof. apply Statement_prints. Qed.

Lemma Statement_Format_total_witness :
  exists text, Statement_Format
    (StDelete (mkDelete [] (mkTableName "t" None)
       (Some (mkWhere AST_WHERE (ComparisonExpr "=" (ColName (mkColName "id" None)) (NumVal "1"))))
       [] None)) = Ok text.
Proof.
  apply (Statement_Format_total (StDelete (mkDelete [] (mkTableName "t" None)
       (Some (mkWhere AST_WHERE (ComparisonExpr "=" (ColName (mkColName "id" None)) (NumVal "1"))))
       [] None))).
  reflexivity.
Defined.

Example Statement_Format_example :
  Statement_Format
    (StDelete (mkDelete [] (mkTableName "t" None)
       (Some (mkWhere AST_WHERE (ComparisonExpr "=" (ColName (mkColName "id" None)) (StrVal "o'k"))))
       [] None)) = Ok "delete from t where id = 'o\'k'".
Proof. vm_compute. reflexivity. Qed.

(** Printed identifiers.  A printed column or table name that is an
    identifier is scanned back as an ID token with that name, except when
    it is a keyword in other letter case: [escape] looks the exact
    spelling up, so such a name is printed bare and scanned back as the
    keyword. *)
Theorem escape_Scan_identifier (name text rest : string) :
  is_ident name -> escape name = Ok text ->
  not_starting (fun ch => ident_char ch || (ch =? 96)) rest ->
  exists t', Scan (NewStringTokenizer (text +:+ rest)) =
    Ok (match keyword name, keyword (ToLower name) with
        | None, Some id => (id, Some (ToLower name), t')
        | _, _ => (ID, Some name, t')
        end) /\ feeds t' rest.
Proof.
  intros Hid Hesc Hrest. destruct (Scan_escape name text rest Hid Hesc Hrest) as (t' & -> & Ht').
  exists t'. split; [|done]. unfold read_back.
  destruct (keyword name), (keyword (ToLower name)); done.
Qed.

Lemma is_ident_order : is_ident "Order".
Proof.
  split; [reflexivity|]. repeat (apply all_chars_cons; split; [reflexivity|]). by intros [].
Qed.

Lemma escape_Scan_identifier_witness :
  exists t', Scan (NewStringTokenizer ("Order" +:+ " = 1")) =
    Ok (match keyword "Order", keyword (ToLower "Order") with
        | None, Some id => (id, Some (ToLower "Order"), t')
        | _, _ => (ID, Some "Order", t')
        end) /\ feeds t' " = 1".
Proof.
  apply (escape_Scan_identifier "Order" "Order" " = 1"); [apply is_ident_order | reflexivity | reflexivity].
Defined.
