(* ===== verification/YyTables.v ===== *)
(** * The parser's tables ([sqlparser/sql.go], written by goyacc from [sql.y])

    The codes of tokens, the tables of the automaton and the values of
    grammar symbols.  [YyParse] runs them. *)
From S2P Require Import Prelude Errors GoLib SqlTypes Token Ast.
From Stdlib Require Import Ascii.
Open Scope Z_scope.

(** The code of a token: what [Lex] returns. *)
Definition tok_code (t : tok) : Z :=
  match t with
  | TEOF => 0 | TChar c => c
  | LEX_ERROR => 57346 | SELECT => 57347 | INSERT => 57348 | UPDATE => 57349 | DELETE => 57350
  | FROM => 57351 | WHERE => 57352 | GROUP => 57353 | HAVING => 57354 | ORDER => 57355
  | BY => 57356 | LIMIT => 57357 | FOR => 57358 | ALL => 57359 | DISTINCT => 57360
  | AS => 57361 | EXISTS => 57362 | NULL => 57363 | ASC => 57364 | DESC => 57365
  | VALUES => 57366 | INTO => 57367 | DUPLICATE => 57368 | KEY => 57369 | DEFAULT => 57370
  | SET => 57371 | LOCK => 57372 | ID => 57373 | STRING => 57374 | NUMBER => 57375
  | VALUE_ARG => 57376 | COMMENT => 57377 | UNION => 57378 | MINUS => 57379 | EXCEPT => 57380
  | INTERSECT => 57381 | JOIN => 57382 | STRAIGHT_JOIN => 57383 | LEFT => 57384
  | RIGHT => 57385 | INNER => 57386 | OUTER => 57387 | CROSS => 57388 | NATURAL => 57389
  | USE => 57390 | FORCE => 57391 | ON => 57392 | OR => 57393 | AND => 57394 | NOT => 57395
  | BETWEEN => 57396 | CASE => 57397 | WHEN => 57398 | THEN => 57399 | ELSE => 57400
  | LE => 57401 | GE => 57402 | NE => 57403 | NULL_SAFE_EQUAL => 57404 | IS => 57405
  | LIKE => 57406 | IN => 57407 | END => 57409 | BEGIN => 57410 | START => 57411
  | TRANSACTION => 57412 | COMMIT => 57413 | ROLLBACK => 57414 | NAMES => 57415
  | REPLACE => 57416 | ADMIN => 57417 | HELP => 57418 | OFFSET => 57419 | COLLATE => 57420
  | CREATE => 57421 | ALTER => 57422 | DROP => 57423 | RENAME => 57424 | TABLE => 57425
  | INDEX => 57426 | VIEW => 57427 | TO => 57428 | IGNORE => 57429 | IF => 57430
  | UNIQUE => 57431 | USING => 57432 | TRUNCATE => 57433
  end.

Definition yyEofCode : Z := 1.
Definition yyErrCode : Z := 2.
Definition yyInitialStackSize : nat := 16.
Definition yyPrivate : Z := 57344.
Definition yyLast : Z := 647.
Definition yyFlag : Z := -1000.

Definition yyToknames : list string :=
  ["$end"; "error"; "$unk"; "LEX_ERROR"; "SELECT"; "INSERT"; "UPDATE"; "DELETE"; "FROM"; "WHERE";
   "GROUP"; "HAVING"; "ORDER"; "BY"; "LIMIT"; "FOR"; "ALL"; "DISTINCT"; "AS"; "EXISTS"; "NULL";
   "ASC"; "DESC"; "VALUES"; "INTO"; "DUPLICATE"; "KEY"; "DEFAULT"; "SET"; "LOCK"; "ID"; "STRING";
   "NUMBER"; "VALUE_ARG"; "COMMENT"; "'('"; "'~'"; "UNION"; "MINUS"; "EXCEPT"; "INTERSECT"; "','";
   "JOIN"; "STRAIGHT_JOIN"; "LEFT"; "RIGHT"; "INNER"; "OUTER"; "CROSS"; "NATURAL"; "USE"; "FORCE";
   "ON"; "OR"; "AND"; "NOT"; "BETWEEN"; "CASE"; "WHEN"; "THEN"; "ELSE"; "'='"; "'<'"; "'>'"; "LE";
   "GE"; "NE"; "NULL_SAFE_EQUAL"; "IS"; "LIKE"; "IN"; "'|'"; "'&'"; "'+'"; "'-'"; "'*'"; "'/'";
   "'%'"; "'^'"; "'.'"; "UNARY"; "END"; "BEGIN"; "START"; "TRANSACTION"; "COMMIT"; "ROLLBACK";
   "NAMES"; "REPLACE"; "ADMIN"; "HELP"; "OFFSET"; "COLLATE"; "CREATE"; "ALTER"; "DROP"; "RENAME";
   "TABLE"; "INDEX"; "VIEW"; "TO"; "IGNORE"; "IF"; "UNIQUE"; "USING"; "TRUNCATE"; "')'"].

Definition yyExca : list Z :=
  [-1; 1; 1; -1; -2; 0].

Definition yyAct : list Z :=
  [111; 108; 315; 352; 187; 385; 102; 139; 74; 346; 270; 119; 76; 185; 229; 188; 3; 148; 97; 265; 199;
   98; 60; 92; 162; 161; 109; 118; 211; 88; 124; 81; 394; 53; 394; 63; 279; 79; 115; 116; 117; 394;
   133; 122; 142; 156; 156; 78; 77; 47; 83; 49; 66; 85; 156; 50; 258; 89; 227; 205; 363; 362; 114; 118;
   125; 361; 124; 72; 82; 37; 38; 39; 40; 79; 115; 116; 117; 256; 106; 122; 120; 121; 103; 138; 334;
   336; 52; 96; 53; 132; 343; 146; 84; 141; 78; 152; 129; 396; 105; 395; 125; 158; 62; 55; 56; 57; 393;
   54; 150; 123; 342; 307; 184; 186; 147; 79; 120; 121; 154; 305; 189; 257; 58; 226; 190; 298; 193;
   274; 160; 78; 77; 78; 77; 135; 94; 335; 206; 198; 259; 196; 171; 399; 134; 201; 208; 123; 266; 203;
   204; 137; 197; 243; 162; 161; 221; 174; 175; 176; 171; 207; 235; 206; 61; 161; 242; 241; 358; 233;
   237; 238; 103; 222; 75; 162; 161; 87; 225; 239; 234; 345; 244; 245; 246; 248; 249; 250; 251; 252;
   253; 254; 255; 240; 130; 347; 287; 288; 289; 290; 291; 275; 292; 293; 145; 347; 236; 103; 103; 272;
   217; 328; 261; 263; 276; 266; 329; 310; 273; 247; 360; 269; 277; 267; 326; 215; 78; 77; 218; 327;
   78; 283; 51; 359; 281; 90; 37; 38; 39; 40; 150; 200; 280; 332; 331; 233; 330; 130; 297; 200; 262;
   284; 114; 118; 258; 369; 124; 282; 300; 301; 338; 379; 155; 101; 115; 116; 117; 64; 106; 122; 299;
   78; 77; 285; 304; 311; 71; 318; 103; 313; 378; 130; 314; 306; 268; 150; 309; 312; 105; 126; 125; 93;
   214; 216; 213; 156; 19; 377; 223; 233; 233; 133; 324; 325; 232; 93; 120; 121; 99; 231; 194; 321;
   172; 173; 174; 175; 176; 171; 341; 349; 192; 19; 232; 191; 93; 348; 344; 231; 79; 354; 339; 337;
   350; 353; 296; 123; 114; 118; 320; 260; 124; 391; 19; 20; 21; 22; 295; 79; 115; 116; 117; 159; 106;
   122; 319; 392; 364; 220; 219; 207; 62; 365; 153; 64; 375; 374; 23; 376; 373; 143; 140; 136; 105;
   203; 125; 383; 86; 128; 384; 380; 386; 386; 386; 381; 382; 353; 387; 388; 34; 366; 120; 121; 78; 77;
   127; 91; 19; 400; 303; 209; 397; 144; 401; 69; 402; 67; 357; 170; 169; 172; 173; 174; 175; 176; 171;
   149; 316; 317; 271; 123; 28; 29; 356; 30; 31; 367; 32; 33; 202; 323; 200; 24; 25; 27; 26; 114; 118;
   73; 398; 124; 389; 19; 42; 35; 18; 17; 101; 115; 116; 117; 19; 106; 122; 16; 15; 170; 169; 172; 173;
   174; 175; 176; 171; 14; 13; 12; 118; 95; 210; 124; 48; 105; 278; 125; 212; 368; 79; 115; 116; 117;
   80; 133; 122; 151; 390; 118; 370; 351; 124; 120; 121; 99; 131; 355; 322; 79; 115; 116; 117; 118;
   133; 122; 124; 125; 371; 372; 340; 308; 195; 79; 115; 116; 117; 264; 133; 122; 113; 110; 123; 120;
   121; 112; 125; 170; 169; 172; 173; 174; 175; 176; 171; 224; 107; 163; 104; 333; 125; 230; 120; 121;
   170; 169; 172; 173; 174; 175; 176; 171; 123; 286; 228; 302; 120; 121; 170; 169; 172; 173; 174; 175;
   176; 171; 100; 294; 157; 68; 36; 123; 170; 169; 172; 173; 174; 175; 176; 171; 165; 167; 70; 11; 10;
   123; 177; 178; 179; 180; 181; 182; 183; 168; 166; 164; 170; 169; 172; 173; 174; 175; 176; 171; 169;
   172; 173; 174; 175; 176; 171; 287; 288; 289; 290; 291; 41; 292; 293; 9; 8; 7; 6; 5; 4; 2; 1; 0; 0;
   0; 0; 0; 0; 0; 0; 0; 0; 43; 44; 45; 46; 0; 0; 0; 0; 0; 0; 0; 0; 59; 0; 0; 65].

Definition yyPact : list Z :=
  [335; -1000; -1000; 196; -1000; -1000; -1000; -1000; -1000; -1000; -1000; -1000; -1000; -1000; -1000;
   -1000; -1000; -1000; -1000; -1000; -1000; -1000; -1000; -1000; -49; -14; 9; 5; -1000; 37; -1000;
   -1000; -1000; 71; 234; -1000; 434; 386; -1000; -1000; -1000; 383; -1000; -69; 327; 426; 84; -72;
   -31; 234; -1000; -6; 234; -1000; 343; -74; 234; -74; -1000; 368; 286; -1000; 54; -1000; -1000; -11;
   -1000; -1000; 413; -1000; 252; 367; 346; 327; 203; 462; -1000; 80; -1000; 53; 338; 93; 234; -1000;
   337; -1000; -57; 336; 379; 149; 234; 327; 389; 295; 329; 327; -1000; 251; -1000; -1000; 330; 48; 98;
   518; -1000; 42; 314; -1000; -1000; -1000; 476; 285; 282; -1000; 272; -1000; -1000; -1000; -1000;
   -1000; -1000; -1000; -1000; -1000; -1000; 476; -1000; 327; 295; 418; 295; -1000; 333; 443; 6; 326;
   -1000; 377; -77; -1000; 195; -1000; 325; -1000; -1000; 324; -1000; 267; -1000; 263; 196; 16; -1000;
   -1000; -1000; 271; 413; -1000; -1000; 234; 128; 42; 42; 476; 263; 94; 476; 476; 161; 476; 476; 476;
   476; 476; 476; 476; 476; -1000; -1000; -1000; -1000; -1000; -1000; -1000; -1000; 518; -30; 14; 31;
   518; -1000; 230; 413; -1000; 434; 87; 466; 253; 237; 403; 42; -1000; 476; 466; 466; -1000; -1000;
   47; -1000; -1000; 146; 234; -1000; -65; -1000; -1000; -1000; -1000; -1000; -1000; -1000; -1000; 389;
   295; 213; -1000; -1000; 295; 229; 562; 313; 289; 45; -1000; -1000; -1000; -1000; -1000; 108; 466;
   -1000; 263; 476; 476; 466; 494; -1000; 375; 236; 525; -1000; 79; 79; 61; 61; 61; -1000; -1000; 476;
   -1000; -1000; 12; 413; 4; 154; -1000; 42; 389; 295; 403; 399; 401; 98; 466; 234; 321; -1000; -1000;
   305; -1000; -1000; 203; 263; -1000; 416; 271; 271; -1000; -1000; 179; 166; 201; 199; 198; 33; -1000;
   298; 151; 297; -1000; 466; 449; 476; -1000; 466; -1000; 3; -1000; 8; -1000; 476; 119; 140; 150; 399;
   -1000; 476; 476; -1000; -1000; -1000; -1000; 408; 390; 562; 113; -1000; 188; -1000; 175; -1000;
   -1000; -1000; -1000; -34; -38; -39; -1000; -1000; -1000; 476; 466; -1000; -1000; 466; 476; -1000;
   361; -1000; -1000; 381; 211; -1000; 480; -1000; 403; 42; 476; 42; -1000; -1000; 259; 242; 223; 466;
   466; 350; 476; 476; 476; -1000; -1000; -1000; 399; 98; 210; 98; 234; 234; 234; 431; 466; 466; -1000;
   323; -1; -1000; -8; -10; 295; -1000; 429; 70; -1000; 234; -1000; -1000; 203; -1000; 234; -1000; 234;
   -1000].

Definition yyPgo : list Z :=
  [0; 620; 619; 15; 618; 617; 616; 615; 614; 613; 578; 577; 610; 576; 564; 563; 230; 18; 21; 562; 561;
   560; 548; 14; 547; 535; 22; 533; 5; 20; 6; 532; 531; 17; 530; 13; 26; 4; 529; 519; 11; 515; 1; 514;
   511; 19; 506; 505; 492; 491; 10; 485; 3; 484; 2; 482; 23; 481; 9; 8; 12; 175; 478; 472; 470; 468;
   466; 0; 7; 465; 463; 462; 461; 452; 451; 443; 442; 440].

Definition yyR1 : list Z :=
  [0; 1; 2; 2; 2; 2; 2; 2; 2; 2; 2; 2; 2; 2; 2; 2; 2; 2; 3; 3; 3; 4; 4; 73; 73; 5; 6; 7; 7; 7; 7; 70;
   70; 71; 72; 74; 74; 75; 76; 8; 8; 8; 9; 9; 9; 10; 11; 11; 11; 77; 12; 13; 13; 14; 14; 14; 14; 14;
   15; 15; 17; 17; 18; 18; 18; 21; 21; 19; 19; 19; 22; 22; 23; 23; 23; 23; 20; 20; 20; 24; 24; 24; 24;
   24; 24; 24; 24; 24; 25; 25; 25; 26; 26; 27; 27; 27; 27; 28; 28; 29; 29; 30; 30; 30; 30; 30; 31; 31;
   31; 31; 31; 31; 31; 31; 31; 31; 32; 32; 32; 32; 32; 32; 32; 33; 33; 38; 38; 36; 36; 40; 37; 37; 35;
   35; 35; 35; 35; 35; 35; 35; 35; 35; 35; 35; 35; 35; 35; 35; 35; 39; 39; 41; 41; 41; 43; 46; 46; 44;
   44; 45; 47; 47; 42; 42; 42; 34; 34; 34; 34; 48; 48; 49; 49; 50; 50; 51; 51; 52; 53; 53; 53; 54; 54;
   54; 54; 55; 55; 55; 56; 56; 57; 57; 58; 58; 59; 59; 60; 60; 61; 61; 62; 62; 16; 16; 63; 63; 63; 63;
   63; 64; 64; 65; 65; 66; 66; 67; 68; 69; 69].

Definition yyR2 : list Z :=
  [0; 1; 1; 1; 1; 1; 1; 1; 1; 1; 1; 1; 1; 1; 1; 1; 1; 1; 4; 12; 3; 8; 8; 6; 6; 8; 7; 3; 4; 4; 6; 1; 2;
   1; 1; 4; 2; 2; 4; 5; 8; 4; 6; 7; 4; 5; 4; 5; 5; 0; 2; 0; 2; 1; 2; 1; 1; 1; 0; 1; 1; 3; 1; 2; 3; 1;
   1; 0; 1; 2; 1; 3; 3; 3; 3; 5; 0; 1; 2; 1; 1; 2; 3; 2; 3; 2; 2; 2; 1; 3; 1; 1; 3; 0; 5; 5; 5; 1; 3;
   0; 2; 1; 3; 3; 2; 3; 3; 3; 4; 3; 4; 5; 6; 3; 4; 2; 1; 1; 1; 1; 1; 1; 1; 2; 1; 1; 3; 3; 1; 3; 1; 3;
   1; 1; 1; 3; 3; 3; 3; 3; 3; 3; 3; 2; 3; 4; 5; 4; 1; 1; 1; 1; 1; 1; 5; 0; 1; 1; 2; 4; 0; 2; 1; 3; 5;
   1; 1; 1; 1; 0; 3; 0; 2; 0; 3; 1; 3; 2; 0; 1; 1; 0; 2; 4; 4; 0; 2; 4; 0; 3; 1; 3; 0; 5; 1; 3; 3; 3;
   0; 2; 0; 3; 0; 1; 1; 1; 1; 1; 1; 0; 1; 0; 1; 0; 2; 1; 0; 0; 1].

Definition yyChk : list Z :=
  [-1000; -1; -2; -3; -4; -5; -6; -7; -8; -9; -10; -11; -70; -71; -72; -73; -74; -75; -76; 5; 6; 7; 8;
   29; 94; 95; 97; 96; 83; 84; 86; 87; 89; 90; 51; 106; -14; 38; 39; 40; 41; -12; -77; -12; -12; -12;
   -12; 98; -65; 100; 104; -16; 100; 102; 98; 98; 99; 100; 85; -12; -26; 91; 31; -67; 31; -12; -3; 17;
   -15; 18; -13; -16; -26; 9; -59; 88; -60; -42; -67; 31; -62; 103; 99; -67; 98; -67; 31; -61; 103;
   -67; -61; 25; -56; 36; 80; -69; 98; -17; -18; 76; -21; 31; -30; -35; -31; 56; 36; -34; -42; -36;
   -41; -67; -39; -43; 20; 32; 33; 34; 21; -40; 74; 75; 37; 103; 24; 58; 35; 25; 29; -26; 42; 28; -35;
   36; 62; 80; 31; 56; -67; -68; 31; -68; 101; 31; 20; 53; -67; -26; -33; 24; -3; -57; -42; 31; -26; 9;
   42; -19; -67; 19; 80; 55; 54; -32; 71; 56; 70; 57; 69; 73; 72; 79; 74; 75; 76; 77; 78; 62; 63; 64;
   65; 66; 67; 68; -30; -35; -30; -37; -3; -35; -35; 36; 36; -40; 36; -46; -35; -26; -59; -29; 10; -60;
   93; -35; -35; 53; -67; 31; -68; 20; -66; 105; -63; 97; 95; 28; 96; 13; 31; 31; 31; -68; -56; 29;
   -38; -36; 107; 42; -22; -23; -25; 36; 31; -40; -18; -67; 76; -30; -30; -35; -36; 71; 70; 57; -35;
   -35; 21; 56; -35; -35; -35; -35; -35; -35; -35; -35; 107; 107; 42; 107; 107; -17; 18; -17; -44; -45;
   59; -56; 29; -29; -50; 13; -30; -35; 80; 53; -67; -68; -64; 101; -33; -59; 42; -42; -29; 42; -24;
   43; 44; 45; 46; 47; 49; 50; -20; 31; 19; -23; 80; -36; -35; -35; 55; 21; -35; 107; -17; 107; -47;
   -45; 61; -30; -33; -59; -50; -54; 15; 14; -67; 31; 31; -36; -48; 11; -23; -23; 43; 48; 43; 48; 43;
   43; 43; -27; 51; 102; 52; 31; 107; 31; 55; -35; 107; 82; -35; 60; -58; 53; -58; -54; -35; -51; -52;
   -35; -68; -49; 12; 14; 53; 43; 43; 99; 99; 99; -35; -35; 26; 42; 92; 42; -53; 22; 23; -50; -30; -37;
   -30; 36; 36; 36; 27; -35; -35; -52; -54; -28; -67; -28; -28; 7; -55; 16; 30; 107; 42; 107; 107; -59;
   7; 71; -67; -67; -67].

Definition yyDef : list Z :=
  [0; -2; 1; 2; 3; 4; 5; 6; 7; 8; 9; 10; 11; 12; 13; 14; 15; 16; 17; 49; 49; 49; 49; 49; 211; 202; 0;
   0; 31; 0; 33; 34; 49; 0; 0; 49; 0; 53; 55; 56; 57; 58; 51; 202; 0; 0; 0; 200; 0; 0; 212; 0; 0; 203;
   0; 198; 0; 198; 32; 0; 188; 36; 91; 37; 215; 217; 20; 54; 0; 59; 50; 0; 0; 0; 27; 0; 194; 0; 162;
   215; 0; 0; 0; 216; 0; 216; 0; 0; 0; 0; 0; 0; 0; 0; 0; 0; 218; 18; 60; 62; 67; 215; 65; 66; 101; 0;
   0; 132; 133; 134; 0; 162; 0; 148; 0; 165; 166; 167; 168; 128; 151; 152; 153; 149; 150; 155; 52; 0;
   0; 99; 0; 28; 29; 0; 0; 0; 216; 0; 213; 41; 0; 44; 0; 46; 199; 0; 216; 188; 35; 0; 124; 0; 190; 92;
   38; 0; 0; 63; 68; 0; 0; 0; 0; 0; 0; 0; 0; 0; 0; 0; 0; 0; 0; 0; 0; 0; 0; 116; 117; 118; 119; 120;
   121; 122; 104; 0; 0; 0; 0; 130; 143; 0; 0; 115; 0; 0; 156; 188; 99; 173; 0; 195; 0; 130; 196; 197;
   163; 215; 39; 201; 0; 0; 216; 209; 204; 205; 206; 207; 208; 45; 47; 48; 0; 0; 123; 125; 189; 0; 99;
   70; 76; 0; 88; 90; 61; 69; 64; 102; 103; 106; 107; 0; 0; 0; 109; 0; 113; 0; 135; 136; 137; 138; 139;
   140; 141; 142; 105; 127; 0; 129; 144; 0; 0; 0; 160; 157; 0; 0; 0; 173; 181; 0; 100; 30; 0; 0; 214;
   42; 0; 210; 23; 24; 0; 191; 169; 0; 0; 79; 80; 0; 0; 0; 0; 0; 93; 77; 0; 0; 0; 108; 110; 0; 0; 114;
   131; 145; 0; 147; 0; 158; 0; 0; 192; 192; 181; 26; 0; 0; 164; 216; 43; 126; 171; 0; 71; 74; 81; 0;
   83; 0; 85; 86; 87; 72; 0; 0; 0; 78; 73; 89; 0; 111; 146; 154; 161; 0; 21; 0; 22; 25; 182; 174; 175;
   178; 40; 173; 0; 0; 0; 82; 84; 0; 0; 0; 112; 159; 0; 0; 0; 0; 177; 179; 180; 181; 172; 170; 75; 0;
   0; 0; 0; 183; 184; 176; 185; 0; 97; 0; 0; 0; 19; 0; 0; 94; 0; 95; 96; 193; 186; 0; 98; 0; 187].

Definition yyTok1 : list Z :=
  [1; 3; 3; 3; 3; 3; 3; 3; 3; 3; 3; 3; 3; 3; 3; 3; 3; 3; 3; 3; 3; 3; 3; 3; 3; 3; 3; 3; 3; 3; 3; 3; 3;
   3; 3; 3; 3; 78; 73; 3; 36; 107; 76; 74; 42; 75; 80; 77; 3; 3; 3; 3; 3; 3; 3; 3; 3; 3; 3; 3; 63; 62;
   64; 3; 3; 3; 3; 3; 3; 3; 3; 3; 3; 3; 3; 3; 3; 3; 3; 3; 3; 3; 3; 3; 3; 3; 3; 3; 3; 3; 3; 3; 3; 3; 79;
   3; 3; 3; 3; 3; 3; 3; 3; 3; 3; 3; 3; 3; 3; 3; 3; 3; 3; 3; 3; 3; 3; 3; 3; 3; 3; 3; 3; 3; 72; 3; 37].

Definition yyTok2 : list Z :=
  [2; 3; 4; 5; 6; 7; 8; 9; 10; 11; 12; 13; 14; 15; 16; 17; 18; 19; 20; 21; 22; 23; 24; 25; 26; 27; 28;
   29; 30; 31; 32; 33; 34; 35; 38; 39; 40; 41; 43; 44; 45; 46; 47; 48; 49; 50; 51; 52; 53; 54; 55; 56;
   57; 58; 59; 60; 61; 65; 66; 67; 68; 69; 70; 71; 81; 82; 83; 84; 85; 86; 87; 88; 89; 90; 91; 92; 93;
   94; 95; 96; 97; 98; 99; 100; 101; 102; 103; 104; 105; 106].

Definition yyTok3 : list Z :=
  [0].

(** ** Values of grammar symbols

    The struct [yySymType]: every symbol has all fields and uses one.  A
    field that holds a pointer or an interface is an [option], as is a slice
    that is compared with nil.  [yys] is the state; [empty] holds nothing. *)
Record yySymType := mkSym {
  yys : Z;
  yy_statement : option Statement; yy_selStmt : option SelectStatement; yy_byt : ascii;
  yy_bytes : option string; yy_bytes2 : list string; yy_str : string;
  yy_selectExprs : list SelectExpr; yy_selectExpr : option SelectExpr;
  yy_columns : option (list SelectExpr); yy_colName : option colname;
  yy_tableExprs : list TableExpr; yy_tableExpr : option TableExpr;
  yy_smTableExpr : option SimpleTableExpr; yy_tableName : option TableName;
  yy_indexHints : option IndexHints; yy_expr : option Expr; yy_boolExpr : option BoolExpr;
  yy_valExpr : option ValExpr; yy_tuple : option Tuple; yy_valExprs : list ValExpr;
  yy_values : list Tuple; yy_subquery : option SelectStatement; yy_caseExpr : option ValExpr;
  yy_whens : list When; yy_when : option When; yy_orderBy : list Order; yy_order : option Order;
  yy_limit : option Limit; yy_insRows : option InsertRows;
  yy_updateExprs : option (list UpdateExpr); yy_updateExpr : option UpdateExpr }.

Definition zero_sym : yySymType :=
  mkSym 0 None None "000"%char None [] "" [] None None None [] None None None None None None None
  None [] [] None None [] None [] None None None None None.

(** Assignments to one field. *)
Definition set_yys (x : Z) (v : yySymType) : yySymType :=
  mkSym x (yy_statement v) (yy_selStmt v) (yy_byt v) (yy_bytes v) (yy_bytes2 v) (yy_str v)
  (yy_selectExprs v) (yy_selectExpr v) (yy_columns v) (yy_colName v) (yy_tableExprs v) (yy_tableExpr v)
  (yy_smTableExpr v) (yy_tableName v) (yy_indexHints v) (yy_expr v) (yy_boolExpr v) (yy_valExpr v)
  (yy_tuple v) (yy_valExprs v) (yy_values v) (yy_subquery v) (yy_caseExpr v) (yy_whens v) (yy_when v)
  (yy_orderBy v) (yy_order v) (yy_limit v) (yy_insRows v) (yy_updateExprs v) (yy_updateExpr v).
Definition set_yy_statement (x : option Statement) (v : yySymType) : yySymType :=
  mkSym (yys v) x (yy_selStmt v) (yy_byt v) (yy_bytes v) (yy_bytes2 v) (yy_str v) (yy_selectExprs v)
  (yy_selectExpr v) (yy_columns v) (yy_colName v) (yy_tableExprs v) (yy_tableExpr v) (yy_smTableExpr v)
  (yy_tableName v) (yy_indexHints v) (yy_expr v) (yy_boolExpr v) (yy_valExpr v) (yy_tuple v)
  (yy_valExprs v) (yy_values v) (yy_subquery v) (yy_caseExpr v) (yy_whens v) (yy_when v) (yy_orderBy v)
  (yy_order v) (yy_limit v) (yy_insRows v) (yy_updateExprs v) (yy_updateExpr v).
Definition set_yy_selStmt (x : option SelectStatement) (v : yySymType) : yySymType :=
  mkSym (yys v) (yy_statement v) x (yy_byt v) (yy_bytes v) (yy_bytes2 v) (yy_str v) (yy_selectExprs v)
  (yy_selectExpr v) (yy_columns v) (yy_colName v) (yy_tableExprs v) (yy_tableExpr v) (yy_smTableExpr v)
  (yy_tableName v) (yy_indexHints v) (yy_expr v) (yy_boolExpr v) (yy_valExpr v) (yy_tuple v)
  (yy_valExprs v) (yy_values v) (yy_subquery v) (yy_caseExpr v) (yy_whens v) (yy_when v) (yy_orderBy v)
  (yy_order v) (yy_limit v) (yy_insRows v) (yy_updateExprs v) (yy_updateExpr v).
Definition set_yy_byt (x : ascii) (v : yySymType) : yySymType :=
  mkSym (yys v) (yy_statement v) (yy_selStmt v) x (yy_bytes v) (yy_bytes2 v) (yy_str v)
  (yy_selectExprs v) (yy_selectExpr v) (yy_columns v) (yy_colName v) (yy_tableExprs v) (yy_tableExpr v)
  (yy_smTableExpr v) (yy_tableName v) (yy_indexHints v) (yy_expr v) (yy_boolExpr v) (yy_valExpr v)
  (yy_tuple v) (yy_valExprs v) (yy_values v) (yy_subquery v) (yy_caseExpr v) (yy_whens v) (yy_when v)
  (yy_orderBy v) (yy_order v) (yy_limit v) (yy_insRows v) (yy_updateExprs v) (yy_updateExpr v).
Definition set_yy_bytes (x : option string) (v : yySymType) : yySymType :=
  mkSym (yys v) (yy_statement v) (yy_selStmt v) (yy_byt v) x (yy_bytes2 v) (yy_str v)
  (yy_selectExprs v) (yy_selectExpr v) (yy_columns v) (yy_colName v) (yy_tableExprs v) (yy_tableExpr v)
  (yy_smTableExpr v) (yy_tableName v) (yy_indexHints v) (yy_expr v) (yy_boolExpr v) (yy_valExpr v)
  (yy_tuple v) (yy_valExprs v) (yy_values v) (yy_subquery v) (yy_caseExpr v) (yy_whens v) (yy_when v)
  (yy_orderBy v) (yy_order v) (yy_limit v) (yy_insRows v) (yy_updateExprs v) (yy_updateExpr v).
Definition set_yy_bytes2 (x : list string) (v : yySymType) : yySymType :=
  mkSym (yys v) (yy_statement v) (yy_selStmt v) (yy_byt v) (yy_bytes v) x (yy_str v) (yy_selectExprs v)
  (yy_selectExpr v) (yy_columns v) (yy_colName v) (yy_tableExprs v) (yy_tableExpr v) (yy_smTableExpr v)
  (yy_tableName v) (yy_indexHints v) (yy_expr v) (yy_boolExpr v) (yy_valExpr v) (yy_tuple v)
  (yy_valExprs v) (yy_values v) (yy_subquery v) (yy_caseExpr v) (yy_whens v) (yy_when v) (yy_orderBy v)
  (yy_order v) (yy_limit v) (yy_insRows v) (yy_updateExprs v) (yy_updateExpr v).
Definition set_yy_str (x : string) (v : yySymType) : yySymType :=
  mkSym (yys v) (yy_statement v) (yy_selStmt v) (yy_byt v) (yy_bytes v) (yy_bytes2 v) x
  (yy_selectExprs v) (yy_selectExpr v) (yy_columns v) (yy_colName v) (yy_tableExprs v) (yy_tableExpr v)
  (yy_smTableExpr v) (yy_tableName v) (yy_indexHints v) (yy_expr v) (yy_boolExpr v) (yy_valExpr v)
  (yy_tuple v) (yy_valExprs v) (yy_values v) (yy_subquery v) (yy_caseExpr v) (yy_whens v) (yy_when v)
  (yy_orderBy v) (yy_order v) (yy_limit v) (yy_insRows v) (yy_updateExprs v) (yy_updateExpr v).
Definition set_yy_selectExprs (x : list SelectExpr) (v : yySymType) : yySymType :=
  mkSym (yys v) (yy_statement v) (yy_selStmt v) (yy_byt v) (yy_bytes v) (yy_bytes2 v) (yy_str v) x
  (yy_selectExpr v) (yy_columns v) (yy_colName v) (yy_tableExprs v) (yy_tableExpr v) (yy_smTableExpr v)
  (yy_tableName v) (yy_indexHints v) (yy_expr v) (yy_boolExpr v) (yy_valExpr v) (yy_tuple v)
  (yy_valExprs v) (yy_values v) (yy_subquery v) (yy_caseExpr v) (yy_whens v) (yy_when v) (yy_orderBy v)
  (yy_order v) (yy_limit v) (yy_insRows v) (yy_updateExprs v) (yy_updateExpr v).
Definition set_yy_selectExpr (x : option SelectExpr) (v : yySymType) : yySymType :=
  mkSym (yys v) (yy_statement v) (yy_selStmt v) (yy_byt v) (yy_bytes v) (yy_bytes2 v) (yy_str v)
  (yy_selectExprs v) x (yy_columns v) (yy_colName v) (yy_tableExprs v) (yy_tableExpr v)
  (yy_smTableExpr v) (yy_tableName v) (yy_indexHints v) (yy_expr v) (yy_boolExpr v) (yy_valExpr v)
  (yy_tuple v) (yy_valExprs v) (yy_values v) (yy_subquery v) (yy_caseExpr v) (yy_whens v) (yy_when v)
  (yy_orderBy v) (yy_order v) (yy_limit v) (yy_insRows v) (yy_updateExprs v) (yy_updateExpr v).
Definition set_yy_columns (x : option (list SelectExpr)) (v : yySymType) : yySymType :=
  mkSym (yys v) (yy_statement v) (yy_selStmt v) (yy_byt v) (yy_bytes v) (yy_bytes2 v) (yy_str v)
  (yy_selectExprs v) (yy_selectExpr v) x (yy_colName v) (yy_tableExprs v) (yy_tableExpr v)
  (yy_smTableExpr v) (yy_tableName v) (yy_indexHints v) (yy_expr v) (yy_boolExpr v) (yy_valExpr v)
  (yy_tuple v) (yy_valExprs v) (yy_values v) (yy_subquery v) (yy_caseExpr v) (yy_whens v) (yy_when v)
  (yy_orderBy v) (yy_order v) (yy_limit v) (yy_insRows v) (yy_updateExprs v) (yy_updateExpr v).
Definition set_yy_colName (x : option colname) (v : yySymType) : yySymType :=
  mkSym (yys v) (yy_statement v) (yy_selStmt v) (yy_byt v) (yy_bytes v) (yy_bytes2 v) (yy_str v)
  (yy_selectExprs v) (yy_selectExpr v) (yy_columns v) x (yy_tableExprs v) (yy_tableExpr v)
  (yy_smTableExpr v) (yy_tableName v) (yy_indexHints v) (yy_expr v) (yy_boolExpr v) (yy_valExpr v)
  (yy_tuple v) (yy_valExprs v) (yy_values v) (yy_subquery v) (yy_caseExpr v) (yy_whens v) (yy_when v)
  (yy_orderBy v) (yy_order v) (yy_limit v) (yy_insRows v) (yy_updateExprs v) (yy_updateExpr v).
Definition set_yy_tableExprs (x : list TableExpr) (v : yySymType) : yySymType :=
  mkSym (yys v) (yy_statement v) (yy_selStmt v) (yy_byt v) (yy_bytes v) (yy_bytes2 v) (yy_str v)
  (yy_selectExprs v) (yy_selectExpr v) (yy_columns v) (yy_colName v) x (yy_tableExpr v)
  (yy_smTableExpr v) (yy_tableName v) (yy_indexHints v) (yy_expr v) (yy_boolExpr v) (yy_valExpr v)
  (yy_tuple v) (yy_valExprs v) (yy_values v) (yy_subquery v) (yy_caseExpr v) (yy_whens v) (yy_when v)
  (yy_orderBy v) (yy_order v) (yy_limit v) (yy_insRows v) (yy_updateExprs v) (yy_updateExpr v).
Definition set_yy_tableExpr (x : option TableExpr) (v : yySymType) : yySymType :=
  mkSym (yys v) (yy_statement v) (yy_selStmt v) (yy_byt v) (yy_bytes v) (yy_bytes2 v) (yy_str v)
  (yy_selectExprs v) (yy_selectExpr v) (yy_columns v) (yy_colName v) (yy_tableExprs v) x
  (yy_smTableExpr v) (yy_tableName v) (yy_indexHints v) (yy_expr v) (yy_boolExpr v) (yy_valExpr v)
  (yy_tuple v) (yy_valExprs v) (yy_values v) (yy_subquery v) (yy_caseExpr v) (yy_whens v) (yy_when v)
  (yy_orderBy v) (yy_order v) (yy_limit v) (yy_insRows v) (yy_updateExprs v) (yy_updateExpr v).
Definition set_yy_smTableExpr (x : option SimpleTableExpr) (v : yySymType) : yySymType :=
  mkSym (yys v) (yy_statement v) (yy_selStmt v) (yy_byt v) (yy_bytes v) (yy_bytes2 v) (yy_str v)
  (yy_selectExprs v) (yy_selectExpr v) (yy_columns v) (yy_colName v) (yy_tableExprs v) (yy_tableExpr v)
  x (yy_tableName v) (yy_indexHints v) (yy_expr v) (yy_boolExpr v) (yy_valExpr v) (yy_tuple v)
  (yy_valExprs v) (yy_values v) (yy_subquery v) (yy_caseExpr v) (yy_whens v) (yy_when v) (yy_orderBy v)
  (yy_order v) (yy_limit v) (yy_insRows v) (yy_updateExprs v) (yy_updateExpr v).
Definition set_yy_tableName (x : option TableName) (v : yySymType) : yySymType :=
  mkSym (yys v) (yy_statement v) (yy_selStmt v) (yy_byt v) (yy_bytes v) (yy_bytes2 v) (yy_str v)
  (yy_selectExprs v) (yy_selectExpr v) (yy_columns v) (yy_colName v) (yy_tableExprs v) (yy_tableExpr v)
  (yy_smTableExpr v) x (yy_indexHints v) (yy_expr v) (yy_boolExpr v) (yy_valExpr v) (yy_tuple v)
  (yy_valExprs v) (yy_values v) (yy_subquery v) (yy_caseExpr v) (yy_whens v) (yy_when v) (yy_orderBy v)
  (yy_order v) (yy_limit v) (yy_insRows v) (yy_updateExprs v) (yy_updateExpr v).
Definition set_yy_indexHints (x : option IndexHints) (v : yySymType) : yySymType :=
  mkSym (yys v) (yy_statement v) (yy_selStmt v) (yy_byt v) (yy_bytes v) (yy_bytes2 v) (yy_str v)
  (yy_selectExprs v) (yy_selectExpr v) (yy_columns v) (yy_colName v) (yy_tableExprs v) (yy_tableExpr v)
  (yy_smTableExpr v) (yy_tableName v) x (yy_expr v) (yy_boolExpr v) (yy_valExpr v) (yy_tuple v)
  (yy_valExprs v) (yy_values v) (yy_subquery v) (yy_caseExpr v) (yy_whens v) (yy_when v) (yy_orderBy v)
  (yy_order v) (yy_limit v) (yy_insRows v) (yy_updateExprs v) (yy_updateExpr v).
Definition set_yy_expr (x : option Expr) (v : yySymType) : yySymType :=
  mkSym (yys v) (yy_statement v) (yy_selStmt v) (yy_byt v) (yy_bytes v) (yy_bytes2 v) (yy_str v)
  (yy_selectExprs v) (yy_selectExpr v) (yy_columns v) (yy_colName v) (yy_tableExprs v) (yy_tableExpr v)
  (yy_smTableExpr v) (yy_tableName v) (yy_indexHints v) x (yy_boolExpr v) (yy_valExpr v) (yy_tuple v)
  (yy_valExprs v) (yy_values v) (yy_subquery v) (yy_caseExpr v) (yy_whens v) (yy_when v) (yy_orderBy v)
  (yy_order v) (yy_limit v) (yy_insRows v) (yy_updateExprs v) (yy_updateExpr v).
Definition set_yy_boolExpr (x : option BoolExpr) (v : yySymType) : yySymType :=
  mkSym (yys v) (yy_statement v) (yy_selStmt v) (yy_byt v) (yy_bytes v) (yy_bytes2 v) (yy_str v)
  (yy_selectExprs v) (yy_selectExpr v) (yy_columns v) (yy_colName v) (yy_tableExprs v) (yy_tableExpr v)
  (yy_smTableExpr v) (yy_tableName v) (yy_indexHints v) (yy_expr v) x (yy_valExpr v) (yy_tuple v)
  (yy_valExprs v) (yy_values v) (yy_subquery v) (yy_caseExpr v) (yy_whens v) (yy_when v) (yy_orderBy v)
  (yy_order v) (yy_limit v) (yy_insRows v) (yy_updateExprs v) (yy_updateExpr v).
Definition set_yy_valExpr (x : option ValExpr) (v : yySymType) : yySymType :=
  mkSym (yys v) (yy_statement v) (yy_selStmt v) (yy_byt v) (yy_bytes v) (yy_bytes2 v) (yy_str v)
  (yy_selectExprs v) (yy_selectExpr v) (yy_columns v) (yy_colName v) (yy_tableExprs v) (yy_tableExpr v)
  (yy_smTableExpr v) (yy_tableName v) (yy_indexHints v) (yy_expr v) (yy_boolExpr v) x (yy_tuple v)
  (yy_valExprs v) (yy_values v) (yy_subquery v) (yy_caseExpr v) (yy_whens v) (yy_when v) (yy_orderBy v)
  (yy_order v) (yy_limit v) (yy_insRows v) (yy_updateExprs v) (yy_updateExpr v).
Definition set_yy_tuple (x : option Tuple) (v : yySymType) : yySymType :=
  mkSym (yys v) (yy_statement v) (yy_selStmt v) (yy_byt v) (yy_bytes v) (yy_bytes2 v) (yy_str v)
  (yy_selectExprs v) (yy_selectExpr v) (yy_columns v) (yy_colName v) (yy_tableExprs v) (yy_tableExpr v)
  (yy_smTableExpr v) (yy_tableName v) (yy_indexHints v) (yy_expr v) (yy_boolExpr v) (yy_valExpr v) x
  (yy_valExprs v) (yy_values v) (yy_subquery v) (yy_caseExpr v) (yy_whens v) (yy_when v) (yy_orderBy v)
  (yy_order v) (yy_limit v) (yy_insRows v) (yy_updateExprs v) (yy_updateExpr v).
Definition set_yy_valExprs (x : list ValExpr) (v : yySymType) : yySymType :=
  mkSym (yys v) (yy_statement v) (yy_selStmt v) (yy_byt v) (yy_bytes v) (yy_bytes2 v) (yy_str v)
  (yy_selectExprs v) (yy_selectExpr v) (yy_columns v) (yy_colName v) (yy_tableExprs v) (yy_tableExpr v)
  (yy_smTableExpr v) (yy_tableName v) (yy_indexHints v) (yy_expr v) (yy_boolExpr v) (yy_valExpr v)
  (yy_tuple v) x (yy_values v) (yy_subquery v) (yy_caseExpr v) (yy_whens v) (yy_when v) (yy_orderBy v)
  (yy_order v) (yy_limit v) (yy_insRows v) (yy_updateExprs v) (yy_updateExpr v).
Definition set_yy_values (x : list Tuple) (v : yySymType) : yySymType :=
  mkSym (yys v) (yy_statement v) (yy_selStmt v) (yy_byt v) (yy_bytes v) (yy_bytes2 v) (yy_str v)
  (yy_selectExprs v) (yy_selectExpr v) (yy_columns v) (yy_colName v) (yy_tableExprs v) (yy_tableExpr v)
  (yy_smTableExpr v) (yy_tableName v) (yy_indexHints v) (yy_expr v) (yy_boolExpr v) (yy_valExpr v)
  (yy_tuple v) (yy_valExprs v) x (yy_subquery v) (yy_caseExpr v) (yy_whens v) (yy_when v)
  (yy_orderBy v) (yy_order v) (yy_limit v) (yy_insRows v) (yy_updateExprs v) (yy_updateExpr v).
Definition set_yy_subquery (x : option SelectStatement) (v : yySymType) : yySymType :=
  mkSym (yys v) (yy_statement v) (yy_selStmt v) (yy_byt v) (yy_bytes v) (yy_bytes2 v) (yy_str v)
  (yy_selectExprs v) (yy_selectExpr v) (yy_columns v) (yy_colName v) (yy_tableExprs v) (yy_tableExpr v)
  (yy_smTableExpr v) (yy_tableName v) (yy_indexHints v) (yy_expr v) (yy_boolExpr v) (yy_valExpr v)
  (yy_tuple v) (yy_valExprs v) (yy_values v) x (yy_caseExpr v) (yy_whens v) (yy_when v) (yy_orderBy v)
  (yy_order v) (yy_limit v) (yy_insRows v) (yy_updateExprs v) (yy_updateExpr v).
Definition set_yy_caseExpr (x : option ValExpr) (v : yySymType) : yySymType :=
  mkSym (yys v) (yy_statement v) (yy_selStmt v) (yy_byt v) (yy_bytes v) (yy_bytes2 v) (yy_str v)
  (yy_selectExprs v) (yy_selectExpr v) (yy_columns v) (yy_colName v) (yy_tableExprs v) (yy_tableExpr v)
  (yy_smTableExpr v) (yy_tableName v) (yy_indexHints v) (yy_expr v) (yy_boolExpr v) (yy_valExpr v)
  (yy_tuple v) (yy_valExprs v) (yy_values v) (yy_subquery v) x (yy_whens v) (yy_when v) (yy_orderBy v)
  (yy_order v) (yy_limit v) (yy_insRows v) (yy_updateExprs v) (yy_updateExpr v).
Definition set_yy_whens (x : list When) (v : yySymType) : yySymType :=
  mkSym (yys v) (yy_statement v) (yy_selStmt v) (yy_byt v) (yy_bytes v) (yy_bytes2 v) (yy_str v)
  (yy_selectExprs v) (yy_selectExpr v) (yy_columns v) (yy_colName v) (yy_tableExprs v) (yy_tableExpr v)
  (yy_smTableExpr v) (yy_tableName v) (yy_indexHints v) (yy_expr v) (yy_boolExpr v) (yy_valExpr v)
  (yy_tuple v) (yy_valExprs v) (yy_values v) (yy_subquery v) (yy_caseExpr v) x (yy_when v)
  (yy_orderBy v) (yy_order v) (yy_limit v) (yy_insRows v) (yy_updateExprs v) (yy_updateExpr v).
Definition set_yy_when (x : option When) (v : yySymType) : yySymType :=
  mkSym (yys v) (yy_statement v) (yy_selStmt v) (yy_byt v) (yy_bytes v) (yy_bytes2 v) (yy_str v)
  (yy_selectExprs v) (yy_selectExpr v) (yy_columns v) (yy_colName v) (yy_tableExprs v) (yy_tableExpr v)
  (yy_smTableExpr v) (yy_tableName v) (yy_indexHints v) (yy_expr v) (yy_boolExpr v) (yy_valExpr v)
  (yy_tuple v) (yy_valExprs v) (yy_values v) (yy_subquery v) (yy_caseExpr v) (yy_whens v) x
  (yy_orderBy v) (yy_order v) (yy_limit v) (yy_insRows v) (yy_updateExprs v) (yy_updateExpr v).
Definition set_yy_orderBy (x : list Order) (v : yySymType) : yySymType :=
  mkSym (yys v) (yy_statement v) (yy_selStmt v) (yy_byt v) (yy_bytes v) (yy_bytes2 v) (yy_str v)
  (yy_selectExprs v) (yy_selectExpr v) (yy_columns v) (yy_colName v) (yy_tableExprs v) (yy_tableExpr v)
  (yy_smTableExpr v) (yy_tableName v) (yy_indexHints v) (yy_expr v) (yy_boolExpr v) (yy_valExpr v)
  (yy_tuple v) (yy_valExprs v) (yy_values v) (yy_subquery v) (yy_caseExpr v) (yy_whens v) (yy_when v) x
  (yy_order v) (yy_limit v) (yy_insRows v) (yy_updateExprs v) (yy_updateExpr v).
Definition set_yy_order (x : option Order) (v : yySymType) : yySymType :=
  mkSym (yys v) (yy_statement v) (yy_selStmt v) (yy_byt v) (yy_bytes v) (yy_bytes2 v) (yy_str v)
  (yy_selectExprs v) (yy_selectExpr v) (yy_columns v) (yy_colName v) (yy_tableExprs v) (yy_tableExpr v)
  (yy_smTableExpr v) (yy_tableName v) (yy_indexHints v) (yy_expr v) (yy_boolExpr v) (yy_valExpr v)
  (yy_tuple v) (yy_valExprs v) (yy_values v) (yy_subquery v) (yy_caseExpr v) (yy_whens v) (yy_when v)
  (yy_orderBy v) x (yy_limit v) (yy_insRows v) (yy_updateExprs v) (yy_updateExpr v).
Definition set_yy_limit (x : option Limit) (v : yySymType) : yySymType :=
  mkSym (yys v) (yy_statement v) (yy_selStmt v) (yy_byt v) (yy_bytes v) (yy_bytes2 v) (yy_str v)
  (yy_selectExprs v) (yy_selectExpr v) (yy_columns v) (yy_colName v) (yy_tableExprs v) (yy_tableExpr v)
  (yy_smTableExpr v) (yy_tableName v) (yy_indexHints v) (yy_expr v) (yy_boolExpr v) (yy_valExpr v)
  (yy_tuple v) (yy_valExprs v) (yy_values v) (yy_subquery v) (yy_caseExpr v) (yy_whens v) (yy_when v)
  (yy_orderBy v) (yy_order v) x (yy_insRows v) (yy_updateExprs v) (yy_updateExpr v).
Definition set_yy_insRows (x : option InsertRows) (v : yySymType) : yySymType :=
  mkSym (yys v) (yy_statement v) (yy_selStmt v) (yy_byt v) (yy_bytes v) (yy_bytes2 v) (yy_str v)
  (yy_selectExprs v) (yy_selectExpr v) (yy_columns v) (yy_colName v) (yy_tableExprs v) (yy_tableExpr v)
  (yy_smTableExpr v) (yy_tableName v) (yy_indexHints v) (yy_expr v) (yy_boolExpr v) (yy_valExpr v)
  (yy_tuple v) (yy_valExprs v) (yy_values v) (yy_subquery v) (yy_caseExpr v) (yy_whens v) (yy_when v)
  (yy_orderBy v) (yy_order v) (yy_limit v) x (yy_updateExprs v) (yy_updateExpr v).
Definition set_yy_updateExprs (x : option (list UpdateExpr)) (v : yySymType) : yySymType :=
  mkSym (yys v) (yy_statement v) (yy_selStmt v) (yy_byt v) (yy_bytes v) (yy_bytes2 v) (yy_str v)
  (yy_selectExprs v) (yy_selectExpr v) (yy_columns v) (yy_colName v) (yy_tableExprs v) (yy_tableExpr v)
  (yy_smTableExpr v) (yy_tableName v) (yy_indexHints v) (yy_expr v) (yy_boolExpr v) (yy_valExpr v)
  (yy_tuple v) (yy_valExprs v) (yy_values v) (yy_subquery v) (yy_caseExpr v) (yy_whens v) (yy_when v)
  (yy_orderBy v) (yy_order v) (yy_limit v) (yy_insRows v) x (yy_updateExpr v).
Definition set_yy_updateExpr (x : option UpdateExpr) (v : yySymType) : yySymType :=
  mkSym (yys v) (yy_statement v) (yy_selStmt v) (yy_byt v) (yy_bytes v) (yy_bytes2 v) (yy_str v)
  (yy_selectExprs v) (yy_selectExpr v) (yy_columns v) (yy_colName v) (yy_tableExprs v) (yy_tableExpr v)
  (yy_smTableExpr v) (yy_tableName v) (yy_indexHints v) (yy_expr v) (yy_boolExpr v) (yy_valExpr v)
  (yy_tuple v) (yy_valExprs v) (yy_values v) (yy_subquery v) (yy_caseExpr v) (yy_whens v) (yy_when v)
  (yy_orderBy v) (yy_order v) (yy_limit v) (yy_insRows v) (yy_updateExprs v) x.
