(* ===== verification/YyActions.v ===== *)
(** * The parser's actions ([sqlparser/sql.go], the cases of the switch in
      [yyParserImpl.Parse])

    [D i] is [yyDollar[i]], the value of the [i]-th symbol of the production
    that is reduced.  An action assigns to one field of [yyVAL], which
    starts as the value of the first symbol.  Appending to the slice of a
    symbol is appending to its list: a symbol's value is used once.  Where
    the code stores a nil pointer or interface as part of a tree, which the
    types of [Ast] do not allow, the action fails with [NilValue]. *)
From S2P Require Import Prelude Errors GoLib SqlTypes Token Ast YyTables.
From Stdlib Require Import Ascii.
Open Scope Z_scope.

(** Names that only the grammar uses ([ast.go]). *)
Definition AST_UNION : string := "union".
Definition AST_UNION_ALL : string := "union all".
Definition AST_SET_MINUS : string := "minus".
Definition AST_EXCEPT : string := "except".
Definition AST_INTERSECT : string := "intersect".
Definition AST_JOIN : string := "join".
Definition AST_STRAIGHT_JOIN : string := "straight_join".
Definition AST_LEFT_JOIN : string := "left join".
Definition AST_RIGHT_JOIN : string := "right join".
Definition AST_CROSS_JOIN : string := "cross join".
Definition AST_NATURAL_JOIN : string := "natural join".
Definition AST_USE : string := "use".
Definition AST_IGNORE : string := "ignore".
Definition AST_FORCE : string := "force".
Definition AST_EQ : string := "=".
Definition AST_LT : string := "<".
Definition AST_GT : string := ">".
Definition AST_LE : string := "<=".
Definition AST_GE : string := ">=".
Definition AST_NE : string := "!=".
Definition AST_NSE : string := "<=>".
Definition AST_NOT_IN : string := "not in".
Definition AST_LIKE : string := "like".
Definition AST_NOT_LIKE : string := "not like".
Definition AST_IS_NULL : string := "is null".
Definition AST_IS_NOT_NULL : string := "is not null".
Definition AST_BITAND : ascii := "&".
Definition AST_BITOR : ascii := "|".
Definition AST_BITXOR : ascii := "^".
Definition AST_PLUS : ascii := "+".
Definition AST_MINUS : ascii := "-".
Definition AST_MULT : ascii := "*".
Definition AST_DIV : ascii := "/".
Definition AST_MOD : ascii := "%".
Definition AST_UPLUS : ascii := "+".
Definition AST_UMINUS : ascii := "-".
Definition AST_TILDA : ascii := "~".

Definition SHARE : string := "share".
Definition MODE : string := "mode".
Definition IF_BYTES : string := "if".
Definition VALUES_BYTES : string := "values".

(** Why a run of the parser can fail to answer: its loop or a loop of the
    tokenizer ran out of fuel, or a tree would have a nil child. *)
Inductive yy_error : Type := YyFuel | NilValue.

Definition non_nil {A} (o : option A) : res yy_error A :=
  match o with Some a => Ok a | None => Err NilValue end.

(** A tokenizer with the tree the parser has stored in it. *)
Record lexer := mkLexer { tokenizer : Tokenizer; ParseTree : option Statement }.

Definition SetParseTree (l : lexer) (stmt : Statement) : lexer := mkLexer (tokenizer l) (Some stmt).
Definition SetAllowComments (l : lexer) (allow : bool) : lexer :=
  let t := tokenizer l in
  mkLexer (mkTokenizer (InStream t) allow (Token.ForceEOF t) (lastChar t) (Position t)
             (errorToken t) (LastError t) (posVarIndex t)) (ParseTree l).
Definition ForceEOF (l : lexer) : lexer :=
  let t := tokenizer l in
  mkLexer (mkTokenizer (InStream t) (AllowComments t) true (lastChar t) (Position t)
             (errorToken t) (LastError t) (posVarIndex t)) (ParseTree l).
Definition lexer_Error (l : lexer) (err : string) : lexer :=
  mkLexer (Tokenizer_Error (tokenizer l) err) (ParseTree l).

(** A select statement as a [Statement]. *)
Definition select_Statement (s : SelectStatement) : Statement :=
  match s with
  | Select c d e f w g h o l k => StSelect (mkSelect c d e f w g h o l k)
  | Union t l r => StUnion t l r
  | SimpleSelect c d e => StSimpleSelect c d e
  end.

(** What an action does: a new [yyVAL], or [return 1], both with the lexer
    as it is then. *)
Inductive act : Type :=
| Val (l : lexer) (v : yySymType)
| Return1 (l : lexer).

Section Actions.
Context (l : lexer) (D : Z -> yySymType) (V : yySymType).

Definition name (i : Z) : string := default "" (yy_bytes (D i)).
Definition list_of {A} (o : option (list A)) : list A := default [] o.

Definition val (v : yySymType) : res yy_error act := Ok (Val l v).
Definition statement (s : Statement) : res yy_error act := val (set_yy_statement (Some s) V).
Definition selStmt (s : SelectStatement) : res yy_error act := val (set_yy_selStmt (Some s) V).
Definition str (s : string) : res yy_error act := val (set_yy_str s V).
Definition bytes_ (b : option string) : res yy_error act := val (set_yy_bytes b V).
Definition boolExpr (e : BoolExpr) : res yy_error act := val (set_yy_boolExpr (Some e) V).
Definition valExpr (e : ValExpr) : res yy_error act := val (set_yy_valExpr (Some e) V).

(** The columns and values of [insert ... set] and [replace ... set]. *)
Definition set_columns (l : list UpdateExpr) : list SelectExpr :=
  (fun col => NonStarExpr (EVal (ColName (UpdateExpr_Name col))) None) <$> l.
Definition set_values (l : list UpdateExpr) : list ValExpr := UpdateExpr_Expr <$> l.

Definition act_command (n : Z) : res yy_error act :=
  match n with
  | 1 =>
      let* s := non_nil (yy_statement (D 1)) in Ok (Val (SetParseTree l s) V)
  | 2 => let* s := non_nil (yy_selStmt (D 1)) in statement (select_Statement s)
  | 18 => selStmt (SimpleSelect (yy_bytes2 (D 2)) (yy_str (D 3)) (yy_selectExprs (D 4)))
  | 19 =>
      selStmt (Select (yy_bytes2 (D 2)) (yy_str (D 3)) (yy_selectExprs (D 4)) (yy_tableExprs (D 6))
        (NewWhere AST_WHERE (yy_boolExpr (D 7))) (yy_valExprs (D 8)) (NewWhere AST_HAVING (yy_boolExpr (D 9)))
        (yy_orderBy (D 10)) (yy_limit (D 11)) (yy_str (D 12)))
  | 20 =>
      let* a := non_nil (yy_selStmt (D 1)) in
      let* b := non_nil (yy_selStmt (D 3)) in
      selStmt (Union (yy_str (D 2)) a b)
  | 21 =>
      let* table := non_nil (yy_tableName (D 5)) in
      let* rows := non_nil (yy_insRows (D 7)) in
      statement (StInsert (mkInsert (yy_bytes2 (D 2)) (yy_str (D 3)) table (yy_columns (D 6)) rows
                             (yy_updateExprs (D 8))))
  | 22 =>
      let* table := non_nil (yy_tableName (D 5)) in
      let sets := list_of (yy_updateExprs (D 7)) in
      statement (StInsert (mkInsert (yy_bytes2 (D 2)) (yy_str (D 3)) table (Some (set_columns sets))
                             (RowsValues [TupleVals (set_values sets)]) (yy_updateExprs (D 8))))
  | 23 =>
      let* table := non_nil (yy_tableName (D 4)) in
      let* rows := non_nil (yy_insRows (D 6)) in
      statement (StReplace (mkReplace (yy_bytes2 (D 2)) table (yy_columns (D 5)) rows))
  | 24 =>
      let* table := non_nil (yy_tableName (D 4)) in
      let sets := list_of (yy_updateExprs (D 6)) in
      statement (StReplace (mkReplace (yy_bytes2 (D 2)) table (Some (set_columns sets))
                              (RowsValues [TupleVals (set_values sets)])))
  | 25 =>
      let* table := non_nil (yy_tableName (D 3)) in
      statement (StUpdate (mkUpdate (yy_bytes2 (D 2)) table (list_of (yy_updateExprs (D 5)))
                             (NewWhere AST_WHERE (yy_boolExpr (D 6))) (yy_orderBy (D 7)) (yy_limit (D 8))))
  | 26 =>
      let* table := non_nil (yy_tableName (D 4)) in
      statement (StDelete (mkDelete (yy_bytes2 (D 2)) table (NewWhere AST_WHERE (yy_boolExpr (D 5)))
                             (yy_orderBy (D 6)) (yy_limit (D 7))))
  | _ => val V
  end.

Definition col_set (name : string) (e : ValExpr) : UpdateExpr := mkUpdateExpr (mkColName name None) e.

Definition act_session (n : Z) : res yy_error act :=
  match n with
  | 27 => statement (StSet (yy_bytes2 (D 2)) (list_of (yy_updateExprs (D 3))))
  | 28 => statement (StSet (yy_bytes2 (D 2)) [col_set "names" (StrVal "default")])
  | 29 =>
      let* e := non_nil (yy_valExpr (D 4)) in
      statement (StSet (yy_bytes2 (D 2)) [col_set "names" e])
  | 30 =>
      let* e := non_nil (yy_valExpr (D 4)) in
      let* c := non_nil (yy_valExpr (D 6)) in
      statement (StSet (yy_bytes2 (D 2)) [col_set "names" e; col_set "collate" c])
  | 31 | 32 => statement StBegin
  | 33 => statement StCommit
  | 34 => statement StRollback
  | 35 =>
      let* region := non_nil (yy_tableName (D 2)) in
      let* rows := non_nil (yy_insRows (D 4)) in
      statement (StAdmin region (yy_columns (D 3)) rows)
  | 36 => statement StAdminHelp
  | 37 => statement (StUseDB (name 2))
  | 38 =>
      let* table := non_nil (yy_tableName (D 4)) in
      statement (StTruncate (mkTruncate (yy_bytes2 (D 2)) (yy_str (D 3)) table))
  | 39 => statement (StDDL AST_CREATE "" "" (name 4))
  | 40 => statement (StDDL AST_ALTER "" (name 7) (name 7))
  | 41 => statement (StDDL AST_CREATE "" "" (name 3))
  | 42 => statement (StDDL AST_ALTER (yy_str (D 2)) (name 4) (name 4))
  | 43 => statement (StDDL AST_RENAME (yy_str (D 2)) (name 4) (name 7))
  | 44 => statement (StDDL AST_ALTER "" (name 3) (name 3))
  | 45 => statement (StDDL AST_RENAME "" (name 3) (name 5))
  | 46 => statement (StDDL AST_DROP "" (name 4) "")
  | 47 => statement (StDDL AST_ALTER "" (name 5) (name 5))
  | 48 => statement (StDDL AST_DROP "" (name 4) "")
  | _ => val V
  end.

Definition act_select (n : Z) : res yy_error act :=
  match n with
  | 49 => Ok (Val (SetAllowComments l true) V)
  | 50 => Ok (Val (SetAllowComments l false) (set_yy_bytes2 (yy_bytes2 (D 2)) V))
  | 51 => val (set_yy_bytes2 [] V)
  | 52 => val (set_yy_bytes2 (yy_bytes2 (D 1) ++ [name 2]) V)
  | 53 => str AST_UNION
  | 54 => str AST_UNION_ALL
  | 55 => str AST_SET_MINUS
  | 56 => str AST_EXCEPT
  | 57 => str AST_INTERSECT
  | 58 => str ""
  | 59 => str AST_DISTINCT
  | 60 => let* e := non_nil (yy_selectExpr (D 1)) in val (set_yy_selectExprs [e] V)
  | 61 => let* e := non_nil (yy_selectExpr (D 3)) in val (set_yy_selectExprs (yy_selectExprs V ++ [e]) V)
  | 62 => val (set_yy_selectExpr (Some (StarExpr None)) V)
  | 63 =>
      let* e := non_nil (yy_expr (D 1)) in
      val (set_yy_selectExpr (Some (NonStarExpr e (yy_bytes (D 2)))) V)
  | 64 => val (set_yy_selectExpr (Some (StarExpr (yy_bytes (D 1)))) V)
  | 65 => let* e := non_nil (yy_boolExpr (D 1)) in val (set_yy_expr (Some (EBool e)) V)
  | 66 => let* e := non_nil (yy_valExpr (D 1)) in val (set_yy_expr (Some (EVal e)) V)
  | 67 => bytes_ None
  | 68 => bytes_ (yy_bytes (D 1))
  | 69 => bytes_ (yy_bytes (D 2))
  | _ => val V
  end.

Definition act_table (n : Z) : res yy_error act :=
  match n with
  | 70 => let* t := non_nil (yy_tableExpr (D 1)) in val (set_yy_tableExprs [t] V)
  | 71 => let* t := non_nil (yy_tableExpr (D 3)) in val (set_yy_tableExprs (yy_tableExprs V ++ [t]) V)
  | 72 =>
      let* e := non_nil (yy_smTableExpr (D 1)) in
      val (set_yy_tableExpr (Some (AliasedTableExpr e (yy_bytes (D 2)) (yy_indexHints (D 3)))) V)
  | 73 => let* t := non_nil (yy_tableExpr (D 2)) in val (set_yy_tableExpr (Some (ParenTableExpr t)) V)
  | 74 =>
      let* a := non_nil (yy_tableExpr (D 1)) in
      let* b := non_nil (yy_tableExpr (D 3)) in
      val (set_yy_tableExpr (Some (JoinTableExpr a (yy_str (D 2)) b None)) V)
  | 75 =>
      let* a := non_nil (yy_tableExpr (D 1)) in
      let* b := non_nil (yy_tableExpr (D 3)) in
      val (set_yy_tableExpr (Some (JoinTableExpr a (yy_str (D 2)) b (yy_boolExpr (D 5)))) V)
  | 76 => bytes_ None
  | 77 => bytes_ (yy_bytes (D 1))
  | 78 => bytes_ (yy_bytes (D 2))
  | 79 => str AST_JOIN
  | 80 => str AST_STRAIGHT_JOIN
  | 81 | 82 => str AST_LEFT_JOIN
  | 83 | 84 => str AST_RIGHT_JOIN
  | 85 => str AST_JOIN
  | 86 => str AST_CROSS_JOIN
  | 87 => str AST_NATURAL_JOIN
  | 88 => val (set_yy_smTableExpr (Some (TableNameExpr (mkTableName (name 1) None))) V)
  | 89 => val (set_yy_smTableExpr (Some (TableNameExpr (mkTableName (name 3) (yy_bytes (D 1))))) V)
  | 90 => let* s := non_nil (yy_subquery (D 1)) in val (set_yy_smTableExpr (Some (SubqueryTable s)) V)
  | 91 => val (set_yy_tableName (Some (mkTableName (name 1) None)) V)
  | 92 => val (set_yy_tableName (Some (mkTableName (name 3) (yy_bytes (D 1)))) V)
  | 93 => val (set_yy_indexHints None V)
  | 94 => val (set_yy_indexHints (Some (mkIndexHints AST_USE (yy_bytes2 (D 4)))) V)
  | 95 => val (set_yy_indexHints (Some (mkIndexHints AST_IGNORE (yy_bytes2 (D 4)))) V)
  | 96 => val (set_yy_indexHints (Some (mkIndexHints AST_FORCE (yy_bytes2 (D 4)))) V)
  | 97 => val (set_yy_bytes2 [name 1] V)
  | 98 => val (set_yy_bytes2 (yy_bytes2 (D 1) ++ [name 3]) V)
  | 99 => val (set_yy_boolExpr None V)
  | 100 => val (set_yy_boolExpr (yy_boolExpr (D 2)) V)
  | _ => val V
  end.

(** Two boolean and two value operands. *)
Definition bools (f : BoolExpr -> BoolExpr -> BoolExpr) (i j : Z) : res yy_error act :=
  let* a := non_nil (yy_boolExpr (D i)) in
  let* b := non_nil (yy_boolExpr (D j)) in
  boolExpr (f a b).
Definition vals {A} (k : A -> res yy_error act) (f : ValExpr -> ValExpr -> A) (i j : Z) : res yy_error act :=
  let* a := non_nil (yy_valExpr (D i)) in
  let* b := non_nil (yy_valExpr (D j)) in
  k (f a b).
Definition in_tuple (operator : string) (j : Z) : res yy_error act :=
  let* a := non_nil (yy_valExpr (D 1)) in
  let* b := non_nil (yy_tuple (D j)) in
  boolExpr (ComparisonExpr operator a (Tuple_ValExpr b)).
Definition range (operator : string) (i j : Z) : res yy_error act :=
  let* a := non_nil (yy_valExpr (D 1)) in
  let* from := non_nil (yy_valExpr (D i)) in
  let* to := non_nil (yy_valExpr (D j)) in
  boolExpr (RangeCond operator a from to).

Definition act_bool (n : Z) : res yy_error act :=
  match n with
  | 102 => bools AndExpr 1 3
  | 103 => bools OrExpr 1 3
  | 104 => let* e := non_nil (yy_boolExpr (D 2)) in boolExpr (NotExpr e)
  | 105 => let* e := non_nil (yy_boolExpr (D 2)) in boolExpr (ParenBoolExpr e)
  | 106 => vals boolExpr (ComparisonExpr (yy_str (D 2))) 1 3
  | 107 => in_tuple AST_IN 3
  | 108 => in_tuple AST_NOT_IN 4
  | 109 => vals boolExpr (ComparisonExpr AST_LIKE) 1 3
  | 110 => vals boolExpr (ComparisonExpr AST_NOT_LIKE) 1 4
  | 111 => range AST_BETWEEN 3 5
  | 112 => range AST_NOT_BETWEEN 4 6
  | 113 => let* e := non_nil (yy_valExpr (D 1)) in boolExpr (NullCheck AST_IS_NULL e)
  | 114 => let* e := non_nil (yy_valExpr (D 1)) in boolExpr (NullCheck AST_IS_NOT_NULL e)
  | 115 => let* s := non_nil (yy_subquery (D 2)) in boolExpr (ExistsExpr s)
  | 116 => str AST_EQ
  | 117 => str AST_LT
  | 118 => str AST_GT
  | 119 => str AST_LE
  | 120 => str AST_GE
  | 121 => str AST_NE
  | 122 => str AST_NSE
  | _ => val V
  end.

Definition binary (operator : ascii) : res yy_error act :=
  vals valExpr (fun a b => BinaryExpr operator (EVal a) (EVal b)) 1 3.

(** A sign before a number is part of it; "+" is dropped. *)
Definition unary (operator : ascii) (e : ValExpr) : ValExpr :=
  match e with
  | NumVal num =>
      if Ascii.eqb operator "-" then NumVal ("-" +:+ num)
      else if Ascii.eqb operator "+" then NumVal num
      else UnaryExpr operator (EVal e)
  | _ => UnaryExpr operator (EVal e)
  end.

Definition act_value (n : Z) : res yy_error act :=
  match n with
  | 123 => val (set_yy_insRows (Some (RowsValues (yy_values (D 2)))) V)
  | 124 => let* s := non_nil (yy_selStmt (D 1)) in val (set_yy_insRows (Some (RowsSelect s)) V)
  | 125 => let* t := non_nil (yy_tuple (D 1)) in val (set_yy_values [t] V)
  | 126 => let* t := non_nil (yy_tuple (D 3)) in val (set_yy_values (yy_values (D 1) ++ [t]) V)
  | 127 => val (set_yy_tuple (Some (TupleVals (yy_valExprs (D 2)))) V)
  | 128 => let* s := non_nil (yy_subquery (D 1)) in val (set_yy_tuple (Some (TupleSubquery s)) V)
  | 129 => let* s := non_nil (yy_selStmt (D 2)) in val (set_yy_subquery (Some s) V)
  | 130 => let* e := non_nil (yy_valExpr (D 1)) in val (set_yy_valExprs [e] V)
  | 131 => let* e := non_nil (yy_valExpr (D 3)) in val (set_yy_valExprs (yy_valExprs (D 1) ++ [e]) V)
  | 132 => let* e := non_nil (yy_valExpr (D 1)) in valExpr e
  | 133 => let* c := non_nil (yy_colName (D 1)) in valExpr (ColName c)
  | 134 => let* t := non_nil (yy_tuple (D 1)) in valExpr (Tuple_ValExpr t)
  | 135 => binary AST_BITAND
  | 136 => binary AST_BITOR
  | 137 => binary AST_BITXOR
  | 138 => binary AST_PLUS
  | 139 => binary AST_MINUS
  | 140 => binary AST_MULT
  | 141 => binary AST_DIV
  | 142 => binary AST_MOD
  | 143 => let* e := non_nil (yy_valExpr (D 2)) in valExpr (unary (yy_byt (D 1)) e)
  | 144 => valExpr (FuncExpr (name 1) false [])
  | 145 => valExpr (FuncExpr (name 1) false (yy_selectExprs (D 3)))
  | 146 => valExpr (FuncExpr (name 1) true (yy_selectExprs (D 4)))
  | 147 => valExpr (FuncExpr (name 1) false (yy_selectExprs (D 3)))
  | 148 => let* e := non_nil (yy_caseExpr (D 1)) in valExpr e
  | 149 => bytes_ (Some IF_BYTES)
  | 150 => bytes_ (Some VALUES_BYTES)
  | 151 => val (set_yy_byt AST_UPLUS V)
  | 152 => val (set_yy_byt AST_UMINUS V)
  | 153 => val (set_yy_byt AST_TILDA V)
  | _ => val V
  end.

Definition act_clause (n : Z) : res yy_error act :=
  match n with
  | 154 => val (set_yy_caseExpr (Some (CaseExpr (yy_valExpr (D 2)) (yy_whens (D 3)) (yy_valExpr (D 4)))) V)
  | 155 => val (set_yy_valExpr None V)
  | 156 => val (set_yy_valExpr (yy_valExpr (D 1)) V)
  | 157 => let* w := non_nil (yy_when (D 1)) in val (set_yy_whens [w] V)
  | 158 => let* w := non_nil (yy_when (D 2)) in val (set_yy_whens (yy_whens (D 1) ++ [w]) V)
  | 159 =>
      let* c := non_nil (yy_boolExpr (D 2)) in
      let* e := non_nil (yy_valExpr (D 4)) in
      val (set_yy_when (Some (mkWhen c e)) V)
  | 160 => val (set_yy_valExpr None V)
  | 161 => val (set_yy_valExpr (yy_valExpr (D 2)) V)
  | 162 => val (set_yy_colName (Some (mkColName (name 1) None)) V)
  | 163 => val (set_yy_colName (Some (mkColName (name 3) (yy_bytes (D 1)))) V)
  | 164 => val (set_yy_colName (Some (mkColName (name 5) (yy_bytes (D 3)))) V)
  | 165 => valExpr (StrVal (name 1))
  | 166 => valExpr (NumVal (name 1))
  | 167 => valExpr (ValArg (name 1))
  | 168 => valExpr NullVal
  | 169 => val (set_yy_valExprs [] V)
  | 170 => val (set_yy_valExprs (yy_valExprs (D 3)) V)
  | 171 => val (set_yy_boolExpr None V)
  | 172 => val (set_yy_boolExpr (yy_boolExpr (D 2)) V)
  | 173 => val (set_yy_orderBy [] V)
  | 174 => val (set_yy_orderBy (yy_orderBy (D 3)) V)
  | 175 => let* o := non_nil (yy_order (D 1)) in val (set_yy_orderBy [o] V)
  | 176 => let* o := non_nil (yy_order (D 3)) in val (set_yy_orderBy (yy_orderBy (D 1) ++ [o]) V)
  | 177 => let* e := non_nil (yy_valExpr (D 1)) in val (set_yy_order (Some (mkOrder e (yy_str (D 2)))) V)
  | 178 | 179 => str AST_ASC
  | 180 => str AST_DESC
  | _ => val V
  end.

Definition column (c : colname) : SelectExpr := NonStarExpr (EVal (ColName c)) None.

Definition act_end (n : Z) : res yy_error act :=
  match n with
  | 181 => val (set_yy_limit None V)
  | 182 => let* r := non_nil (yy_valExpr (D 2)) in val (set_yy_limit (Some (mkLimit None r)) V)
  | 183 => let* r := non_nil (yy_valExpr (D 4)) in val (set_yy_limit (Some (mkLimit (yy_valExpr (D 2)) r)) V)
  | 184 => let* r := non_nil (yy_valExpr (D 2)) in val (set_yy_limit (Some (mkLimit (yy_valExpr (D 4)) r)) V)
  | 185 => str ""
  | 186 => str AST_FOR_UPDATE
  | 187 =>
      if negb (String.eqb (name 3) SHARE) then Ok (Return1 (lexer_Error l "expecting share"))
      else if negb (String.eqb (name 4) MODE) then Ok (Return1 (lexer_Error l "expecting mode"))
      else str AST_SHARE_MODE
  | 188 => val (set_yy_columns None V)
  | 189 => val (set_yy_columns (yy_columns (D 2)) V)
  | 190 => let* c := non_nil (yy_colName (D 1)) in val (set_yy_columns (Some [column c]) V)
  | 191 =>
      let* c := non_nil (yy_colName (D 3)) in
      val (set_yy_columns (Some (list_of (yy_columns V) ++ [column c])) V)
  | 192 => val (set_yy_updateExprs None V)
  | 193 => val (set_yy_updateExprs (yy_updateExprs (D 5)) V)
  | 194 => let* u := non_nil (yy_updateExpr (D 1)) in val (set_yy_updateExprs (Some [u]) V)
  | 195 =>
      let* u := non_nil (yy_updateExpr (D 3)) in
      val (set_yy_updateExprs (Some (list_of (yy_updateExprs (D 1)) ++ [u])) V)
  | 196 =>
      let* c := non_nil (yy_colName (D 1)) in
      let* e := non_nil (yy_valExpr (D 3)) in
      val (set_yy_updateExpr (Some (mkUpdateExpr c e)) V)
  | 197 =>
      let* c := non_nil (yy_colName (D 1)) in
      val (set_yy_updateExpr (Some (mkUpdateExpr c (StrVal "ON"))) V)
  | 202 => str ""
  | 203 => str AST_IGNORE
  | 215 => bytes_ (Some (ToLower (name 1)))
  | 216 => Ok (Val (ForceEOF l) V)
  | 217 => str ""
  | 218 => str AST_TABLE
  | _ => val V
  end.

(** The whole switch. *)
Definition action (n : Z) : res yy_error act :=
  if n <=? 26 then act_command n
  else if n <=? 48 then act_session n
  else if n <=? 69 then act_select n
  else if n <=? 100 then act_table n
  else if n <=? 122 then act_bool n
  else if n <=? 153 then act_value n
  else if n <=? 180 then act_clause n
  else act_end n.

End Actions.
