(* ===== verification/YyParse.v ===== *)
(** * The parser ([sqlparser/sql.go], [Parse] of [sqlparser/ast.go])

    [yyParserImpl.Parse] is a loop with labels; [step] goes from one label
    to the next and [run] repeats it.  The stack is a slice that grows by
    doubling; entries above [yyp] keep what was there.  [yyDebug] and
    [yyErrorVerbose] are false: nothing sets them. *)
From S2P Require Import Prelude Errors GoLib SqlTypes Token Ast YyTables YyActions.
From Stdlib Require Import Ascii.
Open Scope Z_scope.

Module Yacc.

Definition yyDebug : Z := 0.
Definition yyErrorVerbose : bool := false.

Definition yyTokname (c : Z) : string :=
  match (if 1 <=? c then index_range yyToknames (c - 1) else None) with
  | Some t => if String.eqb t "" then "tok-" +:+ FormatInt c else t
  | None => "tok-" +:+ FormatInt c
  end.

(** The exception table: pairs of a token and an action, after a pair of -1
    and a state. *)
Fixpoint exca_state (l : list Z) (state : Z) : res yy_error (list Z) :=
  match l with
  | a :: b :: l => if (a =? -1) && (b =? state) then Ok l else exca_state l state
  | _ => Panic (PRuntime "index out of range")
  end.
Fixpoint exca_token (l : list Z) (token : Z) : res yy_error Z :=
  match l with
  | a :: b :: l => if (a <? 0) || (a =? token) then Ok b else exca_token l token
  | _ => Panic (PRuntime "index out of range")
  end.

(** [yyErrorMessage]: [None] stands for [return res] inside the loops. *)
Definition TOKSTART : Z := 4.
Definition expect (expected : list Z) (tok : Z) : option (list Z) :=
  if Nat.eqb (length expected) 4 then None else Some (expected ++ [tok]).
Definition shiftable (base tok : Z) : res yy_error bool :=
  let n := base + tok in
  if (0 <=? n) && (n <? yyLast) then
    let* q := at_ yyAct n in
    let* c := at_ yyChk q in
    Ok (c =? tok)
  else Ok false.
Fixpoint expected_shifts (base : Z) (toks : list Z) (expected : list Z) : res yy_error (option (list Z)) :=
  match toks with
  | [] => Ok (Some expected)
  | tok :: toks =>
      let* b := shiftable base tok in
      if (b : bool)
      then match expect expected tok with Some e => expected_shifts base toks e | None => Ok None end
      else expected_shifts base toks expected
  end.
Fixpoint expected_exceptions (l : list Z) (expected : list Z) : res yy_error (option (list Z)) :=
  match l with
  | a :: b :: l =>
      if a <? 0 then Ok (if b =? 0 then Some expected else None)
      else if (a <? TOKSTART) || (b =? 0) then expected_exceptions l expected
      else match expect expected a with Some e => expected_exceptions l e | None => Ok None end
  | _ => Panic (PRuntime "index out of range")
  end.
Fixpoint name_expected (sep : string) (toks : list Z) : string :=
  match toks with [] => "" | tok :: toks => sep +:+ yyTokname tok +:+ name_expected " or " toks end.

Definition yyErrorMessage (verbose : bool) (state lookAhead : Z) : res yy_error string :=
  if negb verbose then Ok "syntax error"
  else
    let msg := "syntax error: unexpected " +:+ yyTokname lookAhead in
    let* base := at_ yyPact state in
    let* e := expected_shifts base (seqZ TOKSTART (Z.of_nat (length yyToknames) + 1 - TOKSTART)) [] in
    let* d := at_ yyDef state in
    let* e := match e with
              | None => Ok None
              | Some e => if d =? -2 then let* l := exca_state yyExca state in expected_exceptions l e
                          else Ok (Some e)
              end in
    Ok (match e with None => msg | Some e => msg +:+ name_expected ", expecting " e end).

(** ** [yylex1] *)
Fixpoint tok3 (l : list Z) (char token : Z) : res yy_error Z :=
  match l with
  | [] => Ok token
  | t :: l =>
      if t =? char
      then match l with x :: _ => Ok x | [] => Panic (PRuntime "index out of range") end
      else match l with _ :: l => tok3 l char t | [] => Ok t end
  end.

Definition yytoken_of (char : Z) : res yy_error Z :=
  let* token :=
    if char <=? 0 then at_ yyTok1 0
    else if char <? Z.of_nat (length yyTok1) then at_ yyTok1 char
    else if (yyPrivate <=? char) && (char <? yyPrivate + Z.of_nat (length yyTok2))
    then at_ yyTok2 (char - yyPrivate)
    else tok3 yyTok3 char 0 in
  if token =? 0 then at_ yyTok2 1 else Ok token.

(** [Lex] with the lexer's interface: the value of a token that has none
    leaves [lval] as it is. *)
Definition lexer_Lex (l : lexer) (lval : yySymType) : res yy_error (Z * lexer * yySymType) :=
  match Lex (tokenizer l) with
  | Ok (typ, v, t) =>
      Ok (tok_code typ, mkLexer t (ParseTree l),
          match v with Some b => set_yy_bytes (Some b) lval | None => lval end)
  | Err OutOfFuel => Err YyFuel
  | Panic p => Panic p
  end.

Definition yylex1 (l : lexer) (lval : yySymType) : res yy_error (Z * Z * lexer * yySymType) :=
  let* (char, l, lval) := lexer_Lex l lval in
  let* token := yytoken_of char in
  Ok (char, token, l, lval).

(** ** The state of a run *)
Record parser := mkParser {
  lx : lexer; char : Z; yytoken : Z; lval : yySymType;
  yyS : list yySymType; yyp : Z; yyVAL : yySymType; yystate : Z;
  Nerrs : Z; Errflag : Z }.

Definition yyNewParser (sql : string) : parser :=
  mkParser (mkLexer (NewStringTokenizer sql) None) (-1) (-1) zero_sym
    (replicate yyInitialStackSize zero_sym) (-1) zero_sym 0 0 0.

Definition read (p : parser) : res yy_error parser :=
  if char p <? 0 then
    let* (c, token, l, v) := yylex1 (lx p) (lval p) in
    Ok (mkParser l c token v (yyS p) (yyp p) (yyVAL p) (yystate p) (Nerrs p) (Errflag p))
  else Ok p.

(** The labels where a run goes on, and [ret0], [ret1]. *)
Inductive label : Type := yystack | yynewstate | ret (n : Z).

Definition grow (i : Z) (l : list yySymType) : list yySymType :=
  if Z.of_nat (length l) <=? i then l ++ replicate (length l) zero_sym else l.

Definition store (l : list yySymType) (i : Z) (v : yySymType) : res yy_error (list yySymType) :=
  if (0 <=? i) && (i <? Z.of_nat (length l)) then Ok (<[Z.to_nat i := v]> l)
  else Panic (PRuntime "index out of range").

Definition push (p : parser) : res yy_error parser :=
  let i := yyp p + 1 in
  let* l := store (grow i (yyS p)) i (set_yys (yystate p) (yyVAL p)) in
  Ok (mkParser (lx p) (char p) (yytoken p) (lval p) l i (yyVAL p) (yystate p) (Nerrs p) (Errflag p)).

Definition shift (q : Z) (p : parser) : parser :=
  mkParser (lx p) (-1) (-1) (lval p) (yyS p) (yyp p) (lval p) q (Nerrs p)
    (if 0 <? Errflag p then Errflag p - 1 else Errflag p).

(** ** Reductions *)
Definition goto (A s : Z) : res yy_error Z :=
  let* g := at_ yyPgo A in
  let j := g + s + 1 in
  if yyLast <=? j then at_ yyAct g
  else
    let* q := at_ yyAct j in
    let* c := at_ yyChk q in
    if c =? - A then Ok q else at_ yyAct g.

Definition reduce (n : Z) (p : parser) : res yy_error (label * parser) :=
  let yypt := yyp p in
  let* k := at_ yyR2 n in
  let yyp := yypt - k in
  let yyS := grow (yyp + 1) (yyS p) in
  let* V := at_ yyS (yyp + 1) in
  let* A := at_ yyR1 n in
  let* s := at_ yyS yyp in
  let* q := goto A (yys s) in
  let* dollar := slice yyS yyp (yypt + 1) in
  let* r := action (lx p) (fun i => default zero_sym (dollar !! Z.to_nat i)) V n in
  match r with
  | Val l v => Ok (yystack, mkParser l (char p) (yytoken p) (lval p) yyS yyp v q (Nerrs p) (Errflag p))
  | Return1 l => Ok (ret 1, mkParser l (char p) (yytoken p) (lval p) yyS yyp V q (Nerrs p) (Errflag p))
  end.

(** ** Errors *)

(** Pops states until one shifts the error token. *)
Fixpoint unwind (n : nat) (p : parser) : res yy_error (label * parser) :=
  match n with
  | O => Ok (ret 1, p)
  | S n =>
      let pop (state : Z) :=
        mkParser (lx p) (char p) (yytoken p) (lval p) (yyS p) (yyp p - 1) (yyVAL p) state (Nerrs p) (Errflag p) in
      let* s := at_ (yyS p) (yyp p) in
      let* base := at_ yyPact (yys s) in
      let i := base + yyErrCode in
      if (0 <=? i) && (i <? yyLast) then
        let* q := at_ yyAct i in
        let* c := at_ yyChk q in
        if c =? yyErrCode
        then Ok (yystack, mkParser (lx p) (char p) (yytoken p) (lval p) (yyS p) (yyp p) (yyVAL p) q (Nerrs p) (Errflag p))
        else unwind n (pop q)
      else unwind n (pop (yystate p))
  end.

Definition recover (p : parser) : res yy_error (label * parser) :=
  unwind (Z.to_nat (yyp p + 1))
    (mkParser (lx p) (char p) (yytoken p) (lval p) (yyS p) (yyp p) (yyVAL p) (yystate p) (Nerrs p) 3).

Definition report (p : parser) : res yy_error parser :=
  let* msg := yyErrorMessage yyErrorVerbose (yystate p) (yytoken p) in
  Ok (mkParser (lexer_Error (lx p) msg) (char p) (yytoken p) (lval p) (yyS p) (yyp p) (yyVAL p) (yystate p)
        (Nerrs p + 1) (Errflag p)).

(** An error flag the switch does not name falls through to the reduction. *)
Definition syntax_error (p : parser) : res yy_error (label * parser) :=
  if Errflag p =? 0 then let* p := report p in recover p
  else if (Errflag p =? 1) || (Errflag p =? 2) then recover p
  else if Errflag p =? 3 then
    if yytoken p =? yyEofCode then Ok (ret 1, p)
    else Ok (yynewstate, mkParser (lx p) (-1) (-1) (lval p) (yyS p) (yyp p) (yyVAL p) (yystate p) (Nerrs p) (Errflag p))
  else reduce 0 p.

(** ** The loop *)
Definition yydefault (p : parser) : res yy_error (label * parser) :=
  let* n := at_ yyDef (yystate p) in
  if n =? -2 then
    let* p := read p in
    let* l := exca_state yyExca (yystate p) in
    let* n := exca_token l (yytoken p) in
    if n <? 0 then Ok (ret 0, p)
    else if n =? 0 then syntax_error p else reduce n p
  else if n =? 0 then syntax_error p else reduce n p.

Definition newstate (p : parser) : res yy_error (label * parser) :=
  let* n := at_ yyPact (yystate p) in
  if n <=? yyFlag then yydefault p
  else
    let* p := read p in
    let n := n + yytoken p in
    if (n <? 0) || (yyLast <=? n) then yydefault p
    else
      let* q := at_ yyAct n in
      let* c := at_ yyChk q in
      if c =? yytoken p then Ok (yystack, shift q p) else yydefault p.

Definition step (l : label) (p : parser) : res yy_error (label * parser) :=
  match l with
  | yystack => let* p := push p in Ok (yynewstate, p)
  | yynewstate => newstate p
  | ret n => Ok (ret n, p)
  end.

Fixpoint run (fuel : nat) (l : label) (p : parser) : res yy_error (Z * parser) :=
  match l with
  | ret n => Ok (n, p)
  | _ =>
      match fuel with
      | O => Err YyFuel
      | S fuel => let* (l, p) := step l p in run fuel l p
      end
  end.

(** Fuel for a text: a bound on the steps for each of its bytes. *)
Definition yy_fuel (sql : string) : nat := (40 * String.length sql + 100)%nat.

Definition yyParse (sql : string) : res yy_error (Z * parser) :=
  run (yy_fuel sql) yystack (yyNewParser sql).

End Yacc.
Import Yacc.

(** [Parse].  A run out of fuel, a nil child and a result without a tree,
    none of which happens ([ParserTheorems]), are panics here. *)
Definition Parse (sql : string) : res error Statement :=
  match yyParse sql with
  | Ok (n, p) =>
      if negb (n =? 0) then Err (Errorf (LastError (tokenizer (lx p))))
      else match ParseTree (lx p) with
           | Some stmt => Ok stmt
           | None => Panic (PRuntime "nil statement")
           end
  | Err _ => Panic (PRuntime "parser")
  | Panic p => Panic p
  end.
