(* ===== verification/Grammar.v ===== *)
(** * The grammar ([sqlparser/sql.y])

    The productions in the order of the file, numbered from 1 as goyacc
    numbers them, with the action in the middle of [comment_opt] as a
    production of its own ([allow_comments]), and what they derive.  The
    code of a symbol is its number in the tables of [sql.go]: a token's is
    positive, a nonterminal's negative. *)
From S2P Require Import Prelude Errors GoLib SqlTypes Token Ast YyTables YyActions YyParse.
From Stdlib Require Import Ascii.
Open Scope Z_scope.
Import Yacc.

(** The first symbol and the nonterminals are those of [sql.y]. *)
Module NT.
Inductive nonterminal : Type :=
| any_command | command | select_statement | insert_statement | update_statement | delete_statement
| set_statement | create_statement | alter_statement | rename_statement | drop_statement
| comment_opt | comment_list | union_op | distinct_opt | ignore_opt | select_expression_list
| select_expression | as_lower_opt | as_opt | expression | table_expression_list | table_expression
| join_type | simple_table_expression | dml_table_expression | index_hint_list | index_list
| where_expression_opt | boolean_expression | condition | compare | row_list | value
| value_expression | tuple | value_expression_list | tuple_list | keyword_as_func | subquery
| unary_operator | column_name | case_expression | when_expression_list | when_expression
| value_expression_opt | else_expression_opt | group_by_opt | having_opt | order_by_opt
| order_list | order | asc_desc_opt | limit_opt | lock_opt | column_list_opt | column_list
| on_dup_opt | update_list | update_expression | exists_opt | not_exists_opt | non_rename_operation
| to_opt | constraint_opt | using_opt | sql_id | force_eof | table_opt | begin_statement
| commit_statement | rollback_statement | replace_statement | admin_statement | use_statement
| truncate_statement | allow_comments.

Inductive symbol : Type := T (t : tok) | N (A : nonterminal).
Definition ch (c : ascii) : symbol := T (TChar (byte_of c)).

#[local] Notation "A ⟶ rhs" := (@pair nonterminal (list symbol) A rhs) (at level 80).

Definition statements : list (nonterminal * list symbol) :=
  [any_command ⟶ [N command];
   command ⟶ [N select_statement];
   command ⟶ [N insert_statement];
   command ⟶ [N update_statement];
   command ⟶ [N delete_statement];
   command ⟶ [N set_statement];
   command ⟶ [N create_statement];
   command ⟶ [N alter_statement];
   command ⟶ [N rename_statement];
   command ⟶ [N drop_statement];
   command ⟶ [N begin_statement];
   command ⟶ [N commit_statement];
   command ⟶ [N rollback_statement];
   command ⟶ [N replace_statement];
   command ⟶ [N admin_statement];
   command ⟶ [N use_statement];
   command ⟶ [N truncate_statement];
   select_statement ⟶ [T SELECT; N comment_opt; N distinct_opt; N select_expression_list];
   select_statement ⟶ [T SELECT; N comment_opt; N distinct_opt; N select_expression_list; T FROM;
      N table_expression_list; N where_expression_opt; N group_by_opt; N having_opt;
      N order_by_opt; N limit_opt; N lock_opt];
   select_statement ⟶ [N select_statement; N union_op; N select_statement];
   insert_statement ⟶ [T INSERT; N comment_opt; N ignore_opt; T INTO; N dml_table_expression; N column_list_opt;
      N row_list; N on_dup_opt];
   insert_statement ⟶ [T INSERT; N comment_opt; N ignore_opt; T INTO; N dml_table_expression; T SET; N update_list;
      N on_dup_opt];
   replace_statement ⟶ [T REPLACE; N comment_opt; T INTO; N dml_table_expression; N column_list_opt; N row_list];
   replace_statement ⟶ [T REPLACE; N comment_opt; T INTO; N dml_table_expression; T SET; N update_list];
   update_statement ⟶ [T UPDATE; N comment_opt; N dml_table_expression; T SET; N update_list;
      N where_expression_opt; N order_by_opt; N limit_opt];
   delete_statement ⟶ [T DELETE; N comment_opt; T FROM; N dml_table_expression; N where_expression_opt;
      N order_by_opt; N limit_opt];
   set_statement ⟶ [T SET; N comment_opt; N update_list];
   set_statement ⟶ [T SET; N comment_opt; T NAMES; T DEFAULT];
   set_statement ⟶ [T SET; N comment_opt; T NAMES; N value_expression];
   set_statement ⟶ [T SET; N comment_opt; T NAMES; N value_expression; T COLLATE; N value_expression];
   begin_statement ⟶ [T BEGIN];
   begin_statement ⟶ [T START; T TRANSACTION];
   commit_statement ⟶ [T COMMIT];
   rollback_statement ⟶ [T ROLLBACK];
   admin_statement ⟶ [T ADMIN; N dml_table_expression; N column_list_opt; N row_list];
   admin_statement ⟶ [T ADMIN; T HELP];
   use_statement ⟶ [T USE; N sql_id];
   truncate_statement ⟶ [T TRUNCATE; N comment_opt; N table_opt; N dml_table_expression];
   create_statement ⟶ [T CREATE; T TABLE; N not_exists_opt; T ID; N force_eof];
   create_statement ⟶ [T CREATE; N constraint_opt; T INDEX; N sql_id; N using_opt; T ON; T ID; N force_eof];
   create_statement ⟶ [T CREATE; T VIEW; N sql_id; N force_eof];
   alter_statement ⟶ [T ALTER; N ignore_opt; T TABLE; T ID; N non_rename_operation; N force_eof];
   alter_statement ⟶ [T ALTER; N ignore_opt; T TABLE; T ID; T RENAME; N to_opt; T ID];
   alter_statement ⟶ [T ALTER; T VIEW; N sql_id; N force_eof];
   rename_statement ⟶ [T RENAME; T TABLE; T ID; T TO; T ID];
   drop_statement ⟶ [T DROP; T TABLE; N exists_opt; T ID];
   drop_statement ⟶ [T DROP; T INDEX; N sql_id; T ON; T ID];
   drop_statement ⟶ [T DROP; T VIEW; N exists_opt; N sql_id; N force_eof]].

Definition selects : list (nonterminal * list symbol) :=
  [allow_comments ⟶ [];
   comment_opt ⟶ [N allow_comments; N comment_list];
   comment_list ⟶ [];
   comment_list ⟶ [N comment_list; T COMMENT];
   union_op ⟶ [T UNION];
   union_op ⟶ [T UNION; T ALL];
   union_op ⟶ [T MINUS];
   union_op ⟶ [T EXCEPT];
   union_op ⟶ [T INTERSECT];
   distinct_opt ⟶ [];
   distinct_opt ⟶ [T DISTINCT];
   select_expression_list ⟶ [N select_expression];
   select_expression_list ⟶ [N select_expression_list; ch ","; N select_expression];
   select_expression ⟶ [ch "*"];
   select_expression ⟶ [N expression; N as_lower_opt];
   select_expression ⟶ [T ID; ch "."; ch "*"];
   expression ⟶ [N boolean_expression];
   expression ⟶ [N value_expression];
   as_lower_opt ⟶ [];
   as_lower_opt ⟶ [N sql_id];
   as_lower_opt ⟶ [T AS; N sql_id];
   table_expression_list ⟶ [N table_expression];
   table_expression_list ⟶ [N table_expression_list; ch ","; N table_expression];
   table_expression ⟶ [N simple_table_expression; N as_opt; N index_hint_list];
   table_expression ⟶ [ch "("; N table_expression; ch ")"];
   table_expression ⟶ [N table_expression; N join_type; N table_expression];
   table_expression ⟶ [N table_expression; N join_type; N table_expression; T ON; N boolean_expression];
   as_opt ⟶ [];
   as_opt ⟶ [T ID];
   as_opt ⟶ [T AS; T ID];
   join_type ⟶ [T JOIN];
   join_type ⟶ [T STRAIGHT_JOIN];
   join_type ⟶ [T LEFT; T JOIN];
   join_type ⟶ [T LEFT; T OUTER; T JOIN];
   join_type ⟶ [T RIGHT; T JOIN];
   join_type ⟶ [T RIGHT; T OUTER; T JOIN];
   join_type ⟶ [T INNER; T JOIN];
   join_type ⟶ [T CROSS; T JOIN];
   join_type ⟶ [T NATURAL; T JOIN];
   simple_table_expression ⟶ [T ID];
   simple_table_expression ⟶ [T ID; ch "."; T ID];
   simple_table_expression ⟶ [N subquery];
   dml_table_expression ⟶ [T ID];
   dml_table_expression ⟶ [T ID; ch "."; T ID];
   index_hint_list ⟶ [];
   index_hint_list ⟶ [T USE; T INDEX; ch "("; N index_list; ch ")"];
   index_hint_list ⟶ [T IGNORE; T INDEX; ch "("; N index_list; ch ")"];
   index_hint_list ⟶ [T FORCE; T INDEX; ch "("; N index_list; ch ")"];
   index_list ⟶ [N sql_id];
   index_list ⟶ [N index_list; ch ","; N sql_id]].

Definition booleans : list (nonterminal * list symbol) :=
  [where_expression_opt ⟶ [];
   where_expression_opt ⟶ [T WHERE; N boolean_expression];
   boolean_expression ⟶ [N condition];
   boolean_expression ⟶ [N boolean_expression; T AND; N boolean_expression];
   boolean_expression ⟶ [N boolean_expression; T OR; N boolean_expression];
   boolean_expression ⟶ [T NOT; N boolean_expression];
   boolean_expression ⟶ [ch "("; N boolean_expression; ch ")"];
   condition ⟶ [N value_expression; N compare; N value_expression];
   condition ⟶ [N value_expression; T IN; N tuple];
   condition ⟶ [N value_expression; T NOT; T IN; N tuple];
   condition ⟶ [N value_expression; T LIKE; N value_expression];
   condition ⟶ [N value_expression; T NOT; T LIKE; N value_expression];
   condition ⟶ [N value_expression; T BETWEEN; N value_expression; T AND; N value_expression];
   condition ⟶ [N value_expression; T NOT; T BETWEEN; N value_expression; T AND; N value_expression];
   condition ⟶ [N value_expression; T IS; T NULL];
   condition ⟶ [N value_expression; T IS; T NOT; T NULL];
   condition ⟶ [T EXISTS; N subquery];
   compare ⟶ [ch "="];
   compare ⟶ [ch "<"];
   compare ⟶ [ch ">"];
   compare ⟶ [T LE];
   compare ⟶ [T GE];
   compare ⟶ [T NE];
   compare ⟶ [T NULL_SAFE_EQUAL]].

Definition values_ : list (nonterminal * list symbol) :=
  [row_list ⟶ [T VALUES; N tuple_list];
   row_list ⟶ [N select_statement];
   tuple_list ⟶ [N tuple];
   tuple_list ⟶ [N tuple_list; ch ","; N tuple];
   tuple ⟶ [ch "("; N value_expression_list; ch ")"];
   tuple ⟶ [N subquery];
   subquery ⟶ [ch "("; N select_statement; ch ")"];
   value_expression_list ⟶ [N value_expression];
   value_expression_list ⟶ [N value_expression_list; ch ","; N value_expression];
   value_expression ⟶ [N value];
   value_expression ⟶ [N column_name];
   value_expression ⟶ [N tuple];
   value_expression ⟶ [N value_expression; ch "&"; N value_expression];
   value_expression ⟶ [N value_expression; ch "|"; N value_expression];
   value_expression ⟶ [N value_expression; ch "^"; N value_expression];
   value_expression ⟶ [N value_expression; ch "+"; N value_expression];
   value_expression ⟶ [N value_expression; ch "-"; N value_expression];
   value_expression ⟶ [N value_expression; ch "*"; N value_expression];
   value_expression ⟶ [N value_expression; ch "/"; N value_expression];
   value_expression ⟶ [N value_expression; ch "%"; N value_expression];
   value_expression ⟶ [N unary_operator; N value_expression];
   value_expression ⟶ [N sql_id; ch "("; ch ")"];
   value_expression ⟶ [N sql_id; ch "("; N select_expression_list; ch ")"];
   value_expression ⟶ [N sql_id; ch "("; T DISTINCT; N select_expression_list; ch ")"];
   value_expression ⟶ [N keyword_as_func; ch "("; N select_expression_list; ch ")"];
   value_expression ⟶ [N case_expression];
   keyword_as_func ⟶ [T IF];
   keyword_as_func ⟶ [T VALUES];
   unary_operator ⟶ [ch "+"];
   unary_operator ⟶ [ch "-"];
   unary_operator ⟶ [ch "~"];
   case_expression ⟶ [T CASE; N value_expression_opt; N when_expression_list; N else_expression_opt; T END];
   value_expression_opt ⟶ [];
   value_expression_opt ⟶ [N value_expression];
   when_expression_list ⟶ [N when_expression];
   when_expression_list ⟶ [N when_expression_list; N when_expression];
   when_expression ⟶ [T WHEN; N boolean_expression; T THEN; N value_expression];
   else_expression_opt ⟶ [];
   else_expression_opt ⟶ [T ELSE; N value_expression];
   column_name ⟶ [N sql_id];
   column_name ⟶ [T ID; ch "."; N sql_id];
   column_name ⟶ [T ID; ch "."; T ID; ch "."; N sql_id];
   value ⟶ [T STRING];
   value ⟶ [T NUMBER];
   value ⟶ [T VALUE_ARG];
   value ⟶ [T NULL]].

Definition clauses : list (nonterminal * list symbol) :=
  [group_by_opt ⟶ [];
   group_by_opt ⟶ [T GROUP; T BY; N value_expression_list];
   having_opt ⟶ [];
   having_opt ⟶ [T HAVING; N boolean_expression];
   order_by_opt ⟶ [];
   order_by_opt ⟶ [T ORDER; T BY; N order_list];
   order_list ⟶ [N order];
   order_list ⟶ [N order_list; ch ","; N order];
   order ⟶ [N value_expression; N asc_desc_opt];
   asc_desc_opt ⟶ [];
   asc_desc_opt ⟶ [T ASC];
   asc_desc_opt ⟶ [T DESC];
   limit_opt ⟶ [];
   limit_opt ⟶ [T LIMIT; N value_expression];
   limit_opt ⟶ [T LIMIT; N value_expression; ch ","; N value_expression];
   limit_opt ⟶ [T LIMIT; N value_expression; T OFFSET; N value_expression];
   lock_opt ⟶ [];
   lock_opt ⟶ [T FOR; T UPDATE];
   lock_opt ⟶ [T LOCK; T IN; N sql_id; N sql_id];
   column_list_opt ⟶ [];
   column_list_opt ⟶ [ch "("; N column_list; ch ")"];
   column_list ⟶ [N column_name];
   column_list ⟶ [N column_list; ch ","; N column_name];
   on_dup_opt ⟶ [];
   on_dup_opt ⟶ [T ON; T DUPLICATE; T KEY; T UPDATE; N update_list];
   update_list ⟶ [N update_expression];
   update_list ⟶ [N update_list; ch ","; N update_expression];
   update_expression ⟶ [N column_name; ch "="; N value_expression];
   update_expression ⟶ [N column_name; ch "="; T ON];
   exists_opt ⟶ [];
   exists_opt ⟶ [T IF; T EXISTS];
   not_exists_opt ⟶ [];
   not_exists_opt ⟶ [T IF; T NOT; T EXISTS];
   ignore_opt ⟶ [];
   ignore_opt ⟶ [T IGNORE];
   non_rename_operation ⟶ [T ALTER];
   non_rename_operation ⟶ [T DEFAULT];
   non_rename_operation ⟶ [T DROP];
   non_rename_operation ⟶ [T ORDER];
   non_rename_operation ⟶ [T ID];
   to_opt ⟶ [];
   to_opt ⟶ [T TO];
   constraint_opt ⟶ [];
   constraint_opt ⟶ [T UNIQUE];
   using_opt ⟶ [];
   using_opt ⟶ [T USING; N sql_id];
   sql_id ⟶ [T ID];
   force_eof ⟶ [];
   table_opt ⟶ [];
   table_opt ⟶ [T TABLE]].

(** The start symbol derives a whole text; goyacc adds production 0 for it. *)
Definition grammar : list (nonterminal * list symbol) :=
  statements ++ selects ++ booleans ++ values_ ++ clauses.

Definition nt_number (A : nonterminal) : Z :=
  match A with
  | any_command => 1 | command => 2 | select_statement => 3 | insert_statement => 4
  | update_statement => 5 | delete_statement => 6 | set_statement => 7 | create_statement => 8
  | alter_statement => 9 | rename_statement => 10 | drop_statement => 11 | comment_opt => 12
  | comment_list => 13 | union_op => 14 | distinct_opt => 15 | ignore_opt => 16
  | select_expression_list => 17 | select_expression => 18 | as_lower_opt => 19 | as_opt => 20
  | expression => 21 | table_expression_list => 22 | table_expression => 23 | join_type => 24
  | simple_table_expression => 25 | dml_table_expression => 26 | index_hint_list => 27
  | index_list => 28 | where_expression_opt => 29 | boolean_expression => 30 | condition => 31
  | compare => 32 | row_list => 33 | value => 34 | value_expression => 35 | tuple => 36
  | value_expression_list => 37 | tuple_list => 38 | keyword_as_func => 39 | subquery => 40
  | unary_operator => 41 | column_name => 42 | case_expression => 43 | when_expression_list => 44
  | when_expression => 45 | value_expression_opt => 46 | else_expression_opt => 47
  | group_by_opt => 48 | having_opt => 49 | order_by_opt => 50 | order_list => 51 | order => 52
  | asc_desc_opt => 53 | limit_opt => 54 | lock_opt => 55 | column_list_opt => 56
  | column_list => 57 | on_dup_opt => 58 | update_list => 59 | update_expression => 60
  | exists_opt => 61 | not_exists_opt => 62 | non_rename_operation => 63 | to_opt => 64
  | constraint_opt => 65 | using_opt => 66 | sql_id => 67 | force_eof => 68 | table_opt => 69
  | begin_statement => 70 | commit_statement => 71 | rollback_statement => 72
  | replace_statement => 73 | admin_statement => 74 | use_statement => 75
  | truncate_statement => 76 | allow_comments => 77
  end.

(** All of them, by their numbers. *)
Definition nonterminals : list nonterminal :=
  [any_command; command; select_statement; insert_statement; update_statement; delete_statement;
   set_statement; create_statement; alter_statement; rename_statement; drop_statement; comment_opt;
   comment_list; union_op; distinct_opt; ignore_opt; select_expression_list; select_expression;
   as_lower_opt; as_opt; expression; table_expression_list; table_expression; join_type;
   simple_table_expression; dml_table_expression; index_hint_list; index_list;
   where_expression_opt; boolean_expression; condition; compare; row_list; value; value_expression;
   tuple; value_expression_list; tuple_list; keyword_as_func; subquery; unary_operator;
   column_name; case_expression; when_expression_list; when_expression; value_expression_opt;
   else_expression_opt; group_by_opt; having_opt; order_by_opt; order_list; order; asc_desc_opt;
   limit_opt; lock_opt; column_list_opt; column_list; on_dup_opt; update_list; update_expression;
   exists_opt; not_exists_opt; non_rename_operation; to_opt; constraint_opt; using_opt; sql_id;
   force_eof; table_opt; begin_statement; commit_statement; rollback_statement; replace_statement;
   admin_statement; use_statement; truncate_statement; allow_comments].
End NT.
Import NT.

(** The number of a token in the tables. *)
Definition token_number (t : tok) : Z :=
  match yytoken_of (tok_code t) with Ok n => n | _ => 0 end.

Definition symbol_code (X : symbol) : Z :=
  match X with T t => token_number t | N A => - nt_number A end.

(** ** Derivations: words are lists of token numbers *)
Inductive derives : symbol -> list Z -> Prop :=
| derives_token t : derives (T t) [token_number t]
| derives_production A rhs w : (A, rhs) ∈ grammar -> derives_all rhs w -> derives (N A) w
with derives_all : list symbol -> list Z -> Prop :=
| derives_nil : derives_all [] []
| derives_cons X Xs v w : derives X v -> derives_all Xs w -> derives_all (X :: Xs) (v ++ w).

(** ** Codes determine symbols *)

Lemma yytoken_of_range char : exists n, yytoken_of char = Ok n /\ 1 <= n <= 107.
Proof.
  assert (Forall (fun n => 1 <= n <= 107) yyTok1) as H1 by (apply (bool_decide_eq_true_1 _); vm_compute; reflexivity).
  assert (Forall (fun n => 1 <= n <= 107) yyTok2) as H2 by (apply (bool_decide_eq_true_1 _); vm_compute; reflexivity).
  assert (forall (l : list Z) i, Forall (fun n => 1 <= n <= 107) l -> 0 <= i < Z.of_nat (length l) ->
            exists n, @at_ yy_error _ l i = Ok n /\ 1 <= n <= 107) as Hat.
  { intros l i Hl Hi. destruct (lookup_lt_is_Some_2 l (Z.to_nat i)) as [n Hn]; [lia|].
    exists n. split; [apply at_Ok; split; [lia | done]|]. by apply (Forall_lookup_1 _ _ _ _ Hl Hn). }
  unfold yytoken_of. cbn zeta.
  assert (exists n, (if char <=? 0 then at_ yyTok1 0
    else if char <? Z.of_nat (length yyTok1) then at_ yyTok1 char
    else if (yyPrivate <=? char) && (char <? yyPrivate + Z.of_nat (length yyTok2)) then at_ yyTok2 (char - yyPrivate)
    else tok3 yyTok3 char 0) = Ok n /\ (n = 0 \/ 1 <= n <= 107)) as (n & -> & Hn).
  { repeat case_if.
    - destruct (Hat yyTok1 0) as (n & ? & ?); [done | cbn; lia | eauto].
    - destruct (Hat yyTok1 char) as (n & ? & ?); [done | lia | eauto].
    - apply andb_true_iff in Hif1 as [Ha Hb]. destruct (Hat yyTok2 (char - yyPrivate)) as (n & ? & ?); [done | lia | eauto].
    - exists 0. split; [|by left]. cbn [tok3 yyTok3]. destruct (Z.eqb_spec 0 char); [lia | done]. }
  cbn [rbind]. destruct (Z.eqb_spec n 0); [by exists 3 | exists n]. split; [done | lia].
Qed.

Lemma token_number_spec t : yytoken_of (tok_code t) = Ok (token_number t) /\ 1 <= token_number t <= 107.
Proof. unfold token_number. destruct (yytoken_of_range (tok_code t)) as (n & -> & ?). done. Qed.

Lemma nonterminals_number A : nonterminals !! Z.to_nat (nt_number A - 1) = Some A.
Proof. by destruct A. Qed.

Lemma nt_number_inj A B : nt_number A = nt_number B -> A = B.
Proof. intros H. apply (inj Some). by rewrite <- !nonterminals_number, H. Qed.

Lemma nt_number_pos A : 1 <= nt_number A.
Proof. destruct A; cbn; lia. Qed.

Lemma derives_code X Y w : symbol_code X = symbol_code Y -> derives X w -> derives Y w.
Proof.
  destruct X as [t|A], Y as [t'|B]; cbn [symbol_code]; intros Hc Hw.
  - inversion Hw; subst. rewrite Hc. constructor.
  - pose proof (proj2 (token_number_spec t)). pose proof (nt_number_pos B). lia.
  - pose proof (proj2 (token_number_spec t')). pose proof (nt_number_pos A). lia.
  - rewrite <- (nt_number_inj A B) by lia. done.
Qed.
