(* ===== verification/YyCert.v ===== *)
(** * The tables are an automaton for the grammar

    For each state of the tables: its kernel items (a production and how
    many of its symbols have been read), the nonterminals that can start in
    it, and a rank that bounds the reductions before the next token is
    needed.  [check_state] compares them with the tables; the lemmas say
    what follows for each transition and each reduction. *)
From S2P Require Import Prelude Errors GoLib SqlTypes Token Ast YyTables YyActions YyParse Grammar.
From stdpp Require Import pmap.
Open Scope Z_scope.
Import Yacc.
Import NT.

Definition n_states : Z := 403.

Definition kernels : list (list (Z * Z)) :=
  [[]; [(0, 1)]; [(1, 1)]; [(2, 1); (20, 1)]; [(3, 1)]; [(4, 1)]; [(5, 1)]; [(6, 1)]; [(7, 1)];
   [(8, 1)]; [(9, 1)]; [(10, 1)]; [(11, 1)]; [(12, 1)]; [(13, 1)]; [(14, 1)]; [(15, 1)]; [(16, 1)];
   [(17, 1)]; [(18, 1); (19, 1)]; [(21, 1); (22, 1)]; [(25, 1)]; [(26, 1)];
   [(27, 1); (28, 1); (29, 1); (30, 1)]; [(39, 1); (40, 1); (41, 1)]; [(42, 1); (43, 1); (44, 1)];
   [(45, 1)]; [(46, 1); (47, 1); (48, 1)]; [(31, 1)]; [(32, 1)]; [(33, 1)]; [(34, 1)];
   [(23, 1); (24, 1)]; [(35, 1); (36, 1)]; [(37, 1)]; [(38, 1)]; [(20, 2)]; [(53, 1); (54, 1)];
   [(55, 1)]; [(56, 1)]; [(57, 1)]; [(18, 2); (19, 2)]; [(50, 1)]; [(21, 2); (22, 2)]; [(25, 2)];
   [(26, 2)]; [(27, 2); (28, 2); (29, 2); (30, 2)]; [(39, 2)]; [(40, 2)]; [(41, 2)]; [(212, 1)];
   [(42, 2); (43, 2)]; [(44, 2)]; [(203, 1)]; [(45, 2)]; [(46, 2)]; [(47, 2)]; [(48, 2)]; [(32, 2)];
   [(23, 2); (24, 2)]; [(35, 2)]; [(36, 2)]; [(91, 1); (92, 1)]; [(37, 2)]; [(215, 1)]; [(38, 2)];
   [(20, 1); (20, 3)]; [(54, 2)]; [(18, 3); (19, 3)]; [(59, 1)]; [(50, 2); (52, 1)];
   [(21, 3); (22, 3)]; [(25, 3)]; [(26, 3)]; [(27, 3); (195, 1)]; [(28, 3); (29, 3); (30, 3)];
   [(194, 1)]; [(196, 1); (197, 1)]; [(162, 1)]; [(163, 1); (164, 1); (215, 1)]; [(39, 3)]; [(201, 1)];
   [(40, 3)]; [(41, 3)]; [(42, 3); (43, 3)]; [(44, 3)]; [(45, 3)]; [(46, 3)]; [(199, 1)]; [(47, 3)];
   [(48, 3)]; [(23, 3); (24, 3)]; [(35, 3)]; [(189, 1)]; [(92, 2)]; [(38, 3)]; [(218, 1)];
   [(18, 4); (19, 4); (61, 1)]; [(60, 1)]; [(62, 1)]; [(63, 1)];
   [(64, 1); (163, 1); (164, 1); (215, 1)]; [(65, 1); (102, 1); (103, 1)];
   [(66, 1); (106, 1); (107, 1); (108, 1); (109, 1); (110, 1); (111, 1); (112, 1); (113, 1); (114, 1); (135, 1); (136, 1); (137, 1); (138, 1); (139, 1); (140, 1); (141, 1); (142, 1)];
   [(101, 1)]; [(104, 1)]; [(105, 1); (127, 1); (129, 1)]; [(132, 1)]; [(133, 1)]; [(134, 1)];
   [(143, 1)]; [(144, 1); (145, 1); (146, 1); (162, 1)]; [(147, 1)]; [(148, 1)]; [(115, 1)];
   [(165, 1)]; [(166, 1)]; [(167, 1)]; [(168, 1)]; [(128, 1)]; [(151, 1)]; [(152, 1)]; [(153, 1)];
   [(149, 1)]; [(150, 1)]; [(154, 1)]; [(52, 2)]; [(21, 4); (22, 4)]; [(25, 4)]; [(26, 4)]; [(195, 2)];
   [(28, 4)];
   [(29, 4); (30, 4); (135, 1); (136, 1); (137, 1); (138, 1); (139, 1); (140, 1); (141, 1); (142, 1)];
   [(127, 1); (129, 1)]; [(196, 2); (197, 2)]; [(163, 2); (164, 2)]; [(39, 4)]; [(201, 2)]; [(40, 4)];
   [(41, 4)]; [(42, 4); (43, 4)]; [(44, 4)]; [(45, 4)]; [(46, 4)]; [(199, 2)]; [(47, 4)]; [(48, 4)];
   [(23, 4); (24, 4)]; [(35, 4)]; [(123, 1)]; [(20, 1); (124, 1)]; [(189, 2); (191, 1)]; [(190, 1)];
   [(92, 3)]; [(38, 4)]; [(19, 5)]; [(61, 2)]; [(63, 2)]; [(68, 1)]; [(69, 1)];
   [(64, 2); (163, 2); (164, 2)]; [(102, 2)]; [(103, 2)]; [(106, 2)]; [(107, 2)];
   [(108, 2); (110, 2); (112, 2)]; [(109, 2)]; [(111, 2)]; [(113, 2); (114, 2)]; [(135, 2)];
   [(136, 2)]; [(137, 2)]; [(138, 2)]; [(139, 2)]; [(140, 2)]; [(141, 2)]; [(142, 2)]; [(116, 1)];
   [(117, 1)]; [(118, 1)]; [(119, 1)]; [(120, 1)]; [(121, 1)]; [(122, 1)];
   [(102, 1); (103, 1); (104, 2)];
   [(106, 1); (107, 1); (108, 1); (109, 1); (110, 1); (111, 1); (112, 1); (113, 1); (114, 1); (135, 1); (136, 1); (137, 1); (138, 1); (139, 1); (140, 1); (141, 1); (142, 1)];
   [(102, 1); (103, 1); (105, 2)]; [(127, 2); (131, 1)]; [(20, 1); (129, 2)];
   [(106, 1); (107, 1); (108, 1); (109, 1); (110, 1); (111, 1); (112, 1); (113, 1); (114, 1); (130, 1); (135, 1); (136, 1); (137, 1); (138, 1); (139, 1); (140, 1); (141, 1); (142, 1)];
   [(135, 1); (136, 1); (137, 1); (138, 1); (139, 1); (140, 1); (141, 1); (142, 1); (143, 2)];
   [(144, 2); (145, 2); (146, 2)]; [(147, 2)]; [(115, 2)]; [(129, 1)]; [(154, 2)];
   [(135, 1); (136, 1); (137, 1); (138, 1); (139, 1); (140, 1); (141, 1); (142, 1); (156, 1)];
   [(21, 5); (22, 5)]; [(25, 5); (195, 1)]; [(26, 5)]; [(100, 1)]; [(195, 3)]; [(30, 5)];
   [(130, 1); (135, 1); (136, 1); (137, 1); (138, 1); (139, 1); (140, 1); (141, 1); (142, 1)];
   [(135, 1); (136, 1); (137, 1); (138, 1); (139, 1); (140, 1); (141, 1); (142, 1); (196, 3)];
   [(197, 3)]; [(163, 3)]; [(164, 3); (215, 1)]; [(39, 5)]; [(201, 3)]; [(40, 5)]; [(214, 1)];
   [(42, 5)]; [(43, 5)]; [(204, 1)]; [(205, 1)]; [(206, 1)]; [(207, 1)]; [(208, 1)]; [(45, 5)];
   [(47, 5)]; [(48, 5)]; [(23, 5)]; [(24, 5)]; [(123, 2); (126, 1)]; [(125, 1)]; [(189, 3)];
   [(191, 2)]; [(19, 6); (71, 1)]; [(70, 1); (74, 1); (75, 1)]; [(72, 1)]; [(73, 1); (129, 1)];
   [(88, 1); (89, 1)]; [(90, 1)]; [(61, 3)]; [(69, 2)]; [(64, 3)]; [(102, 1); (102, 3); (103, 1)];
   [(102, 1); (103, 1); (103, 3)];
   [(106, 3); (135, 1); (136, 1); (137, 1); (138, 1); (139, 1); (140, 1); (141, 1); (142, 1)];
   [(107, 3)]; [(108, 3)]; [(110, 3)]; [(112, 3)];
   [(109, 3); (135, 1); (136, 1); (137, 1); (138, 1); (139, 1); (140, 1); (141, 1); (142, 1)];
   [(111, 3); (135, 1); (136, 1); (137, 1); (138, 1); (139, 1); (140, 1); (141, 1); (142, 1)];
   [(113, 3)]; [(114, 3)];
   [(135, 1); (135, 3); (136, 1); (137, 1); (138, 1); (139, 1); (140, 1); (141, 1); (142, 1)];
   [(135, 1); (136, 1); (136, 3); (137, 1); (138, 1); (139, 1); (140, 1); (141, 1); (142, 1)];
   [(135, 1); (136, 1); (137, 1); (137, 3); (138, 1); (139, 1); (140, 1); (141, 1); (142, 1)];
   [(135, 1); (136, 1); (137, 1); (138, 1); (138, 3); (139, 1); (140, 1); (141, 1); (142, 1)];
   [(135, 1); (136, 1); (137, 1); (138, 1); (139, 1); (139, 3); (140, 1); (141, 1); (142, 1)];
   [(135, 1); (136, 1); (137, 1); (138, 1); (139, 1); (140, 1); (140, 3); (141, 1); (142, 1)];
   [(135, 1); (136, 1); (137, 1); (138, 1); (139, 1); (140, 1); (141, 1); (141, 3); (142, 1)];
   [(135, 1); (136, 1); (137, 1); (138, 1); (139, 1); (140, 1); (141, 1); (142, 1); (142, 3)];
   [(105, 3)]; [(127, 3)]; [(131, 2)]; [(129, 3)]; [(144, 3)]; [(61, 1); (145, 3)]; [(146, 3)];
   [(61, 1); (147, 3)]; [(154, 3); (158, 1)]; [(157, 1)]; [(159, 1)]; [(21, 6)]; [(22, 6)]; [(25, 6)];
   [(26, 6)]; [(174, 1)]; [(100, 2); (102, 1); (103, 1)];
   [(30, 6); (135, 1); (136, 1); (137, 1); (138, 1); (139, 1); (140, 1); (141, 1); (142, 1)];
   [(164, 4)]; [(40, 6)]; [(214, 2)]; [(42, 6)]; [(43, 6)]; [(210, 1)]; [(23, 6)]; [(24, 6); (195, 1)];
   [(126, 2)]; [(191, 3)]; [(19, 7)]; [(71, 2)]; [(74, 2); (75, 2)]; [(79, 1)]; [(80, 1)];
   [(81, 1); (82, 1)]; [(83, 1); (84, 1)]; [(85, 1)]; [(86, 1)]; [(87, 1)]; [(72, 2)]; [(77, 1)];
   [(78, 1)]; [(73, 2); (74, 1); (75, 1)]; [(89, 2)]; [(108, 4)];
   [(110, 4); (135, 1); (136, 1); (137, 1); (138, 1); (139, 1); (140, 1); (141, 1); (142, 1)];
   [(112, 4); (135, 1); (136, 1); (137, 1); (138, 1); (139, 1); (140, 1); (141, 1); (142, 1)];
   [(111, 4)]; [(114, 4)];
   [(131, 3); (135, 1); (136, 1); (137, 1); (138, 1); (139, 1); (140, 1); (141, 1); (142, 1)];
   [(145, 4)]; [(61, 1); (146, 4)]; [(147, 4)]; [(154, 4)]; [(158, 2)]; [(161, 1)];
   [(102, 1); (103, 1); (159, 2)]; [(21, 7)]; [(22, 7); (195, 1)]; [(25, 7)]; [(26, 7)];
   [(182, 1); (183, 1); (184, 1)]; [(174, 2)]; [(164, 5)]; [(40, 7)]; [(43, 7)]; [(126, 3)]; [(19, 8)];
   [(170, 1)]; [(71, 3); (74, 1); (75, 1)]; [(74, 1); (74, 3); (75, 1); (75, 3)]; [(81, 2)]; [(82, 2)];
   [(83, 2)]; [(84, 2)]; [(85, 2)]; [(86, 2)]; [(87, 2)]; [(72, 3)]; [(94, 1)]; [(95, 1)]; [(96, 1)];
   [(78, 2)]; [(73, 3)]; [(89, 3)]; [(112, 5)];
   [(111, 5); (135, 1); (136, 1); (137, 1); (138, 1); (139, 1); (140, 1); (141, 1); (142, 1)];
   [(146, 5)]; [(154, 5)];
   [(135, 1); (136, 1); (137, 1); (138, 1); (139, 1); (140, 1); (141, 1); (142, 1); (161, 2)];
   [(159, 3)]; [(21, 8)]; [(193, 1)]; [(22, 8)]; [(25, 8)];
   [(135, 1); (136, 1); (137, 1); (138, 1); (139, 1); (140, 1); (141, 1); (142, 1); (182, 2); (183, 2); (184, 2)];
   [(174, 3); (176, 1)]; [(175, 1)];
   [(135, 1); (136, 1); (137, 1); (138, 1); (139, 1); (140, 1); (141, 1); (142, 1); (177, 1)];
   [(40, 8)]; [(19, 9)]; [(172, 1)]; [(170, 2)]; [(75, 4)]; [(82, 3)]; [(84, 3)]; [(94, 2)]; [(95, 2)];
   [(96, 2)];
   [(112, 6); (135, 1); (136, 1); (137, 1); (138, 1); (139, 1); (140, 1); (141, 1); (142, 1)];
   [(135, 1); (136, 1); (137, 1); (138, 1); (139, 1); (140, 1); (141, 1); (142, 1); (159, 4)];
   [(193, 2)]; [(183, 3)]; [(184, 3)]; [(176, 2)]; [(177, 2)]; [(179, 1)]; [(180, 1)]; [(19, 10)];
   [(102, 1); (103, 1); (172, 2)]; [(131, 1); (170, 3)]; [(75, 5); (102, 1); (103, 1)]; [(94, 3)];
   [(95, 3)]; [(96, 3)]; [(193, 3)];
   [(135, 1); (136, 1); (137, 1); (138, 1); (139, 1); (140, 1); (141, 1); (142, 1); (183, 4)];
   [(135, 1); (136, 1); (137, 1); (138, 1); (139, 1); (140, 1); (141, 1); (142, 1); (184, 4)];
   [(176, 3)]; [(19, 11)]; [(94, 4); (98, 1)]; [(97, 1)]; [(95, 4); (98, 1)]; [(96, 4); (98, 1)];
   [(193, 4)]; [(19, 12)]; [(186, 1)]; [(187, 1)]; [(94, 5)]; [(98, 2)]; [(95, 5)]; [(96, 5)];
   [(193, 5); (195, 1)]; [(186, 2)]; [(187, 2)]; [(98, 3)]; [(187, 3)]; [(187, 4)]].

Definition starts : list (list Z) :=
  [[0; 1; 2; 3; 4; 5; 6; 7; 8; 9; 10; 11; 70; 71; 72; 73; 74; 75; 76]; []; []; [14]; []; []; []; [];
   []; []; []; []; []; []; []; []; []; []; []; [12; 77]; [12; 77]; [12; 77]; [12; 77]; [12; 77]; [65];
   [16]; []; []; []; []; []; []; [12; 77]; [26]; [67]; [12; 77]; [3]; []; []; []; []; [15]; [13]; [16];
   [26]; []; [42; 59; 60; 67]; [62]; []; [67]; []; []; [67]; []; []; [61]; [67]; [61]; []; []; [56];
   []; []; []; []; [69]; [14]; []; [17; 18; 21; 30; 31; 34; 35; 36; 39; 40; 41; 42; 43; 67]; []; [];
   []; []; [26]; []; [34; 35; 36; 39; 40; 41; 42; 43; 67]; []; []; []; []; []; []; [67]; [68]; [];
   [68]; []; []; []; []; [67]; [26]; [3; 33]; [42; 57; 67]; []; [26]; []; []; []; []; [19; 67]; []; [];
   [32]; []; [30; 31; 34; 35; 36; 39; 40; 41; 42; 43; 67];
   [3; 30; 31; 34; 35; 36; 37; 39; 40; 41; 42; 43; 67]; []; []; [];
   [34; 35; 36; 39; 40; 41; 42; 43; 67]; []; []; []; [40]; []; []; []; []; []; []; []; []; []; [];
   [34; 35; 36; 39; 40; 41; 42; 43; 46; 67]; []; [26]; [42; 59; 60; 67]; [29]; [42; 60; 67]; []; [];
   [3; 34; 35; 36; 37; 39; 40; 41; 42; 43; 67]; [34; 35; 36; 39; 40; 41; 42; 43; 67]; [67]; [68]; [];
   [66]; []; [63]; []; []; []; []; []; [68]; [56]; []; [36; 38; 40]; [14]; []; []; []; [];
   [22; 23; 25; 40]; [18; 21; 30; 31; 34; 35; 36; 39; 40; 41; 42; 43; 67]; []; []; [67]; [67];
   [30; 31; 34; 35; 36; 39; 40; 41; 42; 43; 67]; [30; 31; 34; 35; 36; 39; 40; 41; 42; 43; 67];
   [34; 35; 36; 39; 40; 41; 42; 43; 67]; [36; 40]; []; [34; 35; 36; 39; 40; 41; 42; 43; 67];
   [34; 35; 36; 39; 40; 41; 42; 43; 67]; []; [34; 35; 36; 39; 40; 41; 42; 43; 67];
   [34; 35; 36; 39; 40; 41; 42; 43; 67]; [34; 35; 36; 39; 40; 41; 42; 43; 67];
   [34; 35; 36; 39; 40; 41; 42; 43; 67]; [34; 35; 36; 39; 40; 41; 42; 43; 67];
   [34; 35; 36; 39; 40; 41; 42; 43; 67]; [34; 35; 36; 39; 40; 41; 42; 43; 67];
   [34; 35; 36; 39; 40; 41; 42; 43; 67]; []; []; []; []; []; []; []; []; [32]; []; []; [14]; [32]; [];
   [17; 18; 21; 30; 31; 34; 35; 36; 39; 40; 41; 42; 43; 67];
   [17; 18; 21; 30; 31; 34; 35; 36; 39; 40; 41; 42; 43; 67]; []; [3]; [44; 45]; []; [56]; [29]; [50];
   [30; 31; 34; 35; 36; 39; 40; 41; 42; 43; 67]; []; [34; 35; 36; 39; 40; 41; 42; 43; 67]; []; []; [];
   []; []; []; []; []; [67]; [68]; [64]; []; []; []; []; []; []; []; []; [3; 33]; [42; 59; 60; 67]; [];
   []; []; [42; 67]; [29]; [24]; [20]; [3; 23; 25; 40]; []; []; []; []; []; []; []; []; []; [36; 40];
   [34; 35; 36; 39; 40; 41; 42; 43; 67]; [34; 35; 36; 39; 40; 41; 42; 43; 67]; []; []; []; []; []; [];
   []; []; []; []; []; []; []; []; [34; 35; 36; 39; 40; 41; 42; 43; 67]; []; []; [];
   [17; 18; 21; 30; 31; 34; 35; 36; 39; 40; 41; 42; 43; 67]; []; [45; 47]; [];
   [30; 31; 34; 35; 36; 39; 40; 41; 42; 43; 67]; [3; 33]; [42; 59; 60; 67]; [50]; [54]; []; []; [];
   [67]; []; []; []; []; []; []; []; [36; 40]; []; [48]; [23; 25; 40]; [23; 25; 40]; []; []; []; [];
   []; []; []; [27]; []; []; [24]; []; []; []; []; [34; 35; 36; 39; 40; 41; 42; 43; 67]; []; []; [];
   []; []; []; []; [34; 35; 36; 39; 40; 41; 42; 43; 67]; []; [58]; [58]; [54]; [];
   [34; 35; 36; 39; 40; 41; 42; 43; 67]; [34; 35; 36; 39; 40; 41; 42; 43; 51; 52; 67]; []; [68]; [];
   []; [49]; []; [24]; [24]; []; []; []; []; []; []; []; []; []; []; []; []; []; [];
   [34; 35; 36; 39; 40; 41; 42; 43; 67]; []; []; []; []; [34; 35; 36; 39; 40; 41; 42; 43; 67]; []; [];
   []; []; []; []; []; [53]; []; [50]; [30; 31; 34; 35; 36; 39; 40; 41; 42; 43; 67];
   [34; 35; 36; 37; 39; 40; 41; 42; 43; 67]; [30; 31; 34; 35; 36; 39; 40; 41; 42; 43; 67]; []; []; [];
   []; []; []; []; []; [34; 35; 36; 39; 40; 41; 42; 43; 67]; [34; 35; 36; 39; 40; 41; 42; 43; 67];
   [34; 35; 36; 39; 40; 41; 42; 43; 52; 67]; []; []; []; [54]; []; []; []; [28; 67]; [28; 67];
   [28; 67]; []; []; []; []; [55]; []; []; []; []; [42; 59; 60; 67]; []; []; []; []; [67]; []; []; [];
   []; [67]; []; [67]; []].

Definition ranks : list Z :=
  [0; 0; 1; 2; 2; 2; 2; 2; 2; 2; 2; 2; 2; 2; 2; 2; 2; 2; 2; 6; 6; 6; 6; 6; 2; 2; 0; 0; 3; 0; 3; 3; 6;
   0; 0; 6; 0; 1; 1; 1; 1; 2; 4; 2; 0; 0; 0; 2; 0; 0; 1; 0; 0; 1; 0; 2; 0; 2; 2; 0; 2; 2; 7; 2; 13; 2;
   2; 0; 0; 1; 2; 0; 0; 0; 1; 0; 7; 0; 12; 13; 0; 0; 0; 2; 0; 2; 0; 0; 0; 0; 0; 0; 0; 0; 0; 0; 1; 1; 2;
   3; 4; 13; 5; 5; 11; 0; 0; 11; 11; 11; 0; 12; 0; 11; 0; 12; 12; 12; 12; 12; 1; 1; 1; 1; 1; 2; 2; 0;
   0; 6; 0; 0; 0; 0; 0; 0; 2; 0; 2; 0; 0; 0; 0; 0; 0; 0; 2; 2; 0; 0; 3; 0; 1; 5; 0; 0; 0; 2; 3; 0; 0;
   0; 0; 0; 0; 0; 0; 0; 0; 0; 0; 0; 0; 0; 0; 0; 0; 1; 1; 1; 1; 1; 1; 1; 10; 0; 0; 0; 0; 8; 10; 0; 0;
   11; 0; 0; 1; 2; 6; 4; 0; 5; 0; 8; 6; 6; 10; 13; 0; 0; 0; 0; 2; 2; 3; 3; 3; 3; 3; 0; 0; 0; 0; 0; 2;
   3; 0; 0; 12; 13; 16; 0; 17; 17; 0; 2; 1; 9; 9; 10; 10; 0; 0; 0; 10; 0; 10; 0; 9; 9; 9; 9; 9; 9; 9;
   9; 9; 10; 0; 16; 9; 0; 0; 0; 2; 3; 0; 0; 0; 4; 2; 0; 10; 0; 0; 0; 0; 0; 0; 1; 0; 0; 0; 0; 10; 0; 0;
   1; 1; 0; 0; 0; 0; 0; 14; 15; 0; 0; 0; 9; 9; 0; 0; 9; 6; 8; 0; 8; 0; 2; 0; 0; 2; 2; 2; 0; 0; 0; 8; 2;
   0; 1; 8; 0; 11; 12; 0; 0; 0; 0; 0; 0; 0; 12; 0; 0; 0; 14; 12; 15; 0; 8; 7; 8; 0; 0; 0; 0; 0; 0; 2;
   3; 4; 6; 0; 6; 0; 0; 0; 0; 0; 0; 0; 0; 7; 1; 0; 0; 0; 0; 4; 5; 5; 4; 6; 7; 10; 0; 0; 0; 0; 0; 0; 2;
   2; 0; 1; 0; 0; 0; 0; 0; 0; 9; 0; 9; 9; 0; 0; 0; 0; 0; 0].

Definition target_ranks : list Z :=
  [0; 0; 1; 3; 2; 2; 2; 2; 2; 2; 2; 2; 2; 2; 0; 0; 0; 1; 2; 2; 14; 4; 12; 13; 0; 16; 6; 12; 0; 10; 10;
   11; 0; 2; 11; 10; 11; 7; 2; 0; 17; 0; 11; 11; 2; 3; 0; 0; 8; 6; 4; 3; 4; 4; 2; 0; 0; 0; 0; 6; 7; 0;
   0; 2; 0; 0; 0; 12; 0; 0; 2; 2; 2; 2; 2; 2; 2; 4].
(** Productions by codes; production 0 is the whole text. *)
Definition coded : list (Z * list Z) :=
  (0, [-1; 1]) :: map (fun p => (nt_number p.1, map symbol_code p.2)) grammar.
Definition rules : list (Z * list Z) := Eval vm_compute in coded.
Lemma rules_coded : rules = coded.
Proof. vm_compute. reflexivity. Qed.

(** ** Lists as finite maps, for fast lookup *)
Section Tables.
Context {A : Type}.
Fixpoint table_from (i : positive) (l : list A) : Pmap A :=
  match l with [] => ∅ | x :: l => <[i := x]> (table_from (Pos.succ i) l) end.
Definition table (l : list A) : Pmap A := table_from 1 l.
Definition get (m : Pmap A) (i : Z) : option A := if i <? 0 then None else m !! Z.to_pos (i + 1).

Lemma table_from_lookup i l n : table_from i l !! (Pos.of_nat (Pos.to_nat i + n)) = l !! n.
Proof.
  revert i n. induction l as [|x l IH]; intros i n; cbn [table_from]; [by rewrite lookup_empty|].
  destruct n as [|n].
  - replace (Pos.of_nat (Pos.to_nat i + 0)) with i by lia. by rewrite lookup_insert_eq.
  - rewrite lookup_insert_ne by lia. cbn [lookup list_lookup]. rewrite <- (IH (Pos.succ i)). f_equal. lia.
Qed.

Lemma get_table l i : get (table l) i = index_range l i.
Proof.
  unfold get, index_range, table. case_if; [done|].
  rewrite <- (table_from_lookup 1 l (Z.to_nat i)). f_equal. lia.
Qed.

Lemma at_table {E} (l : list A) i :
  @at_ E A l i = match get (table l) i with Some a => Ok a | None => Panic (PRuntime "index out of range") end.
Proof. unfold at_. by rewrite get_table. Qed.
End Tables.

Definition Pact : Pmap Z := Eval vm_compute in table yyPact.
Definition Act : Pmap Z := Eval vm_compute in table yyAct.
Definition Chk : Pmap Z := Eval vm_compute in table yyChk.
Definition Def : Pmap Z := Eval vm_compute in table yyDef.
Definition Pgo : Pmap Z := Eval vm_compute in table yyPgo.
Definition Rules : Pmap (Z * list Z) := Eval vm_compute in table rules.
Definition Kernels : Pmap (list (Z * Z)) := Eval vm_compute in table kernels.
Definition Starts : Pmap (list Z) := Eval vm_compute in table starts.
Definition Ranks : Pmap Z := Eval vm_compute in table ranks.
Definition Targets : Pmap Z := Eval vm_compute in table target_ranks.

Lemma tables_are :
  Pact = table yyPact /\ Act = table yyAct /\ Chk = table yyChk /\ Def = table yyDef /\
  Pgo = table yyPgo /\ Rules = table rules.
Proof. split_and!; vm_compute; reflexivity. Qed.

Definition kernel (s : Z) : list (Z * Z) := default [] (get Kernels s).
Definition starting (s : Z) : list Z := default [] (get Starts s).
Definition rank (s : Z) : Z := default 0 (get Ranks s).
Definition target_rank (A : Z) : Z := default 0 (get Targets A).
Definition mem (x : Z) (l : list Z) : bool := existsb (Z.eqb x) l.

(** State [s] is in production [r] after [d] of its symbols. *)
Definition item (s r d : Z) : bool :=
  match get Rules r with
  | Some (A, _) =>
      if d =? 0 then mem A (starting s) else existsb (fun '(r', d') => (r' =? r) && (d' =? d)) (kernel s)
  | None => false
  end.

(** From [p] to [q] on the symbol with code [c]: the items of [q] go on
    from items of [p] by that symbol. *)
Definition check_edge (p q c : Z) : bool :=
  match get Chk q with Some c' => c' =? c | None => false end &&
  (0 <=? q) && (q <? n_states) && (0 <=? rank q) && (rank q <=? 17) &&
  forallb (fun '(r, d) =>
    (1 <=? d) && item p r (d - 1) &&
    match get Rules r with
    | Some (_, rhs) => match index_range rhs (d - 1) with Some X => X =? c | None => false end
    | None => false
    end) (kernel q).

Definition check_shift (p t : Z) : bool :=
  match get Pact p with
  | Some n =>
      let i := n + t in
      if (n <=? yyFlag) || (i <? 0) || (yyLast <=? i) then true
      else match get Act i with
           | Some q => match get Chk q with
                       | Some c => if c =? t then negb (t =? yyEofCode) && negb (t =? yyErrCode) && negb (q =? 1) && check_edge p q t
                                   else true
                       | None => false
                       end
           | None => false
           end
  | None => false
  end.

Definition fast_goto (A s : Z) : option Z :=
  match get Pgo A with
  | Some g =>
      let j := g + s + 1 in
      if yyLast <=? j then get Act g
      else match get Act j with
           | Some q => match get Chk q with Some c => if c =? - A then Some q else get Act g | None => None end
           | None => None
           end
  | None => None
  end.

(** Only the start symbol leads to state 1, from state 0. *)
Definition check_goto (p A : Z) : bool :=
  if A =? 0 then p =? 0
  else match fast_goto A p with
       | Some q => check_edge p q (- A) && (rank q <=? target_rank A) && (negb (q =? 1) || (A =? 1))
       | None => false
       end.

(** A reduction in [s] that its rank allows. *)
Definition check_reduce (s n : Z) : bool :=
  match get Rules n with
  | Some (A, rhs) =>
      let k := Z.of_nat (length rhs) in
      (n <=? 218) && item s n k &&
      (if k =? 0 then match fast_goto A s with Some q => rank q + 2 <=? rank s | None => false end
       else target_rank A + 1 <=? rank s + (k - 1))
  | None => false
  end.

Definition check_default (s : Z) : bool :=
  match get Def s with
  | Some n => if n =? -2 then (s =? 1) else if n =? 0 then true else (1 <=? n) && check_reduce s n
  | None => false
  end.

Definition check_state (s : Z) : bool :=
  check_default s && forallb (check_goto s) (starting s) && forallb (check_shift s) (seqZ 1 107).

Lemma all_states : forallb check_state (seqZ 0 n_states) = true.
Proof. vm_compute. reflexivity. Qed.

(** ** What the check says *)

Lemma state_checked s : 0 <= s < n_states -> check_state s = true.
Proof.
  intros Hs. pose proof all_states as H. rewrite forallb_forall in H. apply H.
  apply list_elem_of_In, elem_of_seqZ. lia.
Qed.

Lemma state_parts s : 0 <= s < n_states ->
  check_default s = true /\ (forall A, mem A (starting s) = true -> check_goto s A = true) /\
  (forall t, 1 <= t <= 107 -> check_shift s t = true).
Proof.
  intros Hs. pose proof (state_checked s Hs) as H. unfold check_state in H.
  rewrite !andb_true_iff, !forallb_forall in H. destruct H as [[Hd Hg] Hsh]. split_and!; [done| |].
  - intros A HA. unfold mem in HA. apply existsb_exists in HA as (B & HB & ->%Z.eqb_eq). by apply Hg.
  - intros t Ht. apply Hsh, list_elem_of_In, elem_of_seqZ. lia.
Qed.

Lemma table_lookups :
  (forall E i, @at_ E _ yyPact i = match get Pact i with Some a => Ok a | None => Panic (PRuntime "index out of range") end) /\
  (forall E i, @at_ E _ yyAct i = match get Act i with Some a => Ok a | None => Panic (PRuntime "index out of range") end) /\
  (forall E i, @at_ E _ yyChk i = match get Chk i with Some a => Ok a | None => Panic (PRuntime "index out of range") end) /\
  (forall E i, @at_ E _ yyDef i = match get Def i with Some a => Ok a | None => Panic (PRuntime "index out of range") end) /\
  (forall E i, @at_ E _ yyPgo i = match get Pgo i with Some a => Ok a | None => Panic (PRuntime "index out of range") end).
Proof.
  destruct tables_are as (-> & -> & -> & -> & -> & _).
  split_and!; intros E i; apply at_table.
Qed.

Lemma goto_fast A s :
  goto A s = match fast_goto A s with Some q => Ok q | None => Panic (PRuntime "index out of range") end.
Proof.
  destruct table_lookups as (_ & HAct & HChk & _ & HPgo). unfold goto, fast_goto.
  rewrite HPgo. destruct (get Pgo A) as [g|]; [|done]. cbn [rbind]. rewrite HAct. case_if; [done|].
  rewrite HAct. destruct (get Act _) as [q|]; [|done]. cbn [rbind].
  rewrite HChk. destruct (get Chk q) as [c|]; [|done]. cbn [rbind]. by case_if.
Qed.

(** An edge, taken apart. *)
Lemma edge_parts p q c : check_edge p q c = true ->
  get Chk q = Some c /\ 0 <= q < n_states /\ 0 <= rank q <= 17 /\
  (forall r d, 0 < d -> item q r d = true -> item p r (d - 1) = true /\
     exists A rhs, get Rules r = Some (A, rhs) /\ index_range rhs (d - 1) = Some c).
Proof.
  unfold check_edge. rewrite !andb_true_iff. intros [[[[[Hc H1] H2] H3] H4] H]. split_and!; try lia.
  { destruct (get Chk q) as [c'|]; [|done]. apply Z.eqb_eq in Hc. by subst. }
  intros r d Hd Hi. unfold item in Hi. destruct (get Rules r) as [[A rhs]|] eqn:Hr; [|done].
  destruct (Z.eqb_spec d 0); [lia|]. apply existsb_exists in Hi as ([r' d'] & Hin & He).
  apply andb_true_iff in He as [->%Z.eqb_eq ->%Z.eqb_eq].
  rewrite forallb_forall in H. specialize (H _ Hin). cbn in H. rewrite Hr in H.
  rewrite !andb_true_iff in H. destruct H as [[_ Hp] Hx]. split; [done|]. exists A, rhs. split; [done|].
  destruct (index_range rhs (d - 1)) as [X|]; [|done]. apply Z.eqb_eq in Hx. by subst.
Qed.

Lemma lookup_map {A B} (f : A -> B) l i : map f l !! i = f <$> l !! i.
Proof. revert i. induction l as [|x l IH]; intros [|i]; cbn; [done..|apply IH]. Qed.

(** Production [n] in the grammar, and in the tables. *)
Lemma production_at n : 1 <= n <= 218 ->
  exists A rhs, grammar !! Z.to_nat (n - 1) = Some (A, rhs) /\
    get Rules n = Some (nt_number A, map symbol_code rhs) /\
    at_ (E := yy_error) yyR1 n = Ok (nt_number A) /\ at_ (E := yy_error) yyR2 n = Ok (Z.of_nat (length rhs)).
Proof.
  intros Hn.
  assert (length grammar = 218%nat) as Hlen by reflexivity.
  destruct (lookup_lt_is_Some_2 grammar (Z.to_nat (n - 1))) as [[A rhs] Hg]; [lia|].
  assert (map fst rules = yyR1) as HR1 by (vm_compute; reflexivity).
  assert (map (fun r => Z.of_nat (length r.2)) (drop 1 rules) = drop 1 yyR2) as HR2 by (vm_compute; reflexivity).
  assert (rules !! Z.to_nat n = Some (nt_number A, map symbol_code rhs)) as Hr.
  { rewrite rules_coded. unfold coded. replace (Z.to_nat n) with (S (Z.to_nat (n - 1))) by lia.
    change (map (fun p => (nt_number p.1, map symbol_code p.2)) grammar !! Z.to_nat (n - 1) =
      Some (nt_number A, map symbol_code rhs)). by rewrite lookup_map, Hg. }
  destruct tables_are as (_ & _ & _ & _ & _ & HRules).
  exists A, rhs. split; [done|]. split_and!.
  - rewrite HRules, get_table. apply index_range_Some. split; [lia | done].
  - apply at_Ok. split; [lia|]. rewrite <- HR1. by rewrite lookup_map, Hr.
  - apply at_Ok. split; [lia|].
    assert (drop 1 yyR2 !! Z.to_nat (n - 1) = Some (Z.of_nat (length rhs))) as H.
    { rewrite <- HR2, lookup_map, lookup_drop.
      replace (1 + Z.to_nat (n - 1))%nat with (Z.to_nat n) by lia. rewrite Hr. cbn. by rewrite length_map. }
    rewrite lookup_drop in H. by replace (1 + Z.to_nat (n - 1))%nat with (Z.to_nat n) in H by lia.
Qed.
