(* ===== verification/ParserFacts.v ===== *)
(** * What the parser reads and what its actions build

    The tokens [Lex] hands to the parser, the type each grammar symbol
    gives to its value, and that every action keeps to these types. *)
From S2P Require Import Prelude Errors GoLib SqlTypes Token Ast YyTables YyActions YyParse Grammar.
From Stdlib Require Import Ascii.
Open Scope Z_scope.
Import Yacc.
Import NT.

(** ** Tokens *)

(** A character token is an ASCII character; a bind variable has a name. *)
Definition token_ok (typ : tok) (v : option string) : Prop :=
  match typ with
  | TChar c => 1 < c < 127
  | VALUE_ARG => exists b, v = Some b /\ 1 <= slen b
  | _ => True
  end.

Lemma slen_write buf ch : slen (write buf ch) = slen buf + 1.
Proof. unfold write, slen. rewrite slength_app. cbn [String.length]. lia. Qed.

Lemma copyWhile_len p fuel t buf t' buf' :
  copyWhile p fuel t buf = Ok (t', buf') -> slen buf <= slen buf'.
Proof.
  revert t buf. induction fuel as [|fuel IH]; intros t buf; [done|]. cbn [copyWhile]. case_if.
  - intros H%IH. rewrite slen_write in H. lia.
  - intros [= _ ->]. lia.
Qed.

Definition results_ok (m : res loop_error token_result) : Prop :=
  forall typ v t, m = Ok (typ, v, t) -> token_ok typ v.

Lemma results_ok_bind {A} (m : res loop_error A) f :
  (forall a, m = Ok a -> results_ok (f a)) -> results_ok (rbind m f).
Proof. intros H typ v t Hm. destruct m as [a|e|p]; [|done..]. exact (H a eq_refl typ v t Hm). Qed.

Lemma results_ok_Ok typ v t : token_ok typ v -> results_ok (Ok (typ, v, t)).
Proof. intros H typ' v' t' [= <- <- _]. done. Qed.

Create HintDb toks.
#[export] Hint Resolve results_ok_Ok I : toks.

(** Every branch ends in a token; binds and tests are walked through. *)
Ltac walk_tokens :=
  repeat first
    [ apply results_ok_bind; intros ? ?
    | match goal with |- results_ok (match ?x with _ => _ end) => destruct x end
    | apply results_ok_Ok; exact I ].

Lemma keywords_ok s id : keyword s = Some id -> token_ok id (Some s).
Proof.
  assert (Forall (fun kv : string * tok => match kv.2 with TChar _ | VALUE_ARG => false | _ => true end = true) keywords) as H.
  { apply (bool_decide_eq_true_1 _). vm_compute. reflexivity. }
  unfold keyword. induction H as [|[k id'] l Hk _ IH]; cbn [assoc_lookup]; [done|].
  case_decide; [|exact IH]. intros [= <-]. by destruct id'.
Qed.

Lemma scanIdentifier_tokens fuel t : results_ok (scanIdentifier fuel t).
Proof.
  unfold scanIdentifier. apply results_ok_bind. intros [t' buf] _. cbn zeta.
  destruct (keyword (ToLower buf)) eqn:Hk; apply results_ok_Ok; [by apply keywords_ok | exact I].
Qed.

Lemma scanBindVar_tokens fuel t : results_ok (scanBindVar fuel t).
Proof.
  unfold scanBindVar. apply results_ok_bind. intros [t' buf] H%copyWhile_len.
  rewrite slen_write in H. change (slen "") with 0 in H.
  case_if; apply results_ok_Ok; [exact I|]. exists buf. split; [done | lia].
Qed.

Lemma scanExponent_tokens fuel t buf : results_ok (scanExponent fuel t buf).
Proof. unfold scanExponent. walk_tokens. Qed.

Lemma scanNumber_tokens fuel b t : results_ok (scanNumber fuel b t).
Proof.
  unfold scanNumber, scanFraction.
  repeat first [ apply scanExponent_tokens | progress walk_tokens ].
Qed.

Lemma scanString_tokens fuel delim typ t buf :
  typ = STRING \/ typ = ID -> results_ok (scanString fuel delim typ t buf).
Proof.
  intros Ht. revert t buf. induction fuel as [|fuel IH]; intros t buf; [done|]. cbn [scanString].
  repeat case_if; try apply IH; apply results_ok_Ok; try exact I; by destruct Ht as [-> | ->].
Qed.

Lemma scanComments_tokens fuel t buf :
  results_ok (scanCommentType1 fuel t buf) /\ results_ok (scanCommentType2 fuel t buf).
Proof.
  revert t buf. induction fuel as [|fuel IH]; intros t buf; [done|]. cbn [scanCommentType1 scanCommentType2].
  split; walk_tokens; apply IH.
Qed.

Lemma scan_default_tokens fuel ch t : results_ok (scan_default fuel ch t).
Proof.
  unfold scan_default. cbn zeta. set (u := next t).
  destruct (Z.eqb_spec ch EOFCHAR); [by apply results_ok_Ok|].
  case_if as Hs. { apply results_ok_Ok. apply bool_decide_eq_true in Hs. cbn. unfold single_chars in Hs. set_unfold. lia. }
  case_if. { apply results_ok_Ok. cbn. eexists. split; [done|]. unfold slen. rewrite slength_app. cbn. lia. }
  repeat case_if;
    try first [ apply scanNumber_tokens | apply scanComments_tokens | (apply scanString_tokens; by auto)
          | apply results_ok_Ok; cbn; first [exact I | lia] ].
Qed.

Lemma Scan_tokens t : results_ok (Scan t).
Proof.
  unfold Scan, Scan_fuel. destruct (Token.ForceEOF t); [apply results_ok_Ok; exact I|]. apply results_ok_bind. intros t' _. cbn zeta.
  repeat case_if; [apply scanIdentifier_tokens | apply scanNumber_tokens | apply scanBindVar_tokens | apply scan_default_tokens].
Qed.

(** A call of [Lex]: it answers, and consumes input unless it is at the end. *)
Lemma Lex_loop_consumes fuel typ val t t0 :
  advanced (if decide (typ = TEOF) then 0 else 1) t0 t ->
  token_ok typ val -> (0 < fuel)%nat -> (typ = COMMENT -> S (remaining t) < fuel)%nat ->
  exists typ' val' t', Lex_loop fuel (typ, val, t) = Ok (typ', val', t') /\
    advanced (if decide (typ' = TEOF) then 0 else 1) t0 t' /\ token_ok typ' val'.
Proof.
  revert typ val t. induction fuel as [|fuel IH]; intros typ val t Hadv Htok H0 Hf; [lia|].
  cbn [Lex_loop]. destruct (decide (typ = COMMENT)) as [Hc|Hc]; [|by exists typ, val, t].
  destruct (AllowComments t) eqn:Ha; [by exists typ, val, t|]. subst typ.
  destruct (Scan_spec t (advanced_wf _ _ _ Hadv)) as (ty & v & t' & Hs & Hadv'). rewrite Hs. cbn [rbind].
  specialize (Hf eq_refl). pose proof (advanced_rem _ _ _ Hadv') as Hr.
  rewrite decide_False in Hadv by done.
  assert (advanced (if decide (ty = TEOF) then 0 else 1) t0 t') as Hadv''.
  { eapply advanced_weaken; [|exact (advanced_trans _ _ _ _ _ Hadv Hadv')]. case_decide; lia. }
  apply IH; [done | exact (Scan_tokens t ty v t' Hs) | lia|].
  intros ->. rewrite decide_False in Hr by done. lia.
Qed.

Lemma Lex_consumes t : tkn_wf t ->
  exists typ val t', Lex t = Ok (typ, val, t') /\ tkn_wf t' /\
    (remaining t' + (if decide (typ = TEOF) then 0 else 1) <= remaining t)%nat /\ token_ok typ val.
Proof.
  intros Hwf. unfold Lex. destruct (Scan_spec t Hwf) as (ty & v & t' & Hs & Hadv). rewrite Hs. cbn [rbind].
  destruct (Lex_loop_consumes (scan_fuel t) ty v t' t) as (ty' & v' & t'' & -> & Hadv' & Htok); [done| | | |].
  - exact (Scan_tokens t ty v t' Hs).
  - unfold scan_fuel. lia.
  - intros ->. rewrite decide_False in Hadv by done. apply advanced_rem in Hadv.
    pose proof (remaining_len t). unfold scan_fuel. lia.
  - cbn [rbind]. exists ty', (if has_value ty' then v' else None), (set_errorToken t'' v').
    split; [done|]. split; [exact (advanced_wf _ _ _ Hadv')|]. split; [exact (advanced_rem _ _ _ Hadv')|].
    by destruct ty'.
Qed.

(** The end of the text is the only token with the number of [$end], a bind
    variable the only one with its number, and no token's code is negative. *)
Lemma token_ok_code typ v : token_ok typ v ->
  0 <= tok_code typ /\ (token_number typ = yyEofCode -> typ = TEOF) /\ (token_number typ = 34 -> typ = VALUE_ARG).
Proof.
  intros H.
  assert (check_range (fun c => negb (token_number (TChar c) =? yyEofCode) && negb (token_number (TChar c) =? 34))
            (Z.to_nat 125) 2 = true) as Hc by (vm_compute; reflexivity).
  destruct typ; try (split; [cbn; lia | split; vm_compute; congruence]).
  cbn in H. pose proof (check_range_all _ 125 2 c Hc ltac:(lia)) as Hr. cbn [tok_code]. cbv beta in Hr. lia.
Qed.

(** ** The end of the text

    The scanners never answer [TEOF], and none of them sets the switch. *)
Definition keeps_switch {A} (t : Tokenizer) (m : res loop_error (Tokenizer * A)) : Prop :=
  match m with Ok (t', _) => Token.ForceEOF t' = Token.ForceEOF t | _ => True end.
Definition scans (t : Tokenizer) (m : res loop_error token_result) : Prop :=
  match m with Ok (typ, _, t') => typ <> TEOF /\ Token.ForceEOF t' = Token.ForceEOF t | _ => True end.

Lemma next_switch t : Token.ForceEOF (next t) = Token.ForceEOF t.
Proof. unfold next. by destruct (InStream t). Qed.
Lemma keeps_switch_bind {A B} t (m : res loop_error (Tokenizer * A)) (k : Tokenizer * A -> res loop_error (Tokenizer * B)) :
  keeps_switch t m -> (forall t' a, Token.ForceEOF t' = Token.ForceEOF t -> keeps_switch t (k (t', a))) -> keeps_switch t (rbind m k).
Proof. destruct m as [[t' a]|e|p]; cbn; auto. Qed.
Lemma scans_bind {A} t (m : res loop_error (Tokenizer * A)) (k : Tokenizer * A -> res loop_error token_result) :
  keeps_switch t m -> (forall t' a, Token.ForceEOF t' = Token.ForceEOF t -> scans t (k (t', a))) -> scans t (rbind m k).
Proof. destruct m as [[t' a]|e|p]; cbn; auto. Qed.

Create HintDb switch discriminated.
#[local] Hint Rewrite next_switch : switch.
Ltac switch_side :=
  cbn [keeps_switch scans Token.ForceEOF set_posVarIndex]; autorewrite with switch; first [done | congruence | split; [done | congruence]].
Ltac switches :=
  repeat first
    [ match goal with |- scans _ (Ok _) => switch_side | |- keeps_switch _ (Ok _) => switch_side
                    | |- scans _ (Err _) => exact I | |- keeps_switch _ (Err _) => exact I | |- keeps_switch _ (Panic _) => exact I end
    | solve [eauto with switch]
    | apply scans_bind; [|intros ? ? ?]
    | apply keeps_switch_bind; [|intros ? ? ?]
    | case_match ].

Lemma ConsumeNext_switch t0 t buf : Token.ForceEOF t = Token.ForceEOF t0 -> keeps_switch t0 (ConsumeNext t buf).
Proof. intros H. unfold ConsumeNext. switches. Qed.
#[local] Hint Resolve ConsumeNext_switch : switch.
Lemma copyWhile_switch p fuel t0 t buf : Token.ForceEOF t = Token.ForceEOF t0 -> keeps_switch t0 (copyWhile p fuel t buf).
Proof. revert t buf. induction fuel as [|fuel IH]; intros t buf H; cbn [copyWhile]; [done|]. case_match; [apply IH; by rewrite next_switch | switches]. Qed.
Lemma scanMantissa_switch fuel base t0 t buf : Token.ForceEOF t = Token.ForceEOF t0 -> keeps_switch t0 (scanMantissa fuel base t buf).
Proof. revert t buf. induction fuel as [|fuel IH]; intros t buf H; cbn [scanMantissa]; [done|]. switches. Qed.
#[local] Hint Resolve copyWhile_switch scanMantissa_switch : switch.
Lemma scanExponent_scans fuel t0 t buf : Token.ForceEOF t = Token.ForceEOF t0 -> scans t0 (scanExponent fuel t buf).
Proof. intros H. unfold scanExponent. switches. Qed.
#[local] Hint Resolve scanExponent_scans : switch.
Lemma scanFraction_scans fuel t0 t buf : Token.ForceEOF t = Token.ForceEOF t0 -> scans t0 (scanFraction fuel t buf).
Proof. intros H. unfold scanFraction. switches. Qed.
#[local] Hint Resolve scanFraction_scans : switch.
Lemma scanNumber_scans fuel b t0 t : Token.ForceEOF t = Token.ForceEOF t0 -> scans t0 (scanNumber fuel b t).
Proof.
  intros H. unfold scanNumber. destruct b; [switches|]. case_if; [|switches].
  apply scans_bind; [switches | intros t1 buf1 H1]. case_if; [switches|].
  apply scans_bind; [switches | intros t2 buf2 H2]. case_if.
  - pose proof (scanMantissa_switch fuel 10 t0 t2 buf2 H2) as Hm.
    destruct (scanMantissa fuel 10 t2 buf2) as [[t3 buf3]|e|p]; cbn [rbind keeps_switch] in *; [switches | done..].
  - cbn [rbind]. switches.
Qed.
Lemma scanString_scans fuel delim typ t0 t buf : typ <> TEOF -> Token.ForceEOF t = Token.ForceEOF t0 -> scans t0 (scanString fuel delim typ t buf).
Proof.
  intros Ht. revert t buf. induction fuel as [|fuel IH]; intros t buf H; cbn [scanString]; [done|].
  repeat case_match; first [apply IH; autorewrite with switch; congruence | switch_side].
Qed.
Lemma scanCommentType1_scans fuel t0 t buf : Token.ForceEOF t = Token.ForceEOF t0 -> scans t0 (scanCommentType1 fuel t buf).
Proof. revert t buf. induction fuel as [|fuel IH]; intros t buf H; cbn [scanCommentType1]; [done|]. switches. Qed.
Lemma scanCommentType2_scans fuel t0 t buf : Token.ForceEOF t = Token.ForceEOF t0 -> scans t0 (scanCommentType2 fuel t buf).
Proof. revert t buf. induction fuel as [|fuel IH]; intros t buf H; cbn [scanCommentType2]; [done|]. switches. Qed.

Lemma keyword_typ s typ : keyword s = Some typ -> typ <> TEOF.
Proof.
  assert (Forall (fun kv : string * tok => kv.2 <> TEOF) keywords) as H by (apply (bool_decide_eq_true_1 _); vm_compute; reflexivity).
  unfold keyword. induction H as [|[k id] l Hk _ IH]; cbn [assoc_lookup]; [done|]. case_decide; [|done]. by intros [= <-].
Qed.
Lemma scanIdentifier_scans fuel t0 t : Token.ForceEOF t = Token.ForceEOF t0 -> scans t0 (scanIdentifier fuel t).
Proof.
  intros H. unfold scanIdentifier. apply scans_bind; [apply copyWhile_switch; by rewrite next_switch|]. intros t' a Ht.
  destruct (keyword _) as [id|] eqn:Hk; [|switch_side]. apply keyword_typ in Hk. by split.
Qed.
Lemma scanBindVar_scans fuel t0 t : Token.ForceEOF t = Token.ForceEOF t0 -> scans t0 (scanBindVar fuel t).
Proof.
  intros H. unfold scanBindVar. apply scans_bind; [apply copyWhile_switch; by rewrite next_switch|]. intros t' a Ht. switches.
Qed.
Lemma scan_default_scans fuel ch t0 t : ch <> EOFCHAR -> Token.ForceEOF t = Token.ForceEOF t0 -> scans t0 (scan_default fuel ch t).
Proof.
  intros Hne H. unfold scan_default. rewrite (proj2 (Z.eqb_neq _ _) Hne).
  repeat case_match;
    first [apply scanNumber_scans | apply scanCommentType1_scans | apply scanCommentType2_scans | apply scanString_scans | switch_side];
    try done; autorewrite with switch; congruence.
Qed.

(** [Scan] answers [TEOF] at the end of the text, or when it is told to. *)
Lemma Scan_end t typ v t' : tkn_wf t -> Scan t = Ok (typ, v, t') ->
  Token.ForceEOF t' = Token.ForceEOF t /\ (typ = TEOF -> Token.ForceEOF t = false -> remaining t' = 0%nat).
Proof.
  intros Hwf. unfold Scan, Scan_fuel. destruct (Token.ForceEOF t) eqn:Hforce; [intros [= <- <- <-]; done|].
  set (t0 := if lastChar t =? 0 then next t else t).
  assert (tkn_wf t0 /\ Token.ForceEOF t0 = false) as [Hwf0 H0]
    by (subst t0; case_if; rewrite ?next_switch; split; try done; apply next_wf).
  assert (forall fuel t1 t2, tkn_wf t1 -> Token.ForceEOF t1 = false -> skipBlank fuel t1 = Ok t2 -> tkn_wf t2 /\ Token.ForceEOF t2 = false) as Hskip.
  { induction fuel as [|fuel IH]; intros t1 t2 H1 H2; cbn [skipBlank]; [done|].
    case_if; [apply IH; [apply next_wf | by rewrite next_switch] | by intros [= <-]]. }
  intros Hs. apply rbind_Ok_inv in Hs as (t1 & Hb & Hs). destruct (Hskip _ _ _ Hwf0 H0 Hb) as [Hwf1 H1].
  destruct (Z.eq_dec (lastChar t1) EOFCHAR) as [He|He].
  - rewrite He in Hs. cbn in Hs. injection Hs as <- <- <-. rewrite next_switch. split; [done|]. intros _ _.
    pose proof (next_remaining_le t1 Hwf1). unfold remaining at 2 in H. rewrite He in H. cbn in H. lia.
  - match type of Hs with ?c = _ => assert (scans t1 c) as Hc end.
    { repeat case_if; [by apply scanIdentifier_scans | by apply scanNumber_scans | by apply scanBindVar_scans |
        by apply scan_default_scans]. }
    rewrite Hs in Hc. destruct Hc as [Hne Hf]. split; [congruence | done].
Qed.

Lemma Lex_end t typ v t' : tkn_wf t -> Lex t = Ok (typ, v, t') ->
  Token.ForceEOF t' = Token.ForceEOF t /\ (typ = TEOF -> Token.ForceEOF t = false -> remaining t' = 0%nat).
Proof.
  intros Hwf. unfold Lex. intros Hl. apply rbind_Ok_inv in Hl as ([[ty v0] t1] & Hs & Hl).
  apply rbind_Ok_inv in Hl as ([[ty2 v2] t2] & Hl & Hr). injection Hr as <- _ <-.
  change (Token.ForceEOF t2 = Token.ForceEOF t /\ (ty2 = TEOF -> Token.ForceEOF t = false -> remaining t2 = 0%nat)).
  destruct (Scan_spec t Hwf) as (ty' & v' & t1' & Hs' & Hadv). rewrite Hs in Hs'. injection Hs' as <- <- <-.
  pose proof (advanced_wf _ _ _ Hadv) as Hwf1. clear Hadv. pose proof (Scan_end _ _ _ _ Hwf Hs) as Hend. clear Hs Hwf.
  revert ty v0 t1 Hl Hwf1 Hend. generalize (scan_fuel t). intros fuel.
  induction fuel as [|fuel IH]; intros ty v0 t1 Hl Hwf1 Hend; cbn [Lex_loop] in Hl; [done|].
  case_decide; [|by injection Hl as -> -> ->]. destruct (AllowComments t1); [by injection Hl as -> -> ->|].
  apply rbind_Ok_inv in Hl as ([[ty3 v3] t3] & Hs & Hl). destruct Hend as [Hf _].
  destruct (Scan_spec t1 Hwf1) as (ty' & v' & t1' & Hs' & Hadv). rewrite Hs in Hs'. injection Hs' as <- <- <-.
  apply (IH _ _ _ Hl); [by eapply advanced_wf|]. apply (Scan_end _ _ _ _ Hwf1) in Hs. by rewrite <- Hf.
Qed.

(** ** Values of symbols *)

Definition some_wf {A} (wf : A -> bool) (o : option A) : bool :=
  match o with Some a => wf a | None => false end.
Definition opt_wf {A} (wf : A -> bool) (o : option A) : bool :=
  match o with Some a => wf a | None => true end.
Definition any {A} (a : A) : bool := true.

(** The field a nonterminal uses, and what it holds: a part of a statement
    that prints. *)
Definition typed (A : nonterminal) (v : yySymType) : bool :=
  match A with
  | command | insert_statement | update_statement | delete_statement | set_statement | create_statement
  | alter_statement | rename_statement | drop_statement | begin_statement | commit_statement
  | rollback_statement | replace_statement | admin_statement | use_statement | truncate_statement =>
      some_wf statement_wf (yy_statement v)
  | select_statement => some_wf select_wf (yy_selStmt v)
  | select_expression_list => forallb selectexpr_wf (yy_selectExprs v)
  | select_expression => some_wf selectexpr_wf (yy_selectExpr v)
  | expression => some_wf expr_wf (yy_expr v)
  | table_expression_list => forallb tableexpr_wf (yy_tableExprs v)
  | table_expression => some_wf tableexpr_wf (yy_tableExpr v)
  | simple_table_expression => some_wf simpletable_wf (yy_smTableExpr v)
  | dml_table_expression => some_wf any (yy_tableName v)
  | where_expression_opt | having_opt => opt_wf boolexpr_wf (yy_boolExpr v)
  | boolean_expression | condition => some_wf boolexpr_wf (yy_boolExpr v)
  | row_list => some_wf insertrows_wf (yy_insRows v)
  | value | value_expression => some_wf valexpr_wf (yy_valExpr v)
  | tuple => some_wf tuple_wf (yy_tuple v)
  | value_expression_list | group_by_opt => forallb valexpr_wf (yy_valExprs v)
  | tuple_list => forallb tuple_wf (yy_values v)
  | subquery => some_wf select_wf (yy_subquery v)
  | column_name => some_wf any (yy_colName v)
  | case_expression => some_wf valexpr_wf (yy_caseExpr v)
  | when_expression_list => forallb when_wf (yy_whens v)
  | when_expression => some_wf when_wf (yy_when v)
  | value_expression_opt | else_expression_opt => opt_wf valexpr_wf (yy_valExpr v)
  | order_by_opt | order_list => forallb order_wf (yy_orderBy v)
  | order => some_wf order_wf (yy_order v)
  | limit_opt => opt_wf limit_wf (yy_limit v)
  | column_list_opt | column_list => opt_wf (forallb selectexpr_wf) (yy_columns v)
  | on_dup_opt | update_list => opt_wf updateexprs_wf (yy_updateExprs v)
  | update_expression => some_wf (fun u => valexpr_wf (UpdateExpr_Expr u)) (yy_updateExpr v)
  | _ => true
  end.

(** A token only has a type if it is a bind variable. *)
Definition typed_token (n : Z) (v : yySymType) : bool :=
  if n =? 34 then 1 <=? slen (default "" (yy_bytes v)) else true.

Definition typed_symbol (X : symbol) (v : yySymType) : bool :=
  match X with T t => typed_token (token_number t) v | N A => typed A v end.

Lemma typed_symbol_code X Y v : symbol_code X = symbol_code Y -> typed_symbol X v = typed_symbol Y v.
Proof.
  destruct X as [t|A], Y as [t'|B]; cbn [symbol_code typed_symbol]; intros Hc.
  - by rewrite Hc.
  - pose proof (proj2 (token_number_spec t)). pose proof (nt_number_pos B). lia.
  - pose proof (proj2 (token_number_spec t')). pose proof (nt_number_pos A). lia.
  - by rewrite (nt_number_inj A B) by lia.
Qed.

(** Values of the symbols of a production, from [D i] on. *)
Fixpoint typed_all (rhs : list symbol) (D : Z -> yySymType) (i : positive) : Prop :=
  match rhs with
  | [] => True
  | X :: rhs => typed_symbol X (D (Zpos i)) = true /\ typed_all rhs D (Pos.succ i)
  end.

(** ** Actions *)

(** The text is left alone. *)
Definition same_text (t t' : Tokenizer) : Prop :=
  InStream t' = InStream t /\ lastChar t' = lastChar t /\ Position t' = Position t /\ posVarIndex t' = posVarIndex t.

Definition action_ok (n : Z) (A : nonterminal) (rhs : list symbol) : Prop :=
  forall l D V, typed_all rhs D 1 -> (rhs <> [] -> V = D 1) ->
    (exists l' v, action l D V n = Ok (Val l' v) /\ typed A v = true /\ same_text (tokenizer l) (tokenizer l') /\
       Token.ForceEOF (tokenizer l') = (if n =? 216 then true else Token.ForceEOF (tokenizer l)) /\
       (if n =? 1 then exists s, ParseTree l' = Some s /\ statement_wf s = true
        else ParseTree l' = ParseTree l)) \/
    (exists msg, (msg = "expecting share" \/ msg = "expecting mode") /\ action l D V n = Ok (Return1 (lexer_Error l msg))).

Lemma select_Statement_wf s : statement_wf (select_Statement s) = select_wf s.
Proof. by destruct s. Qed.
Lemma Tuple_ValExpr_wf t : valexpr_wf (Tuple_ValExpr t) = tuple_wf t.
Proof. by destruct t. Qed.

Lemma set_columns_wf l : forallb selectexpr_wf (set_columns l) = true.
Proof. by induction l. Qed.
Lemma set_values_wf l : updateexprs_wf l = true -> forallb valexpr_wf (set_values l) = true.
Proof. unfold updateexprs_wf. induction l as [|u l IH]; cbn; [done|]. rewrite !andb_true_iff. intros [? ?]. auto. Qed.
Lemma unary_wf op e : valexpr_wf e = true -> valexpr_wf (unary op e) = true.
Proof. intros H. destruct e; cbn; try done. by repeat case_if. Qed.
Lemma list_of_wf {A} (wf : A -> bool) o : opt_wf (forallb wf) o = true -> forallb wf (list_of o) = true.
Proof. by destruct o. Qed.
Lemma same_text_refl t : same_text t t.
Proof. done. Qed.

(** The values of the symbols, taken apart; the action, run on them. *)
Ltac open_values :=
  repeat match goal with
  | H : _ /\ _ |- _ => destruct H
  | H : some_wf _ ?o = true |- _ => destruct o eqn:?; [cbn [some_wf any] in H | discriminate H]
  end.
Ltac use_values :=
  repeat match goal with H : ?o = Some _ |- context [?o] => rewrite H end.
Ltac run_action :=
  let H := fresh in let HV := fresh in
  intros l D V H HV;
  lazy beta iota zeta delta [typed_all typed_symbol typed Pos.succ] in H;
  open_values; try (rewrite HV by discriminate); clear HV; left; do 2 eexists; split;
  [ cbn [action Z.leb Z.compare Pos.compare Pos.compare_cont act_command act_session act_select act_table
         act_bool act_value act_clause act_end];
    unfold binary, bools, vals, in_tuple, range; use_values; reflexivity | ].

(** What an action has built is well formed because its parts are. *)
Lemma forallb_snoc {A} (f : A -> bool) l x : forallb f (l ++ [x]) = forallb f l && f x.
Proof. rewrite forallb_app. cbn. by rewrite andb_true_r. Qed.

Create Rewrite HintDb wf.
#[export] Hint Rewrite @forallb_snoc andb_true_iff select_Statement_wf Tuple_ValExpr_wf set_columns_wf : wf.
#[export] Hint Resolve set_values_wf unary_wf list_of_wf : wf.
Ltac built :=
  split_and!; cbn; first [exact eq_refl | apply same_text_refl | idtac];
  repeat match goal with H : opt_wf _ ?o = true |- _ => destruct o; cbn in H end;
  cbn; use_values; cbn; autorewrite with wf; split_and?; first [done | by auto with wf | by eauto].

Definition actions_ok (n : Z) (l : list (nonterminal * list symbol)) : Prop :=
  Forall (fun p => action_ok p.1 p.2.1 p.2.2) (zip (seqZ n (Z.of_nat (length l))) l).

Ltac each_action :=
  unfold actions_ok; let l := fresh in set (l := zip _ _); vm_compute in l; subst l;
  repeat apply Forall_cons_2; try apply Forall_nil_2; cbn [fst snd].

Lemma statements_actions : actions_ok 1 statements.
Proof. each_action. all: run_action; built. Qed.

Lemma selects_actions : actions_ok 49 selects.
Proof. each_action. all: run_action; built. Qed.
Lemma booleans_actions : actions_ok 99 booleans.
Proof. each_action. all: run_action; built. Qed.
Lemma values_actions : actions_ok 123 values_.
Proof. each_action. all: run_action; built. Qed.

(** [lock in share mode] is the only action that can refuse. *)
Lemma share_mode_action : action_ok 187 lock_opt [T LOCK; T IN; N sql_id; N sql_id].
Proof.
  intros l D V _ _. cbn [action Z.leb Z.compare Pos.compare Pos.compare_cont act_end].
  destruct (String.eqb (name D 3) SHARE); cbn [negb]; [|right; by eauto].
  destruct (String.eqb (name D 4) MODE); cbn [negb]; [|right; by eauto].
  left. do 2 eexists. split; [reflexivity|]. done.
Qed.

Lemma clauses_actions : actions_ok 169 clauses.
Proof. each_action. 19: exact share_mode_action. all: run_action; built. Qed.

Lemma actions_at n l i p :
  actions_ok n l -> l !! i = Some p -> action_ok (n + Z.of_nat i) p.1 p.2.
Proof.
  intros H Hi. refine (Forall_lookup_1 _ _ i (n + Z.of_nat i, p) H _).
  apply lookup_zip_Some. split; [|done]. apply lookup_seqZ.
  apply lookup_lt_Some in Hi. lia.
Qed.

Lemma actions_all : actions_ok 1 grammar.
Proof.
  unfold grammar, actions_ok.
  assert (forall n l1 l2, actions_ok n l1 -> actions_ok (n + Z.of_nat (length l1)) l2 -> actions_ok n (l1 ++ l2)) as Happ.
  { intros n l1 l2 H1 H2. unfold actions_ok in *. rewrite length_app, Nat2Z.inj_add.
    rewrite seqZ_app by lia. rewrite zip_with_app by (rewrite length_seqZ; lia). apply Forall_app. done. }
  apply (Happ _ _ _ statements_actions), (Happ _ _ _ selects_actions), (Happ _ _ _ booleans_actions),
    (Happ _ _ _ values_actions), clauses_actions.
Qed.
