(* ===== verification/ParserTheorems.v ===== *)
(** * The parser answers, and answers by the grammar

    The stack holds, for each symbol that was read, a state, a value of the
    symbol's type and the tokens the symbol derives. *)
From S2P Require Import Prelude Errors GoLib SqlTypes Token Ast YyTables YyActions YyParse Grammar YyCert ParserFacts.
Open Scope Z_scope.
Import Yacc.
Import NT.

(** ** What is read from a text

    [reads t toks t']: calls of [Lex] answer [toks]; between them the
    parser leaves the text alone, and only sets the tokenizer's error, the
    switch that hands comments over, and [ForceEOF], never back. *)
Inductive reads (t : Tokenizer) : list tok -> Tokenizer -> Prop :=
| reads_start : reads t [] t
| reads_switch toks t1 t2 :
    reads t toks t1 -> same_text t1 t2 -> (Token.ForceEOF t1 = true -> Token.ForceEOF t2 = true) -> reads t toks t2
| reads_token toks t1 typ v t2 : reads t toks t1 -> Lex t1 = Ok (typ, v, t2) -> reads t (toks ++ [typ]) t2.

Lemma same_text_wf t t' : same_text t t' -> tkn_wf t -> tkn_wf t'.
Proof. intros (Hi & Hc & _). unfold tkn_wf. by rewrite Hi, Hc. Qed.
Lemma same_text_remaining t t' : same_text t t' -> remaining t' = remaining t.
Proof. intros (Hi & Hc & _). unfold remaining. by rewrite Hi, Hc. Qed.

(** The tokens are such as [Lex] makes; [TEOF], when it was not forced, says
    that nothing of the text is left. *)
Lemma reads_end t toks t' : tkn_wf t -> reads t toks t' ->
  tkn_wf t' /\ Forall (fun typ => exists v, token_ok typ v) toks /\
  (last toks = Some TEOF -> Token.ForceEOF t' = false -> remaining t' = 0%nat).
Proof.
  intros Hwf. induction 1 as [|toks t1 t2 _ (Hwf1 & Hok & IH) Hsame Hforce|toks t1 typ v t2 _ (Hwf1 & Hok & _) HL]; [done|..].
  - split; [by apply (same_text_wf t1)|]. split; [done|]. intros Hl H2. rewrite (same_text_remaining _ _ Hsame).
    apply (IH Hl). destruct (Token.ForceEOF t1); [|done]. by rewrite Hforce in H2.
  - destruct (Lex_consumes t1 Hwf1) as (typ' & v' & t2' & HL' & Hwf2 & _ & Htok).
    rewrite HL in HL'. injection HL' as <- <- <-. split; [done|]. split.
    + apply Forall_app. split; [done|]. constructor; [by exists v | constructor].
    + rewrite last_snoc. intros [= ->] H2. destruct (Lex_end _ _ _ _ Hwf1 HL) as [Hf Hend]. apply Hend; congruence.
Qed.

(** ** Definitions of tables and views

    Only their productions end in [force_eof], and [force_eof] is reduced
    only where one of them has read all but this symbol. *)
Definition definition_tokens : list tok := [CREATE; ALTER; DROP].
Definition starts_definition (toks : list tok) : Prop := exists typ rest, toks = typ :: rest /\ typ ∈ definition_tokens.

Definition definition_item (r d : Z) : bool :=
  (1 <=? d) && match get Rules r with
               | Some (A, c :: _) => mem A (map nt_number [create_statement; alter_statement; drop_statement]) &&
                                     mem c (map token_number definition_tokens)
               | _ => false
               end.

Lemma force_eof_states s : 0 <= s < n_states -> mem (nt_number force_eof) (starting s) = true ->
  exists r d, item s r d = true /\ definition_item r d = true.
Proof.
  intros Hs Hm.
  assert (check_range (fun s => negb (mem (nt_number force_eof) (starting s)) ||
            existsb (fun rd => item s rd.1 rd.2 && definition_item rd.1 rd.2) (kernel s)) (Z.to_nat n_states) 0 = true) as Hc
    by (vm_compute; reflexivity).
  pose proof (check_range_all _ _ 0 s Hc ltac:(unfold n_states in *; lia)) as H. cbv beta in H. rewrite Hm in H.
  cbn [negb orb] in H. apply existsb_exists in H as ([r d] & _ & H). apply andb_true_iff in H as [? ?]. by exists r, d.
Qed.

Lemma definition_states s A : 0 <= s < n_states -> mem A (starting s) = true ->
  mem A (map nt_number [create_statement; alter_statement; drop_statement]) = true -> s = 0.
Proof.
  intros Hs Hm HA.
  assert (check_range (fun s => negb (existsb (fun A => mem A (starting s))
            (map nt_number [create_statement; alter_statement; drop_statement]))) (Z.to_nat (n_states - 1)) 1 = true) as Hc
    by (vm_compute; reflexivity).
  destruct (Z.eq_dec s 0) as [|H0]; [done|]. exfalso.
  pose proof (check_range_all _ _ 1 s Hc ltac:(unfold n_states in *; lia)) as H. cbv beta in H.
  apply negb_true_iff, not_true_iff_false in H. apply H, existsb_exists. exists A. split; [|done].
  unfold mem at 1 in HA. apply existsb_exists in HA as (B & HB & ->%Z.eqb_eq). done.
Qed.

(** No other token has the number of one of the three. *)
Lemma definition_token typ v : token_ok typ v -> mem (token_number typ) (map token_number definition_tokens) = true ->
  typ ∈ definition_tokens.
Proof.
  intros Hok Hm.
  assert (check_range (fun c => negb (mem (token_number (TChar c)) (map token_number definition_tokens)))
            (Z.to_nat 125) 2 = true) as Hc by (vm_compute; reflexivity).
  destruct typ; try (vm_compute in Hm; discriminate Hm); try (unfold definition_tokens; set_solver).
  exfalso. cbn in Hok. pose proof (check_range_all _ 125 2 c Hc ltac:(lia)) as Hr. cbv beta in Hr. by rewrite Hm in Hr.
Qed.

(** ** The stack, its top first *)

(** A symbol with its value and the numbers of its tokens. *)
Definition entry (v : yySymType) (w : list Z) : Prop :=
  exists X, get Chk (yys v) = Some (symbol_code X) /\ typed_symbol X v = true /\ derives X w.

Inductive stack : list yySymType -> list (list Z) -> Prop :=
| stack_bottom v : yys v = 0 -> stack [v] []
| stack_push v u st w ws c :
    stack (u :: st) ws -> check_edge (yys u) (yys v) c = true -> entry v w -> stack (v :: u :: st) (w :: ws).

Lemma typed_set_yys A s v : typed A (set_yys s v) = typed A v.
Proof. by destruct A. Qed.
Lemma typed_symbol_set_yys X s v : typed_symbol X (set_yys s v) = typed_symbol X v.
Proof. destruct X; [done | apply typed_set_yys]. Qed.

Lemma entry_symbol v w X :
  entry v w -> get Chk (yys v) = Some (symbol_code X) -> typed_symbol X v = true /\ derives X w.
Proof.
  intros (Y & Hc & Ht & Hd) Hx. rewrite Hc in Hx. injection Hx as Hx.
  split; [by rewrite <- (typed_symbol_code Y X v Hx) | by apply (derives_code Y)].
Qed.

(** A state that has read [d] symbols of a production has them on top of
    the stack, on a state that can start the production's left-hand side. *)
Lemma stack_items d r st ws v A rhs :
  stack (v :: st) ws -> item (yys v) r (Z.of_nat d) = true -> get Rules r = Some (A, rhs) ->
  exists l1 u l2 ws1 ws2, v :: st = l1 ++ u :: l2 /\ ws = ws1 ++ ws2 /\ length l1 = d /\
    stack (u :: l2) ws2 /\ mem A (starting (yys u)) = true /\ Forall2 entry l1 ws1 /\
    Forall2 (fun x c => get Chk (yys x) = Some c) (rev l1) (take d rhs).
Proof.
  revert st ws v. induction d as [|d IH]; intros st ws v Hst Hi Hr.
  - exists [], v, st, [], ws. split_and!; try done; [|by constructor..].
    unfold item in Hi. rewrite Hr in Hi. by destruct (Z.eqb_spec (Z.of_nat 0) 0).
  - inversion Hst as [v' Hv|v' u st' w ws' c Hst' Hedge Hentry]; subst.
    + exfalso. rewrite Hv in Hi. unfold item in Hi. rewrite Hr in Hi. revert Hi.
      change (kernel 0) with (@nil (Z * Z)). destruct (Z.eqb_spec (Z.of_nat (S d)) 0); [lia | done].
    + destruct (edge_parts _ _ _ Hedge) as (Hc & _ & _ & Hitems).
      destruct (Hitems r (Z.of_nat (S d))) as (Hi' & A' & rhs' & Hr' & Hx); [lia | done|].
      rewrite Hr in Hr'. injection Hr' as <- <-.
      replace (Z.of_nat (S d) - 1) with (Z.of_nat d) in Hi', Hx by lia.
      destruct (IH st' ws' u Hst' Hi' Hr) as (l1 & u' & l2 & ws1 & ws2 & He & -> & Hl & Hs & Hm & Hf & Hc').
      exists (v :: l1), u', l2, (w :: ws1), ws2. split_and!; try done.
      * by rewrite He.
      * cbn. by rewrite Hl.
      * by constructor.
      * apply index_range_Some in Hx as [_ Hx]. rewrite Nat2Z.id in Hx.
        cbn [rev]. rewrite (take_S_r _ _ _ Hx). apply Forall2_app; [done|]. by constructor.
Qed.

Lemma stack_state v st ws : stack (v :: st) ws -> 0 <= yys v < n_states /\ 0 <= rank (yys v) <= 17.
Proof.
  inversion 1 as [v' Hv|v' u st' w ws' c Hst Hedge]; subst.
  - rewrite Hv. vm_compute. by intuition.
  - apply edge_parts in Hedge as (_ & ? & ? & _). done.
Qed.

Lemma bottom_state u l ws : stack (u :: l) ws -> yys u = 0 -> l = [] /\ ws = [].
Proof.
  inversion 1 as [v' Hv|v' u' st' w ws' c Hst' _ (X & Hc & _)]; subst; [done|]. intros H0. exfalso.
  rewrite H0 in Hc. change (get Chk 0) with (Some (-1000)) in Hc. injection Hc as Hc.
  destruct X as [t|A]; cbn [symbol_code] in Hc.
  - pose proof (proj2 (token_number_spec t)). lia.
  - destruct A; cbn in Hc; lia.
Qed.

Lemma Forall2_rev {A B} (P : A -> B -> Prop) l k : Forall2 P l k -> Forall2 P (rev l) (rev k).
Proof. induction 1; cbn [rev]; [constructor|]. apply Forall2_app; [done|]. by constructor. Qed.

(** Where [force_eof] can be reduced, the first token is one of the three. *)
Lemma forced_start v st ws toks :
  stack (v :: st) ws -> mem (nt_number force_eof) (starting (yys v)) = true ->
  concat (rev ws) = token_number <$> toks -> Forall (fun typ => exists v, token_ok typ v) toks -> starts_definition toks.
Proof.
  intros Hst Hm Hws Hok. destruct (stack_state _ _ _ Hst) as [Hs _].
  destruct (force_eof_states _ Hs Hm) as (r & d & Hitem & Hdef). unfold definition_item in Hdef.
  apply andb_true_iff in Hdef as [Hd Hdef]. destruct (get Rules r) as [[A [|c rhs]]|] eqn:Hr; [done| |done].
  apply andb_true_iff in Hdef as [HA Hc].
  destruct (stack_items (Z.to_nat d) r st ws v A (c :: rhs) Hst) as (l1 & u & l2 & ws1 & ws2 & _ & -> & Hl & Hst2 & Hmu & He & Hchk);
    [by rewrite Z2Nat.id by lia | done |].
  destruct (stack_state u l2 ws2 Hst2) as [Hu _]. pose proof (definition_states _ _ Hu Hmu HA) as Hu0.
  destruct (bottom_state _ _ _ Hst2 Hu0) as [-> ->]. rewrite app_nil_r in Hws.
  destruct (Z.to_nat d) as [|d'] eqn:Hd'; [lia|]. cbn [take] in Hchk. apply Forall2_rev in He.
  apply Forall2_cons_inv_r in Hchk as (x & xs & Hx & _ & Hrev). rewrite Hrev in He.
  apply Forall2_cons_inv_l in He as (w & ws & (X & HX & _ & HD) & _ & Hwr). rewrite Hwr in Hws. clear Hwr.
  rewrite Hx in HX. injection HX as ->. destruct X as [t|B].
  - inversion HD; subst. cbn [symbol_code] in Hc. destruct toks as [|typ toks]; [done|]. cbn in Hws. injection Hws as Ht _.
    apply Forall_cons_1 in Hok as [[v0 Hok] _]. rewrite Ht in Hc. exists typ, toks. split; [done|]. by eapply definition_token.
  - exfalso. cbn [symbol_code] in Hc. pose proof (nt_number_pos B). unfold mem in Hc. apply existsb_exists in Hc as (k & Hk & Hkk%Z.eqb_eq).
    apply in_map_iff in Hk as (t & Ht & _). pose proof (proj2 (token_number_spec t)). lia.
Qed.

(** All of a production's symbols: their values are typed and what they
    derive derives its left-hand side. *)
Lemma whole_production xs ys rhs :
  Forall2 entry xs ys -> Forall2 (fun x c => get Chk (yys x) = Some c) xs (map symbol_code rhs) ->
  Forall2 (fun X x => typed_symbol X x = true) rhs xs /\ derives_all rhs (concat ys).
Proof.
  intros Hf. revert rhs. induction Hf as [|x y xs ys He _ IH]; intros rhs Hc.
  - apply Forall2_nil_inv_l in Hc. destruct rhs; [|done]. split; [constructor | constructor].
  - apply Forall2_cons_inv_l in Hc as (c & cs & Hx & Hc & Heq).
    destruct rhs as [|X rhs]; [done|]. cbn in Heq. injection Heq as <- <-.
    destruct (IH rhs Hc) as [Ht Hd]. destruct (entry_symbol x y X He Hx). split; by constructor.
Qed.

Lemma typed_all_values rhs xs D i :
  Forall2 (fun X x => typed_symbol X x = true) rhs xs ->
  (forall k x, xs !! k = Some x -> D (Zpos i + Z.of_nat k) = x) -> typed_all rhs D i.
Proof.
  intros H. revert i. induction H as [|X x rhs xs Hx _ IH]; intros i HD; cbn [typed_all]; [done|].
  split.
  - pose proof (HD 0%nat x eq_refl) as H0. rewrite Z.add_0_r in H0. by rewrite H0.
  - apply IH. intros k y Hk. pose proof (HD (S k) y Hk) as HS.
    replace (Zpos (Pos.succ i) + Z.of_nat k) with (Zpos i + Z.of_nat (S k)) by lia. done.
Qed.

(** ** The state between two labels *)

(** The live part of [yyS]. *)
Definition holds (p : parser) (st : list yySymType) : Prop :=
  take (length st) (yyS p) = rev st /\ Z.of_nat (length st) = yyp p + 1 /\ (length st <= length (yyS p))%nat /\
  (0 < length (yyS p))%nat.

(** The lookahead token, if there is one. *)
Definition lookahead (p : parser) (ahead : list tok) : Prop :=
  match ahead with
  | [] => char p = -1
  | [typ] => char p = tok_code typ /\ 0 <= char p /\ yytoken p = token_number typ /\
             (yytoken p = yyEofCode -> typ = TEOF) /\ typed_token (yytoken p) (lval p) = true
  | _ => False
  end.

Definition parsed (l : lexer) : Prop := exists s, ParseTree l = Some s /\ statement_wf s = true.

Record running (sql : string) (p : parser) (toks ahead : list tok) : Prop := {
  run_wf : tkn_wf (tokenizer (lx p));
  run_reads : reads (NewStringTokenizer sql) (toks ++ ahead) (tokenizer (lx p));
  run_ahead : lookahead p ahead;
  run_errors : Errflag p = 0;
  run_parsed : yystate p = 1 -> parsed (lx p);
  run_forced : Token.ForceEOF (tokenizer (lx p)) = true -> starts_definition toks }.

(** At [yystack] the state and the value are still to be pushed. *)
Definition Inv (sql : string) (l : label) (p : parser) : Prop :=
  exists st ws toks ahead,
    running sql p toks ahead /\ holds p st /\ concat (rev ws) = token_number <$> toks /\
    match l with
    | yystack => stack (set_yys (yystate p) (yyVAL p) :: st) ws
    | yynewstate => stack st ws /\ exists v st', st = v :: st' /\ yys v = yystate p
    | ret _ => False
    end.

Definition accepted (sql : string) (p : parser) : Prop :=
  exists toks, reads (NewStringTokenizer sql) (toks ++ [TEOF]) (tokenizer (lx p)) /\
    derives (N any_command) (token_number <$> toks) /\ parsed (lx p) /\
    (Token.ForceEOF (tokenizer (lx p)) = true -> starts_definition toks).

Definition refused (p : parser) : Prop :=
  exists t msg, (msg = "syntax error" \/ msg = "expecting share" \/ msg = "expecting mode") /\
    tokenizer (lx p) = Tokenizer_Error t msg.

(** ** Progress *)

(** Input that is left, the lookahead token included. *)
Definition input (p : parser) : Z :=
  Z.of_nat (remaining (tokenizer (lx p))) + (if (0 <=? char p) && negb (yytoken p =? yyEofCode) then 1 else 0).

Definition progress (l : label) (p : parser) : Z :=
  match l with
  | yystack => 2 * (20 * input p + yyp p + 2 + rank (yystate p)) + 1
  | yynewstate => 2 * (20 * input p + yyp p + 1 + rank (yystate p))
  | ret _ => 0
  end.

(** What a step from [p] comes to, with less than [n] steps left. *)
Definition goes_on (sql : string) (n : Z) (m : res yy_error (label * parser)) : Prop :=
  exists l p, m = Ok (l, p) /\
    match l with
    | ret r => r = 0 /\ accepted sql p \/ r = 1 /\ refused p
    | _ => Inv sql l p /\ progress l p < n
    end.

(** ** Reading *)

Lemma lookahead_input p ahead : lookahead p ahead ->
  input p = Z.of_nat (remaining (tokenizer (lx p))) +
    match ahead with [typ] => if decide (typ = TEOF) then 0 else 1 | _ => 0 end.
Proof.
  unfold input. destruct ahead as [|typ [|]]; [intros ->; done| |done].
  intros (Hc & H0 & Ht & He & _). f_equal.
  replace (0 <=? char p) with true by lia. cbn [andb].
  destruct (Z.eqb_spec (yytoken p) yyEofCode) as [H|H]; cbn [negb].
  - by rewrite decide_True by auto.
  - rewrite decide_False; [done|]. intros ->. apply H. rewrite Ht. done.
Qed.

(** [read] leaves everything but the lookahead, and consumes input. *)
Lemma read_ok sql p toks ahead :
  running sql p toks ahead ->
  exists typ p', read p = Ok p' /\ running sql p' toks [typ] /\ input p' <= input p /\
    yyS p' = yyS p /\ yyp p' = yyp p /\ yyVAL p' = yyVAL p /\ yystate p' = yystate p.
Proof.
  intros [Hwf Hr Ha He Hp Hf]. unfold read. destruct ahead as [|typ [|]]; [| |done].
  - cbn in Ha. rewrite Ha. change (-1 <? 0) with true. cbv iota.
    destruct (Lex_consumes _ Hwf) as (typ & v & t & HL & Hwf' & Hrem & Htok).
    destruct (token_number_spec typ) as [Hn _]. destruct (token_ok_code typ v Htok) as (H0 & Heof & Hva).
    unfold yylex1, lexer_Lex. rewrite HL. cbn [rbind]. rewrite Hn. cbn [rbind].
    set (p' := mkParser _ _ _ _ _ _ _ _ _ _). exists typ, p'.
    assert (lookahead p' [typ]) as Ha'.
    { cbn. split_and!; try done. unfold typed_token. case_if as H34; [|done].
      cbn in H34. apply Z.eqb_eq, Hva in H34 as ->. destruct Htok as (b & -> & Hb). cbn. lia. }
    split; [done|]. split.
    { constructor; cbn; try done; [rewrite app_nil_r in Hr; by econstructor|].
      by rewrite (proj1 (Lex_end _ _ _ _ Hwf HL)). }
    split; [|done]. rewrite (lookahead_input _ _ Ha'), (lookahead_input p [] Ha). cbn. case_decide; lia.
  - exists typ, p. destruct Ha as (Hc & H0 & Ha). replace (char p <? 0) with false by lia.
    split; [done|]. split; [by constructor | done].
Qed.

(** ** Pushing *)

Lemma length_grow i l : (length l <= length (grow i l))%nat.
Proof. unfold grow. case_if; [|done]. rewrite length_app. lia. Qed.

Lemma take_grow n i l : (n <= length l)%nat -> take n (grow i l) = take n l.
Proof. intros H. unfold grow. case_if; [|done]. by rewrite take_app_le. Qed.

(** Room for one more entry than there are. *)
Lemma grow_room n i l :
  (n <= length l)%nat -> (0 < length l)%nat -> i = Z.of_nat n -> (n < length (grow i l))%nat.
Proof.
  intros Hn H0 ->. unfold grow. destruct (Z.leb_spec (Z.of_nat (length l)) (Z.of_nat n)); [|lia].
  rewrite length_app, length_replicate. lia.
Qed.

Lemma push_ok sql p : Inv sql yystack p -> goes_on sql (progress yystack p) (step yystack p).
Proof.
  intros (st & ws & toks & ahead & Hrun & (Htake & Hlen & Hle & H0) & Hws & Hst).
  set (v := set_yys (yystate p) (yyVAL p)) in *.
  pose proof (grow_room (length st) (yyp p + 1) (yyS p) Hle H0 ltac:(lia)) as Hroom.
  unfold step, push, store. fold v.
  replace ((0 <=? yyp p + 1) && (yyp p + 1 <? Z.of_nat (length (grow (yyp p + 1) (yyS p))))) with true by lia.
  cbn [rbind]. set (p' := mkParser _ _ _ _ _ _ _ _ _ _).
  exists yynewstate, p'. split; [done|]. split.
  - exists (v :: st), ws, toks, ahead. split_and!; try done; [by destruct Hrun| |by exists v, st].
    unfold holds. cbn [length yyS yyp p']. rewrite length_insert. split_and!; try lia.
    replace (Z.to_nat (yyp p + 1)) with (length st) by lia.
    rewrite (take_S_r _ _ v) by (apply list_lookup_insert_eq; lia).
    rewrite take_insert_ge by lia. by rewrite take_grow, Htake by done.
  - unfold progress, p', input. cbn. lia.
Qed.

(** ** Errors *)

(** No state shifts the error token, so every state is popped. *)
Lemma no_error_shift s base :
  0 <= s < n_states -> get Pact s = Some base -> 0 <= base + yyErrCode < yyLast ->
  exists q c, get Act (base + yyErrCode) = Some q /\ get Chk q = Some c /\ c <> yyErrCode.
Proof.
  intros Hs Hb Hi. destruct (state_parts s Hs) as (_ & _ & Hsh).
  specialize (Hsh yyErrCode ltac:(unfold yyErrCode; lia)). unfold check_shift in Hsh. rewrite Hb in Hsh.
  cbn zeta in Hsh.
  replace ((base <=? yyFlag) || (base + yyErrCode <? 0) || (yyLast <=? base + yyErrCode)) with false in Hsh
    by (unfold yyFlag, yyErrCode in *; lia).
  destruct (get Act _) as [q|]; [|done]. destruct (get Chk q) as [c|] eqn:Hc; [|done].
  exists q, c. split_and!; try done. intros ->. rewrite Z.eqb_refl in Hsh. by rewrite !andb_false_r in Hsh.
Qed.

Lemma stack_pact v st ws : stack (v :: st) ws -> exists base, get Pact (yys v) = Some base.
Proof.
  intros [Hs _]%stack_state. destruct (state_parts _ Hs) as (_ & _ & Hsh).
  specialize (Hsh 1 ltac:(lia)). unfold check_shift in Hsh.
  destruct (get Pact (yys v)) as [base|]; [by exists base | done].
Qed.

Lemma holds_top p v st : holds p (v :: st) -> at_ (E := yy_error) (yyS p) (yyp p) = Ok v.
Proof.
  intros (Htake & Hlen & Hle & _). apply at_Ok. cbn [length] in Hlen. split; [lia|].
  replace (Z.to_nat (yyp p)) with (length st) by lia.
  rewrite <- (lookup_take_lt _ (length (v :: st))) by (cbn; lia). rewrite Htake. cbn [rev].
  rewrite lookup_app_r by (rewrite length_rev; lia). rewrite length_rev, Nat.sub_diag. done.
Qed.

Lemma holds_pop p v st p' :
  holds p (v :: st) -> yyS p' = yyS p -> yyp p' = yyp p - 1 -> holds p' st.
Proof.
  intros (Htake & Hlen & Hle & H0) HS Hp. unfold holds. rewrite HS, Hp. cbn [length rev] in *.
  split_and!; try lia. replace (take (length st) (yyS p)) with (take (length st) (take (S (length st)) (yyS p)))
    by (rewrite take_take; f_equal; lia). rewrite Htake.
  rewrite take_app_le by (rewrite length_rev; lia). apply take_ge. by rewrite length_rev.
Qed.

Lemma unwind_ok st ws p :
  stack st ws -> holds p st -> exists p', unwind (length st) p = Ok (ret 1, p') /\ lx p' = lx p.
Proof.
  revert ws p. induction st as [|v st IH]; intros ws p Hst Hh; [by inversion Hst|].
  destruct (table_lookups) as (HPact & HAct & HChk & _).
  destruct (stack_pact v st ws Hst) as [base Hb]. destruct (stack_state v st ws Hst) as [Hs _].
  cbn [length unwind]. rewrite (holds_top p v st Hh). cbn [rbind]. rewrite HPact, Hb. cbn [rbind].
  assert (forall q, exists p', unwind (length st)
    (mkParser (lx p) (char p) (yytoken p) (lval p) (yyS p) (yyp p - 1) (yyVAL p) q (Nerrs p) (Errflag p)) = Ok (ret 1, p') /\
    lx p' = lx p) as Hpop.
  { intros q. set (p0 := mkParser _ _ _ _ _ _ _ _ _ _).
    assert (holds p0 st) as Hh0 by (by apply (holds_pop p v)).
    inversion Hst as [v' Hv|v' u st' w ws' c Hst' _ _]; subst; [by exists p0|].
    by apply (IH ws' p0). }
  case_if as Hi; [|apply Hpop].
  destruct (no_error_shift (yys v) base Hs Hb ltac:(lia)) as (q & c & Hq & Hc & Hne).
  rewrite HAct, Hq. cbn [rbind]. rewrite HChk, Hc. cbn [rbind].
  destruct (Z.eqb_spec c yyErrCode); [done|]. apply Hpop.
Qed.

Lemma syntax_error_ok sql n p toks ahead st ws :
  running sql p toks ahead -> holds p st -> stack st ws -> goes_on sql n (syntax_error p).
Proof.
  intros Hrun Hh Hst. unfold syntax_error. rewrite (run_errors _ _ _ _ Hrun). cbn [Z.eqb].
  unfold report, yyErrorMessage, yyErrorVerbose. cbn [negb rbind]. unfold recover. cbn [yyp].
  destruct Hh as (Htake & Hlen & Hle & H0). replace (Z.to_nat (yyp p + 1)) with (length st) by lia.
  set (p' := mkParser _ _ _ _ _ _ _ _ _ _).
  destruct (unwind_ok st ws p' Hst) as (p1 & -> & Hlx); [done|].
  exists (ret 1), p1. split; [done|]. right. split; [done|].
  exists (tokenizer (lx p)), "syntax error". split; [by left | by rewrite Hlx].
Qed.

(** ** Reductions *)

Lemma goes_on_le sql n n' m : goes_on sql n m -> n <= n' -> goes_on sql n' m.
Proof. intros (l & p & -> & H) Hn. exists l, p. split; [done|]. destruct l; [intuition lia..|done]. Qed.

(** Only production 1 makes the start symbol. *)
Lemma start_production n rhs : 1 <= n <= 218 -> get Rules n = Some (1, rhs) -> n = 1.
Proof.
  intros Hn Hr.
  assert (check_range (fun n => match get Rules n with Some (A, _) => negb (A =? 1) | None => true end)
            (Z.to_nat 217) 2 = true) as Hc by (vm_compute; reflexivity).
  destruct (Z.eq_dec n 1); [done|].
  pose proof (check_range_all _ 217 2 n Hc ltac:(lia)) as H. cbv beta in H. by rewrite Hr in H.
Qed.

(** The part of [yyS] that a reduction looks at. *)
Lemma reduced_slots p l1 u l2 :
  holds p (l1 ++ u :: l2) -> let S2 := grow (Z.of_nat (S (length l2))) (yyS p) in
  take (S (length l2)) S2 = rev (u :: l2) /\ (S (length l2) < length S2)%nat /\
  (length (yyS p) <= length S2)%nat /\
  slice (E := yy_error) S2 (Z.of_nat (length l2)) (yyp p + 1) = Ok (u :: rev l1) /\
  (l1 <> [] -> S2 !! S (length l2) = rev l1 !! 0%nat).
Proof.
  intros (Htake & Hlen & Hle & H0) S2. rewrite length_app in *. cbn [length] in *.
  assert (take (length l1 + S (length l2)) S2 = rev l2 ++ u :: rev l1) as HS2.
  { unfold S2. rewrite take_grow by done. rewrite Htake, rev_app_distr. cbn [rev]. by rewrite <- app_assoc. }
  split_and!.
  - replace (take (S (length l2)) S2) with (take (S (length l2)) (take (length l1 + S (length l2)) S2))
      by (rewrite take_take; f_equal; lia).
    rewrite HS2. cbn [rev]. rewrite cons_middle, app_assoc, take_app_le by (rewrite length_app, length_rev; cbn; lia).
    apply take_ge. rewrite length_app, length_rev. cbn. lia.
  - apply grow_room; lia.
  - apply length_grow.
  - pose proof (length_grow (Z.of_nat (S (length l2))) (yyS p)). fold S2 in H. unfold slice.
    replace ((0 <=? Z.of_nat (length l2)) && (Z.of_nat (length l2) <=? yyp p + 1) &&
             (yyp p + 1 <=? Z.of_nat (length S2))) with true by lia.
    f_equal. rewrite Nat2Z.id. replace (Z.to_nat (yyp p + 1 - Z.of_nat (length l2))) with (S (length l1)) by lia.
    rewrite take_drop_commute. replace (length l2 + S (length l1))%nat with (length l1 + S (length l2))%nat by lia.
    rewrite HS2. rewrite drop_app_ge by (rewrite length_rev; lia). by rewrite length_rev, Nat.sub_diag.
  - intros Hne. rewrite <- (lookup_take_lt _ (length l1 + S (length l2))) by (destruct l1; [done | cbn; lia]).
    rewrite HS2, lookup_app_r by (rewrite length_rev; lia). by rewrite length_rev, Nat.sub_succ_l, Nat.sub_diag by lia.
Qed.

Lemma goto_ok s A : 0 <= s < n_states -> mem (nt_number A) (starting s) = true ->
  exists q, fast_goto (nt_number A) s = Some q /\ goto (nt_number A) s = Ok q /\
    check_edge s q (- nt_number A) = true /\ rank q <= target_rank (nt_number A) /\ (q = 1 -> nt_number A = 1).
Proof.
  intros Hs Hm. destruct (state_parts s Hs) as (_ & Hg & _). specialize (Hg _ Hm). unfold check_goto in Hg.
  pose proof (nt_number_pos A). destruct (Z.eqb_spec (nt_number A) 0); [lia|].
  rewrite goto_fast. destruct (fast_goto _ s) as [q|]; [|done].
  exists q. rewrite !andb_true_iff in Hg. destruct Hg as [[? ?] H1]. split_and!; try done; [lia|].
  intros ->. cbn in H1. lia.
Qed.

(** What a reduction hands to its action, and what follows: [l1] are the
    symbols of the production, [u] is the state below them. *)
Definition dollar (u : yySymType) (l1 : list yySymType) (i : Z) : yySymType :=
  default zero_sym ((u :: rev l1) !! Z.to_nat i).

Lemma reduce_runs n p l1 u l2 A (rhs : list symbol) q :
  holds p (l1 ++ u :: l2) -> length l1 = length rhs ->
  at_ (E := yy_error) yyR1 n = Ok (nt_number A) -> at_ (E := yy_error) yyR2 n = Ok (Z.of_nat (length rhs)) ->
  goto (nt_number A) (yys u) = Ok q ->
  exists V S2, (rhs <> [] -> V = dollar u l1 1) /\
    (forall l c t lv v e n', holds (mkParser l c t lv S2 (Z.of_nat (length l2)) v q e n') (u :: l2)) /\
    reduce n p =
      (let* r := action (lx p) (dollar u l1) V n in
       match r with
       | Val l v => Ok (yystack, mkParser l (char p) (yytoken p) (lval p) S2 (Z.of_nat (length l2)) v q (Nerrs p) (Errflag p))
       | Return1 l => Ok (ret 1, mkParser l (char p) (yytoken p) (lval p) S2 (Z.of_nat (length l2)) V q (Nerrs p) (Errflag p))
       end).
Proof.
  intros Hh Hl1 HR1 HR2 Hq. destruct (reduced_slots p l1 u l2 Hh) as (Htake & Hroom & Hgrow & Hslice & Hfirst).
  destruct Hh as (_ & Hlen & Hle & H0). rewrite length_app in Hlen, Hle. cbn [length] in Hlen, Hle.
  unfold reduce. rewrite HR2. cbn [rbind]. replace (yyp p - Z.of_nat (length rhs)) with (Z.of_nat (length l2)) by lia.
  replace (Z.of_nat (length l2) + 1) with (Z.of_nat (S (length l2))) by lia.
  set (S2 := grow (Z.of_nat (S (length l2))) (yyS p)) in *.
  destruct (lookup_lt_is_Some_2 S2 (S (length l2)) Hroom) as [V HV].
  rewrite (proj2 (at_Ok S2 (Z.of_nat (S (length l2))) V)) by (split; [lia | by rewrite Nat2Z.id]). cbn [rbind].
  rewrite HR1. cbn [rbind].
  rewrite (proj2 (at_Ok S2 (Z.of_nat (length l2)) u)).
  2:{ split; [lia|]. rewrite Nat2Z.id. rewrite <- (lookup_take_lt _ (S (length l2))) by lia. rewrite Htake. cbn [rev].
      rewrite lookup_app_r by (rewrite length_rev; lia). by rewrite length_rev, Nat.sub_diag. }
  cbn [rbind]. rewrite Hq. cbn [rbind]. rewrite Hslice. cbn [rbind].
  exists V, S2. split_and!; [| |done].
  - intros Hne. unfold dollar. change ((u :: rev l1) !! Z.to_nat 1) with (rev l1 !! 0%nat).
    rewrite <- Hfirst by (destruct l1, rhs; cbn in Hl1; congruence || lia). by rewrite HV.
  - intros. unfold holds. cbn [length yyS yyp]. split_and!; [exact Htake | lia | lia | lia].
Qed.

Lemma dollar_typed u l1 rhs :
  Forall2 (fun X x => typed_symbol X x = true) rhs (rev l1) -> typed_all rhs (dollar u l1) 1.
Proof.
  intros Htyped. apply (typed_all_values _ _ _ 1 Htyped). intros k x Hk. unfold dollar.
  replace (Z.to_nat (1 + Z.of_nat k)) with (S k) by lia.
  change ((u :: rev l1) !! S k) with (rev l1 !! k). by rewrite Hk.
Qed.

(** What [check_reduce] grants in a state on top of a stack. *)
Lemma checked_reduction n v st ws :
  stack (v :: st) ws -> check_reduce (yys v) n = true -> 1 <= n ->
  exists A rhs l1 u l2 ws1 ws2 q,
    n <= 218 /\ grammar !! Z.to_nat (n - 1) = Some (A, rhs) /\ get Rules n = Some (nt_number A, map symbol_code rhs) /\
    at_ (E := yy_error) yyR1 n = Ok (nt_number A) /\ at_ (E := yy_error) yyR2 n = Ok (Z.of_nat (length rhs)) /\
    v :: st = l1 ++ u :: l2 /\ ws = ws1 ++ ws2 /\ length l1 = length rhs /\ stack (u :: l2) ws2 /\
    Forall2 (fun X x => typed_symbol X x = true) rhs (rev l1) /\ derives_all rhs (concat (rev ws1)) /\
    goto (nt_number A) (yys u) = Ok q /\ check_edge (yys u) q (- nt_number A) = true /\ (q = 1 -> nt_number A = 1) /\
    rank q + 2 <= rank (yys v) + Z.of_nat (length rhs).
Proof.
  intros Hst Hc Hn. assert (n <= 218) as Hn'. { unfold check_reduce in Hc. destruct (get Rules n) as [[? ?]|]; [lia | done]. }
  destruct (production_at n ltac:(lia)) as (A & rhs & Hg & Hr & HR1 & HR2).
  unfold check_reduce in Hc. rewrite Hr, length_map in Hc. cbn zeta in Hc.
  rewrite !andb_true_iff in Hc. destruct Hc as [[_ Hi] Hrank].
  destruct (stack_items (length rhs) n st ws v _ _ Hst Hi Hr)
    as (l1 & u & l2 & ws1 & ws2 & Hsplit & -> & Hl1 & Hst2 & Hm & Hentries & Hcodes).
  rewrite take_ge in Hcodes by (rewrite length_map; lia).
  destruct (whole_production _ _ rhs (Forall2_rev _ _ _ Hentries) Hcodes) as [Htyped Hderives].
  destruct (stack_state u l2 ws2 Hst2) as [Hu _].
  destruct (goto_ok (yys u) A Hu Hm) as (q & Hfq & Hq & Hedge & Hqt & Hq1).
  exists A, rhs, l1, u, l2, ws1, ws2, q. split_and!; try done.
  destruct (Z.eqb_spec (Z.of_nat (length rhs)) 0) as [Hk|Hk]; [|lia].
  destruct l1; [|cbn in Hl1; lia]. injection Hsplit as <- <-. rewrite Hfq in Hrank. lia.
Qed.

(** Production 216 is only reduced in a definition. *)
Lemma reduce_forces sql n p v st ws toks ahead :
  running sql p toks ahead -> stack (v :: st) ws -> check_reduce (yys v) n = true -> n = 216 ->
  concat (rev ws) = token_number <$> toks -> starts_definition toks.
Proof.
  intros Hrun Hst Hc -> Hws. apply (forced_start v st ws); try done.
  - unfold check_reduce in Hc. change (get Rules 216) with (Some (nt_number force_eof, @nil Z)) in Hc. cbn zeta in Hc.
    rewrite !andb_true_iff in Hc. destruct Hc as [[_ Hi] _]. unfold item in Hi.
    change (get Rules 216) with (Some (nt_number force_eof, @nil Z)) in Hi. exact Hi.
  - destruct (reads_end _ _ _ (NewStringTokenizer_wf sql) (run_reads _ _ _ _ Hrun)) as (_ & Hok & _).
    by apply Forall_app in Hok as [? _].
Qed.

Lemma reduce_ok sql n p v st ws toks ahead :
  running sql p toks ahead -> holds p (v :: st) -> stack (v :: st) ws -> yys v = yystate p ->
  concat (rev ws) = token_number <$> toks -> 1 <= n -> check_reduce (yystate p) n = true ->
  goes_on sql (progress yynewstate p) (reduce n p).
Proof.
  intros Hrun Hh Hst Hv Hws Hn Hc. rewrite <- Hv in Hc.
  destruct (checked_reduction n v st ws Hst Hc Hn) as (A & rhs & l1 & u & l2 & ws1 & ws2 & q & Hn' & Hg & Hr & HR1 & HR2 &
    Hsplit & -> & Hl1 & Hst2 & Htyped & Hderives & Hq & Hedge & Hq1 & Hrank).
  rewrite Hsplit in Hh. destruct (reduce_runs n p l1 u l2 A rhs q Hh Hl1 HR1 HR2 Hq) as (V & S2 & HV & Hholds & ->).
  destruct Hh as (_ & Hlen & _). rewrite length_app in Hlen. cbn [length] in Hlen.
  pose proof (actions_at 1 grammar (Z.to_nat (n - 1)) (A, rhs) actions_all Hg) as Hact.
  replace (1 + Z.of_nat (Z.to_nat (n - 1))) with n in Hact by lia. cbn [fst snd] in Hact.
  destruct (Hact (lx p) _ V (dollar_typed u l1 rhs Htyped) HV)
    as [(l' & v' & -> & Hty & Htext & Hforce & Htree) | (msg & Hmsg & ->)]; cbn [rbind].
  - eexists yystack, _. split; [done|]. split.
    + exists (u :: l2), (concat (rev ws1) :: ws2), toks, ahead. split_and!; [| apply Hholds | |].
      * pose proof (fun E => reduce_forces sql n p v st _ toks ahead Hrun Hst Hc E Hws) as H216.
        destruct Hrun as [Hwf Hreads Hahead He Hp Hf]. constructor; try done.
        -- by apply (same_text_wf _ _ Htext).
        -- apply (reads_switch _ _ _ _ Hreads Htext). intros H1. rewrite Hforce, H1. by case_if.
        -- cbn. intros H1. specialize (Hq1 H1). rewrite Hq1 in Hr.
           rewrite (start_production n _ ltac:(lia) Hr) in Htree. exact Htree.
        -- cbn [lx]. rewrite Hforce. destruct (Z.eqb_spec n 216); [by auto | exact Hf].
      * rewrite <- Hws. cbn [rev]. rewrite rev_app_distr, !concat_app. cbn. by rewrite app_nil_r.
      * apply (stack_push _ u l2 _ ws2 (- nt_number A)); [done..|]. exists (N A).
        apply edge_parts in Hedge as (Hchk & _). split_and!; [done | by cbn; rewrite typed_set_yys |].
        apply (derives_production A rhs); [by apply (list_elem_of_lookup_2 _ (Z.to_nat (n - 1))) | done].
    + unfold progress, input. cbn [lx char yytoken yyp yystate]. rewrite (same_text_remaining _ _ Htext).
      rewrite Hv in *. lia.
  - eexists (ret 1), _. split; [done|]. right. split; [done|]. exists (tokenizer (lx p)), msg.
    split; [by right | done].
Qed.

(** ** The end of the text *)

(** In state 1 the stack is the start symbol on state 0. *)
Lemma whole_text v st ws : stack (v :: st) ws -> yys v = 1 -> exists w, ws = [w] /\ derives (N any_command) w.
Proof.
  intros Hst Hv.
  destruct (stack_items 1 0 st ws v 0 [-1; 1] Hst) as (l1 & u & l2 & ws1 & ws2 & Hs & -> & Hl & Hst2 & Hm & He & Hc).
  { rewrite Hv. vm_compute. reflexivity. }
  { vm_compute. reflexivity. }
  destruct (stack_state u l2 ws2 Hst2) as [Hu _]. destruct (state_parts _ Hu) as (_ & Hg & _).
  specialize (Hg 0 Hm). cbn in Hg. apply Z.eqb_eq in Hg.
  destruct (bottom_state u l2 ws2 Hst2 Hg) as [-> ->].
  destruct l1 as [|x [|]]; [done| |done]. injection Hs as <- _.
  apply Forall2_cons_inv_l in He as (w & ws & He & Hnil & ->). apply Forall2_nil_inv_l in Hnil as ->.
  exists w. split; [done|]. apply (entry_symbol v w (N any_command) He). rewrite Hv. vm_compute. reflexivity.
Qed.

Lemma exca_state_1 token :
  (let* l := exca_state yyExca 1 in exca_token l token) = Ok (if token =? yyEofCode then -1 else 0).
Proof.
  destruct (Z.eqb_spec token yyEofCode) as [->|Hne]; [reflexivity|].
  assert ((1 =? token) = false) as H1 by (unfold yyEofCode in Hne; lia).
  unfold exca_state, yyExca. cbn [rbind andb Z.eqb Pos.eqb]. unfold exca_token. rewrite H1. done.
Qed.

(** ** The default of a state, and a whole step *)
Section Step.
Context (sql : string) (p : parser) (v : yySymType) (st : list yySymType) (ws : list (list Z)) (toks : list tok).
Context (Hh : holds p (v :: st)) (Hst : stack (v :: st) ws) (Hv : yys v = yystate p)
        (Hws : concat (rev ws) = token_number <$> toks).

Lemma yydefault_ok ahead :
  running sql p toks ahead -> goes_on sql (progress yynewstate p) (yydefault p).
Proof using Hh Hst Hv Hws.
  intros Hrun. destruct (stack_state v st ws Hst) as [Hs _]. rewrite Hv in Hs.
  destruct table_lookups as (_ & _ & _ & HDef & _).
  destruct (state_parts _ Hs) as (Hd & _ & _). unfold check_default in Hd. unfold yydefault. rewrite HDef.
  destruct (get Def (yystate p)) as [n|]; [|done]. cbn [rbind]. destruct (Z.eqb_spec n (-2)) as [Hn2|_].
  - apply Z.eqb_eq in Hd. destruct (read_ok sql p toks ahead Hrun) as (typ & p' & -> & Hrun' & _ & HS & Hp & _ & Hq).
    cbn [rbind]. pose proof (exca_state_1 (yytoken p')) as Hx. rewrite Hq, Hd.
    destruct (exca_state yyExca 1) as [l| |]; [|done..]. cbn [rbind] in Hx |- *. rewrite Hx. cbn [rbind].
    destruct (Z.eqb_spec (yytoken p') yyEofCode) as [Heof|_].
    + exists (ret 0), p'. split; [done|]. left. split; [done|].
      destruct (whole_text v st ws Hst (eq_trans Hv Hd)) as (w & -> & Hw). exists toks.
      pose proof (run_ahead _ _ _ _ Hrun') as (_ & _ & _ & Ht & _). rewrite (Ht Heof) in Hrun'.
      split_and!; [by destruct Hrun' | | by apply Hrun'; rewrite Hq | by destruct Hrun'].
      rewrite <- Hws. cbn. by rewrite app_nil_r.
    + apply (syntax_error_ok sql _ p' toks [typ] (v :: st) ws); [done| |done].
      unfold holds in *. by rewrite HS, Hp.
  - destruct (Z.eqb_spec n 0); [by eapply syntax_error_ok|].
    apply andb_true_iff in Hd as [Hn Hr]. eapply reduce_ok; try done. lia.
Qed.

Lemma shift_ok typ q :
  running sql p toks [typ] -> check_edge (yystate p) q (yytoken p) = true -> yytoken p <> yyEofCode -> q <> 1 ->
  goes_on sql (progress yynewstate p) (Ok (yystack, shift q p)).
Proof using Hh Hst Hv Hws.
  intros [Hwf Hr Ha He Hpar Hf] Hedge Hne Hq1. pose proof (lookahead_input p [typ] Ha) as Hin.
  destruct Ha as (Hc & H0 & Ht & _ & Hty). destruct (stack_state v st ws Hst) as [_ Hrank]. rewrite Hv in Hrank.
  destruct (edge_parts _ _ _ Hedge) as (Hchk & _ & Hrq & _).
  exists yystack, (shift q p). split; [done|]. split.
  - exists (v :: st), ([yytoken p] :: ws), (toks ++ [typ]), []. split_and!.
    + constructor; try done; [by rewrite app_nil_r | by cbn; rewrite He |].
      intros (ty & rest & -> & Hin0)%Hf. by exists ty, (rest ++ [typ]).
    + exact Hh.
    + cbn [rev]. rewrite concat_app, Hws, fmap_app, Ht. done.
    + apply (stack_push _ v st _ ws (yytoken p)); [done | by cbn; rewrite Hv |]. exists (T typ).
      cbn [shift yystate yyVAL]. rewrite typed_symbol_set_yys. cbn [symbol_code typed_symbol yys set_yys].
      rewrite <- Ht. split_and!; [done..|]. rewrite Ht. constructor.
  - assert (input p = Z.of_nat (remaining (tokenizer (lx p))) + 1) as Hin'.
    { rewrite Hin. rewrite decide_False; [done|]. intros ->. apply Hne. by rewrite Ht. }
    unfold progress. rewrite Hin'. unfold input, shift. cbn [lx char yyp yystate Z.leb Z.compare andb]. lia.
Qed.

End Step.

Lemma newstate_ok sql p : Inv sql yynewstate p -> goes_on sql (progress yynewstate p) (step yynewstate p).
Proof.
  intros (st & ws & toks & ahead & Hrun & Hh & Hws & Hst & v & st' & -> & Hv).
  destruct (stack_state v st' ws Hst) as [Hs _]. rewrite Hv in Hs.
  destruct table_lookups as (HPact & HAct & HChk & _). destruct (state_parts _ Hs) as (_ & _ & Hsh).
  destruct (stack_pact v st' ws Hst) as [n Hn]. rewrite Hv in Hn.
  unfold step, newstate. rewrite HPact, Hn. cbn [rbind]. case_if; [by eapply yydefault_ok|].
  destruct (read_ok sql p toks ahead Hrun) as (typ & p' & -> & Hrun' & Hin & HS & Hp & _ & Hq). cbn [rbind].
  assert (holds p' (v :: st')) as Hh' by (unfold holds in *; by rewrite HS, Hp).
  rewrite <- Hq in Hv. assert (progress yynewstate p' <= progress yynewstate p) as Hle.
  { unfold progress. rewrite Hp, Hq. lia. }
  apply (goes_on_le _ (progress yynewstate p')); [|done]. clear Hle.
  case_if; [by eapply yydefault_ok|].
  pose proof (run_ahead _ _ _ _ Hrun') as (_ & _ & Ht & _).
  specialize (Hsh (yytoken p') ltac:(rewrite Ht; apply token_number_spec)). unfold check_shift in Hsh. rewrite Hn in Hsh.
  cbn zeta in Hsh. replace ((n <=? yyFlag) || (n + yytoken p' <? 0) || (yyLast <=? n + yytoken p')) with false in Hsh by lia.
  rewrite HAct. destruct (get Act _) as [q|]; [|done]. cbn [rbind]. rewrite HChk.
  destruct (get Chk q) as [c|]; [|done]. cbn [rbind]. case_if; [|by eapply yydefault_ok].
  rewrite !andb_true_iff in Hsh. destruct Hsh as [[[Hne _] Hq1] Hedge].
  eapply shift_ok; try done; [by rewrite Hq | |]; lia.
Qed.

(** ** Runs *)

Lemma progress_nonneg sql l p : Inv sql l p -> 0 <= progress l p.
Proof.
  intros (st & ws & toks & ahead & _ & (_ & Hlen & _) & _ & H).
  assert (0 <= input p) by (unfold input; case_if; lia).
  destruct l as [| |n]; unfold progress; [| |done].
  - pose proof (proj2 (stack_state _ _ _ H)) as Hr. cbn [yys set_yys] in Hr. lia.
  - destruct H as (Hst & v & st' & -> & Hv). pose proof (proj2 (stack_state _ _ _ Hst)) as Hr. rewrite Hv in Hr. lia.
Qed.

Lemma run_ok sql fuel l p : Inv sql l p -> progress l p < Z.of_nat fuel ->
  exists r p', run fuel l p = Ok (r, p') /\ (r = 0 /\ accepted sql p' \/ r = 1 /\ refused p').
Proof.
  revert l p. induction fuel as [|fuel IH]; intros l p HI Hf.
  { pose proof (progress_nonneg sql l p HI). lia. }
  assert (goes_on sql (progress l p) (step l p)) as (l' & p' & Hstep & Hgo).
  { destruct l as [| |n]; [by apply push_ok | by apply newstate_ok |]. by destruct HI as (? & ? & ? & ? & _ & _ & _ & []). }
  assert (run (S fuel) l p = run fuel l' p') as ->.
  { destruct l; cbn [run]; [by rewrite Hstep..|]. by destruct HI as (? & ? & ? & ? & _ & _ & _ & []). }
  destruct l' as [| |r].
  - apply IH; [by apply Hgo|]. lia.
  - apply IH; [by apply Hgo|]. lia.
  - exists r, p'. split; [by destruct fuel | done].
Qed.

Lemma yyParse_ok sql :
  exists r p, yyParse sql = Ok (r, p) /\ (r = 0 /\ accepted sql p \/ r = 1 /\ refused p).
Proof.
  apply (run_ok sql).
  - exists [], [], [], []. split_and!; [|by unfold holds; cbn; split_and!; try lia|done | by constructor].
    constructor; [apply NewStringTokenizer_wf | constructor | done.. | intros H; discriminate H].
  - pose proof (remaining_len (NewStringTokenizer sql)) as H. cbn [NewStringTokenizer InStream] in H.
    unfold progress, input, yyNewParser, yy_fuel. cbn [lx tokenizer char yyp yystate Z.leb Z.compare andb].
    change (rank 0) with (default 0 (get Ranks 0)).
    assert (rank 0 <= 17) by (vm_compute; congruence). unfold rank in *. lia.
Qed.

(** ** Properties *)

(** C7: the parser answers every text.  It stops within the fuel that the
    length of the text gives it, never panics and never leaves a nil pointer
    in a tree: what it returns is a statement, which then also prints, or
    the error of the token at which it gave up. *)
Theorem Parse_answers (sql : string) :
  (exists stmt text, YyParse.Parse sql = Ok stmt /\ Statement_Format stmt = Ok text) \/
  (exists t msg, (msg = "syntax error" \/ msg = "expecting share" \/ msg = "expecting mode") /\
     YyParse.Parse sql = Err (Errorf (LastError (Tokenizer_Error t msg)))).
Proof.
  destruct (yyParse_ok sql) as (r & p & Hrun & [[-> (toks & _ & _ & (stmt & Htree & Hwf) & _)] | [-> (t & msg & Hmsg & Ht)]]);
    unfold YyParse.Parse; rewrite Hrun; cbn [Z.eqb negb].
  - left. destruct (Statement_prints stmt Hwf) as [text Htext]. exists stmt, text. by rewrite Htree.
  - right. exists t, msg. by rewrite Ht.
Qed.

(** C6: the generated tables implement the grammar.  Whatever the parser of
    [sql.go] accepts, the productions of [sql.y] derive: the tokens that
    [Lex] reads from the text, up to the [TEOF] after which the parser stops,
    are a sentence for the start symbol.  That [TEOF] is the end of the text,
    of which nothing is left unread, unless the parser has called [ForceEOF]
    to skip the rest; it has done so only if the first token is CREATE,
    ALTER or DROP. *)
Theorem Parse_derives (sql : string) (stmt : Statement) :
  YyParse.Parse sql = Ok stmt ->
  exists toks t, reads (NewStringTokenizer sql) (toks ++ [TEOF]) t /\
    derives (N any_command) (token_number <$> toks) /\
    (Token.ForceEOF t = false /\ remaining t = 0%nat \/
     Token.ForceEOF t = true /\ exists typ rest, toks = typ :: rest /\ typ ∈ [CREATE; ALTER; DROP]).
Proof.
  intros H. destruct (yyParse_ok sql) as (r & p & Hrun & [[-> (toks & Hreads & Hd & _ & Hf)] | [-> _]]).
  - exists toks, (tokenizer (lx p)). split_and!; [done..|].
    destruct (reads_end _ _ _ (NewStringTokenizer_wf sql) Hreads) as (_ & _ & Hend).
    destruct (Token.ForceEOF (tokenizer (lx p))) eqn:HF; [right; split; [done | exact (Hf eq_refl)]|].
    left. split; [done|]. apply Hend; [by rewrite last_snoc | done].
  - exfalso. unfold YyParse.Parse in H. by rewrite Hrun in H.
Qed.

Lemma Parse_derives_witness :
  YyParse.Parse "truncate t" = Ok (StTruncate (mkTruncate [] "" (mkTableName "t" None))) /\
  exists toks t, reads (NewStringTokenizer "truncate t") (toks ++ [TEOF]) t /\
    derives (N any_command) (token_number <$> toks) /\
    (Token.ForceEOF t = false /\ remaining t = 0%nat \/
     Token.ForceEOF t = true /\ exists typ rest, toks = typ :: rest /\ typ ∈ [CREATE; ALTER; DROP]).
Proof.
  assert (YyParse.Parse "truncate t" = Ok (StTruncate (mkTruncate [] "" (mkTableName "t" None)))) as H
    by (vm_compute; reflexivity).
  split; [exact H|]. exact (Parse_derives _ _ H).
Defined.

(** The text is read to its end, or to the definition that is skipped. *)
Example garbage_refused : is_ok (YyParse.Parse "truncate t )") = false.
Proof. vm_compute. reflexivity. Qed.
Example definition_skipped :
  YyParse.Parse "create table t (id int, )" = YyParse.Parse "create table t" /\ is_ok (YyParse.Parse "create table t") = true.
Proof. by split; vm_compute. Qed.

(** ** Runs *)

(** The statement read back from what is printed for it. *)
Definition reprinted (sql : string) : res error Statement :=
  let* stmt := YyParse.Parse sql in
  let* text := Statement_Format stmt in
  YyParse.Parse text.

Definition sample_statements : list string :=
  ["select * from t where id = 4 and b in (1, 2, 'x') order by a desc limit 3, 4";
   "select count(*), a from `order` as o left join b.c on o.x = c.y where not exists (select 1) group by a having a > 3";
   "select distinct case a when b = 1 then 2 else 3 end from t use index (i, j) union all select a.* from (select 1) as a";
   "select a from t where a between 1 and 2 or b is not null and (c not like 'x' or d <=> null) for update";
   "select /*master*/ sum(distinct a), -b+c*2 from t lock in share mode";
   "insert ignore into t(a, b) values (1, -2), (+3, ~4) on duplicate key update a = b+1*2";
   "insert into t set a = 1, b = 'o\'k'"; "insert into t select * from u"; "replace into t(a) values (1)";
   "update d.t set a = 'o\'k', b = ~1 where b like 'y%' order by a asc limit 1 offset 2";
   "delete from t where id = 5 limit 2"; "truncate table x"; "use db"; "begin"; "start transaction"; "commit"; "rollback";
   "admin node(opt, node, k, v) values ('add', 'node1', 'slave', '1.2.3.4')"; "admin help"; "set autocommit = 1"].

Example samples_read_back :
  forallb (fun sql => is_ok (YyParse.Parse sql)) sample_statements = true /\
  map reprinted sample_statements = map YyParse.Parse sample_statements.
Proof. by split; vm_compute. Qed.

(** What is printed and is not read back: a TRUNCATE without the word
    TABLE, the names of SET NAMES, a bind variable, a sign before a negative
    number. *)
Example truncate_not_read_back :
  (let* stmt := YyParse.Parse "truncate t" in Statement_Format stmt) = Ok "truncatet" /\
  is_ok (reprinted "truncate t") = false.
Proof. by split; vm_compute. Qed.
Example bind_variable_reprinted :
  (let* stmt := YyParse.Parse "delete from t where id = ?" in Statement_Format stmt) = Ok "delete from t where id = v1".
Proof. vm_compute. reflexivity. Qed.
Example negative_operand_becomes_comment :
  (let* stmt := YyParse.Parse "delete from t where a = b - -1 and c = 2" in Statement_Format stmt) =
    Ok "delete from t where a = b--1 and c = 2" /\
  (let* stmt := reprinted "delete from t where a = b - -1 and c = 2" in Statement_Format stmt) =
    Ok "delete from t where a = b".
Proof. by split; vm_compute. Qed.

(** Statements of the repository's own tests that the grammar has no
    production for. *)
Example show_not_parsed :
  YyParse.Parse "show databases" = Err (Errorf "syntax error at position 5 near show").
Proof. vm_compute. reflexivity. Qed.
