(* ===== verification/RouteLists.v ===== *)
(** * Lists of table indexes ([proxy/router/planbuilder.go], lines 540-725)

    Routing computes with increasing lists of table indexes; these are the
    set operations the plan builder uses on them.  A loop over two indices
    [i] and [j] is a recursion on the suffixes [l1[i:]] and [l2[j:]]. *)
From S2P Require Import Prelude Errors.
Open Scope Z_scope.

(** [makeList(start, end)]; a negative length panics in [make]. *)
Definition makeList (start end_ : Z) : res error (list Z) :=
  if end_ - start <? 0 then Panic (PRuntime "makeslice: len out of range")
  else Ok (seqZ start (end_ - start)).

(** The loop [for k, v := range indexes { if v == value ... }]: the first
    position of [value]. *)
Fixpoint find_index (value : Z) (indexes : list Z) : option nat :=
  match indexes with
  | [] => None
  | v :: l => if v =? value then Some 0%nat else S <$> find_index value l
  end.

Definition makeLeList (value : Z) (indexes : list Z) : list Z :=
  match find_index value indexes with Some k => take (S k) indexes | None => [] end.
Definition makeGeList (value : Z) (indexes : list Z) : list Z :=
  match find_index value indexes with Some k => drop k indexes | None => [] end.
Definition makeLtList (value : Z) (indexes : list Z) : list Z :=
  match find_index value indexes with Some k => take k indexes | None => [] end.
Definition makeGtList (value : Z) (indexes : list Z) : list Z :=
  match find_index value indexes with Some k => drop (S k) indexes | None => [] end.

(** The loop of [makeBetweenList]: [start] is [Some startIndex] once
    [SetStart] is true; the result is [indexes[startIndex : endIndex+1]]. *)
Fixpoint between_loop (start end_ : Z) (k : nat) (l : list Z) (startIndex : option nat)
  : option (nat * nat) :=
  match l with
  | [] => None
  | v :: l =>
      let startIndex := if v =? start then Some k else startIndex in
      if v =? end_ then
        match startIndex with
        | Some s => Some (s, k)
        | None => between_loop start end_ (S k) l startIndex
        end
      else between_loop start end_ (S k) l startIndex
  end.

Definition makeBetweenList (start end_ : Z) (indexes : list Z) : list Z :=
  let '(start, end_) := if end_ <? start then (end_, start) else (start, end_) in
  match between_loop start end_ 0 indexes None with
  | Some (s, e) => drop s (take (S e) indexes)
  | None => []
  end.

(** [l1 & l2]. *)
Fixpoint inter_loop (l1 : list Z) : list Z -> list Z :=
  match l1 with
  | [] => fun _ => []
  | x :: l1' =>
      fix inner (l2 : list Z) : list Z :=
        match l2 with
        | [] => []
        | y :: l2' =>
            if x =? y then x :: inter_loop l1' l2'
            else if x <? y then inter_loop l1' l2
            else inner l2'
        end
  end.
Definition interList (l1 l2 : list Z) : list Z :=
  if (Nat.eqb (length l1) 0) || (Nat.eqb (length l2) 0) then [] else inter_loop l1 l2.

(** [l1 | l2]; what remains of either list is appended. *)
Fixpoint union_loop (l1 : list Z) : list Z -> list Z :=
  match l1 with
  | [] => fun l2 => l2
  | x :: l1' =>
      fix inner (l2 : list Z) : list Z :=
        match l2 with
        | [] => x :: l1'
        | y :: l2' =>
            if x <? y then x :: union_loop l1' l2
            else if y <? x then y :: inner l2'
            else x :: union_loop l1' l2'
        end
  end.
Definition unionList (l1 l2 : list Z) : list Z :=
  if Nat.eqb (length l1) 0 then l2
  else if Nat.eqb (length l2) 0 then l1
  else union_loop l1 l2.

(** [l1 - l2]; what remains of [l1] is appended. *)
Fixpoint diff_loop (l1 : list Z) : list Z -> list Z :=
  match l1 with
  | [] => fun _ => []
  | x :: l1' =>
      fix inner (l2 : list Z) : list Z :=
        match l2 with
        | [] => x :: l1'
        | y :: l2' =>
            if x <? y then x :: diff_loop l1' l2
            else if y <? x then inner l2'
            else diff_loop l1' l2'
        end
  end.
Definition differentList (l1 l2 : list Z) : list Z :=
  if Nat.eqb (length l1) 0 then []
  else if Nat.eqb (length l2) 0 then l1
  else diff_loop l1 l2.

(** ** Iteration order of Go maps

    [range] visits the keys of a map in an unspecified order.  A client of
    [MapOrder] is proved for every order. *)
Class MapOrder := {
  range_keys : gset Z -> list Z;
  range_keys_perm : forall s, range_keys s ≡ₚ elements s
}.

#[export] Instance default_order : MapOrder :=
  {| range_keys s := elements s; range_keys_perm s := Permutation_refl _ |}.

(** [cleanList]: removes duplicates through a map. *)
Definition cleanList `{MapOrder} (l : list Z) : list Z := range_keys (list_to_set l).

(** [sort.Ints] *)
Definition sort_Ints (l : list Z) : list Z := merge_sort Z.le l.

(** ** Laws *)
Lemma find_index_Some value l k :
  find_index value l = Some k ->
  l !! k = Some value /\ (forall j, (j < k)%nat -> l !! j <> Some value).
Proof.
  revert k. induction l as [|v l IH]; intros k; simpl; [done|].
  destruct (Z.eqb_spec v value) as [->|Hne].
  - intros [= <-]. split; [done|]. intros j ?; lia.
  - destruct (find_index value l) as [k'|]; [|done]. intros [= <-].
    destruct (IH k' eq_refl) as [H1 H2]. split; [done|].
    intros [|j] Hj; [simpl; congruence|]. apply H2. lia.
Qed.

Lemma find_index_None value l : find_index value l = None <-> value ∉ l.
Proof.
  induction l as [|v l IH]; simpl; [set_solver|].
  destruct (Z.eqb_spec v value) as [->|Hne].
  - split; [done|]. intros H. exfalso. apply H. by left.
  - rewrite fmap_None, IH. set_solver.
Qed.

(** In an increasing list the position of an element splits the list by
    comparison with it. *)
Lemma incr_lookup_lt l i j x y :
  incr l -> l !! i = Some x -> l !! j = Some y -> (i < j)%nat -> x < y.
Proof.
  intros Hl. revert i j. induction Hl as [|a l Hl IH Ha]; intros i j Hi Hj Hij; [done|].
  destruct j as [|j]; [lia|]. destruct i as [|i]; simpl in *.
  - injection Hi as ->. rewrite Forall_forall in Ha. apply Ha, list_elem_of_lookup. eauto.
  - apply (IH i j); [done..|lia].
Qed.

Lemma incr_lookup_inj l i j x :
  incr l -> l !! i = Some x -> l !! j = Some x -> i = j.
Proof.
  intros Hl Hi Hj. destruct (Nat.lt_trichotomy i j) as [H|[H|H]]; [|done|].
  - pose proof (incr_lookup_lt l i j x x Hl Hi Hj H). lia.
  - pose proof (incr_lookup_lt l j i x x Hl Hj Hi H). lia.
Qed.

Lemma elem_of_take_incr l k v x :
  incr l -> l !! k = Some v -> x ∈ take k l <-> x ∈ l /\ x < v.
Proof.
  intros Hl Hk. rewrite elem_of_take, (list_elem_of_lookup l x). split.
  - intros (i & Hi & Hik). split; [by exists i | by eapply incr_lookup_lt].
  - intros [[i Hi] Hx]. exists i. split; [done|].
    destruct (Nat.lt_trichotomy i k) as [|[->|H]]; [done | |].
    + rewrite Hk in Hi. injection Hi as <-. lia.
    + pose proof (incr_lookup_lt l k i v x Hl Hk Hi H). lia.
Qed.

Lemma elem_of_drop_incr l k v x :
  incr l -> l !! k = Some v -> x ∈ drop k l <-> x ∈ l /\ v <= x.
Proof.
  intros Hl Hk. rewrite (list_elem_of_lookup (drop k l) x), (list_elem_of_lookup l x).
  setoid_rewrite lookup_drop. split.
  - intros (i & Hi). split; [by eexists|].
    destruct i as [|i]; [rewrite Nat.add_0_r in Hi; rewrite Hk in Hi; injection Hi as <-; lia|].
    pose proof (incr_lookup_lt l k (k + S i) v x Hl Hk Hi ltac:(lia)). lia.
  - intros [[i Hi] Hx]. exists (i - k)%nat.
    destruct (Nat.lt_ge_cases i k) as [H|H].
    + pose proof (incr_lookup_lt l i k x v Hl Hi Hk H). lia.
    + replace (k + (i - k))%nat with i by lia. done.
Qed.

Lemma elem_of_take_S_incr l k v x :
  incr l -> l !! k = Some v -> x ∈ take (S k) l <-> x ∈ l /\ x <= v.
Proof.
  intros Hl Hk. rewrite (take_S_r l k v Hk), elem_of_app, list_elem_of_singleton.
  rewrite (elem_of_take_incr l k v) by done.
  assert (v ∈ l) by (apply list_elem_of_lookup; eauto).
  split; [intros [[? ?]|H2]; [split; [done | lia] | subst; split; [done | lia]]|].
  intros [? ?]. destruct (Z.eq_dec x v) as [->|]; [by right | left; split; [done | lia]].
Qed.

Lemma elem_of_drop_S_incr l k v x :
  incr l -> l !! k = Some v -> x ∈ drop (S k) l <-> x ∈ l /\ v < x.
Proof.
  intros Hl Hk. pose proof (elem_of_drop_incr l k v x Hl Hk) as H.
  pose proof (drop_S l v k Hk) as Hd. rewrite Hd, elem_of_cons in H.
  split.
  - intros Hin. apply proj1 in H. destruct (H (or_intror Hin)) as [Hx Hle]. split; [done|].
    apply list_elem_of_lookup in Hin as [j Hj]. rewrite lookup_drop in Hj.
    eapply (incr_lookup_lt l k (S k + j)); [done..|lia].
  - intros [Hx Hlt]. apply proj2 in H. destruct H as [H|H]; [split; [done | lia] | lia | done].
Qed.

Lemma makeList_elem s e l x : makeList s e = Ok l -> x ∈ l <-> s <= x < e.
Proof.
  unfold makeList. destruct (Z.ltb_spec (e - s) 0); [done|]. intros [= <-].
  rewrite elem_of_seqZ. lia.
Qed.
Lemma makeList_incr s e l : makeList s e = Ok l -> incr l.
Proof. unfold makeList. case_if; [done|]. intros [= <-]. apply incr_seqZ. Qed.
Lemma makeList_ok s e : s <= e -> exists l, makeList s e = Ok l.
Proof. intros. unfold makeList. replace (e - s <? 0) with false by lia. eauto. Qed.

Lemma makeLeList_elem v l x : incr l -> v ∈ l -> x ∈ makeLeList v l <-> x ∈ l /\ x <= v.
Proof.
  intros Hl Hv. unfold makeLeList. destruct (find_index v l) as [k|] eqn:Hk.
  - apply elem_of_take_S_incr; [done|]. by apply find_index_Some.
  - by apply find_index_None in Hk.
Qed.
Lemma makeGeList_elem v l x : incr l -> v ∈ l -> x ∈ makeGeList v l <-> x ∈ l /\ v <= x.
Proof.
  intros Hl Hv. unfold makeGeList. destruct (find_index v l) as [k|] eqn:Hk.
  - apply elem_of_drop_incr; [done|]. by apply find_index_Some.
  - by apply find_index_None in Hk.
Qed.
Lemma makeLtList_elem v l x : incr l -> v ∈ l -> x ∈ makeLtList v l <-> x ∈ l /\ x < v.
Proof.
  intros Hl Hv. unfold makeLtList. destruct (find_index v l) as [k|] eqn:Hk.
  - apply elem_of_take_incr; [done|]. by apply find_index_Some.
  - by apply find_index_None in Hk.
Qed.
Lemma makeGtList_elem v l x : incr l -> v ∈ l -> x ∈ makeGtList v l <-> x ∈ l /\ v < x.
Proof.
  intros Hl Hv. unfold makeGtList. destruct (find_index v l) as [k|] eqn:Hk.
  - apply elem_of_drop_S_incr; [done|]. by apply find_index_Some.
  - by apply find_index_None in Hk.
Qed.

(** A list cut out of an increasing list is increasing. *)
Lemma incr_take k l : incr l -> incr (take k l).
Proof. intros H. rewrite <- (take_drop k l) in H. by apply StronglySorted_app_inv in H as (? & _). Qed.
Lemma incr_drop k l : incr l -> incr (drop k l).
Proof. intros H. rewrite <- (take_drop k l) in H. by apply StronglySorted_app_inv in H as (_ & ? & _). Qed.
Lemma incr_Forall a l : incr l -> (forall x, x ∈ l -> a < x) -> incr (a :: l).
Proof. intros Hl Ha. constructor; [done|]. by apply Forall_forall. Qed.

Lemma makeLeList_incr v l : incr l -> incr (makeLeList v l).
Proof. intros. unfold makeLeList. destruct (find_index v l); [by apply incr_take | constructor]. Qed.
Lemma makeGeList_incr v l : incr l -> incr (makeGeList v l).
Proof. intros. unfold makeGeList. destruct (find_index v l); [by apply incr_drop | constructor]. Qed.

(** An index list is increasing by [lia] on the heads. *)
Ltac incr_cases :=
  repeat match goal with
  | H : incr (_ :: _) |- _ => let H1 := fresh "Hi" in let H2 := fresh "Hlt" in
      apply incr_cons_inv in H as [H1 H2]
  end.

Lemma inter_loop_spec l1 l2 :
  incr l1 -> incr l2 ->
  incr (inter_loop l1 l2) /\ (forall x, x ∈ inter_loop l1 l2 <-> x ∈ l1 /\ x ∈ l2).
Proof.
  revert l2. induction l1 as [|a l1 IH1]; intros l2 H1 H2.
  { split; [constructor | set_solver]. }
  induction l2 as [|b l2 IH2]; [split; [constructor | set_solver]|].
  change (inter_loop (a :: l1) (b :: l2)) with
    (if a =? b then a :: inter_loop l1 l2
     else if a <? b then inter_loop l1 (b :: l2) else inter_loop (a :: l1) l2).
  pose proof (incr_cons_inv _ _ H1) as [Hl1 Ha]. pose proof (incr_cons_inv _ _ H2) as [Hl2 Hb].
  destruct (Z.eqb_spec a b) as [<-|Hne]; [|destruct (Z.ltb_spec a b)].
  - destruct (IH1 l2 Hl1 Hl2) as [Hi He]. split.
    + apply incr_Forall; [done|]. intros x [? ?]%He. by apply Ha.
    + intros x. rewrite elem_of_cons, He, !elem_of_cons. split; [naive_solver|].
      intros [[Hx|Hx] [Hy|Hy]]; auto.
  - destruct (IH1 (b :: l2) Hl1 H2) as [Hi He]. split; [done|].
    intros x. rewrite He, !elem_of_cons. split; [naive_solver|].
    intros [[->|Hx] [->|Hy]]; auto; [lia | apply Hb in Hy; lia].
  - destruct (IH2 Hl2) as [Hi He]. split; [done|].
    intros x. rewrite He, !elem_of_cons. split; [naive_solver|].
    intros [[->|Hx] [->|Hy]]; auto; [lia | apply Ha in Hx; lia].
Qed.

Lemma union_loop_spec l1 l2 :
  incr l1 -> incr l2 ->
  incr (union_loop l1 l2) /\ (forall x, x ∈ union_loop l1 l2 <-> x ∈ l1 \/ x ∈ l2).
Proof.
  revert l2. induction l1 as [|a l1 IH1]; intros l2 H1 H2.
  { split; [done | set_solver]. }
  induction l2 as [|b l2 IH2]; [split; [done | set_solver]|].
  change (union_loop (a :: l1) (b :: l2)) with
    (if a <? b then a :: union_loop l1 (b :: l2)
     else if b <? a then b :: union_loop (a :: l1) l2 else a :: union_loop l1 l2).
  pose proof (incr_cons_inv _ _ H1) as [Hl1 Ha]. pose proof (incr_cons_inv _ _ H2) as [Hl2 Hb].
  destruct (Z.ltb_spec a b); [|destruct (Z.ltb_spec b a)].
  - destruct (IH1 (b :: l2) Hl1 H2) as [Hi He]. split.
    + apply incr_Forall; [done|]. intros x [Hx|Hx]%He; [by apply Ha|].
      apply elem_of_cons in Hx as [->|Hx]; [done|]. apply Hb in Hx. lia.
    + intros x. rewrite elem_of_cons, He, !elem_of_cons. naive_solver.
  - destruct (IH2 Hl2) as [Hi He]. split.
    + apply incr_Forall; [done|]. intros x [Hx|Hx]%He; [|by apply Hb].
      apply elem_of_cons in Hx as [->|Hx]; [done|]. apply Ha in Hx. lia.
    + intros x. rewrite elem_of_cons, He, !elem_of_cons. naive_solver.
  - assert (a = b) as <- by lia. destruct (IH1 l2 Hl1 Hl2) as [Hi He]. split.
    + apply incr_Forall; [done|]. intros x [Hx|Hx]%He; auto.
    + intros x. rewrite elem_of_cons, He, !elem_of_cons. naive_solver.
Qed.

Lemma diff_loop_spec l1 l2 :
  incr l1 -> incr l2 ->
  incr (diff_loop l1 l2) /\ (forall x, x ∈ diff_loop l1 l2 <-> x ∈ l1 /\ x ∉ l2).
Proof.
  revert l2. induction l1 as [|a l1 IH1]; intros l2 H1 H2.
  { split; [constructor | set_solver]. }
  induction l2 as [|b l2 IH2]; [split; [done | set_solver]|].
  change (diff_loop (a :: l1) (b :: l2)) with
    (if a <? b then a :: diff_loop l1 (b :: l2)
     else if b <? a then diff_loop (a :: l1) l2 else diff_loop l1 l2).
  pose proof (incr_cons_inv _ _ H1) as [Hl1 Ha]. pose proof (incr_cons_inv _ _ H2) as [Hl2 Hb].
  destruct (Z.ltb_spec a b); [|destruct (Z.ltb_spec b a)].
  - destruct (IH1 (b :: l2) Hl1 H2) as [Hi He]. split.
    + apply incr_Forall; [done|]. intros x [Hx _]%He. by apply Ha.
    + intros x. rewrite elem_of_cons, He, !elem_of_cons. split; [|naive_solver].
      intros [->|[Hx Hn]]; [|auto]. split; [auto|]. intros [->|Hx]; [lia|].
      apply Hb in Hx. lia.
  - destruct (IH2 Hl2) as [Hi He]. split; [done|].
    intros x. rewrite He, !elem_of_cons. split; [|naive_solver].
    intros [Hx Hn]. split; [done|]. intros [->|]; [|done].
    destruct Hx as [->|Hx]; [lia | apply Ha in Hx; lia].
  - assert (a = b) as <- by lia. destruct (IH1 l2 Hl1 Hl2) as [Hi He]. split; [done|].
    intros x. rewrite He, !elem_of_cons. split; [|naive_solver].
    intros [Hx Hn]. split; [auto|]. intros [->|]; [|done]. apply Ha in Hx. lia.
Qed.

Lemma interList_spec l1 l2 :
  incr l1 -> incr l2 ->
  incr (interList l1 l2) /\ (forall x, x ∈ interList l1 l2 <-> x ∈ l1 /\ x ∈ l2).
Proof.
  intros H1 H2. unfold interList.
  destruct l1 as [|a l1]; [split; [constructor | set_solver]|].
  destruct l2 as [|b l2]; [split; [constructor | set_solver]|].
  by apply inter_loop_spec.
Qed.

Lemma unionList_spec l1 l2 :
  incr l1 -> incr l2 ->
  incr (unionList l1 l2) /\ (forall x, x ∈ unionList l1 l2 <-> x ∈ l1 \/ x ∈ l2).
Proof.
  intros H1 H2. unfold unionList.
  destruct l1 as [|a l1]; [split; [done | set_solver]|].
  destruct l2 as [|b l2]; [split; [done | set_solver]|].
  by apply union_loop_spec.
Qed.

Lemma differentList_spec l1 l2 :
  incr l1 -> incr l2 ->
  incr (differentList l1 l2) /\ (forall x, x ∈ differentList l1 l2 <-> x ∈ l1 /\ x ∉ l2).
Proof.
  intros H1 H2. unfold differentList.
  destruct l1 as [|a l1]; [split; [constructor | set_solver]|].
  destruct l2 as [|b l2]; [split; [done | set_solver]|].
  by apply diff_loop_spec.
Qed.

(** The scan of [makeBetweenList] over a suffix [l] of [pre ++ l]: it finds
    the positions of both bounds. *)
Lemma between_loop_spec s e pre l st :
  incr (pre ++ l) -> s <= e -> s ∈ pre ++ l -> e ∈ l ->
  (forall i, st = Some i -> (pre ++ l) !! i = Some s) -> (s ∈ pre -> is_Some st) ->
  exists i j, between_loop s e (length pre) l st = Some (i, j) /\
    (pre ++ l) !! i = Some s /\ (pre ++ l) !! j = Some e.
Proof.
  revert pre st. induction l as [|v l IH]; intros pre st Hi Hse Hs He Hst Hpre; [set_solver|].
  cbn [between_loop].
  assert (Hv : (pre ++ v :: l) !! length pre = Some v) by (by apply list_lookup_middle).
  set (st' := if v =? s then Some (length pre) else st).
  assert (Hst' : forall i, st' = Some i -> (pre ++ v :: l) !! i = Some s).
  { unfold st'. destruct (Z.eqb_spec v s) as [<-|]; [naive_solver | done]. }
  assert (Hpre' : s ∈ pre ++ [v] -> is_Some st').
  { unfold st'. destruct (Z.eqb_spec v s) as [->|]; [eauto|]. set_solver. }
  destruct (Z.eqb_spec v e) as [->|Hne].
  - assert (s ∈ pre ++ [e]) as Hin.
    { apply elem_of_app in Hs as [Hs|[->|Hs]%elem_of_cons]; [set_solver..|].
      rewrite cons_middle, app_assoc in Hi. apply StronglySorted_app_inv in Hi as (_ & _ & Hlt).
      specialize (Hlt e s ltac:(set_solver) Hs). lia. }
    destruct (Hpre' Hin) as [i Heq]. rewrite Heq. exists i, (length pre). auto.
  - rewrite (cons_middle v pre l), app_assoc in *.
    replace (S (length pre)) with (length (pre ++ [v])) by (rewrite length_app; simpl; lia).
    apply IH; [done..| set_solver | done | done].
Qed.

Lemma makeBetweenList_spec s e l :
  incr l -> s ∈ l -> e ∈ l ->
  incr (makeBetweenList s e l) /\
  (forall x, x ∈ makeBetweenList s e l <-> x ∈ l /\ Z.min s e <= x <= Z.max s e).
Proof.
  intros Hl Hs He. unfold makeBetweenList.
  destruct (if e <? s then (e, s) else (s, e)) as [s' e'] eqn:Hse.
  assert (s' = Z.min s e /\ e' = Z.max s e) as [<- <-].
  { destruct (Z.ltb_spec e s); injection Hse as <- <-; lia. }
  assert (s' ∈ l /\ e' ∈ l /\ s' <= e') as (Hs' & He' & Hle).
  { destruct (Z.ltb_spec e s); injection Hse as <- <-; auto with lia. }
  destruct (between_loop_spec s' e' [] l None) as (i & j & Heq & Hi & Hj); [set_solver..|].
  change (length []) with 0%nat in Heq. rewrite Heq. simpl in Hi, Hj.
  split; [by apply incr_drop, incr_take|]. intros x.
  assert ((take (S j) l) !! i = Some s') as Hi'.
  { apply lookup_take_Some. split; [done|].
    destruct (Nat.le_gt_cases i j); [lia|].
    pose proof (incr_lookup_lt l j i e' s' Hl Hj Hi ltac:(lia)). lia. }
  rewrite (elem_of_drop_incr _ i s' x) by (done || by apply incr_take).
  rewrite (elem_of_take_S_incr l j e') by done. naive_solver lia.
Qed.

Lemma cleanList_spec `{MapOrder} l :
  NoDup (cleanList l) /\ (forall x, x ∈ cleanList l <-> x ∈ l).
Proof.
  unfold cleanList. split.
  - rewrite range_keys_perm. apply NoDup_elements.
  - intros x. rewrite (Permutation_in_iff _ _ x (range_keys_perm _)). set_solver.
Qed.

Lemma sort_Ints_perm l : sort_Ints l ≡ₚ l.
Proof. apply merge_sort_Permutation. Qed.

Lemma sort_Ints_incr l : NoDup l -> incr (sort_Ints l).
Proof.
  intros Hl.
  assert (StronglySorted Z.le (sort_Ints l)) as Hs by (apply StronglySorted_merge_sort; apply _).
  assert (NoDup (sort_Ints l)) as Hn by (by rewrite sort_Ints_perm).
  induction Hs as [|a l' Hl' IH Ha]; constructor.
  - apply IH. by apply NoDup_cons in Hn as [_ ?].
  - apply NoDup_cons in Hn as [Hn _]. rewrite Forall_forall in Ha |- *.
    intros x Hx. specialize (Ha x Hx). assert (x <> a) by congruence. lia.
Qed.

(** ** Properties *)

(** The merges of table-index lists are the set operations: on
    increasing lists [interList], [unionList] and [differentList] return
    increasing lists whose elements are the intersection, the union and
    the difference. *)
Theorem list_set_operations l1 l2 (H1 : incr l1) (H2 : incr l2) :
  incr (interList l1 l2) /\ incr (unionList l1 l2) /\ incr (differentList l1 l2) /\
  (forall x, (x ∈ interList l1 l2 <-> x ∈ l1 /\ x ∈ l2) /\
             (x ∈ unionList l1 l2 <-> x ∈ l1 \/ x ∈ l2) /\
             (x ∈ differentList l1 l2 <-> x ∈ l1 /\ x ∉ l2)).
Proof.
  destruct (interList_spec l1 l2 H1 H2), (unionList_spec l1 l2 H1 H2),
    (differentList_spec l1 l2 H1 H2). auto 10.
Qed.

Lemma incr_by_compute l : forallb (fun '(x, y) => x <? y) (zip l (tail l)) = true -> incr l.
Proof.
  intros H. induction l as [|a [|b l] IH]; [constructor | repeat constructor|].
  cbn in H. apply andb_true_iff in H as [Hab H]. specialize (IH H).
  apply incr_Forall; [done|]. pose proof (incr_cons_inv _ _ IH) as [_ Hb].
  intros x [->|Hx]%elem_of_cons; [lia|]. apply Hb in Hx. lia.
Qed.

Lemma list_set_operations_witness :
  interList [1; 3; 5] [3; 4] = [3] /\ unionList [1; 3; 5] [3; 4] = [1; 3; 4; 5] /\
  differentList [1; 3; 5] [3; 4] = [1; 5] /\ incr (unionList [1; 3; 5] [3; 4]).
Proof.
  destruct (list_set_operations [1; 3; 5] [3; 4]) as (_ & H & _);
    [by apply incr_by_compute.. | auto].
Defined.

(** On a rule's increasing index list, the lists cut out for the
    comparisons are exact: [makeLeList], [makeGeList], [makeLtList],
    [makeGtList] and [makeBetweenList] (bounds in either order) keep the
    tables in the stated interval, in order. *)
Theorem comparison_lists_exact v w l (Hl : incr l) (Hv : v ∈ l) (Hw : w ∈ l) :
  forall x,
  (x ∈ makeLeList v l <-> x ∈ l /\ x <= v) /\ (x ∈ makeGeList v l <-> x ∈ l /\ v <= x) /\
  (x ∈ makeLtList v l <-> x ∈ l /\ x < v) /\ (x ∈ makeGtList v l <-> x ∈ l /\ v < x) /\
  (x ∈ makeBetweenList v w l <-> x ∈ l /\ Z.min v w <= x <= Z.max v w).
Proof.
  intros x. destruct (makeBetweenList_spec v w l Hl Hv Hw) as [_ Hb].
  auto 10 using makeLeList_elem, makeGeList_elem, makeLtList_elem, makeGtList_elem.
Qed.

Lemma comparison_lists_exact_witness :
  makeBetweenList 2017 2016 [2015; 2016; 2017; 2018] = [2016; 2017] /\
  (2018 ∈ makeGtList 2017 [2015; 2016; 2017; 2018] <->
   2018 ∈ [2015; 2016; 2017; 2018] /\ 2017 < 2018).
Proof.
  split; [reflexivity|].
  apply (comparison_lists_exact 2017 2016); [by apply incr_by_compute | set_solver..].
Defined.
