(* ===== verification/GoTime.v ===== *)
(** * The civil calendar of Go's [time] package

    The proxy uses [time.Parse] with the layout ["20060102"], [Time.Sub],
    [Time.Add], [Time.Format], [time.Unix] and [Time.Year]: an instant is
    a day number, counted from 1970-01-01 in the proleptic Gregorian
    calendar, and its time of day is never read.  The local time zone is a
    parameter: the offset from UTC at an instant. *)
From S2P Require Import Prelude Errors GoLib.
From Stdlib Require Import Ascii.
Open Scope Z_scope.

(** ** Days and dates *)
Definition days_per_era : Z := 146097.   (* 400 years *)
Definition epoch_shift : Z := 719468.    (* 0000-03-01 to 1970-01-01 *)

(** Date of a day inside an era of 400 years that starts on March 1st. *)
Definition year_start (yoe : Z) : Z := 365 * yoe + yoe / 4 - yoe / 100.
Definition md_of_doy (doy : Z) : Z * Z :=
  let mp := (5 * doy + 2) / 153 in
  ((if mp <? 10 then mp + 3 else mp - 9), doy - (153 * mp + 2) / 5 + 1).
Definition civil_of_doe (doe : Z) : Z * Z * Z :=
  let yoe := (doe - doe / 1460 + doe / 36524 - doe / 146096) / 365 in
  let '(m, d) := md_of_doy (doe - year_start yoe) in
  ((if m <=? 2 then yoe + 1 else yoe), m, d).

Definition civil_from_days (z : Z) : Z * Z * Z :=
  let '(y, m, d) := civil_of_doe ((z + epoch_shift) mod days_per_era) in
  (y + 400 * ((z + epoch_shift) / days_per_era), m, d).

Definition doy_of_md (m d : Z) : Z := (153 * ((m + 9) mod 12) + 2) / 5 + d - 1.
Definition doe_of_civil (yoe m d : Z) : Z := year_start yoe + doy_of_md m d.

Definition days_from_civil (y m d : Z) : Z :=
  let y' := if m <=? 2 then y - 1 else y in
  y' / 400 * days_per_era + doe_of_civil (y' mod 400) m d - epoch_shift.

Definition is_leap (y : Z) : bool := (y mod 4 =? 0) && (negb (y mod 100 =? 0) || (y mod 400 =? 0)).
Definition daysIn (m y : Z) : Z :=
  if m =? 2 then (if is_leap y then 29 else 28)
  else if (m =? 4) || (m =? 6) || (m =? 9) || (m =? 11) then 30 else 31.

Definition valid_date (y m d : Z) : bool :=
  (1 <=? m) && (m <=? 12) && (1 <=? d) && (d <=? daysIn m y).

(** The number a date is written as in a table name: [20160229]. *)
Definition date_num (t : Z * Z * Z) : Z := let '(y, m, d) := t in y * 10000 + m * 100 + d.
Definition month_num (t : Z * Z * Z) : Z := let '(y, m, _) := t in y * 100 + m.
Definition day_num (z : Z) : Z := date_num (civil_from_days z).

(** ** Formatting and parsing *)

(** [appendInt(b, x, width)]: the sign is not counted in the width. *)
Definition appendInt (x : Z) (width : nat) : string :=
  let digits := FormatUint (Z.abs x) in
  (if x <? 0 then "-" else "") +:+ zeros (width - String.length digits) +:+ digits.

(** [Format("2006-01-02")] and [Format("20060102")]. *)
Definition Format_dashed (t : Z * Z * Z) : string :=
  let '(y, m, d) := t in appendInt y 4 +:+ "-" +:+ appendInt m 2 +:+ "-" +:+ appendInt d 2.
Definition Format_compact (t : Z * Z * Z) : string :=
  let '(y, m, d) := t in appendInt y 4 +:+ appendInt m 2 +:+ appendInt d 2.

Definition all_digits (s : string) : bool :=
  match parse_digits s 0 with Some _ => true | None => false end.

(** [time.Parse("20060102", s)] on a text of eight bytes: digits only, a
    month of the year and a day of that month. *)
Definition Parse_compact (s : string) : res error Z :=
  let y := String.substring 0 4 s in
  let m := String.substring 4 2 s in
  let d := String.substring 6 2 s in
  match parse_digits y 0, parse_digits m 0, parse_digits d 0 with
  | Some y, Some m, Some d =>
      if (slen s =? 8) && valid_date y m d then Ok (days_from_civil y m d) else Err (ErrTimeParse s)
  | _, _, _ => Err (ErrTimeParse s)
  end.

(** ** Durations: [end.Sub(begin)] in nanoseconds saturates *)
Definition ns_per_day : Z := 86400 * 10 ^ 9.
Definition Sub (end_ begin_ : Z) : Z :=
  let d := (end_ - begin_) * ns_per_day in
  if d <? MinInt64 then MinInt64 else if MaxInt64 <? d then MaxInt64 else d.

(** [int(duration.Hours() / 24)], truncated toward zero; the quotient of a
    whole number of days is exact in floating point. *)
Definition DaysCount (duration : Z) : Z := Z.quot duration ns_per_day.

(** [begin.Add(time.Hour * time.Duration(24*i))]: the product is an
    [int64]. *)
Definition AddDays (begin_ i : Z) : Z :=
  begin_ + i64 (i64 (24 * i) * (3600 * 10 ^ 9)) / ns_per_day.

(** ** Instants: [time.Unix(sec, 0)] in the local zone

    An instant is kept as seconds from the first day of the absolute year
    -292277022399, an unsigned 64-bit number. *)
Class Timezone := zone_offset : Z -> Z.

(** A server that runs in UTC. *)
Definition UTC : Timezone := fun _ => 0.

Definition unixToAbsolute : Z := 9223372028715321600.
Definition unix_days `{Timezone} (sec : Z) : Z :=
  u64 (sec + zone_offset sec + unixToAbsolute) / 86400 - unixToAbsolute / 86400.
Definition unix_civil `{Timezone} (sec : Z) : Z * Z * Z := civil_from_days (unix_days sec).

(** ** Laws *)

(** Days [doy] of the year [yoe], which starts on March 1st. *)
Definition long_year (yoe : Z) : Prop := yoe mod 4 = 3 /\ yoe mod 100 <> 99 \/ yoe = 399.
Definition doy_in (yoe doy : Z) : Prop :=
  0 <= yoe < 400 /\ 0 <= doy <= 365 /\ (doy = 365 -> long_year yoe).

Lemma civil_of_doe_split yoe doy :
  doy_in yoe doy ->
  civil_of_doe (year_start yoe + doy) =
  (let '(m, d) := md_of_doy doy in ((if m <=? 2 then yoe + 1 else yoe), m, d)).
Proof.
  intros (Hy & Hd & Hl). unfold civil_of_doe.
  assert ((year_start yoe + doy - (year_start yoe + doy) / 1460 + (year_start yoe + doy) / 36524
           - (year_start yoe + doy) / 146096) / 365 = yoe) as ->.
  { unfold year_start, long_year in *. Z.to_euclidean_division_equations. lia. }
  by replace (year_start yoe + doy - year_start yoe) with doy by lia.
Qed.

Lemma doe_split k :
  0 <= k < days_per_era -> exists yoe doy, k = year_start yoe + doy /\ doy_in yoe doy.
Proof.
  unfold days_per_era. intros Hk.
  exists ((k - k / 1460 + k / 36524 - k / 146096) / 365).
  eexists (k - year_start ((k - k / 1460 + k / 36524 - k / 146096) / 365)).
  split; [lia|]. unfold doy_in, long_year, year_start. Z.to_euclidean_division_equations. lia.
Qed.

Lemma doy_next yoe doy :
  doy_in yoe doy ->
  doy_in yoe (doy + 1) \/
  (doy = 364 \/ doy = 365) /\
  (year_start yoe + doy + 1 = days_per_era /\ yoe = 399 \/
   year_start yoe + doy + 1 = year_start (yoe + 1) /\ doy_in (yoe + 1) 0).
Proof.
  unfold doy_in, long_year, year_start, days_per_era. intros H.
  Z.to_euclidean_division_equations. lia.
Qed.

Definition md_num (doy : Z) : Z :=
  let '(m, d) := md_of_doy doy in (if m <=? 2 then 10000 else 0) + m * 100 + d.
Lemma md_num_step : check_range (fun k => md_num k <? md_num (k + 1)) (Z.to_nat 365) 0 = true.
Proof. vm_compute. reflexivity. Qed.

Lemma date_num_split yoe doy :
  doy_in yoe doy -> date_num (civil_of_doe (year_start yoe + doy)) = yoe * 10000 + md_num doy.
Proof.
  intros H. rewrite civil_of_doe_split by done. unfold md_num. destruct (md_of_doy doy) as [m d].
  unfold date_num. case_if; lia.
Qed.

(** From one day to the next, inside an era and at its end. *)
Lemma doe_step k :
  0 <= k < days_per_era ->
  date_num (civil_of_doe k) <
  (if k =? days_per_era - 1 then date_num (civil_of_doe 0) + 4000000
   else date_num (civil_of_doe (k + 1))).
Proof.
  intros Hk. destruct (doe_split k Hk) as (yoe & doy & -> & Hin).
  rewrite date_num_split by done. pose proof (doy_next _ _ Hin) as [Hn|[Hlast Hn]].
  - pose proof (check_range_all _ _ _ doy md_num_step) as Hs.
    unfold doy_in in Hin, Hn. specialize (Hs ltac:(lia)). cbv beta in Hs.
    replace (_ =? _) with false by (unfold days_per_era, year_start in *; Z.to_euclidean_division_equations; lia).
    rewrite <- Z.add_assoc, date_num_split by done. lia.
  - assert (md_num doy < 10301) by (destruct Hlast as [-> | ->]; reflexivity).
    destruct Hn as [[Hn ->]|[Hn Hin']].
    + replace (_ =? _) with true by lia. change (date_num (civil_of_doe 0)) with 301. lia.
    + assert (year_start yoe + doy + 1 < days_per_era).
      { rewrite Hn. unfold doy_in in Hin'. unfold year_start, days_per_era. Z.to_euclidean_division_equations. lia. }
      replace (_ =? _) with false by lia. rewrite Hn, <- (Z.add_0_r (year_start (yoe + 1))).
      rewrite date_num_split by done. change (md_num 0) with 301. lia.
Qed.

Lemma day_num_era z :
  day_num z = date_num (civil_of_doe ((z + epoch_shift) mod days_per_era))
              + 4000000 * ((z + epoch_shift) / days_per_era).
Proof.
  unfold day_num, civil_from_days. destruct (civil_of_doe _) as [[y m] d].
  unfold date_num. lia.
Qed.

(** Day numbers grow with the calendar. *)
Lemma day_num_step z : day_num z < day_num (z + 1).
Proof.
  rewrite !day_num_era. set (k := (z + epoch_shift) mod days_per_era).
  set (q := (z + epoch_shift) / days_per_era).
  assert (z + epoch_shift = q * days_per_era + k) as Hz.
  { unfold q, k, days_per_era. pose proof (Z.div_mod (z + epoch_shift) 146097). lia. }
  assert (0 <= k < days_per_era) as Hk by (apply Z.mod_pos_bound; reflexivity).
  pose proof (doe_step k Hk) as Hok.
  replace (z + 1 + epoch_shift) with (k + 1 + q * days_per_era) by lia.
  rewrite Z.div_add, Z.mod_add by discriminate.
  destruct (Z.eqb_spec k (days_per_era - 1)) as [->|Hne].
  - replace (days_per_era - 1 + 1) with days_per_era by lia.
    rewrite Z.mod_same, Z.div_same by discriminate. lia.
  - rewrite Z.mod_small, Z.div_small by lia. lia.
Qed.

Lemma day_num_mono a b : a < b -> day_num a < day_num b.
Proof.
  intros H. replace b with (a + Z.of_nat (S (Z.to_nat (b - a - 1)))) by lia.
  generalize (Z.to_nat (b - a - 1)). intros n. induction n as [|n IH].
  - apply day_num_step.
  - etrans; [apply IH|]. replace (a + Z.of_nat (S (S n))) with (a + Z.of_nat (S n) + 1) by lia.
    apply day_num_step.
Qed.

Lemma day_num_le a b : a <= b -> day_num a <= day_num b.
Proof. intros [H| ->]%Z.le_lteq; [apply day_num_mono in H|]; lia. Qed.

Lemma day_num_lt_iff a b : day_num a < day_num b <-> a < b.
Proof.
  split; [|apply day_num_mono]. intros H. destruct (Z.lt_trichotomy a b) as [?|[->|Hba]]; [done|lia|].
  pose proof (day_num_mono b a Hba). lia.
Qed.
Lemma day_num_inj a b : day_num a = day_num b -> a = b.
Proof.
  intros H. destruct (Z.lt_trichotomy a b) as [Hab|[->|Hab]]; [|done|];
    pose proof (day_num_mono _ _ Hab); lia.
Qed.

Lemma daysIn_le m y : daysIn m y <= 31.
Proof. unfold daysIn. repeat case_if; lia. Qed.

(** A valid date is the date of its day. *)
Definition md_ok (m d : Z) : bool :=
  let doy := doy_of_md m d in
  if d <=? daysIn m 0
  then (0 <=? doy) && (doy <=? 365) && ((doy <? 365) || ((m =? 2) && (d =? 29))) &&
       (md_num doy =? (if m <=? 2 then 10000 else 0) + m * 100 + d)
  else true.
Lemma md_ok_all :
  check_range (fun m => check_range (md_ok m) (Z.to_nat 31) 1) (Z.to_nat 12) 1 = true.
Proof. vm_compute. reflexivity. Qed.

Lemma daysIn_leap m y : daysIn m y <= daysIn m 0 /\ (m = 2 -> daysIn m y = 29 -> is_leap y = true).
Proof. unfold daysIn. change (is_leap 0) with true. repeat case_if; lia. Qed.

Lemma valid_date_doy yoe m d :
  0 <= yoe < 400 ->
  valid_date (if m <=? 2 then yoe + 1 else yoe) m d = true ->
  doy_in yoe (doy_of_md m d) /\
  md_num (doy_of_md m d) = (if m <=? 2 then 10000 else 0) + m * 100 + d.
Proof.
  set (y := if m <=? 2 then yoe + 1 else yoe). intros Hy Hv. unfold valid_date in Hv.
  pose proof (daysIn_le m y). destruct (daysIn_leap m y) as [Hle Hleap].
  pose proof (check_range_all _ _ _ m md_ok_all ltac:(lia)) as H1. cbv beta in H1.
  pose proof (check_range_all _ _ _ d H1 ltac:(lia)) as H2. unfold md_ok in H2.
  replace (d <=? daysIn m 0) with true in H2 by lia.
  split; [|lia]. split; [done|]. split; [lia|]. intros Hd.
  assert (m = 2 /\ d = 29) as [-> ->] by lia.
  assert (is_leap y = true) as Hl by (apply Hleap; [done|]; unfold daysIn in Hv |- *; simpl in *; case_if; lia).
  change y with (yoe + 1) in Hl. unfold is_leap in Hl. unfold long_year.
  Z.to_euclidean_division_equations. lia.
Qed.

Lemma is_leap_era y q : is_leap (y + q * 400) = is_leap y.
Proof.
  unfold is_leap. rewrite Z.mod_add by lia.
  replace (y + q * 400) with (y + q * 4 * 100) by lia. rewrite Z.mod_add by lia.
  replace (y + q * 4 * 100) with (y + q * 100 * 4) by lia. by rewrite Z.mod_add by lia.
Qed.

Lemma day_num_days_from_civil y m d :
  valid_date y m d = true -> day_num (days_from_civil y m d) = date_num (y, m, d).
Proof.
  intros Hv. rewrite day_num_era. unfold days_from_civil.
  set (y' := if m <=? 2 then y - 1 else y).
  set (q := y' / 400). set (yoe := y' mod 400).
  assert (0 <= yoe < 400) as Hyoe by (apply Z.mod_pos_bound; lia).
  assert (y' = q * 400 + yoe) as Hy' by (unfold q, yoe; pose proof (Z.div_mod y' 400); lia).
  clearbody yoe q. 
  assert (y = (if m <=? 2 then yoe + 1 else yoe) + q * 400) as Hy by
    (unfold y' in Hy'; destruct (m <=? 2); lia).
  clear y' Hy'. subst y.
  destruct (valid_date_doy yoe m d Hyoe) as [Hin Hnum].
  { unfold valid_date, daysIn in *. by rewrite is_leap_era in Hv. }
  assert (0 <= doe_of_civil yoe m d < days_per_era) as Hk.
  { unfold doe_of_civil, doy_in, long_year in *. generalize dependent (doy_of_md m d). intros doy Hin _.
    unfold year_start, days_per_era. Z.to_euclidean_division_equations. lia. }
  replace (q * days_per_era + doe_of_civil yoe m d - epoch_shift + epoch_shift)
    with (doe_of_civil yoe m d + q * days_per_era) by lia.
  rewrite Z.mod_add, Z.div_add, Z.mod_small, Z.div_small by (discriminate || lia).
  unfold doe_of_civil. rewrite date_num_split, Hnum by done. unfold date_num. case_if; lia.
Qed.

(** *** Digits *)
Lemma parse_digits_acc s acc n :
  parse_digits s 0 = Some n -> parse_digits s acc = Some (acc * 10 ^ slen s + n).
Proof.
  assert (forall t a b, parse_digits t a = Some b ->
            forall c, parse_digits t (a + c) = Some (b + c * 10 ^ slen t)) as Hshift.
  { induction t as [|x t IH]; intros a b H c; cbn [parse_digits] in *.
    - injection H as ->. f_equal. change (10 ^ slen "") with 1. lia.
    - destruct (digit_of x) as [dx|]; [|done]. replace ((a + c) * 10 + dx) with (a * 10 + dx + c * 10) by lia.
      rewrite (IH _ _ H). f_equal. unfold slen. simpl String.length. rewrite Nat2Z.inj_succ, Z.pow_succ_r by lia.
      lia. }
  intros H. pose proof (Hshift s 0 n H acc) as Hs. rewrite Z.add_0_l in Hs. rewrite Hs. f_equal. lia.
Qed.

Lemma parse_digits_app a b m n :
  parse_digits a 0 = Some m -> parse_digits b 0 = Some n ->
  parse_digits (a +:+ b) 0 = Some (m * 10 ^ slen b + n).
Proof.
  assert (forall t acc, parse_digits (t +:+ b) acc =
            match parse_digits t acc with Some r => parse_digits b r | None => None end) as Happ.
  { induction t as [|x t IH]; intros acc; [done|]. rewrite sapp_cons. cbn [parse_digits].
    destruct (digit_of x); [apply IH | done]. }
  intros Ha Hb. rewrite Happ, Ha. by apply parse_digits_acc.
Qed.

Definition appendInt_ok (w : nat) (n : Z) : bool :=
  (slen (appendInt n w) =? Z.of_nat w) &&
  match parse_digits (appendInt n w) 0 with Some k => k =? n | None => false end.

Lemma appendInt_4_all : check_range (appendInt_ok 4) (Z.to_nat 10000) 0 = true.
Proof. vm_compute. reflexivity. Qed.
Lemma appendInt_2_all : check_range (appendInt_ok 2) (Z.to_nat 100) 0 = true.
Proof. vm_compute. reflexivity. Qed.

Lemma appendInt_spec w n :
  appendInt_ok w n = true ->
  slen (appendInt n w) = Z.of_nat w /\ parse_digits (appendInt n w) 0 = Some n.
Proof.
  unfold appendInt_ok. destruct (parse_digits _ 0) as [k|]; [|lia].
  intros H. split; [lia|]. f_equal. lia.
Qed.
Lemma appendInt_4 n : 0 <= n < 10000 ->
  slen (appendInt n 4) = 4 /\ parse_digits (appendInt n 4) 0 = Some n.
Proof. intros. apply (appendInt_spec 4). apply (check_range_all _ _ _ n appendInt_4_all); lia. Qed.
Lemma appendInt_2 n : 0 <= n < 100 ->
  slen (appendInt n 2) = 2 /\ parse_digits (appendInt n 2) 0 = Some n.
Proof. intros. apply (appendInt_spec 2). apply (check_range_all _ _ _ n appendInt_2_all); lia. Qed.

Lemma Atoi_digits s n : s <> "" -> parse_digits s 0 = Some n -> n < 2 ^ 63 -> Atoi s = Ok n.
Proof.
  intros Hs Hp Hn. apply Atoi_ParseInt. destruct s as [|c r]; [done|].
  apply ParseInt_digits; [|done..]. cbn in Hp. destruct (digit_of c); [eauto | done].
Qed.

(** The compact form of a date of four-digit year reads as its number. *)
Lemma Atoi_Format_compact y m d :
  0 <= y < 10000 -> 0 <= m < 100 -> 0 <= d < 100 ->
  Atoi (Format_compact (y, m, d)) = Ok (date_num (y, m, d)).
Proof.
  intros Hy Hm Hd. destruct (appendInt_4 y Hy) as [Ly Py], (appendInt_2 m Hm) as [Lm Pm],
    (appendInt_2 d Hd) as [Ld Pd].
  pose proof (parse_digits_app _ _ _ _ Pm Pd) as H1.
  pose proof (parse_digits_app _ _ _ _ Py H1) as H2.
  unfold Format_compact. apply Atoi_digits.
  - intros He. apply (f_equal slen) in He. unfold slen in *. rewrite slength_app in He. simpl in He. lia.
  - rewrite H2. f_equal. rewrite Ld. unfold slen in *. rewrite slength_app. 
    rewrite Nat2Z.inj_add, Lm, Ld. unfold date_num. lia.
  - unfold date_num. lia.
Qed.

(** Months and days of every day are two digits. *)
Lemma md_of_doy_range doy m d :
  0 <= doy <= 365 -> md_of_doy doy = (m, d) -> 1 <= m <= 12 /\ 1 <= d <= 31.
Proof.
  unfold md_of_doy. intros Hd [= <- <-].
  assert (0 <= (5 * doy + 2) / 153 <= 11) by (Z.to_euclidean_division_equations; lia).
  split; [destruct (Z.ltb_spec ((5 * doy + 2) / 153) 10); lia|].
  Z.to_euclidean_division_equations. lia.
Qed.

Lemma civil_from_days_fields z y m d :
  civil_from_days z = (y, m, d) -> 1 <= m <= 12 /\ 1 <= d <= 31.
Proof.
  unfold civil_from_days.
  assert (0 <= (z + epoch_shift) mod days_per_era < days_per_era) as Hk
    by (apply Z.mod_pos_bound; reflexivity).
  destruct (doe_split _ Hk) as (yoe & doy & -> & Hin). rewrite civil_of_doe_split by done.
  destruct (md_of_doy doy) as [m0 d0] eqn:Hmd. intros [= _ <- <-].
  eapply md_of_doy_range; [|done]. unfold doy_in in Hin. lia.
Qed.
