(* ===== verification/GoFmt.v ===== *)
(** * Formatted text ([fmt.Sprintf]), as far as the message formats use it

    A format has verbs [%s] and [%d] with an optional minus sign, which has
    no effect without a width, and an optional precision, given as digits
    or as [*].  What does not fit is reported in the text the way Go does
    it.  A precision cuts a string after that many runes. *)
From S2P Require Import Prelude Errors GoLib.
From Stdlib Require Import Ascii.
Open Scope Z_scope.

Inductive fmt_arg : Type := ArgString (s : string) | ArgInt (n : Z).

(** The number of bytes of the first rune ([utf8.DecodeRuneInString]); an
    invalid byte counts as one. *)
Definition continues (lo hi : Z) (s : string) : bool :=
  match s with String c _ => (lo <=? byte_of c) && (byte_of c <=? hi) | EmptyString => false end.
Definition rest (s : string) : string := match s with String _ s => s | EmptyString => "" end.
Definition between (lo hi b : Z) : bool := (lo <=? b) && (b <=? hi).

Definition rune_width (s : string) : nat :=
  match s with
  | EmptyString => 0
  | String c s =>
      let b := byte_of c in
      let more (lo hi : Z) (n : nat) :=
        if continues lo hi s
           && (Nat.leb n 2 || continues 128 191 (rest s))
           && (Nat.leb n 3 || continues 128 191 (rest (rest s)))
        then n else 1%nat in
      if between 194 223 b then more 128 191 2%nat
      else if b =? 224 then more 160 191 3%nat
      else if b =? 237 then more 128 159 3%nat
      else if between 225 239 b then more 128 191 3%nat
      else if b =? 240 then more 144 191 4%nat
      else if between 241 243 b then more 128 191 4%nat
      else if b =? 244 then more 128 143 4%nat
      else 1%nat
  end.

Fixpoint sdrop (n : nat) (s : string) : string :=
  match n, s with
  | O, _ => s
  | S n, String _ s => sdrop n s
  | S _, EmptyString => ""
  end.

Fixpoint take_runes (n : nat) (s : string) : string :=
  match n with
  | O => ""
  | S n => let w := rune_width s in String.substring 0 w s +:+ take_runes n (sdrop w s)
  end.

Fixpoint zeros (n : nat) : string := match n with O => "" | S n => "0" +:+ zeros n end.

Definition fmt_int (prec : option Z) (n : Z) : string :=
  let digits := FormatInt (Z.abs n) in
  let digits := match prec with
                | Some p => if (p =? 0) && (n =? 0) then ""
                            else zeros (Z.to_nat p - String.length digits) +:+ digits
                | None => digits
                end in
  (if n <? 0 then "-" else "") +:+ digits.

Definition fmt_value (prec : option Z) (a : fmt_arg) : string :=
  match a with
  | ArgString s => match prec with Some p => take_runes (Z.to_nat p) s | None => s end
  | ArgInt n => fmt_int prec n
  end.
Definition fmt_type (a : fmt_arg) : string := match a with ArgString _ => "string" | ArgInt _ => "int" end.

Definition fmt_verb (verb : ascii) (prec : option Z) (a : fmt_arg) : string :=
  match a with
  | ArgString s => if Ascii.eqb verb "s" then fmt_value prec a
                   else "%!" +:+ String verb "" +:+ "(string=" +:+ fmt_value prec a +:+ ")"
  | ArgInt n => if Ascii.eqb verb "d" then fmt_value prec a
                else "%!" +:+ String verb "" +:+ "(int=" +:+ fmt_value prec a +:+ ")"
  end.

Fixpoint parsenum (s : string) (n : Z) : Z * string :=
  match s with
  | String c s' => match digit_of c with Some d => parsenum s' (10 * n + d) | None => (n, s) end
  | EmptyString => (n, s)
  end.

(** The precision: its value, what is written when it is bad, and the rest
    of the format and of the arguments. *)
Definition fmt_prec (format : string) (args : list fmt_arg)
  : option Z * string * string * list fmt_arg :=
  match format with
  | String "."%char f =>
      match f with
      | String "*"%char f =>
          match args with
          | ArgInt n :: args => (if n <? 0 then None else Some n, if n <? 0 then "%!(BADPREC)" else "", f, args)
          | _ :: args => (None, "%!(BADPREC)", f, args)
          | [] => (None, "%!(BADPREC)", f, args)
          end
      | _ => let '(n, f) := parsenum f 0 in (Some n, "", f, args)
      end
  | _ => (None, "", format, args)
  end.

Definition skip_minus (format : string) : string :=
  match format with String "-"%char f => f | _ => format end.

Definition fmt_extra (args : list fmt_arg) : string :=
  match args with
  | [] => ""
  | _ => "%!(EXTRA " +:+ Join ((fun a => fmt_type a +:+ "=" +:+ fmt_value None a) <$> args) ", " +:+ ")"
  end.

(** Every round consumes a character of the format. *)
Fixpoint Sprintf_fuel (fuel : nat) (format : string) (args : list fmt_arg) : string :=
  match fuel, format with
  | O, _ => ""
  | S _, EmptyString => fmt_extra args
  | S fuel, String c format =>
      if Ascii.eqb c "%" then
        let '(prec, bad, format, args) := fmt_prec (skip_minus format) args in
        bad +:+
        match format with
        | EmptyString => "%!(NOVERB)" +:+ fmt_extra args
        | String verb format =>
            if Ascii.eqb verb "%" then "%" +:+ Sprintf_fuel fuel format args
            else
              match args with
              | [] => "%!" +:+ String verb "" +:+ "(MISSING)" +:+ Sprintf_fuel fuel format args
              | a :: args => fmt_verb verb prec a +:+ Sprintf_fuel fuel format args
              end
        end
      else String c (Sprintf_fuel fuel format args)
  end.

Definition Sprintf (format : string) (args : list fmt_arg) : string :=
  Sprintf_fuel (S (String.length format)) format args.

Example Sprintf_error :
  Sprintf "Access denied for user '%-.48s'@'%-.64s' (using password: %s)" [ArgString "joe"; ArgString "h"; ArgString "Yes"]
  = "Access denied for user 'joe'@'h' (using password: Yes)".
Proof. reflexivity. Qed.
Example Sprintf_misfit : Sprintf "%.2s %d%s" [ArgString "abc"; ArgString "x"] = "ab %!d(string=x)%!s(MISSING)".
Proof. reflexivity. Qed.
Example Sprintf_runes : Sprintf "%.1s|%s" [ArgString (String "195" (String "169" "t")); ArgInt 7; ArgInt 8] =
  String "195" (String "169" "|%!s(int=7)%!(EXTRA int=8)").
Proof. reflexivity. Qed.
