(* ===== verification/NumKey.v ===== *)
(** * Key ranges of the range and date shards ([proxy/router/numkey.go]) *)
From S2P Require Import Prelude Errors GoLib GoTime RouteLists.
From Stdlib Require Import Ascii.
Open Scope Z_scope.

Definition MinNumKey : Z := MinInt64.
Definition MaxNumKey : Z := MaxInt64.

(** [[start, end)], the last range of all being closed above. *)
Record NumKeyRange := mkNumKeyRange { Start : Z; End_ : Z }.
#[export] Instance NumKeyRange_eq_dec : EqDecision NumKeyRange.
Proof. solve_decision. Defined.

Definition MapKey (kr : NumKeyRange) : string :=
  FormatInt (Start kr) +:+ "-" +:+ FormatInt (End_ kr).
Definition Contains (kr : NumKeyRange) (i : Z) : bool :=
  (Start kr <=? i) && ((End_ kr =? MaxNumKey) || (i <? End_ kr)).
Definition NumKeyRange_String (kr : NumKeyRange) : string :=
  "{Start: " +:+ FormatInt (Start kr) +:+ ", End: " +:+ FormatInt (End_ kr) +:+ "}".

(** [ParseNumSharding]: table [i] holds the keys from [i*TableRowLimit] up
    to the start of the next; the arithmetic is that of [int]. *)
Definition num_range (TableRowLimit i : Z) : NumKeyRange :=
  mkNumKeyRange (i64 (i * TableRowLimit)) (i64 (i64 (i + 1) * TableRowLimit)).
Definition ParseNumSharding (Locations : list Z) (TableRowLimit : Z) : res error (list NumKeyRange) :=
  let tableCount := foldl (fun n l => i64 (n + l)) 0 Locations in
  if tableCount <? 0 then Panic (PRuntime "makeslice: len out of range")
  else Ok (num_range TableRowLimit <$> seqZ 0 tableCount).

(** [ParseDayRange]: "20151201-20151205", or a single day. *)
Definition ParseDayRange (dateRange : string) : res error (list Z) :=
  let dateLength := 8 in
  match SplitN2 dateRange "-" with
  | [d0] =>
      if negb (slen d0 =? dateLength) then Err ErrDateRangeIllegal
      else let* dateNum := Atoi d0 in Ok [dateNum]
  | [d0; d1] =>
      if negb (slen d0 =? dateLength) || negb (slen d1 =? dateLength) then Err ErrDateRangeIllegal
      else
        let '(d0, d1) := if string_ltb d1 d0 then (d1, d0) else (d0, d1) in
        let* begin_ := Parse_compact d0 in
        let* end_ := Parse_compact d1 in
        let daysCount := DaysCount (Sub end_ begin_) in
        rmap (fun i => Atoi (Format_compact (civil_from_days (AddDays begin_ i))))
             (seqZ 0 (daysCount + 1))
  | _ => Err ErrDateRangeIllegal
  end.

(** The loop of [ParseMonthRange]. *)
Fixpoint month_loop (monthCount : nat) (beginYear monthTmp : Z) : list Z :=
  match monthCount with
  | O => []
  | S n =>
      let '(beginYear, monthTmp) :=
        if 12 <? monthTmp then (beginYear + 1, Z.rem monthTmp 12) else (beginYear, monthTmp) in
      (beginYear * 100 + monthTmp) :: month_loop n beginYear (monthTmp + 1)
  end.

(** [ParseMonthRange]: "201510-201512", or a single month. *)
Definition ParseMonthRange (dateRange : string) : res error (list Z) :=
  let dateLength := 6 in
  match SplitN2 dateRange "-" with
  | [d0] =>
      if negb (slen d0 =? dateLength) then Err ErrDateRangeIllegal
      else let* dateNum := Atoi d0 in Ok [dateNum]
  | [d0; d1] =>
      if negb (slen d0 =? dateLength) || negb (slen d1 =? dateLength) then Err ErrDateRangeIllegal
      else
        let '(d0, d1) := if string_ltb d1 d0 then (d1, d0) else (d0, d1) in
        let* beginYear := Atoi (String.substring 0 4 d0) in
        let* beginMonth := Atoi (String.substring 4 2 d0) in
        let* endYear := Atoi (String.substring 0 4 d1) in
        let* endMonth := Atoi (String.substring 4 2 d1) in
        let monthCount := (endYear - beginYear) * 12 + endMonth - beginMonth + 1 in
        Ok (month_loop (Z.to_nat monthCount) beginYear beginMonth)
  | _ => Err ErrDateRangeIllegal
  end.

(** [ParseYearRange]: "2013-2015", or a single year.  The bounds of a range
    are not checked for length; with the largest [int] as the last year the
    loop never ends and the process runs out of memory. *)
Definition ParseYearRange (dateRange : string) : res error (list Z) :=
  let dateLength := 4 in
  match SplitN2 dateRange "-" with
  | [d0] =>
      if negb (slen d0 =? dateLength) then Err ErrDateRangeIllegal
      else let* dateNum := Atoi d0 in Ok [dateNum]
  | [d0; d1] =>
      let '(d0, d1) := if string_ltb d1 d0 then (d1, d0) else (d0, d1) in
      let* beginYear := Atoi d0 in
      let* endYear := Atoi d1 in
      if endYear =? MaxInt64 then Panic (PRuntime "out of memory")
      else Ok (seqZ beginYear (endYear - beginYear + 1))
  | _ => Err ErrDateRangeIllegal
  end.

(** ** Laws *)
Lemma foldl_locations Locations a :
  0 <= a -> Forall (fun l => 0 <= l) Locations -> a + foldr Z.add 0 Locations < 2 ^ 63 ->
  foldl (fun n l => i64 (n + l)) a Locations = a + foldr Z.add 0 Locations.
Proof.
  revert a. induction Locations as [|l L IH]; intros a Ha HL Hs; simpl in *; [lia|].
  apply Forall_cons in HL as [Hl HL].
  assert (0 <= foldr Z.add 0 L) by (clear -HL; induction HL; simpl; lia).
  rewrite i64_id by (unfold in_i64; lia). rewrite IH by (done || lia). lia.
Qed.

(** Without overflow the ranges are exactly consecutive intervals. *)
Lemma ParseNumSharding_ok Locations limit n :
  Forall (fun l => 0 <= l) Locations -> n = foldr Z.add 0 Locations ->
  0 < limit -> n * limit < 2 ^ 63 - 1 ->
  ParseNumSharding Locations limit =
  Ok ((fun i => mkNumKeyRange (i * limit) ((i + 1) * limit)) <$> seqZ 0 n).
Proof.
  intros HL -> Hlim Hn. set (n := foldr Z.add 0 Locations) in *.
  assert (0 <= n) by (unfold n; clear -HL; induction HL; simpl; lia).
  assert (n < 2 ^ 63) by nia.
  unfold ParseNumSharding. rewrite foldl_locations by (done || fold n; lia). fold n.
  replace (0 + n <? 0) with false by lia. f_equal. rewrite Z.add_0_l.
  apply list_fmap_ext. intros i x Hx.
  assert (x ∈ seqZ 0 n) as Hin by (apply list_elem_of_lookup; eauto).
  apply elem_of_seqZ in Hin. unfold num_range.
  assert ((x + 1) * limit <= n * limit) by nia. assert (0 <= x * limit) by nia.
  rewrite (i64_id (x * limit)) by (unfold in_i64; lia).
  rewrite (i64_id (x + 1)) by (unfold in_i64; lia).
  by rewrite i64_id by (unfold in_i64; lia).
Qed.

Lemma month_loop_incr n y m : incr (month_loop n y m).
Proof.
  assert (forall n y m x, 1 <= m <= 13 -> x ∈ month_loop n y m ->
            y * 100 + m <= x) as Hlow.
  { clear. induction n as [|n IH]; intros y m x Hm Hx; [set_solver|].
    cbn [month_loop] in Hx. destruct (Z.ltb_spec 12 m).
    - assert (m = 13) as -> by lia. change (Z.rem 13 12) with 1 in Hx.
      apply elem_of_cons in Hx as [->|Hx]; [lia|]. apply IH in Hx; lia.
    - apply elem_of_cons in Hx as [->|Hx]; [lia|].
      apply IH in Hx; lia. }
  assert (forall n y m x, m <= 13 -> x ∈ month_loop n y m -> y * 100 + m <= x) as Hlow'.
  { clear -Hlow. induction n as [|n IH]; intros y m x Hm Hx; [set_solver|].
    destruct (Z.le_gt_cases 1 m); [by eapply Hlow|].
    cbn [month_loop] in Hx. replace (12 <? m) with false in Hx by lia.
    apply elem_of_cons in Hx as [->|Hx]; [lia|]. apply IH in Hx; lia. }
  revert y m. induction n as [|n IH]; intros y m; cbn [month_loop]; [constructor|].
  destruct (Z.ltb_spec 12 m).
  - apply incr_Forall; [apply IH|]. intros x Hx.
    assert (0 <= Z.rem m 12 < 12) by (apply Z.rem_bound_pos; lia).
    apply Hlow' in Hx; lia.
  - apply incr_Forall; [apply IH|]. intros x Hx. apply Hlow' in Hx; lia.
Qed.

(** Eight bytes that parse as a date are digits, and the day they denote
    has them as its number. *)
Lemma substring_split a b s :
  (a + b <= String.length s)%nat ->
  String.substring 0 a s +:+ String.substring a b s = String.substring 0 (a + b) s.
Proof.
  revert b s. induction a as [|a IH]; intros b s H.
  - by destruct s.
  - destruct s as [|c s]; simpl in H; [lia|]. simpl. rewrite sapp_cons, IH by lia. done.
Qed.

Lemma substring_full s : String.substring 0 (String.length s) s = s.
Proof. induction s as [|c s IH]; simpl; [done|]. by rewrite IH. Qed.

Lemma substring_length a b s :
  (a + b <= String.length s)%nat -> String.length (String.substring a b s) = b.
Proof.
  revert a b. induction s as [|c s IH]; intros a b H; simpl in H.
  - assert (a = 0%nat) as -> by lia. assert (b = 0%nat) as -> by lia. done.
  - destruct a as [|a]; [destruct b as [|b]; [done|]; simpl; f_equal; apply IH; lia|].
    simpl. apply IH. lia.
Qed.

Lemma Parse_compact_inv s z :
  Parse_compact s = Ok z -> slen s = 8 /\ parse_digits s 0 = Some (day_num z).
Proof.
  unfold Parse_compact.
  destruct (parse_digits (String.substring 0 4 s) 0) as [y|] eqn:Hy; [|done].
  destruct (parse_digits (String.substring 4 2 s) 0) as [m|] eqn:Hm; [|done].
  destruct (parse_digits (String.substring 6 2 s) 0) as [d|] eqn:Hd; [|done].
  destruct ((slen s =? 8) && valid_date y m d) eqn:Hv; [|done]. intros [= <-].
  apply andb_true_iff in Hv as [Hlen Hv]. apply Z.eqb_eq in Hlen. split; [done|].
  assert (String.length s = 8%nat) as Hl by (unfold slen in Hlen; lia).
  rewrite day_num_days_from_civil by done.
  rewrite <- (substring_full s), Hl.
  change 8%nat with (6 + 2)%nat. rewrite <- (substring_split 6 2 s) by lia.
  change (String.substring 0 6 s) with (String.substring 0 (4 + 2) s).
  rewrite <- (substring_split 4 2 s) by lia.
  rewrite (parse_digits_app _ _ _ _ (parse_digits_app _ _ _ _ Hy Hm) Hd).
  unfold slen. rewrite !substring_length by lia. f_equal. unfold date_num. lia.
Qed.

Lemma digit_of_N c d : digit_of c = Some d -> Z.of_N (N_of_ascii c) = 48 + d.
Proof. unfold digit_of, byte_of. case_if; [|done]. intros [= <-]. lia. Qed.

(** Digit strings of the same length compare as numbers. *)
Lemma string_ltb_digits a b m n :
  String.length a = String.length b -> parse_digits a 0 = Some m -> parse_digits b 0 = Some n ->
  string_ltb a b = (m <? n).
Proof.
  assert (forall a b x y m n, String.length a = String.length b ->
            parse_digits a x = Some m -> parse_digits b y = Some n -> x < y -> m < n) as Hlt.
  { clear. induction a as [|c a IH]; intros [|d b] x y m n Hl Ha Hb Hxy; try done; simpl in *.
    - injection Ha as <-. injection Hb as <-. done.
    - destruct (digit_of c) as [dc|] eqn:Hc; [|done]. destruct (digit_of d) as [dd|] eqn:Hd; [|done].
      apply digit_of_range in Hc, Hd. eapply (IH b); [lia | done..|lia]. }
  generalize 0. revert b m n. induction a as [|c a IH]; intros [|d b] m n x Hl Ha Hb; try done; simpl in *.
  { injection Ha as <-. injection Hb as <-. unfold string_ltb, String.ltb. simpl. lia. }
  destruct (digit_of c) as [dc|] eqn:Hc; [|done]. destruct (digit_of d) as [dd|] eqn:Hd; [|done].
  apply digit_of_N in Hc as Hc', Hd as Hd'. unfold string_ltb, String.ltb. simpl.
  unfold Ascii.compare. destruct (N.compare_spec (N_of_ascii c) (N_of_ascii d)) as [Heq|Hcd|Hcd].
  - assert (dc = dd) as -> by lia. eapply (IH b); [lia | done..].
  - symmetry. apply Z.ltb_lt. eapply (Hlt a b); [lia | done.. | lia].
  - symmetry. apply Z.ltb_ge. apply Z.lt_le_incl. eapply (Hlt b a); [lia | done.. | lia].
Qed.

Lemma parse_digits_bound s a n :
  0 <= a -> parse_digits s a = Some n -> a * 10 ^ slen s <= n < (a + 1) * 10 ^ slen s.
Proof.
  revert a. induction s as [|c s IH]; intros a Ha H; cbn [parse_digits] in H.
  - injection H as <-. change (10 ^ slen "") with 1. lia.
  - destruct (digit_of c) as [d|] eqn:Hd; [|done]. apply digit_of_range in Hd.
    apply IH in H; [|lia]. unfold slen in *. cbn [String.length].
    rewrite Nat2Z.inj_succ, Z.pow_succ_r by lia. nia.
Qed.

Lemma Parse_compact_day_num s z : Parse_compact s = Ok z -> 0 <= day_num z < 10 ^ 8.
Proof.
  intros [Hl Hp]%Parse_compact_inv. apply parse_digits_bound in Hp; [|lia].
  rewrite Hl in Hp. lia.
Qed.

Lemma DaysCount_Sub b e : b <= e -> DaysCount (Sub e b) = Z.min (e - b) 106751.
Proof.
  intros H. unfold DaysCount, Sub, ns_per_day, MinInt64, MaxInt64.
  change (86400 * 10 ^ 9) with 86400000000000. change (- 2 ^ 63) with (-9223372036854775808).
  change (2 ^ 63 - 1) with 9223372036854775807.
  destruct (Z.ltb_spec ((e - b) * 86400000000000) (-9223372036854775808)); [lia|].
  destruct (Z.ltb_spec 9223372036854775807 ((e - b) * 86400000000000)).
  - change (Z.quot 9223372036854775807 86400000000000) with 106751. lia.
  - rewrite Z.quot_mul by lia. lia.
Qed.

Lemma AddDays_small b i : 0 <= i <= 106751 -> AddDays b i = b + i.
Proof.
  intros Hi. unfold AddDays, ns_per_day.
  rewrite (i64_id (24 * i)) by (unfold in_i64; lia).
  rewrite i64_id by (unfold in_i64; lia).
  replace (24 * i * (3600 * 10 ^ 9)) with (i * (86400 * 10 ^ 9)) by lia.
  rewrite Z.div_mul by lia. done.
Qed.

Lemma Atoi_day z :
  0 <= day_num z < 10 ^ 8 -> Atoi (Format_compact (civil_from_days z)) = Ok (day_num z).
Proof.
  unfold day_num. destruct (civil_from_days z) as [[y m] d] eqn:Hz.
  pose proof (civil_from_days_fields z y m d Hz). intros Hr. unfold date_num in Hr.
  apply Atoi_Format_compact; lia.
Qed.

(** The days from [begin_] to [end_], both included. *)
Definition days_between (a b : Z) : list Z :=
  day_num <$> seqZ (Z.min a b) (Z.min (Z.max a b - Z.min a b) 106751 + 1).

Lemma ParseDayRange_ok r a b za zb :
  SplitN2 r "-" = [a; b] -> Parse_compact a = Ok za -> Parse_compact b = Ok zb ->
  ParseDayRange r = Ok (days_between za zb).
Proof.
  intros Hr Ha Hb. unfold ParseDayRange. rewrite Hr.
  destruct (Parse_compact_inv a za Ha) as [La Pa], (Parse_compact_inv b zb Hb) as [Lb Pb].
  rewrite La, Lb. cbn [negb orb Z.eqb Pos.eqb].
  rewrite (string_ltb_digits b a (day_num zb) (day_num za)) by (done || unfold slen in *; lia).
  pose proof (Parse_compact_day_num _ _ Ha) as Na. pose proof (Parse_compact_day_num _ _ Hb) as Nb.
  set (lo := Z.min za zb). set (hi := Z.max za zb).
  assert (lo <= hi /\ (lo = za /\ hi = zb \/ lo = zb /\ hi = za)) as [Hlohi Hcase] by lia.
  assert (day_num lo = Z.min (day_num za) (day_num zb) /\
          day_num hi = Z.max (day_num za) (day_num zb)) as [Elo Ehi].
  { unfold lo, hi. destruct (Z.le_ge_cases za zb) as [H|H]; apply day_num_le in H as H'.
    - rewrite (Z.min_l za zb), (Z.max_r za zb) by done. lia.
    - rewrite (Z.min_r za zb), (Z.max_l za zb) by done. lia. }
  transitivity (rmap (fun i => Atoi (Format_compact (civil_from_days (AddDays lo i))))
                     (seqZ 0 (DaysCount (Sub hi lo) + 1)) : res error (list Z)).
  { destruct (Z.ltb_spec (day_num zb) (day_num za)) as [Hlt|Hge].
    - apply (proj1 (day_num_lt_iff _ _)) in Hlt. rewrite Ha, Hb. simpl.
      replace lo with zb by lia. by replace hi with za by lia.
    - assert (za <= zb) by (destruct (Z.le_gt_cases za zb) as [|H]; [done|]; apply day_num_mono in H; lia).
      rewrite Ha, Hb. simpl. replace lo with za by lia. by replace hi with zb by lia. }
  rewrite DaysCount_Sub by done. unfold days_between. fold lo hi.
  rewrite (rmap_all _ (fun i => day_num (lo + i))).
  - f_equal. set (n := Z.min (hi - lo) 106751 + 1). unfold seqZ.
    rewrite <- !list_fmap_compose. apply list_fmap_ext. intros; simpl. f_equal. lia.
  - intros i Hi%elem_of_seqZ. rewrite AddDays_small by lia. apply Atoi_day.
    assert (day_num lo <= day_num (lo + i) <= day_num hi); [|lia].
    split; apply day_num_le; lia.
Qed.

Lemma days_between_incr a b : incr (days_between a b).
Proof. apply incr_fmap; [apply day_num_mono | apply incr_seqZ]. Qed.

(** The months [y*100 + m] from [y0, m0] on. *)
Definition month_of (k : Z) : Z := k / 12 * 100 + k mod 12 + 1.
Lemma month_loop_months n y m :
  1 <= m <= 13 ->
  month_loop n y m = month_of <$> seqZ (y * 12 + m - 1) (Z.of_nat n).
Proof.
  revert y m. induction n as [|n IH]; intros y m Hm; [done|].
  rewrite seqZ_cons by lia. cbn [month_loop fmap list_fmap].
  assert (forall y m, 1 <= m <= 12 -> y * 100 + m = month_of (y * 12 + m - 1)) as Hmo.
  { clear. intros y m Hm. unfold month_of.
    replace (y * 12 + m - 1) with (m - 1 + y * 12) by lia.
    rewrite Z.div_add, Z.mod_add, Z.div_small, Z.mod_small by lia. lia. }
  replace (Z.pred (Z.of_nat (S n))) with (Z.of_nat n) by lia.
  destruct (Z.ltb_spec 12 m).
  - assert (m = 13) as -> by lia. change (Z.rem 13 12) with 1. rewrite Hmo, IH by lia.
    by replace ((y + 1) * 12 + 1 - 1) with (y * 12 + 13 - 1) by lia;
      replace ((y + 1) * 12 + (1 + 1) - 1) with (Z.succ (y * 12 + 13 - 1)) by lia.
  - rewrite Hmo, IH by lia.
    by replace (y * 12 + (m + 1) - 1) with (Z.succ (y * 12 + m - 1)) by lia.
Qed.

Lemma parse_digits_app_inv a b n :
  parse_digits (a +:+ b) 0 = Some n ->
  exists m k, parse_digits a 0 = Some m /\ parse_digits b 0 = Some k /\
    n = m * 10 ^ slen b + k /\ 0 <= k < 10 ^ slen b.
Proof.
  assert (forall t x, parse_digits (t +:+ b) x =
            match parse_digits t x with Some r => parse_digits b r | None => None end) as Happ.
  { induction t as [|c t IH]; intros x; [done|]. rewrite sapp_cons. cbn [parse_digits].
    destruct (digit_of c); [apply IH | done]. }
  rewrite Happ. destruct (parse_digits a 0) as [m|]; [|done]. intros H.
  assert (is_Some (parse_digits b 0)) as [k Hk].
  { clear -H. revert m H. generalize 0. induction b as [|c b IH]; intros z m H; [eauto|].
    cbn [parse_digits] in *. destruct (digit_of c); [|done]. by eapply IH. }
  exists m, k. split_and!; [done | done | | |].
  - rewrite (parse_digits_acc b m k Hk) in H. by injection H.
  - apply parse_digits_bound in Hk; lia.
  - apply parse_digits_bound in Hk; lia.
Qed.

(** The year and month halves of six digits. *)
Lemma month_halves a y m :
  slen a = 6 -> parse_digits a 0 = Some (y * 100 + m) -> 1 <= m <= 12 ->
  Atoi (String.substring 0 4 a) = Ok y /\ Atoi (String.substring 4 2 a) = Ok m.
Proof.
  intros Hl Hp Hm. assert (String.length a = 6%nat) as Hn by (unfold slen in Hl; lia).
  rewrite <- (substring_full a), Hn in Hp. change 6%nat with (4 + 2)%nat in Hp.
  rewrite <- (substring_split 4 2 a) in Hp by lia.
  pose proof (substring_length 0 4 a ltac:(lia)) as L1.
  pose proof (substring_length 4 2 a ltac:(lia)) as L2.
  apply parse_digits_app_inv in Hp as (y' & m' & Hy & Hm' & Heq & Hb).
  pose proof (parse_digits_bound _ 0 _ (Z.le_refl 0) Hy) as By.
  unfold slen in By, Heq, Hb. rewrite L1 in By. rewrite L2 in Heq, Hb.
  change (10 ^ Z.of_nat 2) with 100 in *. change (10 ^ Z.of_nat 4) with 10000 in *.
  assert (y = y' /\ m = m') as [<- <-] by lia.
  split; (apply Atoi_digits; [intros He; rewrite He in *; done | done | lia]).
Qed.

Definition month_index (y m : Z) : Z := y * 12 + m - 1.

Lemma month_index_lt y m y' m' :
  1 <= m <= 12 -> 1 <= m' <= 12 ->
  y * 100 + m < y' * 100 + m' <-> month_index y m < month_index y' m'.
Proof. unfold month_index. lia. Qed.

Lemma ParseMonthRange_ok r a b y m y' m' :
  SplitN2 r "-" = [a; b] -> slen a = 6 -> slen b = 6 ->
  parse_digits a 0 = Some (y * 100 + m) -> parse_digits b 0 = Some (y' * 100 + m') ->
  1 <= m <= 12 -> 1 <= m' <= 12 ->
  let k := month_index y m in let k' := month_index y' m' in
  ParseMonthRange r = Ok (month_of <$> seqZ (Z.min k k') (Z.max k k' - Z.min k k' + 1)).
Proof.
  intros Hr La Lb Pa Pb Hm Hm' k k'. unfold ParseMonthRange. rewrite Hr, La, Lb.
  cbn [negb orb Z.eqb Pos.eqb].
  rewrite (string_ltb_digits b a _ _ ltac:(unfold slen in *; lia) Pb Pa).
  destruct (month_halves a y m La Pa Hm) as [A1 A2], (month_halves b y' m' Lb Pb Hm') as [B1 B2].
  destruct (Z.ltb_spec (y' * 100 + m') (y * 100 + m)) as [Hlt|Hge];
    rewrite ?A1, ?A2, ?B1, ?B2; cbn [rbind]; rewrite month_loop_months by lia; do 3 f_equal;
    unfold k, k', month_index; lia.
Qed.

(** Whatever the configuration says, an accepted range is increasing. *)
Lemma ParseDayRange_incr r l : ParseDayRange r = Ok l -> incr l.
Proof.
  unfold ParseDayRange. destruct (SplitN2 r "-") as [|a [|b [|? ?]]] eqn:Hr; [done | | |done].
  - case_if; [done|]. intros H. inv_bind. repeat constructor.
  - intros H. destruct (negb (slen a =? 8) || negb (slen b =? 8)) eqn:Hl; [done|].
    destruct (Parse_compact a) as [za| |] eqn:Ha, (Parse_compact b) as [zb| |] eqn:Hb.
    2-9: destruct (string_ltb b a); rewrite ?Ha, ?Hb in H; try discriminate H;
         cbn [rbind] in H; rewrite ?Ha, ?Hb in H; discriminate H.
    assert (ParseDayRange r = Ok l) as H' by (unfold ParseDayRange; by rewrite Hr, Hl).
    rewrite (ParseDayRange_ok r a b za zb) in H' by done. injection H' as <-.
    apply days_between_incr.
Qed.

Lemma ParseMonthRange_incr r l : ParseMonthRange r = Ok l -> incr l.
Proof.
  unfold ParseMonthRange. destruct (SplitN2 r "-") as [|a [|b [|? ?]]]; [done | | |done].
  - case_if; [done|]. intros H. inv_bind. repeat constructor.
  - case_if; [done|]. destruct (if string_ltb b a then (b, a) else (a, b)) as [d0 d1].
    intros H. inv_bind. apply month_loop_incr.
Qed.

Lemma ParseYearRange_incr r l : ParseYearRange r = Ok l -> incr l.
Proof.
  unfold ParseYearRange. destruct (SplitN2 r "-") as [|a [|b [|? ?]]]; [done | | |done].
  - case_if; [done|]. intros H. inv_bind. repeat constructor.
  - destruct (if string_ltb b a then (b, a) else (a, b)) as [d0 d1].
    intros H. apply rbind_Ok_inv in H as (y & _ & H). apply rbind_Ok_inv in H as (y' & _ & H).
    destruct (y' =? MaxInt64); [done|]. inv_bind. apply incr_seqZ.
Qed.

(** ** Properties *)

(** [ParseDayRange] enumerates the calendar: for two valid days in
    either order it returns, in increasing order and each once, exactly
    the numbers YYYYMMDD of the days from the earlier to the later; a span
    longer than a [time.Duration] can hold is cut at 106751 days. *)
Theorem ParseDayRange_calendar r a b za zb
    (Hr : SplitN2 r "-" = [a; b]) (Ha : Parse_compact a = Ok za) (Hb : Parse_compact b = Ok zb) :
  exists l, ParseDayRange r = Ok l /\ incr l /\
    forall x, x ∈ l <-> exists z, x = day_num z /\ Z.min za zb <= z <= Z.max za zb /\
                                  z <= Z.min za zb + 106751.
Proof.
  exists (days_between za zb). split; [by eapply ParseDayRange_ok|].
  split; [apply days_between_incr|]. intros x. unfold days_between.
  rewrite list_elem_of_fmap. setoid_rewrite elem_of_seqZ.
  split; intros (z & -> & Hz); exists z; (split; [done | lia]).
Qed.

Lemma ParseDayRange_calendar_witness :
  ParseDayRange "20160301-20160227" = Ok [20160227; 20160228; 20160229; 20160301] /\
  exists l, ParseDayRange "20160301-20160227" = Ok l /\ incr l.
Proof.
  split; [vm_compute; reflexivity|].
  destruct (ParseDayRange_calendar "20160301-20160227" "20160301" "20160227" 16861 16858)
    as (l & H1 & H2 & _); [vm_compute; reflexivity.. | eauto].
Defined.

(** [ParseMonthRange] enumerates the months: for two months YYYYMM in
    either order it returns the months from the earlier to the later, each
    once and in order, across year ends. *)
Theorem ParseMonthRange_calendar r a b y m y' m'
    (Hr : SplitN2 r "-" = [a; b]) (La : slen a = 6) (Lb : slen b = 6)
    (Pa : parse_digits a 0 = Some (y * 100 + m)) (Pb : parse_digits b 0 = Some (y' * 100 + m'))
    (Hm : 1 <= m <= 12) (Hm' : 1 <= m' <= 12) :
  exists l, ParseMonthRange r = Ok l /\ incr l /\
    forall v, v ∈ l <-> exists k, v = month_of k /\
      Z.min (month_index y m) (month_index y' m') <= k <= Z.max (month_index y m) (month_index y' m').
Proof.
  pose proof (ParseMonthRange_ok r a b y m y' m' Hr La Lb Pa Pb Hm Hm') as H.
  eexists. split; [exact H|]. split; [by eapply ParseMonthRange_incr|].
  intros v. rewrite list_elem_of_fmap. setoid_rewrite elem_of_seqZ.
  split; intros (k & -> & Hk); exists k; (split; [done | lia]).
Qed.

Lemma ParseMonthRange_calendar_witness :
  ParseMonthRange "201602-201511" = Ok [201511; 201512; 201601; 201602] /\
  exists l, ParseMonthRange "201602-201511" = Ok l /\ incr l.
Proof.
  split; [vm_compute; reflexivity|].
  destruct (ParseMonthRange_calendar "201602-201511" "201602" "201511" 2016 2 2015 11)
    as (l & H1 & H2 & _); [vm_compute; reflexivity.. | lia | lia | eauto].
Defined.
