(* ===== verification/Shard.v ===== *)
(** * Shards: from a key to a table index ([proxy/router/shard.go])

    [Shard] is an interface with six implementations, here one inductive
    type with [FindForKey] dispatching on it; [RangeShard] is implemented
    by [NumRangeShard] only.  A key is the dynamic value of an
    [interface{}]. *)
From S2P Require Import Prelude Errors GoLib GoTime RouteLists NumKey.
From Stdlib Require Import Ascii.
Open Scope Z_scope.

Inductive key : Type :=
| KInt (v : Z)
| KUint64 (v : Z)
| KInt64 (v : Z)
| KString (v : string)
| KBytes (v : string)
| KOther (typ : string).       (* any other dynamic type, by its %T name *)

(** [NewKeyError("Unexpected key variable type %T", value)]. *)
Definition key_type (k : key) : string :=
  match k with
  | KInt _ => "int" | KUint64 _ => "uint64" | KInt64 _ => "int64"
  | KString _ => "string" | KBytes _ => "[]uint8" | KOther t => t
  end.
Definition unexpected_key {A} (k : key) : res error A :=
  Panic (PKeyError ("Unexpected key variable type " +:+ key_type k)).
Definition invalid_num {A} (s : string) : res error A :=
  Panic (PKeyError ("invalid num format " +:+ FormatInt (ParseInt_bad_value s))).

(** [Uint64Key.String]: eight bytes, big endian. *)
Definition Uint64Key_String (i : Z) : string :=
  foldr (fun k s => String (char_of (Z.shiftr i (8 * k))) s) "" [7; 6; 5; 4; 3; 2; 1; 0].

Definition EncodeValue (value : key) : res error string :=
  match value with
  | KInt val | KUint64 val | KInt64 val => Ok (Uint64Key_String (u64 val))
  | KString val | KBytes val => Ok val
  | KOther _ => unexpected_key value
  end.

Definition HashValue (value : key) : res error Z :=
  match value with
  | KInt val | KUint64 val | KInt64 val => Ok (u64 val)
  | KString val =>
      match ParseUint val with
      | Ok v => Ok v
      | _ => Ok (ChecksumIEEE val)
      end
  | KBytes val => Ok (ChecksumIEEE val)
  | KOther _ => unexpected_key value
  end.

Definition NumValue (value : key) : res error Z :=
  match value with
  | KInt val | KUint64 val | KInt64 val => Ok (i64 val)
  | KString val | KBytes val =>
      match ParseInt val with
      | Ok v => Ok v
      | _ => invalid_num val
      end
  | KOther _ => unexpected_key value
  end.

Inductive shard : Type :=
| HashShard (ShardNum : Z)
| NumRangeShard (Shards : list NumKeyRange)
| DateYearShard
| DateMonthShard
| DateDayShard
| DefaultShard.

Definition HashShard_FindForKey (ShardNum : Z) (k : key) : res error Z :=
  let* h := HashValue k in
  if u64 ShardNum =? 0 then Panic (PRuntime "integer divide by zero")
  else Ok (i64 (h mod u64 ShardNum)).

(** The first range that contains [v], from position [i] on. *)
Fixpoint first_range (Shards : list NumKeyRange) (i v : Z) : option Z :=
  match Shards with
  | [] => None
  | r :: l => if Contains r v then Some i else first_range l (i + 1) v
  end.

Definition NumRangeShard_FindForKey (Shards : list NumKeyRange) (k : key) : res error Z :=
  let* v := NumValue k in
  match first_range Shards 0 v with
  | Some i => Ok i
  | None => Err ErrKeyOutOfRange
  end.

(** Only a [NumRangeShard] is a [RangeShard]. *)
Definition EqualStart (Shards : list NumKeyRange) (k : key) (index : Z) : res error bool :=
  let* v := NumValue k in
  let* r := at_ Shards index in
  Ok (Start r =? v).
Definition EqualStop (Shards : list NumKeyRange) (k : key) (index : Z) : res error bool :=
  let* v := NumValue k in
  let* r := at_ Shards index in
  Ok (End_ r =? v).

Section Dates.
Context `{Timezone}.

Definition DateYearShard_FindForKey (k : key) : res error Z :=
  match k with
  | KInt val | KUint64 val | KInt64 val => Ok (unix_civil (i64 val)).1.1
  | KString val =>
      let* y := sslice val 0 4 in
      match Atoi y with
      | Ok v => Ok v
      | _ => invalid_num y
      end
  | _ => unexpected_key k
  end.

(** [dateStr[:4] + dateStr[5:7]], and with [dateStr[8:10]]. *)
Definition year_month (s : string) : res error string :=
  let* y := sslice s 0 4 in
  let* m := sslice s 5 7 in
  Ok (y +:+ m).
Definition year_month_day (s : string) : res error string :=
  let* ym := year_month s in
  let* d := sslice s 8 10 in
  Ok (ym +:+ d).

Definition invalid_date {A} (val : string) : res error A :=
  Err (Errorf ("invalid date format " +:+ val)).

Definition DateMonthShard_FindForKey (k : key) : res error Z :=
  match k with
  | KInt val | KUint64 val | KInt64 val =>
      let dateStr := Format_dashed (unix_civil (i64 val)) in
      let* s := year_month dateStr in
      Atoi s
  | KString val =>
      if slen val <? slen "2006-01-02" then invalid_date val
      else let* s := year_month val in
           match Atoi s with
           | Ok v => Ok v
           | _ => invalid_date val
           end
  | _ => unexpected_key k
  end.

Definition DateDayShard_FindForKey (k : key) : res error Z :=
  match k with
  | KInt val | KUint64 val | KInt64 val =>
      let dateStr := Format_dashed (unix_civil (i64 val)) in
      let* s := year_month_day dateStr in
      Atoi s
  | KString val =>
      if slen val <? slen "2006-01-02" then invalid_date val
      else let* s := year_month_day val in
           match Atoi s with
           | Ok v => Ok v
           | _ => invalid_date val
           end
  | _ => unexpected_key k
  end.

Definition DefaultShard_FindForKey (k : key) : res error Z := Ok 0.

Definition FindForKey (s : shard) (k : key) : res error Z :=
  match s with
  | HashShard n => HashShard_FindForKey n k
  | NumRangeShard l => NumRangeShard_FindForKey l k
  | DateYearShard => DateYearShard_FindForKey k
  | DateMonthShard => DateMonthShard_FindForKey k
  | DateDayShard => DateDayShard_FindForKey k
  | DefaultShard => DefaultShard_FindForKey k
  end.
End Dates.

(** ** Range shards *)
Lemma first_range_consecutive limit v a n :
  0 < limit -> (a + Z.of_nat n) * limit < MaxNumKey ->
  first_range ((fun i => mkNumKeyRange (i * limit) ((i + 1) * limit)) <$> seqZ a (Z.of_nat n)) a v =
  if (a * limit <=? v) && (v <? (a + Z.of_nat n) * limit) then Some (v / limit) else None.
Proof.
  intros Hl. revert a. induction n as [|n IH]; intros a Hb.
  - change (Z.of_nat 0) with 0. rewrite Z.add_0_r. simpl.
    destruct (Z.leb_spec (a * limit) v), (Z.ltb_spec v (a * limit)); done || lia.
  - rewrite seqZ_cons by lia. replace (Z.pred (Z.of_nat (S n))) with (Z.of_nat n) by lia.
    cbn [fmap list_fmap first_range]. unfold Contains; cbn [Start End_].
    replace ((a + 1) * limit =? MaxNumKey) with false by nia. cbn [orb].
    replace (Z.succ a) with (a + 1) by lia. rewrite IH by lia.
    replace (a + 1 + Z.of_nat n) with (a + Z.of_nat (S n)) by lia.
    assert ((a + 1) * limit <= (a + Z.of_nat (S n)) * limit) by (apply Z.mul_le_mono_nonneg_r; lia).
    destruct ((a * limit <=? v) && (v <? (a + 1) * limit)) eqn:Hc.
    + apply andb_true_iff in Hc as [H1%Z.leb_le H2%Z.ltb_lt].
      rewrite (proj2 (Z.leb_le _ _) H1), (proj2 (Z.ltb_lt v _)) by lia. cbn [andb]. f_equal.
      apply (Z.div_unique v limit a (v - a * limit)); lia.
    + apply andb_false_iff in Hc. case_if as H1; case_if as H2; try done; lia.
Qed.

(** [first_range] reports the position of a range that contains the key. *)
Lemma first_range_Some l i v t :
  first_range l i v = Some t ->
  exists r, 0 <= t - i /\ l !! Z.to_nat (t - i) = Some r /\ Contains r v = true.
Proof.
  revert i. induction l as [|r l IH]; intros i; simpl; [done|].
  destruct (Contains r v) eqn:Hc.
  - intros [= <-]. exists r. rewrite Z.sub_diag. auto with lia.
  - intros H%IH. destruct H as (r' & Ht & Hr' & Hc'). exists r'.
    replace (Z.to_nat (t - i)) with (S (Z.to_nat (t - (i + 1)))) by lia. auto with lia.
Qed.

(** Ranges in order: each ends before the next starts, and only the last
    may end at the greatest key. *)
Definition ranges_ordered (l : list NumKeyRange) : Prop :=
  forall i j r r', (i < j)%nat -> l !! i = Some r -> l !! j = Some r' ->
    End_ r <= Start r' /\ End_ r <> MaxNumKey.

Lemma first_range_mono l v w t u :
  ranges_ordered l -> v <= w ->
  first_range l 0 v = Some t -> first_range l 0 w = Some u -> t <= u.
Proof.
  intros Hl Hvw Ht Hu.
  apply first_range_Some in Ht as (r & Ht0 & Hr & Cr). apply first_range_Some in Hu as (r' & Hu0 & Hr' & Cr').
  rewrite Z.sub_0_r in *. destruct (Z.le_gt_cases t u) as [|Hlt]; [done|].
  destruct (Hl (Z.to_nat u) (Z.to_nat t) r' r) as [Hend Hmax]; [lia | done..|].
  unfold Contains in *. lia.
Qed.

Lemma consecutive_ordered limit n :
  0 < limit -> n * limit < MaxNumKey ->
  ranges_ordered ((fun i => mkNumKeyRange (i * limit) ((i + 1) * limit)) <$> seqZ 0 n).
Proof.
  intros Hl Hn i j r r' Hij Hi Hj.
  apply list_lookup_fmap_Some in Hi as (x & -> & Hx), Hj as (y & -> & Hy).
  apply lookup_seqZ in Hx as [-> ?], Hy as [-> ?]. simpl. nia.
Qed.

(** ** What a shard promises to the planner

    [value k] is the number the backend compares for the literal [k], and
    [table v] the sub-table of the rows whose key is [v]: the planner may
    use a table index it computed from a literal for every row with that
    key.  An ordered shard keeps the order of keys. *)
Class KeyTable `{Timezone} (sh : shard) := {
  value : key -> option Z;
  table : Z -> option Z;
  find_value : forall k v t, value k = Some v -> FindForKey sh k = Ok t -> table v = Some t
}.
Class OrderedTable `{Timezone} (sh : shard) `{!KeyTable sh} := {
  table_mono : forall v w t u, v <= w -> table v = Some t -> table w = Some u -> t <= u
}.

(** Integer columns: a literal is an [int64], or a text of decimal digits. *)
Definition hash_value (k : key) : option Z :=
  match k with
  | KInt64 v => Some v
  | KString s => match ParseUint s with
                 | Ok v => if v <? 2 ^ 63 then Some v else None
                 | _ => None
                 end
  | _ => None
  end.

#[export] Program Instance hash_KeyTable `{Timezone} n : KeyTable (HashShard n) := {|
  value := hash_value;
  table v := Some (i64 (u64 v mod u64 n))
|}.
Next Obligation.
  intros T n k v t Hv Ht. simpl in *. unfold HashShard_FindForKey, hash_value in *.
  apply rbind_Ok_inv in Ht as (h & Hh & Ht). destruct (u64 n =? 0); [done|]. injection Ht as <-.
  destruct k; simpl in *; try done.
  - by injection Hv as <-; injection Hh as <-.
  - destruct (ParseUint v0) as [w| |] eqn:Hp; [|done..].
    destruct (Z.ltb_spec w (2 ^ 63)); [|done]. injection Hv as <-. injection Hh as <-.
    unfold ParseUint in Hp. destruct v0; [done|]. destruct (parse_digits _ 0) as [m|] eqn:Hd; [|done].
    apply parse_digits_bound in Hd; [|lia]. destruct (m <? 2 ^ 64); [|done]. injection Hp as <-.
    rewrite u64_id by (unfold in_u64; lia). done.
Qed.

Definition num_value (k : key) : option Z :=
  match NumValue k with Ok v => Some v | _ => None end.

#[export] Program Instance range_KeyTable `{Timezone} l : KeyTable (NumRangeShard l) := {|
  value := num_value;
  table := first_range l 0
|}.
Next Obligation.
  intros T l k v t Hv Ht. simpl in *. unfold NumRangeShard_FindForKey, num_value in *.
  destruct (NumValue k); simplify_eq. simpl in Ht. by destruct (first_range l 0 v); simplify_eq.
Qed.

Lemma range_OrderedTable `{Timezone} l : ranges_ordered l -> OrderedTable (NumRangeShard l).
Proof. intros Hl. constructor. intros v w t u. by apply first_range_mono. Qed.

(** Date columns written as text, [YYYY-MM-DD] or [YYYY-MM-DD HH:MM:SS]:
    the digits in order, as one number. *)
Definition digits_at (s : string) (pos len : nat) : option Z :=
  parse_digits (String.substring pos len s) 0.

Definition date_value (k : key) : option Z :=
  match k with
  | KString s =>
      match digits_at s 0 4, digits_at s 5 2, digits_at s 8 2 with
      | Some y, Some m, Some d =>
          let day := (y * 100 + m) * 100 + d in
          if slen s =? 10 then Some (day * 10 ^ 6)
          else if slen s =? 19 then
            match digits_at s 11 2, digits_at s 14 2, digits_at s 17 2 with
            | Some h, Some mi, Some se => Some (day * 10 ^ 6 + (h * 100 + mi) * 100 + se)
            | _, _, _ => None
            end
          else None
      | _, _, _ => None
      end
  | _ => None
  end.

Lemma digits_at_bound s pos len n :
  (pos + len <= String.length s)%nat -> digits_at s pos len = Some n ->
  0 <= n < 10 ^ Z.of_nat len.
Proof.
  intros Hl H. apply parse_digits_bound in H; [|lia].
  unfold slen in H. rewrite substring_length in H by done. lia.
Qed.

(** The fields of a date text: ten bytes at least, and its digits. *)
Lemma date_value_inv k v :
  date_value k = Some v ->
  exists s y m d t, k = KString s /\ 10 <= slen s /\
    digits_at s 0 4 = Some y /\ digits_at s 5 2 = Some m /\ digits_at s 8 2 = Some d /\
    v = ((y * 100 + m) * 100 + d) * 10 ^ 6 + t /\ 0 <= t < 10 ^ 6 /\ 0 <= y < 10 ^ 4 /\ 
    0 <= m < 100 /\ 0 <= d < 100.
Proof.
  destruct k as [| | |s| |]; try done. cbn [date_value].
  destruct (digits_at s 0 4) as [y|] eqn:Hy; [|done]. destruct (digits_at s 5 2) as [m|] eqn:Hm; [|done].
  destruct (digits_at s 8 2) as [d|] eqn:Hd; [|done]. intros H.
  assert (10 <= slen s /\ exists t, v = ((y * 100 + m) * 100 + d) * 10 ^ 6 + t /\ 0 <= t < 10 ^ 6)
    as (Hl & t & Hv & Ht).
  { destruct (Z.eqb_spec (slen s) 10) as [Hl|_].
    { injection H as <-. split; [lia|]. exists 0. lia. }
    destruct (Z.eqb_spec (slen s) 19) as [Hl|_]; [|done]. unfold slen in *.
    destruct (digits_at s 11 2) as [h|] eqn:Hh; [|done]. destruct (digits_at s 14 2) as [mi|] eqn:Hmi; [|done].
    destruct (digits_at s 17 2) as [se|] eqn:Hse; [|done]. injection H as <-.
    apply digits_at_bound in Hh, Hmi, Hse; [|lia..]. split; [lia|]. eexists. split; [by rewrite <- Z.add_assoc|]. lia. }
  exists s, y, m, d, t. unfold slen in Hl.
  pose proof (digits_at_bound s 0 4 y ltac:(lia) Hy). pose proof (digits_at_bound s 5 2 m ltac:(lia) Hm).
  pose proof (digits_at_bound s 8 2 d ltac:(lia) Hd). auto 15.
Qed.

Lemma sslice_substring {E} s a b :
  (a <= b)%nat -> (b <= String.length s)%nat ->
  @sslice E s (Z.of_nat a) (Z.of_nat b) = Ok (String.substring a (b - a) s).
Proof.
  intros Hab Hb. unfold sslice, slen.
  replace (_ && _ && _) with true by lia. rewrite Nat2Z.id. do 2 f_equal. lia.
Qed.

Lemma year_month_digits s y m :
  (10 <= String.length s)%nat -> digits_at s 0 4 = Some y -> digits_at s 5 2 = Some m ->
  exists w, year_month s = Ok w /\ slen w = 6 /\ parse_digits w 0 = Some (y * 100 + m).
Proof.
  intros Hl Hy Hm. unfold year_month.
  rewrite (sslice_substring s 0 4), (sslice_substring s 5 7) by lia.
  eexists. split; [reflexivity|]. split.
  - unfold slen. rewrite slength_app, !substring_length by lia. done.
  - change (4 - 0)%nat with 4%nat. change (7 - 5)%nat with 2%nat.
    rewrite (parse_digits_app _ _ _ _ Hy Hm). unfold slen. rewrite substring_length by lia. done.
Qed.

Lemma year_month_day_digits s y m d :
  (10 <= String.length s)%nat ->
  digits_at s 0 4 = Some y -> digits_at s 5 2 = Some m -> digits_at s 8 2 = Some d ->
  exists w, year_month_day s = Ok w /\ slen w = 8 /\ parse_digits w 0 = Some ((y * 100 + m) * 100 + d).
Proof.
  intros Hl Hy Hm Hd. destruct (year_month_digits s y m Hl Hy Hm) as (w & Hw & Lw & Pw).
  unfold year_month_day. rewrite Hw. cbn [rbind]. rewrite (sslice_substring s 8 10) by lia.
  eexists. split; [reflexivity|]. change (10 - 8)%nat with 2%nat. split.
  - unfold slen in *. rewrite slength_app, substring_length by lia. lia.
  - rewrite (parse_digits_app _ _ _ _ Pw Hd). unfold slen. rewrite substring_length by lia. done.
Qed.

Lemma slen_neq w n : slen w = n -> 0 < n -> w <> "".
Proof. intros H Hn ->. unfold slen in H. simpl in H. lia. Qed.

Section DateTables.
Context `{Timezone}.

(** The table of a date text is a prefix of its number. *)
Lemma date_tables_value k v :
  date_value k = Some v ->
  FindForKey DateYearShard k = Ok (v / 10 ^ 10) /\
  FindForKey DateMonthShard k = Ok (v / 10 ^ 8) /\
  FindForKey DateDayShard k = Ok (v / 10 ^ 6).
Proof.
  intros (s & y & m & d & t & -> & Hl & Hy & Hm & Hd & -> & Ht & By & Bm & Bd)%date_value_inv.
  assert (10 <= String.length s)%nat as Hl' by (unfold slen in Hl; lia).
  change (10 ^ 10) with 10000000000. change (10 ^ 8) with 100000000. change (10 ^ 6) with 1000000 in *.
  change (10 ^ 4) with 10000 in *.
  cbn [FindForKey DateYearShard_FindForKey DateMonthShard_FindForKey DateDayShard_FindForKey].
  replace (slen s <? slen "2006-01-02") with false by (change (slen "2006-01-02") with 10; lia).
  split_and!.
  - rewrite (sslice_substring s 0 4) by lia. change (4 - 0)%nat with 4%nat. cbn [rbind].
    rewrite (Atoi_digits _ y); [| |done|lia].
    + f_equal. apply (Z.div_unique _ _ _ ((m * 100 + d) * 1000000 + t)); lia.
    + apply (slen_neq _ 4); [unfold slen; by rewrite substring_length by lia | lia].
  - destruct (year_month_digits s y m Hl' Hy Hm) as (w & -> & Lw & Pw). cbn [rbind].
    rewrite (Atoi_digits _ _ (slen_neq w 6 Lw eq_refl) Pw) by lia.
    f_equal. apply (Z.div_unique _ _ _ (d * 1000000 + t)); lia.
  - destruct (year_month_day_digits s y m d Hl' Hy Hm Hd) as (w & -> & Lw & Pw). cbn [rbind].
    rewrite (Atoi_digits _ _ (slen_neq w 8 Lw eq_refl) Pw) by lia.
    f_equal. apply (Z.div_unique _ _ _ t); lia.
Qed.

#[export] Program Instance year_KeyTable : KeyTable DateYearShard :=
  {| value := date_value; table v := Some (v / 10 ^ 10) |}.
Next Obligation. intros k v t Hv Ht. apply date_tables_value in Hv as (Hy & _). congruence. Qed.
#[export] Program Instance month_KeyTable : KeyTable DateMonthShard :=
  {| value := date_value; table v := Some (v / 10 ^ 8) |}.
Next Obligation. intros k v t Hv Ht. apply date_tables_value in Hv as (_ & Hm & _). congruence. Qed.
#[export] Program Instance day_KeyTable : KeyTable DateDayShard :=
  {| value := date_value; table v := Some (v / 10 ^ 6) |}.
Next Obligation. intros k v t Hv Ht. apply date_tables_value in Hv as (_ & _ & Hd). congruence. Qed.

#[export] Instance year_OrderedTable : OrderedTable DateYearShard.
Proof. constructor. intros v w t u Hvw [= <-] [= <-]. apply Z.div_le_mono; lia. Qed.
#[export] Instance month_OrderedTable : OrderedTable DateMonthShard.
Proof. constructor. intros v w t u Hvw [= <-] [= <-]. apply Z.div_le_mono; lia. Qed.
#[export] Instance day_OrderedTable : OrderedTable DateDayShard.
Proof. constructor. intros v w t u Hvw [= <-] [= <-]. apply Z.div_le_mono; lia. Qed.
End DateTables.

(** ** Properties *)

(** A range shard built by [ParseNumSharding] splits the keys exactly:
    the keys of [0, n*limit) are found in table [key/limit], whether the
    key is an integer or its decimal text, and every other key is the
    error [ErrKeyOutOfRange]. *)
Theorem NumRange_exact `{Timezone} Locations limit n rs v
    (HL : Forall (fun l => 0 <= l) Locations) (Hn : n = foldr Z.add 0 Locations)
    (Hlim : 0 < limit) (Hb : n * limit < 2 ^ 63 - 1)
    (Hrs : ParseNumSharding Locations limit = Ok rs) (Hv : in_i64 v) :
  let found := if (0 <=? v) && (v <? n * limit) then Ok (v / limit) else Err ErrKeyOutOfRange in
  FindForKey (NumRangeShard rs) (KInt64 v) = found /\
  FindForKey (NumRangeShard rs) (KString (FormatInt v)) = found.
Proof.
  rewrite (ParseNumSharding_ok Locations limit n HL Hn Hlim Hb) in Hrs. injection Hrs as <-.
  assert (0 <= n) as Hn0 by (subst n; clear -HL; induction HL; simpl; lia).
  pose proof (first_range_consecutive limit v 0 (Z.to_nat n) Hlim) as Hf.
  rewrite Z2Nat.id, !Z.add_0_l, Z.mul_0_l in Hf by done. specialize (Hf Hb).
  intros found. cbn [FindForKey]. unfold NumRangeShard_FindForKey, NumValue.
  rewrite i64_id, ParseInt_FormatInt by done. cbn [rbind]. rewrite Hf. unfold found.
  by destruct ((0 <=? v) && (v <? n * limit)).
Qed.

Lemma NumRange_exact_witness :
  let zone : Timezone := fun _ => 0 in
  exists rs, ParseNumSharding [2; 1] 100 = Ok rs /\
    FindForKey (NumRangeShard rs) (KInt64 250) = Ok 2 /\
    FindForKey (NumRangeShard rs) (KInt64 300) = Err ErrKeyOutOfRange.
Proof.
  intros zone. eexists. split; [reflexivity|]. split.
  - apply (NumRange_exact [2; 1] 100 3); try reflexivity; [repeat constructor; lia | unfold in_i64; lia].
  - apply (NumRange_exact [2; 1] 100 3); try reflexivity; [repeat constructor; lia | unfold in_i64; lia].
Defined.

(** A date text [YYYY-MM-DD], with or without a time of day, is found
    in the year, month and day table whose number is the leading digits of
    the date. *)
Theorem date_shards_digits `{Timezone} s y m d
    (Hl : slen s = 10) (Hy : digits_at s 0 4 = Some y) (Hm : digits_at s 5 2 = Some m)
    (Hd : digits_at s 8 2 = Some d) :
  FindForKey DateYearShard (KString s) = Ok y /\
  FindForKey DateMonthShard (KString s) = Ok (y * 100 + m) /\
  FindForKey DateDayShard (KString s) = Ok (date_num (y, m, d)).
Proof.
  assert (date_value (KString s) = Some (((y * 100 + m) * 100 + d) * 10 ^ 6)) as Hv.
  { cbn [date_value]. rewrite Hy, Hm, Hd, Hl. done. }
  pose proof (date_value_inv _ _ Hv) as (s' & y' & m' & d' & t' & [= <-] & _ & Hy' & Hm' & Hd' & Heq & Bt & By & Bm & Bd).
  apply date_tables_value in Hv as (-> & -> & ->). change (10 ^ 10) with 10000000000. change (10 ^ 8) with 100000000.
  change (10 ^ 6) with 1000000. simplify_eq. split_and!; f_equal; symmetry.
  - apply (Z.div_unique _ _ _ ((m * 100 + d) * 1000000)); lia.
  - apply (Z.div_unique _ _ _ (d * 1000000)); lia.
  - apply (Z.div_unique _ _ _ 0); unfold date_num; lia.
Qed.

Lemma date_shards_digits_witness :
  let zone : Timezone := fun _ => 0 in
  FindForKey DateDayShard (KString "2016-02-29") = Ok 20160229.
Proof. intros zone. apply (date_shards_digits "2016-02-29" 2016 2 29); reflexivity. Defined.

(** The hash of a negative key depends on how the literal is written:
    the integer -5 and the text "-5" are the same key for an integer
    column, and a hash shard of seven tables finds them in different
    tables, since only unsigned texts are read as numbers. *)
Theorem hash_text_of_negative_key :
  let zone : Timezone := fun _ => 0 in
  FindForKey (HashShard 7) (KInt64 (-5)) <> FindForKey (HashShard 7) (KString "-5") /\
  FindForKey (HashShard 7) (KInt64 5) = FindForKey (HashShard 7) (KString "5").
Proof. split; [vm_compute; discriminate | reflexivity]. Qed.
