(* ===== verification/Rule.v ===== *)
(** * Routing rules ([config/config.go], [proxy/router/router.go])

    A rule says how one logical table is split into sub-tables and which
    node holds each of them; [parseRule] builds it from the configuration. *)
From S2P Require Import Prelude Errors GoLib GoTime RouteLists NumKey Shard.
From Stdlib Require Import Ascii.
Open Scope Z_scope.

(** ** Configuration *)
Record ShardConfig := mkShardConfig {
  cfg_DB : string; cfg_Table : string; cfg_Key : string; cfg_Nodes : list string;
  cfg_Locations : list Z; cfg_Type : string; cfg_TableRowLimit : Z; cfg_DateRange : list string }.

Record SchemaConfig := mkSchemaConfig {
  sch_User : string; sch_Nodes : list string; sch_Default : string;
  sch_ShardRule : list ShardConfig }.

(** ** Rules *)
Definition DefaultRuleType : string := "default".
Definition HashRuleType : string := "hash".
Definition RangeRuleType : string := "range".
Definition DateYearRuleType : string := "date_year".
Definition DateMonthRuleType : string := "date_month".
Definition DateDayRuleType : string := "date_day".

Record Rule := mkRule {
  DB : string; Table : string; Key : string; Type_ : string;
  Nodes : list string;
  SubTableIndexs : list Z;
  TableToNode : gmap Z Z;
  Shard_ : shard }.

(** [r.TableToNode[t]]: zero for a table the map does not have. *)
Definition nodeOf (r : Rule) (t : Z) : Z := default 0 (TableToNode r !! t).

Definition set_DB (db : string) (r : Rule) : Rule :=
  mkRule db (Table r) (Key r) (Type_ r) (Nodes r) (SubTableIndexs r) (TableToNode r) (Shard_ r).

Definition NewDefaultRule (node : string) : Rule :=
  mkRule "" "" "" DefaultRuleType [node] [] ∅ DefaultShard.

Section Find.
Context `{Timezone}.

Definition FindTableIndex (r : Rule) (k : key) : res error Z := FindForKey (Shard_ r) k.
Definition FindNodeIndex (r : Rule) (k : key) : res error Z :=
  let* tableIndex := FindForKey (Shard_ r) k in
  Ok (nodeOf r tableIndex).
Definition FindNode (r : Rule) (k : key) : res error string :=
  let* tableIndex := FindForKey (Shard_ r) k in
  at_ (Nodes r) (nodeOf r tableIndex).
End Find.

(** ** [parseRule] *)

(** The tables and the table-to-node map collected so far. *)
Definition tables : Type := list Z * gmap Z Z.
Definition add_tables (i : Z) (new : list Z) (s : tables) : tables :=
  (s.1 ++ new, foldl (fun m t => <[t := i]> m) s.2 new).

(** The two loops over [Locations], from node [i] on. *)
Fixpoint locations_loop (i sumTables : Z) (Locations : list Z) (s : tables) : tables :=
  match Locations with
  | [] => s
  | n :: L =>
      locations_loop (i + 1) (i64 (sumTables + n)) L
        (add_tables i ((fun j => i64 (j + sumTables)) <$> seqZ 0 n) s)
  end.

(** The loop over [DateRange] of the three date rules. *)
Fixpoint dates_loop (parse : string -> res error (list Z)) (i : Z) (DateRange : list string)
    (s : tables) : res error tables :=
  match DateRange with
  | [] => Ok s
  | d :: D =>
      let* numbers := parse d in
      let currIndexLen := Z.of_nat (length s.1) in
      let* illegal :=
        if 0 <? currIndexLen
        then let* l := at_ s.1 (currIndexLen - 1) in
             let* f := at_ numbers 0 in
             Ok (f <=? l)
        else Ok false in
      if illegal then Err ErrDateIllegal
      else dates_loop parse (i + 1) D (add_tables i numbers s)
  end.

Definition date_tables (parse : string -> res error (list Z)) (cfg : ShardConfig) : res error tables :=
  if negb (Nat.eqb (length (cfg_DateRange cfg)) (length (cfg_Nodes cfg))) then Err ErrDateRangeCount
  else dates_loop parse 0 (cfg_DateRange cfg) ([], ∅).

Definition rule_tables (cfg : ShardConfig) : res error tables :=
  let ty := cfg_Type cfg in
  if String.eqb ty HashRuleType || String.eqb ty RangeRuleType then
    if negb (Nat.eqb (length (cfg_Locations cfg)) (length (cfg_Nodes cfg))) then Err ErrLocationsCount
    else Ok (locations_loop 0 0 (cfg_Locations cfg) ([], ∅))
  else if String.eqb ty DateDayRuleType then date_tables ParseDayRange cfg
  else if String.eqb ty DateMonthRuleType then date_tables ParseMonthRange cfg
  else if String.eqb ty DateYearRuleType then date_tables ParseYearRange cfg
  else Ok ([], ∅).

(** [parseShard] *)
Definition parseShard (TableToNode : gmap Z Z) (cfg : ShardConfig) : res error shard :=
  let ty := cfg_Type cfg in
  let n := Z.of_nat (size TableToNode) in
  if String.eqb ty HashRuleType then Ok (HashShard n)
  else if String.eqb ty RangeRuleType then
    let* rs := ParseNumSharding (cfg_Locations cfg) (cfg_TableRowLimit cfg) in
    if negb (Z.of_nat (length rs) =? n)
    then Err (Errorf ("range space " +:+ FormatInt (Z.of_nat (length rs)) +:+
                      " not equal tables " +:+ FormatInt n))
    else Ok (NumRangeShard rs)
  else if String.eqb ty DateDayRuleType then Ok DateDayShard
  else if String.eqb ty DateMonthRuleType then Ok DateMonthShard
  else if String.eqb ty DateYearRuleType then Ok DateYearShard
  else Ok DefaultShard.

Definition parseRule (cfg : ShardConfig) : res error Rule :=
  let* s := rule_tables cfg in
  let* sh := parseShard s.2 cfg in
  Ok (mkRule (cfg_DB cfg) (cfg_Table cfg) (ToLower (cfg_Key cfg)) (cfg_Type cfg) (cfg_Nodes cfg)
        s.1 s.2 sh).

Definition includeNode (nodes : list string) (node : string) : bool :=
  existsb (fun n => String.eqb n node) nodes.

(** ** Well-formed rules *)

(** Table indexes increase, and the map sends exactly them to node indexes
    below [n]. *)
Definition tables_wf (n : Z) (s : tables) : Prop :=
  incr s.1 /\ (forall t, is_Some (s.2 !! t) <-> t ∈ s.1) /\
  (forall t i, s.2 !! t = Some i -> 0 <= i < n).

Definition rule_wf (r : Rule) : Prop :=
  tables_wf (Z.of_nat (length (Nodes r))) (SubTableIndexs r, TableToNode r).

Lemma add_tables_map (i : Z) (new : list Z) (m : gmap Z Z) (t : Z) :
  foldl (fun m t => <[t := i]> m) m new !! t =
  if decide (t ∈ new) then Some i else m !! t.
Proof.
  revert m. induction new as [|x new IH]; intros m; simpl; [done|].
  rewrite IH. destruct (decide (t ∈ new)) as [H|H], (decide (t ∈ x :: new)) as [H'|H']; try set_solver.
  - assert (t = x) as -> by set_solver. by rewrite lookup_insert_eq.
  - rewrite lookup_insert_ne; [done|]. set_solver.
Qed.

Lemma add_tables_wf n i new s :
  tables_wf n s -> 0 <= i < n -> incr new -> (forall x y, x ∈ s.1 -> y ∈ new -> x < y) ->
  tables_wf n (add_tables i new s).
Proof.
  intros (Hi & Hd & Hn) Hin Hnew Hlt. unfold add_tables. split_and!; simpl.
  - by apply StronglySorted_app_intro.
  - intros t. rewrite add_tables_map, elem_of_app, <- Hd. case_decide; [|tauto].
    split; [by right | eauto].
  - intros t j. rewrite add_tables_map. case_decide; [congruence | apply Hn].
Qed.

Lemma locations_loop_wf n i sum L s :
  tables_wf n s -> 0 <= i -> i + Z.of_nat (length L) <= n -> 0 <= sum ->
  Forall (fun l => 0 <= l) L -> sum + foldr Z.add 0 L < 2 ^ 63 ->
  s.1 = seqZ 0 sum ->
  tables_wf n (locations_loop i sum L s) /\
  (locations_loop i sum L s).1 = seqZ 0 (sum + foldr Z.add 0 L).
Proof.
  revert i sum s. induction L as [|l L IH]; intros i sum s Hs Hi Hn Hsum HL Hb Heq; simpl in *.
  { rewrite Heq, Z.add_0_r. done. }
  apply Forall_cons in HL as [Hl HL].
  assert (0 <= foldr Z.add 0 L) by (clear -HL; induction HL; simpl; lia).
  rewrite i64_id by (unfold in_i64; lia). rewrite Z.add_assoc.
  assert ((fun j => i64 (j + sum)) <$> seqZ 0 l = seqZ sum l) as ->.
  { unfold seqZ. rewrite <- list_fmap_compose. apply list_fmap_ext. intros k x Hx.
    apply lookup_seq in Hx. simpl. rewrite i64_id by (unfold in_i64; lia). lia. }
  apply IH; [|lia..|done|lia|].
  - apply add_tables_wf; [done | lia | apply incr_seqZ|].
    rewrite Heq. intros x y Hx%elem_of_seqZ Hy%elem_of_seqZ. lia.
  - simpl. rewrite Heq, (seqZ_app 0 sum l) by lia. done.
Qed.

Lemma dates_loop_wf parse n i D s s' :
  (forall d l, parse d = Ok l -> incr l) ->
  tables_wf n s -> 0 <= i -> i + Z.of_nat (length D) <= n ->
  dates_loop parse i D s = Ok s' -> tables_wf n s'.
Proof.
  intros Hp. revert i s. induction D as [|d D IH]; intros i s Hs Hi Hn H; simpl in *.
  { by injection H as <-. }
  apply rbind_Ok_inv in H as (nums & Hnums & H).
  apply rbind_Ok_inv in H as (illegal & Hill & H).
  destruct illegal; [done|].
  apply (IH (i + 1) (add_tables i nums s)); [|lia..|done].
  apply add_tables_wf; [done | lia | by eapply Hp|].
  intros x y Hx Hy. apply Hp in Hnums.
  destruct s as [idx m]; simpl in *.
  destruct (Z.ltb_spec 0 (Z.of_nat (length idx))) as [Hlen|Hlen];
    [|destruct idx; simpl in *; [set_solver | lia]].
  apply rbind_Ok_inv in Hill as (l & Hl & Hill). apply rbind_Ok_inv in Hill as (f & Hf & Hill).
  injection Hill as Hfl. apply at_Ok in Hl as [_ Hl]. apply at_Ok in Hf as [_ Hf].
  assert (f <= y).
  { destruct nums as [|f' nums]; [done|]. injection Hf as ->.
    apply incr_cons_inv in Hnums as [_ Hnums]. apply elem_of_cons in Hy as [->|Hy]; [lia|].
    apply Hnums in Hy. lia. }
  assert (x <= l); [|lia].
  destruct Hs as [Hincr _]. simpl in Hincr. apply list_elem_of_lookup in Hx as [k Hk].
  replace (Z.to_nat (Z.of_nat (length idx) - 1)) with (length idx - 1)%nat in Hl by lia.
  pose proof (lookup_lt_Some _ _ _ Hk).
  destruct (Nat.eq_dec k (length idx - 1)) as [->|Hne]; [rewrite Hk in Hl; injection Hl as ->; lia|].
  apply Z.lt_le_incl. eapply (incr_lookup_lt idx k); [done..|lia].
Qed.

Lemma empty_tables_wf n : tables_wf n ([], ∅).
Proof.
  split_and!; [constructor | | done]. intros t; simpl.
  rewrite lookup_empty, is_Some_alt. set_solver.
Qed.

Lemma date_tables_wf parse cfg s :
  (forall d l, parse d = Ok l -> incr l) ->
  date_tables parse cfg = Ok s -> tables_wf (Z.of_nat (length (cfg_Nodes cfg))) s.
Proof.
  intros Hp. unfold date_tables. destruct (Nat.eqb_spec (length (cfg_DateRange cfg)) (length (cfg_Nodes cfg))) as [Hl|];
    [|done]. simpl. intros H. eapply (dates_loop_wf parse _ 0); [done | apply empty_tables_wf | lia | rewrite Hl; lia | done].
Qed.

(** The locations of a configuration are meant to be counts. *)
Definition locations_ok (cfg : ShardConfig) : Prop :=
  Forall (fun l => 0 <= l) (cfg_Locations cfg) /\ foldr Z.add 0 (cfg_Locations cfg) < 2 ^ 63.

Lemma rule_tables_wf cfg s :
  locations_ok cfg -> rule_tables cfg = Ok s -> tables_wf (Z.of_nat (length (cfg_Nodes cfg))) s.
Proof.
  intros [HL Hb]. unfold rule_tables.
  destruct (String.eqb _ HashRuleType || String.eqb _ RangeRuleType).
  { destruct (Nat.eqb_spec (length (cfg_Locations cfg)) (length (cfg_Nodes cfg))); [|done].
    simpl. intros [= <-].
    apply locations_loop_wf; [apply empty_tables_wf | lia | lia | lia | done | done | done]. }
  destruct (String.eqb _ DateDayRuleType); [apply date_tables_wf, ParseDayRange_incr|].
  destruct (String.eqb _ DateMonthRuleType); [apply date_tables_wf, ParseMonthRange_incr|].
  destruct (String.eqb _ DateYearRuleType); [apply date_tables_wf, ParseYearRange_incr|].
  intros [= <-]. apply empty_tables_wf.
Qed.

Lemma tables_wf_size n s : tables_wf n s -> size s.2 = length s.1.
Proof.
  intros (Hi & Hd & _). rewrite <- size_dom.
  assert (dom s.2 = list_to_set (C := gset Z) s.1) as ->.
  { apply set_eq. intros t. rewrite elem_of_dom, elem_of_list_to_set. apply Hd. }
  apply size_list_to_set. by apply incr_NoDup.
Qed.

(** [parseRule] builds a well-formed rule, and for hash and range rules a
    shard over exactly its tables. *)
Lemma parseRule_inv cfg r :
  locations_ok cfg -> parseRule cfg = Ok r ->
  rule_wf r /\ Nodes r = cfg_Nodes cfg /\ Type_ r = cfg_Type cfg /\
  parseShard (TableToNode r) cfg = Ok (Shard_ r) /\
  (cfg_Type cfg = HashRuleType \/ cfg_Type cfg = RangeRuleType ->
   SubTableIndexs r = seqZ 0 (foldr Z.add 0 (cfg_Locations cfg))).
Proof.
  intros HL H. unfold parseRule in H.
  apply rbind_Ok_inv in H as (s & Hs & H). apply rbind_Ok_inv in H as (sh & Hsh & H).
  injection H as <-. split_and!; [|done..|].
  - unfold rule_wf. simpl. destruct s. by eapply rule_tables_wf.
  - simpl. intros Hty. unfold rule_tables in Hs.
    replace (String.eqb _ HashRuleType || String.eqb _ RangeRuleType) with true in Hs
      by (by destruct Hty as [-> | ->]).
    destruct HL as [HL Hb].
    destruct (Nat.eqb_spec (length (cfg_Locations cfg)) (length (cfg_Nodes cfg))) as [Hlen|]; [|done].
    simpl in Hs. injection Hs as <-. rewrite <- (Z.add_0_l (foldr _ _ _)).
    eapply (locations_loop_wf (Z.of_nat (length (cfg_Nodes cfg))));
      [apply empty_tables_wf | lia | lia | lia | done | done | done].
Qed.

(** [foldr Z.add 0] is the number of tables. *)
Lemma sum_locations_nonneg L : Forall (fun l => 0 <= l) L -> 0 <= foldr Z.add 0 L.
Proof. induction 1; simpl; lia. Qed.

Lemma parseRule_size cfg r :
  locations_ok cfg -> parseRule cfg = Ok r ->
  cfg_Type cfg = HashRuleType \/ cfg_Type cfg = RangeRuleType ->
  Z.of_nat (size (TableToNode r)) = foldr Z.add 0 (cfg_Locations cfg).
Proof.
  intros HL Hr Hty. destruct (parseRule_inv cfg r HL Hr) as (Hwf & _ & _ & _ & Hidx).
  apply tables_wf_size in Hwf. simpl in Hwf. rewrite Hwf, Hidx, length_seqZ by done.
  destruct HL as [HL _]. apply sum_locations_nonneg in HL. lia.
Qed.

Lemma parseShard_hash m cfg : cfg_Type cfg = HashRuleType ->
  parseShard m cfg = Ok (HashShard (Z.of_nat (size m))).
Proof. intros H. unfold parseShard. by rewrite H. Qed.

Lemma parseShard_range m cfg sh : cfg_Type cfg = RangeRuleType ->
  parseShard m cfg = Ok sh ->
  exists rs, ParseNumSharding (cfg_Locations cfg) (cfg_TableRowLimit cfg) = Ok rs /\
    sh = NumRangeShard rs /\ length rs = size m.
Proof.
  intros H Hs. unfold parseShard in Hs. rewrite H in Hs. cbn [String.eqb] in Hs.
  change (if String.eqb RangeRuleType HashRuleType then _ else ?x) with x in Hs.
  apply rbind_Ok_inv in Hs as (rs & Hrs & Hs).
  destruct (Z.eqb_spec (Z.of_nat (length rs)) (Z.of_nat (size m))); [|done].
  injection Hs as <-. exists rs. auto with lia.
Qed.

(** A table of the rule has its node. *)
Lemma rule_wf_node r t :
  rule_wf r -> t ∈ SubTableIndexs r -> exists node, @at_ error string (Nodes r) (nodeOf r t) = Ok node /\ node ∈ Nodes r.
Proof.
  intros (_ & Hd & Hn) Ht. unfold nodeOf. apply Hd in Ht as [i Hi]. simpl in *. rewrite Hi. simpl.
  specialize (Hn t i Hi). destruct (lookup_lt_is_Some_2 (Nodes r) (Z.to_nat i)) as [node Hnode]; [lia|].
  exists node. split; [apply at_Ok; split; [lia | done] | by apply list_elem_of_lookup_2 in Hnode].
Qed.

Section Properties.
Context `{Timezone}.

(** The tables a hash or range rule can find are its own. *)
Lemma hash_FindTableIndex_total cfg r k :
  locations_ok cfg -> parseRule cfg = Ok r -> cfg_Type cfg = HashRuleType ->
  0 < foldr Z.add 0 (cfg_Locations cfg) -> (forall t, k <> KOther t) ->
  exists t, FindTableIndex r k = Ok t /\ t ∈ SubTableIndexs r.
Proof.
  intros HL Hr Hty Hpos Hk. destruct (parseRule_inv cfg r HL Hr) as (_ & _ & _ & Hs & Hidx).
  rewrite parseShard_hash in Hs by done. injection Hs as Hs.
  rewrite (parseRule_size cfg r HL Hr) in Hs by auto.
  rewrite Hidx by auto. set (n := foldr Z.add 0 (cfg_Locations cfg)) in *.
  assert (n < 2 ^ 63) by apply HL. unfold FindTableIndex. rewrite <- Hs. cbn [FindForKey].
  assert (exists h, HashValue k = Ok h) as [h Hh].
  { destruct k; simpl; eauto; [destruct (ParseUint v); eauto|]. by edestruct Hk. }
  unfold HashShard_FindForKey. rewrite Hh. cbn [rbind]. rewrite (u64_id n) by (unfold in_u64; lia).
  replace (n =? 0) with false by lia. pose proof (Z.mod_pos_bound h n Hpos).
  eexists. split; [reflexivity|]. rewrite i64_id by (unfold in_i64; lia).
  by apply elem_of_seqZ.
Qed.

Lemma range_FindTableIndex_in cfg r k t :
  locations_ok cfg -> parseRule cfg = Ok r -> cfg_Type cfg = RangeRuleType ->
  FindTableIndex r k = Ok t -> t ∈ SubTableIndexs r.
Proof.
  intros HL Hr Hty Ht. destruct (parseRule_inv cfg r HL Hr) as (_ & _ & _ & Hs & Hidx).
  apply parseShard_range in Hs as (rs & _ & Hs & Hlen); [|done].
  unfold FindTableIndex in Ht. rewrite Hs in Ht. cbn [FindForKey] in Ht.
  unfold NumRangeShard_FindForKey in Ht. apply rbind_Ok_inv in Ht as (v & _ & Ht).
  destruct (first_range rs 0 v) as [t'|] eqn:Hf; [|done]. injection Ht as <-.
  apply first_range_Some in Hf as (x & H0 & Hx & _). rewrite Z.sub_0_r in *.
  apply lookup_lt_Some in Hx. rewrite Hlen in Hx.
  pose proof (parseRule_size cfg r HL Hr ltac:(auto)). rewrite Hidx by auto. apply elem_of_seqZ. lia.
Qed.

(** The rules that [parseRule] accepts are well formed: the sub-table
    indexes strictly increase, [TableToNode] is defined on exactly those
    tables, and it sends each to a node of the rule.  Only hash and range
    rules need their locations to be counts that do not overflow. *)
Theorem parseRule_wf cfg r (HL : locations_ok cfg) (Hr : parseRule cfg = Ok r) :
  incr (SubTableIndexs r) /\
  (forall t, is_Some (TableToNode r !! t) <-> t ∈ SubTableIndexs r) /\
  (forall t, t ∈ SubTableIndexs r ->
     exists node, @at_ error string (Nodes r) (nodeOf r t) = Ok node /\ node ∈ cfg_Nodes cfg) /\
  Key r = ToLower (cfg_Key cfg).
Proof.
  destruct (parseRule_inv cfg r HL Hr) as (Hwf & Hnodes & _). pose proof Hwf as (Hi & Hd & _).
  split_and!; [done | done | |].
  - intros t Ht. rewrite <- Hnodes. by apply rule_wf_node.
  - unfold parseRule in Hr. by inv_bind.
Qed.

(** Routing by a hash rule is total and by a range rule closed: every
    key of a supported type has a hash table, and the table a hash or
    range rule finds for a key is one of the rule's sub-tables, for which
    [FindNode] and [FindNodeIndex] answer a node of the rule. *)
Theorem FindNode_of_rule cfg r k
    (HL : locations_ok cfg) (Hr : parseRule cfg = Ok r) (Hk : forall t, k <> KOther t)
    (Hty : cfg_Type cfg = HashRuleType /\ 0 < foldr Z.add 0 (cfg_Locations cfg) \/
           cfg_Type cfg = RangeRuleType /\ is_ok (FindTableIndex r k) = true) :
  exists t node, FindTableIndex r k = Ok t /\ t ∈ SubTableIndexs r /\
    FindNodeIndex r k = Ok (nodeOf r t) /\ FindNode r k = Ok node /\ node ∈ cfg_Nodes cfg.
Proof.
  destruct (parseRule_inv cfg r HL Hr) as (Hwf & Hnodes & _).
  assert (exists t, FindTableIndex r k = Ok t /\ t ∈ SubTableIndexs r) as (t & Ht & Hin).
  { destruct Hty as [[Hty Hpos]|[Hty Hok]]; [by eapply hash_FindTableIndex_total|].
    destruct (FindTableIndex r k) as [t| |] eqn:Ht; [|done..].
    exists t. split; [done|]. by eapply range_FindTableIndex_in. }
  destruct (rule_wf_node r t Hwf Hin) as (node & Hn & Hnn). exists t, node.
  unfold FindNodeIndex, FindNode, FindTableIndex in *. rewrite Ht. cbn [rbind].
  rewrite <- Hnodes. auto.
Qed.
End Properties.

(** A configuration of the repository's tests: three tables on two nodes. *)
Definition sample_hash : ShardConfig :=
  mkShardConfig "kingshard" "t" "ID" ["node2"; "node3"] [2; 1] HashRuleType 0 [].
Definition sample_day : ShardConfig :=
  mkShardConfig "kingshard" "d" "day" ["node2"; "node3"] [] DateDayRuleType 0
    ["20151230-20160101"; "20160305"].

Lemma parseRule_wf_witness :
  exists r, parseRule sample_day = Ok r /\ SubTableIndexs r = [20151230; 20151231; 20160101; 20160305] /\
    incr (SubTableIndexs r).
Proof.
  eexists. split; [vm_compute; reflexivity|]. split; [reflexivity|].
  apply (parseRule_wf sample_day); [repeat constructor | vm_compute; reflexivity].
Defined.

Lemma FindNode_of_rule_witness :
  let zone : Timezone := fun _ => 0 in
  exists r t node, parseRule sample_hash = Ok r /\ FindTableIndex r (KString "11") = Ok t /\
    FindNode r (KString "11") = Ok node.
Proof.
  intros zone. eexists. 
  destruct (FindNode_of_rule sample_hash
              (mkRule "kingshard" "t" "id" HashRuleType ["node2"; "node3"] [0; 1; 2]
                 (<[2 := 1]> (<[1 := 0]> (<[0 := 0]> ∅))) (HashShard 3)) (KString "11"))
    as (t & node & Ht & _ & _ & Hn & _).
  - repeat constructor; lia.
  - reflexivity.
  - done.
  - left. split; [reflexivity | done].
  - exists t, node. split; [|split; [exact Ht | exact Hn]]. reflexivity.
Defined.
