(* ===== verification/Plan.v ===== *)
(** * Query plans ([proxy/router/planbuilder.go])

    A plan is built by walking the WHERE criteria (or the VALUES rows) of a
    statement.  The code mutates the plan and the syntax tree: here both
    are passed along, and the pointer [InRightToReplace] into the tree is
    the path from the root of the criteria to that node. *)
From S2P Require Import Prelude Errors GoLib GoTime RouteLists Ast NumKey Shard Rule.
From Stdlib Require Import Ascii.
Open Scope Z_scope.

Inductive node_type : Type := EID_NODE | VALUE_NODE | LIST_NODE | OTHER_NODE.
#[export] Instance node_type_eq_dec : EqDecision node_type.
Proof. solve_decision. Defined.
Definition is_type (a b : node_type) : bool := bool_decide (a = b).

(** Steps of a path into a boolean expression. *)
Inductive dir : Type := DLeft | DRight | DExpr.
Definition path := list dir.

Inductive criteria : Type :=
| CriteriaNil
| CriteriaValues (vals : list Tuple)
| CriteriaBool (e : BoolExpr)
| CriteriaOther.

Record Plan := mkPlan {
  Plan_Rule : Rule;
  Criteria : criteria;
  KeyIndex : Z;
  Rows : gmap Z (list Tuple);
  SubTableValueGroups : gmap Z (list ValExpr);
  InRightToReplace : option path;
  RouteTableIndexs : list Z;
  RouteNodeIndexs : list Z;
  RewrittenSqls : gmap string (list string) }.

Definition new_plan (r : Rule) : Plan := mkPlan r CriteriaNil 0 ∅ ∅ None [] [] ∅.

(** Field assignments. *)
Definition set_Criteria c p := mkPlan (Plan_Rule p) c (KeyIndex p) (Rows p) (SubTableValueGroups p)
  (InRightToReplace p) (RouteTableIndexs p) (RouteNodeIndexs p) (RewrittenSqls p).
Definition set_KeyIndex k p := mkPlan (Plan_Rule p) (Criteria p) k (Rows p) (SubTableValueGroups p)
  (InRightToReplace p) (RouteTableIndexs p) (RouteNodeIndexs p) (RewrittenSqls p).
Definition set_Rows r p := mkPlan (Plan_Rule p) (Criteria p) (KeyIndex p) r (SubTableValueGroups p)
  (InRightToReplace p) (RouteTableIndexs p) (RouteNodeIndexs p) (RewrittenSqls p).
Definition set_SubTableValueGroups g p := mkPlan (Plan_Rule p) (Criteria p) (KeyIndex p) (Rows p) g
  (InRightToReplace p) (RouteTableIndexs p) (RouteNodeIndexs p) (RewrittenSqls p).
Definition set_InRightToReplace i p := mkPlan (Plan_Rule p) (Criteria p) (KeyIndex p) (Rows p)
  (SubTableValueGroups p) i (RouteTableIndexs p) (RouteNodeIndexs p) (RewrittenSqls p).
Definition set_Routes t n p := mkPlan (Plan_Rule p) (Criteria p) (KeyIndex p) (Rows p)
  (SubTableValueGroups p) (InRightToReplace p) t n (RewrittenSqls p).
Definition set_RewrittenSqls s p := mkPlan (Plan_Rule p) (Criteria p) (KeyIndex p) (Rows p)
  (SubTableValueGroups p) (InRightToReplace p) (RouteTableIndexs p) (RouteNodeIndexs p) s.

(** ** Values *)

(** [getValueType]: the kind of an operand; a column qualified by the
    rule's table loses its qualifier.  A list is scanned up to the first
    element that is not a value. *)
Definition unqualify (r : Rule) (c : colname) : colname :=
  if String.eqb (default "" (ColName_Qualifier c)) (Table r) then mkColName (ColName_Name c) None else c.

Definition scan_values (f : ValExpr -> node_type * ValExpr) : list ValExpr -> bool * list ValExpr :=
  fix scan l :=
    match l with
    | [] => (true, [])
    | n :: l =>
        let '(t, n') := f n in
        if is_type t VALUE_NODE
        then let '(b, l') := scan l in (b, n' :: l')
        else (false, n' :: l)
    end.

Fixpoint getValueType (r : Rule) (valExpr : ValExpr) : node_type * ValExpr :=
  match valExpr with
  | ColName c =>
      (if String.eqb (ToLower (ColName_Name c)) (Key r) then EID_NODE else OTHER_NODE,
       ColName (unqualify r c))
  | ValTuple l =>
      let '(all_values, l') := scan_values (getValueType r) l in
      (if all_values then LIST_NODE else OTHER_NODE, ValTuple l')
  | StrVal _ | NumVal _ | ValArg _ => (VALUE_NODE, valExpr)
  | _ => (OTHER_NODE, valExpr)
  end.

(** [strconv.NumError.Error]; the text is quoted. *)
Definition NumError_Error (func num : string) : string :=
  "strconv." +:+ func +:+ ": parsing " +:+
  String (char_of 34) (num +:+ String (char_of 34) ": ") +:+
  (if ParseInt_bad_value num =? 0 then "invalid syntax" else "value out of range").

Fixpoint getBoundValue (valExpr : ValExpr) : res error key :=
  match valExpr with
  | ValTuple [n] => getBoundValue n
  | ValTuple _ => Panic (PParserError "tuples not allowed as insert values")
  | StrVal b => Ok (KString b)
  | NumVal b =>
      match ParseInt b with
      | Ok val => Ok (KInt64 val)
      | _ => Panic (PParserError (NumError_Error "ParseInt" b))
      end
  | _ => Panic (PString "Unexpected token")
  end.

Section Planner.
Context `{Timezone} `{MapOrder}.

Definition getTableIndexByValue (r : Rule) (valExpr : ValExpr) : res error Z :=
  let* value := getBoundValue valExpr in
  FindTableIndex r value.

Definition adjustShardIndex (r : Rule) (valExpr : ValExpr) (index : Z) : res error Z :=
  let* value := getBoundValue valExpr in
  match Shard_ r with
  | NumRangeShard s =>
      let* eq := EqualStart s value index in
      if eq then
        let index := index - 1 in
        if index <? 0 then Panic (PParserError "invalid range sharding") else Ok index
      else Ok index
  | _ => Ok index
  end.

(** [getTableIndexsByTuple]: the values of a list by table. *)
Definition add_to_group {A} (groups : gmap Z (list A)) (index : Z) (n : A) : gmap Z (list A) :=
  <[index := default [] (groups !! index) ++ [n]]> groups.

Definition group_values (r : Rule) (l : list ValExpr) : res error (gmap Z (list ValExpr)) :=
  rfold (fun groups n =>
           let* index := getTableIndexByValue r n in
           Ok (add_to_group groups index n)) ∅ l.

Definition tuple_values (valExpr : ValExpr) : list ValExpr :=
  match valExpr with ValTuple l => l | _ => [] end.

Definition getTableIndexsByTuple (p : Plan) (valExpr : ValExpr) : res error (list Z * Plan) :=
  let* shardset := group_values (Plan_Rule p) (tuple_values valExpr) in
  Ok (sort_Ints (range_keys (dom shardset)), set_SubTableValueGroups shardset p).

Definition notList (p : Plan) (l : list Z) : list Z :=
  differentList (SubTableIndexs (Plan_Rule p)) l.

(** The operand that is not the shard key, and whether the key is on the
    left. *)
Definition key_left (r : Rule) (lft : ValExpr) : bool := is_type (getValueType r lft).1 EID_NODE.

(** [case "=", "<=>"] of the three functions below. *)
Definition equal_index (r : Rule) (lft right_ : ValExpr) : res error Z :=
  if key_left r lft then getTableIndexByValue r right_ else getTableIndexByValue r lft.

Definition subtables_count (r : Rule) : Z := Z.of_nat (length (SubTableIndexs r)).

Definition getHashShardTableIndex (p : Plan) (expr : BoolExpr) : res error (list Z * Plan) :=
  let r := Plan_Rule p in
  match expr with
  | ComparisonExpr op lft right_ =>
      if StringIn op ["="; "<=>"] then
        let* index := equal_index r lft right_ in
        Ok ([index], p)
      else if StringIn op ["<"; "<="; ">"; ">="; "not in"] then Ok (SubTableIndexs r, p)
      else if StringIn op ["in"] then getTableIndexsByTuple p right_
      else Ok (RouteTableIndexs p, p)
  | _ => Ok (SubTableIndexs r, p)
  end.

(** [makeList(0, index+1)] and [makeList(index, len(SubTableIndexs))]. *)
Definition list_upto (index : Z) : res error (list Z) := makeList 0 (index + 1).
Definition list_from (r : Rule) (index : Z) : res error (list Z) := makeList index (subtables_count r).

Definition getRangeShardTableIndex (p : Plan) (expr : BoolExpr) : res error (list Z * Plan) :=
  let r := Plan_Rule p in
  match expr with
  | ComparisonExpr op lft right_ =>
      if StringIn op ["="; "<=>"] then
        let* index := equal_index r lft right_ in
        Ok ([index], p)
      else if StringIn op ["<"; "<="] then
        if key_left r lft then
          let* index := getTableIndexByValue r right_ in
          let* index := if String.eqb op "<" then adjustShardIndex r right_ index else Ok index in
          let* l := list_upto index in Ok (l, p)
        else
          let* index := getTableIndexByValue r lft in
          let* l := list_from r index in Ok (l, p)
      else if StringIn op [">"; ">="] then
        if key_left r lft then
          let* index := getTableIndexByValue r right_ in
          let* l := list_from r index in Ok (l, p)
        else
          let* index := getTableIndexByValue r lft in
          let* index := if String.eqb op ">" then adjustShardIndex r lft index else Ok index in
          let* l := list_upto index in Ok (l, p)
      else if StringIn op ["in"] then getTableIndexsByTuple p right_
      else if StringIn op ["not in"] then Ok (SubTableIndexs r, p)
      else Ok (RouteTableIndexs p, p)
  | RangeCond op _ from to =>
      let* start := getTableIndexByValue r from in
      let* last := getTableIndexByValue r to in
      if String.eqb op "between" then
        let '(start, last) := if last <? start then (last, start) else (start, last) in
        let* l := makeList start (last + 1) in Ok (l, p)
      else
        let* (start, last) :=
          if last <? start
          then let* start' := adjustShardIndex r to last in Ok (start', start)
          else let* start' := adjustShardIndex r from start in Ok (start', last) in
        let* l1 := list_upto start in
        let* l2 := list_from r last in
        Ok (unionList l1 l2, p)
  | _ => Ok (SubTableIndexs r, p)
  end.

Definition getDateShardTableIndex (p : Plan) (expr : BoolExpr) : res error (list Z * Plan) :=
  let r := Plan_Rule p in
  match expr with
  | ComparisonExpr op lft right_ =>
      if StringIn op ["="; "<=>"] then
        let* index := equal_index r lft right_ in
        Ok ([index], p)
      else if StringIn op ["<"; "<="] then
        if key_left r lft then
          let* index := getTableIndexByValue r right_ in Ok (makeLeList index (SubTableIndexs r), p)
        else
          let* index := getTableIndexByValue r lft in Ok (makeGeList index (SubTableIndexs r), p)
      else if StringIn op [">"; ">="] then
        if key_left r lft then
          let* index := getTableIndexByValue r right_ in Ok (makeGeList index (SubTableIndexs r), p)
        else
          let* index := getTableIndexByValue r lft in Ok (makeLeList index (SubTableIndexs r), p)
      else if StringIn op ["in"] then getTableIndexsByTuple p right_
      else if StringIn op ["not in"] then
        let* (l, p) := getTableIndexsByTuple p right_ in
        Ok (notList p l, p)
      else Ok (RouteTableIndexs p, p)
  | RangeCond op _ from to =>
      let* start := getTableIndexByValue r from in
      let* last := getTableIndexByValue r to in
      let '(start, last) := if last <? start then (last, start) else (start, last) in
      let l := makeBetweenList start last (SubTableIndexs r) in
      if String.eqb op "between" then Ok (l, p) else Ok (notList p l, p)
  | _ => Ok (SubTableIndexs r, p)
  end.

Definition is_date_type (ty : string) : bool :=
  StringIn ty [DateYearRuleType; DateMonthRuleType; DateDayRuleType].

Definition getTableIndexs (p : Plan) (expr : BoolExpr) : res error (list Z * Plan) :=
  let ty := Type_ (Plan_Rule p) in
  if String.eqb ty HashRuleType then getHashShardTableIndex p expr
  else if String.eqb ty RangeRuleType then getRangeShardTableIndex p expr
  else if is_date_type ty then getDateShardTableIndex p expr
  else Ok (SubTableIndexs (Plan_Rule p), p).

(** [getTableIndexByBoolExpr]: the tables that can hold a row satisfying
    the expression [node], which is found at [here] in the criteria; the
    tree it returns has lost the qualifiers [getValueType] removes. *)
Fixpoint getTableIndexByBoolExpr (p : Plan) (here : path) (node : BoolExpr)
  : res error (list Z * BoolExpr * Plan) :=
  let r := Plan_Rule p in
  match node with
  | AndExpr lft right_ =>
      let* (l1, lft', p) := getTableIndexByBoolExpr p (here ++ [DLeft]) lft in
      let* (l2, right', p) := getTableIndexByBoolExpr p (here ++ [DRight]) right_ in
      Ok (interList l1 l2, AndExpr lft' right', p)
  | OrExpr lft right_ =>
      let* (l1, lft', p) := getTableIndexByBoolExpr p (here ++ [DLeft]) lft in
      let* (l2, right', p) := getTableIndexByBoolExpr p (here ++ [DRight]) right_ in
      Ok (unionList l1 l2, OrExpr lft' right', p)
  | ParenBoolExpr e =>
      let* (l, e', p) := getTableIndexByBoolExpr p (here ++ [DExpr]) e in
      Ok (l, ParenBoolExpr e', p)
  | ComparisonExpr op lft right_ =>
      let '(tl, lft') := getValueType r lft in
      let '(tr, right') := getValueType r right_ in
      if StringIn op ["="; "<"; ">"; "<="; ">="; "<=>"] then
        let node' := ComparisonExpr op lft' right' in
        if (is_type tl EID_NODE && is_type tr VALUE_NODE) || (is_type tl VALUE_NODE && is_type tr EID_NODE)
        then let* (l, p) := getTableIndexs p node' in Ok (l, node', p)
        else Ok (SubTableIndexs r, node', p)
      else if StringIn op ["in"; "not in"] then
        let node' := ComparisonExpr op lft' right' in
        if is_type tl EID_NODE && is_type tr LIST_NODE then
          let p := if EqualFold op "in" then set_InRightToReplace (Some here) p else p in
          let* (l, p) := getTableIndexs p node' in Ok (l, node', p)
        else Ok (SubTableIndexs r, node', p)
      else Ok (SubTableIndexs r, node, p)
  | RangeCond op lft from to =>
      let '(tl, lft') := getValueType r lft in
      let '(tf, from') := getValueType r from in
      let '(tto, to') := getValueType r to in
      let node' := RangeCond op lft' from' to' in
      if is_type tl EID_NODE && is_type tf VALUE_NODE && is_type tto VALUE_NODE
      then let* (l, p) := getTableIndexs p node' in Ok (l, node', p)
      else Ok (SubTableIndexs r, node', p)
  | _ => Ok (SubTableIndexs r, node, p)
  end.

(** [TindexsToNindexs] *)
Definition TindexsToNindexs (r : Rule) (tableIndexs : list Z) : list Z :=
  cleanList (nodeOf r <$> tableIndexs).

(** [getInsertTableIndex]: the rows by table, and the tables. *)
Definition insert_row (p : Plan) (acc : list Z * gmap Z (list Tuple)) (row : Tuple)
  : res error (list Z * gmap Z (list Tuple)) :=
  match row with
  | TupleVals valueExpression =>
      if Z.of_nat (length valueExpression) <? KeyIndex p + 1 then Err ErrColsLenNotMatch
      else
        let* v := at_ valueExpression (KeyIndex p) in
        let* tableIndex := getTableIndexByValue (Plan_Rule p) v in
        Ok (acc.1 ++ [tableIndex], add_to_group acc.2 tableIndex row)
  | TupleSubquery _ => Panic (PRuntime "interface conversion")
  end.

Definition getInsertTableIndex (p : Plan) (vals : list Tuple) : res error (list Z * Plan) :=
  let* (tableIndexs, rowsToTindex) := rfold (insert_row p) ([], ∅) vals in
  Ok (cleanList tableIndexs, set_Rows (rowsToTindex ∪ Rows p) p).

(** [calRouteIndexs] *)
Definition calRouteIndexs (p : Plan) : res error Plan :=
  let r := Plan_Rule p in
  if String.eqb (Type_ r) DefaultRuleType then Ok (set_Routes (RouteTableIndexs p) [0] p)
  else
    match Criteria p with
    | CriteriaNil => Err ErrNoCriteria
    | CriteriaValues vals =>
        let* (l, p) := getInsertTableIndex p vals in
        Ok (set_Routes l (TindexsToNindexs r l) p)
    | CriteriaBool e =>
        let* (l, e', p) := getTableIndexByBoolExpr p [] e in
        Ok (set_Routes l (TindexsToNindexs r l) (set_Criteria (CriteriaBool e') p))
    | CriteriaOther =>
        let* nodes := makeList 0 (Z.of_nat (length (Nodes r))) in
        Ok (set_Routes (SubTableIndexs r) nodes p)
    end.

(** [checkValuesType]: every row is a list whose first element is a value;
    such an element is not changed by [getValueType]. *)
Fixpoint checkValuesType (r : Rule) (vals : list Tuple) : res error unit :=
  match vals with
  | [] => Ok tt
  | TupleVals tuple :: vals =>
      let* v := at_ tuple 0 in
      if is_type (getValueType r v).1 VALUE_NODE then checkValuesType r vals
      else Err ErrInsertTooComplex
  | TupleSubquery _ :: _ => Err ErrInsertTooComplex
  end.
End Planner.

(** [GetIRKeyIndex]: the position of the shard key among the columns; a
    column that is not a plain column name fails its type assertion. *)
Fixpoint find_key_column (key : string) (i : Z) (cols : list SelectExpr) : res error (option Z) :=
  match cols with
  | [] => Ok None
  | NonStarExpr (EVal (ColName c)) _ :: cols =>
      if String.eqb (ToLower (ColName_Name c)) key then Ok (Some i)
      else find_key_column key (i + 1) cols
  | _ :: _ => Panic (PRuntime "interface conversion")
  end.
Definition GetIRKeyIndex (p : Plan) (cols : list SelectExpr) : res error Plan :=
  let* i := find_key_column (Key (Plan_Rule p)) 0 cols in
  match i with
  | Some i => Ok (set_KeyIndex i p)
  | None => Err ErrIRNoShardingKey
  end.

(** ** [rewriteWhereIn]

    Replaces, for one table, the list of the recorded [in] by the values
    that belong to that table. *)
Fixpoint replace_right (p : path) (right_ : ValExpr) (node : BoolExpr) : BoolExpr :=
  match p, node with
  | [], ComparisonExpr op l _ => ComparisonExpr op l right_
  | DLeft :: p, AndExpr l r => AndExpr (replace_right p right_ l) r
  | DRight :: p, AndExpr l r => AndExpr l (replace_right p right_ r)
  | DLeft :: p, OrExpr l r => OrExpr (replace_right p right_ l) r
  | DRight :: p, OrExpr l r => OrExpr l (replace_right p right_ r)
  | DExpr :: p, ParenBoolExpr e => ParenBoolExpr (replace_right p right_ e)
  | _, _ => node
  end.

Definition rewriteWhereIn (p : Plan) (tableIndex : Z) (criteria : BoolExpr) : BoolExpr :=
  match InRightToReplace p, SubTableValueGroups p !! tableIndex with
  | Some here, Some group => replace_right here (ValTuple group) criteria
  | _, _ => criteria
  end.
