(* ===== verification/Routing.v ===== *)
(** * Soundness of routing

    What the planner promises: every row that satisfies the criteria is in
    one of the tables it routes to.  The criteria are read as conditions
    [atom] on the shard key, joined by AND, OR and parentheses; everything
    else in the criteria has an arbitrary truth value.  The boolean
    structure is treated once, against the class [AtomRouting]; hash, range
    and date rules are its instances. *)
From S2P Require Import Prelude Errors GoLib GoTime RouteLists Ast NumKey Shard Rule Plan.
From Stdlib Require Import Ascii.
Open Scope Z_scope.

(** ** Operands *)
Definition is_key (r : Rule) (e : ValExpr) : bool :=
  match e with ColName c => String.eqb (ToLower (ColName_Name c)) (Key r) | _ => false end.
Definition norm_val (r : Rule) (e : ValExpr) : ValExpr := (getValueType r e).2.

Lemma is_type_eq a b : is_type a b = true <-> a = b.
Proof. unfold is_type. by rewrite bool_decide_eq_true. Qed.

Lemma getValueType_key r e : is_type (getValueType r e).1 EID_NODE = is_key r e.
Proof.
  destruct e; try done; simpl.
  - by destruct (String.eqb _ _).
  - by destruct (scan_values _ l) as [[] ?].
Qed.

Lemma getValueType_value r e : is_type (getValueType r e).1 VALUE_NODE = IsValue e.
Proof.
  destruct e; try done; simpl.
  - by destruct (String.eqb _ _).
  - by destruct (scan_values _ l) as [[] ?].
Qed.

Lemma norm_val_value r e : IsValue e = true -> norm_val r e = e.
Proof. by destruct e. Qed.

Lemma getValueType_list r e :
  is_type (getValueType r e).1 LIST_NODE = IsSimpleTuple e /\
  (IsSimpleTuple e = true -> norm_val r e = e).
Proof.
  destruct e as [| | | |c|l| | | | |]; try done; [by simpl; destruct (String.eqb _ _)|].
  unfold norm_val. simpl.
  induction l as [|x l IH]; [done|]. simpl.
  pose proof (getValueType_value r x) as Hx.
  destruct (getValueType r x) as [t x'] eqn:E. simpl in Hx. rewrite Hx.
  destruct (IsValue x) eqn:Hv; simpl; [|done].
  destruct (scan_values _ l) as [b l'] eqn:Hs. simpl in IH.
  destruct b; destruct IH as [IH1 IH2]; (split; [exact IH1|]); intros H;
    [|rewrite H in IH1; discriminate IH1].
  specialize (IH2 H). assert (l' = l) as -> by congruence. cbn [snd].
  pose proof (norm_val_value r x Hv) as Hn. unfold norm_val in Hn. rewrite E in Hn. cbn [snd] in Hn.
  by rewrite Hn.
Qed.

Lemma norm_val_key r e : is_key r e = true -> is_key r (norm_val r e) = true.
Proof.
  destruct e; try done. unfold norm_val. simpl. intros H. unfold unqualify. by destruct (String.eqb _ (Table r)).
Qed.

Lemma is_key_value r e : is_key r e = true -> IsValue e = false.
Proof. by destruct e. Qed.

(** The tree after the planner has seen it. *)
Definition cmp_ops : list string := ["="; "<"; ">"; "<="; ">="; "<=>"].
Definition in_ops : list string := ["in"; "not in"].
Fixpoint norm (r : Rule) (node : BoolExpr) : BoolExpr :=
  match node with
  | AndExpr a b => AndExpr (norm r a) (norm r b)
  | OrExpr a b => OrExpr (norm r a) (norm r b)
  | ParenBoolExpr e => ParenBoolExpr (norm r e)
  | ComparisonExpr op a b =>
      if StringIn op cmp_ops || StringIn op in_ops
      then ComparisonExpr op (norm_val r a) (norm_val r b) else node
  | RangeCond op a f t => RangeCond op (norm_val r a) (norm_val r f) (norm_val r t)
  | _ => node
  end.

(** ** Conditions on the key *)
Inductive atom : Type :=
| ACmp (op : string) (key_on_left : bool) (v : ValExpr)   (* key op v, or v op key *)
| AIn (positive : bool) (vs : list ValExpr)               (* key [not] in (vs) *)
| ARange (positive : bool) (from to : ValExpr).           (* key [not] between from and to *)

Definition atom_of (r : Rule) (node : BoolExpr) : option atom :=
  match node with
  | ComparisonExpr op a b =>
      if StringIn op cmp_ops then
        if is_key r a && IsValue b then Some (ACmp op true b)
        else if IsValue a && is_key r b then Some (ACmp op false a)
        else None
      else if StringIn op in_ops then
        if is_key r a && IsSimpleTuple b then Some (AIn (String.eqb op "in") (tuple_values b)) else None
      else None
  | RangeCond op a f t =>
      if is_key r a && IsValue f && IsValue t then Some (ARange (String.eqb op "between") f t) else None
  | _ => None
  end.

Definition is_leaf (node : BoolExpr) : bool :=
  match node with AndExpr _ _ | OrExpr _ _ | ParenBoolExpr _ => false | _ => true end.

(** What a condition becomes for [getTableIndexs]. *)
Definition atom_shape (r : Rule) (a : atom) (node : BoolExpr) : Prop :=
  match a with
  | ACmp op true v =>
      StringIn op cmp_ops = true /\ exists x, node = ComparisonExpr op x v /\ key_left r x = true
  | ACmp op false v =>
      StringIn op cmp_ops = true /\ exists x, node = ComparisonExpr op v x /\ key_left r v = false
  | AIn b vs => exists x, node = ComparisonExpr (if b then "in" else "not in") x (ValTuple vs)
  | ARange b f t => exists op x, node = RangeCond op x f t /\ String.eqb op "between" = b
  end.

Lemma atom_shape_norm r node a : atom_of r node = Some a -> atom_shape r a (norm r node).
Proof.
  destruct node as [| | | |op x y|op x f t| |]; try done; cbn [atom_of norm].
  - destruct (StringIn op cmp_ops) eqn:Hop; cbn [orb].
    + destruct (is_key r x && IsValue y) eqn:Hk.
      { intros [= <-]. apply andb_true_iff in Hk as [Hk Hy]. split; [done|].
        exists (norm_val r x). rewrite (norm_val_value r y) by done. split; [done|].
        unfold key_left. rewrite getValueType_key. by apply norm_val_key. }
      destruct (IsValue x && is_key r y) eqn:Hk'; [|done].
      intros [= <-]. apply andb_true_iff in Hk' as [Hx Hy]. split; [done|].
      exists (norm_val r y). rewrite (norm_val_value r x) by done. split; [done|].
      unfold key_left. rewrite getValueType_key. by destruct x.
    + destruct (StringIn op in_ops) eqn:Hin; [|done].
      destruct (is_key r x && IsSimpleTuple y) eqn:Hk; [|done]. intros [= <-].
      apply andb_true_iff in Hk as [Hk Hy]. exists (norm_val r x).
      rewrite (proj2 (getValueType_list r y) Hy). destruct y; try done. simpl. f_equal.
      unfold StringIn, in_ops in Hin. cbn [existsb] in Hin. rewrite orb_false_r in Hin.
      destruct (String.eqb_spec op "in") as [->|]; [done|]. simpl in Hin. by apply String.eqb_eq in Hin.
  - destruct (is_key r x && IsValue f && IsValue t) eqn:Hk; [|done]. intros [= <-].
    apply andb_true_iff in Hk as [[Hk Hf]%andb_true_iff Ht].
    exists op, (norm_val r x). by rewrite (norm_val_value r f Hf), (norm_val_value r t Ht).
Qed.

Section Routing.
Context `{Timezone} `{MapOrder}.

(** [getTableIndexByBoolExpr] on an expression that is not a combination:
    a condition on the key goes to [getTableIndexs], anything else is sent
    to every table. *)
Lemma leaf_eq p here node :
  is_leaf node = true ->
  let r := Plan_Rule p in
  getTableIndexByBoolExpr p here node =
  match atom_of r node with
  | Some a =>
      let p := match a with AIn true _ => set_InRightToReplace (Some here) p | _ => p end in
      let* (l, p) := getTableIndexs p (norm r node) in Ok (l, norm r node, p)
  | None => Ok (SubTableIndexs r, norm r node, p)
  end.
Proof.
  intros Hl r. destruct node as [| | | |op x y|op x f t| |]; try done; cbn [getTableIndexByBoolExpr]; fold r.
  - pose proof (getValueType_key r x) as Kx. pose proof (getValueType_value r x) as Vx.
    pose proof (getValueType_key r y) as Ky. pose proof (getValueType_value r y) as Vy.
    pose proof (getValueType_list r y) as [Ly _].
    cbn [atom_of norm]. unfold norm_val. change cmp_ops with ["="; "<"; ">"; "<="; ">="; "<=>"].
    change in_ops with ["in"; "not in"].
    destruct (getValueType r x) as [tx x'], (getValueType r y) as [ty y']. simpl fst in *. simpl snd in *.
    rewrite Kx, Vx, Ky, Vy, Ly.
    destruct (StringIn op ["="; "<"; ">"; "<="; ">="; "<=>"]); cbn [orb].
    { by destruct (is_key r x && IsValue y), (IsValue x && is_key r y). }
    destruct (StringIn op ["in"; "not in"]) eqn:Hin; [|done].
    destruct (is_key r x && IsSimpleTuple y); [|done].
    unfold StringIn in Hin. cbn [existsb] in Hin. rewrite orb_false_r in Hin.
    apply orb_true_iff in Hin as [Hop|Hop]; apply String.eqb_eq in Hop; subst op; reflexivity.
  - pose proof (getValueType_key r x) as Kx. pose proof (getValueType_value r f) as Vf.
    pose proof (getValueType_value r t) as Vt. cbn [atom_of norm]. unfold norm_val.
    destruct (getValueType r x) as [tx x'], (getValueType r f) as [tf f'], (getValueType r t) as [tt' t'].
    simpl fst in *. simpl snd in *. rewrite Kx, Vf, Vt.
    by destruct (is_key r x && IsValue f && IsValue t).
Qed.

(** [getTableIndexs] touches nothing but [SubTableValueGroups]. *)
Definition same_frame (p p' : Plan) : Prop :=
  Plan_Rule p' = Plan_Rule p /\ RouteTableIndexs p' = RouteTableIndexs p /\
  Criteria p' = Criteria p /\ KeyIndex p' = KeyIndex p /\ Rows p' = Rows p.

Lemma same_frame_refl p : same_frame p p.
Proof. by split_and!. Qed.
Lemma same_frame_trans p q s : same_frame p q -> same_frame q s -> same_frame p s.
Proof. unfold same_frame. intros (?&?&?&?&?) (?&?&?&?&?). split_and!; congruence. Qed.

Lemma getTableIndexsByTuple_inv p e l p' :
  getTableIndexsByTuple p e = Ok (l, p') ->
  exists g, group_values (Plan_Rule p) (tuple_values e) = Ok g /\
    l = sort_Ints (range_keys (dom g)) /\ p' = set_SubTableValueGroups g p.
Proof. unfold getTableIndexsByTuple. intros Hg. inv_bind. simplify_eq. eauto. Qed.

Lemma getTableIndexs_frame p node l p' :
  getTableIndexs p node = Ok (l, p') -> same_frame p p' /\ InRightToReplace p' = InRightToReplace p.
Proof.
  assert (forall e l p', getTableIndexsByTuple p e = Ok (l, p') ->
            same_frame p p' /\ InRightToReplace p' = InRightToReplace p) as Htuple.
  { intros e l0 q Hq. apply getTableIndexsByTuple_inv in Hq as (g & _ & _ & ->). by split_and!. }
  assert (forall (m : res error (list Z)) l0 q, (let* x := m in Ok (x, p)) = Ok (l0, q) -> q = p) as Hret.
  { intros m l0 q Hq. apply rbind_Ok_inv in Hq as (? & _ & Hq). congruence. }
  intros Hg. assert (p' = p \/ (exists e l, getTableIndexsByTuple p e = Ok (l, p'))) as [->|(e & l0 & He)];
    [|split; [apply same_frame_refl | done] | by eapply Htuple].
  unfold getTableIndexs, getHashShardTableIndex, getRangeShardTableIndex, getDateShardTableIndex in Hg.
  destruct node; repeat (match type of Hg with
    | (if ?c then _ else _) = _ => destruct c
    | rbind ?m _ = _ => let x := fresh in let E := fresh in apply rbind_Ok_inv in Hg as (x & E & Hg)
    | (let '(_, _) := ?x in _) = _ => destruct x
    end); simplify_eq; eauto.
Qed.

(** The planner's pass over a tree: it normalises the tree and keeps the
    frame of the plan. *)
Lemma getTableIndexByBoolExpr_frame node p here l node' p' :
  getTableIndexByBoolExpr p here node = Ok (l, node', p') ->
  node' = norm (Plan_Rule p) node /\ same_frame p p'.
Proof.
  revert p here l node' p'.
  induction node as [a IHa b IHb|a IHa b IHb|e IHe|e IHe| | | |]; intros p here l node' p' Hg.
  1, 2: cbn [getTableIndexByBoolExpr] in Hg;
    apply rbind_Ok_inv in Hg as ([[l1 a'] p1] & H1 & Hg);
    apply rbind_Ok_inv in Hg as ([[l2 b'] p2] & H2 & Hg); injection Hg as _ <- <-;
    apply IHa in H1 as [-> F1]; apply IHb in H2 as [-> F2];
    (split; [by destruct F1 as (-> & _) | by eapply same_frame_trans]).
  2: cbn [getTableIndexByBoolExpr] in Hg; apply rbind_Ok_inv in Hg as ([[l1 e'] p1] & H1 & Hg);
     injection Hg as _ <- <-; by apply IHe in H1 as [-> F1].
  all: rewrite leaf_eq in Hg by done; destruct (atom_of (Plan_Rule p) _) as [a|];
    [|injection Hg as _ <- <-; split; [done | apply same_frame_refl]];
    apply rbind_Ok_inv in Hg as ([l1 p1] & H1 & Hg); injection Hg as _ <- <-;
    (split; [done|]); apply getTableIndexs_frame in H1 as [F _]; destruct a as [| [] |]; exact F.
Qed.

(** ** Groups of values by table *)
Definition in_table {A} (f : A -> res error Z) (t : Z) (n : A) : bool :=
  match f n with Ok i => i =? t | _ => false end.

Lemma group_fold {A} (f : A -> res error Z) l g0 g :
  rfold (fun groups n => let* index := f n in Ok (add_to_group groups index n)) g0 l = Ok g ->
  (forall n, n ∈ l -> exists i, f n = Ok i) /\
  forall t, g !! t = match List.filter (in_table f t) l with
                     | [] => g0 !! t
                     | ns => Some (default [] (g0 !! t) ++ ns)
                     end.
Proof.
  revert g0. induction l as [|n l IH]; intros g0 Hg; cbn [rfold] in Hg.
  { injection Hg as <-. split; [set_solver | done]. }
  apply rbind_Ok_inv in Hg as (g1 & H1 & Hg). apply rbind_Ok_inv in H1 as (i & Hi & H1).
  injection H1 as <-. destruct (IH _ Hg) as [Hall Ht]. split.
  { intros x [->|Hx]%elem_of_cons; [eauto | by apply Hall]. }
  intros t. rewrite Ht. cbn [List.filter]. unfold in_table at 2. rewrite Hi. unfold add_to_group.
  destruct (Z.eqb_spec i t) as [->|Hne].
  - rewrite lookup_insert_eq. simpl. destruct (List.filter _ l); [done|]. by rewrite <- app_assoc.
  - by rewrite lookup_insert_ne by done.
Qed.

(** The group of a table: the values of the list whose index it is. *)
Lemma group_values_spec r l g :
  group_values r l = Ok g ->
  (forall n, n ∈ l -> exists i, getTableIndexByValue r n = Ok i) /\
  forall t, g !! t = match List.filter (in_table (getTableIndexByValue r) t) l with
                     | [] => None
                     | ns => Some ns
                     end.
Proof.
  unfold group_values. intros Hg. apply group_fold in Hg as [Ha Ht]. split; [done|].
  intros t. rewrite Ht. by destruct (List.filter _ l); rewrite lookup_empty.
Qed.

Lemma elem_of_filter_in_table {A} (f : A -> res error Z) t l n :
  n ∈ List.filter (in_table f t) l <-> n ∈ l /\ f n = Ok t.
Proof.
  rewrite list_elem_of_In, filter_In, <- list_elem_of_In. unfold in_table.
  destruct (f n) as [i| |]; [|naive_solver..].
  destruct (Z.eqb_spec i t); naive_solver.
Qed.

Lemma group_values_dom r l g t :
  group_values r l = Ok g ->
  t ∈ sort_Ints (range_keys (dom g)) <-> exists n, n ∈ l /\ getTableIndexByValue r n = Ok t.
Proof.
  intros [_ Ht]%group_values_spec.
  rewrite (Permutation_in_iff _ _ t (sort_Ints_perm _)), (Permutation_in_iff _ _ t (range_keys_perm _)).
  rewrite elem_of_elements, elem_of_dom, Ht. setoid_rewrite <- elem_of_filter_in_table.
  destruct (List.filter _ l) as [|n ns].
  - split; [intros [? ?]; done | set_solver].
  - split; [intros _; exists n; by left | eauto].
Qed.

Lemma tuple_tables_incr (g : gmap Z (list ValExpr)) : incr (sort_Ints (range_keys (dom g))).
Proof. apply sort_Ints_incr. rewrite range_keys_perm. apply NoDup_elements. Qed.

(** ** Meaning of the criteria on a key *)
Section Meaning.
Context (r : Rule) (sh : shard) (Hsh : Shard_ r = sh) {KT : KeyTable sh}.

(** The number the backend compares for a literal. *)
Definition lit (e : ValExpr) : option Z :=
  match getBoundValue e with Ok k => value k | _ => None end.

Definition cmp (op : string) (a b : Z) : bool :=
  if String.eqb op "<" then a <? b
  else if String.eqb op "<=" then a <=? b
  else if String.eqb op ">" then b <? a
  else if String.eqb op ">=" then b <=? a
  else a =? b.

Definition atom_sem (k : Z) (a : atom) : option bool :=
  match a with
  | ACmp op key_on_left v =>
      w ← lit v; Some (if key_on_left then cmp op k w else cmp op w k)
  | AIn positive vs =>
      ws ← mapM lit vs; Some (Bool.eqb positive (existsb (Z.eqb k) ws))
  | ARange positive from to =>
      a ← lit from; b ← lit to; Some (Bool.eqb positive ((a <=? k) && (k <=? b)))
  end.

(** Whether a row whose key is [k] satisfies the criteria, [other] giving
    the truth of the parts that are not conditions on the key. *)
Fixpoint matches (k : Z) (other : BoolExpr -> bool) (node : BoolExpr) : bool :=
  match node with
  | AndExpr a b => matches k other a && matches k other b
  | OrExpr a b => matches k other a || matches k other b
  | ParenBoolExpr e => matches k other e
  | _ => match atom_of r node with
         | Some a => default (other node) (atom_sem k a)
         | None => other node
         end
  end.

(** Every condition on the key satisfies [P]. *)
Fixpoint all_atoms (P : atom -> Prop) (node : BoolExpr) : Prop :=
  match node with
  | AndExpr a b | OrExpr a b => all_atoms P a /\ all_atoms P b
  | ParenBoolExpr e => all_atoms P e
  | _ => match atom_of r node with Some a => P a | None => True end
  end.

Definition meaningful (a : atom) : Prop :=
  match a with
  | ACmp _ _ v => is_Some (lit v)
  | AIn _ vs => Forall (fun v => is_Some (lit v)) vs
  | ARange _ from to => is_Some (lit from) /\ is_Some (lit to)
  end.

Lemma lit_table v w i :
  lit v = Some w -> getTableIndexByValue r v = Ok i -> table w = Some i.
Proof using r Hsh KT.
  unfold lit, getTableIndexByValue, FindTableIndex. destruct (getBoundValue v) as [k| |]; [|done..].
  simpl. rewrite Hsh. apply find_value.
Qed.

(** What each kind of rule shows: the tables it computes for one condition
    hold the rows that satisfy it. *)
Class AtomRouting (P : atom -> Prop) : Prop := {
  atom_meaningful : forall a, P a -> meaningful a;
  atom_incr : forall p a node l p',
    Plan_Rule p = r -> atom_shape r a node -> getTableIndexs p node = Ok (l, p') -> incr l;
  atom_sound : forall p a node l p' k t,
    Plan_Rule p = r -> P a -> atom_shape r a node -> getTableIndexs p node = Ok (l, p') ->
    table k = Some t -> t ∈ SubTableIndexs r -> atom_sem k a = Some true -> t ∈ l
}.

Lemma mapM_lit vs : Forall (fun v => is_Some (lit v)) vs -> is_Some (mapM lit vs).
Proof.
  induction 1 as [|v vs [w Hw] _ [ws IH]]; [by eexists|]. cbn. rewrite Hw. cbn. rewrite IH. by eexists.
Qed.

Lemma meaningful_sem k a : meaningful a -> is_Some (atom_sem k a).
Proof.
  destruct a as [op kl v|b vs|b f t]; simpl.
  - intros [w ->]. by eexists.
  - intros Hl. destruct (mapM_lit vs Hl) as [ws ->]. by eexists.
  - intros [[x ->] [y ->]]. by eexists.
Qed.

(** The operators one by one. *)
Lemma StringIn_cases op l : StringIn op l = true <-> op ∈ l.
Proof.
  unfold StringIn. rewrite existsb_exists. setoid_rewrite <- list_elem_of_In. split.
  - intros (x & Hx & ->%String.eqb_eq). done.
  - intros Ho. exists op. by rewrite String.eqb_refl.
Qed.

(** [=] and [<=>]: the table of the literal. *)
Lemma equal_sound op kl v i k t :
  StringIn op ["="; "<=>"] = true -> getTableIndexByValue r v = Ok i ->
  table k = Some t -> atom_sem k (ACmp op kl v) = Some true -> i = t.
Proof using r Hsh KT.
  intros Hop Hi Ht Hs. simpl in Hs. destruct (lit v) as [w|] eqn:Hw; [|done].
  pose proof (lit_table v w i Hw Hi) as Hwi. simpl in Hs. injection Hs as Hs.
  assert (k = w) as ->; [|congruence].
  apply StringIn_cases in Hop. unfold cmp in Hs.
  apply elem_of_cons in Hop as [->|Hop]; [destruct kl; simpl in Hs; lia|].
  apply list_elem_of_singleton in Hop as ->. destruct kl; simpl in Hs; lia.
Qed.

Lemma mapM_lit_inv vs ws w :
  mapM lit vs = Some ws -> w ∈ ws -> exists v, v ∈ vs /\ lit v = Some w.
Proof.
  intros Hm. apply mapM_Some in Hm. induction Hm as [|v w' vs ws Hv Hm IH]; [by intros ?%not_elem_of_nil|].
  intros [->|Hw]%elem_of_cons; [exists v; split; [by left | done]|].
  destruct (IH Hw) as (v' & ? & ?). exists v'. split; [by right | done].
Qed.

Lemma in_sem k vs b :
  atom_sem k (AIn true vs) = Some b -> b = true <-> exists v, v ∈ vs /\ lit v = Some k.
Proof.
  simpl. destruct (mapM lit vs) as [ws|] eqn:Hm; [|done]. intros Hb.
  assert (b = existsb (Z.eqb k) ws) as -> by (cbn in Hb; destruct (existsb (Z.eqb k) ws); congruence).
  rewrite existsb_exists. setoid_rewrite <- list_elem_of_In. split.
  - intros (w & Hw & <-%Z.eqb_eq). by eapply mapM_lit_inv.
  - intros (v & Hv & Hk). exists k. split; [|lia].
    apply mapM_Some in Hm. apply list_elem_of_lookup in Hv as [i Hi].
    destruct (Forall2_lookup_l _ _ _ _ _ Hm Hi) as (w & Hw & Hlw).
    rewrite Hk in Hlw. injection Hlw as <-. by eapply list_elem_of_lookup_2.
Qed.

(** [in]: the tables of the values. *)
Lemma tuple_sound p vs l p' k t :
  Plan_Rule p = r -> getTableIndexsByTuple p (ValTuple vs) = Ok (l, p') ->
  incr l /\ (table k = Some t -> atom_sem k (AIn true vs) = Some true -> t ∈ l).
Proof using r Hsh KT.
  intros Hp Hg. apply getTableIndexsByTuple_inv in Hg as (g & Hg & -> & _). rewrite Hp in Hg.
  split; [apply tuple_tables_incr|]. intros Ht Hs.
  pose proof (proj1 (in_sem _ _ _ Hs) eq_refl) as (v & Hv & Hk).
  apply (group_values_dom _ _ _ t Hg). exists v. split; [done|].
  apply group_values_spec in Hg as [Hall _]. destruct (Hall v Hv) as [i Hi].
  pose proof (lit_table v k i Hk Hi). congruence.
Qed.

Lemma equal_index_shape op kl v x y node :
  atom_shape r (ACmp op kl v) node -> node = ComparisonExpr op x y ->
  equal_index r x y = getTableIndexByValue r v /\ key_left r x = kl /\ (if kl then y = v else x = v).
Proof.
  unfold equal_index. intros Hs ->.
  destruct kl; destruct Hs as (_ & z & [= -> ->] & Hk); by rewrite Hk.
Qed.

Lemma incr_singleton i : incr [i].
Proof. repeat constructor. Qed.

(** On a leaf the meaning and the planner look at the same condition. *)
Lemma leaf_matches k other node :
  is_leaf node = true ->
  matches k other node = match atom_of r node with
                         | Some a => default (other node) (atom_sem k a)
                         | None => other node
                         end.
Proof. by destruct node. Qed.
Lemma leaf_all_atoms P node :
  is_leaf node = true ->
  all_atoms P node = match atom_of r node with Some a => P a | None => True end.
Proof. by destruct node. Qed.

Lemma leaf_sound (P : atom -> Prop) `{!AtomRouting P} node p here l node' p' :
  is_leaf node = true -> incr (SubTableIndexs r) ->
  Plan_Rule p = r -> getTableIndexByBoolExpr p here node = Ok (l, node', p') ->
  incr l /\
  (all_atoms P node -> forall k other t, table k = Some t -> t ∈ SubTableIndexs r ->
     matches k other node = true -> t ∈ l).
Proof.
  intros Hleaf Hidx Hp Hg. rewrite leaf_eq in Hg by done. rewrite Hp in Hg.
  setoid_rewrite leaf_matches; [|done]. rewrite leaf_all_atoms by done.
  destruct (atom_of r node) as [a|] eqn:Ha; [|injection Hg as <- _ _; auto].
  apply rbind_Ok_inv in Hg as ([l1 p1] & H1 & Hg). injection Hg as <- _ _.
  pose proof (atom_shape_norm _ _ _ Ha) as Hs.
  assert (forall q, q = match a with AIn true _ => set_InRightToReplace (Some here) p | _ => p end ->
            Plan_Rule q = r) as Hq by (intros q ->; destruct a as [| [] |]; exact Hp).
  specialize (Hq _ eq_refl). split; [by eapply atom_incr|].
  intros HP k other t Ht Hin Hm. destruct (meaningful_sem k a (atom_meaningful a HP)) as [b Hb].
  rewrite Hb in Hm. simpl in Hm. subst b. by eapply atom_sound.
Qed.

(** Soundness for the whole boolean structure. *)
Lemma getTableIndexByBoolExpr_sound (P : atom -> Prop) `{!AtomRouting P} node :
  incr (SubTableIndexs r) ->
  forall p here l node' p',
  Plan_Rule p = r -> getTableIndexByBoolExpr p here node = Ok (l, node', p') ->
  incr l /\
  (all_atoms P node -> forall k other t, table k = Some t -> t ∈ SubTableIndexs r ->
     matches k other node = true -> t ∈ l).
Proof.
  intros Hidx. induction node as [a IHa b IHb|a IHa b IHb|e IHe|e IHe| | | |];
    intros p here l node' p' Hp Hg; try (by eapply leaf_sound).
  1, 2: cbn [getTableIndexByBoolExpr] in Hg;
    apply rbind_Ok_inv in Hg as ([[l1 a'] p1] & H1 & Hg);
    apply rbind_Ok_inv in Hg as ([[l2 b'] p2] & H2 & Hg); injection Hg as <- <- <-;
    pose proof (getTableIndexByBoolExpr_frame _ _ _ _ _ _ H1) as (_ & Hr1 & _);
    destruct (IHa _ _ _ _ _ Hp H1) as [I1 S1]; rewrite Hp in Hr1;
    destruct (IHb _ _ _ _ _ Hr1 H2) as [I2 S2].
  - destruct (interList_spec l1 l2 I1 I2) as [I Hel]. split; [done|].
    cbn [all_atoms matches]. intros [Pa Pb] k other t Ht Hin [Ma Mb]%andb_true_iff.
    apply Hel. eauto.
  - destruct (unionList_spec l1 l2 I1 I2) as [I Hel]. split; [done|].
    cbn [all_atoms matches]. intros [Pa Pb] k other t Ht Hin [Ma|Mb]%orb_true_iff; apply Hel; eauto.
  - cbn [getTableIndexByBoolExpr] in Hg.
    apply rbind_Ok_inv in Hg as ([[l1 a'] p1] & H1 & Hg). injection Hg as <- <- <-. by eapply IHe.
Qed.
End Meaning.

(** ** Hash rules *)
Section Hash.
Context (r : Rule) (n : Z).
Hypothesis Hty : Type_ r = HashRuleType.
Hypothesis Hsh : Shard_ r = HashShard n.
Hypothesis Hidx : incr (SubTableIndexs r).

Lemma hash_tables p a node l p' :
  Plan_Rule p = r -> atom_shape r a node -> getTableIndexs p node = Ok (l, p') ->
  l = SubTableIndexs r \/
  (exists op kl v i, a = ACmp op kl v /\ StringIn op ["="; "<=>"] = true /\
     getTableIndexByValue r v = Ok i /\ l = [i]) \/
  (exists vs, a = AIn true vs /\ getTableIndexsByTuple p (ValTuple vs) = Ok (l, p')).
Proof using Hty.
  intros Hp Hs Hg. unfold getTableIndexs in Hg. rewrite Hp, Hty in Hg.
  change (String.eqb HashRuleType HashRuleType) with true in Hg. cbv iota in Hg.
  destruct a as [op kl v|b vs|b f t].
  - assert (exists x y, node = ComparisonExpr op x y /\ StringIn op cmp_ops = true) as (x & y & -> & Hop).
    { destruct kl; destruct Hs as (Hop & z & -> & _); eauto. }
    destruct (equal_index_shape r op kl v x y _ Hs eq_refl) as [Heq _].
    cbn [getHashShardTableIndex] in Hg. rewrite Hp, Heq in Hg.
    destruct (StringIn op ["="; "<=>"]) eqn:Hop1.
    + apply rbind_Ok_inv in Hg as (i & Hi & Hg). injection Hg as <- _. right; left. eauto 10.
    + replace (StringIn op ["<"; "<="; ">"; ">="; "not in"]) with true in Hg; [|symmetry].
      { left. congruence. }
      apply StringIn_cases. apply StringIn_cases in Hop.
      assert (op ∉ ["="; "<=>"]) as Hn by (intros Hx; apply StringIn_cases in Hx; congruence).
      unfold cmp_ops in Hop. clear -Hop Hn. set_solver.
  - destruct Hs as [x ->]. cbn [getHashShardTableIndex] in Hg.
    destruct b; cbn in Hg; [right; right; eauto | left; congruence].
  - destruct Hs as (op & x & -> & _). cbn in Hg. left. congruence.
Qed.

#[export] Instance hash_AtomRouting : AtomRouting r (HashShard n) (meaningful (HashShard n)).
Proof using Hty Hsh Hidx.
  split; [done | |].
  - intros p a node l p' Hp Hs Hg. destruct (hash_tables p a node l p' Hp Hs Hg)
      as [->|[(op & kl & v & i & -> & _ & _ & ->)|(vs & -> & Hg')]];
      [done | apply incr_singleton | by eapply (tuple_sound r (HashShard n) Hsh p vs l p' 0 0)].
  - intros p a node l p' k t Hp Ha Hs Hg Ht Hin Hm. destruct (hash_tables p a node l p' Hp Hs Hg)
      as [->|[(op & kl & v & i & -> & Hop & Hi & ->)|(vs & -> & Hg')]]; [done | |].
    + apply list_elem_of_singleton. symmetry. by eapply (equal_sound r (HashShard n) Hsh).
    + by eapply (tuple_sound r (HashShard n) Hsh).
Qed.
End Hash.

Lemma list_upto_spec i l : list_upto i = Ok l -> incr l /\ forall t, t ∈ l <-> 0 <= t <= i.
Proof.
  unfold list_upto. intros Hl. split; [by eapply makeList_incr|].
  intros t. rewrite (makeList_elem _ _ _ t Hl). lia.
Qed.

(** ** Range rules *)
Section Range.
Context (r : Rule) (rs : list NumKeyRange) (n : Z).
Hypothesis Hty : Type_ r = RangeRuleType.
Hypothesis Hsh : Shard_ r = NumRangeShard rs.
Hypothesis Hord : ranges_ordered rs.
Hypothesis Hidx : SubTableIndexs r = seqZ 0 n.

Local Notation sh := (NumRangeShard rs).

(** The bounds of [not between] are in order. *)
Definition range_ok (a : atom) : Prop :=
  meaningful sh a /\
  match a with
  | ARange false from to => forall x y, lit sh from = Some x -> lit sh to = Some y -> x <= y
  | _ => True
  end.

Lemma range_table_mono v w t u :
  v <= w -> first_range rs 0 v = Some t -> first_range rs 0 w = Some u -> t <= u.
Proof using Hord. by apply first_range_mono. Qed.

(** The literal's table, as [getTableIndexByValue] finds it. *)
Lemma range_lit v w i :
  lit sh v = Some w -> getTableIndexByValue r v = Ok i -> first_range rs 0 w = Some i.
Proof using Hsh. intros Hw Hi. exact (lit_table r sh Hsh v w i Hw Hi). Qed.

(** After the adjustment for a strict bound, the keys below the literal are
    in the tables up to the adjusted index. *)
Lemma adjust_below v w i j k t :
  lit sh v = Some w -> getTableIndexByValue r v = Ok i -> adjustShardIndex r v i = Ok j ->
  k < w -> first_range rs 0 k = Some t -> t <= j.
Proof using Hsh Hord.
  intros Hw Hi Hj Hk Ht. pose proof (range_lit v w i Hw Hi) as Hwi.
  pose proof (range_table_mono k w t i ltac:(lia) Ht Hwi) as Hti.
  unfold adjustShardIndex in Hj. rewrite Hsh in Hj.
  apply rbind_Ok_inv in Hj as (kv & Hkv & Hj). apply rbind_Ok_inv in Hj as (eq & Heq & Hj).
  destruct eq; [|congruence]. destruct (i - 1 <? 0); [done|]. injection Hj as <-.
  destruct (Z.eq_dec t i) as [->|]; [exfalso | lia].
  unfold EqualStart in Heq. apply rbind_Ok_inv in Heq as (u & Hu & Heq).
  apply rbind_Ok_inv in Heq as (x & Hx & Heq). injection Heq as Heq. apply at_Ok in Hx as [_ Hx].
  assert (u = w) as ->.
  { unfold lit in Hw. rewrite Hkv in Hw. simpl in Hw. unfold num_value in Hw. rewrite Hu in Hw. congruence. }
  apply first_range_Some in Ht as (x' & _ & Hx' & Hc). rewrite Z.sub_0_r, Hx in Hx'. injection Hx' as <-.
  unfold Contains in Hc. lia.
Qed.

Lemma list_from_spec i l : list_from r i = Ok l -> incr l /\ forall t, t ∈ l <-> i <= t < Z.max 0 n.
Proof using Hidx.
  unfold list_from, subtables_count. rewrite Hidx, length_seqZ. intros Hl.
  split; [by eapply makeList_incr|]. intros t. rewrite (makeList_elem _ _ _ t Hl). lia.
Qed.

Lemma in_tables t : t ∈ SubTableIndexs r <-> 0 <= t < n.
Proof using Hidx. rewrite Hidx, elem_of_seqZ. lia. Qed.

Lemma range_tables_incr : incr (SubTableIndexs r).
Proof using Hidx. rewrite Hidx. apply incr_seqZ. Qed.

(** A comparison: [below] is a bound from above on the key, strict or not. *)
Definition is_eq_op (op : string) : bool := StringIn op ["="; "<=>"].
Definition is_lt_op (op : string) : bool := StringIn op ["<"; "<="].
Definition is_gt_op (op : string) : bool := StringIn op [">"; ">="].
Definition below (op : string) (kl : bool) : bool := if kl then is_lt_op op else is_gt_op op.
Definition strict (op : string) : bool := StringIn op ["<"; ">"].

Definition op_facts (op : string) : bool :=
  implb (is_lt_op op) (Bool.eqb (String.eqb op "<") (strict op) && negb (is_gt_op op)) &&
  implb (is_gt_op op) (Bool.eqb (String.eqb op ">") (strict op) && negb (is_lt_op op)) &&
  implb (negb (is_eq_op op) && negb (is_lt_op op)) (is_gt_op op).

Lemma op_facts_all op : StringIn op cmp_ops = true -> op_facts op = true.
Proof.
  intros Hop. assert (forallb op_facts cmp_ops = true) as Ha by reflexivity.
  rewrite forallb_forall in Ha. apply Ha, list_elem_of_In. by apply StringIn_cases.
Qed.

Lemma cmp_shape op kl v node :
  atom_shape r (ACmp op kl v) node ->
  exists x y, node = ComparisonExpr op x y /\ op_facts op = true /\
    equal_index r x y = getTableIndexByValue r v /\ key_left r x = kl /\ (if kl then y = v else x = v).
Proof.
  intros Hs. assert (exists x y, node = ComparisonExpr op x y /\ StringIn op cmp_ops = true) as (x & y & -> & Hop).
  { destruct kl; destruct Hs as (Hop & z & -> & _); eauto. }
  exists x, y. split; [done|]. split; [by apply op_facts_all | by eapply (equal_index_shape r op)].
Qed.

Lemma range_cmp_tables p op kl v node l p' :
  Plan_Rule p = r -> atom_shape r (ACmp op kl v) node -> getTableIndexs p node = Ok (l, p') ->
  exists i, getTableIndexByValue r v = Ok i /\
    ((is_eq_op op = true /\ l = [i]) \/
     (below op kl = true /\
        exists j, (if strict op then adjustShardIndex r v i else Ok i) = Ok j /\ list_upto j = Ok l) \/
     (below op (negb kl) = true /\ list_from r i = Ok l)).
Proof using Hty.
  intros Hp Hs Hg. unfold getTableIndexs in Hg. rewrite Hp, Hty in Hg.
  destruct (cmp_shape op kl v node Hs) as (x & y & -> & Hop & Heq & Hkl & Hv).
  change (getRangeShardTableIndex p (ComparisonExpr op x y) = Ok (l, p')) in Hg.
  cbn [getRangeShardTableIndex] in Hg. rewrite Hp, Heq, Hkl in Hg.
  fold (is_eq_op op) (is_lt_op op) (is_gt_op op) in Hg. unfold op_facts in Hop.
  destruct (is_eq_op op).
  { apply rbind_Ok_inv in Hg as (i & Hi & Hg). injection Hg as <- _. eauto. }
  destruct (is_lt_op op) eqn:Hlt.
  - assert (String.eqb op "<" = strict op) as Hst by (destruct (String.eqb op "<"), (strict op); done).
    rewrite Hst in Hg. destruct kl; rewrite Hv in Hg; apply rbind_Ok_inv in Hg as (i & Hi & Hg); exists i; (split; [done|]); right.
    + apply rbind_Ok_inv in Hg as (j & Hj & Hg). apply rbind_Ok_inv in Hg as (l0 & Hl & Hg).
      injection Hg as <- _. left. eauto.
    + apply rbind_Ok_inv in Hg as (l0 & Hl & Hg). injection Hg as <- _. right. auto.
  - assert (is_gt_op op = true) as Hgt by (by destruct (is_gt_op op)). rewrite Hgt in Hg, Hop.
    assert (String.eqb op ">" = strict op) as Hst by (destruct (String.eqb op ">"), (strict op); done).
    rewrite Hst in Hg. destruct kl; rewrite Hv in Hg; apply rbind_Ok_inv in Hg as (i & Hi & Hg); exists i; (split; [done|]); right.
    + apply rbind_Ok_inv in Hg as (l0 & Hl & Hg). injection Hg as <- _. right. auto.
    + apply rbind_Ok_inv in Hg as (j & Hj & Hg). apply rbind_Ok_inv in Hg as (l0 & Hl & Hg).
      injection Hg as <- _. left. eauto.
Qed.

(** What the truth of a comparison says about the key, by the case the
    planner is in. *)
Lemma cmp_below op kl k w :
  below op kl = true -> (if kl then cmp op k w else cmp op w k) = true ->
  if strict op then k < w else k <= w.
Proof.
  intros Hb Hc. assert (op ∈ (if kl then ["<"; "<="] else [">"; ">="])) as Hop
    by (destruct kl; by apply StringIn_cases).
  destruct kl; repeat (apply elem_of_cons in Hop as [->|Hop]);
    try (by apply not_elem_of_nil in Hop); unfold cmp in Hc; cbn in Hc |- *; lia.
Qed.

Lemma cmp_above op kl k w :
  below op (negb kl) = true -> (if kl then cmp op k w else cmp op w k) = true -> w <= k.
Proof.
  intros Hb Hc. assert (op ∈ (if kl then [">"; ">="] else ["<"; "<="])) as Hop
    by (destruct kl; by apply StringIn_cases).
  destruct kl; repeat (apply elem_of_cons in Hop as [->|Hop]);
    try (by apply not_elem_of_nil in Hop); unfold cmp in Hc; cbn in Hc; lia.
Qed.

Lemma ACmp_sem k op kl v w :
  lit sh v = Some w -> atom_sem sh k (ACmp op kl v) = Some (if kl then cmp op k w else cmp op w k).
Proof. intros Hw. cbn [atom_sem]. by rewrite Hw. Qed.

Lemma range_cmp_sound p op kl v node l p' :
  Plan_Rule p = r -> atom_shape r (ACmp op kl v) node -> getTableIndexs p node = Ok (l, p') ->
  incr l /\
  forall k t, is_Some (lit sh v) -> first_range rs 0 k = Some t -> t ∈ SubTableIndexs r ->
    atom_sem sh k (ACmp op kl v) = Some true -> t ∈ l.
Proof using Hty Hsh Hord Hidx.
  intros Hp Hs Hg. destruct (range_cmp_tables p op kl v node l p' Hp Hs Hg)
    as (i & Hi & [[Heq ->]|[(Hb & j & Hj & Hl)|[Hb Hl]]]).
  - split; [apply incr_singleton|]. intros k t _ Ht _ Hm. apply list_elem_of_singleton.
    symmetry. by eapply (equal_sound r sh Hsh op kl v i k t).
  - apply list_upto_spec in Hl as [Hinc Hl]. split; [done|].
    intros k t [w Hw] Ht Hin Hm. apply Hl. apply in_tables in Hin. split; [lia|].
    rewrite (ACmp_sem k op kl v w Hw) in Hm. injection Hm as Hm. apply (cmp_below _ _ _ _ Hb) in Hm.
    destruct (strict op).
    + by eapply adjust_below.
    + injection Hj as <-. eapply (range_table_mono k w); [done..|]. by eapply range_lit.
  - apply list_from_spec in Hl as [Hinc Hl]. split; [done|].
    intros k t [w Hw] Ht Hin Hm. apply Hl. apply in_tables in Hin. split; [|lia].
    rewrite (ACmp_sem k op kl v w Hw) in Hm. injection Hm as Hm. apply (cmp_above _ _ _ _ Hb) in Hm.
    eapply (range_table_mono w k); [done| |done]. by eapply range_lit.
Qed.

Lemma range_in_sound p b vs node l p' :
  Plan_Rule p = r -> atom_shape r (AIn b vs) node -> getTableIndexs p node = Ok (l, p') ->
  incr l /\
  forall k t, first_range rs 0 k = Some t -> t ∈ SubTableIndexs r ->
    atom_sem sh k (AIn b vs) = Some true -> t ∈ l.
Proof using Hty Hsh Hidx.
  intros Hp [x ->] Hg. unfold getTableIndexs in Hg. rewrite Hp, Hty in Hg.
  destruct b; cbn in Hg.
  - destruct (tuple_sound r sh Hsh p vs l p' 0 0 Hp Hg) as [Hinc _]. split; [done|].
    intros k t Ht _ Hm. by eapply (tuple_sound r sh Hsh p vs l p' k t Hp Hg).
  - injection Hg as <- _. rewrite Hp. split; [apply range_tables_incr | done].
Qed.

(** [between]: the tables from the lower to the upper bound. *)
Lemma range_between_sound p from to node l p' :
  Plan_Rule p = r -> atom_shape r (ARange true from to) node -> getTableIndexs p node = Ok (l, p') ->
  incr l /\
  forall k t, meaningful sh (ARange true from to) -> first_range rs 0 k = Some t ->
    atom_sem sh k (ARange true from to) = Some true -> t ∈ l.
Proof using Hty Hsh Hord.
  intros Hp (op & x & -> & Hop) Hg. unfold getTableIndexs in Hg. rewrite Hp, Hty in Hg.
  change (getRangeShardTableIndex p (RangeCond op x from to) = Ok (l, p')) in Hg.
  cbn [getRangeShardTableIndex] in Hg. rewrite Hp, Hop in Hg.
  apply rbind_Ok_inv in Hg as (i & Hi & Hg). apply rbind_Ok_inv in Hg as (j & Hj & Hg).
  destruct (if j <? i then (j, i) else (i, j)) as [a b] eqn:Hab.
  apply rbind_Ok_inv in Hg as (l0 & Hl & Hg). injection Hg as <- _.
  split; [by eapply makeList_incr|].
  intros k t [[u Hu] [w Hw]] Ht Hm. rewrite (makeList_elem _ _ _ t Hl).
  cbn [atom_sem] in Hm. rewrite Hu, Hw in Hm. cbn in Hm.
  assert (u <= k <= w) as [Huk Hkw] by (destruct (Z.leb_spec u k), (Z.leb_spec k w); done).
  pose proof (range_table_mono u k i t Huk (range_lit _ _ _ Hu Hi) Ht).
  pose proof (range_table_mono k w t j Hkw Ht (range_lit _ _ _ Hw Hj)).
  destruct (Z.ltb_spec j i); injection Hab as <- <-; lia.
Qed.

(** [not between]: the tables up to the lower bound and from the upper. *)
Lemma range_not_between_sound p from to node l p' :
  Plan_Rule p = r -> atom_shape r (ARange false from to) node -> getTableIndexs p node = Ok (l, p') ->
  incr l /\
  forall k t, range_ok (ARange false from to) -> first_range rs 0 k = Some t ->
    t ∈ SubTableIndexs r -> atom_sem sh k (ARange false from to) = Some true -> t ∈ l.
Proof using Hty Hsh Hord Hidx.
  intros Hp (op & x & -> & Hop) Hg. unfold getTableIndexs in Hg. rewrite Hp, Hty in Hg.
  change (getRangeShardTableIndex p (RangeCond op x from to) = Ok (l, p')) in Hg.
  cbn [getRangeShardTableIndex] in Hg. rewrite Hp, Hop in Hg.
  apply rbind_Ok_inv in Hg as (i & Hi & Hg). apply rbind_Ok_inv in Hg as (j & Hj & Hg).
  apply rbind_Ok_inv in Hg as ([a b] & Hab & Hg).
  apply rbind_Ok_inv in Hg as (l1 & H1 & Hg). apply rbind_Ok_inv in Hg as (l2 & H2 & Hg).
  injection Hg as <- _. apply list_upto_spec in H1 as [I1 H1]. apply list_from_spec in H2 as [I2 H2].
  destruct (unionList_spec l1 l2 I1 I2) as [Hinc Hel]. split; [done|].
  intros k t [[[u Hu] [w Hw]] Hle] Ht Hin Hm. rewrite Hel, H1, H2. apply in_tables in Hin.
  specialize (Hle u w Hu Hw).
  cbn [atom_sem] in Hm. rewrite Hu, Hw in Hm. cbn in Hm.
  pose proof (range_table_mono u w i j Hle (range_lit _ _ _ Hu Hi) (range_lit _ _ _ Hw Hj)).
  replace (j <? i) with false in Hab by lia.
  apply rbind_Ok_inv in Hab as (a' & Ha & Hab). injection Hab as <- <-.
  assert (k < u \/ w < k) as [Hk|Hk] by (destruct (Z.leb_spec u k), (Z.leb_spec k w); simpl in Hm; auto; done).
  - left. pose proof (adjust_below from u i a' k t Hu Hi Ha Hk Ht). lia.
  - right. pose proof (range_table_mono w k j t ltac:(lia) (range_lit _ _ _ Hw Hj) Ht). lia.
Qed.

#[export] Instance range_AtomRouting : AtomRouting r sh range_ok.
Proof using Hty Hsh Hord Hidx.
  split.
  - by intros a [Ha _].
  - intros p a node l p' Hp Hs Hg. destruct a as [op kl v|b vs|[] f t].
    + by eapply range_cmp_sound.
    + by eapply range_in_sound.
    + by eapply range_between_sound.
    + by eapply range_not_between_sound.
  - intros p a node l p' k t Hp [Ha Hok] Hs Hg Ht Hin Hm. destruct a as [op kl v|b vs|[] f to].
    + eapply range_cmp_sound; done.
    + eapply range_in_sound; done.
    + eapply range_between_sound; done.
    + eapply range_not_between_sound; done.
Qed.
End Range.

(** ** Date rules *)
Section Date.
Context (r : Rule) (sh : shard) {KT : KeyTable sh} {OT : OrderedTable sh}.
Hypothesis Hty : is_date_type (Type_ r) = true.
Hypothesis Hsh : Shard_ r = sh.
Hypothesis Hidx : incr (SubTableIndexs r).

(** The table of the literal is one of the rule's. *)
Definition in_rule (v : ValExpr) : Prop :=
  forall i, getTableIndexByValue r v = Ok i -> i ∈ SubTableIndexs r.

(** Date rules answer comparisons whose bounds lie in the configured dates;
    their [not in] and [not between] are left out. *)
Definition date_ok (a : atom) : Prop :=
  meaningful sh a /\
  match a with
  | ACmp op _ v => is_eq_op op = true \/ in_rule v
  | AIn b _ => b = true
  | ARange b from to => b = true /\ in_rule from /\ in_rule to
  end.

Lemma getTableIndexs_date p node :
  Plan_Rule p = r -> getTableIndexs p node = getDateShardTableIndex p node.
Proof using Hty.
  intros Hp. unfold getTableIndexs. rewrite Hp.
  destruct (String.eqb_spec (Type_ r) HashRuleType) as [He|_]; [by rewrite He in Hty|].
  destruct (String.eqb_spec (Type_ r) RangeRuleType) as [He|_]; [by rewrite He in Hty|].
  by rewrite Hty.
Qed.

Lemma date_cmp_tables p op kl v node l p' :
  Plan_Rule p = r -> atom_shape r (ACmp op kl v) node -> getTableIndexs p node = Ok (l, p') ->
  exists i, getTableIndexByValue r v = Ok i /\
    ((is_eq_op op = true /\ l = [i]) \/
     (is_eq_op op = false /\ below op kl = true /\ l = makeLeList i (SubTableIndexs r)) \/
     (is_eq_op op = false /\ below op (negb kl) = true /\ l = makeGeList i (SubTableIndexs r))).
Proof using Hty.
  intros Hp Hs Hg. rewrite getTableIndexs_date in Hg by done.
  destruct (cmp_shape r op kl v node Hs) as (x & y & -> & Hop & Heq & Hkl & Hv).
  cbn [getDateShardTableIndex] in Hg. rewrite Hp, Heq, Hkl in Hg.
  fold (is_eq_op op) (is_lt_op op) (is_gt_op op) in Hg. unfold op_facts in Hop.
  destruct (is_eq_op op).
  { apply rbind_Ok_inv in Hg as (i & Hi & Hg). injection Hg as <- _. eauto. }
  destruct (is_lt_op op) eqn:Hlt.
  - destruct kl; rewrite Hv in Hg; apply rbind_Ok_inv in Hg as (i & Hi & Hg); exists i;
      injection Hg as <- _; auto 10.
  - assert (is_gt_op op = true) as Hgt by (by destruct (is_gt_op op)). rewrite Hgt in Hg.
    destruct kl; rewrite Hv in Hg; apply rbind_Ok_inv in Hg as (i & Hi & Hg); exists i;
      injection Hg as <- _; auto 10.
Qed.

Lemma date_cmp_sound p op kl v node l p' :
  Plan_Rule p = r -> atom_shape r (ACmp op kl v) node -> getTableIndexs p node = Ok (l, p') ->
  incr l /\
  forall k t, date_ok (ACmp op kl v) -> table k = Some t -> t ∈ SubTableIndexs r ->
    atom_sem sh k (ACmp op kl v) = Some true -> t ∈ l.
Proof using Hty Hsh Hidx OT.
  intros Hp Hs Hg. destruct (date_cmp_tables p op kl v node l p' Hp Hs Hg)
    as (i & Hi & [[Heq ->]|[(Hne & Hb & ->)|(Hne & Hb & ->)]]).
  - split; [apply incr_singleton|]. intros k t _ Ht _ Hm. apply list_elem_of_singleton.
    symmetry. by eapply (equal_sound r sh Hsh op kl v i k t).
  - split; [by apply makeLeList_incr|]. intros k t [[w Hw] [Hc|Hin]] Ht Ht' Hm; [congruence|].
    apply makeLeList_elem; [done | by apply Hin|]. split; [done|].
    cbn [atom_sem] in Hm. rewrite Hw in Hm. injection Hm as Hm. apply (cmp_below _ _ _ _ Hb) in Hm.
    apply (table_mono k w); [destruct (strict op); lia | done | by eapply (lit_table r sh Hsh)].
  - split; [by apply makeGeList_incr|]. intros k t [[w Hw] [Hc|Hin]] Ht Ht' Hm; [congruence|].
    apply makeGeList_elem; [done | by apply Hin|]. split; [done|].
    cbn [atom_sem] in Hm. rewrite Hw in Hm. injection Hm as Hm. apply (cmp_above _ _ _ _ Hb) in Hm.
    apply (table_mono w k); [done | by eapply (lit_table r sh Hsh) | done].
Qed.

(** The list of a [between] is increasing even when its bounds are not
    tables of the rule. *)
Lemma makeBetweenList_incr s e l : incr l -> incr (makeBetweenList s e l).
Proof.
  intros Hl. unfold makeBetweenList. destruct (if e <? s then _ else _) as [a b].
  destruct (between_loop _ _ _ _ _) as [[i j]|]; [by apply incr_drop, incr_take | constructor].
Qed.

Lemma date_range_sound p b from to node l p' :
  Plan_Rule p = r -> atom_shape r (ARange b from to) node -> getTableIndexs p node = Ok (l, p') ->
  incr l /\
  forall k t, date_ok (ARange b from to) -> table k = Some t -> t ∈ SubTableIndexs r ->
    atom_sem sh k (ARange b from to) = Some true -> t ∈ l.
Proof using Hty Hsh Hidx OT.
  intros Hp (op & x & -> & Hop) Hg. rewrite getTableIndexs_date in Hg by done.
  cbn [getDateShardTableIndex] in Hg. rewrite Hp, Hop in Hg.
  apply rbind_Ok_inv in Hg as (i & Hi & Hg). apply rbind_Ok_inv in Hg as (j & Hj & Hg).
  destruct (if j <? i then (j, i) else (i, j)) as [a c] eqn:Hac. split.
  - destruct b; injection Hg as <- _; [by apply makeBetweenList_incr|].
    unfold notList. rewrite Hp. apply differentList_spec; [done | by apply makeBetweenList_incr].
  - intros k t ([[u Hu] [w Hw]] & -> & Hf & Ht0) Ht Hin Hm. injection Hg as <- _.
    assert (a ∈ SubTableIndexs r /\ c ∈ SubTableIndexs r) as [Ha Hc]
      by (destruct (j <? i); injection Hac as <- <-; auto).
    apply (makeBetweenList_spec a c _ Hidx Ha Hc). split; [done|].
    cbn [atom_sem] in Hm. rewrite Hu, Hw in Hm. cbn in Hm.
    assert (u <= k <= w) as [Huk Hkw] by (destruct (Z.leb_spec u k), (Z.leb_spec k w); done).
    pose proof (table_mono u k i t Huk (lit_table r sh Hsh _ _ _ Hu Hi) Ht).
    pose proof (table_mono k w t j Hkw Ht (lit_table r sh Hsh _ _ _ Hw Hj)).
    destruct (Z.ltb_spec j i); injection Hac as <- <-; lia.
Qed.

Lemma date_in_sound p b vs node l p' :
  Plan_Rule p = r -> atom_shape r (AIn b vs) node -> getTableIndexs p node = Ok (l, p') ->
  incr l /\
  forall k t, b = true -> table k = Some t -> atom_sem sh k (AIn b vs) = Some true -> t ∈ l.
Proof using Hty Hsh Hidx.
  intros Hp [x ->] Hg. rewrite getTableIndexs_date in Hg by done. destruct b; cbn in Hg.
  - destruct (tuple_sound r sh Hsh p vs l p' 0 0 Hp Hg) as [Hinc _]. split; [done|].
    intros k t _ Ht Hm. by eapply (tuple_sound r sh Hsh p vs l p' k t Hp Hg).
  - split; [|done]. apply rbind_Ok_inv in Hg as ([l0 p0] & H1 & Hg). injection Hg as <- <-.
    apply getTableIndexsByTuple_inv in H1 as (g & _ & -> & ->). unfold notList. simpl. rewrite Hp.
    apply differentList_spec; [done | apply tuple_tables_incr].
Qed.

#[export] Instance date_AtomRouting : AtomRouting r sh date_ok.
Proof using Hty Hsh Hidx OT.
  split.
  - by intros a [Ha _].
  - intros p a node l p' Hp Hs Hg. destruct a as [op kl v|b vs|b f t].
    + by eapply date_cmp_sound.
    + by eapply date_in_sound.
    + by eapply date_range_sound.
  - intros p a node l p' k t Hp Ha Hs Hg Ht Hin Hm. destruct a as [op kl v|b vs|b f to].
    + eapply date_cmp_sound; done.
    + eapply date_in_sound; [done..| apply Ha | done | done].
    + eapply date_range_sound; done.
Qed.
End Date.

(** ** The plan *)

(** [calRouteIndexs] on a WHERE clause: the tables found, and their nodes. *)
Definition where_plan (r : Rule) (e : BoolExpr) : Plan := set_Criteria (CriteriaBool e) (new_plan r).

Lemma calRouteIndexs_where r e p' :
  Type_ r <> DefaultRuleType -> calRouteIndexs (where_plan r e) = Ok p' ->
  exists l p1, getTableIndexByBoolExpr (where_plan r e) [] e = Ok (l, norm r e, p1) /\
    RouteTableIndexs p' = l /\ RouteNodeIndexs p' = TindexsToNindexs r l /\
    Criteria p' = CriteriaBool (norm r e) /\ InRightToReplace p' = InRightToReplace p1 /\
    SubTableValueGroups p' = SubTableValueGroups p1.
Proof.
  intros Hty Hc. unfold calRouteIndexs in Hc. simpl in Hc.
  destruct (String.eqb_spec (Type_ r) DefaultRuleType); [done|].
  apply rbind_Ok_inv in Hc as ([[l e'] p1] & H1 & Hc). injection Hc as <-.
  pose proof (getTableIndexByBoolExpr_frame _ _ _ _ _ _ H1) as [-> _]. exists l, p1. by split_and!.
Qed.

Lemma where_plan_sound r sh {KT : KeyTable sh} P {AR : AtomRouting r sh P} e p' k t other :
  incr (SubTableIndexs r) -> Type_ r <> DefaultRuleType ->
  calRouteIndexs (where_plan r e) = Ok p' ->
  all_atoms r P e -> table k = Some t -> t ∈ SubTableIndexs r -> matches r sh k other e = true ->
  t ∈ RouteTableIndexs p' /\ nodeOf r t ∈ RouteNodeIndexs p'.
Proof.
  intros Hidx Hty Hc HP Ht Hin Hm.
  destruct (calRouteIndexs_where r e p' Hty Hc) as (l & p1 & H1 & -> & -> & _).
  destruct (getTableIndexByBoolExpr_sound r sh P e Hidx _ _ _ _ _ (eq_refl : Plan_Rule (where_plan r e) = r) H1)
    as [_ Hs].
  specialize (Hs HP k other t Ht Hin Hm). split; [done|].
  unfold TindexsToNindexs. apply cleanList_spec. apply list_elem_of_fmap. eauto.
Qed.
End Routing.
