(* ===== verification/InRewrite.v ===== *)
(** * The rewriting of [in] lists ([Plan.rewriteWhereIn])

    For each routed table the list of one [in] is cut down to the values
    of that table.  Rows of the table satisfy the rewritten criteria
    exactly when they satisfy the original ones. *)
From S2P Require Import Prelude Errors GoLib GoTime RouteLists Ast NumKey Shard Rule Plan Routing.
From Stdlib Require Import Ascii.
Open Scope Z_scope.

(** ** The conditions of a normalised tree *)
Lemma is_key_norm r e : is_key r (norm_val r e) = is_key r e.
Proof.
  destruct e as [| | | |c|l| | | | |]; try done; unfold norm_val; simpl.
  - unfold unqualify. by destruct (String.eqb _ (Table r)).
  - by destruct (scan_values _ l).
Qed.

Lemma IsValue_norm r e : IsValue (norm_val r e) = IsValue e.
Proof.
  destruct e as [| | | |c|l| | | | |]; try done; unfold norm_val; simpl.
  by destruct (scan_values _ l).
Qed.

Lemma IsSimpleTuple_norm r e : IsSimpleTuple (norm_val r e) = IsSimpleTuple e.
Proof.
  destruct e as [| | | |c|l| | | | |]; try done. unfold norm_val. simpl.
  induction l as [|x l IH]; [done|]. simpl.
  pose proof (getValueType_value r x) as Hx. pose proof (IsValue_norm r x) as Hn. unfold norm_val in Hn.
  destruct (getValueType r x) as [t x']. simpl in Hx, Hn. rewrite Hx.
  destruct (IsValue x) eqn:Hv; simpl.
  - destruct (scan_values _ l) as [b l']. simpl in *. by rewrite Hn, IH.
  - by rewrite Hn.
Qed.

Lemma tuple_values_norm r e :
  IsSimpleTuple e = true -> tuple_values (norm_val r e) = tuple_values e.
Proof. intros He. by rewrite (proj2 (getValueType_list r e) He). Qed.

Lemma norm_val_if_value r e (b : bool) : b && IsValue e = true -> norm_val r e = e.
Proof. intros [_ He]%andb_true_iff. by apply norm_val_value. Qed.

Lemma atom_of_norm r node : atom_of r (norm r node) = atom_of r node.
Proof.
  destruct node as [| | | |op x y|op x f t| |]; try done; cbn [norm].
  - destruct (StringIn op cmp_ops || StringIn op in_ops) eqn:Hop; [|done]. cbn [atom_of].
    rewrite !is_key_norm, !IsValue_norm, IsSimpleTuple_norm.
    destruct (is_key r x && IsValue y) eqn:H1.
    { rewrite (norm_val_if_value r y _ H1). destruct (StringIn op cmp_ops); [done|].
      apply andb_true_iff in H1 as [_ H1]. by destruct y. }
    destruct (IsValue x && is_key r y) eqn:H2.
    { apply andb_true_iff in H2 as [H2 _]. rewrite norm_val_value by done.
      destruct (StringIn op cmp_ops); [done|]. by destruct x. }
    destruct (is_key r x && IsSimpleTuple y) eqn:H3; [|done].
    apply andb_true_iff in H3 as [_ H3]. by rewrite tuple_values_norm.
  - cbn [atom_of]. rewrite is_key_norm, !IsValue_norm.
    destruct (is_key r x && IsValue f && IsValue t) eqn:H1; [|done].
    apply andb_true_iff in H1 as [[_ Hf]%andb_true_iff Ht]. by rewrite !norm_val_value.
Qed.

(** ** Nodes by path *)
Fixpoint at_path (q : path) (node : BoolExpr) : option BoolExpr :=
  match q, node with
  | [], _ => Some node
  | DLeft :: q, (AndExpr l _ | OrExpr l _) => at_path q l
  | DRight :: q, (AndExpr _ r | OrExpr _ r) => at_path q r
  | DExpr :: q, ParenBoolExpr e => at_path q e
  | _, _ => None
  end.

Section Rewrite.
Context `{Timezone} `{MapOrder}.

(** The plan remembers an [in] of the tree, with its values by table. *)
Definition remembers (r : Rule) (here : path) (node : BoolExpr) (p : Plan) : Prop :=
  exists q x vs, InRightToReplace p = Some (here ++ q) /\
    at_path q node = Some (ComparisonExpr "in" x (ValTuple vs)) /\
    is_key r x = true /\ forallb IsValue vs = true /\
    group_values r vs = Ok (SubTableValueGroups p).

(** Rules that only group the values of [in]. *)
Definition groups_in_only (r : Rule) : Prop :=
  Type_ r = HashRuleType \/ Type_ r = RangeRuleType.

Lemma getTableIndexs_groups r p a node l p' :
  groups_in_only r -> Plan_Rule p = r -> atom_shape r a node ->
  getTableIndexs p node = Ok (l, p') ->
  match a with
  | AIn true vs => group_values r vs = Ok (SubTableValueGroups p')
  | _ => p' = p
  end.
Proof.
  intros Hty Hp Hs Hg. unfold getTableIndexs in Hg. rewrite Hp in Hg.
  assert ((if String.eqb (Type_ r) HashRuleType then getHashShardTableIndex p node
           else getRangeShardTableIndex p node) = Ok (l, p')) as Hg'.
  { destruct Hty as [Hty|Hty]; rewrite Hty in *; exact Hg. }
  clear Hg. destruct a as [op kl v|[] vs|b f t].
  - destruct (cmp_shape r op kl v node Hs) as (x & y & -> & Hop & _).
    unfold op_facts in Hop. destruct (String.eqb (Type_ r) HashRuleType).
    + cbn [getHashShardTableIndex] in Hg'. fold (is_eq_op op) in Hg'.
      assert (StringIn op ["in"] = false) as Hin.
      { destruct (StringIn op ["in"]) eqn:E; [|done]. apply StringIn_cases, list_elem_of_singleton in E as ->.
        by vm_compute in Hop. }
      rewrite Hin in Hg'.
      destruct (is_eq_op op); [apply rbind_Ok_inv in Hg' as (? & _ & Hg'); congruence|].
      destruct (StringIn op _); congruence.
    + assert (Type_ (Plan_Rule p) = RangeRuleType -> True) by done.
      cbn [getRangeShardTableIndex] in Hg'. fold (is_eq_op op) (is_lt_op op) (is_gt_op op) in Hg'.
      repeat (match type of Hg' with
        | (if ?c then _ else _) = _ => destruct c eqn:?
        | rbind ?m _ = _ => let x := fresh in let E := fresh in apply rbind_Ok_inv in Hg' as (x & E & Hg')
        end); try congruence; destruct (is_eq_op op), (is_lt_op op), (is_gt_op op); done.
  - destruct Hs as [x ->].
    assert (getTableIndexsByTuple p (ValTuple vs) = Ok (l, p')) as Ht
      by (destruct (String.eqb (Type_ r) HashRuleType); exact Hg').
    apply getTableIndexsByTuple_inv in Ht as (g & Hgv & _ & ->). by rewrite Hp in Hgv.
  - destruct Hs as [x ->]. destruct (String.eqb (Type_ r) HashRuleType); cbn in Hg'; congruence.
  - destruct Hs as (op & x & -> & _). destruct (String.eqb (Type_ r) HashRuleType); [cbn in Hg'; congruence|].
    cbn [getRangeShardTableIndex] in Hg'.
    repeat (match type of Hg' with
      | (if ?c then _ else _) = _ => destruct c eqn:?
      | rbind ?m _ = _ => let x := fresh in let E := fresh in apply rbind_Ok_inv in Hg' as (x & E & Hg')
      | (let '(_, _) := ?x in _) = _ => destruct x
      end); congruence.
Qed.

Lemma leaf_remembers r p here node l node' p' :
  groups_in_only r -> Plan_Rule p = r -> is_leaf node = true ->
  getTableIndexByBoolExpr p here node = Ok (l, node', p') ->
  (InRightToReplace p' = InRightToReplace p /\ SubTableValueGroups p' = SubTableValueGroups p) \/
  remembers r here node' p'.
Proof.
  intros Hty Hp Hleaf Hg. rewrite leaf_eq in Hg by done. rewrite Hp in Hg.
  destruct (atom_of r node) as [a|] eqn:Ha; [|injection Hg as _ _ <-; by left].
  pose proof (atom_shape_norm _ _ _ Ha) as Hs.
  apply rbind_Ok_inv in Hg as ([l1 p1] & H1 & Hg). injection Hg as _ <- <-.
  assert (Plan_Rule (match a with AIn true _ => set_InRightToReplace (Some here) p | _ => p end) = r) as Hq
    by (destruct a as [| [] |]; exact Hp).
  pose proof (getTableIndexs_groups r _ a _ _ _ Hty Hq Hs H1) as Hgr.
  apply getTableIndexs_frame in H1 as [_ Hir].
  destruct a as [op kl v|[] vs|b f t]; [subst p1; by left | | subst p1; by left | subst p1; by left].
  right. destruct Hs as [x Hx]. exists [], x, vs. rewrite app_nil_r, Hir.
  split; [done|]. split; [by rewrite Hx|].
  assert (atom_of r (norm r node) = Some (AIn true vs)) as Ha' by (by rewrite atom_of_norm).
  rewrite Hx in Ha'. cbn in Ha'. destruct (is_key r x && forallb IsValue vs) eqn:Hk; [|done].
  by apply andb_true_iff in Hk as [-> ->].
Qed.

(** The walk leaves the plan remembering an [in] of the tree it walked, or
    as it was. *)
Lemma walk_remembers r node :
  groups_in_only r ->
  forall p here l node' p', Plan_Rule p = r ->
  getTableIndexByBoolExpr p here node = Ok (l, node', p') ->
  (InRightToReplace p' = InRightToReplace p /\ SubTableValueGroups p' = SubTableValueGroups p) \/
  remembers r here node' p'.
Proof.
  intros Hty. induction node as [a IHa b IHb|a IHa b IHb|e IHe|e IHe| | | |];
    intros p here l node' p' Hp Hg;
    try (by eapply (leaf_remembers r); [exact Hty | exact Hp | | exact Hg]).
  1, 2: cbn [getTableIndexByBoolExpr] in Hg;
    apply rbind_Ok_inv in Hg as ([[l1 a'] p1] & H1 & Hg);
    apply rbind_Ok_inv in Hg as ([[l2 b'] p2] & H2 & Hg); injection Hg as _ <- <-;
    pose proof (getTableIndexByBoolExpr_frame _ _ _ _ _ _ H1) as (_ & Hr1 & _); rewrite Hp in Hr1;
    destruct (IHb _ _ _ _ _ Hr1 H2) as [[E1 E2]|(q & x & vs & Hq & Hat & Hx & Hv & Hgr)];
    [destruct (IHa _ _ _ _ _ Hp H1) as [[E3 E4]|(q & x & vs & Hq & Hat & Hx & Hv & Hgr)];
      [left; split; congruence|]|].
  1, 3: right; exists (DLeft :: q), x, vs; unfold remembers; rewrite E1, E2, Hq, <- app_assoc; auto.
  1, 2: right; exists (DRight :: q), x, vs; rewrite Hq, <- app_assoc; auto 10.
  cbn [getTableIndexByBoolExpr] in Hg. apply rbind_Ok_inv in Hg as ([[l1 e'] p1] & H1 & Hg).
  injection Hg as _ <- <-.
  destruct (IHe _ _ _ _ _ Hp H1) as [E|(q & x & vs & Hq & Hat & Hx & Hv & Hgr)]; [by left|].
  right. exists (DExpr :: q), x, vs. rewrite Hq, <- app_assoc. auto 10.
Qed.

(** ** Meaning of the rewritten tree *)
Section Meaning.
Context (r : Rule) (sh : shard) (Hsh : Shard_ r = sh) {KT : KeyTable sh}.

Lemma in_atom x vs :
  is_key r x = true -> forallb IsValue vs = true ->
  atom_of r (ComparisonExpr "in" x (ValTuple vs)) = Some (AIn true vs).
Proof. intros Hk Hv. cbn. by rewrite Hk, Hv. Qed.

(** A key of table [t] is in the list exactly when it is in the group of
    that table. *)
Lemma group_same_key vs groups g k t :
  group_values r vs = Ok groups -> groups !! t = Some g -> table k = Some t ->
  Forall (fun v => is_Some (lit sh v)) vs ->
  Forall (fun v => is_Some (lit sh v)) g /\
  ((exists v, v ∈ vs /\ lit sh v = Some k) <-> (exists v, v ∈ g /\ lit sh v = Some k)).
Proof using Hsh.
  intros [Hall Ht]%group_values_spec Hg Hk Hm. rewrite Ht in Hg.
  assert (forall v, v ∈ g <-> v ∈ vs /\ getTableIndexByValue r v = Ok t) as Hel.
  { intros v. rewrite <- elem_of_filter_in_table.
    destruct (List.filter _ vs); [done|]. by injection Hg as <-. }
  rewrite Forall_forall in *. split.
  - intros v Hv%Hel. by apply Hm, Hv.
  - split; intros (v & Hv & Hl); exists v; (split; [|done]).
    + apply Hel. split; [done|]. destruct (Hall v Hv) as [i Hi].
      pose proof (lit_table r sh Hsh v k i Hl Hi). congruence.
    + by apply Hel in Hv as [Hv _].
Qed.

Lemma in_atom_sem k vs vs' :
  Forall (fun v => is_Some (lit sh v)) vs -> Forall (fun v => is_Some (lit sh v)) vs' ->
  ((exists v, v ∈ vs /\ lit sh v = Some k) <-> (exists v, v ∈ vs' /\ lit sh v = Some k)) ->
  atom_sem sh k (AIn true vs) = atom_sem sh k (AIn true vs').
Proof.
  intros Hm Hm' Hiff.
  destruct (meaningful_sem sh k (AIn true vs) Hm) as [b Hb], (meaningful_sem sh k (AIn true vs') Hm') as [b' Hb'].
  rewrite Hb, Hb'. f_equal. apply in_sem in Hb, Hb'.
  destruct b, b'; try done; exfalso.
  - assert (false = true); [|done]. apply Hb', Hiff, Hb. done.
  - assert (false = true); [|done]. apply Hb, Hiff, Hb'. done.
Qed.

Lemma replace_right_matches k t other groups g q x vs node :
  at_path q node = Some (ComparisonExpr "in" x (ValTuple vs)) ->
  is_key r x = true -> forallb IsValue vs = true ->
  group_values r vs = Ok groups -> groups !! t = Some g -> table k = Some t ->
  all_atoms r (meaningful sh) node ->
  matches r sh k other (replace_right q (ValTuple g) node) = matches r sh k other node.
Proof using Hsh.
  intros Hq Hx Hv Hgv Hg Hk. revert q Hq. induction node as [a IHa b IHb|a IHa b IHb|e IHe|e IHe|op y z| | |];
    intros q Hq Hm; destruct q as [|[] q]; try done.
  1-4: cbn [replace_right matches all_atoms at_path] in *; destruct Hm; by rewrite ?IHa, ?IHb.
  - by apply IHe.
  - injection Hq as -> -> ->. cbn [replace_right].
    assert (forallb IsValue g = true) as Hvg.
    { apply forallb_forall. intros v Hvin%list_elem_of_In. pose proof (proj2 (group_values_spec _ _ _ Hgv) t) as Ht.
      rewrite Hg in Ht. assert (v ∈ List.filter (in_table (getTableIndexByValue r) t) vs) as Hf
        by (destruct (List.filter _ vs); congruence).
      apply elem_of_filter_in_table in Hf as [Hf _]. rewrite forallb_forall in Hv. by apply Hv, list_elem_of_In. }
    rewrite !leaf_matches by done. rewrite leaf_all_atoms in Hm by done.
    rewrite !in_atom in * by done. cbn [meaningful] in Hm.
    destruct (group_same_key vs groups g k t Hgv Hg Hk Hm) as [Hmg Hiff].
    rewrite <- (in_atom_sem k vs g Hm Hmg Hiff).
    by destruct (meaningful_sem sh k (AIn true vs) Hm) as [b ->].
Qed.

(** Normalising keeps the conditions, and shows the rest in its
    normalised form. *)
Lemma is_leaf_norm node : is_leaf (norm r node) = is_leaf node.
Proof. destruct node; try done. cbn [norm]. by destruct (_ || _). Qed.

Lemma matches_norm k other node :
  matches r sh k other (norm r node) = matches r sh k (fun n => other (norm r n)) node.
Proof.
  induction node as [a IHa b IHb|a IHa b IHb|e IHe|e IHe| | | |];
    try (rewrite !leaf_matches by (by rewrite ?is_leaf_norm); by rewrite atom_of_norm).
  1, 2: cbn [norm matches]; by rewrite IHa, IHb.
  by cbn [norm matches].
Qed.

Lemma all_atoms_norm P node : all_atoms r P (norm r node) <-> all_atoms r P node.
Proof.
  induction node as [a IHa b IHb|a IHa b IHb|e IHe|e IHe| | | |];
    try (rewrite !leaf_all_atoms by (by rewrite ?is_leaf_norm); by rewrite atom_of_norm).
  1, 2: cbn [norm all_atoms]; by rewrite IHa, IHb.
  by cbn [norm all_atoms].
Qed.

Lemma rewriteWhereIn_matches e p' k t other :
  groups_in_only r -> calRouteIndexs (where_plan r e) = Ok p' ->
  all_atoms r (meaningful sh) e -> table k = Some t ->
  Criteria p' = CriteriaBool (norm r e) /\
  matches r sh k other (rewriteWhereIn p' t (norm r e)) = matches r sh k other (norm r e).
Proof using Hsh.
  intros Hty Hc Hm Hk.
  destruct (calRouteIndexs_where r e p') as (l & p1 & H1 & _ & _ & Hcr & Hir & Hgr);
    [destruct Hty as [-> | ->]; done | done|].
  split; [done|]. unfold rewriteWhereIn. rewrite Hir, Hgr.
  pose proof (walk_remembers r e Hty (where_plan r e) [] l _ p1 eq_refl H1)
    as [[-> _]|(q & x & vs & -> & Hq & Hx & Hv & Hgv)]; [done|].
  destruct (SubTableValueGroups p1 !! t) as [g|] eqn:Hg; [|done].
  eapply replace_right_matches; [done..|]. by apply all_atoms_norm.
Qed.
End Meaning.
End Rewrite.
