(* ===== verification/RoutingTheorems.v ===== *)
(** * What routing guarantees, rule by rule

    The soundness of the planner instantiated at the rules [parseRule]
    builds, the rewriting of [in], and the cases where the planner loses
    rows. *)
From S2P Require Import Prelude Errors GoLib GoTime RouteLists Ast NumKey Shard Rule Plan Routing InRewrite.
From Stdlib Require Import Ascii.
Open Scope Z_scope.

(** The shard of a date rule. *)
Definition date_shard (ty : string) : shard :=
  if String.eqb ty DateYearRuleType then DateYearShard
  else if String.eqb ty DateMonthRuleType then DateMonthShard
  else DateDayShard.

Section Theorems.
Context `{Timezone} `{MapOrder}.

#[export] Instance date_KeyTable ty : KeyTable (date_shard ty).
Proof. unfold date_shard. destruct (String.eqb ty _); [|destruct (String.eqb ty _)]; apply _. Defined.
#[export] Instance date_OrderedTable ty : OrderedTable (date_shard ty).
Proof.
  unfold date_KeyTable, date_shard. destruct (String.eqb ty _); [|destruct (String.eqb ty _)]; apply _.
Qed.

Lemma date_value_table ty s k t :
  date_value (KString s) = Some k -> FindForKey (date_shard ty) (KString s) = Ok t ->
  @table _ _ (date_KeyTable ty) k = Some t.
Proof.
  intros Hv Ht. apply (find_value (KString s)); [|done].
  unfold date_KeyTable, date_shard. by destruct (String.eqb ty _); [|destruct (String.eqb ty _)].
Qed.

(** ** The rules of [parseRule] *)
Section OfRule.
Context (cfg : ShardConfig) (r : Rule).
Hypothesis HL : locations_ok cfg.
Hypothesis Hr : parseRule cfg = Ok r.

Lemma parseRule_type : Type_ r = cfg_Type cfg.
Proof using HL Hr. by destruct (parseRule_inv cfg r HL Hr) as (_ & _ & ? & _). Qed.
Lemma parseRule_incr : incr (SubTableIndexs r).
Proof using HL Hr. by destruct (parseRule_inv cfg r HL Hr) as ((? & _) & _). Qed.

Let total : Z := foldr Z.add 0 (cfg_Locations cfg).

Lemma total_count :
  cfg_Type cfg = HashRuleType \/ cfg_Type cfg = RangeRuleType -> subtables_count r = total.
Proof using HL Hr.
  intros Hty. destruct (parseRule_inv cfg r HL Hr) as (_ & _ & _ & _ & Hidx).
  unfold subtables_count. rewrite Hidx, length_seqZ by done.
  destruct HL as [HL' _]. apply sum_locations_nonneg in HL'. fold total in HL'. unfold total in *. lia.
Qed.

Lemma parseRule_hash :
  cfg_Type cfg = HashRuleType -> Shard_ r = HashShard (subtables_count r).
Proof using HL Hr.
  intros Hty. rewrite total_count by auto.
  destruct (parseRule_inv cfg r HL Hr) as (_ & _ & _ & Hs & _).
  rewrite parseShard_hash in Hs by done. rewrite (parseRule_size cfg r HL Hr) in Hs by auto.
  unfold total. congruence.
Qed.

Lemma parseRule_range :
  cfg_Type cfg = RangeRuleType -> 0 < cfg_TableRowLimit cfg ->
  total * cfg_TableRowLimit cfg < 2 ^ 63 - 1 ->
  exists rs, Shard_ r = NumRangeShard rs /\ ranges_ordered rs /\
    ParseNumSharding (cfg_Locations cfg) (cfg_TableRowLimit cfg) = Ok rs.
Proof using HL Hr.
  intros Hty Hlim Hb. destruct (parseRule_inv cfg r HL Hr) as (_ & _ & _ & Hs & _).
  apply parseShard_range in Hs as (rs & Hrs & Hsh & _); [|done]. exists rs. split_and!; [done | | done].
  destruct HL as [HL' _]. pose proof (ParseNumSharding_ok _ _ total HL' eq_refl Hlim Hb) as Heq.
  rewrite Heq in Hrs. injection Hrs as <-. by apply consecutive_ordered.
Qed.

Lemma parseRule_date :
  is_date_type (cfg_Type cfg) = true -> Shard_ r = date_shard (cfg_Type cfg).
Proof using HL Hr.
  intros Hty. destruct (parseRule_inv cfg r HL Hr) as (_ & _ & _ & Hs & _).
  apply StringIn_cases in Hty. unfold parseShard in Hs. unfold date_shard.
  repeat (apply elem_of_cons in Hty as [Hty|Hty]); [..|by apply not_elem_of_nil in Hty];
    rewrite Hty in Hs |- *; cbn in Hs |- *; congruence.
Qed.

(** A table that a hash or range rule finds is one of the rule's. *)
Lemma own_table k t :
  cfg_Type cfg = HashRuleType \/ cfg_Type cfg = RangeRuleType ->
  FindTableIndex r k = Ok t -> t ∈ SubTableIndexs r.
Proof using HL Hr.
  intros [Hty|Hty] Ht; [|by eapply range_FindTableIndex_in].
  assert (forall ty, k <> KOther ty) as Hk.
  { intros ty ->. unfold FindTableIndex in Ht. rewrite (parseRule_hash Hty) in Ht. done. }
  destruct (Z.lt_ge_cases 0 (foldr Z.add 0 (cfg_Locations cfg))) as [Hpos|Hz].
  - destruct (hash_FindTableIndex_total cfg r k HL Hr Hty Hpos Hk) as (t' & Ht' & Hin). congruence.
  - exfalso. unfold FindTableIndex in Ht. rewrite (parseRule_hash Hty), (total_count (or_introl Hty)) in Ht.
    destruct HL as [HL' _]. apply sum_locations_nonneg in HL'.
    assert (total = 0) as E by (unfold total; lia). rewrite E in Ht. cbn [FindForKey] in Ht.
    unfold HashShard_FindForKey in Ht. by apply rbind_Ok_inv in Ht as (? & _ & Ht).
Qed.
End OfRule.

(** ** Properties *)

(** C1: hash routing loses no row whose key is an integer.  Let the planner
    accept the WHERE clause of a statement on a hash rule, and let the
    conditions on the key compare it only with integer literals; the rest of
    the clause may be true of any row.  Then every row with an integer key
    that satisfies the clause is in one of the routed tables, and the node of
    that table is among the routed nodes: a row with key [k] is in the table
    that [FindTableIndex] answers for the int64 [k].  Of text keys and of
    keys compared with other literals nothing is said. *)
Theorem hash_routing_sound cfg r e p' k t other
    (HL : locations_ok cfg) (Hr : parseRule cfg = Ok r) (Hty : cfg_Type cfg = HashRuleType)
    (Hc : calRouteIndexs (where_plan r e) = Ok p')
    (Ha : all_atoms r (meaningful (HashShard (subtables_count r))) e)
    (Ht : FindTableIndex r (KInt64 k) = Ok t)
    (Hm : matches r (HashShard (subtables_count r)) k other e = true) :
  t ∈ RouteTableIndexs p' /\ nodeOf r t ∈ RouteNodeIndexs p'.
Proof.
  pose proof (parseRule_type cfg r HL Hr) as Htr. rewrite Hty in Htr.
  pose proof (parseRule_hash cfg r HL Hr Hty) as Hsh. pose proof (parseRule_incr cfg r HL Hr) as Hi.
  eapply (where_plan_sound r (HashShard (subtables_count r)) _
            (AR := hash_AtomRouting r _ Htr Hsh Hi)); [done | by rewrite Htr | done | done | | | done].
  - apply (find_value (KInt64 k)); [done|]. unfold FindTableIndex in Ht. by rewrite <- Hsh.
  - by eapply own_table; [| |left|].
Qed.

(** C2: range routing loses no row whose key is an int64.  On a range rule
    with a positive row limit whose ranges fit the machine integers, let the
    planner accept a WHERE clause whose conditions on the key compare it only
    with integer literals, the bounds of a [not between] being in order.
    Then every row with an int64 key that satisfies the clause is in one of
    the routed tables, and the node of that table is among the routed
    nodes. *)
Theorem range_routing_sound cfg r rs e p' k t other
    (HL : locations_ok cfg) (Hr : parseRule cfg = Ok r) (Hty : cfg_Type cfg = RangeRuleType)
    (Hlim : 0 < cfg_TableRowLimit cfg)
    (Hb : foldr Z.add 0 (cfg_Locations cfg) * cfg_TableRowLimit cfg < 2 ^ 63 - 1)
    (Hrs : Shard_ r = NumRangeShard rs)
    (Hc : calRouteIndexs (where_plan r e) = Ok p')
    (Ha : all_atoms r (range_ok rs) e)
    (Ht : FindTableIndex r (KInt64 k) = Ok t) (Hk : in_i64 k)
    (Hm : matches r (NumRangeShard rs) k other e = true) :
  t ∈ RouteTableIndexs p' /\ nodeOf r t ∈ RouteNodeIndexs p'.
Proof.
  pose proof (parseRule_type cfg r HL Hr) as Htr. rewrite Hty in Htr.
  destruct (parseRule_range cfg r HL Hr Hty Hlim Hb) as (rs' & Hsh & Hord & _).
  assert (rs' = rs) as -> by congruence.
  destruct (parseRule_inv cfg r HL Hr) as (_ & _ & _ & _ & Hidx).
  specialize (Hidx (or_intror Hty)).
  eapply (where_plan_sound r (NumRangeShard rs) _
            (AR := range_AtomRouting r rs _ Htr Hsh Hord Hidx));
    [by eapply parseRule_incr | by rewrite Htr | done | done | | | done].
  - apply (find_value (KInt64 k)).
    + cbn. unfold num_value. cbn. by rewrite i64_id.
    + unfold FindTableIndex in Ht. by rewrite <- Hsh.
  - by eapply own_table; [| |right|].
Qed.

(** C22: date routing loses no row as long as the clause compares the key
    with dates of configured tables and uses neither [not in] nor
    [not between]: every row of a configured table that satisfies such a
    clause is in one of the routed tables. *)
Theorem date_routing_sound cfg r e p' s k t other
    (HL : locations_ok cfg) (Hr : parseRule cfg = Ok r) (Hty : is_date_type (cfg_Type cfg) = true)
    (Hc : calRouteIndexs (where_plan r e) = Ok p')
    (Ha : all_atoms r (date_ok r (date_shard (cfg_Type cfg))) e)
    (Hs : date_value (KString s) = Some k) (Ht : FindTableIndex r (KString s) = Ok t)
    (Hin : t ∈ SubTableIndexs r)
    (Hm : matches r (date_shard (cfg_Type cfg)) k other e = true) :
  t ∈ RouteTableIndexs p' /\ nodeOf r t ∈ RouteNodeIndexs p'.
Proof.
  pose proof (parseRule_type cfg r HL Hr) as Htr.
  pose proof (parseRule_date cfg r HL Hr Hty) as Hsh. pose proof (parseRule_incr cfg r HL Hr) as Hi.
  assert (is_date_type (Type_ r) = true) as Hty' by congruence.
  eapply (where_plan_sound r (date_shard (cfg_Type cfg)) _
            (AR := date_AtomRouting r _ Hty' Hsh Hi)); [done | | done | done | | done | done].
  - intros Hd. by rewrite Hd in Hty'.
  - eapply date_value_table; [done|]. unfold FindTableIndex in Ht. by rewrite <- Hsh.
Qed.

(** C3: cutting an [in] list down to the values of a table changes nothing
    for the rows of that table.  On a hash rule, for a WHERE clause that the
    planner accepts and whose conditions on the key compare it only with
    integer literals, the criteria sent to table [t] hold of a row of [t]
    with an integer key exactly when the statement's WHERE clause does.
    Range rules and date rules are not covered. *)
Theorem hash_in_rewrite_sound cfg r e p' k t other
    (HL : locations_ok cfg) (Hr : parseRule cfg = Ok r) (Hty : cfg_Type cfg = HashRuleType)
    (Hc : calRouteIndexs (where_plan r e) = Ok p')
    (Ha : all_atoms r (meaningful (HashShard (subtables_count r))) e)
    (Ht : FindTableIndex r (KInt64 k) = Ok t) :
  exists e', Criteria p' = CriteriaBool e' /\
    matches r (HashShard (subtables_count r)) k other (rewriteWhereIn p' t e') =
    matches r (HashShard (subtables_count r)) k (fun n => other (norm r n)) e.
Proof.
  pose proof (parseRule_hash cfg r HL Hr Hty) as Hsh. exists (norm r e).
  rewrite <- matches_norm. eapply rewriteWhereIn_matches; [done | | done | done |].
  - left. by rewrite (parseRule_type cfg r HL Hr).
  - apply (find_value (KInt64 k)); [done|]. unfold FindTableIndex in Ht. by rewrite <- Hsh.
Qed.
End Theorems.

(** ** Witnesses and counterexamples, on a server in UTC *)
#[local] Existing Instance UTC.

Definition col (name : string) : ValExpr := ColName (mkColName name None).
(* t.id in (1, 4, 6) and name != 'x' *)
Definition sample_where : BoolExpr :=
  AndExpr (ComparisonExpr "in" (ColName (mkColName "ID" (Some "t"))) (ValTuple [NumVal "1"; NumVal "4"; NumVal "6"]))
          (ComparisonExpr "!=" (col "name") (StrVal "x")).

(** The rule a configuration is parsed to. *)
Definition rule_of (cfg : ShardConfig) : Rule :=
  match parseRule cfg with Ok r => r | _ => NewDefaultRule "" end.
Definition plan_of (r : Rule) (e : BoolExpr) : Plan :=
  match calRouteIndexs (where_plan r e) with Ok p => p | _ => new_plan r end.

Lemma parseRule_of cfg : is_ok (parseRule cfg) = true -> parseRule cfg = Ok (rule_of cfg).
Proof. unfold rule_of. by destruct (parseRule cfg). Qed.
Lemma plan_of_ok r e :
  is_ok (calRouteIndexs (where_plan r e)) = true -> calRouteIndexs (where_plan r e) = Ok (plan_of r e).
Proof. unfold plan_of. by destruct (calRouteIndexs _). Qed.

Lemma sample_hash_locations : locations_ok sample_hash.
Proof. repeat constructor; lia. Qed.
Lemma sample_atoms n :
  all_atoms (rule_of sample_hash) (meaningful (HashShard n)) sample_where.
Proof. cbn. split; [|done]. repeat constructor; eexists; reflexivity. Qed.

Lemma hash_routing_sound_witness :
  RouteTableIndexs (plan_of (rule_of sample_hash) sample_where) = [0; 1] /\
  1 ∈ RouteTableIndexs (plan_of (rule_of sample_hash) sample_where).
Proof.
  split; [vm_compute; reflexivity|].
  apply (hash_routing_sound sample_hash (rule_of sample_hash) sample_where _ 4 1 (fun _ => true)).
  - apply sample_hash_locations.
  - by apply parseRule_of.
  - reflexivity.
  - apply plan_of_ok. vm_compute. reflexivity.
  - apply sample_atoms.
  - vm_compute. reflexivity.
  - vm_compute. reflexivity.
Defined.

Lemma hash_in_rewrite_sound_witness :
  exists e', Criteria (plan_of (rule_of sample_hash) sample_where) = CriteriaBool e' /\
    rewriteWhereIn (plan_of (rule_of sample_hash) sample_where) 1 e' =
      AndExpr (ComparisonExpr "in" (col "ID") (ValTuple [NumVal "1"; NumVal "4"]))
              (ComparisonExpr "!=" (col "name") (StrVal "x")) /\
    matches (rule_of sample_hash) (HashShard 3) 4 (fun _ => true)
      (rewriteWhereIn (plan_of (rule_of sample_hash) sample_where) 1 e') = true.
Proof.
  destruct (hash_in_rewrite_sound sample_hash (rule_of sample_hash) sample_where
              (plan_of (rule_of sample_hash) sample_where) 4 1 (fun _ => true)) as (e' & He & Hm).
  - apply sample_hash_locations.
  - by apply parseRule_of.
  - reflexivity.
  - apply plan_of_ok. vm_compute. reflexivity.
  - apply sample_atoms.
  - vm_compute. reflexivity.
  - exists e'. split; [exact He|]. split.
    + vm_compute in He. injection He as <-. vm_compute. reflexivity.
    + etransitivity; [exact Hm|]. vm_compute. reflexivity.
Defined.

(** Three tables of a hundred keys. *)
Definition sample_range : ShardConfig :=
  mkShardConfig "kingshard" "r" "id" ["node2"; "node3"] [2; 1] RangeRuleType 100 [].
Definition key_less (op n : string) : BoolExpr := ComparisonExpr op (col "id") (NumVal n).

Lemma range_routing_sound_witness :
  RouteTableIndexs (plan_of (rule_of sample_range) (key_less "<" "100")) = [0] /\
  RouteTableIndexs (plan_of (rule_of sample_range) (key_less "<=" "100")) = [0; 1] /\
  1 ∈ RouteTableIndexs (plan_of (rule_of sample_range) (key_less "<=" "100")).
Proof.
  split; [vm_compute; reflexivity|]. split; [vm_compute; reflexivity|].
  apply (range_routing_sound sample_range (rule_of sample_range)
           (match Shard_ (rule_of sample_range) with NumRangeShard l => l | _ => [] end)
           (key_less "<=" "100") _ 100 1 (fun _ => false)).
  - repeat constructor; lia.
  - by apply parseRule_of.
  - reflexivity.
  - reflexivity.
  - reflexivity.
  - vm_compute. reflexivity.
  - apply plan_of_ok. vm_compute. reflexivity.
  - cbn. split; [eexists; reflexivity | done].
  - vm_compute. reflexivity.
  - unfold in_i64. lia.
  - vm_compute. reflexivity.
Defined.

(** Four months on two nodes. *)
Definition sample_month : ShardConfig :=
  mkShardConfig "kingshard" "m" "day" ["node2"; "node3"] [] DateMonthRuleType 0
    ["201512-201601"; "201602-201603"].
Definition day_is (op day : string) : BoolExpr := ComparisonExpr op (col "day") (StrVal day).
Definition day_in (op : string) (days : list string) : BoolExpr :=
  ComparisonExpr op (col "day") (ValTuple (StrVal <$> days)).

Lemma date_routing_sound_witness :
  RouteTableIndexs (plan_of (rule_of sample_month) (day_is ">=" "2016-01-15")) = [201601; 201602; 201603] /\
  201602 ∈ RouteTableIndexs (plan_of (rule_of sample_month) (day_is ">=" "2016-01-15")).
Proof.
  split; [vm_compute; reflexivity|].
  apply (date_routing_sound sample_month (rule_of sample_month) (day_is ">=" "2016-01-15") _
           "2016-02-29" 20160229000000 201602 (fun _ => false)).
  - repeat constructor.
  - by apply parseRule_of.
  - reflexivity.
  - apply plan_of_ok. vm_compute. reflexivity.
  - split; [eexists; vm_compute; reflexivity|]. right. intros i Hi. vm_compute in Hi. injection Hi as <-.
    apply list_elem_of_In. vm_compute. auto.
  - vm_compute. reflexivity.
  - vm_compute. reflexivity.
  - apply list_elem_of_In. vm_compute. auto.
  - vm_compute. reflexivity.
Defined.

(** What the planner answers for a clause [e] of a rule, next to a row
    [s] of table [t] that satisfies [e]. *)
Definition loses_row (cfg : ShardConfig) (sh : shard) `{KeyTable sh} (e : BoolExpr) (row : key) (t k : Z) : Prop :=
  Shard_ (rule_of cfg) = sh /\ value row = Some k /\
  FindTableIndex (rule_of cfg) row = Ok t /\ t ∈ SubTableIndexs (rule_of cfg) /\
  matches (rule_of cfg) sh k (fun _ => true) e = true /\
  calRouteIndexs (where_plan (rule_of cfg) e) = Ok (plan_of (rule_of cfg) e) /\
  t ∉ RouteTableIndexs (plan_of (rule_of cfg) e).

Lemma not_elem_of_by_compute (t : Z) l : existsb (Z.eqb t) l = false -> t ∉ l.
Proof.
  intros Hf Hin%list_elem_of_In. assert (existsb (Z.eqb t) l = true); [|congruence].
  apply existsb_exists. exists t. split; [done | lia].
Qed.
Lemma elem_of_by_compute (t : Z) l : existsb (Z.eqb t) l = true -> t ∈ l.
Proof. intros (x & Hx & ->%Z.eqb_eq)%existsb_exists. by apply list_elem_of_In. Qed.

Ltac loses_row_by_compute :=
  split_and!; [vm_compute; reflexivity.. | apply elem_of_by_compute; vm_compute; reflexivity |
    vm_compute; reflexivity | apply plan_of_ok; vm_compute; reflexivity |
    apply not_elem_of_by_compute; vm_compute; reflexivity].

(** [not in] and [not between] on a date rule lose rows: a table that
    holds one of the excluded dates is dropped with all its other dates.
    With tables by month, the rows of 2015-12-31 are not looked for by
    [day not in ('2015-12-30')], nor by
    [day not between '2015-12-30' and '2015-12-30']. *)
Theorem date_negation_loses_rows :
  loses_row sample_month DateMonthShard (day_in "not in" ["2015-12-30"])
    (KString "2015-12-31") 201512 20151231000000 /\
  loses_row sample_month DateMonthShard
    (RangeCond "not between" (col "day") (StrVal "2015-12-30") (StrVal "2015-12-30"))
    (KString "2015-12-31") 201512 20151231000000.
Proof. split; loses_row_by_compute. Qed.

(** A date bound outside the configured tables routes to no table at
    all, and a [not between] with its bounds reversed, which every row
    satisfies, drops the tables between them. *)
Theorem bounds_lose_rows :
  loses_row sample_month DateMonthShard (OrExpr (day_is "<=" "2017-01-01") (day_is "=" "2016-01-01"))
    (KString "2015-12-31") 201512 20151231000000 /\
  loses_row sample_range (NumRangeShard (num_range 100 <$> [0; 1; 2]))
    (RangeCond "not between" (col "id") (NumVal "250") (NumVal "50")) (KInt64 150) 1 150.
Proof. split; loses_row_by_compute. Qed.

(** The rewriting of [in] is wrong on a date rule when a later [not in]
    has overwritten the recorded values: in
    [day in ('2016-02-05') and (day not in ('2016-02-01') or x = 1)]
    the first list becomes ['2016-02-01'], and a row of 2016-02-05 that
    satisfies the clause does not satisfy what is sent to its table. *)
Theorem date_in_rewrite_wrong :
  let r := rule_of sample_month in
  let e := AndExpr (day_in "in" ["2016-02-05"])
                   (OrExpr (day_in "not in" ["2016-02-01"]) (ComparisonExpr "=" (col "x") (NumVal "1"))) in
  let p := plan_of r e in
  RouteTableIndexs p = [201602] /\
  matches r DateMonthShard 20160205000000 (fun _ => true) e = true /\
  matches r DateMonthShard 20160205000000 (fun _ => true) (rewriteWhereIn p 201602 e) = false.
Proof. split_and!; vm_compute; reflexivity. Qed.

(** A key whose date is outside every configured range is not an
    error: [FindNode] answers the rule's first node, whatever the date. *)
Theorem date_outside_first_node :
  FindTableIndex (rule_of sample_month) (KString "2020-07-01") = Ok 202007 /\
  202007 ∉ SubTableIndexs (rule_of sample_month) /\
  FindNode (rule_of sample_month) (KString "2020-07-01") = Ok "node2".
Proof.
  split_and!; [vm_compute; reflexivity | apply not_elem_of_by_compute; vm_compute; reflexivity |
    vm_compute; reflexivity].
Qed.
