(* ===== verification/Router.v ===== *)
(** * The router ([proxy/router/router.go])

    Rules by database and table, and the plan of a statement: its route and
    the statements sent to each node. *)
From S2P Require Import Prelude Errors GoLib GoTime RouteLists Ast NumKey Shard Rule Plan.
From Stdlib Require Import Ascii.
Open Scope Z_scope.

Record Router := mkRouter {
  Rules : gmap string (gmap string Rule);
  DefaultRule : Rule;
  RouterNodes : list string }.

(** ** [NewRouter] *)
Definition lookup_rule (rules : gmap string (gmap string Rule)) (db table : string) : option Rule :=
  m ← rules !! db; m !! table.

Definition add_rule (rules : gmap string (gmap string Rule)) (rule : Rule)
  : res error (gmap string (gmap string Rule)) :=
  match rules !! DB rule with
  | Some m =>
      match m !! Table rule with
      | Some _ => Err (Errorf ("table " +:+ Table rule +:+ " rule in " +:+ DB rule +:+ " duplicate"))
      | None => Ok (<[DB rule := <[Table rule := rule]> m]> rules)
      end
  | None => Ok (<[DB rule := {[Table rule := rule]}]> rules)
  end.

Fixpoint check_nodes (nodes : list string) (shard : ShardConfig) (l : list string) : res error unit :=
  match l with
  | [] => Ok tt
  | node :: l =>
      if includeNode nodes node then check_nodes nodes shard l
      else Err (Errorf ("shard table[" +:+ cfg_Table shard +:+ "] node[" +:+ node +:+
                        "] not in the schema.nodes list:[" +:+ Join (cfg_Nodes shard) "," +:+ "]"))
  end.

Fixpoint add_rules (nodes : list string) (shards : list ShardConfig)
    (rules : gmap string (gmap string Rule)) : res error (gmap string (gmap string Rule)) :=
  match shards with
  | [] => Ok rules
  | shard :: shards =>
      let* _ := check_nodes nodes shard (cfg_Nodes shard) in
      let* rule := parseRule shard in
      if String.eqb (Type_ rule) DefaultRuleType
      then Err (Errorf "[default-rule] duplicate, must only one")
      else
        let* rules := add_rule rules rule in
        add_rules nodes shards rules
  end.

Definition NewRouter (schemaConfig : SchemaConfig) : res error Router :=
  if negb (includeNode (sch_Nodes schemaConfig) (sch_Default schemaConfig))
  then Err (Errorf ("default node[" +:+ sch_Default schemaConfig +:+ "] not in the nodes list"))
  else
    let* rules := add_rules (sch_Nodes schemaConfig) (sch_ShardRule schemaConfig) ∅ in
    Ok (mkRouter rules (NewDefaultRule (sch_Default schemaConfig)) (sch_Nodes schemaConfig)).

(** [GetRule]: the default rule remembers the database it was last used
    for. *)
Definition rule_name (db table : string) : string * string :=
  match Split table "." with
  | [d; t] => (Trim d "`", Trim t "`")
  | _ => (db, table)
  end.

Definition GetRule (r : Router) (db table : string) : Rule * Router :=
  let '(db, table) := rule_name db table in
  match lookup_rule (Rules r) db table with
  | Some rule => (rule, r)
  | None =>
      let rule := set_DB db (DefaultRule r) in
      (rule, mkRouter (Rules r) rule (RouterNodes r))
  end.

(** [checkUpdateExprs] *)
Definition checkUpdateExprs (r : Rule) (exprs : list UpdateExpr) : res error unit :=
  if String.eqb (Type_ r) DefaultRuleType then Ok tt
  else if Nat.eqb (length (Nodes r)) 1 then Ok tt
  else if existsb (fun e => String.eqb (ColName_Name (UpdateExpr_Name e)) (Key r)) exprs
  then Err ErrUpdateKey else Ok tt.

(** ** Statements for one table *)

(** [fmt.Fprintf(buf, "%s_%04d", name, tableIndex)]. *)
Definition sub_table (name : string) (tableIndex : Z) : string := name +:+ "_" +:+ fmt_04d tableIndex.

(** [resetQualifier], [rewriteWhereQualifier]: columns qualified by the
    rule's table are requalified by the sub-table while the statement is
    printed, then restored; here the printed tree is a copy. *)
Definition resetQualifier (ruleTable : string) (tableIndex : Z) (ve : ValExpr) : ValExpr :=
  match ve with
  | ColName c =>
      let q := default "" (ColName_Qualifier c) in
      if String.eqb q ruleTable then ColName (mkColName (ColName_Name c) (Some (sub_table q tableIndex)))
      else ve
  | _ => ve
  end.

Fixpoint rewriteWhereQualifier (ruleTable : string) (tableIndex : Z) (expr : BoolExpr) : BoolExpr :=
  match expr with
  | AndExpr a b =>
      AndExpr (rewriteWhereQualifier ruleTable tableIndex a) (rewriteWhereQualifier ruleTable tableIndex b)
  | ComparisonExpr op a b =>
      ComparisonExpr op (resetQualifier ruleTable tableIndex a) (resetQualifier ruleTable tableIndex b)
  | NotExpr e => NotExpr (rewriteWhereQualifier ruleTable tableIndex e)
  | ParenBoolExpr e => ParenBoolExpr (rewriteWhereQualifier ruleTable tableIndex e)
  | OrExpr a b =>
      OrExpr (rewriteWhereQualifier ruleTable tableIndex a) (rewriteWhereQualifier ruleTable tableIndex b)
  | _ => expr
  end.

Definition as_Format (as_ : option string) : res error string :=
  match as_ with Some a => Fprintf " as %s" [FStr a] | None => Ok "" end.

(** One item of the select list. *)
Definition rewrite_select_expr (r : Rule) (tableIndex : Z) (prefix : string) (expr : SelectExpr)
  : res error string :=
  match expr with
  | StarExpr tableName =>
      if String.eqb (default "" tableName) (Table r)
      then Ok (prefix +:+ sub_table (Table r) tableIndex +:+ ".*")
      else Fprintf "%s%v" [FStr prefix; FNode (SelectExpr_Format expr)]
  | NonStarExpr (EVal (ColName c)) as_ =>
      seq_out
        (if String.eqb (default "" (ColName_Qualifier c)) (Table r)
         then Ok (prefix +:+ sub_table (Table r) tableIndex +:+ "." +:+ ColName_Name c)
         else Fprintf "%s%v" [FStr prefix; FNode (ColName_Format c)])
        (as_Format as_)
  | _ => Fprintf "%s%v" [FStr prefix; FNode (SelectExpr_Format expr)]
  end.

Fixpoint rewrite_select_exprs (r : Rule) (tableIndex : Z) (prefix : string) (l : list SelectExpr)
  : res error string :=
  match l with
  | [] => Ok ""
  | expr :: l =>
      seq_out (rewrite_select_expr r tableIndex prefix expr) (rewrite_select_exprs r tableIndex ", " l)
  end.

(** [String_04d], with the alias when there is one. *)
Definition aliased_sub_table (e : SimpleTableExpr) (as_ : option string) (tableIndex : Z) : res error string :=
  let* name := node_String (SimpleTableExpr_Format e) in
  if negb (slen (default "" as_) =? 0)
  then Ok (sub_table name tableIndex +:+ " as " +:+ default "" as_)
  else Ok (sub_table name tableIndex).

(** The first table of the FROM clause. *)
Definition rewrite_from (tableIndex : Z) (t : TableExpr) : res error string :=
  match t with
  | AliasedTableExpr e as_ _ => aliased_sub_table e as_ tableIndex
  | JoinTableExpr lft join right_ on =>
      seq_out
        (match lft with
         | AliasedTableExpr e as_ _ => aliased_sub_table e as_ tableIndex
         | _ => let* name := node_String (TableExpr_Format lft) in Ok (sub_table name tableIndex)
         end)
        (seq_out (Fprintf " %s %v" [FStr join; FNode (TableExpr_Format right_)])
           (match on with
            | Some on => Fprintf " on %v" [FNode (BoolExpr_Format on)]
            | None => Ok ""
            end))
  | _ => let* name := node_String (TableExpr_Format t) in Ok (sub_table name tableIndex)
  end.

(** The limit sent to a table; one that is not numeric is left alone. *)
Definition newLimit (l : option Limit) : option Limit :=
  match RewriteLimit l with Ok l' => l' | _ => l end.

Definition reset_order (ruleTable : string) (tableIndex : Z) (o : Order) : Order :=
  match o with mkOrder e d => mkOrder (resetQualifier ruleTable tableIndex e) d end.

Definition rewrite_where (p : Plan) (tableIndex : Z) (w : Where) : Where :=
  match w with
  | mkWhere ty e =>
      mkWhere ty (rewriteWhereQualifier (Table (Plan_Rule p)) tableIndex (rewriteWhereIn p tableIndex e))
  end.

Definition rewriteSelectSql (p : Plan) (node : select) (tableIndex : Z) : res error string :=
  let r := Plan_Rule p in
  let* head := Fprintf "select %v%s" [FNode (Comments_Format (Sel_Comments node)); FStr (Sel_Distinct node)] in
  let* exprs := rewrite_select_exprs r tableIndex "" (Sel_Exprs node) in
  let* groups := format_items "," "," (map (fun n => FNode (ValExpr_Format n)) (Sel_GroupBy node)) in
  let* t := at_ (Sel_From node) 0 in
  let* from := rewrite_from tableIndex t in
  let* others := format_items ", " ", " (map (fun t => FNode (TableExpr_Format t)) (tail (Sel_From node))) in
  let* tail_ := Fprintf "%v%v%v%v%v%s"
    [FNode (WhereOpt_Format (rewrite_where p tableIndex <$> Sel_Where node));
     FNode (GroupBy_Format (Sel_GroupBy node));
     FNode (WhereOpt_Format (Sel_Having node));
     FNode (OrderBy_Format (reset_order (Table r) tableIndex <$> Sel_OrderBy node));
     FNode (LimitOpt_Format (newLimit (Sel_Limit node)));
     FStr (Sel_Lock node)] in
  Ok (head +:+ exprs +:+ groups +:+ " from " +:+ from +:+ others +:+ tail_).

Definition insert_sql (p : Plan) (node : insert) (tableIndex : Z) : res error string :=
  let* a := Fprintf "insert %v%s into %v"
    [FNode (Comments_Format (Ins_Comments node)); FStr (Ins_Ignore node); FNode (TableName_Format (Ins_Table node))] in
  let* b := Fprintf "%v %v%v"
    [FNode (Columns_Format (Ins_Columns node)); FNode (Values_Format (default [] (Rows p !! tableIndex)));
     FNode (OnDup_Format (Ins_OnDup node))] in
  Ok (a +:+ "_" +:+ fmt_04d tableIndex +:+ b).

Definition update_sql (node : update) (tableIndex : Z) : res error string :=
  let* a := Fprintf "update %v%v"
    [FNode (Comments_Format (Upd_Comments node)); FNode (TableName_Format (Upd_Table node))] in
  let* b := Fprintf " set %v%v%v%v"
    [FNode (UpdateExprs_Format (Upd_Exprs node)); FNode (WhereOpt_Format (Upd_Where node));
     FNode (OrderBy_Format (Upd_OrderBy node)); FNode (LimitOpt_Format (Upd_Limit node))] in
  Ok (a +:+ "_" +:+ fmt_04d tableIndex +:+ b).

Definition delete_sql (node : delete) (tableIndex : Z) : res error string :=
  let* a := Fprintf "delete %vfrom %v"
    [FNode (Comments_Format (Del_Comments node)); FNode (TableName_Format (Del_Table node))] in
  let* b := Fprintf "%v%v%v"
    [FNode (WhereOpt_Format (Del_Where node)); FNode (OrderBy_Format (Del_OrderBy node));
     FNode (LimitOpt_Format (Del_Limit node))] in
  Ok (a +:+ "_" +:+ fmt_04d tableIndex +:+ b).

Definition replace_sql (p : Plan) (node : replace) (tableIndex : Z) : res error string :=
  let* a := Fprintf "replace %vinto %v"
    [FNode (Comments_Format (Rep_Comments node)); FNode (TableName_Format (Rep_Table node))] in
  let* b := Fprintf "%v %v"
    [FNode (Columns_Format (Rep_Columns node)); FNode (Values_Format (default [] (Rows p !! tableIndex)))] in
  Ok (a +:+ "_" +:+ fmt_04d tableIndex +:+ b).

Definition truncate_sql (node : truncate) (tableIndex : Z) : res error string :=
  let* a := Fprintf "truncate %v%s%v"
    [FNode (Comments_Format (Trunc_Comments node)); FStr (Trunc_TableOpt node);
     FNode (TableName_Format (Trunc_Table node))] in
  Ok (a +:+ "_" +:+ fmt_04d tableIndex).

(** ** [generate*Sql]

    The five functions have one shape: without a routed table the whole
    statement goes to the router's first node; otherwise each routed table
    gets its own, filed under [r.Nodes[nodeIndex]], the *router's* list of
    nodes, with the index the *rule* has for the table. *)
Definition add_sql (sqls : gmap string (list string)) (node sql : string) : gmap string (list string) :=
  <[node := default [] (sqls !! node) ++ [sql]]> sqls.

Definition table_node (r : Router) (p : Plan) (tableIndex : Z) : res error string :=
  at_ (RouterNodes r) (nodeOf (Plan_Rule p) tableIndex).

Definition generate_sqls (r : Router) (p : Plan) (whole : res error string)
    (one : Z -> res error string) : res error Plan :=
  if Nat.eqb (length (RouteNodeIndexs p)) 0 then Err ErrNoRouteNode
  else if Nat.eqb (length (RouteTableIndexs p)) 0 then
    let* sql := whole in
    let* nodeName := at_ (RouterNodes r) 0 in
    Ok (set_RewrittenSqls {[nodeName := [sql]]} p)
  else
    let* sqls := rfold (fun sqls tableIndex =>
                          let* nodeName := table_node r p tableIndex in
                          let* sql := one tableIndex in
                          Ok (add_sql sqls nodeName sql)) ∅ (RouteTableIndexs p) in
    Ok (set_RewrittenSqls sqls p).

Definition generateSelectSql (r : Router) (p : Plan) (stmt : select) : res error Plan :=
  generate_sqls r p (Statement_Format (StSelect stmt)) (rewriteSelectSql p stmt).
Definition generateInsertSql (r : Router) (p : Plan) (stmt : insert) : res error Plan :=
  generate_sqls r p (Statement_Format (StInsert stmt)) (insert_sql p stmt).
Definition generateUpdateSql (r : Router) (p : Plan) (stmt : update) : res error Plan :=
  generate_sqls r p (Statement_Format (StUpdate stmt)) (update_sql stmt).
Definition generateDeleteSql (r : Router) (p : Plan) (stmt : delete) : res error Plan :=
  generate_sqls r p (Statement_Format (StDelete stmt)) (delete_sql stmt).
Definition generateReplaceSql (r : Router) (p : Plan) (stmt : replace) : res error Plan :=
  generate_sqls r p (Statement_Format (StReplace stmt)) (replace_sql p stmt).
Definition generateTruncateSql (r : Router) (p : Plan) (stmt : truncate) : res error Plan :=
  generate_sqls r p (Statement_Format (StTruncate stmt)) (truncate_sql stmt).

(** ** Plans of statements *)
Section Build.
Context `{Timezone} `{MapOrder}.

(** The route of a statement with a WHERE clause: its criteria, or all
    tables and nodes; the clause comes back as the planner left it. *)
Definition where_expr (w : Where) : BoolExpr := match w with mkWhere _ e => e end.
Definition where_type (w : Where) : string := match w with mkWhere ty _ => ty end.

Definition planned_where (p : Plan) (w : option Where) : option Where :=
  match w, Criteria p with
  | Some w, CriteriaBool e => Some (mkWhere (where_type w) e)
  | _, _ => w
  end.

Definition route_where (rule : Rule) (w : option Where) : res error (Plan * option Where) :=
  let plan := new_plan rule in
  let* plan :=
    match w with
    | Some w => calRouteIndexs (set_Criteria (CriteriaBool (where_expr w)) plan)
    | None =>
        let* nodes := makeList 0 (Z.of_nat (length (Nodes rule))) in
        Ok (set_Routes (SubTableIndexs rule) nodes plan)
    end in
  if negb (String.eqb (Type_ rule) DefaultRuleType) && Nat.eqb (length (RouteTableIndexs plan)) 0
  then Err ErrNoCriteria
  else Ok (plan, planned_where plan w).

(** The table a select is routed by: the first of its FROM clause. *)
Definition select_table (from : list TableExpr) : res error string :=
  let* t := at_ from 0 in
  match t with
  | AliasedTableExpr e _ _ => node_String (SimpleTableExpr_Format e)
  | JoinTableExpr (AliasedTableExpr e _ _) _ _ _ => node_String (SimpleTableExpr_Format e)
  | _ => node_String (TableExpr_Format t)
  end.

Definition set_Sel_Where (w : option Where) (s : select) : select :=
  mkSelect (Sel_Comments s) (Sel_Distinct s) (Sel_Exprs s) (Sel_From s) w (Sel_GroupBy s)
    (Sel_Having s) (Sel_OrderBy s) (Sel_Limit s) (Sel_Lock s).
Definition set_Upd_Where (w : option Where) (s : update) : update :=
  mkUpdate (Upd_Comments s) (Upd_Table s) (Upd_Exprs s) w (Upd_OrderBy s) (Upd_Limit s).
Definition set_Del_Where (w : option Where) (s : delete) : delete :=
  mkDelete (Del_Comments s) (Del_Table s) w (Del_OrderBy s) (Del_Limit s).

Definition buildSelectPlan (r : Router) (db : string) (stmt : select) : res error (Plan * Router) :=
  let* tableName := select_table (Sel_From stmt) in
  let '(rule, r) := GetRule r db tableName in
  let* (plan, w) := route_where rule (Sel_Where stmt) in
  let* plan := generateSelectSql r plan (set_Sel_Where w stmt) in
  Ok (plan, r).

Definition buildUpdatePlan (r : Router) (db : string) (stmt : update) : res error (Plan * Router) :=
  let* tableName := node_String (TableName_Format (Upd_Table stmt)) in
  let '(rule, r) := GetRule r db tableName in
  let* _ := checkUpdateExprs rule (Upd_Exprs stmt) in
  let* (plan, w) := route_where rule (Upd_Where stmt) in
  let* plan := generateUpdateSql r plan (set_Upd_Where w stmt) in
  Ok (plan, r).

Definition buildDeletePlan (r : Router) (db : string) (stmt : delete) : res error (Plan * Router) :=
  let* tableName := node_String (TableName_Format (Del_Table stmt)) in
  let '(rule, r) := GetRule r db tableName in
  let* (plan, w) := route_where rule (Del_Where stmt) in
  let* plan := generateDeleteSql r plan (set_Del_Where w stmt) in
  Ok (plan, r).

Definition buildTruncatePlan (r : Router) (db : string) (stmt : truncate) : res error (Plan * Router) :=
  let* tableName := node_String (TableName_Format (Trunc_Table stmt)) in
  let '(rule, r) := GetRule r db tableName in
  let* (plan, _) := route_where rule None in
  let* plan := generateTruncateSql r plan stmt in
  Ok (plan, r).

(** The route of VALUES rows. *)
Definition route_rows (rule : Rule) (cols : list SelectExpr) (vals : list Tuple)
    (onDup : option (list UpdateExpr)) : res error Plan :=
  let* plan := GetIRKeyIndex (new_plan rule) cols in
  let* _ := match onDup with Some l => checkUpdateExprs rule l | None => Ok tt end in
  let* _ := checkValuesType rule vals in
  calRouteIndexs (set_Criteria (CriteriaValues vals) plan).

Definition buildInsertPlan (r : Router) (db : string) (stmt : insert) : res error (Plan * Router) :=
  match Ins_Rows stmt, Ins_Columns stmt with
  | RowsSelect _, _ => Err ErrSelectInInsert
  | RowsValues _, None => Err ErrIRNoColumns
  | RowsValues vals, Some cols =>
      let* tableName := node_String (TableName_Format (Ins_Table stmt)) in
      let '(rule, r) := GetRule r db tableName in
      let* plan := route_rows rule cols vals (Ins_OnDup stmt) in
      let* plan := generateInsertSql r plan stmt in
      Ok (plan, r)
  end.

Definition buildReplacePlan (r : Router) (db : string) (stmt : replace) : res error (Plan * Router) :=
  match Rep_Rows stmt, Rep_Columns stmt with
  | RowsSelect _, _ => Panic (PParserError "select in replace not allowed")
  | RowsValues _, None => Err ErrIRNoColumns
  | RowsValues vals, Some cols =>
      let* tableName := node_String (TableName_Format (Rep_Table stmt)) in
      let '(rule, r) := GetRule r db tableName in
      let* plan := route_rows rule cols vals None in
      let* plan := generateReplaceSql r plan stmt in
      Ok (plan, r)
  end.

Definition BuildPlan (r : Router) (db : string) (statement : Statement) : res error (Plan * Router) :=
  match statement with
  | StInsert stmt => buildInsertPlan r db stmt
  | StReplace stmt => buildReplacePlan r db stmt
  | StSelect stmt => buildSelectPlan r db stmt
  | StUpdate stmt => buildUpdatePlan r db stmt
  | StDelete stmt => buildDeletePlan r db stmt
  | StTruncate stmt => buildTruncatePlan r db stmt
  | _ => Err ErrNoPlan
  end.
End Build.

(** ** Laws of the rule table *)
Lemma add_rule_inv rules rule rules' :
  add_rule rules rule = Ok rules' ->
  lookup_rule rules (DB rule) (Table rule) = None /\
  forall db t, lookup_rule rules' db t =
    if decide (db = DB rule /\ t = Table rule) then Some rule else lookup_rule rules db t.
Proof.
  unfold add_rule, lookup_rule. destruct (rules !! DB rule) as [m|] eqn:Hm.
  - destruct (m !! Table rule) eqn:Ht; [done|]. intros [= <-]. split; [done|]. intros db t.
    destruct (decide (db = DB rule)) as [->|Hne].
    + rewrite lookup_insert_eq, Hm. simpl. destruct (decide (t = Table rule)) as [->|Hnt].
      * by rewrite lookup_insert_eq, decide_True.
      * rewrite lookup_insert_ne, decide_False by naive_solver. done.
    + rewrite lookup_insert_ne, decide_False by naive_solver. done.
  - intros [= <-]. split; [done|]. intros db t.
    destruct (decide (db = DB rule)) as [->|Hne].
    + rewrite lookup_insert_eq, Hm. simpl. destruct (decide (t = Table rule)) as [->|Hnt].
      * by rewrite lookup_singleton_eq, decide_True.
      * rewrite lookup_singleton_ne, decide_False by naive_solver. done.
    + rewrite lookup_insert_ne, decide_False by naive_solver. done.
Qed.

Lemma parseRule_names cfg r : parseRule cfg = Ok r -> DB r = cfg_DB cfg /\ Table r = cfg_Table cfg.
Proof. unfold parseRule. intros Hp. by inv_bind. Qed.

Lemma includeNode_iff nodes n : includeNode nodes n = true <-> n ∈ nodes.
Proof.
  unfold includeNode. rewrite existsb_exists, list_elem_of_In. split.
  - by intros (x & Hx & ->%String.eqb_eq).
  - intros Hn. exists n. by rewrite String.eqb_refl.
Qed.

Lemma check_nodes_ok nodes shard l : check_nodes nodes shard l = Ok tt -> forall n, n ∈ l -> n ∈ nodes.
Proof.
  induction l as [|x l IH]; simpl; [set_solver|].
  destruct (includeNode nodes x) eqn:Hx; [|done]. intros Hc n [->|Hn]%elem_of_cons; [by apply includeNode_iff|].
  by apply IH.
Qed.

(** The rules of a configuration: one per shard, under its names, and no
    others than those already there. *)
Lemma add_rules_inv nodes shards rules rules' :
  add_rules nodes shards rules = Ok rules' ->
  (forall cfg, cfg ∈ shards -> exists r, parseRule cfg = Ok r /\
     lookup_rule rules' (cfg_DB cfg) (cfg_Table cfg) = Some r /\ forall n, n ∈ cfg_Nodes cfg -> n ∈ nodes) /\
  (forall db t r, lookup_rule rules' db t = Some r ->
     lookup_rule rules db t = Some r \/
     exists cfg, cfg ∈ shards /\ parseRule cfg = Ok r /\ cfg_DB cfg = db /\ cfg_Table cfg = t) /\
  (forall db t r, lookup_rule rules db t = Some r -> lookup_rule rules' db t = Some r).
Proof.
  revert rules. induction shards as [|cfg shards IH]; intros rules Ha; simpl in Ha.
  { injection Ha as <-. split_and!; [set_solver | auto | done]. }
  apply rbind_Ok_inv in Ha as ([] & Hn & Ha). apply rbind_Ok_inv in Ha as (r & Hr & Ha).
  destruct (String.eqb _ _); [done|]. apply rbind_Ok_inv in Ha as (rules1 & H1 & Ha).
  apply add_rule_inv in H1 as [Hnone Hl]. destruct (parseRule_names _ _ Hr) as [Hdb Htb].
  rewrite Hdb, Htb in Hnone, Hl. destruct (IH _ Ha) as (Hall & Hback & Hkeep). split_and!.
  - intros c [->|Hc]%elem_of_cons; [|by apply Hall]. exists r. split_and!; [done| |by eapply check_nodes_ok].
    apply Hkeep. rewrite Hl. by rewrite decide_True.
  - intros db t r' [Hr'|(c & Hc & Hp & Hd & Ht)]%Hback.
    + rewrite Hl in Hr'. case_decide as Hd; [|by left]. right. destruct Hd as [-> ->].
      injection Hr' as <-. exists cfg. split_and!; [by left | done..].
    + right. exists c. split_and!; [by right | done..].
  - intros db t r' Hr'. apply Hkeep. rewrite Hl. case_decide as Hd; [|done].
    destruct Hd as [-> ->]. congruence.
Qed.

(** ** Laws of [generate_sqls] *)

(** The statements of a node, in the order of the tables. *)
Definition of_node (node : string) (sqls : list (string * string)) : list string :=
  snd <$> List.filter (fun ns => String.eqb ns.1 node) sqls.

Lemma add_sql_fold (name : Z -> res error string) (one : Z -> res error string) l m m' :
  rfold (fun sqls t => let* n := name t in let* sql := one t in Ok (add_sql sqls n sql)) m l = Ok m' ->
  exists sqls, Forall2 (fun t ns => name t = Ok ns.1 /\ one t = Ok ns.2) l sqls /\
    forall node, default [] (m' !! node) = default [] (m !! node) ++ of_node node sqls.
Proof.
  revert m. induction l as [|t l IH]; intros m Hf; cbn [rfold] in Hf.
  { injection Hf as <-. exists []. split; [constructor|]. intros node. by rewrite app_nil_r. }
  apply rbind_Ok_inv in Hf as (m1 & H1 & Hf). apply rbind_Ok_inv in H1 as (n & Hn & H1).
  apply rbind_Ok_inv in H1 as (sql & Hs & H1). injection H1 as <-.
  destruct (IH _ Hf) as (sqls & Hall & Hm). exists ((n, sql) :: sqls). split; [by constructor|].
  intros node. rewrite Hm. unfold add_sql, of_node. cbn [List.filter fst].
  destruct (String.eqb_spec n node) as [->|Hne].
  - rewrite lookup_insert_eq. simpl. by rewrite <- app_assoc.
  - by rewrite lookup_insert_ne.
Qed.

(** What a plan sends: one statement per routed table, to the node the
    router has for it. *)
Definition one_per_table (r : Router) (p p' : Plan) (one : Z -> res error string) : Prop :=
  exists sqls, Forall2 (fun t ns => table_node r p t = Ok ns.1 /\ one t = Ok ns.2) (RouteTableIndexs p) sqls /\
    forall node, default [] (RewrittenSqls p' !! node) = of_node node sqls.

Lemma generate_sqls_inv r p whole one p' :
  RouteTableIndexs p <> [] -> generate_sqls r p whole one = Ok p' -> one_per_table r p p' one.
Proof.
  intros Hne Hg. unfold generate_sqls in Hg.
  destruct (Nat.eqb _ 0); [done|].
  destruct (Nat.eqb_spec (length (RouteTableIndexs p)) 0) as [Hl|_]; [by destruct (RouteTableIndexs p)|].
  apply rbind_Ok_inv in Hg as (sqls & Hs & Hg). injection Hg as <-.
  apply add_sql_fold in Hs as (l & Hl & Hm). exists l. split; [done|].
  intros node. simpl. rewrite Hm. by rewrite lookup_empty.
Qed.
