(* ===== verification/ExecDB.v ===== *)
(** * Statements executed without the planner ([proxy/server/conn_preshard.go])

    Before a statement is parsed, its words are looked at: a statement on a
    table without a rule goes as it is to the default node, or to the node
    named by a comment.  [None] hands the statement on to the planner.
    Looking up a rule changes the router's default rule, so the functions
    are methods of the router. *)
From S2P Require Import Prelude Errors StateM GoLib Ast Rule Router.
From Stdlib Require Import Ascii.
Open Scope Z_scope.

(** ** Words ([core/hack/hack.go], [mysql/const.go]) *)
Definition IsSqlSep (r : ascii) : bool :=
  Ascii.eqb r " " || Ascii.eqb r "," || Ascii.eqb r "009" || Ascii.eqb r "/" || Ascii.eqb r "010" || Ascii.eqb r "013".

(** [strings.FieldsFunc]: the non-empty pieces between separators. *)
Fixpoint pieces (f : ascii -> bool) (s : string) : string * list string :=
  match s with
  | EmptyString => ("", [])
  | String c s =>
      let '(w, ws) := pieces f s in
      if f c then ("", if String.eqb w "" then ws else w :: ws) else (String c w, ws)
  end.
Definition FieldsFunc (s : string) (f : ascii -> bool) : list string :=
  let '(w, ws) := pieces f s in if String.eqb w "" then ws else w :: ws.

Inductive token_id : Type :=
| TK_ID_INSERT | TK_ID_UPDATE | TK_ID_DELETE | TK_ID_REPLACE | TK_ID_SET | TK_ID_BEGIN | TK_ID_COMMIT
| TK_ID_ROLLBACK | TK_ID_ADMIN | TK_ID_USE | TK_ID_SELECT | TK_ID_START | TK_ID_TRANSACTION | TK_ID_SHOW
| TK_ID_TRUNCATE.

Definition PARSE_TOKEN_MAP : gmap string token_id := list_to_map [
  ("insert", TK_ID_INSERT); ("update", TK_ID_UPDATE); ("delete", TK_ID_DELETE); ("replace", TK_ID_REPLACE);
  ("set", TK_ID_SET); ("begin", TK_ID_BEGIN); ("commit", TK_ID_COMMIT); ("rollback", TK_ID_ROLLBACK);
  ("admin", TK_ID_ADMIN); ("select", TK_ID_SELECT); ("use", TK_ID_USE); ("start", TK_ID_START);
  ("transaction", TK_ID_TRANSACTION); ("show", TK_ID_SHOW); ("truncate", TK_ID_TRUNCATE)].

Definition COMMENT_PREFIX : Z := 42.
Definition COMMENT_STRING : string := "*".
Definition TK_STR_SELECT : string := "select".
Definition TK_STR_FROM : string := "from".
Definition TK_STR_INTO : string := "into".
Definition TK_STR_SET : string := "set".
Definition TK_STR_TRANSACTION : string := "transaction".
Definition TK_STR_LAST_INSERT_ID : string := "last_insert_id()".
Definition TK_STR_MASTER_HINT : string := "*master*".
Definition TK_STR_COLUMNS : string := "columns".
Definition TK_STR_FIELDS : string := "fields".

Definition SET_KEY_WORDS : list string := [
  "names";
  "character_set_results"; "@@character_set_results"; "@@session.character_set_results";
  "character_set_client"; "@@character_set_client"; "@@session.character_set_client";
  "character_set_connection"; "@@character_set_connection"; "@@session.character_set_connection";
  "autocommit"; "@@autocommit"; "@@session.autocommit"].

(** A node is known by its name; [ExecNode] is nil when the proxy has no
    such node. *)
Record ExecuteDB := mkExecuteDB { ExecNode : option string; IsSlave : bool; sql : string }.

Definition set_ExecNode (n : option string) (e : ExecuteDB) : ExecuteDB := mkExecuteDB n (IsSlave e) (sql e).
Definition set_IsSlave (b : bool) (e : ExecuteDB) : ExecuteDB := mkExecuteDB (ExecNode e) b (sql e).

(** [s[0]] *)
Definition first_byte (s : string) : res error Z :=
  match s with
  | EmptyString => Panic (PRuntime "index out of range")
  | String c _ => Ok (byte_of c)
  end.

Section ExecDB.
Context (schema_nodes proxy_nodes : gset string).  (* the keys of [schema.nodes], [Server.nodes] *)
Context (db : string).                             (* [c.db] *)

Definition schema_node (name : string) : option string :=
  if decide (name ∈ schema_nodes) then Some name else None.
Definition GetNode (name : string) : option string :=
  if decide (name ∈ proxy_nodes) then Some name else None.

(** The node named by the first word, when it is a comment. *)
Definition hinted_node (tokens : list string) : res error (option string) :=
  let* t0 := at_ tokens 0 in
  let* c := first_byte t0 in
  Ok (if c =? COMMENT_PREFIX then schema_node (Trim t0 COMMENT_STRING) else None).

Definition is_comment (token : string) : res error bool :=
  let* c := first_byte token in Ok (c =? COMMENT_PREFIX).

Definition default_node : ST Router (option string) :=
  do! r := get in
  match Nodes (DefaultRule r) with
  | [] => fail ErrNoDefaultNode
  | node :: _ => ret (GetNode node)
  end.

Definition setExecuteNode (tokens : list string) (executeDB : ExecuteDB) : ST Router ExecuteDB :=
  do! e := (if Nat.leb 2 (length tokens) then
              do! t0 := lift (at_ tokens 0) in
              do! comment := lift (is_comment t0) in
              if comment then
                let nodeName := Trim t0 COMMENT_STRING in
                let e := match schema_node nodeName with
                         | Some n => set_ExecNode (Some n) executeDB
                         | None => executeDB
                         end in
                do! t1 := lift (at_ tokens 1) in
                ret (if String.eqb (ToLower t1) TK_STR_SELECT then set_IsSlave true e else e)
              else ret executeDB
            else ret executeDB) in
  match ExecNode e with
  | Some _ => ret e
  | None => do! n := default_node in ret (set_ExecNode n e)
  end.

Definition get_rule (ruleDB tableName : string) : ST Router Rule :=
  do! r := get in
  let '(rule, r) := GetRule r ruleDB tableName in
  do! _ := put r in
  ret rule.

(** [router.GetRule(ruleDB, tableName) != router.DefaultRule], a
    comparison of pointers, with the table named by a word. *)
Definition table_sharded (name : string * string) : ST Router bool :=
  let '(DBName, tableName) := name in
  let ruleDB := if negb (String.eqb DBName "") then DBName else db in
  do! _ := get_rule ruleDB tableName in
  do! r := get in
  let '(d, t) := rule_name ruleDB tableName in
  ret (match lookup_rule (Rules r) d t with Some _ => true | None => false end).

(** The loops over the words: whether the statement is for the planner. *)
Fixpoint needs_plan (word : string) (stop : string -> bool) (name : string -> string * string)
    (tokens : list string) : ST Router bool :=
  match tokens with
  | [] => ret false
  | token :: rest =>
      match rest with
      | next :: _ =>
          if String.eqb (ToLower token) word then table_sharded (name next)
          else if stop token then ret true else needs_plan word stop name rest
      | [] => ret (stop token)
      end
  end.

Definition no_stop (token : string) : bool := false.

(** The word before [set]. *)
Fixpoint set_needs_plan (previous : option string) (tokens : list string) : ST Router bool :=
  match tokens with
  | [] => ret false
  | token :: rest =>
      if String.eqb (ToLower token) TK_STR_SET then
        match previous with
        | Some p => table_sharded (GetDBTable p)
        | None => lift (Panic (PRuntime "index out of range"))
        end
      else set_needs_plan (Some token) rest
  end.

(** [if len(rules) != 0 { ... }] *)
Definition with_rules (m : ST Router bool) : ST Router bool :=
  do! r := get in if Nat.eqb (size (Rules r)) 0 then ret false else m.

Definition unless_planned (plan : ST Router bool) (m : ST Router ExecuteDB) : ST Router (option ExecuteDB) :=
  do! b := plan in
  if b then ret None else do! e := m in ret (Some e).

Definition getSelectExecDB (sql : string) (tokens : list string) : ST Router (option ExecuteDB) :=
  let executeDB := mkExecuteDB None true sql in
  unless_planned
    (with_rules (needs_plan TK_STR_FROM (fun t => String.eqb (ToLower t) TK_STR_LAST_INSERT_ID) GetDBTable (tail tokens)))
    (do! e := (if Nat.ltb 2 (length tokens) then
                 do! t1 := lift (at_ tokens 1) in
                 ret (if String.eqb (ToLower t1) TK_STR_MASTER_HINT then set_IsSlave false executeDB else executeDB)
               else ret executeDB) in
     setExecuteNode tokens e).

Definition getDeleteExecDB (sql : string) (tokens : list string) : ST Router (option ExecuteDB) :=
  unless_planned (with_rules (needs_plan TK_STR_FROM no_stop GetDBTable (tail tokens)))
    (setExecuteNode tokens (mkExecuteDB None false sql)).

Definition getInsertOrReplaceExecDB (sql : string) (tokens : list string) : ST Router (option ExecuteDB) :=
  unless_planned (with_rules (needs_plan TK_STR_INTO no_stop GetInsertDBTable tokens))
    (setExecuteNode tokens (mkExecuteDB None false sql)).

Definition getUpdateExecDB (sql : string) (tokens : list string) : ST Router (option ExecuteDB) :=
  unless_planned (with_rules (set_needs_plan None tokens))
    (setExecuteNode tokens (mkExecuteDB None false sql)).

Definition getTruncateExecDB (sql : string) (tokens : list string) : ST Router (option ExecuteDB) :=
  unless_planned
    (with_rules (if Nat.leb 2 (length tokens) then
                   do! t := lift (at_ tokens (Z.of_nat (length tokens) - 1)) in table_sharded (GetDBTable t)
                 else ret false))
    (setExecuteNode tokens (mkExecuteDB None false sql)).

(** [set autocommit=0] and the character sets are for the parser, the
    isolation level is ignored. *)
Definition set_planned (sql : string) (tokens : list string) : ST Router bool :=
  if Nat.leb 2 (length tokens) then
    do! before := lift (at_ (Split sql "=") 0) in
    let uncleanWord := Split before " " in
    do! secondWord := lift (at_ uncleanWord 1) in
    if StringIn (ToLower secondWord) SET_KEY_WORDS then ret true
    else if Nat.leb 3 (length uncleanWord) then
      do! thirdWord := lift (at_ uncleanWord 2) in
      if String.eqb (ToLower secondWord) TK_STR_TRANSACTION
         || String.eqb (ToLower thirdWord) TK_STR_TRANSACTION
      then fail ErrIgnoreSQL else ret false
    else ret false
  else ret false.

Definition getSetExecDB (sql : string) (tokens : list string) : ST Router (option ExecuteDB) :=
  do! planned := set_planned sql tokens in
  if planned then ret None else do! e := setExecuteNode tokens (mkExecuteDB None false sql) in ret (Some e).

(** [handleShowColumns] from the [i]-th word on; words seen are put in
    lower case, and stay so in the statement that is sent for a sharded
    table: the first of its sub-tables stands for all. *)
Definition show_columns_here (tokens : list string) (i : Z) (executeDB : ExecuteDB)
  : ST Router (option (list string * ExecuteDB)) :=
  do! t := lift (at_ tokens i) in
  if (String.eqb t TK_STR_FIELDS || String.eqb t TK_STR_COLUMNS) && (i + 2 <? Z.of_nat (length tokens)) then
    do! t1 := lift (at_ tokens (i + 1)) in
    if String.eqb (ToLower t1) TK_STR_FROM then
      do! t2 := lift (at_ tokens (i + 2)) in
      let tableName := (GetDBTable t2).2 in
      do! ruleDB := (if (i + 4 <? Z.of_nat (length tokens)) && String.eqb (ToLower t1) TK_STR_FROM
                     then do! t4 := lift (at_ tokens (i + 4)) in ret (Trim t4 "`")
                     else ret db) in
      do! showRule := get_rule ruleDB tableName in
      if negb (String.eqb (Type_ showRule) DefaultRuleType) && Nat.ltb 0 (length (SubTableIndexs showRule)) then
        do! tableIndex := lift (at_ (SubTableIndexs showRule) 0) in
        do! nodeName := lift (at_ (Nodes showRule) (nodeOf showRule tableIndex)) in
        let tokens := <[Z.to_nat (i + 2) := sub_table tableName tableIndex]> tokens in
        ret (Some (tokens, mkExecuteDB (schema_node nodeName) (IsSlave executeDB) (Join tokens " ")))
      else ret None
    else ret None
  else ret None.

Fixpoint show_columns (fuel : nat) (tokens : list string) (i : Z) (executeDB : ExecuteDB)
  : ST Router (list string * ExecuteDB) :=
  match fuel with
  | O => ret (tokens, executeDB)
  | S fuel =>
      let tokens := alter ToLower (Z.to_nat i) tokens in
      do! found := show_columns_here tokens i executeDB in
      match found with
      | Some r => ret r
      | None => show_columns fuel tokens (i + 1) executeDB
      end
  end.

Definition handleShowColumns (tokens : list string) (executeDB : ExecuteDB) : ST Router (list string * ExecuteDB) :=
  show_columns (length tokens) tokens 0 executeDB.

Definition getShowExecDB (sql : string) (tokens : list string) : ST Router (option ExecuteDB) :=
  do! (tokens, executeDB) := handleShowColumns tokens (mkExecuteDB None true sql) in
  do! e := setExecuteNode tokens executeDB in
  ret (Some e).

Definition GetExecDB (tokens : list string) (sql : string) : ST Router (option ExecuteDB) :=
  match tokens with
  | [] => do! e := setExecuteNode tokens (mkExecuteDB None false sql) in ret (Some e)
  | t0 :: _ =>
      match PARSE_TOKEN_MAP !! ToLower t0 with
      | Some TK_ID_SELECT => getSelectExecDB sql tokens
      | Some TK_ID_DELETE => getDeleteExecDB sql tokens
      | Some (TK_ID_INSERT | TK_ID_REPLACE) => getInsertOrReplaceExecDB sql tokens
      | Some TK_ID_UPDATE => getUpdateExecDB sql tokens
      | Some TK_ID_SET => getSetExecDB sql tokens
      | Some TK_ID_SHOW => getShowExecDB sql tokens
      | Some TK_ID_TRUNCATE => getTruncateExecDB sql tokens
      | Some _ => ret None
      | None => do! e := setExecuteNode tokens (mkExecuteDB None false sql) in ret (Some e)
      end
  end.

(** In a transaction, by the nodes the transaction has reached so far. *)
Definition GetTransExecDB (txNodes : list string) (tokens : list string) (sql : string)
  : ST Router (option ExecuteDB) :=
  do! hint := (if Nat.leb 2 (length tokens) then lift (hinted_node tokens) else ret None) in
  match hint with
  | None => GetExecDB tokens sql
  | Some node =>
      if Nat.eqb (length txNodes) 1 && negb (bool_decide (node ∈ txNodes)) then fail ErrTransInMulti
      else ret (Some (mkExecuteDB (Some node) false sql))
  end.
End ExecDB.
