(* ===== verification/RouterTheorems.v ===== *)
(** * What the router guarantees for whole statements *)
From S2P Require Import Prelude Errors GoLib GoTime RouteLists Ast NumKey Shard Rule Plan Routing RoutingTheorems Router.
From Stdlib Require Import Ascii.
Open Scope Z_scope.

Section Rows.
Context `{Timezone} `{MapOrder}.





End Rows.

Section Theorems.
Context `{Timezone} `{MapOrder}.

(** Generating the statements changes nothing else in the plan. *)
Lemma generate_sqls_frame r q q' whole one :
  generate_sqls r q whole one = Ok q' -> exists sqls, q' = set_RewrittenSqls sqls q.
Proof.
  intros Hg. unfold generate_sqls in Hg.
  repeat (destruct (Nat.eqb _ 0); [|]); try done;
    [apply rbind_Ok_inv in Hg as (? & _ & Hg)|]; apply rbind_Ok_inv in Hg as (? & _ & Hg);
    injection Hg as <-; eauto.
Qed.

Lemma route_where_where rule w q w' : route_where rule w = Ok (q, w') -> w' = planned_where q w.
Proof.
  unfold route_where. intros Hr. apply rbind_Ok_inv in Hr as (p & _ & Hr).
  destruct (_ && _); [done|]. by injection Hr as <- <-.
Qed.

(** Opens a [build*Plan]: the table name, the rule; then its last step. *)
Ltac plan_parts H rule rt :=
  let name := fresh "name" in
  apply rbind_Ok_inv in H as (name & _ & H); destruct (GetRule _ _ name) as [rule rt].
Ltac generated H Hne :=
  let q' := fresh "q" in let Hg := fresh "Hg" in let Hf := fresh "Hf" in let sqls := fresh "sqls" in
  apply rbind_Ok_inv in H as (q' & Hg & H); injection H as <- <-;
  pose proof Hg as Hf; apply generate_sqls_frame in Hf as [sqls ->];
  exact (generate_sqls_inv _ _ _ _ _ Hne Hg).

(** The router knows exactly the configured rules.  After a successful
    [NewRouter], [GetRule] answers for a table name, qualified with
    backquotes or not, the rule parsed from the shard configured for that
    database and table, and the default rule, for the statement's
    database, when no shard is configured for it; every rule's nodes are
    nodes of the schema. *)
Theorem GetRule_configured schema rt db table
    (Hr : NewRouter schema = Ok rt) :
  let '(d, t) := rule_name db table in
  (forall cfg, cfg ∈ sch_ShardRule schema -> cfg_DB cfg = d -> cfg_Table cfg = t ->
     exists rule, parseRule cfg = Ok rule /\ GetRule rt db table = (rule, rt) /\
       forall n, n ∈ cfg_Nodes cfg -> n ∈ sch_Nodes schema) /\
  ((forall cfg, cfg ∈ sch_ShardRule schema -> ~ (cfg_DB cfg = d /\ cfg_Table cfg = t)) ->
     exists rt', GetRule rt db table = (set_DB d (NewDefaultRule (sch_Default schema)), rt') /\
       Rules rt' = Rules rt /\ RouterNodes rt' = RouterNodes rt).
Proof.
  unfold NewRouter in Hr. destruct (includeNode _ _); [|done]. simpl in Hr.
  apply rbind_Ok_inv in Hr as (rules & Ha & Hr). injection Hr as <-.
  apply add_rules_inv in Ha as (Hall & Hback & _).
  unfold GetRule. destruct (rule_name db table) as [d t]. simpl. split.
  - intros cfg Hc <- <-. destruct (Hall cfg Hc) as (rule & Hp & Hl & Hn). exists rule. rewrite Hl. auto.
  - intros Hno. destruct (lookup_rule rules d t) as [rule|] eqn:Hl; [|eauto].
    apply Hback in Hl as [Hl|(cfg & Hc & _ & Hd & Ht)].
    + unfold lookup_rule in Hl. by rewrite lookup_empty in Hl.
    + exfalso. by apply (Hno cfg Hc).
Qed.






(** C5: one statement per routed table.  Whatever the statement, when its
    plan routes to sub-tables it has for every one of them, and for no
    other, one statement rewritten for that table, filed in table order
    under the node [r.Nodes[TableToNode[table]]]; a WHERE clause is
    rewritten from the criteria the planner routed by. *)
Theorem statement_per_table rt db st p rt'
    (Hb : BuildPlan rt db st = Ok (p, rt')) (Hne : RouteTableIndexs p <> []) :
  one_per_table rt' p p
    (match st with
     | StSelect s => rewriteSelectSql p (set_Sel_Where (planned_where p (Sel_Where s)) s)
     | StUpdate s => update_sql (set_Upd_Where (planned_where p (Upd_Where s)) s)
     | StDelete s => delete_sql (set_Del_Where (planned_where p (Del_Where s)) s)
     | StInsert s => insert_sql p s
     | StReplace s => replace_sql p s
     | StTruncate s => truncate_sql s
     | _ => fun _ => Ok ""
     end).
Proof.
  destruct st as [s| | |s|s|s|s|s| | | | | | | | |]; try done; cbn [BuildPlan] in Hb.
  - unfold buildSelectPlan in Hb. plan_parts Hb rule rt1.
    apply rbind_Ok_inv in Hb as ([q w] & Hq & Hb). apply route_where_where in Hq as ->. generated Hb Hne.
  - unfold buildInsertPlan in Hb. destruct (Ins_Rows s) as [?|vals]; [done|].
    destruct (Ins_Columns s) as [cols|]; [|done]. plan_parts Hb rule rt1.
    apply rbind_Ok_inv in Hb as (q & Hq & Hb). generated Hb Hne.
  - unfold buildUpdatePlan in Hb. plan_parts Hb rule rt1. apply rbind_Ok_inv in Hb as (? & _ & Hb).
    apply rbind_Ok_inv in Hb as ([q w] & Hq & Hb). apply route_where_where in Hq as ->. generated Hb Hne.
  - unfold buildDeletePlan in Hb. plan_parts Hb rule rt1.
    apply rbind_Ok_inv in Hb as ([q w] & Hq & Hb). apply route_where_where in Hq as ->. generated Hb Hne.
  - unfold buildReplacePlan in Hb. destruct (Rep_Rows s) as [?|vals]; [done|].
    destruct (Rep_Columns s) as [cols|]; [|done]. plan_parts Hb rule rt1.
    apply rbind_Ok_inv in Hb as (q & Hq & Hb). generated Hb Hne.
  - unfold buildTruncatePlan in Hb. plan_parts Hb rule rt1.
    apply rbind_Ok_inv in Hb as ([q w] & Hq & Hb). generated Hb Hne.
Qed.

(** ** The shape of every plan: the rule that was found, and distinct nodes *)
Definition plan_shape (rule : Rule) (p : Plan) : Prop := Plan_Rule p = rule /\ NoDup (RouteNodeIndexs p).

Lemma calRouteIndexs_shape p p' : calRouteIndexs p = Ok p' -> plan_shape (Plan_Rule p) p'.
Proof.
  unfold calRouteIndexs, plan_shape. destruct (String.eqb _ _).
  { intros [= <-]. split; [done|]. cbn. apply NoDup_singleton. }
  destruct (Criteria p); intros Hc; try done.
  - apply rbind_Ok_inv in Hc as ([l q] & H1 & Hc). injection Hc as <-.
    unfold getInsertTableIndex in H1. apply rbind_Ok_inv in H1 as ([ts g] & _ & H1). injection H1 as <- <-.
    split; [done | apply cleanList_spec].
  - apply rbind_Ok_inv in Hc as ([[l e'] q] & H1 & Hc). injection Hc as <-.
    apply getTableIndexByBoolExpr_frame in H1 as (_ & Hq & _). split; [done | apply cleanList_spec].
  - apply rbind_Ok_inv in Hc as (l & H1 & Hc). injection Hc as <-. split; [done|].
    apply incr_NoDup. by eapply makeList_incr.
Qed.

Lemma route_where_shape rule w q w' : route_where rule w = Ok (q, w') -> plan_shape rule q.
Proof.
  unfold route_where. intros Hr. apply rbind_Ok_inv in Hr as (p & Hp & Hr).
  destruct (_ && _); [done|]. injection Hr as <- _. destruct w as [w|].
  - by apply calRouteIndexs_shape in Hp.
  - apply rbind_Ok_inv in Hp as (l & H1 & Hp). injection Hp as <-. split; [done|].
    apply incr_NoDup. by eapply makeList_incr.
Qed.

Lemma route_rows_shape rule cols vals onDup q : route_rows rule cols vals onDup = Ok q -> plan_shape rule q.
Proof.
  unfold route_rows, GetIRKeyIndex. intros Hr. apply rbind_Ok_inv in Hr as (p1 & H1 & Hr).
  apply rbind_Ok_inv in H1 as ([k|] & _ & H1); [|done]. injection H1 as <-.
  apply rbind_Ok_inv in Hr as (_ & _ & Hr). apply rbind_Ok_inv in Hr as (_ & _ & Hr).
  by apply calRouteIndexs_shape in Hr.
Qed.

Lemma generate_sqls_shape r rule q q' whole one :
  generate_sqls r q whole one = Ok q' -> plan_shape rule q -> plan_shape rule q'.
Proof. by intros [sqls ->]%generate_sqls_frame. Qed.

Lemma BuildPlan_shape r db stmt p r' :
  BuildPlan r db stmt = Ok (p, r') -> exists table rule, GetRule r db table = (rule, r') /\ plan_shape rule p.
Proof.
  intros Hb. destruct stmt as [s| | |s|s|s|s|s| | | | | | | | |]; try done; cbn in Hb;
    unfold buildSelectPlan, buildInsertPlan, buildUpdatePlan, buildDeletePlan, buildReplacePlan, buildTruncatePlan in Hb.
  all: try (destruct (Ins_Rows s) as [|vals]; [done|]; destruct (Ins_Columns s) as [cols|]; [|done]).
  all: try (destruct (Rep_Rows s) as [|vals]; [done|]; destruct (Rep_Columns s) as [cols|]; [|done]).
  all: apply rbind_Ok_inv in Hb as (table & _ & Hb); exists table;
    destruct (GetRule r db table) as [rule r1]; exists rule.
  all: try lazymatch type of Hb with rbind (checkUpdateExprs _ _) _ = _ => apply rbind_Ok_inv in Hb as (_ & _ & Hb) end.
  all: apply rbind_Ok_inv in Hb as (q & Hq & Hb);
    try lazymatch type of q with prod _ _ => destruct q as [q w] end.
  all: apply rbind_Ok_inv in Hb as (q' & Hq' & Hb); injection Hb as <- <-; split; [done|].
  all: apply (generate_sqls_shape _ _ _ _ _ _ Hq'); eauto using route_where_shape, route_rows_shape.
Qed.
End Theorems.

(** ** Witnesses and counterexamples *)
#[local] Existing Instance UTC.

(** The schema of the repository's tests, with three of its rules. *)
Definition sample_schema : SchemaConfig :=
  mkSchemaConfig "kingshard" ["node1"; "node2"; "node3"] "node1" [sample_hash; sample_range; sample_month].
Definition sample_router : Router :=
  match NewRouter sample_schema with Ok r => r | _ => mkRouter ∅ (NewDefaultRule "") [] end.

Definition table_t : TableName := mkTableName "t" None.
(* select * from t where t.id in (1, 4, 6) and name != 'x' limit 2, 3 *)
Definition sample_select : select :=
  mkSelect [] "" [StarExpr None] [AliasedTableExpr (TableNameExpr table_t) None None]
    (Some (mkWhere "where" sample_where)) [] None []
    (Some (mkLimit (Some (NumVal "2")) (NumVal "3"))) "".

Definition built (st : Statement) : Plan * Router :=
  match BuildPlan sample_router "kingshard" st with
  | Ok x => x
  | _ => (new_plan (NewDefaultRule ""), sample_router)
  end.
Lemma built_ok st :
  is_ok (BuildPlan sample_router "kingshard" st) = true ->
  BuildPlan sample_router "kingshard" st = Ok (built st).
Proof. unfold built. by destruct (BuildPlan _ _ st). Qed.


Lemma statement_per_table_witness :
  RewrittenSqls (built (StSelect sample_select)).1 !! "node1" =
    Some ["select * from t_0000 where ID in (6) and name != 'x' limit 5";
          "select * from t_0001 where ID in (1, 4) and name != 'x' limit 5"] /\
  exists one, one_per_table (built (StSelect sample_select)).2 (built (StSelect sample_select)).1
                (built (StSelect sample_select)).1 one.
Proof.
  split; [vm_compute; reflexivity|]. eexists.
  apply (statement_per_table sample_router "kingshard" (StSelect sample_select)).
  - rewrite built_ok by (vm_compute; reflexivity). by destruct (built _).
  - vm_compute. discriminate.
Defined.

Lemma GetRule_configured_witness :
  NewRouter sample_schema = Ok sample_router /\
  exists rule, parseRule sample_hash = Ok rule /\
    GetRule sample_router "other" "`kingshard`.`t`" = (rule, sample_router).
Proof.
  assert (NewRouter sample_schema = Ok sample_router) as Hr by (vm_compute; reflexivity).
  split; [exact Hr|].
  pose proof (GetRule_configured sample_schema sample_router "other" "`kingshard`.`t`" Hr) as Hg.
  destruct Hg as [Hg _]. destruct (Hg sample_hash) as (rule & H1 & H2 & _);
    [by left | reflexivity | reflexivity | eauto].
Defined.

(** Statements are sent to the wrong node.  [TableToNode] indexes the
    rule's own list of nodes, but the statements are filed by the router's
    list: with the schema's nodes node1, node2, node3 and a rule on node2
    and node3, the row of key 4 is on node2 by [FindNode], and the SELECT
    for its table is sent to node1. *)
Theorem statement_sent_to_wrong_node :
  let r := rule_of sample_hash in
  let p := (built (StSelect sample_select)).1 in
  FindTableIndex r (KInt64 4) = Ok 1 /\ FindNode r (KInt64 4) = Ok "node2" /\
  RewrittenSqls p !! "node2" = None /\
  exists sql sql', RewrittenSqls p !! "node1" = Some [sql; sql'] /\
    rewriteSelectSql p (set_Sel_Where (planned_where p (Sel_Where sample_select)) sample_select) 1 = Ok sql'.
Proof.
  split_and!; [vm_compute; reflexivity..|]. do 2 eexists. split; vm_compute; reflexivity.
Qed.

(** The protection of the shard key is case sensitive: an UPDATE that
    sets the key column is refused when the column is written in lower
    case, and accepted in any other case, although the planner itself
    ignores the case of the key. *)
Theorem update_key_check_case :
  let set_key name := [mkUpdateExpr (mkColName name None) (NumVal "1")] in
  checkUpdateExprs (rule_of sample_hash) (set_key "id") = Err ErrUpdateKey /\
  checkUpdateExprs (rule_of sample_hash) (set_key "ID") = Ok tt /\
  (getValueType (rule_of sample_hash) (col "ID")).1 = EID_NODE.
Proof. split_and!; vm_compute; reflexivity. Qed.

(** A table whose name is a keyword has no rule: its printed name
    keeps its backquotes, which [GetRule] removes from qualified names
    only, so its statements take the default rule. *)
Theorem keyword_table_default_rule :
  let cfg := mkShardConfig "kingshard" "order" "id" ["node2"; "node3"] [2; 1] HashRuleType 0 [] in
  let schema := mkSchemaConfig "kingshard" ["node1"; "node2"; "node3"] "node1" [cfg] in
  exists rt, NewRouter schema = Ok rt /\
    (let* name := node_String (TableName_Format (mkTableName "order" None)) in
     Ok (Type_ (GetRule rt "kingshard" name).1)) = Ok DefaultRuleType /\
    Type_ (GetRule rt "kingshard" "order").1 = HashRuleType.
Proof. eexists. split_and!; vm_compute; reflexivity. Qed.
