(* ===== verification/ExecTheorems.v ===== *)
(** * Which statements are planned

    A statement on a table without a rule goes as it is to the default
    node; one on a table with a rule goes to the planner. *)
From S2P Require Import Prelude Errors StateM GoLib Ast Shard Rule Plan RoutingTheorems Router RouterTheorems ExecDB.
From Stdlib Require Import Ascii.
Open Scope Z_scope.




Section Theorems.
Context (schema_nodes proxy_nodes : gset string) (db : string).











End Theorems.

