(* ===== verification/Wire.v ===== *)
(** * MySQL wire encodings ([mysql/util.go])

    Byte slices are lists of integers below 256: length-encoded integers
    and strings, little-endian integers, and the texts of binary dates and
    times. *)
From S2P Require Import Prelude Errors GoLib.
From Stdlib Require Import Ascii.
Open Scope Z_scope.

(** A byte slice; [nil] is the empty list. *)
Definition bytes : Type := list Z.
Definition is_byte (b : Z) : Prop := 0 <= b < 256.
Definition blen (b : bytes) : Z := Z.of_nat (length b).

(** [p[pos:]] *)
Definition from {E} (p : bytes) (pos : Z) : res E bytes :=
  if (0 <=? pos) && (pos <=? blen p) then Ok (drop (Z.to_nat pos) p)
  else Panic (PRuntime "slice bounds out of range").

(** [hack.String] and [hack.Slice]: the same bytes as a string. *)
Definition string_of (b : bytes) : string := String.string_of_list_ascii (char_of <$> b).
Definition bytes_of (s : string) : bytes := byte_of <$> String.list_ascii_of_string s.
#[global] Arguments string_of : simpl never.
#[global] Arguments bytes_of : simpl never.

(** ** Little-endian integers

    [b[0] | b[1]<<8 | ...], as [util.go] and [binary.LittleEndian] have it. *)
Fixpoint le_or (b : bytes) : Z :=
  match b with
  | [] => 0
  | x :: b => Z.lor x (Z.shiftl (le_or b) 8)
  end.

(** The [k] bytes of [b] at [pos] as an integer; reading past the end
    panics. *)
Definition le_at {E} (b : bytes) (pos : Z) (k : Z) : res E Z :=
  if (0 <=? pos) && (pos + k <=? blen b)
  then Ok (le_or (take (Z.to_nat k) (drop (Z.to_nat pos) b)))
  else Panic (PRuntime "index out of range").

(** [byte(n), byte(n >> 8), ...] *)
Definition byte_at (n : Z) (i : Z) : Z := u8 (Z.shiftr n (8 * i)).
Definition put_le (k : Z) (n : Z) : bytes := byte_at n <$> seqZ 0 k.

Definition Uint16ToBytes (n : Z) : bytes := put_le 2 n.
Definition Uint32ToBytes (n : Z) : bytes := put_le 4 n.
Definition Uint64ToBytes (n : Z) : bytes := put_le 8 n.

(** ** Length-encoded integers and strings *)

(** [LengthEncodedInt]: the value, whether it is NULL, and the bytes read. *)
Definition LengthEncodedInt (b : bytes) : res error (Z * bool * Z) :=
  let* first := at_ b 0 in
  if first =? 0xfb then Ok (0, true, 1)
  else if first =? 0xfc then let* num := le_at b 1 2 in Ok (num, false, 3)
  else if first =? 0xfd then let* num := le_at b 1 3 in Ok (num, false, 4)
  else if first =? 0xfe then let* num := le_at b 1 8 in Ok (num, false, 9)
  else Ok (first, false, 1).

Definition PutLengthEncodedInt (n : Z) : bytes :=
  if n <=? 250 then [u8 n]
  else if n <=? 0xffff then 0xfc :: put_le 2 n
  else if n <=? 0xffffff then 0xfd :: put_le 3 n
  else if n <=? 0xffffffffffffffff then 0xfe :: put_le 8 n
  else [].

(** [LengthEnodedString]: the string, whether it is NULL, and the bytes
    read; the conversion of the length to [int] and the sum wrap.  The
    values returned beside [io.EOF] are read by no caller. *)
Definition LengthEnodedString (b : bytes) : res error (bytes * bool * Z) :=
  let* (num, isNull, n) := LengthEncodedInt b in
  if num <? 1 then Ok ([], isNull, n)
  else
    let n := i64 (n + i64 num) in
    if n <=? blen b then let* s := slice b (i64 (n - i64 num)) n in Ok (s, false, n)
    else Err ErrIO_EOF.

Definition SkipLengthEnodedString (b : bytes) : res error Z :=
  let* (num, _, n) := LengthEncodedInt b in
  if num <? 1 then Ok n
  else
    let n := i64 (n + i64 num) in
    if n <=? blen b then Ok n else Err ErrIO_EOF.

Definition PutLengthEncodedString (b : bytes) : bytes :=
  PutLengthEncodedInt (blen b) ++ b.

(** ** Binary dates and times *)
Definition clock_text (h m s : Z) : string := fmt_02d h +:+ ":" +:+ fmt_02d m +:+ ":" +:+ fmt_02d s.

(** ["%04d-%02d-%02d"] of the first four bytes. *)
Definition date_text (data : bytes) : res error string :=
  let* y := (let* d := slice data 0 2 in le_at d 0 2) in
  let* m := at_ data 2 in
  let* d := at_ data 3 in
  Ok (fmt_04d y +:+ "-" +:+ fmt_02d m +:+ "-" +:+ fmt_02d d).

Definition FormatBinaryDate (n : Z) (data : bytes) : res error string :=
  if n =? 0 then Ok "0000-00-00"
  else if n =? 4 then date_text data
  else Err (Errorf ("invalid date packet length " +:+ FormatInt n)).

(** ["%02d:%02d:%02d"] of the bytes at 4, 5 and 6. *)
Definition time_text (data : bytes) : res error string :=
  let* h := at_ data 4 in let* m := at_ data 5 in let* s := at_ data 6 in
  Ok (clock_text h m s).

Definition FormatBinaryDateTime (n : Z) (data : bytes) : res error string :=
  if n =? 0 then Ok "0000-00-00 00:00:00"
  else if n =? 4 then let* d := date_text data in Ok (d +:+ " 00:00:00")
  else if n =? 7 then
    let* d := date_text data in let* t := time_text data in Ok (d +:+ " " +:+ t)
  else if n =? 11 then
    let* d := date_text data in let* t := time_text data in
    let* us := (let* u := slice data 7 11 in le_at u 0 4) in
    Ok (d +:+ " " +:+ t +:+ "." +:+ fmt_06d us)
  else Err (Errorf ("invalid datetime packet length " +:+ FormatInt n)).

(** The sign byte, then hours from the low byte of the days; the "%c" of a
    zero sign is a NUL byte. *)
Definition span_text (sign : Z) (data : bytes) : res error string :=
  let* d := at_ data 1 in let* h := at_ data 5 in
  let* m := at_ data 6 in let* s := at_ data 7 in
  Ok (String (char_of sign) (clock_text (u16 (d * 24 + h)) m s)).

Definition FormatBinaryTime (n : Z) (data : bytes) : res error string :=
  if n =? 0 then Ok "0000-00-00"
  else
    let* first := at_ data 0 in
    let sign := if first =? 1 then byte_of "-" else 0 in
    if n =? 8 then span_text sign data
    else if n =? 12 then
      let* t := span_text sign data in
      let* us := (let* u := slice data 8 12 in le_at u 0 4) in
      Ok (t +:+ "." +:+ fmt_06d us)
    else Err (Errorf ("invalid time packet length " +:+ FormatInt n)).

(** ** Laws of the little-endian encodings *)
Lemma byte_at_S n i : 0 <= i -> byte_at n (i + 1) = byte_at (Z.shiftr n 8) i.
Proof.
  intros Hi. unfold byte_at. rewrite Z.shiftr_shiftr by lia. do 2 f_equal. lia.
Qed.

Lemma put_le_S k n : 0 <= k -> put_le (k + 1) n = u8 n :: put_le k (Z.shiftr n 8).
Proof.
  intros Hk. unfold put_le. change (k + 1) with (Z.succ k). rewrite seqZ_cons by lia.
  replace (Z.pred (Z.succ k)) with k by lia.
  rewrite fmap_cons. f_equal.
  change (Z.succ 0) with (1 + 0). rewrite <- (fmap_add_seqZ 1 0 k).
  rewrite <- list_fmap_compose. apply list_fmap_ext. intros i x Hx.
  apply lookup_seqZ in Hx. unfold compose. rewrite Z.add_comm. apply byte_at_S. lia.
Qed.

Lemma length_put_le k n : length (put_le k n) = Z.to_nat k.
Proof. unfold put_le. by rewrite length_fmap, length_seqZ. Qed.

Lemma put_le_bytes k n : Forall is_byte (put_le k n).
Proof.
  apply Forall_fmap, Forall_true. intros i. unfold compose, byte_at, is_byte, u8.
  apply Z.mod_pos_bound. lia.
Qed.

Lemma lor_shift_add x y : is_byte x -> Z.lor x (Z.shiftl y 8) = x + 256 * y.
Proof.
  unfold is_byte. intros Hx. rewrite <- Z.add_nocarry_lor.
  - rewrite Z.shiftl_mul_pow2 by lia. lia.
  - apply Z.bits_inj'. intros i Hi. rewrite Z.land_spec, Z.shiftl_spec, Z.bits_0 by lia.
    destruct (Z.lt_ge_cases i 8) as [Hl|Hl].
    + by rewrite (Z.testbit_neg_r y) by lia; rewrite andb_false_r.
    + replace x with (x mod 2 ^ 8) by (apply Z.mod_small; lia).
      by rewrite Z.mod_pow2_bits_high by lia.
Qed.

Lemma le_or_cons x b : is_byte x -> le_or (x :: b) = x + 256 * le_or b.
Proof. intros Hx. cbn [le_or]. by apply lor_shift_add. Qed.

Lemma u8_byte n : is_byte (u8 n).
Proof. unfold is_byte, u8. apply Z.mod_pos_bound. lia. Qed.

Lemma le_or_put_le k n : 0 <= k -> le_or (put_le k n) = n mod 256 ^ k.
Proof.
  intros Hk. revert n. pattern k. apply natlike_ind; [| |done]; clear k Hk.
  - intros n. change (put_le 0 n) with (@nil Z). by rewrite Z.pow_0_r, Z.mod_1_r.
  - intros k Hk IH n. rewrite <- Z.add_1_r, put_le_S by done.
    rewrite le_or_cons, IH by apply u8_byte. unfold u8.
    rewrite Z.shiftr_div_pow2 by lia. change (2 ^ 8) with 256.
    rewrite Z.pow_add_r, Z.pow_1_r, Z.mul_comm by lia.
    rewrite (Z.mul_comm (256 ^ k)). rewrite Z.rem_mul_r by lia. lia.
Qed.

Lemma le_or_range b : Forall is_byte b -> 0 <= le_or b < 256 ^ blen b.
Proof.
  induction 1 as [|x b Hx Hb IH]; [change (256 ^ blen []) with 1; cbn [le_or]; lia|]. rewrite le_or_cons by done.
  unfold blen in *. cbn [length]. rewrite Nat2Z.inj_succ, Z.pow_succ_r by lia.
  unfold is_byte in Hx. lia.
Qed.

Lemma put_le_le_or b : Forall is_byte b -> put_le (blen b) (le_or b) = b.
Proof.
  induction 1 as [|x b Hx Hb IH]; [done|]. unfold blen in *. cbn [length].
  rewrite Nat2Z.inj_succ, <- Z.add_1_r, put_le_S by lia.
  rewrite le_or_cons by done. unfold is_byte in Hx. f_equal.
  - unfold u8. change (2 ^ 8) with 256. rewrite Z.mul_comm, Z.mod_add by lia. by apply Z.mod_small.
  - rewrite Z.shiftr_div_pow2 by lia. change (2 ^ 8) with 256.
    rewrite Z.mul_comm, Z.div_add, Z.div_small by lia. exact IH.
Qed.

(** ** Reading at a known place of a concatenation *)
Lemma bytes_of_bytes s : Forall is_byte (bytes_of s).
Proof. apply Forall_fmap, Forall_true. intros c. apply byte_of_range. Qed.

(** The decimal form of a number is digits. *)
Definition digit_byte (b : Z) : Prop := 48 <= b <= 57.
Lemma dec_digits_bytes fuel n acc :
  0 <= n -> Forall digit_byte (bytes_of acc) -> Forall digit_byte (bytes_of (dec_digits fuel n acc)).
Proof.
  revert n acc; induction fuel as [|fuel IH]; intros n acc Hn Hacc; [done|]. cbn [dec_digits].
  assert (Forall digit_byte (bytes_of (String (char_digit (n mod 10)) acc))) as Hc.
  { apply Forall_cons. split; [|done]. pose proof (Z.mod_pos_bound n 10). unfold char_digit, digit_byte.
    rewrite byte_of_char_of by lia. lia. }
  destruct (n <? 10); [done|]. apply IH; [|done]. by apply Z.div_pos.
Qed.
Lemma FormatUint_bytes n : 0 <= n -> Forall digit_byte (bytes_of (FormatUint n)).
Proof. intros Hn. by apply dec_digits_bytes. Qed.

Lemma blen_app (a b : bytes) : blen (a ++ b) = blen a + blen b.
Proof. unfold blen. rewrite length_app. lia. Qed.
Lemma blen_cons x (b : bytes) : blen (x :: b) = 1 + blen b.
Proof. unfold blen. cbn [length]. lia. Qed.
Lemma blen_put_le k n : 0 <= k -> blen (put_le k n) = k.
Proof. intros. unfold blen. rewrite length_put_le. lia. Qed.
Lemma blen_nonneg b : 0 <= blen b.
Proof. unfold blen. lia. Qed.

Lemma le_at_mid {E} (pre mid post : bytes) pos k :
  blen pre = pos -> blen mid = k -> @le_at E (pre ++ mid ++ post) pos k = Ok (le_or mid).
Proof.
  intros <- <-. unfold le_at. rewrite !blen_app.
  replace (_ && _) with true by (pose proof (blen_nonneg pre); pose proof (blen_nonneg post); lia).
  unfold blen. rewrite !Nat2Z.id, drop_app_length. by rewrite take_app_length.
Qed.

Lemma slice_mid {E} (pre mid post : bytes) a b :
  blen pre = a -> a + blen mid = b -> @slice E Z (pre ++ mid ++ post) a b = Ok mid.
Proof.
  intros <- <-. unfold slice. change (Z.of_nat (length (pre ++ mid ++ post))) with (blen (pre ++ mid ++ post)).
  rewrite !blen_app.
  replace (_ && _) with true
    by (pose proof (blen_nonneg pre); pose proof (blen_nonneg mid); pose proof (blen_nonneg post); lia).
  rewrite Z.add_simpl_l. unfold blen. rewrite !Nat2Z.id, drop_app_length. by rewrite take_app_length.
Qed.

Lemma from_app {E} (pre post : bytes) pos : blen pre = pos -> @from E (pre ++ post) pos = Ok post.
Proof.
  intros <-. unfold from. rewrite blen_app.
  replace (_ && _) with true by (pose proof (blen_nonneg pre); pose proof (blen_nonneg post); lia).
  unfold blen. by rewrite Nat2Z.id, drop_app_length.
Qed.

Lemma slice_Ok_inv {E} (l s : bytes) a b :
  @slice E Z l a b = Ok s -> 0 <= a <= b /\ b <= blen l /\ exists pre post, l = pre ++ s ++ post /\ blen pre = a /\ blen s = b - a.
Proof.
  unfold slice. destruct (_ && _) eqn:Hb; [|done]. intros [= <-]. split; [lia|]. split; [unfold blen; lia|].
  exists (take (Z.to_nat a) l), (drop (Z.to_nat (b - a)) (drop (Z.to_nat a) l)).
  rewrite !take_drop. unfold blen. rewrite !length_take, length_drop. split; [done | lia].
Qed.

(** ** Reading one of the parts a packet was put together from *)
Lemma blen_nil : blen [] = 0.
Proof. done. Qed.
Lemma blen_bytes_of str : blen (bytes_of str) = slen str.
Proof.
  unfold blen, bytes_of, slen. rewrite length_fmap. f_equal. induction str as [|a str IH]; [done|]. cbn. by rewrite IH.
Qed.
Lemma blen_replicate n x : blen (replicate n x) = Z.of_nat n.
Proof. unfold blen. by rewrite length_replicate. Qed.

(** [parts [a; b; c]] is [a ++ b ++ c]. *)
Fixpoint parts (l : list bytes) : bytes :=
  match l with [] => [] | [x] => x | x :: l => x ++ parts l end.

Lemma parts_concat l : parts l = concat l.
Proof. induction l as [|x [|y l] IH]; [done | by cbn; rewrite app_nil_r |]. cbn [parts concat] in *. by rewrite IH. Qed.

Lemma parts_at l i x : l !! i = Some x -> parts l = parts (take i l) ++ x ++ parts (drop (S i) l).
Proof.
  intros Hi. rewrite !parts_concat. rewrite <- (take_drop_middle l i x Hi) at 1.
  by rewrite concat_app.
Qed.

Section Parts.
Context {E : Type} (l : list bytes) (i : nat).

Lemma slice_part x a b :
  l !! i = Some x -> blen (parts (take i l)) = a -> a + blen x = b -> @slice E Z (parts l) a b = Ok x.
Proof. intros Hi Ha Hb. rewrite (parts_at l i x Hi). by apply slice_mid. Qed.

Lemma le_at_part k n a :
  l !! i = Some (put_le k n) -> blen (parts (take i l)) = a -> 0 <= k -> 0 <= n < 256 ^ k -> @le_at E (parts l) a k = Ok n.
Proof.
  intros Hi Ha Hk Hn. rewrite (parts_at l i _ Hi). rewrite le_at_mid by (done || by rewrite blen_put_le).
  by rewrite le_or_put_le, Z.mod_small.
Qed.

Lemma at_part x a : l !! i = Some [x] -> blen (parts (take i l)) = a -> @at_ E Z (parts l) a = Ok x.
Proof.
  intros Hi <-. rewrite (parts_at l i _ Hi). apply at_Ok. unfold blen. split; [lia|].
  rewrite Nat2Z.id, lookup_app_r, Nat.sub_diag by lia. done.
Qed.

Lemma from_part a : blen (parts (take i l)) = a -> @from E (parts l) a = Ok (parts (drop i l)).
Proof.
  intros Ha. rewrite !parts_concat in *. rewrite <- (take_drop i l) at 1. rewrite concat_app. by apply from_app.
Qed.
End Parts.

(** Lengths of written parts. *)
Ltac solve_blen :=
  cbn [parts take drop lookup list_lookup];
  rewrite ?blen_app, ?blen_cons, ?blen_put_le, ?blen_bytes_of, ?blen_replicate, ?blen_nil by lia; lia.

(** ** Laws of the length-encoded forms *)
Lemma LengthEncodedInt_put n rest :
  in_u64 n -> LengthEncodedInt (PutLengthEncodedInt n ++ rest) = Ok (n, false, blen (PutLengthEncodedInt n)).
Proof.
  intros [H0 H1]. unfold PutLengthEncodedInt.
  assert (forall c k, 0 <= k -> n < 256 ^ k -> @le_at error (c :: put_le k n ++ rest) 1 k = Ok n) as Hle.
  { intros c k Hk Hn. change (c :: put_le k n ++ rest) with ([c] ++ put_le k n ++ rest).
    rewrite le_at_mid by (try rewrite blen_put_le; done).
    rewrite le_or_put_le, Z.mod_small by lia. done. }
  destruct (Z.leb_spec n 250).
  { assert (u8 n = n) as E by (apply Z.mod_small; lia). rewrite E. unfold LengthEncodedInt. simpl.
    rewrite !(proj2 (Z.eqb_neq n _)) by lia. done. }
  destruct (Z.leb_spec n 0xffff); [|destruct (Z.leb_spec n 0xffffff);
    [|replace (n <=? 0xffffffffffffffff) with true by lia]];
    rewrite blen_cons, blen_put_le by lia; unfold LengthEncodedInt; cbn [app];
    unfold at_ at 1; cbn; rewrite Hle by lia; done.
Qed.

(** Proves that a written byte list is one. *)
Ltac solve_bytes :=
  rewrite ?Forall_app; split_and?;
  first [ apply put_le_bytes
        | assumption
        | repeat (apply Forall_cons_2; [first [assumption | unfold is_byte; vm_compute; intuition congruence]|]);
          apply Forall_nil_2 ].

Lemma PutLengthEncodedInt_bytes n : Forall is_byte (PutLengthEncodedInt n).
Proof.
  unfold PutLengthEncodedInt. repeat case_if; repeat apply Forall_cons_2; try apply put_le_bytes;
    try apply Forall_nil_2; try apply u8_byte; unfold is_byte; lia.
Qed.

(** Where the value and the header lie. *)
Lemma LengthEncodedInt_inv b num isNull h :
  Forall is_byte b -> LengthEncodedInt b = Ok (num, isNull, h) ->
  in_u64 num /\ 1 <= h <= 9 /\ h <= blen b /\ (isNull = true -> num = 0).
Proof.
  intros Hb H. unfold LengthEncodedInt in H. apply rbind_Ok_inv in H as (first & Hf & H).
  apply at_Ok in Hf as [_ Hf]. destruct b as [|x b]; [done|]. injection Hf as ->.
  inversion Hb as [|? ? Hx Hbs]; subst. pose proof (blen_nonneg b).
  assert (forall k, 0 <= k <= 8 ->
            match @le_at error (first :: b) 1 k with Ok v => in_u64 v /\ 1 + k <= blen (first :: b) | _ => True end) as Hle.
  { intros k Hk. unfold le_at. case_if as Hc; [|done]. split; [|lia].
    pose proof (le_or_range (take (Z.to_nat k) (drop (Z.to_nat 1) (first :: b)))) as [HA HB].
    { apply Forall_take. exact Hbs. }
    split; [done|]. eapply Z.lt_le_trans; [exact HB|]. change (2 ^ 64) with (256 ^ 8).
    apply Z.pow_le_mono_r; [lia|]. unfold blen. rewrite length_take. lia. }
  rewrite blen_cons in *. unfold is_byte in Hx.
  repeat (case_if_in H); inv_bind; unfold in_u64 in *; try (split_and!; (done || lia));
    match goal with E : le_at _ _ ?k = Ok _ |- _ =>
      specialize (Hle k ltac:(lia)); rewrite E in Hle; destruct Hle as [[? ?] ?]; split_and!; (done || lia) end.
Qed.

(** The shape of [LengthEnodedString] and of its twin. *)
Lemma LengthEnodedString_cases b num isNull h :
  Forall is_byte b -> LengthEncodedInt b = Ok (num, isNull, h) -> num < 2 ^ 63 - 9 ->
  LengthEnodedString b =
    (if num <? 1 then Ok ([], isNull, h)
     else if h + num <=? blen b then let* s := slice b h (h + num) in Ok (s, false, h + num) else Err ErrIO_EOF) /\
  SkipLengthEnodedString b =
    (if num <? 1 then Ok h else if h + num <=? blen b then Ok (h + num) else Err ErrIO_EOF).
Proof.
  intros Hb H Hn. destruct (LengthEncodedInt_inv _ _ _ _ Hb H) as ([H0 _] & Hh & _).
  unfold LengthEnodedString, SkipLengthEnodedString. rewrite H. cbn [rbind].
  rewrite (i64_id num), (i64_id (h + num)) by (unfold in_i64; lia).
  rewrite Z.add_simpl_r, (i64_id h) by (unfold in_i64; lia). done.
Qed.

(** Reading and skipping what was written. *)
Lemma read_PutLengthEncodedString (s rest : bytes) :
  Forall is_byte s -> Forall is_byte rest -> blen s < 2 ^ 63 - 9 ->
  let w := PutLengthEncodedString s in
  LengthEnodedString (w ++ rest) = Ok (s, false, blen w) /\
  SkipLengthEnodedString (w ++ rest) = Ok (blen w).
Proof.
  intros Hs Hr Hl w. unfold w, PutLengthEncodedString. set (h := PutLengthEncodedInt (blen s)).
  pose proof (blen_nonneg s) as H0.
  assert (forall rest, LengthEncodedInt (h ++ rest) = Ok (blen s, false, blen h)) as Hh.
  { intros rest'. apply LengthEncodedInt_put. unfold in_u64. lia. }
  assert (Forall is_byte h) as Hbh by apply PutLengthEncodedInt_bytes.
  rewrite <- app_assoc.
  destruct (LengthEnodedString_cases (h ++ s ++ rest) (blen s) false (blen h)) as [-> ->];
    [by rewrite !Forall_app | apply Hh | done |].
  rewrite !blen_app. split.
  - destruct (Z.ltb_spec (blen s) 1).
    + assert (s = []) as -> by (destruct s; [done | rewrite blen_cons in *; pose proof (blen_nonneg s); lia]).
      by rewrite Z.add_0_r.
    + pose proof (blen_nonneg rest). replace (_ <=? _) with true by lia.
      by rewrite (slice_mid h s rest) by done.
  - pose proof (blen_nonneg rest). replace (_ <=? _) with true by lia.
    destruct (Z.ltb_spec (blen s) 1); [|done]. f_equal. lia.
Qed.

(** ** Properties *)

(** Length-encoded strings round trip: what [PutLengthEncodedString]
    writes before any other bytes is read back as that string, not NULL,
    and reading and skipping both advance by exactly the bytes written. *)
Theorem length_encoded_string_roundtrip (s rest : bytes)
    (Hs : Forall is_byte s) (Hr : Forall is_byte rest) (Hl : blen s < 2 ^ 63 - 9) :
  let w := PutLengthEncodedString s in
  LengthEnodedString (w ++ rest) = Ok (s, false, blen w) /\
  SkipLengthEnodedString (w ++ rest) = Ok (blen w) /\
  LengthEncodedInt w = Ok (blen s, false, blen w - blen s).
Proof.
  cbv zeta. destruct (read_PutLengthEncodedString s rest Hs Hr Hl) as [-> ->]. split_and!; [done..|].
  unfold PutLengthEncodedString. rewrite blen_app, Z.add_simpl_r. apply LengthEncodedInt_put.
  pose proof (blen_nonneg s). unfold in_u64. lia.
Qed.

Lemma length_encoded_string_roundtrip_witness :
  LengthEnodedString (PutLengthEncodedString [107; 115] ++ [1]) = Ok ([107; 115], false, 3).
Proof.
  apply (length_encoded_string_roundtrip [107; 115] [1]);
    [repeat constructor; unfold is_byte; lia.. | vm_compute; reflexivity].
Defined.

(** Reading a length-encoded string stays in the packet.  When the
    length itself could be read and is below 2^63 - 9, the reader does not
    panic: it answers the bytes that follow the length, all inside the
    packet, or [io.EOF] exactly when they are not all there; skipping
    agrees with reading. *)
Theorem LengthEnodedString_in_bounds b num isNull h
    (Hb : Forall is_byte b) (H : LengthEncodedInt b = Ok (num, isNull, h)) (Hn : num < 2 ^ 63 - 9) :
  match LengthEnodedString b with
  | Ok (s, nul, n) =>
      (exists pre post, b = pre ++ s ++ post /\ blen pre = h) /\
      n = h + num /\ blen s = num /\ n <= blen b /\ (nul = true -> s = [])
  | Err e => e = ErrIO_EOF /\ blen b < h + num
  | Panic _ => False
  end /\
  SkipLengthEnodedString b = (let* (_, _, n) := LengthEnodedString b in Ok n).
Proof.
  destruct (LengthEncodedInt_inv _ _ _ _ Hb H) as ([H0 _] & Hh & Hhb & Hnull).
  destruct (LengthEnodedString_cases _ _ _ _ Hb H Hn) as [-> ->].
  destruct (Z.ltb_spec num 1).
  - assert (num = 0) as -> by lia. split; [|done]. split; [|change (blen []) with 0; split_and!; (done || lia)].
    exists (take (Z.to_nat h) b), (drop (Z.to_nat h) b). cbn [app]. rewrite take_drop.
    split; [done|]. unfold blen in *. rewrite length_take. lia.
  - destruct (Z.leb_spec (h + num) (blen b)) as [Hl|]; [|split; [split; [done | lia] | done]].
    destruct (slice b h (h + num)) as [s|e|] eqn:Hs.
    + apply slice_Ok_inv in Hs as (_ & _ & pre & post & -> & <- & Hbs). cbn [rbind].
      split; [|done]. split; [by exists pre, post|]. split_and!; (done || lia).
    + exfalso. unfold slice in Hs. by case_match.
    + exfalso. unfold slice in Hs. replace (_ && _) with true in Hs by (unfold blen in *; lia). done.
Qed.

Lemma LengthEnodedString_in_bounds_witness :
  SkipLengthEnodedString [0xfc; 2; 0; 7; 8; 9] =
    (let* (_, _, n) := LengthEnodedString [0xfc; 2; 0; 7; 8; 9] in Ok n).
Proof.
  apply (LengthEnodedString_in_bounds [0xfc; 2; 0; 7; 8; 9] 2 false 3);
    [repeat constructor; unfold is_byte; lia | reflexivity | lia].
Defined.

(** A packet can crash the reader: a length of 2^63 or more becomes a
    negative [int], passes the bounds check and slices out of bounds, and
    a header cut short reads past the end. *)
Theorem hostile_length_panics :
  LengthEnodedString [0xfe; 0; 0; 0; 0; 0; 0; 0; 0x80] = Panic (PRuntime "slice bounds out of range") /\
  SkipLengthEnodedString [0xfe; 0; 0; 0; 0; 0; 0; 0; 0x80] = Ok (9 - 2 ^ 63) /\
  LengthEnodedString [0xfc; 1] = Panic (PRuntime "index out of range").
Proof. split_and!; vm_compute; reflexivity. Qed.

(** The fields of a binary date are where [FormatBinaryDateTime] looks. *)
Lemma FormatBinaryDateTime_fields y mo d h mi s us rest :
  0 <= y < 2 ^ 16 -> 0 <= us < 2 ^ 32 ->
  let date := fmt_04d y +:+ "-" +:+ fmt_02d mo +:+ "-" +:+ fmt_02d d in
  let data := Uint16ToBytes y ++ [mo; d; h; mi; s] ++ Uint32ToBytes us ++ rest in
  FormatBinaryDate 4 data = Ok date /\
  FormatBinaryDateTime 4 data = Ok (date +:+ " 00:00:00") /\
  FormatBinaryDateTime 7 data = Ok (date +:+ " " +:+ clock_text h mi s) /\
  FormatBinaryDateTime 11 data = Ok (date +:+ " " +:+ clock_text h mi s +:+ "." +:+ fmt_06d us).
Proof.
  intros Hy Hus date data.
  assert (date_text data = Ok date) as Hd.
  { unfold date_text, data. change (slice (Uint16ToBytes y ++ ?l) 0 2) with (@slice error Z ([] ++ Uint16ToBytes y ++ l) 0 2).
    rewrite slice_mid by reflexivity. cbn [rbind].
    rewrite <- (app_nil_r (Uint16ToBytes y)) at 1.
    change (Uint16ToBytes y ++ []) with ([] ++ Uint16ToBytes y ++ []).
    rewrite le_at_mid by reflexivity. unfold Uint16ToBytes. rewrite le_or_put_le, Z.mod_small by lia.
    reflexivity. }
  assert (time_text data = Ok (clock_text h mi s)) as Ht by reflexivity.
  unfold FormatBinaryDate, FormatBinaryDateTime. cbn [Z.eqb Pos.eqb]. rewrite Hd, Ht. cbn [rbind].
  split_and!; [done..|]. unfold data.
  rewrite (app_assoc (Uint16ToBytes y)), (slice_mid _ (Uint32ToBytes us)) by reflexivity. cbn [rbind].
  rewrite <- (app_nil_r (Uint32ToBytes us)) at 1.
  change (Uint32ToBytes us ++ []) with ([] ++ Uint32ToBytes us ++ []).
  rewrite le_at_mid by reflexivity. unfold Uint32ToBytes. rewrite le_or_put_le, Z.mod_small by lia.
  reflexivity.
Qed.

(** The text of a binary time is wrong: a time that is not negative
    starts with a NUL byte, only the low byte of the day count is read, so
    256 days are lost, and the zero time is written as a date. *)
Theorem binary_time_text :
  FormatBinaryTime 8 [0; 1; 0; 0; 0; 2; 3; 4] = Ok (String (char_of 0) "26:03:04") /\
  FormatBinaryTime 8 [1; 0; 1; 0; 0; 2; 3; 4] = Ok "-02:03:04" /\
  FormatBinaryTime 0 [] = Ok "0000-00-00".
Proof. split_and!; vm_compute; reflexivity. Qed.
