(* ===== verification/GoHash.v ===== *)
(** * SHA-1 and MD5 ([crypto/sha1] and [crypto/md5] of Go's standard library)

    FIPS 180 and RFC 1321: the message is padded to blocks of 64 bytes, each
    of which is worked into five 32-bit words, or into four, least
    significant byte first. *)
From S2P Require Import Prelude Errors GoLib Wire.
From Stdlib Require Import Ascii.
Open Scope Z_scope.

(** ** SHA-1 *)
Definition rotl (n k : Z) : Z := Z.lor (u32 (Z.shiftl n k)) (Z.shiftr n (32 - k)).

(** Big-endian words. *)
Fixpoint be_acc (acc : Z) (b : bytes) : Z :=
  match b with [] => acc | x :: b => be_acc (Z.lor (Z.shiftl acc 8) x) b end.
Definition put_be (k n : Z) : bytes := rev (put_le k n).

Definition sha1_pad (m : bytes) : bytes :=
  m ++ [128] ++ replicate (Z.to_nat ((55 - blen m) mod 64)) 0 ++ put_be 8 (8 * blen m).

Fixpoint words (n : nat) (b : bytes) : list Z :=
  match n with O => [] | S n => be_acc 0 (take 4 b) :: words n (drop 4 b) end.

(** The schedule, last word first. *)
Fixpoint extend_words (n : nat) (w : list Z) : list Z :=
  match n with
  | O => w
  | S n =>
      let at_ i := nth i w 0 in
      extend_words n (rotl (Z.lxor (Z.lxor (Z.lxor (at_ 2%nat) (at_ 7%nat)) (at_ 13%nat)) (at_ 15%nat)) 1 :: w)
  end.

Record sha1_state := mkSha1 { sa : Z; sb : Z; sc : Z; sd : Z; se : Z }.

Definition sha1_f (i b c d : Z) : Z :=
  if i <? 20 then Z.lor (Z.land b c) (Z.land (Z.lxor b 0xffffffff) d)
  else if i <? 40 then Z.lxor (Z.lxor b c) d
  else if i <? 60 then Z.lor (Z.lor (Z.land b c) (Z.land b d)) (Z.land c d)
  else Z.lxor (Z.lxor b c) d.
Definition sha1_k (i : Z) : Z :=
  if i <? 20 then 0x5a827999 else if i <? 40 then 0x6ed9eba1 else if i <? 60 then 0x8f1bbcdc else 0xca62c1d6.

Definition sha1_round (h : sha1_state) (iw : Z * Z) : sha1_state :=
  let '(i, w) := iw in
  mkSha1 (u32 (rotl (sa h) 5 + sha1_f i (sb h) (sc h) (sd h) + se h + w + sha1_k i))
    (sa h) (rotl (sb h) 30) (sc h) (sd h).

Definition sha1_block (h : sha1_state) (block : bytes) : sha1_state :=
  let w := rev (extend_words 64 (rev (words 16 block))) in
  let h' := foldl sha1_round h (zip (seqZ 0 80) w) in
  mkSha1 (u32 (sa h + sa h')) (u32 (sb h + sb h')) (u32 (sc h + sc h')) (u32 (sd h + sd h')) (u32 (se h + se h')).

Fixpoint sha1_blocks (n : nat) (h : sha1_state) (b : bytes) : sha1_state :=
  match n with O => h | S n => sha1_blocks n (sha1_block h (take 64 b)) (drop 64 b) end.

(** [sha1.New], [Write] and [Sum]. *)
Definition sha1 (m : bytes) : bytes :=
  let b := sha1_pad m in
  let h := sha1_blocks (Z.to_nat (blen b / 64)) (mkSha1 0x67452301 0xefcdab89 0x98badcfe 0x10325476 0xc3d2e1f0) b in
  put_be 4 (sa h) ++ put_be 4 (sb h) ++ put_be 4 (sc h) ++ put_be 4 (sd h) ++ put_be 4 (se h).

Lemma sha1_length m : length (sha1 m) = 20%nat.
Proof. unfold sha1, put_be. rewrite !length_app, !length_rev, !length_put_le. done. Qed.

Lemma sha1_bytes m : Forall is_byte (sha1 m).
Proof. unfold sha1, put_be. rewrite !Forall_app. split_and!; apply Forall_rev, put_le_bytes. Qed.

(** The published vectors. *)
Example sha1_abc :
  sha1 (bytes_of "abc") = put_be 20 0xa9993e364706816aba3e25717850c26c9cd0d89d.
Proof. vm_compute. reflexivity. Qed.
Example sha1_two_blocks :
  sha1 (bytes_of "abcdbcdecdefdefgefghfghighijhijkijkljklmklmnlmnomnopnopq") =
    put_be 20 0x84983e441c3bd26ebaae4aa1f95129e5e54670f1.
Proof. vm_compute. reflexivity. Qed.

(** ** MD5 *)
Definition md5_pad (m : bytes) : bytes :=
  m ++ [128] ++ replicate (Z.to_nat ((55 - blen m) mod 64)) 0 ++ put_le 8 (8 * blen m).

Fixpoint le_words (n : nat) (b : bytes) : list Z :=
  match n with O => [] | S n => le_or (take 4 b) :: le_words n (drop 4 b) end.

(** The integer part of [2^32 |sin (i + 1)|]. *)
Definition md5_table : list Z :=
  [0xd76aa478; 0xe8c7b756; 0x242070db; 0xc1bdceee; 0xf57c0faf; 0x4787c62a; 0xa8304613; 0xfd469501;
   0x698098d8; 0x8b44f7af; 0xffff5bb1; 0x895cd7be; 0x6b901122; 0xfd987193; 0xa679438e; 0x49b40821;
   0xf61e2562; 0xc040b340; 0x265e5a51; 0xe9b6c7aa; 0xd62f105d; 0x02441453; 0xd8a1e681; 0xe7d3fbc8;
   0x21e1cde6; 0xc33707d6; 0xf4d50d87; 0x455a14ed; 0xa9e3e905; 0xfcefa3f8; 0x676f02d9; 0x8d2a4c8a;
   0xfffa3942; 0x8771f681; 0x6d9d6122; 0xfde5380c; 0xa4beea44; 0x4bdecfa9; 0xf6bb4b60; 0xbebfbc70;
   0x289b7ec6; 0xeaa127fa; 0xd4ef3085; 0x04881d05; 0xd9d4d039; 0xe6db99e5; 0x1fa27cf8; 0xc4ac5665;
   0xf4292244; 0x432aff97; 0xab9423a7; 0xfc93a039; 0x655b59c3; 0x8f0ccc92; 0xffeff47d; 0x85845dd1;
   0x6fa87e4f; 0xfe2ce6e0; 0xa3014314; 0x4e0811a1; 0xf7537e82; 0xbd3af235; 0x2ad7d2bb; 0xeb86d391].
Definition md5_shifts : list (list Z) := [[7; 12; 17; 22]; [5; 9; 14; 20]; [4; 11; 16; 23]; [6; 10; 15; 21]].

Record md5_state := mkMd5 { ma : Z; mb : Z; mc : Z; md : Z }.

Definition md5_f (i b c d : Z) : Z :=
  let neg x := Z.lxor x 0xffffffff in
  if i <? 16 then Z.lor (Z.land b c) (Z.land (neg b) d)
  else if i <? 32 then Z.lor (Z.land d b) (Z.land (neg d) c)
  else if i <? 48 then Z.lxor (Z.lxor b c) d
  else Z.lxor c (Z.lor b (neg d)).
Definition md5_index (i : Z) : Z :=
  if i <? 16 then i else if i <? 32 then (5 * i + 1) mod 16 else if i <? 48 then (3 * i + 5) mod 16 else (7 * i) mod 16.

Definition md5_round (w : list Z) (h : md5_state) (it : Z * Z) : md5_state :=
  let '(i, t) := it in
  let shift := nth (Z.to_nat (i mod 4)) (nth (Z.to_nat (i / 16)) md5_shifts []) 0 in
  let sum := u32 (ma h + md5_f i (mb h) (mc h) (md h) + t + nth (Z.to_nat (md5_index i)) w 0) in
  mkMd5 (md h) (u32 (mb h + rotl sum shift)) (mb h) (mc h).

Definition md5_block (h : md5_state) (block : bytes) : md5_state :=
  let h' := foldl (md5_round (le_words 16 block)) h (zip (seqZ 0 64) md5_table) in
  mkMd5 (u32 (ma h + ma h')) (u32 (mb h + mb h')) (u32 (mc h + mc h')) (u32 (md h + md h')).

Fixpoint md5_blocks (n : nat) (h : md5_state) (b : bytes) : md5_state :=
  match n with O => h | S n => md5_blocks n (md5_block h (take 64 b)) (drop 64 b) end.

(** [md5.Sum] *)
Definition md5 (m : bytes) : bytes :=
  let b := md5_pad m in
  let h := md5_blocks (Z.to_nat (blen b / 64)) (mkMd5 0x67452301 0xefcdab89 0x98badcfe 0x10325476) b in
  put_le 4 (ma h) ++ put_le 4 (mb h) ++ put_le 4 (mc h) ++ put_le 4 (md h).

Lemma md5_length m : length (md5 m) = 16%nat.
Proof. unfold md5. rewrite !length_app, !length_put_le. done. Qed.

(** The [%x] verb on bytes. *)
Definition hex_digit (n : Z) : ascii := char_of (if n <? 10 then 48 + n else 87 + n).
Fixpoint hex (b : bytes) : string :=
  match b with [] => "" | x :: b => String (hex_digit (x / 16)) (String (hex_digit (x mod 16)) (hex b)) end.

(** The published vectors. *)
Example md5_empty : hex (md5 []) = "d41d8cd98f00b204e9800998ecf8427e".
Proof. vm_compute. reflexivity. Qed.
Example md5_alphabet : hex (md5 (bytes_of "abcdefghijklmnopqrstuvwxyz")) = "c3fcd3d76192e4007dfb496cca67e13b".
Proof. vm_compute. reflexivity. Qed.
Example md5_two_blocks :
  hex (md5 (bytes_of "12345678901234567890123456789012345678901234567890123456789012345678901234567890")) =
    "57edf4a22be3c955ac49da2e2107b67a".
Proof. vm_compute. reflexivity. Qed.
