(* ===== verification/GoUtf8.v ===== *)
(** * Ranging over a string ([unicode/utf8], [for i, r := range s])

    A Go loop over a string visits its code points with their byte offsets;
    a byte that starts no well-formed sequence counts as U+FFFD. *)
From S2P Require Import Prelude Errors GoLib Wire.
Open Scope Z_scope.

Definition RuneError : Z := 0xFFFD.

(** The number of bytes the first byte asks for and the range of the second. *)
Definition first_byte (b : Z) : option (Z * Z * Z) :=
  if b <? 0x80 then Some (1, 0, 0)
  else if b <? 0xC2 then None
  else if b <=? 0xDF then Some (2, 0x80, 0xBF)
  else if b =? 0xE0 then Some (3, 0xA0, 0xBF)
  else if b =? 0xED then Some (3, 0x80, 0x9F)
  else if b <=? 0xEF then Some (3, 0x80, 0xBF)
  else if b =? 0xF0 then Some (4, 0x90, 0xBF)
  else if b <=? 0xF3 then Some (4, 0x80, 0xBF)
  else if b =? 0xF4 then Some (4, 0x80, 0x8F)
  else None.
Definition within (lo hi b : Z) : bool := (lo <=? b) && (b <=? hi).
Definition continuation : Z -> bool := within 0x80 0xBF.

(** [utf8.DecodeRune] of a non-empty slice: the code point and its width. *)
Definition DecodeRune (b : bytes) : Z * Z :=
  match b with
  | [] => (RuneError, 0)
  | b0 :: b =>
      match first_byte b0, b with
      | Some (1, _, _), _ => (b0, 1)
      | Some (2, lo, hi), b1 :: _ =>
          if within lo hi b1 then (Z.lor (Z.shiftl (Z.land b0 0x1F) 6) (Z.land b1 0x3F), 2) else (RuneError, 1)
      | Some (3, lo, hi), b1 :: b2 :: _ =>
          if within lo hi b1 && continuation b2
          then (Z.lor (Z.lor (Z.shiftl (Z.land b0 0x0F) 12) (Z.shiftl (Z.land b1 0x3F) 6)) (Z.land b2 0x3F), 3)
          else (RuneError, 1)
      | Some (4, lo, hi), b1 :: b2 :: b3 :: _ =>
          if within lo hi b1 && continuation b2 && continuation b3
          then (Z.lor (Z.lor (Z.lor (Z.shiftl (Z.land b0 0x07) 18) (Z.shiftl (Z.land b1 0x3F) 12))
                         (Z.shiftl (Z.land b2 0x3F) 6)) (Z.land b3 0x3F), 4)
          else (RuneError, 1)
      | _, _ => (RuneError, 1)
      end
  end.

(** The code points from byte [pos] on, with their offsets; each takes at
    least a byte. *)
Fixpoint runes_from (fuel : nat) (pos : Z) (b : bytes) : list (Z * Z) :=
  match fuel, b with
  | S fuel, _ :: _ =>
      let '(r, w) := DecodeRune b in (pos, r) :: runes_from fuel (pos + w) (drop (Z.to_nat w) b)
  | _, _ => []
  end.
Definition runes (b : bytes) : list (Z * Z) := runes_from (length b) 0 b.

Lemma DecodeRune_width b : b <> [] -> 1 <= (DecodeRune b).2 <= blen b.
Proof.
  destruct b as [|b0 b]; [done|]. intros _. rewrite blen_cons. pose proof (blen_nonneg b).
  unfold DecodeRune, first_byte.
  repeat (case_if; [first [cbn [snd]; lia | destruct b as [|b1 [|b2 [|b3 b]]]; rewrite ?blen_cons in *;
    try pose proof (blen_nonneg b); repeat case_if; cbn [snd]; change (blen []) with 0 in *; lia]|]).
  cbn [snd]. lia.
Qed.

(** Offsets increase and stay inside the string. *)
Fixpoint ascending (lo hi : Z) (l : list (Z * Z)) : Prop :=
  match l with [] => True | (pos, _) :: l => lo <= pos < hi /\ ascending (pos + 1) hi l end.

Lemma ascending_weaken lo lo' hi l : lo <= lo' -> ascending lo' hi l -> ascending lo hi l.
Proof. destruct l as [|[pos r] l]; [done|]. cbn. intros ? [? ?]. split; [lia | done]. Qed.

Lemma runes_from_ascending fuel pos b : ascending pos (pos + blen b) (runes_from fuel pos b).
Proof.
  revert pos b. induction fuel as [|fuel IH]; intros pos b; [done|]. destruct b as [|b0 b]; [done|].
  cbn [runes_from]. pose proof (DecodeRune_width (b0 :: b) ltac:(done)) as Hw.
  destruct (DecodeRune (b0 :: b)) as [r w]. cbn [snd] in Hw. split; [lia|].
  apply (ascending_weaken _ (pos + w)); [lia|]. specialize (IH (pos + w) (drop (Z.to_nat w) (b0 :: b))).
  replace (pos + w + blen (drop (Z.to_nat w) (b0 :: b))) with (pos + blen (b0 :: b)) in IH; [done|].
  unfold blen in *. rewrite length_drop. lia.
Qed.

Lemma runes_ascending b : ascending 0 (blen b) (runes b).
Proof. apply (runes_from_ascending (length b) 0 b). Qed.

(** On ASCII text the code points are the bytes. *)
Lemma runes_from_ascii fuel pos b :
  Forall (fun x => 0 <= x < 0x80) b -> (length b <= fuel)%nat ->
  (runes_from fuel pos b).*2 = b.
Proof.
  intros Hb. revert fuel pos. induction Hb as [|x b Hx Hb IH]; intros fuel pos Hf; [by destruct fuel|].
  destruct fuel as [|fuel]; [cbn in Hf; lia|]. cbn [runes_from DecodeRune].
  unfold first_byte. replace (x <? 0x80) with true by lia. cbn [fmap list_fmap snd]. f_equal. apply IH. cbn in Hf. lia.
Qed.

Example runes_of_text : runes [65; 0xC3; 0xA9; 0xE2; 0x82; 0xAC; 0xFF; 0xC3] =
  [(0, 65); (1, 0xE9); (3, 0x20AC); (6, RuneError); (7, RuneError)].
Proof. vm_compute. reflexivity. Qed.

(** ** A code point below 128 is its byte *)
Lemma lor_ge a b : 0 <= a -> 0 <= b -> a <= Z.lor a b.
Proof.
  intros Ha Hb. assert (Z.lor a b - a = Z.ldiff (Z.lor a b) a) as E.
  { apply Z.sub_nocarry_ldiff. apply Z.bits_inj'. intros n _.
    rewrite Z.ldiff_spec, Z.lor_spec, Z.bits_0. by destruct (Z.testbit a n), (Z.testbit b n). }
  assert (0 <= Z.ldiff (Z.lor a b) a); [|lia]. apply Z.ldiff_nonneg. left. by apply Z.lor_nonneg.
Qed.

(** The bits of a leading byte above its mark. *)
Lemma land_mark b mark k : 0 <= k -> 0 <= b - mark < 2 ^ k -> (2 ^ k | mark) -> Z.land b (Z.ones k) = b - mark.
Proof.
  intros Hk Hb [m ->]. rewrite Z.land_ones by done. replace b with (b - m * 2 ^ k + m * 2 ^ k) at 1 by lia.
  rewrite Z.mod_add by lia. by apply Z.mod_small.
Qed.

Lemma shift_lor_ge a k n rest : 0 <= k -> n <= a -> 0 <= rest -> 0 <= n -> n * 2 ^ k <= Z.lor (Z.shiftl a k) rest.
Proof.
  intros Hk Hn Hr H0. assert (0 < 2 ^ k) by lia.
  etransitivity; [|apply lor_ge; [apply Z.shiftl_nonneg; lia | done]]. rewrite Z.shiftl_mul_pow2 by done. nia.
Qed.

Lemma land_nonneg_r a b : 0 <= b -> 0 <= Z.land a b.
Proof. intros. apply Z.land_nonneg. by right. Qed.

Definition low6 (b : Z) : Z := Z.land b 0x3F.
Lemma low6_nonneg b : 0 <= low6 b.
Proof. by apply land_nonneg_r. Qed.

Lemma two_bytes_ge b0 b1 : 0xC2 <= b0 <= 0xDF -> 0x80 <= Z.lor (Z.shiftl (Z.land b0 0x1F) 6) (low6 b1).
Proof.
  intros H0. apply (shift_lor_ge _ 6 2); [lia | | apply low6_nonneg | lia].
  change 0x1F with (Z.ones 5). rewrite (land_mark b0 0xC0 5); [lia | lia | lia | by exists 6].
Qed.

Lemma three_bytes_ge b0 b1 b2 : (b0 = 0xE0 /\ 0xA0 <= b1 <= 0xBF) \/ 0xE1 <= b0 <= 0xEF ->
  0x80 <= Z.lor (Z.lor (Z.shiftl (Z.land b0 0x0F) 12) (Z.shiftl (low6 b1) 6)) (low6 b2).
Proof.
  intros H0. pose proof (low6_nonneg b1). pose proof (low6_nonneg b2).
  assert (0 <= Z.shiftl (low6 b1) 6) by (by apply Z.shiftl_nonneg).
  assert (0 <= Z.shiftl (Z.land b0 0x0F) 12) by (apply Z.shiftl_nonneg, land_nonneg_r; lia).
  etransitivity; [|apply lor_ge; [by apply Z.lor_nonneg | done]]. destruct H0 as [[-> H0]|H0].
  - change (Z.shiftl (Z.land 0xE0 0x0F) 12) with 0. rewrite Z.lor_0_l, Z.shiftl_mul_pow2 by lia.
    unfold low6. change 0x3F with (Z.ones 6). rewrite (land_mark b1 0x80 6); [lia | lia | lia | by exists 2].
  - assert (1 * 2 ^ 12 <= Z.lor (Z.shiftl (Z.land b0 0x0F) 12) (Z.shiftl (low6 b1) 6)); [|lia].
    apply shift_lor_ge; [lia | | done | lia].
    change 0x0F with (Z.ones 4). rewrite (land_mark b0 0xE0 4); [lia | lia | lia | by exists 14].
Qed.

Lemma four_bytes_ge b0 b1 b2 b3 : (b0 = 0xF0 /\ 0x90 <= b1 <= 0xBF) \/ 0xF1 <= b0 <= 0xF4 ->
  0x80 <= Z.lor (Z.lor (Z.lor (Z.shiftl (Z.land b0 0x07) 18) (Z.shiftl (low6 b1) 12)) (Z.shiftl (low6 b2) 6)) (low6 b3).
Proof.
  intros H0. pose proof (low6_nonneg b1). pose proof (low6_nonneg b2). pose proof (low6_nonneg b3).
  assert (0 <= Z.shiftl (low6 b1) 12) by (by apply Z.shiftl_nonneg).
  assert (0 <= Z.shiftl (low6 b2) 6) by (by apply Z.shiftl_nonneg).
  assert (0 <= Z.shiftl (Z.land b0 0x07) 18) by (apply Z.shiftl_nonneg, land_nonneg_r; lia).
  etransitivity; [|apply lor_ge; [by rewrite ?Z.lor_nonneg | done]].
  etransitivity; [|apply lor_ge; [by rewrite ?Z.lor_nonneg | done]]. destruct H0 as [[-> H0]|H0].
  - change (Z.shiftl (Z.land 0xF0 0x07) 18) with 0. rewrite Z.lor_0_l, Z.shiftl_mul_pow2 by lia.
    unfold low6. change 0x3F with (Z.ones 6). rewrite (land_mark b1 0x80 6); [lia | lia | lia | by exists 2].
  - assert (1 * 2 ^ 18 <= Z.lor (Z.shiftl (Z.land b0 0x07) 18) (Z.shiftl (low6 b1) 12)); [|lia].
    apply shift_lor_ge; [lia | | done | lia].
    change 0x07 with (Z.ones 3). rewrite (land_mark b0 0xF0 3); [lia | lia | lia | by exists 30].
Qed.

Lemma first_byte_cases b0 n lo hi :
  first_byte b0 = Some (n, lo, hi) ->
  (n = 1 /\ b0 < 0x80) \/ (n = 2 /\ 0xC2 <= b0 <= 0xDF) \/
  (n = 3 /\ ((b0 = 0xE0 /\ lo = 0xA0 /\ hi = 0xBF) \/ 0xE1 <= b0 <= 0xEF)) \/
  (n = 4 /\ ((b0 = 0xF0 /\ lo = 0x90 /\ hi = 0xBF) \/ 0xF1 <= b0 <= 0xF4)).
Proof. unfold first_byte. intros E. repeat case_if_in E; (discriminate E || (injection E as <- <- <-; lia)). Qed.

Lemma DecodeRune_low b0 b r w : DecodeRune (b0 :: b) = (r, w) -> r < 0x80 -> r = b0 /\ w = 1.
Proof.
  intros E Hr. unfold DecodeRune in E. fold (low6) in E.
  assert (forall w', (RuneError, 1) = (r, w') -> False) as Hne by (unfold RuneError; intros ? [= <- _]; lia).
  destruct (first_byte b0) as [[[n lo] hi]|] eqn:E0; [|by apply Hne in E].
  apply first_byte_cases in E0 as [[-> H0]|[[-> H0]|[[-> H0]|[-> H0]]]]; [by injection E as <- <-| | |].
  - destruct b as [|b1 b]; [by apply Hne in E|]. case_if_in E; [|by apply Hne in E]. injection E as <- _.
    pose proof (two_bytes_ge b0 b1 H0) as Hge. unfold low6 in Hge. lia.
  - destruct b as [|b1 [|b2 b]]; try by apply Hne in E. unfold within in E. case_if_in E; [|by apply Hne in E].
    injection E as <- _. pose proof (three_bytes_ge b0 b1 b2) as Hge. unfold low6 in Hge.
    apply andb_true_iff in Hif as [Hif _]. exfalso. apply (Zlt_not_le _ _ Hr), Hge. lia.
  - destruct b as [|b1 [|b2 [|b3 b]]]; try by apply Hne in E. unfold within in E. case_if_in E; [|by apply Hne in E].
    injection E as <- _. pose proof (four_bytes_ge b0 b1 b2 b3) as Hge. unfold low6 in Hge.
    apply andb_true_iff in Hif as [Hif _]. apply andb_true_iff in Hif as [Hif _].
    exfalso. apply (Zlt_not_le _ _ Hr), Hge. lia.
Qed.

(** So a code point below 128 occurs only where its byte does. *)
Lemma runes_from_low fuel pos b P :
  Forall P b -> Forall (fun '(_, r) => r < 0x80 -> P r) (runes_from fuel pos b).
Proof.
  revert pos b. induction fuel as [|fuel IH]; intros pos b Hb; [by constructor|]. destruct b as [|b0 b]; [by constructor|].
  cbn [runes_from]. destruct (DecodeRune (b0 :: b)) as [r w] eqn:E. constructor.
  - intros Hr. destruct (DecodeRune_low _ _ _ _ E Hr) as [-> _]. by inversion Hb.
  - apply IH. by apply Forall_drop.
Qed.
Lemma runes_low b P : Forall P b -> Forall (fun '(_, r) => r < 0x80 -> P r) (runes b).
Proof. apply runes_from_low. Qed.
