(* ===== verification/GoNet.v ===== *)
(** * IP addresses: the package [net] as the proxy uses it

    [ParseIP], [ParseCIDR], [IPNet.Contains] and [IP.Equal], as Go 1.13 has
    them (the version that [go.mod] names): an address is its bytes, sixteen
    of them for what [ParseIP] answers. *)
From S2P Require Import Prelude Errors GoLib Wire GoUtf8.
From Stdlib Require Import Ascii.
Open Scope Z_scope.

(** ** Numbers

    [dtoi] and [xtoi]: the number the text starts with and the rest; there
    is none when the text starts otherwise or the number is too large. *)
Definition hex_of (c : ascii) : option Z :=
  let b := byte_of c in
  if within 48 57 b then Some (b - 48)
  else if within 97 102 b then Some (b - 87)
  else if within 65 70 b then Some (b - 55) else None.

Section Numbers.
Variables (digit : ascii -> option Z) (base : Z).
Fixpoint digits_from (n : Z) (s : string) : option (Z * string) :=
  match s with
  | EmptyString => Some (n, s)
  | String c s' =>
      match digit c with
      | Some d => let n := n * base + d in if 0xFFFFFF <=? n then None else digits_from n s'
      | None => Some (n, s)
      end
  end.
Definition number (s : string) : option (Z * string) :=
  match s with
  | String c _ => match digit c with Some _ => digits_from 0 s | None => None end
  | EmptyString => None
  end.
End Numbers.
Definition dtoi : string -> option (Z * string) := number digit_of 10.
Definition xtoi : string -> option (Z * string) := number hex_of 16.

(** ** Addresses *)
Fixpoint v4_bytes (k : nat) (first : bool) (s : string) : option bytes :=
  match k with
  | O => match s with EmptyString => Some [] | _ => None end
  | S k =>
      s ← (if first then Some s
           else match s with String c s => if Ascii.eqb c "." then Some s else None | EmptyString => None end);
      '(n, s) ← dtoi s;
      if 0xFF <? n then None else rest ← v4_bytes k false s; Some (n :: rest)
  end.

Definition v4InV6Prefix : bytes := replicate 10 0 ++ [0xff; 0xff].
Definition parseIPv4 (s : string) : option bytes := b ← v4_bytes 4 true s; Some (v4InV6Prefix ++ b).

(** The groups of an IPv6 address: the bytes so far, where the ellipsis was,
    and the text that is left; [k] groups still fit. *)
Fixpoint v6_groups (k : nat) (ellipsis : option nat) (ip : bytes) (s : string) : option (bytes * option nat * string) :=
  match k with
  | O => Some (ip, ellipsis, s)
  | S k =>
      '(n, rest) ← xtoi s;
      if 0xFFFF <? n then None
      else
        let ip' := ip ++ [Z.shiftr n 8; u8 n] in
        match rest with
        | EmptyString => Some (ip', ellipsis, "")
        | String c rest =>
            if Ascii.eqb c "." then
              if match ellipsis with None => negb (Nat.eqb (length ip) 12) | Some _ => false end
                 || Nat.ltb 16 (length ip + 4) then None
              else ip4 ← v4_bytes 4 true s; Some (ip ++ ip4, ellipsis, "")
            else if Ascii.eqb c ":" then
              match rest with
              | EmptyString => None
              | String d rest' =>
                  if Ascii.eqb d ":" then
                    match ellipsis, rest' with
                    | Some _, _ => None
                    | None, EmptyString => Some (ip', Some (length ip'), "")
                    | None, _ => v6_groups k (Some (length ip')) ip' rest'
                    end
                  else v6_groups k ellipsis ip' rest
              end
            else None
        end
  end.

(** The zeros of the ellipsis. *)
Definition v6_expand (ip : bytes) (ellipsis : option nat) : option bytes :=
  match ellipsis with
  | None => if Nat.eqb (length ip) 16 then Some ip else None
  | Some e => if Nat.ltb (length ip) 16
              then Some (take e ip ++ replicate (16 - length ip) 0 ++ drop e ip) else None
  end.

Definition parseIPv6 (s : string) : option bytes :=
  match s with
  | String c (String d s') =>
      if Ascii.eqb c ":" && Ascii.eqb d ":" then
        match s' with
        | EmptyString => Some (replicate 16 0)
        | _ => '(ip, e, rest) ← v6_groups 8 (Some 0%nat) [] s';
               if String.eqb rest "" then v6_expand ip e else None
        end
      else '(ip, e, rest) ← v6_groups 8 None [] s;
           if String.eqb rest "" then v6_expand ip e else None
  | _ => '(ip, e, rest) ← v6_groups 8 None [] s;
         if String.eqb rest "" then v6_expand ip e else None
  end.

(** [ParseIP]: the first dot or colon tells which kind it is. *)
Fixpoint first_mark (s : string) : option ascii :=
  match s with
  | EmptyString => None
  | String c s => if Ascii.eqb c "." || Ascii.eqb c ":" then Some c else first_mark s
  end.
Definition ParseIP (s : string) : option bytes :=
  match first_mark s with
  | Some c => if Ascii.eqb c "." then parseIPv4 s else parseIPv6 s
  | None => None
  end.

(** ** Networks *)
Record IPNet := mkIPNet { net_IP : bytes; Mask : bytes }.

(** The bytes of a mask of [ones] ones. *)
Fixpoint CIDRMask (ones : Z) (len : nat) : bytes :=
  match len with
  | O => []
  | S len => if 8 <=? ones then 0xff :: CIDRMask (ones - 8) len
             else (255 - Z.shiftr 0xff ones) :: CIDRMask 0 len
  end.

(** [ip.To4()]: the four bytes of an IPv4 address; other addresses stay. *)
Definition To4 (ip : bytes) : option bytes :=
  if Nat.eqb (length ip) 4 then Some ip
  else if Nat.eqb (length ip) 16 && bool_decide (take 12 ip = v4InV6Prefix) then Some (drop 12 ip)
  else None.
Definition to4 (ip : bytes) : bytes := default ip (To4 ip).

Definition and_bytes (a m : bytes) : bytes := zip_with Z.land a m.
(** [ip.Mask(m)] for the masks of [ParseCIDR] *)
Definition mask_ip (ip m : bytes) : bytes :=
  if Nat.eqb (length m) 4 then and_bytes (to4 ip) m else and_bytes ip m.

(** [None] for text that is not a network. *)
Definition ParseCIDR (s : string) : option (bytes * IPNet) :=
  match SplitN2 s "/" with
  | [addr; mask] =>
      '(ip, len) ← match parseIPv4 addr with
                   | Some ip => Some (ip, 4%nat)
                   | None => ip ← parseIPv6 addr; Some (ip, 16%nat)
                   end;
      '(n, rest) ← dtoi mask;
      if negb (String.eqb rest "") || (8 * Z.of_nat len <? n) then None
      else let m := CIDRMask n len in Some (ip, mkIPNet (mask_ip ip m) m)
  | _ => None
  end.

(** [n.Contains(ip)] *)
Definition Contains (n : IPNet) (ip : bytes) : bool :=
  let nn := to4 (net_IP n) in
  let m := if Nat.eqb (length (Mask n)) 16 && Nat.eqb (length nn) 4 then drop 12 (Mask n) else Mask n in
  let x := to4 ip in
  Nat.eqb (length x) (length nn) && bool_decide (and_bytes nn m = and_bytes x m).

(** [ip.Equal(x)] *)
Definition IP_Equal (ip x : bytes) : bool :=
  bool_decide (ip = x)
  || (Nat.eqb (length ip) 4 && Nat.eqb (length x) 16 && bool_decide (x = v4InV6Prefix ++ ip))
  || (Nat.eqb (length ip) 16 && Nat.eqb (length x) 4 && bool_decide (ip = v4InV6Prefix ++ x)).

(** ** Networks by their numbers *)

(** The bytes of an address as one number. *)
Fixpoint ip_number (b : bytes) : Z :=
  match b with
  | [] => 0
  | x :: b => x * 2 ^ (8 * Z.of_nat (length b)) + ip_number b
  end.

(** The same first [n] bits. *)
Definition same_prefix (n : Z) (a b : bytes) : Prop :=
  let rest := 8 * Z.of_nat (length a) - n in ip_number a / 2 ^ rest = ip_number b / 2 ^ rest.

Lemma ip_number_bound b : Forall is_byte b -> 0 <= ip_number b < 2 ^ (8 * Z.of_nat (length b)).
Proof.
  unfold is_byte. induction 1 as [|x b Hx _ IH]; cbn [ip_number length]; [lia|].
  replace (8 * Z.of_nat (S (length b))) with (8 + 8 * Z.of_nat (length b)) by lia.
  rewrite Z.pow_add_r by lia. nia.
Qed.

Lemma mask_byte k x y : 0 <= k < 8 -> is_byte x -> is_byte y ->
  Z.land x (255 - Z.shiftr 0xff k) = Z.land y (255 - Z.shiftr 0xff k) <-> x / 2 ^ (8 - k) = y / 2 ^ (8 - k).
Proof.
  assert (forall z, 0 <= k < 8 -> is_byte z ->
    Z.land z (255 - Z.shiftr 0xff k) = (z / 2 ^ (8 - k)) * 2 ^ (8 - k)) as Hz.
  { intros z Hk Hb.
    assert (Forall (fun k => Forall (fun z => Z.land z (255 - Z.shiftr 0xff k) = (z / 2 ^ (8 - k)) * 2 ^ (8 - k))
      (seqZ 0 256)) (seqZ 0 8)) as H.
    { apply (bool_decide_unpack _). by vm_compute. }
    rewrite Forall_forall in H. specialize (H k). rewrite Forall_forall in H.
    apply H; apply elem_of_seqZ; unfold is_byte in *; lia. }
  intros Hk Hx Hy. rewrite !Hz by done. assert (0 < 2 ^ (8 - k)) by (apply Z.pow_pos_nonneg; lia). nia.
Qed.

Lemma div_high x a r L : 0 <= r <= L -> 0 <= a < 2 ^ L -> (x * 2 ^ L + a) / 2 ^ r = x * 2 ^ (L - r) + a / 2 ^ r.
Proof.
  intros Hr Ha. replace L with (L - r + r) at 1 by lia. rewrite Z.pow_add_r by lia.
  rewrite Z.mul_assoc, Z.add_comm, Z.div_add by (apply Z.pow_nonzero; lia). lia.
Qed.

Lemma div_low a r L : 0 <= r <= L -> 0 <= a < 2 ^ L -> 0 <= a / 2 ^ r < 2 ^ (L - r).
Proof.
  intros Hr Ha. assert (0 < 2 ^ r) by (apply Z.pow_pos_nonneg; lia). split; [apply Z.div_pos; lia|].
  apply Z.div_lt_upper_bound; [lia|].
  rewrite <- Z.pow_add_r by lia. replace (r + (L - r)) with L by lia. lia.
Qed.

Lemma masked_prefix a b n : length a = length b -> Forall is_byte a -> Forall is_byte b ->
  0 <= n <= 8 * Z.of_nat (length a) ->
  and_bytes a (CIDRMask n (length a)) = and_bytes b (CIDRMask n (length a)) <-> same_prefix n a b.
Proof.
  revert b n. induction a as [|x a IH]; intros [|y b] n Hlen Ha Hb Hn; try discriminate Hlen; [done|].
  injection Hlen as Hlen. inversion_clear Ha as [|?? Hx Ha']. inversion_clear Hb as [|?? Hy Hb'].
  pose proof (ip_number_bound a Ha') as HA. pose proof (ip_number_bound b Hb') as HB.
  rewrite <- Hlen in HB. unfold same_prefix. cbn [length CIDRMask ip_number] in *. rewrite <- Hlen.
  set (L := 8 * Z.of_nat (length a)) in *.
  replace (8 * Z.of_nat (S (length a))) with (L + 8) in * by lia.
  case_if as H8; unfold and_bytes in *; cbn [zip_with].
  - change 255 with (Z.ones 8). rewrite !Z.land_ones, !Z.mod_small by (unfold is_byte in *; lia).
    rewrite !div_high by lia. replace (L + 8 - n) with (L - (n - 8)) by lia.
    specialize (IH b (n - 8) Hlen Ha' Hb'). unfold same_prefix in IH. fold L in IH.
    pose proof (div_low (ip_number a) (L - (n - 8)) L ltac:(lia) HA) as QA.
    pose proof (div_low (ip_number b) (L - (n - 8)) L ltac:(lia) HB) as QB.
    replace (L - (L - (n - 8))) with (n - 8) in * by lia.
    split; [intros [= -> ->%IH]; lia|].
    intros H. assert (x = y) as -> by nia. f_equal. apply IH; lia.
  - specialize (IH b 0 Hlen Ha' Hb'). unfold same_prefix in IH. fold L in IH.
    rewrite Z.sub_0_r, !Z.div_small in IH by lia.
    replace (L + 8 - n) with (L + (8 - n)) by lia. rewrite !Z.pow_add_r, <- !Z.div_div by (try apply Z.pow_pos_nonneg; lia).
    rewrite !Z.div_add_l, !(Z.div_small (ip_number _) (2 ^ L)), !Z.add_0_r by lia.
    rewrite <- mask_byte by (assumption || lia).
    split; [by intros [=]|]. intros ->. f_equal. apply IH; lia.
Qed.

(** ** What the parsers answer *)
Lemma digits_from_nonneg digit base n s m rest : 0 <= base -> (forall c d, digit c = Some d -> 0 <= d) ->
  digits_from digit base n s = Some (m, rest) -> 0 <= n -> 0 <= m.
Proof.
  intros Hbase Hd. revert n. induction s as [|c s IH]; simpl; intros n H Hn; [by simplify_eq|].
  destruct (digit c) as [d|] eqn:Hc; [|by simplify_eq]. case_if_in H; [done|].
  apply Hd in Hc. eapply IH; [exact H|nia].
Qed.
Lemma dtoi_nonneg s m rest : dtoi s = Some (m, rest) -> 0 <= m.
Proof.
  unfold dtoi, number. destruct s as [|c s]; [done|]. destruct (digit_of c); [|done].
  intros H. eapply digits_from_nonneg; [| |exact H|]; [lia| |lia].
  intros c' d. unfold digit_of. case_match; [|done]. intros [= <-]. lia.
Qed.

Lemma v4_bytes_ok k first s b : v4_bytes k first s = Some b -> length b = k /\ Forall is_byte b.
Proof.
  revert first s b. induction k as [|k IH]; simpl; intros first s b H.
  { destruct s; by simplify_eq. }
  apply bind_Some in H as (t & _ & H). apply bind_Some in H as ([n r] & Hn & H).
  case_if_in H; [done|]. apply bind_Some in H as (rest & Hr & H). simplify_eq.
  apply IH in Hr as [Hl Hf]. apply dtoi_nonneg in Hn. split; [simpl; lia|]. constructor; [unfold is_byte; lia|done].
Qed.

Lemma parseIPv4_ok s ip : parseIPv4 s = Some ip -> exists b, ip = v4InV6Prefix ++ b /\ length b = 4%nat /\ Forall is_byte b.
Proof. unfold parseIPv4. intros (b & Hb & [= <-])%bind_Some. apply v4_bytes_ok in Hb. eauto. Qed.

Lemma xtoi_nonneg s m rest : xtoi s = Some (m, rest) -> 0 <= m.
Proof.
  unfold xtoi, number. destruct s as [|c s]; [done|]. destruct (hex_of c); [|done].
  intros H. eapply digits_from_nonneg; [| |exact H|]; [lia| |lia].
  intros c' d. unfold hex_of, within. repeat case_if; try discriminate; intros [= <-]; lia.
Qed.

Lemma v6_groups_ok k e ip s ip' e' rest : v6_groups k e ip s = Some (ip', e', rest) ->
  Forall is_byte ip -> (length ip + 2 * k = 16)%nat -> Forall is_byte ip' /\ (length ip' <= 16)%nat.
Proof.
  revert e ip s. induction k as [|k IH]; intros e ip s H Hb Hl; cbn [v6_groups] in H; [simplify_eq; split; [done|lia]|].
  apply bind_Some in H as ([n t] & Hn & H). apply xtoi_nonneg in Hn. case_if_in H; [done|].
  assert (Forall is_byte (ip ++ [Z.shiftr n 8; u8 n])) as Hb'.
  { apply Forall_app. split; [done|]. unfold is_byte, u8. rewrite Z.shiftr_div_pow2 by lia.
    repeat constructor; try (apply Z.mod_pos_bound; lia); [apply Z.div_pos; lia|].
    apply Z.div_lt_upper_bound; lia. }
  assert (length (ip ++ [Z.shiftr n 8; u8 n]) = length ip + 2)%nat as Hl' by (rewrite length_app; done).
  destruct t as [|c t]; [simplify_eq; split; [done|lia]|].
  case_if_in H.
  { case_if_in H; [done|]. apply bind_Some in H as (b & Hv & H). simplify_eq. apply v4_bytes_ok in Hv as [Hv1 Hv2].
    apply orb_false_iff in Hif1 as [_ Hlt]. apply Nat.ltb_ge in Hlt. rewrite length_app.
    split; [by apply Forall_app|lia]. }
  case_if_in H; [|done]. destruct t as [|d t]; [done|]. case_if_in H; [|eapply IH; [exact H|done|lia]].
  destruct e; [done|]. destruct t; [simplify_eq; split; [done|lia] | eapply IH; [exact H|done|lia]].
Qed.

Lemma v6_expand_ok ip e ip' : v6_expand ip e = Some ip' -> Forall is_byte ip -> (length ip <= 16)%nat ->
  Forall is_byte ip' /\ length ip' = 16%nat.
Proof.
  unfold v6_expand. intros H Hb Hl. destruct e as [e|]; case_if_in H; simplify_eq.
  - apply Nat.ltb_lt in Hif. rewrite !Forall_app, !length_app, length_take, length_drop, length_replicate.
    split; [|lia]. repeat split; [by apply Forall_take| |by apply Forall_drop].
    apply Forall_replicate. unfold is_byte. lia.
  - by apply Nat.eqb_eq in Hif.
Qed.

Lemma parseIPv6_ok s ip : parseIPv6 s = Some ip -> Forall is_byte ip /\ length ip = 16%nat.
Proof.
  assert (forall e t, ('(ip, e, rest) ← v6_groups 8 e [] t; if String.eqb rest "" then v6_expand ip e else None)
    = Some ip -> Forall is_byte ip /\ length ip = 16%nat) as Hg.
  { intros e t H. apply bind_Some in H as ([[b e'] rest] & Hg & H). case_if_in H; [|done].
    apply v6_groups_ok in Hg as [Hb Hl]; [|done..]. eapply v6_expand_ok; [exact H|done..]. }
  unfold parseIPv6. destruct s as [|c [|d s]]; [apply Hg..|]. case_if; [|apply Hg]. destruct s; [|apply Hg].
  intros [= <-]. split; [repeat constructor; unfold is_byte; lia|done].
Qed.

Lemma v4InV6Prefix_ok : Forall is_byte v4InV6Prefix.
Proof. apply (bool_decide_unpack _). by vm_compute. Qed.

Lemma parseIPv4_16 s ip : parseIPv4 s = Some ip -> Forall is_byte ip /\ length ip = 16%nat.
Proof.
  intros (b & -> & Hl & Hb)%parseIPv4_ok. rewrite Forall_app, length_app, Hl. split; [|done].
  split; [apply v4InV6Prefix_ok|done].
Qed.

Lemma ParseIP_ok s ip : ParseIP s = Some ip -> Forall is_byte ip /\ length ip = 16%nat.
Proof.
  unfold ParseIP. destruct (first_mark s) as [c|]; [|done].
  case_if; [apply parseIPv4_16 | apply parseIPv6_ok].
Qed.

(** ** What a network contains

    An address in its sixteen bytes is one of IPv4 when it has their
    prefix. *)
Definition is_v4 (ip : bytes) : Prop := take 12 ip = v4InV6Prefix.
#[export] Instance is_v4_dec ip : Decision (is_v4 ip).
Proof. unfold is_v4. apply _. Defined.

Lemma to4_v4 ip : length ip = 16%nat -> is_v4 ip -> to4 ip = drop 12 ip.
Proof. intros Hl Hv. unfold to4, To4. rewrite Hl. simpl. by rewrite (bool_decide_eq_true_2 _ Hv). Qed.
Lemma to4_v6 ip : length ip = 16%nat -> ~ is_v4 ip -> to4 ip = ip.
Proof. intros Hl Hv. unfold to4, To4. rewrite Hl. simpl. by rewrite (bool_decide_eq_false_2 _ Hv). Qed.
Lemma to4_4 ip : length ip = 4%nat -> to4 ip = ip.
Proof. intros Hl. unfold to4, To4. by rewrite Hl. Qed.

Lemma and_bytes_length a m : length a = length m -> length (and_bytes a m) = length a.
Proof. intros H. unfold and_bytes. rewrite length_zip_with. lia. Qed.
Lemma and_bytes_idem a m : and_bytes (and_bytes a m) m = and_bytes a m.
Proof.
  unfold and_bytes. revert m. induction a as [|x a IH]; intros [|y m]; cbn; [done..|].
  by rewrite <- Z.land_assoc, Z.land_diag, IH.
Qed.
Lemma and_bytes_app a b m k : length a = length m -> and_bytes (a ++ b) (m ++ k) = and_bytes a m ++ and_bytes b k.
Proof. apply zip_with_app. Qed.
Lemma and_bytes_ones a : Forall is_byte a -> and_bytes a (replicate (length a) 255) = a.
Proof.
  unfold and_bytes. induction 1 as [|x a Hx _ IH]; cbn; [done|]. rewrite IH. f_equal.
  change 255 with (Z.ones 8). rewrite Z.land_ones, Z.mod_small by (unfold is_byte in Hx; lia). done.
Qed.

Lemma CIDRMask_length n len : length (CIDRMask n len) = len.
Proof. revert n. induction len as [|len IH]; intros n; cbn; [done|]. case_if; cbn; by rewrite IH. Qed.
Lemma CIDRMask_app k n len : 0 <= n -> CIDRMask (8 * Z.of_nat k + n) (k + len) = replicate k 255 ++ CIDRMask n len.
Proof.
  intros Hn. induction k as [|k IH]; [done|]. cbn [Nat.add CIDRMask].
  rewrite (proj2 (Z.leb_le _ _)) by lia.
  replace (8 * Z.of_nat (S k) + n - 8) with (8 * Z.of_nat k + n) by lia. by rewrite IH.
Qed.

Lemma CIDRMask_96 n : 0 <= n -> CIDRMask (96 + n) 16 = replicate 12 255 ++ CIDRMask n 4.
Proof. apply (CIDRMask_app 12 n 4). Qed.

(** Sixteen bytes. *)
Definition addr16 (a : bytes) : Prop := Forall is_byte a /\ length a = 16%nat.

Lemma addr16_split a : addr16 a -> exists h l, a = h ++ l /\ length h = 12%nat /\ length l = 4%nat /\
  take 12 a = h /\ drop 12 a = l /\ Forall is_byte h /\ Forall is_byte l.
Proof.
  intros [Hb Hl]. exists (take 12 a), (drop 12 a). rewrite take_drop, length_take, length_drop.
  repeat split; [lia|lia|by apply Forall_take|by apply Forall_drop].
Qed.

Lemma masked_high a n : addr16 a -> 0 <= n <= 32 ->
  and_bytes a (CIDRMask (96 + n) 16) = take 12 a ++ and_bytes (drop 12 a) (CIDRMask n 4).
Proof.
  intros (h & l & -> & Hh & Hl & -> & -> & Hbh & Hbl)%addr16_split Hn.
  rewrite CIDRMask_96 by lia. rewrite and_bytes_app by (rewrite length_replicate; lia).
  f_equal. rewrite <- Hh. by apply and_bytes_ones.
Qed.

Lemma same_prefix_high n a x : addr16 a -> addr16 x -> 0 <= n <= 32 ->
  same_prefix (96 + n) a x <->
  take 12 a = take 12 x /\ and_bytes (drop 12 a) (CIDRMask n 4) = and_bytes (drop 12 x) (CIDRMask n 4).
Proof.
  intros Ha Hx Hn. pose proof Ha as [Ha1 Ha2]. pose proof Hx as [Hx1 Hx2].
  rewrite <- masked_prefix by (done || congruence || lia). rewrite Ha2, !masked_high by done.
  split; [|intros [-> ->]; done]. intros H. apply app_inj_1 in H; [done|]. rewrite !length_take. lia.
Qed.

(** An IPv4 network. *)
Lemma Contains_v4 a x n : addr16 a -> is_v4 a -> addr16 x -> 0 <= n <= 32 ->
  Contains (mkIPNet (mask_ip a (CIDRMask n 4)) (CIDRMask n 4)) x = true <-> same_prefix (96 + n) a x.
Proof.
  intros Ha Hv Hx Hn. rewrite same_prefix_high by done. pose proof Ha as [_ Ha2]. pose proof Hx as [_ Hx2].
  assert (length (drop 12 a) = 4%nat) as Hla by (rewrite length_drop; lia).
  assert (length (and_bytes (drop 12 a) (CIDRMask n 4)) = 4%nat) as Hlm
    by (rewrite and_bytes_length; [done|by rewrite CIDRMask_length]).
  unfold Contains, mask_ip. cbn [net_IP Mask]. rewrite CIDRMask_length. cbn [Nat.eqb andb].
  rewrite (to4_v4 a Ha2 Hv), (to4_4 _ Hlm), Hlm.
  destruct (decide (is_v4 x)) as [Hvx|Hvx].
  - rewrite (to4_v4 x Hx2 Hvx), length_drop, Hx2. cbn [Nat.eqb andb Nat.sub]. rewrite bool_decide_eq_true, and_bytes_idem.
    unfold is_v4 in *. rewrite Hv, Hvx. naive_solver.
  - rewrite (to4_v6 x Hx2 Hvx), Hx2. cbn. split; [done|]. intros [Heq _]. destruct Hvx. by unfold is_v4; rewrite <- Heq.
Qed.

Lemma low_mask n : 0 <= n < 96 -> Z.testbit (default 0 (CIDRMask n 16 !! 11%nat)) 0 = false.
Proof.
  intros Hn. assert (Forall (fun n => Z.testbit (default 0 (CIDRMask n 16 !! 11%nat)) 0 = false) (seqZ 0 96)) as H
    by (apply (bool_decide_unpack _); by vm_compute).
  rewrite Forall_forall in H. apply H, elem_of_seqZ. lia.
Qed.

Lemma masked_low_v6 a n : addr16 a -> 0 <= n < 96 -> ~ is_v4 (and_bytes a (CIDRMask n 16)).
Proof.
  intros [_ Hl] Hn Hv. apply low_mask in Hn.
  assert (take 12 (and_bytes a (CIDRMask n 16)) !! 11%nat = Some 255) as H by (by rewrite Hv).
  rewrite lookup_take_lt in H by lia. unfold and_bytes in H. rewrite lookup_zip_with in H.
  apply bind_Some in H as (x & _ & (y & Hy & H)%bind_Some).
  injection H as H. apply (f_equal (fun z => Z.testbit z 0)) in H. rewrite Z.land_spec in H.
  unfold bytes in *. rewrite Hy in Hn. change (Z.testbit y 0 = false) in Hn. rewrite Hn, andb_false_r in H. done.
Qed.

(** A network that is written in IPv6: when it leaves part of the prefix of
    IPv4 open, it contains no address of IPv4. *)
Lemma Contains_v6 a x n : addr16 a -> addr16 x -> 0 <= n <= 128 ->
  Contains (mkIPNet (mask_ip a (CIDRMask n 16)) (CIDRMask n 16)) x = true <->
  same_prefix n a x /\ (n < 96 -> ~ is_v4 x).
Proof.
  intros Ha Hx Hn. pose proof Ha as [Ha1 Ha2]. pose proof Hx as [Hx1 Hx2].
  unfold Contains, mask_ip. cbn [net_IP Mask]. rewrite CIDRMask_length. cbn [Nat.eqb andb].
  set (m := CIDRMask n 16). set (am := and_bytes a m).
  assert (length am = 16%nat) as Hlam by (unfold am, m; rewrite and_bytes_length; [done|by rewrite CIDRMask_length]).
  assert (same_prefix n a x <-> am = and_bytes x m) as Hsp.
  { unfold am, m. rewrite <- masked_prefix by (done || congruence || lia). by rewrite Ha2. }
  destruct (decide (is_v4 am)) as [Hv|Hv].
  - assert (96 <= n) as H96 by (destruct (Z.le_gt_cases 96 n); [done|]; by destruct (masked_low_v6 a n Ha ltac:(lia))).
    assert (exists k, n = 96 + k /\ 0 <= k <= 32) as (k & -> & Hk) by (exists (n - 96); lia).
    assert (am = take 12 a ++ and_bytes (drop 12 a) (CIDRMask k 4)) as Ham by (by apply masked_high).
    assert (drop 12 m = CIDRMask k 4) as Hm by (unfold m; by rewrite CIDRMask_96 by lia).
    assert (is_v4 a) as Hva.
    { revert Hv. unfold is_v4. rewrite Ham, take_app_le, take_take by (rewrite length_take; lia). done. }
    rewrite (to4_v4 am Hlam Hv), length_drop, Hlam, Hm. cbn [Nat.sub Nat.eqb].
    assert (drop 12 am = and_bytes (drop 12 a) (CIDRMask k 4)) as ->.
    { rewrite Ham, drop_app_ge, length_take by (rewrite length_take; lia). rewrite Ha2. done. }
    rewrite and_bytes_idem, same_prefix_high by done. unfold is_v4 in Hva. rewrite Hva.
    destruct (decide (is_v4 x)) as [Hvx|Hvx].
    + rewrite (to4_v4 x Hx2 Hvx), length_drop, Hx2. cbn [Nat.sub Nat.eqb andb]. rewrite bool_decide_eq_true.
      unfold is_v4 in Hvx. rewrite Hvx. split; [intros ->; split; [done|lia]|naive_solver].
    + rewrite (to4_v6 x Hx2 Hvx), Hx2. cbn. split; [done|]. intros [[Heq _] _]. by destruct Hvx.
  - rewrite (to4_v6 am Hlam Hv), Hlam. cbn [Nat.eqb].
    destruct (decide (is_v4 x)) as [Hvx|Hvx].
    + rewrite (to4_v4 x Hx2 Hvx), length_drop, Hx2. cbn. split; [done|]. intros [Hp Hno]. exfalso.
      destruct (Z.le_gt_cases 96 n) as [Hle|]; [|by apply Hno]. apply Hv.
      apply Hsp in Hp. rewrite Hp. assert (exists k, n = 96 + k /\ 0 <= k <= 32) as (k & -> & Hk) by (exists (n - 96); lia).
      unfold m, is_v4. rewrite masked_high by done. rewrite take_app_le, take_take by (rewrite length_take; lia). done.
    + rewrite (to4_v6 x Hx2 Hvx), Hx2. cbn [Nat.eqb andb]. rewrite bool_decide_eq_true. unfold am at 1.
      rewrite and_bytes_idem. fold am. rewrite Hsp. split; [done | by intros []].
Qed.
