(* ===== verification/Fingerprint.v ===== *)
(** * Fingerprints of statements ([mysql/sql_fingerprint.go])

    A scanner over the code points of the statement: a state, the state of
    the statement around it, and the slice of the statement that is waiting
    to be copied.  Case mapping is that of ASCII, as in [GoLib]. *)
From S2P Require Import Prelude Errors GoLib Wire GoUtf8 GoHash.
From Stdlib Require Import Ascii.
Open Scope Z_scope.

Inductive fstate : Type :=
| unknown | inWord | inNumber | inSpace | inOp | opOrNumber | inQuote | subOrOLC | inDash | inOLC
| divOrMLC | mlcOrMySQLCode | inMLC | inValues | moreValuesOrUnknown | orderBy | onDupeKeyUpdate
| inNumberInWord.
#[export] Instance fstate_eq_dec : EqDecision fstate.
Proof. solve_decision. Defined.
Definition st_is (s t : fstate) : bool := bool_decide (s = t).

(** The variables of the loop; [out] is [f[0:fi]]. *)
Record FP := mkFP {
  prevWord : string; out : bytes; pr : Z; s : fstate; sqlState : fstate; quoteChar : Z;
  cpFromOffset : Z; cpToOffset : Z; addSpace : bool; escape : bool;
  parOpen : Z; parOpenTotal : Z; valueNo : Z; firstPar : Z
}.

Definition set_prevWord v x := mkFP v (out x) (pr x) (s x) (sqlState x) (quoteChar x) (cpFromOffset x) (cpToOffset x)
  (addSpace x) (escape x) (parOpen x) (parOpenTotal x) (valueNo x) (firstPar x).
Definition set_out v x := mkFP (prevWord x) v (pr x) (s x) (sqlState x) (quoteChar x) (cpFromOffset x) (cpToOffset x)
  (addSpace x) (escape x) (parOpen x) (parOpenTotal x) (valueNo x) (firstPar x).
Definition set_pr v x := mkFP (prevWord x) (out x) v (s x) (sqlState x) (quoteChar x) (cpFromOffset x) (cpToOffset x)
  (addSpace x) (escape x) (parOpen x) (parOpenTotal x) (valueNo x) (firstPar x).
Definition set_s v x := mkFP (prevWord x) (out x) (pr x) v (sqlState x) (quoteChar x) (cpFromOffset x) (cpToOffset x)
  (addSpace x) (escape x) (parOpen x) (parOpenTotal x) (valueNo x) (firstPar x).
Definition set_sqlState v x := mkFP (prevWord x) (out x) (pr x) (s x) v (quoteChar x) (cpFromOffset x) (cpToOffset x)
  (addSpace x) (escape x) (parOpen x) (parOpenTotal x) (valueNo x) (firstPar x).
Definition set_quoteChar v x := mkFP (prevWord x) (out x) (pr x) (s x) (sqlState x) v (cpFromOffset x) (cpToOffset x)
  (addSpace x) (escape x) (parOpen x) (parOpenTotal x) (valueNo x) (firstPar x).
Definition set_from v x := mkFP (prevWord x) (out x) (pr x) (s x) (sqlState x) (quoteChar x) v (cpToOffset x)
  (addSpace x) (escape x) (parOpen x) (parOpenTotal x) (valueNo x) (firstPar x).
Definition set_to v x := mkFP (prevWord x) (out x) (pr x) (s x) (sqlState x) (quoteChar x) (cpFromOffset x) v
  (addSpace x) (escape x) (parOpen x) (parOpenTotal x) (valueNo x) (firstPar x).
Definition set_addSpace v x := mkFP (prevWord x) (out x) (pr x) (s x) (sqlState x) (quoteChar x) (cpFromOffset x)
  (cpToOffset x) v (escape x) (parOpen x) (parOpenTotal x) (valueNo x) (firstPar x).
Definition set_escape v x := mkFP (prevWord x) (out x) (pr x) (s x) (sqlState x) (quoteChar x) (cpFromOffset x)
  (cpToOffset x) (addSpace x) v (parOpen x) (parOpenTotal x) (valueNo x) (firstPar x).
Definition set_par o t x := mkFP (prevWord x) (out x) (pr x) (s x) (sqlState x) (quoteChar x) (cpFromOffset x)
  (cpToOffset x) (addSpace x) (escape x) o t (valueNo x) (firstPar x).
Definition set_valueNo v x := mkFP (prevWord x) (out x) (pr x) (s x) (sqlState x) (quoteChar x) (cpFromOffset x)
  (cpToOffset x) (addSpace x) (escape x) (parOpen x) (parOpenTotal x) v (firstPar x).
Definition set_firstPar v x := mkFP (prevWord x) (out x) (pr x) (s x) (sqlState x) (quoteChar x) (cpFromOffset x)
  (cpToOffset x) (addSpace x) (escape x) (parOpen x) (parOpenTotal x) (valueNo x) v.

Definition isSpace (r : Z) : bool := (r =? 0x20) || (r =? 0x09) || (r =? 0x0D) || (r =? 0x0A).
Definition wordIn (q : string) (words : list string) : bool := existsb (String.eqb (ToLower q)) words.
Definition isDigit (r : Z) : bool := (0x30 <=? r) && (r <=? 0x39).
Definition ch (c : Ascii.ascii) : Z := byte_of c.
#[global] Arguments ch c%_char_scope.

(** [ReplaceNumbersInWords]; nothing sets it. *)
Definition ReplaceNumbersInWords : bool := false.

Section Fingerprint.
(** The statement with the space after it. *)
Variable q : bytes.

(** [f[fi] = ...; fi++] for each byte of [b]; [f] has room for [len(q)]. *)
Definition emit (b : bytes) (x : FP) : res error FP :=
  if blen (out x) + blen b <=? blen q then Ok (set_out (out x ++ b) x)
  else Panic (PRuntime "index out of range").

(** [q[a:b]] *)
Definition cut (a b : Z) : res error string := let* w := slice q a b in Ok (string_of w).

(** ** 1. Skip parts of the query for certain states

    [true] stands for [continue]. *)
Definition in_quote (qi r : Z) (x : FP) : res error (bool * FP) :=
  if negb (r =? quoteChar x) then
    Ok (true, if escape x then set_escape false x else if r =? 92 then set_escape true x else x)
  else if escape x then Ok (true, set_escape false x)
  else
    let x := set_from (qi + 1) (set_escape false x) in
    if st_is (sqlState x) inValues then Ok (true, set_s inValues x)
    else let* x := emit [ch "?"] x in Ok (true, set_s unknown x).

Definition in_number_in_word (qi r : Z) (x : FP) : res error (bool * FP) :=
  if isDigit r then Ok (true, x)
  else
    let* x := emit [ch "?"] x in
    Ok (false, set_s (if isSpace r then unknown else inWord) (set_from qi x)).

Definition number_char (r : Z) : bool :=
  isDigit r || within 97 102 r || within 65 70 r || (r =? ch ".") || (r =? ch "x") || (r =? ch "-").
Definition word_char (r : Z) : bool := within 103 122 r || within 71 90 r || (r =? ch "_").

Definition in_number (qi r : Z) (x : FP) : res error (bool * FP) :=
  if number_char r then Ok (true, x)
  else if word_char r then Ok (false, set_s inWord (set_to qi x))
  else
    let* x := emit [ch "?"] x in
    Ok (false, set_s unknown (set_to qi (set_from qi x))).

(** After a bracket, or a byte outside brackets, of a list of values. *)
Definition values_end (qi r : Z) (x : FP) : res error (bool * FP) :=
  if 0 <? parOpen x then Ok (true, x)
  else if parOpenTotal x =? 0 then Ok (true, set_s inWord x)
  else
    let x := set_valueNo (valueNo x + 1) x in
    let* x :=
      (if valueNo x =? 1 then
         let* x := emit (if 1 <? qi - firstPar x then bytes_of "(?+)" else bytes_of "()") x in
         Ok (set_firstPar 0 x)
       else Ok x) in
    Ok (true, set_par (parOpen x) 0 (set_from (qi + 1) (set_pr r (set_s moreValuesOrUnknown x)))).

Definition in_values (qi r : Z) (x : FP) : res error (bool * FP) :=
  if r =? ch ")" then values_end qi r (set_par (parOpen x - 1) (parOpenTotal x + 1) x)
  else if r =? ch "(" then
    let x := set_par (parOpen x + 1) (parOpenTotal x) x in
    values_end qi r (if parOpen x =? 1 then set_firstPar qi x else x)
  else if (r =? 39) || (r =? 34) then Ok (true, set_quoteChar r (set_s inQuote x))
  else if isSpace r then Ok (true, x)
  else values_end qi r x.

Definition skip (qi r : Z) (x : FP) : res error (bool * FP) :=
  match s x with
  | inQuote => in_quote qi r x
  | inNumberInWord => in_number_in_word qi r x
  | inNumber => in_number qi r x
  | inValues => in_values qi r x
  | inMLC => Ok (true, if (pr x =? ch "*") && (r =? ch "/") then set_s unknown x else x)
  | mlcOrMySQLCode => if negb (r =? ch "!") then Ok (true, set_s inMLC x) else Ok (false, set_s inWord x)
  | inOLC => Ok (true, if r =? 0x0A then set_s unknown x else x)
  | _ => if isSpace r && isSpace (pr x) then Ok (true, set_pr r (set_from (qi + 1) x)) else Ok (false, x)
  end.

(** ** 2. Change state based on rune and current state *)
Definition digit (qi : Z) (x : FP) : FP :=
  match s x with
  | opOrNumber => set_s inNumber (set_to (qi - 1) x)
  | inOp => set_s inNumber (set_to qi x)
  | inWord =>
      if (pr x =? ch "(") || (pr x =? ch ",") then set_s inNumber (set_to qi x)
      else if ReplaceNumbersInWords then set_to qi (set_s inNumberInWord x) else x
  | _ => set_to qi (set_s inNumber x)
  end.

(** [word[len(word)-1] == ','] *)
Definition ends_with_comma (word : string) : res error bool :=
  let* c := at_ (bytes_of word) (slen word - 1) in Ok (c =? ch ",").

(** A word has ended; the statement [use] is answered at once. *)
Definition word_end (qi : Z) (x : FP) : res error (FP + string) :=
  let* w := cut (cpFromOffset x) qi in
  let word := ToLower w in
  let ended x := Ok (inl (set_addSpace true (set_to qi (set_s inSpace x)))) in
  if String.eqb word "use" && String.eqb (prevWord x) "" then Ok (inr "use ?")
  else if (String.eqb word "null" && negb (String.eqb (prevWord x) "is") && negb (String.eqb (prevWord x) "not"))
          || String.eqb word "null," then
    let* x := emit [ch "?"] x in
    let* comma := ends_with_comma word in
    let* x := (if (comma : bool) then emit [ch ","] x else Ok x) in
    let* x := emit [ch " "] x in
    ended (set_from (qi + 1) x)
  else if String.eqb (prevWord x) "order" && String.eqb word "by" then ended (set_sqlState orderBy x)
  else if st_is (sqlState x) orderBy && wordIn word ["asc"; "asc,"; "asc "] then
    let x := set_from qi x in
    let* comma := ends_with_comma word in
    if (comma : bool) then
      match out x with
      | [] => Panic (PRuntime "index out of range")
      | _ => let* x := emit [ch ","; ch " "] (set_out (removelast (out x)) x) in ended x
      end
    else ended x
  else if String.eqb (prevWord x) "key" && String.eqb word "update" then ended (set_sqlState onDupeKeyUpdate x)
  else ended x.

Definition space (qi : Z) (x : FP) : res error (FP + string) :=
  match s x with
  | unknown =>
      match last (out x) with
      | Some c => if isSpace c then Ok (inl x)
                  else let* x := emit [ch " "] x in Ok (inl (set_from (qi + 1) x))
      | None => Ok (inl x)
      end
  | inDash =>
      let x := set_s inOLC x in
      Ok (inl (if 2 <? cpToOffset x then set_addSpace true (set_to (qi - 2) x) else x))
  | moreValuesOrUnknown =>
      if valueNo x =? 1 then let* x := emit [ch " "] x in Ok (inl x) else Ok (inl x)
  | _ => word_end qi x
  end.

Definition quote (qi r : Z) (x : FP) : FP :=
  if (pr x =? 92) || st_is (s x) inQuote then x
  else set_to (if (pr x =? ch "x") || (pr x =? ch "b") then -2 else qi) (set_quoteChar r (set_s inQuote x)).

Definition operator (qi : Z) (x : FP) : FP :=
  set_s inOp (if st_is (s x) inWord || st_is (s x) inOp then x else set_from qi x).

Definition bracket (qi : Z) (x : FP) : res error (FP + string) :=
  if String.eqb (prevWord x) "call" then
    let* w := cut (cpFromOffset x) qi in Ok (inr ("call " +:+ w))
  else
    let after_word := (st_is (s x) inSpace || st_is (s x) moreValuesOrUnknown) &&
      wordIn (prevWord x) ["value"; "values"; "in"] in
    let values x := Ok (inl
      (let x := set_firstPar qi (set_par 1 (parOpenTotal x) (set_sqlState inValues (set_s inValues x))) in
       if valueNo x =? 0 then set_to qi x else x)) in
    let other x := Ok (inl (if st_is (s x) inWord then x
                            else set_s inWord (set_from qi (set_valueNo 0 x)))) in
    if st_is (sqlState x) onDupeKeyUpdate then other x
    else if after_word then values x
    else
      let* w := cut (cpFromOffset x) qi in
      if wordIn w ["value"; "values"; "in"] then values x else other x.

Definition other_char (qi : Z) (x : FP) : FP :=
  set_s inWord
    (if st_is (s x) inWord || st_is (s x) inOp then x
     else
       let x := set_from qi (set_valueNo 0 x) in
       if st_is (sqlState x) inValues then set_sqlState unknown x else x).

Definition change (qi r : Z) (x : FP) : res error (FP + string) :=
  if isDigit r then Ok (inl (digit qi x))
  else if isSpace r then space qi x
  else if (r =? 39) || (r =? 34) then Ok (inl (quote qi r x))
  else if (r =? ch "=") || (r =? ch "<") || (r =? ch ">") || (r =? ch "!") then Ok (inl (operator qi x))
  else if r =? ch "/" then Ok (inl (set_s divOrMLC x))
  else if (r =? ch "*") && st_is (s x) divOrMLC then Ok (inl (set_s mlcOrMySQLCode x))
  else if r =? ch "+" then Ok (inl (set_s opOrNumber x))
  else if r =? ch "-" then Ok (inl (set_s (if pr x =? ch "-" then inDash else opOrNumber) x))
  else if r =? ch "." then
    Ok (inl (if st_is (s x) inNumber || st_is (s x) inOp then set_to qi (set_s inNumber x) else x))
  else if r =? ch "(" then bracket qi x
  else if (r =? ch ",") && st_is (s x) moreValuesOrUnknown then Ok (inl x)
  else if (r =? ch ":") && String.eqb (prevWord x) "administrator" then
    let* w := cut 0 (blen q - 1) in Ok (inr w)
  else if r =? ch "#" then Ok (inl (set_s inOLC x))
  else Ok (inl (other_char qi x)).

(** ** 3. Copy a slice of the query into the fingerprint *)
Definition copy_slice (x : FP) : res error FP :=
  if cpFromOffset x <? cpToOffset x then
    let* w := cut (cpFromOffset x) (cpToOffset x) in
    let x := set_prevWord (ToLower w) x in
    let* x := emit (bytes_of (prevWord x)) x in
    let x := set_from (cpToOffset x) x in
    if wordIn (prevWord x) ["in"; "value"; "values"] && negb (st_is (sqlState x) onDupeKeyUpdate) then
      Ok (set_sqlState inValues (set_s inValues (set_addSpace false x)))
    else if addSpace x then
      let* x := emit [ch " "] x in
      Ok (set_addSpace false (set_from (cpFromOffset x + 1) x))
    else Ok x
  else Ok x.

(** One code point. *)
Definition scan_rune (qi r : Z) (x : FP) : res error (FP + string) :=
  let* (continue, x) := skip qi r x in
  if (continue : bool) then Ok (inl x)
  else
    let* y := change qi r x in
    match y with
    | inr answer => Ok (inr answer)
    | inl x => let* x := copy_slice x in Ok (inl (set_pr r x))
    end.

Fixpoint scan_runes (l : list (Z * Z)) (x : FP) : res error (FP + string) :=
  match l with
  | [] => Ok (inl x)
  | (qi, r) :: l =>
      let* y := scan_rune qi r x in
      match y with inl x => scan_runes l x | inr answer => Ok (inr answer) end
  end.
End Fingerprint.

Definition start : FP := mkFP "" [] 0 unknown unknown 0 0 0 false false 0 0 0 0.

(** The bytes without the spaces at the end. *)
Fixpoint trim_spaces (b : bytes) : bytes :=
  match b with
  | [] => []
  | c :: b => match trim_spaces b with
              | [] => if isSpace c then [] else [c]
              | b => c :: b
              end
  end.

Definition GetFingerprint (query : string) : res error string :=
  let q := bytes_of query ++ [0x20] in
  let* y := scan_runes q (runes q) start in
  match y with
  | inl x => Ok (string_of (trim_spaces (out x)))
  | inr answer => Ok answer
  end.

(** [Id] and [GetMd5] *)
Definition Id (fingerprint : string) : res error string :=
  let* w := sslice (hex (md5 (bytes_of fingerprint))) 16 32 in Ok (ToUpper w).
Definition GetMd5 (fingerPrint : string) : string := hex (md5 (bytes_of fingerPrint)).
