(* ===== verification/FingerprintTheorems.v ===== *)
(** * What fingerprints are

    The buffer a fingerprint is written to has one byte more than the
    statement.  The scanner stays inside it for statements without brackets
    and dashes; with them it can leave it, and panics. *)
From S2P Require Import Prelude Errors GoLib Wire GoUtf8 Fingerprint.
From Stdlib Require Import Ascii.
Open Scope Z_scope.

Lemma slen_ToLower w : slen (ToLower w) = slen w.
Proof. unfold slen, ToLower. f_equal. induction w as [|c w IH]; [done|]. cbn. by rewrite IH. Qed.

Lemma string_of_slen b : slen (string_of b) = blen b.
Proof.
  unfold slen, string_of, blen. f_equal. induction b as [|x b IH]; [done|]. cbn. by rewrite IH.
Qed.

Lemma string_eqb_slen w v : String.eqb w v = true -> slen w = slen v.
Proof. by intros ->%String.eqb_eq. Qed.

Lemma wordIn_slen w l : wordIn w l = true -> exists v, v ∈ l /\ slen w = slen v.
Proof.
  unfold wordIn. rewrite existsb_exists. intros (v & Hv & E). exists v. split; [by apply list_elem_of_In|].
  apply string_eqb_slen in E. by rewrite slen_ToLower in E.
Qed.

Section Bounds.
Variable q : bytes.
Implicit Types x : FP.

Lemma cut_ok a b : 0 <= a <= b -> b <= blen q -> exists w, cut q a b = Ok w /\ slen w = b - a.
Proof.
  intros Ha Hb. unfold cut, slice. change (Z.of_nat (length q)) with (blen q).
  replace (_ && _) with true by lia. eexists. split; [done|]. rewrite string_of_slen. unfold blen in *.
  rewrite length_take, length_drop. lia.
Qed.

Lemma emit_ok b x : blen (out x) + blen b <= blen q -> emit q b x = Ok (set_out (out x ++ b) x).
Proof. intros Hb. unfold emit. by rewrite (proj2 (Z.leb_le _ _) Hb). Qed.

(** Bytes written, with the space that is still owed. *)
Definition owed x : Z := if addSpace x then 1 else 0.
Definition filled x : Z := blen (out x) + owed x.

Lemma owed_range x : 0 <= owed x <= 1.
Proof. unfold owed. case_if; lia. Qed.

(** The states of a statement without brackets and dashes. *)
Definition plain_state (t : fstate) : bool :=
  match t with inDash | moreValuesOrUnknown => false | _ => true end.
Definition numeric (t : fstate) : bool := match t with inNumber | inNumberInWord => true | _ => false end.

(** Before the code point at [qi]. *)
Record inv (qi : Z) x : Prop := {
  inv_filled : filled x <= cpFromOffset x /\ filled x <= qi;
  inv_offsets : cpToOffset x <= cpFromOffset x <= qi;
  inv_par : parOpen x = 0 /\ parOpenTotal x = 0;
  inv_state : plain_state (s x) = true;
  inv_number : numeric (s x) = true -> filled x + 1 <= qi;
  inv_order : sqlState x = orderBy -> 0 < blen (out x);
  inv_word : cpFromOffset x = qi -> s x = unknown \/ s x = inQuote \/ s x = inValues \/ s x = inMLC \/ s x = inOLC \/
               s x = mlcOrMySQLCode \/ numeric (s x) = true \/ isSpace (pr x) = true \/ filled x + 1 <= qi
}.

Lemma inv_later qi qi' x : inv qi x -> qi <= qi' -> inv qi' x.
Proof.
  intros [[H1 H1'] H2 H3 H4 H5 H6 H7] Hq. constructor; try done; try lia.
  - intros Hn. specialize (H5 Hn). lia.
  - intros Hf. assert (qi = qi') as <- by lia. by apply H7.
Qed.

(** After the first part, for the code point [r] at [qi]. *)
Record mid (qi r : Z) x : Prop := {
  mid_filled : filled x <= cpFromOffset x;
  mid_offsets : cpFromOffset x <= qi /\ (cpToOffset x <= cpFromOffset x \/ (cpToOffset x = qi /\ s x = inWord /\ word_char r = true));
  mid_par : parOpen x = 0 /\ parOpenTotal x = 0;
  mid_state : match s x with
              | unknown | inWord | inSpace | inOp | opOrNumber | divOrMLC | subOrOLC | orderBy | onDupeKeyUpdate => true
              | _ => false end = true;
  mid_order : sqlState x = orderBy -> 0 < blen (out x);
  mid_space : isSpace r = true -> s x = unknown \/ cpFromOffset x < qi \/ filled x + 1 <= qi
}.

Definition plain (r : Z) : bool := negb ((r =? 40) || (r =? 41) || (r =? 45)).

Ltac fields := cbn [prevWord out pr s sqlState quoteChar cpFromOffset cpToOffset addSpace escape parOpen parOpenTotal
  valueNo firstPar set_prevWord set_out set_pr set_s set_sqlState set_quoteChar set_from set_to set_addSpace set_escape
  set_par set_valueNo set_firstPar] in *.
Ltac lengths := unfold filled, owed in *; fields; rewrite ?blen_app in *; change (blen [?c]) with 1 in *.

(** The fields of a changed state. *)
Ltac solve_inv :=
  constructor; lengths; try done; try lia; auto 10; try solve [split; [lia | auto 10]];
  try solve [split; [lia | split; [lia | intros; (lia || congruence)]]]; try (intros; lia); try (intros; congruence);
  try (intros; left; lia).

(** Outside quotes, numbers, lists and comments. *)
Definition open_state (t : fstate) : bool :=
  match t with
  | unknown | inWord | inSpace | inOp | opOrNumber | divOrMLC | subOrOLC | orderBy | onDupeKeyUpdate => true
  | _ => false
  end.

Lemma inv_mid qi r x :
  inv qi x -> open_state (s x) = true -> (isSpace r = true -> isSpace (pr x) = false) -> mid qi r x.
Proof.
  intros [[H1 H1'] H2 H3 H4 H5 H6 H7] Hs Hsp. constructor; try done; try lia.
  intros Hr. destruct (Z.eq_dec (cpFromOffset x) qi) as [E|]; [|lia].
  rewrite (Hsp Hr) in H7. destruct (H7 E) as [?|[Es|[Es|[Es|[Es|[Es|[Es|[?|?]]]]]]]]; auto; try discriminate;
    destruct (s x); discriminate.
Qed.

Definition skip_ok qi r (y : res error (bool * FP)) : Prop :=
  exists continue x1, y = Ok (continue, x1) /\
    (continue = true -> inv (qi + 1) x1) /\ (continue = false -> mid qi r x1).

Lemma in_quote_inv qi r x : inv qi x -> 0 <= qi < blen q -> s x = inQuote -> skip_ok qi r (in_quote q qi r x).
Proof.
  intros Hinv Hqi Es. pose proof Hinv as [[H1 H1'] H2 H3 H4 H5 H6 H7]. pose proof (owed_range x).
  pose proof (blen_nonneg (out x)).
  assert (forall x', filled x' = filled x -> cpFromOffset x' = cpFromOffset x -> cpToOffset x' = cpToOffset x ->
    parOpen x' = parOpen x -> parOpenTotal x' = parOpenTotal x -> s x' = s x -> sqlState x' = sqlState x ->
    pr x' = pr x -> out x' = out x -> inv (qi + 1) x') as Hsame.
  { intros x' E1 E2 E3 E4 E5 E6 E7 E8 E9. apply (inv_later qi); [|lia].
    constructor; rewrite ?E1, ?E2, ?E3, ?E4, ?E5, ?E6, ?E7, ?E8, ?E9; done. }
  unfold in_quote. destruct (negb (r =? quoteChar x)); [|destruct (escape x)].
  - eexists _, _. split; [reflexivity|]. split; [intros _ | done]. repeat case_if; by apply Hsame.
  - eexists _, _. split; [reflexivity|]. split; [intros _ | done]. by apply Hsame.
  - cbv zeta. case_if.
    + eexists _, _. split; [reflexivity|]. split; [intros _ | done]. solve_inv.
    + rewrite emit_ok by (lengths; lia). cbn [rbind]. eexists _, _. split; [reflexivity|]. split; [intros _ | done].
      solve_inv.
Qed.

Lemma in_number_inv qi r x : inv qi x -> 0 <= qi < blen q -> s x = inNumber -> skip_ok qi r (in_number q qi r x).
Proof.
  intros Hinv Hqi Es. pose proof Hinv as [[H1 H1'] H2 H3 H4 H5 H6 H7]. pose proof (owed_range x).
  pose proof (blen_nonneg (out x)).
  specialize (H5 ltac:(by rewrite Es)). unfold in_number. case_if; [|case_if].
  - eexists _, _. split; [reflexivity|]. split; [intros _ | done]. apply (inv_later qi); [done | lia].
  - eexists _, _. split; [reflexivity|]. split; [done|intros _]. solve_inv.
  - rewrite emit_ok by (lengths; lia). cbn [rbind]. eexists _, _. split; [reflexivity|]. split; [done|intros _].
    solve_inv.
Qed.

Lemma in_number_in_word_inv qi r x :
  inv qi x -> 0 <= qi < blen q -> s x = inNumberInWord -> skip_ok qi r (in_number_in_word q qi r x).
Proof.
  intros Hinv Hqi Es. pose proof Hinv as [[H1 H1'] H2 H3 H4 H5 H6 H7]. pose proof (owed_range x).
  pose proof (blen_nonneg (out x)).
  specialize (H5 ltac:(by rewrite Es)). unfold in_number_in_word. case_if.
  - eexists _, _. split; [reflexivity|]. split; [intros _ | done]. apply (inv_later qi); [done | lia].
  - rewrite emit_ok by (lengths; lia). cbn [rbind]. eexists _, _. split; [reflexivity|]. split; [done|intros _].
    destruct (isSpace r) eqn:Er; solve_inv.
Qed.

Lemma in_values_inv qi r x :
  inv qi x -> 0 <= qi < blen q -> s x = inValues -> plain r = true -> skip_ok qi r (in_values q qi r x).
Proof.
  intros Hinv Hqi Es Hr. pose proof Hinv as [[H1 H1'] H2 [H3 H3'] H4 H5 H6 H7]. pose proof (owed_range x).
  pose proof (blen_nonneg (out x)).
  assert (inv (qi + 1) x) as Hnext by (apply (inv_later qi); [done | lia]).
  unfold in_values. unfold plain in Hr. change (ch ")") with 41. change (ch "(") with 40.
  destruct (r =? 41), (r =? 40); cbn in Hr; try done.
  case_if; [|case_if].
  - eexists _, _. split; [reflexivity|]. split; [intros _ | done].
    destruct Hnext; solve_inv.
  - by eexists _, _.
  - unfold values_end. rewrite H3, H3'. cbn [Z.ltb Z.eqb]. eexists _, _. split; [reflexivity|]. split; [intros _ | done].
    destruct Hnext; solve_inv.
Qed.

Lemma skip_inv qi r x :
  inv qi x -> 0 <= qi < blen q -> plain r = true -> skip_ok qi r (skip q qi r x).
Proof.
  intros Hinv Hqi Hr. assert (inv (qi + 1) x) as Hnext by (apply (inv_later qi); [done | lia]).
  pose proof Hinv as [[H1 H1'] H2 [H3 H3'] H4 H5 H6 H7]. pose proof (owed_range x).
  pose proof (blen_nonneg (out x)).
  assert (open_state (s x) = true ->
    skip_ok qi r (if isSpace r && isSpace (pr x) then Ok (true, set_pr r (set_from (qi + 1) x)) else Ok (false, x)))
    as Hopen.
  { intros Hs. destruct (isSpace r) eqn:Er; [destruct (isSpace (pr x)) eqn:Ep|]; cbn [andb];
      eexists _, _; (split; [reflexivity|]); (split; [try done; intros _ | try done; intros _]).
    - solve_inv.
    - by apply inv_mid.
    - apply inv_mid; [done..|]. congruence. }
  unfold skip. destruct (s x) eqn:Es; try discriminate H4; try (by apply Hopen).
  - by apply in_number_inv.
  - by apply in_quote_inv.
  - eexists _, _. split; [reflexivity|]. split; [intros _ | done]. case_if; [|done].
    destruct Hnext; solve_inv.
  - case_if.
    + eexists _, _. split; [reflexivity|]. split; [intros _ | done]. destruct Hnext; solve_inv.
    + eexists _, _. split; [reflexivity|]. split; [done | intros _]. solve_inv.
      intros Hsp. exfalso. apply negb_false_iff, Z.eqb_eq in Hif. by subst r.
  - eexists _, _. split; [reflexivity|]. split; [intros _ | done]. case_if; [|done].
    destruct Hnext; solve_inv.
  - by apply in_values_inv.
  - by apply in_number_in_word_inv.
Qed.

(** After the second part. *)
Record post (qi r : Z) x : Prop := {
  post_filled : blen (out x) <= cpFromOffset x;
  post_owed : addSpace x = true ->
    blen (out x) + 1 <= cpFromOffset x \/ (isSpace r = true /\ s x = inSpace /\ cpFromOffset x < cpToOffset x);
  post_offsets : cpFromOffset x <= qi + 1 /\ cpToOffset x <= qi /\ (isSpace r = false -> cpFromOffset x <= qi);
  post_par : parOpen x = 0 /\ parOpenTotal x = 0;
  post_state : plain_state (s x) = true;
  post_number : numeric (s x) = true -> isSpace r = false;
  post_order : sqlState x = orderBy -> 0 < blen (out x) \/ cpFromOffset x < cpToOffset x
}.

Lemma copy_slice_inv qi r x :
  post qi r x -> 0 <= qi < blen q -> exists x1, copy_slice q x = Ok x1 /\ inv (qi + 1) (set_pr r x1).
Proof.
  intros [H1 H2 H3 [H4 H4'] H5 H6 H7] Hqi. pose proof (blen_nonneg (out x)). unfold copy_slice.
  assert (isSpace r = true \/ cpFromOffset x <= qi) as Hfrom by (destruct (isSpace r) eqn:E; [by left | right; tauto]).
  assert (numeric (s x) = true -> cpFromOffset x <= qi) as Hnum by (intros Hn; specialize (H6 Hn); tauto).
  destruct (Z.ltb_spec (cpFromOffset x) (cpToOffset x)) as [Hlt|Hge].
  - destruct (cut_ok (cpFromOffset x) (cpToOffset x)) as (w & -> & Hw); [lia..|]. cbn [rbind].
    assert (blen (bytes_of (ToLower w)) = cpToOffset x - cpFromOffset x) as Hl
      by (by rewrite blen_bytes_of, slen_ToLower).
    rewrite emit_ok by (lengths; lia). cbn [rbind]. cbv zeta. case_if as Hin; [|case_if as Ha].
    + eexists. split; [reflexivity|]. solve_inv.
    + rewrite emit_ok by (lengths; destruct (H2 Ha); lia). cbn [rbind]. eexists. split; [reflexivity|].
      fields. destruct (H2 Ha) as [?|(Hr & Hs & _)].
      * solve_inv.
      * solve_inv; rewrite Hs; discriminate.
    + eexists. split; [reflexivity|]. solve_inv; rewrite Ha; intros; lia.
  - eexists. split; [reflexivity|].
    assert (filled x <= cpFromOffset x) as Hf.
    { unfold filled, owed. destruct (addSpace x); [destruct (H2 eq_refl); lia | lia]. }
    constructor; fields; try done; unfold filled, owed in *; fields; try lia.
    + intros Hn. specialize (Hnum Hn). lia.
    + intros Ho. destruct (H7 Ho); [done | lia].
    + intros E. destruct Hfrom; [auto 10 | lia].
Qed.

Definition change_ok qi r (y : res error (FP + string)) : Prop :=
  exists z, y = Ok z /\ match z with inl x => post qi r x | inr answer => slen answer <= Z.max 5 (blen q) end.

Lemma isDigit_space r : isDigit r = true -> isSpace r = false.
Proof. unfold isDigit, isSpace. lia. Qed.

(** The word that ended is closed: it waits to be copied, and a space is
    owed. *)
Lemma ended_post qi r x w :
  blen (out x) <= cpFromOffset x -> isSpace r = true ->
  (cpFromOffset x < qi \/ blen (out x) + 1 <= cpFromOffset x) ->
  cpFromOffset x <= qi + 1 -> parOpen x = 0 /\ parOpenTotal x = 0 ->
  (w = orderBy -> 0 < blen (out x) \/ cpFromOffset x < qi) ->
  post qi r (set_addSpace true (set_to qi (set_s inSpace (set_sqlState w x)))).
Proof.
  intros H1 Hr H2 H3 H4 H5. solve_inv.
  intros _. destruct H2; [right; auto | by left].
Qed.

Lemma ends_with_comma_ok word : 0 < slen word -> exists b, ends_with_comma word = Ok b.
Proof.
  intros Hw. rewrite <- blen_bytes_of in Hw. unfold blen in Hw.
  destruct (lookup_lt_is_Some_2 (bytes_of word) (Z.to_nat (slen word - 1))) as [c Hc].
  { rewrite <- blen_bytes_of. unfold blen. lia. }
  unfold ends_with_comma. rewrite (proj2 (at_Ok (E := error) (bytes_of word) (slen word - 1) c)); [by eexists|].
  split; [|done]. rewrite <- blen_bytes_of. unfold blen. lia.
Qed.

Lemma nonempty_match {A B} (l : list A) (a b : B) : l <> [] -> match l with [] => a | _ :: _ => b end = b.
Proof. by destruct l. Qed.

Lemma blen_removelast (b : bytes) : b <> [] -> blen (removelast b) = blen b - 1.
Proof.
  intros Hb. rewrite (app_removelast_last 0 Hb) at 2. rewrite blen_app. change (blen [_]) with 1. lia.
Qed.

Lemma word_end_ok qi r x :
  mid qi r x -> 0 <= qi < blen q -> isSpace r = true -> s x <> unknown -> change_ok qi r (word_end q qi x).
Proof.
  intros [H1 [H2 H2'] H3 H4 H5 H6] Hqi Hr Hs. pose proof (owed_range x) as Ho. pose proof (blen_nonneg (out x)).
  destruct (H6 Hr) as [?|Hlt]; [done|]. clear H6.
  unfold word_end. destruct (cut_ok (cpFromOffset x) qi) as (w & -> & Hw); [unfold filled in *; lia..|]. cbn [rbind].
  cbv zeta. set (word := ToLower w). assert (slen word = qi - cpFromOffset x) as Hl by (unfold word; by rewrite slen_ToLower).
  assert (blen (out x) <= cpFromOffset x) as Hfill by (unfold filled in *; lia).
  assert (cpFromOffset x < qi \/ blen (out x) + 1 <= cpFromOffset x) as Hlt' by (unfold filled in *; lia).
  assert (forall w, (w = orderBy -> 0 < blen (out x) \/ cpFromOffset x < qi) ->
    change_ok qi r (Ok (inl (set_addSpace true (set_to qi (set_s inSpace (set_sqlState w x))))))) as Hended.
  { intros w' Hw'. eexists. split; [reflexivity|]. apply ended_post; (done || lia). }
  case_if as Huse.
  { eexists. split; [reflexivity|]. cbv iota. change (slen "use ?") with 5. lia. }
  case_if as Hnull.
  { assert (4 <= slen word) as H4' by
      (apply orb_true_iff in Hnull as [Hn|Hn]; [apply andb_true_iff in Hn as [Hn _]; apply andb_true_iff in Hn as [Hn _]|];
       apply string_eqb_slen in Hn; rewrite Hn; vm_compute; congruence).
    destruct (ends_with_comma_ok word) as [comma Hc]; [lia|].
    assert (comma = true -> 5 <= slen word) as H5'.
    { intros ->. apply orb_true_iff in Hnull as [Hn|Hn];
        [apply andb_true_iff in Hn as [Hn _]; apply andb_true_iff in Hn as [Hn _]|]; apply String.eqb_eq in Hn; rewrite Hn in *;
        [discriminate Hc | vm_compute; congruence]. }
    rewrite emit_ok by (lengths; lia). cbn [rbind]. rewrite Hc. cbn [rbind].
    destruct comma; [specialize (H5' eq_refl); rewrite emit_ok by (lengths; lia); cbn [rbind] | cbn [rbind]];
      rewrite emit_ok by (lengths; lia); cbn [rbind]; eexists; (split; [reflexivity|]);
      solve_inv. }
  case_if as Hby.
  { apply Hended. intros _. right. apply andb_true_iff in Hby as [_ Hby]. apply string_eqb_slen in Hby.
    change (slen "by") with 2 in Hby. lia. }
  case_if as Hasc; [|case_if as Hup].
  - apply andb_true_iff in Hasc as [Host Hasc]. apply wordIn_slen in Hasc as (v & Hv & Hvl).
    apply bool_decide_eq_true in Host. pose proof (H5 Host) as Host'.
    assert (3 <= slen word) as Hl3.
    { rewrite Hvl. rewrite !elem_of_cons, elem_of_nil in Hv. destruct Hv as [->|[->|[->|[]]]]; vm_compute; congruence. }
    destruct (ends_with_comma_ok word) as [comma ->]; [lia|]. cbn [rbind]. destruct comma.
    + fields. assert (out x <> []) as Hne by (intros E; rewrite E in Host'; by vm_compute in Host').
      rewrite (nonempty_match (out x)) by done. pose proof (blen_removelast (out x) Hne) as Hrl.
      rewrite emit_ok by (lengths; rewrite Hrl; change (blen [ch ","; ch " "]) with 2; lia). cbn [rbind].
      eexists. split; [reflexivity|]. lengths. solve_inv; rewrite ?Hrl; change (blen [ch ","; ch " "]) with 2;
        try (split; [lia|split; [lia|congruence]]); intros; try left; lia.
    + eexists. split; [reflexivity|]. solve_inv.
  - by apply Hended.
  - specialize (Hended (sqlState x)). destruct x. apply Hended. intros Hq. left. by apply H5.
Qed.

Lemma space_ok qi r x :
  mid qi r x -> 0 <= qi < blen q -> isSpace r = true -> change_ok qi r (space q qi x).
Proof.
  intros Hmid Hqi Hr. pose proof Hmid as [H1 [H2 H2'] H3 H4 H5 H6]. pose proof (owed_range x).
  unfold space. destruct (s x) eqn:Es; try discriminate H4;
    try (apply (word_end_ok qi r); [done..|congruence]).
  assert (post qi r x) as Hpost.
  { constructor; rewrite ?Es; try done; unfold filled, owed in *; try lia.
    - intros Ha. rewrite Ha in *. lia.
    - intros Hq. left. by apply H5. }
  destruct (last (out x)) as [c|]; [case_if|]; [by eexists | | by eexists].
  rewrite emit_ok by (lengths; lia). cbn [rbind]. eexists. split; [reflexivity|]. solve_inv.
  all: rewrite ?Es; try done; intros Hq; left; first [rewrite Hq in *; lia | specialize (H5 Hq); lia].
Qed.

Lemma change_inv qi r x :
  mid qi r x -> 0 <= qi < blen q -> plain r = true -> change_ok qi r (change q qi r x).
Proof.
  intros Hmid Hqi Hr. pose proof Hmid as [H1 [H2 H2'] H3 H4 H5 H6]. pose proof (owed_range x).
  pose proof (blen_nonneg (out x)).
  assert (forall t from to v w n, plain_state t = true -> (from = cpFromOffset x \/ from = qi) -> to <= qi ->
    (numeric t = true -> isSpace r = false) -> (w = orderBy -> 0 < blen (out x)) ->
    change_ok qi r (Ok (inl (mkFP (prevWord x) (out x) (pr x) t w v from to (addSpace x) (escape x) (parOpen x) (parOpenTotal x)
      n (firstPar x))))) as Hset.
  { intros t from to v w n Ht Hfrom Hto Hn Hw. eexists. split; [reflexivity|].
    constructor; fields; try done; unfold filled, owed in *; fields.
    - destruct Hfrom as [-> | ->]; lia.
    - intros Ha. rewrite Ha in *. left. destruct Hfrom as [-> | ->]; lia.
    - destruct Hfrom as [-> | ->]; (split; [lia | split; [lia | intros; lia]]).
    - intros Hq. left. by apply Hw. }
  assert (plain_state (s x) = true) as Hps by (destruct (s x); done).
  assert (numeric (s x) = false) as Hns by (destruct (s x); done).
  assert (numeric (s x) = true -> isSpace r = false) as Hns' by (rewrite Hns; discriminate).
  assert (change_ok qi r (Ok (inl x))) as Hsame.
  { pose proof (Hset (s x) (cpFromOffset x) (cpToOffset x) (quoteChar x) (sqlState x) (valueNo x)) as Hx.
    destruct x. apply Hx; auto; fields; lia. }
  assert (cpToOffset x <= qi) as Hto by lia.
  unfold change. case_if as Hdig.
  { apply isDigit_space in Hdig. unfold digit, ReplaceNumbersInWords.
    destruct (s x) eqn:Es; try discriminate H4; try case_if; try exact Hsame; apply Hset; auto; fields; lia. }
  case_if as Hsp; [by apply space_ok|].
  case_if as Hq.
  { unfold quote. case_if; [exact Hsame|]. apply Hset; auto; case_if; lia. }
  case_if as Hop; [unfold operator; case_if; by apply Hset; auto|].
  case_if as Hdiv; [by apply Hset; auto|].
  case_if as Hstar; [by apply Hset; auto|].
  case_if as Hplus; [by apply Hset; auto|].
  unfold plain in Hr. change (ch "-") with 45. change (ch "(") with 40.
  destruct (r =? 40) eqn:E40; [done|]. destruct (r =? 45) eqn:E45; [by rewrite !orb_true_r in Hr|]. clear Hr.
  case_if as Hdot.
  { case_if; [|exact Hsame]. apply Hset; auto; fields; lia. }
  case_if as Hcomma; [exact Hsame|].
  case_if as Hadm.
  { destruct (cut_ok 0 (blen q - 1)) as (w & -> & Hw); [lia..|]. eexists. split; [reflexivity|]. cbv iota. lia. }
  case_if as Holc; [by apply Hset; auto|].
  unfold other_char. case_if; [|cbv zeta; case_if]; apply Hset; auto; discriminate.
Qed.

Lemma scan_rune_inv qi r x :
  inv qi x -> 0 <= qi < blen q -> plain r = true ->
  exists z, scan_rune q qi r x = Ok z /\
    match z with inl x => inv (qi + 1) x | inr answer => slen answer <= Z.max 5 (blen q) end.
Proof.
  intros Hinv Hqi Hr. unfold scan_rune. destruct (skip_inv qi r x Hinv Hqi Hr) as (cont & x1 & -> & Ht & Hf).
  cbn [rbind]. destruct cont; [eexists; split; [reflexivity | by apply Ht]|].
  destruct (change_inv qi r x1 (Hf eq_refl) Hqi Hr) as (z & -> & Hz). cbn [rbind].
  destruct z as [x2|answer]; [|by eexists]. destruct (copy_slice_inv qi r x2 Hz Hqi) as (x3 & -> & Hx3).
  cbn [rbind]. by eexists.
Qed.

Lemma scan_runes_inv l lo x :
  inv lo x -> 0 <= lo <= blen q -> ascending lo (blen q) l -> Forall (fun '(_, r) => plain r = true) l ->
  exists z, scan_runes q l x = Ok z /\
    match z with inl x => blen (out x) <= blen q | inr answer => slen answer <= Z.max 5 (blen q) end.
Proof.
  intros Hinv Hlo Hl Hp. revert lo x Hinv Hlo Hl. induction Hp as [|[qi r] l Hr Hp IH]; intros lo x Hinv Hlo Hl.
  - eexists. split; [reflexivity|]. destruct Hinv as [[_ H1] _ _ _ _ _ _]. pose proof (owed_range x).
    unfold filled in H1. lia.
  - destruct Hl as [Hqi Hl]. cbn [scan_runes].
    destruct (scan_rune_inv qi r x) as (z & -> & Hz); [apply (inv_later lo); [done | lia] | lia | done |].
    cbn [rbind]. destruct z as [x1|answer]; [|by eexists]. apply (IH (qi + 1)); [done | lia | done].
Qed.

Lemma start_inv : inv 0 start.
Proof. constructor; unfold filled, owed, start; fields; change (blen []) with 0; try done; try lia; auto. Qed.
End Bounds.

(** A statement without brackets and dashes. *)
Definition plain_text (query : string) : Prop := Forall (fun b => plain b = true) (bytes_of query).

Lemma blen_trim_spaces b : blen (trim_spaces b) <= blen b.
Proof.
  induction b as [|c b IH]; [done|]. cbn [trim_spaces]. rewrite blen_cons. pose proof (blen_nonneg b).
  destruct (trim_spaces b); [case_if; rewrite ?blen_cons; change (blen []) with 0; lia | rewrite !blen_cons in *; lia].
Qed.

(** C33: fingerprints stay in their buffer.  For every statement without
    brackets and dashes the fingerprint exists: no state of the scanner
    reads outside the statement or writes outside the buffer, whatever the
    quotes, comments, numbers and words, and whatever bytes, valid UTF-8 or
    not.  It is at most one byte longer than the statement, [use ?] aside. *)
Theorem GetFingerprint_plain (query : string) (Hq : plain_text query) :
  exists f, GetFingerprint query = Ok f /\ slen f <= Z.max 5 (slen query + 1).
Proof.
  unfold GetFingerprint. set (q := bytes_of query ++ [32]).
  assert (blen q = slen query + 1) as Hlen by (unfold q; by rewrite blen_app, blen_bytes_of).
  destruct (scan_runes_inv q (runes q) 0 start) as (z & -> & Hz).
  - apply start_inv.
  - pose proof (blen_nonneg q). lia.
  - apply runes_ascending.
  - assert (Forall (fun b => plain b = true) q) as Hall by (apply Forall_app; split; [exact Hq | by constructor]).
    eapply Forall_impl; [apply (runes_low q _ Hall)|]. intros [qi r] Hr.
    destruct (Z.ltb_spec r 128); [by apply Hr | unfold plain; lia].
  - cbn [rbind]. rewrite <- Hlen. destruct z as [x|answer]; eexists; (split; [reflexivity|]); [|done].
    rewrite string_of_slen. pose proof (blen_trim_spaces (out x)). lia.
Qed.

Lemma GetFingerprint_plain_witness :
  exists f, GetFingerprint "select name from t where id = 5 and v = 'it''s'" = Ok f /\ slen f <= 48.
Proof.
  destruct (GetFingerprint_plain "select name from t where id = 5 and v = 'it''s'") as (f & Hf & Hl).
  - unfold plain_text. repeat (apply Forall_cons; split; [reflexivity|]). constructor.
  - exists f. split; [exact Hf|]. etransitivity; [exact Hl|]. vm_compute. congruence.
Defined.

(** ** The scanner on the statements of its tests *)
Example fingerprint_values : GetFingerprint "SELECT c FROM t WHERE id=1" = Ok "select c from t where id=?".
Proof. vm_compute. reflexivity. Qed.
Example fingerprint_floats :
  GetFingerprint "select 0e0, +6e-30, -6.00 from foo where a = 5.5 or b=0.5 or c=.5" =
    Ok "select ?, ?, ? from foo where a = ? or b=? or c=?".
Proof. vm_compute. reflexivity. Qed.
Example fingerprint_hex :
  GetFingerprint "select 0x0, x'123', 0b1010, b'10101' from foo" = Ok "select ?, ?, ?, ? from foo".
Proof. vm_compute. reflexivity. Qed.
Example fingerprint_lists :
  GetFingerprint "select * from foo where a in (5) and b in (5, 8,9 ,9 , 10)" =
    Ok "select * from foo where a in(?+) and b in(?+)".
Proof. vm_compute. reflexivity. Qed.
Example fingerprint_nulls :
  GetFingerprint "select null, 5.001, 5001. from foo" = Ok "select ?, ?, ? from foo".
Proof. vm_compute. reflexivity. Qed.
Example fingerprint_call : GetFingerprint "CALL foo(1, 2, 3)" = Ok "call foo".
Proof. vm_compute. reflexivity. Qed.

(** Two lists written without a space after IN take two bytes more than
    they have: the buffer overflows. *)
Example fingerprint_overflows :
  GetFingerprint "select a from t where a in(1) or b in(2)" = Panic (PRuntime "index out of range").
Proof. vm_compute. reflexivity. Qed.

(** So does a line comment that a number follows. *)
Example fingerprint_comment_overflows :
  GetFingerprint ("abc -- " +:+ String "010" "5") = Panic (PRuntime "index out of range").
Proof. vm_compute. reflexivity. Qed.

(** A comment ends at its first slash, since the previous character is not
    kept inside it. *)
Example fingerprint_comment_slash : GetFingerprint "select /* a/b */ 1" = Ok "select b */ ?".
Proof. vm_compute. reflexivity. Qed.
