(* ===== verification/Packet.v ===== *)
(** * Packets on a connection ([mysql/packetio.go])

    A payload travels in frames of a three-byte length, a sequence number
    and at most [MaxPayloadLen] bytes.  The reader's state is the bytes the
    peer will still send before it closes; the writer is any [io.Writer]. *)
From S2P Require Import Prelude Errors GoLib Wire.
Open Scope Z_scope.

Definition MaxPayloadLen : Z := Z.shiftl 1 24 - 1.
#[global] Arguments MaxPayloadLen : simpl never.

Lemma MaxPayloadLen_eq : MaxPayloadLen = 2 ^ 24 - 1.
Proof. reflexivity. Qed.
#[global] Opaque MaxPayloadLen.

(** [io.Writer]: writes the first [n] bytes, and [n] falls short of the
    slice only beside an error. *)
Class Writer (W : Type) := {
  sent : W -> bytes;
  Write : W -> bytes -> W * Z * bool;
  Write_sent w b : let '(w', n, failed) := Write w b in
    sent w' = sent w ++ take (Z.to_nat n) b /\ (failed = false -> n = blen b)
}.

(** A connection that accepts everything. *)
#[export, refine] Instance Buffer : Writer bytes := {
  sent w := w;
  Write w b := (w ++ b, blen b, false)
}.
Proof. intros w b. split; [|done]. unfold blen. by rewrite Nat2Z.id, firstn_all. Defined.

Record PacketIO (W : Type) := mkPacketIO { rb : bytes; wb : W; Sequence : Z }.
Arguments mkPacketIO {W} _ _ _.
Arguments rb {W} _.
Arguments wb {W} _.
Arguments Sequence {W} _.

Section PacketIO.
Context {W : Type} `{Writer W}.

Definition NewPacketIO (input : bytes) (conn : W) : PacketIO W := mkPacketIO input conn 0.

Definition set_rb (b : bytes) (p : PacketIO W) : PacketIO W := mkPacketIO b (wb p) (Sequence p).
Definition set_wb (w : W) (p : PacketIO W) : PacketIO W := mkPacketIO (rb p) w (Sequence p).
Definition next_Sequence (p : PacketIO W) : PacketIO W := mkPacketIO (rb p) (wb p) (u8 (Sequence p + 1)).

(** [io.ReadFull(p.rb, buf)] for a buffer of [n] bytes. *)
Definition ReadFull (p : PacketIO W) (n : Z) : PacketIO W * option bytes :=
  if n <=? blen (rb p)
  then (set_rb (drop (Z.to_nat n) (rb p)) p, Some (take (Z.to_nat n) (rb p)))
  else (set_rb [] p, None).

(** The recursion reads at least a header each time: the length of the
    input is fuel enough. *)
Fixpoint ReadPacket_fuel (fuel : nat) (p : PacketIO W) : PacketIO W * res error bytes :=
  match fuel with
  | O => (p, Panic (PRuntime "stack overflow"))
  | S fuel =>
      let '(p, header) := ReadFull p 4 in
      match header with
      | None => (p, Err MyErrBadConn)
      | Some header =>
          let length := le_or (take 3 header) in
          if length <? 1 then (p, Err (Errorf ("invalid payload length " +:+ FormatInt length)))
          else
            let sequence := nth 3 header 0 in
            if negb (sequence =? Sequence p)
            then (p, Err (Errorf ("invalid sequence " +:+ FormatInt sequence +:+ " != " +:+
                                  FormatInt (Sequence p))))
            else
              let p := next_Sequence p in
              let '(p, data) := ReadFull p length in
              match data with
              | None => (p, Err MyErrBadConn)
              | Some data =>
                  if length <? MaxPayloadLen then (p, Ok data)
                  else
                    let '(p, r) := ReadPacket_fuel fuel p in
                    match r with
                    | Ok buf => (p, Ok (data ++ buf))
                    | Err _ => (p, Err MyErrBadConn)
                    | Panic e => (p, Panic e)
                    end
              end
      end
  end.

Definition ReadPacket (p : PacketIO W) : PacketIO W * res error bytes :=
  ReadPacket_fuel (S (length (rb p))) p.

(** [data[0] = b0; ...; data[3] = sequence] *)
Definition set_header (length sequence : Z) (data : bytes) : res error bytes :=
  match data with
  | _ :: _ :: _ :: _ :: payload => Ok (put_le 3 length ++ [sequence] ++ payload)
  | _ => Panic (PRuntime "index out of range")
  end.

(** [p.wb.Write(data)], complete or [ErrBadConn]. *)
Definition write_all (p : PacketIO W) (data : bytes) : PacketIO W * res error unit :=
  let '(w, n, failed) := Write (wb p) data in
  (set_wb w p, if failed || negb (n =? blen data) then Err MyErrBadConn else Ok tt).

(** The caller's slice keeps the headers written into it: each frame
    overwrites the four bytes before its payload, which the frame before it
    has sent. *)
Fixpoint WritePacket_fuel (fuel : nat) (p : PacketIO W) (data : bytes) : PacketIO W * res error unit :=
  match fuel with
  | O => (p, Panic (PRuntime "loop"))
  | S fuel =>
      let length := blen data - 4 in
      if MaxPayloadLen <=? length then
        match set_header MaxPayloadLen (Sequence p) data with
        | Ok data =>
            let '(p, r) := write_all p (take (Z.to_nat (4 + MaxPayloadLen)) data) in
            match r with
            | Ok _ => WritePacket_fuel fuel (next_Sequence p) (drop (Z.to_nat MaxPayloadLen) data)
            | Err e => (p, Err e)
            | Panic e => (p, Panic e)
            end
        | Err e => (p, Err e)
        | Panic e => (p, Panic e)
        end
      else
        match set_header length (Sequence p) data with
        | Ok data =>
            let '(p, r) := write_all p data in
            match r with
            | Ok _ => (next_Sequence p, Ok tt)
            | Err e => (p, Err e)
            | Panic e => (p, Panic e)
            end
        | Err e => (p, Err e)
        | Panic e => (p, Panic e)
        end
  end.

Definition WritePacket (p : PacketIO W) (data : bytes) : PacketIO W * res error unit :=
  WritePacket_fuel (S (length data)) p data.

(** The loop of [WritePacketBatch] collects the frames after [total]. *)
Fixpoint batch_frames (fuel : nat) (p : PacketIO W) (total data : bytes) : PacketIO W * res error bytes :=
  match fuel with
  | O => (p, Panic (PRuntime "loop"))
  | S fuel =>
      let length := blen data - 4 in
      if MaxPayloadLen <=? length then
        match set_header MaxPayloadLen (Sequence p) data with
        | Ok data => batch_frames fuel (next_Sequence p) (total ++ take (Z.to_nat (4 + MaxPayloadLen)) data)
                       (drop (Z.to_nat MaxPayloadLen) data)
        | Err e => (p, Err e)
        | Panic e => (p, Panic e)
        end
      else
        match set_header length (Sequence p) data with
        | Ok data => (next_Sequence p, Ok (total ++ data))
        | Err e => (p, Err e)
        | Panic e => (p, Panic e)
        end
  end.

Definition flush (p : PacketIO W) (total : bytes) (direct : bool) : PacketIO W * res error bytes :=
  if direct then
    let '(p, r) := write_all p total in
    (p, let* _ := r in Ok total)
  else (p, Ok total).

Definition WritePacketBatch (p : PacketIO W) (total : bytes) (data : option bytes) (direct : bool)
  : PacketIO W * res error bytes :=
  match data with
  | None => flush p total direct
  | Some data =>
      let '(p, r) := batch_frames (S (length data)) p total data in
      match r with
      | Ok total => flush p total direct
      | Err e => (p, Err e)
      | Panic e => (p, Panic e)
      end
  end.

(** ** The frames of a payload *)
Definition frame (sequence : Z) (payload : bytes) : bytes :=
  put_le 3 (blen payload) ++ [sequence] ++ payload.

Fixpoint frames (full : nat) (sequence : Z) (payload : bytes) : bytes :=
  match full with
  | O => frame sequence payload
  | S full =>
      frame sequence (take (Z.to_nat MaxPayloadLen) payload) ++
      frames full (u8 (sequence + 1)) (drop (Z.to_nat MaxPayloadLen) payload)
  end.

(** Full frames before the last one, which may be empty. *)
Definition full_frames (payload : bytes) : nat := Z.to_nat (blen payload / MaxPayloadLen).
Definition packet (sequence : Z) (payload : bytes) : bytes :=
  frames (full_frames payload) sequence payload.
Definition end_sequence (sequence : Z) (payload : bytes) : Z :=
  u8 (sequence + blen payload / MaxPayloadLen + 1).

(** ** Laws of the frames *)
Lemma length_Max (payload : bytes) :
  MaxPayloadLen <= blen payload -> blen (take (Z.to_nat MaxPayloadLen) payload) = MaxPayloadLen.
Proof. unfold blen. rewrite length_take. pose proof MaxPayloadLen_eq. lia. Qed.

Lemma blen_drop (b : bytes) n : 0 <= n <= blen b -> blen (drop (Z.to_nat n) b) = blen b - n.
Proof. unfold blen. rewrite length_drop. lia. Qed.

Lemma set_header_ok n s hdr payload :
  blen hdr = 4 -> set_header n s (hdr ++ payload) = Ok (put_le 3 n ++ [s] ++ payload).
Proof. intros Hh. destruct hdr as [|? [|? [|? [|? [|]]]]]; try (unfold blen in Hh; cbn [length] in Hh; lia). done. Qed.

Lemma set_header_last s hdr payload :
  blen hdr = 4 -> set_header (blen (hdr ++ payload) - 4) s (hdr ++ payload) = Ok (frame s payload).
Proof. intros Hh. rewrite set_header_ok by done. rewrite blen_app, Hh, Z.add_simpl_l. done. Qed.

(** One full frame: what is sent, and the slice that is left. *)
Lemma full_frame s (payload : bytes) :
  MaxPayloadLen <= blen payload ->
  let data := put_le 3 MaxPayloadLen ++ [s] ++ payload in
  take (Z.to_nat (4 + MaxPayloadLen)) data = frame s (take (Z.to_nat MaxPayloadLen) payload) /\
  exists hdr, blen hdr = 4 /\ drop (Z.to_nat MaxPayloadLen) data = hdr ++ drop (Z.to_nat MaxPayloadLen) payload.
Proof.
  intros Hp data. pose proof MaxPayloadLen_eq as HM. unfold data, frame. rewrite length_Max by done.
  rewrite !app_assoc. set (h := put_le 3 MaxPayloadLen ++ [s]).
  assert (length h = 4%nat) as Hh by reflexivity. split.
  - rewrite Z2Nat.inj_add by lia. change (Z.to_nat 4) with 4%nat. rewrite <- Hh. by rewrite take_app_add.
  - exists (drop (Z.to_nat MaxPayloadLen) (h ++ take (Z.to_nat MaxPayloadLen) payload)). split.
    + unfold blen. rewrite length_drop, length_app, length_take, Hh. unfold blen in Hp. lia.
    + rewrite <- (take_drop (Z.to_nat MaxPayloadLen) payload) at 1. rewrite app_assoc, drop_app_le; [done|].
      rewrite length_app, length_take, Hh. unfold blen in Hp. lia.
Qed.

Lemma next_Sequence_add s k : u8 (u8 (s + 1) + k + 1) = u8 (s + (k + 1) + 1).
Proof.
  unfold u8. rewrite <- Z.add_assoc, Z.add_mod_idemp_l by lia. f_equal. lia.
Qed.

(** The payload of [full] frames and a shorter one. *)
Definition fits (full : nat) (payload : bytes) : Prop :=
  Z.of_nat full * MaxPayloadLen <= blen payload < (Z.of_nat full + 1) * MaxPayloadLen.

Lemma fits_S full payload :
  fits (S full) payload ->
  MaxPayloadLen <= blen payload /\ fits full (drop (Z.to_nat MaxPayloadLen) payload).
Proof.
  unfold fits. pose proof MaxPayloadLen_eq. intros Hf. assert (MaxPayloadLen <= blen payload) by nia.
  split; [done|]. rewrite blen_drop by lia. lia.
Qed.

Lemma fits_full_frames payload : fits (full_frames payload) payload.
Proof.
  unfold fits, full_frames. pose proof MaxPayloadLen_eq.
  pose proof (Z.div_mod (blen payload) MaxPayloadLen ltac:(lia)).
  pose proof (Z.mod_pos_bound (blen payload) MaxPayloadLen ltac:(lia)).
  assert (0 <= blen payload / MaxPayloadLen) by (apply Z.div_pos; [apply blen_nonneg | lia]). nia.
Qed.

Lemma fits_fuel full payload hdr : fits full payload -> (full < S (length (hdr ++ payload)))%nat.
Proof. unfold fits, blen. pose proof MaxPayloadLen_eq. rewrite length_app. nia. Qed.

(** ** The writer *)
Lemma write_all_inv p data p' r :
  write_all p data = (p', r) ->
  rb p' = rb p /\ Sequence p' = Sequence p /\
  (r = Ok tt /\ sent (wb p') = sent (wb p) ++ data \/ r = Err MyErrBadConn).
Proof.
  unfold write_all. pose proof (Write_sent (wb p) data) as Hw. destruct (Write (wb p) data) as [[w n] failed].
  destruct Hw as [Hs Hn]. intros [= <- <-]. split; [done|]. split; [done|].
  destruct failed; [by right|]. rewrite (Hn eq_refl), Z.eqb_refl. left. split; [done|]. cbn.
  rewrite Hs, (Hn eq_refl). unfold blen. by rewrite Nat2Z.id, firstn_all.
Qed.

Lemma WritePacket_fuel_inv fuel full p hdr payload p' r :
  fits full payload -> blen hdr = 4 -> (full < fuel)%nat ->
  WritePacket_fuel fuel p (hdr ++ payload) = (p', r) ->
  rb p' = rb p /\
  (r = Err MyErrBadConn \/
   r = Ok tt /\ sent (wb p') = sent (wb p) ++ frames full (Sequence p) payload /\
   Sequence p' = u8 (Sequence p + Z.of_nat full + 1)).
Proof.
  revert fuel p hdr payload. induction full as [|full IH]; intros fuel p hdr payload Hf Hh Hfuel Hw;
    (destruct fuel as [|fuel]; [lia|]); cbn [WritePacket_fuel] in Hw.
  - unfold fits in Hf. replace (MaxPayloadLen <=? _) with false in Hw by (rewrite blen_app; lia).
    rewrite set_header_last in Hw by done. destruct (write_all _ _) as [p1 r1] eqn:E.
    apply write_all_inv in E as (Hrb & Hs & [[-> E]| ->]); injection Hw as <- <-; [|auto].
    split; [done|]. right. cbn. rewrite Hs, Z.add_0_r. auto.
  - destruct (fits_S _ _ Hf) as [Hm Hf']. replace (MaxPayloadLen <=? _) with true in Hw by (rewrite blen_app; lia).
    rewrite set_header_ok in Hw by done. destruct (full_frame (Sequence p) payload Hm) as (Ht & hdr' & Hh' & Hd).
    rewrite Ht, Hd in Hw. destruct (write_all _ _) as [p1 r1] eqn:E.
    apply write_all_inv in E as (Hrb & Hs & [[-> E]| ->]); [|injection Hw as <- <-; auto].
    apply IH in Hw as (Hrb' & Hw); [|done..|lia]. cbn in Hrb', Hw. split; [congruence|].
    destruct Hw as [->|(-> & Hsent & Hseq)]; [by left | right]. split; [done|].
    rewrite Hsent, Hseq, E, Hs, <- app_assoc, next_Sequence_add. cbn [frames]. split; [done|]. f_equal. lia.
Qed.

Lemma batch_frames_ok fuel full p total hdr payload :
  fits full payload -> blen hdr = 4 -> (full < fuel)%nat ->
  batch_frames fuel p total (hdr ++ payload) =
    (mkPacketIO (rb p) (wb p) (u8 (Sequence p + Z.of_nat full + 1)),
     Ok (total ++ frames full (Sequence p) payload)).
Proof.
  revert fuel p total hdr payload. induction full as [|full IH]; intros fuel p total hdr payload Hf Hh Hfuel;
    (destruct fuel as [|fuel]; [lia|]); cbn [batch_frames].
  - unfold fits in Hf. replace (MaxPayloadLen <=? _) with false by (rewrite blen_app; lia).
    rewrite set_header_last by done. by rewrite Z.add_0_r.
  - destruct (fits_S _ _ Hf) as [Hm Hf']. replace (MaxPayloadLen <=? _) with true by (rewrite blen_app; lia).
    rewrite (set_header_ok _ _ _ _ Hh). destruct (full_frame (Sequence p) payload Hm) as (Ht & hdr' & Hh' & Hd).
    cbv beta iota. rewrite Ht, Hd, (IH _ _ _ _ _ Hf' Hh') by lia. cbn [rb wb Sequence next_Sequence frames].
    rewrite <- app_assoc, next_Sequence_add. do 3 f_equal. lia.
Qed.

(** ** The reader *)
Lemma ReadFull_app p (b rest : bytes) :
  rb p = b ++ rest -> ReadFull p (blen b) = (set_rb rest p, Some b).
Proof.
  intros Hp. unfold ReadFull. rewrite Hp, blen_app. pose proof (blen_nonneg rest).
  replace (_ <=? _) with true by lia. unfold blen. by rewrite Nat2Z.id, drop_app_length, take_app_length.
Qed.

Lemma ReadPacket_frame fuel p chunk rest :
  rb p = frame (Sequence p) chunk ++ rest -> blen chunk <= MaxPayloadLen ->
  ReadPacket_fuel (S fuel) p =
  (if blen chunk <? 1
   then (set_rb (chunk ++ rest) p, Err (Errorf ("invalid payload length " +:+ FormatInt (blen chunk))))
   else
     let p := next_Sequence (set_rb rest p) in
     if blen chunk <? MaxPayloadLen then (p, Ok chunk)
     else
       let '(p, r) := ReadPacket_fuel fuel p in
       match r with
       | Ok buf => (p, Ok (chunk ++ buf))
       | Err _ => (p, Err MyErrBadConn)
       | Panic e => (p, Panic e)
       end).
Proof.
  intros Hp Hc. cbn [ReadPacket_fuel]. pose proof MaxPayloadLen_eq as HM. pose proof (blen_nonneg chunk).
  assert (le_or (put_le 3 (blen chunk)) = blen chunk) as Hl.
  { rewrite le_or_put_le by lia. apply Z.mod_small. change (256 ^ 3) with (2 ^ 24). lia. }
  change (ReadFull p 4) with (ReadFull p (blen (put_le 3 (blen chunk) ++ [Sequence p]))).
  rewrite (ReadFull_app _ _ (chunk ++ rest)) by (rewrite Hp; unfold frame; by rewrite <- !app_assoc).
  change (take 3 (put_le 3 (blen chunk) ++ [Sequence p])) with (put_le 3 (blen chunk)).
  change (nth 3 (put_le 3 (blen chunk) ++ [Sequence p]) 0) with (Sequence p). rewrite Hl.
  destruct (blen chunk <? 1); [done|]. cbn [set_rb Sequence]. rewrite Z.eqb_refl. cbn [negb].
  rewrite (ReadFull_app _ _ rest) by done. done.
Qed.

(** What reading the frames of a payload answers: the payload, unless its
    last frame is empty. *)
Definition received (payload : bytes) : res error bytes :=
  if 0 <? blen payload mod MaxPayloadLen then Ok payload
  else if blen payload =? 0 then Err (Errorf "invalid payload length 0")
  else Err MyErrBadConn.

Lemma received_drop payload :
  MaxPayloadLen <= blen payload ->
  received payload =
    match received (drop (Z.to_nat MaxPayloadLen) payload) with
    | Ok buf => Ok (take (Z.to_nat MaxPayloadLen) payload ++ buf)
    | _ => Err MyErrBadConn
    end.
Proof.
  intros Hm. pose proof MaxPayloadLen_eq. unfold received. rewrite blen_drop by lia.
  replace (blen payload =? 0) with false by lia.
  replace ((blen payload - MaxPayloadLen) mod MaxPayloadLen) with (blen payload mod MaxPayloadLen)
    by (rewrite <- (Z.mod_add (blen payload - MaxPayloadLen) 1) by lia; f_equal; lia).
  destruct (0 <? _); [by rewrite take_drop|]. by destruct (_ =? 0).
Qed.

Lemma ReadPacket_frames fuel full p payload rest :
  fits full payload -> (full < fuel)%nat -> rb p = frames full (Sequence p) payload ++ rest ->
  exists p', ReadPacket_fuel fuel p = (p', received payload) /\ rb p' = rest /\ wb p' = wb p /\
    (is_ok (received payload) = true -> Sequence p' = u8 (Sequence p + Z.of_nat full + 1)).
Proof.
  pose proof MaxPayloadLen_eq as HM.
  revert fuel p payload. induction full as [|full IH]; intros fuel p payload Hf Hfuel Hp;
    (destruct fuel as [|fuel]; [lia|]).
  - unfold fits in Hf. rewrite (ReadPacket_frame _ _ payload rest) by (done || lia).
    pose proof (blen_nonneg payload). unfold received. rewrite Z.mod_small by lia.
    destruct (Z.ltb_spec (blen payload) 1).
    + destruct payload as [|x payload]; [|rewrite blen_cons in *; pose proof (blen_nonneg payload); lia].
      eexists. split; [reflexivity|]. by split.
    + replace (_ <? MaxPayloadLen) with true by lia. replace (0 <? _) with true by lia.
      eexists. split; [done|]. cbn. rewrite Z.add_0_r. done.
  - destruct (fits_S _ _ Hf) as [Hm Hf']. cbn [frames] in Hp. rewrite <- app_assoc in Hp.
    pose proof (length_Max payload Hm) as Hlen. rewrite (ReadPacket_frame _ _ _ _ Hp) by lia.
    rewrite Hlen. replace (MaxPayloadLen <? 1) with false by lia. rewrite Z.ltb_irrefl. cbv zeta.
    edestruct (IH fuel (next_Sequence (set_rb (frames full (u8 (Sequence p + 1))
                 (drop (Z.to_nat MaxPayloadLen) payload) ++ rest) p))) as (p' & -> & Hrb & Hwb & Hs);
      [exact Hf' | lia | done |].
    rewrite (received_drop payload Hm). destruct (received (drop _ payload)) as [buf|e|] eqn:E.
    + exists p'. split_and!; [done..|]. intros _. rewrite (Hs eq_refl). cbn [Sequence next_Sequence set_rb].
      rewrite next_Sequence_add. do 2 f_equal. lia.
    + by exists p'.
    + exfalso. unfold received in E. by repeat case_if_in E.
Qed.

(** ** Whole packets *)
Lemma length_frames k s b : (length b <= length (frames k s b))%nat.
Proof.
  revert s b. induction k as [|k IH]; intros s b; cbn [frames]; unfold frame.
  - rewrite !length_app. lia.
  - rewrite <- (take_drop (Z.to_nat MaxPayloadLen) b) at 1.
    specialize (IH (u8 (s + 1)) (drop (Z.to_nat MaxPayloadLen) b)). rewrite !length_app. lia.
Qed.

Lemma full_frames_end s payload : u8 (s + Z.of_nat (full_frames payload) + 1) = end_sequence s payload.
Proof.
  unfold full_frames, end_sequence. pose proof MaxPayloadLen_eq.
  rewrite Z2Nat.id; [done|]. apply Z.div_pos; [apply blen_nonneg | lia].
Qed.

Lemma WritePacket_packet p hdr payload p' r :
  blen hdr = 4 -> WritePacket p (hdr ++ payload) = (p', r) ->
  rb p' = rb p /\
  (r = Err MyErrBadConn \/
   r = Ok tt /\ sent (wb p') = sent (wb p) ++ packet (Sequence p) payload /\
   Sequence p' = end_sequence (Sequence p) payload).
Proof.
  intros Hh Hw. unfold WritePacket in Hw. pose proof (fits_full_frames payload).
  rewrite <- full_frames_end. eapply WritePacket_fuel_inv; [done | done | | exact Hw]. by apply fits_fuel.
Qed.

Lemma WritePacketBatch_packet p total hdr payload direct :
  blen hdr = 4 ->
  WritePacketBatch p total (Some (hdr ++ payload)) direct =
    flush (mkPacketIO (rb p) (wb p) (end_sequence (Sequence p) payload)) (total ++ packet (Sequence p) payload) direct.
Proof.
  intros Hh. pose proof (fits_full_frames payload). unfold WritePacketBatch.
  rewrite (batch_frames_ok _ (full_frames payload)), full_frames_end by (done || by apply fits_fuel). done.
Qed.

Lemma ReadPacket_received p payload rest :
  rb p = packet (Sequence p) payload ++ rest ->
  exists p', ReadPacket p = (p', received payload) /\ rb p' = rest /\ wb p' = wb p /\
    (is_ok (received payload) = true -> Sequence p' = end_sequence (Sequence p) payload).
Proof.
  intros Hp. rewrite <- full_frames_end. apply ReadPacket_frames; [apply fits_full_frames | | exact Hp].
  pose proof (fits_fuel _ _ [] (fits_full_frames payload)) as Hlt. cbn [app] in Hlt.
  pose proof (length_frames (full_frames payload) (Sequence p) payload).
  rewrite Hp, length_app. unfold packet. lia.
Qed.

(** A payload that arrives whole. *)
Definition readable (payload : bytes) : Prop := received payload = Ok payload.

Lemma ReadPacket_packet p payload rest :
  readable payload -> rb p = packet (Sequence p) payload ++ rest ->
  ReadPacket p = (mkPacketIO rest (wb p) (end_sequence (Sequence p) payload), Ok payload).
Proof.
  intros Hr Hp. destruct (ReadPacket_received p payload rest Hp) as ([b w s] & -> & Hrb & Hwb & Hs).
  rewrite Hr in *. cbn in *. by rewrite Hs, Hrb, Hwb by done.
Qed.

Lemma readable_short payload : 0 < blen payload < MaxPayloadLen -> readable payload.
Proof. intros Hb. unfold readable, received. rewrite Z.mod_small by lia. by replace (0 <? blen payload) with true by lia. Qed.

(** Packets one after the other. *)
Fixpoint packets (s : Z) (l : list bytes) : bytes :=
  match l with [] => [] | x :: l => packet s x ++ packets (end_sequence s x) l end.
Fixpoint after (s : Z) (l : list bytes) : Z :=
  match l with [] => s | x :: l => after (end_sequence s x) l end.

Lemma packets_app s l l' : packets s (l ++ l') = packets s l ++ packets (after s l) l'.
Proof. revert s. induction l as [|x l IH]; intros s; [done|]. cbn. by rewrite IH, app_assoc. Qed.
Lemma after_app s l l' : after s (l ++ l') = after (after s l) l'.
Proof. revert s. induction l as [|x l IH]; intros s; [done|]. apply IH. Qed.

Lemma readable_nonempty x : readable x -> (0 < length x)%nat.
Proof.
  unfold readable, received. destruct x; [|cbn; lia]. by cbn.
Qed.
Lemma length_packets s l : Forall readable l -> (length l <= length (packets s l))%nat.
Proof.
  intros Hl. revert s. induction Hl as [|x l Hx Hl IH]; intros s; [done|]. cbn.
  pose proof (length_frames (full_frames x) s x). pose proof (readable_nonempty x Hx).
  specialize (IH (end_sequence s x)). rewrite length_app. unfold packet. lia.
Qed.

Lemma ReadFull_rb p n p' r :
  0 <= n -> ReadFull p n = (p', r) ->
  (exists used, rb p = used ++ rb p') /\ (is_Some r -> blen (rb p') = blen (rb p) - n).
Proof.
  intros Hn. unfold ReadFull. case_if as Hc; intros [= <- <-]; cbn [rb set_rb].
  - split; [eexists; symmetry; apply take_drop|]. intros _. apply blen_drop. lia.
  - split; [exists (rb p); by rewrite app_nil_r|]. by intros [? ?].
Qed.

Lemma ReadPacket_fuel_total fuel p :
  Forall is_byte (rb p) -> (length (rb p) < fuel)%nat ->
  exists p' r, ReadPacket_fuel fuel p = (p', r) /\ (forall e, r <> Panic e) /\
    exists used, rb p = used ++ rb p'.
Proof.
  revert p. induction fuel as [|fuel IH]; intros p Hb Hf; [lia|]. cbn [ReadPacket_fuel].
  destruct (ReadFull p 4) as [p1 [header|]] eqn:E1;
    (apply ReadFull_rb in E1 as [[u1 H1] Hl1]; [|lia]); [|by eexists _, _; eauto].
  rewrite H1, Forall_app in Hb. destruct Hb as [Hb1 Hb].
  specialize (Hl1 ltac:(done)). unfold blen in Hl1.
  destruct (Z.ltb_spec (le_or (take 3 header)) 1); [by eexists _, _; eauto|].
  case_if; [by eexists _, _; eauto|].
  destruct (ReadFull (next_Sequence p1) _) as [p2 [data|]] eqn:E2;
    (apply ReadFull_rb in E2 as [[u2 H2] Hl2]; [|lia]); cbn [rb next_Sequence] in H2;
    [|by eexists _, _; split_and!; [done.. | exists (u1 ++ u2); rewrite H1, H2, <- app_assoc]].
  case_if; [by eexists _, _; split_and!; [done.. | exists (u1 ++ u2); rewrite H1, H2, <- app_assoc]|].
  rewrite H2, Forall_app in Hb. destruct Hb as [Hb2 Hb].
  destruct (IH p2 Hb) as (p3 & r & -> & Hr & u3 & H3).
  { apply (f_equal length) in H2. rewrite length_app in H2. lia. }
  destruct r as [buf|e|e]; [| |by destruct (Hr e)]; (eexists _, _; split; [done|]); (split; [done|]);
    exists (u1 ++ u2 ++ u3); by rewrite H1, H2, H3, <- !app_assoc.
Qed.
End PacketIO.

Section Properties.
Context {W : Type} `{Writer W}.

(** Packets round trip.  When [WritePacket] reports success, a reader
    whose input starts with what was sent, and whose sequence number
    agrees, gets exactly the payload, leaves the rest of the input and
    ends with the writer's sequence number, for every payload whose length
    is not a multiple of [MaxPayloadLen]; the last frame of the others,
    the empty payload included, is empty and the reader refuses it.  A
    write that fails is [ErrBadConn]; nothing panics. *)
Theorem packet_roundtrip (p p' : PacketIO W) (hdr payload rest : bytes) (r : res error unit) (q : PacketIO W)
    (Hh : blen hdr = 4) (Hw : WritePacket p (hdr ++ payload) = (p', r))
    (Hseq : Sequence q = Sequence p) (Hq : sent (wb p) ++ rb q = sent (wb p') ++ rest) :
  (r = Err MyErrBadConn \/ r = Ok tt) /\
  (r = Ok tt ->
     exists q', ReadPacket q = (q', received payload) /\ rb q' = rest /\
       (is_ok (received payload) = true -> Sequence q' = Sequence p')).
Proof.
  apply WritePacket_packet in Hw as [_ Hw]; [|done].
  split; [destruct Hw as [?|[? _]]; auto|]. intros ->. destruct Hw as [Hw|(_ & Hs & Hn)]; [done|].
  rewrite Hs, <- app_assoc, <- Hseq in Hq. apply app_inv_head in Hq.
  destruct (ReadPacket_received q payload rest Hq) as (q' & E & Hrb & _ & Hq').
  exists q'. rewrite E. split_and!; [done..|]. intros Hok. by rewrite (Hq' Hok), Hn, Hseq.
Qed.

(** Batching changes nothing on the wire: [WritePacketBatch] appends to
    the batch exactly the bytes [WritePacket] would send for the packet,
    with the same sequence number after it, and a direct batch, when it
    succeeds, sends the batch and those bytes. *)
Theorem WritePacketBatch_frames (p p1 p2 : PacketIO W) (total hdr payload : bytes) r1 r2
    (Hh : blen hdr = 4)
    (H1 : WritePacket p (hdr ++ payload) = (p1, r1))
    (H2 : WritePacketBatch p total (Some (hdr ++ payload)) true = (p2, r2)) :
  exists framed,
    WritePacketBatch p total (Some (hdr ++ payload)) false =
      (mkPacketIO (rb p) (wb p) (Sequence p2), Ok (total ++ framed)) /\
    (r1 = Ok tt -> sent (wb p1) = sent (wb p) ++ framed /\ Sequence p1 = Sequence p2) /\
    (r2 = Ok (total ++ framed) /\ sent (wb p2) = sent (wb p) ++ total ++ framed \/ r2 = Err MyErrBadConn).
Proof.
  pose proof (fits_full_frames payload) as Hf. unfold WritePacketBatch, WritePacket in *.
  rewrite (batch_frames_ok _ (full_frames payload)) in * by (done || by apply fits_fuel).
  apply (WritePacket_fuel_inv _ (full_frames payload)) in H1 as [_ H1]; [|done | done | by apply fits_fuel].
  cbn [flush] in *. destruct (write_all _ _) as [p3 r3] eqn:E. injection H2 as <- <-.
  apply write_all_inv in E as (Hrb & Hs & E). cbn [Sequence wb] in *.
  exists (packet (Sequence p) payload). rewrite Hs. split; [done|]. split.
  - intros ->. destruct H1 as [|(_ & -> & ->)]; done.
  - destruct E as [[-> E]| ->]; [left | by right]. done.
Qed.

(** Reading is total: on any bytes the peer may send [ReadPacket]
    returns a payload or an error, without a panic, having consumed a
    prefix of the input; the recursion over full frames ends. *)
Theorem ReadPacket_total (p : PacketIO W) (Hb : Forall is_byte (rb p)) :
  exists p' r, ReadPacket p = (p', r) /\ (forall e, r <> Panic e) /\
    exists used, rb p = used ++ rb p'.
Proof. apply ReadPacket_fuel_total; [done | lia]. Qed.
End Properties.

Lemma packet_roundtrip_witness :
  let p := NewPacketIO (W := bytes) [] [] in
  let '(p', r) := WritePacket p ([0; 0; 0; 0] ++ [7; 8]) in
  r = Ok tt /\
  exists q', ReadPacket (NewPacketIO (W := bytes) (wb p' ++ [1]) []) = (q', received [7; 8]) /\ rb q' = [1].
Proof.
  cbv zeta. destruct (WritePacket _ _) as [p' r] eqn:E.
  assert (r = Ok tt) as Hr by (vm_compute in E; by injection E as _ <-).
  split; [done|].
  destruct (packet_roundtrip (NewPacketIO (W := bytes) [] []) p' [0; 0; 0; 0] [7; 8] [1] r
              (NewPacketIO (W := bytes) (wb p' ++ [1]) []) eq_refl E eq_refl eq_refl) as [_ Hok].
  destruct (Hok Hr) as (q' & Hq & Hrb & _). by exists q'.
Defined.

Lemma WritePacketBatch_frames_witness :
  exists framed,
    WritePacketBatch (NewPacketIO (W := bytes) [] []) [9] (Some ([0; 0; 0; 0] ++ [7; 8])) false =
      (mkPacketIO [] [] 1, Ok ([9] ++ framed)).
Proof.
  destruct (WritePacket (NewPacketIO (W := bytes) [] []) ([0; 0; 0; 0] ++ [7; 8])) as [p1 r1] eqn:E1.
  destruct (WritePacketBatch_frames (NewPacketIO (W := bytes) [] []) p1
              (mkPacketIO [] [9; 2; 0; 0; 0; 7; 8] 1) [9] [0; 0; 0; 0] [7; 8] r1
              (Ok [9; 2; 0; 0; 0; 7; 8]) eq_refl E1) as (framed & H & _); [vm_compute; reflexivity|].
  exists framed. exact H.
Defined.

Lemma ReadPacket_total_witness :
  exists p' r, ReadPacket (NewPacketIO (W := bytes) [255; 255; 255; 0; 1] []) = (p', r) /\
    (forall e, r <> Panic e).
Proof.
  destruct (ReadPacket_total (NewPacketIO (W := bytes) [255; 255; 255; 0; 1] [])) as (p' & r & H & Hr & _).
  - repeat constructor; unfold is_byte; lia.
  - eauto.
Defined.
