(* ===== verification/Field.v ===== *)
(** * Column definitions ([mysql/field.go]) *)
From S2P Require Import Prelude Errors GoLib Wire.
Open Scope Z_scope.

(** [Data] and [DefaultValue] are tested against nil. *)
Record Field := mkField {
  Data : option bytes;
  Schema : bytes; Fld_Table : bytes; OrgTable : bytes; Name : bytes; OrgName : bytes;
  Charset : Z; ColumnLength : Z; Fld_Type : Z; Flag : Z; Decimal : Z;
  DefaultValueLength : Z; DefaultValue : option bytes
}.

(** [LengthEnodedString(p[pos:])] *)
Definition lenenc_at (p : bytes) (pos : Z) : res error (bytes * bool * Z) :=
  let* b := from p pos in LengthEnodedString b.

(** [Parse]; the default value follows when the command was a field list. *)
Definition Parse (p : bytes) : res error Field :=
  let* pos := SkipLengthEnodedString p in
  let* (schema, _, n) := lenenc_at p pos in let pos := pos + n in
  let* (table, _, n) := lenenc_at p pos in let pos := pos + n in
  let* (orgTable, _, n) := lenenc_at p pos in let pos := pos + n in
  let* (name, _, n) := lenenc_at p pos in let pos := pos + n in
  let* (orgName, _, n) := lenenc_at p pos in let pos := pos + n in
  let pos := pos + 1 in
  let* charset := le_at p pos 2 in let pos := pos + 2 in
  let* columnLength := le_at p pos 4 in let pos := pos + 4 in
  let* type := at_ p pos in let pos := pos + 1 in
  let* flag := le_at p pos 2 in let pos := pos + 2 in
  let* decimal := at_ p pos in let pos := pos + 1 in
  let pos := pos + 2 in
  let f := mkField (Some p) schema table orgTable name orgName charset columnLength type flag decimal in
  if pos <? blen p then
    let* (len, _, n) := (let* b := from p pos in LengthEncodedInt b) in
    let pos := pos + n in
    let last := i64 (pos + i64 len) in
    if blen p <? last then Err MyErrMalformPacket
    else let* value := slice p pos last in Ok (f len (Some value))
  else Ok (f 0 None).

Definition Dump (f : Field) : bytes :=
  match Data f with
  | Some data => data
  | None =>
      PutLengthEncodedString (bytes_of "def") ++
      PutLengthEncodedString (Schema f) ++
      PutLengthEncodedString (Fld_Table f) ++
      PutLengthEncodedString (OrgTable f) ++
      PutLengthEncodedString (Name f) ++
      PutLengthEncodedString (OrgName f) ++
      [0x0c] ++
      Uint16ToBytes (Charset f) ++
      Uint32ToBytes (ColumnLength f) ++
      [Fld_Type f] ++
      Uint16ToBytes (Flag f) ++
      [Decimal f] ++
      [0; 0] ++
      match DefaultValue f with
      | Some value => Uint64ToBytes (DefaultValueLength f) ++ value
      | None => []
      end
  end.

(** ** Well-formed columns and their round trip *)
Definition name_wf (s : bytes) : Prop := Forall is_byte s /\ blen s < 2 ^ 63 - 9.

Record field_wf (f : Field) : Prop := {
  wf_strings : Forall name_wf [Schema f; Fld_Table f; OrgTable f; Name f; OrgName f];
  wf_Charset : 0 <= Charset f < 2 ^ 16;
  wf_ColumnLength : 0 <= ColumnLength f < 2 ^ 32;
  wf_Flag : 0 <= Flag f < 2 ^ 16;
  wf_bytes : is_byte (Fld_Type f) /\ is_byte (Decimal f)
}.

Lemma PutLengthEncodedString_bytes s : Forall is_byte s -> Forall is_byte (PutLengthEncodedString s).
Proof. intros. apply Forall_app. split; [apply PutLengthEncodedInt_bytes | done]. Qed.

Lemma lenenc_at_mid p pos pre s rest :
  p = pre ++ PutLengthEncodedString s ++ rest -> blen pre = pos -> name_wf s -> Forall is_byte rest ->
  lenenc_at p pos = Ok (s, false, blen (PutLengthEncodedString s)).
Proof.
  intros -> <- [Hs Hl] Hr. unfold lenenc_at. rewrite from_app by done. cbn [rbind].
  by destruct (read_PutLengthEncodedString s rest Hs Hr Hl).
Qed.

Lemma le_at_put {E} p pos pre k n rest :
  p = pre ++ put_le k n ++ rest -> blen pre = pos -> 0 <= k -> 0 <= n < 256 ^ k -> @le_at E p pos k = Ok n.
Proof.
  intros -> Hp Hk Hn. rewrite (le_at_mid pre) by (done || by rewrite blen_put_le).
  by rewrite le_or_put_le, Z.mod_small.
Qed.

Lemma at_mid {E} p pos (pre : bytes) x rest :
  p = pre ++ [x] ++ rest -> blen pre = pos -> @at_ E Z p pos = Ok x.
Proof.
  intros -> <-. apply at_Ok. unfold blen. split; [lia|]. rewrite Nat2Z.id.
  by rewrite lookup_app_r, Nat.sub_diag by lia.
Qed.

(** The parts [Dump] writes after the strings. *)
Definition fixed_part (f : Field) : bytes :=
  [0x0c] ++ Uint16ToBytes (Charset f) ++ Uint32ToBytes (ColumnLength f) ++ [Fld_Type f] ++
  Uint16ToBytes (Flag f) ++ [Decimal f] ++ [0; 0].

Lemma fixed_part_bytes f : field_wf f -> Forall is_byte (fixed_part f).
Proof.
  intros [_ _ _ _ [H1 H2]]. unfold fixed_part, Uint16ToBytes, Uint32ToBytes. solve_bytes.
Qed.

(** What [Parse] reads of the fixed part, wherever it starts. *)
Lemma fixed_part_read {E} p pos pre f :
  p = pre ++ fixed_part f -> blen pre = pos -> field_wf f ->
  @le_at E p (pos + 1) 2 = Ok (Charset f) /\
  @le_at E p (pos + 1 + 2) 4 = Ok (ColumnLength f) /\
  @at_ E Z p (pos + 1 + 2 + 4) = Ok (Fld_Type f) /\
  @le_at E p (pos + 1 + 2 + 4 + 1) 2 = Ok (Flag f) /\
  @at_ E Z p (pos + 1 + 2 + 4 + 1 + 2) = Ok (Decimal f) /\
  pos + 1 + 2 + 4 + 1 + 2 + 1 + 2 = blen p.
Proof.
  intros -> Hp [_ H1 H2 H3 _]. unfold fixed_part.
  pose proof (blen_put_le 2 (Charset f) ltac:(lia)) as L1. pose proof (blen_put_le 4 (ColumnLength f) ltac:(lia)) as L2.
  pose proof (blen_put_le 2 (Flag f) ltac:(lia)) as L3. unfold Uint16ToBytes, Uint32ToBytes.
  set (c := put_le 2 (Charset f)) in *. set (l := put_le 4 (ColumnLength f)) in *.
  set (g := put_le 2 (Flag f)) in *.
  split_and!.
  - apply (le_at_put _ _ (pre ++ [0x0c])) with (rest := l ++ [Fld_Type f] ++ g ++ [Decimal f] ++ [0; 0]);
      [by rewrite <- app_assoc | rewrite blen_app; change (blen [0x0c]) with 1; lia | lia | done].
  - apply (le_at_put _ _ (pre ++ [0x0c] ++ c)) with (rest := [Fld_Type f] ++ g ++ [Decimal f] ++ [0; 0]);
      [by rewrite <- !app_assoc | rewrite !blen_app; change (blen [0x0c]) with 1; lia | lia | done].
  - apply (at_mid _ _ (pre ++ [0x0c] ++ c ++ l)) with (rest := g ++ [Decimal f] ++ [0; 0]);
      [by rewrite <- !app_assoc | rewrite !blen_app; change (blen [0x0c]) with 1; lia].
  - apply (le_at_put _ _ (pre ++ [0x0c] ++ c ++ l ++ [Fld_Type f])) with (rest := [Decimal f] ++ [0; 0]);
      [by rewrite <- !app_assoc | rewrite !blen_app; change (blen [0x0c]) with 1; change (blen [Fld_Type f]) with 1; lia | lia | done].
  - apply (at_mid _ _ (pre ++ [0x0c] ++ c ++ l ++ [Fld_Type f] ++ g)) with (rest := [0; 0]);
      [by rewrite <- !app_assoc | rewrite !blen_app; change (blen [0x0c]) with 1; change (blen [Fld_Type f]) with 1; lia].
  - rewrite !blen_app. change (blen [0x0c]) with 1. change (blen [Fld_Type f]) with 1.
    change (blen [Decimal f]) with 1. change (blen [0; 0]) with 2. lia.
Qed.

(** Strings written one after the other, and reading the one after [l]. *)
Definition strs (l : list bytes) : bytes := concat (PutLengthEncodedString <$> l).

Lemma strs_app l l' : strs (l ++ l') = strs l ++ strs l'.
Proof. unfold strs. by rewrite fmap_app, concat_app. Qed.

Lemma strs_bytes l : Forall name_wf l -> Forall is_byte (strs l).
Proof.
  induction 1 as [|s l [Hs _] _ IH]; [constructor|]. apply Forall_app.
  split; [by apply PutLengthEncodedString_bytes | done].
Qed.

Lemma strs_at p rest l s l' :
  p = strs (l ++ s :: l') ++ rest -> Forall name_wf (l ++ s :: l') -> Forall is_byte rest ->
  lenenc_at p (blen (strs l)) = Ok (s, false, blen (strs (l ++ [s])) - blen (strs l)).
Proof.
  intros Hp [Hl [Hs Hl']%Forall_cons]%Forall_app Hr.
  rewrite (lenenc_at_mid _ _ (strs l) s (strs l' ++ rest)).
  - rewrite strs_app, blen_app. change (strs [s]) with (PutLengthEncodedString s ++ []).
    rewrite app_nil_r. do 2 f_equal. lia.
  - rewrite Hp, strs_app. change (strs (s :: l')) with (PutLengthEncodedString s ++ strs l').
    by rewrite <- !app_assoc.
  - done.
  - exact Hs.
  - apply Forall_app. auto using strs_bytes.
Qed.

Lemma skip_first s l rest :
  name_wf s -> Forall name_wf l -> Forall is_byte rest ->
  SkipLengthEnodedString (strs (s :: l) ++ rest) = Ok (blen (strs [s])).
Proof.
  intros [Hs Hn] Hl Hr. change (strs (s :: l)) with (PutLengthEncodedString s ++ strs l).
  change (strs [s]) with (PutLengthEncodedString s ++ []). rewrite app_nil_r, <- app_assoc.
  apply (read_PutLengthEncodedString s (strs l ++ rest));
    [done | apply Forall_app; auto using strs_bytes | done].
Qed.

Ltac next_string p f Hp Hall Hfix l s l' :=
  rewrite (strs_at p (fixed_part f) l s l' Hp Hall Hfix); cbn [rbind]; rewrite Zplus_minus; cbn [app].

(** Column definitions round trip: parsing what [Dump] writes for a
    column without a default value gives the column back, with the packet
    as its data. *)
Theorem Field_Parse_Dump (f : Field)
    (Hwf : field_wf f) (Hd : Data f = None) (Hv : DefaultValue f = None) :
  Parse (Dump f) =
  Ok (mkField (Some (Dump f)) (Schema f) (Fld_Table f) (OrgTable f) (Name f) (OrgName f)
        (Charset f) (ColumnLength f) (Fld_Type f) (Flag f) (Decimal f) 0 None).
Proof.
  pose proof (fixed_part_bytes f Hwf) as Hfix. pose proof (wf_strings f Hwf) as Hs.
  set (def := bytes_of "def").
  assert (name_wf def) as Hdef by (split; [solve_bytes | vm_compute; reflexivity]).
  set (p := Dump f).
  assert (p = strs [def; Schema f; Fld_Table f; OrgTable f; Name f; OrgName f] ++ fixed_part f) as Hp.
  { unfold p, Dump, strs. rewrite Hd, Hv. cbn [fmap list_fmap concat]. by rewrite !app_nil_r, <- !app_assoc. }
  clearbody p. unfold Parse.
  replace (SkipLengthEnodedString p) with (@Ok error Z (blen (strs [def])))
    by (rewrite Hp; symmetry; by apply skip_first).
  assert (Forall name_wf [def; Schema f; Fld_Table f; OrgTable f; Name f; OrgName f]) as Hall by by constructor.
  cbn [rbind].
  next_string p f Hp Hall Hfix [def] (Schema f) [Fld_Table f; OrgTable f; Name f; OrgName f].
  next_string p f Hp Hall Hfix [def; Schema f] (Fld_Table f) [OrgTable f; Name f; OrgName f].
  next_string p f Hp Hall Hfix [def; Schema f; Fld_Table f] (OrgTable f) [Name f; OrgName f].
  next_string p f Hp Hall Hfix [def; Schema f; Fld_Table f; OrgTable f] (Name f) [OrgName f].
  next_string p f Hp Hall Hfix [def; Schema f; Fld_Table f; OrgTable f; Name f] (OrgName f) (@nil bytes).
  destruct (fixed_part_read (E := error) p _ _ f Hp eq_refl Hwf) as (-> & -> & -> & -> & -> & ->).
  cbn [rbind]. by rewrite Z.ltb_irrefl.
Qed.

Definition sample_field : Field :=
  mkField None (bytes_of "kingshard") (bytes_of "t") (bytes_of "t") (bytes_of "id") (bytes_of "id")
    33 11 3 0 0 0 None.

Lemma Field_Parse_Dump_witness :
  Parse (Dump sample_field) =
  Ok (mkField (Some (Dump sample_field)) (bytes_of "kingshard") (bytes_of "t") (bytes_of "t")
        (bytes_of "id") (bytes_of "id") 33 11 3 0 0 0 None).
Proof.
  apply (Field_Parse_Dump sample_field); [|done..].
  constructor; [|cbn; lia..|split; unfold is_byte; cbn; lia].
  repeat (apply Forall_cons; split); try apply Forall_nil_2; (split; [solve_bytes | vm_compute; reflexivity]).
Defined.

(** With a default value the round trip fails: [Dump] writes its length in
    eight bytes, [Parse] reads a length-encoded integer. *)
Example default_value_lost :
  Parse (Dump (mkField None [] [] [] [] [] 33 11 3 0 0 2 (Some [65; 66]))) =
  Ok (mkField (Some (Dump (mkField None [] [] [] [] [] 33 11 3 0 0 2 (Some [65; 66]))))
        [] [] [] [] [] 33 11 3 0 0 2 (Some [0; 0])).
Proof. vm_compute. reflexivity. Qed.
