(* ===== verification/Order.v ===== *)
(** * Comparison functions and sorting

    Go code orders values by a three-way comparison and sorts with
    [sort.Sort].  This file has the laws of such comparisons, how they are
    combined, what [sort.Sort] promises for them, and the fact behind every
    distributed LIMIT: the first rows of a union are determined by the first
    rows of its parts. *)
From S2P Require Import Prelude.
Open Scope Z_scope.

(** ** Three-way comparisons *)
Class TotalCmp {A} (cmp : A -> A -> Z) := {
  cmp_antisym x y : cmp y x = - cmp x y;
  cmp_trans x y z : cmp x y <= 0 -> cmp y z <= 0 -> cmp x z <= 0
}.

#[global] Arguments cmp_antisym {A} cmp {_} x y.
#[global] Arguments cmp_trans {A} cmp {_} x y z.

(** [if x < y { -1 } else if x > y { 1 } else { 0 }] *)
Definition Z_cmp (x y : Z) : Z := if x <? y then -1 else if y <? x then 1 else 0.

(** [bytes.Compare]: lexicographic. *)
Fixpoint list_cmp {A} (cmp : A -> A -> Z) (x y : list A) : Z :=
  match x, y with
  | [], [] => 0
  | [], _ => -1
  | _, [] => 1
  | a :: x, b :: y => let c := cmp a b in if c =? 0 then list_cmp cmp x y else c
  end.

#[export] Instance Z_TotalCmp : TotalCmp Z_cmp.
Proof.
  split; unfold Z_cmp; intros;
    repeat match goal with |- context [?a <? ?b] => destruct (Z.ltb_spec a b) end;
    repeat match goal with H : context [?a <? ?b] |- _ => destruct (Z.ltb_spec a b) end; lia.
Qed.

Lemma Z_cmp_eq x y : Z_cmp x y = 0 -> x = y.
Proof. unfold Z_cmp. destruct (Z.ltb_spec x y), (Z.ltb_spec y x); lia. Qed.

Section Laws.
Context {A} (cmp : A -> A -> Z) `{!TotalCmp cmp}.

Lemma cmp_refl x : cmp x x = 0.
Proof using All. pose proof (cmp_antisym cmp x x). lia. Qed.

Lemma cmp_zero_l x y z : cmp x y = 0 -> cmp x z <= 0 <-> cmp y z <= 0.
Proof using All.
  intros E. pose proof (cmp_antisym cmp x y). split; intros Hz.
  - apply (cmp_trans cmp y x z); [lia | done].
  - apply (cmp_trans cmp x y z); [lia | done].
Qed.

Lemma cmp_zero_trans x y z : cmp x y = 0 -> cmp y z = 0 -> cmp x z = 0.
Proof using All.
  intros E1 E2. pose proof (cmp_antisym cmp x y). pose proof (cmp_antisym cmp y z). pose proof (cmp_antisym cmp x z).
  pose proof (cmp_trans cmp x y z). pose proof (cmp_trans cmp z y x). lia.
Qed.

#[export] Instance opp_TotalCmp : TotalCmp (fun x y => - cmp x y).
Proof using All.
  split; intros.
  - rewrite (cmp_antisym cmp x y). done.
  - pose proof (cmp_antisym cmp x y). pose proof (cmp_antisym cmp y z). pose proof (cmp_antisym cmp x z).
    pose proof (cmp_trans cmp z y x). lia.
Qed.

Lemma pullback_TotalCmp {B} (f : B -> A) : TotalCmp (fun x y => cmp (f x) (f y)).
Proof using All. split; intros; [apply (cmp_antisym cmp) | by eapply (cmp_trans cmp)]. Qed.

(** Compare by [cmp], then by [cmp2]. *)
Lemma then_TotalCmp (cmp2 : A -> A -> Z) `{!TotalCmp cmp2} :
  TotalCmp (fun x y => if cmp x y =? 0 then cmp2 x y else cmp x y).
Proof using All.
  split.
  - intros x y. rewrite (cmp_antisym cmp x y), (cmp_antisym cmp2 x y).
    destruct (Z.eqb_spec (cmp x y) 0), (Z.eqb_spec (- cmp x y) 0); lia.
  - intros x y z. pose proof (cmp_antisym cmp x y). pose proof (cmp_antisym cmp y z). pose proof (cmp_antisym cmp x z).
    pose proof (cmp_trans cmp x y z). pose proof (cmp_trans cmp z x y). pose proof (cmp_trans cmp y z x).
    destruct (Z.eqb_spec (cmp x y) 0) as [E1|], (Z.eqb_spec (cmp y z) 0) as [E2|],
      (Z.eqb_spec (cmp x z) 0) as [E3|]; try lia.
    apply (cmp_trans cmp2).
Qed.

#[export] Instance list_TotalCmp : TotalCmp (list_cmp cmp).
Proof using All.
  split.
  - induction x as [|a x IH]; intros [|b y]; [done..|]. cbn. rewrite (cmp_antisym cmp a b).
    destruct (Z.eqb_spec (cmp a b) 0), (Z.eqb_spec (- cmp a b) 0); (apply IH || lia).
  - induction x as [|a x IH]; intros [|b y] [|c z]; try (cbn; lia). cbn.
    pose proof (cmp_antisym cmp a b). pose proof (cmp_antisym cmp b c). pose proof (cmp_antisym cmp a c).
    pose proof (cmp_trans cmp a b c). pose proof (cmp_trans cmp c a b). pose proof (cmp_trans cmp b c a).
    destruct (Z.eqb_spec (cmp a b) 0) as [E1|], (Z.eqb_spec (cmp b c) 0) as [E2|],
      (Z.eqb_spec (cmp a c) 0) as [E3|]; try lia.
    apply IH.
Qed.

Lemma list_cmp_eq : (forall a b, cmp a b = 0 -> a = b) -> forall x y, list_cmp cmp x y = 0 -> x = y.
Proof using All.
  intros Hc. induction x as [|a x IH]; intros [|b y]; cbn; [done|done|done|].
  destruct (Z.eqb_spec (cmp a b) 0) as [E|]; [|done]. intros E'. rewrite (Hc _ _ E). f_equal. by apply IH.
Qed.
End Laws.

(** ** [sort.Sort]

    The order of equal elements is not specified: sorting is a parameter,
    with what its documentation promises for a strict weak order.  [less]
    may panic, as Go's may. *)
Class GoSort := {
  sort_Sort {E A} : (A -> A -> res E bool) -> list A -> res E (list A);
  sort_Sort_sorted {E A} (less : A -> A -> res E bool) (cmp : A -> A -> Z) (l : list A) :
    TotalCmp cmp ->
    (forall x y, x ∈ l -> y ∈ l -> less x y = Ok (cmp x y <? 0)) ->
    exists l', sort_Sort less l = Ok l' /\ l' ≡ₚ l /\ StronglySorted (fun x y => cmp x y <= 0) l'
}.

(** An implementation: insertion sort. *)
Fixpoint insert_sorted {E A} (less : A -> A -> res E bool) (x : A) (l : list A) : res E (list A) :=
  match l with
  | [] => Ok [x]
  | y :: l' =>
      let* b := less x y in
      if (b : bool) then Ok (x :: l) else let* r := insert_sorted less x l' in Ok (y :: r)
  end.
Fixpoint insertion_sort {E A} (less : A -> A -> res E bool) (l : list A) : res E (list A) :=
  match l with
  | [] => Ok []
  | x :: l => let* r := insertion_sort less l in insert_sorted less x r
  end.

Lemma insert_sorted_ok {E A} (less : A -> A -> res E bool) (cmp : A -> A -> Z) `{!TotalCmp cmp} x l :
  (forall y, y ∈ l -> less x y = Ok (cmp x y <? 0)) -> StronglySorted (fun x y => cmp x y <= 0) l ->
  exists l', insert_sorted less x l = Ok l' /\ l' ≡ₚ x :: l /\ StronglySorted (fun x y => cmp x y <= 0) l'.
Proof.
  intros Hless Hl. induction Hl as [|y l Hl IH Hy]; cbn [insert_sorted].
  { exists [x]. split; [done|]. split; [done | repeat constructor]. }
  rewrite (Hless y) by (by left). cbn [rbind]. destruct (Z.ltb_spec (cmp x y) 0).
  - exists (x :: y :: l). split; [done|]. split; [done|]. rewrite Forall_forall in Hy.
    constructor; [by constructor; [|apply Forall_forall]|].
    constructor; [lia|]. apply Forall_forall. intros z Hz. apply (cmp_trans cmp x y z); [lia|]. by apply Hy.
  - destruct IH as (l' & -> & Hp & Hs); [intros z Hz; apply Hless; by right|]. cbn [rbind].
    exists (y :: l'). split; [done|]. split; [rewrite Hp; apply Permutation_swap|].
    constructor; [done|]. apply Forall_forall. intros z Hz. rewrite Hp in Hz.
    rewrite Forall_forall in Hy. apply elem_of_cons in Hz as [->|Hz]; [|by apply Hy].
    rewrite (cmp_antisym cmp x y). lia.
Qed.

#[local, refine] Instance insertion_GoSort : GoSort := { sort_Sort E A := @insertion_sort E A }.
Proof.
  intros E A less cmp l Hc Hless. induction l as [|x l IH]; cbn [insertion_sort].
  { exists []. split; [done|]. split; [done | constructor]. }
  destruct IH as (r & -> & Hp & Hs); [intros; apply Hless; by right|]. cbn [rbind].
  destruct (insert_sorted_ok less cmp x r) as (l' & -> & Hp' & Hs');
    [intros y Hy; rewrite Hp in Hy; apply Hless; [by left | by right] | done |].
  exists l'. split; [done|]. split; [by rewrite Hp', Hp | done].
Defined.

(** Sorted lists by index. *)
Lemma StronglySorted_lookup {A} (R : A -> A -> Prop) l i j x y :
  StronglySorted R l -> l !! i = Some x -> l !! j = Some y -> (i < j)%nat -> R x y.
Proof.
  intros Hs. revert i j. induction Hs as [|z l Hs IH Hz]; intros i j Hi Hj Hij; [done|].
  destruct j as [|j]; [lia|]. destruct i as [|i]; cbn in Hi, Hj.
  - injection Hi as <-. rewrite Forall_forall in Hz. apply Hz. by eapply list_elem_of_lookup_2.
  - apply (IH i j); [done..|lia].
Qed.

(** ** The first rows of a union *)
Section TopK.
Context {K} (cmp : K -> K -> Z) `{!TotalCmp cmp} (cmp_eq : forall a b, cmp a b = 0 -> a = b).

Definition kle (a b : K) : Prop := cmp a b <= 0.

#[local] Instance kle_dec : RelDecision kle.
Proof. intros a b. unfold kle. apply _. Defined.
#[local] Instance kle_trans : Transitive kle.
Proof using TotalCmp0. intros a b c. apply (cmp_trans cmp). Qed.
#[local] Instance kle_total : Total kle.
Proof using TotalCmp0. intros a b. unfold kle. rewrite (cmp_antisym cmp a b). lia. Qed.
#[local] Instance kle_antisym : AntiSymm (=) kle.
Proof using All. intros a b. unfold kle. rewrite (cmp_antisym cmp a b). intros. apply cmp_eq. lia. Qed.

Definition sorted_of (l : list K) : list K := merge_sort kle l.

Lemma sorted_of_spec l : StronglySorted kle (sorted_of l) /\ sorted_of l ≡ₚ l.
Proof using TotalCmp0.
  split; [|apply merge_sort_Permutation]. apply StronglySorted_merge_sort; apply _.
Qed.

Lemma sorted_of_unique l l' : StronglySorted kle l' -> l' ≡ₚ l -> sorted_of l = l'.
Proof using All.
  intros Hs Hp. destruct (sorted_of_spec l) as [H1 H2].
  eapply (StronglySorted_unique kle); [done..|]. by rewrite H2, Hp.
Qed.

Definition topk (n : nat) (l : list K) : list K := take n (sorted_of l).

Lemma topk_perm n l l' : l ≡ₚ l' -> topk n l = topk n l'.
Proof using All.
  intros Hp. unfold topk. f_equal. destruct (sorted_of_spec l') as [H1 H2].
  apply sorted_of_unique; [done|]. by rewrite H2, Hp.
Qed.

Lemma filter_none (P : K -> Prop) `{!forall x, Decision (P x)} l :
  Forall (fun x => ~ P x) l -> filter P l = [].
Proof. induction 1 as [|x l Hx _ IH]; [done|]. by rewrite filter_cons_False. Qed.

Lemma filter_all (P : K -> Prop) `{!forall x, Decision (P x)} l : Forall P l -> filter P l = l.
Proof. induction 1 as [|x l Hx _ IH]; [done|]. by rewrite filter_cons_True, IH. Qed.

(** If [n] elements are at most [d], so are the first [n] of the sorted
    list. *)
Lemma first_below l n d :
  StronglySorted kle l -> (n <= length (filter (fun x => kle x d) l))%nat ->
  Forall (fun x => kle x d) (take n l).
Proof using TotalCmp0.
  intros Hl. revert n. induction Hl as [|x l Hl IH Hx]; intros n Hn; [by rewrite take_nil|].
  destruct n as [|n]; [constructor|]. destruct (decide (kle x d)) as [Hd|Hd].
  - rewrite filter_cons_True in Hn by done. cbn in Hn. constructor; [done|]. apply IH. lia.
  - exfalso. rewrite filter_cons_False, filter_none in Hn by
      (done || (eapply Forall_impl; [exact Hx|]; intros y Hy Hyd; apply Hd; by etrans)).
    cbn in Hn. lia.
Qed.

(** Elements beyond the first [n] of a part do not matter. *)
Lemma topk_prefix n (l b : list K) :
  StronglySorted kle l -> topk n (take n l ++ b) = topk n (l ++ b).
Proof using All.
  intros Hl. destruct (decide (length l <= n)%nat) as [|Hlen]; [by rewrite take_ge|].
  set (d := drop n l). set (x := take n l ++ b). destruct (sorted_of_spec x) as [Hsx Hpx].
  assert (length (take n l) = n) as Ht by (rewrite length_take; lia).
  rewrite <- (take_drop n l) in Hl at 1. apply StronglySorted_app_inv in Hl as (_ & _ & Hcut).
  assert (forall y, y ∈ d -> Forall (fun a => kle a y) (take n (sorted_of x))) as Hbelow.
  { intros y Hy. apply first_below; [done|]. rewrite (Permutation_length (filter_Permutation _ _ _ Hpx)).
    unfold x. rewrite filter_app, length_app, (filter_all _ (take n l)); [lia|].
    apply Forall_forall. intros a Ha. by apply Hcut. }
  set (rest := sorted_of (drop n (sorted_of x) ++ d)).
  destruct (sorted_of_spec (drop n (sorted_of x) ++ d)) as [Hsr Hpr]. fold rest in Hsr, Hpr.
  unfold topk at 2. rewrite (sorted_of_unique (l ++ b) (take n (sorted_of x) ++ rest)).
  - unfold topk. rewrite take_app_le, take_take, Nat.min_id; [done|].
    rewrite length_take, (Permutation_length Hpx). unfold x. rewrite length_app. lia.
  - pose proof Hsx as Hsx'. rewrite <- (take_drop n (sorted_of x)) in Hsx'.
    apply StronglySorted_app_inv in Hsx' as (H1 & _ & H2). apply StronglySorted_app_intro; [done..|].
    intros a y Ha Hy. rewrite Hpr in Hy. apply elem_of_app in Hy as [Hy|Hy]; [by apply H2|].
    specialize (Hbelow y Hy). rewrite Forall_forall in Hbelow. by apply Hbelow.
  - rewrite Hpr, app_assoc, take_drop, Hpx. unfold x, d.
    rewrite <- app_assoc, (Permutation_app_comm b), app_assoc, take_drop. done.
Qed.

Lemma topk_app n (a b : list K) : topk n (topk n a ++ b) = topk n (a ++ b).
Proof using All.
  destruct (sorted_of_spec a) as [Hs Hp]. unfold topk at 2. rewrite topk_prefix by done.
  apply topk_perm. by rewrite Hp.
Qed.

(** The first [n] of a union are the first [n] of the first [n] of its
    parts. *)
Lemma topk_concat n (ls : list (list K)) : topk n (concat (topk n <$> ls)) = topk n (concat ls).
Proof using All.
  assert (forall acc, topk n (acc ++ concat (topk n <$> ls)) = topk n (acc ++ concat ls)) as H.
  { induction ls as [|l ls IH]; intros acc; [done|]. cbn [fmap list_fmap concat].
    rewrite (topk_perm n _ (topk n l ++ (acc ++ concat (topk n <$> ls))))
      by (rewrite !app_assoc; by rewrite (Permutation_app_comm acc)).
    rewrite topk_app, (topk_perm n _ ((l ++ acc) ++ concat (topk n <$> ls))) by by rewrite app_assoc.
    rewrite IH. apply topk_perm. rewrite !app_assoc. by rewrite (Permutation_app_comm l). }
  apply (H []).
Qed.

(** The keys of any sorted list of rows are the sorted keys. *)
Lemma sorted_keys {A} (key : A -> K) (l l' : list A) :
  l' ≡ₚ l -> StronglySorted (fun x y => cmp (key x) (key y) <= 0) l' -> key <$> l' = sorted_of (key <$> l).
Proof using All.
  intros Hp Hs. symmetry. apply sorted_of_unique; [|by rewrite Hp].
  clear Hp. induction Hs as [|x l' Hs IH Hx]; [constructor|]. constructor; [done|].
  by apply Forall_fmap.
Qed.
End TopK.
