(* ===== verification/Resultset.v ===== *)
(** * Result sets ([mysql/resultset.go])

    Rows as the backend sends them, in the text or the binary protocol,
    and the typed values the proxy merges.  A value of Go's [interface{}]
    is a sum of the dynamic types that occur.  Floats are IEEE binary64
    ([SpecFloat]); the decimal texts of floats ([strconv.ParseFloat],
    [FormatFloat]) and the conversions of floats out of the range of an
    integer, which Go leaves to the machine, are parameters. *)
From S2P Require Import Prelude Errors GoLib Wire Field.
From Stdlib Require Import SpecFloat.
Open Scope Z_scope.

(** ** Floats *)
Definition float64 : Type := spec_float.

Class GoFloat := {
  ParseFloat : string -> res error float64;
  FormatFloat : float64 -> string;
  float_to_uint64 : float64 -> Z;
  float_to_int64 : float64 -> Z
}.

(** A finite number rounded to 53 bits. *)
Definition float_of (m e : Z) : float64 := binary_normalize 53 1024 m e false.

(** The number of a binary interchange format with [mw] bits of mantissa
    and [ew] of exponent. *)
Definition float_of_bits (mw ew b : Z) : float64 :=
  let s := Z.testbit b (mw + ew) in
  let e := Z.shiftr b mw mod 2 ^ ew in
  let m := b mod 2 ^ mw in
  let bias := 2 ^ (ew - 1) - 1 in
  if e =? 2 ^ ew - 1 then (if m =? 0 then S754_infinity s else S754_nan)
  else
    let '(m, e) := if e =? 0 then (m, 1) else (m + 2 ^ mw, e) in
    if m =? 0 then S754_zero s
    else float_of (if s then - m else m) (e - bias - mw).

(** ** Values *)
Inductive width : Type := W8 | W16 | W32 | W64 | WInt.
Inductive value : Type :=
| VNil
| VInt (w : width) (z : Z)        (* int8 ... int64, int *)
| VUint (w : width) (z : Z)       (* uint8 ... uint64, uint *)
| VFloat32 (f : float64)
| VFloat64 (f : float64)
| VString (s : string)
| VBytes (b : bytes)
| VOther (name : string).

#[export] Instance width_eq_dec : EqDecision width.
Proof. solve_decision. Defined.
#[export] Instance spec_float_eq_dec : EqDecision spec_float.
Proof. solve_decision. Defined.
#[export] Instance value_eq_dec : EqDecision value.
Proof. solve_decision. Defined.

Notation VInt64 := (VInt W64).
Notation VUint64 := (VUint W64).

(** [%T] *)
Definition type_name (v : value) : string :=
  let bits w := match w with W8 => "8" | W16 => "16" | W32 => "32" | W64 => "64" | WInt => "" end in
  match v with
  | VNil => "<nil>"
  | VInt w _ => "int" +:+ bits w
  | VUint w _ => "uint" +:+ bits w
  | VFloat32 _ => "float32"
  | VFloat64 _ => "float64"
  | VString _ => "string"
  | VBytes _ => "[]uint8"
  | VOther name => name
  end.

(** ** Column types ([mysql/const.go]) *)
Definition OK_HEADER : Z := 0x00.
Definition MYSQL_TYPE_DECIMAL : Z := 0.
Definition MYSQL_TYPE_TINY : Z := 1.
Definition MYSQL_TYPE_SHORT : Z := 2.
Definition MYSQL_TYPE_LONG : Z := 3.
Definition MYSQL_TYPE_FLOAT : Z := 4.
Definition MYSQL_TYPE_DOUBLE : Z := 5.
Definition MYSQL_TYPE_NULL : Z := 6.
Definition MYSQL_TYPE_TIMESTAMP : Z := 7.
Definition MYSQL_TYPE_LONGLONG : Z := 8.
Definition MYSQL_TYPE_INT24 : Z := 9.
Definition MYSQL_TYPE_DATE : Z := 10.
Definition MYSQL_TYPE_TIME : Z := 11.
Definition MYSQL_TYPE_DATETIME : Z := 12.
Definition MYSQL_TYPE_YEAR : Z := 13.
Definition MYSQL_TYPE_NEWDATE : Z := 14.
Definition MYSQL_TYPE_VARCHAR : Z := 15.
Definition MYSQL_TYPE_BIT : Z := 16.
Definition MYSQL_TYPE_NEWDECIMAL : Z := 0xf6.
Definition MYSQL_TYPE_ENUM : Z := 0xf7.
Definition MYSQL_TYPE_SET : Z := 0xf8.
Definition MYSQL_TYPE_TINY_BLOB : Z := 0xf9.
Definition MYSQL_TYPE_MEDIUM_BLOB : Z := 0xfa.
Definition MYSQL_TYPE_LONG_BLOB : Z := 0xfb.
Definition MYSQL_TYPE_BLOB : Z := 0xfc.
Definition MYSQL_TYPE_VAR_STRING : Z := 0xfd.
Definition MYSQL_TYPE_STRING : Z := 0xfe.
Definition MYSQL_TYPE_GEOMETRY : Z := 0xff.
Definition NOT_NULL_FLAG : Z := 1.
Definition UNSIGNED_FLAG : Z := 32.
Definition BINARY_FLAG : Z := 128.

Definition type_in (t : Z) (l : list Z) : bool := existsb (Z.eqb t) l.
Definition isUnsigned (f : Field) : bool := 0 <? Z.land (Flag f) UNSIGNED_FLAG.

Definition text_int_types : list Z :=
  [MYSQL_TYPE_TINY; MYSQL_TYPE_SHORT; MYSQL_TYPE_LONG; MYSQL_TYPE_INT24; MYSQL_TYPE_LONGLONG; MYSQL_TYPE_YEAR].
Definition text_float_types : list Z := [MYSQL_TYPE_FLOAT; MYSQL_TYPE_DOUBLE; MYSQL_TYPE_NEWDECIMAL].
Definition text_string_types : list Z :=
  [MYSQL_TYPE_VARCHAR; MYSQL_TYPE_VAR_STRING; MYSQL_TYPE_STRING; MYSQL_TYPE_DATETIME;
   MYSQL_TYPE_DATE; MYSQL_TYPE_TIME; MYSQL_TYPE_TIMESTAMP].
Definition binary_string_types : list Z :=
  [MYSQL_TYPE_DECIMAL; MYSQL_TYPE_NEWDECIMAL; MYSQL_TYPE_VARCHAR; MYSQL_TYPE_BIT; MYSQL_TYPE_ENUM;
   MYSQL_TYPE_SET; MYSQL_TYPE_TINY_BLOB; MYSQL_TYPE_MEDIUM_BLOB; MYSQL_TYPE_LONG_BLOB; MYSQL_TYPE_BLOB;
   MYSQL_TYPE_VAR_STRING; MYSQL_TYPE_STRING; MYSQL_TYPE_GEOMETRY].

Section Rows.
Context `{GoFloat}.

(** ** The text protocol *)
Definition text_value (f : Field) (v : bytes) : res error value :=
  if type_in (Fld_Type f) text_int_types then
    if isUnsigned f then let* z := ParseUint (string_of v) in Ok (VUint64 z)
    else let* z := ParseInt (string_of v) in Ok (VInt64 z)
  else if type_in (Fld_Type f) text_float_types then
    let* x := ParseFloat (string_of v) in Ok (VFloat64 x)
  else if type_in (Fld_Type f) text_string_types then Ok (VString (string_of v))
  else Ok (VBytes v).

Fixpoint text_values (p : bytes) (pos : Z) (f : list Field) : res error (list value) :=
  match f with
  | [] => Ok []
  | fi :: f =>
      let* (v, isNull, n) := lenenc_at p pos in
      let* d := (if (isNull : bool) then Ok VNil else text_value fi v) in
      let* data := text_values p (pos + n) f in
      Ok (d :: data)
  end.

Definition ParseText (p : bytes) (f : list Field) : res error (list value) := text_values p 0 f.

(** ** The binary protocol *)

(** [p[pos:pos+k]] as an unsigned and as a signed integer. *)
Definition uint_at (p : bytes) (pos k : Z) : res error Z :=
  let* b := slice p pos (pos + k) in Ok (le_or b).
Definition signed (k n : Z) : Z := if n <? 2 ^ (8 * k - 1) then n else n - 2 ^ (8 * k).
Definition int_value (f : Field) (p : bytes) (pos k : Z) : res error value :=
  let* n := uint_at p pos k in
  Ok (if isUnsigned f then VUint64 n else VInt64 (signed k n)).

(** A date or time: its length, then the text of that many bytes. *)
Definition temporal_value (format : Z -> bytes -> res error string) (p : bytes) (pos : Z)
  : res error (value * Z) :=
  let* (num, isNull, n) := (let* b := from p pos in LengthEncodedInt b) in
  let pos := pos + n in
  if (isNull : bool) then Ok (VNil, pos)
  else
    let* s := (let* b := from p pos in format (i64 num) b) in
    Ok (VBytes (bytes_of s), i64 (pos + i64 num)).

(** One column: its value and the position after it. *)
Definition binary_value (f : Field) (p : bytes) (pos : Z) : res error (value * Z) :=
  let t := Fld_Type f in
  if t =? MYSQL_TYPE_NULL then Ok (VNil, pos)
  else if t =? MYSQL_TYPE_TINY then
    let* n := at_ p pos in Ok (if isUnsigned f then VUint64 n else VInt64 n, pos + 1)
  else if type_in t [MYSQL_TYPE_SHORT; MYSQL_TYPE_YEAR] then
    let* v := int_value f p pos 2 in Ok (v, pos + 2)
  else if type_in t [MYSQL_TYPE_INT24; MYSQL_TYPE_LONG] then
    let* v := int_value f p pos 4 in Ok (v, pos + 4)
  else if t =? MYSQL_TYPE_LONGLONG then
    let* v := int_value f p pos 8 in Ok (v, pos + 8)
  else if t =? MYSQL_TYPE_FLOAT then
    let* n := uint_at p pos 4 in Ok (VFloat64 (float_of_bits 23 8 n), pos + 4)
  else if t =? MYSQL_TYPE_DOUBLE then
    let* n := uint_at p pos 8 in Ok (VFloat64 (float_of_bits 52 11 n), pos + 8)
  else if type_in t binary_string_types then
    let* (v, isNull, n) := lenenc_at p pos in
    Ok (if (isNull : bool) then VNil else VBytes v, pos + n)
  else if type_in t [MYSQL_TYPE_DATE; MYSQL_TYPE_NEWDATE] then temporal_value FormatBinaryDate p pos
  else if type_in t [MYSQL_TYPE_TIMESTAMP; MYSQL_TYPE_DATETIME] then temporal_value FormatBinaryDateTime p pos
  else if t =? MYSQL_TYPE_TIME then temporal_value FormatBinaryTime p pos
  else Err (Errorf ("Stmt Unknown FieldType " +:+ FormatInt t +:+ " " +:+ string_of (Name f))).

(** [nullBitmap[(i+2)/8] & (1 << ((i+2)%8)) > 0] *)
Definition null_bit (nullBitmap : bytes) (i : Z) : res error bool :=
  let* b := at_ nullBitmap ((i + 2) / 8) in
  Ok (0 <? Z.land b (Z.shiftl 1 ((i + 2) mod 8))).

Fixpoint binary_values (p nullBitmap : bytes) (i pos : Z) (f : list Field) : res error (list value) :=
  match f with
  | [] => Ok []
  | fi :: f =>
      let* null := null_bit nullBitmap i in
      let* (d, pos) := (if (null : bool) then Ok (VNil, pos) else binary_value fi p pos) in
      let* data := binary_values p nullBitmap (i + 1) pos f in
      Ok (d :: data)
  end.

Definition ParseBinary (p : bytes) (f : list Field) : res error (list value) :=
  let* header := at_ p 0 in
  if negb (header =? OK_HEADER) then Err MyErrMalformPacket
  else
    let pos := 1 + Z.shiftr (Z.of_nat (length f) + 7 + 2) 3 in
    let* nullBitmap := slice p 1 pos in
    binary_values p nullBitmap 0 pos f.

Definition RowData_Parse (p : bytes) (f : list Field) (binary : bool) : res error (list value) :=
  if binary then ParseBinary p f else ParseText p f.

(** ** [Resultset] *)
Record Resultset := mkResultset {
  Fields : list Field;
  FieldNames : gmap string Z;
  Values : list (list value);
  RowDatas : list bytes
}.

(** [Result]: the embedded result set is nil for statements without one. *)
Record Result := mkResult {
  Status : Z; InsertId : Z; AffectedRows : Z; Res_set : option Resultset
}.

Definition RowNumber (r : Resultset) : Z := Z.of_nat (length (Values r)).
Definition ColumnNumber (r : Resultset) : Z := Z.of_nat (length (Fields r)).

Definition GetValue (r : Resultset) (row column : Z) : res error value :=
  if (RowNumber r <=? row) || (row <? 0) then Err (Errorf ("invalid row index " +:+ FormatInt row))
  else if (ColumnNumber r <=? column) || (column <? 0)
  then Err (Errorf ("invalid column index " +:+ FormatInt column))
  else let* vs := at_ (Values r) row in at_ vs column.

Definition NameIndex (r : Resultset) (name : string) : res error Z :=
  match FieldNames r !! name with
  | Some column => Ok column
  | None => Err (Errorf ("invalid field name " +:+ name))
  end.

Definition GetValueByName (r : Resultset) (row : Z) (name : string) : res error value :=
  let* column := NameIndex r name in GetValue r row column.

Definition is_nil (v : value) : bool := match v with VNil => true | _ => false end.

Definition IsNull (r : Resultset) (row column : Z) : res error bool :=
  let* d := GetValue r row column in Ok (is_nil d).
Definition IsNullByName (r : Resultset) (row : Z) (name : string) : res error bool :=
  let* column := NameIndex r name in IsNull r row column.

Definition bad_type {A} (v : value) : res error A := Err (Errorf ("data type is " +:+ type_name v)).

Definition value_uint (d : value) : res error Z :=
  match d with
  | VUint W64 v => Ok v
  | VInt W64 v => Ok (u64 v)
  | VFloat64 v => Ok (float_to_uint64 v)
  | VString v => ParseUint v
  | VBytes v => ParseUint (string_of v)
  | VNil => Ok 0
  | v => bad_type v
  end.
Definition GetUint (r : Resultset) (row column : Z) : res error Z :=
  let* d := GetValue r row column in value_uint d.
Definition GetUintByName (r : Resultset) (row : Z) (name : string) : res error Z :=
  let* column := NameIndex r name in GetUint r row column.

Definition value_int (d : value) : res error Z :=
  match d with
  | VUint W64 v => Ok (i64 v)
  | VInt W64 v => Ok v
  | VFloat64 v => Ok (float_to_int64 v)
  | VString v => ParseInt v
  | VBytes v => ParseInt (string_of v)
  | VNil => Ok 0
  | v => bad_type v
  end.
Definition GetInt (r : Resultset) (row column : Z) : res error Z :=
  let* d := GetValue r row column in value_int d.
Definition GetIntByName (r : Resultset) (row : Z) (name : string) : res error Z :=
  let* column := NameIndex r name in GetInt r row column.

Definition value_float (d : value) : res error float64 :=
  match d with
  | VFloat64 v => Ok v
  | VUint W64 v | VInt W64 v => Ok (float_of v 0)
  | VString v => ParseFloat v
  | VBytes v => ParseFloat (string_of v)
  | VNil => Ok (S754_zero false)
  | v => bad_type v
  end.
Definition GetFloat (r : Resultset) (row column : Z) : res error float64 :=
  let* d := GetValue r row column in value_float d.
Definition GetFloatByName (r : Resultset) (row : Z) (name : string) : res error float64 :=
  let* column := NameIndex r name in GetFloat r row column.

Definition value_string (d : value) : res error string :=
  match d with
  | VString v => Ok v
  | VBytes v => Ok (string_of v)
  | VInt W64 v => Ok (FormatInt v)
  | VUint W64 v => Ok (FormatUint v)
  | VFloat64 v => Ok (FormatFloat v)
  | VNil => Ok ""
  | v => bad_type v
  end.
Definition GetString (r : Resultset) (row column : Z) : res error string :=
  let* d := GetValue r row column in value_string d.
Definition GetStringByName (r : Resultset) (row : Z) (name : string) : res error string :=
  let* column := NameIndex r name in GetString r row column.
End Rows.
