(* ===== verification/ResultsetSort.v ===== *)
(** * Sorting result sets ([mysql/resultset_sort.go])

    ORDER BY over the rows of several shards: values are compared in the
    type the column has, NULL first, and the sort permutes the typed rows
    and their wire form together. *)
From S2P Require Import Prelude Errors GoLib Wire Field Order Resultset.
From Stdlib Require Import SpecFloat.
Open Scope Z_scope.

Definition SortAsc : string := "asc".
Definition SortDesc : string := "desc".

Record SortKey := mkSortKey { sk_Name : string; Direction : string; column : Z }.

(** [newResultsetSorter]: finds the column of every key. *)
Definition newResultsetSorter (r : Resultset) (sk : list SortKey) : res error (list SortKey) :=
  rmap (fun k => match FieldNames r !! sk_Name k with
                 | Some c => Ok (mkSortKey (sk_Name k) (Direction k) c)
                 | None => Err (Errorf ("key " +:+ sk_Name k +:+ " not in resultset fields, can not sort"))
                 end) sk.

(** ** Comparing values *)
Definition bytes_Compare : bytes -> bytes -> Z := list_cmp Z_cmp.
Definition float_cmp (v s : float64) : Z := if SFltb v s then -1 else if SFltb s v then 1 else 0.

(** A failed type assertion panics. *)
Definition assert_panic {E A} (v : value) (ty : string) : res E A :=
  Panic (PRuntime ("interface conversion: interface {} is " +:+ type_name v +:+ ", not " +:+ ty)).

Definition cmpValue {E} (v1 v2 : value) : res E Z :=
  match v1, v2 with
  | VNil, VNil => Ok 0
  | VNil, _ => Ok (-1)
  | _, VNil => Ok 1
  | VString v, VString s => Ok (bytes_Compare (bytes_of v) (bytes_of s))
  | VString _, _ => assert_panic v2 "string"
  | VBytes v, VBytes s => Ok (bytes_Compare v s)
  | VBytes _, _ => assert_panic v2 "[]uint8"
  | VInt W64 v, VInt W64 s => Ok (Z_cmp v s)
  | VInt W64 _, _ => assert_panic v2 "int64"
  | VUint W64 v, VUint W64 s => Ok (Z_cmp v s)
  | VUint W64 _, _ => assert_panic v2 "uint64"
  | VFloat64 v, VFloat64 s => Ok (float_cmp v s)
  | VFloat64 _, _ => assert_panic v2 "float64"
  | v, _ => Panic (PString ("invalid type " +:+ type_name v))
  end.

(** [Less], on the two rows. *)
Fixpoint less_rows {E} (sk : list SortKey) (v1 v2 : list value) : res E bool :=
  match sk with
  | [] => Ok false
  | k :: sk =>
      let* a := at_ v1 (column k) in
      let* b := at_ v2 (column k) in
      let* v := cmpValue a b in
      let v := if String.eqb (Direction k) SortDesc then - v else v in
      if v <? 0 then Ok true
      else if 0 <? v then Ok false
      else less_rows sk v1 v2
  end.

Definition Less {E} (r : Resultset) (sk : list SortKey) (i j : Z) : res E bool :=
  let* v1 := at_ (Values r) i in
  let* v2 := at_ (Values r) j in
  less_rows sk v1 v2.

Section Sort.
Context `{GoSort}.

(** [Swap] exchanges the rows and their wire form: [sort.Sort] permutes the
    pairs.  A result set has as many of one as of the other. *)
Definition Sort (r : Resultset) (sk : list SortKey) : res error Resultset :=
  let* sk := newResultsetSorter r sk in
  if Nat.eqb (length (Values r)) (length (RowDatas r)) then
    let* rows := sort_Sort (fun a b => less_rows sk a.1 b.1) (zip (Values r) (RowDatas r)) in
    Ok (mkResultset (Fields r) (FieldNames r) rows.*1 rows.*2)
  else Panic (PRuntime "index out of range").
End Sort.

(** ** Columns of one type *)
Inductive kind : Type := KString | KBytes | KInt | KUint | KFloat.

Definition is_nan (f : float64) : bool := match f with S754_nan => true | _ => false end.

Definition has_kind (k : kind) (v : value) : bool :=
  match k, v with
  | _, VNil => true
  | KString, VString _ => true
  | KBytes, VBytes _ => true
  | KInt, VInt W64 _ => true
  | KUint, VUint W64 _ => true
  | KFloat, VFloat64 f => negb (is_nan f)
  | _, _ => false
  end.

(** The order of floats, read off their parts. *)
Definition float_key (f : float64) : list Z :=
  match f with
  | S754_zero _ => [0]
  | S754_infinity s => [if s then -2 else 2]
  | S754_finite false m e => [1; e; Z.pos m]
  | S754_finite true m e => [-1; - e; - Z.pos m]
  | S754_nan => [3]
  end.

(** Two values of a kind compare as their keys do; NULL is the least. *)
Definition value_key (v : value) : list Z :=
  match v with
  | VNil => []
  | VString s => 0 :: bytes_of s
  | VBytes b => 0 :: b
  | VInt _ z | VUint _ z => [0; z]
  | VFloat64 f | VFloat32 f => 0 :: float_key f
  | VOther _ => [1]
  end.

Definition key_cmp : list Z -> list Z -> Z := list_cmp Z_cmp.

#[export] Instance key_cmp_TotalCmp : TotalCmp key_cmp.
Proof. apply list_TotalCmp, _. Qed.

Lemma key_cmp_eq a b : key_cmp a b = 0 -> a = b.
Proof. apply list_cmp_eq, Z_cmp_eq. apply _. Qed.

Lemma Z_cmp_refl z : Z_cmp z z = 0.
Proof. apply (cmp_refl Z_cmp). Qed.

Lemma Z_cmp_lt x y : x < y -> Z_cmp x y = -1.
Proof. unfold Z_cmp. intros. by replace (x <? y) with true by lia. Qed.
Lemma Z_cmp_gt x y : y < x -> Z_cmp x y = 1.
Proof. unfold Z_cmp. intros. replace (x <? y) with false by lia. by replace (y <? x) with true by lia. Qed.

Lemma SFltb_key f g :
  is_nan f = false -> is_nan g = false -> SFltb f g = (key_cmp (float_key f) (float_key g) <? 0).
Proof.
  intros Hf Hg.
  destruct f as [[]|[]| |[] m e], g as [[]|[]| |[] m' e']; try done;
    unfold SFltb, SFcompare, key_cmp; cbn [float_key list_cmp]; rewrite ?Z_cmp_refl; cbn [Z.eqb];
    change (Pos.compare_cont Eq m m') with (Pos.compare m m');
    (destruct (Z.compare_spec e e') as [<-|He|He];
       [rewrite Z_cmp_refl | rewrite ?Z_cmp_lt, ?Z_cmp_gt by lia; done..]);
    (destruct (Pos.compare_spec m m') as [<-|Hm|Hm];
       [rewrite Z_cmp_refl | rewrite ?Z_cmp_lt, ?Z_cmp_gt by lia..]; done).
Qed.

Lemma Z_cmp_values x y : Z_cmp x y = -1 \/ Z_cmp x y = 0 \/ Z_cmp x y = 1.
Proof. unfold Z_cmp. repeat case_if; auto. Qed.

Lemma key_cmp_values a b : key_cmp a b = -1 \/ key_cmp a b = 0 \/ key_cmp a b = 1.
Proof.
  revert b. induction a as [|x a IH]; intros [|y b]; cbn; auto.
  destruct (Z.eqb_spec (Z_cmp x y) 0); [apply IH | apply Z_cmp_values].
Qed.

Lemma key_cmp_cons x a b : key_cmp (x :: a) (x :: b) = key_cmp a b.
Proof. unfold key_cmp. cbn. by rewrite Z_cmp_refl. Qed.

Lemma key_cmp_one x y : key_cmp [x] [y] = Z_cmp x y.
Proof. unfold key_cmp. cbn. by destruct (Z.eqb_spec (Z_cmp x y) 0). Qed.

Lemma float_cmp_key f g :
  is_nan f = false -> is_nan g = false -> float_cmp f g = key_cmp (float_key f) (float_key g).
Proof.
  intros Hf Hg. unfold float_cmp. rewrite !SFltb_key by done.
  rewrite (cmp_antisym key_cmp (float_key f) (float_key g)).
  destruct (key_cmp_values (float_key f) (float_key g)) as [-> |[-> | ->]]; done.
Qed.

(** [cmpValue] on values of one kind is the order of their keys. *)
Lemma cmpValue_key {E} k v1 v2 :
  has_kind k v1 = true -> has_kind k v2 = true ->
  @cmpValue E v1 v2 = Ok (key_cmp (value_key v1) (value_key v2)).
Proof.
  intros H1 H2. destruct k, v1 as [|[]|[]| | | | |], v2 as [|[]|[]| | | | |]; try done;
    cbn [cmpValue value_key]; rewrite ?key_cmp_cons, ?key_cmp_one; try done.
  cbn [has_kind] in H1, H2. apply negb_true_iff in H1, H2. by rewrite float_cmp_key.
Qed.

(** ** Rows *)

(** Every row has the columns' kinds. *)
Definition row_has_kinds (kinds : list kind) (row : list value) : Prop :=
  Forall2 (fun k v => has_kind k v = true) kinds row.

(** The columns of the keys are columns of the rows. *)
Definition keys_in (kinds : list kind) (sk : list SortKey) : Prop :=
  Forall (fun k => 0 <= column k < Z.of_nat (length kinds)) sk.

Definition column_key (k : SortKey) (row : list value) : list Z :=
  value_key (nth (Z.to_nat (column k)) row VNil).

(** The order of rows that [Less] decides. *)
Fixpoint row_cmp (sk : list SortKey) (v1 v2 : list value) : Z :=
  match sk with
  | [] => 0
  | k :: sk =>
      let c := key_cmp (column_key k v1) (column_key k v2) in
      let c := if String.eqb (Direction k) SortDesc then - c else c in
      if c =? 0 then row_cmp sk v1 v2 else c
  end.

#[export] Instance row_cmp_TotalCmp sk : TotalCmp (row_cmp sk).
Proof.
  induction sk as [|k sk IH]; [split; cbn; lia|]. cbn [row_cmp].
  assert (TotalCmp (fun v1 v2 => if String.eqb (Direction k) SortDesc
            then - key_cmp (column_key k v1) (column_key k v2)
            else key_cmp (column_key k v1) (column_key k v2))) as Hk.
  { pose proof (pullback_TotalCmp key_cmp (column_key k)) as Hp.
    destruct (String.eqb (Direction k) SortDesc); [exact (opp_TotalCmp _) | exact Hp]. }
  exact (then_TotalCmp _ (row_cmp sk)).
Qed.

Lemma at_column {E} kinds row k :
  row_has_kinds kinds row -> 0 <= column k < Z.of_nat (length kinds) ->
  exists v kd, @at_ E value row (column k) = Ok v /\ column_key k row = value_key v /\
    kinds !! Z.to_nat (column k) = Some kd /\ has_kind kd v = true.
Proof.
  intros Hr Hk. destruct (lookup_lt_is_Some_2 kinds (Z.to_nat (column k))) as [kd Hkd]; [lia|].
  destruct (Forall2_lookup_l _ _ _ _ _ Hr Hkd) as (v & Hv & Hh).
  exists v, kd. split_and!; [by apply at_Ok; split; [lia|] | | done..].
  unfold column_key. by rewrite (nth_lookup_Some _ _ _ _ Hv).
Qed.

Lemma less_rows_cmp {E} kinds sk v1 v2 :
  row_has_kinds kinds v1 -> row_has_kinds kinds v2 -> keys_in kinds sk ->
  @less_rows E sk v1 v2 = Ok (row_cmp sk v1 v2 <? 0).
Proof.
  intros H1 H2. induction 1 as [|k sk Hk Hsk IH]; [done|]. cbn [less_rows row_cmp].
  destruct (at_column (E := E) _ _ _ H1 Hk) as (a & kd & -> & -> & Ha & Hka).
  destruct (at_column (E := E) _ _ _ H2 Hk) as (b & kd' & -> & -> & Hb & Hkb).
  assert (kd' = kd) as -> by congruence. cbn [rbind]. rewrite (cmpValue_key kd) by done. cbn [rbind].
  set (c := if String.eqb (Direction k) SortDesc then _ else _).
  destruct (Z.eqb_spec c 0) as [->|]; [exact IH|].
  destruct (Z.ltb_spec c 0); [done|]. by replace (0 <? c) with true by lia.
Qed.

(** [newResultsetSorter] only looks columns up. *)
Lemma newResultsetSorter_inv r sk sk' :
  newResultsetSorter r sk = Ok sk' ->
  Forall2 (fun k k' => sk_Name k' = sk_Name k /\ Direction k' = Direction k /\
                       FieldNames r !! sk_Name k = Some (column k')) sk sk'.
Proof.
  intros H. apply rmap_Ok_Forall2 in H. eapply Forall2_impl; [exact H|]. intros k k' Hk. cbn beta in Hk.
  destruct (FieldNames r !! sk_Name k) eqn:E; [|done]. by injection Hk as <-.
Qed.

Lemma sorter_columns kinds r sk sk' :
  (forall name c, FieldNames r !! name = Some c -> 0 <= c < Z.of_nat (length kinds)) ->
  newResultsetSorter r sk = Ok sk' -> keys_in kinds sk'.
Proof.
  intros Hcols Hsk. apply newResultsetSorter_inv in Hsk. apply Forall_forall. intros k' Hk'.
  apply list_elem_of_lookup in Hk' as [i Hi]. destruct (Forall2_lookup_r _ _ _ _ _ Hsk Hi) as (k & _ & _ & _ & Hc).
  by eapply Hcols.
Qed.

Section Theorems.
Context `{GoSort}.

(** A result set whose named columns have one kind each. *)
Definition sortable (kinds : list kind) (r : Resultset) : Prop :=
  Forall (row_has_kinds kinds) (Values r) /\
  (forall name c, FieldNames r !! name = Some c -> 0 <= c < Z.of_nat (length kinds)) /\
  length (Values r) = length (RowDatas r).

Lemma Sort_sortable kinds r sk sk' :
  sortable kinds r -> newResultsetSorter r sk = Ok sk' ->
  exists r', Sort r sk = Ok r' /\
    zip (Values r') (RowDatas r') ≡ₚ zip (Values r) (RowDatas r) /\
    StronglySorted (fun x y => row_cmp sk' x y <= 0) (Values r') /\
    length (Values r') = length (RowDatas r').
Proof using Type.
  intros (Hrows & Hcols & Hlen) Hsk. unfold Sort. rewrite Hsk. cbn [rbind].
  rewrite Hlen, Nat.eqb_refl.
  assert (keys_in kinds sk') as Hin by by eapply sorter_columns.
  assert (forall x, x ∈ zip (Values r) (RowDatas r) -> row_has_kinds kinds x.1) as Hk.
  { intros [v d] Hx. apply elem_of_zip_l in Hx. rewrite Forall_forall in Hrows. by apply Hrows. }
  pose proof (pullback_TotalCmp (row_cmp sk') (fun x : list value * bytes => x.1)) as Hcmp.
  destruct (sort_Sort_sorted (E := error) (fun a b => less_rows sk' a.1 b.1)
              (fun x y : list value * bytes => row_cmp sk' x.1 y.1) (zip (Values r) (RowDatas r)) Hcmp)
    as (l' & -> & Hp & Hs).
  { intros x y Hx Hy. apply (less_rows_cmp kinds); auto. }
  cbn [rbind]. eexists. split; [done|]. cbn [Values RowDatas]. rewrite zip_fst_snd, !length_fmap.
  split; [done|]. split; [|done]. clear Hp. induction Hs as [|x l' _ IH Hx]; [constructor|].
  constructor; [done|]. by apply Forall_fmap.
Qed.

(** Sorting merged rows.  When every column that a key can name has one
    type, the rows of several tables are sorted without a panic: the pairs
    of a row and its wire form are permuted as pairs, and no row is less
    than one before it. *)
Theorem Sort_orders kinds r sk sk' (Hr : sortable kinds r) (Hsk : newResultsetSorter r sk = Ok sk') :
  exists r', Sort r sk = Ok r' /\
    Fields r' = Fields r /\ FieldNames r' = FieldNames r /\
    zip (Values r') (RowDatas r') ≡ₚ zip (Values r) (RowDatas r) /\
    forall i j, 0 <= i < j -> j < RowNumber r' -> Less (E := error) r' sk' j i = Ok false.
Proof using Type.
  destruct (Sort_sortable kinds r sk sk' Hr Hsk) as (r' & Hs & Hp & Hord & Hlen).
  exists r'. split; [exact Hs|]. unfold Sort in Hs. rewrite Hsk in Hs. cbn [rbind] in Hs.
  case_if_in Hs; [|done]. apply rbind_Ok_inv in Hs as (rows & _ & Hs). injection Hs as Hs.
  assert (Fields r' = Fields r /\ FieldNames r' = FieldNames r) as [-> ->] by (by rewrite <- Hs).
  split_and!; [done..|]. clear Hs. intros i j Hij Hj. unfold RowNumber in Hj.
  destruct (lookup_lt_is_Some_2 (Values r') (Z.to_nat i)) as [x Hx]; [lia|].
  destruct (lookup_lt_is_Some_2 (Values r') (Z.to_nat j)) as [y Hy]; [lia|].
  unfold Less. rewrite (proj2 (at_Ok _ j y)) by (split; [lia | done]). cbn [rbind].
  rewrite (proj2 (at_Ok _ i x)) by (split; [lia | done]). cbn [rbind].
  destruct Hr as (Hrows & Hcols & Hl).
  assert (forall row, row ∈ Values r' -> row_has_kinds kinds row) as Hk.
  { intros row Hin. rewrite Forall_forall in Hrows. apply Hrows.
    apply (fmap_Permutation fst) in Hp. rewrite !fst_zip in Hp by lia. by rewrite <- Hp. }
  rewrite (less_rows_cmp kinds).
  - f_equal. apply Z.ltb_ge. pose proof (StronglySorted_lookup _ _ _ _ _ _ Hord Hx Hy ltac:(lia)) as Hle; cbn beta in Hle.
    rewrite (cmp_antisym (row_cmp sk') x y). lia.
  - apply Hk. by eapply list_elem_of_lookup_2.
  - apply Hk. by eapply list_elem_of_lookup_2.
  - by eapply sorter_columns.
Qed.
End Theorems.

(** Two columns of two shards, by the first in descending order. *)
Lemma Sort_orders_witness :
  let S := insertion_GoSort in
  let r := mkResultset [] {[ "a" := 0 ]} [[VInt64 1; VNil]; [VInt64 4; VString "x"]; [VNil; VNil]] [[1]; [2]; [3]] in
  exists r', Sort r [mkSortKey "a" "desc" 0] = Ok r' /\
    Values r' = [[VInt64 4; VString "x"]; [VInt64 1; VNil]; [VNil; VNil]] /\ RowDatas r' = [[2]; [1]; [3]].
Proof.
  intros S r. destruct (Sort_orders [KInt; KString] r [mkSortKey "a" "desc" 0] [mkSortKey "a" "desc" 0])
    as (r' & Hs & _).
  - split_and!; [repeat constructor | | done]. intros name c. cbn. intros [_ <-]%lookup_singleton_Some. cbn. lia.
  - reflexivity.
  - exists r'. split; [exact Hs|]. vm_compute in Hs. injection Hs as <-. split; reflexivity.
Defined.

(** ** The types of parsed rows

    Both protocols give every column one dynamic type (or NULL), which is
    what the assertions of [cmpValue] rely on. *)
Definition has_type (k : kind) (v : value) : bool :=
  match k, v with
  | _, VNil => true
  | KString, VString _ => true
  | KBytes, VBytes _ => true
  | KInt, VInt W64 _ => true
  | KUint, VUint W64 _ => true
  | KFloat, VFloat64 _ => true
  | _, _ => false
  end.

Definition int_type (f : Field) : kind := if isUnsigned f then KUint else KInt.

Definition column_type (binary : bool) (f : Field) : kind :=
  let t := Fld_Type f in
  if type_in t text_int_types then int_type f
  else if binary then if type_in t [MYSQL_TYPE_FLOAT; MYSQL_TYPE_DOUBLE] then KFloat else KBytes
  else if type_in t text_float_types then KFloat
  else if type_in t text_string_types then KString
  else KBytes.

Lemma cmpValue_typed {E} k v1 v2 :
  has_type k v1 = true -> has_type k v2 = true -> exists c, @cmpValue E v1 v2 = Ok c.
Proof.
  destruct k, v1 as [|[]|[]| | | | |], v2 as [|[]|[]| | | | |]; try done; intros _ _; eexists; reflexivity.
Qed.

Lemma less_rows_typed {E} kinds sk v1 v2 :
  Forall2 (fun k v => has_type k v = true) kinds v1 -> Forall2 (fun k v => has_type k v = true) kinds v2 ->
  keys_in kinds sk -> exists b, @less_rows E sk v1 v2 = Ok b.
Proof.
  intros H1 H2. induction 1 as [|k sk Hk Hsk [b IH]]; [by eexists|]. cbn [less_rows].
  destruct (lookup_lt_is_Some_2 kinds (Z.to_nat (column k))) as [kd Hkd]; [lia|].
  destruct (Forall2_lookup_l _ _ _ _ _ H1 Hkd) as (a & Ha & Hta).
  destruct (Forall2_lookup_l _ _ _ _ _ H2 Hkd) as (c & Hc & Htc).
  rewrite (proj2 (at_Ok _ _ a)) by (split; [lia | done]). cbn [rbind].
  rewrite (proj2 (at_Ok _ _ c)) by (split; [lia | done]). cbn [rbind].
  destruct (cmpValue_typed (E := E) kd a c Hta Htc) as [v ->]. cbn [rbind].
  repeat case_if; by eexists.
Qed.

Section Types.
Context `{GoFloat}.

Lemma text_value_type f v x : text_value f v = Ok x -> has_type (column_type false f) x = true.
Proof using Type.
  unfold text_value, column_type, int_type. intros Hx. repeat case_if; try (by injection Hx as <-);
    apply rbind_Ok_inv in Hx as (? & _ & Hx); by injection Hx as <-.
Qed.

Lemma temporal_value_type format p pos x : temporal_value format p pos = Ok x -> has_type KBytes x.1 = true.
Proof using Type.
  unfold temporal_value. intros Hx. apply rbind_Ok_inv in Hx as ([[num isNull] n] & _ & Hx).
  destruct isNull; [by injection Hx as <-|]. apply rbind_Ok_inv in Hx as (? & _ & Hx). by injection Hx as <-.
Qed.

Lemma int_value_type f p pos k v : int_value f p pos k = Ok v -> has_type (int_type f) v = true.
Proof using Type.
  unfold int_value, int_type. intros Hx. apply rbind_Ok_inv in Hx as (? & _ & Hx). injection Hx as <-.
  by destruct (isUnsigned f).
Qed.

Lemma type_in_false t u l : type_in t (u :: l) = false -> (t =? u) = false /\ type_in t l = false.
Proof using Type. unfold type_in. cbn. by apply orb_false_iff. Qed.

Lemma binary_value_type f p pos x : binary_value f p pos = Ok x -> has_type (column_type true f) x.1 = true.
Proof using Type.
  unfold binary_value. intros Hx.
  destruct (decide (Fld_Type f ∈ [6; 1; 2; 13; 9; 3; 8; 4; 5])) as [Hin|Hout].
  - unfold column_type, int_type.
    repeat (apply elem_of_cons in Hin as [E|Hin]; [rewrite E in *; cbn in Hx |- *;
      try (by injection Hx as <-); apply rbind_Ok_inv in Hx as (? & Hv & Hx); injection Hx as <-; cbn [fst];
      try apply int_value_type in Hv; unfold int_type in *; try done; by destruct (isUnsigned f)|]).
    by apply not_elem_of_nil in Hin.
  - assert (forall t, type_in t [6; 1; 2; 13; 9; 3; 8; 4; 5] = true -> (Fld_Type f =? t) = false) as Hne.
    { intros t (z & Hz & Hq)%existsb_exists. apply Z.eqb_eq in Hq as <-. apply Z.eqb_neq. intros E.
      apply Hout. rewrite E. by apply list_elem_of_In. }
    assert (forall l, forallb (fun t => type_in t [6; 1; 2; 13; 9; 3; 8; 4; 5]) l = true ->
              type_in (Fld_Type f) l = false) as Hno.
    { intros l Hl. induction l as [|t l IH]; [done|]. cbn in Hl. apply andb_true_iff in Hl as [Ht Hl].
      unfold type_in. cbn [existsb]. rewrite (Hne t) by done. by apply IH. }
    assert (column_type true f = KBytes) as ->.
    { unfold column_type. by rewrite !Hno by reflexivity. }
    rewrite !Hne in Hx by reflexivity.
    rewrite (Hno [MYSQL_TYPE_SHORT; MYSQL_TYPE_YEAR]), (Hno [MYSQL_TYPE_INT24; MYSQL_TYPE_LONG]) in Hx by reflexivity.
    case_if_in Hx.
    { apply rbind_Ok_inv in Hx as ([[v isNull] n] & _ & Hx). injection Hx as <-. by destruct isNull. }
    repeat (case_if_in Hx; [by eapply temporal_value_type|]). done.
Qed.

Lemma text_values_type p pos f vs :
  text_values p pos f = Ok vs -> Forall2 (fun k v => has_type k v = true) (column_type false <$> f) vs.
Proof using Type.
  revert pos vs. induction f as [|fi f IH]; intros pos vs Hv; cbn [text_values] in Hv.
  { injection Hv as <-. constructor. }
  apply rbind_Ok_inv in Hv as ([[v isNull] n] & _ & Hv). apply rbind_Ok_inv in Hv as (d & Hd & Hv).
  apply rbind_Ok_inv in Hv as (data & Hdata & Hv). injection Hv as <-. constructor; [|by eapply IH].
  destruct isNull; [|by eapply text_value_type]. injection Hd as <-. by destruct (column_type false fi).
Qed.

Lemma binary_values_type p bitmap i pos f vs :
  binary_values p bitmap i pos f = Ok vs -> Forall2 (fun k v => has_type k v = true) (column_type true <$> f) vs.
Proof using Type.
  revert i pos vs. induction f as [|fi f IH]; intros i pos vs Hv; cbn [binary_values] in Hv.
  { injection Hv as <-. constructor. }
  apply rbind_Ok_inv in Hv as (null & _ & Hv). apply rbind_Ok_inv in Hv as ([d pos'] & Hd & Hv).
  apply rbind_Ok_inv in Hv as (data & Hdata & Hv). injection Hv as <-. constructor; [|by eapply IH].
  destruct null; [|by apply binary_value_type in Hd]. injection Hd as <- _. by destruct (column_type true fi).
Qed.

Lemma RowData_Parse_type p f binary vs :
  RowData_Parse p f binary = Ok vs -> Forall2 (fun k v => has_type k v = true) (column_type binary <$> f) vs.
Proof using Type.
  destruct binary; cbn [RowData_Parse]; [|apply text_values_type].
  intros Hv. apply rbind_Ok_inv in Hv as (h & _ & Hv). case_if_in Hv; [done|].
  apply rbind_Ok_inv in Hv as (b & _ & Hv). by eapply binary_values_type.
Qed.

(** C40: rows are typed by their columns.  A row that parses, in either
    protocol, has one value per column, NULL or of the dynamic type that
    the protocol and the column's definition fix; so two rows of the same
    columns, of whatever tables, are compared by any sort keys without a
    failed type assertion. *)
Theorem parsed_rows_comparable binary f p1 p2 v1 v2 sk
    (H1 : RowData_Parse p1 f binary = Ok v1) (H2 : RowData_Parse p2 f binary = Ok v2)
    (Hsk : Forall (fun k => 0 <= column k < Z.of_nat (length f)) sk) :
  Forall2 (fun k v => has_type k v = true) (column_type binary <$> f) v1 /\
  exists b, less_rows (E := error) sk v1 v2 = Ok b.
Proof using Type.
  pose proof (RowData_Parse_type _ _ _ _ H1). pose proof (RowData_Parse_type _ _ _ _ H2).
  split; [done|]. eapply less_rows_typed; [done..|]. unfold keys_in. by rewrite length_fmap.
Qed.
End Types.

(** A text row and a binary row of an integer and a text. *)
Lemma parsed_rows_comparable_witness :
  let G := {| ParseFloat s := Err (ErrStrconv "ParseFloat" s); FormatFloat _ := "";
              float_to_uint64 _ := 0; float_to_int64 _ := 0 |} in
  let f := [mkField None [] [] [] [] [] 0 0 MYSQL_TYPE_LONG 0 0 0 None;
            mkField None [] [] [] [] [] 0 0 MYSQL_TYPE_VAR_STRING 0 0 0 None] in
  RowData_Parse [2; 45; 55; 1; 120] f false = Ok [VInt64 (-7); VString "x"] /\
  (exists b, less_rows (E := error) [mkSortKey "a" "asc" 0] [VInt64 (-7); VString "x"] [VNil; VString "y"] = Ok b).
Proof.
  intros G f. split; [reflexivity|].
  refine (proj2 (parsed_rows_comparable false f [2; 45; 55; 1; 120] [251; 1; 121] _ _
                   [mkSortKey "a" "asc" 0] _ _ _)); try reflexivity.
  constructor; [cbn; lia | constructor].
Defined.
