(* ===== verification/ResultBuild.v ===== *)
(** * Result sets the proxy builds itself ([proxy/server/conn_resultset.go])

    Merged and computed rows are put back in the text protocol. *)
From S2P Require Import Prelude Errors GoLib Wire Field Resultset.
From Stdlib Require Import SpecFloat.
Open Scope Z_scope.

Section Build.
Context `{GoFloat}.

(** [formatValue] *)
Definition formatValue (v : value) : res error bytes :=
  match v with
  | VNil => Ok (bytes_of "NULL")
  | VInt _ z => Ok (bytes_of (FormatInt z))
  | VUint _ z => Ok (bytes_of (FormatUint z))
  | VFloat32 f | VFloat64 f => Ok (bytes_of (FormatFloat f))
  | VBytes b => Ok b
  | VString s => Ok (bytes_of s)
  | VOther _ => Err (Errorf ("invalid type " +:+ type_name v))
  end.

Definition set_kind (charset type flag : Z) (f : Field) : Field :=
  mkField (Data f) (Schema f) (Fld_Table f) (OrgTable f) (Name f) (OrgName f) charset (ColumnLength f)
    type flag (Decimal f) (DefaultValueLength f) (DefaultValue f).

(** [formatField] *)
Definition formatField (f : Field) (v : value) : res error Field :=
  match v with
  | VInt _ _ => Ok (set_kind 63 MYSQL_TYPE_LONGLONG (Z.lor BINARY_FLAG NOT_NULL_FLAG) f)
  | VUint _ _ =>
      Ok (set_kind 63 MYSQL_TYPE_LONGLONG (Z.lor (Z.lor BINARY_FLAG NOT_NULL_FLAG) UNSIGNED_FLAG) f)
  | VFloat32 _ | VFloat64 _ => Ok (set_kind 63 MYSQL_TYPE_DOUBLE (Z.lor BINARY_FLAG NOT_NULL_FLAG) f)
  | VString _ | VBytes _ => Ok (set_kind 33 MYSQL_TYPE_VAR_STRING (Flag f) f)
  | VNil | VOther _ => Err (Errorf ("unsupport type " +:+ type_name v +:+ " for resultset"))
  end.

Definition empty_field : Field := mkField None [] [] [] [] [] 0 0 0 0 0 0 None.
Definition named_field (name : bytes) : Field :=
  mkField None [] [] [] name [] 0 0 0 0 0 0 None.

(** The columns, from the database when it gave them, else from the names
    and the values of the first row. *)
Fixpoint build_fields (fields : list Field) (names : list string) (vs : list value) : res error (list Field) :=
  match names, vs with
  | name :: names, v :: vs =>
      let* f := match fields with
                | f :: _ => Ok f
                | [] => formatField (named_field (bytes_of name)) v
                end in
      let* l := build_fields (tail fields) names vs in
      Ok (f :: l)
  | _, _ => Ok []
  end.

(** [r.FieldNames[string(name)] = j], in order. *)
Fixpoint field_names (j : Z) (fields : list Field) (m : gmap string Z) : gmap string Z :=
  match fields with
  | [] => m
  | f :: fields => field_names (j + 1) fields (<[string_of (Name f) := j]> m)
  end.

Definition build_row (vs : list value) : res error bytes :=
  let* l := rmap (fun v => let* b := formatValue v in Ok (PutLengthEncodedString b)) vs in
  Ok (concat l).

(** The loop over the rows, from row [i]; the first row also makes the
    columns, between its values. *)
Fixpoint build_rows (i n : Z) (values : list (list value)) : res error (list bytes) :=
  match values with
  | [] => Ok []
  | vs :: values =>
      if negb (Z.of_nat (length vs) =? n)
      then Err (Errorf ("row " +:+ FormatInt i +:+ " has " +:+ FormatInt (Z.of_nat (length vs)) +:+
                        " column not equal " +:+ FormatInt n))
      else
        let* row := build_row vs in
        let* rows := build_rows (i + 1) n values in
        Ok (row :: rows)
  end.

(** [buildResultset].  Without rows the code leaves every column nil and
    the first use of one panics: here the build panics.  Only the help for
    the administrator asks for it, when its file is empty. *)
Definition buildResultset (fields : list Field) (names : list string) (values : list (list value))
  : res error Resultset :=
  if negb (Nat.eqb (length fields) 0) && negb (Nat.eqb (length names) (length fields))
  then Err ErrInvalidArgument
  else
    match values with
    | [] => match names with
            | [] => Ok (mkResultset [] ∅ [] [])
            | _ => Panic (PRuntime "nil pointer dereference")
            end
    | vs :: _ =>
        let n := Z.of_nat (length names) in
        let* first := (if Z.of_nat (length vs) =? n then build_fields fields names vs else Ok []) in
        let* rows := build_rows 0 n values in
        Ok (mkResultset first (field_names 0 first ∅) values rows)
    end.
End Build.

(** ** What a client reads back *)
Lemma string_of_bytes_of s : string_of (bytes_of s) = s.
Proof.
  unfold string_of, bytes_of. rewrite <- list_fmap_compose.
  induction s as [|c s IH]; [done|]. cbn. f_equal; [apply char_of_byte_of | exact IH].
Qed.


(** A value that a column made for [v0] can carry. *)
Definition carries (v0 v : value) : Prop :=
  match v0, v with
  | VInt _ _, VInt W64 z => in_i64 z
  | VUint _ _, VUint W64 z => in_u64 z
  | VString _, VString s => slen s < 2 ^ 63 - 9
  | _, _ => False
  end.

Section Laws.
Context `{GoFloat}.

(** [formatValue] and [text_value] of a column made by [formatField]. *)
Lemma text_value_format v0 v name f b :
  carries v0 v -> formatField (named_field name) v0 = Ok f -> formatValue v = Ok b ->
  text_value f b = Ok v /\ name_wf b.
Proof using Type.
  assert (forall t, slen t < 2 ^ 63 - 9 -> name_wf (bytes_of t)) as Hwf.
  { intros t Ht. split; [apply bytes_of_bytes|]. unfold blen, bytes_of. rewrite length_fmap.
    replace (length (String.list_ascii_of_string t)) with (String.length t); [done|].
    clear. induction t; cbn; congruence. }
  assert (forall z, - 2 ^ 64 < z < 2 ^ 64 -> slen (FormatInt z) < 2 ^ 63 - 9) as Hlen.
  { intros z Hz. apply FormatInt_slen in Hz. lia. }
  intros Hc Hf Hb. destruct v0 as [|w0 z0|w0 z0| | |s0| |], v as [|[]|[]| | | | |]; try done;
    cbn [formatField] in Hf; cbn [formatValue] in Hb; injection Hf as <-; injection Hb as <-;
    cbn [carries] in Hc; unfold text_value; rewrite string_of_bytes_of.
  - rewrite ParseInt_FormatInt by done. split; [reflexivity|]. apply Hwf, Hlen. unfold in_i64 in Hc. lia.
  - rewrite ParseUint_FormatUint by done. split; [reflexivity|]. apply Hwf.
    replace (FormatUint z) with (FormatInt z) by (unfold FormatInt; unfold in_u64 in Hc; by replace (z <? 0) with false by lia).
    apply Hlen. unfold in_u64 in Hc. lia.
  - split; [reflexivity|]. by apply Hwf.
Qed.

Lemma build_row_parse v0s vs names fields row pre :
  Forall2 carries v0s vs -> build_fields [] names v0s = Ok fields -> length names = length v0s ->
  build_row vs = Ok row ->
  exists bs, row = strs bs /\ Forall name_wf bs /\
    (Forall name_wf pre -> text_values (strs (pre ++ bs)) (blen (strs pre)) fields = Ok vs).
Proof using Type.
  intros Hc. revert names fields row pre. induction Hc as [|v0 v v0s vs Hv Hvs IH]; intros names fields row pre Hf Hn Hr.
  { destruct names; [|done]. injection Hf as <-. injection Hr as <-. exists []. split; [done|].
    split; [constructor | done]. }
  destruct names as [|name names]; [done|]. cbn [build_fields] in Hf.
  apply rbind_Ok_inv in Hf as (f & Hf0 & Hf). apply rbind_Ok_inv in Hf as (fs & Hfs & [= <-]).
  unfold build_row in Hr. cbn [rmap] in Hr. apply rbind_Ok_inv in Hr as (l & Hl & [= <-]).
  apply rbind_Ok_inv in Hl as (b' & Hb & Hl). apply rbind_Ok_inv in Hb as (b & Hb & [= <-]).
  apply rbind_Ok_inv in Hl as (l' & Hl & [= <-]).
  destruct (text_value_format v0 v (bytes_of name) f b Hv Hf0 Hb) as [Htv Hwf].
  destruct (IH names fs (concat l') (pre ++ [b])) as (bs & Hbs & Hwfs & Hread);
    [exact Hfs | by injection Hn | unfold build_row; by rewrite Hl |].
  exists (b :: bs). cbn [concat]. rewrite Hbs. split; [done|]. split; [by constructor|]. intros Hpre.
  cbn [text_values]. rewrite (strs_at _ [] pre b bs);
    [| by rewrite app_nil_r | by apply Forall_app; split; [|constructor] | constructor].
  cbn [rbind]. rewrite Htv. cbn [rbind]. rewrite Zplus_minus.
  rewrite (cons_middle b pre bs), app_assoc, Hread; [done|]. apply Forall_app. by rewrite Forall_singleton.
Qed.

Lemma build_rows_inv i n values rows :
  build_rows i n values = Ok rows ->
  Forall2 (fun vs row => Z.of_nat (length vs) = n /\ build_row vs = Ok row) values rows.
Proof using Type.
  revert i rows. induction values as [|vs values IH]; intros i rows E; cbn [build_rows] in E.
  - injection E as <-. constructor.
  - destruct (Z.eqb_spec (Z.of_nat (length vs)) n) as [Hn|]; [|done]. cbn [negb] in E.
    apply rbind_Ok_inv in E as (row & Hrow & E). apply rbind_Ok_inv in E as (rows' & Hrows & [= <-]).
    constructor; [done|]. by eapply IH.
Qed.

(** Computed result sets read back: the rows the proxy encodes for a
    result set it makes itself are parsed by the text protocol, with the
    columns it sends, to exactly the values it was given, as long as every
    row has the integer, unsigned and string types of the first and no
    NULL. *)
Theorem buildResultset_roundtrip names vs values r
    (Hb : buildResultset [] names (vs :: values) = Ok r)
    (Hc : Forall (Forall2 carries vs) (vs :: values)) :
  Values r = vs :: values /\
  Forall2 (fun row data => ParseText data (Fields r) = Ok row) (Values r) (RowDatas r).
Proof using Type.
  unfold buildResultset in Hb. cbn [length Nat.eqb negb andb] in Hb.
  apply rbind_Ok_inv in Hb as (fields & Hf & Hb). apply rbind_Ok_inv in Hb as (rows & Hrows & [= <-]).
  cbn [Values Fields RowDatas]. split; [done|]. apply build_rows_inv in Hrows.
  assert (Z.of_nat (length vs) = Z.of_nat (length names)) as Hn by (by inversion Hrows as [|? ? ? ? [? _]]).
  rewrite Hn, Z.eqb_refl in Hf.
  apply Forall2_same_length_lookup_2; [by eapply Forall2_length|]. intros k row data Hrow Hdata.
  destruct (Forall2_lookup_lr _ _ _ _ _ _ Hrows Hrow Hdata) as [_ Hbuild].
  rewrite Forall_forall in Hc. specialize (Hc row ltac:(by eapply list_elem_of_lookup_2)).
  destruct (build_row_parse vs row names fields data [] Hc Hf ltac:(lia) Hbuild) as (bs & -> & _ & Hread).
  apply Hread. constructor.
Qed.

(** NULL does not survive: a NULL among merged values is sent as the
    four letters NULL, so that in an integer column the row no longer
    parses, in a text column it reads as that text, and in no column as
    NULL. *)
Theorem null_becomes_text (f : Field) :
  (let* row := build_row [VNil] in ParseText row [f]) =
  (if type_in (Fld_Type f) text_int_types
   then Err (ErrStrconv (if isUnsigned f then "ParseUint" else "ParseInt") "NULL")
   else if type_in (Fld_Type f) text_float_types then let* x := ParseFloat "NULL" in Ok [VFloat64 x]
   else if type_in (Fld_Type f) text_string_types then Ok [VString "NULL"]
   else Ok [VBytes (bytes_of "NULL")]).
Proof using Type.
  change (build_row [VNil]) with (@Ok error bytes [4; 78; 85; 76; 76]). cbn [rbind].
  unfold ParseText. cbn [text_values].
  change (lenenc_at [4; 78; 85; 76; 76] 0) with (@Ok error _ ([78; 85; 76; 76], false, 5)). cbn [rbind].
  unfold text_value. change (string_of [78; 85; 76; 76]) with "NULL".
  repeat case_if; try reflexivity. by destruct (ParseFloat "NULL").
Qed.
End Laws.

(** A concrete float library, for the witnesses. *)
Definition no_floats : GoFloat := {|
  ParseFloat s := Err (ErrStrconv "ParseFloat" s);
  FormatFloat f := match f with S754_nan => "NaN" | _ => "0" end;
  float_to_uint64 f := 0;
  float_to_int64 f := 0
|}.

Lemma buildResultset_roundtrip_witness :
  let G := no_floats in
  exists r, buildResultset [] ["a"; "b"] [[VInt64 7; VString "x"]; [VInt64 (-1); VString "y"]] = Ok r /\
    Values r = [[VInt64 7; VString "x"]; [VInt64 (-1); VString "y"]].
Proof.
  intros G. eexists. split; [reflexivity|].
  refine (proj1 (buildResultset_roundtrip ["a"; "b"] [VInt64 7; VString "x"] [[VInt64 (-1); VString "y"]] _ eq_refl _)).
  repeat constructor; vm_compute; (done || congruence).
Defined.
