(* ===== verification/SelectMerge.v ===== *)
(** * Merging the results of the shards ([proxy/server/conn_select.go],
      [mergeExecResult] and [newEmptyResultset] of [conn_query.go])

    A sharded SELECT runs once per table; the proxy concatenates the rows,
    or computes the aggregate functions over them, or merges the groups,
    then sorts and cuts.  Nothing here keeps a reference to a row it
    changes, other than the map of groups, so rows are values.  A result
    may be missing ([nil]). *)
From S2P Require Import Prelude Errors GoLib Wire Field Order Resultset ResultsetSort ResultBuild RouteLists.
From S2P Require Import SqlTypes Token Ast.
From Stdlib Require Import SpecFloat.
Open Scope Z_scope.

Definition nil_deref {E A} : res E A := Panic (PRuntime "nil pointer dereference").

Definition the_result (r : option Result) : res error Result :=
  match r with Some r => Ok r | None => nil_deref end.
Definition the_set (r : option Result) : res error Resultset :=
  let* r := the_result r in
  match Res_set r with Some s => Ok s | None => nil_deref end.

(** [l[i] = v] *)
Definition set_at {E A} (l : list A) (i : Z) (v : A) : res E (list A) :=
  if (0 <=? i) && (i <? Z.of_nat (length l)) then Ok (<[Z.to_nat i := v]> l)
  else Panic (PRuntime "index out of range").

(** ** Aggregate functions *)
Section Functions.
Context `{GoFloat}.

(** [for _, r := range rs { for k := range r.Values { result, err :=
    r.GetValue(k, index) ... } }] with the state [s]. *)
Definition fold_column {S} (f : S -> value -> res error S) (rs : list (option Result)) (index : Z) (s : S)
  : res error S :=
  rfold (fun s r =>
           let* r := the_set r in
           rfold (fun s k => let* result := GetValue r k index in f s result) s (seqZ 0 (RowNumber r)))
        s rs.

Record sum_state := mkSum { sumf : float64; sumi : Z; IsInt : bool }.

Definition sum_step (s : sum_state) (result : value) : res error sum_state :=
  match result with
  | VNil => Ok s
  | VInt (WInt | W32 | W64) v => Ok (mkSum (sumf s) (i64 (sumi s + v)) true)
  | VFloat32 v | VFloat64 v => Ok (mkSum (SFadd 53 1024 (sumf s) v) (sumi s) (IsInt s))
  | VBytes v =>
      let* tmp := ParseFloat (string_of v) in
      Ok (mkSum (SFadd 53 1024 (sumf s) tmp) (sumi s) (IsInt s))
  | _ => Err ErrSumColumnType
  end.

Definition getSumFuncExprValue (rs : list (option Result)) (index : Z) : res error value :=
  let* s := fold_column sum_step rs index (mkSum (S754_zero false) 0 false) in
  Ok (if IsInt s then VInt64 (sumi s) else VFloat64 (sumf s)).

(** The first value that is not NULL. *)
Fixpoint first_in_rows (r : Resultset) (index : Z) (ks : list Z) : res error value :=
  match ks with
  | [] => Ok VNil
  | k :: ks =>
      let* result := GetValue r k index in
      if is_nil result then first_in_rows r index ks else Ok result
  end.
Fixpoint first_not_null (rs : list (option Result)) (index : Z) : res error value :=
  match rs with
  | [] => Ok VNil
  | r :: rs =>
      let* s := the_set r in
      let* v := first_in_rows s index (seqZ 0 (RowNumber s)) in
      if is_nil v then first_not_null rs index else Ok v
  end.

(** [better a b] on two values of the type of [b]; [a.(T)] panics for
    another type; values of other types are passed over. *)
Definition extremum_step (less : bool) (best result : value) : res error value :=
  let pick (b : bool) := Ok (if b then result else best) in
  match result with
  | VInt W64 v => match best with
                  | VInt W64 m => pick (if less then v <? m else m <? v)
                  | _ => assert_panic best "int64"
                  end
  | VUint W64 v => match best with
                   | VUint W64 m => pick (if less then v <? m else m <? v)
                   | _ => assert_panic best "uint64"
                   end
  | VFloat64 v => match best with
                  | VFloat64 m => pick (if less then SFltb v m else SFltb m v)
                  | _ => assert_panic best "float64"
                  end
  | VString v => match best with
                 | VString m => pick (if less then string_ltb v m else string_ltb m v)
                 | _ => assert_panic best "string"
                 end
  | _ => Ok best
  end.

Definition getMaxFuncExprValue (rs : list (option Result)) (index : Z) : res error value :=
  let* max := first_not_null rs index in
  fold_column (extremum_step false) rs index max.
Definition getMinFuncExprValue (rs : list (option Result)) (index : Z) : res error value :=
  let* min := first_not_null rs index in
  fold_column (extremum_step true) rs index min.

(** The counts of the shards are added up; missing results are skipped. *)
Definition count_value (rs : list (option Result)) (index : Z) : res error value :=
  match rs with
  | [] => Ok VNil
  | _ =>
      let* num := rfold (fun num r =>
          match r with
          | None => Ok num
          | Some _ =>
              let* r := the_set r in
              rfold (fun num k => let* result := GetInt r k index in Ok (i64 (num + result)))
                    num (seqZ 0 (RowNumber r))
          end) 0 rs in
      Ok (VInt64 num)
  end.

(** [calFuncExprValue]; [lastInsertId] is the connection's. *)
Definition calFuncExprValue (lastInsertId : Z) (funcName : string) (rs : list (option Result)) (index : Z)
  : res error value :=
  let f := ToLower funcName in
  if String.eqb f "count" then count_value rs index
  else if String.eqb f "sum" then getSumFuncExprValue rs index
  else if String.eqb f "max" then getMaxFuncExprValue rs index
  else if String.eqb f "min" then getMinFuncExprValue rs index
  else if String.eqb f "last_insert_id" then Ok (VInt64 lastInsertId)
  else first_not_null rs index.
End Functions.

(** ** Parts of the statement *)
Definition funcNameMap (name : string) : bool :=
  existsb (String.eqb name) ["sum"; "count"; "max"; "min"; "last_insert_id"].

(** [getFuncExprs]: the functions by their place in the select list. *)
Fixpoint func_exprs (i : Z) (l : list SelectExpr) : gmap Z string :=
  match l with
  | [] => ∅
  | expr :: l =>
      let rest := func_exprs (i + 1) l in
      match expr with
      | NonStarExpr (EVal (FuncExpr name _ _)) _ =>
          if funcNameMap (ToLower name) then <[i := ToLower name]> rest else rest
      | _ => rest
      end
  end.
Definition getFuncExprs (stmt : select) : gmap Z string := func_exprs 0 (Sel_Exprs stmt).

(** [newEmptyResultset] *)
Definition empty_column (expr : SelectExpr) : res error Field :=
  match expr with
  | StarExpr _ => Ok (named_field (bytes_of "*"))
  | NonStarExpr e as_ =>
      let* text := node_String (Expr_Format e) in
      Ok (match as_ with
          | Some a => mkField None [] [] [] (bytes_of a) (bytes_of text) 0 0 0 0 0 0 None
          | None => named_field (bytes_of text)
          end)
  end.
Definition newEmptyResultset (stmt : select) : res error Resultset :=
  let* fields := rmap empty_column (Sel_Exprs stmt) in
  Ok (mkResultset fields ∅ [] []).

(** [range] over a map with string keys, in an unspecified order. *)
Class StrMapOrder := {
  range_strings : gset string -> list string;
  range_strings_perm : forall s, range_strings s ≡ₚ elements s
}.
#[export] Instance default_string_order : StrMapOrder :=
  {| range_strings s := elements s; range_strings_perm s := Permutation_refl _ |}.

(** [ResultRow]: a row, typed and as it came. *)
Abbreviation ResultRow := (list value * bytes)%type.

Section Merge.
Context `{GoFloat} `{GoSort} `{MapOrder} `{StrMapOrder}.
Context (lastInsertId status : Z).

(** ** Without GROUP BY *)

(** [buildFuncExprValues]: one row, made from the first row of the first
    result, or of NULLs. *)
Definition set_values (row : list value) (funcExprValues : list (Z * value)) : res error (list value) :=
  rfold (fun row kv => set_at row kv.1 kv.2) row funcExprValues.
Definition buildFuncExprValues (rs0 : Resultset) (funcExprValues : list (Z * value)) : res error (list (list value)) :=
  let* row := match Values rs0 with
              | row :: _ => set_values row funcExprValues
              | [] => set_values (replicate (length (Fields rs0)) VNil) funcExprValues
              end in
  Ok [row].

Definition buildFuncExprResult (rs : list (option Result)) (funcExprs : gmap Z string) : res error Resultset :=
  let* r := (let* r0 := at_ rs 0 in the_set r0) in
  let* funcExprValues := rmap (fun index =>
      let* v := calFuncExprValue lastInsertId (default "" (funcExprs !! index)) rs index in Ok (index, v))
      (range_keys (dom funcExprs)) in
  let* values := buildFuncExprValues r funcExprValues in
  buildResultset (Fields r) ((fun f => string_of (Name f)) <$> Fields r) values.

(** The rows of the other results after those of the first. *)
Definition append_rows (r s : Resultset) : res error Resultset :=
  if Nat.leb (length (Values s)) (length (RowDatas s))
  then Ok (mkResultset (Fields r) (FieldNames r) (Values r ++ Values s)
             (RowDatas r ++ take (length (Values s)) (RowDatas s)))
  else Panic (PRuntime "index out of range").

Definition status_of (rs : list Result) : Z := foldl (fun st r => Z.lor st (Status r)) status rs.

Definition buildSelectOnlyResult (rs : list (option Result)) (stmt : select) : res error (Z * Resultset) :=
  let* r0 := (let* r0 := at_ rs 0 in the_result r0) in
  let* r := the_set (Some r0) in
  let funcExprs := getFuncExprs stmt in
  if Nat.eqb (size funcExprs) 0 then
    rfold (fun '(st, r) ri =>
             let* res := the_result ri in
             let* s := the_set ri in
             let* r := append_rows r s in
             Ok (Z.lor st (Status res), r))
          (Z.lor status (Status r0), r) (tail rs)
  else
    let* r := buildFuncExprResult rs funcExprs in
    Ok (Z.lor status (Status r0), r).

(** ** With GROUP BY *)
Definition separatorBuf : bytes := bytes_of "+".

(** [generateMapKey] *)
Definition generateMapKey (groupColumns : list value) : res error string :=
  let* l := rmap (fun v => let* b := formatValue v in Ok (b ++ separatorBuf)) groupColumns in
  Ok (string_of (concat l)).

Definition row_key (g0 : Z) (row : list value) : res error string :=
  let* keySlice := slice row g0 (Z.of_nat (length row)) in
  generateMapKey keySlice.

Definition result_rows (r : Resultset) : res error (list ResultRow) :=
  if Nat.leb (length (Values r)) (length (RowDatas r)) then Ok (zip (Values r) (RowDatas r))
  else Panic (PRuntime "index out of range").

(** [loadResultIntoMap]: the last row of a group stays. *)
Definition load_row (g0 : Z) (m : gmap string ResultRow) (row : ResultRow) : res error (gmap string ResultRow) :=
  let* mk := row_key g0 row.1 in Ok (<[mk := row]> m).

(** [loadResultWithFuncIntoMap]: a second row of a group is merged into the
    first, function by function. *)
Definition merge_funcs (fields : list Field) (funcExprs : gmap Z string) (row old : ResultRow)
  : res error ResultRow :=
  let* value := rfold (fun value funcIndex =>
      let rt := mkResultset fields ∅ [row.1; value] [row.2; old.2] in
      let* v := calFuncExprValue lastInsertId (default "" (funcExprs !! funcIndex))
                  [Some (mkResult 0 0 0 (Some rt))] funcIndex in
      set_at value funcIndex v) old.1 (range_keys (dom funcExprs)) in
  Ok (value, old.2).

Definition load_row_func (g0 : Z) (fields : list Field) (funcExprs : gmap Z string)
    (m : gmap string ResultRow) (row : ResultRow) : res error (gmap string ResultRow) :=
  let* mk := row_key g0 row.1 in
  match m !! mk with
  | Some old => let* row' := merge_funcs fields funcExprs row old in Ok (<[mk := row']> m)
  | None => Ok (<[mk := row]> m)
  end.

Definition load_results (load : gmap string ResultRow -> ResultRow -> res error (gmap string ResultRow))
    (rs : list (option Result)) : res error (gmap string ResultRow) :=
  rfold (fun m r =>
           let* s := the_set r in
           let* rows := result_rows s in
           rfold load m rows) ∅ rs.

(** [buildSelectGroupByResult]; the grouping columns are the last ones, put
    there by the rewriting of the statement, and are cut off again. *)
Definition buildSelectGroupByResult (rs : list (option Result)) (stmt : select) : res error (Z * Resultset) :=
  let* r0 := (let* r0 := at_ rs 0 in the_set r0) in
  let g0 := Z.of_nat (length (Fields r0)) - Z.of_nat (length (Sel_GroupBy stmt)) in
  let funcExprs := getFuncExprs stmt in
  let* resultMap :=
    (if Nat.eqb (size funcExprs) 0 then load_results (load_row g0) rs
     else load_results (load_row_func g0 (Fields r0) funcExprs) rs) in
  let* results := rmap the_result rs in
  let st := status_of results in
  let rows := omap (fun k => resultMap !! k) (range_strings (dom resultMap)) in
  match rows with
  | [] => let* r := newEmptyResultset stmt in Ok (st, r)
  | _ =>
      let* fields := slice (Fields r0) 0 g0 in
      let* values := rmap (fun row => slice row 0 g0) rows.*1 in
      let* r := buildResultset fields ((fun f => string_of (Name f)) <$> fields) values in
      Ok (st, r)
  end.

(** ** ORDER BY and LIMIT *)
Definition order_keys (stmt : select) : res error (list SortKey) :=
  rmap (fun '(mkOrder e direction) =>
          let* name := node_String (ValExpr_Format e) in
          Ok (mkSortKey name direction 0)) (Sel_OrderBy stmt).

Definition sortSelectResult (r : Resultset) (stmt : select) : res error Resultset :=
  match Sel_OrderBy stmt with
  | [] => Ok r
  | _ => let* sk := order_keys stmt in Sort r sk
  end.

Definition set_rows (r : Resultset) (values : list (list value)) (rows : list bytes) : Resultset :=
  mkResultset (Fields r) (FieldNames r) values rows.

Definition invalid_limit (what : string) (limit : Limit) : res error Z :=
  let* text := node_String (Limit_Format limit) in
  Err (Errorf (what +:+ text)).

Definition limit_offset (limit : Limit) : res error Z :=
  match limit with
  | mkLimit None _ => Ok 0
  | mkLimit (Some (NumVal o)) _ => ParseInt o
  | _ => invalid_limit "invalid select limit " limit
  end.
Definition limit_count (limit : Limit) : res error Z :=
  match limit with
  | mkLimit _ (NumVal o) =>
      let* count := ParseInt o in
      if count <? 0 then invalid_limit "invalid limit " limit else Ok count
  | _ => invalid_limit "invalid limit " limit
  end.

Definition limitSelectResult (r : Resultset) (stmt : select) : res error Resultset :=
  match Sel_Limit stmt with
  | None => Ok r
  | Some limit =>
      let* offset := limit_offset limit in
      let* count := limit_count limit in
      let n := RowNumber r in
      if n <? offset then Ok (set_rows r [] [])
      else
        let count := if n <? i64 (offset + count) then n - offset else count in
        let last := i64 (offset + count) in
        let* values := slice (Values r) offset last in
        let* rows := slice (RowDatas r) offset last in
        Ok (set_rows r values rows)
  end.

(** [mergeSelectResult], up to the writing of the result; an error of the
    sort is dropped and leaves the rows as they are. *)
Definition mergeSelectResult (rs : list (option Result)) (stmt : select) : res error (Z * Resultset) :=
  let* (st, r) := (match Sel_GroupBy stmt with
                   | [] => buildSelectOnlyResult rs stmt
                   | _ => buildSelectGroupByResult rs stmt
                   end) in
  let* r := match sortSelectResult r stmt with
            | Ok r => Ok r
            | Err _ => Ok r
            | Panic p => Panic p
            end in
  let* r := limitSelectResult r stmt in
  Ok (st, r).

(** [handleSimpleSelect]: only [select last_insert_id()]. *)
Definition handleSimpleSelect (exprs : list SelectExpr) : res error Resultset :=
  let* expr := at_ exprs 0 in
  match expr with
  | NonStarExpr _ as_ =>
      let name := match as_ with Some a => if String.eqb a "" then "last_insert_id()" else a
                               | None => "last_insert_id()" end in
      buildResultset [] [name] [[VString (FormatInt lastInsertId)]]
  | StarExpr _ => nil_deref
  end.
End Merge.

(** ** Merging the results of INSERT, UPDATE and DELETE *)
Definition merge_exec (r v : Result) : Result :=
  mkResult (Z.lor (Status r) (Status v))
    (if InsertId r =? 0 then InsertId v
     else if InsertId v <? InsertId r then InsertId v else InsertId r)
    (u64 (AffectedRows r + AffectedRows v)) None.

(** [mergeExecResult]: the merged result, and the last insert id and the
    affected rows the connection keeps. *)
Definition mergeExecResult (lastInsertId : Z) (rs : list (option Result)) : res error (Result * Z * Z) :=
  let* r := rfold (fun r v => let* v := the_result v in Ok (merge_exec r v)) (mkResult 0 0 0 None) rs in
  Ok (r, if 0 <? InsertId r then i64 (InsertId r) else lastInsertId, i64 (AffectedRows r)).
