(* ===== verification/StmtArgs.v ===== *)
(** * Arguments of prepared statements ([bindStmtArgs] of
      [proxy/server/conn_stmt.go], [Stmt.write] of [backend/stmt.go])

    The proxy reads the arguments a client sends and writes them again for
    the server.  Both use the binary format: a bitmap of NULLs, two bytes of
    type for each argument, then the values. *)
From S2P Require Import Prelude Errors StateM GoLib Wire Field Order Resultset.
Open Scope Z_scope.

(** ** Reading *)

(** An integer of [k] bytes; [isUnsigned] is the flag 0x80 of its type. *)
Definition int_arg (isUnsigned : bool) (w : width) (k : Z) (paramValues : bytes) (pos : Z) : res error (value * Z) :=
  if blen paramValues <? pos + k then Err MyErrMalformPacket
  else
    let* n := le_at paramValues pos k in
    Ok (if isUnsigned then VUint w n else VInt w (signed k n), pos + k).

Definition string_arg_types : list Z :=
  [MYSQL_TYPE_DECIMAL; MYSQL_TYPE_NEWDECIMAL; MYSQL_TYPE_VARCHAR; MYSQL_TYPE_BIT; MYSQL_TYPE_ENUM; MYSQL_TYPE_SET;
   MYSQL_TYPE_TINY_BLOB; MYSQL_TYPE_MEDIUM_BLOB; MYSQL_TYPE_LONG_BLOB; MYSQL_TYPE_BLOB; MYSQL_TYPE_VAR_STRING;
   MYSQL_TYPE_STRING; MYSQL_TYPE_GEOMETRY; MYSQL_TYPE_DATE; MYSQL_TYPE_NEWDATE; MYSQL_TYPE_TIMESTAMP;
   MYSQL_TYPE_DATETIME; MYSQL_TYPE_TIME].

Definition arg_value (tp : Z) (isUnsigned : bool) (paramValues : bytes) (pos : Z) : res error (value * Z) :=
  if tp =? MYSQL_TYPE_NULL then Ok (VNil, pos)
  else if tp =? MYSQL_TYPE_TINY then int_arg isUnsigned W8 1 paramValues pos
  else if type_in tp [MYSQL_TYPE_SHORT; MYSQL_TYPE_YEAR] then int_arg isUnsigned W16 2 paramValues pos
  else if type_in tp [MYSQL_TYPE_INT24; MYSQL_TYPE_LONG] then int_arg isUnsigned W32 4 paramValues pos
  else if tp =? MYSQL_TYPE_LONGLONG then int_arg isUnsigned W64 8 paramValues pos
  else if tp =? MYSQL_TYPE_FLOAT then
    if blen paramValues <? pos + 4 then Err MyErrMalformPacket
    else let* n := le_at paramValues pos 4 in Ok (VFloat32 (float_of_bits 23 8 n), pos + 4)
  else if tp =? MYSQL_TYPE_DOUBLE then
    if blen paramValues <? pos + 8 then Err MyErrMalformPacket
    else let* n := le_at paramValues pos 8 in Ok (VFloat64 (float_of_bits 52 11 n), pos + 8)
  else if type_in tp string_arg_types then
    if blen paramValues <? pos + 1 then Err MyErrMalformPacket
    else
      let* p := from paramValues pos in
      let* (v, isNull, n) := LengthEnodedString p in
      Ok (if (isNull : bool) then VNil else VBytes v, pos + n)
  else Err (Errorf ("Stmt Unknown FieldType " +:+ FormatInt tp)).

(** [nullBitmap[i>>3] & (1 << (uint(i)%8)) > 0] *)
Definition arg_null (nullBitmap : bytes) (i : Z) : res error bool :=
  let* b := at_ nullBitmap (Z.shiftr i 3) in
  Ok (0 <? Z.land b (Z.shiftl 1 (i mod 8))).

(** [args[i] = v] *)
Definition set_arg (i : Z) (v : value) : ST (list value) unit := fun args =>
  if (0 <=? i) && (i <? Z.of_nat (length args)) then (<[Z.to_nat i := v]> args, Ok tt)
  else (args, Panic (PRuntime "index out of range")).

(** The loop of [bindStmtArgs]; what was bound before an error stays. *)
Fixpoint bind_args (nullBitmap paramTypes paramValues : bytes) (indexes : list Z) (pos : Z) : ST (list value) unit :=
  match indexes with
  | [] => ret tt
  | i :: indexes =>
      do! null := lift (arg_null nullBitmap i) in
      if (null : bool) then
        do! _ := set_arg i VNil in bind_args nullBitmap paramTypes paramValues indexes pos
      else
        do! tp := lift (at_ paramTypes (Z.shiftl i 1)) in
        do! flags := lift (at_ paramTypes (Z.shiftl i 1 + 1)) in
        do! (v, pos) := lift (arg_value tp (0 <? Z.land flags 0x80) paramValues pos) in
        do! _ := set_arg i v in bind_args nullBitmap paramTypes paramValues indexes pos
  end.

Definition bindStmtArgs (params : Z) (nullBitmap paramTypes paramValues : bytes) : ST (list value) unit :=
  bind_args nullBitmap paramTypes paramValues (seqZ 0 params) 0.

(** The part of the packet after the statement's id, the flag and the
    iteration count: [pos] is 9. *)
Definition bind_packet (params : Z) (data : bytes) : ST (list value) unit :=
  let nullBitmapLen := Z.shiftr (params + 7) 3 in
  if blen data <? 9 + nullBitmapLen + 1 then fail MyErrMalformPacket
  else
    do! nullBitmaps := lift (slice data 9 (9 + nullBitmapLen)) in
    let pos := 9 + nullBitmapLen in
    do! new_params_bound := lift (at_ data pos) in
    if new_params_bound =? 1 then
      let pos := pos + 1 in
      if blen data <? pos + Z.shiftl params 1 then fail MyErrMalformPacket
      else
        do! paramTypes := lift (slice data pos (pos + Z.shiftl params 1)) in
        do! paramValues := lift (from data (pos + Z.shiftl params 1)) in
        bindStmtArgs params nullBitmaps paramTypes paramValues
    else bindStmtArgs params nullBitmaps [] [].

(** ** Writing

    The bits of a float, which Go takes from its memory, are a parameter. *)
Class FloatBits := { Float32bits : float64 -> Z; Float64bits : float64 -> Z }.

Section Write.
Context `{FloatBits}.

(** The type byte, the flags byte and the bytes of an argument; integers
    are converted to unsigned ones of their width. *)
Definition write_arg (v : value) : res error (Z * Z * bytes) :=
  match v with
  | VNil => Ok (MYSQL_TYPE_NULL, 0, [])
  | VInt W8 n => Ok (MYSQL_TYPE_TINY, 0, [u8 n])
  | VInt W16 n => Ok (MYSQL_TYPE_SHORT, 0, Uint16ToBytes n)
  | VInt W32 n => Ok (MYSQL_TYPE_LONG, 0, Uint32ToBytes n)
  | VInt (W64 | WInt) n => Ok (MYSQL_TYPE_LONGLONG, 0, Uint64ToBytes n)
  | VUint W8 n => Ok (MYSQL_TYPE_TINY, 0x80, [n])
  | VUint W16 n => Ok (MYSQL_TYPE_SHORT, 0x80, Uint16ToBytes n)
  | VUint W32 n => Ok (MYSQL_TYPE_LONG, 0x80, Uint32ToBytes n)
  | VUint (W64 | WInt) n => Ok (MYSQL_TYPE_LONGLONG, 0x80, Uint64ToBytes n)
  | VFloat32 f => Ok (MYSQL_TYPE_FLOAT, 0, Uint32ToBytes (Float32bits f))
  | VFloat64 f => Ok (MYSQL_TYPE_DOUBLE, 0, Uint64ToBytes (Float64bits f))
  | VString v => Ok (MYSQL_TYPE_STRING, 0, PutLengthEncodedString (bytes_of v))
  | VBytes v => Ok (MYSQL_TYPE_STRING, 0, PutLengthEncodedString v)
  | VOther name => Err (Errorf ("invalid argument type " +:+ name))
  end.

(** [nullBitmap[i/8] |= (1 << (uint(i) % 8))] *)
Definition set_null (nullBitmap : bytes) (i : Z) : bytes :=
  alter (fun b => Z.lor b (Z.shiftl 1 (i mod 8))) (Z.to_nat (i / 8)) nullBitmap.

(** The loop over the arguments: the bitmap, the types and the values. *)
Fixpoint write_args (i : Z) (args : list value) (nullBitmap : bytes) : res error (bytes * bytes * bytes) :=
  match args with
  | [] => Ok (nullBitmap, [], [])
  | v :: args =>
      let* (tp, flags, b) := write_arg v in
      let* (nullBitmap, types, values) :=
        write_args (i + 1) args (if is_nil v then set_null nullBitmap i else nullBitmap) in
      Ok (nullBitmap, tp :: flags :: types, b ++ values)
  end.

Definition COM_STMT_EXECUTE : Z := 0x17.

(** [Stmt.write]: the packet that executes the statement [id]. *)
Definition Stmt_write (id params : Z) (args : list value) : res error bytes :=
  if negb (Z.of_nat (length args) =? params)
  then Err (Errorf ("argument mismatch, need " +:+ FormatInt params +:+ " but got " +:+ FormatInt (Z.of_nat (length args))))
  else
    let* (nullBitmap, paramTypes, paramValues) := write_args 0 args (replicate (Z.to_nat (Z.shiftr (params + 7) 3)) 0) in
    let newParamBoundFlag := if forallb is_nil args then 0 else 1 in
    Ok ([COM_STMT_EXECUTE] ++ put_le 4 id ++ [0] ++ [1; 0; 0; 0] ++
        (if 0 <? params
         then nullBitmap ++ [newParamBoundFlag] ++ (if newParamBoundFlag =? 1 then paramTypes ++ paramValues else [])
         else [])).
End Write.
