(* ===== verification/ArgsTheorems.v ===== *)
(** * Arguments survive the proxy

    What the proxy writes to a server as the arguments of a statement is
    what it would read from a client. *)
From S2P Require Import Prelude Errors StateM GoLib Wire Field Order Resultset StmtArgs.
Open Scope Z_scope.

Section Roundtrip.
Context `{FloatBits}.

(** An argument the wire can carry. *)
Definition bits_in (w : width) : Z := match w with W8 => 8 | W16 => 16 | W32 => 32 | W64 | WInt => 64 end.
Definition arg_ok (v : value) : Prop :=
  match v with
  | VNil => True
  | VInt w n => - 2 ^ (bits_in w - 1) <= n < 2 ^ (bits_in w - 1)
  | VUint w n => 0 <= n < 2 ^ bits_in w
  | VFloat32 f => 0 <= Float32bits f < 2 ^ 32 /\ float_of_bits 23 8 (Float32bits f) = f
  | VFloat64 f => 0 <= Float64bits f < 2 ^ 64 /\ float_of_bits 52 11 (Float64bits f) = f
  | VString v => slen v < 2 ^ 63 - 9
  | VBytes v => Forall is_byte v /\ blen v < 2 ^ 63 - 9
  | VOther _ => False
  end.

(** How it is read: an [int] has 64 bits and a string is bytes. *)
Definition as_read (v : value) : value :=
  match v with
  | VInt WInt n => VInt W64 n
  | VUint WInt n => VUint W64 n
  | VString v => VBytes (bytes_of v)
  | v => v
  end.

Lemma signed_mod k n : 0 < k -> - 2 ^ (8 * k - 1) <= n < 2 ^ (8 * k - 1) -> signed k (n mod 256 ^ k) = n.
Proof.
  intros Hk Hn. unfold signed. replace (256 ^ k) with (2 ^ (8 * k)) by (by rewrite Z.pow_mul_r by lia).
  assert (2 ^ (8 * k) = 2 * 2 ^ (8 * k - 1)) as Hp.
  { rewrite <- Z.pow_succ_r by lia. f_equal. lia. }
  rewrite Hp. destruct (Z.ltb_spec n 0).
  - rewrite <- (Z.mod_unique n (2 * 2 ^ (8 * k - 1)) (-1) (n + 2 * 2 ^ (8 * k - 1))) by lia.
    rewrite (proj2 (Z.ltb_ge _ _)) by lia. lia.
  - rewrite Z.mod_small by lia. rewrite (proj2 (Z.ltb_lt _ _)) by lia. done.
Qed.

Lemma int_arg_put u w k n pre rest :
  0 < k ->
  int_arg u w k (pre ++ put_le k n ++ rest) (blen pre) =
    Ok (if u then VUint w (n mod 256 ^ k) else VInt w (signed k (n mod 256 ^ k)), blen pre + k).
Proof.
  intros Hk. unfold int_arg. rewrite !blen_app, blen_put_le by lia.
  rewrite (proj2 (Z.ltb_ge _ _)) by (pose proof (blen_nonneg rest); lia).
  rewrite le_at_mid by (rewrite ?blen_put_le; lia). rewrite le_or_put_le by lia. by destruct u.
Qed.

Lemma u8_put_le n : [u8 n] = put_le 1 n.
Proof. reflexivity. Qed.

Lemma string_arg v pre rest :
  Forall is_byte v -> Forall is_byte rest -> blen v < 2 ^ 63 - 9 ->
  arg_value MYSQL_TYPE_STRING false (pre ++ PutLengthEncodedString v ++ rest) (blen pre) =
    Ok (VBytes v, blen pre + blen (PutLengthEncodedString v)).
Proof.
  intros Hv Hr Hl. destruct (read_PutLengthEncodedString v rest Hv Hr Hl) as [Hread _].
  change (arg_value MYSQL_TYPE_STRING false ?l ?p) with
    (if blen l <? p + 1 then Err MyErrMalformPacket
     else let* q := from l p in let* (v, isNull, n) := LengthEnodedString q in
          Ok (if (isNull : bool) then VNil else VBytes v, p + n)).
  assert (1 <= blen (PutLengthEncodedString v)) as H1.
  { unfold PutLengthEncodedString. rewrite blen_app. pose proof (blen_nonneg v).
    assert (1 <= blen (PutLengthEncodedInt (blen v))); [|lia]. unfold PutLengthEncodedInt.
    repeat case_if; rewrite ?blen_cons;
      first [lazymatch goal with |- _ <= 1 + blen ?b => pose proof (blen_nonneg b); lia end | lia]. }
  rewrite !blen_app, (proj2 (Z.ltb_ge _ _)) by (pose proof (blen_nonneg rest); lia).
  rewrite from_app by done. cbn [rbind]. by rewrite Hread.
Qed.

(** Every kind of argument is read as it was written. *)
Lemma arg_value_written v tp flags b pre rest :
  Forall is_byte rest -> arg_ok v -> write_arg v = Ok (tp, flags, b) -> is_nil v = false ->
  arg_value tp (0 <? Z.land flags 0x80) (pre ++ b ++ rest) (blen pre) = Ok (as_read v, blen pre + blen b).
Proof.
  assert (forall u l p,
    arg_value MYSQL_TYPE_TINY u l p = int_arg u W8 1 l p /\ arg_value MYSQL_TYPE_SHORT u l p = int_arg u W16 2 l p /\
    arg_value MYSQL_TYPE_LONG u l p = int_arg u W32 4 l p /\ arg_value MYSQL_TYPE_LONGLONG u l p = int_arg u W64 8 l p) as Hint
    by (intros u l p; split_and!; reflexivity).
  intros Hr Hok Hw Hn. destruct v as [|w n|w n|f|f|str|bs|]; try done; cbn in Hok.
  - destruct w; injection Hw as <- <- <-; rewrite ?u8_put_le; unfold Uint16ToBytes, Uint32ToBytes, Uint64ToBytes;
      rewrite blen_put_le by lia; rewrite (proj1 (Hint _ _ _)) || rewrite (proj1 (proj2 (Hint _ _ _)))
        || rewrite (proj1 (proj2 (proj2 (Hint _ _ _)))) || rewrite (proj2 (proj2 (proj2 (Hint _ _ _))));
      rewrite int_arg_put by lia; cbn [as_read]; (rewrite signed_mod; [done | lia | exact Hok]).
  - assert (forall k, n < 256 ^ k -> n mod 256 ^ k = n) as Hm by (intros k Hk; apply Z.mod_small; lia).
    destruct w; injection Hw as <- <- <-; [replace [n] with (put_le 1 n) by (rewrite <- u8_put_le; f_equal; by apply Z.mod_small)|..];
      unfold Uint16ToBytes, Uint32ToBytes, Uint64ToBytes;
      rewrite blen_put_le by lia; rewrite (proj1 (Hint _ _ _)) || rewrite (proj1 (proj2 (Hint _ _ _)))
        || rewrite (proj1 (proj2 (proj2 (Hint _ _ _)))) || rewrite (proj2 (proj2 (proj2 (Hint _ _ _))));
      rewrite int_arg_put by lia; cbn [as_read]; (rewrite Hm; [done | apply Hok]).
  - injection Hw as <- <- <-. unfold Uint32ToBytes. rewrite blen_put_le by lia.
    change (arg_value MYSQL_TYPE_FLOAT ?u ?l ?p) with (if blen l <? p + 4 then Err MyErrMalformPacket
      else let* n := le_at l p 4 in @Ok error _ (VFloat32 (float_of_bits 23 8 n), p + 4)).
    rewrite !blen_app, blen_put_le by lia. rewrite (proj2 (Z.ltb_ge _ _)) by (pose proof (blen_nonneg rest); lia).
    rewrite le_at_mid by (rewrite ?blen_put_le; lia). rewrite le_or_put_le by lia. cbn [rbind].
    rewrite Z.mod_small by (apply Hok). cbn [as_read]. by rewrite (proj2 Hok).
  - injection Hw as <- <- <-. unfold Uint64ToBytes. rewrite blen_put_le by lia.
    change (arg_value MYSQL_TYPE_DOUBLE ?u ?l ?p) with (if blen l <? p + 8 then Err MyErrMalformPacket
      else let* n := le_at l p 8 in @Ok error _ (VFloat64 (float_of_bits 52 11 n), p + 8)).
    rewrite !blen_app, blen_put_le by lia. rewrite (proj2 (Z.ltb_ge _ _)) by (pose proof (blen_nonneg rest); lia).
    rewrite le_at_mid by (rewrite ?blen_put_le; lia). rewrite le_or_put_le by lia. cbn [rbind].
    rewrite Z.mod_small by (apply Hok). cbn [as_read]. by rewrite (proj2 Hok).
  - injection Hw as <- <- <-. apply string_arg; [apply bytes_of_bytes | done | by rewrite blen_bytes_of].
  - injection Hw as <- <- <-. destruct Hok. by apply string_arg.
Qed.

(** ** The bitmap of NULLs *)
Definition bitmap_bit (bm : bytes) (i : Z) : bool := Z.testbit (nth (Z.to_nat (i / 8)) bm 0) (i mod 8).

Lemma land_shiftl_1 b k : 0 <= k -> (0 <? Z.land b (Z.shiftl 1 k)) = Z.testbit b k.
Proof.
  intros Hk. rewrite Z.shiftl_1_l. destruct (Z.testbit b k) eqn:Hb.
  - assert (Z.land b (2 ^ k) = 2 ^ k) as ->; [|apply Z.ltb_lt; lia].
    apply Z.bits_inj'. intros n Hn. rewrite Z.land_spec, Z.pow2_bits_eqb by lia.
    destruct (Z.eqb_spec k n) as [->|]; [by rewrite Hb | by rewrite andb_false_r].
  - assert (Z.land b (2 ^ k) = 0) as ->; [|done].
    apply Z.bits_inj'. intros n Hn. rewrite Z.land_spec, Z.pow2_bits_eqb, Z.bits_0 by lia.
    destruct (Z.eqb_spec k n) as [->|]; [by rewrite Hb | by rewrite andb_false_r].
Qed.

Lemma arg_null_bit bm i : 0 <= i -> i / 8 < blen bm -> arg_null bm i = Ok (bitmap_bit bm i).
Proof.
  intros Hi Hl. unfold arg_null, bitmap_bit. rewrite Z.shiftr_div_pow2 by lia. change (2 ^ 3) with 8.
  assert (0 <= i / 8) by (apply Z.div_pos; lia).
  rewrite (proj2 (at_Ok bm (i / 8) (nth (Z.to_nat (i / 8)) bm 0))).
  - cbn [rbind]. by rewrite land_shiftl_1 by (apply Z.mod_pos_bound; lia).
  - split; [done|]. destruct (lookup_lt_is_Some_2 bm (Z.to_nat (i / 8))) as [b Hb]; [unfold blen in Hl; lia|].
    by rewrite (nth_lookup_Some _ _ _ _ Hb).
Qed.

Lemma bitmap_set_null bm i j :
  0 <= i -> 0 <= j -> i / 8 < blen bm -> bitmap_bit (set_null bm i) j = bitmap_bit bm j || (i =? j).
Proof.
  intros Hi Hj Hl. unfold bitmap_bit, set_null.
  assert (0 <= i / 8) by (apply Z.div_pos; lia). assert (0 <= j / 8) by (apply Z.div_pos; lia).
  pose proof (Z.mod_pos_bound i 8 ltac:(lia)). pose proof (Z.mod_pos_bound j 8 ltac:(lia)).
  rewrite !nth_lookup. destruct (Z.eq_dec (i / 8) (j / 8)) as [Heq|Hne].
  - rewrite <- Heq. unfold bytes in *. rewrite list_lookup_alter_eq.
    destruct (lookup_lt_is_Some_2 bm (Z.to_nat (i / 8))) as [b ->]; [unfold blen in Hl; lia|]. cbn.
    rewrite Z.lor_spec, Z.shiftl_1_l, Z.pow2_bits_eqb by lia. f_equal.
    destruct (Z.eqb_spec i j) as [->|]; [by rewrite Z.eqb_refl|]. apply Z.eqb_neq.
    intros Hm. pose proof (Z.div_mod i 8). pose proof (Z.div_mod j 8). lia.
  - unfold bytes in *. rewrite list_lookup_alter_ne by lia. rewrite (proj2 (Z.eqb_neq i j)) by congruence. by rewrite orb_false_r.
Qed.

(** ** The round trip *)
Lemma write_args_total i args bm :
  Forall arg_ok args -> exists bm' types values, write_args i args bm = Ok (bm', types, values).
Proof.
  intros Hok. revert i bm. induction Hok as [|v args Hv _ IH]; intros i bm; cbn [write_args]; [eauto|].
  assert (exists x, write_arg v = Ok x) as [[[tp flags] b] ->].
  { destruct v as [|w n|w n| | | | |]; try destruct w; try done; cbn; by eexists. }
  cbn [rbind]. destruct (IH (i + 1) (if is_nil v then set_null bm i else bm)) as (bm' & types & values & ->).
  cbn [rbind]. eauto.
Qed.

Lemma write_args_bitmap i args bm bm' types values :
  write_args i args bm = Ok (bm', types, values) -> 0 <= i -> (i + Z.of_nat (length args) + 7) / 8 <= blen bm ->
  blen bm' = blen bm /\
  forall j, 0 <= j -> bitmap_bit bm' j =
    bitmap_bit bm j || ((i <=? j) && match args !! Z.to_nat (j - i) with Some v => is_nil v | None => false end).
Proof.
  revert i bm types values. induction args as [|v args IH]; intros i bm types values Hw Hi Hl; cbn [write_args] in Hw.
  { injection Hw as <- <- <-. split; [done|]. intros j Hj. by rewrite andb_false_r, orb_false_r. }
  apply rbind_Ok_inv in Hw as ([[tp flags] b] & _ & Hw). apply rbind_Ok_inv in Hw as ([[bm1 types1] values1] & Hw & Heq).
  injection Heq as <- _ _. rewrite length_cons in Hl.
  set (bm0 := if is_nil v then set_null bm i else bm) in *.
  assert (blen bm0 = blen bm) as Hb0 by (unfold bm0, blen, set_null; unfold bytes in *; destruct (is_nil v); [by rewrite length_alter | done]).
  destruct (IH _ _ _ _ Hw) as [Hb1 Hbit]; [lia | rewrite Hb0; replace (i + 1 + _) with (i + Z.of_nat (S (length args))) by lia; lia|].
  split; [congruence|]. intros j Hj. rewrite Hbit by lia.
  assert (bitmap_bit bm0 j = bitmap_bit bm j || (is_nil v && (i =? j))) as ->.
  { unfold bm0. destruct (is_nil v); [|by rewrite orb_false_r]. rewrite bitmap_set_null; [done | lia | done|].
    eapply Z.lt_le_trans; [|exact Hl]. apply Z.lt_le_trans with (m := (i + 8) / 8).
    - replace (i + 8) with (i + 1 * 8) by lia. rewrite Z.div_add by lia. lia.
    - apply Z.div_le_mono; lia. }
  rewrite <- orb_assoc. f_equal. destruct (Z.eqb_spec i j) as [<-|Hne].
  - rewrite Z.leb_refl, Z.sub_diag. cbn. rewrite (proj2 (Z.leb_gt _ _)) by lia. cbn. by rewrite andb_true_r, orb_false_r.
  - rewrite andb_false_r. cbn. destruct (Z.leb_spec i j).
    + rewrite (proj2 (Z.leb_le _ _)) by lia. cbn. replace (Z.to_nat (j - i)) with (S (Z.to_nat (j - (i + 1)))) by lia. done.
    + by rewrite (proj2 (Z.leb_gt _ _)) by lia.
Qed.

Lemma write_arg_bytes v tp flags b : arg_ok v -> write_arg v = Ok (tp, flags, b) -> Forall is_byte b.
Proof.
  intros Hok Hw. destruct v as [|w n|w n|f|f|str|bs|]; try done; cbn in Hok; try destruct w; injection Hw as <- <- <-;
    try apply put_le_bytes; try apply Forall_nil_2; try (apply Forall_cons_2; [unfold is_byte; cbn in Hok; first [apply u8_byte | lia] | apply Forall_nil_2]).
  - unfold PutLengthEncodedString. apply Forall_app. split; [apply PutLengthEncodedInt_bytes | apply bytes_of_bytes].
  - unfold PutLengthEncodedString. apply Forall_app. split; [apply PutLengthEncodedInt_bytes | apply Hok].
Qed.

Lemma write_args_bytes i args bm bm' types values :
  Forall arg_ok args -> write_args i args bm = Ok (bm', types, values) ->
  Forall is_byte values /\ blen types = 2 * Z.of_nat (length args).
Proof.
  intros Hok. revert i bm bm' types values. induction Hok as [|v args Hv _ IH]; intros i bm bm' types values Hw; cbn [write_args] in Hw.
  { by injection Hw as <- <- <-. }
  apply rbind_Ok_inv in Hw as ([[tp flags] b] & Hb & Hw). apply rbind_Ok_inv in Hw as ([[bm1 types1] values1] & Hw & Heq).
  injection Heq as _ <- <-. destruct (IH _ _ _ _ _ Hw) as [Hv1 Ht1]. rewrite !blen_cons, length_cons. split; [|lia].
  apply Forall_app. split; [by eapply write_arg_bytes | done].
Qed.

Lemma set_arg_at i x done_ o old :
  Z.of_nat (length done_) = i -> set_arg i x (done_ ++ o :: old) = (done_ ++ x :: old, Ok tt).
Proof.
  intros Hd. unfold set_arg. rewrite length_app, length_cons.
  rewrite (proj2 (Z.leb_le 0 i)), (proj2 (Z.ltb_lt i _)) by lia. cbn [andb]. f_equal. rewrite <- Hd, Nat2Z.id.
  rewrite <- (Nat.add_0_r (length done_)). by rewrite insert_app_r.
Qed.

Lemma bind_nulls N types values : forall old i pos done_,
  0 <= i -> Z.of_nat (length done_) = i ->
  (forall k, (k < length old)%nat -> arg_null N (i + Z.of_nat k) = Ok true) ->
  bind_args N types values (seqZ i (Z.of_nat (length old))) pos (done_ ++ old) =
    (done_ ++ replicate (length old) VNil, Ok tt).
Proof.
  induction old as [|o old IH]; intros i pos done_ Hi Hd HN; [done|].
  rewrite length_cons, Nat2Z.inj_succ, seqZ_cons, Z.pred_succ by lia. cbn [bind_args].
  pose proof (HN 0%nat ltac:(cbn; lia)) as Hnull. rewrite Z.add_0_r in Hnull.
  rewrite (bind_Ok _ _ _ (done_ ++ o :: old) true) by (unfold lift; by rewrite Hnull).
  rewrite (bind_Ok _ _ _ (done_ ++ VNil :: old) tt) by (by apply set_arg_at).
  rewrite (cons_middle VNil done_ old), app_assoc. rewrite IH; [by rewrite <- app_assoc | lia | rewrite length_app; cbn; lia|].
  intros k Hk. rewrite <- (HN (S k)) by (cbn; lia). f_equal. lia.
Qed.

(** The loop that reads undoes the loop that writes, from any argument on. *)
Lemma bind_written N args : forall i bm bm' types values pre_t pre_v done_ old,
  Forall arg_ok args -> write_args i args bm = Ok (bm', types, values) -> 0 <= i ->
  (forall k v, args !! k = Some v -> arg_null N (i + Z.of_nat k) = Ok (is_nil v)) ->
  Z.of_nat (length done_) = i -> blen pre_t = 2 * i -> length old = length args ->
  bind_args N (pre_t ++ types) (pre_v ++ values) (seqZ i (Z.of_nat (length args))) (blen pre_v) (done_ ++ old) =
    (done_ ++ (as_read <$> args), Ok tt).
Proof.
  induction args as [|v args IH]; intros i bm bm' types values pre_t pre_v done_ old Hok Hw Hi HN Hd Ht Hold.
  { destruct old; [|done]. by rewrite fmap_nil. }
  apply Forall_cons in Hok as [Hv Hok]. cbn [write_args] in Hw.
  apply rbind_Ok_inv in Hw as ([[tp flags] b] & Hb & Hw). apply rbind_Ok_inv in Hw as ([[bm1 types1] values1] & Hw & Heq).
  injection Heq as <- <- <-. destruct old as [|o old]; [done|]. injection Hold as Hold.
  rewrite length_cons, Nat2Z.inj_succ, seqZ_cons, Z.pred_succ by lia. cbn [bind_args].
  pose proof (HN 0%nat v eq_refl) as Hnull. rewrite Z.add_0_r in Hnull.
  pose proof (fun x => set_arg_at i x done_ o old Hd) as Hset.
  rewrite (bind_Ok _ _ _ (done_ ++ o :: old) (is_nil v)) by (unfold lift; by rewrite Hnull).
  assert (forall k x, args !! k = Some x -> arg_null N (Z.succ i + Z.of_nat k) = Ok (is_nil x)) as HN'.
  { intros k x Hk. rewrite <- (HN (S k) x Hk). f_equal. lia. }
  assert (Forall is_byte values1) as Hv1 by (by eapply write_args_bytes).
  assert (forall x p, p = blen pre_v + blen b ->
    bind_args N (pre_t ++ tp :: flags :: types1) (pre_v ++ b ++ values1) (seqZ (Z.succ i) (Z.of_nat (length args))) p (done_ ++ x :: old) =
      (done_ ++ x :: (as_read <$> args), Ok tt)) as Hrest.
  { intros x p ->. rewrite <- blen_app.
    change (tp :: flags :: types1) with ([tp; flags] ++ types1). rewrite !app_assoc.
    rewrite !(cons_middle x done_).
    assert (forall l, done_ ++ [x] ++ l = (done_ ++ [x]) ++ l) as Ha by (intros l; by rewrite app_assoc).
    rewrite !Ha. eapply IH; try done; [lia | rewrite length_app; cbn; lia | rewrite blen_app; unfold blen at 2; cbn; lia]. }
  destruct (is_nil v) eqn:Hnil.
  - rewrite (bind_Ok _ _ _ (done_ ++ VNil :: old) tt) by apply Hset. destruct v; try done. injection Hb as <- <- <-.
    apply (Hrest VNil). unfold blen. cbn. lia.
  - assert (forall k x, nth_error [tp; flags] k = Some x ->
      @at_ error Z (pre_t ++ tp :: flags :: types1) (Z.shiftl i 1 + Z.of_nat k) = Ok x) as Hat.
    { intros k x Hk. apply at_Ok. rewrite Z.shiftl_mul_pow2 by lia. split; [lia|].
      rewrite lookup_app_r by (unfold blen in Ht; lia).
      replace (Z.to_nat _ - length pre_t)%nat with k by (unfold blen in Ht; lia).
      by destruct k as [|[|[|k]]]. }
    pose proof (Hat 0%nat tp eq_refl) as Ht0. rewrite Z.add_0_r in Ht0. pose proof (Hat 1%nat flags eq_refl) as Ht1. change (Z.of_nat 1) with 1 in Ht1.
    rewrite (bind_Ok _ _ _ (done_ ++ o :: old) tp) by (unfold lift; by rewrite Ht0).
    rewrite (bind_Ok _ _ _ (done_ ++ o :: old) flags) by (unfold lift; by rewrite Ht1).
    rewrite (bind_Ok _ _ _ (done_ ++ o :: old) (as_read v, blen pre_v + blen b))
      by (unfold lift; by rewrite (arg_value_written v tp flags b)).
    rewrite (bind_Ok _ _ _ (done_ ++ as_read v :: old) tt) by apply Hset. by apply Hrest.
Qed.

Definition bitmap_len (args : list value) : Z := Z.shiftr (Z.of_nat (length args) + 7) 3.

Lemma written_bitmap args N types values :
  write_args 0 args (replicate (Z.to_nat (bitmap_len args)) 0) = Ok (N, types, values) ->
  blen N = bitmap_len args /\ forall k v, args !! k = Some v -> arg_null N (0 + Z.of_nat k) = Ok (is_nil v).
Proof.
  set (L := bitmap_len args). intros Hw.
  assert (L = (Z.of_nat (length args) + 7) / 8) as HL by (unfold L, bitmap_len; by rewrite Z.shiftr_div_pow2).
  assert (0 <= L) as HL0 by (rewrite HL; apply Z.div_pos; lia).
  assert (blen (replicate (Z.to_nat L) 0) = L) as Hbm by (unfold blen; rewrite length_replicate; lia).
  destruct (write_args_bitmap _ _ _ _ _ _ Hw) as [HNl HNb]; [lia | by rewrite Z.add_0_l, Hbm, HL|].
  split; [congruence|]. intros k v Hk. pose proof (lookup_lt_Some _ _ _ Hk) as Hlt.
  assert (Z.of_nat k / 8 < L) as HkL.
  { apply Z.div_lt_upper_bound; [lia|]. rewrite HL. pose proof (Z.div_mod (Z.of_nat (length args) + 7) 8 ltac:(lia)).
    pose proof (Z.mod_pos_bound (Z.of_nat (length args) + 7) 8 ltac:(lia)). lia. }
  rewrite Z.add_0_l, arg_null_bit, HNb by (rewrite ?HNl, ?Hbm; lia).
  rewrite (proj2 (Z.leb_le _ _)) by lia. replace (Z.to_nat (Z.of_nat k - 0)) with k by lia. rewrite Hk.
  unfold bitmap_bit. rewrite nth_lookup.
  destruct (replicate _ _ !! _) eqn:Hz; [apply lookup_replicate in Hz as [-> _]|]; cbn; by rewrite Z.bits_0.
Qed.

(** C31: arguments survive the proxy.  For as many arguments as the
    statement has parameters, each of a size the wire can carry, writing
    the packet that executes it succeeds, and reading the packet as a
    client's binds exactly these arguments, NULLs included, whatever was
    bound before. *)
Theorem arguments_roundtrip id args old
    (Hok : Forall arg_ok args) (Hn : args <> []) (Hold : length old = length args) :
  let params := Z.of_nat (length args) in
  exists data, Stmt_write id params args = Ok (COM_STMT_EXECUTE :: data) /\
    bind_packet params data old = (as_read <$> args, Ok tt).
Proof.
  intros params. set (L := Z.shiftr (params + 7) 3).
  assert (0 < params) as Hp by (destruct args; [done | cbn in *; lia]).
  assert (0 <= L) as HL0 by (unfold L; rewrite Z.shiftr_div_pow2 by lia; apply Z.div_pos; lia).
  set (bm := replicate (Z.to_nat L) 0).
  destruct (write_args_total 0 args bm Hok) as (N & types & values & Hw).
  destruct (written_bitmap _ _ _ _ Hw) as [HNl HN]. fold params L in HNl.
  destruct (write_args_bytes _ _ _ _ _ _ Hok Hw) as [_ Htypes]. fold params in Htypes.
  set (flag := if forallb is_nil args then 0 else 1).
  set (header := put_le 4 id ++ [0; 1; 0; 0; 0]).
  assert (blen header = 9) as Hh by (unfold header; by rewrite blen_app, blen_put_le).
  set (tl := if flag =? 1 then types ++ values else []).
  exists (header ++ N ++ [flag] ++ tl). split.
  { unfold Stmt_write. fold params. rewrite Z.eqb_refl. cbn [negb]. fold L bm. rewrite Hw. cbn [rbind].
    rewrite (proj2 (Z.ltb_lt 0 params)) by done. fold flag tl. unfold header. cbn [app]. by rewrite <- !app_assoc. }
  change (bitmap_len args) with L in HNl. pose proof (blen_nonneg tl) as Htl. pose proof (blen_nonneg values) as Hvl.
  unfold bind_packet. fold L. rewrite !blen_app, Hh, HNl. change (blen [flag]) with 1.
  rewrite (proj2 (Z.ltb_ge _ _)) by lia.
  rewrite (bind_Ok _ _ old old N) by (unfold lift; by rewrite slice_mid by lia).
  rewrite (bind_Ok _ _ old old flag).
  2: { unfold lift. f_equal. apply at_Ok. split; [lia|]. rewrite app_assoc, lookup_app_r; rewrite length_app; unfold blen in *; [|lia].
       by replace (_ - _)%nat with 0%nat by lia. }
  unfold bindStmtArgs, tl, flag. destruct (forallb is_nil args) eqn:Hall; cbn [Z.eqb].
  - rewrite forallb_forall in Hall.
    assert (as_read <$> args = replicate (length old) VNil) as ->.
    { rewrite Hold. clear -Hall. induction args as [|v args IH]; [done|]. cbn. f_equal.
      - specialize (Hall v (or_introl eq_refl)). by destruct v.
      - apply IH. intros x Hx. apply Hall. by right. }
    unfold params. rewrite <- Hold. apply (bind_nulls N [] [] old 0 0 []); [lia | done|]. intros k Hk. rewrite Hold in Hk.
    destruct (lookup_lt_is_Some_2 args k Hk) as [v Hv]. rewrite (HN k v Hv). f_equal.
    by apply Hall, list_elem_of_In, list_elem_of_lookup_2 with k.
  - rewrite Z.shiftl_mul_pow2 by lia. change (2 ^ 1) with 2.
    change (Pos.eqb 1 1) with true. cbv iota.
    assert (blen tl = 2 * params + blen values) as Htv
      by (unfold tl, flag; cbn [Z.eqb Pos.eqb]; by rewrite blen_app, Htypes).
    unfold tl, flag in Htv. cbn [Z.eqb Pos.eqb] in Htv.
    rewrite (proj2 (Z.ltb_ge _ _)) by lia.
    rewrite (bind_Ok _ _ old old types).
    2: { unfold lift. rewrite !app_assoc, <- (app_assoc _ types). rewrite slice_mid; [done|..]; rewrite ?blen_app, ?Hh, ?HNl; change (blen [1]) with 1; lia. }
    rewrite (bind_Ok _ _ old old values).
    2: { unfold lift. rewrite !app_assoc. rewrite from_app; [done|]. rewrite ?blen_app, ?Hh, ?HNl; change (blen [1]) with 1; lia. }
    exact (bind_written N args 0 bm N types values [] [] [] old Hok Hw ltac:(lia) HN eq_refl eq_refl Hold).
Qed.
End Roundtrip.

(** Five arguments, of which one is NULL. *)
Definition half_bits : FloatBits := {| Float32bits _ := 0x3fc00000; Float64bits _ := 0x3ff8000000000000 |}.
Lemma arguments_roundtrip_witness :
  let args := [VInt W16 (-5); VNil; VUint WInt (2 ^ 64 - 1); VString "a'b"; VFloat64 (float_of_bits 52 11 0x3ff8000000000000)] in
  exists data, @Stmt_write half_bits 7 5 args = Ok (COM_STMT_EXECUTE :: data) /\
    bind_packet 5 data (replicate 5 VNil) =
      ([VInt W16 (-5); VNil; VUint W64 (2 ^ 64 - 1); VBytes [97; 39; 98];
        VFloat64 (float_of_bits 52 11 0x3ff8000000000000)], Ok tt).
Proof.
  intros args. apply (@arguments_roundtrip half_bits 7 args (replicate 5 VNil)); [|discriminate | reflexivity].
  unfold args. repeat (apply Forall_cons_2; [cbn; unfold slen; cbn; try lia; split; try lia; vm_compute; reflexivity|]).
  apply Forall_nil_2.
Defined.
