(* ===== verification/Session.v ===== *)
(** * Sessions ([proxy/server/conn_query.go], [conn_tx.go], [conn_preshard.go],
      [conn_use.go], [conn_set.go], parts of [conn_select.go] and
      [backend/backend_conn.go])

    A session is the state of one client: its transaction, its database and
    character set, the connections it has taken from the pools and what it
    has sent on each of them.  The servers answer the [k]-th command of a
    connection whatever they like, so the order in which goroutines that
    work on different connections interleave does not matter: the state is
    the same for every order. *)
From S2P Require Import Prelude Errors StateM GoLib GoTime GoFmt Charset ErrTables Field Order Resultset.
From S2P Require Import Ast RouteLists Rule Plan Router ExecDB SelectMerge.
From Stdlib Require Import Ascii.
Open Scope Z_scope.

Definition SERVER_STATUS_IN_TRANS : Z := 1.
Definition SERVER_STATUS_AUTOCOMMIT : Z := 2.

(** ** Connections to servers *)
Inductive command : Type :=
| Query (sql : string)
| Prepared (sql : string) (args : list value)   (* Prepare, Execute, Close *)
| Prepare (sql : string)                         (* Prepare alone *)
| ClosePrepare (id : Z)
| InitDB (dbName : string)
| FieldList (table wildcard : string).

(** [BackendConn]; [bc_open] is [p.Conn != nil]. *)
Record BackendConn := mkBackendConn {
  bc_node : string; bc_slave : bool; bc_open : bool;
  bc_db : string; bc_charset : string; bc_collation : Z;
  bc_log : list command
}.

(** What is written to the client. *)
Inductive response : Type :=
| ROk (status affectedRows insertId : Z)
| RResultset (status : Z) (r : Resultset)
| RFields (status : Z) (fs : list Field)
| RPrepare (id columns params status : Z)
| RError (e : SqlError)
| REOF (status : Z).

Record ClientConn := mkClientConn {
  c_status : Z; c_collation : Z; c_charset : string; c_user : string; c_db : string;
  c_router : Router;                      (* [c.schema.rule] *)
  txConns : gmap string nat;              (* by the node's name, a place in [c_conns] *)
  c_closed : bool;
  c_lastInsertId : Z; c_affectedRows : Z;
  c_takes : nat;                          (* connections asked for so far *)
  c_conns : list BackendConn;             (* all that were given *)
  c_sent : list response
}.

Definition set_status (v : Z) (c : ClientConn) : ClientConn :=
  mkClientConn v (c_collation c) (c_charset c) (c_user c) (c_db c) (c_router c) (txConns c) (c_closed c)
    (c_lastInsertId c) (c_affectedRows c) (c_takes c) (c_conns c) (c_sent c).
Definition set_names (charset : string) (collation : Z) (c : ClientConn) : ClientConn :=
  mkClientConn (c_status c) collation charset (c_user c) (c_db c) (c_router c) (txConns c) (c_closed c)
    (c_lastInsertId c) (c_affectedRows c) (c_takes c) (c_conns c) (c_sent c).
Definition set_db (v : string) (c : ClientConn) : ClientConn :=
  mkClientConn (c_status c) (c_collation c) (c_charset c) (c_user c) v (c_router c) (txConns c) (c_closed c)
    (c_lastInsertId c) (c_affectedRows c) (c_takes c) (c_conns c) (c_sent c).
Definition set_router (v : Router) (c : ClientConn) : ClientConn :=
  mkClientConn (c_status c) (c_collation c) (c_charset c) (c_user c) (c_db c) v (txConns c) (c_closed c)
    (c_lastInsertId c) (c_affectedRows c) (c_takes c) (c_conns c) (c_sent c).
Definition set_txConns (v : gmap string nat) (c : ClientConn) : ClientConn :=
  mkClientConn (c_status c) (c_collation c) (c_charset c) (c_user c) (c_db c) (c_router c) v (c_closed c)
    (c_lastInsertId c) (c_affectedRows c) (c_takes c) (c_conns c) (c_sent c).
Definition set_closed (c : ClientConn) : ClientConn :=
  mkClientConn (c_status c) (c_collation c) (c_charset c) (c_user c) (c_db c) (c_router c) (txConns c) true
    (c_lastInsertId c) (c_affectedRows c) (c_takes c) (c_conns c) (c_sent c).
Definition set_counts (lastInsertId affectedRows : Z) (c : ClientConn) : ClientConn :=
  mkClientConn (c_status c) (c_collation c) (c_charset c) (c_user c) (c_db c) (c_router c) (txConns c) (c_closed c)
    lastInsertId affectedRows (c_takes c) (c_conns c) (c_sent c).
Definition set_conns (takes : nat) (v : list BackendConn) (c : ClientConn) : ClientConn :=
  mkClientConn (c_status c) (c_collation c) (c_charset c) (c_user c) (c_db c) (c_router c) (txConns c) (c_closed c)
    (c_lastInsertId c) (c_affectedRows c) takes v (c_sent c).
Definition set_sent (v : list response) (c : ClientConn) : ClientConn :=
  mkClientConn (c_status c) (c_collation c) (c_charset c) (c_user c) (c_db c) (c_router c) (txConns c) (c_closed c)
    (c_lastInsertId c) (c_affectedRows c) (c_takes c) (c_conns c) v.

(** Pools, servers and the client's socket, each by what was asked before:
    a new connection has a database, a character set and a collation. *)
Class Outside := {
  new_conn : string -> bool -> nat -> (string * string * Z) + error;
  reply : nat -> nat -> command -> Result + error;
  fields_reply : nat -> nat -> list Field + error;
  prepare_reply : nat -> nat -> (Z * Z * Z) + error;   (* its id, columns and parameters *)
  client_write : nat -> option error
}.

Definition of_sum {S A} (r : A + error) : ST S A := match r with inl a => ret a | inr e => fail e end.
Definition nil_pointer {S A} : ST S A := lift (Panic (PRuntime "nil pointer dereference")).

(** ** The status bits *)
Definition isAutoCommit (c : ClientConn) : bool := 0 <? Z.land (c_status c) SERVER_STATUS_AUTOCOMMIT.
Definition isInTransaction (c : ClientConn) : bool :=
  (0 <? Z.land (c_status c) SERVER_STATUS_IN_TRANS) || negb (isAutoCommit c).
Definition set_bit (bit : Z) (c : ClientConn) : ClientConn := set_status (Z.lor (c_status c) bit) c.
Definition clear_bit (bit : Z) (c : ClientConn) : ClientConn := set_status (Z.ldiff (c_status c) bit) c.

Section Session.
Context `{Outside} `{StrMapOrder}.

Abbreviation M := (ST ClientConn).

(** ** Methods of a connection *)
Definition update_conn (co : nat) (f : BackendConn -> BackendConn) (c : ClientConn) : ClientConn :=
  set_conns (c_takes c) (alter f co (c_conns c)) c.
Definition log_command (cmd : command) (b : BackendConn) : BackendConn :=
  mkBackendConn (bc_node b) (bc_slave b) (bc_open b) (bc_db b) (bc_charset b) (bc_collation b) (bc_log b ++ [cmd]).
Definition close_conn (b : BackendConn) : BackendConn :=
  mkBackendConn (bc_node b) (bc_slave b) false (bc_db b) (bc_charset b) (bc_collation b) (bc_log b).
Definition conn_db (db : string) (b : BackendConn) : BackendConn :=
  mkBackendConn (bc_node b) (bc_slave b) (bc_open b) db (bc_charset b) (bc_collation b) (bc_log b).
Definition conn_names (charset : string) (collation : Z) (b : BackendConn) : BackendConn :=
  mkBackendConn (bc_node b) (bc_slave b) (bc_open b) (bc_db b) charset collation (bc_log b).

(** A connection that was closed is a nil pointer. *)
Definition deref (co : nat) : M BackendConn :=
  do! c := get in
  match c_conns c !! co with
  | Some b => if bc_open b then ret b else nil_pointer
  | None => nil_pointer
  end.

(** One command; the number of those before it. *)
Definition send (co : nat) (cmd : command) : M nat :=
  do! b := deref co in
  do! _ := modify (update_conn co (log_command cmd)) in
  ret (length (bc_log b)).

Definition exec (co : nat) (sql : string) : M Result :=
  do! k := send co (Query sql) in of_sum (reply co k (Query sql)).

Definition Execute (co : nat) (sql : string) (args : list value) : M Result :=
  match args with
  | [] => exec co sql
  | _ => do! k := send co (Prepared sql args) in of_sum (reply co k (Prepared sql args))
  end.

Definition Begin (co : nat) : M unit := do! _ := exec co "begin" in ret tt.
Definition Commit (co : nat) : M unit := do! _ := exec co "commit" in ret tt.
Definition Rollback (co : nat) : M unit := do! _ := exec co "rollback" in ret tt.
Definition SetAutoCommit (co : nat) (n : Z) : M unit :=
  do! _ := exec co (if n =? 0 then "set autocommit = 0" else "set autocommit = 1") in ret tt.

Definition UseDB (co : nat) (dbName : string) : M unit :=
  do! b := deref co in
  if String.eqb (bc_db b) dbName || (slen dbName =? 0) then ret tt
  else
    do! k := send co (InitDB dbName) in
    do! _ := of_sum (reply co k (InitDB dbName)) in
    modify (update_conn co (conn_db dbName)).

Definition default_collation (charset : string) : Z :=
  default 0 (CollationNames !! default "" (Charsets !! charset)).

Definition SetCharset (co : nat) (charset : string) (collation : Z) : M unit :=
  let charset := Trim charset (dquote +:+ "'`") in
  let collation := if collation =? 0 then default_collation charset else collation in
  do! b := deref co in
  if String.eqb (bc_charset b) charset && (bc_collation b =? collation) then ret tt
  else
    match CharsetIds !! charset, Collations !! collation with
    | None, _ => fail (Errorf ("invalid charset " +:+ charset))
    | Some _, None => fail (Errorf ("invalid collation %!s(mysql.CollationId=" +:+ FormatInt collation +:+ ")"))
    | Some _, Some name =>
        do! _ := exec co ("SET NAMES " +:+ charset +:+ " COLLATE " +:+ name) in
        modify (update_conn co (conn_names charset collation))
    end.

(** [BackendConn.Close], which does nothing the second time. *)
Definition Close (co : option nat) : M unit :=
  match co with Some co => modify (update_conn co close_conn) | None => ret tt end.

(** [GetMasterConn], [GetSlaveConn] *)
Definition take_conn (n : option string) (slave : bool) : M nat :=
  match n with
  | None => nil_pointer
  | Some node =>
      do! c := get in
      let answer := new_conn node slave (c_takes c) in
      do! _ := put (set_conns (S (c_takes c)) (c_conns c) c) in
      do! r := of_sum answer in
      let '(db, charset, collation) := r in
      do! c := get in
      do! _ := put (set_conns (c_takes c)
                      (c_conns c ++ [mkBackendConn node slave true db charset collation []]) c) in
      ret (length (c_conns c))
  end.

(** ** Writing to the client *)
Definition respond (r : response) : M unit :=
  do! c := get in
  do! _ := put (set_sent (c_sent c ++ [r]) c) in
  unless (client_write (length (c_sent c))).

Definition writeOK (r : option Result) : M unit :=
  do! c := get in
  match r with
  | None => respond (ROk (c_status c) 0 0)
  | Some r => respond (ROk (Status r) (AffectedRows r) (InsertId r))
  end.

(** [c.affectedRows = int64(-1)] *)
Definition no_affected_rows : M unit := modify (fun c => set_counts (c_lastInsertId c) (-1) c).

Definition writeResultset (status : Z) (r : Resultset) : M unit :=
  do! _ := no_affected_rows in
  respond (RResultset status r).

(** ** Taking and giving back connections *)

(** A connection and an error may both be returned. *)
Definition getBackendConn (n : option string) (fromSlave : bool) : M (option nat * option error) :=
  do! c := get in
  do! (err, co) := (
    if negb (isInTransaction c) then
      if fromSlave then
        do! (err, co) := try (take_conn n true) in
        match err with
        | Some _ => try (take_conn n false)
        | None => ret (err, co)
        end
      else try (take_conn n false)
    else
      match n ≫= fun node => txConns c !! node with
      | Some co => ret (None, Some co)
      | None =>
          do! (err, co) := try (take_conn n false) in
          match err, co, n with
          | None, Some co, Some node =>
              do! (err, _) := try (if negb (isAutoCommit c) then SetAutoCommit co 0 else Begin co) in
              match err with
              | Some e => ret (Some e, Some co)
              | None =>
                  do! _ := modify (fun c => set_txConns (<[node := co]> (txConns c)) c) in
                  ret (None, Some co)
              end
          | _, _, _ => ret (err, co)
          end
      end) in
  match err, co with
  | None, Some k =>
      do! (err, _) := try (UseDB k (c_db c)) in
      match err with
      | Some e => do! _ := modify (set_db "") in ret (co, Some e)
      | None =>
          do! (err, _) := try (SetCharset k (c_charset c) (c_collation c)) in
          ret (co, err)
      end
  | _, _ => ret (co, err)
  end.

Definition closeConn (co : option nat) (rollback : bool) : M unit :=
  do! c := get in
  if isInTransaction c then ret tt
  else
    with_defer
      (if rollback then
         match co with Some co => do! _ := try (Rollback co) in ret tt | None => nil_pointer end
       else ret tt)
      (Close co).

Definition closeShardConns (conns : gmap string nat) (rollback : bool) : M unit :=
  do! c := get in
  if isInTransaction c then ret tt
  else
    for_each (fun name =>
      match conns !! name with
      | Some co =>
          do! _ := (if rollback then do! _ := try (Rollback co) in ret tt else ret tt) in
          Close (Some co)
      | None => ret tt
      end) (range_strings (dom conns)).

(** ** Running statements *)
Definition executeInNode (co : nat) (sql : string) (args : list value) : M (list Result) :=
  do! r := Execute co sql args in ret [r].

(** What the goroutine of one connection does. *)
Fixpoint run_on (co : nat) (sqls : list string) (args : list value) : M (list (option error * option Result)) :=
  match sqls with
  | [] => ret []
  | v :: sqls =>
      do! r := try (Execute co v args) in
      do! rs := run_on co sqls args in
      ret (r :: rs)
  end.

Fixpoint run_all (conns : gmap string nat) (sqls : gmap string (list string)) (args : list value) (names : list string)
  : M (list (option error * option Result)) :=
  match names with
  | [] => ret []
  | name :: names =>
      match conns !! name with
      | Some co =>
          do! rs := run_on co (default [] (sqls !! name)) args in
          do! rest := run_all conns sqls args names in
          ret (rs ++ rest)
      | None => run_all conns sqls args names
      end
  end.

Definition first_error (rs : list (option error * option Result)) : option error := list_find (fun r => r.1 <> None) rs ≫= fun r => r.2.1.

Definition statement_count (sqls : gmap string (list string)) : nat :=
  map_fold (fun _ l n => (n + length l)%nat) O sqls.

Definition executeInMultiNodes (conns : gmap string nat) (sqls : gmap string (list string)) (args : list value)
  : M (list (option Result)) :=
  if negb (Nat.eqb (size conns) (size sqls)) then fail ErrConnNotEqual
  else if Nat.eqb (size conns) 0 then fail ErrNoPlan
  else
    do! rs := run_all conns sqls args (range_strings (dom conns)) in
    match first_error rs with
    | Some e => fail e
    | None => ret ((snd <$> rs) ++ replicate (statement_count sqls - length rs) None)
    end.
End Session.
