(* ===== verification/Conn.v ===== *)
(** * A connection to a MySQL server ([backend/backend_conn.go], [backend/stmt.go])

    [Conn] speaks the client's half of the protocol: the handshake, the
    commands and the answers.  What the server will send is the input of
    the packet reader, as in [Packet]; what is sent to it is the writer's. *)
From S2P Require Import Prelude Errors StateM GoLib ErrTables Charset Wire GoHash Packet Field Resultset StmtArgs.
From Stdlib Require Import Ascii.
Open Scope Z_scope.

(** ** Constants ([mysql/const.go]) *)
Definition MinProtocolVersion : Z := 10.
Definition ERR_HEADER : Z := 0xff.
Definition EOF_HEADER : Z := 0xfe.
Definition LocalInFile_HEADER : Z := 0xfb.
Definition CLIENT_LONG_PASSWORD : Z := Z.shiftl 1 0.
Definition CLIENT_LONG_FLAG : Z := Z.shiftl 1 2.
Definition CLIENT_CONNECT_WITH_DB : Z := Z.shiftl 1 3.
Definition CLIENT_PROTOCOL_41 : Z := Z.shiftl 1 9.
Definition CLIENT_TRANSACTIONS : Z := Z.shiftl 1 13.
Definition CLIENT_SECURE_CONNECTION : Z := Z.shiftl 1 15.
Definition SERVER_STATUS_IN_TRANS : Z := 1.
Definition SERVER_STATUS_AUTOCOMMIT : Z := 2.
Definition COM_INIT_DB : Z := 2.
Definition COM_QUERY : Z := 3.
Definition COM_FIELD_LIST : Z := 4.
Definition COM_PING : Z := 14.
Definition COM_STMT_PREPARE : Z := 22.
Definition COM_STMT_CLOSE : Z := 25.

(** [bytes.IndexByte] *)
Fixpoint IndexByte (b : bytes) (x : Z) : Z :=
  match b with
  | [] => -1
  | y :: b => if y =? x then 0 else let i := IndexByte b x in if i <? 0 then -1 else 1 + i
  end.

(** [CalcPassword] ([mysql/util.go]) *)
Definition CalcPassword (scramble password : bytes) : bytes :=
  if blen password =? 0 then []
  else
    let stage1 := sha1 password in
    let hash := sha1 stage1 in
    zip_with Z.lxor (sha1 (scramble ++ hash)) stage1.

(** [make([]byte, length+4)]: room for the header [WritePacket] fills in. *)
Definition header : bytes := [0; 0; 0; 0].

(** [conn_open] is nil, or whether the socket is open. *)
Record Conn (W : Type) := mkConn {
  conn_open : option bool; pkg : PacketIO W;
  addr : string; user : string; password : string; db : string;
  capability : Z; status : Z; collation : Z; charset : string; salt : bytes;
  pkgErr : option error
}.
Arguments mkConn {W} _ _ _ _ _ _ _ _ _ _ _ _.
Arguments conn_open {W} _.
Arguments pkg {W} _.
Arguments addr {W} _.
Arguments user {W} _.
Arguments password {W} _.
Arguments db {W} _.
Arguments capability {W} _.
Arguments status {W} _.
Arguments collation {W} _.
Arguments charset {W} _.
Arguments salt {W} _.
Arguments pkgErr {W} _.

Section Conn.
Context {W : Type} `{Writer W} `{GoFloat}.
Abbreviation M := (ST (Conn W)).

Definition set_pkg (p : PacketIO W) (c : Conn W) : Conn W :=
  mkConn (conn_open c) p (addr c) (user c) (password c) (db c) (capability c) (status c) (collation c)
    (charset c) (salt c) (pkgErr c).
Definition set_pkgErr (e : option error) (c : Conn W) : Conn W :=
  mkConn (conn_open c) (pkg c) (addr c) (user c) (password c) (db c) (capability c) (status c) (collation c)
    (charset c) (salt c) e.
Definition set_open (o : option bool) (c : Conn W) : Conn W :=
  mkConn o (pkg c) (addr c) (user c) (password c) (db c) (capability c) (status c) (collation c)
    (charset c) (salt c) (pkgErr c).
Definition set_db (d : string) (c : Conn W) : Conn W :=
  mkConn (conn_open c) (pkg c) (addr c) (user c) (password c) d (capability c) (status c) (collation c)
    (charset c) (salt c) (pkgErr c).
Definition set_capability (v : Z) (c : Conn W) : Conn W :=
  mkConn (conn_open c) (pkg c) (addr c) (user c) (password c) (db c) v (status c) (collation c)
    (charset c) (salt c) (pkgErr c).
Definition set_status (v : Z) (c : Conn W) : Conn W :=
  mkConn (conn_open c) (pkg c) (addr c) (user c) (password c) (db c) (capability c) v (collation c)
    (charset c) (salt c) (pkgErr c).
Definition set_names (cs : string) (co : Z) (c : Conn W) : Conn W :=
  mkConn (conn_open c) (pkg c) (addr c) (user c) (password c) (db c) (capability c) (status c) co
    cs (salt c) (pkgErr c).
Definition set_salt (b : bytes) (c : Conn W) : Conn W :=
  mkConn (conn_open c) (pkg c) (addr c) (user c) (password c) (db c) (capability c) (status c) (collation c)
    (charset c) b (pkgErr c).
Definition reset_Sequence (c : Conn W) : Conn W :=
  set_pkg (mkPacketIO (rb (pkg c)) (wb (pkg c)) 0) c.
Definition can (bit : Z) (c : Conn W) : bool := 0 <? Z.land (capability c) bit.

(** ** Packets *)
Definition error_of {A} (r : res error A) : option error := match r with Err e => Some e | _ => None end.

Definition readPacket : M bytes := fun c =>
  let '(p, r) := ReadPacket (pkg c) in (set_pkgErr (error_of r) (set_pkg p c), r).
Definition writePacket (data : bytes) : M unit := fun c =>
  let '(p, r) := WritePacket (pkg c) data in (set_pkgErr (error_of r) (set_pkg p c), r).

Definition writeCommand (command : Z) : M unit :=
  do! _ := modify reset_Sequence in writePacket ([1; 0; 0; 0] ++ [command]).
(** [writeCommandBuf] is the same on bytes. *)
Definition writeCommandBuf (command : Z) (arg : bytes) : M unit :=
  do! _ := modify reset_Sequence in writePacket (header ++ [command] ++ arg).
Definition writeCommandStr (command : Z) (arg : string) : M unit :=
  do! _ := modify reset_Sequence in writePacket (header ++ [command] ++ bytes_of arg).
Definition writeCommandUint32 (command arg : Z) : M unit :=
  do! _ := modify reset_Sequence in writePacket ([5; 0; 0; 0] ++ [command] ++ put_le 4 arg).
Definition writeCommandStrStr (command : Z) (arg1 arg2 : string) : M unit :=
  do! _ := modify reset_Sequence in
  writePacket (header ++ [command] ++ bytes_of arg1 ++ [0] ++ bytes_of arg2).

(** ** Answers *)
Definition isEOFPacket (data : bytes) : res error bool :=
  let* first := at_ data 0 in Ok ((first =? EOF_HEADER) && (blen data <=? 5)).

(** [binary.LittleEndian.Uint16(data[pos:])], into [r.Status] and
    [c.status]. *)
Definition read_status (data : bytes) (pos : Z) : M Z :=
  do! v := lift (le_at data pos 2) in do! _ := modify (set_status v) in ret v.

Definition handleOKPacket (data : bytes) : M Result :=
  do! (affectedRows, _, n) := lift (let* b := from data 1 in LengthEncodedInt b) in
  let pos := 1 + n in
  do! (insertId, _, n) := lift (let* b := from data pos in LengthEncodedInt b) in
  let pos := pos + n in
  do! c := get in
  do! st :=
    (if can CLIENT_PROTOCOL_41 c then read_status data pos
     else if can CLIENT_TRANSACTIONS c then read_status data pos
     else ret 0) in
  ret (mkResult st insertId affectedRows None).

(** The error the packet carries. *)
Definition handleErrorPacket (data : bytes) : M error :=
  do! code := lift (le_at data 1 2) in
  do! c := get in
  if can CLIENT_PROTOCOL_41 c then
    do! state := lift (slice data 4 9) in
    do! message := lift (from data 9) in
    ret (ErrSqlError (mkSqlError code (string_of message) (string_of state)))
  else
    do! message := lift (from data 3) in
    ret (ErrSqlError (mkSqlError code (string_of message) "")).
Definition fail_with {A} (m : M error) : M A := do! e := m in fail e.

Definition readOK : M Result :=
  do! data := readPacket in
  do! first := lift (at_ data 0) in
  if first =? OK_HEADER then handleOKPacket data
  else if first =? ERR_HEADER then fail_with (handleErrorPacket data)
  else fail (Errorf "invalid ok packet").

(** The loops over packets until the end-of-file packet: [f] works on a
    packet, [k] on the last one.  Every packet takes at least a byte of the
    input, which is fuel enough. *)
Fixpoint until_eof {A B} (fuel : nat) (f : A -> bytes -> M A) (k : A -> bytes -> M B) (a : A) : M B :=
  match fuel with
  | O => lift (Panic (PRuntime "loop"))
  | S fuel =>
      do! data := readPacket in
      do! last := lift (isEOFPacket data) in
      if (last : bool) then k a data
      else do! a := f a data in until_eof fuel f k a
  end.
Definition each_packet {A B} (f : A -> bytes -> M A) (k : A -> bytes -> M B) (a : A) : M B :=
  fun c => until_eof (S (length (rb (pkg c)))) f k a c.

(** The status of an end-of-file packet; [old] when there is none. *)
Definition eof_status (old : Z) (data : bytes) : M Z :=
  do! c := get in
  if can CLIENT_PROTOCOL_41 c then read_status data 3 else ret old.

(** [result.Fields[i], err = Parse()] and its name; [Fields] has [count]
    places. *)
Definition column (count : Z) (cols : list Field * gmap string Z) (data : bytes)
  : M (list Field * gmap string Z) :=
  let '(fs, names) := cols in
  let i := Z.of_nat (length fs) in
  match Parse data with
  | Panic p => lift (Panic p)
  | r =>
      if count <=? i then lift (Panic (PRuntime "index out of range"))
      else do! f := lift r in ret (fs ++ [f], <[string_of (Name f) := i]> names)
  end.
Definition readResultColumns (count : Z) : M (Z * list Field * gmap string Z) :=
  each_packet (column count)
    (fun '(fs, names) data =>
       do! st := eof_status 0 data in
       if negb (Z.of_nat (length fs) =? count) then fail MyErrMalformPacket
       else ret (st, fs, names)) ([], ∅).

Fixpoint parse_rows (rows : list bytes) (fields : list Field) (binary : bool) : res error (list (list value)) :=
  match rows with
  | [] => Ok []
  | row :: rows =>
      let* vs := RowData_Parse row fields binary in
      let* vss := parse_rows rows fields binary in Ok (vs :: vss)
  end.
Definition readResultRows (st : Z) (fields : list Field) (binary : bool)
  : M (Z * list bytes * list (list value)) :=
  each_packet (fun rows data => ret (rows ++ [data]))
    (fun rows data =>
       do! st := eof_status st data in
       do! values := lift (parse_rows rows fields binary) in
       ret (st, rows, values)) [].

Definition readResultset (data : bytes) (binary : bool) : M Result :=
  do! (count, _, n) := lift (LengthEncodedInt data) in
  if negb (n - blen data =? 0) then fail MyErrMalformPacket
  else
    do! (st, fields, names) := readResultColumns count in
    do! (st, rows, values) := readResultRows st fields binary in
    ret (mkResult st 0 0 (Some (mkResultset fields names values rows))).

Definition readResult (binary : bool) : M Result :=
  do! data := readPacket in
  do! first := lift (at_ data 0) in
  if first =? OK_HEADER then handleOKPacket data
  else if first =? ERR_HEADER then fail_with (handleErrorPacket data)
  else if first =? LocalInFile_HEADER then fail MyErrMalformPacket
  else readResultset data binary.

Definition readUntilEOF : M unit := each_packet (fun _ _ => ret tt) (fun _ _ => ret tt) tt.

(** ** Commands *)
Definition exec (query : string) : M Result :=
  do! _ := writeCommandStr COM_QUERY query in readResult false.

(** [pushTimestamp], the clock, is left out. *)
Definition Ping : M unit := do! _ := writeCommand COM_PING in do! _ := readOK in ret tt.

Definition UseDB (dbName : string) : M unit :=
  do! c := get in
  if String.eqb (db c) dbName || String.eqb dbName "" then ret tt
  else
    do! _ := writeCommandStr COM_INIT_DB dbName in
    do! _ := readOK in
    modify (set_db dbName).

Definition Begin : M unit := do! _ := exec "begin" in ret tt.
Definition Commit : M unit := do! _ := exec "commit" in ret tt.
Definition Rollback : M unit := do! _ := exec "rollback" in ret tt.

(** [c.conn.Close()]: the socket is closed, the field stays. *)
Definition close_socket : M unit :=
  do! c := get in
  match conn_open c with
  | Some _ => modify (set_open (Some false))
  | None => lift (Panic (PRuntime "nil pointer dereference"))
  end.

Definition SetAutoCommit (n : Z) : M unit :=
  do! (err, _) := try (exec (if n =? 0 then "set autocommit = 0" else "set autocommit = 1")) in
  match err with
  | Some e => do! _ := close_socket in fail e
  | None => ret tt
  end.

Definition SetCharset (cs : string) (co : Z) : M unit :=
  let cs := Trim cs (dquote +:+ "'`") in
  let co := if co =? 0 then default 0 (CollationNames !! default "" (Charsets !! cs)) else co in
  do! c := get in
  if String.eqb (charset c) cs && (collation c =? co) then ret tt
  else
    match CharsetIds !! cs, Collations !! co with
    | None, _ => fail (Errorf ("invalid charset " +:+ cs))
    | Some _, None => fail (Errorf ("invalid collation %!s(mysql.CollationId=" +:+ FormatInt co +:+ ")"))
    | Some _, Some name =>
        do! _ := exec ("SET NAMES " +:+ cs +:+ " COLLATE " +:+ name) in
        modify (set_names cs co)
    end.

Definition FieldList (table wildcard : string) : M (list Field) :=
  do! _ := writeCommandStrStr COM_FIELD_LIST table wildcard in
  do! data := readPacket in
  do! first := lift (at_ data 0) in
  if first =? ERR_HEADER then fail_with (handleErrorPacket data)
  else
    each_packet (fun fs data => do! f := lift (Parse data) in ret (fs ++ [f])) (fun fs _ => ret fs) [].

(** ** Prepared statements *)
Record Stmt := mkStmt { Stmt_id : Z; Stmt_params : Z; Stmt_columns : Z }.

Definition Prepare (query : string) : M Stmt :=
  do! _ := writeCommandStr COM_STMT_PREPARE query in
  do! data := readPacket in
  do! first := lift (at_ data 0) in
  if first =? ERR_HEADER then fail_with (handleErrorPacket data)
  else if negb (first =? OK_HEADER) then fail MyErrMalformPacket
  else
    do! id := lift (le_at data 1 4) in
    do! columns := lift (le_at data 5 2) in
    do! params := lift (le_at data 7 2) in
    do! _ := (if 0 <? params then readUntilEOF else ret tt) in
    do! _ := (if 0 <? columns then readUntilEOF else ret tt) in
    ret (mkStmt id params columns).

Definition ClosePrepare (id : Z) : M unit := writeCommandUint32 COM_STMT_CLOSE id.

Context `{FloatBits}.

Definition Stmt_Execute (s : Stmt) (args : list value) : M Result :=
  do! data := lift (Stmt_write (Stmt_id s) (Stmt_params s) args) in
  do! _ := modify reset_Sequence in
  do! _ := writePacket (header ++ data) in
  readResult true.
Definition Stmt_Close (s : Stmt) : M unit := writeCommandUint32 COM_STMT_CLOSE (Stmt_id s).

Definition Execute (command : string) (args : list value) : M Result :=
  match args with
  | [] => exec command
  | _ =>
      do! s := Prepare command in
      do! (err, r) := try (Stmt_Execute s args) in
      do! _ := try (Stmt_Close s) in
      match err, r with
      | None, Some r => ret r
      | Some e, _ => fail e
      | None, None => lift (Panic (PRuntime "no result"))
      end
  end.

(** ** The handshake *)
Definition readInitialHandshake : M unit :=
  do! data := readPacket in
  do! first := lift (at_ data 0) in
  if first =? ERR_HEADER then fail (Errorf "read initial handshake error")
  else if first <? MinProtocolVersion then
    fail (Errorf ("invalid protocol version " +:+ FormatInt first +:+ ", must >= 10"))
  else
    do! version := lift (from data 1) in
    let pos := 1 + IndexByte version 0 + 1 + 4 in
    do! part1 := lift (slice data pos (pos + 8)) in
    do! _ := modify (fun c => set_salt (salt c ++ part1) c) in
    let pos := pos + 8 + 1 in
    do! low := lift (le_at data pos 2) in
    do! _ := modify (set_capability low) in
    let pos := pos + 2 in
    if pos <? blen data then
      let pos := pos + 1 in
      do! _ := read_status data pos in
      let pos := pos + 2 in
      do! high := lift (le_at data pos 2) in
      do! _ := modify (set_capability (Z.lor (Z.shiftl high 16) low)) in
      let pos := pos + 2 + 10 + 1 in
      do! part2 := lift (slice data pos (pos + 12)) in
      modify (fun c => set_salt (salt c ++ part2) c)
    else ret tt.

Definition writeAuthHandshake : M unit :=
  do! c := get in
  let supported :=
    Z.lor (Z.lor (Z.lor (Z.lor CLIENT_PROTOCOL_41 CLIENT_SECURE_CONNECTION) CLIENT_LONG_PASSWORD)
             CLIENT_TRANSACTIONS) CLIENT_LONG_FLAG in
  let cap := Z.land supported (capability c) in
  let auth := CalcPassword (salt c) (bytes_of (password c)) in
  let cap := if 0 <? slen (db c) then Z.lor cap CLIENT_CONNECT_WITH_DB else cap in
  do! _ := modify (set_capability cap) in
  writePacket
    (header ++ put_le 4 cap ++ [0; 0; 0; 0] ++ [u8 (collation c)] ++ replicate 23 0 ++
     bytes_of (user c) ++ [0] ++ [u8 (blen auth)] ++ auth ++
     (if 0 <? slen (db c) then bytes_of (db c) ++ [0] else [])).

(** [try m], and on an error the socket is closed. *)
Definition or_close {A} (m : M A) : M unit :=
  do! (err, _) := try m in
  match err with Some e => do! _ := close_socket in fail e | None => ret tt end.

(** [ReConnect]; [dialed] is what [net.Dial] answers, the server's bytes
    and the writer to it.  The assertion that it is a [TCPConn] fails on
    a unix socket, which an address with a slash asks for. *)
Definition ReConnect (dialed : res error (bytes * W)) : M unit :=
  do! c := get in
  do! _ := (match conn_open c with Some _ => close_socket | None => ret tt end) in
  do! (input, conn) := lift dialed in
  if schar_in "/" (addr c) then lift (Panic (PRuntime "interface conversion"))
  else
    do! _ := modify (fun c => set_open (Some true) (set_pkg (NewPacketIO input conn) c)) in
    do! _ := or_close readInitialHandshake in
    do! _ := or_close writeAuthHandshake in
    do! _ := or_close readOK in
    SetAutoCommit 1.

Definition Connect (dialed : res error (bytes * W)) (address user' password' db' : string) : M unit :=
  do! _ := modify (fun c =>
    mkConn (conn_open c) (pkg c) address user' password' db' (capability c) (status c)
      DEFAULT_COLLATION_ID DEFAULT_CHARSET (salt c) (pkgErr c)) in
  ReConnect dialed.

(** [Close] *)
Definition Close : M unit :=
  modify (fun c =>
    match conn_open c with
    | Some _ => set_salt [] (set_pkgErr None (set_open None c))
    | None => c
    end).

(** ** What the pool asks of a connection ([backend/db.go]) *)
Definition IsAutoCommit (c : Conn W) : bool := 0 <? Z.land (status c) SERVER_STATUS_AUTOCOMMIT.
Definition IsInTransaction (c : Conn W) : bool := 0 <? Z.land (status c) SERVER_STATUS_IN_TRANS.

Definition tryReuse : M unit :=
  do! c := get in
  do! _ := (if IsInTransaction c then Rollback else ret tt) in
  do! c := get in
  do! _ := (if IsAutoCommit c then ret tt else do! _ := exec "set autocommit = 1" in ret tt) in
  do! c := get in
  if String.eqb (charset c) DEFAULT_CHARSET then ret tt
  else SetCharset DEFAULT_CHARSET DEFAULT_COLLATION_ID.
End Conn.
