(* ===== verification/ClientIO.v ===== *)
(** * The client's side of the wire ([proxy/server/conn.go], [conn_resultset.go],
      [conn_select.go], [conn_stmt.go])

    [ClientIO] is the part of a [ClientConn] that talks to the client: the
    greeting, the client's answer to it, and the packets of every
    response.  [write_response] puts the responses of [Session] on the
    wire. *)
From S2P Require Import Prelude Errors StateM GoLib GoFmt ErrTables Charset Wire GoHash Packet Field Resultset.
From S2P Require Import Conn Session.
Open Scope Z_scope.

Definition ServerVersion : string := "5.6.20-kingshard".
Definition DEFAULT_CAPABILITY : Z :=
  Z.lor (Z.lor (Z.lor (Z.lor (Z.lor CLIENT_LONG_PASSWORD CLIENT_LONG_FLAG) CLIENT_CONNECT_WITH_DB)
                  CLIENT_PROTOCOL_41) CLIENT_TRANSACTIONS) CLIENT_SECURE_CONNECTION.

Record ClientIO (W : Type) := mkClientIO {
  io_pkg : PacketIO W; io_connectionId : Z; io_salt : bytes; io_remote : string;
  io_capability : Z; io_status : Z; io_user : string; io_db : string
}.
Arguments mkClientIO {W} _ _ _ _ _ _ _ _.
Arguments io_pkg {W} _.
Arguments io_connectionId {W} _.
Arguments io_salt {W} _.
Arguments io_remote {W} _.
Arguments io_capability {W} _.
Arguments io_status {W} _.
Arguments io_user {W} _.
Arguments io_db {W} _.

Section ClientIO.
Context {W : Type} `{Writer W}.
Abbreviation M := (ST (ClientIO W)).

Definition set_pkg (p : PacketIO W) (c : ClientIO W) : ClientIO W :=
  mkClientIO p (io_connectionId c) (io_salt c) (io_remote c) (io_capability c) (io_status c) (io_user c) (io_db c).
Definition set_capability (v : Z) (c : ClientIO W) : ClientIO W :=
  mkClientIO (io_pkg c) (io_connectionId c) (io_salt c) (io_remote c) v (io_status c) (io_user c) (io_db c).
Definition set_user (v : string) (c : ClientIO W) : ClientIO W :=
  mkClientIO (io_pkg c) (io_connectionId c) (io_salt c) (io_remote c) (io_capability c) (io_status c) v (io_db c).
Definition set_db (v : string) (c : ClientIO W) : ClientIO W :=
  mkClientIO (io_pkg c) (io_connectionId c) (io_salt c) (io_remote c) (io_capability c) (io_status c) (io_user c) v.
Definition reset_Sequence (c : ClientIO W) : ClientIO W :=
  set_pkg (mkPacketIO (rb (io_pkg c)) (wb (io_pkg c)) 0) c.

Definition on_pkg {A} (f : PacketIO W -> PacketIO W * res error A) : M A := fun c =>
  let '(p, r) := f (io_pkg c) in (set_pkg p c, r).
Definition readPacket : M bytes := on_pkg ReadPacket.
Definition writePacket (data : bytes) : M unit := on_pkg (fun p => WritePacket p data).
Definition writePacketBatch (total : bytes) (data : option bytes) (direct : bool) : M bytes :=
  on_pkg (fun p => WritePacketBatch p total data direct).

(** ** Responses

    [41] bytes are written to a client of the 4.1 protocol only.  The slice
    [data[0:4]] kept for the header holds what was there; the writer fills
    it in. *)
Definition if_41 (c : ClientIO W) (b : bytes) : bytes :=
  if 0 <? Z.land (io_capability c) CLIENT_PROTOCOL_41 then b else [].

Definition writeOK (r : option Result) : M unit :=
  do! c := get in
  let r := default (mkResult (io_status c) 0 0 None) r in
  writePacket (header ++ [OK_HEADER] ++ PutLengthEncodedInt (AffectedRows r) ++
               PutLengthEncodedInt (InsertId r) ++ if_41 c (put_le 2 (Status r) ++ [0; 0])).

(** [client_error] of [Stmt] is the [SqlError] of any error. *)
Definition writeError (m : SqlError) : M unit :=
  do! c := get in
  writePacket (header ++ [ERR_HEADER] ++ put_le 2 (SqlError_Code m) ++
               if_41 c ([35] ++ bytes_of (SqlError_State m)) ++ bytes_of (SqlError_Message m)).

Definition eof_payload (c : ClientIO W) (status : Z) : bytes :=
  [EOF_HEADER] ++ if_41 c ([0; 0] ++ put_le 2 status).
Definition writeEOF (status : Z) : M unit :=
  do! c := get in writePacket (header ++ eof_payload c status).
Definition writeEOFBatch (total : bytes) (status : Z) (direct : bool) : M bytes :=
  do! c := get in writePacketBatch total (Some (header ++ eof_payload c status)) direct.

(** [for ... { data = append(data[0:4], payload...); total = batch }] *)
Fixpoint batch_all (total : bytes) (payloads : list bytes) : M bytes :=
  match payloads with
  | [] => ret total
  | payload :: payloads =>
      do! total := writePacketBatch total (Some (header ++ payload)) false in batch_all total payloads
  end.

Definition writeResultset (status : Z) (r : Resultset) : M unit :=
  do! total := writePacketBatch [] (Some (header ++ PutLengthEncodedInt (Z.of_nat (length (Fields r))))) false in
  do! total := batch_all total (Dump <$> Fields r) in
  do! total := writeEOFBatch total status false in
  do! total := batch_all total (RowDatas r) in
  do! _ := writeEOFBatch total status true in
  ret tt.

Definition writeFieldList (status : Z) (fs : list Field) : M unit :=
  do! total := batch_all [] (Dump <$> fs) in
  do! _ := writeEOFBatch total status true in
  ret tt.

(** [init] *)
Definition nameless_field (name : bytes) : Field := mkField None [] [] [] name [] 0 0 0 0 0 0 None.
Definition paramFieldData : bytes := Dump (nameless_field (bytes_of "?")).
Definition columnFieldData : bytes := Dump (nameless_field []).

(** The fields of a prepared statement, and their end-of-file packet; the
    counts are [int]s, a negative one writes nothing. *)
Definition prepare_fields (total : bytes) (n : Z) (payload : bytes) (status : Z) : M bytes :=
  if 0 <? n then
    do! total := batch_all total (replicate (Z.to_nat n) payload) in writeEOFBatch total status false
  else ret total.

Definition writePrepare (id columns params : Z) : M unit :=
  do! total := writePacketBatch []
    (Some (header ++ [0] ++ Uint32ToBytes id ++ Uint16ToBytes columns ++ Uint16ToBytes params ++ [0] ++ [0; 0])) false in
  do! c := get in
  do! total := prepare_fields total params paramFieldData (io_status c) in
  do! total := prepare_fields total columns columnFieldData (io_status c) in
  do! _ := writePacketBatch total None true in
  ret tt.

(** What a handler answers, on the wire.  The status of the connection
    travels with the response. *)
Definition write_response (r : response) : M unit :=
  match r with
  | ROk st affectedRows insertId => writeOK (Some (mkResult st insertId affectedRows None))
  | RResultset st r => writeResultset st r
  | RFields st fs => writeFieldList st fs
  | RPrepare id columns params st =>
      do! _ := modify (fun c =>
        mkClientIO (io_pkg c) (io_connectionId c) (io_salt c) (io_remote c) (io_capability c) st (io_user c) (io_db c)) in
      writePrepare id columns params
  | RError e => writeError e
  | REOF st => writeEOF st
  end.

(** ** The handshake *)
Definition writeInitialHandshake : M unit :=
  do! c := get in
  do! part1 := lift (slice (io_salt c) 0 8) in
  do! part2 := lift (from (io_salt c) 8) in
  writePacket
    (header ++ [10] ++ bytes_of ServerVersion ++ [0] ++ put_le 4 (io_connectionId c) ++ part1 ++ [0] ++
     put_le 2 DEFAULT_CAPABILITY ++ [u8 DEFAULT_COLLATION_ID] ++ put_le 2 (io_status c) ++
     put_le 2 (Z.shiftr DEFAULT_CAPABILITY 16) ++ [0x15] ++ replicate 10 0 ++ part2 ++ [0]).

(** [data[pos : pos+bytes.IndexByte(data[pos:], 0)]] *)
Definition cstring (data : bytes) (pos : Z) : res error string :=
  let* b := from data pos in
  let* s := slice data pos (pos + IndexByte b 0) in Ok (string_of s).

Section Users.
(** [c.proxy.users]: the passwords by user. *)
Variable users : gmap string string.

Definition access_denied {A} (c : ClientIO W) : M A :=
  fail (ErrSqlError (NewDefaultError ER_ACCESS_DENIED_ERROR
                       [ArgString (io_user c); ArgString (io_remote c); ArgString "Yes"])).

Definition readHandshakeResponse : M unit :=
  do! data := readPacket in
  do! cap := lift (le_at data 0 4) in
  do! _ := modify (set_capability cap) in
  let pos := 4 + 4 + 1 + 23 in
  do! name := lift (cstring data pos) in
  do! _ := modify (set_user name) in
  let pos := pos + slen name + 1 in
  do! authLen := lift (at_ data pos) in
  let pos := pos + 1 in
  do! auth := lift (slice data pos (pos + authLen)) in
  do! c := get in
  match users !! io_user c with
  | None => access_denied c
  | Some configured =>
      let checkAuth := CalcPassword (io_salt c) (bytes_of configured) in
      if negb (bool_decide (auth = checkAuth)) then access_denied c
      else
        let pos := pos + authLen in
        if 0 <? Z.land (io_capability c) CLIENT_CONNECT_WITH_DB then
          do! rest := lift (from data pos) in
          if blen rest =? 0 then ret tt
          else do! d := lift (cstring data pos) in modify (set_db d)
        else modify (set_db "")
  end.

(** [Handshake] *)
Definition Handshake : M unit :=
  do! _ := writeInitialHandshake in
  do! _ := readHandshakeResponse in
  do! _ := writeOK None in
  modify reset_Sequence.
End Users.
End ClientIO.
