(* ===== verification/WireFacts.v ===== *)
(** * What responses are on the wire, and how they are read

    The writer's half: every response is a list of payloads, sent as
    packets with consecutive sequence numbers.  The reader's half: the
    loops of [Conn] on packets that arrive whole. *)
From S2P Require Import Prelude Errors StateM GoLib ErrTables Wire Packet Field Resultset ResultBuild.
From S2P Require Import Conn Session ClientIO.
Open Scope Z_scope.

(** ** Writing *)
Section Writing.
Context {W : Type} `{Writer W}.
Implicit Types c : ClientIO W.

(** [l] was sent: nothing was read, and the sequence numbers follow. *)
Definition sent_packets (l : list bytes) (p p' : PacketIO W) : Prop :=
  rb p' = rb p /\ Sequence p' = after (Sequence p) l /\ sent (wb p') = sent (wb p) ++ packets (Sequence p) l.

(** A method that sends [l], or fails as a broken connection does. *)
Definition sends (l : list bytes) (c c' : ClientIO W) (r : res error unit) : Prop :=
  r = Err MyErrBadConn \/ r = Ok tt /\ sent_packets l (io_pkg c) (io_pkg c').

Lemma writePacket_sends payload c c' r :
  ClientIO.writePacket (header ++ payload) c = (c', r) -> sends [payload] c c' r.
Proof.
  unfold ClientIO.writePacket, on_pkg. destruct (WritePacket _ _) as [p r0] eqn:E. intros [= <- <-].
  apply WritePacket_packet in E as (Hrb & [->|(-> & Hs & Hq)]); [by left| |done]. right. split; [done|].
  split; [done|]. cbn. by rewrite app_nil_r.
Qed.

(** The state of a batch: nothing is sent yet. *)
Definition batched (l : list bytes) c : ClientIO W :=
  ClientIO.set_pkg (mkPacketIO (rb (io_pkg c)) (wb (io_pkg c)) (after (Sequence (io_pkg c)) l)) c.

Lemma batched_app l l' c : batched l' (batched l c) = batched (l ++ l') c.
Proof. unfold batched. cbn. by rewrite after_app. Qed.
Lemma if_41_batched l c b : if_41 (batched l c) b = if_41 c b.
Proof. done. Qed.

Lemma batch_one total payload c :
  writePacketBatch total (Some (header ++ payload)) false c =
    (batched [payload] c, Ok (total ++ packets (Sequence (io_pkg c)) [payload])).
Proof.
  unfold writePacketBatch, on_pkg. rewrite WritePacketBatch_packet by done. cbn. by rewrite app_nil_r.
Qed.

Lemma batch_all_batched total l c :
  batch_all total l c = (batched l c, Ok (total ++ packets (Sequence (io_pkg c)) l)).
Proof.
  revert total c. induction l as [|x l IH]; intros total c.
  - cbn. rewrite app_nil_r. by destruct c as [[]].
  - cbn [batch_all]. erewrite bind_Ok by apply batch_one. rewrite IH, batched_app. cbn [app].
    do 2 f_equal. rewrite <- app_assoc. cbn. by rewrite app_nil_r.
Qed.

(** The end of a batch sends all of it. *)
Lemma batch_sent l c data c' r :
  writePacketBatch (packets (Sequence (io_pkg c)) l) data true (batched l c) = (c', r) ->
  (data = None \/ exists payload, data = Some (header ++ payload)) ->
  (forall total, r = Ok total -> sends (l ++ match data with Some d => [drop 4 d] | None => [] end) c c' (Ok tt)) /\
  (forall e, r = Err e -> e = MyErrBadConn) /\ (forall p, r <> Panic p).
Proof.
  intros Hw Hd. set (l' := match data with Some d => [drop 4 d] | None => [] end).
  assert (exists p0, rb p0 = rb (io_pkg c) /\ wb p0 = wb (io_pkg c) /\ Sequence p0 = after (Sequence (io_pkg c)) (l ++ l') /\
            on_pkg (fun p => flush p0 (packets (Sequence (io_pkg c)) (l ++ l')) true) (batched l c) = (c', r))
    as (p0 & Hrb & Hwb & Hq & E).
  { unfold writePacketBatch, on_pkg in Hw. destruct Hd as [->|[payload ->]]; unfold l'; cbn [drop].
    - rewrite app_nil_r. cbn in Hw. eexists. split; [|split; [|split; [|exact Hw]]]; done.
    - rewrite WritePacketBatch_packet in Hw by done. unfold on_pkg. rewrite after_app, packets_app.
      cbn [packets after io_pkg batched ClientIO.set_pkg Sequence rb wb] in Hw |- *. rewrite app_nil_r.
      eexists. split; [|split; [|split; [|exact Hw]]]; done. }
  unfold on_pkg, flush in E. destruct (write_all _ _) as [p1 r1] eqn:Ew.
  apply write_all_inv in Ew as (Hrb' & Hq' & [[-> Hs]| ->]); injection E as <- <-;
    (split; [|split; [|done]]); try done; [|by intros ? [= <-]].
  intros total _. right. split; [done|]. cbn [io_pkg ClientIO.set_pkg]. split; [congruence|].
  split; [by rewrite Hq', Hq|]. by rewrite Hs, Hwb.
Qed.

(** A batch that ends with a last packet. *)
Lemma batch_end l payload c c' r :
  (do! _ := writePacketBatch (packets (Sequence (io_pkg c)) l) (Some (header ++ payload)) true in ret tt)
    (batched l c) = (c', r) -> sends (l ++ [payload]) c c' r.
Proof.
  unfold bind. destruct (writePacketBatch _ _ _ _) as [c1 r1] eqn:E.
  apply batch_sent in E as (Hok & Herr & Hp); [|by right; eexists].
  destruct r1 as [total|e|p]; intros [= <- <-]; [by eapply Hok | left; by rewrite (Herr e) | by destruct (Hp p)].
Qed.

(** ** The payloads of a response *)
Definition ok_payload c (st affectedRows insertId : Z) : bytes :=
  [OK_HEADER] ++ PutLengthEncodedInt affectedRows ++ PutLengthEncodedInt insertId ++ if_41 c (put_le 2 st ++ [0; 0]).
Definition error_payload c (e : SqlError) : bytes :=
  [ERR_HEADER] ++ put_le 2 (SqlError_Code e) ++ if_41 c ([35] ++ bytes_of (SqlError_State e)) ++
  bytes_of (SqlError_Message e).
Definition prepare_payload (id columns params : Z) : bytes :=
  [0] ++ Uint32ToBytes id ++ Uint16ToBytes columns ++ Uint16ToBytes params ++ [0] ++ [0; 0].
Definition fields_payloads c (n : Z) (payload : bytes) (st : Z) : list bytes :=
  if 0 <? n then replicate (Z.to_nat n) payload ++ [eof_payload c st] else [].

Definition payloads c (r : response) : list bytes :=
  match r with
  | ROk st affectedRows insertId => [ok_payload c st affectedRows insertId]
  | RResultset st r =>
      [PutLengthEncodedInt (Z.of_nat (length (Fields r)))] ++ (Dump <$> Fields r) ++ [eof_payload c st] ++
      RowDatas r ++ [eof_payload c st]
  | RFields st fs => (Dump <$> fs) ++ [eof_payload c st]
  | RPrepare id columns params st =>
      [prepare_payload id columns params] ++ fields_payloads c params paramFieldData st ++
      fields_payloads c columns columnFieldData st
  | RError e => [error_payload c e]
  | REOF st => [eof_payload c st]
  end.

Lemma writeEOFBatch_one total st c :
  writeEOFBatch total st false c =
    (batched [eof_payload c st] c, Ok (total ++ packets (Sequence (io_pkg c)) [eof_payload c st])).
Proof. apply batch_one. Qed.

Lemma prepare_fields_batched l n payload st c :
  prepare_fields (packets (Sequence (io_pkg c)) l) n payload st (batched l c) =
    (batched (l ++ fields_payloads c n payload st) c,
     Ok (packets (Sequence (io_pkg c)) (l ++ fields_payloads c n payload st))).
Proof.
  unfold prepare_fields, fields_payloads. case_if.
  - erewrite bind_Ok by apply batch_all_batched. rewrite writeEOFBatch_one.
    change (io_pkg (batched (replicate (Z.to_nat n) payload) (batched l c))) with
      (mkPacketIO (rb (io_pkg c)) (wb (io_pkg c)) (after (after (Sequence (io_pkg c)) l) (replicate (Z.to_nat n) payload))).
    change (eof_payload (batched (replicate (Z.to_nat n) payload) (batched l c)) st) with (eof_payload c st).
    rewrite !batched_app. cbn [Sequence io_pkg batched ClientIO.set_pkg].
    do 2 f_equal. rewrite !packets_app. by rewrite <- !app_assoc.
  - by rewrite app_nil_r.
Qed.

Lemma writeResultset_sends st r c c' res :
  ClientIO.writeResultset st r c = (c', res) -> sends (payloads c (RResultset st r)) c c' res.
Proof.
  unfold ClientIO.writeResultset. erewrite bind_Ok by apply batch_one. rewrite app_nil_l.
  erewrite bind_Ok by apply batch_all_batched. rewrite batched_app.
  change (Sequence (io_pkg (batched ?l c))) with (after (Sequence (io_pkg c)) l).
  rewrite <- packets_app. erewrite bind_Ok by apply writeEOFBatch_one. rewrite batched_app.
  change (Sequence (io_pkg (batched ?l c))) with (after (Sequence (io_pkg c)) l).
  rewrite <- packets_app. erewrite bind_Ok by apply batch_all_batched. rewrite batched_app.
  change (Sequence (io_pkg (batched ?l c))) with (after (Sequence (io_pkg c)) l).
  rewrite <- packets_app. unfold writeEOFBatch. intros Hw.
  change (eof_payload (batched ?l c) st) with (eof_payload c st) in Hw.
  apply (batch_end _ (eof_payload c st)) in Hw. unfold payloads. by rewrite <- !app_assoc in Hw.
Qed.

Lemma writeFieldList_sends st fs c c' res :
  ClientIO.writeFieldList st fs c = (c', res) -> sends (payloads c (RFields st fs)) c c' res.
Proof.
  unfold writeFieldList. erewrite bind_Ok by apply batch_all_batched. rewrite app_nil_l.
  intros Hw. by apply (batch_end _ (eof_payload c st)) in Hw.
Qed.

Lemma writePrepare_sends id columns params c c' res :
  writePrepare id columns params c = (c', res) ->
  sends (payloads c (RPrepare id columns params (io_status c))) c c' res.
Proof.
  unfold writePrepare. erewrite bind_Ok by apply batch_one. rewrite app_nil_l.
  erewrite bind_Ok by done. change (io_status (batched ?l c)) with (io_status c).
  erewrite bind_Ok by apply prepare_fields_batched. erewrite bind_Ok by apply prepare_fields_batched.
  unfold bind. destruct (writePacketBatch _ _ _ _) as [c1 r1] eqn:E.
  apply batch_sent in E as (Hok & Herr & Hp); [|by left].
  destruct r1 as [total|e|p]; intros [= <- <-]; [|left; by rewrite (Herr e) | by destruct (Hp p)].
  specialize (Hok total eq_refl). rewrite app_nil_r, <- app_assoc in Hok. exact Hok.
Qed.

Lemma write_response_sends resp c c' r :
  write_response resp c = (c', r) -> sends (payloads c resp) c c' r.
Proof.
  destruct resp as [st aff id | st rs | st fs | id columns params st | e | st]; cbn [write_response]; intros Hw.
  - exact (writePacket_sends (ok_payload c st aff id) c c' r Hw).
  - by apply writeResultset_sends.
  - by apply writeFieldList_sends.
  - erewrite bind_Ok in Hw by done. apply writePrepare_sends in Hw. exact Hw.
  - exact (writePacket_sends (error_payload c e) c c' r Hw).
  - exact (writePacket_sends (eof_payload c st) c c' r Hw).
Qed.
End Writing.

(** ** Reading *)
Section Reading.
Context {W : Type} `{Writer W} `{GoFloat}.
Implicit Types c : Conn W.

(** The connection after packets [l], with [rest] still to come. *)
Definition took (l : list bytes) (rest : bytes) c : Conn W :=
  Conn.set_pkgErr None (Conn.set_pkg (mkPacketIO rest (wb (pkg c)) (after (Sequence (pkg c)) l)) c).

(** What is still to come are the packets [l], then [rest]. *)
Definition awaits (l : list bytes) (rest : bytes) c : Prop :=
  Forall readable l /\ rb (pkg c) = packets (Sequence (pkg c)) l ++ rest.

Lemma took_app l l' rest rest' c : took l' rest' (took l rest c) = took (l ++ l') rest' c.
Proof. unfold took. cbn. by rewrite after_app. Qed.

Lemma readPacket_awaits x l rest c :
  awaits (x :: l) rest c ->
  exists rest', Conn.readPacket c = (took [x] rest' c, Ok x) /\ awaits l rest (took [x] rest' c).
Proof.
  intros [Hr Hp]. inversion Hr as [|? ? Hx Hl]; subst. cbn [packets] in Hp. rewrite <- app_assoc in Hp.
  unfold Conn.readPacket. rewrite (ReadPacket_packet _ _ _ Hx Hp). by eexists.
Qed.

Lemma awaits_took_nil rest c : awaits [] rest c -> rb (pkg c) = rest.
Proof. by intros [_ ?]. Qed.
Lemma awaits_rest l rest rest' c : awaits [] rest (took l rest' c) -> rest' = rest.
Proof. by intros [_ ?]. Qed.
Lemma awaits_length l rest c : awaits l rest c -> (length l <= length (rb (pkg c)))%nat.
Proof. intros [Hr ->]. rewrite length_app. pose proof (length_packets (Sequence (pkg c)) l Hr). lia. Qed.

(** [f] works through [l] from [a] to [a'], leaving the connection alone. *)
Fixpoint folds {A} (f : A -> bytes -> ST (Conn W) A) (a : A) (l : list bytes) (a' : A) : Prop :=
  match l with
  | [] => a' = a
  | x :: l => exists a1, (forall c, f a x c = (c, Ok a1)) /\ folds f a1 l a'
  end.

Lemma until_eof_reads {A B} fuel (f : A -> bytes -> ST (Conn W) A) (k : A -> bytes -> ST (Conn W) B) a a' l eof l' rest c :
  folds f a l a' -> Forall (fun x => isEOFPacket x = Ok false) l -> isEOFPacket eof = Ok true ->
  awaits (l ++ eof :: l') rest c -> (length l < fuel)%nat ->
  exists rest', until_eof fuel f k a c = k a' eof (took (l ++ [eof]) rest' c) /\ awaits l' rest (took (l ++ [eof]) rest' c).
Proof.
  revert fuel a c. induction l as [|x l IH]; intros fuel a c Hf Hl Heof Hc Hfuel; (destruct fuel as [|fuel]; [by inversion Hfuel|]);
    cbn [until_eof app] in *; destruct (readPacket_awaits _ _ _ _ Hc) as (rest1 & E & Hc1).
  - exists rest1. split; [|done]. erewrite bind_Ok by exact E.
    erewrite bind_Ok by (unfold lift; by rewrite Heof). cbn in Hf. by subst a'.
  - destruct Hf as (a1 & Hx & Hf). inversion Hl as [|? ? Hne Hl']; subst.
    destruct (IH fuel a1 _ Hf Hl' Heof Hc1 ltac:(cbn in Hfuel; lia)) as (rest2 & E2 & Hc2).
    exists rest2. rewrite took_app in E2, Hc2. split; [|done]. erewrite bind_Ok by exact E.
    erewrite bind_Ok by (unfold lift; by rewrite Hne). cbv iota. erewrite bind_Ok by apply Hx. exact E2.
Qed.

Lemma each_packet_reads {A B} (f : A -> bytes -> ST (Conn W) A) (k : A -> bytes -> ST (Conn W) B) a a' l eof l' rest c :
  folds f a l a' -> Forall (fun x => isEOFPacket x = Ok false) l -> isEOFPacket eof = Ok true ->
  awaits (l ++ eof :: l') rest c ->
  exists rest', each_packet f k a c = k a' eof (took (l ++ [eof]) rest' c) /\ awaits l' rest (took (l ++ [eof]) rest' c).
Proof.
  intros Hf Hl Heof Hc. pose proof (awaits_length _ _ _ Hc) as Hlen. rewrite length_app in Hlen.
  cbn [length] in Hlen. eapply until_eof_reads; try done. lia.
Qed.

(** ** Which packets end a loop *)
Lemma LengthEncodedInt_not_eof b r : LengthEncodedInt b = Ok r -> isEOFPacket b = Ok false.
Proof.
  unfold LengthEncodedInt, isEOFPacket. intros Hr. apply rbind_Ok_inv in Hr as (first & -> & Hr). cbn [rbind].
  destruct (Z.eqb_spec first EOF_HEADER) as [->|]; [|done]. cbn in Hr.
  apply rbind_Ok_inv in Hr as (num & Hn & _). unfold le_at in Hn. case_if_in Hn; [|done].
  unfold EOF_HEADER. cbn [andb]. by replace (blen b <=? 5) with false by lia.
Qed.

Lemma LengthEnodedString_int b r : LengthEnodedString b = Ok r -> exists i, LengthEncodedInt b = Ok i.
Proof. unfold LengthEnodedString. intros Hr. apply rbind_Ok_inv in Hr as (i & Hi & _). by exists i. Qed.

Lemma Parse_not_eof x f : Parse x = Ok f -> isEOFPacket x = Ok false.
Proof.
  unfold Parse, SkipLengthEnodedString. intros Hf. apply rbind_Ok_inv in Hf as (pos & Hp & _).
  apply rbind_Ok_inv in Hp as (i & Hi & _). by eapply LengthEncodedInt_not_eof.
Qed.

Lemma row_not_eof row fs binary vs :
  fs <> [] -> RowData_Parse row fs binary = Ok vs -> isEOFPacket row = Ok false.
Proof.
  unfold RowData_Parse. destruct binary; intros Hfs Hr.
  - unfold ParseBinary in Hr. apply rbind_Ok_inv in Hr as (b & Hb & Hr). unfold isEOFPacket. rewrite Hb. cbn [rbind].
    destruct (Z.eqb_spec b OK_HEADER) as [->|]; [done|]. done.
  - destruct fs as [|f fs]; [done|]. cbn [ParseText text_values] in Hr. unfold ParseText in Hr. cbn [text_values] in Hr.
    apply rbind_Ok_inv in Hr as (v & Hv & _). unfold lenenc_at in Hv. change (from row 0) with (@from error row 0) in Hv.
    apply rbind_Ok_inv in Hv as (b & Hb & Hv). apply LengthEnodedString_int in Hv as [i Hi].
    unfold from in Hb. case_if_in Hb; [|done]. injection Hb as <-. by eapply LengthEncodedInt_not_eof.
Qed.

(** ** The parts of a result set *)
Lemma columns_fold count xs fs fs0 names :
  Forall2 (fun x f => Parse x = Ok f) xs fs -> Z.of_nat (length fs0 + length fs) <= count ->
  folds (column count) (fs0, names) xs (fs0 ++ fs, field_names (Z.of_nat (length fs0)) fs names).
Proof.
  intros Hp. revert fs0 names. induction Hp as [|x f xs fs Hx Hp IH]; intros fs0 names Hc; cbn [folds field_names].
  - by rewrite app_nil_r.
  - cbn [length] in Hc. eexists. split.
    + intros c. unfold column. rewrite Hx. replace (count <=? _) with false by lia.
      erewrite bind_Ok by done. reflexivity.
    + specialize (IH (fs0 ++ [f]) (<[string_of (Name f) := Z.of_nat (length fs0)]> names)).
      rewrite length_app in IH. cbn [length] in IH. rewrite <- app_assoc in IH. cbn [app] in IH.
      replace (Z.of_nat (length fs0 + 1)) with (Z.of_nat (length fs0) + 1) in IH by lia. apply IH. lia.
Qed.

Lemma rows_packets (rows rows0 : list bytes) :
  folds (fun rows data => ret (rows ++ [data])) rows0 rows (rows0 ++ rows).
Proof.
  revert rows0. induction rows as [|x rows IH]; intros rows0; cbn [folds]; [by rewrite app_nil_r|].
  eexists. split; [done|]. specialize (IH (rows0 ++ [x])). by rewrite <- app_assoc in IH.
Qed.

Lemma parse_rows_all rows fs binary vss :
  Forall2 (fun row vs => RowData_Parse row fs binary = Ok vs) rows vss -> parse_rows rows fs binary = Ok vss.
Proof. induction 1 as [|row vs rows vss Hr Hs IH]; [done|]. cbn. by rewrite Hr, IH. Qed.

(** An end-of-file packet of the 4.1 protocol. *)
Definition eof_41 (st : Z) : bytes := [EOF_HEADER; 0; 0] ++ put_le 2 st.

Lemma isEOFPacket_eof st : isEOFPacket (eof_41 st) = Ok true.
Proof. done. Qed.
Lemma eof_41_readable st : readable (eof_41 st).
Proof. apply readable_short. pose proof MaxPayloadLen_eq. change (blen (eof_41 st)) with 5. lia. Qed.

Lemma read_status_at pre st rest pos c :
  blen pre = pos -> 0 <= st < 2 ^ 16 ->
  read_status (pre ++ put_le 2 st ++ rest) pos c = (Conn.set_status st c, Ok st).
Proof.
  intros Hp Hs. unfold read_status, bind, lift.
  by rewrite (le_at_put (pre ++ put_le 2 st ++ rest) pos pre 2 st rest eq_refl Hp ltac:(lia) Hs).
Qed.

Lemma eof_status_41 old st c :
  can CLIENT_PROTOCOL_41 c = true -> 0 <= st < 2 ^ 16 ->
  eof_status old (eof_41 st) c = (Conn.set_status st c, Ok st).
Proof.
  intros Hc Hs. unfold eof_status. erewrite bind_Ok by done. rewrite Hc. unfold eof_41.
  rewrite <- (app_nil_r (put_le 2 st)). by apply read_status_at.
Qed.
End Reading.
