(* ===== verification/WireTheorems.v ===== *)
(** * The two halves of the protocol agree

    The proxy is a server to its clients ([ClientIO]) and a client of the
    MySQL servers behind it ([Conn]).  Connected to each other the two
    halves understand every command and response. *)
From S2P Require Import Prelude Errors StateM GoLib ErrTables Wire Packet Field Resultset ResultBuild.
From S2P Require Import Session Conn ClientIO WireFacts.
Open Scope Z_scope.

Section Agreement.
Context {V W : Type} `{Writer V} `{Writer W} `{GoFloat}.
Implicit Types f : ClientIO V.
Implicit Types c : Conn W.

Definition speaks_41 f : Prop := (0 <? Z.land (io_capability f) CLIENT_PROTOCOL_41) = true.
Definition u16_range (n : Z) : Prop := 0 <= n < 2 ^ 16.

(** How a response is understood.  The rows of a result set have to parse;
    a response whose packets do not arrive whole is left out. *)
Inductive understood (binary : bool) : response -> res error Result -> Prop :=
| understood_ok st affectedRows insertId :
    u16_range st -> in_u64 affectedRows -> in_u64 insertId ->
    understood binary (ROk st affectedRows insertId) (Ok (mkResult st insertId affectedRows None))
| understood_error e :
    u16_range (SqlError_Code e) -> String.length (SqlError_State e) = 5%nat ->
    slen (SqlError_Message e) < MaxPayloadLen - 9 ->
    understood binary (RError e) (Err (ErrSqlError e))
| understood_resultset st rs fs vss :
    u16_range st -> Fields rs <> [] -> in_u64 (Z.of_nat (length (Fields rs))) ->
    Forall2 (fun (x y : Field) => Parse (Dump x) = Ok y) (Fields rs) fs ->
    Forall2 (fun row vs => RowData_Parse row fs binary = Ok vs) (RowDatas rs) vss ->
    Forall readable (Dump <$> Fields rs) -> Forall readable (RowDatas rs) ->
    understood binary (RResultset st rs)
      (Ok (mkResult st 0 0 (Some (mkResultset fs (field_names 0 fs ∅) vss (RowDatas rs))))).

Lemma if_41_speaks f b : speaks_41 f -> if_41 f b = b.
Proof. unfold speaks_41, if_41. by intros ->. Qed.

Lemma eof_payload_41 f st : speaks_41 f -> eof_payload f st = eof_41 st.
Proof. intros Hf. unfold eof_payload. by rewrite if_41_speaks. Qed.

Lemma PutLengthEncodedInt_length n : in_u64 n -> 1 <= blen (PutLengthEncodedInt n) <= 9.
Proof.
  intros [H0' H1']. unfold PutLengthEncodedInt. repeat case_if; rewrite ?blen_cons, ?blen_put_le by lia;
    change (blen []) with 0; lia.
Qed.

(** ** Each response *)
Lemma handleOKPacket_read st affectedRows insertId f c :
  speaks_41 f -> can CLIENT_PROTOCOL_41 c = true -> u16_range st -> in_u64 affectedRows -> in_u64 insertId ->
  handleOKPacket (ok_payload f st affectedRows insertId) c =
    (set_status st c, Ok (mkResult st insertId affectedRows None)).
Proof.
  intros Hf Hc Hs Ha Hi. unfold handleOKPacket, ok_payload. rewrite if_41_speaks by done.
  set (a := PutLengthEncodedInt affectedRows). set (i := PutLengthEncodedInt insertId).
  assert (forall rest, LengthEncodedInt (a ++ rest) = Ok (affectedRows, false, blen a)) as Ea
    by (intros; by apply LengthEncodedInt_put).
  assert (forall rest, LengthEncodedInt (i ++ rest) = Ok (insertId, false, blen i)) as Ei
    by (intros; by apply LengthEncodedInt_put).
  change ([OK_HEADER] ++ a ++ i ++ put_le 2 st ++ [0; 0]) with (parts [[OK_HEADER]; a; i; put_le 2 st; [0; 0]]).
  erewrite bind_Ok; [|unfold lift; rewrite (from_part _ 1) by solve_blen; cbn [rbind drop parts]; by rewrite Ea].
  cbv beta iota.
  erewrite bind_Ok; [|unfold lift; rewrite (from_part _ 2) by solve_blen; cbn [rbind drop parts]; by rewrite Ei].
  cbv beta iota. erewrite bind_Ok by done. cbv beta. rewrite Hc.
  erewrite bind_Ok; [done|]. unfold read_status.
  erewrite bind_Ok; [|unfold lift; by rewrite (le_at_part _ 3 2 st) by (done || solve_blen)].
  by erewrite bind_Ok by done.
Qed.

Lemma handleErrorPacket_read e f c :
  speaks_41 f -> can CLIENT_PROTOCOL_41 c = true -> u16_range (SqlError_Code e) ->
  String.length (SqlError_State e) = 5%nat ->
  handleErrorPacket (error_payload f e) c = (c, Ok (ErrSqlError e)).
Proof.
  intros Hf Hc Hcode Hlen. unfold handleErrorPacket, error_payload. rewrite if_41_speaks, <- app_assoc by done.
  assert (slen (SqlError_State e) = 5) as Ls by (unfold slen; lia).
  set (st := bytes_of (SqlError_State e)). set (msg := bytes_of (SqlError_Message e)).
  change (_ ++ _) with (parts [[ERR_HEADER]; put_le 2 (SqlError_Code e); [35]; st; msg]).
  erewrite bind_Ok; [|unfold lift; by rewrite (le_at_part _ 1 2 (SqlError_Code e)) by (done || solve_blen)].
  erewrite bind_Ok by done. cbv beta. rewrite Hc.
  erewrite bind_Ok; [|unfold lift; rewrite (slice_part _ 3 st); [done | done | solve_blen |
                      unfold st; rewrite blen_bytes_of; lia]].
  erewrite bind_Ok; [|unfold lift; rewrite (from_part _ 4); [done|];
                      unfold st; solve_blen].
  cbn [drop parts]. unfold st, msg. rewrite !string_of_bytes_of. by destruct e.
Qed.

(** The loop of the goal. *)
Ltac on_loop tac :=
  lazymatch goal with |- context [each_packet ?f ?k ?a _] => tac f k a end.

(** The columns and the rows of a result set. *)
Lemma readResultColumns_read cols fs st rows rest c :
  can CLIENT_PROTOCOL_41 c = true -> u16_range st ->
  Forall2 (fun x y => Parse x = Ok y) cols fs ->
  awaits (cols ++ eof_41 st :: rows) rest c ->
  exists rest', readResultColumns (Z.of_nat (length fs)) c =
      (set_status st (took (cols ++ [eof_41 st]) rest' c), Ok (st, fs, field_names 0 fs ∅)) /\
    awaits rows rest (took (cols ++ [eof_41 st]) rest' c).
Proof.
  intros Hc Hst Hcols Hin. unfold readResultColumns.
  on_loop ltac:(fun f k a => edestruct (each_packet_reads f k a) as (rest1 & -> & Hin1));
    [exact (columns_fold (Z.of_nat (length fs)) cols fs [] ∅ Hcols ltac:(cbn; lia))
    | eapply Forall2_Forall_l; [exact Hcols|]; apply Forall_true; intros f' x Hx; by eapply Parse_not_eof
    | apply isEOFPacket_eof | exact Hin |].
  exists rest1. split; [|done]. cbv beta iota. rewrite app_nil_l.
  erewrite bind_Ok by (by apply eof_status_41). by rewrite Z.eqb_refl.
Qed.

Lemma readResultRows_read old fs binary st rows vss rest c :
  can CLIENT_PROTOCOL_41 c = true -> u16_range st -> fs <> [] ->
  Forall2 (fun row vs => RowData_Parse row fs binary = Ok vs) rows vss ->
  awaits (rows ++ [eof_41 st]) rest c ->
  readResultRows old fs binary c = (set_status st (took (rows ++ [eof_41 st]) rest c), Ok (st, rows, vss)).
Proof.
  intros Hc Hst Hne Hrows Hin. unfold readResultRows.
  on_loop ltac:(fun f k a => edestruct (each_packet_reads f k a) as (rest1 & -> & Hin1));
    [exact (rows_packets rows [])
    | eapply Forall2_Forall_l; [exact Hrows|]; apply Forall_true; intros vs row Hr; by eapply row_not_eof
    | apply isEOFPacket_eof | exact Hin |].
  apply awaits_rest in Hin1. subst rest1. cbv beta iota. rewrite app_nil_l.
  erewrite bind_Ok by (by apply eof_status_41). unfold lift. erewrite bind_Ok; [done|].
  by rewrite (parse_rows_all _ _ _ _ Hrows).
Qed.

Lemma readResultset_read binary st rs fs vss f c rest :
  speaks_41 f -> can CLIENT_PROTOCOL_41 c = true ->
  understood binary (RResultset st rs)
    (Ok (mkResult st 0 0 (Some (mkResultset fs (field_names 0 fs ∅) vss (RowDatas rs))))) ->
  awaits (tail (payloads f (RResultset st rs))) rest c ->
  readResultset (PutLengthEncodedInt (Z.of_nat (length (Fields rs)))) binary c =
    (set_status st (took (tail (payloads f (RResultset st rs))) rest c),
     Ok (mkResult st 0 0 (Some (mkResultset fs (field_names 0 fs ∅) vss (RowDatas rs))))).
Proof.
  intros Hf Hc Hu Hin. inversion Hu as [| |? ? ? ? Hst Hne Hcount Hfs Hvss _ _ E1 E2]; subst. clear Hu.
  cbn [payloads tail app] in *. rewrite eof_payload_41 in * by done.
  set (cols := Dump <$> Fields rs) in *. unfold readResultset.
  erewrite bind_Ok; [|unfold lift; rewrite <- (app_nil_r (PutLengthEncodedInt _)) at 1;
                      by rewrite LengthEncodedInt_put by done].
  cbv beta iota. rewrite Z.sub_diag. cbn [Z.eqb negb].
  assert (Forall2 (fun x y => Parse x = Ok y) cols fs) as Hcols by by apply Forall2_fmap_l.
  rewrite (Forall2_length _ _ _ Hfs).
  destruct (readResultColumns_read cols fs st (RowDatas rs ++ [eof_41 st]) rest c Hc Hst Hcols Hin)
    as (rest1 & Ecols & Hin1).
  erewrite bind_Ok by exact Ecols. cbv beta iota.
  assert (fs <> []) as Hfs' by (intros ->; apply Forall2_nil_inv_r in Hfs; done).
  erewrite bind_Ok by exact (readResultRows_read st fs binary st (RowDatas rs) vss rest
              (set_status st (took (cols ++ [eof_41 st]) rest1 c)) Hc Hst Hfs' Hvss Hin1).
  cbv beta iota. unfold took, set_status, ret. cbn. by rewrite <- after_app, <- app_assoc.
Qed.

(** The first byte tells the kind of a response. *)
Lemma count_first n : 1 <= n -> in_u64 n ->
  exists b rest, PutLengthEncodedInt n = b :: rest /\ b <> OK_HEADER /\ b <> ERR_HEADER /\ b <> LocalInFile_HEADER.
Proof.
  intros H1' [_ Hn]. unfold PutLengthEncodedInt, OK_HEADER, ERR_HEADER, LocalInFile_HEADER.
  repeat case_if; [| eexists _, _; split; [reflexivity|]; lia.. | lia].
  replace (u8 n) with n by (symmetry; apply Z.mod_small; lia). eexists _, _. split; [reflexivity|]. lia.
Qed.

(** What a response leaves in the connection that reads it. *)
Definition settled (resp : response) c : Conn W :=
  match resp with ROk st _ _ | RResultset st _ => set_status st c | _ => c end.

Lemma readResult_read binary resp r f c rest :
  speaks_41 f -> can CLIENT_PROTOCOL_41 c = true -> understood binary resp r -> awaits (payloads f resp) rest c ->
  readResult binary c = (settled resp (took (payloads f resp) rest c), r).
Proof.
  intros Hf Hc Hu Hin. unfold readResult.
  destruct (payloads f resp) as [|x l] eqn:Ep; [destruct Hu; discriminate|].
  destruct (readPacket_awaits _ _ _ _ Hin) as (rest1 & E & Hin1). erewrite bind_Ok by exact E. cbv beta.
  destruct Hu as [st aff id Hst Ha Hi | e Hcode Hlen Hmsg | st rs fs vss Hst Hne Hcount Hfs Hvss Hrc Hrr];
    cbn [payloads] in Ep; injection Ep as <- <-.
  - apply awaits_rest in Hin1 as ->. erewrite bind_Ok by done. cbv beta. by apply handleOKPacket_read.
  - apply awaits_rest in Hin1 as ->. erewrite bind_Ok by done. cbv beta.
    change (fail_with (A := Result) (handleErrorPacket (error_payload f e)) (took [error_payload f e] rest c) =
            (took [error_payload f e] rest c, Err (ErrSqlError e))). unfold fail_with.
    erewrite bind_Ok by by apply handleErrorPacket_read. done.
  - destruct (count_first (Z.of_nat (length (Fields rs)))) as (b & rest' & Eb & N1 & N2 & N3);
      [destruct (Fields rs); [done | cbn; lia] | done |].
    erewrite bind_Ok by (rewrite Eb; done). cbv beta.
    rewrite !(proj2 (Z.eqb_neq b _)) by done.
    rewrite <- Eb, (readResultset_read binary st rs fs vss f
               (took [PutLengthEncodedInt (Z.of_nat (length (Fields rs)))] rest1 c) rest Hf Hc)
      by (done || by constructor).
    unfold settled. by rewrite took_app.
Qed.

Lemma payloads_readable binary resp r f : speaks_41 f -> understood binary resp r -> Forall readable (payloads f resp).
Proof.
  intros Hf Hu. pose proof MaxPayloadLen_eq as HM.
  destruct Hu as [st aff id Hst Ha Hi | e Hcode Hlen Hmsg | st rs fs vss Hst Hne Hcount Hfs Hvss Hrc Hrr]; cbn [payloads].
  - apply Forall_singleton, readable_short. unfold ok_payload. rewrite if_41_speaks by done.
    pose proof (PutLengthEncodedInt_length aff Ha). pose proof (PutLengthEncodedInt_length id Hi).
    rewrite !blen_app, blen_put_le by lia. change (blen [OK_HEADER]) with 1. change (blen [0; 0]) with 2. lia.
  - apply Forall_singleton, readable_short. unfold error_payload. rewrite if_41_speaks by done.
    assert (slen (SqlError_State e) = 5) by (unfold slen; lia). assert (0 <= slen (SqlError_Message e)) by (unfold slen; lia).
    rewrite !blen_app, blen_put_le, !blen_bytes_of by lia. change (blen [ERR_HEADER]) with 1. change (blen [35]) with 1. lia.
  - pose proof (PutLengthEncodedInt_length _ Hcount). rewrite !eof_payload_41 by done.
    repeat (apply Forall_app; split); try done; try apply Forall_singleton; try apply eof_41_readable.
    apply readable_short. lia.
Qed.

(** What a client's connection [f] wrote since [f0] is the input of [c]. *)
Definition reads_from f f' (rest : bytes) c : Prop :=
  sent (wb (io_pkg f)) ++ rb (pkg c) = sent (wb (io_pkg f')) ++ rest /\ Sequence (pkg c) = Sequence (io_pkg f).

Lemma reads_awaits f f' c l rest :
  sent_packets l (io_pkg f) (io_pkg f') -> Forall readable l -> reads_from f f' rest c -> awaits l rest c.
Proof.
  intros (_ & _ & Hs) Hl [Hin Hq]. split; [done|]. rewrite Hs, <- app_assoc in Hin. apply app_inv_head in Hin.
  by rewrite Hq.
Qed.

(** ** Commands *)
Lemma writePacket_Ok payload c c1 :
  Conn.writePacket (header ++ payload) c = (c1, Ok tt) ->
  c1 = set_pkgErr None (Conn.set_pkg (pkg c1) c) /\ sent_packets [payload] (pkg c) (pkg c1).
Proof.
  unfold Conn.writePacket. destruct (WritePacket _ _) as [p r] eqn:E. intros [= <- ->].
  apply WritePacket_packet in E as (Hrb & [|(_ & Hs & Hq)]); [done| |done].
  split; [done|]. split; [done|]. split; [done|]. cbn. by rewrite app_nil_r.
Qed.

Lemma writeCommandStr_Ok command arg c c1 :
  writeCommandStr command arg c = (c1, Ok tt) ->
  can CLIENT_PROTOCOL_41 c1 = can CLIENT_PROTOCOL_41 c /\
  rb (pkg c1) = rb (pkg c) /\ Sequence (pkg c1) = end_sequence 0 (command :: bytes_of arg) /\
  sent (wb (pkg c1)) = sent (wb (pkg c)) ++ packet 0 (command :: bytes_of arg).
Proof.
  unfold writeCommandStr. erewrite bind_Ok by done. intros Hw.
  apply (writePacket_Ok (command :: bytes_of arg)) in Hw as [E (Hrb & Hq & Hs)]. cbn in Hs. rewrite app_nil_r in Hs.
  rewrite E. done.
Qed.

(** A command reaches the other end; the state it arrives in. *)
Definition arrived (payload rest : bytes) f : ClientIO V :=
  ClientIO.set_pkg (mkPacketIO rest (wb (io_pkg f)) (end_sequence 0 payload)) f.

Lemma command_arrives command arg c c1 f rest :
  readable (command :: bytes_of arg) -> writeCommandStr command arg c = (c1, Ok tt) ->
  sent (wb (pkg c)) ++ rb (io_pkg f) = sent (wb (pkg c1)) ++ rest -> Sequence (io_pkg f) = 0 ->
  ClientIO.readPacket f = (arrived (command :: bytes_of arg) rest f, Ok (command :: bytes_of arg)).
Proof.
  intros Hr Hw Hin Hq. apply writeCommandStr_Ok in Hw as (_ & _ & _ & Hs).
  rewrite Hs, <- app_assoc in Hin. apply app_inv_head in Hin. unfold ClientIO.readPacket, on_pkg.
  rewrite (ReadPacket_packet _ _ rest Hr) by (by rewrite Hq). by rewrite Hq.
Qed.

(** C23: a query and its answer cross the wire.  A connection of the proxy
    to a server sends a query; a peer that speaks like the proxy does to
    its own clients reads exactly that command.  Whatever it answers, an
    acknowledgement, an error or a result set whose columns and rows parse,
    [exec] returns: the same counts and status, the same code, state and
    message, or the same columns, rows and parsed values.  It reads the
    answer to its end and not further, and the sequence numbers of both
    ends agree after it. *)
Theorem query_over_the_wire query resp r c c1 f f2 rest rest'
    (Hf : speaks_41 f) (Hc : can CLIENT_PROTOCOL_41 c = true)
    (Hq : readable (COM_QUERY :: bytes_of query)) (Hw : writeCommandStr COM_QUERY query c = (c1, Ok tt))
    (Hseq : Sequence (io_pkg f) = 0)
    (Hin : sent (wb (pkg c)) ++ rb (io_pkg f) = sent (wb (pkg c1)) ++ rest)
    (Hresp : write_response resp (arrived (COM_QUERY :: bytes_of query) rest f) = (f2, Ok tt))
    (Hback : sent (wb (io_pkg f)) ++ rb (pkg c) = sent (wb (io_pkg f2)) ++ rest')
    (Hu : understood false resp r) :
  ClientIO.readPacket f = (arrived (COM_QUERY :: bytes_of query) rest f, Ok (COM_QUERY :: bytes_of query)) /\
  exists c', exec query c = (c', r) /\ rb (pkg c') = rest' /\ Sequence (pkg c') = Sequence (io_pkg f2) /\
    sent (wb (pkg c')) = sent (wb (pkg c1)) /\ pkgErr c' = None /\ rb (io_pkg f2) = rest.
Proof.
  split; [by eapply command_arrives|].
  unfold exec. erewrite bind_Ok by exact Hw. apply writeCommandStr_Ok in Hw as (Hcan & Hrb & Hs1 & _).
  apply write_response_sends in Hresp as [|[_ Hsent]]; [done|].
  assert (awaits (payloads f resp) rest' c1) as Hc1.
  { eapply (reads_awaits (arrived (COM_QUERY :: bytes_of query) rest f) f2); [exact Hsent | | split].
    - by eapply payloads_readable.
    - by rewrite Hrb.
    - done. }
  rewrite (readResult_read false resp r f c1 rest') by (done || by rewrite Hcan).
  destruct Hsent as (Hrb2 & Hq2 & Hs2). exists (settled resp (took (payloads f resp) rest' c1)).
  split; [done|]. cbn in Hq2, Hrb2. rewrite Hq2, Hrb2. destruct resp; cbn [settled set_status pkg took Conn.set_pkg set_pkgErr
    rb wb Sequence pkgErr]; by rewrite Hs1.
Qed.

(** ** Prepared statements *)
Lemma readUntilEOF_read l st rest l' c :
  Forall (fun x => isEOFPacket x = Ok false) l -> awaits (l ++ eof_41 st :: l') rest c ->
  exists rest', readUntilEOF c = (took (l ++ [eof_41 st]) rest' c, Ok tt) /\
    awaits l' rest (took (l ++ [eof_41 st]) rest' c).
Proof.
  intros Hl Hin. unfold readUntilEOF.
  on_loop ltac:(fun f k a => edestruct (each_packet_reads f k a) as (rest1 & -> & Hin1));
    [|exact Hl | apply isEOFPacket_eof | exact Hin | by exists rest1].
  clear Hl Hin. induction l as [|x l IH]; [done|]. by exists tt.
Qed.

(** The columns of a prepared statement, when there are any. *)
Lemma prepare_fields_read n payload st l0 l' rest rest0 f c :
  speaks_41 f -> isEOFPacket payload = Ok false ->
  awaits (fields_payloads f n payload st ++ l') rest (took l0 rest0 c) ->
  exists rest', (if 0 <? n then readUntilEOF else ret tt) (took l0 rest0 c) =
      (took (l0 ++ fields_payloads f n payload st) rest' c, Ok tt) /\
    awaits l' rest (took (l0 ++ fields_payloads f n payload st) rest' c).
Proof.
  intros Hf Hp Hin. unfold fields_payloads in *. destruct (0 <? n).
  - rewrite eof_payload_41, <- app_assoc in * by done.
    destruct (readUntilEOF_read (replicate (Z.to_nat n) payload) st rest l' (took l0 rest0 c)) as (rest1 & E & Hin1);
      [by apply Forall_replicate | exact Hin |].
    exists rest1. by rewrite took_app in *.
  - exists rest0. by rewrite app_nil_r.
Qed.

Lemma fields_payloads_readable n payload st f :
  speaks_41 f -> readable payload -> Forall readable (fields_payloads f n payload st).
Proof.
  intros Hf Hp. unfold fields_payloads. case_if; [|done]. rewrite eof_payload_41 by done.
  apply Forall_app. split; [by apply Forall_replicate | apply Forall_singleton, eof_41_readable].
Qed.

Lemma field_data_short name : slen name <= 1 ->
  readable (Dump (nameless_field (bytes_of name))) /\ isEOFPacket (Dump (nameless_field (bytes_of name))) = Ok false.
Proof.
  intros Hn. split; [|done]. apply readable_short. pose proof MaxPayloadLen_eq.
  destruct name as [|a [|b name]]; [| |unfold slen in Hn; cbn [String.length] in Hn; lia]; cbv -[MaxPayloadLen Z.lt Z.pow]; lia.
Qed.

(** Preparing a statement crosses the wire.  What the proxy answers a
    client that prepares a statement, with its number and any counts of
    columns and parameters, [Prepare] of a backend connection reads back as
    exactly that statement, to the end of the packets that describe the
    parameters and the columns; an error is that error. *)
Theorem prepare_over_the_wire query id columns params st c c1 f f2 rest rest'
    (Hf : speaks_41 f) (Hw : writeCommandStr COM_STMT_PREPARE query c = (c1, Ok tt)) (Hseq : Sequence (io_pkg f) = 0)
    (Hid : 0 <= id < 2 ^ 32) (Hcols : u16_range columns) (Hpar : u16_range params)
    (Hresp : write_response (RPrepare id columns params st) (arrived (COM_STMT_PREPARE :: bytes_of query) rest f) =
               (f2, Ok tt))
    (Hback : sent (wb (io_pkg f)) ++ rb (pkg c) = sent (wb (io_pkg f2)) ++ rest') :
  exists c', Prepare query c = (c', Ok (Conn.mkStmt id params columns)) /\ rb (pkg c') = rest' /\
    Sequence (pkg c') = Sequence (io_pkg f2) /\ sent (wb (pkg c')) = sent (wb (pkg c1)).
Proof.
  apply writeCommandStr_Ok in Hw as Hw'. destruct Hw' as (Hcan & Hrb & Hs1 & _).
  apply write_response_sends in Hresp as [|[_ Hsent]]; [done|].
  destruct (field_data_short "?" ltac:(done)) as [Hp1 Hp2]. destruct (field_data_short "" ltac:(done)) as [Hc1 Hc2].
  set (d := prepare_payload id columns params).
  assert (awaits (payloads f (RPrepare id columns params st)) rest' c1) as Hin.
  { eapply (reads_awaits (arrived (COM_STMT_PREPARE :: bytes_of query) rest f) f2); [exact Hsent | | split].
    - cbn [payloads app]. apply Forall_cons. split; [apply readable_short; pose proof MaxPayloadLen_eq; change (0 < 12 < MaxPayloadLen); lia|].
      apply Forall_app. split; by apply fields_payloads_readable.
    - by rewrite Hrb.
    - done. }
  assert (Sequence (io_pkg f2) =
          after (end_sequence 0 (COM_STMT_PREPARE :: bytes_of query)) (payloads f (RPrepare id columns params st))) as Hq2
    by apply Hsent.
  clear Hsent. cbn [payloads] in Hin, Hq2. destruct (readPacket_awaits _ _ _ _ Hin) as (rest1 & E1 & Hin1).
  destruct (prepare_fields_read _ _ _ _ _ _ _ _ _ Hf Hp2 Hin1) as (rest2 & E2 & Hin2).
  rewrite <- (app_nil_r (fields_payloads f columns columnFieldData st)) in Hin2.
  destruct (prepare_fields_read _ _ _ _ _ _ _ _ _ Hf Hc2 Hin2) as (rest3 & E3 & Hin3).
  apply awaits_rest in Hin3. subst rest3.
  exists (took (([d] ++ fields_payloads f params paramFieldData st) ++ fields_payloads f columns columnFieldData st) rest' c1).
  split; [|split; [done|]; split; [|done]].
  2:{ cbn [pkg took Conn.set_pkg set_pkgErr Sequence]. rewrite Hq2, Hs1, !after_app. done. }
  unfold Prepare. erewrite bind_Ok by exact Hw. erewrite bind_Ok by exact E1. erewrite bind_Ok by done.
  change (0 =? ERR_HEADER) with false. change (negb (0 =? OK_HEADER)) with false. cbv iota.
  change (prepare_payload id columns params) with
    (parts [[0]; put_le 4 id; put_le 2 columns; put_le 2 params; [0]; [0; 0]]).
  erewrite bind_Ok; [|unfold lift; by rewrite (le_at_part _ 1 4 id) by (done || solve_blen)].
  erewrite bind_Ok; [|unfold lift; by rewrite (le_at_part _ 2 2 columns) by (done || solve_blen)].
  erewrite bind_Ok; [|unfold lift; by rewrite (le_at_part _ 3 2 params) by (done || solve_blen)].
  erewrite bind_Ok by exact E2. erewrite bind_Ok by exact E3. done.
Qed.

(** ** Lists of columns *)

(** [FieldList] looks at the first packet for an error and then reads on:
    the first column is lost, and of an answer without columns the end is
    lost, so that it waits for another one. *)
Lemma FieldList_loses_first table wildcard st x fs ys c c1 f f2 rest'
    (Hf : speaks_41 f)
    (Hw : writeCommandStrStr COM_FIELD_LIST table wildcard c = (c1, Ok tt))
    (Hresp : write_response (RFields st (x :: fs)) f = (f2, Ok tt)) (Hin : reads_from f f2 rest' c1)
    (Hr : Forall readable (Dump <$> x :: fs)) (Hx : exists d l, Dump x = d :: l /\ d <> ERR_HEADER)
    (Hp : Forall2 (fun (x y : Field) => Parse (Dump x) = Ok y) fs ys) :
  (FieldList table wildcard c).2 = Ok ys.
Proof.
  apply write_response_sends in Hresp as [|[_ Hsent]]; [done|].
  assert (awaits (payloads f (RFields st (x :: fs))) rest' c1) as Hin1.
  { eapply reads_awaits; [exact Hsent | | exact Hin]. cbn [payloads]. rewrite eof_payload_41 by done.
    apply Forall_app. split; [exact Hr | apply Forall_singleton, eof_41_readable]. }
  cbn [payloads fmap list_fmap app] in Hin1. rewrite eof_payload_41 in Hin1 by done.
  destruct (readPacket_awaits _ _ _ _ Hin1) as (rest1 & E & Hin2). destruct Hx as (d & l & Ed & Hd).
  unfold FieldList. erewrite bind_Ok by exact Hw. erewrite bind_Ok by exact E. rewrite Ed in *.
  erewrite bind_Ok by done. rewrite (proj2 (Z.eqb_neq d _)) by done.
  assert (Forall2 (fun x y => Parse x = Ok y) (Dump <$> fs) ys) as Hcols by by apply Forall2_fmap_l.
  on_loop ltac:(fun f k a => edestruct (each_packet_reads f k a) as (rest2 & -> & Hin3)); [ | | | exact Hin2 | done].
  - assert (forall ys0 l ys, Forall2 (fun x y => Parse x = Ok y) l ys ->
      folds (W := W) (fun fs data => do! y := lift (Parse data) in ret (fs ++ [y])) ys0 l (ys0 ++ ys)) as Hfold.
    { clear. intros ys0 l ys Hp. revert ys0. induction Hp as [|x y l ys Hx Hp IH]; intros ys0; cbn [folds].
      - by rewrite app_nil_r.
      - exists (ys0 ++ [y]). split; [intros c0; unfold bind, lift; by rewrite Hx|].
        specialize (IH (ys0 ++ [y])). by rewrite <- app_assoc in IH. }
    exact (Hfold [] _ _ Hcols).
  - eapply Forall2_Forall_l; [exact Hcols|]. apply Forall_true. intros y z Hz. by eapply Parse_not_eof.
  - apply isEOFPacket_eof.
Qed.
End Agreement.

(** ** Instances *)
Definition wire_client (input : bytes) : ClientIO bytes :=
  mkClientIO (NewPacketIO input []) 10001 [] "10.0.0.1:3306" CLIENT_PROTOCOL_41 2 "root" "kingshard".
Definition wire_conn (input : bytes) : Conn bytes :=
  mkConn (Some true) (NewPacketIO input []) "10.0.0.2:3306" "root" "" "kingshard" CLIENT_PROTOCOL_41 2 33 "utf8" [] None.

(** One column [id] and the row [7]. *)
Definition wire_column : Field := nameless_field (bytes_of "id").
Definition wire_rows : response := RResultset 2 (mkResultset [wire_column] ∅ [] [PutLengthEncodedString (bytes_of "7")]).
Definition wire_answer : res error Result :=
  let fs := [mkField (Some (Dump wire_column)) [] [] [] (bytes_of "id") [] 0 0 0 0 0 0 None] in
  Ok (mkResult 2 0 0 (Some (mkResultset fs (field_names 0 fs ∅) [[VBytes (bytes_of "7")]]
                              [PutLengthEncodedString (bytes_of "7")]))).

Lemma wire_understood : @understood no_floats false wire_rows wire_answer.
Proof.
  constructor; try (unfold u16_range, in_u64; cbn; lia); try done;
    repeat constructor; vm_compute; reflexivity.
Qed.

(** What is sent from an empty buffer. *)
Definition written {S} (buffer : S -> bytes) (r : S * res error unit) : bytes := buffer r.1.

Lemma query_over_the_wire_witness :
  exists input c', @exec bytes _ no_floats "select id from t" (wire_conn input) = (c', wire_answer).
Proof.
  set (q := COM_QUERY :: bytes_of "select id from t").
  set (sent_query := packet 0 q).
  set (f := wire_client sent_query).
  destruct (write_response wire_rows (arrived q [] f)) as [f2 r2] eqn:E.
  pose proof E as E'. vm_compute in E'. injection E' as Ef2 Er2.
  set (input := wb (io_pkg f2)).
  destruct (writeCommandStr COM_QUERY "select id from t" (wire_conn input)) as [c1 r1] eqn:E1.
  assert (r1 = Ok tt /\ wb (pkg c1) = sent_query) as [-> Hs].
  { pose proof E1 as E1'. vm_compute in E1'. injection E1' as <- <-. split; [done | vm_compute; reflexivity]. }
  subst r2.
  destruct (@query_over_the_wire bytes bytes _ _ no_floats "select id from t" wire_rows wire_answer (wire_conn input) c1 f f2
              [] []) as [_ (c' & Hc' & _)].
  - reflexivity.
  - reflexivity.
  - vm_compute. reflexivity.
  - exact E1.
  - reflexivity.
  - cbn. by rewrite Hs, app_nil_r.
  - exact E.
  - cbn. by rewrite app_nil_r.
  - exact wire_understood.
  - by exists input, c'.
Defined.

Lemma prepare_over_the_wire_witness :
  exists input c', @Prepare bytes _ "select id from t where id = ?" (wire_conn input) = (c', Ok (Conn.mkStmt 7 1 0)).
Proof.
  set (query := "select id from t where id = ?").
  set (q := COM_STMT_PREPARE :: bytes_of query).
  set (f := wire_client []).
  destruct (write_response (RPrepare 7 0 1 2) (arrived q [] f)) as [f2 r2] eqn:E.
  assert (r2 = Ok tt) as -> by (pose proof E as E'; vm_compute in E'; by injection E' as _ <-).
  set (input := wb (io_pkg f2)).
  destruct (writeCommandStr COM_STMT_PREPARE query (wire_conn input)) as [c1 r1] eqn:E1.
  assert (r1 = Ok tt) as -> by (pose proof E1 as E'; vm_compute in E'; by injection E' as _ <-).
  destruct (@prepare_over_the_wire bytes bytes _ _ query 7 0 1 2 (wire_conn input) c1 f f2 [] []) as (c' & Hc' & _).
  - reflexivity.
  - exact E1.
  - reflexivity.
  - lia.
  - unfold u16_range. lia.
  - unfold u16_range. lia.
  - exact E.
  - cbn. by rewrite app_nil_r.
  - exists input, c'. exact Hc'.
Defined.

(** Of the two columns of a table the list has one; of the columns of a
    table without any, none arrives and the reader waits in vain. *)
Example field_list_drops_a_column :
  let answer fs := wb (io_pkg (write_response (RFields 2 fs) (arrived [0] [] (wire_client []))).1) in
  let names fs := match (@FieldList bytes _ "t" "" (wire_conn (answer fs))).2 with
                  | Ok fs => Ok (string_of ∘ Name <$> fs) | Err e => Err e | Panic p => Panic p end in
  names [wire_column; nameless_field (bytes_of "name")] = Ok ["name"] /\
  names [] = Err MyErrBadConn.
Proof. vm_compute. split; reflexivity. Qed.
