(* ===== verification/HandshakeTheorems.v ===== *)
(** * The handshake

    The greeting of the proxy as the backend's half of the protocol reads
    it, and the answer of that half as the proxy reads it. *)
From S2P Require Import Prelude Errors StateM GoLib GoFmt ErrTables Charset Wire GoHash Packet Field Resultset ResultBuild.
From S2P Require Import Session Conn ClientIO WireFacts WireTheorems.
Open Scope Z_scope.

(** ** Strings that end with a zero byte *)
Definition no_nul (s : string) : Prop := Forall (fun b => b <> 0) (bytes_of s).

Lemma IndexByte_end b rest : Forall (fun x => x <> 0) b -> IndexByte (b ++ 0 :: rest) 0 = blen b.
Proof.
  induction 1 as [|x b Hx Hb IH]; [done|]. cbn [app IndexByte]. rewrite (proj2 (Z.eqb_neq x 0) Hx), IH, blen_cons.
  pose proof (blen_nonneg b). by replace (blen b <? 0) with false by lia.
Qed.

Lemma cstring_part l i s pos rest :
  l !! i = Some (bytes_of s) -> parts (drop (S i) l) = 0 :: rest -> no_nul s ->
  blen (parts (take i l)) = pos -> (S i < length l)%nat -> cstring (parts l) pos = Ok s.
Proof.
  intros Hi Hz Hs Hpos Hlt. unfold cstring. rewrite (from_part l i pos Hpos). cbn [rbind].
  assert (parts (drop i l) = bytes_of s ++ 0 :: rest) as ->.
  { rewrite (drop_S l _ i Hi), <- Hz. destruct (drop (S i) l) eqn:E; [|done].
    apply (f_equal length) in E. rewrite length_drop in E. cbn in E. lia. }
  rewrite (IndexByte_end _ _ Hs), (slice_part l i (bytes_of s)) by done. cbn [rbind]. by rewrite string_of_bytes_of.
Qed.

(** ** Tokens *)
Lemma CalcPassword_length scramble password :
  blen (CalcPassword scramble password) = if blen password =? 0 then 0 else 20.
Proof.
  unfold CalcPassword. case_if; [done|]. unfold blen. by rewrite length_zip_with, !sha1_length.
Qed.

Section Handshake.
Context {V W : Type} `{Writer V} `{Writer W} `{GoFloat}.
Implicit Types f : ClientIO V.
Implicit Types c : Conn W.

(** The greeting of a server with the capabilities [cap], in two halves. *)
Definition greeting_of (cap : Z) f : list bytes :=
  [[10]; bytes_of ServerVersion; [0]; put_le 4 (io_connectionId f); take 8 (io_salt f); [0];
   put_le 2 cap; [u8 DEFAULT_COLLATION_ID]; put_le 2 (io_status f);
   put_le 2 (Z.shiftr cap 16); [0x15]; replicate 10 0; drop 8 (io_salt f); [0]].
Definition greeting f : list bytes := greeting_of DEFAULT_CAPABILITY f.

Definition asked_capability c : Z :=
  let common := Z.land DEFAULT_CAPABILITY (Z.lnot CLIENT_CONNECT_WITH_DB) in
  if 0 <? slen (db c) then Z.lor common CLIENT_CONNECT_WITH_DB else common.
Definition db_part c : bytes := if 0 <? slen (db c) then bytes_of (db c) ++ [0] else [].
Definition answer_parts (scramble : bytes) c : list bytes :=
  let auth := CalcPassword scramble (bytes_of (password c)) in
  [put_le 4 (asked_capability c); [0; 0; 0; 0]; [u8 (collation c)]; replicate 23 0; bytes_of (user c); [0];
   [u8 (blen auth)]; auth; db_part c].

Lemma salt_parts f : blen (io_salt f) = 20 ->
  blen (take 8 (io_salt f)) = 8 /\ blen (drop 8 (io_salt f)) = 12 /\
  @slice error Z (io_salt f) 0 8 = Ok (take 8 (io_salt f)) /\ @from error (io_salt f) 8 = Ok (drop 8 (io_salt f)).
Proof.
  intros Hs. assert (blen (take 8 (io_salt f)) = 8) as Ht by (unfold blen in *; rewrite length_take; lia).
  split; [done|]. split; [unfold blen in *; rewrite length_drop; lia|]. split.
  - rewrite <- (take_drop 8 (io_salt f)) at 1. by apply (slice_mid [] _ _ 0 8).
  - rewrite <- (take_drop 8 (io_salt f)) at 1. by apply from_app.
Qed.

Lemma writeInitialHandshake_sends f f1 r :
  blen (io_salt f) = 20 -> writeInitialHandshake f = (f1, r) ->
  sends [parts (greeting f)] f f1 r /\ f1 = ClientIO.set_pkg (io_pkg f1) f.
Proof.
  intros Hs Hw. destruct (salt_parts f Hs) as (_ & _ & E1 & E2). unfold writeInitialHandshake in Hw.
  erewrite bind_Ok in Hw by done. erewrite bind_Ok in Hw by (unfold lift; by rewrite E1).
  erewrite bind_Ok in Hw by (unfold lift; by rewrite E2).
  split; [exact (writePacket_sends (parts (greeting f)) f f1 r Hw)|].
  unfold ClientIO.writePacket, on_pkg in Hw. destruct (WritePacket _ _) as [p r0]. by injection Hw as <- <-.
Qed.

(** Where the parts of the greeting lie. *)
Ltac at_greeting f L1 L2 :=
  unfold greeting_of; cbn [parts take];
  rewrite ?blen_app, ?blen_cons, ?blen_put_le, ?blen_bytes_of, ?blen_replicate, ?blen_nil by lia;
  change (slen ServerVersion) with 16; rewrite ?L1, ?L2; lia.

(** The connection after the greeting. *)
Definition greeted (cap : Z) f (rest : bytes) c : Conn W :=
  set_salt (salt c ++ io_salt f)
    (Conn.set_capability cap (set_status (io_status f) (took [parts (greeting_of cap f)] rest c))).

Lemma greeting_readable cap f : blen (io_salt f) = 20 -> readable (parts (greeting_of cap f)).
Proof.
  intros Hs. destruct (salt_parts f Hs) as (L1 & L2 & _). apply readable_short. pose proof MaxPayloadLen_eq.
  unfold greeting_of. cbn [parts]. rewrite !blen_app, !blen_put_le, L1, L2 by lia. cbv -[MaxPayloadLen Z.lt Z.pow]. lia.
Qed.

Lemma put_le_low cap : put_le 2 cap = put_le 2 (cap mod 2 ^ 16).
Proof. rewrite <- (put_le_le_or (put_le 2 cap)) by apply put_le_bytes. by rewrite blen_put_le, le_or_put_le. Qed.

Lemma halves_join cap : 0 <= cap < 2 ^ 32 -> Z.lor (Z.shiftl (Z.shiftr cap 16) 16) (cap mod 2 ^ 16) = cap.
Proof.
  intros Hc. apply Z.bits_inj'. intros k Hk. rewrite Z.lor_spec, Z.shiftl_spec by done.
  destruct (Z.ltb_spec k 16).
  - by rewrite (Z.testbit_neg_r _ (k - 16)), Z.mod_pow2_bits_low by lia.
  - rewrite Z.shiftr_spec, Z.mod_pow2_bits_high, orb_false_r by lia. f_equal. lia.
Qed.

Lemma readInitialHandshake_greeting cap f c rest :
  blen (io_salt f) = 20 -> u16_range (io_status f) -> 0 <= cap < 2 ^ 32 -> awaits [parts (greeting_of cap f)] rest c ->
  readInitialHandshake c = (greeted cap f rest c, Ok tt).
Proof.
  intros Hs Hst Hcap Hin. pose proof (Z.mod_pos_bound cap (2 ^ 16) ltac:(done)).
  assert (0 <= Z.shiftr cap 16 < 256 ^ 2) by (rewrite Z.shiftr_div_pow2 by done; split; [apply Z.div_pos; lia | apply Z.div_lt_upper_bound; lia]).
  destruct (salt_parts f Hs) as (L1 & L2 & _). unfold readInitialHandshake.
  destruct (readPacket_awaits _ _ _ _ Hin) as (rest1 & E & Hin1). apply awaits_rest in Hin1. subst rest1.
  erewrite bind_Ok by exact E. erewrite bind_Ok by done.
  change (10 =? ERR_HEADER) with false. change (10 <? MinProtocolVersion) with false. cbv iota.
  erewrite bind_Ok; [|unfold lift; by rewrite (from_part _ 1) by done].
  assert (IndexByte (parts (drop 1 (greeting_of cap f))) 0 = 16) as ->.
  { change (parts (drop 1 (greeting_of cap f))) with (bytes_of ServerVersion ++ 0 :: parts (drop 3 (greeting_of cap f))).
    rewrite IndexByte_end; [done|]. repeat (apply Forall_cons; split; [done|]). constructor. }
  cbv zeta. change (1 + 16 + 1 + 4) with 22.
  erewrite bind_Ok; [|unfold lift; by rewrite (slice_part _ 4 (take 8 (io_salt f))) by (done || at_greeting f L1 L2)].
  erewrite bind_Ok by done. change (22 + 8 + 1) with 31.
  erewrite bind_Ok; [|unfold lift; by rewrite (le_at_part _ 6 2 (cap mod 2 ^ 16)) by (done || (unfold greeting_of; cbn; by rewrite <- put_le_low) || at_greeting f L1 L2)].
  erewrite bind_Ok by done. change (31 + 2) with 33.
  replace (33 <? blen (parts (greeting_of cap f))) with true by (symmetry; apply Z.ltb_lt; at_greeting f L1 L2).
  change (33 + 1) with 34. change (34 + 2) with 36. change (36 + 2 + 10 + 1) with 49. unfold read_status.
  erewrite bind_Ok; [|erewrite bind_Ok;
    [|unfold lift; by rewrite (le_at_part _ 8 2 (io_status f)) by (done || at_greeting f L1 L2)]; by erewrite bind_Ok].
  erewrite bind_Ok; [|unfold lift; by rewrite (le_at_part _ 9 2 (Z.shiftr cap 16)) by (done || at_greeting f L1 L2)].
  erewrite bind_Ok by done.
  erewrite bind_Ok; [|unfold lift; by rewrite (slice_part _ 12 (drop 8 (io_salt f))) by (done || at_greeting f L1 L2)].
  rewrite (halves_join cap Hcap). unfold modify, greeted. cbn. by rewrite <- app_assoc, take_drop.
Qed.

(** ** The answer *)
Lemma writeAuthHandshake_Ok c c1 :
  capability c = DEFAULT_CAPABILITY -> writeAuthHandshake c = (c1, Ok tt) ->
  sent_packets [parts (answer_parts (salt c) c)] (pkg c) (pkg c1) /\ capability c1 = asked_capability c /\
  salt c1 = salt c /\ status c1 = status c.
Proof.
  intros Hcap Hw. unfold writeAuthHandshake in Hw. erewrite bind_Ok in Hw by done. cbv beta zeta in Hw.
  erewrite bind_Ok in Hw by done. rewrite Hcap in Hw.
  replace (if 0 <? slen (db c) then _ else _) with (asked_capability c) in Hw
    by (unfold asked_capability; by destruct (0 <? slen (db c))).
  apply (writePacket_Ok (parts (answer_parts (salt c) c))) in Hw as [E Hs].
  split; [exact Hs|]. rewrite E. done.
Qed.

Lemma auth_byte scramble p : u8 (blen (CalcPassword scramble p)) = blen (CalcPassword scramble p).
Proof. rewrite CalcPassword_length. by case_if. Qed.

Lemma asked_capability_range c : 0 <= asked_capability c < 256 ^ 4.
Proof. unfold asked_capability. case_if; split; vm_compute; congruence. Qed.

Lemma asked_capability_bits c :
  (0 <? Z.land (asked_capability c) CLIENT_PROTOCOL_41) = true /\
  (0 <? Z.land (asked_capability c) CLIENT_CONNECT_WITH_DB) = (0 <? slen (db c)).
Proof. unfold asked_capability. case_if; done. Qed.

Lemma answer_readable scramble c :
  slen (user c) + slen (db c) < MaxPayloadLen - 60 -> readable (parts (answer_parts scramble c)).
Proof.
  intros Hl. apply readable_short. unfold answer_parts. cbn [parts].
  pose proof (CalcPassword_length scramble (bytes_of (password c))) as La.
  assert (0 <= slen (user c) /\ 0 <= slen (db c)) as [? ?] by (unfold slen; lia).
  assert (0 <= blen (db_part c) <= slen (db c) + 1)
    by (unfold db_part; case_if; rewrite ?blen_app, ?blen_bytes_of; change (blen [0]) with 1; change (blen []) with 0; lia).
  rewrite !blen_app, !blen_cons, !blen_put_le, !blen_bytes_of, !blen_replicate, !blen_nil, La by lia.
  case_if; lia.
Qed.

(** What the proxy makes of the answer. *)
Definition logged_in (users : gmap string string) f c : bool :=
  match users !! user c with
  | Some configured =>
      bool_decide (CalcPassword (io_salt f) (bytes_of (password c)) = CalcPassword (io_salt f) (bytes_of configured))
  | None => false
  end.
Definition denied f c : res error unit :=
  Err (ErrSqlError (NewDefaultError ER_ACCESS_DENIED_ERROR
                      [ArgString (user c); ArgString (io_remote f); ArgString "Yes"])).

(** The proxy's connection after the answer. *)
Definition answered users f c rest : ClientIO V :=
  let l := parts (answer_parts (io_salt f) c) in
  let f1 := set_user (user c) (ClientIO.set_capability (asked_capability c)
              (ClientIO.set_pkg (mkPacketIO rest (wb (io_pkg f)) (end_sequence (Sequence (io_pkg f)) l)) f)) in
  if logged_in users f c then ClientIO.set_db (db c) f1 else f1.

Lemma readHandshakeResponse_answer users f c rest :
  no_nul (user c) -> no_nul (db c) -> slen (user c) + slen (db c) < MaxPayloadLen - 60 ->
  rb (io_pkg f) = packet (Sequence (io_pkg f)) (parts (answer_parts (io_salt f) c)) ++ rest ->
  readHandshakeResponse users f = (answered users f c rest, if logged_in users f c then Ok tt else denied f c).
Proof.
  intros Hu Hd Hl Hin. unfold answered. set (l := answer_parts (io_salt f) c) in *.
  pose proof (ReadPacket_packet _ _ _ (answer_readable (io_salt f) c Hl) Hin) as Hread. fold l in Hread.
  set (auth := CalcPassword (io_salt f) (bytes_of (password c))).
  assert (l !! 7%nat = Some auth) as L7 by done.
  assert (l !! 6%nat = Some [blen auth]) as L6 by (unfold l, answer_parts; cbn [lookup list_lookup]; by rewrite auth_byte).
  assert (blen (parts (take 4 l)) = 32) as A4 by done.
  assert (blen (parts (take 6 l)) = 32 + slen (user c) + 1) as A6 by (unfold l, answer_parts; solve_blen).
  assert (blen (parts (take 7 l)) = 32 + slen (user c) + 1 + 1) as A7 by (unfold l, answer_parts; solve_blen).
  assert (blen (parts (take 8 l)) = 32 + slen (user c) + 1 + 1 + blen auth) as A8
    by (unfold l, answer_parts; fold auth; solve_blen).
  destruct (asked_capability_bits c) as [_ Hdb].
  unfold readHandshakeResponse. erewrite bind_Ok by (unfold ClientIO.readPacket, on_pkg; rewrite Hread; reflexivity).
  erewrite bind_Ok; [|unfold lift; by rewrite (le_at_part l 0 4 (asked_capability c)) by (done || apply asked_capability_range)].
  erewrite bind_Ok by done. change (4 + 4 + 1 + 23) with 32.
  erewrite bind_Ok; [|unfold lift; by rewrite (cstring_part l 4 (user c) 32
                        (parts (drop 6 l))) by (done || cbn; lia)].
  erewrite bind_Ok by done. erewrite bind_Ok; [|unfold lift; by rewrite (at_part l 6 (blen auth)) by done].
  erewrite bind_Ok; [|unfold lift; by rewrite (slice_part l 7 auth) by done].
  erewrite bind_Ok by done. cbn [io_user set_user io_salt ClientIO.set_pkg ClientIO.set_capability].
  unfold logged_in. fold auth. destruct (users !! user c) as [configured|]; [|done].
  destruct (decide (auth = CalcPassword (io_salt f) (bytes_of configured))) as [Hauth|Hauth];
    [rewrite !(bool_decide_eq_true_2 _ Hauth) | by rewrite !(bool_decide_eq_false_2 _ Hauth)]. cbn [negb].
  change (io_capability (set_user _ _)) with (asked_capability c).
  rewrite Hdb. unfold ClientIO.set_db. destruct (Z.ltb_spec 0 (slen (db c))) as [Hlt|Hge].
  - erewrite bind_Ok; [|unfold lift; by rewrite (from_part l 8) by done].
    assert (parts (drop 8 l) = bytes_of (db c) ++ 0 :: []) as E8
      by (unfold l, answer_parts, db_part; cbn [drop parts]; by rewrite (proj2 (Z.ltb_lt _ _) Hlt)).
    assert (blen (parts (drop 8 l)) =? 0 = false) as ->
      by (rewrite E8, blen_app, blen_bytes_of; change (blen [0]) with 1; lia).
    erewrite bind_Ok; [done|]. unfold lift, cstring. rewrite (from_part l 8) by done. cbn [rbind].
    rewrite E8, (IndexByte_end _ _ Hd).
    replace (parts l) with (parts (take 8 l) ++ bytes_of (db c) ++ [0]).
    + rewrite (slice_mid _ (bytes_of (db c))) by done. cbn [rbind]. by rewrite string_of_bytes_of.
    + rewrite <- E8, !parts_concat, <- concat_app. by rewrite take_drop.
  - assert (db c = "") as -> by (destruct (db c); [done | unfold slen in Hge; cbn [String.length] in Hge; lia]). done.
Qed.

(** C30: the handshake.  A connection of the proxy to a server and the
    proxy's own side of a client connection agree on it.  The greeting gives
    the whole 20 bytes of the challenge, the server's status and all the
    bits of its capabilities, of the proxy and of any other server that
    greets in the same form; the answer names the user and asks for exactly
    the capabilities of [asked_capability], which the proxy then has for the
    client, bit for bit.  The proxy accepts exactly the configured users
    whose password gives the same token, and then has the user and the
    database that were asked for; everyone else gets the access-denied error
    with the user's name and address.  The configured password is always
    accepted, and an empty password never stands for another one.  The names
    have no zero bytes and fit a packet, and the connection is new. *)
Theorem handshake_agrees users f f1 c c1 c2 rest rest'
    (Hsalt : blen (io_salt f) = 20) (Hfresh : salt c = []) (Hst : u16_range (io_status f))
    (Hu : no_nul (user c)) (Hd : no_nul (db c)) (Hl : slen (user c) + slen (db c) < MaxPayloadLen - 60)
    (Hw : writeInitialHandshake f = (f1, Ok tt)) (Hin : reads_from f f1 rest c)
    (Hr : readInitialHandshake c = (c1, Ok tt)) (Ha : writeAuthHandshake c1 = (c2, Ok tt))
    (Hback : sent (wb (pkg c)) ++ rb (io_pkg f) = sent (wb (pkg c2)) ++ rest') :
  salt c2 = io_salt f /\ status c2 = io_status f /\ rb (pkg c1) = rest /\ can CLIENT_PROTOCOL_41 c2 = true /\
  capability c1 = DEFAULT_CAPABILITY /\ capability c2 = asked_capability c /\
  (forall cap c' rest'', 0 <= cap < 2 ^ 32 -> salt c' = [] -> awaits [parts (greeting_of cap f)] rest'' c' ->
     exists c1', readInitialHandshake c' = (c1', Ok tt) /\ capability c1' = cap /\ salt c1' = io_salt f /\
       status c1' = io_status f /\ rb (pkg c1') = rest'') /\
  exists f2,
    readHandshakeResponse users f1 = (f2, if logged_in users f c then Ok tt else denied f c) /\
    speaks_41 f2 /\ io_capability f2 = asked_capability c /\ io_user f2 = user c /\ rb (io_pkg f2) = rest' /\
    Sequence (io_pkg f2) = Sequence (pkg c2) /\
    (logged_in users f c = true -> io_db f2 = db c) /\
    (users !! user c = Some (password c) -> logged_in users f c = true) /\
    (forall configured, users !! user c = Some configured ->
       (password c = "" <-> configured <> "") -> logged_in users f c = false).
Proof.
  apply (writeInitialHandshake_sends f f1 _ Hsalt) in Hw as [[|[_ Hsent]] Hf1]; [done|].
  pose proof (reads_awaits f f1 c _ rest Hsent (proj2 (Forall_singleton _ _) (greeting_readable _ f Hsalt)) Hin) as Hc.
  rewrite (readInitialHandshake_greeting DEFAULT_CAPABILITY f c rest Hsalt Hst ltac:(done) Hc) in Hr. injection Hr as <-.
  apply writeAuthHandshake_Ok in Ha as ((_ & Hq2 & Hs2) & Hcap & Hsalt2 & Hst2); [|done].
  assert (salt (greeted DEFAULT_CAPABILITY f rest c) = io_salt f) as Hsalt1 by (cbn; by rewrite Hfresh).
  rewrite Hsalt1 in *. change (db (greeted DEFAULT_CAPABILITY f rest c)) with (db c) in *.
  change (answer_parts (io_salt f) (greeted DEFAULT_CAPABILITY f rest c)) with (answer_parts (io_salt f) c) in *.
  split; [done|]. split; [exact Hst2|]. split; [done|]. split; [unfold can; rewrite Hcap; apply asked_capability_bits|].
  split; [done|]. split; [exact Hcap|]. split.
  { intros cap c' rest'' Hrange Hempty Hc'. eexists. split; [by apply readInitialHandshake_greeting|].
    cbn. by rewrite Hempty. }
  destruct Hsent as (Hrb1 & Hq1 & _). destruct Hin as [_ Hq].
  change (Sequence (pkg (greeted DEFAULT_CAPABILITY f rest c))) with (after (Sequence (pkg c)) [parts (greeting f)]) in Hq2, Hs2.
  change (wb (pkg (greeted DEFAULT_CAPABILITY f rest c))) with (wb (pkg c)) in Hs2. rewrite Hq, <- Hq1 in Hq2, Hs2.
  remember (io_pkg f1) as p eqn:Ep. subst f1. clear Ep.
  exists (answered users (ClientIO.set_pkg p f) c rest'). split.
  - refine (readHandshakeResponse_answer users (ClientIO.set_pkg p f) c rest' Hu Hd Hl _).
    cbn [io_pkg ClientIO.set_pkg io_salt]. rewrite Hrb1.
    rewrite Hs2, <- app_assoc in Hback. apply app_inv_head in Hback. rewrite Hback. cbn [packets]. by rewrite app_nil_r.
  - unfold speaks_41, answered. change (logged_in users (ClientIO.set_pkg p f) c) with (logged_in users f c).
    assert (users !! user c = Some (password c) -> logged_in users f c = true) as Hsame
      by (unfold logged_in; intros ->; by apply bool_decide_eq_true_2).
    split; [destruct (logged_in users f c); apply asked_capability_bits|].
    split; [by destruct (logged_in users f c)|].
    split; [by destruct (logged_in users f c)|]. split; [by destruct (logged_in users f c)|].
    split; [rewrite Hq2; by destruct (logged_in users f c)|]. split; [by intros ->|]. split; [done|].
    intros configured Hc' Hempty. unfold logged_in. rewrite Hc'. apply bool_decide_eq_false_2. intros E.
    apply (f_equal blen) in E. rewrite !CalcPassword_length, !blen_bytes_of in E.
    destruct (password c), configured; unfold slen in E; cbn in E; try lia; naive_solver.
Qed.
End Handshake.

(** ** An instance *)
Definition hello_salt : bytes := seqZ 40 20.
Definition hello_client (input : bytes) : ClientIO bytes :=
  mkClientIO (NewPacketIO input []) 10001 hello_salt "10.0.0.1:3306" 0 2 "" "".
Definition hello_conn (input : bytes) : Conn bytes :=
  mkConn (Some true) (NewPacketIO input []) "10.0.0.2:3306" "root" "secret" "kingshard" 0 0 33 "utf8" [] None.
Definition hello_greeting : bytes := packet 0 (parts (greeting (hello_client []))).
Definition hello_answer : bytes := packet 1 (parts (answer_parts hello_salt (hello_conn []))).
Definition hello_users : gmap string string := {["root" := "secret"]}.

Lemma handshake_agrees_witness :
  exists f1 f2, writeInitialHandshake (hello_client hello_answer) = (f1, Ok tt) /\
    readHandshakeResponse hello_users f1 = (f2, Ok tt) /\ io_user f2 = "root" /\ io_db f2 = "kingshard".
Proof.
  set (f := hello_client hello_answer). set (c := hello_conn hello_greeting).
  destruct (writeInitialHandshake f) as [f1 r1] eqn:E1. destruct (readInitialHandshake c) as [c1 r2] eqn:E2.
  destruct (writeAuthHandshake c1) as [c2 r3] eqn:E3.
  assert (r1 = Ok tt /\ wb (io_pkg f1) = hello_greeting) as [-> Hf1]
    by (pose proof E1 as E; vm_compute in E; injection E as <- <-; split; vm_compute; reflexivity).
  assert (c1 = (readInitialHandshake c).1 /\ r2 = Ok tt) as [-> ->].
  { rewrite E2. split; [done|]. pose proof E2 as E. vm_compute in E. by injection E as _ <-. }
  assert (r3 = Ok tt /\ wb (pkg c2) = hello_answer) as [-> Hc2]
    by (pose proof E3 as E; vm_compute in E; injection E as <- <-; split; vm_compute; reflexivity).
  destruct (handshake_agrees (V := bytes) (W := bytes) hello_users f f1 c (readInitialHandshake c).1 c2 [] [])
    as (_ & _ & _ & _ & _ & _ & _ & f2 & Hread & _ & _ & Huser & _ & _ & Hdb & Hsame & _).
  - reflexivity.
  - reflexivity.
  - unfold u16_range. cbn. lia.
  - repeat (apply Forall_cons; split; [done|]). constructor.
  - repeat (apply Forall_cons; split; [done|]). constructor.
  - pose proof MaxPayloadLen_eq. change (13 < MaxPayloadLen - 60). lia.
  - exact E1.
  - split; [|reflexivity]. rewrite Hf1. by rewrite app_nil_r.
  - exact E2.
  - exact E3.
  - rewrite Hc2. by rewrite app_nil_r.
  - assert (logged_in hello_users f c = true) as Hin by (apply Hsame; reflexivity). rewrite Hin in Hread.
    exists f1, f2. split; [done|]. split; [done|]. split; [done|]. by apply Hdb.
Defined.
