(* ===== verification/Handlers.v ===== *)
(** * The commands of a session ([proxy/server/conn_query.go], [conn_tx.go],
      [conn_preshard.go], [conn_use.go], [conn_set.go], [conn_select.go])

    From the text of a statement to the answers sent to the client.  The
    black list and the administration commands do not touch the session
    and are those of the server ([Server], [Admin]). *)
From S2P Require Import Prelude Errors StateM GoLib GoTime GoFmt Charset ErrTables Field Order Resultset.
From S2P Require Import Ast YyParse RouteLists Rule Plan Router ExecDB SelectMerge Session.
From Stdlib Require Import Ascii.
Open Scope Z_scope.

(** What the proxy is configured with, as a session sees it. *)
Record proxy := mkProxy {
  schema_nodes : gset string;              (* the keys of [c.schema.nodes] *)
  proxy_nodes : gset string;               (* the keys of [Server.nodes] *)
  blacklisted : string -> res error bool;  (* whether the black list has the statement *)
  admin : Statement -> res error (option Resultset)  (* a result set, or nothing but OK *)
}.

Definition MasterComment : string := "/*master*/".

Section Handlers.
Context `{Outside} `{StrMapOrder} `{MapOrder} `{Timezone} `{GoFloat} `{GoSort} `{ErrorText}.
Context (s : proxy).

Abbreviation M := (ST ClientConn).

(** ** Nodes and connections of a plan *)
Fixpoint plan_nodes (rule : Rule) (indexes : list Z) : res error (list (string * option string)) :=
  match indexes with
  | [] => Ok []
  | i :: indexes =>
      let* name := at_ (Nodes rule) i in
      let* l := plan_nodes rule indexes in
      Ok ((name, GetNode (proxy_nodes s) name) :: l)
  end.

Fixpoint take_conns (fromSlave : bool) (nodes : list (string * option string)) (conns : gmap string nat)
  : M (gmap string nat * option error) :=
  match nodes with
  | [] => ret (conns, None)
  | (name, n) :: nodes =>
      do! (co, err) := getBackendConn n fromSlave in
      match err, co with
      | None, Some co => take_conns fromSlave nodes (<[name := co]> conns)
      | Some e, _ => ret (conns, Some e)
      | None, None => nil_pointer
      end
  end.

(** The connections may come with an error; [None] is a nil map. *)
Definition getShardConns (fromSlave : bool) (plan : Plan) : M (option (gmap string nat) * option error) :=
  if Nat.eqb (length (RouteNodeIndexs plan)) 0 then ret (None, Some ErrNoRouteNode)
  else
    do! nodes := lift (plan_nodes (Plan_Rule plan) (RouteNodeIndexs plan)) in
    do! c := get in
    let first_in_tx := match nodes with
                       | (name, Some _) :: _ => bool_decide (is_Some (txConns c !! name))
                       | _ => false
                       end in
    if isInTransaction c && (Nat.ltb 1 (length nodes) || (Nat.eqb (size (txConns c)) 1 && negb first_in_tx))
    then ret (None, Some ErrTransInMulti)
    else
      do! (conns, err) := take_conns fromSlave nodes ∅ in ret (Some conns, err).

(** ** Statements that are planned *)
Definition plan_statement (stmt : Statement) : M Plan :=
  do! c := get in
  do! (plan, r) := lift (BuildPlan (c_router c) (c_db c) stmt) in
  do! _ := modify (set_router r) in
  ret plan.

Definition merge_exec_result (rs : list (option Result)) : M unit :=
  do! c := get in
  do! (r, lastInsertId, affectedRows) := lift (mergeExecResult (c_lastInsertId c) rs) in
  do! _ := modify (set_counts lastInsertId affectedRows) in
  writeOK (Some r).

Definition handleExec (stmt : Statement) (args : list value) : M unit :=
  do! plan := plan_statement stmt in
  do! (conns, err) := getShardConns false plan in
  with_defer
    (match err, conns with
     | Some e, _ => fail e
     | None, None => writeOK None
     | None, Some conns =>
         do! rs := executeInMultiNodes conns (RewrittenSqls plan) args in
         merge_exec_result rs
     end)
    (closeShardConns (default ∅ conns) (match err with Some _ => true | None => false end)).

Definition merge_select_result (rs : list (option Result)) (stmt : select) : M unit :=
  do! c := get in
  do! (status, r) := lift (mergeSelectResult (c_lastInsertId c) (c_status c) rs stmt) in
  writeResultset status r.

Definition from_slave (stmt : select) : bool :=
  match Sel_Comments stmt with
  | comment :: _ => negb ((0 <? slen comment) && String.eqb (ToLower comment) MasterComment)
  | [] => true
  end.

Definition handleSelect (stmt : select) (args : list value) : M unit :=
  do! plan := plan_statement (StSelect stmt) in
  do! (conns, err) := getShardConns (from_slave stmt) plan in
  match err, conns with
  | Some e, _ => fail e
  | None, None =>
      do! c := get in
      do! r := lift (newEmptyResultset stmt) in
      writeResultset (c_status c) r
  | None, Some conns =>
      do! (err, rs) := try (executeInMultiNodes conns (RewrittenSqls plan) args) in
      do! _ := closeShardConns conns false in
      match err with
      | Some e => fail e
      | None => merge_select_result (default [] rs) stmt
      end
  end.

Definition handle_simple_select (exprs : list SelectExpr) : M unit :=
  do! c := get in
  do! r := lift (handleSimpleSelect (c_lastInsertId c) exprs) in
  writeResultset (c_status c) r.

(** ** Transactions *)

(** The connections of the transaction, in the order of the map. *)
Definition tx_conns (c : ClientConn) : list nat :=
  omap (fun name => txConns c !! name) (range_strings (dom (txConns c))).

Definition handleBegin : M unit :=
  do! c := get in
  do! _ := for_each Begin (tx_conns c) in
  do! _ := modify (set_bit SERVER_STATUS_IN_TRANS) in
  writeOK None.

(** [commit] and [rollback]: every connection gets the command and is given
    back; the last error is reported. *)
Fixpoint end_each (finish : nat -> M unit) (err : option error) (l : list nat) : M (option error) :=
  match l with
  | [] => ret err
  | co :: l =>
      do! (e, _) := try (finish co) in
      do! _ := Close (Some co) in
      end_each finish (match e with Some e => Some e | None => err end) l
  end.

Definition end_transaction (finish : nat -> M unit) : M unit :=
  do! _ := modify (clear_bit SERVER_STATUS_IN_TRANS) in
  do! c := get in
  do! err := end_each finish None (tx_conns c) in
  do! _ := modify (set_txConns ∅) in
  unless err.

Definition commit : M unit := end_transaction Commit.
Definition rollback : M unit := end_transaction Rollback.

Definition handleCommit : M unit := do! _ := commit in writeOK None.
Definition handleRollback : M unit := do! _ := rollback in writeOK None.

(** ** [use] *)
Definition handleUseDB (dbName : string) : M unit :=
  if slen dbName =? 0 then fail (Errorf "must have database, the length of dbName is zero")
  else
    do! c := get in
    do! nodeName := lift (at_ (Nodes (DefaultRule (c_router c))) 0) in
    do! (co, err) := getBackendConn (GetNode (proxy_nodes s) nodeName) true in
    with_defer
      (match err, co with
       | Some e, _ => fail e
       | None, None => nil_pointer
       | None, Some co =>
           do! (err, _) := try (UseDB co dbName) in
           match err with
           | Some e => do! _ := modify (set_db "") in fail e
           | None => do! _ := modify (set_db dbName) in writeOK None
           end
       end)
      (closeConn co false).

(** ** [set] *)
Definition quotes : string := "'`" +:+ dquote.

(** The connections of a transaction leave it one by one; the first that
    refuses ends the loop. *)
Fixpoint autocommit_each (l : list nat) : M unit :=
  match l with
  | [] => ret tt
  | co :: l =>
      do! (err, _) := try (SetAutoCommit co 1) in
      match err with
      | Some e =>
          do! _ := Close (Some co) in
          do! _ := modify (set_txConns ∅) in
          fail (Errorf ("set autocommit error, " +:+ error_Error e))
      | None => do! _ := Close (Some co) in autocommit_each l
      end
  end.

Definition handleSetAutoCommit (val : ValExpr) : M unit :=
  do! text := lift (node_String (ValExpr_Format val)) in
  let flag := Trim text quotes in
  let is_num := match val with NumVal _ => true | _ => false end in
  if (String.eqb flag "0" || String.eqb flag "1") && negb is_num then fail (Errorf "set autocommit error")
  else
    let up := ToUpper flag in
    if String.eqb up "1" || String.eqb up "ON" then
      do! _ := modify (set_bit SERVER_STATUS_AUTOCOMMIT) in
      do! c := get in
      do! _ := (if 0 <? Z.land (c_status c) SERVER_STATUS_IN_TRANS
                then modify (clear_bit SERVER_STATUS_IN_TRANS) else ret tt) in
      do! _ := autocommit_each (tx_conns c) in
      do! _ := modify (set_txConns ∅) in
      writeOK None
    else if String.eqb up "0" || String.eqb up "OFF" then
      do! _ := modify (clear_bit SERVER_STATUS_AUTOCOMMIT) in writeOK None
    else fail (Errorf ("invalid autocommit flag " +:+ flag)).

Definition handleSetNames (ch : ValExpr) (ci : option ValExpr) : M unit :=
  do! text := lift (node_String (ValExpr_Format ch)) in
  let charset := ToLower (Trim text quotes) in
  if String.eqb charset "null" then writeOK None
  else
    do! (charset, cid) := (
      match ci with
      | None =>
          let charset := if String.eqb charset "default" then DEFAULT_CHARSET else charset in
          match CharsetIds !! charset with
          | Some cid => ret (charset, cid)
          | None => fail (Errorf ("invalid charset " +:+ charset))
          end
      | Some ci =>
          do! text := lift (node_String (ValExpr_Format ci)) in
          let collate := ToLower (Trim text quotes) in
          match CollationNames !! collate with
          | Some cid => ret (charset, cid)
          | None => fail (Errorf ("invalid collation " +:+ collate))
          end
      end) in
    do! _ := modify (set_names charset cid) in
    writeOK None.

Definition autocommit_names : list string := ["AUTOCOMMIT"; "@@AUTOCOMMIT"; "@@SESSION.AUTOCOMMIT"].
Definition charset_names : list string := ["NAMES";
  "CHARACTER_SET_RESULTS"; "@@CHARACTER_SET_RESULTS"; "@@SESSION.CHARACTER_SET_RESULTS";
  "CHARACTER_SET_CLIENT"; "@@CHARACTER_SET_CLIENT"; "@@SESSION.CHARACTER_SET_CLIENT";
  "CHARACTER_SET_CONNECTION"; "@@CHARACTER_SET_CONNECTION"; "@@SESSION.CHARACTER_SET_CONNECTION"].

Definition handleSet (comments : list string) (exprs : list UpdateExpr) : M unit :=
  match exprs with
  | [] => do! text := lift (node_String (Set_Format comments exprs)) in
          fail (Errorf ("must set one item once, not " +:+ text))
  | e1 :: rest =>
      if Nat.ltb 1 (length rest) then
        do! text := lift (node_String (Set_Format comments exprs)) in
        fail (Errorf ("must set one item once, not " +:+ text))
      else
        let k := ToUpper (ColName_Name (UpdateExpr_Name e1)) in
        if StringIn k autocommit_names then handleSetAutoCommit (UpdateExpr_Expr e1)
        else if StringIn k charset_names then
          handleSetNames (UpdateExpr_Expr e1) (UpdateExpr_Expr <$> head rest)
        else writeOK None
  end.

(** ** Statements that are not planned *)
Definition on_router {A} (m : ST Router A) : M A := fun c =>
  let '(r, a) := m (c_router c) in (set_router r c, a).

Definition get_exec_db (tokens : list string) (sql : string) : M (option ExecuteDB) :=
  do! c := get in
  on_router
    (if isInTransaction c
     then GetTransExecDB (schema_nodes s) (proxy_nodes s) (c_db c) (elements (dom (txConns c))) tokens sql
     else GetExecDB (schema_nodes s) (proxy_nodes s) (c_db c) tokens sql).

Definition execute_unplanned (e : ExecuteDB) : M unit :=
  do! (conn, err) := getBackendConn (ExecNode e) (IsSlave e) in
  with_defer
    (match err, conn with
     | Some e, _ => fail e
     | None, None => nil_pointer
     | None, Some conn =>
         do! rs := executeInNode conn (sql e) [] in
         match rs with
         | [] => fail (ErrSqlError (NewError ER_UNKNOWN_ERROR "result is empty"))
         | r :: _ =>
             do! _ := modify (set_counts (i64 (InsertId r)) (i64 (AffectedRows r))) in
             do! c := get in
             match Res_set r with
             | Some rows => writeResultset (c_status c) rows
             | None => writeOK (Some r)
             end
         end
     end)
    (closeConn conn false).

Definition preHandleShard (sql : string) : M bool :=
  if slen sql =? 0 then fail ErrCmdUnsupport
  else
    do! refused := lift (blacklisted s sql) in
    if (refused : bool) then fail (ErrSqlError (NewError ER_UNKNOWN_ERROR "sql in blacklist."))
    else
    let tokens := FieldsFunc sql IsSqlSep in
    match tokens with
    | [] => fail ErrCmdUnsupport
    | _ =>
        do! (err, executeDB) := try (get_exec_db tokens sql) in
        match err, executeDB with
        | Some ErrIgnoreSQL, _ => do! _ := writeOK None in ret true
        | Some e, _ => fail e
        | None, Some (Some e) => do! _ := execute_unplanned e in ret true
        | None, _ => ret false
        end
    end.

(** ** [handleQuery] *)
Definition not_supported (type : string) : M unit :=
  fail (Errorf ("statement " +:+ type +:+ " not support now")).

Definition admin_command (stmt : Statement) (type : string) : M unit :=
  do! c := get in
  if String.eqb (c_user c) "root" then
    do! result := lift (admin s stmt) in
    match result with Some r => writeResultset (c_status c) r | None => writeOK None end
  else not_supported type.

Definition run_statement (stmt : Statement) (sql : string) : M unit :=
  match stmt with
  | StSelect v => handleSelect v []
  | StInsert _ | StUpdate _ | StDelete _ | StReplace _ | StTruncate _ => handleExec stmt []
  | StSet comments exprs => handleSet comments exprs
  | StBegin => handleBegin
  | StCommit => handleCommit
  | StRollback => handleRollback
  | StAdmin _ _ _ => admin_command stmt "*sqlparser.Admin"
  | StAdminHelp => admin_command stmt "*sqlparser.AdminHelp"
  | StUseDB db => handleUseDB db
  | StSimpleSelect _ _ exprs => handle_simple_select exprs
  | StUnion _ _ _ => not_supported "*sqlparser.Union"
  | StDDL _ _ _ _ => not_supported "*sqlparser.DDL"
  | StShow _ _ _ _ => not_supported "*sqlparser.Show"
  end.

Definition handleQuery (sql : string) : M unit :=
  recovering
    (let sql := TrimRight sql ";" in
     do! hasHandled := preHandleShard sql in
     if hasHandled then ret tt
     else do! stmt := lift (YyParse.Parse sql) in run_statement stmt sql)
    ErrInternalServer.

(** ** [handleFieldList] *)
Definition handleFieldList (table wildcard : string) : M unit :=
  do! c := get in
  let '(rule, r) := GetRule (c_router c) (c_db c) table in
  do! _ := modify (set_router r) in
  do! nodeName := lift (at_ (Nodes rule) 0) in
  do! (co, err) := getBackendConn (GetNode (proxy_nodes s) nodeName) false in
  with_defer
    (match err, co with
     | Some e, _ => fail e
     | None, None => nil_pointer
     | None, Some co =>
         do! (err, _) := try (UseDB co (c_db c)) in
         match err with
         | Some e => do! _ := modify (set_db "") in fail e
         | None =>
             do! k := send co (FieldList table wildcard) in
             do! fs := of_sum (fields_reply co k) in
             do! _ := no_affected_rows in
             do! c := get in
             respond (RFields (c_status c) fs)
         end
     end)
    (closeConn co false).

(** [clean], when the client is gone. *)
Definition clean : M unit :=
  do! c := get in for_each (fun co => Close (Some co)) (tx_conns c).
End Handlers.
