(* ===== verification/Stmt.v ===== *)
(** * The commands of the protocol ([dispatch] and [Run] of
      [proxy/server/conn.go], [proxy/server/conn_stmt.go])

    A client's session together with the statements it has prepared.  A
    prepared statement is always executed as it is on the default node, on
    a connection that prepares it anew.  [Serve] has the reloading of
    the configuration between two commands; here the rules stay the same. *)
From S2P Require Import Prelude Errors StateM GoLib GoTime GoFmt Charset ErrTables Wire Field Order Resultset.
From S2P Require Import Ast YyParse RouteLists Rule Plan Router ExecDB SelectMerge StmtArgs Session Handlers.
From Stdlib Require Import Ascii.
Open Scope Z_scope.

Record Stmt := mkStmt {
  Stmt_id : Z; Stmt_params : Z; Stmt_columns : Z;
  Stmt_args : list value;
  Stmt_s : Statement;
  Stmt_sql : string
}.

(** [stmts] holds pointers, so a change of a statement is seen there. *)
Record Client := mkClient { session : ClientConn; stmtId : Z; stmts : gmap Z Stmt }.

Definition set_session (s : ClientConn) (c : Client) : Client := mkClient s (stmtId c) (stmts c).
Definition set_stmts (m : gmap Z Stmt) (c : Client) : Client := mkClient (session c) (stmtId c) m.
Definition next_stmtId (c : Client) : Client := mkClient (session c) (u32 (stmtId c + 1)) (stmts c).
Definition set_args (args : list value) (s : Stmt) : Stmt :=
  mkStmt (Stmt_id s) (Stmt_params s) (Stmt_columns s) args (Stmt_s s) (Stmt_sql s).

Abbreviation C := (ST Client).

(** A method that does not see the prepared statements. *)
Definition on_session {A} (m : ST ClientConn A) : C A := fun c =>
  let '(s, r) := m (session c) in (set_session s c, r).

(** [make([]interface{}, s.params)] *)
Definition no_args (s : Stmt) : list value := replicate (Z.to_nat (Stmt_params s)) VNil.
Definition ResetParams (id : Z) : C unit :=
  modify (fun c => set_stmts (alter (fun s => set_args (no_args s) s) id (stmts c)) c).

(** [c.stmts[id]], or the error with the command that wanted it. *)
Definition the_stmt (id : Z) (command : string) : C Stmt :=
  do! c := get in
  match stmts c !! id with
  | Some s => ret s
  | None => fail (ErrSqlError (NewDefaultError ER_UNKNOWN_STMT_HANDLER [ArgString (FormatUint id); ArgString command]))
  end.

(** A method of the arguments of a statement. *)
Definition on_args (id : Z) (m : ST (list value) unit) : C unit := fun c =>
  match stmts c !! id with
  | Some s => let '(l, r) := m (Stmt_args s) in (set_stmts (<[id := set_args l s]> (stmts c)) c, r)
  | None => (c, Ok tt)
  end.

(** [%T] *)
Definition statement_type (stmt : Statement) : string :=
  "*sqlparser." +:+
  match stmt with
  | StSelect _ => "Select" | StUnion _ _ _ => "Union" | StSimpleSelect _ _ _ => "SimpleSelect"
  | StInsert _ => "Insert" | StUpdate _ => "Update" | StDelete _ => "Delete" | StReplace _ => "Replace"
  | StTruncate _ => "Truncate" | StSet _ _ => "Set" | StDDL _ _ _ _ => "DDL" | StBegin => "Begin"
  | StCommit => "Commit" | StRollback => "Rollback" | StAdmin _ _ _ => "Admin" | StAdminHelp => "AdminHelp"
  | StShow _ _ _ _ => "Show" | StUseDB _ => "UseDB"
  end.

Section Commands.
Context `{Outside} `{StrMapOrder} `{MapOrder} `{Timezone} `{GoFloat} `{GoSort} `{ErrorText}.
Context (s : proxy).

Definition prepare_error {A} (e : error) : ST ClientConn A := fail (Errorf ("prepare error " +:+ error_Error e)).

(** [co.Prepare(sql)] *)
Definition Prepare_on (co : nat) (sql : string) : ST ClientConn (Z * Z * Z) :=
  do! k := send co (Prepare sql) in of_sum (prepare_reply co k).

(** What [handleStmtPrepare] does with the connection it got, up to the
    answer of the server. *)
Definition prepare_on_conn (err : option error) (co : option nat) (sql : string) : ST ClientConn (nat * (Z * Z * Z)) :=
  match err, co with
  | Some e, _ => prepare_error e
  | None, None => nil_pointer
  | None, Some co =>
      do! c := get in
      do! (err, _) := try (UseDB co (c_db c)) in
      match err with
      | Some e => do! _ := modify (set_db "") in prepare_error e
      | None =>
          do! (err, t) := try (Prepare_on co sql) in
          match err, t with
          | None, Some t => ret (co, t)
          | Some e, _ => prepare_error e
          | None, None => nil_pointer
          end
      end
  end.

Definition writePrepare (st : Stmt) : ST ClientConn unit :=
  do! c := get in respond (RPrepare (Stmt_id st) (Stmt_columns st) (Stmt_params st) (c_status c)).

Definition handleStmtPrepare (sql : string) : C unit :=
  let sql := TrimRight sql ";" in
  do! (err, stmt) := try (lift (YyParse.Parse sql)) in
  match err, stmt with
  | None, Some stmt =>
      do! c := get in
      do! nodeName := lift (at_ (Nodes (DefaultRule (c_router (session c)))) 0) in
      do! (co, err) := on_session (getBackendConn (GetNode (proxy_nodes s) nodeName) false) in
      with_defer
        (do! (k, (tid, tcolumns, tparams)) := on_session (prepare_on_conn err co sql) in
         do! c := get in
         let st := mkStmt (stmtId c) tparams tcolumns [] stmt sql in
         do! _ := modify next_stmtId in
         do! _ := on_session (writePrepare st) in
         do! _ := modify (fun c => set_stmts (<[Stmt_id st := set_args (no_args st) st]> (stmts c)) c) in
         on_session (do! n := send k (ClosePrepare tid) in
                     do! _ := of_sum (reply k n (ClosePrepare tid)) in ret tt))
        (on_session (closeConn co false))
  | _, _ =>
      fail (Errorf ("parse sql " +:+ dquote +:+ sql +:+ dquote +:+ " error"))
  end.

(** [handlePrepareSelect] and [handlePrepareExec] *)
Definition prepared_node : ST ClientConn (option string) :=
  do! c := get in
  match Nodes (DefaultRule (c_router c)) with
  | [] => fail ErrNoDefaultNode
  | node :: _ => ret (GetNode (proxy_nodes s) node)
  end.

Definition handlePrepareSelect (stmt : select) (sql : string) (args : list value) : ST ClientConn unit :=
  do! n := prepared_node in
  do! (conn, err) := getBackendConn n true in
  with_defer
    (match err, conn with
     | Some e, _ => fail e
     | None, None =>
         do! c := get in do! r := lift (newEmptyResultset stmt) in writeResultset (c_status c) r
     | None, Some conn =>
         do! rs := executeInNode conn sql args in
         do! r := lift (at_ rs 0) in
         do! c := get in
         let status := Z.lor (c_status c) (Status r) in
         match Res_set r with
         | Some rows => writeResultset status rows
         | None => do! r := lift (newEmptyResultset stmt) in writeResultset status r
         end
     end)
    (closeConn conn false).

Definition handlePrepareExec (sql : string) (args : list value) : ST ClientConn unit :=
  do! n := prepared_node in
  do! (conn, err) := getBackendConn n false in
  with_defer
    (match err, conn with
     | Some e, _ => fail e
     | None, None => writeOK None
     | None, Some conn =>
         do! (err, rs) := try (executeInNode conn sql args) in
         do! _ := closeConn (Some conn) false in
         match err with
         | Some e => fail e
         | None =>
             do! r := lift (at_ (default [] rs) 0) in
             do! c := get in
             match Res_set r with
             | Some rows => writeResultset (Z.lor (c_status c) (Status r)) rows
             | None => writeOK (Some r)
             end
         end
     end)
    (closeConn conn false).

Definition run_prepared (stmt : Statement) (sql : string) (args : list value) : ST ClientConn unit :=
  match stmt with
  | StSelect v => handlePrepareSelect v sql args
  | StInsert _ | StUpdate _ | StDelete _ | StReplace _ => handlePrepareExec sql args
  | _ => fail (Errorf ("command " +:+ statement_type stmt +:+ " not supported now"))
  end.

Definition execute_with (run : Statement -> string -> list value -> ST ClientConn unit) (data : bytes) : C unit :=
  if blen data <? 9 then fail MyErrMalformPacket
  else
    do! id := lift (le_at data 0 4) in
    do! st := the_stmt id "stmt_execute" in
    do! flag := lift (at_ data 4) in
    if negb (flag =? 0) then
      fail (ErrSqlError (NewError ER_UNKNOWN_ERROR ("unsupported flag " +:+ FormatInt flag)))
    else
      do! _ := (if 0 <? Stmt_params st then on_args id (bind_packet (Stmt_params st) data) else ret tt) in
      do! st := the_stmt id "stmt_execute" in
      do! (err, _) := try (on_session (run (Stmt_s st) (Stmt_sql st) (Stmt_args st))) in
      do! _ := ResetParams id in
      unless err.
Definition handleStmtExecute : bytes -> C unit := execute_with run_prepared.

(** [s.args[paramId] = ...] *)
Definition add_long_data (paramId : Z) (chunk : bytes) : ST (list value) unit := fun l =>
  match @at_ error value l paramId with
  | Ok VNil => set_arg paramId (VBytes chunk) l
  | Ok (VBytes b) => set_arg paramId (VBytes (b ++ chunk)) l
  | Ok v => (l, Err (Errorf ("invalid param long data type " +:+ type_name v)))
  | Err e => (l, Err e)
  | Panic p => (l, Panic p)
  end.

Definition handleStmtSendLongData (data : bytes) : C unit :=
  if blen data <? 6 then fail MyErrMalformPacket
  else
    do! id := lift (le_at data 0 4) in
    do! st := the_stmt id "stmt_send_longdata" in
    do! paramId := lift (le_at data 4 2) in
    if u16 (Stmt_params st) <=? paramId then
      fail (ErrSqlError (NewDefaultError ER_WRONG_ARGUMENTS [ArgString "stmt_send_longdata"]))
    else
      do! chunk := lift (from data 6) in
      on_args id (add_long_data paramId chunk).

Definition handleStmtReset (data : bytes) : C unit :=
  if blen data <? 4 then fail MyErrMalformPacket
  else
    do! id := lift (le_at data 0 4) in
    do! _ := the_stmt id "stmt_reset" in
    do! _ := ResetParams id in
    on_session (writeOK None).

Definition handleStmtClose (data : bytes) : C unit :=
  if blen data <? 4 then ret tt
  else
    do! id := lift (le_at data 0 4) in
    modify (fun c => set_stmts (base.delete id (stmts c)) c).

(** ** [dispatch] *)
Definition COM_QUIT : Z := 1.
Definition COM_INIT_DB : Z := 2.
Definition COM_QUERY : Z := 3.
Definition COM_FIELD_LIST : Z := 4.
Definition COM_PING : Z := 14.
Definition COM_STMT_PREPARE : Z := 22.
Definition COM_STMT_SEND_LONG_DATA : Z := 24.
Definition COM_STMT_CLOSE : Z := 25.
Definition COM_STMT_RESET : Z := 26.
Definition COM_SET_OPTION : Z := 27.

(** [data[0:index]] and [data[index+1:]] with [bytes.IndexByte(data, 0)];
    without a zero byte the index is -1. *)
Definition field_list_args (data : bytes) : res error (string * string) :=
  match list_find (eq 0) data with
  | Some (i, _) => Ok (string_of (take i data), string_of (drop (S i) data))
  | None => Panic (PRuntime "slice bounds out of range")
  end.

Definition writeEOF (status : Z) : ST ClientConn unit := respond (REOF status).

Definition dispatch (data : bytes) : C unit :=
  do! cmd := lift (at_ data 0) in
  let data := tail data in
  if cmd =? COM_QUIT then
    do! _ := on_session (try handleRollback) in on_session (modify set_closed)
  else if cmd =? COM_QUERY then on_session (handleQuery s (string_of data))
  else if cmd =? COM_PING then on_session (writeOK None)
  else if cmd =? COM_INIT_DB then on_session (handleUseDB s (string_of data))
  else if cmd =? COM_FIELD_LIST then
    do! (table, wildcard) := lift (field_list_args data) in on_session (handleFieldList s table wildcard)
  else if cmd =? COM_STMT_PREPARE then handleStmtPrepare (string_of data)
  else if cmd =? COM_STMT_EXECUTE then handleStmtExecute data
  else if cmd =? COM_STMT_CLOSE then handleStmtClose data
  else if cmd =? COM_STMT_SEND_LONG_DATA then handleStmtSendLongData data
  else if cmd =? COM_STMT_RESET then handleStmtReset data
  else if cmd =? COM_SET_OPTION then on_session (writeEOF 0)
  else fail (ErrSqlError (NewError ER_UNKNOWN_ERROR ("command " +:+ FormatInt cmd +:+ " not supported now"))).

(** [writeError]: an error that has no code gets one. *)
Definition client_error (e : error) : SqlError :=
  match e with ErrSqlError m => m | _ => NewError ER_UNKNOWN_ERROR (error_Error e) end.
Definition writeError (e : error) : ST ClientConn unit := respond (RError (client_error e)).

(** One round of the loop of [Run]. *)
Definition report (dispatched : C unit) : C unit :=
  do! (err, _) := try dispatched in
  match err with
  | None => ret tt
  | Some e =>
      do! _ := try (on_session (writeError e)) in
      if decide (e = MyErrBadConn) then on_session (modify set_closed) else ret tt
  end.
Definition serve_packet (data : bytes) : C unit := report (dispatch data).

(** The loop, on the packets the client sends before it is gone. *)
Fixpoint run_packets (packets : list bytes) : C unit :=
  match packets with
  | [] => ret tt
  | data :: packets =>
      do! _ := serve_packet data in
      do! c := get in
      if c_closed (session c) then ret tt else run_packets packets
  end.

(** The connections of the transaction are given back, and a panic is
    recovered, before the socket is closed. *)
Definition Run (packets : list bytes) (c : Client) : Client :=
  let '(c, _) := with_defer (run_packets packets) (on_session clean) c in
  set_session (set_closed (session c)) c.
End Commands.
