(* ===== verification/SessionFacts.v ===== *)
(** * Steps of a session

    What each operation of a session leaves alone, who owns which
    connection afterwards, and how transactions end. *)
From S2P Require Import Prelude Errors StateM GoLib GoTime GoFmt Charset ErrTables Field Order Resultset.
From S2P Require Import Ast RouteLists Rule Plan Router RouterTheorems ExecDB SelectMerge Session Handlers.
From Stdlib Require Import Ascii.
Open Scope Z_scope.

(** ** What most steps leave alone *)

(** The same connection, with more sent on it. *)
Definition same_conn (b b' : BackendConn) : Prop :=
  bc_open b' = bc_open b /\ bc_node b' = bc_node b /\ bc_slave b' = bc_slave b.

#[export] Instance same_conn_preorder : PreOrder same_conn.
Proof. split; [done|]. intros x y z (?&?&?) (?&?&?). unfold same_conn. split_and!; by etrans. Qed.

(** Neither the transaction nor the set of connections changes. *)
Record frame (c c' : ClientConn) : Prop := {
  frame_status : c_status c' = c_status c;
  frame_tx : txConns c' = txConns c;
  frame_rules : Rules (c_router c') = Rules (c_router c);
  frame_default : Nodes (DefaultRule (c_router c')) = Nodes (DefaultRule (c_router c));
  frame_conns : Forall2 same_conn (c_conns c) (c_conns c')
}.

#[export] Instance frame_preorder : PreOrder frame.
Proof.
  split; [by split|]. intros x y z [? ? ? ? H1] [? ? ? ? H2].
  split; [by etrans..|]. by transitivity (c_conns y).
Qed.

(** Looking up rules only changes the database the default rule was last
    used for. *)
Definition same_router (r r' : Router) : Prop :=
  Rules r' = Rules r /\ Nodes (DefaultRule r') = Nodes (DefaultRule r).

#[export] Instance same_router_preorder : PreOrder same_router.
Proof. split; [done|]. intros x y z [? ?] [? ?]. split; by etrans. Qed.

Lemma GetRule_same r db table : same_router r (GetRule r db table).2.
Proof. unfold GetRule. destruct (rule_name db table) as [d t]. by destruct (lookup_rule _ d t). Qed.

Section Lookup.
Context (schema_nodes proxy_nodes : gset string) (db : string).

Lemma moves_get_rule d t : moves same_router (get_rule d t).
Proof.
  apply moves_get_bind; [exact _|]. intros r. pose proof (GetRule_same r d t) as Hr.
  by destruct (GetRule r d t) as [rule r'].
Qed.
#[local] Hint Resolve moves_get_rule : methods.

Lemma moves_table_sharded name : moves same_router (table_sharded db name).
Proof. unfold table_sharded. moves. Qed.

Lemma moves_with_rules m : moves same_router m -> moves same_router (with_rules m).
Proof. intros Hm. unfold with_rules. moves. Qed.

Lemma moves_needs_plan word stop name tokens : moves same_router (needs_plan db word stop name tokens).
Proof.
  induction tokens as [|token [|next rest] IH]; cbn [needs_plan]; [moves..|].
  case_match; [apply moves_table_sharded|]. case_match; [moves | exact IH].
Qed.

Lemma moves_set_needs_plan p tokens : moves same_router (set_needs_plan db p tokens).
Proof.
  revert p. induction tokens as [|token rest IH]; intros p; cbn [set_needs_plan]; [moves|].
  case_match; [case_match; [apply moves_table_sharded | moves] | apply IH].
Qed.

Lemma moves_setExecuteNode tokens e : moves same_router (setExecuteNode schema_nodes proxy_nodes tokens e).
Proof. unfold setExecuteNode, default_node. moves. Qed.

Lemma moves_show_columns fuel tokens i e : moves same_router (show_columns schema_nodes db fuel tokens i e).
Proof.
  revert tokens i. induction fuel as [|fuel IH]; intros tokens i; cbn [show_columns]; [moves|].
  apply moves_bind; [exact _ | | intros [r|]; [moves | apply IH]].
  unfold show_columns_here. moves.
Qed.
End Lookup.
#[local] Hint Resolve moves_table_sharded moves_with_rules moves_needs_plan moves_set_needs_plan
  moves_setExecuteNode moves_show_columns : methods.

Lemma moves_GetExecDB schema proxy db tokens sql : moves same_router (GetExecDB schema proxy db tokens sql).
Proof.
  unfold GetExecDB. destruct tokens as [|t0 l]; [moves|].
  destruct (PARSE_TOKEN_MAP !! ToLower t0) as [[]|];
    unfold getSelectExecDB, getDeleteExecDB, getInsertOrReplaceExecDB, getUpdateExecDB, getSetExecDB, set_planned, getShowExecDB,
      getTruncateExecDB, unless_planned, handleShowColumns; moves.
Qed.
#[local] Hint Resolve moves_GetExecDB : methods.

Lemma moves_GetTransExecDB schema proxy db tx tokens sql : moves same_router (GetTransExecDB schema proxy db tx tokens sql).
Proof. unfold GetTransExecDB. moves. Qed.

Section Frame.
Context `{Outside} `{StrMapOrder}.

Lemma frame_update_conn co f c : (forall b, same_conn b (f b)) -> frame c (update_conn co f c).
Proof.
  intros Hf. split; try done. cbn. apply Forall2_same_length_lookup_2; [by rewrite length_alter|].
  intros i x y Hx Hy. destruct (decide (co = i)) as [->|Hne].
  - rewrite list_lookup_alter_eq, Hx in Hy. injection Hy as <-. apply Hf.
  - rewrite list_lookup_alter_ne, Hx in Hy by done. by injection Hy as <-.
Qed.

Lemma moves_update_conn co f : (forall b, same_conn b (f b)) -> moves frame (modify (update_conn co f)).
Proof. intros Hf. apply moves_modify; [exact _|]. intros c. by apply frame_update_conn. Qed.
Lemma moves_log co cmd : moves frame (modify (update_conn co (log_command cmd))).
Proof. by apply moves_update_conn. Qed.
Lemma moves_conn_db co db : moves frame (modify (update_conn co (conn_db db))).
Proof. by apply moves_update_conn. Qed.
Lemma moves_conn_names co charset collation : moves frame (modify (update_conn co (conn_names charset collation))).
Proof. by apply moves_update_conn. Qed.

Lemma moves_of_sum {A} (r : A + error) : moves frame (of_sum r).
Proof. destruct r; unfold of_sum; moves. Qed.
Lemma moves_set_router r : (forall c, same_router (c_router c) r) -> moves frame (modify (set_router r)).
Proof. intros Hr. apply moves_modify; [exact _|]. intros c. destruct (Hr c). by split. Qed.
Lemma moves_set_db db : moves frame (modify (set_db db)).
Proof. apply moves_modify; [exact _ | by split]. Qed.
Lemma moves_set_counts a b : moves frame (modify (set_counts a b)).
Proof. apply moves_modify; [exact _ | by split]. Qed.
Lemma moves_set_names a b : moves frame (modify (set_names a b)).
Proof. apply moves_modify; [exact _ | by split]. Qed.
#[local] Hint Resolve moves_log moves_conn_db moves_conn_names moves_of_sum moves_set_db moves_set_counts
  moves_set_names : methods.

Lemma moves_deref co : moves frame (deref co).
Proof. unfold deref, nil_pointer. moves. Qed.
#[local] Hint Resolve moves_deref : methods.
Lemma moves_send co cmd : moves frame (send co cmd).
Proof. unfold send. moves. Qed.
#[local] Hint Resolve moves_send : methods.
Lemma moves_exec co sql : moves frame (exec co sql).
Proof. unfold exec. moves. Qed.
#[local] Hint Resolve moves_exec : methods.
Lemma moves_Execute co sql args : moves frame (Execute co sql args).
Proof. unfold Execute. moves. Qed.
Lemma moves_Begin co : moves frame (Begin co).
Proof. unfold Begin. moves. Qed.
Lemma moves_Commit co : moves frame (Commit co).
Proof. unfold Commit. moves. Qed.
Lemma moves_Rollback co : moves frame (Rollback co).
Proof. unfold Rollback. moves. Qed.
Lemma moves_SetAutoCommit co n : moves frame (SetAutoCommit co n).
Proof. unfold SetAutoCommit. moves. Qed.
Lemma moves_UseDB co db : moves frame (UseDB co db).
Proof. unfold UseDB. moves. Qed.
Lemma moves_SetCharset co charset collation : moves frame (SetCharset co charset collation).
Proof. unfold SetCharset. moves. Qed.
#[local] Hint Resolve moves_Execute moves_Begin moves_Commit moves_Rollback moves_SetAutoCommit moves_UseDB
  moves_SetCharset : methods.

Lemma moves_respond r : moves frame (respond r).
Proof.
  unfold respond. apply moves_get_bind; [exact _|]. intros c.
  match goal with |- frame c (?m c).1 => change m with (bind (modify (fun _ : ClientConn => set_sent (c_sent c ++ [r]) c))
    (fun _ => unless (S := ClientConn) (client_write (length (c_sent c))))) end.
  unfold bind, modify. cbn. by destruct (client_write _).
Qed.
Lemma moves_no_affected_rows : moves frame no_affected_rows.
Proof. apply moves_modify; [exact _ | by split]. Qed.
#[local] Hint Resolve moves_respond moves_no_affected_rows : methods.
Lemma moves_writeOK r : moves frame (writeOK r).
Proof. unfold writeOK. moves. Qed.
Lemma moves_writeResultset status r : moves frame (writeResultset status r).
Proof. unfold writeResultset. moves. Qed.
#[local] Hint Resolve moves_writeOK moves_writeResultset : methods.

Lemma moves_executeInNode co sql args : moves frame (executeInNode co sql args).
Proof. unfold executeInNode. moves. Qed.
Lemma moves_run_on co sqls args : moves frame (run_on co sqls args).
Proof. induction sqls as [|sql sqls IH]; cbn [run_on]; moves. Qed.
#[local] Hint Resolve moves_executeInNode moves_run_on : methods.
Lemma moves_run_all conns sqls args names : moves frame (run_all conns sqls args names).
Proof. induction names as [|name names IH]; cbn [run_all]; moves. Qed.
#[local] Hint Resolve moves_run_all : methods.
Lemma moves_executeInMultiNodes conns sqls args : moves frame (executeInMultiNodes conns sqls args).
Proof. unfold executeInMultiNodes. moves. Qed.
End Frame.
#[export] Hint Resolve moves_log moves_conn_db moves_conn_names moves_of_sum moves_set_db moves_set_counts
  moves_set_names moves_deref moves_send moves_exec moves_Execute moves_Begin moves_Commit moves_Rollback
  moves_SetAutoCommit moves_UseDB moves_SetCharset moves_respond moves_no_affected_rows moves_writeOK moves_writeResultset
  moves_executeInNode moves_run_on moves_run_all moves_executeInMultiNodes : methods.

Section FrameHandlers.
Context `{Outside} `{StrMapOrder} `{MapOrder} `{Timezone} `{GoFloat} `{GoSort} `{ErrorText}.
Context (s : proxy).

Lemma moves_on_router {A} (m : ST Router A) : moves same_router m -> moves frame (on_router m).
Proof.
  intros Hm c. unfold on_router. specialize (Hm (c_router c)). destruct (m (c_router c)) as [r a].
  destruct Hm. by split.
Qed.

Lemma moves_get_exec_db tokens sql : moves frame (get_exec_db s tokens sql).
Proof.
  unfold get_exec_db. apply moves_bind; [exact _ | moves | intros c]. apply moves_on_router.
  case_match; [apply moves_GetTransExecDB | apply moves_GetExecDB].
Qed.

Lemma moves_plan_statement stmt : moves frame (plan_statement stmt).
Proof.
  unfold plan_statement. apply moves_get_bind; [exact _|]. intros c.
  unfold bind, lift, modify. destruct (BuildPlan _ _ _) as [[p r]|e|pn] eqn:E; [|done..].
  apply BuildPlan_shape in E as (t & rule & Hr & _). pose proof (GetRule_same (c_router c) (c_db c) t) as Hs.
  rewrite Hr in Hs. destruct Hs. by split.
Qed.

Lemma moves_merge_exec_result rs : moves frame (merge_exec_result rs).
Proof. unfold merge_exec_result. moves. Qed.
Lemma moves_merge_select_result rs stmt : moves frame (merge_select_result rs stmt).
Proof. unfold merge_select_result. moves. Qed.
Lemma moves_handle_simple_select exprs : moves frame (handle_simple_select exprs).
Proof. unfold handle_simple_select. moves. Qed.
Lemma moves_handleSetNames ch ci : moves frame (handleSetNames ch ci).
Proof. unfold handleSetNames. moves. Qed.
Lemma moves_admin_command stmt type : moves frame (admin_command s stmt type).
Proof. unfold admin_command, not_supported. moves. Qed.
End FrameHandlers.
#[export] Hint Resolve moves_get_exec_db moves_plan_statement moves_merge_exec_result moves_merge_select_result
  moves_handle_simple_select moves_handleSetNames moves_admin_command : methods.

(** ** Who has which connection *)

(** Rules do not name a node twice. *)
Definition router_ok (r : Router) : Prop :=
  (forall d t rule, lookup_rule (Rules r) d t = Some rule -> NoDup (Nodes rule)) /\ NoDup (Nodes (DefaultRule r)).

(** The connections of a transaction are open, on their node's master, and
    there are none outside a transaction. *)
Record Inv (c : ClientConn) : Prop := {
  inv_tx : forall n co, txConns c !! n = Some co ->
    exists b, c_conns c !! co = Some b /\ bc_open b = true /\ bc_node b = n /\ bc_slave b = false;
  inv_out : isInTransaction c = false -> txConns c = ∅;
  inv_rules : router_ok (c_router c)
}.

(** The connections that are open are those of the transaction and [E]. *)
Record Owned (E : gset nat) (c : ClientConn) : Prop := {
  owned_inv : Inv c;
  owned_open : forall co b, c_conns c !! co = Some b -> bc_open b = true ->
    (exists n, txConns c !! n = Some co) \/ co ∈ E
}.

Lemma Inv_Owned c : Inv c -> Owned (set_seq 0 (length (c_conns c))) c.
Proof.
  intros HI. split; [done|]. intros co b Hb _. right. apply elem_of_set_seq.
  apply lookup_lt_Some in Hb. lia.
Qed.

Lemma isInTransaction_status c c' : c_status c' = c_status c -> isInTransaction c' = isInTransaction c.
Proof. unfold isInTransaction, isAutoCommit. by intros ->. Qed.

Lemma router_ok_same r r' : same_router r r' -> router_ok r -> router_ok r'.
Proof. intros [H1 H2]. unfold router_ok. by rewrite H1, H2. Qed.

Lemma Forall2_same_r l l' i b' : Forall2 same_conn l l' -> l' !! i = Some b' -> exists b, l !! i = Some b /\ same_conn b b'.
Proof. intros Hl Hi. by destruct (Forall2_lookup_r _ _ _ _ _ Hl Hi) as (b & ? & ?); eauto. Qed.
Lemma Forall2_same_l l l' i b : Forall2 same_conn l l' -> l !! i = Some b -> exists b', l' !! i = Some b' /\ same_conn b b'.
Proof. intros Hl Hi. by destruct (Forall2_lookup_l _ _ _ _ _ Hl Hi) as (b' & ? & ?); eauto. Qed.

Lemma Owned_frame E c c' : Owned E c -> frame c c' -> Owned E c'.
Proof.
  intros [[H1 H2 H3] H4] [Hs Ht Hr Hd Hc]. split; [split|].
  - rewrite Ht. intros n co Hn. destruct (H1 n co Hn) as (b & Hb & ? & ? & ?).
    destruct (Forall2_same_l _ _ _ _ Hc Hb) as (b' & Hb' & ? & ? & ?). exists b'. split_and!; [done | congruence..].
  - rewrite (isInTransaction_status _ _ Hs), Ht. done.
  - apply (router_ok_same (c_router c)); [by split | done].
  - rewrite Ht. intros co b' Hb' Ho. destruct (Forall2_same_r _ _ _ _ Hc Hb') as (b & Hb & ? & ? & ?).
    apply (H4 co b Hb). congruence.
Qed.

(** A new connection, [co], and more sent on the others. *)
Record added (co : nat) (node : string) (slave : bool) (c c' : ClientConn) : Prop := {
  added_status : c_status c' = c_status c;
  added_tx : txConns c' = txConns c;
  added_router : same_router (c_router c) (c_router c');
  added_place : co = length (c_conns c);
  added_conns : exists b, bc_open b = true /\ bc_node b = node /\ bc_slave b = slave /\
    Forall2 same_conn (c_conns c ++ [b]) (c_conns c')
}.

Lemma added_frame co node slave c c' c'' : added co node slave c c' -> frame c' c'' -> added co node slave c c''.
Proof.
  intros [Hs Ht Hr Hp (b & Ho & Hn & Hsl & Hc)] [Hs' Ht' Hr' Hd' Hc'].
  split; [congruence | congruence | by etrans; [exact Hr | split] | done |].
  exists b. split_and!; [done..|]. by etrans.
Qed.

Lemma frame_added co node slave c c' c'' : frame c c' -> added co node slave c' c'' -> added co node slave c c''.
Proof.
  intros [Hs' Ht' Hr' Hd' Hc'] [Hs Ht Hr Hp (b & Ho & Hn & Hsl & Hc)].
  split; [congruence | congruence | by etrans; [split|exact Hr] | by rewrite (Forall2_length _ _ _ Hc') |].
  exists b. split_and!; [done..|]. etrans; [|exact Hc]. apply Forall2_app; [done | by repeat constructor].
Qed.

Lemma added_lookup co node slave c c' :
  added co node slave c c' ->
  exists b, c_conns c' !! co = Some b /\ bc_open b = true /\ bc_node b = node /\ bc_slave b = slave.
Proof.
  intros [_ _ _ -> (b & Ho & Hn & Hsl & Hc)].
  destruct (Forall2_same_l _ _ (length (c_conns c)) b Hc) as (b' & Hb' & ? & ? & ?).
  { by rewrite lookup_app_r, Nat.sub_diag by lia. }
  exists b'. split_and!; [done | congruence..].
Qed.

Lemma added_old E co node slave c c' co' b' :
  Owned E c -> added co node slave c c' -> c_conns c' !! co' = Some b' -> bc_open b' = true -> co' <> co ->
  (exists n, txConns c !! n = Some co') \/ co' ∈ E.
Proof.
  intros [_ H4] [_ _ _ -> (b & Ho & Hn & Hsl & Hc)] Hb' Hob Hne.
  destruct (Forall2_same_r _ _ _ _ Hc Hb') as (b1 & Hb1 & Hsc & _).
  apply lookup_app_Some in Hb1 as [Hb1|[Hge Hb1]].
  - apply (H4 co' b1 Hb1). congruence.
  - apply list_lookup_singleton_Some in Hb1 as [Hz _]. lia.
Qed.

Lemma added_tx_conn E co node slave c c' n co' :
  Owned E c -> added co node slave c c' -> txConns c !! n = Some co' ->
  exists b, c_conns c' !! co' = Some b /\ bc_open b = true /\ bc_node b = n /\ bc_slave b = false.
Proof.
  intros [[H1 _ _] _] [_ _ _ _ (b & _ & _ & _ & Hc)] Hn. destruct (H1 n co' Hn) as (b1 & Hb1 & ? & ? & ?).
  destruct (Forall2_same_l _ _ co' b1 Hc) as (b' & Hb' & ? & ? & ?).
  { by apply lookup_app_l_Some. }
  exists b'. split_and!; [done | congruence..].
Qed.

(** The new connection is spare, or joins the transaction. *)
Lemma Owned_added E co node slave c c' :
  Owned E c -> added co node slave c c' -> Owned ({[co]} ∪ E) c'.
Proof.
  intros HO Ha. split; [split|].
  - rewrite (added_tx _ _ _ _ _ Ha). intros n co'. by eapply added_tx_conn.
  - rewrite (added_tx _ _ _ _ _ Ha), (isInTransaction_status _ _ (added_status _ _ _ _ _ Ha)). apply HO.
  - eapply router_ok_same; [apply Ha | apply HO].
  - intros co' b' Hb' Ho. rewrite (added_tx _ _ _ _ _ Ha). destruct (decide (co' = co)) as [->|Hne]; [set_solver|].
    destruct (added_old _ _ _ _ _ _ _ _ HO Ha Hb' Ho Hne); [by left | set_solver].
Qed.

Lemma Owned_joined E co node c c' :
  Owned E c -> isInTransaction c = true -> added co node false c c' -> txConns c !! node = None ->
  Owned E (set_txConns (<[node := co]> (txConns c')) c').
Proof.
  intros HO Hin Ha Hnone. rewrite (added_tx _ _ _ _ _ Ha). split; [split|]; cbn.
  - intros n co' Hn. destruct (decide (n = node)) as [->|Hne].
    + rewrite lookup_insert_eq in Hn. injection Hn as <-. by eapply added_lookup.
    + rewrite lookup_insert_ne in Hn by done. by eapply added_tx_conn.
  - intros Hf. exfalso. pose proof (isInTransaction_status _ _ (added_status _ _ _ _ _ Ha)) as Hi.
    change (isInTransaction c' = false) in Hf. congruence.
  - eapply router_ok_same; [apply Ha | apply HO].
  - intros co' b' Hb' Ho. destruct (decide (co' = co)) as [->|Hne].
    + left. exists node. by rewrite lookup_insert_eq.
    + destruct (added_old _ _ _ _ _ _ _ _ HO Ha Hb' Ho Hne) as [[n Hn]|?]; [|by right].
      left. exists n. rewrite lookup_insert_ne; [done|]. intros ->. congruence.
Qed.

Section Take.
Context `{Outside} `{StrMapOrder}.

Lemma take_conn_spec n slave c :
  wp (take_conn n slave) (fun r c' => match r with
    | Ok co => exists node, n = Some node /\ added co node slave c c'
    | _ => frame c c'
    end) c.
Proof.
  unfold wp, take_conn. destruct n as [node|]; [|by split]. unfold bind, get, put, of_sum. cbn.
  destruct (new_conn node slave (c_takes c)) as [[[db charset] collation]|e]; cbn; [|by split].
  exists node. split; [done|]. split; try done. by exists (mkBackendConn node slave true db charset collation []).
Qed.

(** Connections stay as they were, with more sent on them. *)
Definition stays (c c' : ClientConn) : Prop :=
  forall co b, c_conns c !! co = Some b -> exists b', c_conns c' !! co = Some b' /\ same_conn b b'.

Lemma frame_stays c c' : frame c c' -> stays c c'.
Proof. intros Hf co b Hb. by eapply Forall2_same_l; [apply Hf|]. Qed.
Lemma added_stays co node slave c c' : added co node slave c c' -> stays c c'.
Proof.
  intros [_ _ _ _ (b & _ & _ & _ & Hc)] co' b' Hb'. eapply Forall2_same_l; [exact Hc|]. by apply lookup_app_l_Some.
Qed.
#[export] Instance stays_preorder : PreOrder stays.
Proof.
  split; [by intros c co b Hb; exists b|]. intros x y z H1 H2 co b Hb.
  destruct (H1 co b Hb) as (b1 & Hb1 & S1). destruct (H2 co b1 Hb1) as (b2 & Hb2 & S2). exists b2. split; [done|]. by etrans.
Qed.

(** A transaction reaches no other node than [n]. *)
Definition tx_within (n : option string) (c c' : ClientConn) : Prop :=
  forall node, node ∈ dom (txConns c') -> node ∈ dom (txConns c) \/ n = Some node.

(** The outcomes of [getBackendConn]. *)
Definition taken (n : option string) (E : gset nat) (c : ClientConn)
    (r : res error (option nat * option error)) (c' : ClientConn) : Prop :=
  c_status c' = c_status c /\ same_router (c_router c) (c_router c') /\ Inv c' /\ tx_within n c c' /\ stays c c' /\
  match r with
  | Ok (Some co, None) =>
      exists node b, n = Some node /\ c_conns c' !! co = Some b /\ bc_open b = true /\ bc_node b = node /\
        if isInTransaction c then
          Owned E c' /\ txConns c' = <[node := co]> (txConns c)
        else Owned ({[co]} ∪ E) c' /\ txConns c' = txConns c /\ (length (c_conns c) <= co)%nat
  | Ok (co, Some e) =>
      isInTransaction c = false ->
      txConns c' = txConns c /\ Owned (match co with Some co => {[co]} | None => ∅ end ∪ E) c'
  | Ok (None, None) | Err _ => False
  | Panic _ => True
  end.

(** Setting the connection up: what follows once there is one. *)
Lemma set_up_spec n node E c c1 co :
  n = Some node -> c_status c1 = c_status c -> same_router (c_router c) (c_router c1) -> stays c c1 ->
  (exists b, c_conns c1 !! co = Some b /\ bc_open b = true /\ bc_node b = node) ->
  (if isInTransaction c then Owned E c1 /\ txConns c1 = <[node := co]> (txConns c)
   else Owned ({[co]} ∪ E) c1 /\ txConns c1 = txConns c /\ (length (c_conns c) <= co)%nat) ->
  forall db charset collation,
  wp (do! (err, _) := try (UseDB co db) in
      match err with
      | Some e => do! _ := modify (set_db "") in ret (Some co, Some e)
      | None => do! (err, _) := try (SetCharset co charset collation) in ret (Some co, err)
      end) (taken n E c) c1.
Proof.
  intros Hn Hs Hr Hst (b & Hb & Ho & Hnode) Hown db charset collation.
  assert (forall c', frame c1 c' -> taken n E c (Ok (Some co, None)) c' /\
    forall e, taken n E c (Ok (Some co, Some e)) c' /\ forall p, taken n E c (Panic p) c') as Hall.
  { intros c' Hf. pose proof (frame_status _ _ Hf) as Fs. pose proof (frame_tx _ _ Hf) as Ft.
    assert (same_router (c_router c) (c_router c')) as Fr.
    { etrans; [exact Hr|]. split; apply Hf. }
    assert (tx_within n c c') as Fw.
    { intros m Hm. rewrite Ft in Hm. destruct (isInTransaction c).
      - destruct Hown as [_ Htx]. rewrite Htx in Hm. set_solver.
      - destruct Hown as (_ & Htx & _). rewrite Htx in Hm. by left. }
    assert (stays c c') as Fst by (etrans; [exact Hst | by apply frame_stays]).
    destruct (Forall2_same_l _ _ _ _ (frame_conns _ _ Hf) Hb) as (b' & Hb' & ? & ? & ?).
    unfold taken. destruct (isInTransaction c) eqn:Hi.
    - destruct Hown as [HO Htx]. pose proof (Owned_frame _ _ _ HO Hf) as HO'.
      split; [|intros e; split; [|intros pn]]; split_and!; try congruence; try done; try apply HO'.
      exists node, b'. split_and!; congruence.
    - destruct Hown as (HO & Htx & Hlen). pose proof (Owned_frame _ _ _ HO Hf) as HO'.
      split; [|intros e; split; [|intros pn]]; split_and!; try congruence; try done; try apply HO'.
      + exists node, b'. split_and!; congruence.
      + intros _. split; [congruence | done]. }
  clear Hs Hr Hst Hown. apply wp_bind. unfold wp at 1. pose proof (moves_UseDB co db c1) as F1. unfold try.
  destruct (UseDB co db c1) as [c2 [[]|e|p]]; cbn [fst snd] in *.
  - apply wp_bind. unfold wp at 1, try. pose proof (moves_SetCharset co charset collation c2) as F2.
    destruct (SetCharset co charset collation c2) as [c3 [[]|e|p]]; cbn [fst snd] in *.
    + apply (Hall c3). by etrans.
    + apply (Hall c3). by etrans.
    + apply (proj2 (Hall c3 (transitivity F1 F2))). exact ErrBadConn.
  - unfold wp. cbn. apply (Hall (set_db "" c2)). etrans; [exact F1 | apply moves_set_db].
  - apply (proj2 (Hall c2 F1)). exact ErrBadConn.
Qed.

Lemma Owned_weaken E E' c : Owned E c -> E ⊆ E' -> Owned E' c.
Proof. intros [HI Ho] Hsub. split; [done|]. intros co b Hb Hop. destruct (Ho co b Hb Hop); [by left|]. right. set_solver. Qed.

(** Nothing was taken: the pool's error comes back. *)
Lemma taken_nothing n E c c' e : Owned E c -> frame c c' -> taken n E c (Ok (None, Some e)) c'.
Proof.
  intros HO Hf. pose proof (Owned_frame _ _ _ HO Hf) as HO'. unfold taken. split_and!.
  - apply Hf.
  - split; apply Hf.
  - apply HO'.
  - intros node. rewrite (frame_tx _ _ Hf). by left.
  - by apply frame_stays.
  - intros _. split; [apply Hf|]. by rewrite (left_id_L ∅ (∪)).
Qed.

Lemma taken_panic n E c c' p : Owned E c -> frame c c' -> taken n E c (Panic p) c'.
Proof.
  intros HO Hf. pose proof (Owned_frame _ _ _ HO Hf) as HO'. unfold taken. split_and!.
  - apply Hf.
  - split; apply Hf.
  - apply HO'.
  - intros node. rewrite (frame_tx _ _ Hf). by left.
  - by apply frame_stays.
  - done.
Qed.

(** A new connection outside a transaction. *)
Lemma taken_fresh co node slave E c c1 :
  Owned E c -> isInTransaction c = false -> added co node slave c c1 ->
  (exists b, c_conns c1 !! co = Some b /\ bc_open b = true /\ bc_node b = node) /\
  Owned ({[co]} ∪ E) c1 /\ txConns c1 = txConns c /\ (length (c_conns c) <= co)%nat.
Proof.
  intros HO Hi Ha. split.
  - destruct (added_lookup _ _ _ _ _ Ha) as (b & ? & ? & ? & _). by exists b.
  - split_and!; [by eapply Owned_added | apply Ha | by rewrite (added_place _ _ _ _ _ Ha)].
Qed.

Lemma getBackendConn_spec n fromSlave E c :
  Owned E c -> wp (getBackendConn n fromSlave) (taken n E c) c.
Proof.
  intros HO. unfold getBackendConn. apply wp_bind. unfold wp at 1. cbn [get fst snd].
  destruct (isInTransaction c) eqn:Hi; cbn [negb].
  - destruct (n ≫= fun node => txConns c !! node) as [co|] eqn:Htx.
    + destruct n as [node|]; [|done]. cbn in Htx.
      destruct (inv_tx _ (owned_inv _ _ HO) _ _ Htx) as (b & Hb & Ho & Hn & _).
      apply (set_up_spec (Some node) node E c c co); [done|done|done|done|by exists b|].
      rewrite Hi. by rewrite insert_id.
    + apply wp_bind, wp_bind. unfold wp at 1, try. pose proof (take_conn_spec n false c) as Ht. unfold wp in Ht.
      destruct (take_conn n false c) as [c1 [co|e|p]]; cbn [fst snd] in *;
        [| by apply taken_nothing | by apply taken_panic].
      destruct Ht as (node & -> & Ha). cbn in Htx. apply wp_bind. unfold wp at 1, try.
      assert (forall m : ST ClientConn unit, moves frame m -> added co node false c (m c1).1) as Hm.
      { intros m Hm. eapply added_frame; [exact Ha | apply Hm]. }
      specialize (Hm (if negb (isAutoCommit c) then SetAutoCommit co 0 else Begin co)
        ltac:(destruct (negb _); auto with methods)).
      destruct ((if negb (isAutoCommit c) then SetAutoCommit co 0 else Begin co) c1) as [c2 [[]|e|p]]; cbn [fst snd] in *.
      * unfold wp at 1. cbn [fst snd bind modify ret].
        pose proof (Owned_joined _ _ _ _ _ HO Hi Hm Htx) as HJ.
        apply (set_up_spec (Some node) node E c (set_txConns (<[node:=co]> (txConns c2)) c2) co); [done| | | | |].
        -- apply Hm.
        -- apply Hm.
        -- exact (added_stays _ _ _ _ _ Hm).
        -- destruct (added_lookup _ _ _ _ _ Hm) as (b & ? & ? & ? & _). by exists b.
        -- rewrite Hi. split; [done|]. cbn. by rewrite (added_tx _ _ _ _ _ Hm).
      * unfold wp. cbn. pose proof (Owned_added _ _ _ _ _ _ HO Hm) as HA. unfold taken. split_and!; [apply Hm| apply Hm | apply HA | | by eapply added_stays | congruence].
        intros m. rewrite (added_tx _ _ _ _ _ Hm). by left.
      * pose proof (Owned_added _ _ _ _ _ _ HO Hm) as HA. unfold taken. split_and!; [apply Hm| apply Hm | apply HA | | by eapply added_stays | done].
        intros m. rewrite (added_tx _ _ _ _ _ Hm). by left.
  - assert (forall c0 slave, frame c c0 -> wp (try (take_conn n slave)) (fun r c' =>
      match r with
      | Ok (None, Some co) => exists node, n = Some node /\ added co node slave c c'
      | Ok (Some _, None) | Panic _ => frame c c'
      | _ => False
      end) c0) as Htry.
    { intros c0 slave Hf. unfold wp, try. pose proof (take_conn_spec n slave c0) as Ht. unfold wp in Ht.
      destruct (take_conn n slave c0) as [c1 [co|e|p]]; cbn [fst snd] in *; [|by etrans..].
      destruct Ht as (node & Hn & Ha). exists node. split; [done|]. by eapply frame_added. }
    assert (forall m, wp m (fun r c' =>
      match r with
      | Ok (None, Some co) => exists node slave, n = Some node /\ added co node slave c c'
      | Ok (Some _, None) | Panic _ => frame c c'
      | _ => False
      end) c -> wp (do! (err, co) := m in
         match err, co with
         | None, Some k =>
             do! (err, _) := try (UseDB k (c_db c)) in
             match err with
             | Some e => do! _ := modify (set_db "") in ret (co, Some e)
             | None => do! (err, _) := try (SetCharset k (c_charset c) (c_collation c)) in ret (co, err)
             end
         | _, _ => ret (co, err)
         end) (taken n E c) c) as Hrest.
    { intros m Hm. apply wp_bind. eapply wp_mono; [exact Hm|]. intros [[oe oc]| |p] c1 Hr; try (destruct oe as [e|], oc as [co|]); try done.
      - by apply taken_nothing.
      - destruct Hr as (node & slave & Hn & Ha). destruct (taken_fresh _ _ _ _ _ _ HO Hi Ha) as [Hb Hown].
        apply (set_up_spec n node E c c1 co); [done | apply Ha | apply Ha | by eapply added_stays | done |]. by rewrite Hi.
      - by apply taken_panic. }
    apply Hrest. destruct fromSlave.
    + apply wp_bind. eapply wp_mono; [by apply (Htry c true)|]. intros [[oe oc]| |p] c1 Hr; try (destruct oe as [e|], oc as [co|]); try done.
      * eapply wp_mono; [by apply (Htry c1 false)|]. intros [[oe oc]| |p'] c2 Hr2; try (destruct oe as [e'|], oc as [co|]); try done.
        destruct Hr2 as (node & ? & ?). by exists node, false.
      * destruct Hr as (node & ? & ?). unfold wp. cbn. by exists node, true.
    + eapply wp_mono; [by apply (Htry c false)|]. intros [[oe oc]| |p'] c2 Hr2; try (destruct oe as [e'|], oc as [co|]); try done.
      destruct Hr2 as (node & ? & ?). by exists node, false.
Qed.
End Take.

(** ** Giving connections back *)

(** Status and rules stay; the transaction too. *)
Record quiet (c c' : ClientConn) : Prop := {
  quiet_status : c_status c' = c_status c;
  quiet_tx : txConns c' = txConns c;
  quiet_router : same_router (c_router c) (c_router c')
}.
#[export] Instance quiet_preorder : PreOrder quiet.
Proof. split; [by split|]. intros x y z [? ? ?] [? ? ?]. split; by etrans. Qed.
Lemma frame_quiet c c' : frame c c' -> quiet c c'.
Proof. intros [? ? ? ? ?]. by split. Qed.

Section Release.
Context `{Outside} `{StrMapOrder}.

Lemma Owned_close co E c :
  Owned ({[co]} ∪ E) c -> txConns c = ∅ -> Owned E (update_conn co close_conn c).
Proof.
  intros [[H1 H2 H3] H4] Htx. split; [split|]; cbn.
  - rewrite Htx. intros n co' Hn. by rewrite lookup_empty in Hn.
  - done.
  - done.
  - rewrite Htx. intros co' b' Hb' Ho. destruct (decide (co = co')) as [<-|Hne].
    + rewrite list_lookup_alter_eq in Hb'. by destruct (c_conns c !! co) as [b|]; [injection Hb' as <-|].
    + rewrite list_lookup_alter_ne in Hb' by done. rewrite Htx in H4. destruct (H4 co' b' Hb' Ho) as [?|?]; [by left|].
      right. set_solver.
Qed.

Lemma closeConn_spec co E c :
  Owned (match co with Some co => {[co]} | None => ∅ end ∪ E) c ->
  wp (closeConn co false) (fun r c' => is_ok r = true /\ quiet c c' /\
    if isInTransaction c then c' = c else Owned E c') c.
Proof.
  intros HO. unfold closeConn. apply wp_bind. unfold wp at 1. cbn [get fst snd].
  destruct (isInTransaction c) eqn:Hi; [done|].
  assert (txConns c = ∅) as Htx by (by apply HO).
  destruct co as [co|]; unfold wp, with_defer; cbn.
  - split; [done|]. split; [by split|]. by apply Owned_close.
  - split; [done|]. split; [done|]. by rewrite (left_id_L ∅ (∪)) in HO.
Qed.

(** The places of the connections of some nodes. *)
Definition places (conns : gmap string nat) (names : list string) : gset nat :=
  list_to_set (omap (fun name => conns !! name) names).

Lemma closeShardConns_spec conns rollback E c :
  Owned (places conns (range_strings (dom conns)) ∪ E) c ->
  wp (closeShardConns conns rollback) (fun r c' => Inv c' /\ quiet c c' /\
    match r with
    | Ok _ => if isInTransaction c then c' = c else Owned E c'
    | Err _ => False
    | Panic _ => True
    end) c.
Proof.
  intros HO. unfold closeShardConns. apply wp_bind. unfold wp at 1. cbn [get fst snd].
  destruct (isInTransaction c) eqn:Hi; [split; [apply HO | done]|].
  assert (txConns c = ∅) as Htx by (by apply HO). clear Hi.
  revert c HO Htx. generalize (range_strings (dom conns)) as names.
  induction names as [|name names IH]; intros c HO Htx; cbn [for_each].
  { unfold wp. cbn. unfold places in HO. cbn in HO. rewrite (left_id_L ∅ (∪)) in HO. split; [apply HO | done]. }
  apply wp_bind. unfold places in HO. cbn in HO. destruct (conns !! name) as [co|].
  - set (m := if rollback then do! _ := try (Rollback co) in ret tt else ret tt : ST ClientConn unit).
    assert (moves frame m) as Hm by (unfold m; moves).
    assert (forall e, (m c).2 <> Err e) as Hne.
    { intros e. unfold m, bind, try. destruct rollback; [|done]. by destruct (Rollback co c) as [? []]. }
    specialize (Hm c). apply wp_bind. unfold wp at 1. destruct (m c) as [c1 r]. cbn in Hm, Hne.
    pose proof (Owned_frame _ _ _ HO Hm) as HO1. cbn [fst snd].
    destruct r as [[]|e|p]; [|by destruct (Hne e)|split; [apply HO1 | split; [by apply frame_quiet | done]]].
    unfold wp at 1. cbn [Close modify fst snd].
    assert (Owned (places conns names ∪ E) (update_conn co close_conn c1)) as HO2.
    { apply Owned_close; [|by rewrite (frame_tx _ _ Hm)]. eapply Owned_weaken; [exact HO1|]. unfold places. cbn. set_solver. }
    eapply wp_mono; [apply (IH _ HO2); cbn; by rewrite (frame_tx _ _ Hm)|].
    intros r c2 (HI & Hq & Hown). split; [done|]. split; [|done]. etrans; [|exact Hq].
    etrans; [by apply frame_quiet|]. by split.
  - unfold wp at 1. cbn [ret fst snd]. by apply IH.
Qed.
End Release.

Section Shards.
Context `{Outside} `{StrMapOrder} `{MapOrder} `{Timezone} `{GoFloat} `{GoSort} `{ErrorText}.
Context (s : proxy).

(** The names of the nodes of a plan are distinct when the rule's are. *)
Lemma plan_nodes_lookup rule indexes nodes :
  plan_nodes s rule indexes = Ok nodes ->
  Forall2 (fun i node => @at_ error string (Nodes rule) i = Ok node.1 /\ node.2 = GetNode (proxy_nodes s) node.1)
    indexes nodes.
Proof.
  revert nodes. induction indexes as [|i indexes IH]; intros nodes Hp; cbn in Hp; [injection Hp as <-; constructor|].
  apply rbind_Ok_inv in Hp as (name & Hn & Hp). apply rbind_Ok_inv in Hp as (l & Hl & Hp). injection Hp as <-.
  constructor; [done | by apply IH].
Qed.

Lemma at_inj {A} (l : list A) i j a : NoDup l -> @at_ error A l i = Ok a -> @at_ error A l j = Ok a -> i = j.
Proof.
  intros Hnd [Hi Ha]%at_Ok [Hj Hb]%at_Ok. pose proof (NoDup_lookup _ _ _ _ Hnd Ha Hb). lia.
Qed.

Lemma plan_nodes_NoDup rule indexes nodes :
  NoDup (Nodes rule) -> NoDup indexes -> plan_nodes s rule indexes = Ok nodes -> NoDup nodes.*1.
Proof.
  intros Hr Hi Hp%plan_nodes_lookup. induction Hp as [|i node indexes nodes [Hat _] Hall IH]; [constructor|].
  apply NoDup_cons in Hi as [Hni Hi]. cbn. apply NoDup_cons. split; [|by apply IH].
  intros (node' & Heq & Hin)%list_elem_of_fmap. apply list_elem_of_lookup in Hin as [k Hk].
  destruct (Forall2_lookup_r _ _ _ _ _ Hall Hk) as (j & Hj & Hat' & _). rewrite <- Heq in Hat'.
  pose proof (at_inj _ _ _ _ Hr Hat Hat') as ->. apply Hni. by eapply list_elem_of_lookup_2.
Qed.

Lemma places_snoc conns names name co :
  name ∉ names -> places (<[name := co]> conns) (names ++ [name]) = places conns names ∪ {[co]}.
Proof.
  intros Hn. unfold places. rewrite omap_app, list_to_set_app_L. f_equal.
  - f_equal. induction names as [|n names IH]; [done|]. cbn. rewrite lookup_insert_ne by set_solver.
    rewrite IH by set_solver. done.
  - cbn. rewrite lookup_insert_eq. cbn. set_solver.
Qed.

Lemma places_dom conns names : places conns names ⊆ places conns (range_strings (dom conns)).
Proof.
  intros co. unfold places. rewrite !elem_of_list_to_set, !list_elem_of_omap. intros (n & _ & Hn). exists n.
  split; [|done]. rewrite range_strings_perm. apply elem_of_elements. by apply elem_of_dom.
Qed.

(** What [getShardConns] took, with the nodes in the order of the plan. *)
Definition shard_conns (nodes : list (string * option string)) (E : gset nat) (c : ClientConn)
    (r : res error (option (gmap string nat) * option error)) (c' : ClientConn) : Prop :=
  c_status c' = c_status c /\ same_router (c_router c) (c_router c') /\ Inv c' /\
  (forall m, m ∈ dom (txConns c') -> m ∈ dom (txConns c) \/ m ∈ nodes.*1) /\
  match r with
  | Ok (Some conns, None) =>
      dom conns = list_to_set nodes.*1 /\
      (forall name co, conns !! name = Some co ->
        exists b, c_conns c' !! co = Some b /\ bc_open b = true /\ bc_node b = name) /\
      if isInTransaction c then Owned E c'
      else Owned (places conns (range_strings (dom conns)) ∪ E) c' /\ txConns c' = ∅
  | Ok (None, None) => False
  | _ => True
  end.

(** The loop of [getShardConns], with the connections taken so far. *)
Lemma take_conns_spec fromSlave nodes E c done_names conns :
  NoDup (done_names ++ nodes.*1) -> dom conns = list_to_set done_names ->
  Forall (fun node => node.2 = GetNode (proxy_nodes s) node.1) nodes ->
  (forall name co, conns !! name = Some co ->
    exists b, c_conns c !! co = Some b /\ bc_open b = true /\ bc_node b = name) ->
  Owned (if isInTransaction c then E else places conns done_names ∪ E) c ->
  wp (take_conns fromSlave nodes conns) (fun r c' =>
    c_status c' = c_status c /\ same_router (c_router c) (c_router c') /\ Inv c' /\
    (forall m, m ∈ dom (txConns c') -> m ∈ dom (txConns c) \/ m ∈ nodes.*1) /\
    match r with
    | Ok (conns', None) =>
        dom conns' = list_to_set (done_names ++ nodes.*1) /\
        (forall name co, conns' !! name = Some co ->
          exists b, c_conns c' !! co = Some b /\ bc_open b = true /\ bc_node b = name) /\
        Owned (if isInTransaction c then E else places conns' (done_names ++ nodes.*1) ∪ E) c'
    | _ => True
    end) c.
Proof.
  revert c done_names conns. induction nodes as [|[name n] nodes IH]; intros c names conns Hnd Hd Hn Hb HO;
    cbn [take_conns].
  { unfold wp. cbn. rewrite app_nil_r. split_and!; try done; [apply HO | auto]. }
  apply Forall_cons in Hn as [Hn1 Hn]. cbn in Hn1.
  apply wp_bind. eapply wp_mono; [by apply getBackendConn_spec|].
  intros r c1 (Hs & Hr & HI & Hw & Hst & Hcase). cbn [fmap list_fmap fst].
  assert (forall m, m ∈ dom (txConns c1) -> m ∈ dom (txConns c) \/ m ∈ name :: nodes.*1) as Hw'.
  { intros m Hm. destruct (Hw m Hm) as [|He]; [by left|]. right. rewrite Hn1 in He. unfold GetNode in He.
    case_decide; [|done]. injection He as ->. by left. }
  destruct r as [[[co|] [e|]]|e|p]; try done.
  destruct Hcase as (node & b & Hnode & Hco & Hop & Hbn & Hown).
  rewrite Hn1 in Hnode. unfold GetNode in Hnode. case_decide; [|done]. injection Hnode as <-.
  apply NoDup_app in Hnd as (Hnd1 & Hdis & Hnd2). apply NoDup_cons in Hnd2 as [Hnn Hnd2].
  assert (name ∉ names) as Hfresh by (intros Hin; apply (Hdis name Hin); by left).
  pose proof (isInTransaction_status _ _ Hs) as Hi1.
  eapply wp_mono.
  { apply (IH c1 (names ++ [name]) (<[name := co]> conns)).
    - rewrite <- app_assoc. apply NoDup_app. split_and!; [done| |by apply NoDup_cons].
      intros m Hm Hin. by apply (Hdis m Hm).
    - rewrite dom_insert_L, Hd. set_solver.
    - done.
    - intros m co' Hm. destruct (decide (m = name)) as [->|Hne].
      + rewrite lookup_insert_eq in Hm. injection Hm as <-. by exists b.
      + rewrite lookup_insert_ne in Hm by done. destruct (Hb m co' Hm) as (b0 & Hb0 & Ho0 & Hn0).
        destruct (Hst co' b0 Hb0) as (b' & ? & ? & ? & ?). exists b'. split_and!; [done | congruence..].
    - rewrite Hi1. destruct (isInTransaction c); [apply Hown|]. destruct Hown as (HO1 & _ & _).
      eapply Owned_weaken; [exact HO1|]. rewrite places_snoc by done. set_solver. }
  intros r' c2 (Hs2 & Hr2 & HI2 & Hw2 & Hcase). rewrite Hi1 in Hcase. split_and!.
  - congruence.
  - by etrans.
  - done.
  - intros m Hm. destruct (Hw2 m Hm) as [Hm1|]; [by apply Hw'|]. right. by right.
  - destruct r' as [[conns' [e|]]|e|p]; try done. by rewrite <- app_assoc in Hcase.
Qed.

Lemma getShardConns_spec fromSlave plan E c :
  Owned E c -> NoDup (Nodes (Plan_Rule plan)) -> NoDup (RouteNodeIndexs plan) ->
  wp (getShardConns s fromSlave plan) (fun r c' =>
    exists nodes, (is_ok r = true -> r = Ok (None, Some ErrNoRouteNode) \/
        plan_nodes s (Plan_Rule plan) (RouteNodeIndexs plan) = Ok nodes) /\
      shard_conns nodes E c r c') c.
Proof.
  intros HO Hr Hi. unfold getShardConns.
  assert (forall r, (forall a, r <> Ok a) \/ (exists e, r = Ok (None, Some e)) -> forall nodes,
    shard_conns nodes E c r c) as Hsame.
  { intros r Hrr nodes. unfold shard_conns. split_and!; [done | done | apply HO | auto |].
    destruct Hrr as [Hrr|[e ->]]; [|done]. by destruct r as [a|e|p]; [destruct (Hrr a)|..]. }
  destruct (Nat.eqb _ 0).
  { exists []. split; [by left|]. apply Hsame. by right; exists ErrNoRouteNode. }
  apply wp_bind. unfold wp at 1. cbn [lift fst snd].
  destruct (plan_nodes s _ _) as [nodes|e|p] eqn:Hp; [|exists []; split; [done | apply Hsame; by left]..].
  apply wp_bind. unfold wp at 1. cbn [get fst snd].
  destruct (_ && _) eqn:Hmulti.
  { exists nodes. split; [by right|]. apply Hsame. by right; exists ErrTransInMulti. }
  apply wp_bind. eapply wp_mono.
  { apply (take_conns_spec fromSlave nodes E c [] ∅).
    - by eapply plan_nodes_NoDup.
    - done.
    - apply Forall_forall. intros node [k Hk]%list_elem_of_lookup. apply plan_nodes_lookup in Hp.
      by destruct (Forall2_lookup_r _ _ _ _ _ Hp Hk) as (? & _ & _ & ?).
    - intros name co Hn. by rewrite lookup_empty in Hn.
    - destruct (isInTransaction c); [done|]. unfold places. cbn. by rewrite (left_id_L ∅ (∪)). }
  intros r c' (Hs & Hr' & HI & Hw & Hcase). cbn [app] in Hcase.
  destruct r as [[conns err]|e|p].
  - unfold wp. cbn. exists nodes. split; [by right|]. unfold shard_conns. split_and!; try done.
    destruct err as [e|]; [done|]. destruct Hcase as (Hd & Hb & HO'). split_and!; [done | done |].
    destruct (isInTransaction c) eqn:Hic; [done|]. split.
    + eapply Owned_weaken; [exact HO'|]. apply union_mono_r, places_dom.
    + apply HO'. by rewrite (isInTransaction_status _ _ Hs).
  - exists nodes. split; [done|]. by unfold shard_conns.
  - exists nodes. split; [done|]. by unfold shard_conns.
Qed.
End Shards.

(** ** Ending a transaction *)
Section Ending.
Context `{Outside} `{StrMapOrder}.

Definition ended (sql : string) (b : BackendConn) : BackendConn := close_conn (log_command (Query sql) b).

(** The error of the server, if it refuses. *)
Definition refusal (sql : string) (co : nat) (b : BackendConn) : option error :=
  match reply co (length (bc_log b)) (Query sql) with inl _ => None | inr e => Some e end.

Definition last_refusal (sql : string) (conns : list BackendConn) (err : option error) (l : list nat) : option error :=
  foldl (fun err co => match conns !! co with
                       | Some b => match refusal sql co b with Some e => Some e | None => err end
                       | None => err
                       end) err l.

Definition is_open (c : ClientConn) (co : nat) : Prop := exists b, c_conns c !! co = Some b /\ bc_open b = true.

Lemma exec_open co sql c b :
  c_conns c !! co = Some b -> bc_open b = true ->
  (do! _ := exec co sql in ret tt) c =
    (update_conn co (log_command (Query sql)) c, match refusal sql co b with None => Ok tt | Some e => Err e end).
Proof.
  intros Hb Ho. unfold exec, send, deref, bind, get, ret, modify, refusal. rewrite Hb, Ho.
  unfold of_sum. by destruct (reply _ _ _).
Qed.

Lemma last_refusal_alter sql conns f err co l :
  co ∉ l -> last_refusal sql (alter f co conns) err l = last_refusal sql conns err l.
Proof.
  unfold last_refusal. revert err. induction l as [|co' l IH]; intros err Hn; [done|]. cbn.
  apply not_elem_of_cons in Hn as [Hne Hn]. rewrite list_lookup_alter_ne by done. by apply IH.
Qed.

Lemma end_each_spec sql err l c :
  NoDup l -> (forall co, co ∈ l -> is_open c co) ->
  end_each (fun co => do! _ := exec co sql in ret tt) err l c =
    (set_conns (c_takes c) (foldl (fun conns co => alter (ended sql) co conns) (c_conns c) l) c,
     Ok (last_refusal sql (c_conns c) err l)).
Proof.
  revert err c. induction l as [|co l IH]; intros err c Hnd Hop; cbn [end_each foldl last_refusal].
  { by destruct c. }
  apply NoDup_cons in Hnd as [Hn Hnd]. destruct (Hop co ltac:(by left)) as (b & Hb & Ho).
  unfold bind at 1, try. rewrite (exec_open _ _ _ _ Hb Ho).
  set (c1 := update_conn co (log_command (Query sql)) c).
  assert (forall e, end_each (fun co => do! _ := exec co sql in ret tt) e l (update_conn co close_conn c1) =
    (set_conns (c_takes c) (foldl (fun conns co => alter (ended sql) co conns) (alter (ended sql) co (c_conns c)) l) c,
     Ok (last_refusal sql (c_conns c) e l))) as Hrest.
  { intros e. rewrite IH; [|done|].
    - cbn. rewrite list_alter_alter_eq. f_equal. f_equal. by rewrite !last_refusal_alter.
    - intros co' Hin. destruct (Hop co' ltac:(by right)) as (b' & Hb' & Ho'). exists b'. split; [|done].
      cbn. rewrite !list_lookup_alter_ne by (by intros ->). done. }
  rewrite Hb. destruct (refusal sql co b) as [e|]; apply Hrest.
Qed.

(** The connections after the loop. *)
Lemma ended_lookup sql (l : list nat) (conns : list BackendConn) (i : nat) :
  NoDup l -> foldl (fun conns co => alter (ended sql) co conns) conns l !! i =
    (if decide (i ∈ l) then ended sql else id) <$> conns !! i.
Proof.
  revert conns. induction l as [|co l IH]; intros conns Hnd; cbn.
  { rewrite decide_False by set_solver. by destruct (conns !! i). }
  apply NoDup_cons in Hnd as [Hn Hnd]. rewrite IH by done. destruct (decide (i = co)) as [->|Hne].
  - rewrite list_lookup_alter_eq, decide_False, decide_True by set_solver. by destruct (conns !! co).
  - rewrite list_lookup_alter_ne by done. destruct (decide (i ∈ l)).
    + by rewrite decide_True by set_solver.
    + by rewrite decide_False by set_solver.
Qed.

Lemma elem_of_tx_conns c co : co ∈ tx_conns c <-> exists n, txConns c !! n = Some co.
Proof.
  unfold tx_conns. rewrite list_elem_of_omap. split; [naive_solver|]. intros (n & Hn). exists n. split; [|done].
  rewrite range_strings_perm. apply elem_of_elements. by apply elem_of_dom.
Qed.

Lemma tx_conns_NoDup c : Inv c -> NoDup (tx_conns c).
Proof.
  intros HI. unfold tx_conns.
  assert (NoDup (range_strings (dom (txConns c)))) as Hnd by (rewrite range_strings_perm; apply NoDup_elements).
  induction (range_strings _) as [|n names IH]; [constructor|]. apply NoDup_cons in Hnd as [Hn Hnd]. cbn.
  destruct (txConns c !! n) as [co|] eqn:E; [|by apply IH]. apply NoDup_cons. split; [|by apply IH].
  intros (n' & Hin & Hn')%list_elem_of_omap.
  destruct (inv_tx _ HI _ _ E) as (b & Hb & _ & Hbn & _). destruct (inv_tx _ HI _ _ Hn') as (b' & Hb' & _ & Hbn' & _).
  apply Hn. congruence.
Qed.

Lemma tx_conns_open c co : Inv c -> co ∈ tx_conns c -> is_open c co.
Proof. intros HI [n Hn]%elem_of_tx_conns. destruct (inv_tx _ HI _ _ Hn) as (b & ? & ? & _). by exists b. Qed.

Lemma last_refusal_None sql conns err l :
  last_refusal sql conns err l = None <->
  err = None /\ forall co b, co ∈ l -> conns !! co = Some b -> refusal sql co b = None.
Proof.
  unfold last_refusal. revert err. induction l as [|co l IH]; intros err; cbn.
  { split; [|tauto]. intros ->. split; [done|]. set_solver. }
  rewrite IH. setoid_rewrite elem_of_cons. split.
  - intros [He Hall]. destruct (conns !! co) as [b|] eqn:Hb.
    + destruct (refusal sql co b) eqn:Hr; [done|]. split; [done|]. intros co' b' [->|Hin] Hb'; [congruence | eauto].
    + split; [done|]. intros co' b' [->|Hin] Hb'; [congruence | eauto].
  - intros [-> Hall]. split; [|eauto]. destruct (conns !! co) as [b|] eqn:Hb; [|done].
    by rewrite (Hall co b) by auto.
Qed.

Lemma last_refusal_Some sql conns err l e :
  last_refusal sql conns err l = Some e ->
  err = Some e \/ exists co b, co ∈ l /\ conns !! co = Some b /\ refusal sql co b = Some e.
Proof.
  unfold last_refusal. revert err. induction l as [|co l IH]; intros err; cbn; [by left|].
  intros [He|(co' & b & Hin & Hb & Hr)]%IH.
  - destruct (conns !! co) as [b|] eqn:Hb; [|by left]. destruct (refusal sql co b) as [e'|] eqn:Hr; [|by left].
    right. injection He as <-. exists co, b. split; [by left | done].
  - right. exists co', b. split; [by right | done].
Qed.

(** Every connection of the transaction got one last command and was given
    back. *)
Definition released (sql : string) (c c' : ClientConn) : Prop :=
  txConns c' = ∅ /\ same_router (c_router c) (c_router c') /\
  (forall n co b, txConns c !! n = Some co -> c_conns c !! co = Some b -> c_conns c' !! co = Some (ended sql b)) /\
  (forall co, (forall n, txConns c !! n <> Some co) -> c_conns c' !! co = c_conns c !! co).

Definition ends (sql : string) (c c' : ClientConn) : Prop :=
  released sql c c' /\ c_status c' = Z.ldiff (c_status c) SERVER_STATUS_IN_TRANS /\ c_sent c' = c_sent c.

Lemma released_foldl sql c c' :
  Inv c -> txConns c' = ∅ -> c_router c' = c_router c ->
  c_conns c' = foldl (fun conns co => alter (ended sql) co conns) (c_conns c) (tx_conns c) -> released sql c c'.
Proof.
  intros HI Ht Hr Hc. split_and!; [done | by rewrite Hr | |]; rewrite Hc.
  - intros n co b Hn Hb. rewrite ended_lookup by (by apply tx_conns_NoDup). rewrite decide_True, Hb; [done|].
    apply elem_of_tx_conns. eauto.
  - intros co Hn. rewrite ended_lookup by (by apply tx_conns_NoDup). rewrite decide_False.
    { by rewrite option_fmap_id. }
    intros [n Hn']%elem_of_tx_conns. by destruct (Hn n).
Qed.

Lemma end_transaction_spec sql c :
  Inv c -> exists c', ends sql c c' /\
    end_transaction (fun co => do! _ := exec co sql in ret tt) c =
      (c', match last_refusal sql (c_conns c) None (tx_conns c) with None => Ok tt | Some e => Err e end).
Proof.
  intros HI. unfold end_transaction. set (c1 := clear_bit SERVER_STATUS_IN_TRANS c).
  assert (tx_conns c1 = tx_conns c) as Htx by done.
  rewrite (bind_Ok _ _ c c1 tt) by done. rewrite (bind_Ok get _ c1 c1 c1) by done.
  erewrite bind_Ok; [|apply end_each_spec].
  2: { rewrite Htx. by apply tx_conns_NoDup. }
  2: { rewrite Htx. intros co Hin. apply (tx_conns_open c co HI Hin). }
  rewrite Htx. set (c2 := set_conns _ _ c1). exists (set_txConns ∅ c2). split.
  - split; [by apply released_foldl | done].
  - unfold bind, modify. cbn. by destruct (last_refusal _ _ _ _).
Qed.

Lemma released_Owned sql E c c' : Owned E c -> released sql c c' -> Owned E c'.
Proof.
  intros HO (Ht & Hr & Htx & Hother). split; [split|].
  - intros n co Hn. by rewrite Ht, lookup_empty in Hn.
  - done.
  - eapply router_ok_same; [done | apply HO].
  - intros co b' Hb' Ho. right. destruct (decide (co ∈ (map_img (txConns c) : gset nat))) as [[n Hn]%elem_of_map_img|Hno].
    + destruct (inv_tx _ (owned_inv _ _ HO) _ _ Hn) as (b & Hb & _). rewrite (Htx _ _ _ Hn Hb) in Hb'.
      by injection Hb' as <-.
    + assert (forall n, txConns c !! n <> Some co) as Hn.
      { intros n Hn. apply Hno, elem_of_map_img. eauto. }
      rewrite (Hother co Hn) in Hb'. destruct (owned_open _ _ HO co b' Hb' Ho) as [[n Hn']|]; [|done].
      by destruct (Hn n).
Qed.
End Ending.
