(* ===== verification/SessionTheorems.v ===== *)
(** * What sessions guarantee *)
From S2P Require Import Prelude Errors StateM GoLib GoTime GoFmt Charset ErrTables Field Order Resultset.
From S2P Require Import Ast RouteLists Rule Plan Router RouterTheorems ExecDB SelectMerge Session Handlers SessionFacts.
From Stdlib Require Import Ascii.
Open Scope Z_scope.

(** A command is orderly when, whatever else is open, it keeps the
    session's invariant, and leaves no connection of its own open unless it
    fails. *)
Definition orderly {A} (m : ST ClientConn A) : Prop := forall E c, Owned E c ->
  wp m (fun r c' => Inv c' /\ (is_ok r = true -> Owned E c')) c.

Ltac branch := lazymatch goal with |- orderly (if ?b then _ else _) => destruct b end.

Lemma orderly_moves {A} (m : ST ClientConn A) : moves frame m -> orderly m.
Proof. intros Hm E c HO. pose proof (Owned_frame _ _ _ HO (Hm c)) as HO'. split; [apply HO' | done]. Qed.

Lemma orderly_bind {A B} (m : ST ClientConn A) (k : A -> ST ClientConn B) :
  orderly m -> (forall a, orderly (k a)) -> orderly (bind m k).
Proof.
  intros Hm Hk E c HO. apply wp_bind. eapply wp_mono; [by apply Hm|].
  intros [a|e|p] c' [HI HO']; [|by split..]. apply Hk. by apply HO'.
Qed.

Lemma orderly_recovering {A} (m : ST ClientConn A) e : orderly m -> orderly (recovering m e).
Proof.
  intros Hm E c HO. specialize (Hm E c HO). unfold wp, recovering in *. destruct (m c) as [c' [a|e'|p]]; cbn in *;
    [exact Hm | exact Hm | split; [exact (proj1 Hm) | discriminate]].
Qed.

Lemma orderly_state E c (f : ClientConn -> ClientConn) :
  Owned E c -> c_conns (f c) = c_conns c -> txConns (f c) = txConns c -> c_router (f c) = c_router c ->
  (isInTransaction (f c) = false -> txConns c = ∅) -> Owned E (f c).
Proof.
  intros [[H1 H2 H3] H4] Hc Ht Hr Hout. split; [split|]; rewrite ?Hc, ?Ht, ?Hr; done.
Qed.

Section Orderly.
Context `{Outside} `{StrMapOrder} `{MapOrder} `{Timezone} `{GoFloat} `{GoSort} `{ErrorText}.
Context (s : proxy).

(** Tame steps keep whatever may be open, and the status. *)
Definition tame (c c' : ClientConn) : Prop :=
  c_status c' = c_status c /\ forall E, Owned E c -> Owned E c'.
#[export] Instance tame_preorder : PreOrder tame.
Proof. split; [done|]. intros x y z [S1 O1] [S2 O2]. split; [congruence | auto]. Qed.
Lemma moves_tame {A} (m : ST ClientConn A) : moves frame m -> moves tame m.
Proof. intros Hm c. specialize (Hm c). split; [apply Hm|]. intros E HO. by eapply Owned_frame. Qed.
Lemma tame_closeConn co : moves tame (closeConn co false).
Proof.
  intros c. assert (forall E, Owned E c -> Owned E (closeConn co false c).1) as HO.
  { intros E HO. pose proof (closeConn_spec co E c (Owned_weaken _ _ _ HO (union_subseteq_r _ _))) as Hc.
    unfold wp in Hc. destruct (closeConn co false c) as [c' r]. cbn in *. destruct Hc as (_ & _ & Hc).
    destruct (isInTransaction c); [by subst | done]. }
  split; [|exact HO]. unfold closeConn, bind, get. destruct (isInTransaction c); [done|]. by destruct co.
Qed.

(** One connection is taken, used and given back. *)
Lemma orderly_use_conn n fromSlave (body : option error -> option nat -> ST ClientConn unit) :
  (forall err co, moves tame (body err co)) ->
  (forall e co c, is_ok (body (Some e) co c).2 = false) ->
  orderly (do! (co, err) := getBackendConn n fromSlave in with_defer (body err co) (closeConn co false)).
Proof.
  intros Hb Herr E c HO. apply wp_bind. eapply wp_mono; [by apply getBackendConn_spec|].
  intros r c1 (Hs & _ & HI & _ & _ & Hcase). destruct r as [[co err]|e|p]; [|by split..].
  pose proof (Hb err co c1) as Hf. pose proof (isInTransaction_status _ _ Hs) as Hi1.
  set (spare := match co with Some co => {[co]} | None => ∅ end : gset nat).
  assert (Owned (spare ∪ set_seq 0 (length (c_conns c1))) c1) as HA.
  { eapply Owned_weaken; [by apply Inv_Owned|]. set_solver. }
  assert (err = None -> isInTransaction c1 = false -> Owned (spare ∪ E) c1) as HO1.
  { intros -> Hi. rewrite Hi1 in Hi. destruct co as [co|]; [|done]. destruct Hcase as (node & b & _ & _ & _ & _ & Hc).
    rewrite Hi in Hc. apply Hc. }
  assert (err = None -> isInTransaction c1 = true -> Owned E c1) as HO2.
  { intros -> Hi. rewrite Hi1 in Hi. destruct co as [co|]; [|done]. destruct Hcase as (node & b & _ & _ & _ & _ & Hc).
    rewrite Hi in Hc. apply Hc. }
  unfold wp, with_defer. pose proof (Herr (default ErrBadConn err) co c1) as Hbad.
  destruct (body err co c1) as [c2 r2] eqn:E2. cbn in Hf.
  pose proof (isInTransaction_status _ _ (proj1 Hf)) as Hi2.
  pose proof (closeConn_spec co _ c2 (proj2 Hf _ HA)) as Hclose. unfold wp in Hclose.
  destruct (closeConn co false c2) as [c3 r3] eqn:E3. cbn [fst snd] in *. destruct Hclose as (Hok & Hq & Hcl).
  assert (Inv c3) as HI3.
  { destruct (isInTransaction c2); [|apply Hcl]. subst c3. by apply (proj2 Hf _ HA). }
  assert (is_ok r2 = true -> Owned E c3) as HO3.
  { intros Hr2. destruct err as [e|]; [cbn in Hbad; rewrite E2 in Hbad; cbn in Hbad; congruence|].
    rewrite Hi2 in Hcl. destruct (isInTransaction c1) eqn:Hit.
    - subst c3. by apply (proj2 Hf), HO2.
    - pose proof (closeConn_spec co E c2 (proj2 Hf _ (HO1 eq_refl eq_refl))) as Hc2. unfold wp in Hc2.
      rewrite E3 in Hc2. cbn in Hc2. rewrite Hi2 in Hc2. apply Hc2. }
  destruct r3 as [[]|e3|p3]; try done; cbn; split; try done; auto.
Qed.

Lemma orderly_handleUseDB db : orderly (handleUseDB s db).
Proof.
  unfold handleUseDB. case_match; [apply orderly_moves; moves|].
  apply orderly_bind; [apply orderly_moves; moves | intros c].
  apply orderly_bind; [apply orderly_moves; moves | intros nodeName].
  apply (orderly_use_conn _ _ (fun err co => _)); [intros [e|] [co|]; apply moves_tame; unfold nil_pointer; moves | by intros e [co|] c1].
Qed.

Lemma orderly_execute_unplanned e : orderly (execute_unplanned e).
Proof.
  unfold execute_unplanned.
  apply (orderly_use_conn _ _ (fun err co => _)); [intros [e'|] [co|]; apply moves_tame; unfold nil_pointer; moves | by intros e' [co|] c1].
Qed.

Lemma orderly_preHandleShard sql : orderly (preHandleShard s sql).
Proof.
  unfold preHandleShard. case_match; [apply orderly_moves; moves|].
  apply orderly_bind; [apply orderly_moves; moves|]. intros refused.
  repeat (case_match; [apply orderly_moves; moves|]).
  apply orderly_bind; [apply orderly_moves; moves|]. intros [err e].
  destruct err as [err|]; [destruct err; apply orderly_moves; moves|].
  destruct e as [[e|]|]; [|apply orderly_moves; moves..].
  apply orderly_bind; [apply orderly_execute_unplanned | intros _; apply orderly_moves; moves].
Qed.

Lemma orderly_handleBegin : orderly handleBegin.
Proof.
  unfold handleBegin. apply orderly_bind; [apply orderly_moves; moves | intros c].
  apply orderly_bind; [apply orderly_moves; moves | intros _].
  apply orderly_bind; [|intros _; apply orderly_moves; moves].
  intros E c' HO. enough (Owned E (set_bit SERVER_STATUS_IN_TRANS c')) as HO' by (split; [apply HO' | done]).
  apply (orderly_state E c' (set_bit SERVER_STATUS_IN_TRANS)); try done.
  unfold isInTransaction, set_bit. cbn. intros [Hf _]%orb_false_iff. exfalso.
  assert (0 < Z.land (Z.lor (c_status c') SERVER_STATUS_IN_TRANS) SERVER_STATUS_IN_TRANS); [|lia].
  rewrite Z.land_lor_distr_l, Z.land_diag. unfold SERVER_STATUS_IN_TRANS.
  assert (0 <= Z.land (c_status c') 1) by (apply Z.land_nonneg; lia).
  apply Z.le_lt_trans with (m := 0); [lia|]. assert (Z.lor (Z.land (c_status c') 1) 1 <> 0).
  { intros Hz%Z.lor_eq_0_iff. lia. }
  pose proof (Z.lor_nonneg (Z.land (c_status c') 1) 1). lia.
Qed.

Lemma orderly_end_transaction sql : orderly (end_transaction (fun co => do! _ := exec co sql in ret tt)).
Proof.
  intros E c HO. destruct (end_transaction_spec sql c (owned_inv _ _ HO)) as (c' & He & Heq).
  unfold wp. rewrite Heq. cbn. pose proof (released_Owned _ _ _ _ HO (proj1 He)) as HO'. split; [apply HO' | done].
Qed.

(** ** Planned statements *)
Lemma GetRule_NoDup r db table rule r' : router_ok r -> GetRule r db table = (rule, r') -> NoDup (Nodes rule).
Proof.
  intros [H1' H2']. unfold GetRule. destruct (rule_name db table) as [d t].
  destruct (lookup_rule (Rules r) d t) as [rule0|] eqn:Hl; intros [= <- <-]; [by eapply H1' | done].
Qed.

Lemma plan_statement_spec stmt c :
  router_ok (c_router c) ->
  wp (plan_statement stmt) (fun r c' => frame c c' /\
    match r with
    | Ok plan => NoDup (Nodes (Plan_Rule plan)) /\ NoDup (RouteNodeIndexs plan) /\
        BuildPlan (c_router c) (c_db c) stmt = Ok (plan, c_router c')
    | _ => True
    end) c.
Proof.
  intros Hr. unfold wp. split; [apply moves_plan_statement|]. unfold plan_statement, bind, get, lift, modify.
  destruct (BuildPlan (c_router c) (c_db c) stmt) as [[plan r]|e|p] eqn:E; [|done..]. cbn.
  pose proof (BuildPlan_shape _ _ _ _ _ E) as (table & rule & Hg & <- & Hnd).
  split_and!; [by eapply GetRule_NoDup | done | done].
Qed.

(** A planned statement: plan, take connections, use them, give them back. *)
Lemma getShardConns_owned fromSlave plan E c :
  Owned E c -> NoDup (Nodes (Plan_Rule plan)) -> NoDup (RouteNodeIndexs plan) ->
  wp (getShardConns s fromSlave plan) (fun r c' => Inv c' /\ c_status c' = c_status c /\
    match r with
    | Ok (Some conns, None) =>
        if isInTransaction c then Owned E c' else Owned (places conns (range_strings (dom conns)) ∪ E) c'
    | Ok (None, None) => False
    | _ => True
    end) c.
Proof.
  intros HO H1' H2'. eapply wp_mono; [by apply getShardConns_spec|].
  intros r c' (nodes & _ & Hs & _ & HI & _ & Hcase). split_and!; [done | done |].
  destruct r as [[[conns|] [e|]]|e|p]; try done. destruct Hcase as (_ & _ & Hc). by destruct (isInTransaction c); [|apply Hc].
Qed.

Lemma close_shards conns rollback E c (b : bool) :
  Inv c -> (b = true -> if isInTransaction c then Owned E c else Owned (places conns (range_strings (dom conns)) ∪ E) c) ->
  wp (closeShardConns conns rollback) (fun r c' => Inv c' /\
    match r with Ok _ => b = true -> Owned E c' | Err _ => False | Panic _ => True end) c.
Proof.
  intros HI Hb. unfold wp.
  pose proof (closeShardConns_spec conns rollback (set_seq 0 (length (c_conns c))) c) as Hall.
  specialize (Hall (Owned_weaken _ _ _ (Inv_Owned _ HI) (union_subseteq_r _ _))).
  pose proof (fun H => closeShardConns_spec conns rollback E c H) as Hown. unfold wp in *.
  destruct (closeShardConns conns rollback c) as [c' r]. cbn in *. destruct Hall as (HI' & _ & Hcase).
  split; [done|]. destruct r as [[]|e|p]; [|done..]. intros Ht. specialize (Hb Ht).
  destruct (isInTransaction c); [by subst c'|]. by apply Hown.
Qed.

Lemma orderly_handleExec stmt args : orderly (handleExec s stmt args).
Proof.
  intros E c HO. unfold handleExec. apply wp_bind. eapply wp_mono; [by apply plan_statement_spec, HO|].
  intros [plan|e|p] c1 [Hf Hplan]; [|pose proof (Owned_frame _ _ _ HO Hf) as HO1; split; [apply HO1 | done]..].
  destruct Hplan as (Hnd1 & Hnd2 & _). apply wp_bind.
  eapply wp_mono; [apply getShardConns_owned; [by eapply Owned_frame | done..]|].
  intros [[conns err]|e|p] c2 (HI2 & Hs2 & Hcase); [|by split..].
  pose proof (isInTransaction_status _ _ Hs2) as Hi2.
  set (body := match err, conns with
     | Some e, _ => fail e
     | None, None => writeOK None
     | None, Some conns => do! rs := executeInMultiNodes conns (RewrittenSqls plan) args in merge_exec_result rs
     end : ST ClientConn unit).
  assert (moves frame body) as Hb by (unfold body; destruct err, conns; moves). specialize (Hb c2).
  assert (err <> None -> is_ok (body c2).2 = false) as Hbad by (unfold body; by destruct err).
  unfold wp, with_defer. destruct (body c2) as [c3 r3]. cbn in Hb, Hbad.
  pose proof (isInTransaction_status _ _ (frame_status _ _ Hb)) as Hi3.
  pose proof (Owned_frame _ _ _ (Inv_Owned _ HI2) Hb) as HI3.
  pose proof (close_shards (default ∅ conns) (match err with Some _ => true | None => false end) E c3 (is_ok r3)) as Hc.
  unfold wp in Hc. destruct (closeShardConns _ _ c3) as [c4 r4]. cbn in *. destruct Hc as [HI4 Hr4].
  - apply HI3.
  - intros Hr. destruct err as [e|]; [rewrite Hbad in Hr; done|]. destruct conns as [conns|]; [|done]. cbn.
    rewrite Hi3, Hi2. destruct (isInTransaction c1); by eapply Owned_frame.
  - by destruct r4.
Qed.

Lemma orderly_handleSelect stmt args : orderly (handleSelect s stmt args).
Proof.
  intros E c HO. unfold handleSelect. apply wp_bind. eapply wp_mono; [by apply plan_statement_spec, HO|].
  intros [plan|e|p] c1 [Hf Hplan]; [|pose proof (Owned_frame _ _ _ HO Hf) as HO1; split; [apply HO1 | done]..].
  destruct Hplan as (Hnd1 & Hnd2 & _). apply wp_bind.
  eapply wp_mono; [apply getShardConns_owned; [by eapply Owned_frame | done..]|].
  intros [[conns err]|e|p] c2 (HI2 & Hs2 & Hcase); [|by split..].
  pose proof (isInTransaction_status _ _ Hs2) as Hi2.
  destruct err as [e|]; [by split|]. destruct conns as [conns|]; [|done].
  apply wp_bind. unfold wp at 1. pose proof (moves_executeInMultiNodes conns (RewrittenSqls plan) args c2) as Hm. unfold try.
  assert (forall err rs c3, frame c2 c3 -> wp (do! _ := closeShardConns conns false in
    match err with Some e => fail e | None => merge_select_result (default [] rs) stmt end)
    (fun r c' => Inv c' /\ (is_ok r = true -> Owned E c')) c3) as Hrest.
  { intros err rs c3 Hfr. pose proof (isInTransaction_status _ _ (frame_status _ _ Hfr)) as Hi3.
    pose proof (Owned_frame _ _ _ (Inv_Owned _ HI2) Hfr) as HI3.
    apply wp_bind. eapply wp_mono; [apply (close_shards conns false E c3 true)|].
    - apply HI3.
    - intros _. rewrite Hi3, Hi2. destruct (isInTransaction c1); by eapply Owned_frame.
    - intros [[]|e|p] c4 [HI4 Hr4]; [|done|by split]. specialize (Hr4 eq_refl).
      assert (moves frame (match err with Some e => fail e | None => merge_select_result (default [] rs) stmt end)) as Hmm
        by (destruct err; moves).
      pose proof (Owned_frame _ _ _ Hr4 (Hmm c4)) as HO5. split; [apply HO5 | done]. }
  destruct (executeInMultiNodes conns (RewrittenSqls plan) args c2) as [c3 [rs|e|p]]; cbn in Hm |- *.
  - by apply (Hrest None (Some rs)).
  - by apply (Hrest (Some e) None).
  - pose proof (Owned_frame _ _ _ (Inv_Owned _ HI2) Hm) as HI3. split; [apply HI3 | done].
Qed.

(** ** Leaving manual commit *)
Lemma autocommit_each_spec l c :
  NoDup l -> (forall co, co ∈ l -> is_open c co) ->
  match autocommit_each l c with
  | (c', Ok _) => c' = set_conns (c_takes c)
      (foldl (fun conns co => alter (ended "set autocommit = 1") co conns) (c_conns c) l) c
  | (c', Err _) => txConns c' = ∅ /\ c_router c' = c_router c
  | (_, Panic _) => False
  end.
Proof.
  revert c. induction l as [|co l IH]; intros c Hnd Hop; cbn [autocommit_each foldl]; [by destruct c|].
  apply NoDup_cons in Hnd as [Hn Hnd]. destruct (Hop co ltac:(by left)) as (b & Hb & Ho).
  unfold SetAutoCommit. rewrite (proj2 (Z.eqb_neq 1 0)) by done.
  unfold bind at 1, try. rewrite (exec_open _ _ _ _ Hb Ho).
  destruct (refusal "set autocommit = 1" co b) as [e|]; [done|].
  set (c1 := update_conn co close_conn (update_conn co (log_command (Query "set autocommit = 1")) c)).
  rewrite (bind_Ok (Close (Some co)) _ _ c1 tt) by done. specialize (IH c1 Hnd).
  assert (forall co', co' ∈ l -> is_open c1 co') as Hop1.
  { intros co' Hin. destruct (Hop co' ltac:(by right)) as (b' & Hb' & Ho'). exists b'. split; [|done].
    cbn. rewrite !list_lookup_alter_ne by (by intros ->). done. }
  specialize (IH Hop1). destruct (autocommit_each l c1) as [c2 [[]|e|p]]; [|done..].
  rewrite IH. cbn. by rewrite list_alter_alter_eq.
Qed.

Lemma orderly_handleSetAutoCommit val : orderly (handleSetAutoCommit val).
Proof.
  unfold handleSetAutoCommit. apply orderly_bind; [apply orderly_moves; moves | intros text]. cbv zeta.
  branch; [apply orderly_moves; moves|]. branch.
  - intros E c HO.
    set (c1 := set_bit SERVER_STATUS_AUTOCOMMIT c).
    unfold wp. rewrite (bind_Ok (modify _) _ c c1 tt) by done. rewrite (bind_Ok get _ c1 c1 c1) by done.
    set (c2 := if 0 <? Z.land (c_status c1) SERVER_STATUS_IN_TRANS then clear_bit SERVER_STATUS_IN_TRANS c1 else c1).
    rewrite (bind_Ok _ _ c1 c2 tt) by (unfold c2; by destruct (0 <? _)).
    assert (c_conns c2 = c_conns c /\ txConns c2 = txConns c /\ c_router c2 = c_router c /\ tx_conns c1 = tx_conns c)
      as (Hc & Ht & Hr & Htx) by (unfold c2; by destruct (0 <? _)).
    rewrite Htx. pose proof (owned_inv _ _ HO) as HI.
    pose proof (autocommit_each_spec (tx_conns c) c2 (tx_conns_NoDup _ HI)) as Hspec.
    assert (forall co, co ∈ tx_conns c -> is_open c2 co) as Hop.
    { intros co Hin. unfold is_open. rewrite Hc. by apply tx_conns_open. }
    specialize (Hspec Hop). destruct (autocommit_each (tx_conns c) c2) as [c3 [[]|e|p]] eqn:E3; [| |done].
    + rewrite (bind_Ok _ _ c2 c3 tt) by done. rewrite (bind_Ok _ _ c3 (set_txConns ∅ c3) tt) by done.
      assert (released "set autocommit = 1" c (set_txConns ∅ c3)) as Hrel.
      { subst c3. apply released_foldl; cbn; try done. by rewrite Hc. }
      pose proof (released_Owned _ _ _ _ HO Hrel) as HO3.
      pose proof (Owned_frame _ _ _ HO3 (moves_writeOK None _)) as HO4. split; [apply HO4 | done].
    + rewrite (bind_Err _ _ c2 c3 e) by done. destruct Hspec as [Ht3 Hr3]. split; [|done]. cbn. split.
      * intros n co Hn. by rewrite Ht3, lookup_empty in Hn.
      * done.
      * rewrite Hr3, Hr. apply HI.
  - branch; [|apply orderly_moves; moves].
    apply orderly_bind; [|intros _; apply orderly_moves; moves].
    intros E c HO. enough (Owned E (clear_bit SERVER_STATUS_AUTOCOMMIT c)) as HO' by (split; [apply HO' | done]).
    apply (orderly_state E c (clear_bit SERVER_STATUS_AUTOCOMMIT)); try done.
    unfold isInTransaction, isAutoCommit, clear_bit. cbn [c_status set_status].
    rewrite Z.land_ldiff. cbn. by rewrite orb_true_r.
Qed.

Lemma orderly_handleSet comments exprs : orderly (handleSet comments exprs).
Proof.
  unfold handleSet. destruct exprs as [|e1 rest]; [apply orderly_moves; moves|].
  case_match; [apply orderly_moves; moves|]. case_match; [apply orderly_handleSetAutoCommit|].
  apply orderly_moves. moves.
Qed.

Lemma orderly_run_statement stmt sql : orderly (run_statement s stmt sql).
Proof.
  destruct stmt; cbn [run_statement]; unfold handleCommit, handleRollback, commit, rollback, Commit, Rollback;
    try first [apply orderly_handleSelect | apply orderly_handleExec | apply orderly_handleSet | apply orderly_handleBegin
      | apply orderly_handleUseDB | apply orderly_moves; solve [unfold not_supported; moves]].
  all: apply orderly_bind; [apply orderly_end_transaction | intros _; apply orderly_moves; moves].
Qed.

Lemma orderly_handleQuery sql : orderly (handleQuery s sql).
Proof.
  unfold handleQuery. apply orderly_recovering. apply orderly_bind; [apply orderly_preHandleShard|].
  intros [|]; [apply orderly_moves; moves|]. apply orderly_bind; [apply orderly_moves; moves|].
  intros stmt. apply orderly_run_statement.
Qed.

Lemma orderly_handleFieldList table wildcard : orderly (handleFieldList s table wildcard).
Proof.
  unfold handleFieldList. intros E c HO. apply wp_bind. unfold wp at 1. cbn [get fst snd].
  destruct (GetRule (c_router c) (c_db c) table) as [rule r] eqn:Hg.
  pose proof (GetRule_same (c_router c) (c_db c) table) as Hr. rewrite Hg in Hr. cbn in Hr.
  apply wp_bind. unfold wp at 1. cbn [modify fst snd].
  assert (frame c (set_router r c)) as Hf by (destruct Hr; by split).
  pose proof (Owned_frame _ _ _ HO Hf) as HO1. revert HO1. generalize (set_router r c) as c1. clear Hf Hr Hg HO.
  revert E. change (orderly (do! nodeName := lift (at_ (Nodes rule) 0) in
    do! (co, err) := getBackendConn (GetNode (proxy_nodes s) nodeName) false in
    with_defer (match err, co with
      | Some e, _ => fail e
      | None, None => nil_pointer
      | None, Some co =>
          do! (err, _) := try (UseDB co (c_db c)) in
          match err with
          | Some e => do! _ := modify (set_db "") in fail e
          | None =>
              do! k := send co (FieldList table wildcard) in
              do! fs := of_sum (fields_reply co k) in
              do! _ := no_affected_rows in
              do! c := get in respond (RFields (c_status c) fs)
          end
      end) (closeConn co false))).
  apply orderly_bind; [apply orderly_moves; moves | intros nodeName].
  apply (orderly_use_conn _ _ (fun err co => _)); [intros [e|] [co|]; apply moves_tame; unfold nil_pointer; moves | by intros e [co|] c1].
Qed.

Lemma orderly_quit : orderly (do! _ := try handleRollback in modify set_closed).
Proof.
  intros E c HO. apply wp_bind. unfold wp at 1, try, handleRollback.
  destruct (end_transaction_spec "rollback" c (owned_inv _ _ HO)) as (c1 & [Hrel _] & Heq).
  pose proof (released_Owned _ _ _ _ HO Hrel) as HO1. unfold bind, rollback, Rollback. rewrite Heq.
  assert (forall c2, frame c1 c2 -> wp (modify set_closed) (fun r c' => Inv c' /\ (is_ok r = true -> Owned E c')) c2)
    as Hcl.
  { intros c2 Hf. pose proof (Owned_frame _ _ _ HO1 Hf) as HO2.
    assert (Owned E (set_closed c2)) as HO3 by (apply (orderly_state E c2 set_closed); try done; apply HO2).
    split; [apply HO3 | done]. }
  pose proof (moves_writeOK None c1) as Hf. destruct (last_refusal _ _ _ _) as [e|]; cbn [fst snd].
  - by apply (Hcl c1).
  - destruct (writeOK None c1) as [c2 [[]|e|p]]; cbn [fst snd] in *; [by apply (Hcl c2)..|].
    split; [|done]. apply (owned_inv _ _ (Owned_frame _ _ _ HO1 Hf)).
Qed.

(** A new session ([newClientConn]). *)
Definition fresh_session (c : ClientConn) : Prop :=
  c_status c = SERVER_STATUS_AUTOCOMMIT /\ txConns c = ∅ /\ c_conns c = [] /\ router_ok (c_router c).

Lemma fresh_Owned c : fresh_session c -> Owned ∅ c.
Proof.
  intros (Hs & Ht & Hc & Hr). split; [split|].
  - intros n co Hn. by rewrite Ht, lookup_empty in Hn.
  - done.
  - done.
  - intros co b Hb. by rewrite Hc in Hb.
Qed.

(** C14: COMMIT reaches the whole transaction.  On a session that holds its
    connections, [commit] and [rollback] never panic; each connection of
    the transaction is sent the command, after everything it was sent
    before, and is given back; no other connection is touched; the
    transaction is over, with an empty set of connections, whatever the
    servers answer; and success is reported exactly when every server
    accepted. *)
Theorem transaction_ends_everywhere sql finish c
    (Hfinish : (sql, finish) = ("commit", commit) \/ (sql, finish) = ("rollback", rollback)) (HI : Inv c) :
  exists c' r, finish c = (c', r) /\
    txConns c' = ∅ /\ Z.land (c_status c') SERVER_STATUS_IN_TRANS = 0 /\
    (forall n co b, txConns c !! n = Some co -> c_conns c !! co = Some b ->
       exists b', c_conns c' !! co = Some b' /\ bc_log b' = bc_log b ++ [Query sql] /\ bc_open b' = false) /\
    (forall co, (forall n, txConns c !! n <> Some co) -> c_conns c' !! co = c_conns c !! co) /\
    (r = Ok tt <-> forall n co b, txConns c !! n = Some co -> c_conns c !! co = Some b ->
       exists res, reply co (length (bc_log b)) (Query sql) = inl res) /\
    (forall p, r <> Panic p).
Proof.
  assert (finish = end_transaction (fun co => do! _ := exec co sql in ret tt)) as ->.
  { destruct Hfinish as [[= -> ->]|[= -> ->]]; done. }
  destruct (end_transaction_spec sql c HI) as (c' & [(Ht & _ & Htx & Hother) [Hs _]] & Heq).
  exists c', (match last_refusal sql (c_conns c) None (tx_conns c) with None => Ok tt | Some e => Err e end).
  split_and!; [done | done | | | done | | by destruct (last_refusal _ _ _ _)].
  - rewrite Hs. apply Z.land_ldiff.
  - intros n co b Hn Hb. exists (ended sql b). split; [by eapply Htx | done].
  - assert (last_refusal sql (c_conns c) None (tx_conns c) = None <->
      forall n co b, txConns c !! n = Some co -> c_conns c !! co = Some b ->
        exists res, reply co (length (bc_log b)) (Query sql) = inl res) as Hiff.
    { rewrite last_refusal_None. unfold refusal. split.
      - intros [_ Hall] n co b Hn Hb. specialize (Hall co b). rewrite elem_of_tx_conns in Hall.
        specialize (Hall ltac:(eauto) Hb). destruct (reply _ _ _); [eauto | done].
      - intros Hall. split; [done|]. intros co b [n Hn]%elem_of_tx_conns Hb.
        by destruct (Hall n co b Hn Hb) as [res ->]. }
    rewrite <- Hiff. by destruct (last_refusal _ _ _ _).
Qed.

(** ** One node per transaction *)
Definition one_node (c : ClientConn) : Prop := (size (txConns c) <= 1)%nat.

Lemma one_node_dom c c' : (forall m, m ∈ dom (txConns c') -> m ∈ dom (txConns c)) -> one_node c -> one_node c'.
Proof.
  unfold one_node. intros Hd Hs. rewrite <- !size_dom in *. etrans; [|exact Hs]. apply subseteq_size. exact Hd.
Qed.

Lemma quiet_one_node c c' : quiet c c' -> one_node c -> one_node c'.
Proof. intros [_ Ht _]. unfold one_node. by rewrite Ht. Qed.

Lemma getShardConns_one_node fromSlave plan c :
  Inv c -> isInTransaction c = true -> one_node c -> wp (getShardConns s fromSlave plan) (fun _ => one_node) c.
Proof.
  intros HI Hi Ho. unfold getShardConns. case_if; [done|].
  apply wp_bind. unfold wp at 1. cbn [lift fst snd].
  destruct (plan_nodes s _ _) as [nodes|e|p] eqn:Hp; [|done..].
  apply wp_bind. unfold wp at 1. cbn [get fst snd]. rewrite Hi. cbn [andb].
  destruct (_ || _) eqn:Hmulti; [done|]. apply orb_false_iff in Hmulti as [Hlen Hfirst].
  apply Nat.ltb_ge in Hlen. apply wp_bind. apply plan_nodes_lookup in Hp.
  destruct nodes as [|[name n] [|]]; [done| |cbn in Hlen; lia].
  assert (n = GetNode (proxy_nodes s) name) as Hn.
  { by destruct (Forall2_lookup_r _ _ _ 0%nat _ Hp eq_refl) as (? & _ & _ & ?). }
  cbn [take_conns]. apply wp_bind. eapply wp_mono; [by apply getBackendConn_spec, Inv_Owned|].
  intros r c1 (_ & _ & _ & Hw & _).
  assert (one_node c1) as H1'.
  { destruct n as [name'|].
    - assert (name' = name) as -> by (unfold GetNode in Hn; case_decide; congruence).
      apply andb_false_iff in Hfirst as [Hsize|Hin].
      + apply Nat.eqb_neq in Hsize. assert (txConns c = ∅) as He.
        { apply map_size_empty_iff. unfold one_node in Ho. lia. }
        unfold one_node. rewrite <- size_dom. rewrite <- (size_singleton (C := gset string) name). apply subseteq_size.
        intros m Hm. destruct (Hw m Hm) as [Hd|[= ->]]; [|set_solver]. rewrite He in Hd. set_solver.
      + apply negb_false_iff, bool_decide_eq_true_1 in Hin. apply (one_node_dom c c1); [|done].
        intros m Hm. destruct (Hw m Hm) as [|[= ->]]; [done | by apply elem_of_dom].
    - apply (one_node_dom c c1); [|done]. intros m Hm. by destruct (Hw m Hm). }
  destruct r as [[[co|] [e|]]|e|p]; done.
Qed.

Lemma closeShardConns_quiet conns rollback c : Inv c -> quiet c (closeShardConns conns rollback c).1.
Proof.
  intros HI. eapply (closeShardConns_spec conns rollback (set_seq 0 (length (c_conns c)))).
  eapply Owned_weaken; [by apply Inv_Owned | set_solver].
Qed.

(** C28: a planned statement keeps a transaction on one node.  In a
    transaction that has reached at most one node, every statement that is
    planned, whatever its outcome, leaves it so: one that needs another
    node is refused before anything is sent. *)
Theorem planned_statements_one_node c stmt args
    (HI : Inv c) (Hin : isInTransaction c = true) (Hone : one_node c) :
  one_node (handleExec s stmt args c).1 /\ forall sel, one_node (handleSelect s sel args c).1.
Proof.
  assert (forall stmt fromSlave (k : Plan -> option (gmap string nat) * option error -> ST ClientConn unit),
    (forall plan r c, Inv c -> quiet c (k plan r c).1) ->
    one_node ((do! plan := plan_statement stmt in do! r := getShardConns s fromSlave plan in k plan r) c).1) as Hall.
  { intros st fs k Hk. change (wp (do! plan := plan_statement st in do! r := getShardConns s fs plan in k plan r)
      (fun _ => one_node) c).
    apply wp_bind. eapply wp_mono; [by apply plan_statement_spec, HI|]. intros r c1 [Hf Hplan].
    pose proof (quiet_one_node _ _ (frame_quiet _ _ Hf) Hone) as Ho1. destruct r as [plan|e|p]; [|done..].
    pose proof (Owned_frame _ _ _ (Inv_Owned _ HI) Hf) as HO1. destruct Hplan as (Hnd1 & Hnd2 & _).
    apply wp_bind. pose proof (getShardConns_one_node fs plan c1 (owned_inv _ _ HO1)) as Hg.
    rewrite (isInTransaction_status _ _ (frame_status _ _ Hf)) in Hg. specialize (Hg Hin Ho1).
    pose proof (getShardConns_owned fs plan _ c1 HO1 Hnd1 Hnd2) as Hs. unfold wp in *.
    destruct (getShardConns s fs plan c1) as [c2 [r|e|p]]; cbn in *; [|done..]. destruct Hs as [HI2 _].
    by eapply quiet_one_node; [apply Hk|]. }
  split.
  - apply (Hall stmt false (fun plan '(conns, err) => _)). intros plan [conns err] c1 HI1.
    match goal with |- quiet c1 (with_defer ?b ?d c1).1 => set (body := b) end.
    assert (moves frame body) as Hb by (unfold body; destruct err, conns; moves). specialize (Hb c1).
    unfold with_defer. destruct (body c1) as [c2 r2]. cbn in Hb.
    pose proof (closeShardConns_quiet (default ∅ conns) (match err with Some _ => true | None => false end) c2
      (owned_inv _ _ (Owned_frame _ _ _ (Inv_Owned _ HI1) Hb))) as Hq.
    destruct (closeShardConns _ _ c2) as [c3 [|e|p]]; cbn in *; (etrans; [by apply frame_quiet | done]).
  - intros sel. apply (Hall (StSelect sel) (from_slave sel) (fun plan '(conns, err) => _)).
    intros plan [conns [e|]] c1 HI1; [done|]. destruct conns as [conns|]; [|apply frame_quiet; apply moves_bind; [exact _|moves|intros ?; moves]].
    unfold bind at 1, try. pose proof (moves_executeInMultiNodes conns (RewrittenSqls plan) args c1) as Hm.
    assert (forall err rs c2, frame c1 c2 -> quiet c1 ((do! _ := closeShardConns conns false in
      match err with Some e => fail e | None => merge_select_result (default [] rs) sel end) c2).1) as Hrest.
    { intros err rs c2 Hf. pose proof (closeShardConns_quiet conns false c2
        (owned_inv _ _ (Owned_frame _ _ _ (Inv_Owned _ HI1) Hf))) as Hq.
      unfold bind. destruct (closeShardConns conns false c2) as [c3 [[]|e|p]]; cbn in *;
        (etrans; [by apply frame_quiet|]; etrans; [exact Hq|]); [|done..].
      apply frame_quiet. destruct err; [done | apply moves_merge_select_result]. }
    destruct (executeInMultiNodes conns (RewrittenSqls plan) args c1) as [c2 [rs|e|p]]; cbn in Hm |- *.
    + by apply (Hrest None (Some rs)).
    + by apply (Hrest (Some e) None).
    + by apply frame_quiet.
Qed.
End Orderly.
