(* ===== verification/ClientTheorems.v ===== *)
(** * What the commands of a client guarantee

    Every command of the protocol, prepared statements included, keeps the
    session's invariant and gives back what it takes. *)
From S2P Require Import Prelude Errors StateM GoLib GoTime GoFmt Charset ErrTables Wire Field Order Resultset.
From S2P Require Import Ast RouteLists Rule Plan Router RouterTheorems ExecDB SelectMerge StmtArgs Session Handlers Stmt.
From S2P Require Import SessionFacts SessionTheorems.
From Stdlib Require Import Ascii.
Open Scope Z_scope.

(** [orderly] for methods of a client. *)
Definition orderly_client {A} (m : ST Client A) : Prop := forall E c, Owned E (session c) ->
  wp m (fun r c' => Inv (session c') /\ (is_ok r = true -> Owned E (session c'))) c.

(** The session is not touched. *)
Definition same_session (c c' : Client) : Prop := session c' = session c.
#[export] Instance same_session_preorder : PreOrder same_session.
Proof. split; [done|]. intros x y z. unfold same_session. congruence. Qed.

Lemma orderly_same {A} (m : ST Client A) : moves same_session m -> orderly_client m.
Proof. intros Hm E c HO. specialize (Hm c). unfold same_session in Hm. unfold wp. rewrite Hm. split; [apply HO | done]. Qed.

Lemma orderly_on_session {A} (m : ST ClientConn A) : orderly m -> orderly_client (on_session m).
Proof.
  intros Hm E c HO. specialize (Hm E (session c) HO). unfold wp, on_session in *. by destruct (m (session c)).
Qed.

Lemma orderly_client_bind {A B} (m : ST Client A) (k : A -> ST Client B) :
  orderly_client m -> (forall a, orderly_client (k a)) -> orderly_client (bind m k).
Proof.
  intros Hm Hk E c HO. apply wp_bind. eapply wp_mono; [by apply Hm|].
  intros [a|e|p] c' [HI HO']; [|by split..]. apply Hk. by apply HO'.
Qed.

(** The session's part of what a method of the client does. *)
Definition session_part {A} (c : Client) (m : ST Client A) : ST ClientConn A := fun s =>
  let '(c', r) := m (set_session s c) in (session c', r).

Lemma moves_args id m : moves same_session (on_args id m).
Proof. intros c. unfold on_args. destruct (stmts c !! id) as [s|]; [by destruct (m (Stmt_args s)) | done]. Qed.
Lemma moves_ResetParams id : moves same_session (ResetParams id).
Proof. by apply moves_modify; [exact _|]. Qed.
Lemma moves_the_stmt id command : moves same_session (the_stmt id command).
Proof. unfold the_stmt. moves. Qed.
#[export] Hint Resolve moves_args moves_ResetParams moves_the_stmt : methods.

Definition tame_client (c c' : Client) : Prop := tame (session c) (session c').
#[export] Instance tame_client_preorder : PreOrder tame_client.
Proof.
  split; [intros c; split; done|]. intros x y z [S1 O1] [S2 O2]. split; [congruence | auto].
Qed.

Section Commands.
Context `{Outside} `{StrMapOrder} `{MapOrder} `{Timezone} `{GoFloat} `{GoSort} `{ErrorText}.
Context (s : proxy).

Lemma tame_on_session {A} (m : ST ClientConn A) : moves frame m -> moves tame_client (on_session m).
Proof.
  intros Hm c. pose proof (moves_tame m Hm (session c)) as Ht. unfold on_session, tame_client.
  by destruct (m (session c)).
Qed.
Lemma tame_same {A} (m : ST Client A) : moves same_session m -> moves tame_client m.
Proof. intros Hm c. specialize (Hm c). unfold tame_client, same_session in *. by rewrite Hm. Qed.

(** [orderly_use_conn] for a body that also changes prepared statements. *)
Lemma orderly_client_use n fromSlave (body : option error -> option nat -> ST Client unit) :
  (forall err co, moves tame_client (body err co)) ->
  (forall e co c, is_ok (body (Some e) co c).2 = false) ->
  orderly_client (do! (co, err) := on_session (getBackendConn n fromSlave) in
                  with_defer (body err co) (on_session (closeConn co false))).
Proof.
  intros Hb Herr E c HO.
  pose proof (orderly_use_conn n fromSlave (fun err co => session_part c (body err co))) as Hu.
  assert (forall err co, moves tame (session_part c (body err co))) as H1'.
  { intros err co s0. specialize (Hb err co (set_session s0 c)). unfold session_part. by destruct (body err co _). }
  assert (forall e co s0, is_ok (session_part c (body (Some e) co) s0).2 = false) as H2'.
  { intros e co s0. specialize (Herr e co (set_session s0 c)). unfold session_part. by destruct (body (Some e) co _). }
  specialize (Hu H1' H2' E (session c) HO). unfold wp in *. unfold bind, on_session in *.
  destruct (getBackendConn n fromSlave (session c)) as [s1 [[co err]|e|p]]; [|done..].
  unfold with_defer, session_part in *. destruct (body err co (set_session s1 c)) as [c2 r2].
  by destruct (closeConn co false (session c2)) as [s3 [[]|e3|p3]].
Qed.

Lemma moves_prepare_on_conn err co sql : moves frame (prepare_on_conn err co sql).
Proof. unfold prepare_on_conn, prepare_error, Prepare_on, nil_pointer. moves. Qed.

Lemma orderly_handleStmtPrepare sql : orderly_client (handleStmtPrepare s sql).
Proof.
  unfold handleStmtPrepare. apply orderly_client_bind; [apply orderly_same; moves|]. intros [err stmt].
  destruct err as [e|], stmt as [stmt|]; try (apply orderly_same; by moves).
  apply orderly_client_bind; [apply orderly_same; moves|]. intros c.
  apply orderly_client_bind; [apply orderly_same; moves|]. intros nodeName.
  apply (orderly_client_use _ _ (fun err co => _)).
  - intros err co. pose proof (moves_prepare_on_conn err co (TrimRight sql ";")) as Hp.
    apply moves_bind; [exact _ | by apply tame_on_session|]. intros [k [[tid tcolumns] tparams]].
    apply moves_bind; [exact _ | apply tame_same; moves|]. intros c1. cbv zeta.
    apply moves_bind; [exact _ | apply tame_same; by apply moves_modify; [exact _|]|]. intros _.
    apply moves_bind; [exact _ | apply tame_on_session; unfold writePrepare; moves|]. intros _.
    apply moves_bind; [exact _ | apply tame_same; by apply moves_modify; [exact _|]|]. intros _.
    apply tame_on_session. moves.
  - intros e co c1. unfold bind at 1, on_session. unfold prepare_on_conn, prepare_error. done.
Qed.

Lemma orderly_handlePrepareSelect stmt sql args : orderly (handlePrepareSelect s stmt sql args).
Proof.
  unfold handlePrepareSelect, prepared_node. apply orderly_bind; [apply orderly_moves; moves|]. intros n.
  apply (orderly_use_conn _ _ (fun err co => _)); [intros [e|] [co|]; apply moves_tame; moves | by intros e [co|] c].
Qed.

Lemma orderly_handlePrepareExec sql args : orderly (handlePrepareExec s sql args).
Proof.
  unfold handlePrepareExec, prepared_node. apply orderly_bind; [apply orderly_moves; moves|]. intros n.
  apply (orderly_use_conn _ _ (fun err co => _)); [|by intros e [co|] c].
  intros [e|] [co|]; try (apply moves_tame; by moves).
  apply moves_bind; [exact _ | apply moves_tame; moves|]. intros [err rs].
  apply moves_bind; [exact _ | apply tame_closeConn|]. intros _. apply moves_tame. moves.
Qed.

Lemma orderly_run_prepared stmt sql args : orderly (run_prepared s stmt sql args).
Proof.
  destruct stmt; cbn [run_prepared];
    first [apply orderly_handlePrepareSelect | apply orderly_handlePrepareExec | apply orderly_moves; moves].
Qed.

(** The error of [m] is answered after [k]. *)
Lemma orderly_client_then {A} (m : ST Client A) (k : ST Client unit) :
  orderly_client m -> moves same_session k ->
  orderly_client (do! (err, _) := try m in do! _ := k in unless err).
Proof.
  intros Hm Hk E c HO. specialize (Hm E c HO). unfold wp, bind, try in *. destruct (m c) as [c1 [a|e|p]]; cbn in *; [| |done].
  all: specialize (Hk c1); unfold same_session in Hk; destruct (k c1) as [c2 [[]|e2|p2]]; cbn in *; rewrite Hk; tauto.
Qed.

Lemma orderly_handleStmtExecute data : orderly_client (handleStmtExecute s data).
Proof.
  unfold handleStmtExecute, execute_with. case_match; [apply orderly_same; moves|].
  apply orderly_client_bind; [apply orderly_same; moves|]. intros id.
  apply orderly_client_bind; [apply orderly_same; moves|]. intros st.
  apply orderly_client_bind; [apply orderly_same; moves|]. intros flag.
  case_match; [apply orderly_same; moves|].
  apply orderly_client_bind; [apply orderly_same; moves|]. intros _.
  apply orderly_client_bind; [apply orderly_same; moves|]. intros st'.
  apply orderly_client_then; [apply orderly_on_session, orderly_run_prepared | moves].
Qed.

Lemma orderly_dispatch data : orderly_client (dispatch s data).
Proof.
  unfold dispatch. apply orderly_client_bind; [apply orderly_same; moves|]. intros cmd. cbv zeta.
  repeat match goal with |- orderly_client (if ?b then _ else _) => destruct b end.
  - assert (orderly_client (on_session (do! _ := try handleRollback in modify set_closed))) as Hq
      by apply orderly_on_session, orderly_quit.
    intros E c HO. specialize (Hq E c HO). unfold wp, on_session, bind in *.
    destruct (try handleRollback (session c)) as [s1 [a|e|p]]; exact Hq.
  - apply orderly_on_session, orderly_handleQuery.
  - apply orderly_on_session, orderly_moves. moves.
  - apply orderly_on_session, orderly_handleUseDB.
  - apply orderly_client_bind; [apply orderly_same; moves|]. intros [table wildcard].
    apply orderly_on_session, orderly_handleFieldList.
  - apply orderly_handleStmtPrepare.
  - apply orderly_handleStmtExecute.
  - unfold handleStmtClose. apply orderly_same. case_match; [moves|].
    apply moves_bind; [exact _ | moves | intros id]. by apply moves_modify; [exact _|].
  - unfold handleStmtSendLongData. apply orderly_same. moves.
  - unfold handleStmtReset. case_match; [apply orderly_same; moves|].
    apply orderly_client_bind; [apply orderly_same; moves|]. intros id.
    apply orderly_client_bind; [apply orderly_same; moves|]. intros st.
    apply orderly_client_bind; [apply orderly_same; moves|]. intros _.
    apply orderly_on_session, orderly_moves. moves.
  - apply orderly_on_session, orderly_moves. unfold writeEOF. moves.
  - apply orderly_same. moves.
Qed.

(** ** What holds of every client *)
Lemma serve_packet_Inv data c : Inv (session c) -> Inv (session (serve_packet s data c).1).
Proof.
  intros HI. pose proof (orderly_dispatch data _ _ (Inv_Owned _ HI)) as [HI1 _]. unfold serve_packet, report, bind at 1, try at 1.
  destruct (dispatch s data c) as [c1 [[]|e|p]]; cbn [fst snd] in *; [done | | done].
  assert (forall s0 s1, Inv s0 -> frame s0 s1 -> Inv s1) as Hframe.
  { intros s0 s1 H0' Hf. apply (Owned_frame _ _ _ (Inv_Owned _ H0') Hf). }
  assert (forall c2, Inv (session c2) -> Inv (session (on_session (modify set_closed) c2).1)) as Hclosed.
  { intros c2 H2'. apply (orderly_state _ _ set_closed (Inv_Owned _ H2')); try done. apply H2'. }
  assert (moves frame (writeError e)) as Hw by (unfold writeError; moves). specialize (Hw (session c1)).
  unfold bind, try, on_session at 1 2. destruct (writeError e (session c1)) as [s2 [x|e2|p2]]; cbn [fst snd] in *.
  all: pose proof (Hframe _ _ HI1 Hw) as HI2.
  1,2: destruct (decide (e = MyErrBadConn)); [by apply Hclosed | done].
  done.
Qed.

(** The states a client goes through, whatever its commands answer. *)
Inductive client_reaches (c0 : Client) : Client -> Prop :=
| reaches_start : client_reaches c0 c0
| reaches_step c data : client_reaches c0 c -> client_reaches c0 (serve_packet s data c).1.

Lemma client_Inv c0 c : Inv (session c0) -> client_reaches c0 c -> Inv (session c).
Proof. intros H0' Hreach. induction Hreach; [done | by apply serve_packet_Inv]. Qed.

Lemma run_packets_Inv packets c : Inv (session c) -> Inv (session (run_packets s packets c).1).
Proof.
  revert c. induction packets as [|data packets IH]; intros c HI; cbn [run_packets]; [done|].
  pose proof (serve_packet_Inv data c HI) as HI1. unfold bind at 1.
  destruct (serve_packet s data c) as [c1 [[]|e|p]]; cbn [fst] in HI1; [|done..].
  unfold bind, get. destruct (c_closed (session c1)); [done | by apply IH].
Qed.

Lemma clean_closes c co b :
  c_conns (clean c).1 !! co = Some b -> bc_open b = true ->
  co ∉ tx_conns c /\ c_conns c !! co = Some b.
Proof.
  unfold clean, bind, get. cbn. generalize (tx_conns c) as l. intros l. revert c.
  induction l as [|x l IH]; intros c; cbn [for_each]; [set_solver|].
  unfold bind at 1, Close, modify. intros Hc Ho. destruct (IH _ Hc Ho) as [Hn Hl]. cbn in Hl.
  destruct (decide (x = co)) as [->|Hne].
  - rewrite list_lookup_alter_eq in Hl. destruct (c_conns c !! co) as [b0|]; [|done]. injection Hl as <-. done.
  - rewrite list_lookup_alter_ne in Hl by done. set_solver.
Qed.

Lemma clean_txConns c : txConns (clean c).1 = txConns c /\ exists r, (clean c).2 = Ok r.
Proof.
  unfold clean, bind, get. cbn. generalize (tx_conns c) as l. intros l. revert c.
  induction l as [|x l IH]; intros c; cbn [for_each]; [eauto|]. unfold bind, Close, modify. exact (IH (update_conn x close_conn c)).
Qed.

(** C12: transactions hold their connections.  Whatever packets a client
    sends and however its commands end, by an answer, an error or a panic,
    outside a transaction it has no transaction connections, and inside one
    each of them is open, on a master of its own node, and no two nodes
    share one; and when the client goes away, all of them are given back. *)
Theorem transactions_hold_connections c0 c (Hfresh : fresh_session (session c0)) (Hreach : client_reaches c0 c) :
  (isInTransaction (session c) = false -> txConns (session c) = ∅) /\
  (forall n co, txConns (session c) !! n = Some co ->
     exists b, c_conns (session c) !! co = Some b /\ bc_open b = true /\ bc_node b = n /\ bc_slave b = false) /\
  (forall n n' co, txConns (session c) !! n = Some co -> txConns (session c) !! n' = Some co -> n = n') /\
  (forall packets n co b, let c' := session (Run s packets c) in
     txConns c' !! n = Some co -> c_conns c' !! co = Some b -> bc_open b = false).
Proof.
  pose proof (client_Inv c0 c (owned_inv _ _ (fresh_Owned _ Hfresh)) Hreach) as HI.
  split_and!; [apply HI | apply HI | |].
  - intros n n' co Hn Hn'. destruct (inv_tx _ HI _ _ Hn) as (b & Hb & _ & Hbn & _).
    destruct (inv_tx _ HI _ _ Hn') as (b' & Hb' & _ & Hbn' & _). congruence.
  - intros packets n co b. cbv zeta. unfold Run, with_defer.
    destruct (run_packets s packets c) as [c1 r1]. unfold on_session.
    pose proof (clean_txConns (session c1)) as [Ht [r Hr]]. pose proof (clean_closes (session c1) co b) as Hc.
    destruct (clean (session c1)) as [s2 r2]. cbn in Ht, Hr, Hc |- *. subst r2. cbn. rewrite Ht.
    intros Hn Hb. destruct (bc_open b) eqn:Ho; [|done]. destruct (Hc Hb eq_refl) as [Hnot _].
    destruct Hnot. apply elem_of_tx_conns. eauto.
Qed.

(** The states reached by commands that all succeed. *)
Inductive client_succeeds (c0 : Client) : Client -> Prop :=
| succeeds_start : client_succeeds c0 c0
| succeeds_step c data c' : client_succeeds c0 c -> dispatch s data c = (c', Ok tt) -> client_succeeds c0 c'.

(** C13: connections go back to their pools.  After commands that succeed,
    the connections a client still has are exactly those of its
    transaction; outside a transaction every connection it ever took has
    been given back, and when the client goes away in the middle of one,
    the clean-up gives back the rest. *)
Theorem connections_go_back c0 c (Hfresh : fresh_session (session c0)) (Hrun : client_succeeds c0 c) :
  let c := session c in
  (forall co b, c_conns c !! co = Some b ->
     bc_open b = true <-> exists n, txConns c !! n = Some co) /\
  (isInTransaction c = false -> forall co b, c_conns c !! co = Some b -> bc_open b = false) /\
  (forall co b, c_conns (clean c).1 !! co = Some b -> bc_open b = false).
Proof.
  assert (Owned ∅ (session c)) as HO.
  { induction Hrun as [|c data c' _ IH Hc]; [by apply fresh_Owned|].
    destruct (orderly_dispatch data _ _ IH) as [_ HO]. rewrite Hc in HO. by apply HO. }
  cbv zeta. set (c1 := session c) in *.
  assert (forall co b, c_conns c1 !! co = Some b -> bc_open b = true <-> exists n, txConns c1 !! n = Some co) as Hiff.
  { intros co b Hb. split.
    - intros Ho. by destruct (owned_open _ _ HO co b Hb Ho).
    - intros [n Hn]. destruct (inv_tx _ (owned_inv _ _ HO) _ _ Hn) as (b' & Hb' & Ho & _). congruence. }
  split_and!; [done | |].
  - intros Hi co b Hb. destruct (bc_open b) eqn:Ho; [|done].
    apply (Hiff co b Hb) in Ho as [n Hn]. rewrite (inv_out _ (owned_inv _ _ HO) Hi) in Hn. by rewrite lookup_empty in Hn.
  - intros co b Hb. destruct (bc_open b) eqn:Ho; [|done]. destruct (clean_closes _ _ _ Hb Ho) as [Hn Hl].
    destruct Hn. apply elem_of_tx_conns. by apply (Hiff co b Hl).
Qed.
End Commands.
