(* ===== verification/SendTheorems.v ===== *)
(** * What a planned statement sends

    The statements of a plan reach connections to their nodes, one
    connection for each node, in their order and nothing else. *)
From S2P Require Import Prelude Errors StateM GoLib GoTime GoFmt Charset ErrTables Field Order Resultset.
From S2P Require Import Ast RouteLists Rule Plan Router RouterTheorems ExecDB SelectMerge Session Handlers SessionFacts SessionTheorems.
From Stdlib Require Import Ascii.
Open Scope Z_scope.

(** What sets a connection up before it is used. *)
Definition is_setup (cmd : command) : Prop :=
  match cmd with
  | InitDB _ => True
  | Query sql => exists names, sql = "SET NAMES " +:+ names
  | _ => False
  end.

(** The command that runs a statement. *)
Definition statement (args : list value) (sql : string) : command :=
  match args with [] => Query sql | _ => Prepared sql args end.

Definition log_all (cmds : list command) (b : BackendConn) : BackendConn :=
  mkBackendConn (bc_node b) (bc_slave b) (bc_open b) (bc_db b) (bc_charset b) (bc_collation b) (bc_log b ++ cmds).

(** Only the connection [co] changes, and only by set-up commands. *)
Record sets_up (co : nat) (c c' : ClientConn) : Prop := {
  sets_up_others : forall i, i <> co -> c_conns c' !! i = c_conns c !! i;
  sets_up_length : length (c_conns c') = length (c_conns c);
  sets_up_this : forall b, c_conns c !! co = Some b -> exists b' setup,
    c_conns c' !! co = Some b' /\ bc_log b' = bc_log b ++ setup /\ Forall is_setup setup /\ bc_slave b' = bc_slave b
}.

#[export] Instance sets_up_preorder co : PreOrder (sets_up co).
Proof.
  split.
  - intros c. split; [done | done|]. intros b Hb. exists b, []. rewrite app_nil_r. by split_and!.
  - intros x y z [O1 L1 T1] [O2 L2 T2]. split.
    + intros i Hi. by rewrite O2, O1.
    + congruence.
    + intros b Hb. destruct (T1 b Hb) as (b1 & s1 & Hb1 & Hl1 & Hs1 & Hv1).
      destruct (T2 b1 Hb1) as (b2 & s2 & Hb2 & Hl2 & Hs2 & Hv2). exists b2, (s1 ++ s2).
      split_and!; [done | by rewrite Hl2, Hl1, app_assoc | by apply Forall_app | congruence].
Qed.

(** Connections do not change at all. *)
Definition same_conns (c c' : ClientConn) : Prop := c_conns c' = c_conns c.
#[export] Instance same_conns_preorder : PreOrder same_conns.
Proof. split; [done|]. intros x y z. unfold same_conns. congruence. Qed.

Section Sends.
Context `{Outside} `{StrMapOrder} `{MapOrder} `{Timezone} `{GoFloat} `{GoSort} `{ErrorText}.
Context (s : proxy).

Lemma sets_up_alter co f c :
  (forall b, exists setup, bc_log (f b) = bc_log b ++ setup /\ Forall is_setup setup /\ bc_slave (f b) = bc_slave b) ->
  sets_up co c (update_conn co f c).
Proof.
  intros Hf. split; cbn.
  - intros i Hi. by rewrite list_lookup_alter_ne.
  - apply length_alter.
  - intros b Hb. rewrite list_lookup_alter_eq, Hb. destruct (Hf b) as (setup & ? & ? & ?). by exists (f b), setup.
Qed.

Lemma moves_setup_log co cmd : is_setup cmd -> moves (sets_up co) (modify (update_conn co (log_command cmd))).
Proof.
  intros Hc. apply moves_modify; [exact _|]. intros c. apply sets_up_alter. intros b. exists [cmd].
  split_and!; [done | by constructor | done].
Qed.
Lemma moves_setup_db co db : moves (sets_up co) (modify (update_conn co (conn_db db))).
Proof.
  apply moves_modify; [exact _|]. intros c. apply sets_up_alter. intros b. exists []. by rewrite app_nil_r.
Qed.
Lemma moves_setup_names co charset collation : moves (sets_up co) (modify (update_conn co (conn_names charset collation))).
Proof.
  apply moves_modify; [exact _|]. intros c. apply sets_up_alter. intros b. exists []. by rewrite app_nil_r.
Qed.
Lemma moves_setup_deref co co' : moves (sets_up co) (deref co').
Proof. unfold deref, nil_pointer. moves. Qed.
Lemma moves_setup_of_sum {A} co (r : A + error) : moves (sets_up co) (of_sum r).
Proof. destruct r; unfold of_sum; moves. Qed.
#[local] Hint Resolve moves_setup_log moves_setup_db moves_setup_names moves_setup_deref moves_setup_of_sum : methods.
Lemma moves_setup_send co cmd : is_setup cmd -> moves (sets_up co) (send co cmd).
Proof. intros Hc. unfold send. moves. Qed.
#[local] Hint Resolve moves_setup_send : methods.

Lemma moves_setup_UseDB co db : moves (sets_up co) (UseDB co db).
Proof. assert (is_setup (InitDB db)) by done. unfold UseDB. moves. Qed.
Lemma moves_setup_SetCharset co charset collation : moves (sets_up co) (SetCharset co charset collation).
Proof.
  unfold SetCharset. assert (forall names, is_setup (Query ("SET NAMES " +:+ names))) as Hs by (intros n; by exists n).
  unfold exec. moves.
Qed.
Lemma moves_setup_set_db co db : moves (sets_up co) (modify (set_db db)).
Proof.
  apply moves_modify; [exact _|]. intros c. split; [done | done|]. intros b Hb. exists b, []. by rewrite app_nil_r.
Qed.

Lemma take_conn_new n slave c :
  match take_conn n slave c with
  | (c', Ok co) => co = length (c_conns c) /\ exists b, c_conns c' = c_conns c ++ [b] /\ bc_log b = [] /\ bc_slave b = slave
  | (c', _) => c_conns c' = c_conns c
  end.
Proof.
  unfold take_conn. destruct n as [node|]; [|done]. unfold bind, get, put, of_sum. cbn.
  destruct (new_conn node slave (c_takes c)) as [[[db charset] collation]|e]; cbn; [|done].
  split; [done|]. eexists. by split_and!.
Qed.

(** A connection taken outside a transaction is new, and was only set up. *)
Lemma getBackendConn_new n fromSlave c :
  isInTransaction c = false ->
  match getBackendConn n fromSlave c with
  | (c', Ok (Some co, None)) => co = length (c_conns c) /\ exists b, c_conns c' = c_conns c ++ [b] /\
      Forall is_setup (bc_log b) /\ (fromSlave = false -> bc_slave b = false)
  | _ => True
  end.
Proof.
  intros Hi. unfold getBackendConn. rewrite (bind_Ok get _ c c c) by done. rewrite Hi. cbn [negb].
  set (first := if fromSlave then _ else _). assert (match first c with
    | (c', Ok (None, Some co)) => co = length (c_conns c) /\ exists b, c_conns c' = c_conns c ++ [b] /\ bc_log b = [] /\
        (fromSlave = false -> bc_slave b = false)
    | _ => True
    end) as Hfirst.
  { unfold first. destruct fromSlave.
    - unfold bind, try. pose proof (take_conn_new n true c) as Ht.
      destruct (take_conn n true c) as [c1 [co|e|p]]; [| |done].
      + destruct Ht as (-> & b & ? & ? & ?). split; [done|]. by exists b.
      + pose proof (take_conn_new n false c1) as Ht2. rewrite Ht in Ht2.
        destruct (take_conn n false c1) as [c2 [co|e2|p]]; [|done..].
        destruct Ht2 as (-> & b & ? & ? & ?). split; [done|]. by exists b.
    - unfold try. pose proof (take_conn_new n false c) as Ht.
      destruct (take_conn n false c) as [c1 [co|e|p]]; [|done..].
      destruct Ht as (-> & b & ? & ? & ?). split; [done|]. by exists b. }
  unfold bind at 1. destruct (first c) as [c1 [[[e|] [co|]]|e|p]]; try done.
  destruct Hfirst as (-> & b & Hc1 & Hl & Hv). set (co := length (c_conns c)) in *.
  assert (forall c2, sets_up co c1 c2 -> co = length (c_conns c) /\ exists b, c_conns c2 = c_conns c ++ [b] /\
      Forall is_setup (bc_log b) /\ (fromSlave = false -> bc_slave b = false)) as Hend.
  { intros c2 [O L T]. split; [done|]. destruct (T b) as (b' & setup & Hb' & Hl' & Hs & Hv').
    { rewrite Hc1. unfold co. by rewrite lookup_app_r, Nat.sub_diag by lia. }
    exists b'. split_and!; [|rewrite Hl', Hl; done|intros Hf; rewrite Hv'; by apply Hv].
    apply list_eq. intros i. destruct (decide (i = co)) as [->|Hne].
    - rewrite Hb'. unfold co. by rewrite lookup_app_r, Nat.sub_diag by lia.
    - rewrite O by done. rewrite Hc1. destruct (Nat.lt_ge_cases i co).
      + by rewrite !lookup_app_l by done.
      + rewrite !lookup_ge_None_2; [done|..]; rewrite length_app; cbn; unfold co in *; lia. }
  unfold bind, try. pose proof (moves_setup_UseDB co (c_db c) c1) as M1.
  destruct (UseDB co (c_db c) c1) as [c2 [[]|e|p]]; cbn in *; [|done..].
  pose proof (moves_setup_SetCharset co (c_charset c) (c_collation c) c2) as M2.
  destruct (SetCharset co (c_charset c) (c_collation c) c2) as [c3 [[]|e|p]]; cbn in *; [|done..].
  apply Hend. by etrans.
Qed.

(** The connections of a plan: new ones behind the old, only set up. *)
Lemma take_conns_new fromSlave nodes conns c :
  Inv c -> isInTransaction c = false ->
  match take_conns fromSlave nodes conns c with
  | (c', Ok (conns', None)) => exists l, c_conns c' = c_conns c ++ l /\ length l = length nodes /\
      Forall (fun b => Forall is_setup (bc_log b) /\ (fromSlave = false -> bc_slave b = false)) l /\
      forall name co, conns' !! name = Some co ->
        conns !! name = Some co \/ (length (c_conns c) <= co)%nat
  | _ => True
  end.
Proof.
  revert conns c. induction nodes as [|[name n] nodes IH]; intros conns c HI Hi; cbn [take_conns].
  { cbn. exists []. rewrite app_nil_r. split_and!; [done | done | constructor | auto]. }
  unfold bind at 1. pose proof (getBackendConn_new n fromSlave c Hi) as Hn.
  pose proof (getBackendConn_spec n fromSlave _ c (Inv_Owned _ HI)) as Hg. unfold wp in Hg.
  destruct (getBackendConn n fromSlave c) as [c1 [[[co|] [e|]]|e|p]]; try done.
  destruct Hn as (Hco & b & Hc1 & Hb & Hv). destruct Hg as (Hs & _ & HI1 & _ & _ & _). cbn in Hs, HI1.
  specialize (IH (<[name := co]> conns) c1 HI1). rewrite (isInTransaction_status _ _ Hs) in IH. specialize (IH Hi).
  destruct (take_conns fromSlave nodes (<[name := co]> conns) c1) as [c2 [[conns' [e|]]|e|p]]; try done.
  destruct IH as (l & Hc2 & Hl & Hall & Hold). exists (b :: l). split_and!.
  - by rewrite Hc2, Hc1, <- app_assoc.
  - cbn. by rewrite Hl.
  - by constructor.
  - intros m co' Hm. destruct (Hold m co' Hm) as [Hin|Hge].
    + destruct (decide (m = name)) as [->|Hne].
      * rewrite lookup_insert_eq in Hin. injection Hin as <-. right. lia.
      * rewrite lookup_insert_ne in Hin by done. by left.
    + right. rewrite Hc1, length_app in Hge. lia.
Qed.

(** ** Running *)
Lemma Execute_conns co sql args c b :
  c_conns c !! co = Some b -> bc_open b = true ->
  c_conns (Execute co sql args c).1 = alter (log_command (statement args sql)) co (c_conns c) /\
  forall p, (Execute co sql args c).2 <> Panic p.
Proof.
  intros Hb Ho. unfold Execute, exec, send, deref, bind, get, ret, modify, statement.
  destruct args; rewrite Hb, Ho; unfold of_sum; by destruct (reply _ _ _).
Qed.

Lemma run_on_conns co sqls args c b :
  c_conns c !! co = Some b -> bc_open b = true ->
  exists rs, (run_on co sqls args c).2 = Ok rs /\
    c_conns (run_on co sqls args c).1 = alter (log_all (statement args <$> sqls)) co (c_conns c).
Proof.
  revert c b. induction sqls as [|sql sqls IH]; intros c b Hb Ho; cbn [run_on].
  { exists []. split; [done|]. cbn. symmetry. apply list_alter_id. intros []. unfold log_all. cbn. by rewrite app_nil_r. }
  destruct (Execute_conns co sql args c b Hb Ho) as [Hc Hp]. unfold bind at 1 3, try.
  destruct (Execute co sql args c) as [c1 r] eqn:E. cbn in Hc, Hp.
  destruct (IH c1 (log_command (statement args sql) b)) as (rs & Hrs & Hc2).
  { by rewrite Hc, list_lookup_alter_eq, Hb. }
  { done. }
  assert (alter (log_all (statement args <$> sqls)) co (c_conns c1) =
    alter (log_all (statement args <$> sql :: sqls)) co (c_conns c)) as Heq.
  { rewrite Hc, list_alter_alter_eq. apply list_alter_ext; [|done]. intros b' _. unfold compose, log_all. cbn.
    by rewrite <- app_assoc. }
  destruct r as [a|e|p]; [| |by destruct (Hp p)]; unfold bind, ret;
    destruct (run_on co sqls args c1) as [c2 r2]; cbn [fst snd] in *; subst r2; eexists; (split; [done | cbn [fst]; by rewrite Hc2]).
Qed.

(** Distinct nodes have distinct connections. *)
Definition distinct (conns : gmap string nat) : Prop :=
  forall n n' co, conns !! n = Some co -> conns !! n' = Some co -> n = n'.

Lemma run_all_conns conns sqls args names c :
  NoDup names -> distinct conns ->
  (forall name co, conns !! name = Some co -> is_open c co) ->
  exists rs, (run_all conns sqls args names c).2 = Ok rs /\
    forall i, c_conns (run_all conns sqls args names c).1 !! i =
      match list_find (fun name => conns !! name = Some i) names with
      | Some (_, name) => log_all (statement args <$> default [] (sqls !! name)) <$> c_conns c !! i
      | None => c_conns c !! i
      end.
Proof.
  intros Hnd Hdis. revert c. induction names as [|name names IH]; intros c Hop; cbn [run_all].
  { exists []. by split. }
  apply NoDup_cons in Hnd as [Hn Hnd]. specialize (IH Hnd). destruct (conns !! name) as [co|] eqn:Hco.
  - destruct (Hop name co Hco) as (b & Hb & Ho).
    destruct (run_on_conns co (default [] (sqls !! name)) args c b Hb Ho) as (rs & Hrs & Hc1).
    unfold bind at 1 3. destruct (run_on co (default [] (sqls !! name)) args c) as [c1 r1]. cbn in Hrs, Hc1. subst r1.
    destruct (IH c1) as (rs2 & Hrs2 & Hc2).
    { intros m co' Hm. destruct (Hop m co' Hm) as (b' & Hb' & Ho'). unfold is_open. rewrite Hc1.
      destruct (decide (co' = co)) as [->|Hne].
      - rewrite list_lookup_alter_eq, Hb. by eexists.
      - rewrite list_lookup_alter_ne by done. by eexists. }
    unfold bind, ret. destruct (run_all conns sqls args names c1) as [c2 r2]. cbn in Hrs2, Hc2 |- *. subst r2.
    exists (rs ++ rs2). split; [done|]. intros i. rewrite Hc2. cbn [list_find]. destruct (decide (conns !! name = Some i)) as [Hi|Hi].
    + rewrite Hco in Hi. injection Hi as <-.
      destruct (list_find _ names) as [[k m]|] eqn:Hf.
      { apply list_find_Some in Hf as (Hk & Hm & _). exfalso. apply Hn. rewrite (Hdis _ _ _ Hco Hm).
        by eapply list_elem_of_lookup_2. }
      by rewrite Hc1, list_lookup_alter_eq.
    + rewrite Hc1, list_lookup_alter_ne by congruence.
      by destruct (list_find _ names) as [[k m]|].
  - destruct (IH c Hop) as (rs & Hrs & Hc). exists rs. split; [done|]. intros i. rewrite Hc. cbn [list_find].
    rewrite decide_False by congruence. by destruct (list_find _ names) as [[k m]|].
Qed.

(** ** Giving back *)
Lemma closeShardConns_conns conns c :
  isInTransaction c = false -> (closeShardConns conns false c).2 = Ok tt /\
  forall i, c_conns (closeShardConns conns false c).1 !! i =
    (if decide (i ∈ places conns (range_strings (dom conns))) then close_conn else id) <$> c_conns c !! i.
Proof.
  intros Hi. unfold closeShardConns. rewrite (bind_Ok get _ c c c) by done. rewrite Hi. clear Hi.
  revert c. generalize (range_strings (dom conns)) as names.
  induction names as [|name names IH]; intros c; cbn [for_each].
  { split; [done|]. intros i. rewrite decide_False by (unfold places; set_solver). by rewrite option_fmap_id. }
  unfold places. cbn. destruct (conns !! name) as [co|] eqn:Hco.
  - rewrite (bind_Ok _ _ c (update_conn co close_conn c) tt) by done.
    destruct (IH (update_conn co close_conn c)) as [Hok Hc]. split; [exact Hok|]. intros i. rewrite Hc. cbn.
    destruct (decide (i = co)) as [->|Hne].
    + rewrite list_lookup_alter_eq, (decide_True (P := co ∈ {[co]} ∪ _)) by set_solver.
      case_decide; by destruct (c_conns c !! co).
    + rewrite list_lookup_alter_ne by done. unfold places. cbn. case_decide as Hd1; case_decide as Hd2; set_solver.
  - rewrite (bind_Ok _ _ c c tt) by done. apply IH.
Qed.

Lemma moves_same_respond r : moves same_conns (respond r).
Proof. intros c. unfold respond, bind, get, put. cbn. by destruct (client_write _). Qed.
Lemma moves_same_set_counts a b : moves same_conns (modify (set_counts a b)).
Proof. by intros c. Qed.
#[local] Hint Resolve moves_same_respond moves_same_set_counts : methods.
Lemma moves_same_writeOK r : moves same_conns (writeOK r).
Proof. unfold writeOK. moves. Qed.
#[local] Hint Resolve moves_same_writeOK : methods.
Lemma moves_same_merge_exec rs : moves same_conns (merge_exec_result rs).
Proof. unfold merge_exec_result. moves. Qed.

Lemma getShardConns_out fromSlave plan c c' conns :
  isInTransaction c = false -> getShardConns s fromSlave plan c = (c', Ok (Some conns, None)) ->
  exists nodes, plan_nodes s (Plan_Rule plan) (RouteNodeIndexs plan) = Ok nodes /\
    take_conns fromSlave nodes ∅ c = (c', Ok (conns, None)).
Proof.
  intros Hi. unfold getShardConns. case_if; [done|]. unfold bind, lift, get. rewrite Hi. cbn [andb].
  destruct (plan_nodes s _ _) as [nodes|e|p]; [|done..]. intros Ht. exists nodes. split; [done|].
  by destruct (take_conns fromSlave nodes ∅ c) as [c1 [[conns1 err]|e|p]]; [injection Ht as -> -> ->|..].
Qed.

(** Connections that are as many as their places fill them. *)
Lemma conns_fill (conns : gmap string nat) names n k :
  NoDup names -> length names = k -> distinct conns ->
  (forall name, name ∈ names -> exists co, conns !! name = Some co /\ (n <= co < n + k)%nat) ->
  (fun name => default O (conns !! name)) <$> names ≡ₚ seq n k.
Proof.
  intros Hnd Hlen Hdis Hin. apply submseteq_length_Permutation.
  - apply NoDup_submseteq.
    + apply NoDup_fmap_2_strong; [|done]. intros x y Hx Hy Heq.
      destruct (Hin x Hx) as (cx & Ex & _), (Hin y Hy) as (cy & Ey & _). rewrite Ex, Ey in Heq. cbn in Heq.
      subst cy. by eapply Hdis.
    + intros co (name & -> & Hn)%list_elem_of_fmap. destruct (Hin name Hn) as (co & -> & ?). apply elem_of_seq. cbn. lia.
  - rewrite length_seq, length_fmap. lia.
Qed.

(** What [getShardConns] took outside a transaction: one new connection per
    node, set up and open. *)
Record taken_for (fromSlave : bool) (plan : Plan) (conns : gmap string nat) (c c1 : ClientConn)
    (names : list string) (new : list BackendConn) : Prop := {
  tf_names : Forall2 (fun i name => @at_ error string (Nodes (Plan_Rule plan)) i = Ok name) (RouteNodeIndexs plan) names;
  tf_distinct_names : NoDup names;
  tf_dom : dom conns = list_to_set names;
  tf_new : c_conns c1 = c_conns c ++ new;
  tf_length : length names = length new;
  tf_setup : Forall (fun b => Forall is_setup (bc_log b) /\ (fromSlave = false -> bc_slave b = false)) new;
  tf_conns : forall name co, conns !! name = Some co ->
    (length (c_conns c) <= co < length (c_conns c) + length new)%nat /\
    exists b, c_conns c1 !! co = Some b /\ bc_open b = true /\ bc_node b = name;
  tf_out : isInTransaction c1 = false
}.

Lemma getShardConns_taken fromSlave plan c c1 conns :
  Inv c -> isInTransaction c = false -> NoDup (Nodes (Plan_Rule plan)) -> NoDup (RouteNodeIndexs plan) ->
  getShardConns s fromSlave plan c = (c1, Ok (Some conns, None)) ->
  exists names new, taken_for fromSlave plan conns c c1 names new.
Proof.
  intros HI Hi Hr Hx Hget. apply (getShardConns_out _ _ _ _ _ Hi) in Hget as (nodes & Hp & Htake).
  pose proof (take_conns_new fromSlave nodes ∅ c HI Hi) as Hnew. rewrite Htake in Hnew.
  destruct Hnew as (new & Hc1 & Hlen & Hall & Hge).
  pose proof (plan_nodes_NoDup _ _ _ _ Hr Hx Hp) as Hnd. apply plan_nodes_lookup in Hp.
  pose proof (take_conns_spec s fromSlave nodes (set_seq 0 (length (c_conns c))) c [] ∅) as Hspec. unfold wp in Hspec.
  rewrite Htake, Hi in Hspec. cbn [fst snd] in Hspec. destruct Hspec as (Hs1 & _ & _ & _ & Hd & Hb & _); try done.
  { apply Forall_forall. intros node [k Hk]%list_elem_of_lookup.
    by destruct (Forall2_lookup_r _ _ _ _ _ Hp Hk) as (? & _ & _ & ?). }
  { eapply Owned_weaken; [by apply Inv_Owned | set_solver]. }
  exists nodes.*1, new. split; try done.
  - clear -Hp. induction Hp as [|i node l nodes [Hi _] _ IH]; [constructor|]. cbn. by constructor.
  - by rewrite length_fmap.
  - intros name co Hn. split; [|by apply Hb]. destruct (Hge name co Hn) as [He|]; [by rewrite lookup_empty in He|].
    split; [done|]. destruct (Hb name co Hn) as (b & Eb%lookup_lt_Some & _). by rewrite Hc1, length_app in Eb.
  - by rewrite (isInTransaction_status _ _ Hs1).
Qed.

Section Round.
Context (fromSlave : bool) (plan : Plan) (conns : gmap string nat) (c c1 : ClientConn).
Context (names : list string) (new : list BackendConn) (Ht : taken_for fromSlave plan conns c c1 names new).

Lemma taken_distinct : distinct conns.
Proof using Ht.
  intros m m' co Hm Hm'. destruct (tf_conns _ _ _ _ _ _ _ Ht m co Hm) as (_ & b & Eb & _ & <-).
  destruct (tf_conns _ _ _ _ _ _ _ Ht m' co Hm') as (_ & b' & Eb' & _ & <-). congruence.
Qed.

Lemma taken_in name : name ∈ names ->
  exists co, conns !! name = Some co /\ (length (c_conns c) <= co < length (c_conns c) + length new)%nat.
Proof using Ht.
  intros Hn. assert (name ∈ dom conns) as [co Hco]%elem_of_dom by (rewrite (tf_dom _ _ _ _ _ _ _ Ht); set_solver).
  exists co. split; [done|]. by apply (tf_conns _ _ _ _ _ _ _ Ht name co).
Qed.

Lemma taken_fill : (fun name => default O (conns !! name)) <$> names ≡ₚ seq (length (c_conns c)) (length new).
Proof using Ht.
  apply conns_fill; [apply Ht | apply Ht | apply taken_distinct | apply taken_in].
Qed.

Lemma taken_nodes : (bc_node <$> new) ≡ₚ names.
Proof using Ht.
  transitivity ((fun i => from_option bc_node "" (c_conns c1 !! i)) <$> seq (length (c_conns c)) (length new)).
  { rewrite (tf_new _ _ _ _ _ _ _ Ht). generalize (c_conns c) as old. clear.
    induction new as [|b l IH]; intros old; [done|]. cbn. f_equiv.
    - by rewrite lookup_app_r, Nat.sub_diag by lia.
    - rewrite (IH (old ++ [b])). rewrite length_app, Nat.add_1_r. erewrite list_fmap_ext; [done|].
      intros k i _. cbn. by rewrite <- app_assoc. }
  rewrite <- taken_fill, <- list_fmap_compose. erewrite list_fmap_ext; [by rewrite list_fmap_id|].
  intros k name Hk%list_elem_of_lookup_2. unfold compose. destruct (taken_in name Hk) as (co & Hco & _).
  rewrite Hco. cbn. by destruct (tf_conns _ _ _ _ _ _ _ Ht name co Hco) as (_ & b & -> & _ & <-).
Qed.

(** A new connection after its statements, given back. *)
Definition final (args : list value) (b : BackendConn) : BackendConn :=
  close_conn (log_all (statement args <$> default [] (RewrittenSqls plan !! bc_node b)) b).

Lemma taken_final args rs c2 c3 c4 :
  executeInMultiNodes conns (RewrittenSqls plan) args c1 = (c2, Ok rs) ->
  same_conns c2 c3 -> frame c2 c3 -> (closeShardConns conns false c3).1 = c4 ->
  c_conns c4 = c_conns c ++ (final args <$> new).
Proof using Ht.
  intros Hrun Hsame Hf3 Hclose. unfold executeInMultiNodes in Hrun. case_if_in Hrun; [done|]. case_if_in Hrun; [done|].
  assert (NoDup (range_strings (dom conns))) as Hndr by (rewrite range_strings_perm; apply NoDup_elements).
  destruct (run_all_conns conns (RewrittenSqls plan) args _ c1 Hndr taken_distinct) as (rs0 & Hrs & Hc2).
  { intros name co Hn. destruct (tf_conns _ _ _ _ _ _ _ Ht name co Hn) as (_ & b & ? & ? & _). by exists b. }
  pose proof (moves_run_all conns (RewrittenSqls plan) args (range_strings (dom conns)) c1) as Hf2.
  unfold bind at 1 in Hrun. destruct (run_all _ _ _ _ c1) as [c2' r2]. cbn in Hrs, Hc2, Hf2. subst r2.
  assert (c2' = c2) as -> by (destruct (first_error rs0); by injection Hrun).
  assert (isInTransaction c3 = false) as Hi3.
  { rewrite (isInTransaction_status _ _ (frame_status _ _ Hf3)), (isInTransaction_status _ _ (frame_status _ _ Hf2)). apply Ht. }
  destruct (closeShardConns_conns conns c3 Hi3) as [_ Hc4]. rewrite Hclose, Hsame in Hc4.
  apply list_eq. intros i. rewrite Hc4, Hc2, (tf_new _ _ _ _ _ _ _ Ht). set (n := length (c_conns c)).
  destruct (list_find _ _) as [[k m]|] eqn:Hfind.
  - apply list_find_Some in Hfind as (_ & Hm & _). destruct (tf_conns _ _ _ _ _ _ _ Ht m i Hm) as ([Hni _] & b & Eb & _ & Hbn).
    rewrite (tf_new _ _ _ _ _ _ _ Ht) in Eb. rewrite decide_True.
    + rewrite Eb. rewrite lookup_app_r in Eb |- * by done. rewrite list_lookup_fmap, Eb. cbn. unfold final. by rewrite Hbn.
    + unfold places. apply elem_of_list_to_set, list_elem_of_omap. exists m. split; [|done].
      rewrite range_strings_perm, elem_of_elements. by apply elem_of_dom.
  - assert (forall m, conns !! m <> Some i) as Hno.
    { intros m Hm. apply list_find_None in Hfind. apply (proj1 (Forall_forall _ _) Hfind m); [|done].
      rewrite range_strings_perm, elem_of_elements. by apply elem_of_dom. }
    rewrite decide_False, option_fmap_id.
    2: { unfold places. rewrite elem_of_list_to_set, list_elem_of_omap. intros (m & _ & Hm). by destruct (Hno m). }
    destruct (Nat.lt_ge_cases i n); [by rewrite !lookup_app_l|]. rewrite !lookup_app_r by done.
    rewrite !lookup_ge_None_2; [done| rewrite length_fmap|]; (apply Nat.nlt_ge; intros Hlt).
    all: assert (i ∈ seq n (length new)) as Hseq by (apply elem_of_seq; fold n in Hlt; lia).
    all: unfold n in Hseq; rewrite <- taken_fill in Hseq; apply list_elem_of_fmap in Hseq as (name & -> & Hnn);
      destruct (taken_in name Hnn) as (co & Hco & _); rewrite Hco in Hno; by apply (Hno name).
Qed.
End Round.

(** ** No statement is left out *)
Definition listed (sqls : gmap string (list string)) (names : list string) : nat :=
  sum_list ((fun name => length (default [] (sqls !! name))) <$> names).

Lemma listed_count sqls names : NoDup names -> (listed sqls names <= statement_count sqls)%nat.
Proof.
  revert sqls. unfold listed. induction names as [|name names IH]; intros sqls Hnd; cbn; [lia|].
  apply NoDup_cons in Hnd as [Hn Hnd].
  assert (sum_list ((fun n => length (default [] (sqls !! n))) <$> names) =
    sum_list ((fun n => length (default [] (base.delete name sqls !! n))) <$> names)) as ->.
  { f_equal. apply list_fmap_ext. intros k n Hk%list_elem_of_lookup_2. by rewrite lookup_delete_ne by set_solver. }
  specialize (IH (base.delete name sqls) Hnd). destruct (sqls !! name) as [l|] eqn:Hl; cbn.
  - unfold statement_count in *. rewrite (map_fold_delete_L _ _ name l sqls); [lia | intros; lia | done].
  - rewrite !(delete_id sqls name) in IH |- * by done. lia.
Qed.

Lemma run_on_length co sqls args c c' rs : run_on co sqls args c = (c', Ok rs) -> length rs = length sqls.
Proof.
  revert c c' rs. induction sqls as [|sql sqls IH]; intros c c' rs Hr; cbn [run_on] in Hr; [by injection Hr as _ <-|].
  apply bind_Ok_inv in Hr as (c1 & r & _ & Hr). apply bind_Ok_inv in Hr as (c2 & rs2 & H2' & Hr).
  injection Hr as _ <-. cbn. f_equal. by eapply IH.
Qed.

Lemma run_all_length conns sqls args names c c' rs :
  Forall (fun name => name ∈ dom conns) names ->
  run_all conns sqls args names c = (c', Ok rs) -> length rs = listed sqls names.
Proof.
  revert c c' rs. unfold listed. induction names as [|name names IH]; intros c c' rs Hd Hr; cbn [run_all] in Hr.
  { by injection Hr as _ <-. }
  apply Forall_cons in Hd as [[co Hco]%elem_of_dom Hd]. rewrite Hco in Hr.
  apply bind_Ok_inv in Hr as (c1 & rs1 & H1' & Hr). apply bind_Ok_inv in Hr as (c2 & rs2 & H2' & Hr).
  injection Hr as _ <-. rewrite length_app. cbn. f_equal; [by eapply run_on_length | by eapply IH].
Qed.

(** Results that merge are all there, so everything was run. *)
Lemma all_run conns sqls args c1 c2 rs m :
  executeInMultiNodes conns sqls args c1 = (c2, Ok rs) -> (forall r, r ∈ rs -> is_Some r) ->
  forall name l, m = conns -> sqls !! name = Some l -> l <> [] -> name ∈ dom m.
Proof.
  intros Hexec Hsome name l -> Hl Hne. unfold executeInMultiNodes in Hexec.
  case_if_in Hexec; [done|]. case_if_in Hexec; [done|].
  apply bind_Ok_inv in Hexec as (c' & rs0 & Hrun & Hexec). destruct (first_error rs0); [done|]. injection Hexec as _ <-.
  apply run_all_length in Hrun.
  2: { apply Forall_forall. intros n Hn. by rewrite range_strings_perm, elem_of_elements in Hn. }
  destruct (decide (name ∈ dom conns)) as [|Hout]; [done|]. exfalso.
  assert (listed sqls (name :: range_strings (dom conns)) <= statement_count sqls)%nat as Hc.
  { apply listed_count. apply NoDup_cons. rewrite range_strings_perm, elem_of_elements. split; [done | apply NoDup_elements]. }
  unfold listed in Hc. cbn in Hc. rewrite Hl in Hc. cbn in Hc. fold (listed sqls (range_strings (dom conns))) in Hc.
  assert (0 < length l)%nat by (destruct l; [done | cbn; lia]).
  destruct (Hsome None) as [? ?]; [|done]. apply elem_of_app. right. apply elem_of_replicate. split; [done|]. lia.
Qed.

Lemma merge_exec_all rs c c' : merge_exec_result rs c = (c', Ok tt) -> forall r, r ∈ rs -> is_Some r.
Proof.
  intros Hm. unfold merge_exec_result in Hm. apply bind_Ok_inv in Hm as (c0 & c1 & _ & Hm).
  apply bind_Ok_inv in Hm as (c2 & [[m l] a] & Hl & _). unfold lift, mergeExecResult in Hl. injection Hl as _ Hl.
  apply rbind_Ok_inv in Hl as (r0 & Hf & _). revert Hf. generalize (mkResult 0 0 0 None). clear.
  induction rs as [|r rs IH]; intros r1 Hf; [set_solver|]. cbn [rfold] in Hf.
  apply rbind_Ok_inv in Hf as (r2 & H2 & Hf). intros x [->|Hx]%elem_of_cons; [|by eapply IH].
  destruct r; [done | done].
Qed.

(** A select whose columns the proxy computes itself. *)
Definition computes (stmt : Statement) : Prop :=
  match stmt with StSelect sel => getFuncExprs sel <> ∅ | _ => False end.

Lemma rmap_the_result rs l : rmap the_result rs = Ok l -> forall r, r ∈ rs -> is_Some r.
Proof.
  intros Hl%rmap_Ok_Forall2 r [i Hi]%list_elem_of_lookup.
  destruct (Forall2_lookup_l _ _ _ _ _ Hl Hi) as (x & _ & Hx). by destruct r.
Qed.

Lemma merge_select_all rs sel c c' :
  ~ computes (StSelect sel) -> merge_select_result rs sel c = (c', Ok tt) -> forall r, r ∈ rs -> is_Some r.
Proof.
  intros Hf Hm. unfold merge_select_result in Hm. apply bind_Ok_inv in Hm as (c0 & c1 & _ & Hm).
  apply bind_Ok_inv in Hm as (c2 & [st r] & Hl & _). unfold lift in Hl. injection Hl as _ Hl.
  unfold mergeSelectResult in Hl. apply rbind_Ok_inv in Hl as ([st' r'] & Hb & _). clear -Hf Hb.
  assert (size (getFuncExprs sel) = 0%nat) as Hz.
  { apply map_size_empty_iff. destruct (decide (getFuncExprs sel = ∅)); [done|]. by destruct Hf. }
  destruct (Sel_GroupBy sel).
  - unfold buildSelectOnlyResult in Hb. apply rbind_Ok_inv in Hb as (r0 & Hr0 & Hb).
    apply rbind_Ok_inv in Hb as (s0 & _ & Hb). rewrite Hz in Hb. cbn [Nat.eqb] in Hb.
    apply rbind_Ok_inv in Hr0 as (o & Ho & Hr0). destruct rs as [|r1 rs]; [done|]. cbn in Ho. injection Ho as ->.
    intros x [->|Hx]%elem_of_cons; [by destruct o|]. cbn [tail] in Hb. revert Hb Hx. clear.
    generalize (Z.lor (c_status c1) (Status r0), s0). induction rs as [|r rs IH]; intros a Hb Hx; [set_solver|].
    cbn [rfold] in Hb. apply rbind_Ok_inv in Hb as (b & Hstep & Hb).
    apply elem_of_cons in Hx as [->|Hx]; [by destruct a, r | by eapply IH].
  - unfold buildSelectGroupByResult in Hb. apply rbind_Ok_inv in Hb as (? & _ & Hb).
    apply rbind_Ok_inv in Hb as (? & _ & Hb). apply rbind_Ok_inv in Hb as (l1 & Hl & _). by eapply rmap_the_result.
Qed.

(** The steps of the two handlers that succeed. *)
Lemma moves_same_merge_select rs sel : moves same_conns (merge_select_result rs sel).
Proof.
  unfold merge_select_result, writeResultset, no_affected_rows. moves.
  all: try (by intros ?). all: moves.
Qed.

Lemma exec_round stmt args c c0 c' plan :
  plan_statement stmt c = (c0, Ok plan) -> Inv c0 -> isInTransaction c0 = false ->
  NoDup (Nodes (Plan_Rule plan)) -> NoDup (RouteNodeIndexs plan) ->
  handleExec s stmt args c = (c', Ok tt) ->
  exists c1 c2 c3 conns rs, getShardConns s false plan c0 = (c1, Ok (Some conns, None)) /\
    executeInMultiNodes conns (RewrittenSqls plan) args c1 = (c2, Ok rs) /\ same_conns c2 c3 /\ frame c2 c3 /\
    same_conns (closeShardConns conns false c3).1 c' /\ (forall r, r ∈ rs -> is_Some r).
Proof.
  intros Hst HI0 Hi0 Hnd1 Hnd2 Hok. unfold handleExec in Hok. rewrite (bind_Ok _ _ _ _ _ Hst) in Hok.
  apply bind_Ok_inv in Hok as (c1 & [conns err] & Hget & Hok).
  pose proof (getShardConns_owned s false plan _ c0 (Inv_Owned _ HI0) Hnd1 Hnd2) as Hown. unfold wp in Hown.
  rewrite Hget in Hown. destruct Hown as (_ & _ & Hcase). cbn in Hcase. unfold with_defer in Hok.
  destruct err as [e|]; [cbv beta iota delta [fail] in Hok; by destruct (closeShardConns _ _ c1) as [? []]|].
  destruct conns as [conns|]; [|done]. cbv beta iota delta [default from_option id] in Hok.
  unfold bind at 1 in Hok. destruct (executeInMultiNodes conns (RewrittenSqls plan) args c1) as [c2 [rs|e|p]] eqn:Hexec;
    [|by destruct (closeShardConns _ _ c2) as [? []]..].
  pose proof (moves_same_merge_exec rs c2) as Hs. pose proof (moves_merge_exec_result rs c2) as Hf.
  destruct (merge_exec_result rs c2) as [c3 r3] eqn:Hm. cbn in Hs, Hf. exists c1, c2, c3, conns, rs.
  destruct (closeShardConns conns false c3) as [c4 [|e|p]]; cbn in Hok |- *; simplify_eq.
  all: split_and!; try done.
  all: by eapply merge_exec_all.
Qed.

Lemma select_round sel args c c0 c' plan :
  plan_statement (StSelect sel) c = (c0, Ok plan) -> Inv c0 -> isInTransaction c0 = false ->
  NoDup (Nodes (Plan_Rule plan)) -> NoDup (RouteNodeIndexs plan) ->
  handleSelect s sel args c = (c', Ok tt) ->
  exists c1 c2 c3 conns rs, getShardConns s (from_slave sel) plan c0 = (c1, Ok (Some conns, None)) /\
    executeInMultiNodes conns (RewrittenSqls plan) args c1 = (c2, Ok rs) /\ same_conns c2 c3 /\ frame c2 c3 /\
    same_conns (closeShardConns conns false c3).1 c' /\ (~ computes (StSelect sel) -> forall r, r ∈ rs -> is_Some r).
Proof.
  intros Hst HI0 Hi0 Hnd1 Hnd2 Hok. unfold handleSelect in Hok. rewrite (bind_Ok _ _ _ _ _ Hst) in Hok.
  apply bind_Ok_inv in Hok as (c1 & [conns err] & Hget & Hok).
  pose proof (getShardConns_owned s (from_slave sel) plan _ c0 (Inv_Owned _ HI0) Hnd1 Hnd2) as Hown. unfold wp in Hown.
  rewrite Hget in Hown. destruct Hown as (_ & _ & Hcase). cbn in Hcase.
  destruct err as [e|]; [done|]. destruct conns as [conns|]; [|done].
  apply bind_Ok_inv in Hok as (c2 & [err rs] & Hexec & Hok). unfold try in Hexec.
  destruct (executeInMultiNodes conns (RewrittenSqls plan) args c1) as [c2' [rs'|e|p]] eqn:He; [| |done].
  - injection Hexec as -> <- <-. apply bind_Ok_inv in Hok as (c4 & [] & Hcl & Hok).
    change (merge_select_result rs' sel c4 = (c', Ok tt)) in Hok.
    pose proof (moves_same_merge_select rs' sel c4) as Hs. rewrite Hok in Hs.
    exists c1, c2, c2, conns, rs'. rewrite Hcl. cbn [fst].
    do 5 (split; [done|]). intros Hf. by eapply merge_select_all.
  - injection Hexec as -> <- <-. by apply bind_Ok_inv in Hok as (c4 & [] & Hcl & Hok).
Qed.

(** C8: a planned statement does what its plan says.  Outside a
    transaction, when a planned statement succeeds, each routed node was
    given one new connection, to its master unless the statement may read
    from slaves, on which, after the set-up, exactly the statements that
    the plan has for the node were run, in their order; these connections
    have been given back, there are no others, and the ones from before are
    untouched. *)
Theorem planned_statement_runs_plan stmt fromSlave run args c c' plan r
    (Hrun : (run = handleExec s stmt args /\ fromSlave = false) \/
            exists sel, stmt = StSelect sel /\ run = handleSelect s sel args /\ fromSlave = from_slave sel)
    (HI : Inv c) (Hout : isInTransaction c = false)
    (Hplan : BuildPlan (c_router c) (c_db c) stmt = Ok (plan, r)) (Hok : run c = (c', Ok tt)) :
  exists names new,
    Forall2 (fun i name => @at_ error string (Nodes (Plan_Rule plan)) i = Ok name) (RouteNodeIndexs plan) names /\
    NoDup names /\ c_conns c' = c_conns c ++ new /\ (bc_node <$> new) ≡ₚ names /\
    (~ computes stmt -> forall name l, RewrittenSqls plan !! name = Some l -> l <> [] -> name ∈ names) /\
    Forall (fun b => bc_open b = false /\ (fromSlave = false -> bc_slave b = false) /\
      exists setup, Forall is_setup setup /\
        bc_log b = setup ++ (statement args <$> default [] (RewrittenSqls plan !! bc_node b))) new.
Proof.
  (* the plan *)
  destruct (plan_statement_spec stmt c (inv_rules _ HI)) as [_ Hnd].
  assert (plan_statement stmt c = (set_router r c, Ok plan)) as Hst.
  { unfold plan_statement, bind, get, lift, modify, ret. by rewrite Hplan. }
  rewrite Hst in Hnd. destruct Hnd as (Hnd1 & Hnd2 & _).
  pose proof (moves_plan_statement stmt c) as Hf. rewrite Hst in Hf. cbn in Hf. set (c0 := set_router r c) in *.
  pose proof (owned_inv _ _ (Owned_frame _ _ _ (Inv_Owned _ HI) Hf)) as HI0.
  assert (isInTransaction c0 = false) as Hi0 by done.
  (* the round *)
  assert (exists c1 c2 c3 conns rs, getShardConns s fromSlave plan c0 = (c1, Ok (Some conns, None)) /\
    executeInMultiNodes conns (RewrittenSqls plan) args c1 = (c2, Ok rs) /\ same_conns c2 c3 /\ frame c2 c3 /\
    same_conns (closeShardConns conns false c3).1 c' /\ (~ computes stmt -> forall r, r ∈ rs -> is_Some r))
    as (c1 & c2 & c3 & conns & rs & Hget & Hexec & Hsame & Hf3 & Hclose & Hleft).
  { destruct Hrun as [[-> ->]|(sel & -> & -> & ->)].
    - edestruct (exec_round stmt args c c0 c' plan) as (? & ? & ? & ? & ? & ? & ? & ? & ? & ? & ?); try done.
      by do 5 eexists.
    - exact (select_round sel args c c0 c' plan Hst HI0 Hi0 Hnd1 Hnd2 Hok). }
  destruct (getShardConns_taken _ _ _ _ _ HI0 Hi0 Hnd1 Hnd2 Hget) as (names & new & Ht).
  pose proof (taken_final _ _ _ _ _ _ _ Ht args rs c2 c3 _ Hexec Hsame Hf3 eq_refl) as Hfin.
  exists names, (final plan args <$> new). split_and!; [apply Ht | apply Ht | by rewrite Hclose | | |].
  - rewrite <- list_fmap_compose. change (bc_node ∘ final plan args) with bc_node. by eapply taken_nodes.
  - intros Hn name l Hl Hne. pose proof (all_run _ _ _ _ _ _ _ Hexec (Hleft Hn) name l eq_refl Hl Hne) as Hd.
    rewrite (tf_dom _ _ _ _ _ _ _ Ht) in Hd. by apply elem_of_list_to_set in Hd.
  - apply Forall_fmap. eapply Forall_impl; [apply Ht|]. intros b [Hs Hv]. unfold compose. split_and!; [done | done |].
    by exists (bc_log b).
Qed.
End Sends.
