(* ===== verification/Demo.v ===== *)
(** * A session on the sample schema

    Concrete instances of the parameters, at which the theorems about
    sessions apply, and runs that show what fails. *)
From S2P Require Import Prelude Errors StateM GoLib GoTime GoFmt Charset ErrTables Field Order Resultset.
From S2P Require Import Ast RouteLists Rule Plan RoutingTheorems Router RouterTheorems ExecDB ResultBuild SelectMerge Session Handlers.
From S2P Require Import Wire StmtArgs Stmt SessionFacts SessionTheorems ClientTheorems SendTheorems.
From Stdlib Require Import Ascii.
Open Scope Z_scope.

#[local] Existing Instance UTC.
#[local] Existing Instance no_floats.
#[local] Existing Instance insertion_GoSort.

(** Servers that accept everything, and one row of one column for a select. *)
Definition demo_result : Result := mkResult SERVER_STATUS_AUTOCOMMIT 7 1 None.
#[local] Instance demo_outside : Outside := {|
  new_conn _ _ _ := inl ("kingshard", "utf8", 33);
  reply _ _ _ := inl demo_result;
  fields_reply _ _ := inl [];
  prepare_reply _ _ := inl (1, 0, 2);
  client_write _ := None |}.
#[local] Instance demo_text : ErrorText := fun _ => "".

(** Two nodes, so that the rule's nodes are the router's. *)
Definition demo_schema : SchemaConfig := mkSchemaConfig "kingshard" ["node2"; "node3"] "node2" [sample_hash].
Definition demo_router : Router :=
  match NewRouter demo_schema with Ok r => r | _ => mkRouter ∅ (NewDefaultRule "") [] end.
Definition demo_truncate : Statement := StTruncate (mkTruncate [] "" table_t).
Definition demo_proxy : proxy :=
  mkProxy {["node2"; "node3"]} {["node2"; "node3"]} (fun _ => Ok false) (fun _ => Err (Errorf "")).
Definition demo_session : ClientConn :=
  mkClientConn SERVER_STATUS_AUTOCOMMIT 33 "utf8" "kingshard" "kingshard" demo_router ∅ false 0 0 0 [] [].

Definition demo_client : Client := mkClient demo_session 0 ∅.
Definition query (sql : string) : bytes := COM_QUERY :: bytes_of sql.

Definition demo_after (packets : list bytes) : Client :=
  foldl (fun c data => (serve_packet demo_proxy data c).1) demo_client packets.

Lemma demo_reaches packets : client_reaches demo_proxy demo_client (demo_after packets).
Proof.
  unfold demo_after. rewrite <- (rev_involutive packets). induction (rev packets) as [|data l IH]; [constructor|].
  cbn [rev]. rewrite foldl_app. by constructor.
Qed.

Lemma demo_router_ok : router_ok demo_router.
Proof.
  assert (map_Forall (fun _ m => map_Forall (fun _ rule => NoDup (Nodes rule)) m) (Rules demo_router)) as Hall.
  { apply (bool_decide_eq_true_1 _). vm_compute. reflexivity. }
  split.
  - intros d t rule Hl. unfold lookup_rule in Hl. destruct (Rules demo_router !! d) as [m|] eqn:Hm; [|done].
    exact (Hall d m Hm t rule Hl).
  - apply (bool_decide_eq_true_1 _). vm_compute. reflexivity.
Qed.

Lemma demo_fresh : fresh_session demo_session.
Proof. split_and!; [done..|]. exact demo_router_ok. Qed.

(** ** Runs *)

(* a transaction that has reached node2 *)
Definition demo_packets : list bytes := [query "begin"; query "delete from t where id = 4"].
Definition demo_transaction : ClientConn := session (demo_after demo_packets).
Lemma demo_transaction_Inv : Inv demo_transaction.
Proof. exact (client_Inv _ demo_client _ (owned_inv _ _ (fresh_Owned _ demo_fresh)) (demo_reaches _)). Qed.

Lemma transactions_hold_connections_witness :
  fresh_session demo_session /\ client_reaches demo_proxy demo_client (demo_after demo_packets) /\
  txConns demo_transaction = {["node2" := 0%nat]} /\
  exists b, c_conns demo_transaction !! 0%nat = Some b /\ bc_open b = true /\ bc_node b = "node2" /\ bc_slave b = false.
Proof.
  split_and!; [exact demo_fresh | apply demo_reaches | vm_compute; reflexivity|].
  destruct (transactions_hold_connections demo_proxy demo_client (demo_after demo_packets) demo_fresh (demo_reaches _))
    as (_ & Hheld & _). apply Hheld. vm_compute. reflexivity.
Defined.

Lemma connections_go_back_witness :
  exists c, dispatch demo_proxy (query "truncate t") demo_client = (c, Ok tt) /\ length (c_conns (session c)) = 2%nat /\
    forall co b, c_conns (session c) !! co = Some b -> bc_open b = false.
Proof.
  set (c := (dispatch demo_proxy (query "truncate t") demo_client).1).
  assert (dispatch demo_proxy (query "truncate t") demo_client = (c, Ok tt)) as Hc by (vm_compute; reflexivity).
  assert (length (c_conns (session c)) = 2%nat) as Hlen by (vm_compute; reflexivity).
  assert (isInTransaction (session c) = false) as Htx by (vm_compute; reflexivity).
  clearbody c. exists c. split; [exact Hc|]. split; [exact Hlen|].
  apply (connections_go_back demo_proxy demo_client c demo_fresh); [|exact Htx].
  exact (succeeds_step _ _ _ (query "truncate t") c (succeeds_start _ _) Hc).
Defined.

Lemma transaction_ends_everywhere_witness :
  exists c', commit demo_transaction = (c', Ok tt) /\ txConns c' = ∅ /\
    bc_log <$> c_conns c' !! 0%nat =
      Some [Query "begin"; Query "delete from t_0001 where id = 4"; Query "commit"].
Proof.
  destruct (transaction_ends_everywhere "commit" commit demo_transaction (or_introl eq_refl) demo_transaction_Inv)
    as (c' & r & Hc & Htx & _ & Hall & _ & Hr & _).
  assert (r = Ok tt) as -> by (apply Hr; intros n co b _ _; by exists demo_result).
  exists c'. split_and!; [exact Hc | exact Htx|].
  destruct (Hall "node2" 0%nat
    (mkBackendConn "node2" false true "kingshard" "utf8" 33 [Query "begin"; Query "delete from t_0001 where id = 4"]))
    as (b' & -> & Hb & _); [vm_compute; reflexivity..|]. cbn. by rewrite Hb.
Defined.

Lemma planned_statements_one_node_witness :
  isInTransaction demo_transaction = true /\ one_node demo_transaction /\
  one_node (handleExec demo_proxy demo_truncate [] demo_transaction).1 /\
  (handleExec demo_proxy demo_truncate [] demo_transaction).2 = Err ErrTransInMulti.
Proof.
  assert (one_node demo_transaction) as Hone by (vm_compute; lia).
  split; [vm_compute; reflexivity|]. split; [exact Hone|]. split; [|vm_compute; reflexivity].
  assert (isInTransaction demo_transaction = true) as Hin by (vm_compute; reflexivity).
  exact (proj1 (planned_statements_one_node demo_proxy demo_transaction demo_truncate [] demo_transaction_Inv Hin Hone)).
Defined.

Definition demo_built : Plan * Router :=
  match BuildPlan demo_router "kingshard" demo_truncate with
  | Ok x => x
  | _ => (new_plan (NewDefaultRule ""), demo_router)
  end.
Lemma demo_built_ok : BuildPlan demo_router "kingshard" demo_truncate = Ok (demo_built.1, demo_built.2).
Proof.
  assert (is_ok (BuildPlan demo_router "kingshard" demo_truncate) = true) as Hok by (vm_compute; reflexivity).
  unfold demo_built. destruct (BuildPlan _ _ _) as [[plan r]| |]; [reflexivity | discriminate..].
Qed.

Lemma planned_statement_runs_plan_witness :
  exists c' names new, handleExec demo_proxy demo_truncate [] demo_session = (c', Ok tt) /\
    c_conns c' = new /\ (bc_node <$> new) ≡ₚ names /\ "node3" ∈ names /\
    Forall (fun b => bc_open b = false) new.
Proof.
  set (c' := (handleExec demo_proxy demo_truncate [] demo_session).1).
  pose proof demo_built_ok as Hp. set (plan := demo_built.1) in Hp. set (r := demo_built.2) in Hp.
  assert (handleExec demo_proxy demo_truncate [] demo_session = (c', Ok tt)) as Hc by (vm_compute; reflexivity).
  assert (RewrittenSqls plan !! "node3" = Some ["truncate t_0002"]) as Hsql by (vm_compute; reflexivity).
  destruct (planned_statement_runs_plan demo_proxy demo_truncate false (handleExec demo_proxy demo_truncate [])
    [] demo_session c' plan r) as (names & new & _ & _ & Hn & Hp' & Hall & Hf).
  - left. split; reflexivity.
  - exact (owned_inv _ _ (fresh_Owned _ demo_fresh)).
  - reflexivity.
  - exact Hp.
  - exact Hc.
  - exists c', names, new. split_and!; [exact Hc | exact Hn | exact Hp' | |].
    + apply (Hall (fun H => H) "node3" _ Hsql). discriminate.
    + eapply Forall_impl; [exact Hf|]. by intros b [Ho _].
Defined.

(** ** What fails *)

(** A transaction that must stay on one node reaches another one through a
    statement that is not planned, and no error is reported. *)
Example transaction_reaches_two_nodes :
  let c := session (demo_after [query "begin"; query "delete from t where id = 5"; query "delete from u"]) in
  txConns c = {["node2" := 1%nat; "node3" := 0%nat]} /\
  bc_log <$> c_conns c =
    [[Query "begin"; Query "delete from t_0002 where id = 5"]; [Query "begin"; Query "delete from u"]] /\
  c_sent c = [ROk 3 0 0; ROk 2 1 7; ROk 2 1 7].
Proof. vm_compute. split; [reflexivity|]. split; reflexivity. Qed.

(** The other way round, the same two statements are refused. *)
Example transaction_refused_the_other_way :
  (dispatch demo_proxy (query "delete from t where id = 5") (demo_after [query "begin"; query "delete from u"])).2 =
    Err ErrTransInMulti.
Proof. vm_compute. reflexivity. Qed.

(** SET NAMES with COLLATE stores a character set it never looked up; every
    statement after it fails, and leaks the connection it took. *)
Example stored_charset_leaks :
  let c := demo_after [query "set names 'gbk2' collate 'utf8_bin'"] in
  let c' := session (demo_after [query "set names 'gbk2' collate 'utf8_bin'"; query "truncate t"]) in
  c_charset (session c) = "gbk2" /\ c_sent (session c) = [ROk 2 0 0] /\
  is_ok (dispatch demo_proxy (query "truncate t") c).2 = false /\
  txConns c' = ∅ /\ bc_open <$> c_conns c' = [true].
Proof. vm_compute. repeat (split; [reflexivity|]). reflexivity. Qed.

(** A rule may list a node twice: of the two connections a statement takes
    for it, one never goes back. *)
Definition twice : ShardConfig :=
  mkShardConfig "kingshard" "t" "ID" ["node2"; "node2"] [2; 1] HashRuleType 0 [].
Example node_listed_twice_leaks :
  exists r, NewRouter (mkSchemaConfig "kingshard" ["node2"; "node3"] "node2" [twice]) = Ok r /\
    let c := session (dispatch demo_proxy (query "truncate t") (set_session (set_router r demo_session) demo_client)).1 in
    bc_open <$> c_conns c = [true; false].
Proof. eexists. split; [reflexivity|]. vm_compute. reflexivity. Qed.

(** A prepared statement on a table with a rule runs as it is on the default
    node, and only there. *)
Definition prepare_packet : bytes := COM_STMT_PREPARE :: bytes_of "delete from t where id = 5".
(* statement 0, no cursor, one iteration, no NULLs, types follow: two TINY, 1 and 2 *)
Definition execute_packet : bytes := [COM_STMT_EXECUTE; 0; 0; 0; 0; 0; 1; 0; 0; 0; 0; 1; 1; 0; 1; 0; 1; 2].
Example prepared_statements_unsharded :
  bc_log <$> c_conns (session (demo_after [prepare_packet; execute_packet])) =
    [[Prepare "delete from t where id = 5"; ClosePrepare 1];
     [Prepared "delete from t where id = 5" [VInt W8 1; VInt W8 2]]] /\
  bc_node <$> c_conns (session (demo_after [prepare_packet; execute_packet])) = ["node2"; "node2"].
Proof. vm_compute. split; reflexivity. Qed.

(** Executing it again without sending the types again, as a client may,
    panics, and the client is disconnected. *)
Definition execute_again : bytes := [COM_STMT_EXECUTE; 0; 0; 0; 0; 0; 1; 0; 0; 0; 0; 0; 3; 4].
Example second_execution_panics :
  (dispatch demo_proxy execute_again (demo_after [prepare_packet; execute_packet])).2 =
    Panic (PRuntime "index out of range").
Proof. vm_compute. reflexivity. Qed.

(** An argument sent with COM_STMT_SEND_LONG_DATA is not in the packet that
    executes the statement, but is looked for there. *)
Definition long_data : bytes := [COM_STMT_SEND_LONG_DATA; 0; 0; 0; 0; 1; 0; 97; 98; 99].
(* types: TINY and BLOB, and the value of the first *)
Definition execute_long : bytes := [COM_STMT_EXECUTE; 0; 0; 0; 0; 0; 1; 0; 0; 0; 0; 1; 1; 0; 252; 0; 1].
Example long_data_refused :
  (dispatch demo_proxy execute_long (demo_after [prepare_packet; long_data])).2 = Err MyErrMalformPacket.
Proof. vm_compute. reflexivity. Qed.
