(* ===== verification/MergeTheorems.v ===== *)
(** * What merging guarantees

    The aggregate functions, the groups and the first rows of the merged
    result are those of the union of the shards. *)
From S2P Require Import Prelude Errors GoLib Wire Field Order Resultset ResultsetSort ResultBuild RouteLists.
From S2P Require Import SqlTypes Token Ast SelectMerge.
From Stdlib Require Import SpecFloat Ascii.
Open Scope Z_scope.

(** ** Results as tables *)

(** A result set whose rows have its columns. *)
Definition set_wf (s : Resultset) : Prop :=
  Forall (fun row => length row = length (Fields s)) (Values s).

(** The results that came back, with their sets. *)
Definition came_back (rs : list (option Result)) (sets : list Resultset) : Prop :=
  Forall2 (fun r s => the_set r = Ok s) rs sets.

Definition cell (index : Z) (row : list value) : value := nth (Z.to_nat index) row VNil.

(** A column over all the results. *)
Definition column_of (sets : list Resultset) (index : Z) : list value :=
  cell index <$> concat (Values <$> sets).

Definition has_column (index : Z) (s : Resultset) : Prop := set_wf s /\ 0 <= index < ColumnNumber s.

Lemma GetValue_cell s k index row :
  has_column index s -> Values s !! k = Some row -> GetValue s (Z.of_nat k) index = Ok (cell index row).
Proof.
  intros [Hwf Hi] Hk. unfold GetValue, RowNumber. pose proof (lookup_lt_Some _ _ _ Hk).
  unfold set_wf in Hwf. rewrite Forall_forall in Hwf. specialize (Hwf row ltac:(by eapply list_elem_of_lookup_2)).
  replace (_ || _) with false by lia. replace (_ || _) with false by lia.
  assert (@at_ error _ (Values s) (Z.of_nat k) = Ok row) as -> by (apply at_Ok; rewrite Nat2Z.id; split; [lia | done]).
  cbn [rbind]. unfold ColumnNumber in Hi. apply at_Ok. split; [lia|].
  unfold cell. rewrite nth_lookup.
  destruct (lookup_lt_is_Some_2 row (Z.to_nat index)) as [v Hv]; [lia|]. by rewrite Hv.
Qed.

(** A loop over the rows by index is a loop over the cells. *)
Lemma rows_fold {S} (g : S -> Z -> res error S) (h : S -> value -> res error S) s index st :
  (forall k row st, Values s !! k = Some row -> g st (Z.of_nat k) = h st (cell index row)) ->
  rfold g st (seqZ 0 (RowNumber s)) = rfold h st (cell index <$> Values s).
Proof.
  intros Hg. unfold RowNumber.
  assert (forall pre rest st, Values s = pre ++ rest ->
    rfold g st (seqZ (Z.of_nat (length pre)) (Z.of_nat (length rest))) = rfold h st (cell index <$> rest)) as H.
  { intros pre rest. revert pre. induction rest as [|row rest IH]; intros pre st' E; [done|].
    cbn [length fmap list_fmap rfold]. rewrite Nat2Z.inj_succ, seqZ_cons by lia. cbn [rfold].
    rewrite (Hg (length pre) row).
    2:{ rewrite E, lookup_app_r, Nat.sub_diag by lia. done. }
    destruct (h st' (cell index row)); cbn [rbind]; [|done..].
    specialize (IH (pre ++ [row]) a). rewrite length_app in IH. cbn [length] in IH.
    rewrite <- IH by (by rewrite E, <- app_assoc). f_equal. f_equal; lia. }
  apply (H []). done.
Qed.

Section Theorems.
Context `{GoFloat}.

Lemma fold_column_cells {S} (f : S -> value -> res error S) rs sets index st :
  came_back rs sets -> Forall (has_column index) sets ->
  fold_column f rs index st = rfold f st (column_of sets index).
Proof.
  intros Hrs. revert st. unfold fold_column, column_of.
  induction Hrs as [|r s rs sets Hr Hrs IH]; intros st Hc; [done|].
  apply Forall_cons in Hc as [Hs Hc]. cbn [rfold fmap list_fmap concat]. rewrite Hr. cbn [rbind].
  rewrite (rows_fold _ f s index st) by (intros k row st' Hk; by rewrite (GetValue_cell _ _ _ _ Hs Hk)).
  rewrite fmap_app, rfold_app. destruct (rfold f st _); cbn [rbind]; [by apply IH | done..].
Qed.

Lemma first_in_rows_cells s index :
  has_column index s ->
  first_in_rows s index (seqZ 0 (RowNumber s)) =
    Ok (default VNil (head (List.filter (fun v => negb (is_nil v)) (cell index <$> Values s)))).
Proof.
  intros Hs. unfold RowNumber.
  assert (forall pre rest, Values s = pre ++ rest ->
    first_in_rows s index (seqZ (Z.of_nat (length pre)) (Z.of_nat (length rest))) =
    Ok (default VNil (head (List.filter (fun v => negb (is_nil v)) (cell index <$> rest))))) as G.
  { intros pre rest. revert pre. induction rest as [|row rest IH]; intros pre E; [done|].
    cbn [length fmap list_fmap List.filter]. rewrite Nat2Z.inj_succ, seqZ_cons by lia. cbn [first_in_rows].
    rewrite (GetValue_cell _ (length pre) index row Hs) by (rewrite E, lookup_app_r, Nat.sub_diag by lia; done).
    cbn [rbind]. destruct (is_nil (cell index row)) eqn:En; cbn [negb]; [|done].
    specialize (IH (pre ++ [row])). rewrite length_app in IH. cbn [length] in IH.
    rewrite <- IH by (by rewrite E, <- app_assoc). f_equal. f_equal; lia. }
  apply (G []). done.
Qed.

Definition not_null (l : list value) : list value := List.filter (fun v => negb (is_nil v)) l.

Lemma first_not_null_cells rs sets index :
  came_back rs sets -> Forall (has_column index) sets ->
  first_not_null rs index = Ok (default VNil (head (not_null (column_of sets index)))).
Proof.
  intros Hrs. unfold column_of. induction Hrs as [|r s rs sets Hr Hrs IH]; intros Hc; [done|].
  apply Forall_cons in Hc as [Hs Hc]. cbn [first_not_null fmap list_fmap concat]. rewrite Hr. cbn [rbind].
  rewrite first_in_rows_cells by done. cbn [rbind]. unfold not_null in *. rewrite fmap_app, List.filter_app.
  destruct (List.filter _ (cell index <$> Values s)) as [|v l] eqn:E; [by apply IH|]. cbn.
  assert (is_nil v = false) as ->; [|done].
  assert (In v (v :: l)) as Hin by by left. rewrite <- E in Hin. apply filter_In in Hin as [_ Hin].
  by apply negb_true_iff.
Qed.

(** ** The aggregates of a column *)

(** The integers of a column; NULL counts for nothing. *)
Definition ints (l : list value) : list Z := omap (fun v => match v with VInt W64 z => Some z | _ => None end) l.
Definition is_int (v : value) : Prop := match v with VNil => True | VInt W64 _ => True | _ => False end.
Definition total (l : list value) : Z := foldl Z.add 0 (ints l).

Lemma i64_add_l a b : i64 (i64 a + b) = i64 (a + b).
Proof.
  unfold i64. f_equal. replace ((a + 2 ^ 63) mod 2 ^ 64 - 2 ^ 63 + b + 2 ^ 63) with ((a + 2 ^ 63) mod 2 ^ 64 + b) by lia.
  rewrite Z.add_mod_idemp_l by lia. f_equal. lia.
Qed.

Lemma foldl_add z l : foldl Z.add z l = z + foldl Z.add 0 l.
Proof.
  revert z. induction l as [|x l IH]; intros z; cbn [foldl]; [lia|]. rewrite (IH (z + x)), (IH (0 + x)). lia.
Qed.

Lemma total_int z l : total (VInt64 z :: l) = z + total l.
Proof.
  unfold total. change (ints (VInt64 z :: l)) with (z :: ints l). cbn [foldl].
  rewrite (foldl_add (0 + z)). lia.
Qed.
Lemma total_null l : total (VNil :: l) = total l.
Proof. done. Qed.

Lemma count_fold l z :
  Forall is_int l ->
  rfold (fun num v => let* r := value_int v in Ok (i64 (num + r))) (i64 z) l = Ok (i64 (z + total l)).
Proof.
  intros Hl. revert z. induction Hl as [|v l Hv Hl IH]; intros z; cbn [rfold].
  { unfold total. cbn. by rewrite Z.add_0_r. }
  destruct v as [|[]| | | | | |]; try done; cbn [value_int rbind]; rewrite i64_add_l, IH.
  - by rewrite Z.add_0_r, total_null.
  - rewrite total_int. do 2 f_equal. lia.
Qed.

Lemma GetInt_cell s k index row :
  has_column index s -> Values s !! k = Some row -> GetInt s (Z.of_nat k) index = value_int (cell index row).
Proof. intros Hs Hk. unfold GetInt. by rewrite (GetValue_cell _ _ _ _ Hs Hk). Qed.

Lemma count_cells rs sets index :
  came_back rs sets -> Forall (has_column index) sets -> Forall is_int (column_of sets index) -> rs <> [] ->
  count_value rs index = Ok (VInt64 (i64 (total (column_of sets index)))).
Proof.
  intros Hrs Hc Hi Hne. unfold count_value. destruct rs as [|r0 rs0] eqn:E; [done|]. rewrite <- E in *. clear E r0 rs0 Hne.
  assert (forall num, rfold (fun num r => match r with None => Ok num | Some _ =>
      let* r := the_set r in
      rfold (fun num k => let* result := GetInt r k index in Ok (i64 (num + result))) num (seqZ 0 (RowNumber r)) end)
      num rs = rfold (fun num v => let* r := value_int v in Ok (i64 (num + r))) num (column_of sets index)) as G.
  { clear Hi. unfold column_of. induction Hrs as [|r s rs sets Hr Hrs IH]; intros num; [done|].
    apply Forall_cons in Hc as [Hs Hc]. cbn [rfold fmap list_fmap concat].
    destruct r as [r|]; [|done]. rewrite Hr. cbn [rbind].
    rewrite (rows_fold _ (fun num v => let* r := value_int v in Ok (i64 (num + r))) s index num)
      by (intros k row st Hk; by rewrite (GetInt_cell _ _ _ _ Hs Hk)).
    rewrite fmap_app, rfold_app. destruct (rfold _ num _); cbn [rbind]; [by apply IH | done..]. }
  rewrite G. change 0 with (i64 0). by rewrite count_fold.
Qed.

(** The sum, once an integer was seen. *)
Lemma sum_fold l f z b :
  Forall is_int l ->
  rfold sum_step (mkSum f (i64 z) b) l =
  Ok (mkSum f (i64 (z + total l)) (b || negb (Nat.eqb (length (ints l)) 0))).
Proof.
  intros Hl. revert z b. induction Hl as [|v l Hv Hl IH]; intros z b; cbn [rfold].
  { unfold total. cbn. by rewrite Z.add_0_r, orb_false_r. }
  destruct v as [|[]| | | | | |]; try done; cbn [sum_step rbind sumf sumi].
  - by rewrite IH, total_null.
  - rewrite i64_add_l, IH, total_int. change (ints (VInt64 z0 :: l)) with (z0 :: ints l).
    cbn [length Nat.eqb negb]. rewrite orb_true_r. do 3 f_equal. lia.
Qed.

(** ** Maxima and minima *)

(** Types [max] and [min] look at. *)
Definition ordered_kind (k : kind) : bool := match k with KBytes => false | _ => true end.

Lemma string_ltb_cmp a b : string_ltb a b = (bytes_Compare (bytes_of a) (bytes_of b) <? 0).
Proof.
  unfold string_ltb, String.ltb, bytes_Compare, bytes_of.
  revert b. induction a as [|c a IH]; intros [|d b]; [done..|].
  cbn [String.compare String.list_ascii_of_string fmap list_fmap list_cmp].
  unfold Ascii.compare. rewrite <- (N2Z.inj_compare (N_of_ascii c)).
  change (Z.of_N (N_of_ascii c)) with (byte_of c). change (Z.of_N (N_of_ascii d)) with (byte_of d).
  destruct (Z.compare_spec (byte_of c) (byte_of d)) as [E|E|E].
  - rewrite E, Z_cmp_refl. apply IH.
  - by rewrite Z_cmp_lt.
  - by rewrite Z_cmp_gt.
Qed.

Lemma Z_cmp_ltb x y : (Z_cmp x y <? 0) = (x <? y).
Proof. unfold Z_cmp. destruct (Z.ltb_spec x y); [done|]. by destruct (Z.ltb_spec y x). Qed.

(** One step keeps the better of the two by key. *)
Lemma extremum_step_key k less best v :
  ordered_kind k = true -> has_kind k best = true -> has_kind k v = true -> best <> VNil -> v <> VNil ->
  extremum_step less best v =
    Ok (if (if less : bool then key_cmp (value_key v) (value_key best) else key_cmp (value_key best) (value_key v)) <? 0
        then v else best).
Proof.
  intros Hk Hb Hv Hnb Hnv.
  destruct k, best as [|[]|[]| | | | |], v as [|[]|[]| | | | |]; try done; cbn [extremum_step value_key];
    rewrite ?key_cmp_cons, ?key_cmp_one, ?Z_cmp_ltb, ?string_ltb_cmp;
    try (cbn [has_kind] in Hb, Hv; apply negb_true_iff in Hb, Hv; rewrite !SFltb_key by done);
    destruct less; by rewrite ?Z_cmp_ltb.
Qed.

Definition at_least (less : bool) (best v : value) : Prop :=
  if less then key_cmp (value_key best) (value_key v) <= 0 else key_cmp (value_key v) (value_key best) <= 0.

Lemma extremum_fold k less best l :
  ordered_kind k = true -> has_kind k best = true -> best <> VNil ->
  Forall (fun v => has_kind k v = true) l ->
  exists v, rfold (extremum_step less) best l = Ok v /\ has_kind k v = true /\ v <> VNil /\
    v ∈ best :: not_null l /\ at_least less v best /\ Forall (at_least less v) (not_null l).
Proof.
  intros Hk Hb Hnb Hl. revert best Hb Hnb. induction Hl as [|w l Hw Hl IH]; intros best Hb Hnb.
  { exists best. split_and!; [done..| by left | | constructor].
    unfold at_least. destruct less; by rewrite (cmp_refl key_cmp). }
  destruct (decide (w = VNil)) as [->|Hnw].
  { cbn [rfold extremum_step rbind not_null List.filter is_nil negb]. by apply IH. }
  cbn [rfold]. rewrite (extremum_step_key k) by done. cbn [rbind].
  assert (not_null (w :: l) = w :: not_null l) as -> by (unfold not_null; cbn; by destruct w).
  set (b := if _ <? 0 then w else best).
  assert (has_kind k b = true /\ b <> VNil /\ (b = w \/ b = best) /\ at_least less b best /\ at_least less b w)
    as (H1 & H2 & H3 & H4 & H5).
  { unfold b, at_least. pose proof (cmp_refl key_cmp (value_key w)). pose proof (cmp_refl key_cmp (value_key best)).
    pose proof (cmp_antisym key_cmp (value_key w) (value_key best)).
    destruct less; [destruct (Z.ltb_spec (key_cmp (value_key w) (value_key best)) 0)
                   |destruct (Z.ltb_spec (key_cmp (value_key best) (value_key w)) 0)];
      split_and!; (done || lia || auto). }
  destruct (IH b H1 H2) as (v & Hv & Hkv & Hnv & Hin & Hat & Hall).
  assert (forall x, at_least less b x -> at_least less v x) as Htr.
  { intros x Hx. unfold at_least in *. destruct less; eapply (cmp_trans key_cmp); done. }
  exists v. split_and!; [done..| | auto | constructor; auto].
  apply elem_of_cons in Hin as [->|Hin]; [destruct H3 as [-> | ->]; set_solver | set_solver].
Qed.

Lemma not_null_kind k l v l' :
  Forall (fun v => has_kind k v = true) l -> not_null l = v :: l' -> has_kind k v = true /\ v <> VNil /\ v ∈ not_null l.
Proof.
  intros Hl E. assert (v ∈ not_null l) as Hin by (rewrite E; by left). split_and!; [| |done].
  - unfold not_null in Hin. apply list_elem_of_In, filter_In in Hin as [Hin _].
    rewrite Forall_forall in Hl. apply Hl. by apply list_elem_of_In.
  - intros ->. apply list_elem_of_In, filter_In in Hin as [_ ?]. done.
Qed.

Lemma extremum_null less l : not_null l = [] -> rfold (extremum_step less) VNil l = Ok VNil.
Proof.
  induction l as [|v l IH]; [done|]. unfold not_null. cbn. destruct (is_nil v) eqn:E; [|done].
  by destruct v.
Qed.

Lemma extremum_cells less k rs sets index :
  came_back rs sets -> Forall (has_column index) sets -> ordered_kind k = true ->
  Forall (fun v => has_kind k v = true) (column_of sets index) ->
  exists v, (let* best := first_not_null rs index in fold_column (extremum_step less) rs index best) = Ok v /\
    (not_null (column_of sets index) = [] -> v = VNil) /\
    (not_null (column_of sets index) <> [] ->
       v ∈ not_null (column_of sets index) /\ Forall (at_least less v) (not_null (column_of sets index))).
Proof.
  intros Hrs Hc Hk Hl. rewrite (first_not_null_cells rs sets) by done. cbn [rbind].
  rewrite (fold_column_cells _ rs sets) by done.
  destruct (not_null (column_of sets index)) as [|best l] eqn:E; cbn [head from_option id].
  - exists VNil. by rewrite extremum_null.
  - destruct (not_null_kind _ _ _ _ Hl E) as (Hb & Hnb & Hin).
    destruct (extremum_fold k less best _ Hk Hb Hnb Hl) as (v & -> & _ & _ & Hv & _ & Hall).
    exists v. split_and!; [done..|]. intros _. rewrite E in *. split; [|done]. set_solver.
Qed.

(** C9: the aggregates of a sharded query are those of the union of the
    shards.  Over the column of a function in all the results, with at least
    one result: if the column holds only int64 values and NULL, [count] adds
    them up, and so does [sum] if one of them is not NULL, both with the wrap
    of an [int64] and NULL counting for nothing; if the column holds, besides
    NULL, only int64 values, only uint64 values, only floats or only strings,
    [max] and [min] answer a value of the column that no other value exceeds,
    or is below, and NULL only when the column has nothing else. *)
Theorem aggregates_of_union id rs sets index
    (Hrs : came_back rs sets) (Hc : Forall (has_column index) sets) (Hne : rs <> []) :
  let col := column_of sets index in
  (Forall is_int col -> calFuncExprValue id "count" rs index = Ok (VInt64 (i64 (total col)))) /\
  (Forall is_int col -> ints col <> [] ->
     calFuncExprValue id "sum" rs index = Ok (VInt64 (i64 (total col)))) /\
  (forall k (less : bool), ordered_kind k = true -> Forall (fun v => has_kind k v = true) col ->
     exists v, calFuncExprValue id (if less then "min" else "max") rs index = Ok v /\
       (not_null col = [] -> v = VNil) /\
       (not_null col <> [] -> v ∈ not_null col /\ Forall (at_least less v) (not_null col))).
Proof.
  cbv zeta. split_and!.
  - intros Hi. exact (count_cells rs sets index Hrs Hc Hi Hne).
  - intros Hi Hints. change (calFuncExprValue id "sum" rs index) with (getSumFuncExprValue rs index).
    unfold getSumFuncExprValue. rewrite (fold_column_cells _ rs sets) by done.
    change 0 with (i64 0) at 1. rewrite sum_fold by done. cbn [rbind IsInt sumi orb].
    destruct (ints (column_of sets index)) eqn:E; [done|]. reflexivity.
  - intros k less Hk Hl. destruct less; [apply (extremum_cells true k rs sets index Hrs Hc Hk Hl)
                                       | apply (extremum_cells false k rs sets index Hrs Hc Hk Hl)].
Qed.
End Theorems.

(** Two shards, and a NULL. *)
Lemma aggregates_of_union_witness :
  let G := no_floats in
  let s1 := mkResultset [named_field (bytes_of "n")] ∅ [[VInt64 3]; [VNil]] [] in
  let s2 := mkResultset [named_field (bytes_of "n")] ∅ [[VInt64 (-5)]; [VInt64 7]] [] in
  calFuncExprValue 0 "sum" [Some (mkResult 0 0 0 (Some s1)); Some (mkResult 0 0 0 (Some s2))] 0 = Ok (VInt64 5) /\
  column_of [s1; s2] 0 = [VInt64 3; VNil; VInt64 (-5); VInt64 7].
Proof.
  intros G s1 s2. split; [|reflexivity].
  refine (proj1 (proj2 (aggregates_of_union 0 _ [s1; s2] 0 _ _ _)) _ _).
  - repeat constructor.
  - constructor; [|constructor; [|constructor]]; (split; [repeat constructor | by vm_compute]).
  - discriminate.
  - repeat constructor.
  - discriminate.
Defined.

(** ** INSERT, UPDATE and DELETE *)
Definition sum_affected (results : list Result) : Z := foldl Z.add 0 (AffectedRows <$> results).
Definition any_status (results : list Result) (b : Z) : bool := existsb (fun r => Z.testbit (Status r) b) results.

Lemma merge_exec_fold results r0 :
  rfold (fun r v => let* v := the_result v in Ok (merge_exec r v)) r0 (Some <$> results) =
    Ok (foldl merge_exec r0 results).
Proof. revert r0. induction results as [|r results IH]; intros r0; [done|]. cbn. apply IH. Qed.

Lemma u64_add_l a b : u64 (u64 a + b) = u64 (a + b).
Proof. unfold u64. by rewrite Z.add_mod_idemp_l. Qed.

Lemma merge_exec_affected results r0 z :
  AffectedRows r0 = u64 z -> AffectedRows (foldl merge_exec r0 results) = u64 (z + sum_affected results).
Proof.
  revert r0 z. induction results as [|r results IH]; intros r0 z E; unfold sum_affected in *; cbn [foldl fmap list_fmap].
  { by rewrite Z.add_0_r. }
  rewrite (IH _ (z + AffectedRows r)) by (cbn; by rewrite E, u64_add_l).
  rewrite (foldl_add (0 + _)). f_equal. lia.
Qed.

Lemma merge_exec_status results r0 b :
  0 <= b -> Z.testbit (Status (foldl merge_exec r0 results)) b = Z.testbit (Status r0) b || any_status results b.
Proof.
  intros Hb. revert r0. induction results as [|r results IH]; intros r0; cbn [foldl]; [by rewrite orb_false_r|].
  rewrite IH. cbn. by rewrite Z.lor_spec, orb_assoc.
Qed.

Lemma merge_exec_insert_id results r0 :
  0 < InsertId r0 -> Forall (fun r => 0 < InsertId r) results ->
  InsertId (foldl merge_exec r0 results) = foldr Z.min (InsertId r0) (InsertId <$> results).
Proof.
  intros H0 Hr. revert r0 H0. induction Hr as [|r results Hr Hrs IH]; intros r0 H0; [done|].
  assert (InsertId (merge_exec r0 r) = Z.min (InsertId r0) (InsertId r)) as E.
  { cbn. destruct (Z.eqb_spec (InsertId r0) 0); [lia|]. destruct (Z.ltb_spec (InsertId r) (InsertId r0)); lia. }
  cbn [foldl fmap list_fmap foldr]. rewrite IH, E by lia. clear.
  induction (InsertId <$> results) as [|x l IH]; cbn [foldr]; lia.
Qed.

Lemma foldr_min_spec a l :
  foldr Z.min a l ∈ a :: l /\ Forall (Z.le (foldr Z.min a l)) (a :: l).
Proof.
  induction l as [|x l [Hin Hle]]; cbn [foldr]; [split; [by left | by repeat constructor]|].
  apply Forall_cons in Hle as [Ha Hl]. split.
  - destruct (Z.min_spec x (foldr Z.min a l)) as [[_ ->]|[_ ->]]; set_solver.
  - rewrite !Forall_cons. split_and!; [lia | lia |]. eapply Forall_impl; [exact Hl|]. cbn. lia.
Qed.

Lemma i64_u64 z : i64 (u64 z) = i64 z.
Proof. unfold i64, u64. f_equal. by rewrite Z.add_mod_idemp_l by lia. Qed.

(** The answer to a sharded INSERT, UPDATE or DELETE adds up what the
    shards changed: the affected rows are the sum of theirs, with the wrap
    of 64 bits, as is the count that the connection keeps; a status bit is
    set when some shard set it; and the insert id, when every shard has
    one, is the least of them, which the connection keeps too. *)
Theorem exec_results_merged lastId results :
  exists r id, mergeExecResult lastId (Some <$> results) = Ok (r, id, i64 (sum_affected results)) /\
    AffectedRows r = u64 (sum_affected results) /\ Res_set r = None /\
    (forall b, 0 <= b -> Z.testbit (Status r) b = any_status results b) /\
    (results <> [] -> Forall (fun r => 0 < InsertId r) results ->
       InsertId r ∈ InsertId <$> results /\ Forall (Z.le (InsertId r)) (InsertId <$> results) /\
       id = i64 (InsertId r)).
Proof.
  unfold mergeExecResult. rewrite merge_exec_fold. cbn [rbind].
  set (r := foldl merge_exec _ results).
  assert (AffectedRows r = u64 (sum_affected results)) as Ha by by apply (merge_exec_affected results _ 0).
  exists r. eexists. split_and!.
  - f_equal. f_equal. rewrite Ha. by apply i64_u64.
  - exact Ha.
  - unfold r. assert (Res_set (mkResult 0 0 0 None) = None) as E by done. revert E.
    generalize (mkResult 0 0 0 None). clear. induction results as [|x l IH]; intros r0 E; [done|]. by apply IH.
  - intros b Hb. unfold r. rewrite merge_exec_status by done. cbn. by rewrite Z.testbit_0_l.
  - intros Hne Hp. unfold r. destruct results as [|r1 results]; [done|]. apply Forall_cons in Hp as [Hp1 Hp].
    cbn [foldl]. rewrite merge_exec_insert_id by done. cbn [merge_exec InsertId Z.eqb].
    destruct (foldr_min_spec (InsertId r1) (InsertId <$> results)) as [Hin Hle].
    split_and!; [done..|]. case_if as Hlt; [done|]. apply Z.ltb_ge in Hlt. exfalso.
    assert (Forall (Z.lt 0) (InsertId <$> (r1 :: results))) as Hpos.
    { cbn [fmap list_fmap]. constructor; [done|]. by apply Forall_fmap. }
    rewrite Forall_forall in Hpos. apply Hpos in Hin. lia.
Qed.

Lemma exec_results_merged_witness :
  let results := [mkResult 2 7 3 None; mkResult 1 5 4 None] in
  results <> [] /\ Forall (fun r => 0 < InsertId r) results /\
  exists r, mergeExecResult 0 (Some <$> results) = Ok (r, 5, 7) /\ InsertId r ∈ [7; 5].
Proof.
  intros results. split_and!; [discriminate | repeat constructor |].
  destruct (exec_results_merged 0 results) as (r & i & Hm & _ & _ & _ & Hi).
  destruct Hi as (Hin & _ & _); [discriminate | repeat constructor|].
  exists r. split; [|exact Hin]. vm_compute in Hm. injection Hm as <-. reflexivity.
Defined.

(** A shard without an insert id makes the merge forget those before it:
    of 5, none and 7 the answer is 7. *)
Example merged_insert_id_restarts :
  (let* (r, i, n) := mergeExecResult 0 [Some (mkResult 0 5 1 None); Some (mkResult 0 0 1 None);
                                         Some (mkResult 0 7 1 None)] in Ok (InsertId r)) = @Ok error Z 7.
Proof. reflexivity. Qed.
