(* ===== verification/LimitTheorems.v ===== *)
(** * ORDER BY and LIMIT over shards

    Every table is asked for its first [offset + count] rows in the
    statement's order; sorting what comes back and cutting it gives the rows
    the whole table would have given. *)
From S2P Require Import Prelude Errors GoLib Wire Field Order Resultset ResultsetSort ResultBuild RouteLists.
From S2P Require Import SqlTypes Token Ast SelectMerge.
From Stdlib Require Import Ascii.
Open Scope Z_scope.

(** ** The sort keys of a row, each with its direction *)
Abbreviation sort_key := (bool * list Z)%type.

Definition sort_key_cmp (a b : sort_key) : Z :=
  match a.1, b.1 with
  | true, true => - key_cmp a.2 b.2
  | false, false => key_cmp a.2 b.2
  | true, false => 1
  | false, true => -1
  end.

#[export] Instance sort_key_TotalCmp : TotalCmp sort_key_cmp.
Proof.
  unfold sort_key_cmp. split.
  - intros [[] a] [[] b]; cbn; rewrite ?(cmp_antisym key_cmp a b); done.
  - intros [[] a] [[] b] [[] c]; cbn; try lia.
    + pose proof (cmp_antisym key_cmp a b). pose proof (cmp_antisym key_cmp b c). pose proof (cmp_antisym key_cmp a c).
      pose proof (cmp_trans key_cmp c b a). lia.
    + apply (cmp_trans key_cmp).
Qed.

Lemma sort_key_cmp_eq a b : sort_key_cmp a b = 0 -> a = b.
Proof.
  destruct a as [[] a], b as [[] b]; unfold sort_key_cmp; cbn; try done; intros E; f_equal; apply key_cmp_eq; lia.
Qed.

Definition row_keys (sk : list SortKey) (row : list value) : list sort_key :=
  (fun k => (String.eqb (Direction k) SortDesc, column_key k row)) <$> sk.

Definition keys_cmp : list sort_key -> list sort_key -> Z := list_cmp sort_key_cmp.

#[export] Instance keys_cmp_TotalCmp : TotalCmp keys_cmp.
Proof. apply list_TotalCmp, _. Qed.

Lemma keys_cmp_eq a b : keys_cmp a b = 0 -> a = b.
Proof. apply list_cmp_eq; [apply _ | apply sort_key_cmp_eq]. Qed.

Lemma row_cmp_keys sk a b : row_cmp sk a b = keys_cmp (row_keys sk a) (row_keys sk b).
Proof.
  induction sk as [|k sk IH]; [done|]. unfold keys_cmp, row_keys in *. cbn [row_cmp fmap list_fmap list_cmp].
  unfold sort_key_cmp at 2 3. cbn [fst snd]. rewrite IH. by destruct (String.eqb _ _).
Qed.

(** The sorted keys of a list of rows: what ORDER BY determines. *)
Definition ordered_keys (sk : list SortKey) (rows : list (list value)) : list (list sort_key) :=
  sorted_of keys_cmp (row_keys sk <$> rows).

Lemma sorted_rows_keys sk rows rows' :
  rows' ≡ₚ rows -> StronglySorted (fun x y => row_cmp sk x y <= 0) rows' ->
  row_keys sk <$> rows' = ordered_keys sk rows.
Proof.
  intros Hp Hs. apply (sorted_keys keys_cmp keys_cmp_eq (row_keys sk)); [done|].
  clear Hp. induction Hs as [|x l Hs IH Hx]; constructor; [done|].
  eapply Forall_impl; [exact Hx|]. intros y. cbn beta. by rewrite row_cmp_keys.
Qed.

Lemma fmap_concat {A B} (f : A -> B) (l : list (list A)) :
  f <$> concat l = concat ((fun x : list A => f <$> x) <$> l).
Proof. induction l as [|x l IH]; [done|]. cbn [concat fmap list_fmap]. by rewrite fmap_app, IH. Qed.

Section Theorems.
Context `{GoFloat} `{GoSort} `{MapOrder} `{StrMapOrder}.

(** A shard's answer to [order by ... limit n]: the first [n] of its rows,
    in order. *)
Definition answers (sk : list SortKey) (n : nat) (rows answer : list (list value)) : Prop :=
  exists sorted, sorted ≡ₚ rows /\ StronglySorted (fun x y => row_cmp sk x y <= 0) sorted /\
    answer = take n sorted.

Lemma answers_topk sk n rows answer :
  answers sk n rows answer -> row_keys sk <$> answer = topk keys_cmp n (row_keys sk <$> rows).
Proof using Type.
  intros (sorted & Hp & Hs & ->). unfold topk. rewrite fmap_take. f_equal. by apply sorted_rows_keys.
Qed.

(** The concatenation of the answers has the first rows of the whole. *)
Lemma answers_concat sk n tables replies :
  Forall2 (answers sk n) tables replies ->
  take n (ordered_keys sk (concat replies)) = take n (ordered_keys sk (concat tables)).
Proof using Type.
  intros Ha. change (topk keys_cmp n (row_keys sk <$> concat replies) = topk keys_cmp n (row_keys sk <$> concat tables)).
  rewrite !fmap_concat. rewrite <- (topk_concat keys_cmp keys_cmp_eq n (fmap (row_keys sk) <$> tables)).
  do 2 f_equal. induction Ha as [|rows answer tables replies Hra _ IH]; [done|].
  cbn [fmap list_fmap]. f_equal; [by apply answers_topk | exact IH].
Qed.

(** ** The merge without aggregates *)
Lemma append_rows_inv r s r' :
  append_rows r s = Ok r' ->
  Fields r' = Fields r /\ FieldNames r' = FieldNames r /\ Values r' = Values r ++ Values s /\
  (length (Values r) = length (RowDatas r) -> length (Values r') = length (RowDatas r')).
Proof using Type.
  unfold append_rows. destruct (Nat.leb_spec (length (Values s)) (length (RowDatas s))); [|done].
  intros [= <-]. cbn. split_and!; [done..|]. rewrite !length_app, length_take. lia.
Qed.

Lemma append_all_inv (rs : list (option Result)) sets st r st' r' :
  Forall2 (fun r s => the_set r = Ok s) rs sets ->
  rfold (fun '(st, r) ri =>
           let* res := the_result ri in let* s := the_set ri in
           let* r := append_rows r s in Ok (Z.lor st (Status res), r)) (st, r) rs = Ok (st', r') ->
  Fields r' = Fields r /\ FieldNames r' = FieldNames r /\ Values r' = Values r ++ concat (Values <$> sets) /\
  (length (Values r) = length (RowDatas r) -> length (Values r') = length (RowDatas r')).
Proof using Type.
  intros Hrs. revert st r. induction Hrs as [|x s rs sets Hx Hrs IH]; intros st r E.
  { injection E as <- <-. cbn. by rewrite app_nil_r. }
  cbn [rfold] in E. apply rbind_Ok_inv in E as ([st1 r1] & E1 & E).
  apply rbind_Ok_inv in E1 as (res & _ & E1). rewrite Hx in E1. cbn [rbind] in E1.
  apply rbind_Ok_inv in E1 as (r2 & E2 & [= <- <-]).
  apply append_rows_inv in E2 as (Hf & Hn & Hv & Hl). apply IH in E as (Hf' & Hn' & Hv' & Hl').
  cbn [fmap list_fmap concat]. split_and!; [congruence | congruence | by rewrite Hv', Hv, <- app_assoc | auto].
Qed.

Lemma buildSelectOnlyResult_rows id status rs sets stmt st r :
  Forall2 (fun r s => the_set r = Ok s) rs sets ->
  buildSelectOnlyResult id status rs stmt = Ok (st, r) -> getFuncExprs stmt = ∅ ->
  exists s0, head sets = Some s0 /\ FieldNames r = FieldNames s0 /\
    Values r = concat (Values <$> sets) /\
    (length (Values s0) = length (RowDatas s0) -> length (Values r) = length (RowDatas r)).
Proof using Type.
  intros Hrs E Hf. unfold buildSelectOnlyResult in E. rewrite Hf, map_size_empty in E. cbn [Nat.eqb] in E.
  destruct Hrs as [|x s0 rs sets Hx Hrs]; [done|]. apply rbind_Ok_inv in E as (r0 & Hr0 & E).
  change (at_ (x :: rs) 0) with (@Ok error (option Result) x) in Hr0. cbn [rbind] in Hr0.
  apply rbind_Ok_inv in E as (s & Hs & E).
  assert (s = s0) as ->.
  { destruct x as [x|]; [|done]. cbn in Hr0. injection Hr0 as <-. rewrite Hs in Hx. by injection Hx. }
  cbn [tail] in E. apply (append_all_inv rs sets) in E as (_ & Hn & Hv & Hl); [|done].
  exists s0. by split_and!.
Qed.

Lemma buildSelectOnlyResult_ok id status rs s0 sets stmt :
  Forall2 (fun r s => the_set r = Ok s) rs (s0 :: sets) ->
  Forall (fun s => length (Values s) = length (RowDatas s)) sets -> getFuncExprs stmt = ∅ ->
  exists st r, buildSelectOnlyResult id status rs stmt = Ok (st, r).
Proof using Type.
  intros Hrs Hlen Hf. unfold buildSelectOnlyResult. rewrite Hf, map_size_empty. cbn [Nat.eqb].
  inversion Hrs as [|x ? rs' ? Hx Hrs' E1 E2]; subst. clear Hrs.
  change (at_ (x :: rs') 0) with (@Ok error (option Result) x).
  assert (forall x s, the_set x = Ok s -> exists res, x = Some res /\ the_result x = Ok res) as Hsome
    by (intros [res|] s Hs; [eauto | done]).
  destruct (Hsome _ _ Hx) as (res & -> & Hres). cbn [rbind]. rewrite Hres. cbn [rbind]. rewrite Hx. cbn [rbind tail].
  generalize (Z.lor status (Status res)) as st. generalize s0 as r. clear Hres Hx res.
  induction Hrs' as [|y s rs' sets Hy Hrs' IH]; intros r st; [by do 2 eexists|].
  apply Forall_cons in Hlen as [Hs Hlen]. destruct (Hsome _ _ Hy) as (res & -> & Hres).
  cbn [rfold]. rewrite Hres. cbn [rbind]. rewrite Hy. cbn [rbind]. unfold append_rows at 1.
  rewrite (proj2 (Nat.leb_le _ _)) by lia. cbn [rbind]. by apply IH.
Qed.

(** ** The cut *)
Lemma limit_count_nonneg limit c : limit_count limit = Ok c -> 0 <= c.
Proof using Type.
  assert (forall w e, invalid_limit w e <> Ok c) as Hbad.
  { intros w e E. unfold invalid_limit in E. by apply rbind_Ok_inv in E as (? & _ & ?). }
  destruct limit as [off cnt]. destruct cnt; cbn [limit_count]; intros Hc; try (by apply Hbad in Hc).
  apply rbind_Ok_inv in Hc as (c' & _ & Hc). destruct (Z.ltb_spec c' 0); [by apply Hbad in Hc|].
  by injection Hc as <-.
Qed.

Lemma limitSelectResult_ok r stmt limit o c :
  Sel_Limit stmt = Some limit -> limit_offset limit = Ok o -> limit_count limit = Ok c ->
  0 <= o -> o + c < 2 ^ 63 -> length (Values r) = length (RowDatas r) ->
  exists r', limitSelectResult r stmt = Ok r' /\
    Values r' = take (Z.to_nat c) (drop (Z.to_nat o) (Values r)) /\
    RowDatas r' = take (Z.to_nat c) (drop (Z.to_nat o) (RowDatas r)).
Proof using Type.
  intros Hl Ho Hc Hpos Hov Hlen. unfold limitSelectResult. rewrite Hl, Ho. cbn [rbind]. rewrite Hc. cbn [rbind].
  pose proof (limit_count_nonneg _ _ Hc) as Hc0.
  unfold RowNumber. rewrite (i64_id (o + c)) by (unfold in_i64; lia).
  destruct (Z.ltb_spec (Z.of_nat (length (Values r))) o).
  { eexists. split; [done|]. cbn. rewrite !drop_ge, !take_nil by lia. done. }
  set (c' := if _ <? o + c then _ else c).
  assert (take (Z.to_nat c) (drop (Z.to_nat o) (Values r)) = take (Z.to_nat c') (drop (Z.to_nat o) (Values r)) /\
          take (Z.to_nat c) (drop (Z.to_nat o) (RowDatas r)) = take (Z.to_nat c') (drop (Z.to_nat o) (RowDatas r)))
    as [E1 E2].
  { unfold c'. destruct (Z.ltb_spec (Z.of_nat (length (Values r))) (o + c)); [|done].
    rewrite !take_ge by (rewrite length_drop; lia). done. }
  assert (0 <= c' <= c /\ o + c' <= Z.of_nat (length (Values r))) as [Hc1 Hc2].
  { unfold c'. destruct (Z.ltb_spec (Z.of_nat (length (Values r))) (o + c)); lia. }
  rewrite i64_id by (unfold in_i64; lia). unfold slice. rewrite <- Hlen.
  replace (_ && _) with true by lia. cbn [rbind]. eexists. split; [done|]. cbn.
  rewrite E1, E2, Z.add_simpl_l. done.
Qed.

Lemma RewriteLimit_sum limit o c :
  limit_offset limit = Ok o -> limit_count limit = Ok c -> 0 <= o -> o + c < 2 ^ 63 ->
  RewriteLimit (Some limit) = Ok (Some (mkLimit None (NumVal (FormatInt (o + c))))).
Proof using Type.
  intros Ho Hc Hpos Hov. destruct limit as [off cnt].
  assert (forall w e, invalid_limit w e <> Ok c /\ invalid_limit w e <> Ok o) as Hbad.
  { intros w e. unfold invalid_limit. split; intros E; by apply rbind_Ok_inv in E as (? & _ & ?). }
  assert (match off with None => Ok 0 | Some e => limit_operand e "Limit.offset is not number" end = Ok o) as E1.
  { destruct off as [[]|]; cbn in Ho |- *; try done; exfalso; by apply (proj2 (Hbad _ _)) in Ho. }
  assert (limit_operand cnt "Limit.RowCount is not number" = Ok c /\ 0 <= c) as [E2 Hc0].
  { destruct cnt; cbn [limit_count limit_operand] in Hc |- *; try (exfalso; by apply (proj1 (Hbad _ _)) in Hc).
    apply rbind_Ok_inv in Hc as (c' & Hc' & Hc). destruct (Z.ltb_spec c' 0);
      [exfalso; by apply (proj1 (Hbad _ _)) in Hc|]. injection Hc as <-. done. }
  unfold RewriteLimit. rewrite E1. cbn [rbind]. rewrite E2. cbn [rbind].
  by rewrite i64_id by (unfold in_i64; lia).
Qed.

(** C11: the distributed ORDER BY ... LIMIT is right.  Take a select without
    aggregate functions and without GROUP BY, whose ORDER BY keys are all
    among the columns of the result, with an offset that is not negative and
    an [offset + count] that an int64 holds, and let the rows have values of
    one kind in each column.  Let every table
    answer the statement with the limit that the router puts in it,
    [offset + count] rows from the start, in the statement's order.  Then
    merging succeeds, and the sort keys of its rows are those at
    [offset .. offset + count] of all the rows of all the tables in order:
    no table needs to send more. *)
Theorem limit_pushdown id status rs s0 sets tables kinds stmt limit names sk o c
    (Hrs : Forall2 (fun r s => the_set r = Ok s) rs (s0 :: sets))
    (Hf : getFuncExprs stmt = ∅) (Hg : Sel_GroupBy stmt = []) (Hob : Sel_OrderBy stmt <> [])
    (Hl : Sel_Limit stmt = Some limit) (Ho : limit_offset limit = Ok o) (Hc : limit_count limit = Ok c)
    (Hpos : 0 <= o) (Hov : o + c < 2 ^ 63)
    (Hk : order_keys stmt = Ok names) (Hsk : newResultsetSorter s0 names = Ok sk)
    (Hs : Forall (sortable kinds) (s0 :: sets))
    (Ha : Forall2 (answers sk (Z.to_nat (o + c))) tables (Values <$> s0 :: sets)) :
  RewriteLimit (Sel_Limit stmt) = Ok (Some (mkLimit None (NumVal (FormatInt (o + c))))) /\
  exists st r, mergeSelectResult id status rs stmt = Ok (st, r) /\
    row_keys sk <$> Values r =
      take (Z.to_nat c) (drop (Z.to_nat o) (ordered_keys sk (concat tables))).
Proof using Type.
  split; [rewrite Hl; by apply RewriteLimit_sum|].
  assert (Forall (fun s => length (Values s) = length (RowDatas s)) sets) as Hlens.
  { apply Forall_cons in Hs as [_ Hs]. eapply Forall_impl; [exact Hs|]. by intros s (_ & _ & ?). }
  destruct (buildSelectOnlyResult_ok id status rs s0 sets stmt Hrs Hlens Hf) as (st & r & Hb).
  destruct (buildSelectOnlyResult_rows _ _ _ _ _ _ _ Hrs Hb Hf) as (s0' & [= <-] & Hn & Hv & Hlen).
  pose proof (Forall_inv Hs) as (_ & Hcols & Hl0). specialize (Hlen Hl0).
  assert (sortable kinds r) as Hsr.
  { split_and!; [|by rewrite Hn|done]. rewrite Hv. apply Forall_concat, Forall_fmap.
    eapply Forall_impl; [exact Hs|]. by intros s (? & _). }
  assert (newResultsetSorter r names = Ok sk) as Hskr by (unfold newResultsetSorter in *; by rewrite Hn).
  destruct (Sort_sortable kinds r names sk Hsr Hskr) as (r1 & Hsort & Hp & Hord & Hlen1).
  destruct (limitSelectResult_ok r1 stmt limit o c Hl Ho Hc Hpos Hov Hlen1) as (r2 & Hlim & Hv2 & _).
  exists st, r2. unfold mergeSelectResult, sortSelectResult. rewrite Hg, Hb. cbn [rbind].
  destruct (Sel_OrderBy stmt) eqn:E; [done|]. rewrite Hk. cbn [rbind]. rewrite Hsort. cbn [rbind]. rewrite Hlim.
  split; [done|]. rewrite Hv2, fmap_take, fmap_drop, take_drop_commute.
  rewrite (sorted_rows_keys sk (Values r)).
  - rewrite Hv, take_drop_commute. replace (Z.to_nat o + Z.to_nat c)%nat with (Z.to_nat (o + c)).
    + f_equal. by apply answers_concat.
    + apply limit_count_nonneg in Hc. lia.
  - apply (fmap_Permutation fst) in Hp. rewrite !fst_zip in Hp by lia. exact Hp.
  - exact Hord.
Qed.
End Theorems.

(** [order by a limit 1, 2] over two tables of which each sends three. *)
Lemma limit_pushdown_witness :
  let G := no_floats in
  let S := insertion_GoSort in
  let stmt := mkSelect [] "" [StarExpr None] [] None [] None [mkOrder (ColName (mkColName "a" None)) "asc"]
                (Some (mkLimit (Some (NumVal "1")) (NumVal "2"))) "" in
  let sk := [mkSortKey "a" "asc" 0] in
  let table l := (fun z => [VInt64 z]) <$> l in
  let set l := mkResultset [named_field (bytes_of "a")] {[ "a" := 0 ]} (table l) (replicate (length l) []) in
  exists st r,
    mergeSelectResult 0 2 [Some (mkResult 0 0 0 (Some (set [1; 4; 6]))); Some (mkResult 0 0 0 (Some (set [2; 3; 5])))]
      stmt = Ok (st, r) /\
    row_keys sk <$> Values r = [[(false, [0; 2])]; [(false, [0; 3])]].
Proof.
  intros G S stmt sk table set.
  destruct (limit_pushdown 0 2
    [Some (mkResult 0 0 0 (Some (set [1; 4; 6]))); Some (mkResult 0 0 0 (Some (set [2; 3; 5])))]
    (set [1; 4; 6]) [set [2; 3; 5]] [table [9; 4; 6; 1]; table [5; 2; 3]] [KInt]
    stmt (mkLimit (Some (NumVal "1")) (NumVal "2")) [mkSortKey "a" "asc" 0] sk 1 2)
    as (_ & st & r & Hm & Hr); try reflexivity; try discriminate; try lia.
  - repeat constructor.
  - assert (forall l, sortable [KInt] (set l)) as Hset.
    { intros l. split_and!.
      - apply Forall_fmap, Forall_true. intros z. cbn. repeat constructor.
      - intros name c. cbn. intros [_ <-]%lookup_singleton_Some. cbn. lia.
      - unfold set, table. cbn [Values RowDatas]. by rewrite length_fmap, length_replicate. }
    constructor; [apply Hset | constructor; [apply Hset | constructor]].
  - constructor; [|constructor; [|constructor]].
    + exists (table [1; 4; 6; 9]). split_and!; [| |reflexivity].
      * apply fmap_Permutation. apply (bool_decide_unpack _). vm_compute. exact I.
      * repeat constructor; discriminate.
    + exists (table [2; 3; 5]). split_and!; [| |reflexivity].
      * apply fmap_Permutation. apply (bool_decide_unpack _). vm_compute. exact I.
      * repeat constructor; discriminate.
  - exists st, r. split; [exact Hm|]. rewrite Hr. vm_compute. reflexivity.
Defined.
