(* ===== verification/GroupTheorems.v ===== *)
(** * Merging groups

    With GROUP BY the proxy merges the rows of a group one at a time into
    the first.  The result is the same as computing the functions over all
    the rows of the group at once. *)
From S2P Require Import Prelude Errors GoLib Wire Field Order Resultset ResultsetSort ResultBuild RouteLists.
From S2P Require Import SqlTypes Token Ast SelectMerge MergeTheorems.
From Stdlib Require Import SpecFloat Ascii.
Open Scope Z_scope.

(** ** The functions on integers *)
Definition agg (f : string) (zs : list Z) : Z :=
  if String.eqb f "max" then foldr Z.max (hd 0 zs) zs
  else if String.eqb f "min" then foldr Z.min (hd 0 zs) zs
  else i64 (foldl Z.add 0 zs).

Definition mergeable (f : string) : Prop := f ∈ ["count"; "sum"; "max"; "min"].

Lemma foldl_add_app a b : foldl Z.add 0 (a ++ b) = foldl Z.add 0 a + foldl Z.add 0 b.
Proof. rewrite foldl_app. apply foldl_add. Qed.

Lemma foldr_extremum (m : Z -> Z -> Z) (less : bool) a l :
  m = (if less then Z.min else Z.max) ->
  foldl m a l = foldr m a l.
Proof.
  intros ->. revert a. induction l as [|x l IH]; intros a; [done|]. cbn [foldl foldr]. rewrite IH.
  clear IH. destruct less; induction l as [|y l IH]; cbn [foldr]; lia.
Qed.

Lemma foldr_max_hd z zs a : foldr Z.max a (zs ++ [z]) = Z.max z (foldr Z.max a zs).
Proof. induction zs as [|x zs IH]; cbn; [lia|]. rewrite IH. lia. Qed.
Lemma foldr_min_hd z zs a : foldr Z.min a (zs ++ [z]) = Z.min z (foldr Z.min a zs).
Proof. induction zs as [|x zs IH]; cbn; [lia|]. rewrite IH. lia. Qed.

(** One more row: the aggregate of the new value and the old aggregate. *)
Lemma agg_snoc f zs z : zs <> [] -> agg f (zs ++ [z]) = agg f [z; agg f zs].
Proof.
  intros Hne. destruct zs as [|x zs]; [done|]. unfold agg.
  destruct (String.eqb f "max"); [|destruct (String.eqb f "min")].
  - cbn [hd app]. change (x :: zs ++ [z]) with ((x :: zs) ++ [z]). rewrite foldr_max_hd. cbn. lia.
  - cbn [hd app]. change (x :: zs ++ [z]) with ((x :: zs) ++ [z]). rewrite foldr_min_hd. cbn. lia.
  - rewrite foldl_add_app. cbn [foldl]. rewrite (Z.add_comm (0 + z)), i64_add_l. f_equal.
Qed.

Lemma agg_one f z : in_i64 z -> agg f [z] = z.
Proof. intros Hz. unfold agg. cbn. rewrite Z.add_0_l, i64_id by done. repeat case_if; lia. Qed.

Lemma agg_range f zs : zs <> [] -> Forall in_i64 zs -> in_i64 (agg f zs).
Proof.
  intros Hne Hz. unfold agg. destruct zs as [|x zs]; [done|]. cbn [hd].
  assert (forall a, in_i64 a -> Forall in_i64 zs -> in_i64 (foldr Z.max a zs) /\ in_i64 (foldr Z.min a zs)) as Hf.
  { intros a Ha. clear Hne Hz. induction 1 as [|y l Hy _ IH]; [done|]. unfold in_i64 in *. cbn [foldr]. lia. }
  apply Forall_cons in Hz as [Hx Hz]. destruct (Hf x Hx Hz) as [H1 H2]. unfold in_i64 in *.
  repeat case_if; [cbn [foldr]; lia | cbn [foldr]; lia | apply i64_range].
Qed.

Section Group.
Context `{GoFloat} `{MapOrder} (lastId : Z).

(** The rows of a group as one result. *)
Definition as_result (fields : list Field) (rows : list (list value)) (datas : list bytes) : option Result :=
  Some (mkResult 0 0 0 (Some (mkResultset fields ∅ rows datas))).

Lemma extremum_ints less m zs :
  rfold (extremum_step less) (VInt64 m) (VInt64 <$> zs) =
  Ok (VInt64 (foldl (if less then Z.min else Z.max) m zs)).
Proof using Type.
  revert m. induction zs as [|z zs IH]; intros m; [done|]. cbn [fmap list_fmap rfold extremum_step foldl].
  cbn [rbind]. replace (if (if less then z <? m else m <? z) then VInt64 z else VInt64 m)
    with (VInt64 ((if less then Z.min else Z.max) m z)); [apply IH|].
  destruct less; [destruct (Z.ltb_spec z m)|destruct (Z.ltb_spec m z)]; f_equal; lia.
Qed.

(** A function over one result whose column holds integers. *)
Lemma cal_ints f fields rows datas i zs :
  mergeable f -> Forall (fun row => length row = length fields) rows ->
  0 <= i < Z.of_nat (length fields) -> cell i <$> rows = VInt64 <$> zs -> zs <> [] ->
  calFuncExprValue lastId f [as_result fields rows datas] i = Ok (VInt64 (agg f zs)).
Proof using Type.
  intros Hf Hrows Hi Hcells Hne. set (s := mkResultset fields ∅ rows datas).
  assert (came_back [as_result fields rows datas] [s]) as Hcb by (repeat constructor).
  assert (Forall (has_column i) [s]) as Hcol by (constructor; [split; [exact Hrows | exact Hi] | constructor]).
  assert (column_of [s] i = VInt64 <$> zs) as Hc by (unfold column_of; cbn; by rewrite app_nil_r).
  assert (Forall is_int (VInt64 <$> zs)) as His by (apply Forall_fmap, Forall_true; intros z; exact I).
  assert (ints (VInt64 <$> zs) = zs) as Hints by (clear; induction zs as [|z zs IH]; [done|]; cbn; f_equal; exact IH).
  assert (forall less, (let* best := first_not_null [as_result fields rows datas] i in
      fold_column (extremum_step less) [as_result fields rows datas] i best) =
      Ok (VInt64 (foldl (if less then Z.min else Z.max) (hd 0 zs) zs))) as Hext.
  { intros less. rewrite (first_not_null_cells _ [s]) by done. cbn [rbind].
    rewrite (fold_column_cells _ _ [s]) by done. rewrite Hc. destruct zs as [|z zs]; [done|]. apply extremum_ints. }
  unfold mergeable in Hf. unfold agg.
  repeat (apply elem_of_cons in Hf as [->|Hf]); [..|by apply not_elem_of_nil in Hf].
  - change (calFuncExprValue lastId "count" [as_result fields rows datas] i) with
      (count_value [as_result fields rows datas] i).
    rewrite (count_cells _ [s]) by (done || by rewrite Hc). rewrite Hc. unfold total. by rewrite Hints.
  - change (calFuncExprValue lastId "sum" [as_result fields rows datas] i) with
      (getSumFuncExprValue [as_result fields rows datas] i).
    unfold getSumFuncExprValue. rewrite (fold_column_cells _ _ [s]) by done. rewrite Hc.
    change 0 with (i64 0) at 1. rewrite sum_fold by done. unfold total. rewrite Hints. by destruct zs.
  - etrans; [exact (Hext false)|]. by rewrite (foldr_extremum _ false).
  - etrans; [exact (Hext true)|]. by rewrite (foldr_extremum _ true).
Qed.

(** ** Merging one row *)
Lemma set_at_ok {E A} (l : list A) i v :
  0 <= i < Z.of_nat (length l) -> @set_at E A l i v = Ok (<[Z.to_nat i := v]> l).
Proof using Type. intros Hi. unfold set_at. by replace (_ && _) with true by lia. Qed.

Lemma cell_insert i j (row : list value) v :
  0 <= i < Z.of_nat (length row) -> 0 <= j ->
  cell j (<[Z.to_nat i := v]> row) = if decide (j = i) then v else cell j row.
Proof using Type.
  intros Hi Hj. unfold cell. rewrite !nth_lookup. destruct (decide (j = i)) as [->|Hne].
  - rewrite list_lookup_insert_eq by lia. done.
  - rewrite list_lookup_insert_ne by lia. done.
Qed.

Context (fields : list Field) (funcExprs : gmap Z string) (g0 : Z).
Hypothesis Hg0 : 0 <= g0 <= Z.of_nat (length fields).
Hypothesis Hfuncs : forall i f, funcExprs !! i = Some f -> 0 <= i < g0 /\ mergeable f.

(** A row with integers in the columns of the functions. *)
Definition row_ok (row : list value) : Prop :=
  length row = length fields /\
  forall i, i ∈ dom funcExprs -> exists z, cell i row = VInt64 z /\ in_i64 z.

Definition int_at (i : Z) (row : list value) : Z :=
  match cell i row with VInt W64 z => z | _ => 0 end.


Lemma merge_loop row old2 ks value :
  row_ok row -> row_ok value -> NoDup ks -> (forall i, i ∈ ks -> i ∈ dom funcExprs) ->
  exists value',
    rfold (fun value funcIndex =>
      let* v := calFuncExprValue lastId (default "" (funcExprs !! funcIndex))
                  [as_result fields [row; value] [old2.1; old2.2]] funcIndex in
      set_at value funcIndex v) value ks = Ok value' /\
    length value' = length fields /\
    (forall i f, i ∈ ks -> funcExprs !! i = Some f ->
       cell i value' = VInt64 (agg f [int_at i row; int_at i value])) /\
    (forall i, 0 <= i -> i ∉ ks -> cell i value' = cell i value).
Proof using Hg0 Hfuncs.
  intros Hrow Hv Hnd Hks. revert value Hv. induction Hnd as [|i ks Hni Hnd IH]; intros value Hv.
  { exists value. split_and!; [done | apply Hv | set_solver | done]. }
  assert (i ∈ dom funcExprs) as Hi by (apply Hks; by left).
  apply elem_of_dom in Hi as [f Hf]. destruct (Hfuncs i f Hf) as [Hir Hm].
  assert (i ∈ dom funcExprs) as Hi by by eapply elem_of_dom_2.
  destruct Hrow as [Hlr Hcr], Hv as [Hlv Hcv].
  destruct (Hcr i Hi) as (z & Hz & Bz), (Hcv i Hi) as (y & Hy & By).
  cbn [rfold]. rewrite Hf. cbn [from_option id].
  rewrite (cal_ints f fields [row; value] [old2.1; old2.2] i [z; y]);
    [| done | repeat constructor; done | lia | cbn; by rewrite Hz, Hy | done].
  cbn [rbind]. rewrite (set_at_ok value) by lia. cbn [rbind].
  set (w := <[Z.to_nat i := _]> value).
  assert (forall j, 0 <= j -> cell j w = if decide (j = i) then VInt64 (agg f [z; y]) else cell j value) as Hw
    by (intros j Hj; unfold w; apply cell_insert; lia).
  assert (in_i64 (agg f [z; y])) as Hagg by (apply agg_range; [done | by rewrite Forall_cons, Forall_singleton]).
  assert (row_ok w) as Hwok.
  { split; [unfold w; by rewrite length_insert|]. intros j Hj.
    assert (0 <= j) as Hj0 by (apply elem_of_dom in Hj as [g Hg]; apply Hfuncs in Hg; lia).
    rewrite Hw by done. destruct (decide (j = i)); [eauto | by apply Hcv]. }
  destruct (IH ltac:(intros j Hj; apply Hks; by right) w Hwok) as (value' & -> & Hl & Hin & Hout).
  exists value'. split_and!; [done..| |].
  - intros j g Hj Hg. apply elem_of_cons in Hj as [->|Hj].
    + rewrite Hout, Hw, decide_True by (done || lia). assert (g = f) as -> by congruence.
      unfold int_at. by rewrite Hz, Hy.
    + rewrite (Hin j g Hj Hg). do 3 f_equal. unfold int_at. apply Hfuncs in Hg as [? _].
      rewrite Hw, decide_False by (lia || set_solver). done.
  - intros j Hj0 Hj. rewrite Hout, Hw, decide_False by (set_solver || lia). done.
Qed.

Lemma merge_funcs_ok row old :
  row_ok row.1 -> row_ok old.1 ->
  exists value', merge_funcs lastId fields funcExprs row old = Ok (value', old.2) /\
    length value' = length fields /\
    (forall i f, funcExprs !! i = Some f -> cell i value' = VInt64 (agg f [int_at i row.1; int_at i old.1])) /\
    (forall i, 0 <= i -> funcExprs !! i = None -> cell i value' = cell i old.1).
Proof using Hg0 Hfuncs.
  intros Hrow Hold. unfold merge_funcs.
  destruct (merge_loop row.1 (row.2, old.2) (range_keys (dom funcExprs)) old.1 Hrow Hold)
    as (value' & E & Hl & Hin & Hout).
  - rewrite range_keys_perm. apply NoDup_elements.
  - intros i Hi. rewrite range_keys_perm in Hi. by apply elem_of_elements.
  - change (rfold _ old.1 _) with (rfold (fun value funcIndex =>
      let* v := calFuncExprValue lastId (default "" (funcExprs !! funcIndex))
                  [as_result fields [row.1; value] [row.2; old.2]] funcIndex in
      set_at value funcIndex v) old.1 (range_keys (dom funcExprs))).
    cbn [fst snd] in E. rewrite E. cbn [rbind]. exists value'. split_and!; [done..| |].
    + intros i f Hf. apply Hin; [|done]. rewrite range_keys_perm. apply elem_of_elements. by eapply elem_of_dom_2.
    + intros i Hi Hn. apply Hout; [done|]. rewrite range_keys_perm, elem_of_elements. by apply not_elem_of_dom.
Qed.

(** ** Merging all the rows *)
Context (key : list value -> string).

Definition group (k : string) (rows : list ResultRow) : list ResultRow :=
  List.filter (fun row => String.eqb (key row.1) k) rows.

(** What the map holds for a group. *)
Definition group_entry (m : gmap string ResultRow) (k : string) (rows : list ResultRow) : Prop :=
  match group k rows with
  | [] => m !! k = None
  | first :: rest =>
      exists v, m !! k = Some (v, first.2) /\ length v = length fields /\
        (forall i f, funcExprs !! i = Some f ->
           cell i v = VInt64 (agg f ((fun row => int_at i row.1) <$> first :: rest))) /\
        (forall i, 0 <= i -> funcExprs !! i = None -> cell i v = cell i first.1)
  end.

Definition load_ok (row : ResultRow) : Prop := row_ok row.1 /\ row_key g0 row.1 = Ok (key row.1).

Lemma int_at_range i row : row_ok row -> i ∈ dom funcExprs -> in_i64 (int_at i row) /\ cell i row = VInt64 (int_at i row).
Proof using Type. intros [_ Hr] Hi. destruct (Hr i Hi) as (z & Hz & Bz). unfold int_at. by rewrite Hz. Qed.

Lemma group_snoc k rows row :
  group k (rows ++ [row]) = group k rows ++ (if String.eqb (key row.1) k then [row] else []).
Proof using Type. unfold group. by rewrite List.filter_app. Qed.

Lemma group_ok k rows : Forall load_ok rows -> Forall (fun row => row_ok row.1) (group k rows).
Proof using Type.
  intros Hrows. rewrite Forall_forall in *. intros row Hin. apply list_elem_of_In, filter_In in Hin as [Hin _].
  apply Hrows. by apply list_elem_of_In.
Qed.

Lemma entry_row_ok m k rows v d :
  Forall load_ok rows -> group_entry m k rows -> m !! k = Some (v, d) -> group k rows <> [] /\ row_ok v.
Proof using Hfuncs.
  intros Hrows He Hm. unfold group_entry in He. pose proof (group_ok k rows Hrows) as Hg.
  destruct (group k rows) as [|first rest]; [congruence|]. split; [done|].
  destruct He as (v' & Hv' & Hl & Hf & _). assert (v' = v) as -> by congruence.
  split; [done|]. intros i Hi. pose proof Hi as [f Hif]%elem_of_dom. rewrite (Hf i f Hif).
  eexists. split; [done|]. apply agg_range; [done|]. apply Forall_fmap. eapply Forall_impl; [exact Hg|].
  intros row Hrow. by apply int_at_range.
Qed.

Lemma load_rows_ok rows :
  Forall load_ok rows ->
  exists m, rfold (load_row_func lastId g0 fields funcExprs) ∅ rows = Ok m /\
    forall k, group_entry m k rows.
Proof using Hg0 Hfuncs.
  induction rows as [|row rows IH] using rev_ind; intros Hrows.
  { exists ∅. split; [done|]. intros k. unfold group_entry. cbn. apply lookup_empty. }
  apply Forall_app in Hrows as [Hrows [Hrow Hkey]%Forall_singleton].
  destruct (IH Hrows) as (m & Hm & Hent). rewrite rfold_app, Hm. cbn [rbind rfold].
  unfold load_row_func at 1. rewrite Hkey. cbn [rbind].
  assert (forall row' k, key row.1 <> k -> group_entry (<[key row.1 := row']> m) k (rows ++ [row])) as Hother.
  { intros row' k Hne. unfold group_entry. rewrite group_snoc, (proj2 (String.eqb_neq _ _) Hne), app_nil_r.
    rewrite lookup_insert_ne by done. apply Hent. }
  destruct (m !! key row.1) as [[v d]|] eqn:Hold.
  - destruct (entry_row_ok m _ rows v d Hrows (Hent _) Hold) as [Hne Hv].
    destruct (merge_funcs_ok row (v, d) Hrow Hv) as (v' & -> & Hl & Hin & Hout). cbn [rbind fst snd] in *.
    eexists. split; [done|]. intros k. destruct (decide (key row.1 = k)) as [<-|]; [|by apply Hother].
    specialize (Hent (key row.1)). unfold group_entry in *. rewrite group_snoc, String.eqb_refl.
    destruct (group (key row.1) rows) as [|first rest]; [done|]. cbn [app].
    destruct Hent as (v0 & Hv0 & _ & Hf0 & Hn0). assert (v0 = v /\ first.2 = d) as [-> <-] by (split; congruence).
    exists v'. rewrite lookup_insert_eq. split_and!; [done..| |].
    + intros i f Hf. rewrite (Hin i f Hf). f_equal. unfold int_at at 2. rewrite (Hf0 i f Hf).
      change (first :: rest ++ [row]) with ((first :: rest) ++ [row]). rewrite fmap_app. cbn [fmap list_fmap].
      symmetry. by apply (agg_snoc f (int_at i first.1 :: ((fun row => int_at i row.1) <$> rest))).
    + intros i Hi Hn. rewrite (Hout i Hi Hn). by apply Hn0.
  - eexists. split; [done|]. intros k. destruct (decide (key row.1 = k)) as [<-|]; [|by apply Hother].
    specialize (Hent (key row.1)). unfold group_entry in *. rewrite group_snoc, String.eqb_refl.
    destruct (group (key row.1) rows) as [|first rest]; [|destruct Hent as (? & ? & _); congruence].
    cbn [app]. exists row.1. rewrite lookup_insert_eq. split_and!; [by destruct row | apply Hrow | | done].
    intros i f Hf. cbn [fmap list_fmap]. destruct (int_at_range i row.1 Hrow) as [Hr ->];
      [by eapply elem_of_dom_2|]. by rewrite agg_one.
Qed.
End Group.

(** Loading the results one after the other loads all their rows. *)
Definition all_rows (sets : list Resultset) : list ResultRow :=
  concat ((fun s => zip (Values s) (RowDatas s)) <$> sets).

Lemma load_results_rows load rs sets :
  came_back rs sets -> Forall (fun s => length (Values s) = length (RowDatas s)) sets ->
  load_results load rs = rfold load ∅ (all_rows sets).
Proof.
  intros Hrs. unfold load_results, all_rows. generalize (∅ : gmap string ResultRow).
  induction Hrs as [|r s rs sets Hr Hrs IH]; intros m Hl; [done|]. apply Forall_cons in Hl as [Hs Hl].
  cbn [rfold fmap list_fmap concat]. rewrite Hr. cbn [rbind]. unfold result_rows.
  rewrite (proj2 (Nat.leb_le _ _)) by lia. cbn [rbind]. rewrite rfold_app.
  destruct (rfold load m _); cbn [rbind]; [by apply IH | done..].
Qed.

(** ** Keys of groups

    A column of the grouping holds values of one kind and NULL; its texts
    have no plus sign, which ends a value in the key, and are not the four
    letters that stand for NULL. *)
Inductive group_kind := SignedInts | UnsignedInts | Texts | Bytes.
Definition group_value (k : group_kind) (v : value) : Prop :=
  match v with
  | VNil => True
  | VInt W64 z => k = SignedInts /\ in_i64 z
  | VUint W64 z => k = UnsignedInts /\ in_u64 z
  | VString s => k = Texts /\ s <> "NULL" /\ 43 ∉ bytes_of s
  | VBytes b => k = Bytes /\ b <> bytes_of "NULL" /\ 43 ∉ b /\ Forall is_byte b
  | _ => False
  end.
Definition group_columns (g0 : Z) (row : list value) : list value := drop (Z.to_nat g0) row.
Definition group_of (g0 : Z) (cols : list value) (rows : list ResultRow) : list ResultRow :=
  List.filter (fun row => bool_decide (group_columns g0 row.1 = cols)) rows.

Lemma FormatInt_numeral z : in_i64 z -> 43 ∉ bytes_of (FormatInt z) /\ bytes_of (FormatInt z) <> bytes_of "NULL".
Proof.
  intros Hz. assert (Forall (fun b => b = 45 \/ digit_byte b) (bytes_of (FormatInt z))) as Hb.
  { assert (forall n, 0 <= n -> Forall (fun b => b = 45 \/ digit_byte b) (bytes_of (FormatUint n))) as Hu
      by (intros n Hn; eapply Forall_impl; [by apply FormatUint_bytes | by right]).
    unfold FormatInt. destruct (Z.ltb_spec z 0); [|by apply Hu]. apply Forall_cons. split; [by left | apply Hu; lia]. }
  rewrite Forall_forall in Hb. split.
  - intros Hin%Hb. unfold digit_byte in Hin. lia.
  - intros He. specialize (Hb 78 ltac:(rewrite He; by left)). unfold digit_byte in Hb. lia.
Qed.
Lemma FormatUint_numeral z : in_u64 z -> 43 ∉ bytes_of (FormatUint z) /\ bytes_of (FormatUint z) <> bytes_of "NULL".
Proof.
  intros [Hz _]. pose proof (FormatUint_bytes z Hz) as Hb. rewrite Forall_forall in Hb. split.
  - intros Hin%Hb. unfold digit_byte in Hin. lia.
  - intros He. specialize (Hb 78 ltac:(rewrite He; by left)). unfold digit_byte in Hb. lia.
Qed.
Lemma bytes_of_eq a b : bytes_of a = bytes_of b -> a = b.
Proof. intros H. by rewrite <- (string_of_bytes_of a), H, string_of_bytes_of. Qed.

Lemma key_apart (a b l l' : bytes) : 43 ∉ a -> 43 ∉ b -> a ++ 43 :: l = b ++ 43 :: l' -> a = b /\ l = l'.
Proof.
  revert b. induction a as [|x a IH]; intros [|y b] Ha Hb He; cbn in He.
  - by injection He as ->.
  - injection He as <- _. set_solver.
  - injection He as -> _. set_solver.
  - injection He as <- He. destruct (IH b) as [-> ->]; set_solver.
Qed.

Section Keys.
Context `{GoFloat}.

Lemma group_value_text k v : group_value k v ->
  exists b, formatValue v = Ok b /\ Forall is_byte b /\ 43 ∉ b /\ (b = bytes_of "NULL" -> v = VNil).
Proof using Type.
  intros Hv. destruct v as [|[] z|[] z| | |s|b|]; try done; cbn [group_value] in Hv; (eexists; split; [reflexivity|]).
  - split_and!; [apply bytes_of_bytes | | done]. vm_compute. set_solver.
  - destruct Hv as [_ [? ?]%FormatInt_numeral]. split_and!; [apply bytes_of_bytes | done..].
  - destruct Hv as [_ [? ?]%FormatUint_numeral]. split_and!; [apply bytes_of_bytes | done..].
  - destruct Hv as (_ & Hn & ?). split_and!; [apply bytes_of_bytes | done | by intros ?%bytes_of_eq].
  - destruct Hv as (_ & Hn & ? & ?). done.
Qed.

Lemma group_value_inj k v v' b :
  group_value k v -> group_value k v' -> formatValue v = Ok b -> formatValue v' = Ok b -> v = v'.
Proof using Type.
  intros Hv Hv' Hb Hb'. destruct (decide (b = bytes_of "NULL")) as [Hn|Hn].
  { destruct (group_value_text k v Hv) as (c & Hc & _ & _ & Hnil), (group_value_text k v' Hv') as (c' & Hc' & _ & _ & Hnil').
    assert (c = b /\ c' = b) as [-> ->] by (split; congruence). by rewrite Hnil, Hnil'. }
  destruct v as [|[] z|[] z| | |s|a|], v' as [|[] z'|[] z'| | |s'|a'|]; try done; cbn [group_value] in Hv, Hv';
    cbn [formatValue] in Hb, Hb'; injection Hb as Hb; injection Hb' as Hb'; try (exfalso; by subst);
    destruct Hv as [Hk Hv], Hv' as [Hk' Hv']; try congruence; rewrite <- Hb in Hb'; clear Hb; f_equal;
    try apply bytes_of_eq in Hb'; try done.
  - symmetry. by apply FormatInt_inj.
  - assert (Ok (E := error) z = Ok z') as [= ->]; [|done].
    by rewrite <- (ParseUint_FormatUint z), <- (ParseUint_FormatUint z'), Hb' by done.
Qed.

(** The key tells groups apart, and every group has one. *)
Lemma bytes_of_string_of b : Forall is_byte b -> bytes_of (string_of b) = b.
Proof using Type.
  intros Hb. unfold string_of, bytes_of. rewrite String.list_ascii_of_string_of_list_ascii, <- list_fmap_compose.
  induction Hb as [|x b Hx _ IH]; [done|]. cbn. f_equal; [by apply byte_of_char_of | exact IH].
Qed.

Definition key_bytes (cols : list value) : res error (list bytes) :=
  rmap (fun v => let* b := formatValue v in Ok (b ++ separatorBuf)) cols.

Lemma key_bytes_ok kinds cols : Forall2 group_value kinds cols ->
  exists l, key_bytes cols = Ok l /\ Forall is_byte (concat l) /\
    forall cols' l', Forall2 group_value kinds cols' -> key_bytes cols' = Ok l' -> concat l' = concat l -> cols' = cols.
Proof using Type.
  induction 1 as [|k v kinds cols Hv Hc (l & Hl & Hb & IH)].
  - exists []. split; [done|]. split; [constructor|]. intros cols' l' Hc' _ _. by inversion Hc'.
  - destruct (group_value_text k v Hv) as (b & Hf & Hbb & H43 & _). exists ((b ++ separatorBuf) :: l).
    unfold key_bytes in *. cbn [rmap]. rewrite Hf. cbn [rbind]. rewrite Hl. split; [done|]. split.
    { cbn [concat]. rewrite !Forall_app. split_and!; [done | apply bytes_of_bytes | done]. }
    intros cols' l' Hc' Hl' He. apply Forall2_cons_inv_l in Hc' as (v' & rest & Hv' & Hrest & ->).
    destruct (group_value_text k v' Hv') as (b' & Hf' & _ & H43' & _). cbn [rmap] in Hl'. rewrite Hf' in Hl'. cbn [rbind] in Hl'.
    apply rbind_Ok_inv in Hl' as (l1 & Hl1 & [= <-]). cbn [concat] in He.
    change separatorBuf with [43] in He. rewrite <- !app_assoc in He. apply key_apart in He as [-> He]; [|done..].
    f_equal; [by apply (group_value_inj k v' v b) | by apply (IH rest l1)].
Qed.

Lemma group_key kinds cols : Forall2 group_value kinds cols ->
  exists k, generateMapKey cols = Ok k /\
    forall cols', Forall2 group_value kinds cols' -> generateMapKey cols' = Ok k -> cols' = cols.
Proof using Type.
  intros Hc. destruct (key_bytes_ok kinds cols Hc) as (l & Hl & Hb & Hinj). exists (string_of (concat l)).
  unfold generateMapKey. fold (key_bytes cols). rewrite Hl. split; [done|]. intros cols' Hc' Hk.
  destruct (key_bytes_ok kinds cols' Hc') as (l' & Hl' & Hb' & _). fold (key_bytes cols') in Hk. rewrite Hl' in Hk.
  injection Hk as Hk. apply (Hinj cols' l' Hc' Hl'). by rewrite <- (bytes_of_string_of (concat l')), Hk, bytes_of_string_of.
Qed.
End Keys.

(** What a row of the results must be: integers in the columns of the
    functions, and grouping columns whose texts the key tells apart. *)
Definition group_row (fields : list Field) (funcExprs : gmap Z string) (g0 : Z) (kinds : list group_kind) (row : ResultRow)
  : Prop := row_ok fields funcExprs row.1 /\ Forall2 group_value kinds (group_columns g0 row.1).

(** The rows with a key are the rows with its columns. *)
Lemma group_by_key `{GoFloat} kinds g0 key cols k rows :
  Forall2 group_value kinds cols -> generateMapKey cols = Ok k ->
  Forall (fun row => Forall2 group_value kinds (group_columns g0 row.1)) rows ->
  (forall row, key row = match generateMapKey (group_columns g0 row) with Ok k => k | _ => "" end) ->
  group key k rows = group_of g0 cols rows.
Proof.
  intros Hc Hk Hrows Hkey. unfold group, group_of. induction Hrows as [|row rows Hrow _ IH]; [done|].
  cbn [List.filter]. rewrite IH, Hkey. destruct (group_key kinds _ Hrow) as (k' & Hk' & _). rewrite Hk'.
  replace (String.eqb k' k) with (bool_decide (group_columns g0 row.1 = cols)); [done|].
  destruct (String.eqb_spec k' k) as [->|Hne].
  - apply bool_decide_eq_true. destruct (group_key kinds cols Hc) as (k0 & Hk0 & Hinj).
    rewrite Hk in Hk0. injection Hk0 as <-. by apply Hinj.
  - apply bool_decide_eq_false. congruence.
Qed.

Lemma group_row_load `{GoFloat} fields funcExprs g0 kinds row :
  0 <= g0 <= Z.of_nat (length fields) -> group_row fields funcExprs g0 kinds row ->
  load_ok fields funcExprs g0 (fun row => match generateMapKey (group_columns g0 row) with Ok k => k | _ => "" end) row.
Proof.
  intros Hg [Hrow Hc]. split; [done|]. destruct (group_key kinds _ Hc) as (k & Hk & _). rewrite Hk.
  unfold row_key, slice. rewrite (proj1 Hrow).
  replace ((0 <=? g0) && (g0 <=? Z.of_nat (length fields)) && (Z.of_nat (length fields) <=? Z.of_nat (length fields))) with true by lia.
  cbn [rbind]. rewrite take_ge; [exact Hk|]. rewrite length_drop, (proj1 Hrow). lia.
Qed.

(** C10: merging groups row by row is computing the functions over the whole
    group.  The columns from [g0] on are the grouping columns, each of one
    kind of values (int64, uint64, strings or bytes, with NULL) whose texts
    have no plus sign and are not NULL's; the functions are [count], [sum],
    [max] and [min] over columns of int64 values.  Then any values of the
    grouping columns have a key that no other values have, and the map that
    the merge makes holds an entry under it exactly when some shard's result
    has rows with these values: each function's column of the entry is the
    function applied to all these rows at once, and the other columns are
    those of the first of them. *)
Theorem groups_merged_as_wholes `{GoFloat} `{MapOrder} lastId fields funcExprs g0 kinds rs sets
    (Hrs : came_back rs sets) (Hlen : Forall (fun s => length (Values s) = length (RowDatas s)) sets)
    (Hg0 : 0 <= g0 <= Z.of_nat (length fields))
    (Hfuncs : forall i f, funcExprs !! i = Some f -> 0 <= i < g0 /\ mergeable f)
    (Hrows : Forall (group_row fields funcExprs g0 kinds) (all_rows sets)) :
  exists m, load_results (load_row_func lastId g0 fields funcExprs) rs = Ok m /\
  forall cols, Forall2 group_value kinds cols ->
    exists k, generateMapKey cols = Ok k /\
      (forall cols', Forall2 group_value kinds cols' -> generateMapKey cols' = Ok k -> cols' = cols) /\
      match group_of g0 cols (all_rows sets) with
      | [] => m !! k = None
      | first :: rest =>
          exists v, m !! k = Some (v, first.2) /\
            (forall i f, funcExprs !! i = Some f ->
               calFuncExprValue lastId f [as_result fields (first :: rest).*1 (first :: rest).*2] i = Ok (cell i v)) /\
            (forall i, 0 <= i -> funcExprs !! i = None -> cell i v = cell i first.1)
      end.
Proof.
  set (key := fun row => match generateMapKey (group_columns g0 row) with Ok k => k | _ => "" end).
  assert (Forall (load_ok fields funcExprs g0 key) (all_rows sets)) as Hload
    by (eapply Forall_impl; [exact Hrows | intros row; by apply group_row_load]).
  rewrite (load_results_rows _ rs sets) by done.
  destruct (load_rows_ok lastId fields funcExprs g0 Hg0 Hfuncs key (all_rows sets) Hload) as (m & Hm & Hent).
  exists m. split; [done|]. intros cols Hcols. destruct (group_key kinds cols Hcols) as (k & Hk & Hinj).
  exists k. split_and!; [done..|]. specialize (Hent k). unfold group_entry in Hent.
  pose proof (group_ok fields funcExprs g0 key k (all_rows sets) Hload) as Hg.
  rewrite (group_by_key kinds g0 key cols k) in Hent, Hg; try done; [|eapply Forall_impl; [exact Hrows | by intros row []]..].
  destruct (group_of g0 cols (all_rows sets)) as [|first rest]; [done|].
  destruct Hent as (v & Hv & Hl & Hf & Hn). exists v. split_and!; [done| |done].
  intros i f Hif. destruct (Hfuncs i f Hif) as [Hi Hm']. rewrite (Hf i f Hif).
  apply cal_ints; [done | | lia | | done].
  - apply Forall_fmap. eapply Forall_impl; [exact Hg|]. by intros row [].
  - rewrite <- !list_fmap_compose. rewrite Forall_forall in Hg.
    apply list_fmap_ext. intros j row Hj. cbn.
    apply (int_at_range fields funcExprs); [|by eapply elem_of_dom_2]. apply Hg. by eapply list_elem_of_lookup_2.
Qed.

(** [count] by group over two shards: one group is on both. *)
Lemma groups_merged_as_wholes_witness :
  let G := no_floats in
  let fields := [named_field (bytes_of "count(a)"); named_field (bytes_of "b")] in
  let s1 := mkResultset fields ∅ [[VInt64 3; VString "x"]] [[]] in
  let s2 := mkResultset fields ∅ [[VInt64 4; VString "x"]; [VInt64 1; VString "y"]] [[]; []] in
  exists m k v, load_results (load_row_func 0 1 fields {[ 0 := "count" ]})
              [Some (mkResult 0 0 0 (Some s1)); Some (mkResult 0 0 0 (Some s2))] = Ok m /\
    generateMapKey [VString "x"] = Ok k /\ m !! k = Some (v, []) /\ cell 0 v = VInt64 7 /\ cell 1 v = VString "x".
Proof.
  intros G fields s1 s2.
  assert (forall s, s = "x" \/ s = "y" -> Forall2 group_value [Texts] [VString s]) as Htext.
  { intros s Hs. constructor; [|constructor]. cbn [group_value]. split_and!; [done| |].
    - by destruct Hs as [-> | ->].
    - destruct Hs as [-> | ->]; vm_compute; intros Hin; repeat (apply elem_of_cons in Hin as [Hin|Hin]; [discriminate|]);
        by apply not_elem_of_nil in Hin. }
  destruct (groups_merged_as_wholes 0 fields {[ 0 := "count" ]} 1 [Texts]
              [Some (mkResult 0 0 0 (Some s1)); Some (mkResult 0 0 0 (Some s2))] [s1; s2]) as (m & Hm & Hgroups).
  - repeat constructor.
  - repeat constructor.
  - cbn. lia.
  - intros i f [<- <-]%lookup_singleton_Some. split; [lia|]. by left.
  - unfold all_rows. cbn. repeat (apply Forall_cons; split); [..|constructor];
      (split; [|apply Htext; auto]; split; [reflexivity|]; intros i Hi; rewrite dom_singleton_L in Hi;
       apply elem_of_singleton in Hi as ->; eexists; split; [reflexivity | unfold in_i64; lia]).
  - destruct (Hgroups [VString "x"] (Htext "x" (or_introl eq_refl))) as (k & Hk & _ & v & Hv & Hf & Hn).
    exists m, k, v. split_and!; [done..| |].
    + specialize (Hf 0 "count" eq_refl). vm_compute in Hf. injection Hf as Hf. symmetry. exact Hf.
    + exact (Hn 1 ltac:(lia) eq_refl).
Defined.

(** The key of a group ends every value with a plus sign: texts with plus
    signs can give two groups one key, and so can NULL and the text. *)
Example group_key_collision `{GoFloat} :
  generateMapKey [VString "a+"; VString "b"] = generateMapKey [VString "a"; VString "+b"] /\
  generateMapKey [VNil] = generateMapKey [VString "NULL"].
Proof. split; reflexivity. Qed.
