(* ===== verification/Balancer.v ===== *)
(** * Choosing a slave ([backend/balancer.go])

    The slaves of a node take turns in a queue that holds each of them as
    often as its weight says, divided by the common divisor of the weights,
    in a random order. *)
From S2P Require Import Prelude Errors GoLib.
Open Scope Z_scope.

(** Go's [/] and [%] truncate towards zero and panic on zero. *)
Definition go_quot {E} (a b : Z) : res E Z :=
  if b =? 0 then Panic (PRuntime "integer divide by zero") else Ok (i64 (Z.quot a b)).
Definition go_rem {E} (a b : Z) : res E Z :=
  if b =? 0 then Panic (PRuntime "integer divide by zero") else Ok (Z.rem a b).

(** ** [Gcd] *)
Fixpoint is_common {E} (min : Z) (ary : list Z) : res E bool :=
  match ary with
  | [] => Ok true
  | a :: ary =>
      let* r := go_rem a min in
      if negb (r =? 0) then Ok false else is_common min ary
  end.

(** The candidates go down to 1, so the least weight is rounds enough; only
    from the least [int] would the count wrap and start over. *)
Fixpoint gcd_loop {E} (fuel : nat) (min : Z) (ary : list Z) : res E Z :=
  match fuel with
  | O => Panic (PRuntime "loop")
  | S fuel =>
      let* isCommon := is_common min ary in
      if (isCommon : bool) then Ok min
      else
        let min := min - 1 in
        if min <? 1 then Ok min else gcd_loop fuel min ary
  end.

Definition list_min (min : Z) (ary : list Z) : Z :=
  foldl (fun min a => if a <? min then a else min) min ary.

Definition Gcd {E} (ary : list Z) : res E Z :=
  let* first := at_ ary 0 in
  let min := list_min first ary in
  gcd_loop (S (Z.to_nat min)) min ary.

(** ** The queue *)

(** [math/rand]: the [k]-th draw below [n]. *)
Class Rand := {
  Intn : nat -> Z -> Z;
  Intn_range k n : 0 < n -> 0 <= Intn k n < n
}.

(** Each index [weight/gcd] times, from the [index]-th slave on. *)
Fixpoint queue_from {E} (gcd index : Z) (weights : list Z) : res E (list Z) :=
  match weights with
  | [] => Ok []
  | weight :: weights =>
      let* n := go_quot weight gcd in
      let* rest := queue_from gcd (index + 1) weights in
      Ok (replicate (Z.to_nat n) index ++ rest)
  end.

(** [sum += weight / gcd] *)
Definition weight_sum {E} (gcd : Z) (weights : list Z) : res E Z :=
  rfold (fun sum weight => let* n := go_quot weight gcd in Ok (i64 (sum + n))) 0 weights.

(** [q[i], q[j] = q[j], q[i]] *)
Definition swap {E} (q : list Z) (i j : Z) : res E (list Z) :=
  let* a := at_ q i in
  let* b := at_ q j in
  Ok (<[Z.to_nat j := a]> (<[Z.to_nat i := b]> q)).

Definition shuffle_step `{Rand} {E} (sum : Z) (q : list Z) (k : nat) : res E (list Z) :=
  if sum <=? 0 then Panic (PString "invalid argument to Intn")
  else let x := Intn k sum in swap q x (sum mod (x + 1)).

Definition init_queue `{Rand} {E} (weights : list Z) : res E (list Z) :=
  let* gcd := Gcd weights in
  let* sum := weight_sum gcd weights in
  if sum <? 0 then Panic (PRuntime "makeslice: cap out of range")
  else
    let* q := queue_from gcd 0 weights in
    if 1 <? Z.of_nat (length weights)
    then rfold (shuffle_step sum) q (seq 0 (Z.to_nat sum))
    else Ok q.

(** ** The turn of a slave

    A node's slaves are pointers, which can be nil. *)
Record turns (D : Type) := mkTurns {
  Slave : list (option D);
  LastSlaveIndex : Z;
  RoundRobinQ : list Z;
  SlaveWeights : list Z
}.
Arguments mkTurns {D} _ _ _ _.
Arguments Slave {D} _.
Arguments LastSlaveIndex {D} _.
Arguments RoundRobinQ {D} _.
Arguments SlaveWeights {D} _.

Section Turns.
Context {D : Type}.

Definition InitBalancer `{Rand} (n : turns D) : res error (turns D) :=
  let* q := init_queue (SlaveWeights n) in
  Ok (mkTurns (Slave n) 0 q (SlaveWeights n)).

Definition GetNextSlave (n : turns D) : turns D * res error (option D) :=
  let q := RoundRobinQ n in
  let queueLen := Z.of_nat (length q) in
  if queueLen =? 0 then (n, Err ErrNoDatabase)
  else if queueLen =? 1 then (n, let* index := at_ q 0 in at_ (Slave n) index)
  else
    let last := Z.rem (LastSlaveIndex n) queueLen in
    let n := mkTurns (Slave n) last q (SlaveWeights n) in
    match @at_ error _ q last with
    | Ok index =>
        if Z.of_nat (length (Slave n)) <=? index then (n, Err ErrNoDatabase)
        else
          match at_ (Slave n) index with
          | Ok db => (mkTurns (Slave n) (Z.rem (last + 1) queueLen) q (SlaveWeights n), Ok db)
          | r => (n, r)
          end
    | Err e => (n, Err e)
    | Panic p => (n, Panic p)
    end.

(** [k] turns. *)
Fixpoint next_slaves (k : nat) (n : turns D) : turns D * list (res error (option D)) :=
  match k with
  | O => (n, [])
  | S k =>
      let '(n, r) := GetNextSlave n in
      let '(n, l) := next_slaves k n in (n, r :: l)
  end.
End Turns.

(** ** The common divisor *)
Definition common (d : Z) (ary : list Z) : Prop := Forall (fun a => (d | a)) ary.
Definition gcd_of (ary : list Z) : Z := foldr Z.gcd 0 ary.

Lemma common_gcd d ary : common d ary <-> (d | gcd_of ary).
Proof.
  unfold common. induction ary as [|a ary IH]; cbn [gcd_of foldr].
  - split; [intros; apply Z.divide_0_r | constructor].
  - rewrite Forall_cons, IH. split.
    + intros []. by apply Z.gcd_greatest.
    + intros Hd. split; (etrans; [exact Hd|]); [apply Z.gcd_divide_l | apply Z.gcd_divide_r].
Qed.

Lemma is_common_spec {E} d ary : d <> 0 -> exists b, @is_common E d ary = Ok b /\ (b = true <-> common d ary).
Proof.
  intros Hd. induction ary as [|a ary (b & Hb & IH)]; cbn [is_common].
  { exists true. split; [done|]. split; [constructor | done]. }
  unfold go_rem. destruct (Z.eqb_spec d 0); [done|]. cbn [rbind].
  assert (common d (a :: ary) <-> (d | a) /\ common d ary) as Hc by apply Forall_cons.
  destruct (Z.eqb_spec (Z.rem a d) 0) as [Hr|Hr]; cbn [negb].
  - exists b. split; [exact Hb|]. rewrite IH, Hc. apply Z.rem_divide in Hr; [naive_solver | done].
  - exists false. split; [done|]. rewrite Hc. split; [done|]. intros [Ha _]. by apply Z.rem_divide in Ha.
Qed.

Lemma gcd_loop_spec {E} ary fuel m :
  0 < gcd_of ary <= m -> m < Z.of_nat fuel -> @gcd_loop E fuel m ary = Ok (gcd_of ary).
Proof.
  revert m. induction fuel as [|fuel IH]; intros m Hg Hf; [lia|]. cbn [gcd_loop].
  destruct (@is_common_spec E m ary ltac:(lia)) as (b & -> & Hb). cbn [rbind].
  destruct b.
  - f_equal. assert (m | gcd_of ary) as Hd by (apply common_gcd; tauto). apply Z.divide_pos_le in Hd; lia.
  - assert (m <> gcd_of ary).
    { intros ->. assert (false = true); [|done]. apply Hb, common_gcd. reflexivity. }
    destruct (Z.ltb_spec (m - 1) 1); [lia|]. apply IH; lia.
Qed.

Lemma gcd_of_pos ary : ary <> [] -> Forall (Z.lt 0) ary -> 0 < gcd_of ary.
Proof.
  destruct ary as [|a ary]; [done|]. intros _ [Ha _]%Forall_cons. cbn.
  pose proof (Z.gcd_nonneg a (gcd_of ary)). destruct (Z.eq_dec (Z.gcd a (gcd_of ary)) 0) as [E|]; [|unfold gcd_of in *; lia].
  apply Z.gcd_eq_0_l in E. lia.
Qed.

Lemma list_min_in m ary : list_min m ary ∈ m :: ary.
Proof.
  unfold list_min. revert m. induction ary as [|a ary IH]; intros m; cbn [foldl]; [by left|].
  specialize (IH (if a <? m then a else m)). destruct (a <? m); set_solver.
Qed.

Lemma Gcd_spec {E} ary : ary <> [] -> Forall (Z.lt 0) ary -> @Gcd E ary = Ok (gcd_of ary).
Proof.
  intros Hne Hp. unfold Gcd. destruct ary as [|a ary0] eqn:Ea; [done|]. rewrite <- Ea in *.
  assert (ary !! 0%nat = Some a) as Ha by (by rewrite Ea).
  rewrite (proj2 (at_Ok _ 0 a)) by done. cbn [rbind].
  assert (list_min a ary ∈ ary) as Hin.
  { apply list_elem_of_lookup_2 in Ha. pose proof (list_min_in a ary). set_solver. }
  apply gcd_loop_spec; [|lia]. split; [by apply gcd_of_pos|].
  rewrite Forall_forall in Hp. specialize (Hp _ Hin).
  apply Z.divide_pos_le; [done|].
  assert (common (gcd_of ary) ary) as Hc by (by apply common_gcd). unfold common in Hc.
  rewrite Forall_forall in Hc. by apply Hc.
Qed.

(** ** The queue *)

(** What every slave is due: its weight by the common divisor. *)
Definition shares (weights : list Z) : list Z := (fun w => w / gcd_of weights) <$> weights.

(** The queue before it is shuffled. *)
Fixpoint queue (index : Z) (shares : list Z) : list Z :=
  match shares with
  | [] => []
  | n :: shares => replicate (Z.to_nat n) index ++ queue (index + 1) shares
  end.

Lemma go_quot_pos {E} a b : 0 < b -> 0 < a < 2 ^ 63 -> @go_quot E a b = Ok (a / b).
Proof.
  intros Hb Ha. unfold go_quot. destruct (Z.eqb_spec b 0); [lia|].
  rewrite Z.quot_div_nonneg by lia. rewrite i64_id; [done|]. unfold in_i64.
  pose proof (Z.div_pos a b). pose proof (Z.div_le_upper_bound a b a). nia.
Qed.

Lemma queue_from_spec {E} g k weights :
  0 < g -> Forall (fun w => 0 < w < 2 ^ 63) weights ->
  @queue_from E g k weights = Ok (queue k ((fun w => w / g) <$> weights)).
Proof.
  intros Hg Hw. revert k. induction Hw as [|w weights Hw _ IH]; intros k; cbn [queue_from fmap list_fmap queue]; [done|].
  rewrite go_quot_pos by done. cbn [rbind]. by rewrite IH.
Qed.

Lemma queue_range k l : Forall (fun x => k <= x < k + Z.of_nat (length l)) (queue k l).
Proof.
  revert k. induction l as [|n l IH]; intros k; cbn [queue length]; [constructor|].
  apply Forall_app. split; [apply Forall_replicate; lia|].
  eapply Forall_impl; [apply IH|]. intros x. cbn beta. lia.
Qed.

Definition sum_of (l : list Z) : Z := foldr Z.add 0 l.

Lemma sum_of_nonneg l : Forall (Z.le 0) l -> 0 <= sum_of l.
Proof. unfold sum_of. induction 1; cbn [foldr]; lia. Qed.

Lemma queue_length k l : Forall (Z.le 0) l -> Z.of_nat (length (queue k l)) = sum_of l.
Proof.
  intros Hl. revert k. unfold sum_of. induction Hl as [|n l Hn _ IH]; intros k; cbn [queue foldr]; [done|].
  rewrite length_app, length_replicate, Nat2Z.inj_add, IH. lia.
Qed.

Lemma shares_nonneg g weights : 0 < g -> Forall (fun w => 0 < w < 2 ^ 63) weights ->
  Forall (Z.le 0) ((fun w => w / g) <$> weights).
Proof.
  intros Hg Hw. apply Forall_fmap. eapply Forall_impl; [exact Hw|]. intros w Hw'. cbn beta in Hw'. change (0 <= w / g). apply Z.div_pos; lia.
Qed.

Lemma weight_sum_spec {E} g weights s :
  0 < g -> Forall (fun w => 0 < w < 2 ^ 63) weights -> 0 <= s ->
  s + sum_of ((fun w => w / g) <$> weights) < 2 ^ 63 ->
  rfold (fun sum weight => let* n := go_quot weight g in @Ok E Z (i64 (sum + n))) s weights =
  Ok (s + sum_of ((fun w => w / g) <$> weights)).
Proof.
  intros Hg Hw. pose proof (shares_nonneg g weights Hg Hw) as Hn. revert s Hn.
  induction Hw as [|w weights Hw Hws IH]; intros s Hn Hs Hb; unfold sum_of in *; cbn [rfold fmap list_fmap foldr] in *.
  { by rewrite Z.add_0_r. }
  apply Forall_cons in Hn as [Hn0 Hn]. pose proof (sum_of_nonneg _ Hn) as Hsum. unfold sum_of in Hsum.
  rewrite go_quot_pos by done. cbn [rbind]. rewrite i64_id by (unfold in_i64; lia).
  rewrite IH by (done || lia). f_equal. lia.
Qed.

Lemma swap_spec {E} q i j :
  0 <= i < Z.of_nat (length q) -> 0 <= j < Z.of_nat (length q) ->
  exists q', @swap E q i j = Ok q' /\ q' ≡ₚ q.
Proof.
  intros Hi Hj. unfold swap.
  destruct (lookup_lt_is_Some_2 q (Z.to_nat i)) as [a Ha]; [lia|].
  destruct (lookup_lt_is_Some_2 q (Z.to_nat j)) as [b Hb]; [lia|].
  rewrite (proj2 (at_Ok _ i a)) by (split; [lia | done]). cbn [rbind].
  rewrite (proj2 (at_Ok _ j b)) by (split; [lia | done]). cbn [rbind].
  eexists. split; [done|]. by apply Permutation_insert_swap.
Qed.

Section Queue.
Context `{Rand}.

Lemma shuffle_spec {E} sum q ks :
  0 < sum <= Z.of_nat (length q) -> exists q', rfold (@shuffle_step _ E sum) q ks = Ok q' /\ q' ≡ₚ q.
Proof using Type.
  intros Hs. revert q Hs. induction ks as [|k ks IH]; intros q Hs; cbn [rfold]; [by exists q|].
  unfold shuffle_step at 1. destruct (Z.leb_spec sum 0); [lia|].
  pose proof (Intn_range k sum ltac:(lia)) as Hx. set (x := Intn k sum) in *.
  pose proof (Z.mod_pos_bound sum (x + 1) ltac:(lia)).
  destruct (@swap_spec E q x (sum mod (x + 1))) as (q1 & -> & Hp); [lia..|]. cbn [rbind].
  destruct (IH q1) as (q' & -> & Hp'); [by rewrite (Permutation_length Hp)|].
  exists q'. split; [done|]. by rewrite Hp'.
Qed.

(** Positive weights whose shares fit an [int]. *)
Definition weights_ok (weights : list Z) : Prop :=
  weights <> [] /\ Forall (fun w => 0 < w < 2 ^ 63) weights /\ sum_of (shares weights) < 2 ^ 63.

Lemma init_queue_spec {E} weights :
  weights_ok weights -> exists q, @init_queue _ E weights = Ok q /\ q ≡ₚ queue 0 (shares weights).
Proof using Type.
  intros (Hne & Hw & Hs). unfold init_queue.
  assert (Forall (Z.lt 0) weights) as Hp by (eapply Forall_impl; [exact Hw|]; cbn; lia).
  pose proof (gcd_of_pos weights Hne Hp) as Hg.
  rewrite Gcd_spec by done. cbn [rbind]. unfold weight_sum.
  pose proof (shares_nonneg (gcd_of weights) weights Hg Hw) as Hn.
  pose proof (sum_of_nonneg _ Hn). rewrite weight_sum_spec by (done || unfold shares in Hs; lia).
  cbn [rbind]. rewrite Z.add_0_l. fold (shares weights) in *. destruct (Z.ltb_spec (sum_of (shares weights)) 0); [lia|].
  rewrite queue_from_spec by done. cbn [rbind]. fold (shares weights). case_if; [|by eexists].
  destruct (Z.eq_dec (sum_of (shares weights)) 0) as [->|]; [by eexists|].
  apply shuffle_spec. rewrite queue_length by done. lia.
Qed.
End Queue.

(** ** Turns *)
Section Fairness.
Context {D : Type}.
Implicit Types n : turns D.

(** A node whose queue names slaves it has. *)
Definition turns_ok n : Prop :=
  RoundRobinQ n <> [] /\ 0 <= LastSlaveIndex n /\
  Forall (fun i => 0 <= i < Z.of_nat (length (Slave n))) (RoundRobinQ n).

(** The slave of a place of the queue. *)
Definition slave_at n (i : Z) : res error (option D) := at_ (Slave n) i.
Definition pick n (j : nat) : res error (option D) :=
  let* i := at_ (RoundRobinQ n) (Z.of_nat j) in slave_at n i.

Lemma GetNextSlave_turn n :
  turns_ok n ->
  exists n' d, GetNextSlave n = (n', Ok d) /\ turns_ok n' /\
    RoundRobinQ n' = RoundRobinQ n /\ Slave n' = Slave n /\
    pick n (Z.to_nat (LastSlaveIndex n mod Z.of_nat (length (RoundRobinQ n)))) = Ok d /\
    LastSlaveIndex n' mod Z.of_nat (length (RoundRobinQ n)) = (LastSlaveIndex n + 1) mod Z.of_nat (length (RoundRobinQ n)).
Proof using Type.
  intros (Hne & Hlast & Hq). unfold GetNextSlave, pick, slave_at.
  set (q := RoundRobinQ n) in *. set (len := Z.of_nat (length q)).
  assert (0 < len) as Hlen by (subst len; destruct q; cbn; [done | lia]).
  destruct (Z.eqb_spec len 0); [lia|]. rewrite Z.rem_mod_nonneg by lia.
  pose proof (Z.mod_pos_bound (LastSlaveIndex n) len Hlen) as Hm.
  rewrite Z2Nat.id by lia.
  destruct (lookup_lt_is_Some_2 q (Z.to_nat (LastSlaveIndex n mod len))) as [i Hi]; [lia|].
  assert (0 <= i < Z.of_nat (length (Slave n))) as Hir.
  { rewrite Forall_forall in Hq. apply Hq. by eapply list_elem_of_lookup_2. }
  destruct (lookup_lt_is_Some_2 (Slave n) (Z.to_nat i)) as [d Hd]; [lia|].
  assert (at_ (Slave n) i = @Ok error _ d) as Ed by (apply at_Ok; split; [lia | done]).
  assert (at_ q (LastSlaveIndex n mod len) = @Ok error _ i) as Ei by (apply at_Ok; split; [lia | done]).
  rewrite Ei. destruct (Z.eqb_spec len 1) as [E1|].
  - assert (LastSlaveIndex n mod len = 0) as E0 by (rewrite E1; apply Z.mod_1_r).
    rewrite E0 in Ei. rewrite Ei. cbn [rbind]. exists n, d. rewrite Ed.
    split_and!; [done..|]. by rewrite E1, !Z.mod_1_r.
  - cbn [Slave]. destruct (Z.leb_spec (Z.of_nat (length (Slave n))) i); [lia|]. rewrite Ed. cbn [rbind].
    eexists _, d. split; [done|]. cbn [RoundRobinQ Slave LastSlaveIndex].
    rewrite Z.rem_mod_nonneg by lia. pose proof (Z.mod_pos_bound (LastSlaveIndex n mod len + 1) len Hlen).
    split_and!; try done; [split_and!; [done | cbn; lia | done]|].
    by rewrite Z.mod_mod, Z.add_mod_idemp_l by lia.
Qed.

Lemma next_slaves_picks k n :
  turns_ok n ->
  let '(n', l) := next_slaves k n in
  turns_ok n' /\ RoundRobinQ n' = RoundRobinQ n /\ Slave n' = Slave n /\
  l = (fun j => pick n (Z.to_nat ((LastSlaveIndex n + Z.of_nat j) mod Z.of_nat (length (RoundRobinQ n))))) <$> seq 0 k.
Proof using Type.
  revert n. induction k as [|k IH]; intros n Hn; cbn [next_slaves]; [done|].
  destruct (GetNextSlave_turn n Hn) as (n1 & d & -> & Hn1 & Eq & Es & Hd & Hl).
  specialize (IH n1 Hn1). destruct (next_slaves k n1) as [n' l]. destruct IH as (Hn' & Eq' & Es' & ->).
  split_and!; [done | congruence | congruence |]. cbn [seq fmap list_fmap]. rewrite Z.add_0_r. f_equal; [done|].
  rewrite <- fmap_S_seq, <- list_fmap_compose. apply list_fmap_ext. intros _ j _. unfold compose, pick, slave_at.
  rewrite Eq, Es. assert (0 < Z.of_nat (length (RoundRobinQ n))).
  { destruct Hn as (Hne & _). destruct (RoundRobinQ n); [done | cbn; lia]. }
  rewrite <- (Z.add_mod_idemp_l (LastSlaveIndex n1)), Hl, Z.add_mod_idemp_l by lia. replace (LastSlaveIndex n + 1 + Z.of_nat j) with (LastSlaveIndex n + Z.of_nat (S j)) by lia. done.
Qed.

(** A round of places from anywhere in a circle is each place once. *)
Lemma round_perm (p : Z) (len : nat) :
  0 <= p -> (fun j => Z.to_nat ((p + Z.of_nat j) mod Z.of_nat len)) <$> seq 0 len ≡ₚ seq 0 len.
Proof using Type.
  intros Hp. symmetry. apply submseteq_length_Permutation; [|by rewrite length_fmap].
  apply NoDup_submseteq; [apply NoDup_seq|]. intros x Hx. apply elem_of_seq in Hx.
  apply list_elem_of_fmap. exists (Z.to_nat ((Z.of_nat x - p) mod Z.of_nat len)).
  pose proof (Z.mod_pos_bound (Z.of_nat x - p) (Z.of_nat len) ltac:(lia)).
  split; [|apply elem_of_seq; lia]. rewrite Z2Nat.id by lia.
  rewrite Z.add_mod_idemp_r by lia. replace (p + (Z.of_nat x - p)) with (Z.of_nat x) by lia.
  rewrite Z.mod_small by lia. lia.
Qed.

Lemma round_picks n :
  turns_ok n ->
  (next_slaves (length (RoundRobinQ n)) n).2 ≡ₚ slave_at n <$> RoundRobinQ n.
Proof using Type.
  intros Hn. pose proof (next_slaves_picks (length (RoundRobinQ n)) n Hn) as Hp.
  destruct (next_slaves _ n) as [n' l]. destruct Hp as (_ & _ & _ & ->). cbn [snd].
  destruct Hn as (_ & Hl & _).
  change (fun j => pick n _) with (pick n ∘ (fun j => Z.to_nat ((LastSlaveIndex n + Z.of_nat j) mod Z.of_nat (length (RoundRobinQ n))))).
  rewrite list_fmap_compose, round_perm by done. unfold pick.
  apply reflexive_eq. apply list_eq. intros i. rewrite !list_lookup_fmap.
  destruct (decide (i < length (RoundRobinQ n))%nat) as [Hi|Hi].
  - rewrite lookup_seq_lt by done. destruct (lookup_lt_is_Some_2 _ _ Hi) as [x Hx]. rewrite Hx. cbn [fmap option_fmap option_map].
    f_equal. rewrite (proj2 (at_Ok _ _ x)) by (split; [lia|]; by rewrite Nat.add_0_l, Nat2Z.id). done.
  - rewrite lookup_seq_ge by lia. by rewrite lookup_ge_None_2 by lia.
Qed.

(** The slaves of the queue, before it is shuffled. *)
Lemma queue_slaves (pre ds : list (option D)) shares :
  length shares = length ds ->
  (fun i => at_ (pre ++ ds) i) <$> queue (Z.of_nat (length pre)) shares =
  concat (zip_with (fun d w => replicate (Z.to_nat w) (@Ok error _ d)) ds shares).
Proof using Type.
  revert pre shares. induction ds as [|d ds IH]; intros pre [|w shares] E; cbn [length] in E; [done..|].
  cbn [queue zip_with concat]. rewrite fmap_app. f_equal.
  - rewrite fmap_replicate. f_equal. apply at_Ok. split; [lia|].
    by rewrite Nat2Z.id, lookup_app_r, Nat.sub_diag by lia.
  - specialize (IH (pre ++ [d]) shares ltac:(lia)). rewrite length_app in IH. cbn [length] in IH.
    replace (Z.of_nat (length pre) + 1) with (Z.of_nat (length pre + 1)) by lia.
    rewrite <- IH. apply list_fmap_ext. intros _ i _. by rewrite <- app_assoc.
Qed.
End Fairness.

(** C27: the slaves take turns by their weights.  A node with a positive
    weight for each of its slaves gets a queue, whatever the random draws;
    and from any moment on, after any number of earlier requests, the next
    round of requests, as many as the weights sum up to over their greatest
    common divisor, is answered with every slave exactly as often as its
    weight says, and with no error. *)
Theorem slaves_take_turns `{Rand} {D} (n : turns D)
    (Hw : weights_ok (SlaveWeights n)) (Hl : length (Slave n) = length (SlaveWeights n)) :
  exists n', InitBalancer n = Ok n' /\ Slave n' = Slave n /\
  forall earlier,
    (next_slaves (Z.to_nat (sum_of (shares (SlaveWeights n)))) (next_slaves earlier n').1).2 ≡ₚ
    concat (zip_with (fun d w => replicate (Z.to_nat (w / gcd_of (SlaveWeights n))) (Ok d))
                     (Slave n) (SlaveWeights n)).
Proof.
  unfold InitBalancer. destruct (init_queue_spec (E := error) (SlaveWeights n) Hw) as (q & -> & Hq). cbn [rbind].
  eexists. split; [done|]. split; [done|]. intros earlier.
  set (n' := mkTurns _ _ _ _). pose proof Hw as (Hne & Hpos & _).
  assert (Forall (Z.lt 0) (SlaveWeights n)) as Hp by (eapply Forall_impl; [exact Hpos|]; cbn; lia).
  pose proof (gcd_of_pos _ Hne Hp) as Hg.
  pose proof (shares_nonneg _ _ Hg Hpos) as Hnn. fold (shares (SlaveWeights n)) in Hnn.
  assert (Z.of_nat (length q) = sum_of (shares (SlaveWeights n))) as Hlen
    by (rewrite (Permutation_length Hq); by apply queue_length).
  assert (turns_ok n') as Hn.
  { split_and!; cbn; [|lia|].
    - intros ->. apply Permutation_nil in Hq.
      destruct (SlaveWeights n) as [|w ws]; [done|]. unfold shares in Hq. cbn [fmap list_fmap queue] in Hq.
      apply app_eq_nil in Hq as [Hq _]. assert (gcd_of (w :: ws) | w) as Hd by apply Z.gcd_divide_l.
      apply Forall_cons in Hp as [Hw0 _]. apply Z.divide_pos_le in Hd; [|done].
      assert (0 < w / gcd_of (w :: ws)) by (apply Z.div_str_pos; lia).
      by destruct (Z.to_nat (w / gcd_of (w :: ws))) eqn:E; [lia|].
    - rewrite Hq. eapply Forall_impl; [apply queue_range|]. cbn. intros x. unfold shares.
      rewrite length_fmap, Hl. lia. }
  pose proof (next_slaves_picks earlier n' Hn) as Hk. destruct (next_slaves earlier n') as [nk l].
  destruct Hk as (Hnk & Eq & Es & _). cbn [fst]. rewrite <- Hlen, Nat2Z.id.
  change q with (RoundRobinQ n'). rewrite <- Eq, round_picks, Eq by done. unfold slave_at. rewrite Es. cbn [Slave RoundRobinQ n'].
  rewrite Hq. rewrite (queue_slaves [] (Slave n)) by (unfold shares; by rewrite length_fmap).
  unfold shares. rewrite zip_with_fmap_r. done.
Qed.

(** Weights 4, 2 and 6: two, one and three turns of six. *)
Lemma slaves_take_turns_witness :
  let R := {| Intn k n := Z.of_nat k mod n; Intn_range k n Hn := Z.mod_pos_bound _ n Hn |} in
  let n := mkTurns [Some 1; Some 2; None] 0 [] [4; 2; 6] in
  exists n', InitBalancer n = Ok n' /\
    (next_slaves 6 (next_slaves 4 n').1).2 ≡ₚ [Ok (Some 1); Ok (Some 1); Ok (Some 2); Ok None; Ok None; Ok None].
Proof.
  intros R n. destruct (slaves_take_turns n) as (n' & Hi & _ & Hr).
  - split_and!; [done | repeat constructor | reflexivity].
  - reflexivity.
  - exists n'. split; [exact Hi | exact (Hr 4%nat)].
Defined.

(** A weight of 0 in the configuration is a division by zero. *)
Example zero_weight_panics : @Gcd error [3; 0] = Panic (PRuntime "integer divide by zero").
Proof. reflexivity. Qed.
