(* ===== verification/Pool.v ===== *)
(** * The connection pool ([backend/db.go])

    A pool keeps [maxConnNum] places: open connections in the channel
    [cacheConns], places for new ones in [idleConns].  Goroutines take and
    give back places concurrently.  An operation is a sequence of atomic
    steps, one for each access to a channel, a counter or the locked
    fields; the network answers nondeterministically.  The two channels are
    made once and are part of the state; [channels] says whether the fields
    of the [DB] still hold them, since goroutines that read the fields
    earlier keep their references. *)
From S2P Require Import Prelude Errors GoLib.
Open Scope Z_scope.

Definition Up : Z := 0.
Definition Down : Z := 1.
Definition ManualDown : Z := 2.
Definition Unknown : Z := 3.
Definition InitConnCount : Z := 16.
Definition DefaultMaxConnNum : Z := 1024.
Definition PingPeroid : Z := 4.

(** A connection: its identity, and the time it was last put back. *)
Record Conn := mkConn { conn_id : nat; pushTimestamp : Z }.

Record DB := mkDB {
  addr : string; user : string; password : string; db_name : string;
  state : Z;
  maxConnNum : Z; InitConnNum : Z;
  idleConns : list Conn; cacheConns : list Conn;
  channels : bool; idle_closed : bool; cache_closed : bool;
  checkConn : option Conn; lastPing : Z;
  pushConnCount : Z; popConnCount : Z;
  next_id : nat
}.

(** ** Changes of the state *)
Definition set_chans (idle cache : list Conn) (d : DB) : DB :=
  mkDB (addr d) (user d) (password d) (db_name d) (state d) (maxConnNum d) (InitConnNum d) idle cache
    (channels d) (idle_closed d) (cache_closed d) (checkConn d) (lastPing d) (pushConnCount d) (popConnCount d) (next_id d).
Definition set_idle (idle : list Conn) (d : DB) : DB := set_chans idle (cacheConns d) d.
Definition set_cache (cache : list Conn) (d : DB) : DB := set_chans (idleConns d) cache d.
Definition set_open (channels idle_closed cache_closed : bool) (d : DB) : DB :=
  mkDB (addr d) (user d) (password d) (db_name d) (state d) (maxConnNum d) (InitConnNum d) (idleConns d) (cacheConns d)
    channels idle_closed cache_closed (checkConn d) (lastPing d) (pushConnCount d) (popConnCount d) (next_id d).
Definition set_counts (push pop : Z) (d : DB) : DB :=
  mkDB (addr d) (user d) (password d) (db_name d) (state d) (maxConnNum d) (InitConnNum d) (idleConns d) (cacheConns d)
    (channels d) (idle_closed d) (cache_closed d) (checkConn d) (lastPing d) push pop (next_id d).
Definition add_push (d : DB) : DB := set_counts (i64 (pushConnCount d + 1)) (popConnCount d) d.
Definition add_pop (d : DB) : DB := set_counts (pushConnCount d) (i64 (popConnCount d + 1)) d.
Definition set_check (checkConn : option Conn) (lastPing : Z) (next_id : nat) (d : DB) : DB :=
  mkDB (addr d) (user d) (password d) (db_name d) (state d) (maxConnNum d) (InitConnNum d) (idleConns d) (cacheConns d)
    (channels d) (idle_closed d) (cache_closed d) checkConn lastPing (pushConnCount d) (popConnCount d) next_id.
Definition set_state (state : Z) (d : DB) : DB :=
  mkDB (addr d) (user d) (password d) (db_name d) state (maxConnNum d) (InitConnNum d) (idleConns d) (cacheConns d)
    (channels d) (idle_closed d) (cache_closed d) (checkConn d) (lastPing d) (pushConnCount d) (popConnCount d) (next_id d).

(** [new(Conn)] *)
Definition new_Conn (timestamp : Z) (d : DB) : Conn * DB :=
  (mkConn (next_id d) timestamp, set_check (checkConn d) (lastPing d) (S (next_id d)) d).

(** ** What the environment answers to one step: the time, the outcome of
    the step's exchange with the server, if it has one, and whether
    [select] prefers [idleConns] when both channels are ready. *)
Record answer := mkAnswer { now : Z; net : option error; idle_first : bool }.

(** ** Goroutines *)

(** Where [closeConn] returns to. *)
Inductive after : Type :=
| KFree                     (* BackendConn.Close, PushConn *)
| KLoop                     (* GetConnFromCache, with co = nil *)
| KError (e : error)        (* return nil, err *)
| KDrain.                   (* DB.Close *)

Inductive goroutine : Type :=
| Free
(* PopConn *)
| PopConn
| CacheLoop | CacheRecv | CachePopped (co : option Conn) | CachePing (co : option Conn)
| IdleSelect | IdlePopped | IdleNew | IdlePing (co : Conn)
| SelectPopped (co : option Conn) | SelectPing (co : option Conn)
| Reuse (co : Conn)
| Holding (co : Conn)
| Failed (e : error)
(* closeConn, closeConnNotAdd, addIdleConn *)
| CloseConn (co : option Conn) (k : after)
| AddIdle (k : after) | IdleGet (co : Conn) (k : after) | IdleSend (co : Conn) (k : after)
(* PushConn *)
| PushConn (co : option Conn) (err : option error) | PushGet (co : Conn) (err : option error) | PushSend (co : Conn)
(* DB.Close *)
| CloseStart | CloseCache | CloseDrain | CloseIdle
| Panicked (p : panic).

Definition return_to (k : after) : goroutine :=
  match k with KFree => Free | KLoop => CacheLoop | KError e => Failed e | KDrain => CloseDrain end.

Definition expired (a : answer) (co : Conn) : bool := PingPeroid <? i64 (now a - pushTimestamp co).

(** A receive: blocks on an open empty channel, [nil] from a closed one. *)
Definition receive (l : list Conn) (closed : bool) : option (option Conn * list Conn) :=
  match l with
  | co :: l => Some (Some co, l)
  | [] => if closed then Some (None, []) else None
  end.

Definition send_on_closed : goroutine := Panicked (PRuntime "send on closed channel").

(** One step of a goroutine; [None] when it has to wait, or has ended. *)
Definition step (a : answer) (g : goroutine) (d : DB) : option (goroutine * DB) :=
  match g with
  | PopConn => Some (if channels d then CacheLoop else Failed ErrDatabaseClose, d)
  | CacheLoop => Some (if (0 <? length (cacheConns d))%nat then CacheRecv else IdleSelect, d)
  | CacheRecv =>
      match receive (cacheConns d) (cache_closed d) with
      | Some (co, l) => Some (CachePopped co, set_cache l d)
      | None => None
      end
  | CachePopped co => Some (CachePing co, add_pop d)
  | CachePing None => Some (CacheLoop, d)
  | CachePing (Some co) =>
      Some (if expired a co then match net a with None => Reuse co | Some _ => CloseConn (Some co) KLoop end
            else Reuse co, d)
  | IdleSelect =>
      match receive (idleConns d) (idle_closed d), receive (cacheConns d) (cache_closed d) with
      | None, None => None
      | Some (_, l), None => Some (IdlePopped, set_idle l d)
      | None, Some (co, l) => Some (SelectPopped co, set_cache l d)
      | Some (_, l), Some (co, l') =>
          Some (if idle_first a then (IdlePopped, set_idle l d) else (SelectPopped co, set_cache l' d))
      end
  | IdlePopped => Some (IdleNew, add_pop d)
  | IdleNew =>
      match net a with
      | None => let '(co, d) := new_Conn (now a) d in Some (IdlePing co, d)
      | Some e => Some (CloseConn None (KError e), d)
      end
  | IdlePing co =>
      Some (match net a with None => Reuse co | Some _ => CloseConn (Some co) (KError ErrBadConn) end, d)
  | SelectPopped co => Some (SelectPing co, add_pop d)
  | SelectPing None => Some (Failed ErrConnIsNil, d)
  | SelectPing (Some co) =>
      Some (if expired a co
            then match net a with None => Reuse co | Some _ => CloseConn (Some co) (KError ErrBadConn) end
            else Reuse co, d)
  | Reuse co => Some (match net a with None => Holding co | Some e => CloseConn (Some co) (KError e) end, d)
  | CloseConn co k => Some (match co with Some co => IdleGet co k | None => AddIdle k end, add_push d)
  | AddIdle k => let '(co, d) := new_Conn 0 d in Some (IdleGet co k, d)
  | IdleGet co k => Some (if channels d then IdleSend co k else return_to k, d)
  | IdleSend co k =>
      Some (if idle_closed d then (send_on_closed, d)
            else if Z.of_nat (length (idleConns d)) <? maxConnNum d
                 then (return_to k, set_idle (idleConns d ++ [co]) d)
                 else (return_to k, d))
  | PushConn co err => Some (match co with Some co => PushGet co err | None => AddIdle KFree end, add_push d)
  | PushGet co err =>
      Some (if channels d then match err with Some _ => IdleGet co KFree | None => PushSend co end else Free, d)
  | PushSend co =>
      Some (if cache_closed d then (send_on_closed, d)
            else if Z.of_nat (length (cacheConns d)) <? maxConnNum d
                 then (Free, set_cache (cacheConns d ++ [mkConn (conn_id co) (now a)]) d)
                 else (IdleGet (mkConn (conn_id co) (now a)) KFree, d))
  | CloseStart =>
      Some (if channels d then (CloseCache, set_open false (idle_closed d) (cache_closed d) d) else (Free, d))
  | CloseCache =>
      Some (if cache_closed d then (Panicked (PRuntime "close of closed channel"), d)
            else (CloseDrain, set_open (channels d) (idle_closed d) true d))
  | CloseDrain =>
      match receive (cacheConns d) (cache_closed d) with
      | Some (Some co, l) => Some (CloseConn (Some co) KDrain, set_cache l d)
      | Some (None, _) => Some (CloseIdle, d)
      | None => None
      end
  | CloseIdle =>
      Some (if idle_closed d then (Panicked (PRuntime "close of closed channel"), d)
            else (Free, set_open (channels d) true (cache_closed d) d))
  | Free | Holding _ | Failed _ | Panicked _ => None
  end.

(** [BackendConn.Close] of a connection, by whether it had an error of the
    protocol; a second call does nothing. *)
Definition backend_Close (pkgErr : bool) (co : Conn) : goroutine :=
  if pkgErr then CloseConn (Some co) KFree else PushConn (Some co) None.

(** ** Making a pool *)
Definition sizes (maxConnNum : Z) : Z * Z :=
  if 0 <? maxConnNum then (maxConnNum, if maxConnNum <? 16 then maxConnNum else Z.quot maxConnNum 4)
  else (DefaultMaxConnNum, InitConnCount).

Definition newConn (a : answer) (d : DB) : DB * res error Conn :=
  match net a with
  | None => let '(co, d) := new_Conn (now a) d in (d, Ok co)
  | Some e => (d, Err e)
  end.

(** The rounds of the loop from [i] on: [InitConnNum] connections, then
    places. *)
Fixpoint open_loop (answers : nat -> answer) (i fuel : nat) (d : DB) : res error DB :=
  match fuel with
  | O => Ok d
  | S fuel =>
      let* d := (if Z.of_nat i <? InitConnNum d then
                   let '(d, r) := newConn (answers i) d in
                   let* conn := r in Ok (add_push (set_cache (cacheConns d ++ [conn]) d))
                 else
                   let '(conn, d) := new_Conn 0 d in Ok (add_push (set_idle (idleConns d ++ [conn]) d))) in
      open_loop answers (S i) fuel d
  end.

(** [Open]; the first exchange is that of the connection for the checks,
    the [i]-th of the loop follows it. *)
Definition Open (a : answer) (answers : nat -> answer) (addr user password dbName : string) (maxConnNum : Z)
  : res error DB :=
  let '(max, init) := sizes maxConnNum in
  let d := mkDB addr user password dbName Up max init [] [] false false false None 0 0 0 0 in
  let '(d, r) := newConn a d in
  let* conn := r in
  let d := set_state Unknown (set_open true false false (set_check (Some conn) (lastPing d) (next_id d) d)) in
  let* d := open_loop answers 0 (Z.to_nat max) d in
  Ok (set_check (checkConn d) (now a) (next_id d) d).

(** ** The health check's connection *)
Definition Ping (a1 a2 : answer) (d : DB) : DB * option error :=
  let '(d, r) := match checkConn d with Some co => (d, Ok co) | None => newConn a1 d end in
  match r with
  | Ok co =>
      match net a2 with
      | None => (set_check (Some co) (lastPing d) (next_id d) d, None)
      | Some e => (set_check None (lastPing d) (next_id d) d, Some e)
      end
  | Err e => (d, Some e)
  | Panic _ => (d, None)
  end.

Definition SetLastPing (a : answer) (d : DB) : DB := set_check (checkConn d) (now a) (next_id d) d.

Definition State (d : DB) : string :=
  if state d =? Up then "up"
  else if (state d =? Down) || (state d =? ManualDown) then "down"
  else if state d =? Unknown then "unknow" else "".

Definition ConnCount (d : DB) : Z * Z * Z * Z :=
  (Z.of_nat (length (idleConns d)), Z.of_nat (length (cacheConns d)), pushConnCount d, popConnCount d).

(** ** The pool and its goroutines

    A goroutine that is not inside an operation may call one: [GetConn]
    when it has no connection, [BackendConn.Close] when it has one, and any
    may close the pool. *)
Record pool := mkPool { the_db : DB; goroutines : list goroutine }.

Definition set_goroutine (p : pool) (i : nat) (g : goroutine) (d : DB) : pool :=
  mkPool d (<[i := g]> (goroutines p)).

Inductive calls (can_close : bool) : goroutine -> goroutine -> Prop :=
| call_GetConn : calls can_close Free PopConn
| call_Close : can_close = true -> calls can_close Free CloseStart
| call_BackendConn_Close pkgErr co : calls can_close (Holding co) (backend_Close pkgErr co)
| call_failed e : calls can_close (Failed e) Free.

Inductive pool_step (can_close : bool) (p : pool) : pool -> Prop :=
| step_run i g g' a d' :
    goroutines p !! i = Some g -> step a g (the_db p) = Some (g', d') ->
    pool_step can_close p (set_goroutine p i g' d')
| step_call i g g' :
    goroutines p !! i = Some g -> calls can_close g g' ->
    pool_step can_close p (set_goroutine p i g' (the_db p))
| step_go : pool_step can_close p (mkPool (the_db p) (goroutines p ++ [Free])).

(** The pools that a successful [Open] and any interleaving lead to. *)
Inductive reachable (can_close : bool) : pool -> Prop :=
| reachable_Open a answers addr user password dbName maxConnNum d :
    Open a answers addr user password dbName maxConnNum = Ok d ->
    reachable can_close (mkPool d [])
| reachable_step p p' : reachable can_close p -> pool_step can_close p p' -> reachable can_close p'.

(** ** Places *)

(** The place a goroutine has, by where it is. *)
Definition slot (g : goroutine) : nat :=
  match g with
  | CachePopped (Some _) | CachePing (Some _) | SelectPopped (Some _) | SelectPing (Some _)
  | IdlePopped | IdleNew | IdlePing _ | Reuse _ | Holding _
  | CloseConn _ _ | AddIdle _ | IdleGet _ _ | IdleSend _ _ | PushConn _ _ | PushGet _ _ | PushSend _ => 1
  | _ => 0
  end%nat.

(** What the counters have not yet, or already, counted of it. *)
Definition uncounted (g : goroutine) : Z :=
  match g with
  | CachePopped (Some _) | SelectPopped (Some _) | IdlePopped
  | AddIdle _ | IdleGet _ _ | IdleSend _ _ | PushGet _ _ | PushSend _ => 1
  | _ => 0
  end.

(** The connection a goroutine owns. *)
Definition owned (g : goroutine) : list nat :=
  match g with
  | CachePopped (Some co) | CachePing (Some co) | SelectPopped (Some co) | SelectPing (Some co)
  | IdlePing co | Reuse co | Holding co | CloseConn (Some co) _ | IdleGet co _ | IdleSend co _
  | PushConn (Some co) _ | PushGet co _ | PushSend co => [conn_id co]
  | _ => []
  end.

(** States that only a closed pool leads to. *)
Definition closing (g : goroutine) : bool :=
  match g with
  | CloseCache | CloseDrain | CloseIdle | Panicked _
  | CloseConn _ KDrain | AddIdle KDrain | IdleGet _ KDrain | IdleSend _ KDrain
  | CachePopped None | CachePing None | SelectPopped None | SelectPing None => true
  | _ => false
  end.

Definition in_use (p : pool) : nat := list_sum (slot <$> goroutines p).
Definition pending (p : pool) : Z := foldr Z.add 0 (uncounted <$> goroutines p).
Definition free_places (p : pool) : nat :=
  (length (idleConns (the_db p)) + length (cacheConns (the_db p)))%nat.

(** What holds as long as the pool is open. *)
Record open_ok (p : pool) : Prop := {
  ok_chans : idle_closed (the_db p) = false /\ cache_closed (the_db p) = false;
  ok_max : 0 < maxConnNum (the_db p);
  ok_places : Z.of_nat (free_places p + in_use p) = maxConnNum (the_db p);
  ok_counts : i64 (pushConnCount (the_db p) - popConnCount (the_db p)) = i64 (Z.of_nat (free_places p) + pending p);
  ok_goroutines : Forall (fun g => closing g = false) (goroutines p)
}.

Definition pool_inv (p : pool) : Prop := channels (the_db p) = true -> open_ok p.

(** ** The steps keep places and counters *)
Lemma i64_add_cong x y z : i64 x = i64 y -> i64 (x + z) = i64 (y + z).
Proof.
  unfold i64. intros E. f_equal.
  assert ((x + 2 ^ 63) mod 2 ^ 64 = (y + 2 ^ 63) mod 2 ^ 64) as E' by lia.
  replace (x + z + 2 ^ 63) with ((x + 2 ^ 63) + z) by lia. replace (y + z + 2 ^ 63) with ((y + 2 ^ 63) + z) by lia.
  rewrite <- (Z.add_mod_idemp_l (x + 2 ^ 63)), E', Z.add_mod_idemp_l by lia. done.
Qed.

Lemma i64_i64 x : i64 (i64 x) = i64 x.
Proof. apply i64_id, i64_range. Qed.

Lemma i64_opp_sub x y : i64 (x - i64 y) = i64 (x - y).
Proof.
  unfold i64. f_equal. replace (x - ((y + 2 ^ 63) mod 2 ^ 64 - 2 ^ 63) + 2 ^ 63) with (x + 2 ^ 64 - (y + 2 ^ 63) mod 2 ^ 64) by lia.
  rewrite Zminus_mod_idemp_r. replace (x + 2 ^ 64 - (y + 2 ^ 63)) with (x - y + 2 ^ 63) by lia. done.
Qed.

(** What one step changes: [d] and [d'] around it. *)
Record step_ok (g : goroutine) (d : DB) (g' : goroutine) (d' : DB) : Prop := {
  st_chans : channels d = true /\ idle_closed d' = false /\ cache_closed d' = false;
  st_max : maxConnNum d' = maxConnNum d;
  st_places : (length (idleConns d') + length (cacheConns d') + slot g' =
               length (idleConns d) + length (cacheConns d) + slot g)%nat;
  st_counts : i64 (pushConnCount d' - popConnCount d') =
    i64 (pushConnCount d - popConnCount d +
         (Z.of_nat (length (idleConns d') + length (cacheConns d')) + uncounted g' -
          Z.of_nat (length (idleConns d) + length (cacheConns d)) - uncounted g));
  st_closing : closing g' = false
}.

Lemma receive_open l co l' : receive l false = Some (co, l') -> exists c, co = Some c /\ l = c :: l'.
Proof. destruct l; [done|]. intros [= <- <-]. eauto. Qed.

Lemma count_push push pop z w :
  z = w + 1 -> i64 (i64 (push + 1) - pop) = i64 (push - pop + (z - w)).
Proof.
  intros ->. replace (i64 (push + 1) - pop) with (i64 (push + 1) + - pop) by lia.
  rewrite (i64_add_cong _ (push + 1)) by apply i64_i64. f_equal. lia.
Qed.
Lemma count_pop push pop z w :
  z = w - 1 -> i64 (push - i64 (pop + 1)) = i64 (push - pop + (z - w)).
Proof. intros ->. rewrite i64_opp_sub. f_equal. lia. Qed.

(** Runs one step of an open pool: the branches that it can take. *)
Ltac run_step Hs Hi Hca :=
  repeat match type of Hs with
  | context [receive ?l ?b] =>
      rewrite ?Hi, ?Hca in Hs;
      let E := fresh "E" in
      destruct (receive l false) as [[? ?]|] eqn:E; [apply receive_open in E as (? & -> & E)|]
  | context [if idle_closed _ then _ else _] => rewrite Hi in Hs
  | context [if cache_closed _ then _ else _] => rewrite Hca in Hs
  | context [if ?b then _ else _] => let E := fresh "E" in destruct b eqn:E
  | context [match net ?a with _ => _ end] => destruct (net a)
  | context [match ?err with Some _ => _ | None => _ end] => is_var err; destruct err
  end; try discriminate Hs; injection Hs as <- <-.

Lemma step_places a g d g' d' :
  step a g d = Some (g', d') -> channels d' = true ->
  idle_closed d = false -> cache_closed d = false -> closing g = false ->
  Z.of_nat (length (idleConns d) + length (cacheConns d) + slot g) <= maxConnNum d ->
  step_ok g d g' d'.
Proof.
  intros Hs Hc Hi Hca Hg Hmax.
  destruct g; cbn [step closing] in Hs, Hg; try discriminate;
    run_step Hs Hi Hca; cbn in Hc; try discriminate Hc.
  all: repeat match goal with co : option Conn |- _ => destruct co | k : after |- _ => destruct k end;
    try discriminate Hg.
  all: repeat match goal with E : (_ <? _) = true |- _ => apply Z.ltb_lt in E | E : (_ <? _) = false |- _ => apply Z.ltb_ge in E end.
  all: try congruence; constructor; cbn in *;
    rewrite ?length_app; cbn [length];
    repeat match goal with E : ?l = _ :: _ |- _ => rewrite E in *; clear E end;
    try done; try (cbn; lia); try (apply count_push; lia); try (apply count_pop; lia); try (f_equal; cbn; lia).
Qed.

(** *** Over all the goroutines *)
Lemma sum_insert (l : list goroutine) i g g' :
  l !! i = Some g -> (list_sum (slot <$> <[i := g']> l) + slot g = list_sum (slot <$> l) + slot g')%nat.
Proof.
  revert i. induction l as [|x l IH]; intros [|i] Hi; cbn in Hi; try done.
  - injection Hi as ->. cbn [insert list_insert fmap list_fmap list_sum foldr]. lia.
  - specialize (IH i Hi). change (<[S i:=g']> (x :: l)) with (x :: <[i:=g']> l).
    unfold list_sum in *. cbn [fmap list_fmap foldr] in *. lia.
Qed.

Lemma uncounted_insert (l : list goroutine) i g g' :
  l !! i = Some g ->
  foldr Z.add 0 (uncounted <$> <[i := g']> l) + uncounted g = foldr Z.add 0 (uncounted <$> l) + uncounted g'.
Proof.
  revert i. induction l as [|x l IH]; intros [|i] Hi; cbn in Hi; try done.
  - injection Hi as ->. cbn [insert list_insert fmap list_fmap list_sum foldr]. lia.
  - specialize (IH i Hi). change (<[S i:=g']> (x :: l)) with (x :: <[i:=g']> l).
    unfold list_sum in *. cbn [fmap list_fmap foldr] in *. lia.
Qed.

Lemma slot_le p i g : goroutines p !! i = Some g -> (slot g <= in_use p)%nat.
Proof.
  unfold in_use. generalize (goroutines p). intros l. revert i.
  induction l as [|x l IH]; intros [|i] Hi; cbn in Hi; try done; cbn [fmap list_fmap list_sum foldr].
  - injection Hi as ->. apply Nat.le_add_r.
  - specialize (IH i Hi). etrans; [exact IH|]. apply Nat.le_add_l.
Qed.

Lemma calls_keep can_close g g' :
  calls can_close g g' ->
  slot g' = slot g /\ uncounted g' = uncounted g /\ closing g' = false /\ owned g' = owned g.
Proof. intros [| |[] ?|]; done. Qed.

Lemma pool_step_inv can_close p p' : pool_step can_close p p' -> pool_inv p -> pool_inv p'.
Proof.
  intros Hs Hinv Hopen. destruct Hs as [i g g' a d' Hi Hs|i g g' Hi Hc|]; cbn in Hopen.
  - assert (channels (the_db p) = true) as Hch.
    { destruct (channels (the_db p)) eqn:E; [done|]. exfalso.
      destruct g; cbn [step] in Hs; try discriminate; rewrite ?E in Hs;
        repeat match type of Hs with
        | context [match receive ?l ?b with _ => _ end] => destruct (receive l b) as [[? ?]|]
        | context [if ?b then _ else _] => destruct b
        | context [match ?o with Some _ => _ | None => _ end] => destruct o
        end; try discriminate Hs; injection Hs as <- <-; cbn in Hopen; congruence. }
    destruct (Hinv Hch) as [[H1 H2] H3 H4 H5 H6].
    pose proof (slot_le p i g Hi) as Hle. unfold free_places in *.
    assert (closing g = false) as Hg by (rewrite Forall_forall in H6; apply H6; by eapply list_elem_of_lookup_2).
    destruct (step_places a g (the_db p) g' d' Hs Hopen H1 H2 Hg ltac:(lia)) as [(_ & S1 & S2) S3 S4 S5 S6].
    pose proof (sum_insert _ i g g' Hi) as Hsum. pose proof (uncounted_insert _ i g g' Hi) as Hunc.
    split; unfold set_goroutine, free_places, in_use, pending in *; cbn [the_db goroutines] in *.
    + done.
    + by rewrite S3.
    + rewrite S3. lia.
    + rewrite S5, (i64_add_cong _ _ _ H5). f_equal. lia.
    + by apply Forall_insert.
  - destruct (Hinv Hopen) as [H1 H2 H3 H4 H5]. apply calls_keep in Hc as (S1 & S2 & S3 & _).
    pose proof (sum_insert _ i g g' Hi) as Hsum. pose proof (uncounted_insert _ i g g' Hi) as Hunc.
    split; unfold set_goroutine, free_places, in_use, pending in *; cbn [the_db goroutines] in *; try done.
    + lia.
    + rewrite H4. f_equal. lia.
    + by apply Forall_insert.
  - destruct (Hinv Hopen) as [H1 H2 H3 H4 H5].
    split; unfold free_places, in_use, pending in *; cbn [the_db goroutines] in *; try done.
    + rewrite fmap_app, list_sum_app. cbn. lia.
    + rewrite H4, fmap_app, foldr_app. done.
    + apply Forall_app. split; [done | by repeat constructor].
Qed.

(** *** A new pool *)
Lemma sizes_pos max : 0 < (sizes max).1.
Proof. unfold sizes. destruct (Z.ltb_spec 0 max); cbn; [done | reflexivity]. Qed.

(** The loop of [Open] fills one of the channels in each round. *)
Record open_loop_ok (i : nat) (d : DB) : Prop := {
  ol_chans : channels d = true /\ idle_closed d = false /\ cache_closed d = false;
  ol_places : (length (idleConns d) + length (cacheConns d) = i)%nat;
  ol_counts : pushConnCount d = i64 (Z.of_nat i) /\ popConnCount d = 0;
  ol_fresh : NoDup (conn_id <$> idleConns d ++ cacheConns d) /\
             Forall (fun co => (conn_id co < next_id d)%nat) (idleConns d ++ cacheConns d)
}.

Lemma open_loop_inv answers fuel i d d' :
  open_loop answers i fuel d = Ok d' -> open_loop_ok i d ->
  open_loop_ok (i + fuel) d' /\ maxConnNum d' = maxConnNum d.
Proof.
  revert i d. induction fuel as [|fuel IH]; intros i d Hl Hd; cbn [open_loop] in Hl.
  { injection Hl as <-. by rewrite Nat.add_0_r. }
  apply rbind_Ok_inv in Hl as (d1 & H1 & Hl). replace (i + S fuel)%nat with (S i + fuel)%nat by lia.
  destruct Hd as [Hc Hp [Hpush Hpop] [Hnd Hlt]].
  assert (forall l l' : list Conn, l ++ l' ≡ₚ idleConns d ++ cacheConns d -> forall ts,
    NoDup (conn_id <$> mkConn (next_id d) ts :: l ++ l') /\
    Forall (fun co => (conn_id co < S (next_id d))%nat) (mkConn (next_id d) ts :: l ++ l')) as Hfresh.
  { intros l l' Hl' ts. cbn [fmap list_fmap]. rewrite NoDup_cons, Forall_cons. cbn. rewrite Hl'. split_and!.
    - intros (co & E & Hco)%list_elem_of_fmap. rewrite Forall_forall in Hlt. specialize (Hlt co Hco). cbn beta in Hlt. lia.
    - done.
    - lia.
    - eapply Forall_impl; [exact Hlt|]. cbn. lia. }
  assert (i64 (i64 (Z.of_nat i) + 1) = i64 (Z.of_nat (S i))) as Hcount
    by (rewrite (i64_add_cong _ (Z.of_nat i)) by apply i64_i64; f_equal; lia).
  assert (open_loop_ok (S i) d1 /\ maxConnNum d1 = maxConnNum d) as [Hd1 <-]; [|by apply (IH (S i))].
  case_if_in H1.
  - unfold newConn in H1. destruct (net (answers i)); [done|]. cbn [rbind] in H1. injection H1 as <-.
    split; [|done]. split; cbn; [done | rewrite length_app; cbn; lia | by rewrite Hpush |].
    rewrite app_assoc, (Permutation_app_comm _ [_]). cbn [app]. apply (Hfresh (idleConns d) (cacheConns d)). done.
  - cbn [new_Conn] in H1. injection H1 as <-.
    split; [|done]. split; cbn; [done | rewrite length_app; cbn; lia | by rewrite Hpush |].
    rewrite <- app_assoc, (Permutation_app_comm (idleConns d)). cbn [app]. apply Hfresh. by rewrite Permutation_app_comm.
Qed.

Lemma Open_inv a answers addr user password dbName max d :
  Open a answers addr user password dbName max = Ok d ->
  open_loop_ok (Z.to_nat (maxConnNum d)) d /\ 0 < maxConnNum d.
Proof.
  unfold Open. pose proof (sizes_pos max) as Hpos. destruct (sizes max) as [m init]. cbn [fst] in Hpos.
  unfold newConn. destruct (net a); [done|]. cbn [new_Conn rbind]. intros H.
  apply rbind_Ok_inv in H as (d1 & H1 & H). injection H as <-.
  destruct (open_loop_inv answers (Z.to_nat m) 0 _ d1 H1) as [[] Em].
  { split; cbn; [done | done | done |]. split; constructor. }
  cbn in Em. split; [|cbn; lia]. cbn [maxConnNum set_check]. rewrite Em. split; done.
Qed.

Lemma reachable_inv can_close p : reachable can_close p -> pool_inv p.
Proof.
  induction 1 as [a answers addr user password dbName max d Hd|p p' _ IH Hs]; [|by eapply pool_step_inv].
  intros _. apply Open_inv in Hd as [[H1 H2 [H3 H3'] _] Hpos].
  split; unfold free_places, in_use, pending; cbn [the_db goroutines fmap list_fmap list_sum foldr].
  - tauto.
  - done.
  - cbn. lia.
  - rewrite H3, H3', H2, Z.sub_0_r, Z.add_0_r, i64_i64. done.
  - constructor.
Qed.

(** ** Connections have one owner *)
Definition chan_ids (d : DB) : list nat := (conn_id <$> idleConns d) ++ (conn_id <$> cacheConns d).
Definition all_ids (p : pool) : list nat := chan_ids (the_db p) ++ concat (owned <$> goroutines p).

Record ids_ok (p : pool) : Prop := {
  ids_distinct : NoDup (all_ids p);
  ids_made : Forall (fun i => (i < next_id (the_db p))%nat) (all_ids p)
}.

Lemma owned_return k : owned (return_to k) = [].
Proof. by destruct k. Qed.

(** A step only moves connections, drops them, or makes a new one. *)
Lemma step_ids a g d g' d' :
  step a g d = Some (g', d') ->
  exists made, chan_ids d' ++ owned g' ⊆+ made ++ chan_ids d ++ owned g /\
    (made = [] /\ next_id d' = next_id d \/ made = [next_id d] /\ next_id d' = S (next_id d)).
Proof.
  intros Hs. unfold chan_ids. destruct g; cbn [step] in Hs; try discriminate Hs;
  repeat match type of Hs with
  | context [receive ?l ?b] =>
      let E := fresh "E" in destruct l eqn:E; cbn [receive] in Hs
  | context [if ?b then _ else _] => destruct b
  | context [match ?o with Some _ => _ | None => _ end] => destruct o
  end; try discriminate Hs; injection Hs as <- <-.
  all: try (by (exists []; cbn; rewrite ?fmap_app; cbn; repeat match goal with E : ?l = _ |- _ => rewrite E; clear E end;
      cbn; rewrite ?owned_return, ?app_nil_r; split; [solve_submseteq | by left])).
  all: exists [next_id d]; cbn; (split; [solve_submseteq | by right]).
Qed.

Lemma owned_insert (l : list goroutine) i g g' :
  l !! i = Some g -> concat (owned <$> <[i := g']> l) ++ owned g ≡ₚ concat (owned <$> l) ++ owned g'.
Proof.
  revert i. induction l as [|x l IH]; intros [|i] Hi; cbn in Hi; try done.
  - injection Hi as ->. cbn [insert list_insert fmap list_fmap concat]. solve_Permutation.
  - specialize (IH i Hi). change (<[S i:=g']> (x :: l)) with (x :: <[i:=g']> l). cbn [fmap list_fmap concat].
    by rewrite <- !app_assoc, IH.
Qed.

Lemma ids_ok_submseteq p p' made :
  ids_ok p -> all_ids p' ⊆+ made ++ all_ids p ->
  made = [] /\ next_id (the_db p') = next_id (the_db p) \/
  made = [next_id (the_db p)] /\ next_id (the_db p') = S (next_id (the_db p)) ->
  ids_ok p'.
Proof.
  intros [Hnd Hlt] Hsub Hm. rewrite Forall_forall in Hlt.
  assert (NoDup (made ++ all_ids p) /\ Forall (fun i => (i < next_id (the_db p'))%nat) (made ++ all_ids p)) as [Hnd' Hlt'].
  { destruct Hm as [[-> ->]|[-> ->]]; cbn [app]; [split; [done | by apply Forall_forall]|]. split.
    - constructor; [|done]. intros Hin. specialize (Hlt _ Hin). lia.
    - constructor; [lia|]. apply Forall_forall. intros i Hi. specialize (Hlt i Hi). lia. }
  split.
  - apply submseteq_Permutation in Hsub as [k Hk]. rewrite Hk in Hnd'. by apply NoDup_app in Hnd' as (? & _).
  - rewrite Forall_forall in Hlt' |- *. intros i Hi. apply Hlt'. by eapply elem_of_submseteq.
Qed.

Lemma pool_step_ids can_close p p' : pool_step can_close p p' -> ids_ok p -> ids_ok p'.
Proof.
  intros Hs Hok. destruct Hs as [i g g' a d' Hi Hs|i g g' Hi Hc|].
  - destruct (step_ids _ _ _ _ _ Hs) as (made & Hsub & Hm). apply (ids_ok_submseteq p _ made); [done | | exact Hm].
    unfold all_ids, set_goroutine. cbn [the_db goroutines]. pose proof (owned_insert _ i g g' Hi) as Hp.
    apply (submseteq_app_inv_r _ _ (owned g)). rewrite <- (app_assoc (chan_ids d')), Hp.
    rewrite (Permutation_app_comm (concat _)), app_assoc.
    etrans; [apply submseteq_skips_r, Hsub | solve_submseteq].
  - destruct (calls_keep _ _ _ Hc) as (_ & _ & _ & Ho). apply (ids_ok_submseteq p _ []); [done | | by left].
    unfold all_ids, set_goroutine. cbn [the_db goroutines app]. pose proof (owned_insert _ i g g' Hi) as Hp.
    rewrite Ho in Hp. apply Permutation_app_inv_r in Hp. by rewrite Hp.
  - apply (ids_ok_submseteq p _ []); [done | | by left].
    unfold all_ids. cbn [the_db goroutines app]. rewrite fmap_app, concat_app. cbn. by rewrite app_nil_r.
Qed.

Lemma reachable_ids can_close p : reachable can_close p -> ids_ok p.
Proof.
  induction 1 as [a answers addr user password dbName max d Hd|p p' _ IH Hs]; [|by eapply pool_step_ids].
  apply Open_inv in Hd as [[_ _ _ [H1 H2]] _].
  split; unfold all_ids, chan_ids; cbn [the_db goroutines fmap list_fmap concat]; rewrite app_nil_r, <- fmap_app;
    [done | by apply Forall_fmap].
Qed.

Lemma owned_disjoint (l : list goroutine) i j g g' x :
  NoDup (concat (owned <$> l)) -> l !! i = Some g -> l !! j = Some g' -> x ∈ owned g -> x ∈ owned g' -> i = j.
Proof.
  revert i j. induction l as [|y l IH]; intros i j Hnd Hi Hj Hx Hx'; [done|].
  cbn [fmap list_fmap concat] in Hnd. apply NoDup_app in Hnd as (_ & Hd & Hnd).
  assert (forall k h, l !! k = Some h -> x ∈ owned h -> x ∈ concat (owned <$> l)) as Hin.
  { intros k h Hk Hxh. apply list_elem_of_In, in_concat. exists (owned h). split; apply list_elem_of_In; [|done].
    apply list_elem_of_fmap. exists h. split; [done|]. by eapply list_elem_of_lookup_2. }
  destruct i as [|i], j as [|j]; cbn in Hi, Hj; [done| | |f_equal; by apply IH].
  - injection Hi as ->. exfalso. eapply Hd; [exact Hx|]. by eapply Hin.
  - injection Hj as ->. exfalso. eapply Hd; [exact Hx'|]. by eapply Hin.
Qed.

(** ** What the pool guarantees *)

(** C18: a connection has one user.  Whatever the interleaving of any number
    of goroutines that get, use, return and lose connections and close the
    pool, and whatever the network answers, two goroutines never hold the
    same connection, and a connection that is held is in neither channel. *)
Theorem connections_never_shared can_close p i j co co'
    (Hp : reachable can_close p) (Hij : i <> j)
    (Hi : goroutines p !! i = Some (Holding co)) (Hj : goroutines p !! j = Some (Holding co')) :
  conn_id co <> conn_id co' /\ conn_id co ∉ chan_ids (the_db p).
Proof.
  destruct (reachable_ids _ _ Hp) as [Hnd _]. unfold all_ids in Hnd. apply NoDup_app in Hnd as (_ & Hd & Hnd).
  split.
  - intros E. apply Hij. eapply (owned_disjoint _ i j _ _ (conn_id co) Hnd Hi Hj); cbn; [by left | rewrite E; by left].
  - intros Hin. apply (Hd _ Hin). apply list_elem_of_In, in_concat. exists [conn_id co].
    split; apply list_elem_of_In; [|by left]. apply list_elem_of_fmap. exists (Holding co).
    split; [done|]. by eapply list_elem_of_lookup_2.
Qed.

(** *** Executable runs, for the concrete ones *)
Inductive move : Type :=
| MGo
| MGet (i : nat) | MClose (i : nat) | MReturn (pkgErr : bool) (i : nat)
| MRun (a : answer) (i : nat).

Definition do_move (p : pool) (m : move) : option pool :=
  match m with
  | MGo => Some (mkPool (the_db p) (goroutines p ++ [Free]))
  | MGet i => match goroutines p !! i with
              | Some Free => Some (set_goroutine p i PopConn (the_db p))
              | _ => None
              end
  | MClose i => match goroutines p !! i with
                | Some Free => Some (set_goroutine p i CloseStart (the_db p))
                | _ => None
                end
  | MReturn pkgErr i => match goroutines p !! i with
                        | Some (Holding co) => Some (set_goroutine p i (backend_Close pkgErr co) (the_db p))
                        | _ => None
                        end
  | MRun a i => g ← goroutines p !! i; '(g', d') ← step a g (the_db p); Some (set_goroutine p i g' d')
  end.

Definition schedule (ms : list move) (p : pool) : option pool :=
  foldl (fun o m => p ← o; do_move p m) (Some p) ms.

Lemma do_move_step p m p' : do_move p m = Some p' -> pool_step true p p'.
Proof.
  destruct m as [|i|i|pkgErr i|a i]; cbn; intros H.
  - injection H as <-. constructor.
  - destruct (goroutines p !! i) as [[]|] eqn:E; try done. injection H as <-. eapply step_call; [done | constructor].
  - destruct (goroutines p !! i) as [[]|] eqn:E; try done. injection H as <-. eapply step_call; [done | by constructor].
  - destruct (goroutines p !! i) as [[]|] eqn:E; try done. injection H as <-. eapply step_call; [done | constructor].
  - destruct (goroutines p !! i) as [g|] eqn:E; [|done]. cbn in H.
    destruct (step a g (the_db p)) as [[g' d']|] eqn:Es; [|done]. cbn in H. injection H as <-. by eapply step_run.
Qed.

Lemma schedule_reachable ms p p' : reachable true p -> schedule ms p = Some p' -> reachable true p'.
Proof.
  unfold schedule. revert p. induction ms as [|m ms IH]; intros p Hp H; cbn in H; [by injection H as <-|].
  destruct (do_move p m) as [p1|] eqn:E.
  - eapply (IH p1); [|exact H]. eapply reachable_step; [exact Hp|]. by eapply do_move_step.
  - exfalso. clear -H. induction ms; [done | by apply IHms].
Qed.

(** The server answers, at time [t]. *)
Definition yes (t : Z) : answer := mkAnswer t None true.
Definition runs (n : nat) (i : nat) : list move := replicate n (MRun (yes 0) i).

(** A pool of two, as [Open] makes it. *)
Definition small_pool : pool :=
  mkPool (match Open (yes 0) (fun _ => yes 0) "a" "" "" "" 2 with Ok d => d | _ => mkDB "" "" "" "" 0 0 0 [] [] false false false None 0 0 0 0 end) [].

Lemma small_pool_reachable can_close : reachable can_close small_pool.
Proof. eapply (reachable_Open _ (yes 0) (fun _ => yes 0) "a" "" "" "" 2). vm_compute. reflexivity. Qed.

Definition two_users : list move :=
  [MGo; MGo; MGet 0; MGet 1] ++ runs 6 0 ++ runs 6 1.

Lemma connections_never_shared_witness :
  exists p co co', schedule two_users small_pool = Some p /\
    goroutines p !! 0%nat = Some (Holding co) /\ goroutines p !! 1%nat = Some (Holding co') /\
    conn_id co <> conn_id co' /\ conn_id co ∉ chan_ids (the_db p).
Proof.
  destruct (schedule two_users small_pool) as [p|] eqn:E; [|by vm_compute in E].
  pose proof (schedule_reachable _ _ _ (small_pool_reachable true) E) as Hr.
  vm_compute in E. injection E as E.
  exists p, (mkConn 1 0), (mkConn 2 0).
  assert (goroutines p !! 0%nat = Some (Holding (mkConn 1 0))) as H0 by by rewrite <- E.
  assert (goroutines p !! 1%nat = Some (Holding (mkConn 2 0))) as H1 by by rewrite <- E.
  split_and!; [done..| |].
  - exact (proj1 (connections_never_shared true p 0 1 _ _ Hr ltac:(done) H0 H1)).
  - exact (proj2 (connections_never_shared true p 0 1 _ _ Hr ltac:(done) H0 H1)).
Defined.

Definition is_holding (g : goroutine) : bool := match g with Holding _ => true | _ => false end.

(** C19: places are neither lost nor made.  While the pool is open, in every
    interleaving, the free places and those that goroutines have add up to
    [maxConnNum]; so at most [maxConnNum] goroutines hold a connection, no
    place is dropped because a channel is full, no goroutine panics or gets
    nil from a channel; and the counters that the administrator sees differ
    by the free places, up to the steps under way. *)
Theorem pool_conserves_places can_close p (Hp : reachable can_close p) (Ho : channels (the_db p) = true) :
  Z.of_nat (free_places p + in_use p) = maxConnNum (the_db p) /\
  Z.of_nat (length (filter (fun g => is_holding g = true) (goroutines p))) <= maxConnNum (the_db p) /\
  (forall pn, Panicked pn ∉ goroutines p) /\
  i64 (pushConnCount (the_db p) - popConnCount (the_db p)) = i64 (Z.of_nat (free_places p) + pending p) /\
  (Forall (fun g => uncounted g = 0) (goroutines p) ->
   i64 (pushConnCount (the_db p) - popConnCount (the_db p)) = i64 (Z.of_nat (free_places p))).
Proof.
  destruct (reachable_inv _ _ Hp Ho) as [H1 H2 H3 H4 H5]. split_and!; [done | | | done |].
  - assert (length (filter (fun g => is_holding g = true) (goroutines p)) <= in_use p)%nat; [|lia].
    unfold in_use. clear. induction (goroutines p) as [|g l IH]; [done|]. cbn [fmap list_fmap list_sum foldr].
    rewrite filter_cons. unfold list_sum in IH. destruct (decide _) as [Hh|]; [destruct g; try done|]; cbn [length slot]; lia.
  - intros pn Hin. rewrite Forall_forall in H5. by specialize (H5 _ Hin).
  - intros Hu. rewrite H4. f_equal. unfold pending.
    assert (foldr Z.add 0 (uncounted <$> goroutines p) = 0) as ->; [|lia].
    clear -Hu. induction Hu as [|g l Hg _ IH]; [done|]. cbn [fmap list_fmap foldr]. lia.
Qed.

Lemma pool_conserves_places_witness :
  exists p, schedule (two_users ++ [MReturn true 0; MGo; MGet 2; MRun (yes 9) 2; MRun (yes 9) 2]) small_pool = Some p /\
    free_places p = 0%nat /\ in_use p = 2%nat /\
    Z.of_nat (free_places p + in_use p) = maxConnNum (the_db p).
Proof.
  destruct (schedule _ small_pool) as [p|] eqn:E; [|by vm_compute in E].
  pose proof (schedule_reachable _ _ _ (small_pool_reachable true) E) as Hr. exists p. split; [done|].
  assert (channels (the_db p) = true) as Hc by (vm_compute in E; injection E as <-; reflexivity).
  split_and!; [| | exact (proj1 (pool_conserves_places true p Hr Hc))];
    vm_compute in E; injection E as <-; reflexivity.
Defined.

(** *** The pool is a semaphore

    Abstractly a pool is the set of the goroutines that have a place, of at
    most [maxConnNum] members. *)
Inductive semaphore_step (max : Z) (S : gset nat) : gset nat -> Prop :=
| acquire i : i ∉ S -> Z.of_nat (size S) < max -> semaphore_step max S ({[i]} ∪ S)
| release i : i ∈ S -> semaphore_step max S (S ∖ {[i]})
| silent : semaphore_step max S S.

Definition holds (l : list goroutine) (i : nat) : bool :=
  match l !! i with Some g => Nat.eqb (slot g) 1 | None => false end.
Definition holder_list (l : list goroutine) : list nat :=
  filter (fun i => holds l i = true) (seq 0 (length l)).
Definition holders (p : pool) : gset nat := list_to_set (holder_list (goroutines p)).

Lemma elem_of_holders p i : i ∈ holders p <-> holds (goroutines p) i = true.
Proof.
  unfold holders, holder_list. rewrite elem_of_list_to_set, list_elem_of_filter, elem_of_seq.
  split; [tauto|]. intros Hh. split; [done|]. unfold holds in Hh.
  destruct (goroutines p !! i) eqn:E; [|done]. apply lookup_lt_Some in E. lia.
Qed.

Lemma filter_ext_in {A} (P Q : A -> Prop) `{!forall x, Decision (P x), !forall x, Decision (Q x)} (l : list A) :
  (forall x, x ∈ l -> P x <-> Q x) -> filter P l = filter Q l.
Proof.
  induction l as [|x l IH]; intros HPQ; [done|]. rewrite !filter_cons, IH by set_solver.
  specialize (HPQ x ltac:(by left)). repeat destruct (decide _); tauto.
Qed.

Lemma slot_cases g : slot g = 0%nat \/ slot g = 1%nat.
Proof. destruct g as [| | | |[]|[]| | | | |[]|[]| | | | | | | | | | | | | | |]; cbn; auto. Qed.

Lemma size_holders p : size (holders p) = in_use p.
Proof.
  unfold holders, in_use. rewrite size_list_to_set by (apply NoDup_filter, NoDup_seq).
  unfold holder_list. induction (goroutines p) as [|g l IH] using rev_ind; [done|].
  rewrite length_app, Nat.add_1_r, seq_S, filter_app, length_app, fmap_app, list_sum_app.
  assert (filter (fun i => holds (l ++ [g]) i = true) (seq 0 (length l)) =
          filter (fun i => holds l i = true) (seq 0 (length l))) as ->.
  { apply filter_ext_in. intros i Hi%elem_of_seq. unfold holds. by rewrite lookup_app_l by lia. }
  rewrite IH. f_equal. cbn [Nat.add]. rewrite filter_cons. unfold holds.
  rewrite lookup_app_r, Nat.sub_diag by lia. cbn [lookup list_lookup].
  destruct (slot_cases g) as [E|E]; rewrite E; cbn; rewrite E; done.
Qed.

Lemma holders_set p i g g' d' :
  goroutines p !! i = Some g ->
  forall j, j ∈ holders (set_goroutine p i g' d') <-> if decide (j = i) then slot g' = 1%nat else j ∈ holders p.
Proof.
  intros Hi j. rewrite !elem_of_holders. unfold set_goroutine, holds. cbn [goroutines].
  destruct (decide (j = i)) as [->|].
  - rewrite list_lookup_insert_eq by (by eapply lookup_lt_Some). by rewrite Nat.eqb_eq.
  - rewrite elem_of_holders. unfold holds. by rewrite list_lookup_insert_ne by congruence.
Qed.

Lemma holders_here p i g : goroutines p !! i = Some g -> (i ∈ holders p <-> slot g = 1%nat).
Proof. intros Hi. rewrite elem_of_holders. unfold holds. by rewrite Hi, Nat.eqb_eq. Qed.

(** Changing one goroutine is a step of the semaphore if it fits. *)
Lemma semaphore_set p i g g' d' max :
  goroutines p !! i = Some g -> Z.of_nat (in_use (set_goroutine p i g' d')) <= max ->
  semaphore_step max (holders p) (holders (set_goroutine p i g' d')).
Proof.
  intros Hi Hmax. pose proof (holders_set p i g g' d' Hi) as Hh. pose proof (holders_here p i g Hi) as Hg.
  pose proof (sum_insert _ i g g' Hi) as Hs.
  destruct (slot_cases g) as [Eg|Eg], (slot_cases g') as [Eg'|Eg'].
  - replace (holders (set_goroutine p i g' d')) with (holders p); [constructor|].
    apply set_eq. intros j. rewrite Hh. destruct (decide (j = i)) as [->|]; [rewrite Hg; lia | done].
  - replace (holders (set_goroutine p i g' d')) with ({[i]} ∪ holders p).
    + constructor; [rewrite Hg; lia|]. rewrite size_holders. unfold in_use, set_goroutine in *. cbn [goroutines] in *. lia.
    + apply set_eq. intros j. rewrite Hh. destruct (decide (j = i)) as [->|]; set_solver.
  - replace (holders (set_goroutine p i g' d')) with (holders p ∖ {[i]}).
    + constructor. rewrite Hg. lia.
    + apply set_eq. intros j. rewrite Hh. destruct (decide (j = i)) as [->|]; [rewrite Eg'; set_solver | set_solver].
  - replace (holders (set_goroutine p i g' d')) with (holders p); [constructor|].
    apply set_eq. intros j. rewrite Hh. destruct (decide (j = i)) as [->|]; [rewrite Hg; lia | done].
Qed.

Lemma pool_step_max can_close p p' : pool_step can_close p p' -> maxConnNum (the_db p') = maxConnNum (the_db p).
Proof.
  intros [i g g' a d' Hi Hs|i g g' Hi Hc|]; [|done..]. cbn.
  destruct g; cbn [step] in Hs; try discriminate Hs;
    repeat match type of Hs with
    | context [match receive ?l ?b with _ => _ end] => destruct (receive l b) as [[? ?]|]
    | context [if ?b then _ else _] => destruct b
    | context [match ?o with Some _ => _ | None => _ end] => destruct o
    end; try discriminate Hs; by injection Hs as <- <-.
Qed.

(** C20: the pool refines a counting semaphore.  Every step of every
    goroutine, as long as the pool stays open, is a step of the abstract
    semaphore on the set of goroutines that have a place: one goroutine
    acquires a place while fewer than [maxConnNum] are taken, one gives its
    place back, or nothing changes; and a goroutine in [GetConn] has to
    wait at the channels exactly when all the places are taken. *)
Theorem pool_refines_semaphore can_close p p'
    (Hp : reachable can_close p) (Hs : pool_step can_close p p') (Ho : channels (the_db p') = true) :
  semaphore_step (maxConnNum (the_db p)) (holders p) (holders p') /\
  forall a, step a IdleSelect (the_db p') = None <-> Z.of_nat (size (holders p')) = maxConnNum (the_db p).
Proof.
  pose proof (reachable_inv _ _ (reachable_step _ _ _ Hp Hs) Ho) as [[H1 H2] H3 H4 _ _].
  pose proof (pool_step_max _ _ _ Hs) as Hmax. split.
  - destruct Hs as [i g g' a d' Hi Hs|i g g' Hi Hc|].
    + eapply semaphore_set; [exact Hi|]. lia.
    + eapply semaphore_set; [exact Hi|]. lia.
    + replace (holders (mkPool _ _)) with (holders p); [constructor|].
      apply set_eq. intros j. rewrite !elem_of_holders. unfold holds. cbn [goroutines].
      destruct (decide (j < length (goroutines p))%nat); [by rewrite lookup_app_l by lia|].
      rewrite lookup_app_r by lia. rewrite (lookup_ge_None_2 (goroutines p)) by lia.
      destruct (j - length (goroutines p))%nat as [|[]]; done.
  - intros a. rewrite size_holders. cbn [step]. rewrite H1, H2. unfold free_places in H4. rewrite <- Hmax.
    destruct (idleConns (the_db p')), (cacheConns (the_db p')); cbn [receive length] in *; split; (done || lia).
Qed.

Lemma pool_refines_semaphore_witness :
  exists p p', schedule two_users small_pool = Some p /\ do_move p (MReturn true 0) = Some p' /\
    semaphore_step 2 (holders p) (holders p') /\ holders p = {[0%nat; 1%nat]}.
Proof.
  destruct (schedule two_users small_pool) as [p|] eqn:E; [|by vm_compute in E].
  pose proof (schedule_reachable _ _ _ (small_pool_reachable true) E) as Hr.
  destruct (do_move p (MReturn true 0)) as [p'|] eqn:E'; [|by (vm_compute in E; injection E as <-; vm_compute in E')].
  pose proof (do_move_step _ _ _ E') as Hs. exists p, p'. split_and!; [done..| |].
  - assert (maxConnNum (the_db p) = 2) as <- by (vm_compute in E; injection E as <-; reflexivity).
    refine (proj1 (pool_refines_semaphore true p p' Hr Hs _)).
    vm_compute in E. injection E as <-. vm_compute in E'. injection E' as <-. reflexivity.
  - vm_compute in E. injection E as <-. vm_compute. reflexivity.
Defined.

(** ** Getting a connection ends *)

(** A goroutine on its own, against any answers of the server. *)
Fixpoint run (answers : nat -> answer) (n : nat) (g : goroutine) (d : DB) : goroutine * DB :=
  match n with
  | O => (g, d)
  | S n =>
      match step (answers O) g d with
      | Some (g, d) => run (fun i => answers (S i)) n g d
      | None => (g, d)
      end
  end.

Definition answered (g : goroutine) : bool := match g with Holding _ | Failed _ => true | _ => false end.

Definition finishes (n : nat) (g : goroutine) (d : DB) : Prop :=
  forall answers, exists k, (k <= n)%nat /\ answered (run answers k g d).1 = true.

Lemma finishes_done n g d : answered g = true -> finishes n g d.
Proof. intros Hg answers. exists 0%nat. split; [lia | done]. Qed.

Lemma finishes_step n g d :
  (forall a, exists g' d', step a g d = Some (g', d') /\ finishes n g' d') -> finishes (S n) g d.
Proof.
  intros Hs answers. destruct (Hs (answers O)) as (g' & d' & E & Hf).
  destruct (Hf (fun i => answers (S i))) as (k & Hk & Ha). exists (S k). split; [lia|]. cbn [run]. by rewrite E.
Qed.

Lemma finishes_le n m g d : finishes n g d -> (n <= m)%nat -> finishes m g d.
Proof. intros Hf Hle answers. destruct (Hf answers) as (k & Hk & Ha). exists k. split; [lia | done]. Qed.

(** An open pool with a free place. *)
Definition available (d : DB) : Prop :=
  channels d = true /\ idle_closed d = false /\ cache_closed d = false /\ 0 < maxConnNum d /\
  (0 < length (idleConns d) + length (cacheConns d))%nat.

Ltac one_step := apply finishes_step; intros ?; cbn [step].

Lemma close_finishes co e d :
  channels d = true -> idle_closed d = false -> finishes 4 (CloseConn co (KError e)) d.
Proof.
  intros Hc Hi. one_step. do 2 eexists. split; [done|].
  assert (forall c d, channels d = true -> idle_closed d = false -> finishes 2 (IdleGet c (KError e)) d) as Hget.
  { clear. intros c d Hc Hi. one_step. rewrite Hc. do 2 eexists. split; [done|].
    one_step. rewrite Hi. case_if; (do 2 eexists; split; [done|]); by apply finishes_done. }
  destruct co as [co|]; [eapply finishes_le; [by apply Hget | lia]|].
  one_step. cbn [new_Conn]. do 2 eexists. split; [done|]. by apply Hget.
Qed.

Lemma reuse_finishes co d :
  channels d = true -> idle_closed d = false -> finishes 5 (Reuse co) d.
Proof.
  intros Hc Hi. one_step. do 2 eexists. split; [done|].
  destruct (net a); [by apply close_finishes | by apply finishes_done].
Qed.

Lemma idle_finishes d : available d -> cacheConns d = [] -> finishes 9 IdleSelect d.
Proof.
  intros (Hc & Hi & Hca & Hm & Hn) E. rewrite E in Hn. cbn in Hn.
  one_step. rewrite Hi, Hca, E. destruct (idleConns d) as [|c idle]; [cbn in Hn; lia|]. cbn [receive].
  do 2 eexists. split; [done|]. one_step. do 2 eexists. split; [done|].
  one_step. destruct (net a1).
  - do 2 eexists. split; [done|]. eapply finishes_le; [by apply close_finishes | lia].
  - do 2 eexists. split; [done|]. one_step. do 2 eexists. split; [done|].
    destruct (net a2); [eapply finishes_le; [by apply close_finishes | lia] | by apply reuse_finishes].
Qed.

Lemma cache_finishes n d : length (cacheConns d) = n -> available d -> finishes (7 * n + 10) CacheLoop d.
Proof.
  revert d. induction n as [|n IH]; intros d Hn Hd.
  - one_step. rewrite Hn. cbn [Nat.ltb Nat.leb]. do 2 eexists. split; [done|].
    apply idle_finishes; [done|]. by apply nil_length_inv.
  - replace (7 * S n + 10)%nat with (S (S (S (S (7 * n + 13))))) by lia.
    pose proof Hd as (Hc & Hi & Hca & Hm & _).
    one_step. rewrite Hn. cbn [Nat.ltb Nat.leb]. do 2 eexists. split; [done|].
    destruct (cacheConns d) as [|co cache] eqn:E; [done|].
    one_step. rewrite Hca, E. cbn [receive]. do 2 eexists. split; [done|].
    one_step. do 2 eexists. split; [done|]. one_step. do 2 eexists. split; [done|].
    assert (forall d, channels d = true -> idle_closed d = false -> finishes (7 * n + 13) (Reuse co) d) as Hre
      by (intros; eapply finishes_le; [by apply reuse_finishes | lia]).
    case_if; [|by apply Hre]. destruct (net a2); [|by apply Hre].
    replace (7 * n + 13)%nat with (S (S (S (7 * n + 10)))) by lia.
    one_step. do 2 eexists. split; [done|]. one_step. cbn. rewrite Hc. do 2 eexists. split; [done|].
    one_step. cbn. rewrite Hi. case_if as Hf.
    + do 2 eexists. split; [done|]. apply IH; [cbn in *; lia|]. split_and!; cbn; (done || rewrite length_app; cbn; lia).
    + do 2 eexists. split; [done|]. apply IH; [cbn in *; lia|]. apply Z.ltb_ge in Hf.
      split_and!; cbn; (done || lia).
Qed.

(** C38: a free place is enough to be answered, if nobody else takes it.  In
    an open pool that any interleaving led to, with a place free, a goroutine
    that calls [GetConn] and from then on takes all the steps (no other
    goroutine runs before it has its answer) does not wait: whatever the
    server answers, and however many connections of the cache turn out to be
    broken, it has a connection or an error after at most seven steps for
    each connection in the cache and eleven more. *)
Theorem GetConn_answers can_close p
    (Hp : reachable can_close p) (Ho : channels (the_db p) = true)
    (Hfree : Z.of_nat (in_use p) < maxConnNum (the_db p)) :
  forall answers, exists k, (k <= 7 * length (cacheConns (the_db p)) + 11)%nat /\
    answered (run answers k PopConn (the_db p)).1 = true.
Proof.
  destruct (reachable_inv _ _ Hp Ho) as [[H1 H2] H3 H4 _ _]. unfold free_places in H4.
  replace (7 * length (cacheConns (the_db p)) + 11)%nat with (S (7 * length (cacheConns (the_db p)) + 10)) by lia.
  apply (finishes_step _ PopConn). intros a. cbn [step]. rewrite Ho. do 2 eexists. split; [done|].
  apply cache_finishes; [done|]. split_and!; [done..|lia].
Qed.

(** Every exchange with the server fails, and the connections are old. *)
Lemma GetConn_answers_witness :
  exists k, (k <= 7 * 2 + 11)%nat /\
    answered (run (fun _ => mkAnswer 100 (Some ErrBadConn) false) k PopConn (the_db small_pool)).1 = true.
Proof.
  refine (GetConn_answers true small_pool (small_pool_reachable true) _ _ _); by vm_compute.
Defined.

(** ** Closing a pool in use *)

(** Closing a pool panics its users.  [Close] closes the channels after
    it has reset the fields, so a goroutine that read the fields before and
    puts its connection back after sends on a closed channel: in a pool of
    two, one goroutine returns its connection while another closes the
    pool. *)
Theorem close_panics_users :
  exists p, reachable true p /\
    goroutines p !! 0%nat = Some (Panicked (PRuntime "send on closed channel")) /\
    goroutines p !! 1%nat = Some CloseDrain.
Proof.
  pose (ms := [MGo; MGo; MGet 0] ++ runs 6 0 ++ [MReturn false 0] ++ runs 2 0 ++ [MClose 1] ++ runs 2 1 ++ runs 1 0).
  destruct (schedule ms small_pool) as [p|] eqn:E; [|by vm_compute in E].
  exists p. split; [exact (schedule_reachable _ _ _ (small_pool_reachable true) E)|].
  vm_compute in E. injection E as <-. split; reflexivity.
Qed.
