(* ===== verification/Node.v ===== *)
(** * Nodes ([backend/node.go])

    A node is a master and its slaves, each behind a pool ([DB] pointers,
    which may be nil).  The health check brings them up and down, the
    administrator adds and removes slaves.  The pools that a node opened are
    kept in a list, a pointer is a place in it; of a pool only what the node
    looks at is here: its address, its state, its last ping and whether it
    was closed.  The servers' answers are parameters. *)
From S2P Require Import Prelude Errors StateM GoLib Balancer Pool.
From Stdlib Require Import Ascii.
Open Scope Z_scope.

Definition SlaveSplit : string := ",".
Definition WeightSplit : ascii := "@".

Record NodeConfig := mkNodeConfig {
  cfg_Name : string; cfg_DownAfterNoAlive : Z; cfg_MaxConnNum : Z;
  cfg_User : string; cfg_Password : string; cfg_Master : string; cfg_Slave : string }.

Record handle := mkHandle { h_addr : string; h_state : Z; h_lastPing : Z; h_closed : bool }.

Record Node := mkNode {
  Cfg : NodeConfig;
  Master : option nat;
  slaves : turns nat;         (* Slave, LastSlaveIndex, RoundRobinQ, SlaveWeights *)
  DownAfterNoAlive : Z;       (* in nanoseconds *)
  Online : bool;
  dbs : list handle
}.

(** The servers: whether a pool can be opened at an address, whether the
    check of a pool is answered, and the time. *)
Record servers := mkServers {
  open_err : string -> option error;
  ping_err : nat -> option error;
  time : Z;
  rand : Rand
}.

Definition Second : Z := 1000000000.

(** ** A method changes the node and has a result *)
Definition M : Type -> Type := ST Node.

Definition set_Master (m : option nat) (n : Node) : Node :=
  mkNode (Cfg n) m (slaves n) (DownAfterNoAlive n) (Online n) (dbs n).
Definition set_slaves (s : turns nat) (n : Node) : Node :=
  mkNode (Cfg n) (Master n) s (DownAfterNoAlive n) (Online n) (dbs n).
Definition set_dbs (l : list handle) (n : Node) : Node :=
  mkNode (Cfg n) (Master n) (slaves n) (DownAfterNoAlive n) (Online n) l.

(** [db.field] *)
Definition deref (db : option nat) : M handle := fun n =>
  match db with
  | Some l => (n, at_ (dbs n) (Z.of_nat l))
  | None => (n, Panic (PRuntime "nil pointer dereference"))
  end.

Definition update (db : option nat) (f : handle -> handle) : M unit := fun n =>
  match db with
  | Some l => (set_dbs (alter f l (dbs n)) n, Ok tt)
  | None => (n, Panic (PRuntime "nil pointer dereference"))
  end.
Definition store_state (state : Z) (h : handle) : handle := mkHandle (h_addr h) state (h_lastPing h) (h_closed h).
Definition close (h : handle) : handle := mkHandle (h_addr h) (h_state h) (h_lastPing h) true.
Definition set_ping (now : Z) (h : handle) : handle := mkHandle (h_addr h) (h_state h) now (h_closed h).

Section Methods.
Context (s : servers).

Definition OpenDB (addr : string) : M nat := fun n =>
  match open_err s addr with
  | Some e => (n, Err e)
  | None => (set_dbs (dbs n ++ [mkHandle addr Unknown (time s) false]) n, Ok (length (dbs n)))
  end.

(** [db.Ping()] *)
Definition ping (db : option nat) : M unit := fun n =>
  match db with
  | Some l => (n, match ping_err s l with Some e => Err e | None => Ok tt end)
  | None => (n, Panic (PRuntime "nil pointer dereference"))
  end.

Definition UpDB (addr : string) : M nat :=
  do! db := OpenDB addr in
  do! r := try (ping (Some db)) in
  match r.1 with
  | Some err =>
      do! _ := update (Some db) close in
      do! _ := update (Some db) (store_state Down) in
      fail err
  | None => do! _ := update (Some db) (store_state Up) in ret db
  end.

Definition UpMaster (addr : string) : M unit :=
  do! db := UpDB addr in
  do! n := get in put (set_Master (Some db) n).

(** The first slave with the address. *)
Fixpoint find_slave (addr : string) (k : nat) (l : list (option nat)) : M (option nat) :=
  match l with
  | [] => ret None
  | slave :: l =>
      do! h := deref slave in
      if String.eqb (h_addr h) addr then ret (Some k) else find_slave addr (S k) l
  end.

Definition set_Slave (l : list (option nat)) (t : turns nat) : turns nat :=
  mkTurns l (LastSlaveIndex t) (RoundRobinQ t) (SlaveWeights t).

(** A failing [UpDB] is logged, and its nil is stored all the same. *)
Definition UpSlave (addr : string) : M unit :=
  do! r := try (UpDB addr) in
  let '(err, db) := r in
  do! n := get in
  do! found := find_slave addr 0 (Slave (slaves n)) in
  match found with
  | Some k => put (set_slaves (set_Slave (<[k := db]> (Slave (slaves n))) (slaves n)) n)
  | None =>
      do! _ := put (set_slaves (set_Slave (Slave (slaves n) ++ [db]) (slaves n)) n) in
      match err with Some e => fail e | None => ret tt end
  end.

Definition DownMaster (addr : string) (state : Z) : M unit :=
  do! n := get in
  match Master n with
  | None => fail ErrNoMasterDB
  | Some db =>
      do! h := deref (Some db) in
      if negb (String.eqb (h_addr h) addr) then fail ErrNoMasterDB
      else
        do! _ := update (Some db) close in
        update (Some db) (store_state state)
  end.

Definition DownSlave (addr : string) (state : Z) : M unit :=
  do! n := get in
  match Slave (slaves n) with
  | [] => fail ErrNoSlaveDB
  | l =>
      do! found := find_slave addr 0 l in
      match found with
      | Some k =>
          do! slave := lift (at_ l (Z.of_nat k)) in
          do! _ := update slave close in
          update slave (store_state state)
      | None => ret tt
      end
  end.

(** ** The health check *)
Definition too_long (n : Node) (h : handle) : bool :=
  (0 <? DownAfterNoAlive n) && (Z.quot (DownAfterNoAlive n) Second <? i64 (time s - h_lastPing h)).

(** After an answered ping. *)
Definition keep_up (db : option nat) : M unit :=
  do! _ := update db (set_ping (time s)) in
  do! h := deref db in
  if negb (h_state h =? ManualDown) then update db (store_state Up) else ret tt.

Definition checkMaster : M unit :=
  do! n := get in
  match Master n with
  | None => ret tt
  | Some _ =>
      let db := Master n in
      do! r := try (ping db) in
      do! h := deref db in
      match r.1 with
      | None =>
          if h_state h =? Down then
            do! r := try (UpMaster (h_addr h)) in
            match r.1 with
            | Some _ => ret tt
            | None => keep_up db
            end
          else keep_up db
      | Some _ =>
          if too_long n h then
            do! _ := try (DownMaster (h_addr h) Down) in ret tt
          else ret tt
      end
  end.

Definition checkSlave_one (db : option nat) : M unit :=
  do! r := try (ping db) in
  do! h := deref db in
  do! n := get in
  match r.1 with
  | None =>
      do! _ := (if h_state h =? Down then do! _ := try (UpSlave (h_addr h)) in ret tt else ret tt) in
      keep_up db
  | Some _ =>
      if too_long n h then
        do! _ := try (DownSlave (h_addr h) Down) in ret tt
      else ret tt
  end.

Fixpoint check_all (l : list (option nat)) : M unit :=
  match l with
  | [] => ret tt
  | db :: l => do! _ := checkSlave_one db in check_all l
  end.

Definition checkSlave : M unit :=
  do! n := get in check_all (Slave (slaves n)).

(** One round of [CheckNode]. *)
Definition check_round : M unit := do! _ := checkMaster in checkSlave.

(** ** Adding and removing slaves *)
Definition addr_part (addr : string) : string := hd "" (Split addr WeightSplit).

Definition slave_weight (addrAndWeight : list string) : res error Z :=
  match addrAndWeight with
  | [_; w] => Atoi w
  | _ => Ok 1
  end.

Fixpoint check_new (addr : string) (l : list (option nat)) : M unit :=
  match l with
  | [] => ret tt
  | v :: l =>
      do! h := deref v in
      if String.eqb (addr_part (h_addr h)) (addr_part addr) then fail ErrSlaveExist else check_new addr l
  end.

Definition add_weight (w : Z) (t : turns nat) : turns nat :=
  mkTurns (Slave t) (LastSlaveIndex t) (RoundRobinQ t) (SlaveWeights t ++ [w]).

Definition init_balancer : M unit :=
  do! n := get in
  do! t := lift (@InitBalancer nat (rand s) (slaves n)) in
  put (set_slaves t n).

Definition AddSlave (addr : string) : M unit :=
  if String.eqb addr "" then fail ErrAddressNull
  else
    do! n := get in
    do! _ := check_new addr (Slave (slaves n)) in
    let addrAndWeight := Split addr WeightSplit in
    do! weight := lift (slave_weight addrAndWeight) in
    do! _ := put (set_slaves (add_weight weight (slaves n)) n) in
    do! db := OpenDB (hd "" addrAndWeight) in
    do! n := get in
    do! _ := put (set_slaves (set_Slave (Slave (slaves n) ++ [Some db]) (slaves n)) n) in
    init_balancer.

(** The slaves and weights that are kept. *)
Fixpoint keep_others (addr : string) (i : Z) (l : list (option nat)) (weights : list Z)
  : M (list (option nat) * list Z) :=
  match l with
  | [] => ret ([], [])
  | slave :: l =>
      do! h := deref slave in
      if negb (String.eqb (h_addr h) addr) then
        do! w := lift (at_ weights i) in
        do! r := keep_others addr (i + 1) l weights in
        ret (slave :: r.1, w :: r.2)
      else keep_others addr (i + 1) l weights
  end.

Definition DeleteSlave (addr : string) : M unit :=
  do! n := get in
  let l := Slave (slaves n) in
  if Nat.eqb (length l) 0 then fail ErrNoSlaveDB
  else
    do! found := find_slave addr 0 l in
    match found with
    | None => fail ErrSlaveNotExist
    | Some _ =>
        if Nat.eqb (length l) 1 then
          put (set_slaves (mkTurns [] (LastSlaveIndex (slaves n)) [] []) n)
        else
          do! r := keep_others addr 0 l (SlaveWeights (slaves n)) in
          do! _ := put (set_slaves (mkTurns r.1 (LastSlaveIndex (slaves n)) (RoundRobinQ (slaves n)) r.2) n) in
          init_balancer
    end.

(** ** Starting a node *)
Definition ParseMaster (masterStr : string) : M unit :=
  if String.eqb masterStr "" then fail ErrNoMasterDB
  else
    do! r := try (OpenDB masterStr) in
    do! n := get in
    do! _ := put (set_Master r.2 n) in
    match r.1 with Some e => fail e | None => ret tt end.

Fixpoint parse_slaves (l : list string) : M unit :=
  match l with
  | [] => ret tt
  | slave :: l =>
      let addrAndWeight := Split slave WeightSplit in
      do! weight := lift (slave_weight addrAndWeight) in
      do! n := get in
      do! _ := put (set_slaves (add_weight weight (slaves n)) n) in
      do! db := OpenDB (hd "" addrAndWeight) in
      do! n := get in
      do! _ := put (set_slaves (set_Slave (Slave (slaves n) ++ [Some db]) (slaves n)) n) in
      parse_slaves l
  end.

Definition ParseSlave (slaveStr : string) : M unit :=
  if String.eqb slaveStr "" then ret tt
  else
    let slaveArray := Split (Trim slaveStr SlaveSplit) "," in
    do! n := get in
    do! _ := put (set_slaves (mkTurns [] (LastSlaveIndex (slaves n)) (RoundRobinQ (slaves n)) []) n) in
    do! _ := parse_slaves slaveArray in
    init_balancer.

(** [parseNode] of [proxy/server/server.go]. *)
Definition parseNode (cfg : NodeConfig) : res error Node :=
  let n := mkNode cfg None (mkTurns [] 0 [] []) (i64 (cfg_DownAfterNoAlive cfg * Second)) false [] in
  match (do! _ := ParseMaster (cfg_Master cfg) in ParseSlave (cfg_Slave cfg)) n with
  | (n, Ok _) => Ok (mkNode (Cfg n) (Master n) (slaves n) (DownAfterNoAlive n) true (dbs n))
  | (_, Err e) => Err e
  | (_, Panic p) => Panic p
  end.

(** ** Getting a connection: the pool it is taken from *)
Definition GetMasterConn : M nat :=
  do! n := get in
  match Master n with
  | None => fail ErrNoMasterConn
  | Some db =>
      do! h := deref (Some db) in
      if h_state h =? Down then fail ErrMasterDown
      else if h_closed h then fail ErrDatabaseClose else ret db
  end.

Definition next_slave : M (option nat) := fun n =>
  let '(t, r) := GetNextSlave (slaves n) in (set_slaves t n, r).

Definition GetSlaveConn : M nat :=
  do! db := next_slave in
  match db with
  | None => fail ErrNoSlaveDB
  | Some l =>
      do! h := deref db in
      if h_state h =? Down then fail ErrSlaveDown
      else if h_closed h then fail ErrDatabaseClose else ret l
  end.
End Methods.

(** ** Running methods *)
Definition handle_of (n : Node) (db : option nat) : option handle :=
  match db with Some l => dbs n !! l | None => None end.

Lemma deref_Ok n db h : handle_of n db = Some h -> deref db n = (n, Ok h).
Proof.
  destruct db as [l|]; [|done]. cbn. intros Hl. unfold deref.
  by rewrite (proj2 (at_Ok _ _ h)) by (split; [lia | by rewrite Nat2Z.id]).
Qed.

(** The addresses of the slaves. *)
Definition slave_addr (n : Node) (db : option nat) : string :=
  match handle_of n db with Some h => h_addr h | None => "" end.
Definition addrs (n : Node) : list string := slave_addr n <$> Slave (slaves n).

Definition valid (n : Node) (db : option nat) : Prop := is_Some (handle_of n db).

Lemma deref_valid n db : valid n db -> exists h, deref db n = (n, Ok h) /\ h_addr h = slave_addr n db.
Proof. intros [h Hh]. exists h. split; [by apply deref_Ok|]. unfold slave_addr. by rewrite Hh. Qed.

Lemma find_slave_spec n addr k l :
  Forall (valid n) l ->
  find_slave addr k l n = (n, Ok ((fun i => (k + i)%nat) <$> (fst <$> list_find (fun a => a = addr) (slave_addr n <$> l)))).
Proof.
  intros Hl. revert k. induction Hl as [|db l Hdb _ IH]; intros k; [done|]. cbn [find_slave].
  destruct (deref_valid n db Hdb) as (h & Hh & Ha). rewrite (bind_Ok _ _ _ _ _ Hh), Ha.
  cbn [fmap list_fmap list_find]. destruct (String.eqb_spec (slave_addr n db) addr) as [E|E].
  - rewrite decide_True by done. cbn. by rewrite Nat.add_0_r.
  - rewrite decide_False by done. rewrite IH. f_equal. f_equal.
    destruct (list_find _ _) as [[i a]|]; [|done]. cbn. f_equal. lia.
Qed.

(** ** The rotation of a node *)
Record node_ok (n : Node) : Prop := {
  no_valid : Forall (valid n) (Slave (slaves n));
  no_addrs : NoDup (addr_part <$> addrs n);
  no_aligned : length (Slave (slaves n)) = length (SlaveWeights (slaves n));
  no_weights : Forall (Z.lt 0) (SlaveWeights (slaves n)) /\ sum_of (SlaveWeights (slaves n)) < 2 ^ 63;
  no_queue : RoundRobinQ (slaves n) ≡ₚ queue 0 (shares (SlaveWeights (slaves n)));
  no_last : 0 <= LastSlaveIndex (slaves n)
}.

(** Weights of an [int]'s sum are good for the queue. *)
Lemma sum_bound l : Forall (Z.lt 0) l -> sum_of l < 2 ^ 63 -> Forall (fun w => 0 < w < 2 ^ 63) l.
Proof.
  intros Hl. induction Hl as [|w l Hw Hl IH]; [constructor|]. unfold sum_of in *. cbn [foldr]. intros Hs.
  assert (0 <= foldr Z.add 0 l) by (apply sum_of_nonneg; eapply Forall_impl; [exact Hl|]; cbn; lia).
  constructor; [lia|]. apply IH. lia.
Qed.

Lemma sum_shares g l : 0 < g -> Forall (Z.lt 0) l -> sum_of ((fun w => w / g) <$> l) <= sum_of l.
Proof.
  intros Hg. unfold sum_of. induction 1 as [|w l Hw _ IH]; cbn [fmap list_fmap foldr]; [done|].
  assert (w / g <= w) by (apply Z.div_le_upper_bound; nia). lia.
Qed.

Lemma weights_ok_sum l : l <> [] -> Forall (Z.lt 0) l -> sum_of l < 2 ^ 63 -> weights_ok l.
Proof.
  intros Hne Hl Hs. split_and!; [done | by apply sum_bound|].
  pose proof (sum_shares (gcd_of l) l (gcd_of_pos l Hne Hl) Hl). unfold shares. lia.
Qed.

Lemma sum_of_app a b : sum_of (a ++ b) = sum_of a + sum_of b.
Proof. unfold sum_of. induction a as [|x a IH]; cbn [app foldr]; lia. Qed.

Lemma init_balancer_ok s n :
  SlaveWeights (slaves n) <> [] -> Forall (Z.lt 0) (SlaveWeights (slaves n)) -> sum_of (SlaveWeights (slaves n)) < 2 ^ 63 ->
  exists q, init_balancer s n = (set_slaves (mkTurns (Slave (slaves n)) 0 q (SlaveWeights (slaves n))) n, Ok tt) /\
    q ≡ₚ queue 0 (shares (SlaveWeights (slaves n))).
Proof.
  intros H1 H2 H3. unfold init_balancer, bind, get, lift, put, InitBalancer.
  destruct (@init_queue_spec (rand s) error _ (weights_ok_sum _ H1 H2 H3)) as (q & -> & Hq). cbn [rbind].
  by exists q.
Qed.

Lemma addr_part_idem addr : addr_part (addr_part addr) = addr_part addr.
Proof.
  unfold addr_part. induction addr as [|c addr IH]; [done|]. cbn [Split].
  destruct (Ascii.eqb_spec c WeightSplit) as [|Hc]; [done|].
  destruct (Split addr WeightSplit) as [|w ws] eqn:E; cbn [hd] in *; cbn [Split].
  - rewrite (proj2 (Ascii.eqb_neq _ _) Hc). done.
  - rewrite (proj2 (Ascii.eqb_neq _ _) Hc). destruct (Split w WeightSplit) as [|w' ws'] eqn:E'; cbn [hd] in *.
    + by rewrite IH.
    + by rewrite IH.
Qed.

Lemma check_new_ok n addr l :
  Forall (valid n) l -> addr_part addr ∉ addr_part <$> (slave_addr n <$> l) -> check_new addr l n = (n, Ok tt).
Proof.
  induction 1 as [|db l Hdb _ IH]; [done|]. cbn [fmap list_fmap check_new]. intros Hn.
  destruct (deref_valid n db Hdb) as (h & Hh & Ha). rewrite (bind_Ok _ _ _ _ _ Hh), Ha.
  destruct (String.eqb_spec (addr_part (slave_addr n db)) (addr_part addr)); [set_solver|]. apply IH. set_solver.
Qed.

(** More pools do not change those there are. *)
Lemma handle_of_app n l db h : handle_of n db = Some h -> handle_of (set_dbs (dbs n ++ l) n) db = Some h.
Proof. destruct db as [i|]; [|done]. cbn. intros Hi. by apply lookup_app_l_Some. Qed.

Lemma AddSlave_ok s n addr w :
  node_ok n -> addr <> "" -> addr_part addr ∉ addr_part <$> addrs n ->
  slave_weight (Split addr WeightSplit) = Ok w -> 0 < w -> sum_of (SlaveWeights (slaves n)) + w < 2 ^ 63 ->
  open_err s (addr_part addr) = None ->
  exists n', AddSlave s addr n = (n', Ok tt) /\ node_ok n' /\
    addrs n' = addrs n ++ [addr_part addr] /\ SlaveWeights (slaves n') = SlaveWeights (slaves n) ++ [w].
Proof.
  intros [Hv Hnd Hal [Hp Hs] Hq Hl] Hne Hnew Hw Hw0 Hsum Hopen. unfold AddSlave.
  rewrite (proj2 (String.eqb_neq _ _) Hne). rewrite (bind_Ok get _ n n n) by done.
  rewrite (bind_Ok _ _ _ _ _ (check_new_ok n addr _ Hv Hnew)), Hw.
  rewrite (bind_Ok _ _ n n w) by done. set (t1 := add_weight w (slaves n)).
  rewrite (bind_Ok _ _ n (set_slaves t1 n) tt) by done. unfold OpenDB at 1.
  fold (addr_part addr). set (n1 := set_slaves t1 n).
  set (n2 := set_dbs (dbs n ++ [mkHandle (addr_part addr) Unknown (time s) false]) n1).
  rewrite (bind_Ok _ _ n1 n2 (length (dbs n))) by (by rewrite Hopen).
  rewrite (bind_Ok get _ n2 n2 n2) by done.
  set (n3 := set_slaves (set_Slave (Slave (slaves n2) ++ [Some (length (dbs n))]) (slaves n2)) n2).
  rewrite (bind_Ok _ _ n2 n3 tt) by done.
  destruct (init_balancer_ok s n3) as (q & -> & Hq3).
  - cbn. destruct (SlaveWeights (slaves n)); discriminate.
  - apply Forall_app. split; [done|]. by constructor.
  - cbn. rewrite sum_of_app. unfold sum_of at 2. cbn. lia.
  - eexists. split; [done|].
    assert (forall db, valid n db -> valid n3 db /\ slave_addr n3 db = slave_addr n db) as Hkeep.
    { intros db [h Hh]. unfold valid, slave_addr. rewrite Hh.
      rewrite (handle_of_app n [mkHandle (addr_part addr) Unknown (time s) false] db h Hh : handle_of n3 db = Some h). by split. }
    assert (handle_of n3 (Some (length (dbs n))) = Some (mkHandle (addr_part addr) Unknown (time s) false)) as Hnewh.
    { cbn. rewrite lookup_app_r, Nat.sub_diag by lia. done. }
    assert (addrs n3 = addrs n ++ [addr_part addr]) as Haddrs.
    { unfold addrs. cbn [slaves n3 set_slaves set_Slave Slave]. rewrite fmap_app. f_equal.
      - apply list_fmap_ext. intros i db Hdb. apply Hkeep. rewrite Forall_forall in Hv. apply Hv. by eapply list_elem_of_lookup_2.
      - cbn [fmap list_fmap]. unfold slave_addr at 1. by rewrite Hnewh. }
    split_and!; [|exact Haddrs|done]. split; cbn [slaves set_slaves Slave RoundRobinQ LastSlaveIndex SlaveWeights].
    + change (Forall (valid n3) (Slave (slaves n) ++ [Some (length (dbs n))])). apply Forall_app. split.
      * eapply Forall_impl; [exact Hv|]. intros db Hdb. by apply Hkeep.
      * constructor; [|constructor]. unfold valid. rewrite Hnewh. by eexists.
    + change (NoDup (addr_part <$> addrs n3)). rewrite Haddrs, fmap_app. cbn [fmap list_fmap].
      rewrite addr_part_idem. apply NoDup_app. split_and!; [done | | apply NoDup_singleton].
      intros x Hx Hx'. apply list_elem_of_singleton in Hx' as ->. done.
    + cbn. rewrite !length_app, Hal. done.
    + split; [apply Forall_app; split; [done | by constructor]|]. cbn. rewrite sum_of_app. unfold sum_of at 2. cbn. lia.
    + done.
    + done.
Qed.

(** ** Removing a slave *)
Definition kept (n : Node) (addr : string) (l : list (option nat)) (weights : list Z) : list (option nat * Z) :=
  filter (fun p => slave_addr n p.1 <> addr) (zip l weights).

Lemma keep_others_spec n addr pre l weights :
  Forall (valid n) l -> length l = length weights ->
  keep_others addr (Z.of_nat (length pre)) l (pre ++ weights) n =
    (n, Ok ((kept n addr l weights).*1, (kept n addr l weights).*2)).
Proof.
  intros Hl. revert pre weights. induction Hl as [|db l Hdb _ IH]; intros pre [|w weights] E; cbn in E; try done.
  cbn [keep_others]. destruct (deref_valid n db Hdb) as (h & Hh & Ha). rewrite (bind_Ok _ _ _ _ _ Hh), Ha.
  specialize (IH (pre ++ [w]) weights ltac:(lia)). rewrite length_app in IH. cbn [length] in IH.
  rewrite <- app_assoc in IH. cbn [app] in IH. replace (Z.of_nat (length pre + 1)) with (Z.of_nat (length pre) + 1) in IH by lia.
  unfold kept in *. cbn [zip zip_with]. rewrite filter_cons. cbn [fst].
  destruct (String.eqb_spec (slave_addr n db) addr) as [E'|E']; cbn [negb].
  - rewrite decide_False by tauto. exact IH.
  - rewrite decide_True by done. unfold lift. rewrite (bind_Ok _ _ n n w).
    2:{ f_equal. apply at_Ok. split; [lia|]. by rewrite Nat2Z.id, lookup_app_r, Nat.sub_diag by lia. }
    by rewrite (bind_Ok _ _ _ _ _ IH).
Qed.

Lemma kept_sublist n addr l weights :
  length l = length weights ->
  (kept n addr l weights).*1 `sublist_of` l /\ (kept n addr l weights).*2 `sublist_of` weights.
Proof.
  intros E. pose proof (sublist_filter (fun p => slave_addr n p.1 <> addr) (zip l weights)) as Hs. split.
  - apply (fmap_sublist fst) in Hs. by rewrite fst_zip in Hs by lia.
  - apply (fmap_sublist snd) in Hs. by rewrite snd_zip in Hs by lia.
Qed.

Lemma sublist_Forall {A} (P : A -> Prop) l l' : l `sublist_of` l' -> Forall P l' -> Forall P l.
Proof. induction 1; intros HP; try apply Forall_cons in HP as [? ?]; try constructor; auto. Qed.

Lemma sublist_sum l l' : l `sublist_of` l' -> Forall (Z.lt 0) l' -> sum_of l <= sum_of l'.
Proof.
  unfold sum_of. induction 1 as [|x l l' _ IH|x l l' _ IH]; intros Hp; [done| |]; apply Forall_cons in Hp as [? ?];
    specialize (IH ltac:(done)); cbn [foldr]; lia.
Qed.

(** The slaves left, by address and weight. *)
Lemma kept_addrs n addr l weights :
  zip (slave_addr n <$> (kept n addr l weights).*1) (kept n addr l weights).*2 =
  filter (fun p => p.1 <> addr) (zip (slave_addr n <$> l) weights).
Proof.
  unfold kept. revert weights. induction l as [|db l IH]; intros [|w weights]; try done.
  cbn [zip zip_with fmap list_fmap]. rewrite !filter_cons. cbn [fst].
  destruct (decide _); cbn [fmap list_fmap zip zip_with fst snd]; [f_equal|]; apply IH.
Qed.

Lemma kept_nonempty n addr l weights :
  length l = length weights -> NoDup (slave_addr n <$> l) -> (1 < length l)%nat -> kept n addr l weights <> [].
Proof.
  intros E Hnd Hlen Hk. destruct l as [|a [|b l]], weights as [|w [|v weights]]; cbn in *; try lia.
  unfold kept in Hk. cbn [zip zip_with] in Hk. 
  apply NoDup_cons in Hnd as [Hnd _]. destruct (decide (slave_addr n a <> addr)) as [|Ha]; [done|].
  destruct (decide (slave_addr n b <> addr)) as [|Hb]; [done|]. apply dec_stable in Ha, Hb. apply Hnd. rewrite Ha, <- Hb. by left.
Qed.

Lemma NoDup_fmap_inv {A B} (f : A -> B) l : NoDup (f <$> l) -> NoDup l.
Proof.
  induction l as [|x l IH]; [constructor|]. cbn [fmap list_fmap]. intros [Hx Hnd]%NoDup_cons.
  constructor; [|by apply IH]. intros Hin. apply Hx. apply list_elem_of_fmap. by exists x.
Qed.

Lemma DeleteSlave_ok s n addr :
  node_ok n -> addr ∈ addrs n ->
  exists n', DeleteSlave s addr n = (n', Ok tt) /\ node_ok n' /\
    zip (addrs n') (SlaveWeights (slaves n')) =
      filter (fun p => p.1 <> addr) (zip (addrs n) (SlaveWeights (slaves n))).
Proof.
  intros [Hv Hnd Hal [Hp Hs] Hq Hl] Hin. unfold DeleteSlave. rewrite (bind_Ok get _ n n n) by done.
  unfold addrs in Hin. set (l := Slave (slaves n)) in *.
  assert (0 < length l)%nat as Hlen by (destruct l; [by apply not_elem_of_nil in Hin | cbn; lia]).
  destruct (Nat.eqb_spec (length l) 0); [lia|]. rewrite (bind_Ok _ _ _ _ _ (find_slave_spec n addr 0 l Hv)).
  destruct (list_find_elem_of (fun a => a = addr) _ _ Hin eq_refl) as [[i a] ->].
  cbn [fmap option_fmap option_map]. assert (NoDup (slave_addr n <$> l)) as Hnd' by by eapply NoDup_fmap_inv.
  destruct (Nat.eqb_spec (length l) 1) as [E1|E1].
  - eexists. split; [done|]. unfold addrs. fold l. destruct l as [|x [|]] eqn:El; cbn in E1; try lia.
    destruct (SlaveWeights (slaves n)) as [|w [|]]; cbn in Hal; try lia. split.
    + split; cbn; first [done | constructor | idtac].
    + cbn in Hin. apply list_elem_of_singleton in Hin as ->. cbn. by rewrite decide_False by tauto.
  - pose proof (keep_others_spec n addr [] l _ Hv Hal) as Hk. cbn [app length] in Hk. change (Z.of_nat 0) with 0 in Hk.
    rewrite (bind_Ok _ _ _ _ _ Hk). cbn [fst snd].
    destruct (kept_sublist n addr l _ Hal) as [Hs1 Hs2]. set (r := kept n addr l (SlaveWeights (slaves n))) in *.
    set (n1 := set_slaves (mkTurns r.*1 (LastSlaveIndex (slaves n)) (RoundRobinQ (slaves n)) r.*2) n).
    rewrite (bind_Ok _ _ n n1 tt) by done.
    assert (Forall (Z.lt 0) r.*2) as Hp' by by eapply sublist_Forall.
    pose proof (sublist_sum _ _ Hs2 Hp) as Hsum.
    destruct (init_balancer_ok s n1) as (q & -> & Hq1); cbn [slaves set_slaves SlaveWeights].
    + unfold n1. cbn. intros E. apply (kept_nonempty n addr l (SlaveWeights (slaves n))); [done | done | lia|].
      fold r. by apply fmap_nil_inv in E.
    + done.
    + change (sum_of r.*2 < 2 ^ 63). lia.
    + eexists. split; [done|]. split.
      * split; cbn [slaves set_slaves Slave RoundRobinQ LastSlaveIndex SlaveWeights n1].
        -- by eapply sublist_Forall.
        -- eapply sublist_NoDup; [exact Hnd|]. unfold addrs. cbn [slaves set_slaves Slave]. by apply fmap_sublist, fmap_sublist.
        -- by rewrite !length_fmap.
        -- split; [done|]. lia.
        -- exact Hq1.
        -- done.
      * exact (kept_addrs n addr l (SlaveWeights (slaves n))).
Qed.

(** C39: adding and removing slaves keeps the rotation in order.  On a node
    whose slaves, weights and queue belong together, [AddSlave] of an
    address that the node does not have, with a positive weight that keeps
    the sum of the weights below [2 ^ 63] and a pool that opens, and
    [DeleteSlave] of an address there is, succeed, add or remove exactly that
    slave with its
    weight, and leave a node whose slaves, weights and queue belong
    together: every slave stands in the queue as often as its weight by
    the common divisor says. *)
Theorem slave_changes_keep_rotation s n addr (Hn : node_ok n) :
  (forall w, addr <> "" -> addr_part addr ∉ addr_part <$> addrs n ->
     slave_weight (Split addr WeightSplit) = Ok w -> 0 < w -> sum_of (SlaveWeights (slaves n)) + w < 2 ^ 63 ->
     open_err s (addr_part addr) = None ->
     exists n', AddSlave s addr n = (n', Ok tt) /\ node_ok n' /\
       zip (addrs n') (SlaveWeights (slaves n')) = zip (addrs n) (SlaveWeights (slaves n)) ++ [(addr_part addr, w)]) /\
  (addr ∈ addrs n ->
     exists n', DeleteSlave s addr n = (n', Ok tt) /\ node_ok n' /\
       zip (addrs n') (SlaveWeights (slaves n')) =
         filter (fun p => p.1 <> addr) (zip (addrs n) (SlaveWeights (slaves n)))).
Proof.
  split.
  - intros w H1 H2 H3 H4 H5 H6. destruct (AddSlave_ok s n addr w Hn H1 H2 H3 H4 H5 H6) as (n' & Ha & Hok & Ea & Ew).
    exists n'. split_and!; [done..|]. rewrite Ea, Ew, zip_with_app; [done|]. unfold addrs. rewrite length_fmap. apply Hn.
  - intros Hin. by apply DeleteSlave_ok.
Qed.

Definition sample_servers : servers :=
  mkServers (fun _ => None) (fun _ => None) 100
    {| Intn k n := Z.of_nat k mod n; Intn_range k n Hn := Z.mod_pos_bound _ n Hn |}.
Definition sample_node : Node :=
  mkNode (mkNodeConfig "node1" 32 1024 "" "" "" "") None (mkTurns [Some 0%nat] 0 [0] [2]) 0 true
    [mkHandle "a:1" Up 0 false].

Lemma sample_node_ok : node_ok sample_node.
Proof.
  split.
  - repeat constructor. by eexists.
  - apply NoDup_singleton.
  - done.
  - split; [repeat constructor | done].
  - done.
  - done.
Defined.

Lemma slave_changes_keep_rotation_witness :
  (exists n', AddSlave sample_servers "b:2@4" sample_node = (n', Ok tt) /\
     zip (addrs n') (SlaveWeights (slaves n')) = [("a:1", 2); ("b:2", 4)]) /\
  (exists n', DeleteSlave sample_servers "a:1" sample_node = (n', Ok tt) /\ addrs n' = []).
Proof.
  split.
  - destruct (proj1 (slave_changes_keep_rotation sample_servers sample_node "b:2@4" sample_node_ok) 4)
      as (n' & H & _ & Hz).
    + discriminate.
    + apply not_elem_of_cons. split; [discriminate | apply not_elem_of_nil].
    + vm_compute. reflexivity.
    + lia.
    + vm_compute. reflexivity.
    + reflexivity.
    + exists n'. split; [exact H | exact Hz].
  - destruct (proj2 (slave_changes_keep_rotation sample_servers sample_node "a:1" sample_node_ok)) as (n' & H & _).
    + apply list_elem_of_here.
    + exists n'. split; [exact H|]. vm_compute in H. by injection H as <-.
Defined.

(** ** The health check of one slave *)

(** Methods that log their errors have none. *)
Definition no_err {A} (m : M A) : Prop := forall n e, (m n).2 <> Err e.

Lemma no_err_ret {A} (a : A) : no_err (ret a).
Proof. by intros n e. Qed.
Lemma no_err_get : no_err get.
Proof. by intros n e. Qed.
Lemma no_err_try {A} (m : M A) : no_err (try m).
Proof. intros n e. unfold try. by destruct (m n) as [? []]. Qed.
Lemma no_err_deref db : no_err (deref db).
Proof. intros n e. destruct db as [l|]; [|done]. unfold deref, at_. cbn. by destruct (index_range _ _). Qed.
Lemma no_err_update db f : no_err (update db f).
Proof. intros n e. by destruct db. Qed.
Lemma no_err_bind {A B} (m : M A) (k : A -> M B) : no_err m -> (forall a, no_err (k a)) -> no_err (bind m k).
Proof.
  intros Hm Hk n e. unfold bind. specialize (Hm n). destruct (m n) as [n' [a|e'|p]]; cbn in *; [apply Hk | | done].
  by destruct (Hm e').
Qed.

#[local] Hint Resolve no_err_ret no_err_get no_err_try no_err_deref no_err_update : noerr.
Ltac no_err := repeat first [ solve [auto with noerr] | apply no_err_bind; [|intros ?] | case_if | case_match ].

Lemma checkSlave_one_no_err s db : no_err (checkSlave_one s db).
Proof. unfold checkSlave_one, keep_up. no_err. Qed.

(** A nil among the slaves ends the check in a panic. *)
Lemma check_all_nil s l n : None ∈ l -> exists p, (check_all s l n).2 = Panic p.
Proof.
  revert n. induction l as [|db l IH]; intros n Hin; [by apply not_elem_of_nil in Hin|]. cbn [check_all].
  unfold bind. pose proof (checkSlave_one_no_err s db n) as Hne.
  destruct (checkSlave_one s db n) as [n' [[]|e|p]] eqn:E; cbn in *; [|by destruct (Hne e) | by exists p].
  apply elem_of_cons in Hin as [<-|Hin]; [|by apply IH]. done.
Qed.

Lemma handle_alter n l f db :
  handle_of (set_dbs (alter f l (dbs n)) n) db =
    if decide (db = Some l) then f <$> handle_of n db else handle_of n db.
Proof.
  destruct db as [i|]; [|done]. cbn. destruct (decide (Some i = Some l)) as [[= ->]|].
  - by rewrite list_lookup_alter_eq.
  - apply list_lookup_alter_ne. congruence.
Qed.

(** Changing a pool, but not its address, keeps the rotation. *)
Lemma node_ok_alter n l f : (forall h, h_addr (f h) = h_addr h) -> node_ok n -> node_ok (set_dbs (alter f l (dbs n)) n).
Proof.
  intros Hf [Hv Hnd Hal Hp Hq Hl]. assert (forall db, slave_addr (set_dbs (alter f l (dbs n)) n) db = slave_addr n db) as Ha.
  { intros db. unfold slave_addr. rewrite handle_alter. destruct (decide _); [|done].
    destruct (handle_of n db); [apply Hf | done]. }
  split; cbn [slaves set_dbs]; try done.
  - eapply Forall_impl; [exact Hv|]. intros db [h Hh]. unfold valid. rewrite handle_alter, Hh.
    destruct (decide _); by eexists.
  - unfold addrs. cbn [slaves set_dbs]. rewrite (list_fmap_ext _ (slave_addr n)) by (intros; apply Ha). done.
Qed.

(** What the check of a slave does to its pool. *)
Definition checked (s : servers) (h : handle) : handle :=
  mkHandle (h_addr h) (if h_state h =? ManualDown then ManualDown else Up) (time s) (h_closed h).
Definition downed (h : handle) : handle := mkHandle (h_addr h) Down (h_lastPing h) true.

Lemma keep_up_ok s n l h :
  handle_of n (Some l) = Some h ->
  exists n', keep_up s (Some l) n = (n', Ok tt) /\ handle_of n' (Some l) = Some (checked s h) /\
    slaves n' = slaves n /\ Master n' = Master n /\ (node_ok n -> node_ok n') /\
    (forall db, db <> Some l -> handle_of n' db = handle_of n db).
Proof.
  intros Hh. unfold keep_up. set (n1 := set_dbs (alter (set_ping (time s)) l (dbs n)) n).
  rewrite (bind_Ok _ _ n n1 tt) by done.
  assert (handle_of n1 (Some l) = Some (set_ping (time s) h)) as H1.
  { unfold n1. by rewrite handle_alter, decide_True, Hh by done. }
  rewrite (bind_Ok _ _ _ _ _ (deref_Ok _ _ _ H1)). cbn [h_state set_ping].
  destruct (Z.eqb_spec (h_state h) ManualDown) as [E|E]; cbn [negb].
  - exists n1. split; [done|]. split; [rewrite H1; unfold checked, set_ping; by rewrite E|].
    split_and!; try done; [by apply node_ok_alter|]. intros db Hdb. unfold n1. by rewrite handle_alter, decide_False.
  - eexists. split; [done|]. split.
    { rewrite handle_alter, decide_True, H1 by done. cbn. unfold checked, store_state. cbn.
      by rewrite (proj2 (Z.eqb_neq _ _) E). }
    split_and!; try done.
    + intros Hn. apply node_ok_alter; [done|]. by apply node_ok_alter.
    + intros db Hdb. rewrite handle_alter, decide_False by done. unfold n1. by rewrite handle_alter, decide_False.
Qed.

Lemma list_find_addr n k db :
  node_ok n -> Slave (slaves n) !! k = Some db ->
  list_find (fun a => a = slave_addr n db) (addrs n) = Some (k, slave_addr n db).
Proof.
  intros Hn Hk. assert (addrs n !! k = Some (slave_addr n db)) as Ha by (unfold addrs; by rewrite list_lookup_fmap, Hk).
  apply list_find_Some. split_and!; [done..|]. intros j y Hj Hlt ->.
  pose proof (NoDup_fmap_inv _ _ (no_addrs n Hn)) as Hnd.
  pose proof (NoDup_lookup _ _ _ _ Hnd Hj Ha). lia.
Qed.

(** Opening another pool at the end of the list. *)
Lemma handle_of_new n h : handle_of (set_dbs (dbs n ++ [h]) n) (Some (length (dbs n))) = Some h.
Proof. cbn. by rewrite lookup_app_r, Nat.sub_diag by lia. Qed.

Lemma UpDB_cases s n addr :
  exists n' r, UpDB s addr n = (n', r) /\
    slaves n' = slaves n /\ Master n' = Master n /\
    (forall db h, handle_of n db = Some h -> handle_of n' db = Some h) /\
    match open_err s addr, ping_err s (length (dbs n)) with
    | None, None => r = Ok (length (dbs n)) /\
        handle_of n' (Some (length (dbs n))) = Some (mkHandle addr Up (time s) false)
    | _, _ => exists e, r = Err e
    end.
Proof.
  unfold UpDB, OpenDB. destruct (open_err s addr) as [e|] eqn:Eo.
  { erewrite bind_Err by reflexivity. do 2 eexists. split_and!; [done..|]. by eexists. }
  set (h := mkHandle addr Unknown (time s) false). set (n1 := set_dbs (dbs n ++ [h]) n).
  erewrite (bind_Ok _ _ n n1) by reflexivity. unfold try, ping.
  assert (forall f db h', handle_of n db = Some h' ->
            handle_of (set_dbs (alter f (length (dbs n)) (dbs n1)) n1) db = Some h') as Hkeep.
  { intros f db h' Hdb. rewrite handle_alter, decide_False; [by apply handle_of_app|].
    intros ->. cbn in Hdb. apply lookup_lt_Some in Hdb. lia. }
  destruct (ping_err s (length (dbs n))) as [e|].
  - unfold bind. cbn. do 2 eexists. split; [done|]. split_and!; [done..| |by eexists].
    intros db h' Hdb. set (n2 := set_dbs (alter close (length (dbs n)) (dbs n1)) n1).
    change (handle_of (set_dbs (alter (store_state Down) (length (dbs n)) (dbs n2)) n2) db = Some h').
    rewrite handle_alter, decide_False; [by apply Hkeep|].
    intros ->. cbn in Hdb. apply lookup_lt_Some in Hdb. lia.
  - unfold bind. cbn. do 2 eexists. split; [done|]. split_and!; [done | done | apply Hkeep | done |].
    change (handle_of (set_dbs (alter (store_state Up) (length (dbs n)) (dbs n1)) n1) (Some (length (dbs n))) =
            Some (mkHandle addr Up (time s) false)).
    rewrite handle_alter, decide_True by done. unfold n1. by rewrite handle_of_new.
Qed.

(** What reopening the pool of a slave leaves at its place. *)
Definition reopened (s : servers) (n : Node) (addr : string) : option nat :=
  match open_err s addr, ping_err s (length (dbs n)) with
  | None, None => Some (length (dbs n))
  | _, _ => None
  end.

Lemma UpSlave_ok s n k l h :
  node_ok n -> Slave (slaves n) !! k = Some (Some l) -> handle_of n (Some l) = Some h ->
  exists n', UpSlave s (h_addr h) n = (n', Ok tt) /\ Master n' = Master n /\
    slaves n' = set_Slave (<[k := reopened s n (h_addr h)]> (Slave (slaves n))) (slaves n) /\
    (forall db h', handle_of n db = Some h' -> handle_of n' db = Some h') /\
    (forall i, reopened s n (h_addr h) = Some i -> handle_of n' (Some i) = Some (mkHandle (h_addr h) Up (time s) false)).
Proof.
  intros Hn Hk Hh. unfold UpSlave. destruct (UpDB_cases s n (h_addr h)) as (n1 & r & Hup & Hs & Hm & Hkeep & Hr).
  assert (try (UpDB s (h_addr h)) n = (n1, Ok (match r with Err e => Some e | _ => None end, reopened s n (h_addr h)))) as Ht.
  { unfold try, reopened. rewrite Hup. revert Hr. destruct (open_err s (h_addr h)), (ping_err s (length (dbs n)));
      [intros [e' ->]; done.. | intros [-> Hr]; done]. }
  rewrite (bind_Ok _ _ _ _ _ Ht). rewrite (bind_Ok get _ n1 n1 n1) by done.
  assert (Forall (valid n1) (Slave (slaves n1))) as Hv.
  { rewrite Hs. eapply Forall_impl; [apply (no_valid n Hn)|]. intros db [h' Hh']. exists h'. by apply Hkeep. }
  rewrite (bind_Ok _ _ _ _ _ (find_slave_spec n1 (h_addr h) 0 _ Hv)).
  assert (slave_addr n1 <$> Slave (slaves n1) = addrs n) as ->.
  { rewrite Hs. unfold addrs. apply list_fmap_ext. intros i db Hdb.
    pose proof (no_valid n Hn) as Hvn. rewrite Forall_forall in Hvn.
    destruct (Hvn db) as [h' Hh']; [by eapply list_elem_of_lookup_2|]. unfold slave_addr. by rewrite Hh', (Hkeep _ _ Hh'). }
  pose proof (list_find_addr n k (Some l) Hn Hk) as Hf. unfold slave_addr in Hf at 1 2. rewrite Hh in Hf. rewrite Hf.
  cbn [fmap option_fmap option_map fst Nat.add]. eexists. split; [done|]. cbn [slaves set_slaves Master]. rewrite Hs.
  split_and!; [done | done | |].
  - intros db h' Hdb. change (handle_of n1 db = Some h'). by apply Hkeep.
  - intros i Hi. change (handle_of n1 (Some i) = Some (mkHandle (h_addr h) Up (time s) false)).
    revert Hr Hi. unfold reopened. destruct (open_err s (h_addr h)), (ping_err s (length (dbs n))); try done.
    intros [_ Hr] [= <-]. exact Hr.
Qed.

Lemma DownSlave_ok n k l h state :
  node_ok n -> Slave (slaves n) !! k = Some (Some l) -> handle_of n (Some l) = Some h ->
  exists n', DownSlave (h_addr h) state n = (n', Ok tt) /\ slaves n' = slaves n /\ Master n' = Master n /\
    handle_of n' (Some l) = Some (store_state state (close h)) /\ node_ok n'.
Proof.
  intros Hn Hk Hh. unfold DownSlave. rewrite (bind_Ok get _ n n n) by done.
  destruct (Slave (slaves n)) as [|x xs] eqn:E; [done|]. rewrite <- E in *.
  rewrite (bind_Ok _ _ _ _ _ (find_slave_spec n (h_addr h) 0 _ (no_valid n Hn))).
  pose proof (list_find_addr n k (Some l) Hn Hk) as Hf. unfold slave_addr in Hf at 1 2. rewrite Hh in Hf.
  unfold addrs in Hf. rewrite Hf. cbn [fmap option_fmap option_map fst Nat.add].
  unfold lift. rewrite (bind_Ok _ _ n n (Some l)) by (f_equal; apply at_Ok; split; [lia | by rewrite Nat2Z.id]).
  set (n1 := set_dbs (alter close l (dbs n)) n). rewrite (bind_Ok _ _ n n1 tt) by done.
  eexists. split; [done|]. split_and!; try done.
  - rewrite handle_alter, decide_True by done. unfold n1. by rewrite handle_alter, decide_True, Hh by done.
  - apply node_ok_alter; [done|]. by apply node_ok_alter.
Qed.

(** A pool reopened at the place of a slave keeps the rotation. *)
Lemma node_ok_reopen n n' k l h i h' :
  node_ok n -> Slave (slaves n) !! k = Some (Some l) -> handle_of n (Some l) = Some h ->
  slaves n' = set_Slave (<[k := Some i]> (Slave (slaves n))) (slaves n) ->
  (forall db h, handle_of n db = Some h -> exists h', handle_of n' db = Some h' /\ h_addr h' = h_addr h) ->
  handle_of n' (Some i) = Some h' -> h_addr h' = h_addr h -> node_ok n'.
Proof.
  intros [Hv Hnd Hal Hp Hq Hl] Hk Hh Hs Hkeep Hi Ha.
  assert (addrs n' = addrs n) as Haddrs.
  { unfold addrs. rewrite Hs. cbn [Slave set_Slave]. apply list_eq. intros j. rewrite !list_lookup_fmap.
    destruct (decide (j = k)) as [->|Hj].
    - rewrite list_lookup_insert_eq by (by eapply lookup_lt_Some). rewrite Hk. cbn [fmap option_fmap option_map]. unfold slave_addr.
      by rewrite Hi, Hh, Ha.
    - rewrite list_lookup_insert_ne by done. destruct (Slave (slaves n) !! j) as [db|] eqn:Ej; [|done]. cbn. f_equal.
      rewrite Forall_forall in Hv. destruct (Hv db) as [hd Hd]; [by eapply list_elem_of_lookup_2|].
      unfold slave_addr. rewrite Hd. destruct (Hkeep _ _ Hd) as (h2 & -> & E). done. }
  split; rewrite ?Hs; cbn [Slave set_Slave RoundRobinQ LastSlaveIndex SlaveWeights]; try done.
  - apply Forall_insert; [|by eexists]. eapply Forall_impl; [exact Hv|]. intros db [hd Hd].
    destruct (Hkeep _ _ Hd) as (h2 & E & _). by exists h2.
  - by rewrite Haddrs.
  - by rewrite length_insert.
Qed.

(** What the health check does with a slave.  The slave that answers is
    Up from then on, or stays ManualDown; the one that was Down gets a new
    open pool in its place of the rotation.  The one that has not answered
    for too long is closed and Down.  The rotation stays in order, except
    in one case: when the server answers the check but the pool cannot be
    reopened, nil takes the slave's place, and the next check panics. *)
Theorem slave_check_outcomes s n k l h
    (Hn : node_ok n) (Hk : Slave (slaves n) !! k = Some (Some l)) (Hh : handle_of n (Some l) = Some h) :
  exists n', checkSlave_one s (Some l) n = (n', Ok tt) /\ Master n' = Master n /\
  match ping_err s l with
  | None =>
      if h_state h =? Down then
        slaves n' = set_Slave (<[k := reopened s n (h_addr h)]> (Slave (slaves n))) (slaves n) /\
        match reopened s n (h_addr h) with
        | Some i => handle_of n' (Some i) = Some (mkHandle (h_addr h) Up (time s) false) /\ node_ok n'
        | None => exists p, (checkSlave s n').2 = Panic p
        end
      else slaves n' = slaves n /\ handle_of n' (Some l) = Some (checked s h) /\ node_ok n'
  | Some _ =>
      if too_long s n h then slaves n' = slaves n /\ handle_of n' (Some l) = Some (downed h) /\ node_ok n'
      else n' = n
  end.
Proof.
  unfold checkSlave_one, ping.
  rewrite (bind_Ok _ _ n n (ping_err s l, match ping_err s l with None => Some tt | Some _ => None end))
    by (unfold try; by destruct (ping_err s l)).
  rewrite (bind_Ok _ _ _ _ _ (deref_Ok n (Some l) h Hh)), (bind_Ok get _ n n n) by done. cbn [fst].
  destruct (ping_err s l) as [e|].
  - destruct (too_long s n h); [|by exists n].
    destruct (DownSlave_ok n k l h Down Hn Hk Hh) as (n' & Hd & Hs & Hm & Hh' & Hok).
    exists n'. erewrite bind_Ok by (unfold try; by rewrite Hd). done.
  - destruct (Z.eqb_spec (h_state h) Down) as [Ed|Ed].
    + destruct (UpSlave_ok s n k l h Hn Hk Hh) as (n1 & Hup & Hm & Hs & Hkeep & Hnew).
      rewrite (bind_Ok _ _ n n1 tt) by (unfold bind, try; by rewrite Hup).
      destruct (keep_up_ok s n1 l h (Hkeep _ _ Hh)) as (n2 & Hku & Hh2 & Hs2 & Hm2 & Hok2 & Hother).
      exists n2. split; [exact Hku|]. split; [by rewrite Hm2|]. split; [by rewrite Hs2|].
      destruct (reopened s n (h_addr h)) as [i|] eqn:Er.
      * specialize (Hnew i eq_refl).
        assert (Some i <> Some l) as Hne.
        { intros [= ->]. unfold reopened in Er. destruct (open_err s (h_addr h)), (ping_err s (length (dbs n))); try done.
          injection Er as <-. cbn in Hh. apply lookup_lt_Some in Hh. lia. }
        rewrite (Hother _ Hne). split; [done|]. apply Hok2.
        eapply (node_ok_reopen n n1 k l h i); [done..| | exact Hnew | done].
        intros db hd Hd. exists hd. split; [by apply Hkeep | done].
      * apply check_all_nil. rewrite Hs2, Hs. cbn [Slave set_Slave].
        eapply list_elem_of_lookup_2. apply list_lookup_insert_eq. by eapply lookup_lt_Some.
    + rewrite (bind_Ok (ret tt) _ n n tt) by done.
      destruct (keep_up_ok s n l h Hh) as (n2 & Hku & Hh2 & Hs2 & Hm2 & Hok2 & _).
      exists n2. split_and!; [exact Hku | done | done | done | by apply Hok2].
Qed.

(** A slave that was down answers, but no pool can be opened. *)
Lemma slave_check_outcomes_witness :
  let s := mkServers (fun _ => Some ErrBadConn) (fun _ => None) 100 (rand sample_servers) in
  let n := set_dbs [mkHandle "a:1" Down 0 true] sample_node in
  exists n', checkSlave_one s (Some 0%nat) n = (n', Ok tt) /\
    Slave (slaves n') = [None] /\ exists p, (checkSlave s n').2 = Panic p.
Proof.
  intros s n. destruct (slave_check_outcomes s n 0 0 (mkHandle "a:1" Down 0 true)) as (n' & Hc & _ & Hs & Hp).
  - split; [|apply NoDup_singleton | done | split; [repeat constructor | done] | done | done].
    repeat constructor. by eexists.
  - done.
  - done.
  - exists n'. split; [exact Hc|]. split; [by rewrite Hs | exact Hp].
Defined.

(** The mark of the administrator is lost when the server is away for long:
    the slave comes back by itself. *)
Example manual_down_lost :
  let s := mkServers (fun _ => None) (fun _ => Some ErrBadConn) 100 (rand sample_servers) in
  let n := set_dbs [mkHandle "a:1" ManualDown 0 true] (mkNode (Cfg sample_node) None (slaves sample_node) (32 * Second) true []) in
  handle_of (checkSlave s n).1 (Some 0%nat) = Some (mkHandle "a:1" Down 0 true).
Proof. vm_compute. reflexivity. Qed.

(** A slave whose pool cannot be opened leaves its weight behind. *)
Example failed_add_leaves_weight :
  let s := mkServers (fun _ => Some ErrBadConn) (fun _ => None) 100 (rand sample_servers) in
  let '(n, r) := AddSlave s "b:2@7" sample_node in
  r = Err ErrBadConn /\ length (Slave (slaves n)) = 1%nat /\ SlaveWeights (slaves n) = [2; 7].
Proof. vm_compute. by split_and!. Qed.
