(* ===== verification/Server.v ===== *)
(** * The server ([proxy/server/server.go], [util.go], [counter.go],
      [IsAllowConnect] of [conn.go], [isBlacklistSql] of [conn_preshard.go])

    What is shared by all sessions: the settings that an administrator
    changes while clients are served, each in two slots of which one is
    current; the black list, the addresses that may connect, the nodes and
    the schemas.  Black lists and nodes are pointers, lists of addresses are
    slices: both point into the store, where a change is seen through every
    alias.  The answers of the operating system are parameters. *)
From S2P Require Import Prelude Errors StateM GoLib Wire GoNet Charset RouteLists Rule Router SelectMerge.
From S2P Require Import GoHash Fingerprint Balancer Pool Node.
From Stdlib Require Import Ascii.
Open Scope Z_scope.

(** ** Counters *)
Record Counter := mkCounter {
  OldClientQPS : Z; OldErrLogTotal : Z; OldSlowLogTotal : Z;
  ClientConns : Z; ClientQPS : Z; ErrLogTotal : Z; SlowLogTotal : Z }.
Definition set_conns (v : Z) (c : Counter) : Counter :=
  mkCounter (OldClientQPS c) (OldErrLogTotal c) (OldSlowLogTotal c) v (ClientQPS c) (ErrLogTotal c) (SlowLogTotal c).
Definition IncrClientConns (c : Counter) : Counter := set_conns (i64 (ClientConns c + 1)) c.
Definition DecrClientConns (c : Counter) : Counter := set_conns (i64 (ClientConns c - 1)) c.
Definition IncrClientQPS (c : Counter) : Counter :=
  mkCounter (OldClientQPS c) (OldErrLogTotal c) (OldSlowLogTotal c) (ClientConns c) (i64 (ClientQPS c + 1))
    (ErrLogTotal c) (SlowLogTotal c).
Definition IncrErrLogTotal (c : Counter) : Counter :=
  mkCounter (OldClientQPS c) (OldErrLogTotal c) (OldSlowLogTotal c) (ClientConns c) (ClientQPS c)
    (i64 (ErrLogTotal c + 1)) (SlowLogTotal c).
Definition IncrSlowLogTotal (c : Counter) : Counter :=
  mkCounter (OldClientQPS c) (OldErrLogTotal c) (OldSlowLogTotal c) (ClientConns c) (ClientQPS c)
    (ErrLogTotal c) (i64 (SlowLogTotal c + 1)).
Definition FlushCounter (c : Counter) : Counter :=
  mkCounter (ClientQPS c) (ErrLogTotal c) (SlowLogTotal c) (ClientConns c) 0 (ErrLogTotal c) (SlowLogTotal c).

(** ** Settings in two slots

    [index] is the number of the current slot, zero or one; a change writes
    the other slot, then switches. *)
Record double (A : Type) := mkDouble { index : bool; zero : A; one : A }.
Arguments mkDouble {A} _ _ _.
Arguments index {A} _.
Arguments zero {A} _.
Arguments one {A} _.
Definition current {A} (d : double A) : A := if index d then one d else zero d.
Definition set_other {A} (v : A) (d : double A) : double A :=
  if index d then mkDouble true v (one d) else mkDouble false (zero d) v.
Definition switch {A} (d : double A) : double A := mkDouble (negb (index d)) (zero d) (one d).
Definition change_to {A} (v : A) (d : double A) : double A := switch (set_other v d).

Lemma current_change_to {A} (v : A) d : current (change_to v d) = v.
Proof. by destruct d as [[] ? ?]. Qed.

(** ** Addresses that may connect ([util.go]) *)
Record IPInfo := mkIPInfo { info : string; isIPNet : bool; ip : bytes; ipNet : IPNet }.
Definition no_ip : IPInfo := mkIPInfo "" false [] (mkIPNet [] []).

Definition ParseIPInfo (v : string) : res error IPInfo :=
  match ParseCIDR v with
  | Some (ip, net) => Ok (mkIPInfo v true ip net)
  | None =>
      match ParseIP v with
      | Some ip => Ok (mkIPInfo v false ip (mkIPNet [] []))
      | None => Err (Errorf "invalid ip address")
      end
  end.

(** [nil] for an address that could not be parsed is the empty slice. *)
Definition Match (t : IPInfo) (client : bytes) : bool :=
  if isIPNet t then Contains (ipNet t) client else IP_Equal (ip t) client.

(** ** The state *)
Record UserConfig := mkUserConfig { u_User : string; u_Password : string }.

(** [config.Config]: the settings that the proxy's core reads. *)
Record Config := mkConfig {
  Addr : string; UserList : list UserConfig; LogPath : string; LogLevel : string; LogSql : string;
  SlowLogTime : Z; AllowIps : string; BlsFile : string; Charset_ : string;
  cfg_nodes : list NodeConfig; SchemaList : list SchemaConfig }.
Definition set_LogSql v c := mkConfig (Addr c) (UserList c) (LogPath c) (LogLevel c) v (SlowLogTime c) (AllowIps c)
  (BlsFile c) (Charset_ c) (cfg_nodes c) (SchemaList c).
Definition set_SlowLogTime v c := mkConfig (Addr c) (UserList c) (LogPath c) (LogLevel c) (LogSql c) v (AllowIps c)
  (BlsFile c) (Charset_ c) (cfg_nodes c) (SchemaList c).
Definition set_AllowIps v c := mkConfig (Addr c) (UserList c) (LogPath c) (LogLevel c) (LogSql c) (SlowLogTime c) v
  (BlsFile c) (Charset_ c) (cfg_nodes c) (SchemaList c).
Definition set_Charset v c := mkConfig (Addr c) (UserList c) (LogPath c) (LogLevel c) (LogSql c) (SlowLogTime c)
  (AllowIps c) (BlsFile c) v (cfg_nodes c) (SchemaList c).
Definition set_cfg_nodes v c := mkConfig (Addr c) (UserList c) (LogPath c) (LogLevel c) (LogSql c) (SlowLogTime c)
  (AllowIps c) (BlsFile c) (Charset_ c) v (SchemaList c).

Record Schema := mkSchema { s_nodes : gmap string nat; s_rule : Router }.
Record BlacklistSqls := mkBlacklistSqls { sqls : gmap string string; sqlsLen : Z }.

(** [[]IPInfo]: the start of an array of the store. *)
Record ips := mkIps { array : nat; ips_len : nat }.

(** [mysql.DEFAULT_CHARSET], [DEFAULT_COLLATION_ID] and
    [DEFAULT_COLLATION_NAME] are variables, which [NewServer] sets. *)
Record charset_defaults := mkDefaults { d_charset : string; d_collation : Z; d_collation_name : string }.

Record Server := mkServer {
  cfg : Config; users : gmap string string;
  status : double Z; logSql : double string; slowLogTime : double Z;
  blacklistSqls : double nat; allowips : double ips;
  counter : Counter;
  nodes : gmap string nat; schemas : gmap string Schema; configVer : Z;
  defaults : charset_defaults;
  (* the store, and the files *)
  black_lists : list BlacklistSqls; arrays : list (list IPInfo); all_nodes : list Node;
  files : gmap string string }.

Definition set_cfg v s := mkServer v (users s) (status s) (logSql s) (slowLogTime s) (blacklistSqls s) (allowips s)
  (counter s) (nodes s) (schemas s) (configVer s) (defaults s) (black_lists s) (arrays s) (all_nodes s) (files s).
Definition set_users v s := mkServer (cfg s) v (status s) (logSql s) (slowLogTime s) (blacklistSqls s) (allowips s)
  (counter s) (nodes s) (schemas s) (configVer s) (defaults s) (black_lists s) (arrays s) (all_nodes s) (files s).
Definition set_status v s := mkServer (cfg s) (users s) v (logSql s) (slowLogTime s) (blacklistSqls s) (allowips s)
  (counter s) (nodes s) (schemas s) (configVer s) (defaults s) (black_lists s) (arrays s) (all_nodes s) (files s).
Definition set_logSql v s := mkServer (cfg s) (users s) (status s) v (slowLogTime s) (blacklistSqls s) (allowips s)
  (counter s) (nodes s) (schemas s) (configVer s) (defaults s) (black_lists s) (arrays s) (all_nodes s) (files s).
Definition set_slowLogTime v s := mkServer (cfg s) (users s) (status s) (logSql s) v (blacklistSqls s) (allowips s)
  (counter s) (nodes s) (schemas s) (configVer s) (defaults s) (black_lists s) (arrays s) (all_nodes s) (files s).
Definition set_blacklistSqls v s := mkServer (cfg s) (users s) (status s) (logSql s) (slowLogTime s) v (allowips s)
  (counter s) (nodes s) (schemas s) (configVer s) (defaults s) (black_lists s) (arrays s) (all_nodes s) (files s).
Definition set_allowips v s := mkServer (cfg s) (users s) (status s) (logSql s) (slowLogTime s) (blacklistSqls s) v
  (counter s) (nodes s) (schemas s) (configVer s) (defaults s) (black_lists s) (arrays s) (all_nodes s) (files s).
Definition set_nodes v s := mkServer (cfg s) (users s) (status s) (logSql s) (slowLogTime s) (blacklistSqls s)
  (allowips s) (counter s) v (schemas s) (configVer s) (defaults s) (black_lists s) (arrays s) (all_nodes s) (files s).
Definition set_schemas v s := mkServer (cfg s) (users s) (status s) (logSql s) (slowLogTime s) (blacklistSqls s)
  (allowips s) (counter s) (nodes s) v (configVer s) (defaults s) (black_lists s) (arrays s) (all_nodes s) (files s).
Definition set_configVer v s := mkServer (cfg s) (users s) (status s) (logSql s) (slowLogTime s) (blacklistSqls s)
  (allowips s) (counter s) (nodes s) (schemas s) v (defaults s) (black_lists s) (arrays s) (all_nodes s) (files s).
Definition set_defaults v s := mkServer (cfg s) (users s) (status s) (logSql s) (slowLogTime s) (blacklistSqls s)
  (allowips s) (counter s) (nodes s) (schemas s) (configVer s) v (black_lists s) (arrays s) (all_nodes s) (files s).
Definition set_black_lists v s := mkServer (cfg s) (users s) (status s) (logSql s) (slowLogTime s) (blacklistSqls s)
  (allowips s) (counter s) (nodes s) (schemas s) (configVer s) (defaults s) v (arrays s) (all_nodes s) (files s).
Definition set_arrays v s := mkServer (cfg s) (users s) (status s) (logSql s) (slowLogTime s) (blacklistSqls s)
  (allowips s) (counter s) (nodes s) (schemas s) (configVer s) (defaults s) (black_lists s) v (all_nodes s) (files s).
Definition set_all_nodes v s := mkServer (cfg s) (users s) (status s) (logSql s) (slowLogTime s) (blacklistSqls s)
  (allowips s) (counter s) (nodes s) (schemas s) (configVer s) (defaults s) (black_lists s) (arrays s) v (files s).
Definition set_files v s := mkServer (cfg s) (users s) (status s) (logSql s) (slowLogTime s) (blacklistSqls s)
  (allowips s) (counter s) (nodes s) (schemas s) (configVer s) (defaults s) (black_lists s) (arrays s) (all_nodes s) v.

Abbreviation M := (ST Server).

(** [strings.TrimSpace] of ASCII text *)
Definition white : string := String "009" (String "010" (String "011" (String "012" (String "013" " ")))).
Definition TrimSpace (s : string) : string := Trim s white.

(** [NewServer] and the administrator change what is read here. *)
Definition Offline : Z := 0.
Definition Online : Z := 1.

Definition Status (s : Server) : string :=
  if current (status s) =? Online then "online"
  else if current (status s) =? Offline then "offline" else "unknown".

Definition GetSlowLogTime (s : Server) : Z := current (slowLogTime s).
Definition GetNode (s : Server) (name : string) : option nat := nodes s !! name.
Definition GetSchema (s : Server) (user : string) : option Schema := schemas s !! user.

(** ** Lists of addresses *)
Definition items (s : Server) (l : ips) : list IPInfo := take (ips_len l) (default [] (arrays s !! array l)).
Definition allowed (s : Server) : list IPInfo := items s (current (allowips s)).

Definition GetAllowIps (s : Server) : list string := filter (fun v => v <> "") (info <$> allowed s).

(** [IsAllowConnect] of a client on the host [clientHost], which is the
    host part of its address. *)
Definition IsAllowConnect (s : Server) (clientHost : string) : bool :=
  let clientIP := default [] (ParseIP clientHost) in
  match allowed s with
  | [] => true
  | ipVec => existsb (fun t => Match t clientIP) ipVec
  end.

(** [append] of one element: in place when the array has room, else in a new
    array, with as much room more as the run time likes. *)
Section Append.
Variable room : nat -> nat.
Definition append_ip (l : ips) (t : IPInfo) (s : Server) : Server * ips :=
  let a := default [] (arrays s !! array l) in
  let l' n := mkIps n (S (ips_len l)) in
  if Nat.ltb (ips_len l) (length a)
  then (set_arrays (<[array l := <[ips_len l := t]> a]> (arrays s)) s, l' (array l))
  else (set_arrays (arrays s ++ [take (ips_len l) a ++ t :: replicate (room (ips_len l)) no_ip]) s, l' (length (arrays s))).
End Append.

(** [append(l[:i], l[i+1:]...)] moves the later elements, in place. *)
Definition remove_ip (l : ips) (i : nat) (s : Server) : Server * ips :=
  let a := default [] (arrays s !! array l) in
  let kept := take i a ++ drop (S i) (take (ips_len l) a) in
  (set_arrays (<[array l := kept ++ drop (ips_len l - 1) a]> (arrays s)) s, mkIps (array l) (ips_len l - 1)).

(** ** The black list *)
Definition black_list (s : Server) : BlacklistSqls :=
  default (mkBlacklistSqls ∅ 0) (black_lists s !! current (blacklistSqls s)).

Definition isBlacklistSql (s : Server) (sql : string) : res error bool :=
  let* fingerprint := GetFingerprint sql in
  Ok (bool_decide (is_Some (sqls (black_list s) !! GetMd5 fingerprint))).

(** What [preHandleShard] asks. *)
Definition refuses (s : Server) (sql : string) : res error bool :=
  if negb (sqlsLen (black_list s) =? 0) then isBlacklistSql s sql else Ok false.

Definition set_black (k v : string) (b : BlacklistSqls) : BlacklistSqls :=
  mkBlacklistSqls (<[k := v]> (sqls b)) (i64 (sqlsLen b + 1)).
Definition unset_black (k v : string) (b : BlacklistSqls) : BlacklistSqls :=
  mkBlacklistSqls (delete k (<[k := v]> (sqls b))) (i64 (sqlsLen b - 1)).

(** The list that the current slot points to is changed, then the other slot
    points to it as well and becomes the current one. *)
Definition change_black (f : BlacklistSqls -> BlacklistSqls) (s : Server) : Server :=
  let p := current (blacklistSqls s) in
  set_blacklistSqls (change_to p (blacklistSqls s)) (set_black_lists (alter f p (black_lists s)) s).

Definition AddBlackSql (v : string) : M unit :=
  let v := TrimSpace v in
  do! fingerPrint := lift (GetFingerprint v) in
  let md5 := GetMd5 fingerPrint in
  do! s := get in
  if bool_decide (is_Some (sqls (black_list s) !! md5)) then fail ErrBlackSqlExist
  else modify (change_black (set_black md5 v)).

Definition DelBlackSql (v : string) : M unit :=
  let v := TrimSpace v in
  do! fingerPrint := lift (GetFingerprint v) in
  let md5 := GetMd5 fingerPrint in
  do! s := get in
  if bool_decide (is_Some (sqls (black_list s) !! md5)) then modify (change_black (unset_black md5 v))
  else fail ErrBlackSqlNotExist.

(** *** Its file *)
Definition newline : ascii := "010"%char.

Definition add_line (line : string) (m : gmap string string) : res error (gmap string string) :=
  let* fingerPrint := GetFingerprint line in
  Ok (<[GetMd5 fingerPrint := fingerPrint]> m).

(** The lines of a text that is split at its newlines; what comes after the
    last one is not trimmed. *)
Fixpoint add_lines (lines : list string) (m : gmap string string) : res error (gmap string string) :=
  match lines with
  | [] => Ok m
  | [line] => if negb (slen line =? 0) then add_line line m else Ok m
  | line :: lines =>
      let line := TrimSpace line in
      let* m := (if negb (slen line =? 0) then add_line line m else Ok m) in
      add_lines lines m
  end.

(** The new list is the last one of the store. *)
Definition parseBlackListSqls (blackListFilePath : string) : M nat :=
  do! s := get in
  do! m := (if negb (slen blackListFilePath =? 0) then
              match files s !! blackListFilePath with
              | Some text => lift (add_lines (Split text newline) ∅)
              | None => fail (Errorf ("open " +:+ blackListFilePath +:+ ": no such file or directory"))
              end
            else ret ∅) in
  do! _ := put (set_black_lists (black_lists s ++ [mkBlacklistSqls m (Z.of_nat (size m))]) s) in
  ret (length (black_lists s)).

(** ** Settings *)
Definition ChangeProxy (v : string) : M unit :=
  let to z := modify (fun s => set_status (change_to z (status s)) s) in
  if String.eqb v "online" then to Online
  else if String.eqb v "offline" then to Offline
  else fail ErrCmdUnsupport.

Definition ChangeLogSql (v : string) : M unit :=
  let v := ToLower v in
  if negb (String.eqb v "on") && negb (String.eqb v "off") then fail ErrCmdUnsupport
  else modify (fun s => set_cfg (set_LogSql v (cfg s)) (set_logSql (change_to v (logSql s)) s)).

Definition ChangeSlowLogTime (v : string) : M unit :=
  do! tmp := lift (Atoi v) in
  modify (fun s => set_cfg (set_SlowLogTime tmp (cfg s)) (set_slowLogTime (change_to tmp (slowLogTime s)) s)).

(** ** What depends on the operating system, the servers and the run time *)
Section System.
Context `{StrMapOrder}.
Variables
  (room : nat -> nat)                      (* the room of a new array *)
  (backends : nat -> servers)              (* the servers of a node *)
  (create_file : string -> option error)   (* [os.Create] *)
  (WriteConfigFile : Config -> option error)
  (listen : string -> option error).       (* [net.Listen] *)

(** *** Addresses *)
Definition add_each : list string -> Server * ips -> Server * ips := flip
  (foldl (fun '(s, l) ipStr => match ParseIPInfo (TrimSpace ipStr) with
                              | Ok ip => append_ip room l ip s
                              | _ => (s, l)
                              end)).

Definition parseAllowIps (allowIpsStr : string) : M ips := fun s =>
  let l := mkIps (length (arrays s)) 0 in
  let s := set_arrays (arrays s ++ [replicate 10 no_ip]) s in
  let '(s, l) := (if slen allowIpsStr =? 0 then (s, l) else add_each (Split allowIpsStr ",") (s, l)) in
  (s, Ok l).

Definition AddAllowIP (v : string) : M unit :=
  do! ip := lift (ParseIPInfo v) in
  do! s := get in
  if existsb (fun oldIp => String.eqb (info ip) (info oldIp)) (allowed s) then ret tt
  else
    let '(s, l) := append_ip room (current (allowips s)) ip s in
    do! _ := put (set_allowips (change_to l (allowips s)) s) in
    modify (fun s => set_cfg (set_AllowIps
      (if String.eqb (AllowIps (cfg s)) "" then v else Join [AllowIps (cfg s); v] ",") (cfg s)) s).

Definition DelAllowIP (v : string) : M unit :=
  do! s := get in
  let l := current (allowips s) in
  let s := set_allowips (set_other l (allowips s)) s in
  match list_find (fun t => info t = v) (items s l) with
  | None => put s
  | Some (i, _) =>
      let '(s, l) := remove_ip l i s in
      let ipVec2 := Split (AllowIps (cfg s)) "," in
      let s := set_allowips (change_to l (allowips s)) s in
      put (match list_find (fun ip => ip = v) ipVec2 with
           | Some (j, _) => set_cfg (set_AllowIps (Trim (Join (delete j ipVec2) ",") ",") (cfg s)) s
           | None => s
           end)
  end.

(** *** Saving *)
Definition GetAllBlackSqls (s : Server) : list string :=
  omap (fun md5 => sqls (black_list s) !! md5) (range_strings (dom (sqls (black_list s)))).

Definition saveBlackSql : M unit :=
  do! s := get in
  let path := BlsFile (cfg s) in
  if slen path =? 0 then ret tt
  else
    match create_file path with
    | Some e => fail e
    | None =>
        let text := foldr (fun v text => v +:+ String newline text) "" (GetAllBlackSqls s) in
        put (set_files (<[path := text]> (files s)) s)
    end.

Definition SaveProxyConfig : M unit :=
  do! s := get in
  match WriteConfigFile (cfg s) with
  | Some e => fail e
  | None => saveBlackSql
  end.

(** *** Nodes *)

(** A method of the node that a pointer points to. *)
Definition on_node (p : nat) (m : Node.M unit) : M unit := fun s =>
  match all_nodes s !! p with
  | Some n => let '(n, r) := m n in (set_all_nodes (<[p := n]> (all_nodes s)) s, r)
  | None => (s, Panic (PRuntime "nil pointer dereference"))
  end.

Definition the_node (message : string) (node : string) : M nat :=
  do! s := get in
  match GetNode s node with Some p => ret p | None => fail (Errorf message) end.

(** The configuration of the nodes of that name. *)
Definition update_slaves (node : string) (f : list string -> list string) (l : list NodeConfig) : list NodeConfig :=
  (fun c => if String.eqb (cfg_Name c) node
            then mkNodeConfig (cfg_Name c) (cfg_DownAfterNoAlive c) (cfg_MaxConnNum c) (cfg_User c) (cfg_Password c)
                   (cfg_Master c) (Join (f (Split (cfg_Slave c) ",")) SlaveSplit)
            else c) <$> l.
Definition sync_slaves (node : string) (f : list string -> list string) : M unit :=
  modify (fun s => set_cfg (set_cfg_nodes (update_slaves node f (cfg_nodes (cfg s))) (cfg s)) s).

Definition DeleteSlave (node addr : string) : M unit :=
  let addr := hd "" (Split addr WeightSplit) in
  do! p := the_node ("invalid node " +:+ node) node in
  do! _ := on_node p (Node.DeleteSlave (backends p) addr) in
  sync_slaves node (filter (fun v2 => addr <> hd "" (Split v2 WeightSplit))).

Definition AddSlave (node addr : string) : M unit :=
  do! p := the_node ("invalid node " +:+ node) node in
  do! _ := on_node p (Node.AddSlave (backends p) addr) in
  sync_slaves node (fun s1 => s1 ++ [addr]).

Definition UpMaster (node addr : string) : M unit :=
  do! p := the_node ("invalid node " +:+ node) node in on_node p (Node.UpMaster (backends p) addr).
Definition UpSlave (node addr : string) : M unit :=
  do! p := the_node ("invalid node " +:+ node) node in on_node p (Node.UpSlave (backends p) addr).
Definition DownMaster (node masterAddr : string) : M unit :=
  do! p := the_node ("invalid node " +:+ node) node in on_node p (Node.DownMaster masterAddr ManualDown).
Definition DownSlave (node slaveAddr : string) : M unit :=
  do! p := the_node ("invalid node [" +:+ node +:+ "].") node in on_node p (Node.DownSlave slaveAddr ManualDown).

(** *** Starting, and reading the configuration again *)

(** Nodes that were started stay in the store when a later one fails. *)
Fixpoint parse_nodes (l : list NodeConfig) (m : gmap string nat) : M (gmap string nat) :=
  match l with
  | [] => ret m
  | v :: l =>
      if bool_decide (is_Some (m !! cfg_Name v)) then fail (Errorf ("duplicate node [" +:+ cfg_Name v +:+ "]"))
      else
        do! s := get in
        let p := length (all_nodes s) in
        do! n := lift (Node.parseNode (backends p) v) in
        do! _ := put (set_all_nodes (all_nodes s ++ [n]) s) in
        parse_nodes l (<[cfg_Name v := p]> m)
  end.
Definition parseNodes (cfgNodes : list NodeConfig) : M (gmap string nat) := parse_nodes cfgNodes ∅.

Fixpoint schema_nodes_of (allNodes : gmap string nat) (l : list string) (m : gmap string nat)
  : res error (gmap string nat) :=
  match l with
  | [] => Ok m
  | n :: l =>
      match allNodes !! n with
      | None => Err (Errorf ("schema node [" +:+ n +:+ "] config is not exists"))
      | Some p =>
          if bool_decide (is_Some (m !! n)) then Err (Errorf ("schema node [" +:+ n +:+ "] duplicate"))
          else schema_nodes_of allNodes l (<[n := p]> m)
      end
  end.

Definition parse_schema (allNodes : gmap string nat) (schemaCfg : SchemaConfig) : res error Schema :=
  if Nat.eqb (length (sch_Nodes schemaCfg)) 0 then Err (Errorf "schema must have a node")
  else
    let* l := schema_nodes_of allNodes (sch_Nodes schemaCfg) ∅ in
    let* rule := NewRouter schemaCfg in
    Ok (mkSchema l rule).

Definition parseSchemaList (schemaCfgList : list SchemaConfig) (allNodes : gmap string nat)
  : res error (gmap string Schema) :=
  rfold (fun m schemaCfg => let* sch := parse_schema allNodes schemaCfg in Ok (<[sch_User schemaCfg := sch]> m))
    ∅ schemaCfgList.

Definition user_map (l : list UserConfig) : gmap string string :=
  foldl (fun m u => <[u_User u := u_Password u]> m) ∅ l.

(** The first user, in the order of the map, without a schema. *)
Definition check_users (us : gmap string string) (schs : gmap string Schema) : res error unit :=
  match filter (fun user => schs !! user = None) (range_strings (dom us)) with
  | [] => Ok tt
  | user :: _ => Err (Errorf ("user [" +:+ user +:+ "] must have a schema"))
  end.

(** [s := new(Server)] *)
Definition zero_config : Config := mkConfig "" [] "" "" "" 0 "" "" "" [] [].
Definition zero_server (d : charset_defaults) (f : gmap string string) : Server :=
  mkServer zero_config ∅ (mkDouble false 0 0) (mkDouble false "" "") (mkDouble false 0 0) (mkDouble false 0%nat 0%nat)
    (mkDouble false (mkIps 0 0) (mkIps 0 0)) (mkCounter 0 0 0 0 0 0 0) ∅ ∅ 0 d [] [] [] f.

(** [s.x[s.xIndex] = v] *)
Definition set_current {A} (v : A) (d : double A) : double A :=
  if index d then mkDouble true (zero d) v else mkDouble false v (one d).

Definition init_charset (c : Config) : M Config :=
  do! s := get in
  let c := if slen (Charset_ c) =? 0 then set_Charset (d_charset (defaults s)) c else c in
  match CharsetIds !! Charset_ c with
  | None => fail ErrInvalidCharset
  | Some cid =>
      do! _ := put (set_cfg c (set_defaults (mkDefaults (Charset_ c) cid (default "" (Collations !! cid))) s)) in ret c
  end.

(** [NewServer] on a zero server; when it fails there is no server, but the
    default character set may have changed. *)
Definition NewServer (c : Config) : M unit :=
  do! _ := modify (fun s =>
    let s := set_users (user_map (UserList c)) (set_cfg c s) in
    let s := set_status (set_current Online (status s)) s in
    let s := set_logSql (set_current (LogSql c) (logSql s)) s in
    set_slowLogTime (set_current (SlowLogTime c) (slowLogTime s)) s) in
  do! c := init_charset c in
  do! bs := parseBlackListSqls (BlsFile c) in
  do! _ := modify (set_blacklistSqls (mkDouble false bs bs)) in
  do! l := parseAllowIps (AllowIps c) in
  do! _ := modify (set_allowips (mkDouble false l l)) in
  do! ns := parseNodes (cfg_nodes c) in
  do! _ := modify (set_nodes ns) in
  do! schs := lift (parseSchemaList (SchemaList c) ns) in
  do! _ := modify (set_schemas schs) in
  do! _ := lift (check_users (user_map (UserList c)) schs) in
  unless (listen (Addr c)).

(** The nodes that were used stop their checks. *)
Definition set_offline (n : Node) : Node :=
  mkNode (Cfg n) (Master n) (slaves n) (DownAfterNoAlive n) false (dbs n).
Definition nodes_offline (s : Server) : Server :=
  set_all_nodes (foldr (fun x l => alter set_offline x.2 l) (all_nodes s) (map_to_list (nodes s))) s.

(** What is read and checked first: the black list, the addresses, the nodes
    and the schemas. *)
Definition read_config (newCfg : Config) : M (nat * ips * gmap string nat * gmap string Schema) :=
  do! newBlackList := parseBlackListSqls (BlsFile newCfg) in
  do! newAllowIps := parseAllowIps (AllowIps newCfg) in
  do! ns := parseNodes (cfg_nodes newCfg) in
  do! newSchemas := lift (parseSchemaList (SchemaList newCfg) ns) in
  do! _ := lift (check_users (user_map (UserList newCfg)) newSchemas) in
  ret (newBlackList, newAllowIps, ns, newSchemas).

(** The log level, which the logger keeps, is left out. *)
Definition use_config (newCfg : Config) (new : nat * ips * gmap string nat * gmap string Schema) : M unit :=
  let '(newBlackList, newAllowIps, ns, newSchemas) := new in
  do! _ := modify (fun s =>
    let s := set_cfg newCfg s in
    let s := set_blacklistSqls (change_to newBlackList (blacklistSqls s)) s in
    let s := set_allowips (change_to newAllowIps (allowips s)) s in
    set_users (user_map (UserList newCfg)) s) in
  do! _ := try (ChangeSlowLogTime (FormatInt (SlowLogTime newCfg))) in
  do! _ := modify nodes_offline in
  modify (fun s => set_configVer (u32 (configVer s + 1)) (set_schemas newSchemas (set_nodes ns s))).

Definition update_config (newCfg : Config) : M unit :=
  do! new := read_config newCfg in use_config newCfg new.

(** Errors and panics are logged, nobody sees them. *)
Definition UpdateConfig (newCfg : Config) : M unit := fun s => ((update_config newCfg s).1, Ok tt).
End System.
