(* ===== verification/ServerTheorems.v ===== *)
(** * What the server's settings promise *)
From S2P Require Import Prelude Errors StateM GoLib Wire GoNet Charset RouteLists Rule Router SelectMerge.
From S2P Require Import GoHash Fingerprint Balancer Pool Node Server.
From Stdlib Require Import Ascii.
Open Scope Z_scope.

(** ** Entries of the list of addresses

    The network that a text denotes: an address and how many of its 128 bits
    count.  This is how the documentation reads an entry. *)
Definition prefix_of (addr mask : string) : option (bytes * Z) :=
  '(n, rest) ← dtoi mask;
  if negb (String.eqb rest "") then None
  else match parseIPv4 addr with
       | Some a => if 32 <? n then None else Some (a, 96 + n)
       | None => a ← parseIPv6 addr; if 128 <? n then None else Some (a, n)
       end.
Definition network_of (v : string) : option (bytes * Z) :=
  match SplitN2 v "/" with
  | [addr; mask] => prefix_of addr mask
  | _ => a ← ParseIP v; Some (a, 128)
  end.

(** Whether a client is in a network; one that is larger than the addresses
    of IPv4 has none of them. *)
Definition in_network (net : bytes * Z) (x : bytes) : Prop :=
  same_prefix net.2 net.1 x /\ (net.2 < 96 -> ~ is_v4 x).

Lemma schar_in_cons d c s : schar_in d (String c s) = Ascii.eqb d c || schar_in d s.
Proof. done. Qed.

Lemma digits_from_slash digit base n s m rest : digit "/"%char = None ->
  digits_from digit base n s = Some (m, rest) -> schar_in "/" s = true -> schar_in "/" rest = true.
Proof.
  intros Hd. revert n. induction s as [|c s IH]; intros n H Hs; [done|]. cbn [digits_from] in H.
  destruct (digit c) as [d|] eqn:Hc; [|by simplify_eq]. case_if_in H; [done|].
  eapply IH; [exact H|]. rewrite schar_in_cons in Hs. apply orb_true_iff in Hs as [Hs|]; [|done].
  apply Ascii.eqb_eq in Hs as <-. congruence.
Qed.
Lemma number_slash digit base s m rest : digit "/"%char = None ->
  number digit base s = Some (m, rest) -> schar_in "/" s = true -> schar_in "/" rest = true.
Proof.
  intros Hd H. destruct s as [|c s]; [done|]. unfold number in H. destruct (digit c) eqn:Hc; [|done].
  by eapply digits_from_slash.
Qed.

Lemma v4_slash k first s : schar_in "/" s = true -> v4_bytes k first s = None.
Proof.
  revert first s. induction k as [|k IH]; intros first s Hs; cbn [v4_bytes]; [by destruct s|].
  destruct (if first then Some s else _) as [t|] eqn:Ht; [|done]. cbn [mbind option_bind].
  assert (schar_in "/" t = true) as Ht'.
  { destruct first; [by simplify_eq|]. destruct s as [|c s]; [done|]. case_if_in Ht; [|done]. simplify_eq.
    apply Ascii.eqb_eq in Hif as ->. done. }
  destruct (dtoi t) as [[n rest]|] eqn:Hn; [|done]. cbn [mbind option_bind]. case_if; [done|].
  rewrite IH; [done|]. by eapply (number_slash digit_of).
Qed.

Lemma v6_slash k e ip s ip' e' rest : schar_in "/" s = true ->
  v6_groups k e ip s = Some (ip', e', rest) -> schar_in "/" rest = true.
Proof.
  revert e ip s. induction k as [|k IH]; intros e ip s Hs H; cbn [v6_groups] in H; [by simplify_eq|].
  apply bind_Some in H as ([n t] & Hn & H). pose proof (number_slash hex_of 16 s n t eq_refl Hn Hs) as Ht.
  case_if_in H; [done|]. destruct t as [|c t]; [done|].
  case_if_in H; [case_if_in H; [done|]; by rewrite v4_slash in H|].
  assert (schar_in "/" t = true) as Ht'.
  { rewrite schar_in_cons in Ht. apply orb_true_iff in Ht as [Hc|]; [|done]. apply Ascii.eqb_eq in Hc as <-.
    case_if_in H; [discriminate Hif1|done]. }
  case_if_in H; [|done]. destruct t as [|d t]; [done|]. case_if_in H; [|by eapply IH; [|exact H]].
  apply Ascii.eqb_eq in Hif2 as ->. destruct e; [done|]. destruct t; [done|]. by eapply IH; [|exact H].
Qed.

Lemma ParseIP_slash s : schar_in "/" s = true -> ParseIP s = None.
Proof.
  intros Hs. unfold ParseIP. destruct (first_mark s) as [c|]; [|done].
  case_if; [unfold parseIPv4; by rewrite v4_slash|].
  assert (forall e t, schar_in "/" t = true ->
    ('(ip, e, rest) ← v6_groups 8 e [] t; if String.eqb rest "" then v6_expand ip e else None) = None) as Hg.
  { intros e t Ht. destruct (v6_groups 8 e [] t) as [[[ip e'] rest]|] eqn:H; [|done]. cbn [mbind option_bind].
    apply v6_slash in H; [|done]. by destruct rest. }
  unfold parseIPv6. destruct s as [|a [|b s]]; [by apply Hg..|]. case_if as Hab; [|by apply Hg].
  assert (schar_in "/" s = true) as Hs'.
  { apply andb_true_iff in Hab as [Ha Hb]. apply Ascii.eqb_eq in Ha as ->. apply Ascii.eqb_eq in Hb as ->. done. }
  destruct s; [done|]. by apply Hg.
Qed.

Lemma SplitN2_shape s c : (exists a b, SplitN2 s c = [a; b] /\ schar_in c s = true) \/ SplitN2 s c = [s].
Proof.
  induction s as [|d s IH]; [by right|]. cbn [SplitN2]. rewrite schar_in_cons. destruct (Ascii.eqb d c) eqn:Hd.
  - left. apply Ascii.eqb_eq in Hd as ->. rewrite Ascii.eqb_refl. eauto.
  - destruct IH as [(a & b & -> & ->)| ->]; [left|by right]. rewrite orb_true_r. eauto.
Qed.

(** An entry is accepted exactly when it denotes a network, and matches the
    clients of that network. *)
Lemma ParseIPInfo_network v :
  match network_of v with
  | Some net => exists t, ParseIPInfo v = Ok t /\ info t = v /\
                  forall x, addr16 x -> Match t x = true <-> in_network net x
  | None => ParseIPInfo v = Err (Errorf "invalid ip address")
  end.
Proof.
  unfold network_of, ParseIPInfo, ParseCIDR.
  destruct (SplitN2_shape v "/") as [(addr & mask & -> & Hs)| ->].
  - unfold prefix_of. rewrite (ParseIP_slash v Hs).
    destruct (parseIPv4 addr) as [a|] eqn:H4; cbn [mbind option_bind].
    + destruct (dtoi mask) as [[n rest]|] eqn:Hn; cbn [mbind option_bind]; [|done].
      destruct (String.eqb rest ""); cbn [negb orb]; [|done]. change (8 * Z.of_nat 4) with 32.
      case_if; [done|]. eexists. split; [done|]. split; [done|]. intros x Hx. cbn [Match isIPNet ipNet].
      pose proof (parseIPv4_16 _ _ H4) as Ha. apply dtoi_nonneg in Hn.
      apply parseIPv4_ok in H4 as (b & -> & _). unfold Match. cbn [isIPNet ipNet].
      rewrite Contains_v4 by (done || lia). unfold in_network. cbn [fst snd]. split; [split; [done|lia]|by intros []].
    + destruct (parseIPv6 addr) as [a|] eqn:H6; cbn [mbind option_bind];
        [|destruct (dtoi mask) as [[n rest]|]; cbn [mbind option_bind]; [by case_if|done]].
      destruct (dtoi mask) as [[n rest]|] eqn:Hn; cbn [mbind option_bind]; [|done].
      destruct (String.eqb rest ""); cbn [negb orb]; [|done]. change (8 * Z.of_nat 16) with 128.
      case_if; [done|]. eexists. split; [done|]. split; [done|]. intros x Hx.
      pose proof (parseIPv6_ok _ _ H6) as Ha. apply dtoi_nonneg in Hn. unfold Match. cbn [isIPNet ipNet].
      by rewrite Contains_v6 by (done || lia).
  - destruct (ParseIP v) as [a|] eqn:Ha; cbn [mbind option_bind]; [|done].
    eexists. split; [done|]. split; [done|]. intros x [Hx1 Hx2]. apply ParseIP_ok in Ha as [Ha1 Ha2].
    unfold Match, IP_Equal. cbn [isIPNet ip]. rewrite Ha2, Hx2. cbn [Nat.eqb andb]. rewrite !orb_false_r, bool_decide_eq_true.
    unfold in_network. cbn [fst snd].
    rewrite <- masked_prefix by (done || congruence || lia). rewrite Ha2.
    change (CIDRMask 128 16) with (replicate 16 255).
    pose proof (and_bytes_ones a Ha1) as Ea. pose proof (and_bytes_ones x Hx1) as Ex. rewrite Ha2 in Ea. rewrite Hx2 in Ex.
    rewrite Ea, Ex. split; [split; [done|lia]|by intros []].
Qed.

(** ** Who may connect *)

(** The entries were parsed, and the slices lie in their arrays. *)
Definition entry_ok (t : IPInfo) : Prop := ParseIPInfo (info t) = Ok t.
Definition slice_ok (s : Server) (l : ips) : Prop := exists a, arrays s !! array l = Some a /\ (ips_len l <= length a)%nat.
Record ips_ok (s : Server) : Prop := {
  ips_slices : slice_ok s (current (allowips s));
  ips_entries : Forall entry_ok (allowed s)
}.

(** C26: a client may connect exactly when the list of addresses is empty or
    its address lies in the network that one of the entries denotes:
    prefixes are compared bit by bit, an IPv4 entry being the last 32 bits of
    an IPv6 one. *)
Theorem clients_by_address s host x (Hok : ips_ok s) (Hhost : ParseIP host = Some x) :
  IsAllowConnect s host = true <->
  allowed s = [] \/ exists t net, t ∈ allowed s /\ network_of (info t) = Some net /\ in_network net x.
Proof.
  assert (forall t, t ∈ allowed s ->
    Match t x = true <-> exists net, network_of (info t) = Some net /\ in_network net x) as Ht.
  { intros t Hin. pose proof (ips_entries s Hok) as Hall. rewrite Forall_forall in Hall.
    specialize (Hall t Hin). unfold entry_ok in Hall. pose proof (ParseIPInfo_network (info t)) as H.
    destruct (network_of (info t)) as [net|]; [|congruence].
    destruct H as (t' & Ht' & _ & Hm). assert (t' = t) as -> by congruence.
    rewrite Hm by (eapply ParseIP_ok; exact Hhost). naive_solver. }
  unfold IsAllowConnect. rewrite Hhost. cbn [default id]. destruct (allowed s) as [|e l]; [naive_solver|].
  rewrite existsb_exists. split.
  - intros (t & Hin%list_elem_of_In & Hm). apply (Ht t Hin) in Hm as (net & ? & ?). eauto 10.
  - intros [|(t & net & Hin & Hnet & Hx)]; [done|]. exists t. split; [by apply list_elem_of_In|]. apply Ht; eauto.
Qed.

(** ** Changing the list *)
Lemma append_ip_ok room l t s : slice_ok s l ->
  let r := append_ip room l t s in
  slice_ok r.1 r.2 /\ items r.1 r.2 = items s l ++ [t] /\
  exists A, r.1 = set_arrays A s.
Proof.
  intros (a & Ha & Hl). unfold append_ip, items, slice_ok. rewrite Ha. cbn [default id].
  case_if as Hlt; cbn [fst snd array ips_len arrays set_arrays].
  - apply Nat.ltb_lt in Hlt. rewrite !list_lookup_insert_eq by (by eapply lookup_lt_Some). cbn [default id].
    split; [|split; [|by eexists]].
    + eexists. split; [done|]. rewrite length_insert. lia.
    + rewrite (take_S_r _ _ t) by (by rewrite list_lookup_insert_eq by lia). by rewrite take_insert_ge by lia.
  - apply Nat.ltb_ge in Hlt. rewrite !list_lookup_middle by done. cbn [default id].
    assert (length (take (ips_len l) a) = ips_len l) as Htl by (rewrite length_take; lia).
    split; [|split; [|by eexists]].
    + eexists. split; [done|]. rewrite length_app. cbn [length]. lia.
    + rewrite (take_app_ge) by lia. rewrite Htl. replace (S (ips_len l) - ips_len l)%nat with 1%nat by lia. done.
Qed.

Lemma remove_ip_ok l i s : slice_ok s l -> (i < ips_len l)%nat ->
  let r := remove_ip l i s in
  slice_ok r.1 r.2 /\ items r.1 r.2 = delete i (items s l) /\ exists A, r.1 = set_arrays A s.
Proof.
  intros (a & Ha & Hl) Hi. unfold remove_ip, items, slice_ok. rewrite Ha. cbn [default id fst snd array ips_len arrays set_arrays].
  rewrite !list_lookup_insert_eq by (by eapply lookup_lt_Some). cbn [default id].
  assert (length (take i a ++ drop (S i) (take (ips_len l) a)) = (ips_len l - 1)%nat) as Hk
    by (rewrite length_app, length_drop, !length_take; lia).
  split; [|split; [|by eexists]].
  - eexists. split; [done|]. rewrite length_app, Hk. lia.
  - rewrite take_app_le by lia. rewrite take_ge by lia. rewrite delete_take_drop.
    rewrite take_take. by replace (i `min` ips_len l)%nat with i by lia.
Qed.

(** A state whose current list is [l]. *)
Lemma new_list s l d : allowips s = change_to l d -> slice_ok s l -> Forall entry_ok (items s l) ->
  ips_ok s /\ allowed s = items s l.
Proof.
  intros Hd Hs He. assert (allowed s = items s l) as Ha by (unfold allowed; by rewrite Hd, current_change_to).
  split; [|done]. split; [by rewrite Hd, current_change_to | by rewrite Ha].
Qed.

Section Changes.
Variables (room : nat -> nat) (s : Server).

Lemma in_infos v : existsb (fun oldIp => String.eqb v (info oldIp)) (allowed s) = bool_decide (v ∈ info <$> allowed s).
Proof.
  apply Bool.eq_iff_eq_true. rewrite bool_decide_eq_true, existsb_exists, list_elem_of_fmap.
  split; intros (e & H1 & H2); exists e.
  - apply String.eqb_eq in H2. split; [done|by apply list_elem_of_In].
  - rewrite H1, String.eqb_refl. split; [by apply list_elem_of_In|done].
Qed.

Lemma AddAllowIP_ok v : ips_ok s ->
  let s' := (AddAllowIP room v s).1 in
  ips_ok s' /\
  match ParseIPInfo v with
  | Ok t => (AddAllowIP room v s).2 = Ok tt /\
            allowed s' = (if decide (v ∈ info <$> allowed s) then allowed s else allowed s ++ [t])
  | _ => AddAllowIP room v s = (s, Err (Errorf "invalid ip address"))
  end.
Proof.
  intros Hok. pose proof (ParseIPInfo_network v) as Hv. unfold AddAllowIP, lift, bind.
  destruct (network_of v) as [net|]; [|rewrite Hv; by destruct s].
  destruct Hv as (t & Ht & Hi & _). rewrite Ht. unfold get. rewrite Hi, in_infos.
  destruct (decide (v ∈ info <$> allowed s)) as [Hin|Hin];
    [by rewrite (bool_decide_eq_true_2 _ Hin)|rewrite (bool_decide_eq_false_2 _ Hin)].
  pose proof (append_ip_ok room (current (allowips s)) t s (ips_slices s Hok)) as (Hs & Hit & A & HA).
  destruct (append_ip room (current (allowips s)) t s) as [s' l'] eqn:Happ. cbn [fst snd] in *. subst s'.
  unfold put, modify. cbn [fst snd].
  match goal with |- ips_ok ?x /\ _ => destruct (new_list x l' (allowips s) eq_refl Hs) as [Hok' Hall] end.
  - change (Forall entry_ok (items (set_arrays A s) l')). rewrite Hit. apply Forall_app. split; [apply Hok|].
    constructor; [unfold entry_ok; congruence|done].
  - split; [exact Hok'|]. split; [done|]. rewrite Hall. exact Hit.
Qed.

Lemma DelAllowIP_ok v : ips_ok s ->
  let s' := (DelAllowIP v s).1 in
  ips_ok s' /\ (DelAllowIP v s).2 = Ok tt /\
  allowed s' = match list_find (fun t => info t = v) (allowed s) with
               | Some (i, _) => delete i (allowed s)
               | None => allowed s
               end.
Proof.
  intros Hok. unfold DelAllowIP, bind, get. cbn [fst snd].
  change (items (set_allowips _ s) (current (allowips s))) with (allowed s).
  destruct (list_find (fun t => info t = v) (allowed s)) as [[i e]|] eqn:Hf.
  - set (s1 := set_allowips _ s). assert (slice_ok s1 (current (allowips s))) as Hs1 by exact (ips_slices s Hok).
    apply list_find_Some in Hf as (Hl & _ & _). apply lookup_lt_Some in Hl as Hlt.
    unfold allowed, items in Hlt. rewrite length_take in Hlt.
    pose proof (remove_ip_ok (current (allowips s)) i s1 Hs1 ltac:(lia)) as (Hs & Hit & A & HA).
    destruct (remove_ip (current (allowips s)) i s1) as [s' l'] eqn:Hr. cbn [fst snd] in *. subst s'.
    change (items s1 (current (allowips s))) with (allowed s) in Hit.
    assert (forall c, let x := set_cfg c (set_allowips (change_to l' (allowips (set_arrays A s1))) (set_arrays A s1)) in
      ips_ok x /\ allowed x = delete i (allowed s)) as Hx.
    { intros c x. destruct (new_list x l' _ eq_refl Hs) as [H1 H2]; [|by rewrite H2].
      change (Forall entry_ok (items (set_arrays A s1) l')). rewrite Hit. apply Forall_delete, Hok. }
    unfold put. case_match; [case_match|]; cbn [fst snd]; (split; [|split; [done|]]); apply Hx || apply (Hx (cfg s)).
  - unfold put. cbn [fst snd]. assert (allowed (set_allowips (set_other (current (allowips s)) (allowips s)) s) = allowed s
      /\ current (set_other (current (allowips s)) (allowips s)) = current (allowips s)) as [Ha Hc].
    { unfold allowed. cbn [allowips set_allowips]. by destruct (allowips s) as [[] ? ?]. }
    split; [|done]. split; [|by rewrite Ha; apply Hok]. cbn [allowips set_allowips]. rewrite Hc. apply Hok.
Qed.
End Changes.

(** The administrator's changes of the list.  An address that is added
    comes last, once; one that is deleted leaves with its first entry; adding
    a new address and deleting it again gives the list back; what is no
    address is refused and changes nothing. *)
Theorem allow_list_changes room s v (Hok : ips_ok s) :
  let added := AddAllowIP room v s in
  let deleted := DelAllowIP v s in
  ips_ok added.1 /\ ips_ok deleted.1 /\ deleted.2 = Ok tt /\
  (network_of v = None -> added = (s, Err (Errorf "invalid ip address"))) /\
  (is_Some (network_of v) ->
   added.2 = Ok tt /\
   info <$> allowed added.1 = (info <$> allowed s) ++ (if decide (v ∈ info <$> allowed s) then [] else [v])) /\
  allowed deleted.1 = match list_find (fun t => info t = v) (allowed s) with
                      | Some (i, _) => delete i (allowed s)
                      | None => allowed s
                      end /\
  (v ∉ info <$> allowed s -> allowed (DelAllowIP v added.1).1 = allowed s).
Proof.
  intros added deleted. destruct (AddAllowIP_ok room s v Hok) as [Hadd Ha].
  destruct (DelAllowIP_ok s v Hok) as (Hdel & Hr & Hd). fold added deleted in Hadd, Ha, Hdel, Hr, Hd.
  pose proof (ParseIPInfo_network v) as Hv.
  assert (forall t, info t = v -> v ∉ info <$> allowed s ->
    list_find (fun t => info t = v) (allowed s) = None) as Hnew.
  { intros t Ht Hin. apply list_find_None, Forall_forall. intros e He <-. apply Hin. by apply list_elem_of_fmap_2. }
  split; [done|]. split; [done|]. split; [done|].
  destruct (network_of v) as [net|].
  - destruct Hv as (t & Ht & Hi & _). rewrite Ht in Ha. destruct Ha as [Ha1 Ha2].
    split; [done|]. split; [|split; [done|]].
    + intros _. split; [done|]. rewrite Ha2. case_decide; [by rewrite app_nil_r|]. by rewrite fmap_app, <- Hi.
    + intros Hin. destruct (DelAllowIP_ok added.1 v Hadd) as (_ & _ & Hd'). rewrite Hd', Ha2.
      destruct (decide (v ∈ info <$> allowed s)) as [|_]; [done|].
      rewrite list_find_app_r by (by eapply Hnew). cbn. rewrite Hi, decide_True by done. cbn.
      by rewrite delete_middle, app_nil_r.
  - rewrite Hv in Ha. split; [done|]. split; [by intros []|]. split; [done|].
    intros Hin. rewrite Ha. cbn [fst]. destruct (DelAllowIP_ok s v Hok) as (_ & _ & Hd'). rewrite Hd'.
    destruct (list_find _ (allowed s)) as [[i e]|] eqn:Hf; [|done].
    apply list_find_Some in Hf as (Hl & He & _). destruct Hin. rewrite <- He. apply list_elem_of_fmap_2.
    by eapply list_elem_of_lookup_2.
Qed.

(** ** The black list *)

(** What a statement is looked up by. *)
Definition key_of (sql : string) : res error string :=
  let* fingerprint := GetFingerprint sql in Ok (GetMd5 fingerprint).
Definition black_keys (s : Server) : gset string := dom (sqls (black_list s)).
Definition black_ok (s : Server) : Prop := exists b,
  black_lists s !! current (blacklistSqls s) = Some b /\ sqlsLen b = Z.of_nat (size (sqls b)) /\ sqlsLen b < 2 ^ 63 - 1.

Lemma black_list_at s b : black_lists s !! current (blacklistSqls s) = Some b -> black_list s = b.
Proof. unfold black_list. by intros ->. Qed.

Lemma refuses_exact s sql k : black_ok s -> key_of sql = Ok k -> refuses s sql = Ok (bool_decide (k ∈ black_keys s)).
Proof.
  intros (b & Hb & Hlen & _) Hk. unfold refuses, isBlacklistSql, black_keys. rewrite (black_list_at s b Hb).
  unfold key_of in Hk. apply rbind_Ok_inv in Hk as (f & -> & [= <-]). cbn [rbind].
  case_if as Hz.
  - f_equal. apply bool_decide_ext. by rewrite elem_of_dom.
  - apply negb_false_iff, Z.eqb_eq in Hz. rewrite bool_decide_eq_false_2; [done|].
    assert (size (sqls b) = 0)%nat as H0 by lia. apply map_size_empty_iff in H0. rewrite H0, dom_empty_L. set_solver.
Qed.

Lemma change_black_ok f s b : black_lists s !! current (blacklistSqls s) = Some b ->
  black_lists (change_black f s) !! current (blacklistSqls (change_black f s)) = Some (f b).
Proof.
  intros Hb. unfold change_black. cbn [black_lists blacklistSqls set_blacklistSqls set_black_lists].
  rewrite current_change_to, list_lookup_alter_eq, Hb. done.
Qed.

Lemma AddBlackSql_run s v k : key_of (TrimSpace v) = Ok k ->
  AddBlackSql v s = if decide (k ∈ black_keys s) then (s, Err ErrBlackSqlExist)
                    else (change_black (set_black k (TrimSpace v)) s, Ok tt).
Proof.
  intros Hk. unfold AddBlackSql, lift, bind, get, modify. unfold key_of in Hk.
  apply rbind_Ok_inv in Hk as (f & -> & [= ->]). unfold black_keys.
  destruct (decide (k ∈ dom (sqls (black_list s)))) as [H|H]; rewrite elem_of_dom in H;
    [by rewrite (bool_decide_eq_true_2 _ H) | by rewrite (bool_decide_eq_false_2 _ H)].
Qed.

Lemma DelBlackSql_run s v k : key_of (TrimSpace v) = Ok k ->
  DelBlackSql v s = if decide (k ∈ black_keys s) then (change_black (unset_black k (TrimSpace v)) s, Ok tt)
                    else (s, Err ErrBlackSqlNotExist).
Proof.
  intros Hk. unfold DelBlackSql, lift, bind, get, modify. unfold key_of in Hk.
  apply rbind_Ok_inv in Hk as (f & -> & [= ->]). unfold black_keys.
  destruct (decide (k ∈ dom (sqls (black_list s)))) as [H|H]; rewrite elem_of_dom in H;
    [by rewrite (bool_decide_eq_true_2 _ H) | by rewrite (bool_decide_eq_false_2 _ H)].
Qed.

Lemma set_black_ok s k v : black_ok s -> sqlsLen (black_list s) < 2 ^ 62 -> k ∉ black_keys s ->
  let s' := change_black (set_black k v) s in black_ok s' /\ black_keys s' = {[k]} ∪ black_keys s.
Proof.
  intros (b & Hb & Hsize & _) Hlen Hk. pose proof (change_black_ok (set_black k v) s b Hb) as Hb'.
  unfold black_keys in *. rewrite (black_list_at _ _ Hb) in *. rewrite (black_list_at _ _ Hb').
  split; [|cbn [sqls set_black]; by rewrite dom_insert_L].
  eexists. split; [exact Hb'|]. cbn [sqls sqlsLen set_black].
  rewrite map_size_insert_None by (by apply not_elem_of_dom). rewrite i64_id by (unfold in_i64; lia). lia.
Qed.

Lemma unset_black_ok s k v : black_ok s -> k ∈ black_keys s ->
  let s' := change_black (unset_black k v) s in black_ok s' /\ black_keys s' = black_keys s ∖ {[k]}.
Proof.
  intros (b & Hb & Hsize & Hlen) Hk. pose proof (change_black_ok (unset_black k v) s b Hb) as Hb'.
  unfold black_keys in *. rewrite (black_list_at _ _ Hb) in *. rewrite (black_list_at _ _ Hb').
  apply elem_of_dom in Hk as Hsome. destruct Hsome as [u Hu].
  split; [|cbn [sqls unset_black]; rewrite dom_delete_L, dom_insert_L; set_solver].
  eexists. split; [exact Hb'|]. cbn [sqls sqlsLen unset_black].
  rewrite map_size_delete_Some by (by rewrite lookup_insert_eq).
  rewrite map_size_insert_Some by (by eexists).
  assert (size (sqls b) <> 0)%nat by (intros H0%map_size_empty_iff; by rewrite H0 in Hu).
  rewrite i64_id by (unfold in_i64; lia). lia.
Qed.

(** C32: the black list.  After a statement was added, the statements that
    are refused are those that were and those with its fingerprint; after it
    was deleted, those that were except these.  Adding what is there and
    deleting what is not are errors that change nothing. *)
Theorem black_list_exact s v k (Hok : black_ok s) (Hlen : sqlsLen (black_list s) < 2 ^ 62)
    (Hk : key_of (TrimSpace v) = Ok k) :
  let added := AddBlackSql v s in
  let deleted := DelBlackSql v s in
  (k ∈ black_keys s -> added = (s, Err ErrBlackSqlExist) /\ deleted.2 = Ok tt) /\
  (k ∉ black_keys s -> added.2 = Ok tt /\ deleted = (s, Err ErrBlackSqlNotExist)) /\
  black_ok added.1 /\ black_ok deleted.1 /\
  forall sql k', key_of sql = Ok k' ->
    refuses added.1 sql = Ok (bool_decide (k' = k \/ k' ∈ black_keys s)) /\
    refuses deleted.1 sql = Ok (bool_decide (k' <> k /\ k' ∈ black_keys s)).
Proof.
  intros added deleted. unfold added, deleted. rewrite (AddBlackSql_run s v k Hk), (DelBlackSql_run s v k Hk).
  destruct (decide (k ∈ black_keys s)) as [Hin|Hin].
  - destruct (unset_black_ok s k (TrimSpace v) Hok Hin) as [Hdel Hkeys].
    do 4 (split; [done|]). intros sql k' Hk'. cbn [fst].
    rewrite (refuses_exact _ _ _ Hok Hk'), (refuses_exact _ _ _ Hdel Hk'), Hkeys.
    split; f_equal; apply bool_decide_ext; [|set_solver]. split; [by right|]. by intros [->|].
  - destruct (set_black_ok s k (TrimSpace v) Hok Hlen Hin) as [Hadd Hkeys].
    do 4 (split; [done|]). intros sql k' Hk'. cbn [fst].
    rewrite (refuses_exact _ _ _ Hok Hk'), (refuses_exact _ _ _ Hadd Hk'), Hkeys.
    split; f_equal; apply bool_decide_ext; [set_solver|]. split; [|by intros []]. intros H. split; [by intros ->|done].
Qed.

(** ** Saving the black list and reading it again *)

(** An entry that its own line gives back. *)
Definition line_ok (k v : string) : Prop :=
  schar_in newline v = false /\ TrimSpace v = v /\ v <> "" /\ key_of v = Ok k.

Lemma Split_line v c rest : schar_in c v = false -> Split (v +:+ String c rest) c = v :: Split rest c.
Proof.
  induction v as [|d v IH]; intros Hv.
  - cbn [String.append]. change ("" +:+ String c rest) with (String c rest). cbn [Split]. by rewrite Ascii.eqb_refl.
  - rewrite schar_in_cons in Hv. apply orb_false_iff in Hv as [Hd Hv]. rewrite sapp_cons. cbn [Split].
    rewrite Ascii.eqb_sym, Hd, IH by done. done.
Qed.

Definition file_of (l : list string) : string := foldr (fun v text => v +:+ String newline text) "" l.

Lemma Split_file l : Forall (fun v => schar_in newline v = false) l -> Split (file_of l) newline = l ++ [""].
Proof. induction 1 as [|v l Hv _ IH]; [done|]. 
  change (file_of (v :: l)) with (v +:+ String newline (file_of l)). rewrite Split_line by done. by rewrite IH. Qed.

Lemma add_lines_file l m keys : Forall2 line_ok keys l ->
  exists m', add_lines (l ++ [""]) m = Ok m' /\ dom m' = dom m ∪ list_to_set keys.
Proof.
  intros Hl. revert m. induction Hl as [|k v keys l (Hv & Ht & Hne & Hk) _ IH]; intros m; cbn [app add_lines].
  - eexists. split; [done|]. set_solver.
  - assert (exists m1, add_line v m = Ok m1 /\ dom m1 = {[k]} ∪ dom m) as (m1 & H1 & Hd1).
    { unfold add_line, key_of in *. apply rbind_Ok_inv in Hk as (f & -> & [= <-]). eexists. split; [done|].
      by rewrite dom_insert_L. }
    rewrite Ht. assert (slen v =? 0 = false) as -> by (destruct v; [done|by apply Z.eqb_neq]). cbn [negb].
    rewrite H1. cbn [rbind]. destruct (IH m1) as (m' & Hm' & Hd'). exists m'. split; [|set_solver].
    destruct l; exact Hm'.
Qed.

Lemma saved_keys `{StrMapOrder} s : GetAllBlackSqls s = omap (fun k => sqls (black_list s) !! k) (range_strings (black_keys s)).
Proof. done. Qed.

Lemma saved_lines `{StrMapOrder} s : map_Forall line_ok (sqls (black_list s)) ->
  Forall2 line_ok (range_strings (black_keys s)) (GetAllBlackSqls s).
Proof.
  intros Hlines. rewrite saved_keys. assert (Forall (fun k => k ∈ black_keys s) (range_strings (black_keys s))) as Hin.
  { apply Forall_forall. intros k. by rewrite range_strings_perm, elem_of_elements. }
  induction Hin as [|k l Hk _ IH]; [constructor|]. cbn [omap list_omap].
  apply (elem_of_dom (sqls (black_list s))) in Hk as [v Hv]. rewrite Hv. constructor; [exact (Hlines k v Hv)|exact IH].
Qed.

(** A black list survives the restart.  When its entries are statements
    of one line, as [AddBlackSql] keeps them, reading the file that
    [SaveProxyConfig] writes gives a list that refuses the same statements. *)
Theorem black_list_saved `{StrMapOrder} create WriteConfig s (Hok : black_ok s)
    (Hlines : map_Forall line_ok (sqls (black_list s)))
    (Hpath : BlsFile (cfg s) <> "") (Hcreate : create (BlsFile (cfg s)) = None) (Hwrite : WriteConfig (cfg s) = None) :
  exists s' s'' p, SaveProxyConfig create WriteConfig s = (s', Ok tt) /\
    parseBlackListSqls (BlsFile (cfg s)) s' = (s'', Ok p) /\
    let again := set_blacklistSqls (mkDouble false p p) s'' in
    black_ok again /\ forall sql k, key_of sql = Ok k -> refuses again sql = refuses s sql.
Proof.
  assert (slen (BlsFile (cfg s)) =? 0 = false) as Hlen by (destruct (BlsFile (cfg s)); [done|by apply Z.eqb_neq]).
  set (text := file_of (GetAllBlackSqls s)).
  set (s' := set_files (<[BlsFile (cfg s) := text]> (files s)) s).
  destruct (add_lines_file (GetAllBlackSqls s) ∅ _ (saved_lines s Hlines)) as (m & Hm & Hdom).
  rewrite <- Split_file in Hm.
  2: { pose proof (saved_lines s Hlines) as Hl. apply Forall_forall. intros v Hv.
       apply list_elem_of_lookup in Hv as [i Hi]. destruct (Forall2_lookup_r _ _ _ _ _ Hl Hi) as (k & _ & Hk). apply Hk. }
  exists s', (set_black_lists (black_lists s' ++ [mkBlacklistSqls m (Z.of_nat (size m))]) s'), (length (black_lists s')).
  assert (dom m = black_keys s) as Hkeys.
  { apply leibniz_equiv. rewrite Hdom. intros k. rewrite elem_of_union, elem_of_list_to_set, range_strings_perm, elem_of_elements. set_solver. }
  split; [|split].
  - unfold SaveProxyConfig, saveBlackSql, bind, get, put. by rewrite Hwrite, Hlen, Hcreate.
  - unfold parseBlackListSqls, bind, get, put, lift, ret. rewrite Hlen. cbn [negb].
    unfold s' at 1. cbn [files set_files]. rewrite lookup_insert_eq. unfold text. by rewrite Hm.
  - intros again. assert (black_list again = mkBlacklistSqls m (Z.of_nat (size m))) as Hb.
    { apply black_list_at. unfold again. cbn. by rewrite list_lookup_middle. }
    assert (black_ok again) as Hagain.
    { eexists. split; [unfold again; cbn; by rewrite list_lookup_middle|]. split; [done|]. cbn [sqlsLen].
      destruct Hok as (b & Hbs & Hs & Hlt). apply black_list_at in Hbs.
      assert (size m = size (sqls b)) as ->; [|lia].
      rewrite <- !size_dom, Hkeys. unfold black_keys. by rewrite Hbs. }
    split; [exact Hagain|]. intros sql k Hk.
    rewrite (refuses_exact _ _ _ Hok Hk), (refuses_exact _ _ _ Hagain Hk).
    f_equal. apply bool_decide_ext. unfold black_keys at 1. rewrite Hb. cbn [sqls]. by rewrite Hkeys.
Qed.
