(* ===== verification/ReloadTheorems.v ===== *)
(** * Starting the server, and reading its configuration again *)
From S2P Require Import Prelude Errors StateM GoLib Wire GoNet Charset RouteLists Rule Router SelectMerge.
From S2P Require Import GoHash Fingerprint Balancer Pool Node Server ServerTheorems.
From Stdlib Require Import Ascii.
Open Scope Z_scope.

(** ** Methods of nodes keep their configuration *)
Definition same_config (n n' : Node) : Prop := Cfg n' = Cfg n /\ Node.Online n' = Node.Online n.
#[export] Instance same_config_preorder : PreOrder same_config.
Proof. split; [done|]. intros a b c [] []. split; congruence. Qed.

Section Nodes.
Variable sv : servers.

Lemma same_OpenDB addr : moves same_config (OpenDB sv addr).
Proof. intros n. unfold OpenDB. by destruct (open_err sv addr). Qed.
Lemma same_deref db : moves same_config (deref db).
Proof. intros n. unfold deref. by destruct db. Qed.
Lemma same_update db f : moves same_config (update db f).
Proof. intros n. unfold update. by destruct db. Qed.
Lemma same_ping db : moves same_config (ping sv db).
Proof. intros n. unfold ping. by destruct db. Qed.
#[local] Hint Resolve same_OpenDB same_deref same_update same_ping : methods.

Lemma same_UpDB addr : moves same_config (UpDB sv addr).
Proof. unfold UpDB. moves. Qed.
Lemma same_find_slave addr k l : moves same_config (find_slave addr k l).
Proof. revert k. induction l as [|db l IH]; intros k; cbn [find_slave]; moves. Qed.
#[local] Hint Resolve same_UpDB same_find_slave : methods.

Lemma same_init_balancer : moves same_config (init_balancer sv).
Proof. intros n. unfold init_balancer, bind, get, lift, put. by destruct (InitBalancer _). Qed.
#[local] Hint Resolve same_init_balancer : methods.

Lemma same_slaves_bind {A} (f : turns nat -> turns nat) (k : ST Node A) :
  moves same_config k -> moves same_config (do! n := get in do! _ := put (set_slaves (f (slaves n)) n) in k).
Proof. intros Hk n. unfold bind, get, put. etrans; [|apply Hk]. done. Qed.

Lemma same_parse_slaves l : moves same_config (parse_slaves sv l).
Proof.
  induction l as [|slave l IH]; cbn [parse_slaves]; [moves|].
  apply moves_bind; [apply _|moves|]. intros w. apply (same_slaves_bind (add_weight w)).
  apply moves_bind; [apply _|moves|]. intros db.
  by apply (same_slaves_bind (fun t => set_Slave (Slave t ++ [Some db]) t)).
Qed.
#[local] Hint Resolve same_parse_slaves : methods.

Lemma same_ParseSlave s : moves same_config (ParseSlave sv s).
Proof.
  unfold ParseSlave. case_match; [moves|].
  apply (same_slaves_bind (fun t => mkTurns [] (LastSlaveIndex t) (RoundRobinQ t) [])). moves.
Qed.
Lemma same_ParseMaster s : moves same_config (ParseMaster sv s).
Proof.
  unfold ParseMaster. case_match; [moves|]. apply moves_bind; [apply _|moves|]. intros [e db].
  intros n. unfold bind, get, put. by destruct e.
Qed.

Lemma parseNode_ok c n : parseNode sv c = Ok n -> Cfg n = c /\ Node.Online n = true.
Proof.
  unfold parseNode. set (n0 := mkNode _ _ _ _ _ _).
  assert (moves same_config (do! _ := ParseMaster sv (cfg_Master c) in ParseSlave sv (cfg_Slave c))) as Hm.
  { apply moves_bind; [apply _|apply same_ParseMaster|]. intros _. apply same_ParseSlave. }
  specialize (Hm n0). destruct ((do! _ := ParseMaster sv (cfg_Master c) in ParseSlave sv (cfg_Slave c)) n0) as [n1 []];
    intros [= <-]. by destruct Hm.
Qed.
End Nodes.

(** ** Reading only adds to the store *)
Record extends (s s' : Server) : Prop := {
  ext_same : s' = set_black_lists (black_lists s') (set_arrays (arrays s') (set_all_nodes (all_nodes s') s));
  ext_black : black_lists s `prefix_of` black_lists s';
  ext_arrays : arrays s `prefix_of` arrays s';
  ext_nodes : all_nodes s `prefix_of` all_nodes s'
}.
#[export] Instance extends_preorder : PreOrder extends.
Proof.
  split; [intros s; split; [by destruct s|done..]|].
  intros a b c [E1 B1 A1 N1] [E2 B2 A2 N2]. split; [|by etrans..]. rewrite E2, E1. done.
Qed.

(** The entries of a text that is split at its commas. *)
Definition entry (piece : string) : option IPInfo :=
  match ParseIPInfo (TrimSpace piece) with Ok t => Some t | _ => None end.
Definition entries (allowIps : string) : list IPInfo :=
  if slen allowIps =? 0 then [] else omap entry (Split allowIps ",").

Lemma append_new room l t s A : slice_ok s l -> A `prefix_of` arrays s -> (length A <= array l)%nat ->
  let r := append_ip room l t s in
  A `prefix_of` arrays r.1 /\ (length A <= array r.2)%nat.
Proof.
  intros _ [B HB] Hl. unfold append_ip. rewrite HB. case_if; cbn [fst snd array arrays set_arrays].
  - split; [|done]. rewrite insert_app_r_alt by done. by eexists.
  - split; [rewrite <- app_assoc; by eexists|]. rewrite length_app. lia.
Qed.

Lemma add_each_ok room pieces : forall s l A, slice_ok s l -> A `prefix_of` arrays s -> (length A <= array l)%nat ->
  let r := add_each room pieces (s, l) in
  (exists A', r.1 = set_arrays A' s) /\ A `prefix_of` arrays r.1 /\ slice_ok r.1 r.2 /\
  items r.1 r.2 = items s l ++ omap entry pieces.
Proof.
  unfold add_each, flip. induction pieces as [|p pieces IH]; intros s l A Hs HA Hl; cbn [foldl omap list_omap].
  - rewrite app_nil_r. repeat split; [by exists (arrays s); destruct s|done..].
  - unfold entry at 1. destruct (ParseIPInfo (TrimSpace p)) as [t| |]; [|by apply (IH s l A)..].
    destruct (append_ip_ok room l t s Hs) as (Hs' & Hi & A1 & HA1).
    destruct (append_new room l t s A Hs HA Hl) as [HA' Hl'].
    destruct (append_ip room l t s) as [s' l']. cbn [fst snd] in *.
    destruct (IH s' l' A Hs' HA' Hl') as ((A2 & H2) & H3 & H4 & H5).
    split; [exists A2; by rewrite H2, HA1|]. split; [done|]. split; [done|]. by rewrite H5, Hi, <- app_assoc.
Qed.

Lemma parseAllowIps_ok room text s : exists s' l, parseAllowIps room text s = (s', Ok l) /\
  extends s s' /\ slice_ok s' l /\ items s' l = entries text.
Proof.
  unfold parseAllowIps, entries. set (l0 := mkIps _ 0). set (s0 := set_arrays _ s).
  assert (slice_ok s0 l0) as H0.
  { eexists. split; [cbn; by rewrite list_lookup_middle|]. cbn. lia. }
  assert (items s0 l0 = []) as Hi0 by done.
  assert (arrays s `prefix_of` arrays s0) as Hp0 by by eexists.
  case_if.
  - exists s0, l0. split; [done|]. split; [|done]. split; [by destruct s|done..].
  - destruct (add_each_ok room (Split text ",") s0 l0 (arrays s) H0 Hp0 ltac:(done)) as ((A & HA) & Hp & Hs & Hi).
    destruct (add_each room (Split text ",") (s0, l0)) as [s' l']. cbn [fst snd] in *.
    exists s', l'. split; [done|]. split; [|split; [done|by rewrite Hi, Hi0]].
    subst s'. split; [by destruct s|done..].
Qed.

Lemma parseBlackListSqls_ok path s : 
  extends s (parseBlackListSqls path s).1 /\
  forall p, (parseBlackListSqls path s).2 = Ok p ->
    exists m, black_lists (parseBlackListSqls path s).1 !! p = Some (mkBlacklistSqls m (Z.of_nat (size m))) /\
      (if slen path =? 0 then m = ∅ else exists text, files s !! path = Some text /\ add_lines (Split text newline) ∅ = Ok m).
Proof.
  unfold parseBlackListSqls, bind, get, put, lift, ret, fail.
  assert (forall m, extends s (set_black_lists (black_lists s ++ [m]) s)) as Hext.
  { intros m. split; [by destruct s|by eexists|done..]. }
  assert (forall m : BlacklistSqls, (black_lists s ++ [m]) !! length (black_lists s) = Some m) as Hlast
    by (intros m; by rewrite list_lookup_middle).
  destruct (slen path =? 0); cbn [negb].
  - split; [apply Hext|]. intros p [= <-]. exists ∅. split; [exact (Hlast _)|done].
  - destruct (files s !! path) as [text|]; [|split; [done|discriminate]].
    destruct (add_lines (Split text newline) ∅) as [m|e|pn] eqn:Hm; [|split; [done|discriminate]..].
    split; [apply Hext|]. intros p [= <-]. exists m. split; [exact (Hlast _)|]. by exists text.
Qed.

(** The nodes that were started. *)
Definition started (s : Server) (base : nat) (m : gmap string nat) : Prop :=
  map_Forall (fun name p => (base <= p)%nat /\ exists n, all_nodes s !! p = Some n /\
    cfg_Name (Cfg n) = name /\ Node.Online n = true) m.

Lemma started_mono s s' base m : started s base m -> all_nodes s `prefix_of` all_nodes s' -> started s' base m.
Proof.
  intros Hm [l Hl] name p Hp. destruct (Hm name p Hp) as (Hb & n & Hn & H). split; [done|]. exists n.
  split; [|done]. rewrite Hl. by apply lookup_app_l_Some.
Qed.

Lemma parse_nodes_ok backends base l : forall m s, started s base m -> (base <= length (all_nodes s))%nat ->
  extends s (parse_nodes backends l m s).1 /\
  forall m', (parse_nodes backends l m s).2 = Ok m' ->
    started (parse_nodes backends l m s).1 base m' /\ dom m' = dom m ∪ list_to_set (cfg_Name <$> l).
Proof.
  induction l as [|v l IH]; intros m s Hm Hb; cbn [parse_nodes].
  - split; [done|]. intros m' [= <-]. split; [done|]. set_solver.
  - case_bool_decide; [by split|]. unfold bind, get, lift, put.
    destruct (parseNode (backends (length (all_nodes s))) v) as [n|e|p] eqn:Hn; [|by split..].
    apply parseNode_ok in Hn as [Hc Ho]. set (s1 := set_all_nodes (all_nodes s ++ [n]) s).
    assert (all_nodes s `prefix_of` all_nodes s1) as Hp by by eexists.
    destruct (IH (<[cfg_Name v := length (all_nodes s)]> m) s1) as [He Hr].
    { apply map_Forall_insert_2; [|by eapply started_mono]. split; [done|]. exists n.
      split; [unfold s1; cbn; by rewrite list_lookup_middle|]. by rewrite Hc. }
    { unfold s1. cbn. rewrite length_app. lia. }
    split; [etrans; [|exact He]; split; [by destruct s|done..]|].
    intros m' Hm'. destruct (Hr m' Hm') as [Hst Hd]. split; [done|]. rewrite Hd, dom_insert_L. cbn. set_solver.
Qed.

(** ** Schemas *)
Definition schema_of (ns : gmap string nat) (c : SchemaConfig) (sch : Schema) : Prop :=
  NewRouter c = Ok (s_rule sch) /\ dom (s_nodes sch) = list_to_set (sch_Nodes c) /\ s_nodes sch ⊆ ns.

Lemma schema_nodes_of_ok ns l m m' : schema_nodes_of ns l m = Ok m' -> m ⊆ ns ->
  m' ⊆ ns /\ dom m' = dom m ∪ list_to_set l.
Proof.
  revert m. induction l as [|n l IH]; intros m H Hm; cbn in H; [simplify_eq; split; [done|set_solver]|].
  destruct (ns !! n) as [p|] eqn:Hn; [|done]. case_bool_decide; [done|].
  apply IH in H as [H1 H2]; [|by apply insert_subseteq_l]. split; [done|]. rewrite H2, dom_insert_L. cbn. set_solver.
Qed.

Lemma parse_schema_ok ns c sch : parse_schema ns c = Ok sch -> schema_of ns c sch.
Proof.
  unfold parse_schema. intros H. case_if_in H; [done|]. inv_bind.
  apply schema_nodes_of_ok in Hm as [H1 H2]; [|apply map_empty_subseteq]. split; [done|]. split; [|done].
  cbn [s_nodes]. rewrite H2. set_solver.
Qed.

Lemma parseSchemaList_ok ns l schs : parseSchemaList l ns = Ok schs ->
  map_Forall (fun user sch => exists c, c ∈ l /\ sch_User c = user /\ schema_of ns c sch) schs.
Proof.
  unfold parseSchemaList. enough (forall l' m, incl l' l ->
    map_Forall (fun user sch => exists c, c ∈ l /\ sch_User c = user /\ schema_of ns c sch) m ->
    rfold (fun m schemaCfg => let* sch := parse_schema ns schemaCfg in Ok (<[sch_User schemaCfg := sch]> m)) m l' = Ok schs ->
    map_Forall (fun user sch => exists c, c ∈ l /\ sch_User c = user /\ schema_of ns c sch) schs) as Hg.
  { apply Hg; [apply incl_refl | apply map_Forall_empty]. }
  intros l'. induction l' as [|c l' IH]; intros m Hl Hm H; cbn in H; [by simplify_eq|]. inv_bind.
  eapply IH; [| |exact H]; [intros x Hx; apply Hl; by right|].
  apply map_Forall_insert_2; [|done]. exists c. split; [apply list_elem_of_In, Hl; by left|].
  split; [done|]. by apply parse_schema_ok.
Qed.

Lemma check_users_ok `{StrMapOrder} us schs : check_users us schs = Ok tt ->
  forall user, user ∈ dom us -> is_Some (schs !! user).
Proof.
  unfold check_users. intros Hc user Hu. destruct (filter _ (range_strings (dom us))) as [|u l] eqn:Hf; [|done].
  destruct (schs !! user) as [sch|] eqn:Hs; [by eexists|]. exfalso.
  assert (user ∈ filter (fun user => schs !! user = None) (range_strings (dom us))) as Hin.
  { apply list_elem_of_filter. split; [done|]. by rewrite range_strings_perm, elem_of_elements. }
  rewrite Hf in Hin. by apply elem_of_nil in Hin.
Qed.

(** ** A server that can serve its users

    Every user has a schema; a schema has the rules and the nodes of its
    configuration, and its nodes are started. *)
Record serving (s : Server) : Prop := {
  users_have_schemas : forall user, user ∈ dom (users s) -> is_Some (schemas s !! user);
  schemas_as_configured : map_Forall (fun user sch =>
    exists c, c ∈ SchemaList (cfg s) /\ sch_User c = user /\ schema_of (nodes s) c sch) (schemas s);
  nodes_started : started s 0 (nodes s)
}.

Lemma extends_fields s s' : extends s s' ->
  cfg s' = cfg s /\ users s' = users s /\ status s' = status s /\ logSql s' = logSql s /\
  slowLogTime s' = slowLogTime s /\ blacklistSqls s' = blacklistSqls s /\ allowips s' = allowips s /\
  nodes s' = nodes s /\ schemas s' = schemas s /\ configVer s' = configVer s.
Proof. intros [H _ _ _]. rewrite H. done. Qed.

Lemma serving_extends s s' : serving s -> extends s s' -> serving s'.
Proof.
  intros [H1 H2 H3] He. pose proof (extends_fields s s' He) as (Hc & Hu & _ & _ & _ & _ & _ & Hn & Hs & _).
  split; rewrite ?Hc, ?Hu, ?Hn, ?Hs; [done..|]. by eapply started_mono; [|apply He].
Qed.

Lemma slice_extends s s' l : slice_ok s l -> extends s s' -> slice_ok s' l /\ items s' l = items s l.
Proof.
  intros (a & Ha & Hl) He. destruct (ext_arrays _ _ He) as [B HB].
  assert (arrays s' !! array l = Some a) as Ha' by (rewrite HB; by apply lookup_app_l_Some).
  split; [by exists a|]. unfold items. by rewrite Ha, Ha'.
Qed.

Lemma black_extends s s' : black_ok s -> extends s s' -> black_list s' = black_list s.
Proof.
  intros (b & Hb & _) He. destruct (ext_black _ _ He) as [B HB].
  pose proof (extends_fields s s' He) as (_ & _ & _ & _ & _ & Hp & _).
  rewrite (black_list_at s b Hb). apply black_list_at. rewrite Hp, HB. by apply lookup_app_l_Some.
Qed.

(** What clients see of a server is as before. *)
Definition same_settings (s s' : Server) : Prop :=
  extends s s' /\ allowed s' = allowed s /\ black_list s' = black_list s.

Lemma same_settings_extends s s' : ips_ok s -> black_ok s -> extends s s' -> same_settings s s'.
Proof.
  intros Hi Hb He. split; [done|]. split; [|by apply black_extends].
  pose proof (extends_fields s s' He) as (_ & _ & _ & _ & _ & _ & Hp & _).
  unfold allowed. rewrite Hp. apply slice_extends; [apply Hi|done].
Qed.

(** ** Reading the configuration *)
Definition config_read (s : Server) (base : nat) (c : Config)
  (new : nat * ips * gmap string nat * gmap string Schema) : Prop :=
  let '(bl, l, ns, schs) := new in
  (exists m, black_lists s !! bl = Some (mkBlacklistSqls m (Z.of_nat (size m))) /\
     (if slen (BlsFile c) =? 0 then m = ∅
      else exists text, files s !! BlsFile c = Some text /\ add_lines (Split text newline) ∅ = Ok m)) /\
  slice_ok s l /\ items s l = entries (AllowIps c) /\
  started s base ns /\ dom ns = list_to_set (cfg_Name <$> cfg_nodes c) /\
  map_Forall (fun user sch => exists sc, sc ∈ SchemaList c /\ sch_User sc = user /\ schema_of ns sc sch) schs /\
  (forall user, user ∈ dom (user_map (UserList c)) -> is_Some (schs !! user)).

Section Reload.
Context `{StrMapOrder}.
Variables (room : nat -> nat) (backends : nat -> servers).

Lemma read_config_ok c s :
  extends s (read_config room backends c s).1 /\
  forall new, (read_config room backends c s).2 = Ok new ->
    config_read (read_config room backends c s).1 (length (all_nodes s)) c new.
Proof.
  enough (forall r, read_config room backends c s = r -> extends s r.1 /\
    forall new, r.2 = Ok new -> config_read r.1 (length (all_nodes s)) c new) by eauto.
  intros r. unfold read_config. destruct (parseBlackListSqls_ok (BlsFile c) s) as [E1 R1]. unfold bind at 1.
  destruct (parseBlackListSqls (BlsFile c) s) as [s1 [bl|e|p]]; cbn [fst snd] in *; [|by intros <-..].
  destruct (R1 bl eq_refl) as (m & Hm & Htext).
  destruct (parseAllowIps_ok room (AllowIps c) s1) as (s2 & l & Hl & E2 & Hs2 & Hi2).
  unfold bind at 1. rewrite Hl. unfold bind at 1.
  destruct (parse_nodes_ok backends (length (all_nodes s)) (cfg_nodes c) ∅ s2) as [E3 R3].
  { apply map_Forall_empty. }
  { destruct (ext_nodes _ _ E1) as [x Hx]. destruct (ext_nodes _ _ E2) as [y Hy]. rewrite Hy, Hx, !length_app. lia. }
  unfold parseNodes. destruct (parse_nodes backends (cfg_nodes c) ∅ s2) as [s3 [ns|e|p]]; cbn [fst snd] in *;
    [|by intros <-; split; [do 2 (etrans; [eassumption|])|]..].
  assert (extends s s3) as E by (by do 2 (etrans; [eassumption|])).
  destruct (R3 ns eq_refl) as [Hst Hdom]. unfold bind, lift, ret.
  destruct (parseSchemaList (SchemaList c) ns) as [schs|e|p] eqn:Hsch; [|by intros <-..].
  destruct (check_users (user_map (UserList c)) schs) as [[]|e|p] eqn:Hu; [|by intros <-..].
  intros <-. cbn [fst snd]. split; [done|]. intros new [= <-].
  destruct (slice_extends s2 s3 l Hs2 E3) as [Hs3 Hi3]. split; [|split; [done|split; [by rewrite Hi3|split; [done|split]]]].
  - exists m. destruct (ext_black _ _ E2) as [x Hx]. destruct (ext_black _ _ E3) as [y Hy].
    split; [rewrite Hy, Hx; by do 2 apply lookup_app_l_Some|]. revert Htext. case_if; [done|].
    intros (text & Ht & Ha). exists text. split; [|done]. by rewrite (ext_same _ _ E).
  - rewrite Hdom. set_solver.
  - split; [by apply parseSchemaList_ok|]. by apply check_users_ok.
Qed.

Lemma nodes_offline_other s p : (forall name q, nodes s !! name = Some q -> q <> p) ->
  all_nodes (nodes_offline s) !! p = all_nodes s !! p.
Proof.
  intros Hp. unfold nodes_offline. cbn [all_nodes set_all_nodes].
  assert (Forall (fun x => x.2 <> p) (map_to_list (nodes s))) as Hall.
  { apply Forall_forall. intros [name q] Hq%elem_of_map_to_list. by apply (Hp name). }
  induction Hall as [|x l Hx _ IH]; [done|]. cbn [foldr]. by rewrite list_lookup_alter_ne.
Qed.
Lemma nodes_offline_used s name p n : nodes s !! name = Some p -> all_nodes s !! p = Some n ->
  all_nodes (nodes_offline s) !! p = Some (set_offline n).
Proof.
  intros Hp Hn. unfold nodes_offline. cbn [all_nodes set_all_nodes].
  apply elem_of_map_to_list in Hp. induction (map_to_list (nodes s)) as [|x l IH]; [by apply elem_of_nil in Hp|].
  cbn [foldr]. assert (all_nodes s !! p = Some n) by done.
  assert (forall l, foldr (fun (x : string * nat) l => alter set_offline x.2 l) (all_nodes s) l !! p = Some n \/
    foldr (fun (x : string * nat) l => alter set_offline x.2 l) (all_nodes s) l !! p = Some (set_offline n)) as Hcases.
  { clear -Hn. intros l. induction l as [|x l IH]; [by left|]. cbn [foldr]. destruct (decide (x.2 = p)) as [<-|Hne].
    - rewrite list_lookup_alter_eq. destruct IH as [-> | ->]; by right.
    - by rewrite list_lookup_alter_ne. }
  apply elem_of_cons in Hp as [<-|Hp].
  - cbn. rewrite list_lookup_alter_eq. by destruct (Hcases l) as [-> | ->].
  - destruct (decide (x.2 = p)) as [<-|Hne]; [rewrite list_lookup_alter_eq; by destruct (Hcases l) as [-> | ->]|].
    rewrite list_lookup_alter_ne by done. by apply IH.
Qed.

Lemma Atoi_no_panic v p : Atoi v <> Panic p.
Proof.
  assert (forall e, ParseInt v <> Panic e) as Hp.
  { intros e. unfold ParseInt. case_match. by repeat case_match. }
  unfold Atoi. intros Hv. destruct (ParseInt v); [done|done|]. by apply (Hp p0).
Qed.

(** Using a configuration that was read. *)
Lemma use_config_ok c bl l ns schs s :
  let s' := (use_config c (bl, l, ns, schs) s).1 in
  (exists t, cfg s' = set_SlowLogTime t c) /\
  (in_i64 (SlowLogTime c) -> cfg s' = c /\ GetSlowLogTime s' = SlowLogTime c) /\
  users s' = user_map (UserList c) /\ current (blacklistSqls s') = bl /\ current (allowips s') = l /\
  black_lists s' = black_lists s /\ arrays s' = arrays s /\ all_nodes s' = all_nodes (nodes_offline s) /\
  nodes s' = ns /\ schemas s' = schs /\ configVer s' = u32 (configVer s + 1) /\ logSql s' = logSql s /\ status s' = status s.
Proof.
  unfold use_config, ChangeSlowLogTime, bind, try, lift, modify.
  assert (in_i64 (SlowLogTime c) -> Atoi (FormatInt (SlowLogTime c)) = Ok (SlowLogTime c)) as Hslow
    by (intros Hi; by apply Atoi_ParseInt, ParseInt_FormatInt).
  assert (set_SlowLogTime (SlowLogTime c) c = c) as Hsame by by destruct c.
  destruct (Atoi (FormatInt (SlowLogTime c))) as [t|e|p] eqn:Ht; [| |by destruct (Atoi_no_panic _ _ Ht)].
  - cbn. rewrite !current_change_to. split; [by exists t|]. split; [|done]. intros Hi.
    specialize (Hslow Hi). injection Hslow as ->. unfold GetSlowLogTime. cbn. by rewrite current_change_to.
  - cbn. rewrite !current_change_to. split; [by exists (SlowLogTime c)|]. split; [|done]. intros Hi.
    by specialize (Hslow Hi).
Qed.

Lemma ParseIPInfo_entry v t : ParseIPInfo v = Ok t -> entry_ok t.
Proof.
  intros Ht. pose proof (ParseIPInfo_network v) as Hv. destruct (network_of v); [|congruence].
  destruct Hv as (t' & Ht' & Hi & _). unfold entry_ok. congruence.
Qed.
Lemma entries_ok text : Forall entry_ok (entries text).
Proof.
  unfold entries. case_match; [constructor|]. induction (Split text ",") as [|p l IH]; [constructor|].
  cbn [omap list_omap]. unfold entry at 1. destruct (ParseIPInfo (TrimSpace p)) as [t| |] eqn:Ht; [|done..].
  constructor; [by eapply ParseIPInfo_entry|done].
Qed.

Lemma started_offline s base m : started s base m -> (forall name q, nodes s !! name = Some q -> (q < base)%nat) ->
  started (nodes_offline s) base m.
Proof.
  intros Hm Hq name p Hp. destruct (Hm name p Hp) as (Hb & n & Hn & Hok). split; [done|]. exists n.
  split; [|done]. rewrite nodes_offline_other; [done|]. intros name' q Hq' ->. apply Hq in Hq'. lia.
Qed.

Lemma started_weaken s base m : started s base m -> started s 0 m.
Proof. intros Hm name p Hp. destruct (Hm name p Hp) as [_ H']. split; [lia|done]. Qed.

(** The server uses what is written in [c]. *)
Definition configured (s s' : Server) (c : Config) : Prop :=
  users s' = user_map (UserList c) /\ SchemaList (cfg s') = SchemaList c /\ allowed s' = entries (AllowIps c) /\
  dom (nodes s') = list_to_set (cfg_Name <$> cfg_nodes c) /\
  (exists m, black_list s' = mkBlacklistSqls m (Z.of_nat (size m)) /\
     (if slen (BlsFile c) =? 0 then m = ∅
      else exists text, files s !! BlsFile c = Some text /\ add_lines (Split text newline) ∅ = Ok m)) /\
  (in_i64 (SlowLogTime c) -> GetSlowLogTime s' = SlowLogTime c).

(** C25: reading the configuration again is all or nothing.  Either the new
    one has a fault and clients see exactly the server that was, or all of
    it is in use and the nodes that were used stop their checks; in both
    cases every user still has a schema whose nodes are started.  Only the
    switch of the SQL log stays as it was. *)
Theorem reload_all_or_nothing c s (Hips : ips_ok s) (Hblack : black_ok s) (Hserving : serving s) :
  let s' := (UpdateConfig room backends c s).1 in
  serving s' /\ ips_ok s' /\
  (same_settings s s' \/
   (configured s s' c /\ configVer s' = u32 (configVer s + 1) /\ logSql s' = logSql s /\
    forall name p n, nodes s !! name = Some p -> all_nodes s !! p = Some n ->
      all_nodes s' !! p = Some (set_offline n))).
Proof.
  intros s'. unfold s', UpdateConfig, update_config, bind. cbn [fst].
  destruct (read_config_ok c s) as [He Hr].
  destruct (read_config room backends c s) as [s1 [[[[bl l] ns] schs]|e|p]]; cbn [fst snd] in *.
  2,3: (split; [by eapply serving_extends|]; pose proof (same_settings_extends s s1 Hips Hblack He) as Hsame;
        split; [|by left]; destruct Hsame as (_ & Ha & _);
        pose proof (extends_fields s s1 He) as (_ & _ & _ & _ & _ & _ & Hp & _);
        split; [rewrite Hp; apply (slice_extends s s1); [apply Hips|done] | rewrite Ha; apply Hips]).
  destruct (Hr _ eq_refl) as ((m & Hm & Htext) & Hsl & Hit & Hst & Hdom & Hschs & Husers).
  pose proof (extends_fields s s1 He) as (_ & _ & _ & _ & _ & _ & _ & Hn & _ & Hver).
  pose proof (ext_same _ _ He) as Hsame.
  destruct (use_config_ok c bl l ns schs s1) as ((t & Hcfg) & Hslow & Hu & Hb & Hal & Hbl & Har & Han & Hns & Hsch & Hcv & Hlog & _).
  set (s2 := (use_config c (bl, l, ns, schs) s1).1) in *.
  assert (started s2 (length (all_nodes s)) ns) as Hst2.
  { unfold started. rewrite Han. apply started_offline; [done|]. rewrite Hn. intros name q Hq.
    destruct (nodes_started s Hserving name q Hq) as (_ & n & Hl & _). by eapply lookup_lt_Some. }
  assert (items s2 l = entries (AllowIps c)) as Hit2 by (unfold items; by rewrite Har).
  assert (allowed s2 = entries (AllowIps c)) as Hall by (unfold allowed; by rewrite Hal).
  split; [|split; [|right; split; [|split; [by rewrite Hcv, Hver|split]]]].
  - split; [by rewrite Hu, Hsch| |rewrite Hns; by eapply started_weaken].
    by rewrite Hsch, Hcfg, Hns.
  - split; [rewrite Hal; destruct Hsl as (a & Ha & Hl); exists a; by rewrite Har|]. rewrite Hall. apply entries_ok.
  - split; [done|]. split; [by rewrite Hcfg|]. split; [done|]. split; [by rewrite Hns|]. split; [|intros Hi; by apply Hslow].
    exists m. split; [apply black_list_at; by rewrite Hb, Hbl|]. by rewrite Hsame in Htext.
  - by rewrite Hlog, Hsame.
  - intros name p n Hp Hl. rewrite Han. apply (nodes_offline_used s1 name); [by rewrite Hn|].
    destruct (ext_nodes _ _ He) as [x ->]. by apply lookup_app_l_Some.
Qed.

Lemma modify_Ok {S} (f : S -> S) s s' r : modify f s = (s', r) -> s' = f s.
Proof. by intros [= <- _]. Qed.
Lemma lift_Ok {S A} (r : res error A) (s s' : S) a : lift r s = (s', Ok a) -> s' = s /\ r = Ok a.
Proof. by intros [= <- ->]. Qed.

Lemma get_Ok {S} (s s' a : S) : get s = (s', Ok a) -> s' = s /\ a = s.
Proof. by intros [= <- <-]. Qed.
Lemma put_Ok {S} (x s s' : S) r : put x s = (s', r) -> s' = x.
Proof. by intros [= <- _]. Qed.
Lemma ret_Ok {S A} (a b : A) (s s' : S) : ret a s = (s', Ok b) -> s' = s /\ b = a.
Proof. by intros [= <- <-]. Qed.

Lemma init_charset_ok c s s' c' : init_charset c s = (s', Ok c') ->
  users s' = users s /\ cfg s' = c' /\ exists ch, c' = set_Charset ch c.
Proof.
  intros Hm. unfold init_charset in Hm. apply bind_Ok_inv in Hm as (s0 & a & [-> ->]%get_Ok & Hm).
  set (c1 := if slen (Charset_ c) =? 0 then _ else _) in Hm.
  assert (exists ch, c1 = set_Charset ch c) as Hc1.
  { unfold c1. case_if; [by eexists|]. exists (Charset_ c). by destruct c. }
  destruct (CharsetIds !! Charset_ c1); [|discriminate Hm].
  apply bind_Ok_inv in Hm as (s1 & [] & Hp%put_Ok & [-> ->]%ret_Ok). subst s1. done.
Qed.

(** A server that starts serves its users. *)
Theorem NewServer_serves listen c s s' : NewServer room backends listen c s = (s', Ok tt) ->
  serving s' /\ ips_ok s' /\ users s' = user_map (UserList c) /\ allowed s' = entries (AllowIps c).
Proof.
  intros Hnew. unfold NewServer in Hnew.
  apply bind_Ok_inv in Hnew as (s1 & [] & Hs1%modify_Ok & Hnew).
  apply bind_Ok_inv in Hnew as (s2 & c' & Hm2 & Hnew).
  assert (users s1 = user_map (UserList c)) as Hu1 by by rewrite Hs1. clear Hs1.
  destruct (init_charset_ok _ _ _ _ Hm2) as (Hu2 & Hc2 & ch & Hc').
  clear Hm2. apply bind_Ok_inv in Hnew as (s3 & bs & Hm3 & Hnew).
  destruct (parseBlackListSqls_ok (BlsFile c') s2) as [E3 _]. rewrite Hm3 in E3. cbn [fst] in E3. clear Hm3.
  apply bind_Ok_inv in Hnew as (s4 & [] & Hs4%modify_Ok & Hnew).
  apply bind_Ok_inv in Hnew as (s5 & l & Hm5 & Hnew).
  destruct (parseAllowIps_ok room (AllowIps c') s4) as (s5' & l' & Hl & E5 & Hsl & Hit).
  rewrite Hm5 in Hl. injection Hl as <- <-.
  apply bind_Ok_inv in Hnew as (s6 & [] & Hs6%modify_Ok & Hnew).
  apply bind_Ok_inv in Hnew as (s7 & ns & Hm7 & Hnew).
  destruct (parse_nodes_ok backends 0 (cfg_nodes c') ∅ s6 ltac:(apply map_Forall_empty) ltac:(lia)) as [E7 R7].
  unfold parseNodes in Hm7. rewrite Hm7 in E7, R7. destruct (R7 ns eq_refl) as [Hst _]. cbn [fst] in E7, Hst.
  apply bind_Ok_inv in Hnew as (s8 & [] & Hs8%modify_Ok & Hnew).
  apply bind_Ok_inv in Hnew as (s9 & schs & [-> Hsch]%lift_Ok & Hnew).
  apply bind_Ok_inv in Hnew as (s10 & [] & Hs10%modify_Ok & Hnew).
  apply bind_Ok_inv in Hnew as (s11 & [] & [-> Hu]%lift_Ok & Hnew).
  assert (s' = s10) as -> by (unfold unless in Hnew; destruct (listen (Addr c')); [done|by injection Hnew]).
  assert (slice_ok s6 l /\ items s6 l = entries (AllowIps c')) as [Hs6l Hi6] by by subst s6.
  destruct (slice_extends s6 s7 l Hs6l E7) as [Hs7l Hi7].
  destruct (extends_fields s2 s3 E3) as (F1 & F2 & _). destruct (extends_fields s4 s5 E5) as (G1 & G2 & _).
  destruct (extends_fields s6 s7 E7) as (K1 & K2 & _ & _ & _ & _ & K3 & _).
  assert (allowed s10 = entries (AllowIps c) /\ current (allowips s10) = l) as [Hall Hal].
  { subst s10 s8. unfold allowed. cbn [allowips set_schemas set_nodes]. rewrite K3, Hs6. cbn.
    change (items s7 l = entries (AllowIps c) /\ l = l). by rewrite Hi7, Hi6, Hc'. }
  assert (users s10 = user_map (UserList c)) as Hus.
  { subst s10 s8. cbn. rewrite K2, Hs6. cbn. rewrite G2, Hs4. cbn. by rewrite F2, Hu2. }
  split; [|split; [|done]].
  - split; [|subst s10 s8; cbn; rewrite K1, Hs6; cbn; rewrite G1, Hs4; cbn; rewrite F1, Hc2; by apply parseSchemaList_ok|].
    + rewrite Hus. replace (schemas s10) with schs by by subst s10.
      apply check_users_ok. by rewrite Hc' in Hu.
    + subst s10 s8. exact Hst.
  - split; [rewrite Hal; subst s10 s8; exact Hs7l|]. rewrite Hall. apply entries_ok.
Qed.
End Reload.
