(* ===== verification/Admin.v ===== *)
(** * Administration ([proxy/server/conn_admin.go], [GetMonitorData] of
      [server.go])

    [admin node(...)] and [admin server(...)]: the words of the statement
    select one operation of the server; what it shows is a result set.  A
    command changes the server, not the session that sent it. *)
From S2P Require Import Prelude Errors StateM GoLib Wire GoNet Charset RouteLists Rule Plan Router SelectMerge.
From S2P Require Import Ast YyParse Resultset ResultBuild Balancer Pool Node ExecDB Session Handlers Server.
From Stdlib Require Import Ascii.
Open Scope Z_scope.

(** What is shown of a pool: its connections, idle and cached, and how many
    were pushed and popped; and a time as [fmt] prints it. *)
Class Stats := {
  ConnCount : nat -> nat -> Z * Z * Z * Z;     (* of a node's pool *)
  unix_time : Z -> string
}.

Section Admin.
Context `{StrMapOrder} `{Stats} `{GoFloat}.
Variables
  (room : nat -> nat) (backends : nat -> servers) (create_file : string -> option error)
  (WriteConfigFile : Config -> option error)
  (execPath : string).                         (* [os.Getwd] *)
(** The schema of the session that sends the command. *)
Variable sch : Schema.

Abbreviation M := (ST Server).

(** ** What is shown *)
Definition show (names : list string) (rows : list (list string)) : res error Resultset :=
  buildResultset [] names (map (map VString) rows).

Definition handleShowProxyConfig (s : Server) : res error Resultset :=
  let nodeNames := range_strings (dom (s_nodes sch)) in
  let us := range_strings (dom (users s)) in
  show ["Key"; "Value"]
    [["Addr"; Addr (cfg s)]; ["User_List"; Join us ","]; ["LogPath"; LogPath (cfg s)];
     ["LogLevel"; LogLevel (cfg s)]; ["LogSql"; current (logSql s)];
     ["SlowLogTime"; FormatInt (current (slowLogTime s))];
     ["Nodes_Count"; FormatInt (Z.of_nat (size (nodes s)))]; ["Nodes_List"; Join nodeNames ","];
     ["ClientConns"; FormatInt (ClientConns (counter s))]; ["ClientQPS"; FormatInt (OldClientQPS (counter s))];
     ["ErrLogTotal"; FormatInt (OldErrLogTotal (counter s))];
     ["SlowLogTotal"; FormatInt (OldSlowLogTotal (counter s))]].

(** [db.State()] *)
Definition state_text (h : handle) : string :=
  if h_state h =? Up then "up"
  else if (h_state h =? Down) || (h_state h =? ManualDown) then "down"
  else if h_state h =? Pool.Unknown then "unknow" else "".

Definition db_of (n : Node) (db : option nat) : res error (nat * handle) :=
  match db with
  | Some l => let* h := at_ (dbs n) (Z.of_nat l) in Ok (l, h)
  | None => Panic (PRuntime "nil pointer dereference")
  end.

Definition node_row (p : nat) (name type : string) (n : Node) (db : option nat) : res error (list string) :=
  let* (l, h) := db_of n db in
  let '(idleConns, cacheConns, pushConnCount, popConnCount) := ConnCount p l in
  Ok [name; h_addr h; type; state_text h; unix_time (h_lastPing h); FormatInt (cfg_MaxConnNum (Cfg n));
      FormatInt idleConns; FormatInt cacheConns; FormatInt pushConnCount; FormatInt popConnCount].

Fixpoint slave_rows (p : nat) (name : string) (n : Node) (l : list (option nat)) : res error (list (list string)) :=
  match l with
  | [] => Ok []
  | None :: l => slave_rows p name n l
  | slave :: l =>
      let* row := node_row p name "slave" n slave in
      let* rows := slave_rows p name n l in Ok (row :: rows)
  end.

Fixpoint node_rows (s : Server) (names : list string) : res error (list (list string)) :=
  match names with
  | [] => Ok []
  | name :: names =>
      match p ← s_nodes sch !! name; n ← all_nodes s !! p; Some (p, n) with
      | None => Panic (PRuntime "nil pointer dereference")
      | Some (p, n) =>
          let* master := node_row p name "master" n (Master n) in
          let* l := slave_rows p name n (Slave (slaves n)) in
          let* rows := node_rows s names in Ok (master :: l ++ rows)
      end
  end.

Definition handleShowNodeConfig (s : Server) : res error Resultset :=
  let* rows := node_rows s (range_strings (dom (s_nodes sch))) in
  show ["Node"; "Address"; "Type"; "State"; "LastPing"; "MaxConn"; "IdleConn"; "CacheConns"; "PushConnCount";
        "PopConnCount"] rows.

(** [hack.ArrayToString] *)
Definition ArrayToString (l : list Z) : string := Join (FormatInt <$> l) ", ".

Definition schema_rows (c : SchemaConfig) : list (list string) :=
  let rule := DefaultRule (s_rule sch) in
  [sch_User c; Rule.DB rule; Table rule; Type_ rule; Key rule; Join (Nodes rule) ", "; ""; "0"] ::
  ((fun r => [sch_User c; cfg_DB r; cfg_Table r; cfg_Type r; cfg_Key r; Join (cfg_Nodes r) ", ";
              ArrayToString (cfg_Locations r); FormatInt (cfg_TableRowLimit r)]) <$> sch_ShardRule c).

Definition handleShowSchemaConfig (s : Server) : res error Resultset :=
  show ["User"; "DB"; "Table"; "Type"; "Key"; "Nodes_List"; "Locations"; "TableRowLimit"]
    (concat (schema_rows <$> SchemaList (cfg s))).

(** One column, with an empty row when there is nothing to show. *)
Definition show_column (name : string) (l : list string) : res error Resultset :=
  show [name] (match l with [] => [[""]] | _ => (fun v => [v]) <$> l end).

Definition handleShowAllowIPConfig (s : Server) : res error Resultset := show_column "AllowIP" (GetAllowIps s).
Definition handleShowProxyStatus (s : Server) : res error Resultset := show ["status"] [[Status s]].
Definition handleShowBlackSqlConfig (s : Server) : res error Resultset :=
  show_column "BlackListSql" (GetAllBlackSqls s).

(** The help: lines of a command and its description; what comes after the
    last newline is dropped. *)
Definition help_rows (text : string) : list (list string) :=
  omap (fun line => match SplitN2 (TrimSpace line) "|" with
                    | [command; description] => Some [TrimSpace command; TrimSpace description]
                    | _ => None
                    end) (removelast (Split text newline)).
Definition handleAdminHelp (s : Server) : res error Resultset :=
  let helpFilePath := execPath +:+ "/doc/KingDoc/command_help" in
  match files s !! helpFilePath with
  | None => Err (Errorf ("open " +:+ helpFilePath +:+ ": no such file or directory"))
  | Some text => show ["command"; "description"] (help_rows text)
  end.

(** ** Commands *)
Definition from_server (f : Server -> res error Resultset) : M (option Resultset) :=
  do! s := get in do! r := lift (f s) in ret (Some r).

Definition handleAdminShow (k v : string) : M (option Resultset) :=
  if (slen k =? 0) || (slen v =? 0) then fail ErrCmdUnsupport
  else if String.eqb k "proxy" && String.eqb v "config" then from_server handleShowProxyConfig
  else if String.eqb k "proxy" && String.eqb v "status" then from_server handleShowProxyStatus
  else if String.eqb k "node" && String.eqb v "config" then from_server handleShowNodeConfig
  else if String.eqb k "schema" && String.eqb v "config" then from_server handleShowSchemaConfig
  else if String.eqb k "allow_ip" && String.eqb v "config" then from_server handleShowAllowIPConfig
  else if String.eqb k "black_sql" && String.eqb v "config" then from_server handleShowBlackSqlConfig
  else fail ErrCmdUnsupport.

Definition handleAdminChange (k v : string) : M unit :=
  if (slen k =? 0) || (slen v =? 0) then fail ErrCmdUnsupport
  else if String.eqb k "log_sql" then ChangeLogSql v
  else if String.eqb k "slow_log_time" then ChangeSlowLogTime v
  else if String.eqb k "proxy" then ChangeProxy v
  else fail ErrCmdUnsupport.

Definition handleAdminAdd (k v : string) : M unit :=
  if (slen k =? 0) || (slen v =? 0) then fail ErrCmdUnsupport
  else if String.eqb k "allow_ip" then AddAllowIP room (TrimSpace v)
  else if String.eqb k "black_sql" then AddBlackSql (TrimSpace v)
  else fail ErrCmdUnsupport.

Definition handleAdminDelete (k v : string) : M unit :=
  if (slen k =? 0) || (slen v =? 0) then fail ErrCmdUnsupport
  else if String.eqb k "allow_ip" then DelAllowIP (TrimSpace v)
  else if String.eqb k "black_sql" then DelBlackSql (TrimSpace v)
  else fail ErrCmdUnsupport.

Definition handleAdminSave (k v : string) : M unit :=
  if (slen k =? 0) || (slen v =? 0) then fail ErrCmdUnsupport
  else if String.eqb k "proxy" && String.eqb v "config" then SaveProxyConfig create_file WriteConfigFile
  else fail ErrCmdUnsupport.

Definition AddDatabase (nodeName role addr : string) : M unit :=
  if negb (String.eqb role "slave") then fail ErrCmdUnsupport else AddSlave backends nodeName addr.
Definition DeleteDatabase (nodeName role addr : string) : M unit :=
  if negb (String.eqb role "slave") then fail ErrCmdUnsupport else DeleteSlave backends nodeName addr.
Definition UpDatabase (nodeName role addr : string) : M unit :=
  if negb (String.eqb role "master") && negb (String.eqb role "slave") then fail ErrCmdUnsupport
  else if String.eqb role "master" then UpMaster backends nodeName addr else UpSlave backends nodeName addr.
Definition DownDatabase (nodeName role addr : string) : M unit :=
  if negb (String.eqb role "master") && negb (String.eqb role "slave") then fail ErrCmdUnsupport
  else if String.eqb role "master" then DownMaster nodeName addr else DownSlave nodeName addr.

(** The words of the first row: [strings.Trim(sqlparser.String(v), "'")]. *)
Definition word (v : ValExpr) : res error string :=
  let* t := node_String (ValExpr_Format v) in Ok (Trim t "'").
Definition first_tuple (rows : InsertRows) (n : nat) : res error (list string) :=
  match rows with
  | RowsSelect _ => Panic (PRuntime "interface conversion")
  | RowsValues [] => Err ErrCmdUnsupport
  | RowsValues (TupleSubquery _ :: _) => Panic (PRuntime "interface conversion")
  | RowsValues (TupleVals tuple :: _) =>
      if negb (Nat.eqb (length tuple) n) then Err ErrCmdUnsupport else rmap word tuple
  end.

Definition handleNodeCmd (rows : InsertRows) : M unit :=
  do! words := lift (first_tuple rows 4) in
  match words with
  | [opt; nodeName; role; addr] =>
      let opt := ToLower opt in
      if String.eqb opt "add" then AddDatabase nodeName role addr
      else if String.eqb opt "del" then DeleteDatabase nodeName role addr
      else if String.eqb opt "up" then UpDatabase nodeName role addr
      else if String.eqb opt "down" then DownDatabase nodeName role addr
      else fail ErrCmdUnsupport
  | _ => fail ErrCmdUnsupport
  end.

Definition no_result (m : M unit) : M (option Resultset) := do! _ := m in ret None.

Definition handleServerCmd (rows : InsertRows) : M (option Resultset) :=
  do! words := lift (first_tuple rows 3) in
  match words with
  | [opt; k; v] =>
      let opt := ToLower opt in
      if String.eqb opt "show" then handleAdminShow k v
      else if String.eqb opt "change" then no_result (handleAdminChange k v)
      else if String.eqb opt "add" then no_result (handleAdminAdd k v)
      else if String.eqb opt "del" then no_result (handleAdminDelete k v)
      else if String.eqb opt "save" then no_result (handleAdminSave k v)
      else fail ErrCmdUnsupport
  | _ => fail ErrCmdUnsupport
  end.

(** The columns have to be the first words of [cmdOrder], which is shorter
    than some lists of columns. *)
Definition cmdServerOrder : list string := ["opt"; "k"; "v"].
Definition cmdNodeOrder : list string := ["opt"; "node"; "k"; "v"].

Fixpoint check_order (cmdOrder : list string) (i : Z) (columns : list SelectExpr) : res error unit :=
  match columns with
  | [] => Ok tt
  | node :: columns =>
      let* val := node_String (SelectExpr_Format node) in
      let* w := at_ cmdOrder i in
      if negb (String.eqb val w) then Err ErrCmdUnsupport else check_order cmdOrder (i + 1) columns
  end.
Definition checkCmdOrder (region : string) (columns : option (list SelectExpr)) : res error unit :=
  if String.eqb region "node" then check_order cmdNodeOrder 0 (default [] columns)
  else if String.eqb region "server" then check_order cmdServerOrder 0 (default [] columns)
  else Err ErrCmdUnsupport.

(** [handleAdmin] up to its answer: a result set, or just OK. *)
Definition handleAdmin (region : TableName) (columns : option (list SelectExpr)) (rows : InsertRows)
  : M (option Resultset) :=
  do! region := lift (node_String (TableName_Format region)) in
  do! _ := lift (checkCmdOrder region columns) in
  let region' := ToLower region in
  if String.eqb region' "node" then no_result (handleNodeCmd rows)
  else if String.eqb region' "server" then handleServerCmd rows
  else fail (Errorf ("admin " +:+ region +:+ " not supported now")).

Definition admin_statement (stmt : Statement) : M (option Resultset) :=
  match stmt with
  | StAdmin region columns rows => handleAdmin region columns rows
  | StAdminHelp => from_server handleAdminHelp
  | _ => ret None
  end.

(** ** The server as a session sees it *)
Definition proxy_of (s : Server) : proxy :=
  mkProxy (dom (s_nodes sch)) (dom (nodes s)) (refuses s) (fun stmt => (admin_statement stmt s).2).

(** What a query of a session does to the server: something only when the
    query is handed to the parser and is a command of the administrator. *)
Definition is_admin (stmt : Statement) : bool :=
  match stmt with StAdmin _ _ _ | StAdminHelp => true | _ => false end.
Definition query_effect `{Outside} (sql : string) (c : ClientConn) (s : Server) : Server :=
  let sql := TrimRight sql ";" in
  match preHandleShard (proxy_of s) sql c with
  | (c, Ok false) =>
      match YyParse.Parse sql with
      | Ok stmt => if is_admin stmt && String.eqb (c_user c) "root" then (admin_statement stmt s).1 else s
      | _ => s
      end
  | _ => s
  end.
End Admin.
