(* ===== verification/AdminTheorems.v ===== *)
(** * Administration, from the statement to its effect on other sessions *)
From S2P Require Import Prelude Errors StateM GoLib GoTime GoFmt Wire GoNet Charset ErrTables Field Order RouteLists Rule Plan Router SelectMerge.
From S2P Require Import GoHash Fingerprint SqlTypes Ast YyParse Resultset ResultBuild Balancer Pool Node ExecDB Session Handlers.
From S2P Require Import Server ServerTheorems ReloadTheorems Admin.
From Stdlib Require Import Ascii.
Open Scope Z_scope.

Section Admin.
Context `{Outside} `{StrMapOrder} `{MapOrder} `{Timezone} `{GoFloat} `{GoSort} `{ErrorText} `{Stats}.
Variables
  (room : nat -> nat) (backends : nat -> servers) (create_file : string -> option error)
  (WriteConfigFile : Config -> option error) (execPath : string).

Abbreviation seen sch s := (proxy_of room backends create_file WriteConfigFile execPath sch s).

Definition in_blacklist : error := ErrSqlError (NewError ER_UNKNOWN_ERROR "sql in blacklist.").

(** A statement that the black list has is refused at once. *)
Lemma handleQuery_refused sch s sql c :
  TrimRight sql ";" <> "" -> refuses s (TrimRight sql ";") = Ok true ->
  handleQuery (seen sch s) sql c = (c, Err in_blacklist).
Proof.
  intros Hne Hr. unfold handleQuery, recovering, bind, preHandleShard.
  assert (slen (TrimRight sql ";") =? 0 = false) as -> by (destruct (TrimRight sql ";"); [done|by apply Z.eqb_neq]).
  unfold bind, lift. cbn [blacklisted proxy_of]. by rewrite Hr.
Qed.

(** A command of the administrator reaches the parser. *)
Lemma preHandleShard_admin sch s sql c t ts :
  isInTransaction c = false -> sql <> "" -> refuses s sql = Ok false ->
  FieldsFunc sql IsSqlSep = t :: ts -> ToLower t = "admin" ->
  preHandleShard (seen sch s) sql c = (c, Ok false).
Proof.
  intros Htx Hne Hr Hf Ht. unfold preHandleShard.
  assert (slen sql =? 0 = false) as -> by (destruct sql; [done|by apply Z.eqb_neq]).
  erewrite bind_Ok by (unfold lift; cbn [blacklisted proxy_of]; by rewrite Hr). rewrite Hf.
  assert (try (get_exec_db (seen sch s) (t :: ts) sql) c = (c, Ok (None, Some None))) as Htry.
  { unfold try, get_exec_db, bind, get, on_router, GetExecDB. rewrite Htx, Ht.
    replace (PARSE_TOKEN_MAP !! "admin") with (Some TK_ID_ADMIN) by by vm_compute. unfold ret. by destruct c. }
  by rewrite (bind_Ok _ _ _ _ _ Htry).
Qed.

Lemma recovering_writeOK e c :
  recovering (do! result := lift (Ok None) in
              match result with Some r => writeResultset (c_status c) r | None => writeOK None end) e c = writeOK None c.
Proof.
  unfold recovering, bind, lift, writeOK, respond, bind, get, put, unless, fail, ret. by destruct (client_write _).
Qed.

(** The command that adds to the black list. *)
Lemma add_black_command sch s region columns rows v k :
  node_String (TableName_Format region) = Ok "server" -> checkCmdOrder "server" columns = Ok tt ->
  first_tuple rows 3 = Ok ["add"; "black_sql"; v] -> v <> "" -> TrimSpace v = v -> key_of v = Ok k ->
  admin_statement room backends create_file WriteConfigFile execPath sch (StAdmin region columns rows) s =
    if decide (k ∈ black_keys s) then (s, Err ErrBlackSqlExist) else (change_black (set_black k v) s, Ok None).
Proof.
  intros Hregion Horder Hwords Hv Htrim Hk. cbn [admin_statement]. unfold handleAdmin, lift.
  rewrite Hregion. unfold bind at 1. rewrite Horder. unfold bind at 1.
  change (ToLower "server") with "server". change (String.eqb "server" "node") with false.
  change (String.eqb "server" "server") with true. cbv iota.
  unfold handleServerCmd, lift. rewrite Hwords. unfold bind at 1.
  change (ToLower "add") with "add". cbn [String.eqb Ascii.eqb Bool.eqb]. cbv iota.
  unfold no_result, handleAdminAdd. change (slen "black_sql" =? 0) with false.
  assert (slen v =? 0 = false) as -> by (destruct v; [done|by apply Z.eqb_neq]).
  change (String.eqb "black_sql" "allow_ip") with false. change (String.eqb "black_sql" "black_sql") with true.
  cbn [orb]. cbv iota. unfold bind. rewrite Htrim, (AddBlackSql_run s v k) by by rewrite Htrim.
  rewrite Htrim. by case_decide.
Qed.

(** The words of a row of literals none of whose characters the printer
    escapes are these literals. *)
Fixpoint unescaped (s : string) : bool :=
  match s with
  | EmptyString => true
  | String c s => (SqlEncodeMap (byte_of c) =? DONTESCAPE) && unescaped s
  end.

Lemma unescaped_body s : unescaped s = true ->
  encode_body s = s /\ TrimRight (s +:+ "'") "'" = s.
Proof using Type.
  induction s as [|c s IH]; [done|]. cbn [unescaped]. intros [Hc Hs]%andb_true_iff. destruct (IH Hs) as [IHb IHt]. split.
  - cbn [encode_body]. unfold encode_char. rewrite Hc, IHb. done.
  - change (String c s +:+ "'") with (String c (s +:+ "'")). cbn [TrimRight]. rewrite IHt. destruct s; [|done].
    cbn [schar_in]. destruct (Ascii.eqb_spec c "'") as [->|]; [vm_compute in Hc; discriminate | done].
Qed.

Lemma word_unescaped v : unescaped v = true -> word (StrVal v) = Ok v.
Proof using Type.
  intros Hv. destruct (unescaped_body v Hv) as [Hb Ht]. unfold word.
  assert (node_String (ValExpr_Format (StrVal v)) = Ok ("'" +:+ v +:+ "'")) as ->.
  { unfold node_String, Fprintf. cbn. by rewrite Hb, ?sapp_nil_r. }
  cbn [rbind]. unfold Trim. change ("'" +:+ v +:+ "'") with (String "'" (v +:+ "'")). cbn [TrimRight]. rewrite Ht.
  destruct v as [|c v]; [done|]. cbn [TrimLeft schar_in].
  change (Ascii.eqb "'" "'" || false) with true. cbv iota. cbn [TrimLeft schar_in unescaped] in *.
  destruct (Ascii.eqb_spec c "'") as [->|]; [vm_compute in Hv; discriminate | done].
Qed.

Lemma first_tuple_unescaped vs rows : forallb unescaped vs = true ->
  first_tuple (RowsValues (TupleVals (StrVal <$> vs) :: rows)) (length vs) = Ok vs.
Proof using Type.
  intros Hvs. cbn [first_tuple]. rewrite length_fmap, Nat.eqb_refl. cbn [negb].
  induction vs as [|v vs IH]; [done|]. cbn [forallb] in Hvs. apply andb_true_iff in Hvs as [Hv Hvs].
  cbn [fmap list_fmap rmap]. rewrite (word_unescaped v Hv). cbn [rbind]. by rewrite (IH Hvs).
Qed.

(** C24: what the administrator black-lists is refused for everybody.  After
    root's [admin server(opt,k,v) values('add','black_sql',v)], for a
    statement [v] without blanks at its ends and without characters that the
    printer escapes (quotes, backslashes, line ends and the like), a query of
    any session whose fingerprint is that of [v] is answered with the error
    and leaves the session as it is; queries with other fingerprints are
    refused exactly when they were before. *)
Theorem black_sql_command sch s c sql region columns rows t ts v k
    (Hok : black_ok s) (Hlen : sqlsLen (black_list s) < 2 ^ 62)
    (Hroot : c_user c = "root") (Htx : isInTransaction c = false)
    (Hne : TrimRight sql ";" <> "") (Hfree : refuses s (TrimRight sql ";") = Ok false)
    (Hfields : FieldsFunc (TrimRight sql ";") IsSqlSep = t :: ts) (Ht : ToLower t = "admin")
    (Hparse : YyParse.Parse (TrimRight sql ";") =
       Ok (StAdmin region columns (RowsValues (TupleVals (StrVal <$> ["add"; "black_sql"; v]) :: rows))))
    (Hregion : node_String (TableName_Format region) = Ok "server")
    (Horder : checkCmdOrder "server" columns = Ok tt)
    (Hplain : unescaped v = true) (Hv : v <> "") (Htrim : TrimSpace v = v) (Hk : key_of v = Ok k) :
  let s' := query_effect room backends create_file WriteConfigFile execPath sch sql c s in
  (k ∈ black_keys s -> handleQuery (seen sch s) sql c = (c, Err ErrBlackSqlExist)) /\
  (k ∉ black_keys s -> handleQuery (seen sch s) sql c = writeOK None c) /\
  forall sch2 c2 sql2 k2, key_of (TrimRight sql2 ";") = Ok k2 -> TrimRight sql2 ";" <> "" ->
    if decide (k2 = k) then handleQuery (seen sch2 s') sql2 c2 = (c2, Err in_blacklist)
    else refuses s' (TrimRight sql2 ";") = refuses s (TrimRight sql2 ";").
Proof.
  intros s'. unfold s', query_effect.
  assert (first_tuple (RowsValues (TupleVals (StrVal <$> ["add"; "black_sql"; v]) :: rows)) 3 = Ok ["add"; "black_sql"; v]) as Hwords.
  { apply (first_tuple_unescaped ["add"; "black_sql"; v]). change (unescaped v && true = true). by rewrite Hplain. }
  revert Hparse Hwords. generalize (RowsValues (TupleVals (StrVal <$> ["add"; "black_sql"; v]) :: rows)). clear rows. intros rows Hparse Hwords.
  pose proof (preHandleShard_admin sch s _ c t ts Htx Hne Hfree Hfields Ht) as Hpre. rewrite Hpre, Hparse, Hroot.
  pose proof (add_black_command sch s region columns rows v k Hregion Horder Hwords Hv Htrim Hk) as Hcmd.
  change (is_admin (StAdmin region columns rows) && String.eqb "root" "root") with true. cbv iota. rewrite Hcmd.
  assert (forall r, (admin_statement room backends create_file WriteConfigFile execPath sch (StAdmin region columns rows) s).2 = r ->
    handleQuery (seen sch s) sql c =
      recovering (do! result := lift r in match result with Some r => writeResultset (c_status c) r | None => writeOK None end)
        ErrInternalServer c) as Hq.
  { intros r <-. unfold handleQuery, recovering. rewrite (bind_Ok _ _ _ _ _ Hpre). unfold bind at 1, lift at 1.
    rewrite Hparse. cbn [run_statement]. unfold admin_command, bind at 1, get. by rewrite Hroot. }
  rewrite Hcmd in Hq. specialize (Hq _ eq_refl).
  assert (forall sch2 c2 sql2 k2 s', black_ok s' -> k2 ∈ black_keys s' -> key_of (TrimRight sql2 ";") = Ok k2 ->
    TrimRight sql2 ";" <> "" -> handleQuery (seen sch2 s') sql2 c2 = (c2, Err in_blacklist)) as Href.
  { intros sch2 c2 sql2 k2 s2 Hok2 Hin Hk2 Hne2. apply handleQuery_refused; [done|].
    rewrite (refuses_exact _ _ _ Hok2 Hk2). by rewrite bool_decide_eq_true_2. }
  destruct (decide (k ∈ black_keys s)) as [Hin|Hin]; cbn [fst snd] in *.
  - split; [done|]. split; [done|]. intros sch2 c2 sql2 k2 Hk2 Hne2. case_decide as Heq; [|done]. subst k2. by eapply Href.
  - destruct (set_black_ok s k v Hok Hlen Hin) as [Hadd Hkeys].
    split; [done|]. split; [intros _; rewrite Hq; apply recovering_writeOK|].
    intros sch2 c2 sql2 k2 Hk2 Hne2. case_decide as Heq.
    + subst k2. eapply Href; [done| |done..]. rewrite Hkeys. set_solver.
    + rewrite (refuses_exact _ _ _ Hadd Hk2), (refuses_exact _ _ _ Hok Hk2), Hkeys. f_equal. apply bool_decide_ext. set_solver.
Qed.
End Admin.
