(* ===== verification/AdminDemo.v ===== *)
(** * A server on a sample configuration

    Where the theorems about the server apply, and runs that show what
    fails. *)
From S2P Require Import Prelude Errors StateM GoLib GoTime GoFmt Wire GoNet Charset ErrTables Field Order RouteLists Rule Plan RoutingTheorems Router SelectMerge.
From S2P Require Import GoHash Fingerprint Ast YyParse Resultset ResultBuild Balancer Pool Node ExecDB Session Handlers.
From S2P Require Import Server ServerTheorems ReloadTheorems Admin AdminTheorems.
From Stdlib Require Import Ascii.
Open Scope Z_scope.

#[local] Existing Instance UTC.
#[local] Existing Instance no_floats.
#[local] Existing Instance insertion_GoSort.

Definition no_room : nat -> nat := fun _ => 0%nat.
Definition sample_backends : nat -> servers := fun _ => sample_servers.
Definition sample_nodes : list NodeConfig :=
  [mkNodeConfig "node2" 32 64 "kingshard" "" "127.0.0.1:3307" "";
   mkNodeConfig "node3" 32 64 "kingshard" "" "127.0.0.1:3308" "127.0.0.1:4308@2"].
Definition sample_config : Config :=
  mkConfig "0.0.0.0:9696" [mkUserConfig "root" "x"; mkUserConfig "kingshard" "y"] "" "error" "on" 100
    "127.0.0.1, 192.168.14.7/16" "bls" "" sample_nodes
    [mkSchemaConfig "root" ["node2"; "node3"] "node2" []; mkSchemaConfig "kingshard" ["node2"; "node3"] "node2" [sample_hash]].
Definition sample_files : gmap string string :=
  {["bls" := "select count(*) from sbtest1" +:+ String newline ""]}.
Definition start_server (c : Config) : Server :=
  (NewServer no_room sample_backends (fun _ => None) c (zero_server (mkDefaults "utf8" 33 "utf8_general_ci") sample_files)).1.
Definition sample_server : Server := start_server sample_config.

Lemma sample_server_starts :
  NewServer no_room sample_backends (fun _ => None) sample_config
    (zero_server (mkDefaults "utf8" 33 "utf8_general_ci") sample_files) = (sample_server, Ok tt).
Proof.
  unfold sample_server, start_server. rewrite (surjective_pairing (NewServer _ _ _ _ _)) at 1.
  apply (f_equal (pair _)). vm_compute. reflexivity.
Qed.

Lemma sample_server_ok : serving sample_server /\ ips_ok sample_server.
Proof. destruct (NewServer_serves _ _ _ _ _ _ sample_server_starts) as (H1 & H2 & _). done. Qed.

Definition check_black (s : Server) : bool :=
  match black_lists s !! current (blacklistSqls s) with
  | Some b => (sqlsLen b =? Z.of_nat (size (sqls b))) && (sqlsLen b <? 2 ^ 63 - 1)
  | None => false
  end.
Lemma check_black_ok s : check_black s = true -> black_ok s.
Proof. unfold check_black. destruct (_ !! _) as [b|] eqn:Hb; [|done]. intros H. exists b. split; [done|]. lia. Qed.

Lemma sample_black_ok : black_ok sample_server.
Proof. apply check_black_ok. vm_compute. reflexivity. Qed.

(** ** The theorems at this server *)
Lemma clients_by_address_witness :
  IsAllowConnect sample_server "192.168.3.9" = true /\ IsAllowConnect sample_server "10.0.0.1" = false.
Proof.
  split; [|vm_compute; reflexivity].
  apply (clients_by_address sample_server "192.168.3.9" [0;0;0;0;0;0;0;0;0;0;255;255;192;168;3;9]
    (proj2 sample_server_ok)); [reflexivity|].
  right. eexists _, _. split; [apply (list_elem_of_lookup_2 _ 1); vm_compute; reflexivity|].
  split; [vm_compute; reflexivity|]. split; [vm_compute; reflexivity|]. vm_compute. discriminate.
Defined.

Lemma allow_list_changes_witness :
  info <$> allowed (AddAllowIP no_room "10.0.0.0/8" sample_server).1 = ["127.0.0.1"; "192.168.14.7/16"; "10.0.0.0/8"] /\
  info <$> allowed (DelAllowIP "127.0.0.1" sample_server).1 = ["192.168.14.7/16"].
Proof.
  destruct (allow_list_changes no_room sample_server "10.0.0.0/8" (proj2 sample_server_ok)) as (_ & _ & _ & _ & Ha & _).
  destruct (allow_list_changes no_room sample_server "127.0.0.1" (proj2 sample_server_ok)) as (_ & _ & _ & _ & _ & Hd & _).
  split.
  - etrans; [apply Ha; vm_compute; by eexists|]. vm_compute. reflexivity.
  - rewrite Hd. vm_compute. reflexivity.
Defined.

Lemma black_list_exact_witness :
  refuses (AddBlackSql " select * from t where id = 7 " sample_server).1 "SELECT  * from t where id = 8" = Ok true /\
  refuses (DelBlackSql "select count(*) from sbtest1" sample_server).1 "select count(*) from sbtest1" = Ok false.
Proof.
  split.
  - edestruct (black_list_exact sample_server " select * from t where id = 7 ") as (_ & _ & _ & _ & H);
      [apply sample_black_ok | vm_compute; reflexivity | vm_compute; reflexivity|].
    edestruct (H "SELECT  * from t where id = 8") as [Ha _]; [vm_compute; reflexivity|]. etrans; [exact Ha|].
    vm_compute. reflexivity.
  - edestruct (black_list_exact sample_server "select count(*) from sbtest1") as (_ & _ & _ & _ & H);
      [apply sample_black_ok | vm_compute; reflexivity | vm_compute; reflexivity|].
    edestruct (H "select count(*) from sbtest1") as [_ Hd]; [vm_compute; reflexivity|]. etrans; [exact Hd|].
    vm_compute. reflexivity.
Defined.

Lemma sample_lines : map_Forall line_ok (sqls (black_list sample_server)).
Proof.
  assert (map_to_list (sqls (black_list sample_server)) =
    [("ccba8ae1c7d1c165cd098e3490de5a22", "select count(*) from sbtest1")]) as H by (vm_compute; reflexivity).
  intros k v Hv. apply elem_of_map_to_list in Hv. rewrite H in Hv. apply list_elem_of_singleton in Hv as [= -> ->].
  split_and!; [reflexivity..|discriminate|vm_compute; reflexivity].
Qed.

Lemma black_list_saved_witness :
  exists s' s'' p, SaveProxyConfig (fun _ => None) (fun _ => None) sample_server = (s', Ok tt) /\
    parseBlackListSqls "bls" s' = (s'', Ok p) /\
    refuses (set_blacklistSqls (mkDouble false p p) s'') "select count(*) from sbtest1" = Ok true.
Proof.
  destruct (black_list_saved (fun _ => None) (fun _ => None) sample_server sample_black_ok sample_lines)
    as (s' & s'' & p & Hs & Hp & _ & Hr); [vm_compute; discriminate | vm_compute; reflexivity..|].
  assert (BlsFile (cfg sample_server) = "bls") as Hfile by (vm_compute; reflexivity). rewrite Hfile in Hp.
  exists s', s'', p. split; [exact Hs|]. split; [exact Hp|].
  etrans; [apply (Hr _ "ccba8ae1c7d1c165cd098e3490de5a22")|]; vm_compute; reflexivity.
Defined.

(** A configuration with one node more, and one whose schema names a node
    that is not there. *)
Definition bigger_config : Config :=
  mkConfig "0.0.0.0:9696" [mkUserConfig "root" "x"] "" "error" "off" 50 "" "" "utf8mb4"
    (sample_nodes ++ [mkNodeConfig "node4" 32 64 "kingshard" "" "127.0.0.1:3309" ""])
    [mkSchemaConfig "root" ["node4"] "node4" []].
Definition faulty_config : Config :=
  mkConfig "0.0.0.0:9696" [mkUserConfig "root" "x"] "" "error" "off" 50 "" "" "utf8mb4" sample_nodes
    [mkSchemaConfig "root" ["node4"] "node4" []].

Lemma reload_all_or_nothing_witness :
  users (UpdateConfig no_room sample_backends bigger_config sample_server).1 = {["root" := "x"]} /\
  serving (UpdateConfig no_room sample_backends faulty_config sample_server).1 /\
  users (UpdateConfig no_room sample_backends faulty_config sample_server).1 = users sample_server.
Proof.
  destruct (reload_all_or_nothing no_room sample_backends bigger_config sample_server) as (_ & _ & H1);
    [apply sample_server_ok | apply sample_black_ok | apply sample_server_ok|].
  destruct (reload_all_or_nothing no_room sample_backends faulty_config sample_server) as (H2 & _ & H3);
    [apply sample_server_ok | apply sample_black_ok | apply sample_server_ok|].
  split; [|split; [exact H2|]].
  - destruct H1 as [[_ [Ha _]]|[[-> _] _]]; [exfalso; revert Ha; vm_compute; discriminate | vm_compute; reflexivity].
  - destruct H3 as [[He _]|[_ [Hv _]]]; [apply (extends_fields _ _ He) | exfalso; revert Hv; vm_compute; discriminate].
Defined.

(** ** A command of the administrator *)
#[local] Instance admin_outside : Outside := {|
  new_conn _ _ _ := inl ("kingshard", "utf8", 33);
  reply _ _ _ := inr ErrNoDatabase;
  fields_reply _ _ := inl [];
  prepare_reply _ _ := inl (1, 0, 0);
  client_write _ := None |}.
#[local] Instance admin_text : ErrorText := fun _ => "".
#[local] Instance admin_stats : Stats := {| ConnCount _ _ := (0, 0, 0, 0); unix_time _ := "" |}.

Definition column_name (s : string) : SelectExpr := NonStarExpr (EVal (col s)) None.
Definition black_list_it : string :=
  "admin server(opt,k,v) values('add','black_sql','delete from t where id = 1')".
Definition sample_schema_of (user : string) : Schema :=
  default (mkSchema ∅ (mkRouter ∅ (NewDefaultRule "") [])) (GetSchema sample_server user).
Definition admin_session (user : string) : ClientConn :=
  mkClientConn SERVER_STATUS_AUTOCOMMIT 33 "utf8" user "kingshard" (s_rule (sample_schema_of user)) ∅ false 0 0 0 [] [].
Definition admin_effect (sql : string) (c : ClientConn) (s : Server) : Server :=
  query_effect no_room sample_backends (fun _ => None) (fun _ => None) "/" (sample_schema_of (c_user c)) sql c s.

Lemma black_sql_command_witness :
  handleQuery (proxy_of no_room sample_backends (fun _ => None) (fun _ => None) "/" (sample_schema_of "kingshard")
      (admin_effect (black_list_it +:+ ";") (admin_session "root") sample_server))
    "delete from t where id = 33" (admin_session "kingshard") = (admin_session "kingshard", Err in_blacklist).
Proof.
  destruct (black_sql_command no_room sample_backends (fun _ => None) (fun _ => None) "/"
    (sample_schema_of "root") sample_server (admin_session "root") (black_list_it +:+ ";")
    (mkTableName "server" None) (Some [column_name "opt"; column_name "k"; column_name "v"])
    []
    "admin" ["server(opt"; "k"; "v)"; "values('add'"; "'black_sql'"; "'delete"; "from"; "t"; "where"; "id"; "="; "1')"]
    "delete from t where id = 1" "14540611d18bbd0e8863e895f68c7702" sample_black_ok) as (_ & _ & H);
    [vm_compute; try reflexivity; try discriminate..|].
  specialize (H (sample_schema_of "kingshard") (admin_session "kingshard") "delete from t where id = 33"
    "14540611d18bbd0e8863e895f68c7702" ltac:(vm_compute; reflexivity) ltac:(vm_compute; discriminate)).
  unfold admin_effect. change (c_user (admin_session "root")) with "root".
  destruct (decide _) as [_|Hne] in H; [exact H | by destruct Hne].
Defined.

(** ** What fails *)

(** The printer escapes the quotes inside a literal and the command trims
    only those around it: a statement with a literal that is black-listed is
    looked up by another fingerprint than the statement that clients send. *)
Definition with_literal : string := "select * from t where a = 'x'".
Definition as_listed : string :=
  match word (StrVal with_literal) with Ok w => w | _ => "" end.
Example literal_never_matches :
  refuses (AddBlackSql as_listed sample_server).1 with_literal = Ok false /\
  refuses (AddBlackSql with_literal sample_server).1 with_literal = Ok true.
Proof. vm_compute. split; reflexivity. Qed.

(** A list of addresses whose only entry has a fault is empty, so that
    everybody may connect. *)
Definition with_ips (text : string) : Config := set_AllowIps text sample_config.
Example fault_opens_server :
  IsAllowConnect (start_server (with_ips "192.168.0.0/33")) "10.0.0.1" = true /\
  IsAllowConnect (start_server (with_ips "192.168.0.0/16")) "10.0.0.1" = false.
Proof. vm_compute. split; reflexivity. Qed.

(** Deleting moves the elements of the array that the list shares with a
    check in progress, which reads the slice it started with: having looked
    at the first entry it goes on with the third. *)
Example deletion_hides_entry :
  let s := start_server (with_ips "10.0.0.1,10.0.0.2,10.0.0.3") in
  let reading := current (allowips s) in
  info <$> items s reading = ["10.0.0.1"; "10.0.0.2"; "10.0.0.3"] /\
  info <$> items (DelAllowIP "10.0.0.1" s).1 reading = ["10.0.0.2"; "10.0.0.3"; "10.0.0.3"].
Proof. vm_compute. split; reflexivity. Qed.

(** An entry after a comma and a space leaves the list, but not the
    configuration that is saved. *)
Example deleted_entry_is_saved :
  let s := (DelAllowIP "192.168.14.7/16" sample_server).1 in
  info <$> allowed s = ["127.0.0.1"] /\ AllowIps (cfg s) = "127.0.0.1, 192.168.14.7/16".
Proof. vm_compute. split; reflexivity. Qed.

(** More columns than the command has words. *)
Example too_many_columns :
  checkCmdOrder "server" (Some (column_name <$> ["opt"; "k"; "v"; "x"])) = Panic (PRuntime "index out of range").
Proof. reflexivity. Qed.

(** Reading the configuration again does not change the switch of the SQL
    log, nor the character set. *)
Example log_switch_stays :
  let s := (UpdateConfig no_room sample_backends bigger_config sample_server).1 in
  LogSql (cfg s) = "off" /\ current (logSql s) = "on" /\
  Charset_ (cfg s) = "utf8mb4" /\ d_charset (defaults s) = "utf8".
Proof. vm_compute. repeat split; reflexivity. Qed.

(** A configuration with a fault leaves the nodes that were started for it. *)
Example fault_leaves_nodes :
  let s := (UpdateConfig no_room sample_backends faulty_config sample_server).1 in
  length (all_nodes s) = 4%nat /\ size (nodes s) = 2%nat /\ Forall (fun n => Node.Online n = true) (all_nodes s).
Proof. vm_compute. repeat split; repeat constructor. Qed.
