(* ===== verification/Api.v ===== *)
(** * The HTTP interface ([web/api.go], [GetMonitorData] of [server.go])

    Each handler after its arguments were read ([Bind], the web framework's):
    what it does to the server and what it answers.  An error is an answer of
    the framework. *)
From S2P Require Import Prelude Errors StateM GoLib Wire GoNet Charset RouteLists Rule Router SelectMerge.
From S2P Require Import GoHash Fingerprint Balancer Pool Node ExecDB Resultset ResultBuild Session Handlers Server Admin.
From Stdlib Require Import Ascii.
Open Scope Z_scope.

(** What is written as JSON. *)
Record DBStatus := mkDBStatus {
  st_Node : string; st_Address : string; st_Type : string; st_Status : string; st_LastPing : string;
  st_MaxConn : Z; st_IdleConn : Z; st_CacheConn : Z; st_PushConnCount : Z; st_PopConnCount : Z }.
Record ShardConfig := mkShardConfig {
  sc_User : string; sc_DB : string; sc_Table : string; sc_Key : string; sc_Nodes : list string;
  sc_Locations : list Z; sc_Type : string; sc_TableRowLimit : Z; sc_DateRange : list string }.
Inductive body : Type :=
| BText (s : string) | BTexts (l : list string) | BInt (n : Z) | BNodes (l : list DBStatus) | BShards (l : list ShardConfig).
Record answer := JSON { code : Z; content : body }.
Definition StatusOK : Z := 200.
Definition StatusNotFound : Z := 404.
Definition ok : answer := JSON StatusOK (BText "ok").

Section Api.
Context `{StrMapOrder} `{Stats}.
Variables
  (room : nat -> nat) (backends : nat -> servers) (create_file : string -> option error)
  (WriteConfigFile : Config -> option error).

Abbreviation M := (ST Server).

(** [err := ...; if err != nil { return err }; return c.JSON(http.StatusOK, "ok")] *)
Definition answered (m : M unit) : M answer := do! _ := m in ret ok.
Definition look (f : Server -> body) : M answer := do! s := get in ret (JSON StatusOK (f s)).

Definition Api_GetAllowIps : M answer := look (fun s => BTexts (GetAllowIps s)).
Definition AddAllowIps (AllowIPs : list string) : M answer :=
  answered (for_each (fun v => AddAllowIP room (TrimSpace v)) AllowIPs).
Definition DelAllowIps (AllowIPs : list string) : M answer :=
  answered (for_each (fun v => DelAllowIP (TrimSpace v)) AllowIPs).

(** *** Nodes *)
Definition db_status (p : nat) (name type : string) (n : Node) (db : option nat) : res error DBStatus :=
  let* (l, h) := db_of n db in
  let '(idleConns, cacheConns, pushConnCount, popConnCount) := ConnCount p l in
  Ok (mkDBStatus name (h_addr h) type (state_text h) (unix_time (h_lastPing h)) (cfg_MaxConnNum (Cfg n))
        idleConns cacheConns pushConnCount popConnCount).

(** The master and the slaves of each node. *)
Definition each_db {A} (f : nat -> string -> string -> Node -> option nat -> res error A) (s : Server)
  : res error (list A) :=
  let* l := rmap (fun name =>
    match p ← nodes s !! name; n ← all_nodes s !! p; Some (p, n) with
    | None => Panic (PRuntime "nil pointer dereference")
    | Some (p, n) =>
        let* master := f p name "master" n (Master n) in
        let* l := rmap (f p name "slave" n) (Slave (slaves n)) in
        Ok (master :: l)
    end) (range_strings (dom (nodes s))) in
  Ok (concat l).

Definition GetNodesStatus : M answer :=
  do! s := get in
  do! l := lift (each_db db_status s) in
  ret (JSON StatusOK (BNodes l)).

(** [GetMonitorData]: by address, what [monitor] publishes. *)
Definition monitor_item (p : nat) (name type : string) (n : Node) (db : option nat)
  : res error (string * gmap string string) :=
  let* (l, h) := db_of n db in
  let '(idleConns, cacheConns, pushConnCount, popConnCount) := ConnCount p l in
  Ok (h_addr h, list_to_map [
    ("idleConn", FormatInt idleConns); ("cacheConns", FormatInt cacheConns);
    ("pushConnCount", FormatInt pushConnCount); ("popConnCount", FormatInt popConnCount);
    ("maxConn", FormatInt (cfg_MaxConnNum (Cfg n))); ("type", type)]).
Definition GetMonitorData (s : Server) : res error (gmap string (gmap string string)) :=
  let* l := each_db monitor_item s in
  Ok (foldl (fun data x => <[x.1 := x.2]> data) ∅ l).

Definition AddOneSlave (Node Addr : string) : M answer := answered (AddSlave backends Node Addr).
Definition DeleteOneSlave (Node Addr : string) : M answer := answered (DeleteSlave backends Node Addr).
Definition ChangeSlaveStatus (Opt Node Addr : string) : M answer :=
  let Opt := ToLower Opt in
  if negb (String.eqb Opt "up") && negb (String.eqb Opt "down") then fail (Errorf "opt only can be up or down")
  else answered (if String.eqb Opt "down" then DownSlave Node Addr else UpSlave backends Node Addr).
Definition ChangeMasterStatus (Opt Node Addr : string) : M answer :=
  let Opt := ToLower Opt in
  if negb (String.eqb Opt "up") && negb (String.eqb Opt "down") then fail (Errorf "opt only can be up or down")
  else answered (if String.eqb Opt "down" then DownMaster Node Addr else UpMaster backends Node Addr).

(** *** The proxy *)
Definition GetProxyStatus : M answer := look (fun s => BText (Status s)).
Definition ChangeProxyStatus (Opt : string) : M answer :=
  let Opt := ToLower Opt in
  if negb (String.eqb Opt "online") && negb (String.eqb Opt "offline")
  then fail (Errorf "opt only can be online or offline") else answered (ChangeProxy Opt).

Definition schema_shards (schema : SchemaConfig) : list ShardConfig :=
  mkShardConfig (sch_User schema) "" "" "" (sch_Nodes schema) [] "default" 0 [] ::
  ((fun r => mkShardConfig (sch_User schema) (cfg_DB r) (cfg_Table r) (cfg_Key r) (cfg_Nodes r) (cfg_Locations r)
               (cfg_Type r) (cfg_TableRowLimit r) (cfg_DateRange r)) <$> sch_ShardRule schema).
(** [s.cfg] of the interface is the configuration the proxy started with. *)
Definition GetProxySchema (started_with : Config) : M answer :=
  ret (JSON StatusOK (BShards (concat (schema_shards <$> SchemaList started_with)))).

Definition GetAllBlackSQL : M answer := look (fun s => BTexts (GetAllBlackSqls s)).
Definition AddOneBlackSQL (SQL : string) : M answer := answered (AddBlackSql SQL).
Definition DelOneBlackSQL (SQL : string) : M answer :=
  do! r := try (DelBlackSql SQL) in
  match r.1 with
  | Some ErrBlackSqlNotExist => ret (JSON StatusNotFound (BText ("`" +:+ SQL +:+ "` isn't exist in black sql")))
  | Some e => fail e
  | None => ret ok
  end.

Definition SwitchSlowSQL (Opt : string) : M answer :=
  let Opt := ToLower Opt in
  if negb (String.eqb Opt "on") && negb (String.eqb Opt "off") then fail (Errorf "opt only can be on or off")
  else answered (ChangeLogSql Opt).
Definition SetSlowLogTime (SlowTime : Z) : M answer := answered (ChangeSlowLogTime (FormatInt SlowTime)).
Definition Api_GetSlowLogTime : M answer := look (fun s => BInt (GetSlowLogTime s)).
Definition Api_SaveProxyConfig : M answer := answered (SaveProxyConfig create_file WriteConfigFile).

(** The time of the slow log is set to what was asked for. *)
Lemma SetSlowLogTime_set t s : in_i64 t ->
  (SetSlowLogTime t s).2 = Ok ok /\ GetSlowLogTime (SetSlowLogTime t s).1 = t.
Proof.
  intros Ht. unfold SetSlowLogTime, answered, ChangeSlowLogTime, bind, lift, modify, ret.
  rewrite (proj2 (Atoi_ParseInt _ t) (ParseInt_FormatInt t Ht)).
  split; [done|]. unfold GetSlowLogTime. cbn [fst slowLogTime set_cfg set_slowLogTime]. apply current_change_to.
Qed.
End Api.
