(* ===== verification/LogText.v ===== *)
(** * The text of a log line ([core/golog/log.go])

    What a call of the logger writes: the line is put together from chunks,
    which the logger appends to a buffer one by one ([Logger]).  The text
    that [output] makes of its arguments is handed to [Output] as a format
    without arguments, so it goes through [fmt.Sprintf] once more. *)
From S2P Require Import Prelude Errors GoLib Wire GoUtf8 GoTime.
From Stdlib Require Import Ascii.
Open Scope Z_scope.

(** ** Levels and flags *)
Definition LevelTrace : Z := 0.
Definition LevelDebug : Z := 1.
Definition LevelInfo : Z := 2.
Definition LevelWarn : Z := 3.
Definition LevelError : Z := 4.
Definition LevelFatal : Z := 5.
Definition Ltime : Z := 1.
Definition Lfile : Z := 2.
Definition Llevel : Z := 4.
Definition LevelName : list string := ["TRACE"; "DEBUG"; "INFO"; "WARN"; "ERROR"; "FATAL"].

(** The level a name in the configuration or on the command line stands
    for ([setLogLevel], [UpdateConfig]). *)
Definition setLogLevel (level : string) : Z :=
  let level := ToLower level in
  if String.eqb level "debug" then LevelDebug
  else if String.eqb level "info" then LevelInfo
  else if String.eqb level "warn" then LevelWarn
  else if String.eqb level "error" then LevelError
  else LevelError.

(** ** [fmt.Sprintf(format)], without arguments

    As Go 1.13 has it: flags, an explicit argument index, a width, a
    precision, another index, the verb. *)
Definition byte (c : ascii) : Z := byte_of c.
Definition is_flag (b : Z) : bool := existsb (Z.eqb b) (bytes_of "#0+- ").
Fixpoint skip_flags (f : bytes) : bytes :=
  match f with b :: f' => if is_flag b then skip_flags f' else f | [] => [] end.

(** [parsenum]: the number, whether there is one, and what follows; a number
    that grows too large takes everything with it. *)
Fixpoint parsenum (num : Z) (isnum : bool) (f : bytes) : Z * bool * bytes :=
  match f with
  | b :: f' =>
      if (48 <=? b) && (b <=? 57)
      then if 1000000 <? num then (0, false, []) else parsenum (num * 10 + (b - 48)) true f'
      else (num, isnum, f)
  | [] => (num, isnum, [])
  end.

(** What is before the first ["]"] and what is after it. *)
Fixpoint to_bracket (f : bytes) : option (bytes * bytes) :=
  match f with
  | [] => None
  | b :: f => if b =? byte "]" then Some ([], f)
              else match to_bracket f with Some (n, r) => Some (b :: n, r) | None => None end
  end.

(** [argNumber], when there are no arguments: the rest of the format,
    whether an index was found, and whether the number is still good. *)
Definition argNumber (good : bool) (f : bytes) : bytes * bool * bool :=
  match f with
  | b :: f' =>
      if b =? byte "[" then
        if blen f <? 3 then (f', false, false)
        else match to_bracket f' with
             | Some (n, r) => let '(_, isnum, left_) := parsenum 0 false n in
                              (r, isnum && bool_decide (left_ = []), false)
             | None => (f', false, false)
             end
      else (f, false, good)
  | [] => (f, false, good)
  end.

(** The rune that a verb is, as [writeRune] writes it. *)
Definition verb_text (f : bytes) : bytes * bytes :=
  match f with
  | [] => ([], [])
  | b :: f' =>
      if b <? 0x80 then ([b], f')
      else let '(r, w) := DecodeRune f in
           (if (r =? RuneError) && (w =? 1) then [0xEF; 0xBF; 0xBD] else take (Z.to_nat w) f, drop (Z.to_nat w) f)
  end.

(** What follows a ["%"]: what is written, and the rest of the format;
    [None] ends the format. *)
Definition star (f : bytes) : option bytes :=
  match f with b :: f => if b =? byte "*" then Some f else None | [] => None end.
Definition width (after good : bool) (f : bytes) : bytes * bool * bool * bytes :=
  match star f with
  | Some f => (bytes_of "%!(BADWIDTH)", false, good, f)
  | None => let '(_, isnum, f) := parsenum 0 false f in ([], after, good && negb (after && isnum), f)
  end.
Definition precision (after good : bool) (f : bytes) : bytes * bool * bool * bytes :=
  match f with
  | [] => ([], after, good, f)
  | b :: f' =>
      if b =? byte "." then
        let '(f', after', good) := argNumber (good && negb after) f' in
        match star f' with
        | Some f' => (bytes_of "%!(BADPREC)", false, good, f')
        | None => let '(_, _, f') := parsenum 0 false f' in ([], after', good, f')
        end
      else ([], after, good, f)
  end.
Definition directive (f : bytes) : bytes * option bytes :=
  let '(f, after, good) := argNumber true (skip_flags f) in
  let '(w, after, good, f) := width after good f in
  let '(p, after, good, f) := precision after good f in
  let '(f, _, good) := if after then (f, after, good) else argNumber good f in
  match f with
  | [] => (w ++ p ++ bytes_of "%!(NOVERB)", None)
  | b :: _ =>
      let '(verb, f) := verb_text f in
      (w ++ p ++
       (if b =? byte "%" then [b]
        else bytes_of "%!" ++ verb ++ bytes_of (if good then "(MISSING)" else "(BADINDEX)")), Some f)
  end.

Fixpoint Sprintf0_fuel (fuel : nat) (f : bytes) : bytes :=
  match fuel, f with
  | S fuel, b :: f =>
      if b =? byte "%"
      then let '(s, f) := directive f in s ++ match f with Some f => Sprintf0_fuel fuel f | None => [] end
      else b :: Sprintf0_fuel fuel f
  | _, _ => []
  end.
(** Every round takes a byte of the format. *)
Definition Sprintf0 (f : bytes) : bytes := Sprintf0_fuel (length f) f.

(** ** [escape] and [output] *)
Definition escape_byte (filterEqual : bool) (r : Z) : bytes :=
  if r =? byte "|" then []
  else if r =? byte "%" then [37; 37]
  else if r =? byte "=" then (if filterEqual then [] else [r])
  else [r].
Fixpoint escape (s : bytes) (filterEqual : bool) : bytes :=
  match s with [] => [] | r :: s => escape_byte filterEqual r ++ escape s filterEqual end.

(** The arguments in pairs, as [output] takes them; what ["%v"] prints for
    each is given. *)
Fixpoint pairs (args : list bytes) : list bytes :=
  match args with
  | k :: v :: args => (k ++ bytes_of "=" ++ v) :: pairs args
  | [k] => [k]
  | [] => []
  end.
Fixpoint bar (l : list bytes) : bytes :=
  match l with [] => [] | [s] => s | s :: l => s ++ bytes_of "|" ++ bar l end.

Definition quoted (s : bytes) : bytes := [34] ++ s ++ [34].

Definition content (module method msg args : bytes) (reqId : Z) : bytes :=
  bytes_of "[" ++ module ++ bytes_of "] " ++ quoted method ++ bytes_of " " ++ quoted msg ++ bytes_of " " ++
  quoted args ++ bytes_of " conn_id=" ++ bytes_of (FormatUint reqId).

Definition output_content (module method msg : bytes) (reqId : Z) (args : list bytes) : bytes :=
  content module method msg (bar ((fun s => escape s false) <$> pairs args)) reqId.

(** ** A line *)

(** [now.Format(TimeFormat)] of an instant in seconds. *)
Definition clock `{Timezone} (sec : Z) : Z * Z * Z :=
  let s := u64 (sec + zone_offset sec + unixToAbsolute) mod 86400 in
  (s / 3600, s mod 3600 / 60, s mod 60).
Definition TimeFormat `{Timezone} (now : Z) : string :=
  let '(y, m, d) := unix_civil now in
  let '(hh, mm, ss) := clock now in
  appendInt y 4 +:+ "/" +:+ appendInt m 2 +:+ "/" +:+ appendInt d 2 +:+ " " +:+
  appendInt hh 2 +:+ ":" +:+ appendInt mm 2 +:+ ":" +:+ appendInt ss 2.

(** The name of a file without its directories; a slash at the very front
    does not count. *)
Fixpoint after_slash (file : bytes) : option bytes :=
  match file with
  | [] => None
  | b :: f => match after_slash f with
              | Some s => Some s
              | None => if b =? byte "/" then Some f else None
              end
  end.
Definition file_name (file : bytes) : bytes := default file (after_slash (tail file)).

Definition newline (s : bytes) : res error (list bytes) :=
  match last s with
  | None => Panic (PRuntime "index out of range")
  | Some b => Ok ([s] ++ if b =? 10 then [] else [[10]])
  end.

Section Line.
Context `{Timezone}.

Definition has (flag f : Z) : bool := 0 <? Z.land flag f.

Definition time_chunks (flag now : Z) : list bytes :=
  if has flag Ltime then [bytes_of (TimeFormat now); bytes_of " - "] else [].

(** [caller] is what [runtime.Caller] answers. *)
Definition place_chunks (flag : Z) (caller : option (bytes * Z)) : list bytes :=
  if has flag Lfile
  then let '(file, line) := match caller with
                            | Some (file, line) => (file_name file, line)
                            | None => (bytes_of "???", 0)
                            end in
       [file; bytes_of ":["; bytes_of (FormatInt line); bytes_of "] - "]
  else [].

(** [Output]: the chunks that are appended to the buffer, in their order. *)
Definition Output_chunks (flag level now : Z) (caller : option (bytes * Z)) (format : bytes) : res error (list bytes) :=
  let* name := if has flag Llevel
               then let* n := at_ LevelName level in Ok [bytes_of n; bytes_of " - "] else Ok [] in
  let* text := newline (Sprintf0 format) in
  Ok (time_chunks flag now ++ name ++ place_chunks flag caller ++ text).

(** [OutputSql]; [s] is the formatted text. *)
Definition OutputSql_chunks (flag now : Z) (state s : bytes) : res error (list bytes) :=
  let name := if has flag Llevel then [state; bytes_of " - "] else [] in
  let* text := newline s in
  Ok (time_chunks flag now ++ name ++ text).

(** [output], and with it [Trace] to [Fatal]: nothing below the logger's
    level. *)
Definition output (logger_level flag level now : Z) (caller : option (bytes * Z))
    (module method msg : bytes) (reqId : Z) (args : list bytes) : res error (option (list bytes)) :=
  if level <? logger_level then Ok None
  else let* l := Output_chunks flag level now caller (output_content module method msg reqId args) in Ok (Some l).

(** The log of the web framework ([Write]), and the functions the program
    calls. *)
Definition Logger_Write (logger_level flag now : Z) (caller : option (bytes * Z)) (p : bytes) : res error (option (list bytes)) :=
  output logger_level flag LevelInfo now caller (bytes_of "web") (bytes_of "api") p 0 [].
Definition Trace (logger_level flag : Z) := output logger_level flag LevelTrace.
Definition Debug (logger_level flag : Z) := output logger_level flag LevelDebug.
Definition Info (logger_level flag : Z) := output logger_level flag LevelInfo.
Definition Warn (logger_level flag : Z) := output logger_level flag LevelWarn.
Definition Error (logger_level flag : Z) := output logger_level flag LevelError.
Definition Fatal (logger_level flag : Z) := output logger_level flag LevelFatal.
End Line.

(** ** What is read in the log *)

(** A text without the bars, and without the equal signs if they are
    filtered. *)
Definition keeps (filterEqual : bool) (b : Z) : bool :=
  negb (b =? byte "|") && negb (filterEqual && (b =? byte "=")).
Definition shown (filterEqual : bool) (s : bytes) : bytes :=
  List.filter (keeps filterEqual) s.

Lemma skip_flags_length f : (length (skip_flags f) <= length f)%nat.
Proof. induction f as [|b f IH]; [done|]. cbn. destruct (is_flag b); cbn; lia. Qed.

Lemma parsenum_length num isnum f n i f' : parsenum num isnum f = (n, i, f') -> (length f' <= length f)%nat.
Proof.
  revert num isnum; induction f as [|b f IH]; intros num isnum; cbn; [intros [= <- <- <-]; done|].
  destruct ((48 <=? b) && (b <=? 57)); [|intros [= <- <- <-]; done].
  destruct (1000000 <? num); [intros [= <- <- <-]; cbn; lia|]. intros ?%IH. lia.
Qed.

Lemma to_bracket_length f n r : to_bracket f = Some (n, r) -> (length r < length f)%nat.
Proof.
  revert n r; induction f as [|b f IH]; intros n r; [done|]. cbn.
  destruct (b =? byte "]"); [intros [= <- <-]; lia|].
  destruct (to_bracket f) as [[n' r']|]; [|done]. intros [= <- <-]. specialize (IH _ _ eq_refl). lia.
Qed.

Lemma argNumber_length good f f' after good' :
  argNumber good f = (f', after, good') -> (length f' <= length f)%nat.
Proof.
  destruct f as [|b f]; cbn -[to_bracket blen]; [intros [= <- <- <-]; done|].
  destruct (b =? byte "["); [|intros [= <- <- <-]; done].
  destruct (blen (b :: f) <? 3); [intros [= <- <- <-]; lia|].
  destruct (to_bracket f) as [[n r]|] eqn:Hb; [|intros [= <- <- <-]; lia].
  destruct (parsenum 0 false n) as [[? isnum] left_]. intros [= <- <- <-]. apply to_bracket_length in Hb. lia.
Qed.

Lemma star_length f f' : star f = Some f' -> (length f' < length f)%nat.
Proof. destruct f as [|b f]; cbn; [done|]. destruct (b =? byte "*"); [|done]. intros [= <-]. lia. Qed.

Lemma width_length after good f w after' good' f' :
  width after good f = (w, after', good', f') -> (length f' <= length f)%nat.
Proof.
  unfold width. destruct (star f) as [r|] eqn:Hs; [intros [= <- <- <- <-]; apply star_length in Hs; lia|].
  destruct (parsenum 0 false f) as [[n i] r] eqn:Hp. intros [= <- <- <- <-]. by apply parsenum_length in Hp.
Qed.

Lemma precision_length after good f w after' good' f' :
  precision after good f = (w, after', good', f') -> (length f' <= length f)%nat.
Proof.
  unfold precision. destruct f as [|b f]; [intros [= <- <- <- <-]; done|].
  destruct (b =? byte "."); [|intros [= <- <- <- <-]; done].
  destruct (argNumber _ f) as [[f1 a1] g1] eqn:Ha. apply argNumber_length in Ha. cbn.
  destruct (star f1) as [r|] eqn:Hs; [intros [= <- <- <- <-]; apply star_length in Hs; lia|].
  destruct (parsenum 0 false f1) as [[n i] r] eqn:Hp. intros [= <- <- <- <-]. apply parsenum_length in Hp. lia.
Qed.

Lemma verb_text_length f : (length (verb_text f).2 <= length f)%nat.
Proof.
  destruct f as [|b f]; [done|]. unfold verb_text. destruct (b <? 0x80); [cbn; lia|].
  destruct (DecodeRune (b :: f)) as [r w]. cbn [snd]. rewrite length_drop. lia.
Qed.

Lemma directive_length f s f' : directive f = (s, Some f') -> (length f' <= length f)%nat.
Proof.
  unfold directive. pose proof (skip_flags_length f) as H0.
  destruct (argNumber true (skip_flags f)) as [[f1 a1] g1] eqn:H1. apply argNumber_length in H1.
  destruct (width a1 g1 f1) as [[[w a2] g2] f2] eqn:H2. apply width_length in H2.
  destruct (precision a2 g2 f2) as [[[p a3] g3] f3] eqn:H3. apply precision_length in H3.
  assert (exists f4 a4 g4, (if a3 then (f3, a3, g3) else argNumber g3 f3) = (f4, a4, g4) /\
            (length f4 <= length f3)%nat) as (f4 & a4 & g4 & -> & H4).
  { destruct a3; [by eauto|]. destruct (argNumber g3 f3) as [[f4 a4] g4] eqn:H4. apply argNumber_length in H4. eauto 6. }
  destruct f4 as [|b f4]; [done|]. pose proof (verb_text_length (b :: f4)) as H5.
  destruct (verb_text (b :: f4)) as [verb f5]. intros [= <- <-]. cbn in *. lia.
Qed.

(** The fuel is enough: more of it changes nothing. *)
Lemma Sprintf0_fuel_eq n m f : (length f <= n)%nat -> (length f <= m)%nat -> Sprintf0_fuel n f = Sprintf0_fuel m f.
Proof.
  revert m f; induction n as [|n IH]; intros m [|b f] Hn Hm; cbn [length] in *; try lia; [by destruct m..|].
  destruct m as [|m]; [lia|]. cbn [Sprintf0_fuel]. destruct (b =? byte "%").
  - destruct (directive f) as [s [f'|]] eqn:Hd; [|done]. apply directive_length in Hd.
    f_equal. apply IH; lia.
  - f_equal. apply IH; lia.
Qed.

Lemma Sprintf0_cons b f : b <> 37 -> Sprintf0 (b :: f) = b :: Sprintf0 f.
Proof.
  intros Hb. unfold Sprintf0. cbn [length Sprintf0_fuel].
  change (byte "%") with 37. by rewrite (proj2 (Z.eqb_neq _ _) Hb).
Qed.

Lemma Sprintf0_percent f : Sprintf0 (37 :: 37 :: f) = 37 :: Sprintf0 f.
Proof.
  change (Sprintf0 (37 :: 37 :: f)) with (37 :: Sprintf0_fuel (S (length f)) f).
  f_equal. apply Sprintf0_fuel_eq; lia.
Qed.

Lemma Sprintf0_app a f : 37 ∉ a -> Sprintf0 (a ++ f) = a ++ Sprintf0 f.
Proof.
  induction a as [|b a IH]; [done|]. intros [Hb Ha]%not_elem_of_cons. cbn [app].
  rewrite Sprintf0_cons by done. by rewrite IH.
Qed.

Lemma Sprintf0_escape s filterEqual f : Sprintf0 (escape s filterEqual ++ f) = shown filterEqual s ++ Sprintf0 f.
Proof.
  induction s as [|b s IH]; [done|]. cbn [escape]. rewrite <- app_assoc. unfold escape_byte.
  change (shown filterEqual (b :: s)) with (if keeps filterEqual b then b :: shown filterEqual s else shown filterEqual s).
  unfold keeps.
  destruct (Z.eqb_spec b (byte "|")) as [->|_]; [exact IH|]. cbn [negb andb].
  destruct (Z.eqb_spec b (byte "%")) as [->|Hb].
  { change (byte "%" =? byte "=") with false. rewrite andb_false_r. cbn [negb app].
    change ([37; 37] ++ escape s filterEqual ++ f) with (37 :: 37 :: escape s filterEqual ++ f).
    rewrite Sprintf0_percent. by rewrite IH. }
  destruct (Z.eqb_spec b (byte "=")) as [->|_].
  - destruct filterEqual; cbn [negb andb app]; [done|]. rewrite Sprintf0_cons by done. by rewrite IH.
  - rewrite andb_false_r. cbn [negb app]. rewrite Sprintf0_cons by done. by rewrite IH.
Qed.

Lemma Sprintf0_plain f : 37 ∉ f -> Sprintf0 f = f.
Proof. intros Hf. rewrite <- (app_nil_r f), Sprintf0_app by done. by rewrite !app_nil_r. Qed.

Ltac no_percent := vm_compute; repeat (apply not_elem_of_cons; split; [discriminate|]); apply not_elem_of_nil.

Lemma Sprintf0_bar l f :
  Sprintf0 (bar ((fun s => escape s false) <$> l) ++ f) = bar (shown false <$> l) ++ Sprintf0 f.
Proof.
  induction l as [|s [|s' l] IH]; [done | apply Sprintf0_escape|].
  change (bar ((fun s => escape s false) <$> s :: s' :: l))
    with (escape s false ++ bytes_of "|" ++ bar ((fun s => escape s false) <$> s' :: l)).
  change (bar (shown false <$> s :: s' :: l)) with (shown false s ++ bytes_of "|" ++ bar (shown false <$> s' :: l)).
  rewrite <- !app_assoc, Sprintf0_escape, (Sprintf0_app (bytes_of "|")) by no_percent.
  by rewrite IH.
Qed.

(** What is read of a call of the logger: the module, the method and the
    message as they are, unless they have a percent sign; the arguments with
    their bars taken out, whatever they hold. *)
Lemma output_content_shown module method msg reqId args :
  37 ∉ module -> 37 ∉ method -> 37 ∉ msg -> 0 <= reqId ->
  Sprintf0 (output_content module method msg reqId args) =
  content module method msg (bar (shown false <$> pairs args)) reqId.
Proof.
  intros H1 H2 H3 Hr. unfold output_content, content, quoted.
  assert (37 ∉ bytes_of (FormatUint reqId)) as H4 
    by (intros Hin; apply FormatUint_bytes in Hr; rewrite Forall_forall in Hr; specialize (Hr _ Hin);
        unfold digit_byte in Hr; lia).
  rewrite <- !app_assoc.
  repeat (rewrite Sprintf0_app; [f_equal | first [done | no_percent]]).
  rewrite Sprintf0_bar. f_equal.
  rewrite Sprintf0_plain; [done|]. rewrite !not_elem_of_app. split_and!; [no_percent..|done].
Qed.

(** The number at the end makes the text end in a digit. *)
Lemma newline_content module method msg args reqId :
  0 <= reqId ->
  newline (content module method msg args reqId) = Ok [content module method msg args reqId; [10]].
Proof.
  intros Hr. unfold newline.
  assert (exists b, last (content module method msg args reqId) = Some b /\ digit_byte b) as (b & -> & Hb).
  { unfold content. rewrite !app_assoc.
    assert (bytes_of (FormatUint reqId) <> []) as Hne.
    { pose proof (FormatUint_neq reqId). by destruct (FormatUint reqId). }
    destruct (last (bytes_of (FormatUint reqId))) as [b|] eqn:Hl; [|by apply last_None in Hl].
    exists b. split; [by rewrite last_app, Hl|].
    apply FormatUint_bytes in Hr. rewrite Forall_forall in Hr. apply Hr. by apply last_Some_elem_of in Hl. }
  destruct (Z.eqb_spec b 10) as [->|]; [unfold digit_byte in Hb; lia | done].
Qed.

(** C37: a line of the log is what was logged.  For a module, a method and a
    message without percent signs and a number that is not negative: a call
    of [Trace] to [Fatal] below the logger's level writes nothing; any other
    writes time, level and place as the flags ask for them, and the module,
    method, message and number as they are, with the arguments in pairs,
    whatever characters the arguments hold: only their bars are missing. *)
Theorem output_line `{Timezone} logger_level flag level now caller module method msg reqId args :
  0 <= level <= LevelFatal -> 0 <= reqId -> 37 ∉ module -> 37 ∉ method -> 37 ∉ msg ->
  exists name, LevelName !! Z.to_nat level = Some name /\
    output logger_level flag level now caller module method msg reqId args =
    Ok (if level <? logger_level then None
        else Some (time_chunks flag now ++ (if has flag Llevel then [bytes_of name; bytes_of " - "] else []) ++
                   place_chunks flag caller ++
                   [content module method msg (bar (shown false <$> pairs args)) reqId; [10]])).
Proof.
  intros Hl Hr H1 H2 H3. unfold LevelFatal in Hl.
  destruct (lookup_lt_is_Some_2 LevelName (Z.to_nat level)) as [name Hn]; [cbn; lia|].
  exists name. split; [done|]. unfold output. destruct (level <? logger_level); [done|].
  unfold Output_chunks. rewrite output_content_shown, newline_content by done.
  assert (@at_ error _ LevelName level = Ok name) as -> by (apply at_Ok; by split; [lia|]).
  by destruct (has flag Llevel).
Qed.

Lemma output_line_witness :
  exists name, LevelName !! Z.to_nat LevelError = Some name /\
    @output UTC LevelError 7 LevelError 1457687045 (Some (bytes_of "/go/src/server.go", 12))
      (bytes_of "server") (bytes_of "Run") (bytes_of "lost") 7 [bytes_of "100%s"; bytes_of "a|b"; bytes_of "c"] =
    Ok (if LevelError <? LevelError then None
        else Some (@time_chunks UTC 7 1457687045 ++
                   (if has 7 Llevel then [bytes_of name; bytes_of " - "] else []) ++
                   place_chunks 7 (Some (bytes_of "/go/src/server.go", 12)) ++
                   [content (bytes_of "server") (bytes_of "Run") (bytes_of "lost")
                      (bar (shown false <$> pairs [bytes_of "100%s"; bytes_of "a|b"; bytes_of "c"])) 7; [10]])).
Proof. apply (@output_line UTC); [vm_compute; split; discriminate | done | no_percent..]. Defined.

Fixpoint text (l : bytes) : string := match l with [] => "" | b :: l => String (char_of b) (text l) end.
Definition logged `{Timezone} (msg : string) (args : list string) : res error string :=
  let* l := output LevelInfo 7 LevelError 1457687045 (Some (bytes_of "/go/src/server.go", 12))
              (bytes_of "server") (bytes_of "Run") (bytes_of msg) 7 (bytes_of <$> args) in
  Ok (match l with Some l => text (removelast (concat l)) | None => "" end).

Example logged_line :
  @logged UTC "lost" ["rate"; "100%s"; "a|b"] =
  Ok (text (bytes_of "2016/03/11 09:04:05 - ERROR - server.go:[12] - [server] " ++ quoted (bytes_of "Run") ++ [32] ++
            quoted (bytes_of "lost") ++ [32] ++ quoted (bytes_of "rate=100%s|ab") ++ bytes_of " conn_id=7")).
Proof. vm_compute. reflexivity. Qed.

(** A percent sign in the message is taken for a verb. *)
Example percent_in_message :
  @logged UTC "100% done" [] =
  Ok (text (bytes_of "2016/03/11 09:04:05 - ERROR - server.go:[12] - [server] " ++ quoted (bytes_of "Run") ++ [32] ++
            quoted (bytes_of "100%!d(MISSING)one") ++ [32] ++ quoted [] ++ bytes_of " conn_id=7")).
Proof. vm_compute. reflexivity. Qed.

(** [Output] of an empty text panics, and of a level without a name. *)
Example empty_text_panics : @Output_chunks UTC 0 LevelInfo 0 None [] = Panic (PRuntime "index out of range").
Proof. reflexivity. Qed.
