(* ===== verification/LogFile.v ===== *)
(** * Log files ([core/golog/handler.go], [filehandler.go])

    Handlers write the lines of the logger somewhere.  The files of the
    operating system are names for the contents they lead to; an open file
    stays with its contents when its name goes elsewhere.  Every operation
    may fail: [fault n] says how the [n]-th one does, and how much a failing
    write has written before.  Their errors are texts. *)
From S2P Require Import Prelude Errors GoLib Wire GoTime LogText.
Open Scope Z_scope.

(** ** Files *)
Record FS := mkFS { names : gmap string nat; inodes : gmap nat bytes; inode_count : nat; operations : nat }.
Inductive File : Type := NilFile | ClosedFile (name : string) | OpenFile_ (name : string) (inode : nat).

(** What an inode holds, and what a name leads to. *)
Definition contents (fs : FS) (i : nat) : bytes := match inodes fs !! i with Some b => b | None => [] end.
Definition file_at (fs : FS) (name : string) : option bytes := names fs !! name ≫= fun i => inodes fs !! i.

Section Handlers.
Context (fault : nat -> option (nat * string)).

(** Counts the operation and looks up its fault. *)
Definition attempt (fs : FS) : option (nat * string) * FS :=
  (fault (operations fs), mkFS (names fs) (inodes fs) (inode_count fs) (S (operations fs))).

(** [os.OpenFile(name, O_CREATE|O_WRONLY|O_APPEND, 0666)] *)
Definition OpenFile (name : string) (fs : FS) : option string * File * FS :=
  let '(f, fs) := attempt fs in
  match f with
  | Some (_, e) => (Some e, NilFile, fs)
  | None =>
      match names fs !! name with
      | Some i => (None, OpenFile_ name i, fs)
      | None => let i := inode_count fs in
                (None, OpenFile_ name i,
                 mkFS (<[name := i]> (names fs)) (<[i := []]> (inodes fs)) (S i) (operations fs))
      end
  end.

(** [os.Rename]; its error is never looked at, except to panic. *)
Definition Rename (old new : string) (fs : FS) : option string * FS :=
  let '(f, fs) := attempt fs in
  match f with
  | Some (_, e) => (Some e, fs)
  | None =>
      match names fs !! old with
      | Some i => (None, mkFS (<[new := i]> (delete old (names fs))) (inodes fs) (inode_count fs) (operations fs))
      | None => (Some ("rename " +:+ old +:+ " " +:+ new +:+ ": no such file or directory"), fs)
      end
  end.

(** The size that [Stat] tells; [None] is an error. *)
Definition Stat_Size (fd : File) (fs : FS) : option Z * FS :=
  match fd with
  | OpenFile_ _ i =>
      let '(f, fs) := attempt fs in
      (match f with Some _ => None | None => Some (blen (contents fs i)) end, fs)
  | _ => (None, fs)
  end.

Definition File_Write (fd : File) (p : bytes) (fs : FS) : Z * option string * FS :=
  match fd with
  | NilFile => (0, Some "invalid argument", fs)
  | ClosedFile name => (0, Some ("write " +:+ name +:+ ": file already closed"), fs)
  | OpenFile_ _ i =>
      let '(f, fs) := attempt fs in
      let wrote := match f with Some (n, _) => take n p | None => p end in
      (blen wrote, match f with Some (_, e) => Some e | None => None end,
       mkFS (names fs) (<[i := contents fs i ++ wrote]> (inodes fs)) (inode_count fs) (operations fs))
  end.

Definition File_Close (fd : File) : option string * File :=
  match fd with
  | NilFile => (Some "invalid argument", NilFile)
  | ClosedFile name => (Some ("close " +:+ name +:+ ": file already closed"), fd)
  | OpenFile_ name _ => (None, ClosedFile name)
  end.

(** ** [FileHandler], [NullHandler] *)
Definition FileHandler_Write (fd : File) (b : bytes) (fs : FS) : Z * option string * FS := File_Write fd b fs.
Definition NullHandler_Write (b : bytes) : Z * option string := (blen b, None).

(** ** [RotatingFileHandler] *)
Record RotatingFileHandler := mkRotating { fd : File; fileName : string; maxBytes : Z; backupCount : Z }.
Definition set_fd (f : File) (h : RotatingFileHandler) : RotatingFileHandler :=
  mkRotating f (fileName h) (maxBytes h) (backupCount h).

Definition NewRotatingFileHandler (fileName : string) (maxBytes backupCount : Z) (fs : FS)
  : res error RotatingFileHandler * FS :=
  if maxBytes <=? 0 then (Err (Errorf "invalid max bytes"), fs)
  else
    let '(e, f, fs) := OpenFile fileName fs in
    match e with
    | Some e => (Err (Errorf e), fs)
    | None => (Ok (mkRotating f fileName maxBytes backupCount), fs)
    end.

Definition backup (name : string) (i : Z) : string := name +:+ "." +:+ FormatInt i.

(** The loop over [i], from [n] down to one. *)
Fixpoint rename_backups (name : string) (n : nat) (fs : FS) : FS :=
  match n with
  | O => fs
  | S m =>
      let i := Z.of_nat n in
      let '(_, fs) := Rename (backup name i) (backup name (i + 1)) fs in
      rename_backups name m fs
  end.

Definition doRollover (h : RotatingFileHandler) (fs : FS) : RotatingFileHandler * FS :=
  let '(size, fs) := Stat_Size (fd h) fs in
  match size with
  | None => (h, fs)
  | Some size =>
      if maxBytes h <=? 0 then (h, fs)
      else if size <? maxBytes h then (h, fs)
      else if 0 <? backupCount h then
        let '(_, _) := File_Close (fd h) in
        let fs := rename_backups (fileName h) (Z.to_nat (backupCount h - 1)) fs in
        let '(_, fs) := Rename (fileName h) (backup (fileName h) 1) fs in
        let '(_, f, fs) := OpenFile (fileName h) fs in
        (set_fd f h, fs)
      else (h, fs)
  end.

Definition Rotating_Write (h : RotatingFileHandler) (p : bytes) (fs : FS)
  : Z * option string * (RotatingFileHandler * FS) :=
  let '(h, fs) := doRollover h fs in
  let '(n, e, fs) := File_Write (fd h) p fs in
  (n, e, (h, fs)).

Definition Rotating_Close (h : RotatingFileHandler) : option string * RotatingFileHandler :=
  match fd h with
  | NilFile => (None, h)
  | _ => let '(e, f) := File_Close (fd h) in (e, set_fd f h)
  end.

(** ** [TimeRotatingFileHandler] *)
Definition WhenSecond : Z := 0.
Definition WhenMinute : Z := 1.
Definition WhenHour : Z := 2.
Definition WhenDay : Z := 3.

Inductive suffix : Type := Second | Minute | Hour | Day.
Record TimeRotatingFileHandler := mkTimeRotating {
  time_fd : File; baseName : string; interval : Z; the_suffix : suffix; rolloverAt : Z }.

Definition suffix_text `{Timezone} (s : suffix) (now : Z) : string :=
  let day := Format_dashed (unix_civil now) in
  let '(hh, mm, ss) := clock now in
  match s with
  | Day => day
  | Hour => day +:+ "_" +:+ appendInt hh 2
  | Minute => day +:+ "_" +:+ appendInt hh 2 +:+ "-" +:+ appendInt mm 2
  | Second => day +:+ "_" +:+ appendInt hh 2 +:+ "-" +:+ appendInt mm 2 +:+ "-" +:+ appendInt ss 2
  end.

(** [modified] is the time the file was changed last, in seconds. *)
Definition NewTimeRotatingFileHandler (name : string) (when_ every modified : Z) (fs : FS)
  : res error TimeRotatingFileHandler * FS :=
  let unit := if when_ =? WhenSecond then Some (1, Second)
              else if when_ =? WhenMinute then Some (60, Minute)
              else if when_ =? WhenHour then Some (3600, Hour)
              else if when_ =? WhenDay then Some (3600 * 24, Day)
              else None in
  match unit with
  | None => (Err (Errorf ("invalid when_rotate: " +:+ FormatInt when_)), fs)
  | Some (seconds, s) =>
      let interval := i64 (seconds * every) in
      let '(e, f, fs) := OpenFile name fs in
      match e with
      | Some e => (Err (Errorf e), fs)
      | None => (Ok (mkTimeRotating f name interval s (i64 (modified + interval))), fs)
      end
  end.

(** A name that cannot be changed is a panic. *)
Definition time_doRollover `{Timezone} (now later : Z) (h : TimeRotatingFileHandler) (fs : FS)
  : res error TimeRotatingFileHandler * FS :=
  if rolloverAt h <=? now then
    let '(_, _) := File_Close (time_fd h) in
    let '(e, fs) := Rename (baseName h) (baseName h +:+ suffix_text (the_suffix h) now) fs in
    match e with
    | Some e => (Panic (PString e), fs)
    | None =>
        let '(_, f, fs) := OpenFile (baseName h) fs in
        (Ok (mkTimeRotating f (baseName h) (interval h) (the_suffix h) (i64 (later + interval h))), fs)
    end
  else (Ok h, fs).

Definition TimeRotating_Write `{Timezone} (now later : Z) (h : TimeRotatingFileHandler) (p : bytes) (fs : FS)
  : res error (Z * option string * TimeRotatingFileHandler) * FS :=
  let '(r, fs) := time_doRollover now later h fs in
  match r with
  | Ok h => let '(n, e, fs) := File_Write (time_fd h) p fs in (Ok (n, e, h), fs)
  | Err e => (Err e, fs)
  | Panic v => (Panic v, fs)
  end.
End Handlers.
