(* ===== verification/Logger.v ===== *)
(** * The logger ([core/golog/log.go])

    Goroutines that log put a line together in a buffer of their own and
    send it through a channel to one goroutine, which hands it to the
    handler and returns the buffer to a pool.  Everything interleaves: an
    operation is a sequence of atomic steps, one for each access to the
    pool, which a mutex guards, to the channels and to the fields that
    [Close] reads and writes, and one for each chunk that is appended.

    Buffers are slices: an array in the store, a length and a capacity.
    Appending writes into the array while there is room in it and moves to
    a new one otherwise, of a capacity that the runtime chooses. *)
From S2P Require Import Prelude Errors GoLib Wire LogText LogFile.
Open Scope nat_scope.

(** What a logger asks of a handler ([golog.Handler]); nobody looks at the
    answers. *)
Class Handler (H : Type) := { Handler_Write : bytes -> H -> H; Handler_Close : H -> H }.

#[export] Instance NullHandler : Handler unit := {| Handler_Write _ h := h; Handler_Close h := h |}.
(** A writer that keeps what it is given ([StreamHandler]). *)
#[export] Instance StreamHandler : Handler (list bytes) := {| Handler_Write b h := h ++ [b]; Handler_Close h := h |}.
#[export] Instance RotatingHandler (fault : nat -> option (nat * string)) : Handler (RotatingFileHandler * FS) :=
  {| Handler_Write b h := (Rotating_Write fault (fst h) b (snd h)).2;
     Handler_Close h := ((Rotating_Close (fst h)).2, snd h) |}.

(** ** Buffers *)
Record slice := mkSlice { addr : nat; len : nat; cap : nat }.

Definition array (heap : gmap nat bytes) (a : nat) : bytes := match heap !! a with Some b => b | None => [] end.
Definition chars (heap : gmap nat bytes) (s : slice) : bytes := take (len s) (array heap (addr s)).

Definition msg_cap : nat := 1024.
Definition maxBufPoolSize : nat := 16.
Definition buf_cap : nat := 1024.

(** ** The goroutines *)

(** A goroutine that logs: the calls it has still to make, each the chunks
    of its line; the buffer of the line it works on, the chunks of that line
    and those it has still to append. *)
Inductive producer : Type :=
| Idle (calls : list (list bytes))
| Filling (s : slice) (call todo : list bytes) (calls : list (list bytes)).

(** [run] *)
Inductive runner_state : Type := Select | Writing (m : slice) | Putting (m : slice) | Checking | Stopped.

(** A goroutine that calls [Close]: before it reads [closed], sets it,
    closes [quit], while it waits, before it clears [quit] and closes the
    handler, and when it is back. *)
Inductive closer : Type := CRead | CSet | CQuit | CWait | CClear | CHandler | CReturned.

Inductive quit_chan : Type := QOpen | QClosed | QNil.

Section Logger.
Context {K : Type} `{!Handler K}.

(** [sent] and [written] are for the theorems: the lines that entered the
    channel with their goroutines, and those the handler was given. *)
Record Logger := mkLogger {
  heap : gmap nat bytes; arrays : nat;
  bufs : list slice;     (* the last one first *)
  msg : list slice; runner : runner_state; producers : list producer; closers : list closer;
  closed : bool; quit : quit_chan; handler : K; handler_closed : bool; panicked : bool;
  sent : list (nat * bytes); written : list bytes }.

Definition New (h : K) (programs : list (list (list bytes))) (n : nat) : Logger :=
  mkLogger ∅ 0 [] [] Select (Idle <$> programs) (replicate n CRead) false QOpen h false false [] [].

(** Somebody's turn: a goroutine that logs, with the capacity of the array
    should it need a new one; [run], with the case that [select] takes if
    both are ready; a goroutine in [Close]. *)
Inductive event : Type := EProducer (i : nat) (room : nat) | ERunner (message : bool) | ECloser (i : nat).

Definition set_producer (i : nat) (p : producer) (hp : gmap nat bytes) (n : nat) (bs : list slice) (l : Logger) : Logger :=
  mkLogger hp n bs (msg l) (runner l) (<[i := p]> (producers l)) (closers l) (closed l) (quit l)
    (handler l) (handler_closed l) (panicked l) (sent l) (written l).

(** [popBuf] *)
Definition popBuf (l : Logger) : slice * list slice * gmap nat bytes * nat :=
  match bufs l with
  | s :: bs => (s, bs, heap l, arrays l)
  | [] => (mkSlice (arrays l) 0 buf_cap, [], <[arrays l := []]> (heap l), S (arrays l))
  end.

(** [append] *)
Definition append (room : nat) (s : slice) (c : bytes) (hp : gmap nat bytes) (n : nat) : slice * gmap nat bytes * nat :=
  let old := array hp (addr s) in
  let newlen := len s + length c in
  if newlen <=? cap s
  then (mkSlice (addr s) newlen (cap s), <[addr s := take (len s) old ++ c ++ drop newlen old]> hp, n)
  else (mkSlice n newlen (Nat.max room newlen), <[n := take (len s) old ++ c]> hp, S n).

(** [Output], after the level was found high enough *)
Definition producer_step (i room : nat) (l : Logger) : option Logger :=
  match producers l !! i with
  | Some (Idle (call :: calls)) =>
      let '(s, bs, hp, n) := popBuf l in Some (set_producer i (Filling s call call calls) hp n bs l)
  | Some (Filling s call (c :: todo) calls) =>
      let '(s, hp, n) := append room s c (heap l) (arrays l) in
      Some (set_producer i (Filling s call todo calls) hp n (bufs l) l)
  | Some (Filling s call [] calls) =>
      if length (msg l) <? msg_cap
      then Some (mkLogger (heap l) (arrays l) (bufs l) (msg l ++ [s]) (runner l) (<[i := Idle calls]> (producers l))
                   (closers l) (closed l) (quit l) (handler l) (handler_closed l) (panicked l)
                   (sent l ++ [(i, chars (heap l) s)]) (written l))
      else None
  | _ => None
  end.

Definition set_runner (r : runner_state) (ms : list slice) (l : Logger) : Logger :=
  mkLogger (heap l) (arrays l) (bufs l) ms r (producers l) (closers l) (closed l) (quit l)
    (handler l) (handler_closed l) (panicked l) (sent l) (written l).

(** [putBuf] *)
Definition putBuf (m : slice) (bs : list slice) : list slice :=
  if length bs <? maxBufPoolSize then mkSlice (addr m) 0 (cap m) :: bs else bs.

Definition runner_step (message : bool) (l : Logger) : option Logger :=
  match runner l with
  | Select =>
      if message
      then match msg l with m :: ms => Some (set_runner (Writing m) ms l) | [] => None end
      else match quit l with QClosed => Some (set_runner Checking (msg l) l) | _ => None end
  | Checking => Some (set_runner (if bool_decide (length (msg l) = 0) then Stopped else Select) (msg l) l)
  | Writing m =>
      Some (mkLogger (heap l) (arrays l) (bufs l) (msg l) (Putting m) (producers l) (closers l) (closed l) (quit l)
              (Handler_Write (chars (heap l) m) (handler l)) (handler_closed l) (panicked l) (sent l)
              (written l ++ [chars (heap l) m]))
  | Putting m =>
      Some (mkLogger (heap l) (arrays l) (putBuf m (bufs l)) (msg l) Select (producers l) (closers l) (closed l)
              (quit l) (handler l) (handler_closed l) (panicked l) (sent l) (written l))
  | Stopped => None
  end.

Definition set_closing (i : nat) (c : closer) (cl : bool) (q : quit_chan) (h : K) (hc : bool) (p : bool) (l : Logger) : Logger :=
  mkLogger (heap l) (arrays l) (bufs l) (msg l) (runner l) (producers l) (<[i := c]> (closers l)) cl q h hc p
    (sent l) (written l).

Definition closer_step (i : nat) (l : Logger) : option Logger :=
  let go (c : closer) := set_closing i c (closed l) (quit l) (handler l) (handler_closed l) (panicked l) l in
  match closers l !! i with
  | Some CRead => Some (go (if closed l then CReturned else CSet))
  | Some CSet => Some (set_closing i CQuit true (quit l) (handler l) (handler_closed l) (panicked l) l)
  | Some CQuit =>
      Some (match quit l with
            | QOpen => set_closing i CWait (closed l) QClosed (handler l) (handler_closed l) (panicked l) l
            | _ => set_closing i CQuit (closed l) (quit l) (handler l) (handler_closed l) true l
            end)
  | Some CWait => match runner l with Stopped => Some (go CClear) | _ => None end
  | Some CClear => Some (set_closing i CHandler (closed l) QNil (handler l) (handler_closed l) (panicked l) l)
  | Some CHandler => Some (set_closing i CReturned (closed l) (quit l) (Handler_Close (handler l)) true (panicked l) l)
  | Some CReturned | None => None
  end.

(** A panic ends the program. *)
Definition step (e : event) (l : Logger) : option Logger :=
  if panicked l then None
  else match e with
       | EProducer i room => producer_step i room l
       | ERunner message => runner_step message l
       | ECloser i => closer_step i l
       end.

Fixpoint steps (es : list event) (l : Logger) : option Logger :=
  match es with [] => Some l | e :: es => match step e l with Some l => steps es l | None => None end end.

Lemma steps_app es es' l : steps (es ++ es') l = match steps es l with Some l => steps es' l | None => None end.
Proof. revert l; induction es as [|e es IH]; intros l; [done|]. cbn. by destruct (step e l). Qed.

(** An invariant of the steps is one of the runs. *)
Lemma steps_inv (P : Logger -> Prop) :
  (forall e l l', P l -> step e l = Some l' -> P l') ->
  forall es l l', P l -> steps es l = Some l' -> P l'.
Proof.
  intros Hstep es; induction es as [|e es IH]; intros l l' Hl; cbn; [by intros [= <-]|].
  destruct (step e l) as [l1|] eqn:He; [|done]. eauto.
Qed.

(** ** Buffers have one owner *)
Definition in_hand (r : runner_state) : list slice :=
  match r with Writing m => [m] | Putting m => [m] | _ => [] end.
Definition to_write (r : runner_state) : list slice := match r with Writing m => [m] | _ => [] end.
Definition filled (p : producer) : list slice := match p with Idle _ => [] | Filling s _ _ _ => [s] end.

Definition owned (l : Logger) : list nat :=
  addr <$> bufs l ++ in_hand (runner l) ++ msg l ++ (producers l ≫= filled).

(** The buffer of a goroutine holds what it has appended of its line. *)
Definition filling_ok (hp : gmap nat bytes) (p : producer) : Prop :=
  match p with
  | Idle _ => True
  | Filling s call todo _ => len s <= length (array hp (addr s)) /\ chars hp s ++ concat todo = concat call
  end.

Record buffers_ok (l : Logger) : Prop := {
  owned_once : NoDup (owned l);
  owned_old : Forall (fun a => a < arrays l) (owned l);
  bufs_empty : Forall (fun s => len s = 0) (bufs l);
  filling_all : Forall (filling_ok (heap l)) (producers l);
  lines_sent : (sent l).*2 = written l ++ (chars (heap l) <$> to_write (runner l) ++ msg l) }.

Lemma array_insert_ne hp a b c : a <> b -> array (<[a := c]> hp) b = array hp b.
Proof. intros Hab. unfold array. by rewrite lookup_insert_ne. Qed.
Lemma array_insert_eq hp a c : array (<[a := c]> hp) a = c.
Proof. unfold array. by rewrite lookup_insert_eq. Qed.

Lemma chars_insert_ne hp a c s : a <> addr s -> chars (<[a := c]> hp) s = chars hp s.
Proof. intros Ha. unfold chars. by rewrite array_insert_ne. Qed.

(** An array that nobody of [ss] owns may change. *)
Lemma chars_insert_all hp a c (ss : list slice) :
  a ∉ addr <$> ss -> (chars (<[a := c]> hp) <$> ss) = (chars hp <$> ss).
Proof.
  intros Ha. apply list_fmap_ext. intros i s Hs. apply chars_insert_ne. intros ->.
  apply Ha, list_elem_of_fmap. exists s. split; [done|]. by apply list_elem_of_lookup_2 in Hs.
Qed.

Lemma filling_ok_insert hp a c p : a ∉ addr <$> filled p -> filling_ok hp p -> filling_ok (<[a := c]> hp) p.
Proof.
  destruct p as [|s call todo calls]; [done|]. cbn. intros [Ha _]%not_elem_of_cons [H1 H2].
  by rewrite chars_insert_ne, array_insert_ne.
Qed.

(** The goroutines other than [i]. *)
Definition others (i : nat) (ps : list producer) : list producer := take i ps ++ drop (S i) ps.

Lemma producers_perm (ps : list producer) i p : ps !! i = Some p -> ps ≡ₚ p :: others i ps.
Proof. intros Hi. rewrite <- (take_drop_middle ps i p Hi) at 1. unfold others. solve_Permutation. Qed.
Lemma producers_insert_perm (ps : list producer) i p p' : ps !! i = Some p -> <[i := p']> ps ≡ₚ p' :: others i ps.
Proof.
  intros Hi. rewrite insert_take_drop by by apply lookup_lt_Some in Hi. unfold others. solve_Permutation.
Qed.
Lemma others_ok (P : producer -> Prop) ps i p : ps !! i = Some p -> Forall P ps -> P p /\ Forall P (others i ps).
Proof. intros Hi HP. rewrite (producers_perm ps i p Hi) in HP. by inversion HP. Qed.
Lemma insert_ok (P : producer -> Prop) ps i p p' :
  ps !! i = Some p -> P p' -> Forall P (others i ps) -> Forall P (<[i := p']> ps).
Proof. intros Hi Hp HP. rewrite (producers_insert_perm ps i p p' Hi). by constructor. Qed.

(** The owners of buffers besides goroutine [i]. *)
Definition besides (i : nat) (l : Logger) : list nat :=
  addr <$> bufs l ++ in_hand (runner l) ++ msg l ++ (others i (producers l) ≫= filled).

Lemma owned_perm i p l : producers l !! i = Some p -> owned l ≡ₚ (addr <$> filled p) ++ besides i l.
Proof.
  intros Hi. unfold owned, besides. rewrite (producers_perm _ _ _ Hi) at 1. cbn [mbind list_bind].
  rewrite <- fmap_app. apply fmap_Permutation. solve_Permutation.
Qed.

Lemma others_insert i p ps : others i (<[i := p]> ps) = others i ps.
Proof. unfold others. by rewrite take_insert_ge, drop_insert_lt by lia. Qed.

(** What the others hold stays while the arrays they own stay. *)
Definition held (i : nat) (l : Logger) : list slice :=
  in_hand (runner l) ++ msg l ++ (others i (producers l) ≫= filled).
Definition arrays_stay (hp hp' : gmap nat bytes) (ss : list slice) : Prop :=
  forall s, s ∈ ss -> array hp' (addr s) = array hp (addr s).

Lemma chars_stay hp hp' ss : arrays_stay hp hp' ss -> (chars hp' <$> ss) = (chars hp <$> ss).
Proof.
  intros Hs. apply list_fmap_ext. intros i s Hi. apply list_elem_of_lookup_2 in Hi.
  unfold chars. by rewrite (Hs s Hi).
Qed.

Lemma filling_stay hp hp' p : arrays_stay hp hp' (filled p) -> filling_ok hp p -> filling_ok hp' p.
Proof.
  destruct p as [|s call todo calls]; [done|]. cbn. intros Hs [H1 H2].
  unfold chars in *. rewrite (Hs s) by by apply list_elem_of_here. done.
Qed.

Lemma arrays_stay_app hp hp' a b : arrays_stay hp hp' (a ++ b) <-> arrays_stay hp hp' a /\ arrays_stay hp hp' b.
Proof.
  unfold arrays_stay. setoid_rewrite elem_of_app. split; [intros Hs; split; intros; apply Hs; by auto|].
  intros [Ha Hb] s [Hs|Hs]; by auto.
Qed.

Lemma fillings_stay hp hp' ps :
  arrays_stay hp hp' (ps ≫= filled) -> Forall (filling_ok hp) ps -> Forall (filling_ok hp') ps.
Proof.
  induction ps as [|p ps IH]; cbn [mbind list_bind]; [done|]. intros [Hp Hps]%arrays_stay_app.
  intros [H1 H2]%Forall_cons. constructor; [by apply (filling_stay hp) | by apply IH].
Qed.

Lemma to_write_stay hp hp' i l : arrays_stay hp hp' (held i l) ->
  (chars hp' <$> to_write (runner l) ++ msg l) = (chars hp <$> to_write (runner l) ++ msg l).
Proof.
  unfold held. intros [Hh [Hm _]%arrays_stay_app]%arrays_stay_app. apply chars_stay, arrays_stay_app.
  split; [|done]. destruct (runner l); try exact Hh; intros s Hs; by apply elem_of_nil in Hs.
Qed.

(** A goroutine's step on its own buffer. *)
Lemma set_producer_ok i p p' hp n bs l :
  buffers_ok l -> producers l !! i = Some p -> arrays l <= n ->
  NoDup (addr <$> filled p' ++ bs ++ held i l) ->
  Forall (fun a => a < n) (addr <$> filled p' ++ bs ++ held i l) ->
  Forall (fun s => len s = 0) bs -> filling_ok hp p' -> arrays_stay (heap l) hp (held i l) ->
  buffers_ok (set_producer i p' hp n bs l).
Proof.
  intros Hok Hi Hn Hnd Hold Hempty Hp' Hstay.
  assert (owned (set_producer i p' hp n bs l) ≡ₚ (addr <$> filled p' ++ bs ++ held i l)) as Hperm.
  { unfold owned, set_producer, held. cbn [bufs runner msg producers].
    rewrite (producers_insert_perm _ _ p p' Hi). cbn [mbind list_bind]. apply fmap_Permutation. solve_Permutation. }
  split; cbn [set_producer heap arrays bufs msg runner producers sent written].
  - by rewrite Hperm.
  - by rewrite Hperm.
  - done.
  - destruct (others_ok _ _ _ _ Hi (filling_all l Hok)) as [_ Hothers].
    apply (insert_ok _ _ _ p); [done..|]. apply (fillings_stay (heap l)); [|done].
    unfold held in Hstay. by apply arrays_stay_app in Hstay as [_ [_ ?]%arrays_stay_app].
  - rewrite (to_write_stay (heap l) hp i l Hstay). apply (lines_sent l Hok).
Qed.

Lemma owned_split i p l :
  producers l !! i = Some p -> owned l ≡ₚ (addr <$> filled p ++ bufs l ++ held i l).
Proof.
  intros Hi. unfold owned, held. rewrite (producers_perm _ _ _ Hi) at 1. cbn [mbind list_bind].
  apply fmap_Permutation. solve_Permutation.
Qed.

Lemma arrays_stay_insert hp a c ss : a ∉ addr <$> ss -> arrays_stay hp (<[a := c]> hp) ss.
Proof.
  intros Ha s Hs. apply array_insert_ne. intros ->. apply Ha, list_elem_of_fmap. by exists s.
Qed.

Lemma pop_ok i call calls l :
  buffers_ok l -> producers l !! i = Some (Idle (call :: calls)) ->
  let '(s, bs, hp, n) := popBuf l in buffers_ok (set_producer i (Filling s call call calls) hp n bs l).
Proof.
  intros Hok Hi. pose proof (owned_split i _ l Hi) as Hperm. cbn [filled app] in Hperm.
  pose proof (owned_once l Hok) as Hnd. pose proof (owned_old l Hok) as Hold. rewrite Hperm in Hnd, Hold.
  pose proof (bufs_empty l Hok) as Hb. unfold popBuf. destruct (bufs l) as [|s bs] eqn:Hbufs.
  - assert (arrays l ∉ addr <$> held i l) as Hfresh.
    { intros Hin. rewrite Forall_forall in Hold. apply Hold in Hin. lia. }
    apply (set_producer_ok i _ _ _ _ _ l Hok Hi); cbn [filled app fmap list_fmap addr]; [lia | | | done | |].
    + by constructor.
    + constructor; [lia|]. eapply Forall_impl; [exact Hold|]. cbn. lia.
    + split; [cbn; lia | done].
    + by apply arrays_stay_insert.
  - inversion_clear Hb as [|? ? Hs Hbs].
    apply (set_producer_ok i _ _ _ _ _ l Hok Hi); [lia | exact Hnd | exact Hold | done | | done].
    cbn. unfold chars. rewrite Hs. split; [lia|]. done.
Qed.

Lemma append_ok i room s c call todo calls l :
  buffers_ok l -> producers l !! i = Some (Filling s call (c :: todo) calls) ->
  let '(s', hp, n) := append room s c (heap l) (arrays l) in
  buffers_ok (set_producer i (Filling s' call todo calls) hp n (bufs l) l).
Proof.
  intros Hok Hi. pose proof (owned_split i _ l Hi) as Hperm. cbn [filled app fmap list_fmap] in Hperm.
  pose proof (owned_once l Hok) as Hnd. pose proof (owned_old l Hok) as Hold. rewrite Hperm in Hnd, Hold.
  apply NoDup_cons in Hnd as [Hown Hnd]. apply Forall_cons in Hold as [Haddr Hold].
  destruct (others_ok _ _ _ _ Hi (filling_all l Hok)) as [[Hlen Hcall] _]. unfold chars in Hcall.
  unfold append. destruct (len s + length c <=? cap s).
  - apply (set_producer_ok i _ _ _ _ _ l Hok Hi); cbn [filled app fmap list_fmap addr]; [lia | by constructor | by constructor |..].
    + apply (bufs_empty l Hok).
    + cbn [filling_ok addr len]. unfold chars. cbn [addr len]. rewrite array_insert_eq, !length_app, length_take, Nat.min_l by done.
      split; [lia|]. rewrite <- Hcall. cbn [concat]. rewrite (app_assoc (take _ _) c (concat todo)). f_equal.
      rewrite (app_assoc (take _ _)), take_app_le, take_ge; [done | rewrite length_app, length_take; lia..].
    + apply arrays_stay_insert. intros Hin. apply Hown. rewrite fmap_app, elem_of_app. by right.
  - assert (arrays l ∉ addr <$> bufs l ++ held i l) as Hfresh.
    { intros Hin. rewrite Forall_forall in Hold. apply Hold in Hin. lia. }
    apply (set_producer_ok i _ _ _ _ _ l Hok Hi); cbn [filled app fmap list_fmap addr]; [lia | by constructor |..].
    + constructor; [lia|]. eapply Forall_impl; [exact Hold|]. cbn. lia.
    + apply (bufs_empty l Hok).
    + cbn [filling_ok addr len]. unfold chars. cbn [addr len]. rewrite array_insert_eq, !length_app, length_take, Nat.min_l by done.
      split; [lia|]. rewrite take_ge by (rewrite length_app, length_take; lia).
      rewrite <- Hcall. cbn [concat]. by rewrite (app_assoc (take _ _) c (concat todo)).
    + apply arrays_stay_insert. intros Hin. apply Hfresh. rewrite fmap_app, elem_of_app. by right.
Qed.

Lemma send_ok i s call calls l :
  buffers_ok l -> producers l !! i = Some (Filling s call [] calls) ->
  buffers_ok (mkLogger (heap l) (arrays l) (bufs l) (msg l ++ [s]) (runner l) (<[i := Idle calls]> (producers l))
                (closers l) (closed l) (quit l) (handler l) (handler_closed l) (panicked l)
                (sent l ++ [(i, chars (heap l) s)]) (written l)).
Proof.
  intros Hok Hi. pose proof (owned_once l Hok) as Hnd. pose proof (owned_old l Hok) as Hold.
  destruct (others_ok _ _ _ _ Hi (filling_all l Hok)) as [_ Hothers].
  match goal with |- buffers_ok ?l' => assert (owned l ≡ₚ owned l') as Hperm end.
  { rewrite (owned_split i _ l Hi). unfold owned, held. cbn [bufs runner msg producers filled].
    rewrite (producers_insert_perm _ _ _ (Idle calls) Hi). cbn [mbind list_bind filled app].
    apply fmap_Permutation. solve_Permutation. }
  split; cbn [heap arrays bufs msg runner producers sent written].
  - by rewrite <- Hperm.
  - by rewrite <- Hperm.
  - apply (bufs_empty l Hok).
  - by apply (insert_ok _ _ _ _ _ Hi).
  - rewrite fmap_app, (lines_sent l Hok). cbn. by rewrite !fmap_app, !app_assoc.
Qed.

Lemma putBuf_ok l m :
  buffers_ok l -> runner l = Putting m ->
  buffers_ok (mkLogger (heap l) (arrays l) (putBuf m (bufs l)) (msg l) Select (producers l) (closers l) (closed l)
                (quit l) (handler l) (handler_closed l) (panicked l) (sent l) (written l)).
Proof.
  intros [Hnd Hold Hempty Hfill Hsent] Hr. unfold owned in *. rewrite Hr in *. cbn [in_hand to_write app] in *.
  assert (bufs l ++ m :: msg l ++ (producers l ≫= filled) ≡ₚ m :: bufs l ++ msg l ++ (producers l ≫= filled)) as Hperm
    by solve_Permutation.
  rewrite Hperm in Hnd, Hold. unfold putBuf.
  split; unfold owned; cbn [heap arrays bufs msg runner producers sent written in_hand to_write app]; try done;
    destruct (length (bufs l) <? maxBufPoolSize); cbn [app fmap list_fmap addr] in *; try done.
  - by inversion Hnd.
  - by inversion Hold.
  - by constructor.
Qed.

Lemma step_buffers e l l' : buffers_ok l -> step e l = Some l' -> buffers_ok l'.
Proof.
  intros Hok. unfold step. destruct (panicked l); [done|]. destruct e as [i room|message|i].
  - unfold producer_step. destruct (producers l !! i) as [[[|call calls]|s call [|c todo] calls]|] eqn:Hi; [done| | | |done].
    + pose proof (pop_ok i call calls l Hok Hi) as H. destruct (popBuf l) as [[[s bs] hp] n]. by intros [= <-].
    + destruct (length (msg l) <? msg_cap); [|done]. intros [= <-]. by apply (send_ok i s call calls l Hok Hi).
    + pose proof (append_ok i room s c call todo calls l Hok Hi) as H.
      destruct (append room s c (heap l) (arrays l)) as [[s' hp] n]. by intros [= <-].
  - unfold runner_step. destruct (runner l) as [|m|m| |] eqn:Hr; [|intros [= <-]..|done].
    + destruct message.
      * destruct (msg l) as [|m ms] eqn:Hm; [done|]. intros [= <-].
        destruct Hok as [Hnd Hold Hempty Hfill Hsent]. unfold owned in *. rewrite Hr, Hm in *. by split.
      * destruct (quit l); [done| |done]. intros [= <-].
        destruct Hok as [Hnd Hold Hempty Hfill Hsent]. unfold owned in *. rewrite Hr in *. by split.
    + destruct Hok as [Hnd Hold Hempty Hfill Hsent]. unfold owned in *. rewrite Hr in *. split; try done.
      cbn [heap sent written to_write runner msg app] in *. rewrite Hsent. by rewrite <- app_assoc.
    + by apply putBuf_ok.
    + destruct Hok as [Hnd Hold Hempty Hfill Hsent]. unfold owned in *. rewrite Hr in *.
      by destruct (bool_decide (length (msg l) = 0)); split.
  - unfold closer_step. destruct (closers l !! i) as [[]|]; try done; try (destruct (runner l) eqn:Hr; try done);
      intros [= <-]; destruct Hok as [Hnd Hold Hempty Hfill Hsent]; try (by split);
      (destruct (quit l); by split) || (unfold owned in *; rewrite Hr in *; by split).
Qed.

Lemma New_buffers h programs n : buffers_ok (New h programs n).
Proof.
  assert ((Idle <$> programs) ≫= filled = []) as Hf by (by induction programs).
  split; unfold owned; cbn [New heap arrays bufs msg runner producers sent written in_hand to_write app];
    rewrite ?Hf; try done.
  - constructor.
  - apply Forall_fmap. by apply Forall_true.
Qed.

(** ** The lines of each goroutine keep their order *)
Definition line (call : list bytes) : bytes := concat call.
Definition mine (i : nat) (ls : list (nat * bytes)) : list bytes := (filter (fun x => x.1 = i) ls).*2.
Definition pending (p : producer) : list bytes :=
  match p with Idle calls => line <$> calls | Filling _ call _ calls => line call :: (line <$> calls) end.

Definition programs_ok (programs : list (list (list bytes))) (l : Logger) : Prop :=
  forall i prog, programs !! i = Some prog ->
    exists p, producers l !! i = Some p /\ line <$> prog = mine i (sent l) ++ pending p.

(** A step of goroutine [i] that sends nothing, and one that sends. *)
Lemma programs_set programs i p p' l l' :
  programs_ok programs l -> producers l !! i = Some p -> producers l' = <[i := p']> (producers l) ->
  (sent l' = sent l /\ pending p' = pending p) \/
  (exists m, sent l' = sent l ++ [(i, m)] /\ pending p = m :: pending p') ->
  programs_ok programs l'.
Proof.
  intros Hok Hi Hps Hsent j prog Hj. destruct (Hok j prog Hj) as (q & Hq & Hprog). rewrite Hps.
  destruct (decide (j = i)) as [->|Hne].
  - exists p'. rewrite list_lookup_insert_eq by by apply lookup_lt_Some in Hi. split; [done|].
    rewrite Hq in Hi. injection Hi as ->. rewrite Hprog. destruct Hsent as [[-> ->] | (m & -> & ->)]; [done|].
    unfold mine. rewrite filter_app, fmap_app, filter_cons_True by done. by rewrite <- app_assoc.
  - exists q. rewrite list_lookup_insert_ne by done. split; [done|]. rewrite Hprog. f_equal.
    destruct Hsent as [[-> _] | (m & -> & _)]; [done|].
    unfold mine. rewrite filter_app, filter_cons_False by (cbn; by apply not_eq_sym). by rewrite filter_nil, app_nil_r.
Qed.

Lemma step_programs programs e l l' :
  buffers_ok l -> programs_ok programs l -> step e l = Some l' -> programs_ok programs l'.
Proof.
  intros Hbuf Hok. unfold step. destruct (panicked l); [done|]. destruct e as [i room|message|i].
  - unfold producer_step. destruct (producers l !! i) as [[[|call calls]|s call [|c todo] calls]|] eqn:Hi; [done| | | |done].
    + destruct (popBuf l) as [[[s bs] hp] n]. intros [= <-].
      apply (programs_set programs i _ (Filling s call call calls) l _ Hok Hi); [done | by left].
    + destruct (length (msg l) <? msg_cap); [|done]. intros [= <-].
      apply (programs_set programs i _ (Idle calls) l _ Hok Hi); [done | right].
      exists (chars (heap l) s). split; [done|]. cbn [pending].
      destruct (others_ok _ _ _ _ Hi (filling_all l Hbuf)) as [[_ Hcall] _]. cbn [concat] in Hcall.
      rewrite app_nil_r in Hcall. unfold line at 1. by rewrite <- Hcall.
    + destruct (append room s c (heap l) (arrays l)) as [[s' hp] n]. intros [= <-].
      apply (programs_set programs i _ (Filling s' call todo calls) l _ Hok Hi); [done | by left].
  - unfold runner_step. destruct (runner l) as [|m|m| |]; [|by intros [= <-]..|done].
    destruct message; [destruct (msg l); [done|] | destruct (quit l); try done]; by intros [= <-].
  - unfold closer_step. destruct (closers l !! i) as [[]|]; try done; try (destruct (runner l); try done);
      try (destruct (quit l)); by intros [= <-].
Qed.

Lemma New_programs h programs n : programs_ok programs (New h programs n).
Proof.
  intros i prog Hi. exists (Idle prog). cbn. by rewrite list_lookup_fmap, Hi.
Qed.

(** ** Closing *)
Definition past (c : closer) : Prop := c = CWait \/ c = CClear \/ c = CHandler.

Definition handed (h : K) (ls : list bytes) : K := fold_left (fun h b => Handler_Write b h) ls h.

Record closing_ok (h0 : K) (l : Logger) : Prop := {
  past_once : forall i j c d, closers l !! i = Some c -> closers l !! j = Some d -> past c -> past d -> i = j;
  past_closed : forall i c, closers l !! i = Some c -> past c -> quit l <> QOpen /\ handler_closed l = false;
  handler_closed_quit : handler_closed l = true -> quit l <> QOpen /\ runner l = Stopped;
  runner_quit : runner l = Checking \/ runner l = Stopped -> quit l <> QOpen;
  past_stopped : forall i c, closers l !! i = Some c -> c = CClear \/ c = CHandler -> runner l = Stopped;
  handler_ok : handler l = (if handler_closed l then Handler_Close (handed h0 (written l)) else handed h0 (written l)) }.

Lemma New_closing h programs n : closing_ok h (New h programs n).
Proof.
  assert (forall i c, replicate n CRead !! i = Some c -> c = CRead) as Hc.
  { intros i c Hi. by apply lookup_replicate in Hi as [-> _]. }
  unfold past. split; cbn [New closers quit handler_closed runner handler written]; try done.
  - intros i j c d Hi%Hc. subst c. intros _ [H|[H|H]]; discriminate H.
  - intros i c Hi%Hc. subst c. intros [H|[H|H]]; discriminate H.
  - intros [H|H]; discriminate H.
  - intros i c Hi%Hc. subst c. intros [H|H]; discriminate H.
Qed.

(** A step of [run] before it has stopped. *)
Lemma closing_runner h0 l l' :
  closing_ok h0 l -> runner l <> Stopped ->
  closers l' = closers l -> quit l' = quit l -> handler_closed l' = handler_closed l ->
  (runner l' = Checking \/ runner l' = Stopped -> quit l <> QOpen) ->
  (handler l = handed h0 (written l) -> handler l' = handed h0 (written l')) ->
  closing_ok h0 l'.
Proof.
  intros [P1 P2 P3 P4 P5 P6] Hr Hc Hq Hh Hrq Hhand.
  assert (handler_closed l = false) as Hhc by (destruct (handler_closed l); [by destruct P3|done]).
  rewrite Hhc in *. split; rewrite ?Hc, ?Hq, ?Hh; try done.
  - intros i c Hi Hpast. by destruct Hr, (P5 i c).
  - by apply Hhand.
Qed.

(** A step of a goroutine in [Close], from [d] to [c]; [hc] says whether it
    closes the handler. *)
Lemma closing_closer h0 i d c cl q h (hc p : bool) l :
  closing_ok h0 l -> closers l !! i = Some d ->
  (past c -> past d \/ quit l = QOpen) ->
  (c = CClear \/ c = CHandler -> runner l = Stopped) ->
  (q = quit l \/ q <> QOpen) -> (past c -> q <> QOpen) ->
  (if hc then d = CHandler /\ c = CReturned /\ h = Handler_Close (handler l)
   else h = handler l) ->
  closing_ok h0 (set_closing i c cl q h (hc || handler_closed l) p l).
Proof.
  intros [P1 P2 P3 P4 P5 P6] Hi Hpast Hstop Hq Hpq Hhc.
  assert (q = QOpen -> quit l = QOpen) as Hq' by (destruct Hq as [->|]; [done|by intros ->]).
  assert (past c -> forall j x, closers l !! j = Some x -> past x -> i = j) as Honly.
  { intros Hc j x Hj Hx. destruct (Hpast Hc) as [Hd | Hopen]; [by apply (P1 i j d x)|].
    by destruct (P2 j x Hj Hx). }
  assert (past d -> handler_closed l = false) as Hopen by (intros Hd; by apply (P2 i d)).
  assert (hc = true -> past d /\ handler_closed l = false /\ runner l = Stopped /\ quit l <> QOpen) as Htrue.
  { intros ->. destruct Hhc as (-> & _). assert (past CHandler) as Hp by (by right; right).
    split_and!; [done | by apply Hopen | apply (P5 i CHandler); [done | by right] | by apply (P2 i CHandler)]. }
  split; cbn [set_closing closers quit handler_closed runner handler written].
  - intros j k x y [(<- & <- & _)|[Hj Hx]]%list_lookup_insert_Some [(<- & <- & _)|[Hk Hy]]%list_lookup_insert_Some Hpx Hpy;
      [done | by apply (Honly Hpx k y) | symmetry; by apply (Honly Hpy j x) | by apply (P1 j k x y)].
  - intros j x [(<- & <- & _)|[Hj Hx]]%list_lookup_insert_Some Hpx.
    + split; [by apply Hpq|]. destruct hc; [destruct Hhc as (_ & -> & _); by destruct Hpx as [?|[?|?]]|].
      destruct (Hpast Hpx) as [Hd|Hqo]; [by apply Hopen|]. destruct (handler_closed l); [by destruct P3|done].
    + destruct (P2 j x Hx Hpx) as [Hqj Hhj]. split; [by intros Hqo; apply Hqj, Hq'|]. rewrite Hhj.
      destruct hc; [|done]. destruct (Htrue eq_refl) as [Hd _]. destruct Hj. by apply (P1 i j d x).
  - intros Hor. destruct hc; [destruct (Htrue eq_refl) as (_ & _ & ? & ?); split; [by intros ?%Hq'|done]|].
    destruct (P3 Hor) as [? ?]. split; [by intros ?%Hq' | done].
  - intros Hr ?%Hq'. by apply P4 in Hr.
  - intros j x [(<- & <- & _)|[Hj Hx]]%list_lookup_insert_Some; [apply Hstop | by apply (P5 j)].
  - destruct hc; cbn [orb]; [|by rewrite Hhc]. destruct Hhc as (_ & _ & ->).
    destruct (Htrue eq_refl) as (_ & Hf & _). by rewrite P6, Hf.
Qed.

Lemma step_closing h0 e l l' : closing_ok h0 l -> step e l = Some l' -> closing_ok h0 l'.
Proof.
  intros Hok. unfold step. destruct (panicked l); [done|]. destruct e as [i room|message|i].
  - unfold producer_step. destruct (producers l !! i) as [[[|call calls]|s call [|c todo] calls]|]; [done| | | |done].
    + destruct (popBuf l) as [[[s bs] hp] n]. intros [= <-]. by destruct Hok.
    + destruct (length (msg l) <? msg_cap); [|done]. intros [= <-]. by destruct Hok.
    + destruct (append room s c (heap l) (arrays l)) as [[s' hp] n]. intros [= <-]. by destruct Hok.
  - unfold runner_step. destruct (runner l) as [|m|m| |] eqn:Hr; [| | | |done].
    + destruct message.
      * destruct (msg l) as [|m ms]; [done|]. intros [= <-].
        apply (closing_runner h0 l _ Hok); [by rewrite Hr | done.. | by intros [?|?] | done].
      * destruct (quit l) eqn:Hq; try done. intros [= <-].
        apply (closing_runner h0 l _ Hok); [by rewrite Hr | done.. | by rewrite Hq | done].
    + intros [= <-]. apply (closing_runner h0 l _ Hok); [by rewrite Hr | done.. | by intros [?|?] |].
      cbn [handler written]. intros ->. unfold handed. by rewrite fold_left_app.
    + intros [= <-]. apply (closing_runner h0 l _ Hok); [by rewrite Hr | done.. | by intros [?|?] | done].
    + intros [= <-]. apply (closing_runner h0 l _ Hok); [by rewrite Hr | done.. | | done].
      intros _. apply (runner_quit h0 l Hok). by left.
  - unfold closer_step. destruct (closers l !! i) as [d|] eqn:Hi; [|done].
    assert (forall c cl q p, (past c -> past d \/ quit l = QOpen) -> (c = CClear \/ c = CHandler -> runner l = Stopped) ->
              (q = quit l \/ q <> QOpen) -> (past c -> q <> QOpen) ->
              closing_ok h0 (set_closing i c cl q (handler l) (handler_closed l) p l)) as Hgo.
    { intros c cl q p H1 H2 H3 H4. by apply (closing_closer h0 i d c cl q (handler l) false p l). }
    destruct d; [..|done].
    + intros [= <-]. destruct (closed l); apply Hgo; try (by left); try (by intros [?|?]); by intros [?|[?|?]].
    + intros [= <-]. apply Hgo; try (by left); try (by intros [?|?]); by intros [?|[?|?]].
    + intros [= <-]. destruct (quit l) eqn:Hq; apply Hgo; rewrite ?Hq; try (by left); try (by right); try (by intros [?|?]);
        try (by intros [?|[?|?]]).
    + destruct (runner l) eqn:Hr; try done. intros [= <-]. apply Hgo; [left; by left | done | by left |].
      intros _. apply (past_closed h0 l Hok i CWait Hi). by left.
    + intros [= <-]. apply Hgo; [left; right; by left | | by right | done].
      intros _. apply (past_stopped h0 l Hok i CClear Hi). by left.
    + intros [= <-]. apply (closing_closer h0 i CHandler CReturned _ _ _ true _ l Hok Hi);
        [left; right; by right | by intros [?|?] | by left | by intros [?|[?|?]] | done].
Qed.

(** ** The invariant *)
Record logger_ok (h0 : K) (programs : list (list (list bytes))) (l : Logger) : Prop := {
  lo_buffers : buffers_ok l;
  lo_programs : programs_ok programs l;
  lo_closing : closing_ok h0 l;
  lo_length : length (producers l) = length programs;
  lo_senders : Forall (fun x => x.1 < length programs) (sent l);
  lo_nil : quit l = QNil -> runner l = Stopped }.

Lemma step_nil h0 e l l' :
  closing_ok h0 l -> (quit l = QNil -> runner l = Stopped) -> step e l = Some l' ->
  quit l' = QNil -> runner l' = Stopped.
Proof.
  intros Hok Hnil. unfold step. destruct (panicked l); [done|]. destruct e as [i room|message|i].
  - unfold producer_step. destruct (producers l !! i) as [[[|call calls]|s call [|c todo] calls]|]; [done| | | |done].
    + destruct (popBuf l) as [[[s bs] hp] n]. by intros [= <-].
    + destruct (length (msg l) <? msg_cap); [|done]. by intros [= <-].
    + destruct (append room s c (heap l) (arrays l)) as [[s' hp] n]. by intros [= <-].
  - assert (runner l = Stopped \/ quit l <> QNil) as [Hr|Hq]
      by (destruct (quit l); [by right | by right | left; by apply Hnil]).
    { unfold runner_step. by rewrite Hr. }
    intros H Hq'. destruct Hq. revert H Hq'. unfold runner_step.
    destruct (runner l) as [|m|m| |]; [destruct message; [destruct (msg l); [done|] | destruct (quit l) eqn:Hql; try done]|..|done];
      intros [= <-]; cbn [set_runner quit]; congruence.
  - unfold closer_step. destruct (closers l !! i) as [[]|] eqn:Hi; [| | | | | |done|done]; try (intros [= <-]; exact Hnil).
    + intros [= <-]. destruct (quit l) eqn:Hq; [done | done|]. cbn [set_closing quit runner]. intros _. by apply Hnil.
    + destruct (runner l) eqn:Hr; try done. intros [= <-]. by cbn [set_closing runner].
    + intros [= <-] _. apply (past_stopped h0 l Hok i CClear Hi). by left.
Qed.

(** Only goroutines of the program send. *)
Lemma step_senders n e l l' :
  length (producers l) = n /\ Forall (fun x => x.1 < n) (sent l) -> step e l = Some l' ->
  length (producers l') = n /\ Forall (fun x => x.1 < n) (sent l').
Proof.
  intros [Hl Hs]. unfold step. destruct (panicked l); [done|]. destruct e as [i room|message|i].
  - unfold producer_step. destruct (producers l !! i) as [[[|call calls]|s call [|c todo] calls]|] eqn:Hi; [done| | | |done].
    + destruct (popBuf l) as [[[s bs] hp] n']. intros [= <-]. cbn. by rewrite length_insert.
    + destruct (length (msg l) <? msg_cap); [|done]. intros [= <-]. cbn. rewrite length_insert. split; [done|].
      apply Forall_app. split; [done|]. constructor; [|done]. cbn. rewrite <- Hl. by apply lookup_lt_Some in Hi.
    + destruct (append room s c (heap l) (arrays l)) as [[s' hp] n']. intros [= <-]. cbn. by rewrite length_insert.
  - unfold runner_step. destruct (runner l) as [|m|m| |]; [|by intros [= <-]..|done].
    destruct message; [destruct (msg l); [done|] | destruct (quit l); try done]; by intros [= <-].
  - unfold closer_step. destruct (closers l !! i) as [[]|]; try done; try (destruct (runner l); try done);
      try (destruct (quit l)); by intros [= <-].
Qed.

Lemma step_ok h0 programs e l l' : logger_ok h0 programs l -> step e l = Some l' -> logger_ok h0 programs l'.
Proof.
  intros [Hb Hp Hc Hl Hs Hn] Hstep. destruct (step_senders (length programs) e l l') as [Hl' Hs']; [done..|].
  split; [by apply (step_buffers e l) | by apply (step_programs programs e l) | by apply (step_closing h0 e l)
         | done | done | by apply (step_nil h0 e l)].
Qed.

Lemma reach_ok h programs n es l : steps es (New h programs n) = Some l -> logger_ok h programs l.
Proof.
  apply (steps_inv (logger_ok h programs)); [intros e l1 l2; apply step_ok|].
  split; [apply New_buffers | apply New_programs | apply New_closing | by cbn; rewrite length_fmap | done | done].
Qed.

(** ** Properties *)

(** C34: lines come out whole, once and in order.  However the goroutines
    that log, the one that writes and those that close the logger
    interleave, and however buffers move and are used again: the handler has
    been given, one by one, the first of the lines that entered the channel;
    each of these is a whole line of the goroutine that sent it; the lines of
    a goroutine are in the order of its calls; and the handler is closed
    once, after the last line it is given. *)
Theorem lines_whole_in_order h programs n es l :
  steps es (New h programs n) = Some l ->
  (exists queued, (sent l).*2 = written l ++ queued) /\
  Forall (fun x => x.1 < length programs) (sent l) /\
  (forall i prog, programs !! i = Some prog -> exists rest, line <$> prog = mine i (sent l) ++ rest) /\
  handler l = (if handler_closed l then Handler_Close (handed h (written l)) else handed h (written l)).
Proof.
  intros [Hb Hp Hc _ Hs _]%reach_ok. split_and!; [|done| |by apply handler_ok].
  - eexists. apply (lines_sent l Hb).
  - intros i prog Hi. destruct (Hp i prog Hi) as (p & _ & ->). by eexists.
Qed.

(** ** Draining *)
Definition finished (l : Logger) : Prop := Forall (fun p => p = Idle []) (producers l).

Lemma finished_producer i room l : finished l -> producer_step i room l = None.
Proof.
  unfold finished, producer_step. intros Hf. destruct (producers l !! i) as [p|] eqn:Hi; [|done].
  by rewrite (Forall_lookup_1 _ _ _ _ Hf Hi).
Qed.

(** Once nobody logs any more, [run] stops only when the channel is empty. *)
Definition drained (l : Logger) : Prop := finished l /\ (runner l = Stopped -> msg l = []).

Lemma step_drained e l l' : drained l -> step e l = Some l' -> drained l'.
Proof.
  intros [Hf Hd]. unfold step. destruct (panicked l); [done|]. destruct e as [i room|message|i].
  - by rewrite finished_producer.
  - unfold runner_step. destruct (runner l) as [|m|m| |] eqn:Hr; [|intros [= <-]..|done].
    + destruct message; [destruct (msg l); [done|] | destruct (quit l); try done]; intros [= <-]; split; [exact Hf | done | exact Hf | done].
    + split; [exact Hf | done].
    + split; [exact Hf | done].
    + split; [exact Hf|]. cbn [set_runner runner msg].
      destruct (bool_decide_reflect (length (msg l) = 0)) as [H0|]; [|done]. intros _. by apply nil_length_inv.
  - assert (forall c cl q h hc p, drained (set_closing i c cl q h hc p l)) as Hgo by done.
    unfold closer_step. destruct (closers l !! i) as [[]|]; [| | | | | |done|done]; try (intros [= <-]; apply Hgo).
    + intros [= <-]. destruct (quit l); apply Hgo.
    + destruct (runner l); try done. intros [= <-]. apply Hgo.
Qed.

(** The turns of [run] that empty the channel and stop it. *)
Lemma drain_select k l :
  length (msg l) = k -> runner l = Select -> quit l = QClosed -> panicked l = false ->
  exists es l', length es = 3 * k + 2 /\ steps es l = Some l' /\ runner l' = Stopped /\
    closers l' = closers l /\ panicked l' = false.
Proof.
  revert l; induction k as [|k IH]; intros l Hk Hr Hq Hp.
  - exists [ERunner false; ERunner false]. cbn [steps step]. unfold step, runner_step. rewrite Hp, Hr, Hq.
    cbn [set_runner panicked runner msg]. rewrite Hp, Hk. eexists. by split_and!.
  - destruct (msg l) as [|m ms] eqn:Hm; [done|]. injection Hk as Hk.
    destruct (IH (mkLogger (heap l) (arrays l) (putBuf m (bufs l)) ms Select (producers l) (closers l) (closed l)
                    (quit l) (Handler_Write (chars (heap l) m) (handler l)) (handler_closed l) (panicked l) (sent l)
                    (written l ++ [chars (heap l) m]))) as (es & l' & Hlen & Hes & H1 & H2 & H3); [done..|].
    exists ([ERunner true; ERunner true; ERunner true] ++ es), l'. rewrite length_app. cbn [length].
    split; [lia|]. split; [|done]. rewrite steps_app. cbn [steps]. unfold step at 1, runner_step at 1. rewrite Hp, Hr, Hm.
    unfold step at 1, runner_step at 1. cbn [set_runner panicked runner]. rewrite Hp.
    unfold step at 1, runner_step at 1. cbn [panicked runner]. rewrite Hp in Hes. exact Hes.
Qed.

Lemma drain l :
  runner l <> Stopped -> quit l = QClosed -> panicked l = false ->
  exists es l', length es <= 3 * length (msg l) + 4 /\ steps es l = Some l' /\ runner l' = Stopped /\
    closers l' = closers l /\ panicked l' = false.
Proof.
  intros Hr Hq Hp.
  assert (exists es l1, length es <= 2 /\ steps es l = Some l1 /\ length (msg l1) = length (msg l) /\
            (runner l1 = Select \/ runner l1 = Stopped) /\ quit l1 = QClosed /\ panicked l1 = false /\
            closers l1 = closers l) as (es & l1 & Hlen & Hes & Hm & Hr1 & Hq1 & Hp1 & Hc1).
  { destruct (runner l) as [|m|m| |] eqn:Hrl; [| | | |done].
    - exists [], l. cbn. auto 10.
    - exists [ERunner true; ERunner true]. cbn [steps]. unfold step, runner_step. rewrite Hp, Hrl. cbn [panicked runner].
      eexists. cbn. auto 10.
    - exists [ERunner true]. cbn [steps]. unfold step, runner_step. rewrite Hp, Hrl. eexists. cbn. auto 10.
    - exists [ERunner true]. cbn [steps]. unfold step, runner_step. rewrite Hp, Hrl.
      destruct (bool_decide (length (msg l) = 0)); eexists; cbn; auto 10. }
  destruct Hr1 as [Hr1|Hr1].
  - destruct (drain_select _ l1 Hm Hr1 Hq1 Hp1) as (es' & l2 & Hlen' & Hes' & H1 & H2 & H3).
    exists (es ++ es'), l2. rewrite length_app, steps_app, Hes. split_and!; [lia | done..| congruence | done].
  - exists es, l1. split_and!; [lia | done..].
Qed.

Lemma close_returns j l :
  runner l = Stopped -> closers l !! j = Some CWait -> panicked l = false ->
  exists l', steps [ECloser j; ECloser j; ECloser j] l = Some l' /\ closers l' !! j = Some CReturned.
Proof.
  intros Hr Hj Hp. pose proof (lookup_lt_Some _ _ _ Hj) as Hlt. cbn [steps].
  unfold step at 1, closer_step at 1. rewrite Hp, Hj, Hr.
  unfold step at 1, closer_step at 1. cbn [set_closing panicked closers]. rewrite ?Hp, list_lookup_insert_eq by done.
  unfold step at 1, closer_step at 1. cbn [set_closing panicked closers].
  rewrite ?Hp, list_lookup_insert_eq by by rewrite length_insert.
  eexists. split; [reflexivity|]. cbn [set_closing closers]. by rewrite list_lookup_insert_eq by (by rewrite !length_insert).
Qed.

(** C35: closing the logger loses nothing and comes to an end.  When the
    goroutines that log have made all their calls before [run] stops, then
    by the time the handler is closed it was given every line of every one
    of them; and whoever waits in [Close] then comes back after at most
    three turns of [run] for each message in the channel and seven more. *)
Theorem Close_flushes h programs n es l :
  steps es (New h programs n) = Some l -> finished l -> runner l <> Stopped ->
  (forall es' l', steps es' l = Some l' -> handler_closed l' = true ->
     written l' = (sent l').*2 /\ forall i prog, programs !! i = Some prog -> mine i (sent l') = line <$> prog) /\
  (forall j, closers l !! j = Some CWait -> panicked l = false ->
     exists es' l', length es' <= 3 * length (msg l) + 7 /\ steps es' l = Some l' /\ closers l' !! j = Some CReturned).
Proof.
  intros Hes Hf Hr. split.
  - intros es' l' Hes' Hhc.
    assert (drained l') as [Hf' Hd] by (apply (steps_inv drained step_drained es' l l'); [by split|done]).
    destruct (reach_ok h programs n (es ++ es') l') as [Hb Hp Hc _ _ _]; [by rewrite steps_app, Hes|].
    destruct (handler_closed_quit h l' Hc Hhc) as [_ Hstop]. split.
    + rewrite (lines_sent l' Hb), Hstop, (Hd Hstop). cbn. by rewrite app_nil_r.
    + intros i prog Hi. destruct (Hp i prog Hi) as (p & Hpi & ->).
      rewrite (Forall_lookup_1 _ _ _ _ Hf' Hpi). cbn. by rewrite app_nil_r.
  - intros j Hj Hp. destruct (reach_ok h programs n es l Hes) as [_ _ Hc _ _ Hn].
    destruct (past_closed h l Hc j CWait Hj) as [Hq _]; [by left|].
    assert (quit l = QClosed) as Hq' by (destruct (quit l); [done | done | by destruct Hr, Hn]).
    destruct (drain l Hr Hq' Hp) as (es1 & l1 & Hlen & Hes1 & Hr1 & Hc1 & Hp1). rewrite <- Hc1 in Hj.
    destruct (close_returns j l1 Hr1 Hj Hp1) as (l2 & Hes2 & Hj2).
    exists (es1 ++ [ECloser j; ECloser j; ECloser j]), l2. rewrite length_app, steps_app, Hes1. cbn [length].
    split_and!; [lia | done..].
Qed.
End Logger.

Arguments Logger K : clear implicits.

(** ** Runs *)

(** Two goroutines with two lines and one, chunk by chunk in turns, and a
    goroutine that closes the logger. *)
Definition sample_programs : list (list (list bytes)) :=
  [[[bytes_of "a - "; bytes_of "one"; [10%Z]]; [bytes_of "a - "; bytes_of "two"; [10%Z]]];
   [[bytes_of "b - "; bytes_of "three"; [10%Z]]]].
Definition both : list event := [EProducer 0 0; EProducer 1 0].
Definition sample_events : list event :=
  concat (replicate 4 both) ++ [EProducer 1 0; EProducer 0 0; ERunner true; ERunner true; EProducer 0 0;
  ECloser 0; ERunner true; ECloser 0; EProducer 0 0; EProducer 0 0; ECloser 0; ERunner false; ERunner true;
  EProducer 0 0; EProducer 0 0].
Definition sample_logger : Logger (list bytes) :=
  let start := New [] sample_programs 1 in default start (steps sample_events start).

Lemma sample_run : steps sample_events (New [] sample_programs 1) = Some sample_logger.
Proof. vm_compute. reflexivity. Qed.

Lemma lines_whole_in_order_witness :
  (exists queued, (sent sample_logger).*2 = written sample_logger ++ queued) /\
  Forall (fun x => x.1 < length sample_programs) (sent sample_logger) /\
  (forall i prog, sample_programs !! i = Some prog -> exists rest, line <$> prog = mine i (sent sample_logger) ++ rest) /\
  handler sample_logger = (if handler_closed sample_logger then Handler_Close (handed [] (written sample_logger))
                           else handed [] (written sample_logger)).
Proof. exact (lines_whole_in_order [] sample_programs 1 sample_events sample_logger sample_run). Defined.

Lemma Close_flushes_witness :
  finished sample_logger /\ closers sample_logger !! 0 = Some CWait /\
  (forall es' l', steps es' sample_logger = Some l' -> handler_closed l' = true ->
     written l' = (sent l').*2 /\
     forall i prog, sample_programs !! i = Some prog -> mine i (sent l') = line <$> prog) /\
  (forall j, closers sample_logger !! j = Some CWait -> panicked sample_logger = false ->
     exists es' l', length es' <= 3 * length (msg sample_logger) + 7 /\ steps es' sample_logger = Some l' /\
       closers l' !! j = Some CReturned).
Proof.
  assert (finished sample_logger) as Hf by (vm_compute; repeat constructor).
  split; [exact Hf|]. split; [vm_compute; reflexivity|].
  exact (Close_flushes [] sample_programs 1 sample_events sample_logger sample_run Hf ltac:(vm_compute; discriminate)).
Defined.

Example sample_logger_lines :
  (text <$> written sample_logger, length (msg sample_logger)) =
  ([String.append "b - three" (text [10%Z])], 2).
Proof. vm_compute. reflexivity. Qed.

(** Two goroutines that close the logger at once both find it open. *)
Example two_closers_panic :
  panicked <$> steps [ECloser 0; ECloser 1; ECloser 0; ECloser 1; ECloser 0; ECloser 1] (New (K := list bytes) [] [] 2) =
  Some true.
Proof. vm_compute. reflexivity. Qed.

(** After [Close] nobody empties the channel: what is logged then is lost,
    and when the channel is full the next call waits for ever. *)
Definition close_events : list event := concat (replicate 3 [ECloser 0]) ++ [ERunner false; ERunner false] ++ replicate 3 (ECloser 0).
Example logging_after_Close_blocks :
  let after := steps (close_events ++ replicate (3 * 1024 + 2) (EProducer 0 0))
                 (New (K := list bytes) [] [replicate 1025 [[10%Z]]] 1) in
  closers <$> after = Some [CReturned] /\ written <$> after = Some [] /\ (fun l => length (msg l)) <$> after = Some 1024 /\
  (after ≫= step (EProducer 0 0)) = None.
Proof. vm_compute. done. Qed.
