(* ===== verification/LogFileTheorems.v ===== *)
(** * Rotated log files keep the newest lines

    What the files of a [RotatingFileHandler] hold together, oldest backup
    first, while the operating system fulfills every request. *)
From S2P Require Import Prelude Errors GoLib Wire LogText LogFile Logger.
Open Scope Z_scope.

Definition no_fault : nat -> option (nat * string) := fun _ => None.

(** ** Names *)
Lemma sapp_inv_head a b c : a +:+ b = a +:+ c -> b = c.
Proof. induction a as [|x a IH]; [done|]. rewrite !sapp_cons. by intros [= ?%IH]. Qed.

Lemma backup_inj name i j : in_i64 i -> in_i64 j -> backup name i = backup name j -> i = j.
Proof.
  intros Hi Hj H. unfold backup in H. apply sapp_inv_head in H. rewrite !sapp_cons in H.
  injection H as H. by apply FormatInt_inj.
Qed.

Lemma backup_neq name i : backup name i <> name.
Proof.
  intros H. apply (f_equal String.length) in H. unfold backup in H.
  rewrite slength_app, slength_app in H. cbn in H. lia.
Qed.

(** ** Files in order *)

(** Names lead to contents of their own. *)
Record fs_ok (fs : FS) : Prop := {
  names_own : forall a b i, names fs !! a = Some i -> names fs !! b = Some i -> a = b;
  names_lead : forall a i, names fs !! a = Some i -> is_Some (inodes fs !! i) /\ (i < inode_count fs)%nat }.

Lemma file_at_None fs a : fs_ok fs -> file_at fs a = None <-> names fs !! a = None.
Proof.
  intros Hok. unfold file_at. destruct (names fs !! a) as [i|] eqn:Hi; [|done]. cbn.
  destruct (names_lead fs Hok a i Hi) as [[c ->] _]. done.
Qed.

(** [Rename] moves what [a] leads to, if there is such a file. *)
Lemma Rename_ok a b fs :
  fs_ok fs -> a <> b ->
  let fs' := (Rename no_fault a b fs).2 in
  fs_ok fs' /\ inodes fs' = inodes fs /\
  names fs' !! b = (match names fs !! a with Some i => Some i | None => names fs !! b end) /\
  names fs' !! a = None /\ forall c, c <> a -> c <> b -> names fs' !! c = names fs !! c.
Proof.
  intros Hok Hab. unfold Rename, attempt, no_fault. cbn [names].
  destruct (names fs !! a) as [i|] eqn:Hi; cbn [snd names inodes]; [|split_and!; [by destruct Hok|done..]].
  split_and!; [|done|apply lookup_insert_eq | by rewrite lookup_insert_ne, lookup_delete_eq |].
  - split; cbn [names inodes inode_count].
    + intros c d j. rewrite !lookup_insert_Some, !lookup_delete_Some.
      intros [[<- <-]|[? [? Hc]]] [[<- Hj]|[? [? Hd]]]; [done|..].
      * by apply (names_own fs Hok a d i) in Hd.
      * subst j. by apply (names_own fs Hok a c i) in Hc.
      * by apply (names_own fs Hok c d j).
    + intros c j. rewrite lookup_insert_Some, lookup_delete_Some.
      intros [[_ <-]|[_ [_ Hc]]]; [by apply (names_lead fs Hok a) | by apply (names_lead fs Hok c)].
  - intros c Hca Hcb. by rewrite lookup_insert_ne, lookup_delete_ne.
Qed.

Lemma rename_backups_ok name n fs :
  fs_ok fs -> Z.of_nat n + 1 < 2 ^ 63 ->
  (forall j, 1 <= j <= Z.of_nat n -> names fs !! backup name j = None -> names fs !! backup name (j + 1) = None) ->
  let fs' := rename_backups no_fault name n fs in
  fs_ok fs' /\ inodes fs' = inodes fs /\
  (forall j, 1 <= j <= Z.of_nat n -> names fs' !! backup name (j + 1) = names fs !! backup name j) /\
  ((1 <= n)%nat -> names fs' !! backup name 1 = None) /\
  forall c, (forall j, 1 <= j <= Z.of_nat n + 1 -> c <> backup name j) -> names fs' !! c = names fs !! c.
Proof.
  revert fs; induction n as [|n IH]; intros fs Hok Hn Hgap; [split_and!; try done; intros; lia|].
  assert (forall i j, 1 <= i <= Z.of_nat n + 2 -> 1 <= j <= Z.of_nat n + 2 -> i <> j -> backup name i <> backup name j)
    as Hne by (intros i j Hi Hj Hij H; apply Hij, (backup_inj name); [unfold in_i64; lia..|done]).
  cbn [rename_backups]. set (i := Z.of_nat (S n)).
  destruct (Rename_ok (backup name i) (backup name (i + 1)) fs Hok) as (Hok' & Hin & Hb & Ha & Hother); [apply Hne; lia|].
  destruct (Rename no_fault (backup name i) (backup name (i + 1)) fs) as [e fs1]. cbn [snd] in *.
  assert (names fs1 !! backup name (i + 1) = names fs !! backup name i) as Hb'.
  { rewrite Hb. destruct (names fs !! backup name i) eqn:Hi; [done|]. apply Hgap; [lia|done]. }
  destruct (IH fs1) as (H1 & H2 & H3 & H4 & H5); [done | lia | |].
  { intros j Hj. destruct (decide (j = Z.of_nat n)) as [->|].
    - intros _. by replace (Z.of_nat n + 1) with i by lia.
    - rewrite !Hother by (apply Hne; lia). apply Hgap. lia. }
  split_and!; [done | by rewrite H2 | | |].
  - intros j Hj. destruct (decide (j = i)) as [->|].
    + rewrite H5; [done|]. intros k Hk. apply Hne; lia.
    + rewrite H3 by lia. apply Hother; apply Hne; lia.
  - intros _. destruct n as [|n]; [exact Ha | apply H4; lia].
  - intros c Hc. rewrite H5 by (intros j Hj; apply Hc; lia). apply Hother; apply Hc; lia.
Qed.

(** ** The contents of the files

    [l] are the backups, the newest first, [cur] is the file itself. *)
Record holds (h : RotatingFileHandler) (fs : FS) (l : list bytes) (cur : bytes) : Prop := {
  holds_ok : fs_ok fs;
  holds_fd : exists i, fd h = OpenFile_ (fileName h) i /\ names fs !! fileName h = Some i;
  holds_cur : file_at fs (fileName h) = Some cur;
  holds_backups : forall i, 1 <= i <= Z.max 0 (backupCount h) ->
    file_at fs (backup (fileName h) i) = l !! Z.to_nat (i - 1);
  holds_count : Z.of_nat (length l) <= Z.max 0 (backupCount h) }.

(** All that the files hold, from the oldest line to the newest. *)
Definition kept (l : list bytes) (cur : bytes) : bytes := concat (rev l) ++ cur.

Definition same_config (h h' : RotatingFileHandler) : Prop :=
  fileName h' = fileName h /\ maxBytes h' = maxBytes h /\ backupCount h' = backupCount h.

Lemma file_at_eq fs fs' a b :
  inodes fs' = inodes fs -> names fs' !! a = names fs !! b -> file_at fs' a = file_at fs b.
Proof. intros Hi Hn. unfold file_at. by rewrite Hi, Hn. Qed.

Lemma Stat_Size_ok h fs l cur :
  holds h fs l cur ->
  exists fs', Stat_Size no_fault (fd h) fs = (Some (blen cur), fs') /\ holds h fs' l cur.
Proof.
  intros [Hok (i & Hfd & Hi) Hcur Hb Hc]. rewrite Hfd. unfold Stat_Size, attempt, no_fault.
  unfold file_at in Hcur. rewrite Hi in Hcur. cbn -[blen] in Hcur |- *. unfold contents. cbn -[blen]. rewrite Hcur.
  eexists. split; [reflexivity|]. split; [by destruct Hok | eauto | unfold file_at; cbn [names inodes]; by rewrite Hi | done..].
Qed.

(** Opening a name that is gone makes an empty file. *)
Lemma OpenFile_new name fs :
  fs_ok fs -> names fs !! name = None ->
  exists i fs', OpenFile no_fault name fs = (None, OpenFile_ name i, fs') /\ fs_ok fs' /\
    names fs' !! name = Some i /\ file_at fs' name = Some [] /\
    forall c, c <> name -> file_at fs' c = file_at fs c.
Proof.
  intros Hok Hn. unfold OpenFile, attempt, no_fault. cbn [names inodes inode_count operations]. rewrite Hn.
  eexists _, _. split; [reflexivity|]. unfold file_at. cbn [names inodes]. rewrite !lookup_insert_eq.
  split_and!; [|done|cbn; by rewrite lookup_insert_eq|].
  - split; cbn [names inodes inode_count].
    + intros a b j. rewrite !lookup_insert_Some. intros [[<- <-]|[? Ha]] [[<- Hj]|[? Hb]]; [done|..].
      * apply (names_lead fs Hok) in Hb as [_ ?]. lia.
      * apply (names_lead fs Hok) in Ha as [_ ?]. lia.
      * by apply (names_own fs Hok a b j).
    + intros a j. rewrite lookup_insert_Some. intros [[_ <-]|[_ Ha]]; [rewrite lookup_insert_eq; split; [done|lia]|].
      apply (names_lead fs Hok) in Ha as [??]. rewrite lookup_insert_ne by lia. split; [done|lia].
  - intros c Hc. rewrite lookup_insert_ne by done. destruct (names fs !! c) as [j|] eqn:Hj; [|done]. cbn.
    apply (names_lead fs Hok) in Hj as [_ ?]. by rewrite lookup_insert_ne by lia.
Qed.

Lemma doRollover_ok h fs l cur :
  in_i64 (backupCount h) -> 0 < maxBytes h -> holds h fs l cur ->
  exists h' fs', doRollover no_fault h fs = (h', fs') /\ same_config h h' /\
    if blen cur <? maxBytes h then holds h' fs' l cur
    else if 0 <? backupCount h then holds h' fs' (take (Z.to_nat (backupCount h)) (cur :: l)) []
    else holds h' fs' l cur.
Proof.
  intros Hk Hmax H. unfold doRollover. destruct (Stat_Size_ok h fs l cur H) as (fs0 & -> & H0). clear H fs.
  rewrite (proj2 (Z.leb_gt _ _) Hmax). destruct (blen cur <? maxBytes h); [exists h, fs0; done|].
  destruct (0 <? backupCount h) eqn:Hpos; [|exists h, fs0; done]. apply Z.ltb_lt in Hpos.
  destruct (File_Close (fd h)) as [_ _]. destruct H0 as [Hok (i & Hfd & Hi) Hcur Hb Hc].
  set (k := backupCount h) in *. set (name := fileName h) in *. rewrite Z.max_r in Hb, Hc by lia. unfold in_i64 in Hk.
  destruct (rename_backups_ok name (Z.to_nat (k - 1)) fs0) as (Hok1 & Hin1 & Hmove & Hone & Hother); [done | lia | |].
  { intros j Hj. rewrite <- !file_at_None, !Hb by (done || lia). rewrite !lookup_ge_None. lia. }
  set (fs1 := rename_backups no_fault name (Z.to_nat (k - 1)) fs0) in *.
  assert (names fs1 !! name = Some i) as Hi1 by (rewrite Hother; [done|]; intros j _; apply not_eq_sym, backup_neq).
  destruct (Rename_ok name (backup name 1) fs1 Hok1) as (Hok2 & Hin2 & Hto & Hfrom & Hother2); [apply not_eq_sym, backup_neq|].
  rewrite Hi1 in Hto. destruct (Rename no_fault name (backup name 1) fs1) as [e fs2]. cbn [snd] in *.
  destruct (OpenFile_new name fs2 Hok2 Hfrom) as (i' & fs3 & -> & Hok3 & Hi3 & Hempty & Hfiles).
  exists (set_fd (OpenFile_ name i') h), fs3. split; [done|]. split; [done|].
  split; [done | by exists i' | done | |].
  - cbn [set_fd fileName backupCount]. fold name k. rewrite Z.max_r by lia. intros j Hj.
    rewrite Hfiles by apply backup_neq. rewrite lookup_take_lt by lia.
    destruct (decide (j = 1)) as [->|Hj1].
    + transitivity (file_at fs0 name); [|exact Hcur]. apply file_at_eq; [by rewrite Hin2, Hin1 | by rewrite Hto, Hi].
    + replace (Z.to_nat (j - 1)) with (S (Z.to_nat (j - 1 - 1))) by lia. 
      transitivity (file_at fs0 (backup name (j - 1))); [|exact (Hb (j - 1) ltac:(lia))]. apply file_at_eq; [by rewrite Hin2, Hin1|].
      rewrite Hother2; [|apply backup_neq|].
      * replace j with ((j - 1) + 1) at 1 by lia. apply Hmove. lia.
      * intros Heq. apply Hj1, (backup_inj name); [unfold in_i64; lia..|done].
  - cbn [set_fd backupCount]. fold k. rewrite length_take. lia.
Qed.

Lemma File_Write_ok h fs l cur p :
  holds h fs l cur ->
  exists fs', File_Write no_fault (fd h) p fs = (blen p, None, fs') /\ holds h fs' l (cur ++ p).
Proof.
  intros [Hok (i & Hfd & Hi) Hcur Hb Hc]. rewrite Hfd. unfold File_Write, attempt, no_fault.
  cbn -[blen contents]. eexists. split; [reflexivity|].
  assert (inodes fs !! i = Some cur) as Hini by (unfold file_at in Hcur; by rewrite Hi in Hcur).
  split; [|by exists i| | |done].
  - destruct Hok as [Hown Hlead]. split; [exact Hown|]. cbn [names inodes inode_count].
    intros a j Hj. destruct (Hlead a j Hj) as [[c Hc'] Hlt]. split; [|done].
    destruct (decide (i = j)) as [<-|]; [by rewrite lookup_insert_eq | by rewrite lookup_insert_ne, Hc'].
  - unfold file_at, contents. cbn [names inodes]. rewrite Hi. cbn. by rewrite lookup_insert_eq, Hini.
  - intros j Hj. rewrite <- Hb by done. unfold file_at. cbn [names inodes].
    destruct (names fs !! backup (fileName h) j) as [i'|] eqn:Hi'; [|done]. cbn.
    rewrite lookup_insert_ne; [done|]. intros ->. apply (backup_neq (fileName h) j).
    by apply (names_own fs Hok _ _ i').
Qed.

(** ** Many writes *)
Section Writes.
Context (fault : nat -> option (nat * string)).

Definition write_one (s : RotatingFileHandler * FS) (p : bytes) : RotatingFileHandler * FS :=
  (Rotating_Write fault s.1 p s.2).2.
Definition write_all (ps : list bytes) (s : RotatingFileHandler * FS) : RotatingFileHandler * FS :=
  fold_left write_one ps s.
End Writes.

Lemma kept_take (k : nat) l cur :
  (0 < k)%nat -> exists o, kept l cur = o ++ kept (take k (cur :: l)) [] /\ ((length l < k)%nat -> o = []).
Proof.
  intros Hk. exists (concat (rev (drop k (cur :: l)))). split.
  - unfold kept. rewrite app_nil_r, <- concat_app, <- rev_app_distr, take_drop. cbn [rev].
    rewrite concat_app. cbn. by rewrite app_nil_r.
  - intros Hl. by rewrite drop_ge by (cbn; lia).
Qed.

Lemma kept_long m l cur : Forall (fun f => m <= blen f) l -> Z.of_nat (length l) * m <= blen (kept l cur).
Proof.
  intros Hl. unfold kept. rewrite blen_app. pose proof (blen_nonneg cur).
  induction Hl as [|f l Hf Hl IH]; [cbn; unfold blen in *; lia|]. cbn [rev].
  rewrite concat_app, blen_app. cbn [concat]. rewrite app_nil_r. cbn [length]. lia.
Qed.

(** What was written, and what the files hold of it. *)
Record holds_newest (max k m : Z) (s : RotatingFileHandler * FS) (written : bytes) (l : list bytes) (cur lost : bytes)
  : Prop := {
  hn_holds : holds s.1 s.2 l cur;
  hn_config : maxBytes s.1 = max /\ backupCount s.1 = k;
  hn_lost : written = lost ++ kept l cur;
  hn_full : lost = [] \/ Z.of_nat (length l) = k;
  hn_least : Forall (fun f => max <= blen f) l;
  hn_most : 0 < k -> Forall (fun f => blen f < max + m) (cur :: l) }.

Lemma write_one_ok max k m s written l cur lost p :
  in_i64 k -> 0 < max -> blen p <= m ->
  holds_newest max k m s written l cur lost ->
  exists l' cur' lost', holds_newest max k m (write_one no_fault s p) (written ++ p) l' cur' lost' /\
    fileName (write_one no_fault s p).1 = fileName s.1.
Proof.
  intros Hk Hmax Hp [H [Hc1 Hc2] -> Hfull Hleast Hmost]. destruct s as [h fs]. cbn [fst snd] in *.
  destruct (doRollover_ok h fs l cur) as (h' & fs' & Hroll & (Hn & Hm & Hb) & H'); [congruence | lia | done|].
  rewrite Hc1, Hc2 in H'.
  assert (exists l' c' lost', holds h' fs' l' c' /\ lost ++ kept l cur = lost' ++ kept l' c' /\
            (lost' = [] \/ Z.of_nat (length l') = k) /\ Forall (fun f => max <= blen f) l' /\
            (0 < k -> Forall (fun f => blen f < max + m) l' /\ blen c' < max))
    as (l' & c' & lost' & H1 & H2 & H3 & H4 & H5).
  { destruct (blen cur <? max) eqn:Hs.
    { exists l, cur, lost. split_and!; [done..|]. intros Hk'. specialize (Hmost Hk'). inversion_clear Hmost. split; [done|lia]. }
    apply Z.ltb_ge in Hs. destruct (0 <? k) eqn:Hkpos.
    2:{ exists l, cur, lost. split_and!; [done..|]. lia. }
    apply Z.ltb_lt in Hkpos. destruct (kept_take (Z.to_nat k) l cur) as (o & Ho & Hshort); [lia|].
    exists (take (Z.to_nat k) (cur :: l)), [], (lost ++ o). split_and!; [done | by rewrite Ho, app_assoc | | |].
    - rewrite length_take. cbn [length]. pose proof (holds_count _ _ _ _ H) as Hlen. rewrite Hc2 in Hlen.
      destruct (decide (length l < Z.to_nat k)%nat) as [Hlt|]; [|right; lia].
      rewrite Hshort by done. destruct Hfull as [-> | Hlen']; [by left | lia].
    - apply Forall_take. by constructor.
    - intros _. split; [apply Forall_take; by apply Hmost | by rewrite blen_nil]. }
  destruct (File_Write_ok h' fs' l' c' p H1) as (fs'' & Hw & H6).
  unfold write_one, Rotating_Write. cbn [fst snd]. rewrite Hroll, Hw. cbn [fst snd].
  exists l', (c' ++ p), lost'. split; [|done]. split; cbn [fst snd]; [done | by rewrite Hm, Hb | | done | done |].
  - rewrite H2. unfold kept. by rewrite <- !app_assoc.
  - intros Hk'. destruct (H5 Hk') as [H7 H8]. constructor; [|done]. rewrite blen_app. lia.
Qed.

Lemma write_all_ok max k m ps : in_i64 k -> 0 < max -> Forall (fun p => blen p <= m) ps ->
  forall s written l cur lost, holds_newest max k m s written l cur lost ->
  exists l' cur' lost', holds_newest max k m (write_all no_fault ps s) (written ++ concat ps) l' cur' lost' /\
    fileName (write_all no_fault ps s).1 = fileName s.1.
Proof.
  intros Hk Hmax. induction 1 as [|p ps Hp Hps IH]; intros s written l cur lost H; cbn [write_all fold_left concat].
  - exists l, cur, lost. by rewrite app_nil_r.
  - destruct (write_one_ok _ _ _ _ _ _ _ _ p Hk Hmax Hp H) as (l1 & c1 & o1 & H1 & Hn1).
    destruct (IH _ _ _ _ _ H1) as (l2 & c2 & o2 & H2 & Hn2).
    exists l2, c2, o2. rewrite app_assoc. split; [exact H2|]. by rewrite <- Hn1.
Qed.

Lemma New_ok name max k m fs h fs0 :
  fs_ok fs -> names fs !! name = None -> (forall i, names fs !! backup name i = None) -> 0 <= m ->
  NewRotatingFileHandler no_fault name max k fs = (Ok h, fs0) ->
  0 < max /\ fileName h = name /\ holds_newest max k m (h, fs0) [] [] [] [].
Proof.
  intros Hok Hn Hb Hm. unfold NewRotatingFileHandler. destruct (max <=? 0) eqn:Hmax; [done|].
  apply Z.leb_gt in Hmax. destruct (OpenFile_new name fs Hok Hn) as (i & fs' & -> & Hok' & Hi & Hf & Hother).
  intros [= <- <-]. split_and!; [done..|].
  split; cbn [fst snd fileName maxBytes backupCount]; [|done|done|by left|done|].
  - split; cbn [fst snd fd fileName backupCount]; [done | eauto | done | | cbn; lia].
    intros j _. rewrite Hother by apply backup_neq. rewrite (file_at_None fs) by done. by rewrite Hb.
  - intros _. constructor; [change (blen []) with 0; lia | done].
Qed.

(** ** The logger over rotated files *)

#[local] Existing Instance RotatingHandler.
Notation log_state := (RotatingFileHandler * FS)%type.

(** A line that was sent is a line of one of the goroutines. *)
Lemma sent_bound (l : Logger log_state) programs m :
  Forall (fun x => x.1 < length programs)%nat (sent l) ->
  (forall i prog, programs !! i = Some prog -> exists rest, line <$> prog = mine i (sent l) ++ rest) ->
  Forall (Forall (fun call => blen (line call) <= m)) programs ->
  Forall (fun p => blen p <= m) (sent l).*2.
Proof.
  intros Hs Hp Hm. apply Forall_fmap, Forall_forall. intros [i b] Hin. cbn.
  rewrite Forall_forall in Hs. specialize (Hs _ Hin). cbn in Hs.
  destruct (lookup_lt_is_Some_2 programs i Hs) as [prog Hprog].
  destruct (Hp i prog Hprog) as [rest Hrest].
  assert (b ∈ line <$> prog) as (call & -> & Hcall)%list_elem_of_fmap.
  { rewrite Hrest. apply elem_of_app. left. unfold mine. apply list_elem_of_fmap. exists (i, b).
    split; [done|]. by apply list_elem_of_filter. }
  pose proof (Forall_lookup_1 _ _ _ _ Hm Hprog) as Hcalls. cbn in Hcalls. rewrite Forall_forall in Hcalls. by apply Hcalls.
Qed.

(** C36: the log files hold the newest lines.  In every interleaving of
    goroutines that log lines of at most [m] bytes into rotated files, in a
    directory that has none of these files when the handler is made, and as
    long as the operating system serves every request: what was sent is
    what the files hold, oldest backup first, followed by what still waits in
    the channel; from the front bytes are missing only when all backups
    exist, and then the files hold at least [backupCount * maxBytes] bytes;
    and if there are backups at all ([0 < backupCount]) every file is shorter
    than [maxBytes] and one line. *)
Theorem log_files_hold_newest name max k m fs h fs0 programs n es (l : Logger log_state) :
  fs_ok fs -> names fs !! name = None -> (forall i, names fs !! backup name i = None) ->
  NewRotatingFileHandler no_fault name max k fs = (Ok h, fs0) ->
  in_i64 k -> 0 <= m -> Forall (Forall (fun call => blen (line call) <= m)) programs ->
  @steps _ (RotatingHandler no_fault) es (New (h, fs0) programs n) = Some l ->
  exists backups cur lost queued,
    concat (sent l).*2 = lost ++ kept backups cur ++ concat queued /\
    file_at (handler l).2 name = Some cur /\
    (forall i, 1 <= i <= Z.max 0 k -> file_at (handler l).2 (backup name i) = backups !! Z.to_nat (i - 1)) /\
    (lost = [] \/ k * max <= blen (kept backups cur)) /\
    (0 < k -> Forall (fun f => blen f < max + m) (cur :: backups)).
Proof.
  intros Hok Hn Hb Hnew Hk Hm Hprog Hes.
  destruct (New_ok name max k m fs h fs0 Hok Hn Hb Hm Hnew) as (Hmax & Hname & Hstart).
  destruct (reach_ok (h, fs0) programs n es l Hes) as [Hbuf Hp Hc _ Hs _].
  assert (Forall (fun p => blen p <= m) (sent l).*2) as Hsent.
  { apply (sent_bound l programs); [done | | done]. intros i prog Hi. destruct (Hp i prog Hi) as (p & _ & ->). by eexists. }
  rewrite (lines_sent l Hbuf) in Hsent |- *. apply Forall_app in Hsent as [Hwritten _].
  destruct (write_all_ok max k m (written l) Hk Hmax Hwritten (h, fs0) [] [] [] [] Hstart)
    as (bs & cur & lost & [Hholds [Hmb Hbc] Hlost Hfull Hleast Hmost] & Hname').
  assert ((handler l).2 = (write_all no_fault (written l) (h, fs0)).2) as ->.
  { rewrite (handler_ok _ _ Hc). by destruct (handler_closed l). }
  cbn [fst] in Hname'. rewrite Hname in Hname'. cbn [app] in Hlost.
  exists bs, cur, lost, (chars (heap l) <$> to_write (runner l) ++ msg l).
  split_and!; [| | | |done].
  - by rewrite concat_app, Hlost, <- app_assoc.
  - rewrite <- Hname'. apply (holds_cur _ _ _ _ Hholds).
  - intros i Hi. rewrite <- Hname'. apply (holds_backups _ _ _ _ Hholds). by rewrite Hbc.
  - destruct Hfull as [->|<-]; [by left | right]. by apply kept_long.
Qed.

Definition empty_fs : FS := mkFS ∅ ∅ 0 0.
Lemma empty_fs_ok : fs_ok empty_fs.
Proof. split; done. Qed.

(** Files of ten bytes and one backup: of four lines the first is gone. *)
Definition log_lines : list (list (list bytes)) :=
  [[[bytes_of "first line"]; [bytes_of "second one"]; [bytes_of "x"]; [bytes_of "third line"]]].
Definition log_events : list event := concat (replicate 4 (replicate 3 (EProducer 0 0) ++ replicate 3 (ERunner true))).
Definition log_start : res error RotatingFileHandler * FS := NewRotatingFileHandler no_fault "sys.log" 10 1 empty_fs.
Definition log_handler : RotatingFileHandler := mkRotating (OpenFile_ "sys.log" 0) "sys.log" 10 1.
Definition log_end : Logger log_state :=
  let start := New (log_handler, log_start.2) log_lines 0 in
  default start (@steps _ (RotatingHandler no_fault) log_events start).

Example log_end_files :
  (text <$> file_at (handler log_end).2 "sys.log", text <$> file_at (handler log_end).2 "sys.log.1") =
  (Some "xthird line", Some "second one").
Proof. vm_compute. reflexivity. Qed.

Lemma log_files_hold_newest_witness :
  exists backups cur lost queued,
    concat (sent log_end).*2 = lost ++ kept backups cur ++ concat queued /\
    file_at (handler log_end).2 "sys.log" = Some cur /\
    (forall i, 1 <= i <= Z.max 0 1 -> file_at (handler log_end).2 (backup "sys.log" i) = backups !! Z.to_nat (i - 1)) /\
    (lost = [] \/ 1 * 10 <= blen (kept backups cur)) /\
    (0 < 1 -> Forall (fun f => blen f < 10 + 10) (cur :: backups)).
Proof.
  apply (log_files_hold_newest "sys.log" 10 1 10 empty_fs log_handler log_start.2 log_lines 0 log_events log_end).
  - exact empty_fs_ok.
  - reflexivity.
  - intros i. apply lookup_empty.
  - vm_compute. reflexivity.
  - unfold in_i64. lia.
  - lia.
  - repeat constructor; discriminate.
  - vm_compute. reflexivity.
Defined.

(** ** What goes wrong *)

(** Without backups the file is never rotated, however long it is. *)
Lemma no_backups_no_rotation h fs l cur :
  0 < maxBytes h -> backupCount h <= 0 -> holds h fs l cur ->
  exists fs', doRollover no_fault h fs = (h, fs') /\ holds h fs' l cur.
Proof.
  intros Hmax Hk H. unfold doRollover. destruct (Stat_Size_ok h fs l cur H) as (fs' & -> & H').
  rewrite (proj2 (Z.leb_gt _ _) Hmax), (proj2 (Z.ltb_ge _ _) Hk).
  exists fs'. by destruct (blen cur <? maxBytes h).
Qed.

(** When the new file cannot be opened, the handler has no file from then
    on, and everything is lost. *)
Definition open_fails : nat -> option (nat * string) :=
  fun n => if Nat.eqb n 5 then Some (0%nat, "open sys.log: too many open files") else None.
Example failed_open_loses_all :
  let s := write_all open_fails (bytes_of <$> ["first line"; "second one"; "third"; "fourth"])
             (log_handler, log_start.2) in
  fd s.1 = NilFile /\ file_at s.2 "sys.log" = None /\ text <$> file_at s.2 "sys.log.1" = Some "first line".
Proof. vm_compute. done. Qed.
