(* ===== verification/OwnerFacts.v ===== *)
(** * Whose session it is

    Every command leaves the user of a session alone, and its rules: looking
    up a rule only changes the database the default rule was last used
    for. *)
From S2P Require Import Prelude Errors StateM GoLib GoTime GoFmt Charset ErrTables Wire Field Order Resultset.
From S2P Require Import Ast RouteLists Rule Plan Router RouterTheorems ExecDB SelectMerge StmtArgs Session Handlers Stmt.
From S2P Require Import SessionFacts.
From Stdlib Require Import Ascii.
Open Scope Z_scope.

Definition same_owner (c c' : ClientConn) : Prop :=
  c_user c' = c_user c /\ same_router (c_router c) (c_router c').

#[export] Instance same_owner_preorder : PreOrder same_owner.
Proof. split; [by split|]. intros x y z [? ?] [? ?]. split; by etrans. Qed.

(** [moves], with deferred and recovering functions. *)
Ltac moves_deferred :=
  repeat (progress (moves; try first [apply moves_with_defer; [exact _ | |] | apply moves_recovering; [exact _|]])).

#[local] Hint Extern 1 (moves same_owner (modify _)) => apply moves_modify; [exact _ | by split] : methods.

Section Owner.
Context `{Outside} `{StrMapOrder}.

Lemma owner_of_sum {A} (r : A + error) : moves same_owner (of_sum r).
Proof. destruct r; unfold of_sum; moves. Qed.
Lemma owner_nil_pointer {A} : moves same_owner (nil_pointer (A := A)).
Proof. unfold nil_pointer. moves. Qed.
#[local] Hint Resolve owner_of_sum owner_nil_pointer : methods.

Lemma owner_send co cmd : moves same_owner (send co cmd).
Proof. unfold send, deref. moves. Qed.
#[local] Hint Resolve owner_send : methods.
Lemma owner_exec co sql : moves same_owner (exec co sql).
Proof. unfold exec. moves. Qed.
#[local] Hint Resolve owner_exec : methods.
Lemma owner_Execute co sql args : moves same_owner (Execute co sql args).
Proof. unfold Execute. moves. Qed.
Lemma owner_Begin co : moves same_owner (Begin co).
Proof. unfold Begin. moves. Qed.
Lemma owner_Commit co : moves same_owner (Commit co).
Proof. unfold Commit. moves. Qed.
Lemma owner_Rollback co : moves same_owner (Rollback co).
Proof. unfold Rollback. moves. Qed.
Lemma owner_SetAutoCommit co n : moves same_owner (SetAutoCommit co n).
Proof. unfold SetAutoCommit. moves. Qed.
Lemma owner_UseDB co db : moves same_owner (UseDB co db).
Proof. unfold UseDB, deref. moves. Qed.
Lemma owner_SetCharset co charset collation : moves same_owner (SetCharset co charset collation).
Proof. unfold SetCharset, deref. moves. Qed.
Lemma owner_Close co : moves same_owner (Close co).
Proof. unfold Close. moves. Qed.
#[local] Hint Resolve owner_Execute owner_Begin owner_Commit owner_Rollback owner_SetAutoCommit owner_UseDB
  owner_SetCharset owner_Close : methods.

(** What is read is changed and put back. *)
Lemma owner_update {A} (f : ClientConn -> ClientConn) (k : ClientConn -> ST ClientConn A) :
  (forall c, same_owner c (f c)) -> (forall c, moves same_owner (k c)) ->
  moves same_owner (do! c := get in do! _ := put (f c) in k c).
Proof. intros Hf Hk c. unfold bind, get, put. etrans; [apply Hf | apply Hk]. Qed.

Lemma owner_respond r : moves same_owner (respond r).
Proof. apply owner_update; [by split | moves]. Qed.
Lemma owner_take_conn n slave : moves same_owner (take_conn n slave).
Proof.
  unfold take_conn. destruct n as [node|]; [|moves]. cbv zeta. apply (owner_update (fun c => _)); [by split|].
  intros c. apply moves_bind; [exact _ | apply owner_of_sum|]. intros [[db charset] collation].
  apply (owner_update (fun c => _)); [by split | moves].
Qed.
#[local] Hint Resolve owner_respond owner_take_conn : methods.

Lemma owner_writeOK r : moves same_owner (writeOK r).
Proof. unfold writeOK. moves. Qed.
Lemma owner_no_affected_rows : moves same_owner no_affected_rows.
Proof. unfold no_affected_rows. moves. Qed.
#[local] Hint Resolve owner_writeOK owner_no_affected_rows : methods.
Lemma owner_writeResultset status r : moves same_owner (writeResultset status r).
Proof. unfold writeResultset. moves. Qed.

Lemma owner_getBackendConn n slave : moves same_owner (getBackendConn n slave).
Proof. unfold getBackendConn. moves. Qed.
Lemma owner_closeConn co b : moves same_owner (closeConn co b).
Proof. unfold closeConn. moves_deferred. Qed.
Lemma owner_closeShardConns conns b : moves same_owner (closeShardConns conns b).
Proof. unfold closeShardConns. moves. Qed.

Lemma owner_executeInNode co sql args : moves same_owner (executeInNode co sql args).
Proof. unfold executeInNode. moves. Qed.
Lemma owner_run_on co sqls args : moves same_owner (run_on co sqls args).
Proof. induction sqls as [|sql sqls IH]; cbn [run_on]; moves. Qed.
#[local] Hint Resolve owner_run_on : methods.
Lemma owner_run_all conns sqls args names : moves same_owner (run_all conns sqls args names).
Proof. induction names as [|name names IH]; cbn [run_all]; moves. Qed.
#[local] Hint Resolve owner_run_all : methods.
Lemma owner_executeInMultiNodes conns sqls args : moves same_owner (executeInMultiNodes conns sqls args).
Proof. unfold executeInMultiNodes. moves. Qed.
End Owner.
#[export] Hint Resolve owner_of_sum owner_nil_pointer owner_send owner_Begin owner_Commit owner_Rollback
  owner_SetAutoCommit owner_UseDB owner_Close owner_respond owner_writeOK owner_no_affected_rows
  owner_writeResultset owner_getBackendConn owner_closeConn owner_closeShardConns owner_executeInNode
  owner_executeInMultiNodes : methods.

Section OwnerHandlers.
Context `{Outside} `{StrMapOrder} `{MapOrder} `{Timezone} `{GoFloat} `{GoSort} `{ErrorText}.
Context (s : proxy).

Lemma owner_on_router {A} (m : ST Router A) : moves same_router m -> moves same_owner (on_router m).
Proof. intros Hm c. unfold on_router. specialize (Hm (c_router c)). by destruct (m (c_router c)). Qed.

Lemma owner_get_exec_db tokens sql : moves same_owner (get_exec_db s tokens sql).
Proof.
  unfold get_exec_db. apply moves_bind; [exact _ | moves | intros c]. apply owner_on_router.
  case_match; [apply moves_GetTransExecDB | apply moves_GetExecDB].
Qed.

Lemma owner_plan_statement stmt : moves same_owner (plan_statement stmt).
Proof.
  unfold plan_statement. apply moves_get_bind; [exact _|]. intros c.
  unfold bind, lift, modify. destruct (BuildPlan _ _ _) as [[p r]|e|pn] eqn:E; [|done..].
  apply BuildPlan_shape in E as (t & rule & Hr & _). pose proof (GetRule_same (c_router c) (c_db c) t) as Hs.
  rewrite Hr in Hs. by split.
Qed.
#[local] Hint Resolve owner_get_exec_db owner_plan_statement : methods.

Lemma owner_take_conns slave nodes conns : moves same_owner (take_conns slave nodes conns).
Proof. revert conns. induction nodes as [|[name n] nodes IH]; intros conns; cbn [take_conns]; moves. Qed.
#[local] Hint Resolve owner_take_conns : methods.
Lemma owner_getShardConns slave plan : moves same_owner (getShardConns s slave plan).
Proof. unfold getShardConns. moves. Qed.
#[local] Hint Resolve owner_getShardConns : methods.

Lemma owner_handleExec stmt args : moves same_owner (handleExec s stmt args).
Proof. unfold handleExec, merge_exec_result. moves_deferred. Qed.
Lemma owner_handleSelect stmt args : moves same_owner (handleSelect s stmt args).
Proof. unfold handleSelect, merge_select_result. moves. Qed.

Lemma owner_handleBegin : moves same_owner handleBegin.
Proof. unfold handleBegin. moves. Qed.
Lemma owner_end_each finish err l : (forall co, moves same_owner (finish co)) -> moves same_owner (end_each finish err l).
Proof. intros Hf. revert err. induction l as [|co l IH]; intros err; cbn [end_each]; moves. Qed.
#[local] Hint Resolve owner_end_each : methods.
Lemma owner_handleCommit : moves same_owner handleCommit.
Proof. unfold handleCommit, commit, end_transaction. moves. Qed.
Lemma owner_handleRollback : moves same_owner handleRollback.
Proof. unfold handleRollback, rollback, end_transaction. moves. Qed.
Lemma owner_handleUseDB db : moves same_owner (handleUseDB s db).
Proof. unfold handleUseDB. moves_deferred. Qed.

Lemma owner_autocommit_each l : moves same_owner (autocommit_each l).
Proof. induction l as [|co l IH]; cbn [autocommit_each]; moves. Qed.
#[local] Hint Resolve owner_autocommit_each : methods.
Lemma owner_handleSet comments exprs : moves same_owner (handleSet comments exprs).
Proof. unfold handleSet, handleSetAutoCommit, handleSetNames. moves. Qed.

Lemma owner_preHandleShard sql : moves same_owner (preHandleShard s sql).
Proof. unfold preHandleShard, execute_unplanned. moves_deferred. Qed.
#[local] Hint Resolve owner_handleExec owner_handleSelect owner_handleBegin owner_handleCommit owner_handleRollback
  owner_handleUseDB owner_handleSet owner_preHandleShard : methods.

Lemma owner_run_statement stmt sql : moves same_owner (run_statement s stmt sql).
Proof. destruct stmt; cbn [run_statement]; unfold admin_command, not_supported, handle_simple_select; moves. Qed.
#[local] Hint Resolve owner_run_statement : methods.
Lemma owner_handleQuery sql : moves same_owner (handleQuery s sql).
Proof. unfold handleQuery. moves_deferred. Qed.

Lemma owner_handleFieldList table wildcard : moves same_owner (handleFieldList s table wildcard).
Proof.
  unfold handleFieldList. apply moves_get_bind; [exact _|]. intros c.
  pose proof (GetRule_same (c_router c) (c_db c) table) as Hr.
  destruct (GetRule (c_router c) (c_db c) table) as [rule r]. unfold bind at 1, modify at 1.
  etrans; [apply (conj (eq_refl (c_user c)) Hr : same_owner c (set_router r c))|].
  match goal with |- same_owner ?c1 (?m ?c1).1 => enough (moves same_owner m) as Hm by apply Hm end. moves_deferred.
Qed.
Lemma owner_clean : moves same_owner clean.
Proof. unfold clean. moves. Qed.
#[local] Hint Resolve owner_handleQuery owner_handleFieldList owner_handleRollback : methods.

Lemma owner_prepare_on_conn err co sql : moves same_owner (prepare_on_conn err co sql).
Proof. unfold prepare_on_conn, prepare_error, Prepare_on. moves. Qed.
Lemma owner_run_prepared stmt sql args : moves same_owner (run_prepared s stmt sql args).
Proof. unfold run_prepared, handlePrepareSelect, handlePrepareExec, prepared_node. moves_deferred. Qed.
#[local] Hint Resolve owner_prepare_on_conn owner_run_prepared : methods.

(** The same of methods that see the prepared statements. *)
Definition same_client (c c' : Client) : Prop := same_owner (session c) (session c').
#[local] Instance same_client_preorder : PreOrder same_client.
Proof. split; [intros x; by unfold same_client|]. intros x y z. unfold same_client. by transitivity (session y). Qed.

Lemma client_on_session {A} (m : ST ClientConn A) : moves same_owner m -> moves same_client (on_session m).
Proof. intros Hm c. unfold on_session. specialize (Hm (session c)). by destruct (m (session c)). Qed.
Lemma client_modify f : (forall c, session (f c) = session c) -> moves same_client (modify f).
Proof. intros Hf. apply moves_modify; [exact _|]. intros c. unfold same_client. by rewrite Hf. Qed.
Lemma client_on_args id m : moves same_client (on_args id m).
Proof. intros c. unfold on_args. destruct (stmts c !! id) as [st|]; [by destruct (m (Stmt_args st)) | done]. Qed.
#[local] Hint Resolve client_on_args : methods.
#[local] Hint Extern 1 (moves same_client (modify _)) => apply client_modify; done : methods.
#[local] Hint Extern 2 (moves same_client (on_session _)) => apply client_on_session; moves_deferred : methods.

Lemma client_the_stmt id command : moves same_client (the_stmt id command).
Proof. unfold the_stmt. moves. Qed.
#[local] Hint Resolve client_the_stmt : methods.
Lemma client_handleStmtPrepare sql : moves same_client (handleStmtPrepare s sql).
Proof. unfold handleStmtPrepare, writePrepare. moves_deferred. Qed.
Lemma client_handleStmtExecute data : moves same_client (handleStmtExecute s data).
Proof. unfold handleStmtExecute, execute_with, ResetParams. moves. Qed.
#[local] Hint Resolve client_handleStmtPrepare client_handleStmtExecute : methods.

Lemma client_dispatch data : moves same_client (dispatch s data).
Proof.
  unfold dispatch, handleStmtClose, handleStmtSendLongData, handleStmtReset, ResetParams, writeEOF. moves.
Qed.
#[local] Hint Resolve client_dispatch : methods.

(** One round of a client's loop. *)
Lemma owner_serve_packet data c : same_owner (session c) (session (serve_packet s data c).1).
Proof.
  enough (moves same_client (serve_packet s data)) as Hm by apply Hm. unfold serve_packet, report, writeError. moves.
Qed.
End OwnerHandlers.
