(* ===== verification/NoSchema.v ===== *)
(** * Sessions without a schema

    [onConn] asks for the schema of the user without looking at the answer,
    so that a client who logs in while the configuration is replaced may get
    none.  [handleUseDB], [handleFieldList] and [handleStmtPrepare] check for
    that; every other use of [c.schema] is a nil pointer, whose panic
    [handleQuery] recovers as an internal error. *)
From S2P Require Import Prelude Errors StateM GoLib GoTime GoFmt Charset ErrTables Wire Field Order Resultset.
From S2P Require Import Ast YyParse RouteLists Rule Plan Router ExecDB SelectMerge StmtArgs Session Handlers Stmt.
From S2P Require Import SessionFacts OwnerFacts GoNet Node Server Admin.
From Stdlib Require Import Ascii.
Open Scope Z_scope.

Section Session.
Context `{Outside} `{StrMapOrder} `{MapOrder} `{Timezone} `{GoFloat} `{GoSort} `{ErrorText}.
Context (s : proxy).   (* its [schema_nodes] are not used *)

Abbreviation M := (ST ClientConn).

Definition no_database {A} : M A := fail (ErrSqlError (NewDefaultError ER_NO_DB_ERROR [])).

(** [GetTransExecDB] and [GetExecDB]: a hint looks into [c.schema.nodes],
    a statement on tables into [c.schema.rule]; so does [setExecuteNode]. *)
Definition get_exec_db_unset (tokens : list string) (sql : string) : M (option ExecuteDB) :=
  do! c := get in
  do! t0 := lift (at_ tokens 0) in
  do! hint := (if isInTransaction c && Nat.leb 2 (length tokens) then lift (is_comment t0) else ret false) in
  if hint then nil_pointer
  else
    match PARSE_TOKEN_MAP !! ToLower t0 with
    | Some TK_ID_SET =>
        do! planned := on_router (set_planned sql tokens) in if planned then ret None else nil_pointer
    | Some (TK_ID_SELECT | TK_ID_DELETE | TK_ID_INSERT | TK_ID_REPLACE | TK_ID_UPDATE | TK_ID_SHOW | TK_ID_TRUNCATE)
    | None => nil_pointer
    | Some _ => ret None
    end.

Definition preHandleShard_unset (sql : string) : M bool :=
  if slen sql =? 0 then fail ErrCmdUnsupport
  else
    do! refused := lift (blacklisted s sql) in
    if (refused : bool) then fail (ErrSqlError (NewError ER_UNKNOWN_ERROR "sql in blacklist."))
    else
    let tokens := FieldsFunc sql IsSqlSep in
    match tokens with
    | [] => fail ErrCmdUnsupport
    | _ =>
        do! (err, _) := try (get_exec_db_unset tokens sql) in
        match err with
        | Some ErrIgnoreSQL => do! _ := writeOK None in ret true
        | Some e => fail e
        | None => ret false
        end
    end.

Definition handleUseDB_unset (dbName : string) : M unit :=
  if slen dbName =? 0 then fail (Errorf "must have database, the length of dbName is zero") else no_database.

Definition run_statement_unset (stmt : Statement) (sql : string) : M unit :=
  match stmt with
  | StSelect _ | StInsert _ | StUpdate _ | StDelete _ | StReplace _ | StTruncate _ => nil_pointer
  | StUseDB db => handleUseDB_unset db
  | _ => run_statement s stmt sql
  end.

Definition handleQuery_unset (sql : string) : M unit :=
  recovering
    (let sql := TrimRight sql ";" in
     do! hasHandled := preHandleShard_unset sql in
     if hasHandled then ret tt
     else do! stmt := lift (YyParse.Parse sql) in run_statement_unset stmt sql)
    ErrInternalServer.

Definition run_prepared_unset (stmt : Statement) (sql : string) (args : list value) : M unit :=
  match stmt with
  | StSelect _ | StInsert _ | StUpdate _ | StDelete _ | StReplace _ => nil_pointer
  | _ => run_prepared s stmt sql args
  end.

(** The commands that do not look at the schema are those of [dispatch]. *)
Definition dispatch_unset (data : bytes) : C unit :=
  do! cmd := lift (at_ data 0) in
  let args := tail data in
  if cmd =? COM_QUERY then on_session (handleQuery_unset (string_of args))
  else if cmd =? COM_INIT_DB then on_session (handleUseDB_unset (string_of args))
  else if cmd =? COM_FIELD_LIST then do! _ := lift (field_list_args args) in on_session no_database
  else if cmd =? COM_STMT_PREPARE then on_session no_database
  else if cmd =? COM_STMT_EXECUTE then execute_with run_prepared_unset args
  else dispatch s data.

(** ** The session keeps its user *)
Lemma moves_set_planned sql tokens : moves same_router (set_planned sql tokens).
Proof. unfold set_planned. moves. Qed.

Lemma owner_get_exec_db_unset tokens sql : moves same_owner (get_exec_db_unset tokens sql).
Proof.
  assert (moves same_owner (on_router (set_planned sql tokens))) by apply owner_on_router, moves_set_planned.
  unfold get_exec_db_unset. moves.
Qed.
#[local] Hint Resolve owner_get_exec_db_unset : methods.
Lemma owner_preHandleShard_unset sql : moves same_owner (preHandleShard_unset sql).
Proof. unfold preHandleShard_unset. moves. Qed.
#[local] Hint Resolve owner_preHandleShard_unset owner_run_statement owner_run_prepared : methods.
Lemma owner_run_statement_unset stmt sql : moves same_owner (run_statement_unset stmt sql).
Proof. unfold run_statement_unset, handleUseDB_unset, no_database. destruct stmt; moves. Qed.
#[local] Hint Resolve owner_run_statement_unset : methods.
Lemma owner_handleQuery_unset sql : moves same_owner (handleQuery_unset sql).
Proof. unfold handleQuery_unset. moves_deferred. Qed.
Lemma owner_run_prepared_unset stmt sql args : moves same_owner (run_prepared_unset stmt sql args).
Proof. unfold run_prepared_unset. moves. Qed.
#[local] Hint Resolve owner_handleQuery_unset owner_run_prepared_unset client_the_stmt client_on_args client_dispatch : methods.
#[local] Existing Instance same_client_preorder.
#[local] Hint Extern 1 (moves same_client (modify _)) => apply client_modify; done : methods.
#[local] Hint Extern 2 (moves same_client (on_session _)) => apply client_on_session; moves : methods.

Lemma client_dispatch_unset data : moves same_client (dispatch_unset data).
Proof. unfold dispatch_unset, handleUseDB_unset, no_database, execute_with, ResetParams. moves. Qed.
#[local] Hint Resolve client_dispatch_unset : methods.
Lemma owner_report_unset data c : same_owner (session c) (session (report (dispatch_unset data) c).1).
Proof. enough (moves same_client (report (dispatch_unset data))) as Hm by apply Hm. unfold report, Stmt.writeError. moves. Qed.
End Session.

(** ** Administration without a schema *)
Section Admin.
Context `{StrMapOrder} `{Stats} `{GoFloat}.
Variables
  (room : nat -> nat) (backends : nat -> servers) (create_file : string -> option error)
  (WriteConfigFile : Config -> option error) (execPath : string).

(** The three lists that name [c.schema]; that of the schemas does so once for every
    schema of the configuration. *)
Definition shows_schema (stmt : Statement) (s : Server) : bool :=
  match stmt with
  | StAdmin region columns rows =>
      match node_String (TableName_Format region), first_tuple rows 3 with
      | Ok region, Ok [opt; k; v] =>
          is_ok (checkCmdOrder region columns) && String.eqb (ToLower region) "server" && String.eqb (ToLower opt) "show" &&
          String.eqb v "config" &&
          (String.eqb k "proxy" || String.eqb k "node" ||
           (String.eqb k "schema" && match SchemaList (cfg s) with [] => false | _ => true end))
      | _, _ => false
      end
  | _ => false
  end.

Definition no_schema : Schema := mkSchema ∅ (mkRouter ∅ (NewDefaultRule "") []).

Definition admin_statement_unset (stmt : Statement) : ST Server (option Resultset) :=
  do! s := get in
  if shows_schema stmt s then nil_pointer
  else admin_statement room backends create_file WriteConfigFile execPath no_schema stmt.

Definition proxy_unset (s : Server) : proxy :=
  mkProxy ∅ (dom (nodes s)) (refuses s) (fun stmt => (admin_statement_unset stmt s).2).

Definition query_effect_unset `{Outside} (sql : string) (c : ClientConn) (s : Server) : Server :=
  let sql := TrimRight sql ";" in
  match preHandleShard_unset (proxy_unset s) sql c with
  | (c, Ok false) =>
      match YyParse.Parse sql with
      | Ok stmt => if is_admin stmt && String.eqb (c_user c) "root" then (admin_statement_unset stmt s).1 else s
      | _ => s
      end
  | _ => s
  end.

(** The schema that stands in for none is never looked at. *)
Lemma admin_statement_any_schema sch sch' stmt s : shows_schema stmt s = false ->
  admin_statement room backends create_file WriteConfigFile execPath sch stmt s =
  admin_statement room backends create_file WriteConfigFile execPath sch' stmt s.
Proof.
  intros Hs. destruct stmt as [| | | | | | | | | | | | |reg columns rows| | |]; try done. cbn [shows_schema admin_statement] in *.
  unfold handleAdmin, bind at 1, lift at 1. symmetry. unfold bind at 1, lift at 1.
  destruct (node_String _) as [region|e|p]; [|done..].
  unfold bind at 1, lift at 1. symmetry. unfold bind at 1, lift at 1.
  destruct (checkCmdOrder region _) as [[]|e|p]; [|done..].
  destruct (String.eqb (ToLower region) "node"); [done|]. destruct (String.eqb (ToLower region) "server"); [|done].
  unfold no_result, handleServerCmd, bind at 1, lift at 1. symmetry. unfold bind at 1, lift at 1.
  destruct (first_tuple _ 3) as [words|e|p]; [|done..].
  destruct words as [|opt [|k [|v [|]]]]; try done. destruct (String.eqb (ToLower opt) "show"); [|done]. cbn [is_ok andb] in Hs.
  unfold handleAdminShow. destruct ((slen k =? 0) || (slen v =? 0)); [done|].
  destruct (String.eqb v "config"); cbn [andb] in *; [|by rewrite !andb_false_r].
  destruct (String.eqb k "proxy"); [done|]. destruct (String.eqb k "node"); [done|].
  destruct (String.eqb k "schema"); [|done]. cbn [andb orb] in *. unfold from_server, bind, get, handleShowSchemaConfig.
  by destruct (SchemaList (cfg s)).
Qed.
End Admin.
