(* ===== verification/Serve.v ===== *)
(** * The life of a client connection ([Run], [Close], [newClientConn],
      [onConn] of [proxy/server/server.go]; [IsAllowConnect], [Run] and
      [reloadConfig] of [proxy/server/conn.go]) and the reloading of the
      configuration ([UpdateConfig])

    The accept loop starts a goroutine for every client; all of them and the
    one that reads the configuration again share the server and the schemas,
    which are pointers: a session keeps the one it was given, and its
    lookups write the database of its default rule.  A step of the world is
    one atomic step of one goroutine.

    [UpdateConfig] takes [configUpdateMutex] once the new configuration is
    checked, and then replaces the parts of the server one by one; only
    [newClientConn] and [reloadConfig] wait for the lock, while the
    handshake, the schema of a client that logs in, the version and commands
    are read without it.  A command has two steps: it begins, and it returns,
    when and if it does, since it may wait for a place in a pool for ever; a
    history in which a connection stays [Executing] is one in which its
    command has not returned.  Its effects are put at its return.  The
    responses of commands stay in the session, the handshake is on the wire;
    nothing is logged. *)
From S2P Require Import Prelude Errors StateM GoLib GoTime GoFmt Charset ErrTables Wire Field Order Resultset.
From S2P Require Import Ast RouteLists Rule Plan Router ExecDB SelectMerge StmtArgs Session Handlers Stmt.
From S2P Require Import Packet ClientIO GoNet Node Server Admin NoSchema.
From Stdlib Require Import Ascii.
Open Scope Z_scope.

(** [net.SplitHostPort]: the host. *)
Definition SplitHostPort (hostport : string) : option string :=
  match hostport with
  | String "[" rest =>
      match SplitN2 rest "]" with
      | [host; String ":" port] =>
          if schar_in ":" port || schar_in "[" rest || schar_in "]" port then None else Some host
      | _ => None
      end
  | _ =>
      match Split hostport ":" with
      | [host; _] => if schar_in "[" hostport || schar_in "]" hostport then None else Some host
      | _ => None
      end
  end.

(** [mysql.RandomBuf]: [Intn k] is the [k]-th number, below 97. *)
Definition RandomBuf (size : nat) (Intn : nat -> Z) : bytes := (fun i => u8 (30 + Intn i)) <$> seq 0 size.

Inductive phase : Type :=
| Connected                     (* [newClientConn] has returned *)
| Allowed                       (* its address may connect *)
| LoggedIn                      (* [Handshake] has returned *)
| Reading                       (* in the loop of [Run], before [readPacket] *)
| Outdated (data : bytes)       (* before [reloadConfig] *)
| Reloaded (data : bytes)       (* before [c.configVer = c.proxy.configVer] *)
| Dispatching (data : bytes)    (* before [dispatch] *)
| Executing (data : bytes)      (* in [dispatch] *)
| Leaving                       (* closed *)
| Gone.                         (* no longer counted *)

(** A pointer to a schema: which configuration it was made for, counted from
    the first, and for which user. *)
Abbreviation schema_ptr := (nat * string)%type.

(** A [ClientConn]: its socket, its schema and nodes, its session. *)
Record Served (W : Type) := mkServed {
  sv_phase : phase;
  sv_wire : ClientIO W;
  sv_nodes : gmap string nat;
  sv_schema : option schema_ptr;
  sv_configVer : Z;
  sv_client : Client
}.
Arguments mkServed {W} _ _ _ _ _ _.
Arguments sv_phase {W} _.
Arguments sv_wire {W} _.
Arguments sv_nodes {W} _.
Arguments sv_schema {W} _.
Arguments sv_configVer {W} _.
Arguments sv_client {W} _.

(** A socket that was accepted: the peer's address, what the peer sends. *)
Record Accepted (W : Type) := mkAccepted { ac_remote : string; ac_input : bytes; ac_conn : W }.
Arguments mkAccepted {W} _ _ _.
Arguments ac_remote {W} _.
Arguments ac_input {W} _.
Arguments ac_conn {W} _.

Inductive accept_loop : Type := Checking | Accepting | Returned.

(** ** The configuration that is read again

    What [UpdateConfig] assigns to the server while it holds the lock. *)
Inductive assignment : Type :=
| AssignConfig (c : Config)
| SwitchBlackList (l : nat)
| SwitchAllowIps (l : ips)
| AssignUsers (m : gmap string string)
| AssignSlowLogTime (t : Z)
| NodesOffline
| AssignNodes (m : gmap string nat)
| AssignSchemas (m : gmap string Schema).

Definition assignments (newCfg : Config) (new : nat * ips * gmap string nat * gmap string Schema) : list assignment :=
  let '(newBlackList, newAllowIps, ns, newSchemas) := new in
  [AssignConfig newCfg; SwitchBlackList newBlackList; SwitchAllowIps newAllowIps;
   AssignUsers (user_map (UserList newCfg)); AssignSlowLogTime (SlowLogTime newCfg);
   NodesOffline; AssignNodes ns; AssignSchemas newSchemas].

Inductive reloading : Type :=
| Idle
| Ready (todo : list assignment)      (* before [configUpdateMutex.Lock()] *)
| Updating (todo : list assignment)   (* the lock is held *)
| Updated.                            (* the version is raised; before [Unlock] *)

(** What all goroutines share.  The schemas of the [n]-th configuration are
    at [(n, user)]; those that no one has any more stay. *)
Record Shared := mkShared {
  server : Server;
  generation : nat;
  schema_heap : gmap schema_ptr Schema;
  reload : reloading
}.
Definition set_server (s : Server) (G : Shared) : Shared := mkShared s (generation G) (schema_heap G) (reload G).
Definition set_reload (r : reloading) (G : Shared) : Shared := mkShared (server G) (generation G) (schema_heap G) r.
Definition set_heap (h : gmap schema_ptr Schema) (G : Shared) : Shared := mkShared (server G) (generation G) h (reload G).
Definition on_server (f : Server -> Server) (G : Shared) : Shared := set_server (f (server G)) G.

(** New schemas are made for every configuration. *)
Definition new_schemas (g : nat) (m : gmap string Schema) (heap : gmap schema_ptr Schema) : gmap schema_ptr Schema :=
  kmap (pair g) m ∪ heap.

Definition assign (a : assignment) (G : Shared) : Shared :=
  match a with
  | AssignConfig c => on_server (set_cfg c) G
  | SwitchBlackList l => on_server (fun s => set_blacklistSqls (change_to l (blacklistSqls s)) s) G
  | SwitchAllowIps l => on_server (fun s => set_allowips (change_to l (allowips s)) s) G
  | AssignUsers m => on_server (set_users m) G
  | AssignSlowLogTime t => on_server (fun s => (try (ChangeSlowLogTime (FormatInt t)) s).1) G
  | NodesOffline => on_server nodes_offline G
  | AssignNodes m => on_server (set_nodes m) G
  | AssignSchemas m =>
      mkShared (set_schemas m (server G)) (S (generation G)) (new_schemas (S (generation G)) m (schema_heap G)) (reload G)
  end.

(** [s.configVer += 1] *)
Definition raise_version (s : Server) : Server := set_configVer (u32 (configVer s + 1)) s.

(** [configUpdateMutex] is held. *)
Definition locked (G : Shared) : bool := match reload G with Updating _ | Updated => true | _ => false end.

(** ** The world *)
Record World (W : Type) := mkWorld {
  shared : Shared;
  running : bool; listening : bool; loop : accept_loop;
  spawned : list (Accepted W);     (* [go s.onConn(conn)], before it runs *)
  counted : list (Accepted W);     (* in [newClientConn] *)
  baseConnId : Z;
  conns : list (Served W)
}.
Arguments mkWorld {W} _ _ _ _ _ _ _ _.
Arguments shared {W} _.
Arguments running {W} _.
Arguments listening {W} _.
Arguments loop {W} _.
Arguments spawned {W} _.
Arguments counted {W} _.
Arguments baseConnId {W} _.
Arguments conns {W} _.

(** What one connection does next. *)
Inductive action : Type := Allow | Shake | Enter | Read | Refresh | Note | Dispatch | Return (slow : nat) | Leave.

(** [Count], [Start]: the [k]-th of the new goroutines begins, and makes its
    connection. *)
Inductive event (W : Type) : Type :=
| Loop | Accept (a : Accepted W) | AcceptError
| Count (k : nat) | Start (k : nat) (Intn : nat -> Z)
| Act (i : nat) (a : action)
| Reload (c : Config) | Lock | Assign | Raise | Unlock
| Flush | Shutdown.
Arguments Loop {W}.
Arguments Accept {W} _.
Arguments AcceptError {W}.
Arguments Count {W} _.
Arguments Start {W} _ _.
Arguments Act {W} _ _.
Arguments Reload {W} _.
Arguments Lock {W}.
Arguments Assign {W}.
Arguments Raise {W}.
Arguments Unlock {W}.
Arguments Flush {W}.
Arguments Shutdown {W}.

Definition on_counter (f : Counter -> Counter) (s : Server) : Server :=
  mkServer (cfg s) (users s) (status s) (logSql s) (slowLogTime s) (blacklistSqls s) (allowips s) (f (counter s))
    (nodes s) (schemas s) (configVer s) (defaults s) (black_lists s) (arrays s) (all_nodes s) (files s).

(** The rules of a session are looked up at every command. *)
Definition no_rules : Router := mkRouter ∅ (NewDefaultRule "") [].

Section Serve.
Context {W : Type} `{Writer W}.
Context `{StrMapOrder} `{MapOrder} `{Timezone} `{GoFloat} `{GoSort} `{ErrorText} `{Stats}.
(** What is outside of the [i]-th connection, and of the server. *)
Variables
  (outside : nat -> Outside)
  (room : nat -> nat) (backends : nat -> servers) (create_file : string -> option error)
  (WriteConfigFile : Config -> option error) (execPath : string).

Abbreviation Served := (Served W).
Abbreviation World := (World W).
Abbreviation event := (event W).

(** ** One connection *)
Definition set_phase (p : phase) (c : Served) : Served :=
  mkServed p (sv_wire c) (sv_nodes c) (sv_schema c) (sv_configVer c) (sv_client c).
Definition set_wire (io : ClientIO W) (c : Served) : Served :=
  mkServed (sv_phase c) io (sv_nodes c) (sv_schema c) (sv_configVer c) (sv_client c).
Definition set_configVer (v : Z) (c : Served) : Served :=
  mkServed (sv_phase c) (sv_wire c) (sv_nodes c) (sv_schema c) v (sv_client c).
Definition set_served_nodes (m : gmap string nat) (c : Served) : Served :=
  mkServed (sv_phase c) (sv_wire c) m (sv_schema c) (sv_configVer c) (sv_client c).
Definition set_client (cl : Client) (c : Served) : Served :=
  mkServed (sv_phase c) (sv_wire c) (sv_nodes c) (sv_schema c) (sv_configVer c) cl.

Definition new_session (d : charset_defaults) : ClientConn :=
  mkClientConn SERVER_STATUS_AUTOCOMMIT (d_collation d) (d_charset d) "" "" no_rules ∅ false 0 0 0 [] [].

Definition newClientConn (s : Server) (connectionId : Z) (salt : bytes) (a : Accepted W) : Served :=
  mkServed Connected
    (mkClientIO (NewPacketIO (ac_input a) (ac_conn a)) connectionId salt (ac_remote a) 0 SERVER_STATUS_AUTOCOMMIT "" "")
    (nodes s) None (configVer s) (mkClient (new_session (defaults s)) 0 ∅).

(** [conn.writeError(err); conn.Close(); return] *)
Definition turn_away (m : SqlError) (c : Served) : Served :=
  set_phase Leaving (set_wire (ClientIO.writeError m (sv_wire c)).1 c).

Definition address_denied : SqlError :=
  NewError ER_ACCESS_DENIED_ERROR "ip address access denied by kingshard.".

Definition clientHost (c : Served) : string := default "" (SplitHostPort (io_remote (sv_wire c))).

(** The user and the database of a session are known after the handshake. *)
Definition log_in (io : ClientIO W) (c : ClientConn) : ClientConn :=
  mkClientConn (c_status c) (c_collation c) (c_charset c) (io_user io) (io_db io) (c_router c) (txConns c) (c_closed c)
    (c_lastInsertId c) (c_affectedRows c) (c_takes c) (c_conns c) (c_sent c).
Definition on_client (f : ClientConn -> ClientConn) (c : Served) : Served :=
  set_client (set_session (f (session (sv_client c))) (sv_client c)) c.

Definition check_address (s : Server) (c : Served) : Served :=
  if IsAllowConnect s (clientHost c) then set_phase Allowed c else turn_away address_denied c.

(** A panic is recovered by [onConn]. *)
Definition shake_hands (s : Server) (c : Served) : Served :=
  let '(io, r) := Handshake (users s) (sv_wire c) in
  let c := set_wire io c in
  match r with
  | Ok _ => set_phase LoggedIn (on_client (log_in io) c)
  | Err e => turn_away (client_error e) c
  | Panic _ => set_phase Leaving c
  end.

(** [c.schema = s.GetSchema(c.user)] *)
Definition schema_of (G : Shared) (user : string) : option schema_ptr :=
  match schemas (server G) !! user with Some _ => Some (generation G, user) | None => None end.
Definition use_schema (G : Shared) (c : Served) : Served :=
  mkServed (sv_phase c) (sv_wire c) (sv_nodes c) (schema_of G (c_user (session (sv_client c)))) (sv_configVer c) (sv_client c).

(** [Run] returns: its connections are given back, the socket is closed. *)
Definition hang_up (c : Served) : Served :=
  set_phase Leaving (on_client (fun cl => set_closed (clean cl).1) c).

Definition reloadConfig (G : Shared) (c : Served) : Served * option error :=
  let c := use_schema G c in
  match sv_schema c with
  | None => (c, Some (Errorf ("schema of user [" +:+ c_user (session (sv_client c)) +:+ "] is null or user is deleted")))
  | Some _ => (set_served_nodes (nodes (server G)) c, None)
  end.

(** [Run] up to [dispatch]: the packet and the version are read, the
    configuration is, and the version is read again. *)
Definition read_command (s : Server) (c : Served) : Served :=
  let '(io, r) := readPacket (sv_wire c) in
  let c := set_wire io c in
  match r with
  | Ok data => if sv_configVer c =? configVer s then set_phase (Dispatching data) c else set_phase (Outdated data) c
  | _ => hang_up c
  end.

Definition refresh (O : Outside) (G : Shared) (data : bytes) (c : Served) : Served :=
  match reloadConfig G c with
  | (c, Some e) => hang_up (on_client (fun cl => (Stmt.writeError e cl).1) c)
  | (c, None) => set_phase (Reloaded data) c
  end.

(** ** A command *)
Definition proxy_for (sch : Schema) (s : Server) : proxy :=
  proxy_of room backends create_file WriteConfigFile execPath sch s.
Definition proxy_for_none (s : Server) : proxy :=
  proxy_unset room backends create_file WriteConfigFile execPath s.

(** The schema of a connection, where its pointer leads. *)
Definition the_schema (G : Shared) (c : Served) : option (schema_ptr * Schema) :=
  match sv_schema c with
  | Some p => match schema_heap G !! p with Some sch => Some (p, sch) | None => None end
  | None => None
  end.

Definition run_command (O : Outside) (sch : option Schema) (data : bytes) (s : Server) : ST Client unit :=
  match sch with
  | Some sch => dispatch (proxy_for sch s) data
  | None => dispatch_unset (proxy_for_none s) data
  end.

(** What a command does to the server's own record.  The rotation of slaves,
    the pools and the servers behind them are not part of it: the session
    takes what it needs of them from outside. *)
Definition command_effect (O : Outside) (sch : option Schema) (data : bytes) (c : ClientConn) (s : Server) : Server :=
  match data with
  | cmd :: sql =>
      if cmd =? COM_QUERY
      then match sch with
           | Some sch => query_effect room backends create_file WriteConfigFile execPath sch (string_of sql) c s
           | None => query_effect_unset room backends create_file WriteConfigFile execPath (string_of sql) c s
           end
      else s
  | [] => s
  end.

(** The session works with the rules of its schema, which others share. *)
Definition with_rules_of (sch : option Schema) (cl : Client) : Client :=
  set_session (set_router (default no_rules (s_rule <$> sch)) (session cl)) cl.
Definition store_rules (G : Shared) (c : Served) (cl : Client) : gmap schema_ptr Schema :=
  match the_schema G c with
  | Some (p, sch) => <[p := mkSchema (s_nodes sch) (c_router (session cl))]> (schema_heap G)
  | None => schema_heap G
  end.

(** The rest of the round, when [dispatch] has returned.  A command that
    fails is counted, and so are the [slow] ones of its statements that took
    longer than [slow_log_time]. *)
Definition return_command (O : Outside) (data : bytes) (slow : nat) (G : Shared) (c : Served) : Shared * Served :=
  let sch := snd <$> the_schema G c in
  let cl := with_rules_of sch (sv_client c) in
  let m := run_command O sch data (server G) in
  let s := on_counter (Nat.iter slow IncrSlowLogTotal) (command_effect O sch data (session cl) (server G)) in
  let s := match (m cl).2 with Err _ => on_counter IncrErrLogTotal s | _ => s end in
  let '(cl, r) := report m cl in
  let G := set_heap (store_rules G c cl) (set_server s G) in
  let c := set_client cl c in
  (G, match r with
      | Ok _ => if c_closed (session cl) then hang_up c
                else set_phase Reading (set_wire (reset_Sequence (sv_wire c)) c)
      | _ => hang_up c
      end).

(** [reloadConfig] waits for the lock. *)
Definition conn_step (O : Outside) (G : Shared) (c : Served) (a : action) : option (Shared * Served) :=
  match sv_phase c, a with
  | Connected, Allow => Some (G, check_address (server G) c)
  | Allowed, Shake => Some (G, shake_hands (server G) c)
  | LoggedIn, Enter => Some (G, set_phase Reading (use_schema G c))
  | Reading, Read => Some (G, read_command (server G) c)
  | Outdated data, Refresh => if locked G then None else Some (G, refresh O G data c)
  | Reloaded data, Note => Some (G, set_phase (Dispatching data) (set_configVer (configVer (server G)) c))
  | Dispatching data, Dispatch => Some (on_server (on_counter IncrClientQPS) G, set_phase (Executing data) c)
  | Executing data, Return slow => Some (return_command O data slow G c)
  | Leaving, Leave => Some (on_server (on_counter DecrClientConns) G, set_phase Gone c)
  | _, _ => None
  end.

(** ** The world *)
Definition set_shared (G : Shared) (w : World) : World :=
  mkWorld G (running w) (listening w) (loop w) (spawned w) (counted w) (baseConnId w) (conns w).
Definition set_loop (l : accept_loop) (w : World) : World :=
  mkWorld (shared w) (running w) (listening w) l (spawned w) (counted w) (baseConnId w) (conns w).
Definition set_spawned (l : list (Accepted W)) (w : World) : World :=
  mkWorld (shared w) (running w) (listening w) (loop w) l (counted w) (baseConnId w) (conns w).
Definition set_counted (l : list (Accepted W)) (w : World) : World :=
  mkWorld (shared w) (running w) (listening w) (loop w) (spawned w) l (baseConnId w) (conns w).
Definition set_world_conns (l : list Served) (w : World) : World :=
  mkWorld (shared w) (running w) (listening w) (loop w) (spawned w) (counted w) (baseConnId w) l.

(** [onConn] begins. *)
Definition count (w : World) (k : nat) : option World :=
  match spawned w !! k with
  | None => None
  | Some a =>
      Some (set_shared (on_server (on_counter IncrClientConns) (shared w))
              (set_counted (counted w ++ [a]) (set_spawned (base.delete k (spawned w)) w)))
  end.

(** [newClientConn], which waits for the lock. *)
Definition start (w : World) (k : nat) (Intn : nat -> Z) : option World :=
  match counted w !! k with
  | None => None
  | Some a =>
      if locked (shared w) then None
      else
        let id := u32 (baseConnId w + 1) in
        Some (mkWorld (shared w) (running w) (listening w) (loop w) (spawned w) (base.delete k (counted w)) id
                (conns w ++ [newClientConn (server (shared w)) id (RandomBuf 20 Intn) a]))
  end.

(** [UpdateConfig]: only one configuration is read at a time.  Errors and
    panics of the new one are logged, nobody sees them. *)
Definition reload_step (e : event) (G : Shared) : option Shared :=
  match e, reload G with
  | Reload c, Idle =>
      Some (match read_config room backends c (server G) with
            | (s, Ok new) => set_reload (Ready (assignments c new)) (set_server s G)
            | (s, _) => set_server s G
            end)
  | Lock, Ready l => Some (set_reload (Updating l) G)
  | Assign, Updating (a :: l) => Some (set_reload (Updating l) (assign a G))
  | Raise, Updating [] => Some (set_reload Updated (on_server raise_version G))
  | Unlock, Updated => Some (set_reload Idle G)
  | _, _ => None
  end.

(** [Close] closes the listener, so that [Accept] fails. *)
Definition step (w : World) (e : event) : option World :=
  match e with
  | Loop =>
      match loop w with
      | Checking => Some (set_loop (if running w then Accepting else Returned) w)
      | _ => None
      end
  | Accept a =>
      match loop w with
      | Accepting => if listening w then Some (set_loop Checking (set_spawned (spawned w ++ [a]) w)) else None
      | _ => None
      end
  | AcceptError => match loop w with Accepting => Some (set_loop Checking w) | _ => None end
  | Count k => count w k
  | Start k Intn => start w k Intn
  | Act i a =>
      match conns w !! i with
      | None => None
      | Some c =>
          match conn_step (outside i) (shared w) c a with
          | None => None
          | Some (G, c) => Some (set_world_conns (<[i := c]> (conns w)) (set_shared G w))
          end
      end
  | Flush => Some (set_shared (on_server (on_counter FlushCounter) (shared w)) w)
  | Shutdown => Some (mkWorld (shared w) false false (loop w) (spawned w) (counted w) (baseConnId w) (conns w))
  | Reload _ | Lock | Assign | Raise | Unlock =>
      match reload_step e (shared w) with Some G => Some (set_shared G w) | None => None end
  end.

(** A history, the first event first. *)
Fixpoint run (tr : list event) (w : World) : option World :=
  match tr with
  | [] => Some w
  | e :: tr => match step w e with Some w => run tr w | None => None end
  end.

(** [Run] starts on a server that [NewServer] has made. *)
Definition first_world (s : Server) : World :=
  mkWorld (mkShared s 0 (new_schemas 0 (schemas s) ∅) Idle) true true Checking [] [] 10000 [].
End Serve.
