(* ===== verification/ServeTheorems.v ===== *)
(** * Clients that come and go

    What holds of every history of the server, of its clients and of the
    configurations that are read again: who is served, with which rules, and
    how many are counted. *)
From S2P Require Import Prelude Errors StateM GoLib GoTime GoFmt Charset ErrTables Wire Field Order Resultset.
From S2P Require Import Ast RouteLists Rule Plan Router ExecDB SelectMerge StmtArgs Session Handlers Stmt SessionFacts OwnerFacts.
From S2P Require Conn.
From S2P Require Import Packet ClientIO GoNet Pool Node Server ServerTheorems ReloadTheorems Admin NoSchema Serve.
From Stdlib Require Import Ascii.
Open Scope Z_scope.

(** ** What commands of the administrator leave alone *)
Record same_core (s s' : Server) : Prop := {
  core_counter : counter s' = counter s;
  core_users : users s' = users s;
  core_schemas : schemas s' = schemas s;
  core_nodes : nodes s' = nodes s;
  core_configVer : configVer s' = configVer s
}.
#[export] Instance same_core_preorder : PreOrder same_core.
Proof. split; [by split|]. intros x y z [] []. split; by etrans. Qed.

#[local] Hint Extern 1 (moves same_core (modify _)) => apply moves_modify; [exact _ | by split] : methods.

Section Core.
Context `{StrMapOrder} `{Stats} `{GoFloat}.
Variables
  (room : nat -> nat) (backends : nat -> servers) (create_file : string -> option error)
  (WriteConfigFile : Config -> option error) (execPath : string) (sch : Schema).

Lemma core_change_black f : moves same_core (modify (change_black f)).
Proof. moves. Qed.
#[local] Hint Resolve core_change_black : methods.
Lemma core_AddBlackSql v : moves same_core (AddBlackSql v).
Proof. unfold AddBlackSql. moves. Qed.
Lemma core_DelBlackSql v : moves same_core (DelBlackSql v).
Proof. unfold DelBlackSql. moves. Qed.
Lemma core_ChangeProxy v : moves same_core (ChangeProxy v).
Proof. unfold ChangeProxy. moves. Qed.
Lemma core_ChangeLogSql v : moves same_core (ChangeLogSql v).
Proof. unfold ChangeLogSql. moves. Qed.
Lemma core_ChangeSlowLogTime v : moves same_core (ChangeSlowLogTime v).
Proof. unfold ChangeSlowLogTime. moves. Qed.

Lemma core_AddAllowIP v : moves same_core (AddAllowIP room v).
Proof.
  unfold AddAllowIP. apply moves_bind; [exact _ | moves|]. intros t. apply moves_get_bind; [exact _|]. intros s.
  destruct (existsb _ _); [done|]. unfold append_ip. by destruct (Nat.ltb _ _).
Qed.
Lemma core_DelAllowIP v : moves same_core (DelAllowIP v).
Proof.
  unfold DelAllowIP. apply moves_get_bind; [exact _|]. intros s.
  destruct (list_find _ _) as [[i t]|]; [|done]. unfold remove_ip, put. by destruct (list_find _ _) as [[j v']|].
Qed.

Lemma core_SaveProxyConfig : moves same_core (SaveProxyConfig create_file WriteConfigFile).
Proof.
  unfold SaveProxyConfig. apply moves_bind; [exact _ | moves|]. intros s0. case_match; [moves|].
  unfold saveBlackSql. apply moves_get_bind; [exact _|]. intros s. case_match; [done|]. by case_match.
Qed.

Lemma core_on_node p m : moves same_core (on_node p m).
Proof. intros s. unfold on_node. destruct (all_nodes s !! p) as [n|]; [|done]. by destruct (m n). Qed.
Lemma core_the_node message node : moves same_core (the_node message node).
Proof. unfold the_node. moves. Qed.
#[local] Hint Resolve core_on_node core_the_node : methods.
Lemma core_DeleteSlave node addr : moves same_core (DeleteSlave backends node addr).
Proof. unfold DeleteSlave, sync_slaves. moves. Qed.
Lemma core_AddSlave node addr : moves same_core (AddSlave backends node addr).
Proof. unfold AddSlave, sync_slaves. moves. Qed.
#[local] Hint Resolve core_AddBlackSql core_DelBlackSql core_ChangeProxy core_ChangeLogSql core_ChangeSlowLogTime
  core_AddAllowIP core_DelAllowIP core_SaveProxyConfig core_DeleteSlave core_AddSlave : methods.

Lemma core_handleNodeCmd rows : moves same_core (handleNodeCmd backends rows).
Proof.
  unfold handleNodeCmd, AddDatabase, DeleteDatabase, UpDatabase, DownDatabase, UpMaster, UpSlave, DownMaster, DownSlave.
  moves.
Qed.
Lemma core_from_server f : moves same_core (from_server f).
Proof. unfold from_server. moves. Qed.
#[local] Hint Resolve core_handleNodeCmd core_from_server : methods.
Lemma core_handleServerCmd sch' rows :
  moves same_core (handleServerCmd room create_file WriteConfigFile sch' rows).
Proof.
  unfold handleServerCmd, handleAdminShow, handleAdminChange, handleAdminAdd, handleAdminDelete, handleAdminSave, no_result.
  moves.
Qed.
#[local] Hint Resolve core_handleServerCmd : methods.

Lemma core_admin_statement sch' stmt :
  moves same_core (admin_statement room backends create_file WriteConfigFile execPath sch' stmt).
Proof. unfold admin_statement, handleAdmin, no_result. destruct stmt; moves. Qed.

Lemma core_query_effect `{Outside} sql c s :
  same_core s (query_effect room backends create_file WriteConfigFile execPath sch sql c s).
Proof.
  unfold query_effect. destruct (preHandleShard _ _ _) as [c' [[]|e|p]]; try done.
  destruct (YyParse.Parse _) as [stmt|e|p]; try done. case_match; [apply core_admin_statement | done].
Qed.

Lemma core_query_effect_unset `{Outside} sql c s :
  same_core s (query_effect_unset room backends create_file WriteConfigFile execPath sql c s).
Proof.
  unfold query_effect_unset. destruct (preHandleShard_unset _ _ _) as [c' [[]|e|p]]; try done.
  destruct (YyParse.Parse _) as [stmt|e|p]; try done. case_match; [|done].
  unfold admin_statement_unset, bind, get. case_match; [done | apply core_admin_statement].
Qed.
End Core.

(** ** The socket *)

(** The number, the address and the challenge of a connection stay. *)
Definition same_peer {W} (io io' : ClientIO W) : Prop :=
  io_remote io' = io_remote io /\ io_salt io' = io_salt io /\ io_connectionId io' = io_connectionId io.
#[export] Instance same_peer_preorder {W} : PreOrder (@same_peer W).
Proof. split; [by repeat split|]. intros x y z (? & ? & ?) (? & ? & ?). repeat split; by etrans. Qed.

#[local] Hint Extern 1 (moves same_peer (modify _)) => apply moves_modify; [exact _ | by repeat split] : methods.

Section Peer.
Context {W : Type} `{Writer W}.

Lemma peer_on_pkg {A} (f : PacketIO W -> PacketIO W * res error A) : moves (@same_peer W) (on_pkg f).
Proof. intros io. unfold on_pkg. by destruct (f (io_pkg io)). Qed.
#[local] Hint Resolve peer_on_pkg : methods.

Lemma peer_writeError m : moves (@same_peer W) (ClientIO.writeError m).
Proof. unfold ClientIO.writeError, writePacket. moves. Qed.
Lemma peer_readPacket : moves (@same_peer W) readPacket.
Proof. unfold readPacket. moves. Qed.
Lemma peer_greeting : moves (@same_peer W) writeInitialHandshake.
Proof. unfold writeInitialHandshake, writePacket. moves. Qed.
Lemma peer_Handshake users : moves (@same_peer W) (Handshake users).
Proof.
  unfold Handshake, writeInitialHandshake, readHandshakeResponse, writeOK, writePacket, readPacket, access_denied. moves.
Qed.

Definition same_user (io io' : ClientIO W) : Prop := io_user io' = io_user io.
#[local] Instance same_user_preorder : PreOrder same_user.
Proof. split; [done|]. intros x y z. unfold same_user. congruence. Qed.
Lemma user_on_pkg {A} (f : PacketIO W -> PacketIO W * res error A) : moves same_user (on_pkg f).
Proof. intros io. unfold on_pkg. by destruct (f (io_pkg io)). Qed.
#[local] Hint Resolve user_on_pkg : methods.
Lemma user_writeOK r : moves same_user (writeOK r).
Proof. unfold writeOK, writePacket. moves. Qed.

(** *** What is left to read *)
Definition left_to_read (io : ClientIO W) : nat := length (rb (io_pkg io)).
Definition reads_on (io io' : ClientIO W) : Prop := (left_to_read io' <= left_to_read io)%nat.
#[local] Instance reads_on_preorder : PreOrder reads_on.
Proof. split; [by intros x; unfold reads_on|]. intros x y z. unfold reads_on. lia. Qed.
#[local] Hint Extern 1 (moves reads_on (modify _)) => apply moves_modify; [exact _ | by unfold reads_on] : methods.

Lemma write_all_rb (p : PacketIO W) data : rb (write_all p data).1 = rb p.
Proof. unfold write_all. by destruct (Write (wb p) data) as [[w n] failed]. Qed.

Lemma WritePacket_rb (p : PacketIO W) data : rb (WritePacket p data).1 = rb p.
Proof.
  unfold WritePacket. generalize (S (length data)) as fuel. intros fuel. revert p data.
  induction fuel as [|fuel IH]; intros p data; cbn [WritePacket_fuel]; [done|].
  destruct (MaxPayloadLen <=? _); destruct (set_header _ _ _) as [data'|e|pn]; try done.
  - pose proof (write_all_rb p (take (Z.to_nat (4 + MaxPayloadLen)) data')) as Hw.
    destruct (write_all p _) as [p' [[]|e|pn]]; [|exact Hw..]. by rewrite IH.
  - pose proof (write_all_rb p data') as Hw. by destruct (write_all p data') as [p' [[]|e|pn]].
Qed.

Lemma ReadPacket_rb (p p' : PacketIO W) r : ReadPacket p = (p', r) ->
  (length (rb p') <= length (rb p))%nat /\ (forall data, r = Ok data -> (length (rb p') + 5 <= length (rb p))%nat).
Proof.
  unfold ReadPacket. generalize (S (length (rb p))) as fuel. intros fuel. revert p p' r.
  induction fuel as [|fuel IH]; intros p p' r; cbn [ReadPacket_fuel]; [by intros [= <- <-]|].
  assert (forall (q q' : PacketIO W) n b, 0 <= n -> ReadFull q n = (q', b) -> (length (rb q') <= length (rb q))%nat /\
    (is_Some b -> Z.of_nat (length (rb q')) = Z.of_nat (length (rb q)) - n)) as Hfull.
  { intros q q' n b Hn Hq. apply ReadFull_rb in Hq as [[used Hu] Hl]; [|done]. rewrite Hu at 1. rewrite length_app.
    split; [lia | exact Hl]. }
  destruct (ReadFull p 4) as [p1 [header|]] eqn:E1; (apply Hfull in E1 as [E1 L1]; [|done]); [|by intros [= <- <-]].
  specialize (L1 ltac:(done)).
  destruct (Z.ltb_spec (le_or (take 3 header)) 1); [intros [= <- <-]; done|].
  destruct (negb _); [by intros [= <- <-]|].
  destruct (ReadFull (next_Sequence p1) _) as [p2 [data|]] eqn:E2; (apply Hfull in E2 as [E2 L2]; [|lia]); cbn [rb next_Sequence] in *;
    [specialize (L2 ltac:(done)) | intros [= <- <-]; split; [lia | done]].
  destruct (_ <? MaxPayloadLen); [intros [= <- <-]; split; [|intros _ _]; lia|].
  destruct (ReadPacket_fuel fuel p2) as [p3 r3] eqn:E3. apply IH in E3 as [E3 _].
  destruct r3; intros [= <- <-]; (split; [lia|]); intros d Hd; simplify_eq; lia.
Qed.

Lemma reads_writePacket data : moves reads_on (writePacket data).
Proof.
  intros io. unfold writePacket, on_pkg, reads_on, left_to_read. pose proof (WritePacket_rb (io_pkg io) data) as Hw.
  destruct (WritePacket (io_pkg io) data) as [p r]. cbn in *. by rewrite Hw.
Qed.
Lemma readPacket_left io : (left_to_read (readPacket io).1 <= left_to_read io)%nat /\
  (forall data, (readPacket io).2 = Ok data -> (left_to_read (readPacket io).1 + 5 <= left_to_read io)%nat).
Proof.
  unfold readPacket, on_pkg, left_to_read. destruct (ReadPacket (io_pkg io)) as [p r] eqn:E. exact (ReadPacket_rb _ _ _ E).
Qed.
#[local] Hint Resolve reads_writePacket : methods.
Lemma reads_Handshake users : moves reads_on (Handshake users).
Proof.
  assert (moves reads_on readPacket) by (intros io; apply readPacket_left).
  unfold Handshake, writeInitialHandshake, readHandshakeResponse, writeOK, access_denied. moves.
Qed.
Lemma reads_writeError m : moves reads_on (ClientIO.writeError m).
Proof. unfold ClientIO.writeError. moves. Qed.

(** The client has shown that it knows the password: its answer to the
    challenge of [io], the packet [data], names [user] and has its token. *)
Definition shows_password (users : gmap string string) (salt : bytes) (user : string) (data : bytes) : Prop :=
  exists password authLen,
    users !! user = Some password /\
    @cstring data 32 = Ok user /\
    @at_ error Z data (32 + slen user + 1) = Ok authLen /\
    @slice error Z data (32 + slen user + 2) (32 + slen user + 2 + authLen) = Ok (Conn.CalcPassword salt (bytes_of password)).

Lemma readHandshakeResponse_Ok users (io io' : ClientIO W) :
  readHandshakeResponse users io = (io', Ok tt) ->
  exists data, (readPacket io).2 = Ok data /\ shows_password users (io_salt io) (io_user io') data.
Proof.
  unfold readHandshakeResponse. intros Hr.
  apply bind_Ok_inv in Hr as (io1 & data & Hread & Hr). pose proof (peer_readPacket io) as (_ & Hsalt & _).
  rewrite Hread in Hsalt. cbn [fst] in Hsalt. exists data. rewrite Hread. split; [done|].
  apply bind_Ok_inv in Hr as (io2 & cap & [-> Hcap]%lift_Ok & Hr).
  apply bind_Ok_inv in Hr as (io3 & [] & ->%modify_Ok & Hr). cbv zeta in Hr.
  apply bind_Ok_inv in Hr as (io4 & name & [-> Hname]%lift_Ok & Hr).
  apply bind_Ok_inv in Hr as (io5 & [] & ->%modify_Ok & Hr).
  apply bind_Ok_inv in Hr as (io6 & authLen & [-> Hlen]%lift_Ok & Hr).
  apply bind_Ok_inv in Hr as (io7 & auth & [-> Hauth]%lift_Ok & Hr).
  apply bind_Ok_inv in Hr as (io8 & io9 & [-> ->]%get_Ok & Hr).
  cbn [io_user set_user io_salt ClientIO.set_capability] in Hr.
  destruct (users !! name) as [password|] eqn:Hu; [|done]. rewrite Hsalt in Hr.
  case_bool_decide as Htoken; [|done]. cbn [negb] in Hr.
  assert (io_user io' = name) as ->.
  { case_match; [|by apply modify_Ok in Hr as ->].
    apply bind_Ok_inv in Hr as (io10 & rest & [-> _]%lift_Ok & Hr). case_match; [by apply ret_Ok in Hr as [-> _]|].
    apply bind_Ok_inv in Hr as (io11 & d & [-> _]%lift_Ok & Hr). by apply modify_Ok in Hr as ->. }
  exists password, authLen. change (4 + 4 + 1 + 23) with 32 in *. rewrite <- Htoken.
  replace (32 + slen name + 2) with (32 + slen name + 1 + 1) by lia. done.
Qed.
End Peer.

(** ** Steps *)

(** The rules that are in force, and who is a user. *)
Record same_version (s s' : Server) : Prop := {
  version_users : users s' = users s;
  version_schemas : schemas s' = schemas s;
  version_nodes : nodes s' = nodes s;
  version_number : configVer s' = configVer s
}.
#[export] Instance same_version_preorder : PreOrder same_version.
Proof. split; [by split|]. intros x y z [] []. split; by etrans. Qed.

Record keeps_clients (s s' : Server) : Prop := {
  kept_version : same_version s s';
  kept_count : ClientConns (counter s') = ClientConns (counter s)
}.
#[export] Instance keeps_clients_preorder : PreOrder keeps_clients.
Proof. split; [by split|]. intros x y z [] []. split; by etrans. Qed.

Definition users_served (us : gmap string string) (schs : gmap string Schema) : Prop :=
  forall user, is_Some (us !! user) -> is_Some (schs !! user).

(** Two states of a schema: its default rule may have another database. *)
Definition same_schema (sch sch' : Schema) : Prop :=
  s_nodes sch' = s_nodes sch /\ same_router (s_rule sch) (s_rule sch').
#[export] Instance same_schema_preorder : PreOrder same_schema.
Proof. split; [by split|]. intros x y z [? ?] [? ?]. split; [congruence | by etrans]. Qed.

(** The schemas of the server are where its sessions will look for them. *)
Definition heap_ok (G : Shared) : Prop := forall user sch, schemas (server G) !! user = Some sch ->
  exists sch', schema_heap G !! (generation G, user) = Some sch' /\ same_schema sch sch'.

(** No configuration is half in use. *)
Definition calm (G : Shared) : bool := match reload G with Updating _ => false | _ => true end.

(** What commands and clients leave alone. *)
Record same_rules (G G' : Shared) : Prop := {
  rules_version : same_version (server G) (server G');
  rules_generation : generation G' = generation G;
  rules_reload : reload G' = reload G;
  rules_heap : forall p sch, schema_heap G !! p = Some sch ->
    exists sch', schema_heap G' !! p = Some sch' /\ same_schema sch sch'
}.
#[export] Instance same_rules_preorder : PreOrder same_rules.
Proof.
  split; [split; try done; intros p sch Hp; by exists sch|]. intros x y z [] []. split; try (by etrans).
  intros p sch (sch' & Hp & Hs)%rules_heap0. apply rules_heap1 in Hp as (sch'' & Hp & Hs'). exists sch''. split; [done | by etrans].
Qed.

Lemma same_rules_server f G : same_version (server G) (f (server G)) -> same_rules G (on_server f G).
Proof. intros Hv. split; try done. intros p sch Hp. by exists sch. Qed.

Lemma same_rules_heap_ok G G' : same_rules G G' -> heap_ok G -> heap_ok G'.
Proof.
  intros [[_ Hs _ _] Hg _ Hh] Hok user sch Hl. rewrite Hs in Hl. apply Hok in Hl as (sch' & (sch'' & Hp & Ht)%Hh & Ht').
  exists sch''. rewrite Hg. split; [done | by etrans].
Qed.

Lemma new_schemas_lookup g m heap user sch : m !! user = Some sch -> new_schemas g m heap !! (g, user) = Some sch.
Proof. intros Hm. unfold new_schemas. apply lookup_union_Some_l. rewrite lookup_kmap; [done | exact _]. Qed.

Lemma assign_pointers a G p : is_Some (schema_heap G !! p) -> is_Some (schema_heap (assign a G) !! p).
Proof.
  destruct a; try done. intros [sch Hp]. cbn [assign schema_heap]. unfold new_schemas.
  rewrite lookup_union, Hp. apply union_is_Some. eauto.
Qed.

Lemma assign_heap_ok a G : heap_ok G -> heap_ok (assign a G).
Proof.
  destruct a; try done.
  - intros Hok user sch Hl. cbn [assign server on_server set_server] in Hl. apply Hok. revert Hl.
    unfold ChangeSlowLogTime, try, bind, lift. by destruct (Atoi _).
  - intros _ user sch Hl. cbn [assign server schema_heap generation set_schemas schemas] in *. exists sch.
    split; [by apply new_schemas_lookup | done].
Qed.

(** The new configuration, when all of it is in use, serves all its users. *)
Fixpoint served_after (l : list assignment) (us : gmap string string) (schs : gmap string Schema) : Prop :=
  match l with
  | [] => users_served us schs
  | AssignUsers us :: l => served_after l us schs
  | AssignSchemas schs :: l => served_after l us schs
  | _ :: l => served_after l us schs
  end.

Lemma assign_served a l G : served_after (a :: l) (users (server G)) (schemas (server G)) ->
  served_after l (users (server (assign a G))) (schemas (server (assign a G))).
Proof.
  destruct a; try done. cbn [assign server on_server set_server].
  unfold ChangeSlowLogTime, try, bind, lift. by destruct (Atoi _).
Qed.

Lemma assign_count a G : counter (server (assign a G)) = counter (server G).
Proof. destruct a; try done. cbn. unfold ChangeSlowLogTime, try, bind, lift. by destruct (Atoi _). Qed.
Lemma assign_version a G : configVer (server (assign a G)) = configVer (server G).
Proof. destruct a; try done. cbn. unfold ChangeSlowLogTime, try, bind, lift. by destruct (Atoi _). Qed.

Lemma ChangeSlowLogTime_no_panic v s s' p : ChangeSlowLogTime v s <> (s', Panic p).
Proof.
  unfold ChangeSlowLogTime, bind, lift. destruct (Atoi v) as [t|e|p'] eqn:Ht; [done.. | by destruct (Atoi_no_panic _ _ Ht)].
Qed.

(** Without others in between the assignments are those of [UpdateConfig]. *)
Lemma assignments_use_config c new G :
  raise_version (server (foldl (fun G a => assign a G) G (assignments c new))) = (use_config c new (server G)).1.
Proof.
  destruct new as [[[bl l] ns] schs]. unfold use_config, bind at 1, modify at 1.
  cbn [assignments foldl assign on_server set_server server reload generation schema_heap]. cbv zeta.
  match goal with |- context [try (ChangeSlowLogTime ?v) ?s] => generalize s as s4; intros s4;
    pose proof (ChangeSlowLogTime_no_panic v s4) as Hnp end.
  unfold bind at 1, try. destruct (ChangeSlowLogTime _ s4) as [s5 [[]|e|p]]; [done.. | by destruct (Hnp s5 p)].
Qed.

Section Reading.
Context `{StrMapOrder}.
Variables (room : nat -> nat) (backends : nat -> servers).

Lemma read_config_keeps c s : keeps_clients s (read_config room backends c s).1.
Proof.
  destruct (read_config_ok room backends c s) as [He _].
  pose proof (extends_fields _ _ He) as (_ & Hu & _ & _ & _ & _ & _ & Hn & Hsch & Hv).
  split; [by split|]. by rewrite (ext_same _ _ He).
Qed.

Lemma read_config_served c s s' new us schs : read_config room backends c s = (s', Ok new) ->
  served_after (assignments c new) us schs.
Proof.
  intros Hr. destruct (read_config_ok room backends c s) as [_ Hok]. rewrite Hr in Hok.
  destruct new as [[[bl l] ns] schs']. destruct (Hok _ eq_refl) as (_ & _ & _ & _ & _ & _ & Husers).
  intros user Huser. apply Husers. by apply elem_of_dom.
Qed.
End Reading.

Section History.
Context {W : Type} `{Writer W}.
Context `{StrMapOrder} `{MapOrder} `{Timezone} `{GoFloat} `{GoSort} `{ErrorText} `{Stats}.
Variables
  (outside : nat -> Outside)
  (room : nat -> nat) (backends : nat -> servers) (create_file : string -> option error)
  (WriteConfigFile : Config -> option error) (execPath : string).

Abbreviation steps_to := (step outside room backends create_file WriteConfigFile execPath).
Abbreviation runs := (run outside room backends create_file WriteConfigFile execPath).
Abbreviation acts := (conn_step room backends create_file WriteConfigFile execPath).
Abbreviation returns := (return_command room backends create_file WriteConfigFile execPath).
Implicit Types (w : World W) (c : Served W) (G : Shared).

Lemma runs_app (t1 t2 : list (event W)) w : runs (t1 ++ t2) w = runs t1 w ≫= runs t2.
Proof. revert w. induction t1 as [|e t1 IH]; intros w; [done|]. cbn [app run]. destruct (steps_to w e); [apply IH | done]. Qed.

Lemma runs_snoc tr e w w' : runs (tr ++ [e]) w = Some w' <-> exists w1, runs tr w = Some w1 /\ steps_to w1 e = Some w'.
Proof.
  rewrite runs_app, bind_Some. cbn [run]. split; intros (w1 & Hr & Hs); exists w1; (split; [done|]);
    destruct (steps_to w1 e); congruence.
Qed.

(** A step is one of a connection, a new connection, or leaves them all. *)
Inductive steps (w w' : World W) : event W -> Prop :=
| steps_act i a c c' : conns w !! i = Some c -> acts (outside i) (shared w) c a = Some (shared w', c') ->
    conns w' = <[i := c']> (conns w) -> counted w' = counted w -> steps w w' (Act i a)
| steps_start k Intn a : counted w !! k = Some a -> locked (shared w) = false -> shared w' = shared w ->
    counted w' = base.delete k (counted w) -> baseConnId w' = u32 (baseConnId w + 1) ->
    conns w' = conns w ++ [newClientConn (server (shared w)) (u32 (baseConnId w + 1)) (RandomBuf 20 Intn) a] ->
    steps w w' (Start k Intn)
| steps_count k a : shared w' = on_server (on_counter IncrClientConns) (shared w) ->
    counted w' = counted w ++ [a] -> conns w' = conns w -> steps w w' (Count k)
| steps_reload e : reload_step room backends e (shared w) = Some (shared w') ->
    counted w' = counted w -> conns w' = conns w -> steps w w' e
| steps_idle e : shared w' = shared w \/ shared w' = on_server (on_counter FlushCounter) (shared w) ->
    counted w' = counted w -> conns w' = conns w -> e <> Raise -> (forall i a, e <> Act i a) -> steps w w' e.

Lemma step_steps w e w' : steps_to w e = Some w' -> steps w w' e.
Proof.
  intros Hs. destruct e as [|a| |k|k Intn|j a|cf| | | | | |]; cbn [step] in Hs.
  1-3, 12-13: (apply steps_idle; repeat case_match; simplify_eq; cbn; auto; done).
  4-8: (destruct (reload_step _ _ _ _) as [G|] eqn:Hr; [|done]; injection Hs as <-; by apply steps_reload).
  - unfold count in Hs. destruct (spawned w !! k) as [a|]; [|done]. injection Hs as <-. by apply (steps_count _ _ _ a).
  - unfold start in Hs. destruct (counted w !! k) as [a|] eqn:Ha; [|done].
    destruct (locked (shared w)) eqn:Hl; [done|]. injection Hs as <-. by apply (steps_start _ _ _ _ a).
  - destruct (conns w !! j) as [c|] eqn:Hj; [|done].
    destruct (acts (outside j) (shared w) c a) as [[G c1]|] eqn:Ha; [|done]. injection Hs as <-. by eapply steps_act.
Qed.

(** Where a connection comes from. *)
Lemma step_conn w e w' i c' : steps w w' e -> conns w' !! i = Some c' ->
  (conns w !! i = Some c' /\ forall a, e <> Act i a) \/
  (exists k Intn a, e = Start k Intn /\ i = length (conns w) /\ shared w' = shared w /\ locked (shared w) = false /\
     c' = newClientConn (server (shared w)) (u32 (baseConnId w + 1)) (RandomBuf 20 Intn) a) \/
  (exists a c, e = Act i a /\ conns w !! i = Some c /\ acts (outside i) (shared w) c a = Some (shared w', c')).
Proof.
  intros Hs Hc. destruct Hs as [j a c c1 Hj Ha Hw _|k Intn a Hk Hl HG _ _ Hw|k a HG _ Hw|e Hr _ Hw|e HG _ Hw _ Hne];
    rewrite Hw in Hc.
  - destruct (decide (j = i)) as [->|Hne].
    + right. right. rewrite list_lookup_insert_eq in Hc by (by eapply lookup_lt_Some). injection Hc as <-. eauto.
    + left. rewrite list_lookup_insert_ne in Hc by done. split; [done|]. intros a' [= ?]. congruence.
  - apply lookup_app_Some in Hc as [Hc|[Hle Hc]]; [by left|]. right. left. exists k, Intn, a.
    apply list_lookup_singleton_Some in Hc as [Hi <-]. split_and!; [done | lia | done..].
  - by left.
  - left. split; [done|]. intros a ->. done.
  - by left.
Qed.

(** A command changes neither the version nor the number of clients. *)
Lemma counters_keep f s : (forall n, ClientConns (f n) = ClientConns n) -> keeps_clients s (on_counter f s).
Proof. intros Hf. split; [by split | apply Hf]. Qed.

Lemma core_keeps s s' : same_core s s' -> keeps_clients s s'.
Proof. intros [Hn Hu Hs Hnd Hv]. split; [by split | by rewrite Hn]. Qed.

Lemma command_effect_keeps O sch data cl s :
  keeps_clients s (command_effect room backends create_file WriteConfigFile execPath O sch data cl s).
Proof.
  unfold command_effect. destruct data as [|cmd sql]; [done|]. destruct (cmd =? COM_QUERY); [|done]. apply core_keeps.
  destruct sch; [apply core_query_effect | apply core_query_effect_unset].
Qed.

Lemma owner_run_command O sch data s cl : same_owner (session cl)
  (session (report (run_command room backends create_file WriteConfigFile execPath O sch data s) cl).1).
Proof.
  unfold run_command. destruct sch; [|apply owner_report_unset].
  match goal with |- context [dispatch ?p data] => exact (owner_serve_packet p data cl) end.
Qed.

Definition owner c : string := c_user (session (sv_client c)).

(** What the return of a command does to the others, and to its connection. *)
Lemma returns_keeps O data slow G c : let G' := (returns O data slow G c).1 in
  keeps_clients (server G) (server G') /\ same_rules G G'.
Proof.
  cbv zeta. unfold return_command. set (sch := snd <$> the_schema G c). set (cl := with_rules_of sch (sv_client c)).
  match goal with |- context [report ?m cl] => set (m0 := m);
    assert (same_owner (session cl) (session (report m0 cl).1)) as Ho by apply owner_run_command;
    destruct (report m0 cl) as [cl' r] eqn:Hm end. cbn [fst] in *.
  match goal with |- context [set_server ?s G] => assert (keeps_clients (server G) s) as Hk end.
  { assert (forall n, ClientConns (Nat.iter slow IncrSlowLogTotal n) = ClientConns n) as Hslow
      by (intros n; induction slow as [|k IH]; [done | exact IH]).
    pose proof (command_effect_keeps O sch data (session cl) (server G)) as He.
    match type of He with keeps_clients _ ?x => generalize dependent x; intros s1 He end.
    assert (forall f, (forall n, ClientConns (f n) = ClientConns n) -> keeps_clients (server G) (on_counter f s1)) as Hc
      by (intros f Hf; etrans; [exact He | by apply counters_keep]).
    destruct (m0 cl).2; [by apply Hc | | by apply Hc]. etrans; [by apply Hc | by apply counters_keep]. }
  split; [exact Hk|]. destruct Hk as [Hv _]. split; [exact Hv | done..|].
  intros p s0 Hp. cbn [schema_heap set_heap]. unfold store_rules, cl, sch in *. unfold the_schema in *.
  destruct (sv_schema c) as [q|]; [|by exists s0]. destruct (schema_heap G !! q) as [s1|] eqn:Hq; [|by exists s0].
  destruct (decide (q = p)) as [->|Hne]; [|rewrite lookup_insert_ne by done; by exists s0].
  rewrite lookup_insert_eq. assert (s1 = s0) as -> by congruence. eexists. split; [done|].
  split; [done|]. apply Ho.
Qed.

Lemma returns_conn O data slow G c : let c' := (returns O data slow G c).2 in
  sv_phase c' = Leaving \/
  (sv_phase c' = Reading /\ sv_nodes c' = sv_nodes c /\ sv_schema c' = sv_schema c /\ sv_configVer c' = sv_configVer c /\
   owner c' = owner c /\ sv_wire c' = reset_Sequence (sv_wire c)).
Proof.
  cbv zeta. unfold return_command. set (sch := snd <$> the_schema G c). set (cl := with_rules_of sch (sv_client c)).
  match goal with |- context [report ?m cl] => set (m0 := m);
    assert (same_owner (session cl) (session (report m0 cl).1)) as Ho by apply owner_run_command;
    destruct (report m0 cl) as [cl' r] eqn:Hm end. cbn [fst snd] in *.
  destruct r as [[]|e|p]; [|by left..]. destruct (c_closed _); [by left|]. right.
  split_and!; try done. unfold owner. cbn. by destruct Ho as [-> _].
Qed.

Lemma returns_wire O data slow G c : same_peer (sv_wire c) (sv_wire (returns O data slow G c).2).
Proof.
  unfold return_command. match goal with |- context [report ?m ?cl] => destruct (report m cl) as [cl' [[]|e|p]] end;
    [|done..]. cbn [snd]. by destruct (c_closed _).
Qed.

(** Only a configuration that is read again changes the rules. *)
Lemma acts_rules O G c a G' c' : acts O G c a = Some (G', c') -> same_rules G G'.
Proof.
  unfold conn_step. intros Ha.
  destruct (sv_phase c), a as [| | | | | | |slow|]; try done; simplify_eq; try done.
  - by destruct (locked G); simplify_eq.
  - apply same_rules_server. by split.
  - pose proof (returns_keeps O data slow G c) as [_ Hr]. by rewrite Ha in Hr.
  - apply same_rules_server. by split.
Qed.

(** ** The rules a command is planned with *)
Definition current G c : Prop :=
  sv_nodes c = nodes (server G) /\ sv_schema c = Some (generation G, owner c) /\ is_Some (schemas (server G) !! owner c).

(** At most [b] configurations have replaced the version that [c] knows; when
    none has, and none is about to, [P]. *)
Definition lag (b : nat) G c (P : Prop) : Prop :=
  exists d, (d <= b)%nat /\ configVer (server G) = u32 (sv_configVer c + Z.of_nat d) /\ (d = 0%nat -> calm G = true -> P).

Definition has_schema G c : Prop := exists p, sv_schema c = Some p /\ is_Some (schema_heap G !! p).

(** [raced]: the version was raised after the connection has loaded its
    rules and before it has noted the version. *)
Definition noted (raced : bool) (b : nat) G c : Prop :=
  (raced = true /\ has_schema G c) \/ lag b G c (current G c).
Definition up_to_date (raced : bool) (b : nat) G c : Prop :=
  match sv_phase c with
  | Connected | Allowed => lag b G c (sv_nodes c = nodes (server G))
  | LoggedIn => lag b G c (sv_nodes c = nodes (server G) /\ is_Some (users (server G) !! owner c))
  | Reading | Dispatching _ | Executing _ => noted raced b G c
  | Outdated _ | Leaving | Gone => True
  | Reloaded _ => has_schema G c /\ (raced = true \/ (calm G = true -> current G c))
  end.

Lemma lag_weaken b b' G G' c (P P' : Prop) : (b <= b')%nat -> configVer (server G') = configVer (server G) ->
  (calm G' = true -> calm G = true /\ (P -> P')) -> lag b G c P -> lag b' G' c P'.
Proof.
  intros Hb Hv HP (d & Hd & Hc & Hk). exists d. rewrite Hv. split; [lia|]. split; [done|].
  intros Hz [Hcalm HPP]%HP. auto.
Qed.

Lemma lag_conn b G c c' (P P' : Prop) : sv_configVer c' = sv_configVer c -> (P -> P') -> lag b G c P -> lag b G c' P'.
Proof. intros Hv HP (d & Hd & Hc & Hk). exists d. rewrite Hv. auto. Qed.

Lemma lag_raise b G G' c (P P' : Prop) : configVer (server G') = u32 (configVer (server G) + 1) -> lag b G c P -> lag (S b) G' c P'.
Proof.
  intros Hv (d & Hd & Hc & _). exists (S d). split; [lia|]. split; [|done]. rewrite Hv, Hc. unfold u32.
  rewrite Z.add_mod_idemp_l by done. f_equal. lia.
Qed.

Lemma lag_now b G c (P : Prop) : configVer (server G) = u32 (configVer (server G)) -> sv_configVer c = configVer (server G) ->
  (calm G = true -> P) -> lag b G c P.
Proof. intros Hr Hv HP. exists 0%nat. rewrite Hv, Z.add_0_r. split; [lia | done]. Qed.

(** Fewer than 2^32 configurations do not come back to a version. *)
Lemma lag_same b G c (P : Prop) : Z.of_nat b < 2 ^ 32 -> sv_configVer c = configVer (server G) -> calm G = true -> lag b G c P -> P.
Proof.
  intros Hb Hv Hcalm (d & Hd & Hc & HP). apply HP; [|done]. rewrite Hv in Hc. unfold u32 in Hc.
  assert (configVer (server G) mod 2 ^ 32 = configVer (server G)) as Hs by (rewrite Hc; apply Z.mod_mod; done).
  rewrite <- Z.add_mod_idemp_l, Hs in Hc by done.
  pose proof (Z.div_mod (configVer (server G) + Z.of_nat d) (2 ^ 32) ltac:(done)) as E. rewrite <- Hc in E.
  assert (0 <= Z.of_nat d < 2 ^ 32) by lia. nia.
Qed.

(** *** The steps of others keep it *)
Definition heap_grows G G' : Prop := forall p, is_Some (schema_heap G !! p) -> is_Some (schema_heap G' !! p).

Lemma up_to_date_move raced raced' b b' G G' c : (raced = true -> raced' = true) -> heap_grows G G' ->
  (forall P P' : Prop, (same_version (server G) (server G') -> generation G' = generation G -> P -> P') ->
     lag b G c P -> lag b' G' c P') ->
  (forall data, sv_phase c = Reloaded data -> (calm G = true -> current G c) -> raced' = true \/ (calm G' = true -> current G' c)) ->
  up_to_date raced b G c -> up_to_date raced' b' G' c.
Proof.
  intros Hr Hh Hl Hre. unfold up_to_date, noted.
  assert (has_schema G c -> has_schema G' c) as Hsch by (intros (p & Hp & Hs%Hh); by exists p).
  assert (lag b G c (current G c) -> lag b' G' c (current G' c)) as Hcur.
  { apply Hl. intros [_ Hs Hn _] Hg. unfold current. by rewrite Hs, Hn, Hg. }
  destruct (sv_phase c); try done.
  1-2: by (apply Hl; intros [_ _ Hn _] _; rewrite Hn).
  - apply Hl. by intros [Hu _ Hn _] _; rewrite Hu, Hn.
  - intros [[? ?]|?]; auto.
  - intros (? & [?|?]); eauto.
  - intros [[? ?]|?]; auto.
  - intros [[? ?]|?]; auto.
Qed.

Lemma up_to_date_rules raced b b' G G' c : (b <= b')%nat -> same_version (server G) (server G') ->
  generation G' = generation G -> heap_grows G G' -> (calm G' = true -> calm G = true) ->
  up_to_date raced b G c -> up_to_date raced b' G' c.
Proof.
  intros Hb Hv Hg Hh Hcalm. apply up_to_date_move; [done | done | |].
  - intros P P' HP. apply lag_weaken; [done | apply Hv | auto].
  - intros data _ Hc. right. intros Hc'. destruct Hv as [_ Hs Hn _]. specialize (Hc (Hcalm Hc')).
    unfold current in *. by rewrite Hs, Hn, Hg.
Qed.

Lemma up_to_date_busy raced b G G' c : configVer (server G') = configVer (server G) -> heap_grows G G' -> calm G' = false ->
  up_to_date raced b G c -> up_to_date raced b G' c.
Proof.
  intros Hv Hh Hcalm. apply up_to_date_move; [done | done | |].
  - intros P P' _. apply lag_weaken; [done | done | by rewrite Hcalm].
  - intros data _ _. right. by rewrite Hcalm.
Qed.

Lemma up_to_date_raise raced raced' b G G' c : configVer (server G') = u32 (configVer (server G) + 1) -> heap_grows G G' ->
  (raced = true -> raced' = true) -> (forall data, sv_phase c = Reloaded data -> raced' = true) ->
  up_to_date raced b G c -> up_to_date raced' (S b) G' c.
Proof.
  intros Hv Hh Hr Hd. apply up_to_date_move; [done | done | |].
  - intros P P' _. by apply lag_raise.
  - intros data Hp _. left. by eapply Hd.
Qed.

(** *** Its own steps keep it *)
Lemma Handshake_Ok us (io io' : ClientIO W) : Handshake us io = (io', Ok tt) ->
  exists io1 data, writeInitialHandshake io = (io1, Ok tt) /\ (readPacket io1).2 = Ok data /\
    shows_password us (io_salt io) (io_user io') data.
Proof.
  unfold Handshake. intros Hr. apply bind_Ok_inv in Hr as (io1 & [] & Hw & Hr).
  apply bind_Ok_inv in Hr as (io2 & [] & Hread & Hr). apply bind_Ok_inv in Hr as (io3 & [] & Hok & ->%modify_Ok).
  apply readHandshakeResponse_Ok in Hread as (data & Hd & Hp). exists io1, data. split; [done|]. split; [done|].
  pose proof (peer_greeting io) as (_ & Hs & _). rewrite Hw in Hs. cbn [fst] in Hs. rewrite <- Hs.
  pose proof (user_writeOK None io2) as Hu. rewrite Hok in Hu. cbn [io_user reset_Sequence ClientIO.set_pkg fst] in *.
  unfold same_user in Hu. by rewrite Hu.
Qed.

Lemma shake_up_to_date raced b G c : lag b G c (sv_nodes c = nodes (server G)) ->
  up_to_date raced b G (shake_hands (server G) c).
Proof.
  intros Hl. unfold shake_hands. destruct (Handshake (users (server G)) (sv_wire c)) as [io [[]|e|p]] eqn:Hh; [|done..].
  apply Handshake_Ok in Hh as (io1 & data & _ & _ & password & authLen & Hu & _).
  revert Hl. apply lag_conn; [done|]. intros Hn. split; [exact Hn|]. exists password. exact Hu.
Qed.

Lemma schema_of_Some G user p : schema_of G user = Some p -> p = (generation G, user) /\ is_Some (schemas (server G) !! user).
Proof. unfold schema_of. destruct (schemas (server G) !! user) as [sch|]; [|done]. intros [= <-]. by split. Qed.

Lemma enter_up_to_date raced b G c : (calm G = true -> users_served (users (server G)) (schemas (server G))) ->
  lag b G c (sv_nodes c = nodes (server G) /\ is_Some (users (server G) !! owner c)) ->
  up_to_date raced b G (set_phase Reading (use_schema G c)).
Proof.
  intros Hs (d & Hd & Hv & HP). right. exists d. split; [done|]. split; [done|]. intros Hz Hcalm.
  destruct (HP Hz Hcalm) as [Hn Hu]. apply (Hs Hcalm) in Hu. split; [exact Hn|]. split; [|exact Hu].
  cbn. unfold schema_of, owner in *. by destruct Hu as [sch ->].
Qed.

Lemma read_up_to_date raced b G c : sv_phase c = Reading -> up_to_date raced b G c ->
  up_to_date raced b G (read_command (server G) c).
Proof.
  intros Hp Hok. unfold up_to_date in Hok. rewrite Hp in Hok. unfold read_command.
  destruct (readPacket (sv_wire c)) as [io [data|e|p]]; [|done..]. by destruct (_ =? _).
Qed.

Lemma refresh_up_to_date O raced b G data c : heap_ok G -> up_to_date raced b G (refresh O G data c).
Proof.
  intros Hheap. unfold refresh, reloadConfig. destruct (sv_schema (use_schema G c)) as [p|] eqn:Hsch; [|done].
  pose proof Hsch as Hp. apply schema_of_Some in Hp as [-> [sch Hs]]. split.
  - exists (generation G, owner c). split; [exact Hsch|]. destruct (Hheap _ _ Hs) as (sch' & Hl & _). by exists sch'.
  - right. intros _. split; [done|]. split; [exact Hsch | by exists sch].
Qed.

Lemma note_up_to_date raced b G data c : configVer (server G) = u32 (configVer (server G)) ->
  has_schema G c -> raced = true \/ (calm G = true -> current G c) ->
  up_to_date raced b G (set_phase (Dispatching data) (set_configVer (configVer (server G)) c)).
Proof. intros Hr Hs [?|Hc]; [by left | right; by apply lag_now]. Qed.

Lemma return_up_to_date O data slow raced b G c : noted raced b G c -> up_to_date raced b G (returns O data slow G c).2.
Proof.
  intros Hn. unfold up_to_date.
  destruct (returns_conn O data slow G c) as [-> | (-> & Hnd & Hsch & Hv & Ho & _)]; [done|].
  destruct Hn as [[Hr (p & Hp & Hs)]|Hn]; [left; split; [done|]; exists p; by rewrite Hsch|].
  right. revert Hn. apply lag_conn; [done|]. unfold current. by rewrite Hnd, Hsch, Ho.
Qed.

Lemma acts_up_to_date O raced b G c a G' c' : configVer (server G) = u32 (configVer (server G)) ->
  (calm G = true -> users_served (users (server G)) (schemas (server G))) -> heap_ok G ->
  acts O G c a = Some (G', c') -> up_to_date raced b G c -> up_to_date raced b G' c'.
Proof.
  intros Hr Hs Hheap Ha Hok. pose proof (acts_rules _ _ _ _ _ _ Ha) as [Hv Hg Hre Hh].
  apply (up_to_date_rules raced b b G); [done | done | done | | by unfold calm; rewrite Hre |].
  { intros p [sch Hp]. apply Hh in Hp as (sch' & Hp & _). by exists sch'. }
  unfold conn_step in Ha. pose proof Hok as Hok'. unfold up_to_date in Hok'.
  destruct (sv_phase c) as [| | | |data|data|data|data| |] eqn:Hp, a as [| | | | | | |slow|]; try done; simplify_eq.
  - unfold check_address. destruct (IsAllowConnect _ _); [exact Hok' | exact I].
  - by apply shake_up_to_date.
  - by apply enter_up_to_date.
  - by apply read_up_to_date.
  - destruct (locked G); [done|]. simplify_eq. by apply refresh_up_to_date.
  - destruct Hok'. by apply note_up_to_date.
  - exact Hok'.
  - pose proof (return_up_to_date O data slow raced b G c Hok') as Hd. by rewrite Ha in Hd.
  - exact I.
Qed.

Definition is_reload (e : event W) : bool := match e with Raise => true | _ => false end.
Definition reloads (tr : list (event W)) : nat := length (List.filter is_reload tr).

(** The version is raised between [reloadConfig] of the [i]-th connection and
    its note of the version. *)
Definition race_at (i : nat) (e : event W) w : bool :=
  is_reload e && match sv_phase <$> conns w !! i with Some (Reloaded _) => true | _ => false end.
Fixpoint races (i : nat) (tr : list (event W)) w : bool :=
  match tr with
  | [] => false
  | e :: tr => race_at i e w || match steps_to w e with Some w => races i tr w | None => false end
  end.

(** The new configuration, when some of it waits to be used. *)
Definition rest_ok G : Prop :=
  match reload G with
  | Ready l | Updating l => served_after l (users (server G)) (schemas (server G))
  | _ => True
  end.

Record shared_ok G : Prop := {
  ok_served : calm G = true -> users_served (users (server G)) (schemas (server G));
  ok_rest : rest_ok G;
  ok_heap : heap_ok G;
  ok_version : configVer (server G) = u32 (configVer (server G))
}.

Record in_date (raced : nat -> bool) (b : nat) w : Prop := {
  date_shared : shared_ok (shared w);
  date_conns : forall i c, conns w !! i = Some c -> up_to_date (raced i) b (shared w) c
}.

Lemma shared_ok_rules G G' : same_rules G G' -> shared_ok G -> shared_ok G'.
Proof.
  intros Hr [Hs Hrest Hh Hv]. pose proof (same_rules_heap_ok _ _ Hr Hh) as Hh'. destruct Hr as [[Hu Hsch _ Hver] _ Hre _]. split.
  - unfold calm. rewrite Hre, Hu, Hsch. exact Hs.
  - unfold rest_ok. rewrite Hre, Hu, Hsch. exact Hrest.
  - exact Hh'.
  - by rewrite Hver.
Qed.

Lemma in_date_raced raced raced' b w : (forall i, raced i = true -> raced' i = true) ->
  in_date raced b w -> in_date raced' b w.
Proof.
  intros Hr [Hok Hc]. split; [done|]. intros i c Hi. generalize (Hc i c Hi).
  apply up_to_date_move; [apply Hr | by intros p | | by right]. intros P P' HP. apply lag_conn; [done | by apply HP].
Qed.

(** The steps of [UpdateConfig] but for the version. *)
Lemma reload_step_ok (e : event W) G G' : e <> Raise -> reload_step room backends e G = Some G' -> shared_ok G ->
  shared_ok G' /\ forall raced b c, up_to_date raced b G c -> up_to_date raced b G' c.
Proof.
  intros Hne Hs Hok. unfold reload_step in Hs. pose proof Hok as [Hserved Hrest Hheap Hver]. unfold rest_ok, calm in Hserved, Hrest.
  destruct e as [| | | | | |cf| | | | | |]; try done; destruct (reload G) as [|l|[|a l]|] eqn:Hre; try done; injection Hs as <-.
  - pose proof (read_config_keeps room backends cf (server G)) as [Hv _].
    destruct (read_config room backends cf (server G)) as [s1 new] eqn:Hread. cbn [fst] in Hv.
    assert (forall r, calm (set_reload r (set_server s1 G)) = true -> rest_ok (set_reload r (set_server s1 G)) ->
      shared_ok (set_reload r (set_server s1 G)) /\
      forall raced b c, up_to_date raced b G c -> up_to_date raced b (set_reload r (set_server s1 G)) c) as Hall.
    { intros r Hc Hr. split.
      - pose proof Hv as [Hu Hsch _ Hnum]. split; [|exact Hr| |].
        + intros _. cbn. rewrite Hu, Hsch. by apply Hserved.
        + intros user sch. cbn. rewrite Hsch. apply Hheap.
        + cbn. by rewrite Hnum.
      - intros raced b c. apply up_to_date_rules; [done | exact Hv | done | by intros p | by unfold calm; rewrite Hre]. }
    assert (set_server s1 G = set_reload Idle (set_server s1 G)) as Hidle by (unfold set_reload, set_server; cbn; by rewrite Hre).
    destruct new as [new|er|pn]; [|rewrite Hidle; by apply Hall..].
    apply Hall; [done|]. eapply read_config_served. exact Hread.
  - split; [by split|]. intros raced b c. apply up_to_date_busy; [done | by intros p | done].
  - split.
    + pose proof (assign_heap_ok a G Hheap) as Hh. split; [done | by apply assign_served | exact Hh|].
      cbn. by rewrite assign_version.
    + intros raced b c. apply up_to_date_busy; [apply assign_version | | done].
      intros p Hp. by apply assign_pointers.
  - split; [by split|]. intros raced b c. apply up_to_date_rules; [done.. | by intros p | by unfold calm; rewrite Hre].
Qed.

Lemma raise_ok raced b w w' : reload_step (W := W) room backends Raise (shared w) = Some (shared w') -> conns w' = conns w ->
  in_date raced b w -> in_date (fun i => raced i || race_at i Raise w) (S b) w'.
Proof.
  intros Hs Hw [[Hserved Hrest Hheap Hver] Hc]. cbn [reload_step] in Hs. unfold rest_ok in Hrest.
  destruct (reload (shared w)) as [| |[|]|] eqn:Hre; try done. injection Hs as HG. cbn [served_after] in Hrest.
  split; rewrite <- HG.
  - split; [by intros _ | done | exact Hheap|]. cbn. unfold u32. by rewrite Z.mod_mod.
  - intros i c Hi. rewrite Hw in Hi. generalize (Hc i c Hi). apply up_to_date_raise; [done | by intros p | by intros -> |].
    intros data Hp. unfold race_at. rewrite Hi. cbn. rewrite Hp. apply orb_true_r.
Qed.

Lemma step_in_date raced b w e w' : steps_to w e = Some w' -> is_reload e = false ->
  in_date raced b w -> in_date raced b w'.
Proof.
  intros Hs%step_steps Hne [Hok Hc].
  assert (forall G', shared_ok G' -> (forall i c', conns w' !! i = Some c' -> up_to_date (raced i) b G' c') ->
    shared w' = G' -> in_date raced b w') as Hgoal by (intros ? ? ? <-; by split).
  destruct Hs as [j a c c1 Hj Ha Hw _|k Intn a Hk Hl HG _ _ Hw|k a HG _ Hw|e Hr _ Hw|e HG _ Hw _ _].
  - pose proof (acts_rules _ _ _ _ _ _ Ha) as Hr. pose proof (shared_ok_rules _ _ Hr Hok) as Hok'.
    split; [done|]. intros i c' Hi. rewrite Hw in Hi. pose proof Hok as [Hs _ Hh Hv].
    apply list_lookup_insert_Some in Hi as [(<- & -> & _)|[_ Hi]]; [eapply acts_up_to_date; eauto|].
    destruct Hr as [Hver Hg Hre Hgrow]. apply (up_to_date_rules (raced i) b b (shared w)); [done.. | | by unfold calm; rewrite Hre | by eapply Hc].
    intros p [sch Hp]. apply Hgrow in Hp as (sch' & Hp & _). by exists sch'.
  - apply (Hgoal (shared w)); [done | | done]. intros i c' Hi. rewrite Hw in Hi.
    apply lookup_app_Some in Hi as [Hi|[_ Hi]]; [by eapply Hc|].
    apply list_lookup_singleton_Some in Hi as [_ <-]. apply lag_now; [apply Hok | done | by intros _].
  - assert (same_rules (shared w) (shared w')) as Hr by (rewrite HG; apply same_rules_server; by split).
    split; [by eapply shared_ok_rules|]. intros i c' Hi. rewrite Hw in Hi. destruct Hr as [Hver Hg Hre _].
    apply (up_to_date_rules (raced i) b b (shared w)); [done.. | rewrite HG; by intros p | by unfold calm; rewrite Hre | by eapply Hc].
  - assert (e <> Raise) as Hne' by by intros ->. destruct (reload_step_ok _ _ _ Hne' Hr Hok) as [Hok' Hkeep].
    split; [done|]. intros i c' Hi. rewrite Hw in Hi. by eapply Hkeep, Hc.
  - assert (same_rules (shared w) (shared w')) as Hr
      by (destruct HG as [-> | ->]; [done | apply same_rules_server; by split]).
    split; [by eapply shared_ok_rules|]. intros i c' Hi. rewrite Hw in Hi. destruct Hr as [Hver Hg Hre Hgrow].
    apply (up_to_date_rules (raced i) b b (shared w)); [done.. | | by unfold calm; rewrite Hre | by eapply Hc].
    intros p [sch Hp]. apply Hgrow in Hp as (sch' & Hp & _). by exists sch'.
Qed.

Lemma runs_in_date tr : forall raced b w0 w, in_date raced b w0 -> runs tr w0 = Some w ->
  in_date (fun i => raced i || races i tr w0) (b + reloads tr) w.
Proof.
  induction tr as [|e tr IH]; intros raced b w0 w Hok Hr.
  { injection Hr as <-. rewrite Nat.add_0_r. revert Hok. apply in_date_raced. by intros i ->. }
  cbn [run] in Hr. destruct (steps_to w0 e) as [w1|] eqn:Hs; [|done].
  change (reloads (e :: tr)) with (length (if is_reload e then e :: List.filter is_reload tr else List.filter is_reload tr)).
  destruct (is_reload e) eqn:He; cbn [length]; fold (reloads tr).
  - destruct e; try done. pose proof Hs as Hst. apply step_steps in Hst.
    assert (in_date (fun i => raced i || race_at i Raise w0) (S b) w1) as Hok1.
    { inversion Hst as [| | |? Hre _ Hw|]; subst; [by eapply raise_ok | done]. }
    replace (b + S (reloads tr))%nat with (S b + reloads tr)%nat by lia.
    generalize (IH _ _ _ _ Hok1 Hr). apply in_date_raced. intros i. cbn [races]. by rewrite Hs, orb_assoc.
  - generalize (IH _ _ _ _ (step_in_date _ _ _ _ _ Hs He Hok) Hr). apply in_date_raced. intros i.
    cbn [races]. rewrite Hs. unfold race_at. by rewrite He.
Qed.
(** *** A server that has just started *)
Definition not_yet (s s' : Server) : Prop := configVer s' = configVer s /\ counter s' = counter s.
#[local] Instance not_yet_preorder : PreOrder not_yet.
Proof. split; [by split|]. intros x y z [? ?] [? ?]. split; by etrans. Qed.
#[local] Hint Extern 1 (moves not_yet (modify _)) => apply moves_modify; [exact _ | by split] : methods.

Lemma extends_not_yet s s' : extends s s' -> not_yet s s'.
Proof. intros He. split; by rewrite (ext_same _ _ He). Qed.

Lemma not_yet_NewServer listen cf : moves not_yet (NewServer room backends listen cf).
Proof.
  assert (forall path, moves not_yet (parseBlackListSqls path)) as Hblack
    by (intros path s; apply extends_not_yet, parseBlackListSqls_ok).
  assert (forall text, moves not_yet (parseAllowIps room text)) as Hallow.
  { intros text s. destruct (parseAllowIps_ok room text s) as (s' & l & -> & He & _). by apply extends_not_yet. }
  assert (forall l, moves not_yet (parseNodes backends l)) as Hnodes.
  { intros l s. apply extends_not_yet, (parse_nodes_ok backends 0); [apply map_Forall_empty | lia]. }
  assert (forall conf, moves not_yet (init_charset conf)) as Hcharset.
  { intros conf. apply moves_get_bind; [exact _|]. intros s. cbv zeta.
    by match goal with |- context [CharsetIds !! ?x] => destruct (CharsetIds !! x) end. }
  unfold NewServer. moves.
Qed.

Definition no_race : nat -> bool := fun _ => false.

Lemma first_in_date listen cf d fs s : NewServer room backends listen cf (zero_server d fs) = (s, Ok tt) ->
  in_date no_race 0 (first_world (W := W) s) /\ ClientConns (counter s) = 0.
Proof.
  intros Hn. pose proof (not_yet_NewServer listen cf (zero_server d fs)) as [Hv Hcount].
  rewrite Hn in Hv, Hcount. cbn [fst] in Hv, Hcount. split; [|by rewrite Hcount].
  split; [|done]. split.
  - intros _ user Huser. apply NewServer_serves in Hn as ([Hu _ _] & _). apply Hu. by apply elem_of_dom.
  - done.
  - intros user sch Hsch. exists sch. split; [by apply new_schemas_lookup | done].
  - change (configVer s = u32 (configVer s)). by rewrite Hv.
Qed.

(** A step that goes on to dispatch. *)
Lemma acts_dispatching O G c a G' c' data : acts O G c a = Some (G', c') -> sv_phase c' = Dispatching data ->
  G' = G /\ owner c' = owner c /\ sv_configVer c' = configVer (server G).
Proof.
  unfold conn_step. intros Ha Hdata.
  destruct (sv_phase c) as [| | | |data'|data'|data'|data'| |], a as [| | | | | | |slow|]; try done.
  - injection Ha as <- <-. unfold check_address in Hdata. by destruct (IsAllowConnect _ _).
  - injection Ha as <- <-. unfold shake_hands in Hdata. by destruct (Handshake _ _) as [io [[]|e|p]].
  - by injection Ha as <- <-.
  - injection Ha as <- <-. unfold read_command in *. destruct (readPacket (sv_wire c)) as [io [data'|e|p]]; [|done..].
    change (sv_configVer (set_wire io c)) with (sv_configVer c) in *. by destruct (Z.eqb_spec (sv_configVer c) (configVer (server G))).
  - destruct (locked G); [done|]. injection Ha as <- <-. unfold refresh, reloadConfig in Hdata.
    by destruct (sv_schema (use_schema G c)).
  - by injection Ha as <- <-.
  - by injection Ha as <- <-.
  - injection Ha as Ha. pose proof (returns_conn O data' slow G c) as Hp. rewrite Ha in Hp. cbn [snd] in Hp.
    rewrite Hdata in Hp. by destruct Hp as [?|[? _]].
  - by injection Ha as <- <-.
Qed.

(** C16: commands are planned with the rules in force.  On a server that has
    started, take any interleaving of its clients and of configurations that
    are read again, part by part, fewer than 2^32 of them.  When a
    connection goes on to dispatch a packet, be it at once or after it has
    read the configuration, at a moment at which no configuration is half in
    use (none has taken the lock and not yet raised the version), it has a
    schema; and unless the version was raised between the two lines of this
    connection's [Run] that load the configuration and note its version,
    this is the schema that the server has for its user at that moment,
    with the rules of that schema but for the database that the default rule
    was last used for, and it has the nodes of the server. *)
Theorem commands_use_current_rules listen cf d fs s tr w i c a G' c' data
    (Hnew : NewServer room backends listen cf (zero_server d fs) = (s, Ok tt))
    (Hrun : runs tr (first_world s) = Some w) (Hreloads : Z.of_nat (reloads tr) < 2 ^ 32)
    (Hc : conns w !! i = Some c) (Hact : acts (outside i) (shared w) c a = Some (G', c'))
    (Hdata : sv_phase c' = Dispatching data) (Hcalm : calm (shared w) = true) :
  G' = shared w /\ owner c' = owner c /\ sv_configVer c' = configVer (server (shared w)) /\
  is_Some (the_schema (shared w) c') /\
  (races i tr (first_world s) = false ->
     sv_nodes c' = nodes (server (shared w)) /\
     exists sch sch', schemas (server (shared w)) !! owner c = Some sch /\ same_schema sch sch' /\
       the_schema (shared w) c' = Some ((generation (shared w), owner c), sch')).
Proof.
  destruct (first_in_date _ _ _ _ _ Hnew) as [Hdate _].
  destruct (runs_in_date _ _ _ _ _ Hdate Hrun) as [Hok Hall]. cbn [no_race orb Nat.add] in *.
  destruct (acts_dispatching _ _ _ _ _ _ _ Hact Hdata) as (-> & Ho & Hv).
  pose proof (acts_up_to_date _ _ _ _ _ _ _ _ (ok_version _ Hok) (ok_served _ Hok) (ok_heap _ Hok) Hact (Hall i c Hc)) as Hd.
  unfold up_to_date in Hd. rewrite Hdata in Hd. split; [done|]. split; [done|]. split; [done|].
  assert (current (shared w) c' -> sv_nodes c' = nodes (server (shared w)) /\
    exists sch sch', schemas (server (shared w)) !! owner c = Some sch /\ same_schema sch sch' /\
       the_schema (shared w) c' = Some ((generation (shared w), owner c), sch')) as Hcur.
  { intros (Hn & Hs & [sch Hl]). split; [done|]. rewrite Ho in Hs, Hl. destruct (ok_heap _ Hok _ _ Hl) as (sch' & Hp & Hsame).
    exists sch, sch'. split; [done|]. split; [done|]. unfold the_schema. by rewrite Hs, Hp. }
  destruct Hd as [[Hr (p & Hp & [sch Hs])]|Hlag].
  - split; [|congruence]. unfold the_schema. rewrite Hp, Hs. by eexists.
  - apply (lag_same _ _ _ _ Hreloads Hv Hcalm), Hcur in Hlag as (Hn & sch & sch' & Hl & Hsame & Ht).
    split; [by eexists|]. intros _. split; [done|]. by exists sch, sch'.
Qed.

(** ** Clients are counted until they leave *)
Definition is_gone c : bool := match sv_phase c with Gone => true | _ => false end.
Definition live_conns (l : list (Served W)) : nat := length (List.filter (fun c => negb (is_gone c)) l).

Lemma live_insert (l : list (Served W)) i c c' : l !! i = Some c ->
  (live_conns (<[i := c']> l) + (if is_gone c then 0 else 1) = live_conns l + (if is_gone c' then 0 else 1))%nat.
Proof.
  unfold live_conns. revert i. induction l as [|x l IH]; intros [|i] Hi; try done.
  - injection Hi as ->. change (<[0%nat := c']> (c :: l)) with (c' :: l). cbn [List.filter].
    destruct (is_gone c), (is_gone c'); cbn [negb length]; lia.
  - specialize (IH i Hi). change (<[S i := c']> (x :: l)) with (x :: <[i := c']> l). cbn [List.filter].
    destruct (is_gone x); cbn [negb length]; lia.
Qed.

(** The clients that have been counted and have not left. *)
Definition live w : nat := (length (counted w) + live_conns (conns w))%nat.
Definition clients G : Z := ClientConns (counter (server G)).

(** Only the last step of a connection ends its count. *)
Lemma acts_count O G c a G' c' : acts O G c a = Some (G', c') ->
  is_gone c = false /\ clients G' = if is_gone c' then i64 (clients G - 1) else clients G.
Proof.
  unfold conn_step. intros Ha. unfold is_gone at 1.
  destruct (sv_phase c) as [| | | |data|data|data|data| |] eqn:Hp, a as [| | | | | | |slow|]; try done; (split; [done|]); simplify_eq; try done.
  - unfold check_address. by destruct (IsAllowConnect _ _).
  - unfold shake_hands. by destruct (Handshake _ _) as [io [[]|e|p]].
  - unfold read_command. destruct (readPacket _) as [io [data|e|p]]; [|done..]. by destruct (_ =? _).
  - destruct (locked G); [done|]. simplify_eq. unfold refresh, reloadConfig. by destruct (sv_schema (use_schema G' c)).
  - pose proof (returns_keeps O data slow G c) as [[_ Hk] _]. pose proof (returns_conn O data slow G c) as Hc.
    rewrite Ha in Hk, Hc. cbn [fst snd] in Hk, Hc. unfold is_gone, clients. by destruct Hc as [-> | (-> & _)].
Qed.

Lemma reload_count (e : event W) G G' : reload_step room backends e G = Some G' -> clients G' = clients G.
Proof.
  unfold reload_step. intros Hs. destruct e as [| | | | | |cf| | | | | |]; try done;
    destruct (reload G) as [|l|[|a l]|]; try done; injection Hs as <-; try done.
  - pose proof (read_config_keeps room backends cf (server G)) as [_ Hk].
    by destruct (read_config room backends cf (server G)) as [s1 [new|e|p]].
  - unfold clients. cbn. by rewrite assign_count.
Qed.

Definition counts w : Prop := clients (shared w) = i64 (Z.of_nat (live w)).

Lemma i64_plus n k : i64 (i64 n + k) = i64 (n + k).
Proof. apply i64_add_cong. apply i64_i64. Qed.

Lemma step_counts w e w' : steps w w' e -> counts w -> counts w'.
Proof.
  unfold counts, live. intros Hs Hc. destruct Hs as [j a c c1 Hj Ha Hw Hn|k Intn a Hk Hl HG Hn _ Hw|k a HG Hn Hw|e Hr Hn Hw|e HG Hn Hw _ _];
    rewrite Hn, Hw.
  - apply acts_count in Ha as [Hg Ha]. pose proof (live_insert _ _ _ c1 Hj) as Hl. rewrite Hg in Hl. rewrite Ha, Hc.
    destruct (is_gone c1); [rewrite <- Z.add_opp_r, i64_plus|]; f_equal; lia.
  - rewrite HG, Hc. unfold live_conns. rewrite List.filter_app, length_app.
    pose proof (length_delete (counted w) k ltac:(by eexists)) as Hd. apply lookup_lt_Some in Hk. f_equal. cbn. lia.
  - rewrite HG. change (clients (on_server (on_counter IncrClientConns) (shared w))) with (i64 (clients (shared w) + 1)).
    rewrite Hc, i64_plus, length_app. f_equal. cbn. lia.
  - by rewrite (reload_count _ _ _ Hr).
  - by destruct HG as [-> | ->].
Qed.

Lemma runs_counts tr w w' : runs tr w = Some w' -> counts w -> counts w'.
Proof.
  revert w. induction tr as [|e tr IH]; intros w Hr Hc; [by injection Hr as <-|]. cbn [run] in Hr.
  destruct (steps_to w e) as [w1|] eqn:Hs; [|done]. eapply IH; [done|]. eapply step_counts; [by apply step_steps | done].
Qed.

(** *** What a connection has still to do *)
Definition todo c : nat :=
  let k := left_to_read (sv_wire c) in
  match sv_phase c with
  | Outdated _ => 6 + k
  | Connected | Reloaded _ => 5 + k
  | Allowed | Dispatching _ => 4 + k
  | LoggedIn | Executing _ => 3 + k
  | Reading => 2 + k
  | Leaving => 1
  | Gone => 0
  end.

(** Its number stays, and every step brings it nearer to its end. *)
Lemma acts_todo O G c a G' c' : acts O G c a = Some (G', c') ->
  (todo c' < todo c)%nat /\ same_peer (sv_wire c) (sv_wire c').
Proof.
  unfold conn_step. intros Ha. unfold todo at 2.
  destruct (sv_phase c) as [| | | |data|data|data|data| |], a as [| | | | | | |slow|]; try done; simplify_eq.
  - unfold check_address. destruct (IsAllowConnect _ _); [unfold todo; cbn; split; [lia | done]|].
    split; [unfold todo; cbn; lia | apply peer_writeError].
  - unfold shake_hands. pose proof (reads_Handshake (users (server G')) (sv_wire c)) as Hl. unfold reads_on in Hl.
    pose proof (peer_Handshake (users (server G')) (sv_wire c)) as Hp.
    destruct (Handshake _ _) as [io [[]|e|p]]; cbn [fst] in Hl, Hp.
    + split; [unfold todo; cbn; lia | exact Hp].
    + split; [unfold todo; cbn; lia | etrans; [exact Hp | apply peer_writeError]].
    + split; [unfold todo; cbn; lia | exact Hp].
  - split; [unfold todo; cbn; lia | done].
  - unfold read_command. destruct (readPacket_left (sv_wire c)) as [_ Hl]. pose proof (peer_readPacket (sv_wire c)) as Hp.
    destruct (readPacket _) as [io [data|e|p]]; cbn [fst snd] in Hl, Hp; [|split; [unfold todo; cbn; lia | exact Hp]..].
    specialize (Hl data eq_refl). destruct (_ =? _); (split; [unfold todo; cbn; lia | exact Hp]).
  - destruct (locked G); [done|]. simplify_eq. unfold refresh, reloadConfig.
    destruct (sv_schema (use_schema G' c)); (split; [unfold todo; cbn; lia | done]).
  - split; [unfold todo; cbn; lia | done].
  - split; [unfold todo; cbn; lia | done].
  - pose proof (returns_conn O data slow G c) as Hp. pose proof (returns_wire O data slow G c) as Hw.
    rewrite Ha in Hp, Hw. cbn [snd] in Hp, Hw. split; [|exact Hw]. unfold todo.
    destruct Hp as [-> | (-> & _ & _ & _ & _ & ->)]; [lia|]. unfold left_to_read. cbn. lia.
  - split; [unfold todo; cbn; lia | done].
Qed.

(** How many steps of a history the [i]-th connection makes. *)
Definition steps_of (i : nat) (tr : list (event W)) : nat :=
  length (List.filter (fun e => match e with Act j _ => Nat.eqb i j | _ => false end) tr).

Lemma step_stays w e w' i c : steps w w' e -> conns w !! i = Some c -> is_Some (conns w' !! i).
Proof.
  intros Hs Hc%lookup_lt_Some. apply lookup_lt_is_Some.
  destruct Hs as [j a c0 c1 _ _ Hw _|k Intn a _ _ _ _ _ Hw|k a _ _ Hw|e _ _ Hw|e _ _ Hw _ _]; rewrite Hw;
    rewrite ?length_insert, ?length_app; lia.
Qed.

Lemma runs_todo tr w w' i c : runs tr w = Some w' -> conns w !! i = Some c ->
  exists c', conns w' !! i = Some c' /\ (todo c' + steps_of i tr <= todo c)%nat.
Proof.
  revert w c. induction tr as [|e tr IH]; intros w c Hr Hc.
  { injection Hr as <-. exists c. split; [done|]. cbn. lia. }
  cbn [run] in Hr. destruct (steps_to w e) as [w1|] eqn:Hs; [|done]. apply step_steps in Hs.
  destruct (step_stays _ _ _ _ _ Hs Hc) as [c1 Hc1].
  destruct (IH _ _ Hr Hc1) as (c' & Hc' & Hl). exists c'. split; [done|]. revert Hl. unfold steps_of. cbn [List.filter].
  destruct (step_conn _ _ _ _ _ Hs Hc1) as [[Hi Hne]|[(k & Intn & a & -> & -> & _)|(a & c0 & -> & Hi & Ha)]].
  - assert (c1 = c) as -> by congruence. destruct e as [| | | | |j a| | | | | | |]; try done.
    destruct (Nat.eqb_spec i j) as [->|]; [by destruct (Hne a) | done].
  - apply lookup_lt_Some in Hc. lia.
  - assert (c0 = c) as -> by congruence. apply acts_todo in Ha as [Ha _]. rewrite Nat.eqb_refl. cbn [length]. lia.
Qed.

(** Connections are numbered as they start. *)
Definition numbered w : Prop :=
  baseConnId w = u32 (10000 + Z.of_nat (length (conns w))) /\
  forall i c, conns w !! i = Some c -> io_connectionId (sv_wire c) = u32 (10001 + Z.of_nat i).

Lemma step_numbered w e w' : steps_to w e = Some w' -> numbered w -> numbered w'.
Proof.
  intros Hs [Hb Hn]. assert (steps w w' e) as Hst by by apply step_steps.
  assert (baseConnId w' = u32 (10000 + Z.of_nat (length (conns w')))) as Hb'.
  { destruct e as [|a| |k|k Intn|j a|cf| | | | | |]; cbn [step] in Hs; unfold count, start in Hs; repeat case_match; simplify_eq;
      cbn; rewrite ?length_insert; try done. rewrite Hb, length_app. unfold u32. rewrite Z.add_mod_idemp_l by done. f_equal. cbn. lia. }
  split; [exact Hb'|]. intros i c' Hc.
  destruct (step_conn _ _ _ _ _ Hst Hc) as [[Hi _]|[(k & Intn & a & _ & -> & _ & _ & ->)|(a & c & _ & Hi & Ha)]].
  - by apply Hn.
  - cbn. rewrite Hb. unfold u32. rewrite Z.add_mod_idemp_l by done. f_equal. lia.
  - apply acts_todo in Ha as [_ (_ & _ & ->)]. by apply Hn.
Qed.

Lemma runs_numbered tr w w' : runs tr w = Some w' -> numbered w -> numbered w'.
Proof.
  revert w. induction tr as [|e tr IH]; intros w Hr Hn; [by injection Hr as <-|]. cbn [run] in Hr.
  destruct (steps_to w e) as [w1|] eqn:Hs; [|done]. by eapply IH, step_numbered.
Qed.

(** C17: clients are counted and numbered.  After any history of a server
    that has started, whatever its clients, its administrators and the
    configurations that are read again did, the counter of clients is the
    number of goroutines that have begun to serve a client and have not
    ended; the connections are numbered from 10001 on in the order of their
    starts (modulo 2^32); and from then on, however the others interleave
    with it, a connection makes at most six steps and one for every byte
    that its client sends before the end of the input, the return of a
    command counted as one step if it comes. *)
Theorem clients_counted listen cf d fs s tr w
    (Hnew : NewServer room backends listen cf (zero_server d fs) = (s, Ok tt))
    (Hrun : runs tr (first_world s) = Some w) :
  ClientConns (counter (server (shared w))) = i64 (Z.of_nat (live w)) /\
  forall i c, conns w !! i = Some c ->
    io_connectionId (sv_wire c) = u32 (10001 + Z.of_nat i) /\
    forall tr' w', runs tr' w = Some w' -> (steps_of i tr' <= 6 + left_to_read (sv_wire c))%nat.
Proof.
  destruct (first_in_date _ _ _ _ _ Hnew) as [_ Hzero].
  assert (counts (first_world (W := W) s)) as Hfirst by exact Hzero.
  split; [exact (runs_counts _ _ _ Hrun Hfirst)|]. intros i c Hc.
  assert (numbered (first_world (W := W) s)) as Hnum by by split.
  destruct (runs_numbered _ _ _ Hrun Hnum) as [_ Hn]. split; [by apply Hn|].
  intros tr' w' Hr. destruct (runs_todo _ _ _ _ _ Hr Hc) as (c' & _ & Hl). unfold todo at 2 in Hl.
  destruct (sv_phase c); lia.
Qed.

(** ** Who is served *)
Definition admitted w0 tr i c t1 t2 : Prop :=
  tr = t1 ++ Act i Allow :: t2 /\
  exists w1, runs t1 w0 = Some w1 /\ IsAllowConnect (server (shared w1)) (clientHost c) = true.

(** After the address was allowed, and the server's greeting sent, the client
    has shown that it knows the password of the user. *)
Definition logged_in w0 tr i c : Prop := exists t1 t2 t3 w2 c2 io data,
  tr = (t1 ++ Act i Allow :: t2) ++ Act i Shake :: t3 /\
  admitted w0 (t1 ++ Act i Allow :: t2) i c t1 t2 /\
  runs (t1 ++ Act i Allow :: t2) w0 = Some w2 /\ conns w2 !! i = Some c2 /\
  writeInitialHandshake (sv_wire c2) = (io, Ok tt) /\ (readPacket io).2 = Ok data /\
  shows_password (users (server (shared w2))) (io_salt (sv_wire c)) (owner c) data.

Definition trusted w0 tr i c : Prop :=
  match sv_phase c with
  | Allowed => exists t1 t2, admitted w0 tr i c t1 t2
  | LoggedIn | Reading | Outdated _ | Reloaded _ | Dispatching _ | Executing _ => logged_in w0 tr i c
  | Connected | Leaving | Gone => True
  end.

Lemma admitted_peer w0 tr i c c' t1 t2 : io_remote (sv_wire c') = io_remote (sv_wire c) ->
  admitted w0 tr i c t1 t2 -> admitted w0 tr i c' t1 t2.
Proof. unfold admitted, clientHost. by intros ->. Qed.

Lemma logged_in_peer w0 tr i c c' : same_peer (sv_wire c) (sv_wire c') -> owner c' = owner c ->
  logged_in w0 tr i c -> logged_in w0 tr i c'.
Proof.
  intros (Hr & Hs & _) Ho (t1 & t2 & t3 & w2 & c2 & io & data & Htr & Ha & Hl).
  exists t1, t2, t3, w2, c2, io, data. rewrite Hs, Ho. split; [done|]. split; [|done]. by eapply admitted_peer.
Qed.

Lemma trusted_later w0 tr e i c : trusted w0 tr i c -> trusted w0 (tr ++ [e]) i c.
Proof.
  assert (logged_in w0 tr i c -> logged_in w0 (tr ++ [e]) i c) as Hl.
  { intros (t1 & t2 & t3 & w2 & c2 & io & data & -> & Hl). exists t1, t2, (t3 ++ [e]), w2, c2, io, data.
    split; [by rewrite <- app_assoc | exact Hl]. }
  unfold trusted. destruct (sv_phase c); try done. intros (t1 & t2 & -> & Ha). exists t1, (t2 ++ [e]).
  split; [by rewrite <- app_assoc | exact Ha].
Qed.

(** The next step of a connection. *)
Lemma acts_trusted w0 tr w i c a G' c' : runs tr w0 = Some w -> conns w !! i = Some c ->
  acts (outside i) (shared w) c a = Some (G', c') -> trusted w0 tr i c -> trusted w0 (tr ++ [Act i a]) i c'.
Proof.
  intros Hr Hc Ha Ht. unfold conn_step in Ha. pose proof (trusted_later w0 tr (Act i a) i c Ht) as Hlater.
  assert (forall c', same_peer (sv_wire c) (sv_wire c') -> owner c' = owner c ->
    logged_in w0 (tr ++ [Act i a]) i c -> logged_in w0 (tr ++ [Act i a]) i c') as Hkeep by (intros; by eapply logged_in_peer).
  unfold trusted in Ht, Hlater.
  destruct (sv_phase c) as [| | | |data|data|data|data| |], a as [| | | | | | |slow|]; try done; simplify_eq.
  - unfold check_address. destruct (IsAllowConnect _ _) eqn:Hallow; [|done]. exists tr, []. split; [done|]. by exists w.
  - destruct Ht as (t1 & t2 & Htr & Hw1). unfold shake_hands.
    pose proof (peer_Handshake (users (server (shared w))) (sv_wire c)) as Hp.
    destruct (Handshake _ _) as [io [[]|e|p]] eqn:Hh; [|done..]. cbn [fst] in Hp.
    apply Handshake_Ok in Hh as (io1 & data & Hw & Hread & Hshow).
    exists t1, t2, [], w, c, io1, data. rewrite <- Htr. split; [done|].
    split; [|split; [exact Hr|]; split; [exact Hc|]; split; [exact Hw|]; split; [exact Hread|]].
    + eapply admitted_peer; [|by split]. apply Hp.
    + cbn. destruct Hp as (_ & -> & _). exact Hshow.
  - by apply Hkeep.
  - unfold read_command. pose proof (peer_readPacket (sv_wire c)) as Hp.
    destruct (readPacket _) as [io [data|e|p]]; [|done..]. cbn [fst] in Hp.
    by destruct (_ =? _); apply Hkeep.
  - destruct (locked _); [done|]. simplify_eq. unfold refresh, reloadConfig.
    destruct (sv_schema (use_schema (shared w) c)); [by apply Hkeep | done].
  - by apply Hkeep.
  - by apply Hkeep.
  - pose proof (returns_conn (outside i) data slow (shared w) c) as Hp. pose proof (returns_wire (outside i) data slow (shared w) c) as Hw.
    rewrite Ha in Hp, Hw. cbn [snd] in Hp, Hw. unfold trusted.
    destruct Hp as [-> | (-> & _ & _ & _ & Hu & _)]; [done | by apply Hkeep].
  - exact I.
Qed.

Lemma runs_trusted s tr w i c : runs tr (first_world s) = Some w -> conns w !! i = Some c ->
  trusted (first_world s) tr i c.
Proof.
  revert w i c. induction tr as [|e tr IH] using rev_ind; intros w i c' Hr Hc.
  { by injection Hr as <-. }
  apply runs_snoc in Hr as (w1 & Hr & Hs%step_steps).
  destruct (step_conn _ _ _ _ _ Hs Hc) as [[Hi _]|[(k & Intn & a & _ & _ & _ & _ & ->)|(a & c & -> & Hi & Ha)]].
  - by eapply trusted_later, IH.
  - done.
  - eapply acts_trusted; [exact Hr | exact Hi | exact Ha | by eapply IH].
Qed.

(** C15: only clients that were let in are served.  In every history, when a
    command of a connection is dispatched, the address of the connection was
    allowed at an earlier step, by the list of that time, and after that the
    client answered the greeting with the name of a user who was configured
    at that time and the token of that user's password for this connection's
    challenge; the command runs as that user. *)
Theorem served_clients_admitted s tr i w'
    (Hrun : runs (tr ++ [Act i Dispatch]) (first_world s) = Some w') :
  exists w c data t1 t2 t3 w1 w2 c2 io hello,
    runs tr (first_world s) = Some w /\ conns w !! i = Some c /\ sv_phase c = Dispatching data /\
    tr = t1 ++ Act i Allow :: t2 ++ Act i Shake :: t3 /\
    runs t1 (first_world s) = Some w1 /\ IsAllowConnect (server (shared w1)) (clientHost c) = true /\
    runs (t1 ++ Act i Allow :: t2) (first_world s) = Some w2 /\ conns w2 !! i = Some c2 /\
    writeInitialHandshake (sv_wire c2) = (io, Ok tt) /\ (readPacket io).2 = Ok hello /\
    shows_password (users (server (shared w2))) (io_salt (sv_wire c)) (owner c) hello.
Proof.
  apply runs_snoc in Hrun as (w & Hr & Hs). cbn [step] in Hs. destruct (conns w !! i) as [c|] eqn:Hc; [|done].
  destruct (acts (outside i) (shared w) c Dispatch) as [[G' c']|] eqn:Ha; [|done].
  pose proof (runs_trusted _ _ _ _ _ Hr Hc) as Ht. unfold trusted in Ht. unfold conn_step in Ha.
  destruct (sv_phase c) as [| | | |data'|data'|data|data'| |] eqn:Hp; try done.
  destruct Ht as (t1 & t2 & t3 & w2 & c2 & io & hello & Htr & (_ & w1 & Hw1 & Hallow) & Hw2 & Hc2 & Hw & Hh & Hshow).
  exists w, c, data, t1, t2, t3, w1, w2, c2, io, hello. rewrite <- app_assoc in Htr. by split_and!.
Qed.
End History.
