(* ===== verification/ServeDemo.v ===== *)
(** * A client of the sample server

    Histories at which the theorems about clients apply: a client that logs
    in, pings, and quits, while the configuration is read again; and clients
    that come in the middle of that. *)
From S2P Require Import Prelude Errors StateM GoLib GoTime GoFmt Charset ErrTables Wire Field Order Resultset ResultBuild.
From S2P Require Import Ast RouteLists Rule Plan RoutingTheorems Router ExecDB SelectMerge StmtArgs Session Handlers Stmt.
From S2P Require Conn HandshakeTheorems.
From S2P Require Import Packet ClientIO GoNet Balancer Pool Node Server ServerTheorems ReloadTheorems Admin AdminDemo NoSchema.
From S2P Require Import Serve ServeTheorems.
From Stdlib Require Import Ascii.
Open Scope Z_scope.

#[local] Existing Instance UTC.
#[local] Existing Instance no_floats.
#[local] Existing Instance insertion_GoSort.
#[local] Existing Instance admin_outside.
#[local] Existing Instance admin_text.
#[local] Existing Instance admin_stats.

(** ** A client *)
Definition demo_Intn (k : nat) : Z := Z.of_nat k.
Definition demo_login (user password : string) : bytes :=
  packet 1 (Wire.parts (HandshakeTheorems.answer_parts (RandomBuf 20 demo_Intn)
    (Conn.mkConn (Some true) (NewPacketIO (W := bytes) [] []) "" user password "kingshard" DEFAULT_CAPABILITY 0 33 "utf8" [] None))).
Definition demo_packets : bytes := packet 0 [COM_PING] ++ packet 0 [COM_PING] ++ packet 0 [COM_QUIT].
Definition demo_accepted (remote password : string) : Accepted bytes :=
  mkAccepted remote (demo_login "kingshard" password ++ demo_packets) [].

Abbreviation demo_run := (run (W := bytes) (fun _ => admin_outside) no_room sample_backends (fun _ => None) (fun _ => None) "/").
Abbreviation demo_world := (first_world (W := bytes) sample_server).
Definition after (tr : list (event bytes)) : World bytes := default demo_world (demo_run tr demo_world).

Lemma after_run tr : (if demo_run tr demo_world then true else false) = true -> demo_run tr demo_world = Some (after tr).
Proof. unfold after. by destruct (demo_run tr demo_world). Qed.

(** The same nodes, with another default node. *)
Definition moved_config : Config :=
  mkConfig "0.0.0.0:9696" [mkUserConfig "root" "x"; mkUserConfig "kingshard" "z"] "" "error" "on" 100 "10.0.0.0/8" "" ""
    sample_nodes
    [mkSchemaConfig "root" ["node2"; "node3"] "node2" []; mkSchemaConfig "kingshard" ["node2"; "node3"] "node3" [sample_hash]].

Definition demo_accept (a : Accepted bytes) : list (event bytes) := [Loop; Accept a; Count 0; Start 0 demo_Intn].
Definition demo_connect : list (event bytes) := demo_accept (demo_accepted "192.168.3.9:50000" "y").
Definition demo_enter : list (event bytes) := [Act 0 Allow; Act 0 Shake; Act 0 Enter].
Definition demo_ping : list (event bytes) := [Act 0 Read; Act 0 Dispatch; Act 0 (Return 0)].
Definition demo_fresh_ping : list (event bytes) := [Act 0 Read; Act 0 Refresh; Act 0 Note; Act 0 Dispatch; Act 0 (Return 0)].
Definition demo_started : list (event bytes) := demo_connect ++ demo_enter ++ demo_ping.

(** [UpdateConfig], its first [n] assignments, and all of it. *)
Definition demo_assign (c : Config) (n : nat) : list (event bytes) := Reload c :: Lock :: replicate n Assign.
Definition demo_reload (c : Config) : list (event bytes) := demo_assign c 8 ++ [Raise; Unlock].
Definition demo_reloaded : list (event bytes) := demo_started ++ demo_reload moved_config ++ [Act 0 Read; Act 0 Refresh].

Abbreviation phase_after tr := (sv_phase <$> conns (after tr) !! 0%nat).

(** The whole life of the client. *)
Example demo_life :
  phase_after (demo_connect ++ demo_enter) = Some Reading /\
  phase_after (demo_started ++ demo_reload moved_config ++ demo_fresh_ping) = Some Reading /\
  phase_after (demo_started ++ demo_reload moved_config ++ demo_fresh_ping ++ demo_ping) = Some Leaving /\
  phase_after (demo_started ++ demo_reload moved_config ++ demo_fresh_ping ++ demo_ping ++ [Act 0 Leave]) = Some Gone.
Proof. vm_compute. done. Qed.

(** Another address, another password, a user that was removed. *)
Example demo_refused :
  phase_after (demo_accept (demo_accepted "10.0.0.1:50000" "y") ++ [Act 0 Allow]) = Some Leaving /\
  phase_after (demo_accept (demo_accepted "192.168.3.9:50000" "z") ++ [Act 0 Allow; Act 0 Shake]) = Some Leaving /\
  phase_after (demo_connect ++ demo_enter ++ demo_reload bigger_config ++ [Act 0 Read; Act 0 Refresh]) = Some Leaving.
Proof. vm_compute. done. Qed.

(** While the lock is held, only those wait who take it. *)
Example demo_locked :
  demo_run (demo_assign moved_config 3 ++ [Loop; Accept (demo_accepted "192.168.3.9:50000" "y"); Count 0; Start 0 demo_Intn])
    demo_world = None /\
  phase_after (demo_started ++ demo_assign moved_config 3 ++ [Act 0 Read; Act 0 Dispatch; Act 0 (Return 0)]) = Some Reading.
Proof. vm_compute. done. Qed.

(** ** What fails

    The version is noted after the lock was given back.  When another reload
    comes in between, the connection has the new version with the old
    rules, and keeps them: it does not read the configuration again. *)
Definition default_nodes (G : Shared) (c : Served bytes) : option (list string) :=
  (fun p => Nodes (DefaultRule (s_rule p.2))) <$> the_schema G c.
Definition seen_by (w : World bytes) (c : Served bytes) : Z * option (list string) :=
  (sv_configVer c, default_nodes (shared w) c).
Definition in_force (w : World bytes) (user : string) : Z * option (list string) :=
  (configVer (server (shared w)), (fun sch => Nodes (DefaultRule (s_rule sch))) <$> schemas (server (shared w)) !! user).
Definition demo_raced : list (event bytes) :=
  demo_started ++ demo_reload sample_config ++ [Act 0 Read; Act 0 Refresh] ++ demo_reload moved_config ++ [Act 0 Note].

Example reload_missed :
  in_force (after demo_raced) "kingshard" = (2, Some ["node3"]) /\
  seen_by (after demo_raced) <$> conns (after demo_raced) !! 0%nat = Some (2, Some ["node2"]) /\
  phase_after (demo_raced ++ [Act 0 Dispatch; Act 0 (Return 0); Act 0 Read]) = Some (Dispatching [COM_QUIT]) /\
  races (fun _ => admin_outside) no_room sample_backends (fun _ => None) (fun _ => None) "/" 0%nat demo_raced demo_world = true.
Proof. vm_compute. done. Qed.

(** The users are replaced before the schemas.  A client that logs in in
    between as a user of the new configuration alone gets no schema, and
    the version it was given still agrees: its query is a nil pointer, its
    other commands are answered. *)
Definition guest_config : Config :=
  mkConfig "0.0.0.0:9696" [mkUserConfig "root" "x"; mkUserConfig "guest" "g"] "" "error" "on" 100 "" "" ""
    sample_nodes
    [mkSchemaConfig "root" ["node2"; "node3"] "node2" []; mkSchemaConfig "guest" ["node2"; "node3"] "node3" []].
Definition guest_accepted : Accepted bytes :=
  mkAccepted "192.168.3.9:50000"
    (demo_login "guest" "g" ++ packet 0 (COM_QUERY :: bytes_of "select 1 from t") ++ packet 0 (COM_INIT_DB :: bytes_of "d") ++
     packet 0 [COM_PING]) [].
Definition guest_history : list (event bytes) :=
  demo_accept guest_accepted ++ demo_assign guest_config 4 ++ demo_enter ++ demo_ping ++ demo_ping ++ demo_ping.
Abbreviation guest_sent tr := ((fun c => c_sent (session (sv_client c))) <$> conns (after tr) !! 0%nat).

Example no_schema_in_between :
  sv_schema <$> conns (after guest_history) !! 0%nat = Some None /\
  guest_sent guest_history =
    Some [RError (client_error ErrInternalServer); RError (NewDefaultError ER_NO_DB_ERROR []); ROk 2 0 0] /\
  phase_after (guest_history ++ replicate 4 Assign ++ [Raise; Unlock]) = Some Reading.
Proof. vm_compute. done. Qed.

(** Sessions of a user share the rules of their schema: the database of a
    lookup in one session is the one that the other has. *)
Definition sharing (packets : bytes) : Accepted bytes :=
  mkAccepted "192.168.3.9:50000" (demo_login "kingshard" "y" ++ packets) [].
Definition shared_history : list (event bytes) :=
  demo_accept (sharing (packet 0 (COM_QUERY :: bytes_of "select * from other.t"))) ++ demo_accept (sharing []) ++
  demo_enter ++ [Act 1 Allow; Act 1 Shake; Act 1 Enter] ++ demo_ping.
Definition default_database (G : Shared) (c : Served bytes) : option string :=
  (fun p => Rule.DB (DefaultRule (s_rule p.2))) <$> the_schema G c.

Example schema_is_shared :
  owner <$> conns (after shared_history) !! 1%nat = Some "kingshard" /\
  default_database (shared (after shared_history)) <$> conns (after shared_history) !! 1%nat = Some (Some "other").
Proof. split_and!; vm_compute; reflexivity. Qed.

(** ** The theorems at these histories *)
Definition demo_asked : list (event bytes) := demo_connect ++ demo_enter ++ [Act 0 Read].
Lemma served_clients_admitted_witness :
  exists (w : World bytes) c hello, conns w !! 0%nat = Some c /\ owner c = "kingshard" /\
    shows_password (users sample_server) (RandomBuf 20 demo_Intn) "kingshard" hello.
Proof.
  destruct (served_clients_admitted (fun _ => admin_outside) no_room sample_backends (fun _ => None) (fun _ => None) "/"
    sample_server demo_asked 0 (after (demo_asked ++ [Act 0 Dispatch])))
    as (w & c & data & t1 & t2 & t3 & w1 & w2 & c2 & io & hello & Hr & Hc & _ & Htr & _ & _ & Hw2 & _ & _ & _ & Hshow).
  { exact (after_run (demo_asked ++ [Act 0 Dispatch]) ltac:(vm_compute; reflexivity)). }
  assert (t1 = demo_connect /\ t2 = []) as [-> ->].
  { clear -Htr. cbn in Htr. repeat (destruct t1 as [|? t1]; simplify_eq/=). split; [done|].
    by repeat (destruct t2 as [|? t2]; simplify_eq/=). }
  pose proof (after_run demo_asked ltac:(vm_compute; reflexivity)) as Hw.
  pose proof (after_run (demo_connect ++ Act 0 Allow :: []) ltac:(vm_compute; reflexivity)) as Hw'.
  rewrite Hw in Hr. rewrite Hw' in Hw2. apply (inj Some) in Hr, Hw2. subst w w2.
  exists (after demo_asked), c, hello. split; [exact Hc|].
  assert (exists c', conns (after demo_asked) !! 0%nat = Some c' /\
    owner c' = "kingshard" /\ io_salt (sv_wire c') = RandomBuf 20 demo_Intn) as (c' & Hc' & Ho & Hs).
  { eexists. split; [vm_compute; reflexivity|]. split; vm_compute; reflexivity. }
  assert (c = c') as -> by congruence. split; [exact Ho|]. rewrite Ho, Hs in Hshow.
  replace (users sample_server) with (users (server (shared (after (demo_connect ++ [Act 0 Allow]))))); [exact Hshow|].
  vm_compute. reflexivity.
Defined.

(** What the client is after the reload, when it has noted the version. *)
Definition demo_noted (c : Served bytes) : Served bytes :=
  set_phase (Dispatching [COM_PING]) (Serve.set_configVer (configVer (server (shared (after demo_reloaded)))) c).

Lemma commands_use_current_rules_witness :
  exists (c : Served bytes) sch sch',
    schemas (server (shared (after demo_reloaded))) !! "kingshard" = Some sch /\ same_schema sch sch' /\
    the_schema (shared (after demo_reloaded)) c = Some ((1%nat, "kingshard"), sch') /\
    configVer (server (shared (after demo_reloaded))) = 1.
Proof.
  assert (is_Some (conns (after demo_reloaded) !! 0%nat)) as [c Hc].
  { apply lookup_lt_is_Some. apply Nat.ltb_lt. vm_compute. reflexivity. }
  assert (phase_after demo_reloaded = Some (Reloaded [COM_PING])) as Hp by (vm_compute; reflexivity).
  assert (owner <$> conns (after demo_reloaded) !! 0%nat = Some "kingshard") as Ho by (vm_compute; reflexivity).
  rewrite Hc in Hp, Ho. apply (inj Some) in Hp, Ho.
  destruct (commands_use_current_rules (fun _ => admin_outside) no_room sample_backends (fun _ => None) (fun _ => None) "/"
    (fun _ => None) sample_config (mkDefaults "utf8" 33 "utf8_general_ci") sample_files sample_server
    demo_reloaded (after demo_reloaded) 0 c Note (shared (after demo_reloaded)) (demo_noted c) [COM_PING])
    as (_ & _ & _ & _ & Hcalm).
  - exact sample_server_starts.
  - apply after_run. vm_compute. reflexivity.
  - vm_compute. reflexivity.
  - exact Hc.
  - unfold conn_step. by rewrite Hp.
  - reflexivity.
  - vm_compute. reflexivity.
  - destruct Hcalm as (_ & sch & sch' & Hs & Hsame & Ht); [vm_compute; reflexivity|]. rewrite Ho in Hs, Ht.
    exists (demo_noted c), sch, sch'. split; [exact Hs|]. split; [exact Hsame|].
    split; [etransitivity; [exact Ht|]|]; vm_compute; reflexivity.
Defined.

Lemma clients_counted_witness :
  ClientConns (counter (server (shared (after demo_reloaded)))) = 1 /\
  forall c, conns (after demo_reloaded) !! 0%nat = Some c -> io_connectionId (sv_wire c) = 10001.
Proof.
  destruct (clients_counted (fun _ => admin_outside) no_room sample_backends (fun _ => None) (fun _ => None) "/"
    (fun _ => None) sample_config (mkDefaults "utf8" 33 "utf8_general_ci") sample_files sample_server
    demo_reloaded (after demo_reloaded)) as (Hcount & Hall).
  - exact sample_server_starts.
  - apply after_run. vm_compute. reflexivity.
  - split; [rewrite Hcount; vm_compute; reflexivity|]. intros c Hc. destruct (Hall 0%nat c Hc) as [Hid _].
    rewrite Hid. vm_compute. reflexivity.
Defined.
